(* ===== verification/_CoqProject ===== *)
-Q . S2P
Prelude.v
Pmm.v
Alloc.v
Kheap.v
DList.v
Strings.v
Paging.v
Path.v
Vfs.v
Tree.v
Disk.v
Layout.v
Ext2.v
Ext2Dir.v
Ext2Write.v
Sched.v
Input.v
Fat.v
Probe.v
Gpt.v
Ports.v
Pci.v
Desc.v
Acpi.v
Ahci.v
Elf.v
Spaces.v
SpaceMake.v
Proc.v
ProcMake.v
Init.v
AhciInit.v
Syscall.v
Video.v
Chips.v
Timer.v
Print.v
Intr.v
Nic.v
Boot.v
Bringup.v
Headers.v
Entry.v
Smp.v
Streams.v
Start.v
Kmain.v
Reaper.v
