(* ===== verification/Prelude.v ===== *)
(** * A verification of the kernel: overview and prelude

    ** The program

    src/ is a small x86-64 kernel in C.  Its parts and how they interact:

    - mem/: the frame bitmap (pmm.c), page tables, kernel page window and user address
      spaces (paging.c), and on top of both the kernel heap (kheap.c);
    - util/: linked lists on the heap (list.c), trees, strings and formatting;
    - fs/vfs/: path strings, the tree of mount points, path resolution and dispatch
      through the function pointers of a node;
    - fs/ext2 and fs/fat: file systems on a block device;
      drivers/storage/partmgr: partitions of one;
    - sched/: threads, processes, run queues per CPU, signals, semaphores and mutexes;
    - sys/: system calls, console, the reaper; util/elf.c: the program loader;
    - intr/, arch/, acpi/: descriptor tables, exceptions, interrupt controllers, the
      firmware's tables, the boot loader's data, the start of the other processors;
    - drivers/: PCI, AHCI disks, partitions, e1000, frame buffer, keyboard and mouse,
      serial line.

    ** The development

    Every piece of C is a function in one state-and-fault monad [M] (this file): a
    computation ends with a value and a new state, or with a [fault] (an access outside
    an object, a null pointer, a division by zero, a missing return, a wait that never
    ends).  Integers are [Z] with their conversions written out ([u8] .. [u64],
    [s32]).  [wp] is total correctness: the code ends without a fault and the
    postcondition holds; [wlp] is the partial version, used for invariants of step
    relations.  Loops have bounds from the source ([for_], [for_acc]) or fuel
    ([while_]); the theorems choose the fuel so that it is enough, and a fuel that runs
    out is the fault [NoFuel], never a result.

    - [Prelude]: the monad, its rules and tactics, machine integers, bits.
    - [Pmm] (mem/pmm.c): the bitmap is a list of 64-bit words.
    - [Alloc]: the interface [KAlloc] of an allocator: its invariant over the live
      blocks and the laws of malloc and free.
    - [Kheap] (mem/kheap.c): blocks by address, the doubly linked chain, payload bytes,
      the lock; abstract first-fit allocator; the instance of [KAlloc].
    - [DList] (util/list.c): lists and nodes by address on any [KAlloc].
    - [Strings] (util/stdlib.c, printf.c, math.c): a byte memory and an allocator.
    - [Paging] (mem/paging.c, kheap_init of kheap.c): entries of the static tables, the
      kernel page window, page maps and region lists; frames from [Pmm], lists from
      [DList].
    - [Path] (fs/vfs/path.c): on [DList] and [Strings].
    - [Vfs] (fs/vfs/vfs.c, mount.c; util/tree.c): the mount tree as an inductive type,
      nodes behind the class [VfsNodes].
    - [Tree] (util/tree.c, mount.c): the same tree as records and lists on the heap, on
      any [KAlloc]; it refines the inductive one.
    - [Disk]: little-endian packed structures, bounds-checked buffers, the interface
      [BlkDev] of a block device and an in-memory instance.
    - [Layout], [Headers] (every header with structures): C types with the sizes, padding
      and offsets of the ABI, and their agreement with the numbers and decoders used
      elsewhere.
    - [Ext2] (fs/ext2), with directories in [Ext2Dir] and writing in [Ext2Write];
      [Fat] (fs/fat); [Probe] (vfs_get_type, which asks both); [Gpt]
      (drivers/storage/partmgr): on [BlkDev].
    - [Sched] (sched/, the reaper of sys/kmain.c): threads and processes by address,
      CPUs with run queue and lock; address spaces behind the class [VSpace], which
      [Paging] implements; a step relation over all operations.
    - [Input] (drivers/input): the two queues as they lie in memory.
    - [Ports] (sys/io.c): the port instructions over a class of machines; [Pci]
      (drivers/pci), [Chips] (pic.c, pit.c, serial.c, apic.c, rand.c) and the mouse
      handshake of [Boot] run on any machine of the class.
    - [Timer] (pit_wait of pit.c, time.c): waiting for a clock that interrupts move.
    - [Print] (printf.c, serial_printf, console_printf, panic.c, dumpregs and the page
      fault report of isr.c): formatted output on [Strings], the serial line and [Video];
      the reference definition of the formatter.
    - [Desc] (gdt.c, idt.c): bit fields and bytes of descriptors, with decoders written
      from the processor's format and not from the code.
    - [Acpi] (acpi.c): a partial byte memory, read through the mapping window.
    - [Ahci] (drivers/storage/ata/ahci): port registers, command structures in memory
      and a controller (class [Hba]) that carries a command out some polls after it
      was issued; the disk behind it is the [BlkDev] of the file systems.  [AhciInit]:
      finding controllers, probing their ports and setting them up, on [VSpaceSpec].
    - [Elf] (util/elf.c; check_elf_hdr and loadelf of sched.c): physical memory by byte,
      address spaces behind [VSpaceSpec] (the laws that [VSpace] promises to clients).
    - [Spaces], [SpaceMake]: the memory manager of [Paging] satisfies those laws (and
      [VSpaceMake], those of new spaces), so the loader is correct on the page tables,
      bitmap and heap of the kernel.
    - [Proc] (the rest of sched/sched.c): processes from programs, their stack and
      descriptors, exec and destruction, on [Sched], [Vfs] and [Elf].  [ProcMake]: a
      process from its file to its first instruction; [Init]: the first one, /sbin/init.
    - [Syscall] (sys/syscall, arch/x86_64/syscall.c): the 22 calls and their dispatch.
    - [Video] (fb.c, console.c, bmp.c): the frame buffer as a list of pixels.
    - [Intr] (isr.c, the handlers of idt.c): exceptions on the scheduler's state.
    - [Nic] (e1000.c): registers and EEPROM of the network adapter.
    - [Streams] (pty.c, pipe.c, ringbuf.c): their records on the heap and the dispatch
      between the two sides of a terminal.
    - [Boot] (the tags of hal.c, the handshake of mouse_init), [Bringup] (the memory at the
      end of start-up, on [Boot], [Pmm], [Paging] and [Kheap]), [Entry] (entry.c: the header
      the boot loader reads), [Smp] (smp.c: the other processors, each with its registers
      and tables), [Start] (init_core and init_extra of hal.c: all of these in their order,
      with descriptor tables, interrupt controllers, clock and messages).
    - [Kmain] (the mounts and device drivers of kmain, with console_init, video_init,
      kb_init and mouse_init) and [Reaper] (kernel_proc, the kernel's own process).

    ** What the theorems show

    - Memory: the heap refines a first-fit allocator and keeps its chain well-formed in
      every reachable state; blocks are fresh, disjoint, aligned and zeroed; free makes
      exactly one block dead.  The frame allocator returns the lowest free frame.  The
      kernel page allocator returns consecutive free pages.  A mapped page translates
      to its frame and no other translation changes.  Regions are disjoint.
    - Start-up: from the machine the boot loader leaves, initialisation ends with the
      processors, tables, handlers and clock set up and with a memory that satisfies the
      invariants the rest relies on; exactly the usable frames below the reserved limit are
      free.  The other processors come up with tables and queues of their own, and what can
      go wrong with the start-up flag is stated.  The device tree [kmain] mounts is what
      paths resolve to.
    - Lists and strings: any sequence of list operations refines the operations on
      sequences; number conversion is the numeral in the base; copying and comparing
      strings; formatting prints exactly what the format says.
    - VFS: mounting on the heap is mounting in the tree; a mounted path is found, other
      paths are not affected, resolution below a root mount is the iterated lookup.
    - ext2 and FAT: the block map of a file, reading a range of its contents, writing it
      and reading it back, lookup and listing of directories, the block allocator, the
      round trip of inodes, cluster chains, the probe for the type.
    - Disks: initialisation finds exactly the drives that are there; reading and writing
      through the AHCI driver is reading and writing the [BlkDev] behind the controller.
    - Scheduler: no thread is in two places when operations do not overlap, round robin,
      the choice of the CPU, mutexes as semaphores of one; the kernel process removes every
      killed thread.
    - Programs: loading shows the bytes of the file at the addresses of its segments,
      against the interface and on the kernel's own page tables; a new process has its
      program, a stack with its argument vector and its descriptors, and /sbin/init ends up
      in a run queue.  System calls: dispatch, descriptors in and out of range, open,
      anonymous memory.
    - Tables: the bytes written decode to the intended segments, task state and gates;
      the MADT is read completely; PCI accesses of the three widths agree, and
      enumeration lists the devices present.  Structures have the layout the code assumes.
    - Devices: characters and bitmaps pixel by pixel, the console's cursor, interrupt
      routing, serial output, the adapter's address, the keyboard queue as a bounded
      stack.
    - The theorems whose names say that something breaks (a deadlock, a race, an
      overrun, a use after free, a lost write) prove defects of the code, each from a
      faithful definition.

    ** Bounds

    Hypotheses on sizes say that addresses do not wrap: heaps below 2^62, volumes with
    blocks of 1 to 64 KiB, 128-byte inodes and tables below 4 GiB (the code computes
    those offsets in 32 bits), disk requests of at most 8192 sectors, segments and
    anonymous mappings below 4 GiB.  [schedule] calls itself through a trap at most
    once, so its nesting bound is 2.  A FAT chain has at most 1000 clusters, the size of
    the array, so fuel 1001 is enough.  The searches of the heap run at most once per
    block.  Waits for a device (AHCI, EEPROM, serial line, APIC) have fuel above the
    number of polls after which the device answers, a constant of its class; the
    MADT loop runs once per entry; the loops over the pages of a segment or a mapping
    once per page; the mouse's waits are bounded in the source.  Waiting for the clock
    has fuel for the reads within which enough interrupts arrive.  Searching a directory takes one round per
    entry, mounting one per component of the path, a pass of the reaper one per thread;
    the reaper needs as many rounds as there are killed threads on one processor.

    ** What is not modelled

    The text of messages, except in [Print] and [Start]; instructions that change the
    processor (cr3, interrupt flags, lgdt, lidt, hlt) beyond their effect on the modelled
    state; of the trampoline in assembly only what it loads and calls (whether a processor
    comes up is a parameter of [Smp]); kmain as one computation: its calls are modelled and proved in
    their own files and states, and the mounts together in [Kmain].  Functions with an
    empty body or one that is commented out (intelhd.c, pcspk.c, page_destroy_map, parts
    of fs/fat, ioapic_read64) have nothing to model.  Local buffers of the file systems
    are values, with the number of live heap blocks kept in the state; the lists of the
    scheduler are sequences.  Both abstractions are what [Kheap] and [DList] prove of the
    code underneath. *)

From stdpp Require Export base list gmap numbers option fin_maps sets.
From Stdlib Require Export ZArith Lia.

#[global] Open Scope Z_scope.

(** ** Machine integers *)

(** [uN w x] is the value of [x] converted to a [w]-bit unsigned type. *)
Definition uN (w x : Z) : Z := x `mod` 2 ^ w.

(** [sN w x] is the value of [x] converted to a [w]-bit signed type
    (two's complement, as gcc defines the narrowing conversion). *)
Definition sN (w x : Z) : Z := (x + 2 ^ (w - 1)) `mod` 2 ^ w - 2 ^ (w - 1).

Abbreviation u8 := (uN 8).
Abbreviation u16 := (uN 16).
Abbreviation u32 := (uN 32).
Abbreviation u64 := (uN 64).
Abbreviation s8 := (sN 8).
Abbreviation s32 := (sN 32).
Abbreviation s64 := (sN 64).

Declare Scope c_scope.
Delimit Scope c_scope with C.
#[global] Open Scope c_scope.

(** C's bit operators on (already converted) integers. *)
Notation "x '.&' y" := (Z.land x y) (at level 38, left associativity) : c_scope.
Notation "x '.|' y" := (Z.lor x y) (at level 39, left associativity) : c_scope.

(** A C condition on an integer: everything but zero is true. *)
Definition truth (x : Z) : bool := negb (x =? 0).

Lemma uN_range w x : 0 <= w -> 0 <= uN w x < 2 ^ w.
Proof. intros. apply Z.mod_pos_bound. lia. Qed.

Lemma uN_small w x : 0 <= x < 2 ^ w -> uN w x = x.
Proof. apply Z.mod_small. Qed.

Lemma uN_idemp w x : 0 <= w -> uN w (uN w x) = uN w x.
Proof. intros. apply uN_small, uN_range. lia. Qed.

Lemma uN_land w x : 0 <= w -> uN w x = Z.land x (Z.ones w).
Proof. intros. unfold uN. rewrite Z.land_ones; lia. Qed.

Lemma testbit_uN w x i :
  0 <= w -> Z.testbit (uN w x) i = (i <? w) && Z.testbit x i.
Proof.
  intros. destruct (Z.ltb_spec i w); simpl.
  - destruct (Z.neg_nonneg_cases i).
    + rewrite !Z.testbit_neg_r by lia. done.
    + apply Z.mod_pow2_bits_low. lia.
  - apply Z.mod_pow2_bits_high. lia.
Qed.

Lemma sN_small w x : 0 < w -> - 2 ^ (w - 1) <= x < 2 ^ (w - 1) -> sN w x = x.
Proof.
  intros Hw Hx. unfold sN. rewrite Z.mod_small; [lia|].
  replace (2 ^ w) with (2 * 2 ^ (w - 1)); [lia|].
  rewrite <- Z.pow_succ_r by lia. f_equal. lia.
Qed.

Lemma truth_true x : truth x = true <-> x <> 0.
Proof. unfold truth. rewrite negb_true_iff, Z.eqb_neq. done. Qed.

Lemma truth_false x : truth x = false <-> x = 0.
Proof. unfold truth. rewrite negb_false_iff, Z.eqb_eq. done. Qed.

(** ** Outcomes: what a piece of C code can do *)

(** The ways a computation can fail to deliver a result.  [Hang] is a loop the
    code never leaves (a deadlock on a spinlock, [for (;;)]); [NoFuel] is only
    produced by a model whose loop bound was chosen too small. *)
Inductive fault : Type :=
  | OutOfBounds
  | NullDeref
  | DivByZero
  | NoReturn
  | Hang
  | NoFuel.

#[global] Instance fault_eq_dec : EqDecision fault.
Proof. solve_decision. Defined.

Inductive outcome (A : Type) : Type :=
  | Ok (a : A)
  | Err (f : fault).
Arguments Ok {A} a.
Arguments Err {A} f.

(** The state and error monad of the whole development. *)
Definition M (St A : Type) : Type := St -> outcome (A * St).

#[global] Instance M_ret St : MRet (M St) := fun A a s => Ok (a, s).
Definition bindM {St A B} (m : M St A) (k : A -> M St B) : M St B := fun s =>
  match m s with
  | Ok (a, s') => k a s'
  | Err f => Err f
  end.

(** stdpp's notation for binding, at this monad: the bound computation comes
    first, so that its result type is known in the rest. *)
Notation "x ← y ; z" := (bindM y (fun x => z))
  (at level 20, y at level 100, z at level 200, only parsing) : c_scope.
Notation "' x ← y ; z" := (bindM y (fun x => z))
  (at level 20, x pattern, y at level 100, z at level 200, only parsing) : c_scope.
Notation "y ;; z" := (bindM y (fun _ => z))
  (at level 100, z at level 200, right associativity) : c_scope.

Section monad.
Context {St : Type}.

Definition throw {A} (f : fault) : M St A := fun _ => Err f.
Definition get : M St St := fun s => Ok (s, s).
Definition gets {A} (f : St -> A) : M St A := fun s => Ok (f s, s).
Definition put (s : St) : M St () := fun _ => Ok ((), s).
Definition modify (f : St -> St) : M St () := fun s => Ok ((), f s).

(** [guard b f] goes on when [b] holds and fails with [f] otherwise. *)
Definition guard (b : bool) (f : fault) : M St () :=
  if b then mret () else throw f.

(** Reading through an option, a missing value being the fault [f]. *)
Definition unwrap {A} (o : option A) (f : fault) : M St A :=
  match o with Some a => mret a | None => throw f end.

(** [loopP p body a] runs [body] at most [p] times from [a]; [inl] asks for
    another round, [inr] leaves the loop.  The bound is binary, so a loop
    with millions of rounds still evaluates. *)
Fixpoint loopP {A B} (p : positive) (body : A -> M St (A + B)) (a : A)
  : M St (A + B) :=
  match p with
  | xH => body a
  | xO p' =>
      r ← loopP p' body a;
      match r with inl a' => loopP p' body a' | inr b => mret (inr b) end
  | xI p' =>
      r ← body a;
      match r with
      | inl a' =>
          r' ← loopP p' body a';
          match r' with inl a'' => loopP p' body a'' | inr b => mret (inr b) end
      | inr b => mret (inr b)
      end
  end.

Definition loop {A B} (n : N) (body : A -> M St (A + B)) (a : A) : M St (A + B) :=
  match n with N0 => mret (inl a) | Npos p => loopP p body a end.

(** The same loop with unary fuel, for reasoning. *)
Fixpoint loopN {A B} (n : nat) (body : A -> M St (A + B)) (a : A) : M St (A + B) :=
  match n with
  | O => mret (inl a)
  | S n' =>
      r ← body a;
      match r with inl a' => loopN n' body a' | inr b => mret (inr b) end
  end.

(** [for (i = lo; i < hi; i++)]; the body returns [Some b] to leave the
    enclosing function with [b], and [None] to go on. *)
Definition for_ {B} (lo hi : Z) (body : Z -> M St (option B)) : M St (option B) :=
  r ← loop (Z.to_N (hi - lo))
        (fun i => o ← body i;
                  match o with
                  | None => mret (inl (i + 1))
                  | Some b => mret (inr b)
                  end) lo;
  match r with inl _ => mret None | inr b => mret (Some b) end.

(** A [for] without early exit. *)
Definition for_each (lo hi : Z) (body : Z -> M St ()) : M St () :=
  _ ← for_ (B := ()) lo hi (fun i => body i;; mret None); mret ().

(** A [for] whose body also updates local variables [a]; [inr] leaves the
    enclosing function. *)
Definition for_acc {A B} (lo hi : Z) (body : Z -> A -> M St (A + B)) (a : A) : M St (A + B) :=
  r ← loop (Z.to_N (hi - lo))
        (fun ia => r ← body ia.1 ia.2;
                   match r with
                   | inl a' => mret (inl (ia.1 + 1, a'))
                   | inr b => mret (inr b)
                   end) (lo, a);
  match r with inl ia => mret (inl ia.2) | inr b => mret (inr b) end.

(** A loop with no bound in the source, run with [fuel]. *)
Definition while_ {A B} (fuel : N) (body : A -> M St (A + B)) (a : A) : M St B :=
  r ← loop fuel body a;
  match r with inl _ => throw NoFuel | inr b => mret b end.
End monad.

(** A computation on a part of the state, given how the part is read and replaced. *)
Definition zoom {K S A} (get_ : K -> S) (set_ : S -> K -> K) (m : M S A) : M K A := fun k =>
  match m (get_ k) with Ok (a, x) => Ok (a, set_ x k) | Err f => Err f end.

(** ** Weakest preconditions: total correctness of monadic code *)

Definition wp {St A} (c : M St A) (Q : A -> St -> Prop) (s : St) : Prop :=
  match c s with
  | Ok (a, s') => Q a s'
  | Err _ => False
  end.

Section wp.
Context {St : Type}.
Implicit Types s : St.

Lemma wp_ret {A} (a : A) Q s : Q a s -> wp (mret a) Q s.
Proof. done. Qed.

Lemma wp_bind {A B} (m : M St A) (k : A -> M St B) Q s :
  wp m (fun a s' => wp (k a) Q s') s -> wp (bindM m k) Q s.
Proof.
  unfold wp, bindM. destruct (m s) as [[a s']|]; done.
Qed.

Lemma wp_mono {A} (c : M St A) (Q Q' : A -> St -> Prop) s :
  wp c Q s -> (forall a s', Q a s' -> Q' a s') -> wp c Q' s.
Proof. unfold wp. destruct (c s) as [[a s']|]; eauto. Qed.

Lemma wp_get Q s : Q s s -> wp get Q s.
Proof. done. Qed.
Lemma wp_gets {A} (f : St -> A) Q s : Q (f s) s -> wp (gets f) Q s.
Proof. done. Qed.
Lemma wp_put s' Q s : Q () s' -> wp (put s') Q s.
Proof. done. Qed.
Lemma wp_modify f Q s : Q () (f s) -> wp (modify f) Q s.
Proof. done. Qed.
Lemma wp_guard b f Q s : b = true -> Q () s -> wp (guard b f) Q s.
Proof. intros ->. done. Qed.
Lemma wp_unwrap {A} (o : option A) f a Q s :
  o = Some a -> Q a s -> wp (unwrap o f) Q s.
Proof. intros ->. done. Qed.

Lemma wp_Ok {A} (c : M St A) Q s :
  wp c Q s -> exists a s', c s = Ok (a, s') /\ Q a s'.
Proof. unfold wp. destruct (c s) as [[a s']|]; [eauto|done]. Qed.

Lemma wp_unbind {A B} (m : M St A) (k : A -> M St B) Q s :
  wp (bindM m k) Q s -> wp m (fun a s' => wp (k a) Q s') s.
Proof. unfold wp, bindM. by destruct (m s) as [[a s']|]. Qed.

Lemma wp_intro {A} (c : M St A) (Q : A -> St -> Prop) s a s' :
  c s = Ok (a, s') -> Q a s' -> wp c Q s.
Proof. unfold wp. intros ->. done. Qed.

Lemma zoom_wp {K A} (get_ : K -> St) set_ (m : M St A) (Q : A -> K -> Prop) k :
  wp m (fun a x => Q a (set_ x k)) (get_ k) -> wp (zoom get_ set_ m) Q k.
Proof. unfold wp, zoom. by destruct (m (get_ k)) as [[a x]|]. Qed.
Lemma zoom_Ok {K A} (get_ : K -> St) set_ (m : M St A) k a x :
  m (get_ k) = Ok (a, x) -> zoom get_ set_ m k = Ok (a, set_ x k).
Proof. unfold zoom. by intros ->. Qed.

(** Following a computation to the fault it ends in. *)
Lemma bind_Ok {A B} (m : M St A) (k : A -> M St B) s a s' r :
  m s = Ok (a, s') -> k a s' = r -> bindM m k s = r.
Proof. unfold bindM. by intros -> ->. Qed.
Lemma bind_Err {A B} (m : M St A) (k : A -> M St B) s f :
  m s = Err f -> bindM m k s = Err f.
Proof. unfold bindM. by intros ->. Qed.

(** The same, through the rules for what goes well. *)
Lemma bind_fault {A B} (m : M St A) (k : A -> M St B) s f :
  wp m (fun a s' => k a s' = Err f) s -> bindM m k s = Err f.
Proof. unfold wp, bindM. by destruct (m s) as [[a s']|]. Qed.

Lemma loopN_add {A B} n m (body : A -> M St (A + B)) a s :
  loopN (n + m) body a s =
  (r ← loopN n body a;
   match r with inl a' => loopN m body a' | inr b => mret (inr b) end) s.
Proof.
  revert a s. induction n as [|n IH]; intros a s; [done|].
  simpl. unfold bindM. destruct (body a s) as [[[a'|b] s']|]; [|done..].
  rewrite IH. done.
Qed.

Lemma loopP_loopN {A B} p (body : A -> M St (A + B)) a s :
  loopP p body a s = loopN (Pos.to_nat p) body a s.
Proof.
  revert a s. induction p as [p IH|p IH|]; intros a s.
  - rewrite Pos2Nat.inj_xI. simpl. unfold bindM.
    destruct (body a s) as [[[a'|b] s']|]; [|done..].
    rewrite Nat.add_0_r, loopN_add. unfold bindM. rewrite IH.
    destruct (loopN _ body a' s') as [[[a''|b'] s'']|]; done.
  - rewrite Pos2Nat.inj_xO. simpl. unfold bindM.
    rewrite Nat.add_0_r, loopN_add. unfold bindM. rewrite IH.
    destruct (loopN _ body a s) as [[[a''|b'] s'']|]; done.
  - simpl. unfold bindM, mret, M_ret.
    destruct (body a s) as [[[a'|b] s']|]; done.
Qed.

Lemma loop_loopN {A B} n (body : A -> M St (A + B)) a s :
  loop n body a s = loopN (N.to_nat n) body a s.
Proof. destruct n; [done|]. apply loopP_loopN. Qed.

(** The invariant rule for bounded loops. *)
Lemma wp_for {B} (I : Z -> St -> Prop) lo hi (body : Z -> M St (option B))
    (Q : option B -> St -> Prop) s :
  lo <= hi ->
  I lo s ->
  (forall i s, lo <= i < hi -> I i s ->
     wp (body i) (fun o s' => match o with
                              | None => I (i + 1) s'
                              | Some b => Q (Some b) s'
                              end) s) ->
  (forall s, I hi s -> Q None s) ->
  wp (for_ lo hi body) Q s.
Proof.
  intros Hle HI Hbody Hend.
  assert (forall n i s, hi = i + Z.of_nat n -> lo <= i -> I i s ->
    wp (loopN n (fun i => o ← body i;
                  match o with
                  | None => mret (inl (i + 1))
                  | Some b => mret (inr b)
                  end) i)
       (fun r s' => match r with inl _ => Q None s' | inr b => Q (Some b) s' end) s)
    as Hloop.
  { clear s HI. intros n. induction n as [|n IH]; intros i s Hi Hlo HI.
    - apply wp_ret, Hend. replace hi with i by lia. done.
    - simpl. apply wp_bind, wp_bind. eapply wp_mono.
      { apply Hbody; [lia|done]. }
      intros [b|] s' HQ; apply wp_ret; [by apply wp_ret|].
      apply IH; [lia|lia|done]. }
  unfold for_. apply wp_bind. unfold wp. rewrite loop_loopN.
  specialize (Hloop (N.to_nat (Z.to_N (hi - lo))) lo s ltac:(lia) ltac:(lia) HI).
  unfold wp in Hloop.
  destruct (loopN _ _ lo s) as [[[a|b] s']|]; done.
Qed.

(** The same for a loop without early exit. *)
Lemma wp_for_each (I : Z -> St -> Prop) lo hi (body : Z -> M St ()) Q s :
  lo <= hi ->
  I lo s ->
  (forall i s, lo <= i < hi -> I i s -> wp (body i) (fun _ s' => I (i + 1) s') s) ->
  (forall s, I hi s -> Q () s) ->
  wp (for_each lo hi body) Q s.
Proof.
  intros. unfold for_each. apply wp_bind.
  eapply (wp_for I); [done|done| |].
  - intros i s' Hi HI. apply wp_bind. eapply wp_mono; [eauto|].
    intros [] s'' HI'. by apply wp_ret.
  - intros s' HI. apply wp_ret. auto.
Qed.

(** A loop whose first round fails, fails. *)
Lemma while_Err {A B} fuel (body : A -> M St (A + B)) a s f :
  fuel <> 0%N -> body a s = Err f -> while_ fuel body a s = Err f.
Proof.
  intros Hf Hb. unfold while_. apply bind_Err. rewrite loop_loopN.
  destruct (N.to_nat fuel) eqn:E; [lia|]. simpl. unfold bindM. by rewrite Hb.
Qed.

Lemma wp_for_acc {A B} (I : Z -> A -> St -> Prop) lo hi (body : Z -> A -> M St (A + B))
    (Q : A + B -> St -> Prop) a s :
  lo <= hi ->
  I lo a s ->
  (forall i a s, lo <= i < hi -> I i a s ->
     wp (body i a) (fun r s' => match r with
                                | inl a' => I (i + 1) a' s'
                                | inr b => Q (inr b) s'
                                end) s) ->
  (forall a s, I hi a s -> Q (inl a) s) ->
  wp (for_acc lo hi body a) Q s.
Proof.
  intros Hle HI Hbody Hend.
  assert (forall n i a s, hi = i + Z.of_nat n -> lo <= i -> I i a s ->
    wp (loopN n (fun ia => r ← body ia.1 ia.2;
                   match r with
                   | inl a' => mret (inl (ia.1 + 1, a'))
                   | inr b => mret (inr b)
                   end) (i, a))
       (fun r s' => match r with inl ia => Q (inl ia.2) s' | inr b => Q (inr b) s' end) s) as Hloop.
  { clear a s HI. intros n. induction n as [|n IH]; intros i a s Hi Hlo HI.
    - apply wp_ret, Hend. replace hi with i by lia. done.
    - simpl. apply wp_bind, wp_bind. eapply wp_mono.
      { apply Hbody; [simpl; lia|done]. }
      intros [a'|b] s' HQ; apply wp_ret; [|by apply wp_ret].
      apply IH; [simpl; lia|simpl; lia|done]. }
  unfold for_acc. apply wp_bind. unfold wp. rewrite loop_loopN.
  specialize (Hloop (N.to_nat (Z.to_N (hi - lo))) lo a s ltac:(lia) ltac:(lia) HI).
  unfold wp in Hloop.
  destruct (loopN _ _ (lo, a) s) as [[[ia|b] s']|]; done.
Qed.

(** Unbounded loops: an invariant indexed by a variant that every round
    decreases; a fuel above the variant is enough. *)
Lemma wp_while {A B} (I : nat -> A -> St -> Prop) k fuel
    (body : A -> M St (A + B)) (Q : B -> St -> Prop) a s :
  I k a s ->
  (k < N.to_nat fuel)%nat ->
  (forall k a s, I k a s ->
     wp (body a) (fun r s' => match r with
                              | inl a' => exists k', (k' < k)%nat /\ I k' a' s'
                              | inr b => Q b s'
                              end) s) ->
  wp (while_ fuel body a) Q s.
Proof.
  intros HI HV Hbody. unfold while_. apply wp_bind. unfold wp at 1.
  rewrite loop_loopN.
  assert (forall n k a s, I k a s -> (k < n)%nat ->
    wp (loopN n body a)
       (fun r s' => match r with inl _ => False | inr b => Q b s' end) s) as Hloop.
  { clear k a s HI HV. intros n. induction n as [|n IH]; intros k a s HI HV; [lia|].
    simpl. apply wp_bind. eapply wp_mono; [by apply (Hbody k)|].
    intros [a'|b] s' HQ; [|by apply wp_ret].
    destruct HQ as (k' & Hk' & HI'). apply (IH k'); [done|lia]. }
  specialize (Hloop _ k a s HI HV). unfold wp in Hloop.
  destruct (loopN _ body a s) as [[[a'|b] s']|]; done.
Qed.
End wp.

(** ** Partial correctness: what holds if a result is delivered *)

Definition wlp {St A} (c : M St A) (Q : A -> St -> Prop) (s : St) : Prop :=
  match c s with
  | Ok (a, s') => Q a s'
  | Err _ => True
  end.

Section wlp.
Context {St : Type}.
Implicit Types s : St.

Lemma wlp_ret {A} (a : A) Q s : Q a s -> wlp (mret a) Q s.
Proof. done. Qed.
Lemma wlp_bind {A B} (m : M St A) (k : A -> M St B) Q s :
  wlp m (fun a s' => wlp (k a) Q s') s -> wlp (bindM m k) Q s.
Proof. unfold wlp, bindM. destruct (m s) as [[a s']|]; done. Qed.
Lemma wlp_mono {A} (c : M St A) (Q Q' : A -> St -> Prop) s :
  wlp c Q s -> (forall a s', Q a s' -> Q' a s') -> wlp c Q' s.
Proof. unfold wlp. destruct (c s) as [[a s']|]; eauto. Qed.
Lemma wlp_throw {A} f (Q : A -> St -> Prop) s : wlp (throw f) Q s.
Proof. done. Qed.
Lemma wlp_guard b f Q s : (b = true -> Q () s) -> wlp (guard b f) Q s.
Proof. destruct b; intros HQ; [exact (HQ eq_refl)|done]. Qed.
Lemma wlp_unwrap {A} (o : option A) f Q s : (forall a, o = Some a -> Q a s) -> wlp (unwrap o f) Q s.
Proof. destruct o as [a|]; intros HQ; [exact (HQ a eq_refl)|done]. Qed.
Lemma wlp_Ok {A} (c : M St A) Q s a s' : wlp c Q s -> c s = Ok (a, s') -> Q a s'.
Proof. unfold wlp. intros HQ He. by rewrite He in HQ. Qed.
Lemma wlp_true {A} (c : M St A) Q s : (forall a s', Q a s') -> wlp c Q s.
Proof. intros HQ. unfold wlp. by destruct (c s) as [[]|]. Qed.

(** Loops: an invariant of the rounds that succeed. *)
Lemma wlp_loopN {A B} (I : nat -> A -> St -> Prop) n (body : A -> M St (A + B)) (Q : A + B -> St -> Prop) a s :
  I n a s ->
  (forall k a s, I (S k) a s ->
     wlp (body a) (fun r s' => match r with inl a' => I k a' s' | inr b => Q (inr b) s' end) s) ->
  (forall a s, I 0%nat a s -> Q (inl a) s) ->
  wlp (loopN n body a) Q s.
Proof.
  intros HI Hbody Hend. revert a s HI. induction n as [|n IH]; intros a s HI; simpl; [by apply wlp_ret, Hend|].
  apply wlp_bind. eapply wlp_mono; [by apply Hbody|]. intros [a'|b] s' HQ; [by apply IH|by apply wlp_ret].
Qed.
Lemma wlp_for_acc {A B} (I : Z -> A -> St -> Prop) lo hi (body : Z -> A -> M St (A + B))
    (Q : A + B -> St -> Prop) a s :
  lo <= hi ->
  I lo a s ->
  (forall i a s, lo <= i < hi -> I i a s ->
     wlp (body i a) (fun r s' => match r with inl a' => I (i + 1) a' s' | inr b => Q (inr b) s' end) s) ->
  (forall a s, I hi a s -> Q (inl a) s) ->
  wlp (for_acc lo hi body a) Q s.
Proof.
  intros Hle HI Hbody Hend. unfold for_acc. apply wlp_bind. unfold wlp at 1. rewrite loop_loopN.
  eapply (wlp_loopN (fun k ia s' => ia.1 = hi - Z.of_nat k /\ lo <= ia.1 /\ I ia.1 ia.2 s') _ _
    (fun r s' => wlp (match r with inl ia => mret (inl ia.2) | inr b => mret (inr b) end) Q s')).
  - cbn [fst snd]. split_and!; [lia|lia|done].
  - intros k [i a'] s' (Hi & Hlo & HI'). cbn [fst snd] in *. apply wlp_bind.
    eapply wlp_mono; [apply Hbody; [lia|done]|].
    intros [a2|b] s2 HQ; apply wlp_ret; [cbn [fst snd]; split_and!; [lia|lia|done]|by apply wlp_ret].
  - intros [i a'] s' (Hi & _ & HI'). cbn [fst snd] in *. apply wlp_ret, Hend. by replace hi with i by lia.
Qed.
Lemma wlp_while {A B} fuel (body : A -> M St (A + B)) (Q : B -> St -> Prop) a s :
  (forall a s, wlp (body a) (fun r s' => match r with inl _ => True | inr b => Q b s' end) s) ->
  wlp (while_ fuel body a) Q s.
Proof.
  intros Hbody. unfold while_. apply wlp_bind. unfold wlp at 1. rewrite loop_loopN.
  eapply (wlp_loopN (fun _ _ _ => True) _ _ (fun r s' => wlp (match r with inl _ => throw NoFuel | inr b => mret b end) Q s'));
    [done| |by intros].
  intros k a' s' _. eapply wlp_mono; [apply Hbody|]. by intros [a2|b] s2.
Qed.
End wlp.

(** [wp_step] peels one primitive off a weakest precondition, and stops in front
    of anything that has a rule of its own. *)
Ltac wp_step :=
  lazymatch goal with
  | |- wp (bindM ?m _) _ _ =>
      lazymatch m with
      | bindM _ _ => apply wp_bind
      | mret _ => apply wp_bind
      | get => apply wp_bind
      | gets _ => apply wp_bind
      | put _ => apply wp_bind
      | modify _ => apply wp_bind
      | guard _ _ => apply wp_bind
      | unwrap _ _ => apply wp_bind
      end
  | |- wp (mret _) _ _ => apply wp_ret
  | |- wp get _ _ => apply wp_get
  | |- wp (gets _) _ _ => apply wp_gets
  | |- wp (put _) _ _ => apply wp_put
  | |- wp (modify _) _ _ => apply wp_modify
  | |- wp (guard _ _) _ _ => apply wp_guard
  | |- wp (unwrap _ _) _ _ => eapply wp_unwrap
  end.
(** Brings the first computation of a sequence to the front. *)
Ltac wp_focus :=
  lazymatch goal with
  | |- wp (bindM _ _) _ _ => apply wp_bind
  | |- wp _ _ _ => idtac
  end.

(** Side conditions are tried with [done]; a remaining [wp] goal is left alone
    (trying to close it would run the program symbolically). *)
Ltac wp_side :=
  lazymatch goal with
  | |- wp _ _ _ => idtac
  | |- _ => try done
  end.
Ltac wp_steps := repeat (wp_step; [wp_side..]).

(** [lia] on goals with [div] and [mod]. *)
Ltac dlia := Z.div_mod_to_equations; lia.

Create HintDb kernel.
#[export] Hint Resolve wp_ret wp_get wp_put : kernel.

(** ** Bits *)

(** Testing one bit with a mask, the C idiom [x & (1 << n)]. *)
Lemma land_pow2 x n :
  0 <= n -> Z.land x (2 ^ n) = if Z.testbit x n then 2 ^ n else 0.
Proof.
  intros Hn. apply Z.bits_inj'. intros i Hi.
  rewrite Z.land_spec, Z.pow2_bits_eqb by lia.
  destruct (Z.eqb_spec n i) as [->|Hne].
  - destruct (Z.testbit x i); [by rewrite Z.pow2_bits_true by lia|].
    by rewrite Z.bits_0.
  - rewrite andb_false_r. destruct (Z.testbit x n).
    + by rewrite Z.pow2_bits_false by lia.
    + by rewrite Z.bits_0.
Qed.

Lemma truth_land_pow2 x n : 0 <= n -> truth (Z.land x (2 ^ n)) = Z.testbit x n.
Proof.
  intros Hn. rewrite land_pow2 by done.
  destruct (Z.testbit x n); [|done]. apply truth_true. lia.
Qed.

Lemma testbit_setbit x n i :
  0 <= n -> 0 <= i -> Z.testbit (Z.lor x (2 ^ n)) i = (n =? i) || Z.testbit x i.
Proof. intros. rewrite Z.lor_spec, Z.pow2_bits_eqb by lia. apply orb_comm. Qed.

Lemma testbit_clearbit x n i :
  0 <= n -> 0 <= i ->
  Z.testbit (Z.land x (Z.lnot (2 ^ n))) i = negb (n =? i) && Z.testbit x i.
Proof.
  intros. rewrite Z.land_spec, Z.lnot_spec, Z.pow2_bits_eqb by lia. apply andb_comm.
Qed.

Lemma bounded_testbit_high x w i : 0 <= x < 2 ^ w -> 0 <= w <= i -> Z.testbit x i = false.
Proof.
  intros. rewrite <- (Z.mod_small x (2 ^ w)) by done. apply Z.mod_pow2_bits_high. lia.
Qed.

Lemma lor_bounded x y w : 0 <= w -> 0 <= x < 2 ^ w -> 0 <= y < 2 ^ w -> 0 <= Z.lor x y < 2 ^ w.
Proof.
  intros Hw Hx Hy. assert (Z.lor x y = uN w (Z.lor x y)) as ->; [|by apply uN_range].
  apply Z.bits_inj'. intros i Hi. rewrite testbit_uN, !Z.lor_spec by lia.
  destruct (Z.ltb_spec i w); [done|]. simpl.
  rewrite !(bounded_testbit_high _ w) by lia. done.
Qed.

Lemma land_bounded x y w : 0 <= w -> 0 <= x < 2 ^ w -> 0 <= Z.land x y < 2 ^ w.
Proof.
  intros Hw Hx. assert (Z.land x y = uN w (Z.land x y)) as ->; [|by apply uN_range].
  apply Z.bits_inj'. intros i Hi. rewrite testbit_uN, !Z.land_spec by lia.
  destruct (Z.ltb_spec i w); [done|]. simpl.
  rewrite (bounded_testbit_high x w) by lia. done.
Qed.

(** Or-ing in a high part that the low part does not reach is adding it. *)
Lemma lor_high x y n : 0 <= n -> 0 <= x < 2 ^ n -> Z.lor x (y * 2 ^ n) = x + y * 2 ^ n.
Proof.
  intros Hn Hx. rewrite <- Z.shiftl_mul_pow2 by done.
  assert (Z.land x (Z.shiftl y n) = 0) as Hland.
  { apply Z.bits_inj'. intros i Hi. rewrite Z.land_spec, Z.bits_0.
    destruct (Z.lt_ge_cases i n).
    - rewrite Z.shiftl_spec_low by done. apply andb_false_r.
    - rewrite (bounded_testbit_high x n) by lia. done. }
  rewrite Z.add_nocarry_lxor by done. symmetry. apply Z.lxor_lor. done.
Qed.

(** The same with the high part first, as packed fields are built. *)
Lemma lor_fields hi lo n :
  0 <= n -> 0 <= lo < 2 ^ n -> hi `mod` 2 ^ n = 0 -> Z.lor hi lo = hi + lo.
Proof.
  intros Hn Hlo Hhi. rewrite (Z.div_mod hi (2 ^ n)) by lia. rewrite Hhi, Z.add_0_r.
  rewrite Z.lor_comm, (Z.mul_comm (2 ^ n)), lor_high by done. lia.
Qed.

(** A property of all bytes, by computation. *)
Lemma byte_cases (f : Z -> bool) : forallb f (seqZ 0 256) = true -> forall x, 0 <= x < 256 -> f x = true.
Proof. rewrite forallb_forall. intros Hf x Hx. apply Hf, list_elem_of_In, elem_of_seqZ. lia. Qed.
