(* ===== verification/Pmm.v ===== *)
(** * Physical memory manager (src/mem/pmm.c)

    The page bitmap and every operation on it.  The bitmap is the static array
    [mapbuffer]; it is kept as a finite map whose missing entries are the zero
    bytes the array starts with, and every access checks the array's bound. *)

From S2P Require Import Prelude.

Definition BUFFER_SIZE : Z := 2097952.
Definition PAGE_SIZE_4K : Z := 4096.

(** The two globals of pmm.c. *)
Record pmm : Type := mk_pmm {
  bitmapsize : Z;
  mapbuffer : gmap Z Z;
}.

(** [mapbuffer[i]], and the store to it. *)
Definition map_byte (s : pmm) (i : Z) : Z := default 0 (mapbuffer s !! i).

Definition load_map (i : Z) : M pmm Z :=
  guard (bool_decide (0 <= i < BUFFER_SIZE)) OutOfBounds;;
  gets (fun s => map_byte s i).

Definition store_map (i v : Z) : M pmm () :=
  guard (bool_decide (0 <= i < BUFFER_SIZE)) OutOfBounds;;
  modify (fun s => mk_pmm (bitmapsize s) (<[i := v]> (mapbuffer s))).

Definition bitmap_get (idx : Z) : M pmm Z :=
  let bytes := idx `div` 8 in
  let bits := u8 (Z.shiftr 128 (idx `mod` 8)) in
  b ← load_map bytes;
  mret (b .& bits).

Definition bitmap_set (idx : Z) (v : bool) : M pmm () :=
  let bytes := idx `div` 8 in
  let bits := u8 (Z.shiftr 128 (idx `mod` 8)) in
  b ← load_map bytes;
  store_map bytes (u8 (b .& Z.lnot bits));;
  if v then
    b' ← load_map bytes;
    store_map bytes (u8 (b' .| bits))
  else mret ().

Definition pmm_alloc (addr : Z) : M pmm () :=
  let idx := addr `div` PAGE_SIZE_4K in bitmap_set idx true.

Definition pmm_free (addr : Z) : M pmm () :=
  let idx := addr `div` PAGE_SIZE_4K in bitmap_set idx false.

Definition pmm_reserve (addr : Z) : M pmm () :=
  let idx := addr `div` PAGE_SIZE_4K in bitmap_set idx true.

Definition pmm_release (addr : Z) : M pmm () :=
  let idx := addr `div` PAGE_SIZE_4K in bitmap_set idx false.

Definition pmm_alloc_m (addr cnt : Z) : M pmm () :=
  for_each 0 cnt (fun i => pmm_alloc (u64 (addr + u64 (i * PAGE_SIZE_4K)))).

Definition pmm_free_m (addr cnt : Z) : M pmm () :=
  for_each 0 cnt (fun i => pmm_free (u64 (addr + u64 (i * PAGE_SIZE_4K)))).

Definition pmm_reserve_m (addr cnt : Z) : M pmm () :=
  for_each 0 cnt (fun i => pmm_reserve (u64 (addr + u64 (i * PAGE_SIZE_4K)))).

Definition pmm_release_m (addr cnt : Z) : M pmm () :=
  for_each 0 cnt (fun i => pmm_release (u64 (addr + u64 (i * PAGE_SIZE_4K)))).

(** [memset(mapbuffer, 0, bitmapsize)] covers the whole array, so it leaves the
    all-zero bitmap.  The argument [memsz] is not used by the source either. *)
Definition pmm_init (memsz : Z) : M pmm () :=
  modify (fun s => mk_pmm BUFFER_SIZE (mapbuffer s));;
  modify (fun s => mk_pmm (bitmapsize s) ∅);;
  pmm_reserve_m 0 (BUFFER_SIZE `div` 8).

(** Returns the page's address, or 0 (NULL) when every page is in use. *)
Definition pmm_request : M pmm Z :=
  size ← gets bitmapsize;
  r ← for_ 0 (u64 (size * 8)) (fun i =>
        b ← bitmap_get i;
        if truth b then mret None
        else
          pmm_alloc (u64 (i * PAGE_SIZE_4K));;
          mret (Some (u64 (i * PAGE_SIZE_4K))));
  match r with Some p => mret p | None => mret 0 end.

(** ** The abstract view: which pages are in use *)

Definition used (s : pmm) (k : Z) : bool :=
  Z.testbit (map_byte s (k `div` 8)) (7 - k `mod` 8).

(** Bytes are bytes and the bitmap fits its array. *)
Definition pmm_wf (s : pmm) : Prop :=
  0 <= bitmapsize s <= BUFFER_SIZE /\ forall i, 0 <= map_byte s i < 2 ^ 8.

(** Two bitmaps are equivalent when they describe the same pages: the finite
    map may hold explicit zeros. *)
#[export] Instance pmm_equiv : Equiv pmm := fun s1 s2 =>
  bitmapsize s1 = bitmapsize s2 /\ forall k, 0 <= k -> used s1 k = used s2 k.

#[export] Instance pmm_equivalence : Equivalence (≡@{pmm}).
Proof.
  split.
  - done.
  - intros s1 s2 [? H]. split; [done|]. intros. by rewrite H.
  - intros s1 s2 s3 [? H1] [? H2]. split; [congruence|].
    intros. by rewrite H1, H2 by done.
Qed.

#[export] Instance used_proper k : Proper ((≡@{pmm}) ==> impl)
  (fun s => 0 <= k -> used s k = true).
Proof. intros s1 s2 [_ H] Hk Hp. rewrite <- H by done. auto. Qed.

Lemma page_bit k : u8 (Z.shiftr 128 (k `mod` 8)) = 2 ^ (7 - k `mod` 8).
Proof.
  pose proof (Z.mod_pos_bound k 8 ltac:(lia)) as Hk.
  set (j := k `mod` 8) in *. clearbody j.
  assert (j = 0 \/ j = 1 \/ j = 2 \/ j = 3 \/ j = 4 \/ j = 5 \/ j = 6 \/ j = 7) by lia.
  repeat (destruct H as [->|H]; [done|]). by rewrite H.
Qed.

Lemma page_bit_bound k : 0 <= 7 - k `mod` 8 < 8.
Proof. pose proof (Z.mod_pos_bound k 8 ltac:(lia)). lia. Qed.

(** Writing one byte of the bitmap. *)
Definition set_byte (s : pmm) (i v : Z) : pmm :=
  mk_pmm (bitmapsize s) (<[i := v]> (mapbuffer s)).

Lemma map_byte_set s i v j :
  map_byte (set_byte s i v) j = if decide (i = j) then v else map_byte s j.
Proof. unfold map_byte, set_byte; simpl. rewrite lookup_insert. by case_decide. Qed.

(** The byte [bitmap_set] leaves behind. *)
Definition new_byte (b n : Z) (v : bool) : Z :=
  let c := u8 (b .& Z.lnot (2 ^ n)) in if v then u8 (c .| 2 ^ n) else c.

Lemma new_byte_range b n v : 0 <= new_byte b n v < 2 ^ 8.
Proof. unfold new_byte. destruct v; apply uN_range; lia. Qed.

Lemma new_byte_testbit b n v i :
  0 <= n < 8 -> 0 <= i < 8 ->
  Z.testbit (new_byte b n v) i = if n =? i then v else Z.testbit b i.
Proof.
  intros Hn Hi. unfold new_byte. rewrite <- (andb_true_l (Z.testbit b i)) at 1.
  assert (forall x, Z.testbit (u8 x) i = Z.testbit x i) as Hu.
  { intros. rewrite testbit_uN by lia. by rewrite (proj2 (Z.ltb_lt i 8)) by lia. }
  destruct v; rewrite ?Hu, ?testbit_setbit, ?Hu, testbit_clearbit by lia;
    destruct (n =? i); done.
Qed.

Lemma bitmap_get_wp idx Q s :
  0 <= idx < 8 * BUFFER_SIZE ->
  (forall b, truth b = used s idx -> Q b s) -> wp (bitmap_get idx) Q s.
Proof.
  intros Hidx HQ. unfold bitmap_get, load_map. wp_steps.
  - apply bool_decide_eq_true. unfold BUFFER_SIZE in *. dlia.
  - apply HQ. rewrite page_bit. apply truth_land_pow2.
    pose proof (page_bit_bound idx). lia.
Qed.

(** [s'] is [s] with page [k] marked [v] and every other page untouched. *)
Definition sets_page (s : pmm) (k : Z) (v : bool) (s' : pmm) : Prop :=
  bitmapsize s' = bitmapsize s /\
  (forall j, 0 <= j -> used s' j = if j =? k then v else used s j) /\
  (pmm_wf s -> pmm_wf s').

Lemma used_new_byte s k v j :
  0 <= k -> 0 <= j ->
  used (set_byte s (k `div` 8) (new_byte (map_byte s (k `div` 8)) (7 - k `mod` 8) v)) j
  = if j =? k then v else used s j.
Proof.
  intros Hk Hj. unfold used at 1. rewrite map_byte_set.
  pose proof (page_bit_bound k). pose proof (page_bit_bound j).
  case_decide as Hd.
  - rewrite new_byte_testbit by lia. rewrite Hd.
    destruct (Z.eqb_spec (7 - k `mod` 8) (7 - j `mod` 8)), (Z.eqb_spec j k);
      [done| |subst; done|done].
    exfalso. dlia.
  - destruct (Z.eqb_spec j k); [subst; done|done].
Qed.

Lemma sets_page_new_byte s k v :
  0 <= k ->
  sets_page s k v
    (set_byte s (k `div` 8) (new_byte (map_byte s (k `div` 8)) (7 - k `mod` 8) v)).
Proof.
  intros Hk. split_and!; [done|intros; by apply used_new_byte|].
  intros [Hb Hby]. split; [done|]. intros i. rewrite map_byte_set.
  case_decide; [apply new_byte_range|auto].
Qed.

Lemma bitmap_set_wp idx v (Q : () -> pmm -> Prop) s :
  0 <= idx < 8 * BUFFER_SIZE ->
  (forall s', sets_page s idx v s' -> Q () s') ->
  wp (bitmap_set idx v) Q s.
Proof.
  intros Hidx HQ.
  assert (bool_decide (0 <= idx `div` 8 < BUFFER_SIZE) = true) as Hb.
  { apply bool_decide_eq_true. unfold BUFFER_SIZE in *. dlia. }
  unfold bitmap_set, load_map, store_map. rewrite Hb, page_bit.
  assert (Q () (set_byte s (idx `div` 8)
     (new_byte (map_byte s (idx `div` 8)) (7 - idx `mod` 8) v))) as HQ'.
  { apply HQ, sets_page_new_byte. lia. }
  destruct v; wp_steps.
  match goal with |- Q () ?st => enough (st = set_byte s (idx `div` 8)
     (new_byte (map_byte s (idx `div` 8)) (7 - idx `mod` 8) true)) as -> by done end.
  unfold set_byte, new_byte, map_byte; simpl.
  rewrite lookup_insert_eq, insert_insert_eq. done.
Qed.

#[export] Hint Resolve bitmap_get_wp bitmap_set_wp : kernel.

(** ** Ranges of pages *)

(** The pages [k .. k + n - 1] are marked [v], the others untouched. *)
Definition sets_range (s : pmm) (k n : Z) (v : bool) (s' : pmm) : Prop :=
  bitmapsize s' = bitmapsize s /\
  (forall j, 0 <= j -> used s' j = if bool_decide (k <= j < k + n) then v else used s j) /\
  (pmm_wf s -> pmm_wf s').

Lemma sets_range_0 s k v : sets_range s k 0 v s.
Proof.
  split_and!; [done| |done]. intros. case_bool_decide; [lia|done].
Qed.

Lemma sets_range_snoc s k n v s1 s2 :
  0 <= n -> sets_range s k n v s1 -> sets_page s1 (k + n) v s2 ->
  sets_range s k (n + 1) v s2.
Proof.
  intros Hn (Hb1 & Hu1 & Hw1) (Hb2 & Hu2 & Hw2). split_and!; [congruence| |tauto].
  intros j Hj. rewrite Hu2, Hu1 by done.
  destruct (Z.eqb_spec j (k + n)); repeat case_bool_decide; (done || lia).
Qed.

Lemma sets_page_range s k v s' : sets_page s k v s' -> sets_range s k 1 v s'.
Proof.
  intros H. apply (sets_range_snoc s k 0 v s); [lia|apply sets_range_0|].
  by rewrite Z.add_0_r.
Qed.

(** A run of page frames that lies inside the bitmap; 64-bit addresses of such
    pages never wrap. *)
Definition in_bitmap (addr cnt : Z) : Prop :=
  0 <= addr /\ 0 <= cnt /\ addr `div` PAGE_SIZE_4K + cnt <= 8 * BUFFER_SIZE.

#[export] Instance in_bitmap_dec addr cnt : Decision (in_bitmap addr cnt).
Proof. unfold in_bitmap. apply _. Defined.

Lemma in_bitmap_page addr cnt i :
  in_bitmap addr cnt -> 0 <= i < cnt ->
  u64 (addr + u64 (i * PAGE_SIZE_4K)) `div` PAGE_SIZE_4K = addr `div` PAGE_SIZE_4K + i
  /\ 0 <= addr `div` PAGE_SIZE_4K + i < 8 * BUFFER_SIZE.
Proof.
  unfold in_bitmap, PAGE_SIZE_4K, BUFFER_SIZE. intros (Ha & Hc & Hb) Hi.
  rewrite (uN_small 64 (i * 4096)) by dlia. rewrite uN_small by dlia.
  rewrite Z.div_add by lia. dlia.
Qed.

(** All four range operations are the same loop. *)
Lemma set_range_wp (op : Z -> M pmm ()) v addr cnt (Q : () -> pmm -> Prop) s :
  (forall a, op a = bitmap_set (a `div` PAGE_SIZE_4K) v) ->
  in_bitmap addr cnt ->
  (forall s', sets_range s (addr `div` PAGE_SIZE_4K) cnt v s' -> Q () s') ->
  wp (for_each 0 cnt (fun i => op (u64 (addr + u64 (i * PAGE_SIZE_4K))))) Q s.
Proof.
  intros Hop Hin HQ.
  apply (wp_for_each (fun i s' => sets_range s (addr `div` PAGE_SIZE_4K) i v s')).
  - apply Hin.
  - apply sets_range_0.
  - intros i s1 Hi Hs1. destruct (in_bitmap_page addr cnt i Hin Hi) as [Hpg Hlt].
    rewrite Hop, Hpg. apply bitmap_set_wp; [done|]. intros s2 Hs2.
    eapply sets_range_snoc; [lia|done|done].
  - intros s' Hs'. by apply HQ.
Qed.

Lemma pmm_alloc_m_wp addr cnt (Q : () -> pmm -> Prop) s :
  in_bitmap addr cnt ->
  (forall s', sets_range s (addr `div` PAGE_SIZE_4K) cnt true s' -> Q () s') ->
  wp (pmm_alloc_m addr cnt) Q s.
Proof. by apply set_range_wp. Qed.

Lemma pmm_free_m_wp addr cnt (Q : () -> pmm -> Prop) s :
  in_bitmap addr cnt ->
  (forall s', sets_range s (addr `div` PAGE_SIZE_4K) cnt false s' -> Q () s') ->
  wp (pmm_free_m addr cnt) Q s.
Proof. by apply set_range_wp. Qed.

Lemma pmm_reserve_m_wp addr cnt (Q : () -> pmm -> Prop) s :
  in_bitmap addr cnt ->
  (forall s', sets_range s (addr `div` PAGE_SIZE_4K) cnt true s' -> Q () s') ->
  wp (pmm_reserve_m addr cnt) Q s.
Proof. by apply set_range_wp. Qed.

Lemma pmm_release_m_wp addr cnt (Q : () -> pmm -> Prop) s :
  in_bitmap addr cnt ->
  (forall s', sets_range s (addr `div` PAGE_SIZE_4K) cnt false s' -> Q () s') ->
  wp (pmm_release_m addr cnt) Q s.
Proof. by apply set_range_wp. Qed.

(** ** [pmm_request] *)

(** What a caller learns: either the lowest free page, now marked, or NULL and
    every page the bitmap describes is in use. *)
Definition request_post (s : pmm) (p : Z) (s' : pmm) : Prop :=
  (exists k, 0 <= k < bitmapsize s * 8 /\ p = k * PAGE_SIZE_4K /\
     used s k = false /\ (forall j, 0 <= j < k -> used s j = true) /\
     sets_page s k true s')
  \/ (p = 0 /\ s' = s /\ forall j, 0 <= j < bitmapsize s * 8 -> used s j = true).

Lemma pmm_request_wp (Q : Z -> pmm -> Prop) s :
  pmm_wf s -> (forall p s', request_post s p s' -> Q p s') -> wp pmm_request Q s.
Proof.
  intros [Hsz _] HQ. unfold pmm_request. wp_steps.
  rewrite (uN_small 64) by (unfold BUFFER_SIZE in *; lia).
  apply wp_bind, (wp_for (fun i s' => s' = s /\ forall j, 0 <= j < i -> used s j = true)).
  - lia.
  - split; [done|lia].
  - intros i s1 Hi [-> Hall]. apply wp_bind, bitmap_get_wp; [unfold BUFFER_SIZE in *; lia|].
    intros b Hb. destruct (truth b) eqn:Ht.
    + apply wp_ret. split; [done|]. intros j Hj.
      destruct (decide (j = i)) as [->|]; [congruence|apply Hall; lia].
    + apply wp_bind. unfold pmm_alloc, PAGE_SIZE_4K.
      rewrite (uN_small 64) by (unfold BUFFER_SIZE in *; lia).
      rewrite Z.div_mul by lia.
      apply bitmap_set_wp; [unfold BUFFER_SIZE in *; lia|]. intros s' Hs'.
      wp_steps. apply HQ. left. exists i. split_and!; try done; lia.
  - intros s1 [-> Hall]. wp_steps. apply HQ. right. done.
Qed.

(** ** The properties *)

Lemma pmm_wf_empty n : 0 <= n <= BUFFER_SIZE -> pmm_wf (mk_pmm n ∅).
Proof. intros. split; [done|]. intros i. unfold map_byte. simpl. rewrite lookup_empty. simpl. lia. Qed.

Lemma pmm_wf_set_byte s i v : pmm_wf s -> 0 <= v < 2 ^ 8 -> pmm_wf (set_byte s i v).
Proof.
  intros [? H] Hv. split; [done|]. intros j. rewrite map_byte_set. by case_decide.
Qed.

(** C35: [pmm_request] always returns: it hands out the lowest free page frame,
    marks it in use and touches no other frame, or returns NULL, leaves the
    bitmap alone and every frame of the bitmap is in use. *)
Theorem pmm_request_correct s :
  pmm_wf s -> wp pmm_request (fun p s' => request_post s p s' /\ pmm_wf s') s.
Proof.
  intros Hwf. apply pmm_request_wp; [done|]. intros p s' Hp. split; [done|].
  destruct Hp as [(k & _ & _ & _ & _ & _ & _ & Hw)|(_ & -> & _)]; auto.
Qed.

(** Eight pages in use, the ninth is handed out. *)
Lemma pmm_request_correct_witness :
  let s := set_byte (mk_pmm 4 ∅) 0 255 in
  wp pmm_request (fun p s' => request_post s p s' /\ pmm_wf s') s
  /\ fst <$> (match pmm_request s with Ok r => Some r | Err _ => None end) = Some 32768.
Proof.
  intros s. split; [|vm_compute; reflexivity].
  apply (pmm_request_correct s).
  apply pmm_wf_set_byte; [apply pmm_wf_empty; unfold BUFFER_SIZE; lia|lia].
Defined.

(** Freeing the run of pages just allocated with [pmm_alloc_m] restores the
    bitmap, for every run inside the bitmap whose pages were free. *)
Theorem pmm_alloc_free_roundtrip s addr cnt :
  in_bitmap addr cnt ->
  (forall j, 0 <= j < cnt -> used s (addr `div` PAGE_SIZE_4K + j) = false) ->
  wp (pmm_alloc_m addr cnt;; pmm_free_m addr cnt) (fun _ s' => s' ≡ s) s.
Proof.
  intros Hin Hfree. apply wp_bind, pmm_alloc_m_wp; [done|]. intros s1 (Hb1 & Hu1 & _).
  apply pmm_free_m_wp; [done|]. intros s2 (Hb2 & Hu2 & _). split; [congruence|].
  intros k Hk. rewrite Hu2, Hu1 by done. case_bool_decide as Hr; [|done].
  rewrite <- (Hfree (k - addr `div` PAGE_SIZE_4K)) by lia. f_equal. lia.
Qed.

Lemma pmm_alloc_free_roundtrip_witness :
  wp (pmm_alloc_m 36864 3;; pmm_free_m 36864 3) (fun _ s' => s' ≡ mk_pmm 4 ∅) (mk_pmm 4 ∅).
Proof.
  apply (pmm_alloc_free_roundtrip (mk_pmm 4 ∅) 36864 3).
  - unfold in_bitmap, BUFFER_SIZE, PAGE_SIZE_4K. split_and!; [lia|lia|]. vm_compute. congruence.
  - intros j Hj. unfold used, map_byte. simpl. rewrite lookup_empty. apply Z.bits_0.
Defined.

(** [pmm_init] reserves exactly the first [BUFFER_SIZE / 8] page frames and
    leaves every other frame free, whatever state it starts from. *)
Theorem pmm_init_reserves memsz s :
  wp (pmm_init memsz) (fun _ s' =>
    pmm_wf s' /\ bitmapsize s' = BUFFER_SIZE /\
    forall k, 0 <= k -> used s' k = bool_decide (k < 262244)) s.
Proof.
  unfold pmm_init. wp_steps. apply pmm_reserve_m_wp.
  { split_and!; vm_compute; congruence. }
  simpl. intros s' (Hb & Hu & Hw). split_and!; [|done|].
  - apply Hw, pmm_wf_empty. unfold BUFFER_SIZE. lia.
  - intros k Hk. rewrite Hu by done. unfold used, map_byte. simpl.
    rewrite lookup_empty. simpl. rewrite Z.bits_0.
    change (0 `div` PAGE_SIZE_4K) with 0. change (BUFFER_SIZE `div` 8) with 262244.
    repeat case_bool_decide; (done || lia).
Qed.
