(* ===== verification/Alloc.v ===== *)
(** * The allocator interface

    What [kmalloc] and [kfree] promise to their clients, as a type class: the
    clients (DList.v, Vfs.v) are verified against it and Kheap.v gives the
    instance.  [ka_inv h L b]: the allocator's state is [h], the live blocks
    (address, length) are [L], and [b] bytes of address space are left for the
    heap to grow into, of which a request for [n] bytes uses at most [ka_cost n].
    A request is rounded up to [ka_round n] bytes, which the caller can use. *)

From S2P Require Import Prelude.

(** Two different blocks that neither overlap nor touch. *)
Definition separated (u v : Z * Z) : Prop :=
  u.1 <> v.1 /\ (u.1 + u.2 < v.1 \/ v.1 + v.2 < u.1).

Class KAlloc (H : Type) : Type := {
  ka_malloc : Z -> M H Z;
  ka_free : Z -> M H ();
  ka_inv : H -> list (Z * Z) -> Z -> Prop;
  ka_round : Z -> Z;
  ka_cost : Z -> Z;
  ka_round_le n : 0 <= n < 2 ^ 61 -> n <= ka_round n;
  ka_cost_nonneg n : 0 <= n < 2 ^ 61 -> 0 <= ka_cost n;
  ka_malloc_wp h L b n :
    ka_inv h L (b + ka_cost n) -> 0 <= n < 2 ^ 61 -> 0 <= b ->
    wp (ka_malloc n) (fun p h' => exists k, ka_round n <= k /\ 0 < p /\ p + k < 2 ^ 64 /\
      Forall (separated (p, k)) L /\ ka_inv h' ((p, k) :: L) b) h;
  ka_free_wp h L b p k :
    ka_inv h ((p, k) :: L) b -> wp (ka_free p) (fun _ h' => ka_inv h' L b) h;
  ka_perm h L L' b : L ≡ₚ L' -> ka_inv h L b -> ka_inv h L' b;
}.

(** Membership in the list of live blocks can be brought to its front. *)
Lemma ka_inv_front `{KAlloc H} h (L : list (Z * Z)) b u :
  u ∈ L -> ka_inv h L b -> exists L', L ≡ₚ u :: L' /\ ka_inv h (u :: L') b.
Proof.
  intros (L' & HL)%elem_of_Permutation Hinv. exists L'. split; [done|]. by eapply ka_perm.
Qed.

(** The allocator with the blocks [R] set aside: a client that knows nothing of them
    works on the rest, and they stay live. *)
Section framed.
Context `{KAlloc H} (R : list (Z * Z)).

Lemma framed_malloc_wp h L b n :
  ka_inv h (L ++ R) (b + ka_cost n) -> 0 <= n < 2 ^ 61 -> 0 <= b ->
  wp (ka_malloc n) (fun p h' => exists k, ka_round n <= k /\ 0 < p /\ p + k < 2 ^ 64 /\
    Forall (separated (p, k)) L /\ ka_inv h' (((p, k) :: L) ++ R) b) h.
Proof.
  intros Hi Hn Hb. eapply wp_mono; [by eapply ka_malloc_wp|]. intros p h' (k & Hk & Hp & Hpk & Hsep & Hi').
  apply Forall_app in Hsep as [Hsep _]. by exists k.
Qed.

Definition ka_framed : KAlloc H := {|
  ka_malloc := ka_malloc; ka_free := ka_free; ka_inv h L b := ka_inv h (L ++ R) b;
  ka_round := ka_round; ka_cost := ka_cost; ka_round_le := ka_round_le; ka_cost_nonneg := ka_cost_nonneg;
  ka_malloc_wp := framed_malloc_wp;
  ka_free_wp h L b p k := ka_free_wp h (L ++ R) b p k;
  ka_perm h L L' b HL := ka_perm h (L ++ R) (L' ++ R) b (Permutation_app_tail R HL);
|}.
End framed.
