(* ===== verification/Kheap.v ===== *)
(** * Kernel heap (src/mem/kheap.c, src/mem/kheap.h)

    The first-fit allocator over a doubly linked chain of block headers.  Block
    headers live in [blocks], keyed by their address; the payload bytes the
    allocator writes ([memset], [memcpy]) live in [hmem].  Keeping the two apart
    is justified by the chain invariant: headers and payloads never overlap.
    [kheap_init], which needs the paging code, is in Paging.v. *)

From S2P Require Import Prelude Alloc.

(** [heap_block_t]; [sizeof(heap_block_t)] is 32: an 8-byte length, a 4-byte
    [bool] with padding, and two pointers. *)
Record heap_block : Type := mk_block {
  len : Z;
  free : bool;
  prev : Z;
  next : Z;
}.

Definition HB_SIZE : Z := 32.

Record kheap : Type := mk_kheap {
  heap_start : Z;
  heap_end : Z;
  last_block : Z;
  kheap_lock : Z;
  blocks : gmap Z heap_block;
  hmem : gmap Z Z;
}.

Definition set_len (v : Z) (b : heap_block) := mk_block v (free b) (prev b) (next b).
Definition set_free (v : bool) (b : heap_block) := mk_block (len b) v (prev b) (next b).
Definition set_prev (v : Z) (b : heap_block) := mk_block (len b) (free b) v (next b).
Definition set_next (v : Z) (b : heap_block) := mk_block (len b) (free b) (prev b) v.

Definition set_last (v : Z) (s : kheap) : kheap :=
  mk_kheap (heap_start s) (heap_end s) v (kheap_lock s) (blocks s) (hmem s).
Definition set_lock (v : Z) (s : kheap) : kheap :=
  mk_kheap (heap_start s) (heap_end s) (last_block s) v (blocks s) (hmem s).
Definition set_blocks (m : gmap Z heap_block) (s : kheap) : kheap :=
  mk_kheap (heap_start s) (heap_end s) (last_block s) (kheap_lock s) m (hmem s).
Definition set_hmem (m : gmap Z Z) (s : kheap) : kheap :=
  mk_kheap (heap_start s) (heap_end s) (last_block s) (kheap_lock s) (blocks s) m.

(** [p->field] and [p->field = v].  Storing to memory that held no header makes
    one (its other fields are whatever was there, here zero). *)
Definition rd {A} (f : heap_block -> A) (p : Z) : M kheap A :=
  guard (truth p) NullDeref;;
  o ← gets (fun s => blocks s !! p);
  unwrap (f <$> o) OutOfBounds.

Definition wr (f : heap_block -> heap_block) (p : Z) : M kheap () :=
  guard (truth p) NullDeref;;
  modify (fun s => set_blocks
    (<[p := f (default (mk_block 0 false 0 0) (blocks s !! p))]> (blocks s)) s).

(** Spinning on a lock this processor already holds never ends. *)
Definition acquire_lock : M kheap () :=
  l ← gets kheap_lock;
  if truth l then throw Hang else modify (set_lock 1).

Definition release_lock : M kheap () := modify (set_lock 0).

(** [memset] and [memcpy] on payload bytes. *)
Definition payload_memset (p c n : Z) : M kheap () :=
  for_each 0 n (fun i => modify (fun s => set_hmem (<[p + i := c]> (hmem s)) s)).

Definition payload_memcpy (dst src n : Z) : M kheap () :=
  for_each 0 n (fun i =>
    modify (fun s => set_hmem (<[dst + i := default 0 (hmem s !! (src + i))]> (hmem s)) s)).

Definition heap_combine_forward (block : Z) : M kheap () :=
  nx ← rd next block;
  if nx =? 0 then mret () else
  f ← rd free nx;
  if negb f then mret () else
  lb ← gets last_block;
  (if nx =? lb then modify (set_last block) else mret ());;
  nnx ← rd next nx;
  (if negb (nnx =? 0) then wr (set_prev block) nnx else mret ());;
  bl ← rd len block;
  nl ← rd len nx;
  wr (set_len (u64 (bl + (nl + HB_SIZE)))) block;;
  nnx' ← rd next nx;
  wr (set_next nnx') block.

Definition heap_combine_back (block : Z) : M kheap () :=
  p ← rd prev block;
  if p =? 0 then mret () else
  f ← rd free p;
  if f then heap_combine_forward p else mret ().

Definition heap_split_block (block n : Z) : M kheap Z :=
  if n <? 16 then mret 0 else
  bl ← rd len block;
  let split_block_len := s64 (u64 (bl - n - HB_SIZE)) in
  if split_block_len <? 16 then mret 0 else
  let new := u64 (block + n + HB_SIZE) in
  nx ← rd next block;
  (if truth nx then wr (set_prev new) nx else mret ());;
  nx' ← rd next block;
  wr (set_next nx') new;;
  wr (set_next new) block;;
  wr (set_prev block) new;;
  wr (set_len (u64 split_block_len)) new;;
  f ← rd free block;
  wr (set_free f) new;;
  wr (set_len n) block;;
  lb ← gets last_block;
  (if lb =? block then modify (set_last new) else mret ());;
  mret new.

Definition kheap_expand (n : Z) : M kheap () :=
  acquire_lock;;
  lb ← gets last_block;
  ll ← rd len lb;
  let new := u64 (u64 (lb + ll) + HB_SIZE) in
  wr (set_free true) new;;
  lb1 ← gets last_block;
  wr (set_prev lb1) new;;
  lb2 ← gets last_block;
  wr (set_next new) lb2;;
  modify (set_last new);;
  wr (set_next 0) new;;
  wr (set_len n) new;;
  heap_combine_back new;;
  release_lock.

(** The loop of [kmalloc]: [inr (Some p)] is a [return p], [inr None] the
    [break] at the end of the chain. *)
Definition kmalloc_round (n curr : Z) : M kheap (Z + option Z) :=
  let step : M kheap (Z + option Z) :=
    nx ← rd next curr;
    if nx =? 0 then mret (inr None) else mret (inl nx) in
  f ← rd free curr;
  if f then
    l ← rd len curr;
    if u64 (n + HB_SIZE) <? l then
      heap_split_block curr n;;
      wr (set_free false) curr;;
      release_lock;;
      payload_memset (u64 (curr + HB_SIZE)) 0 n;;
      mret (inr (Some (u64 (curr + HB_SIZE))))
    else if l =? n then
      wr (set_free false) curr;;
      release_lock;;
      payload_memset (u64 (curr + HB_SIZE)) 0 n;;
      mret (inr (Some (u64 (curr + HB_SIZE))))
    else step
  else step.

(** [if (n % 16 != 0) n = n - (n % 16) + 16;] *)
Definition round16 (n : Z) : Z :=
  if truth (n `mod` 16) then u64 (n - n `mod` 16 + 16) else n.

(** [kmalloc] calls itself after expanding the heap: [fuel] bounds those
    calls.  The walk visits distinct headers, so the number of headers in
    memory bounds it. *)
Fixpoint kmalloc (fuel : nat) (n0 : Z) : M kheap Z :=
  match fuel with
  | O => throw NoFuel
  | S fuel' =>
      let n := round16 n0 in
      acquire_lock;;
      curr ← gets heap_start;
      if curr =? 0 then
        kheap_expand n;;
        kmalloc fuel' n
      else
        bound ← gets (fun s => N.of_nat (S (size (blocks s))));
        r ← while_ bound (kmalloc_round n) curr;
        match r with
        | Some p => mret p
        | None =>
            release_lock;;
            kheap_expand n;;
            kmalloc fuel' n
        end
  end.

Definition kfree (ptr : Z) : M kheap () :=
  acquire_lock;;
  let block := u64 (ptr - HB_SIZE) in
  wr (set_free true) block;;
  heap_combine_forward block;;
  heap_combine_back block;;
  release_lock.

Definition krealloc (fuel : nat) (ptr size : Z) : M kheap Z :=
  block_sz ← rd len (u64 (ptr - HB_SIZE));
  if block_sz <? size then mret ptr
  else
    new ← kmalloc fuel size;
    payload_memcpy new ptr block_sz;;
    kfree ptr;;
    mret new.

(** ** The chain of blocks *)

(** The abstract heap: the blocks in address order, each a length and whether it
    is free.  [endaddr a l] is the address after the blocks [l] laid out from
    [a], [lastaddr p a l] the header address of the last of them ([p] if none). *)
Definition chunk : Type := Z * bool.

Fixpoint endaddr (a : Z) (l : list chunk) : Z :=
  match l with
  | [] => a
  | c :: l' => endaddr (a + HB_SIZE + c.1) l'
  end.

Fixpoint lastaddr (p a : Z) (l : list chunk) : Z :=
  match l with
  | [] => p
  | c :: l' => lastaddr a (a + HB_SIZE + c.1) l'
  end.

(** [seg m p a l q]: the headers of [l] are laid out from [a] in [m], doubly
    linked, the first one's [prev] being [p] and the last one's [next] [q]. *)
Fixpoint seg (m : gmap Z heap_block) (p a : Z) (l : list chunk) (q : Z) : Prop :=
  match l with
  | [] => True
  | c :: l' =>
      m !! a = Some (mk_block c.1 c.2 p (if l' is [] then q else a + HB_SIZE + c.1)) /\
      seg m a (a + HB_SIZE + c.1) l' q
  end.

(** [heap_rep s l]: the heap [s] holds the chain [l] and nobody holds the lock.
    The address-space bounds keep every address computation exact. *)
Record heap_rep (s : kheap) (l : list chunk) : Prop := {
  rep_ne : l <> [];
  rep_start : 0 < heap_start s;
  rep_seg : seg (blocks s) 0 (heap_start s) l 0;
  rep_last : last_block s = lastaddr 0 (heap_start s) l;
  rep_len : Forall (fun c => 0 <= c.1) l;
  rep_end : endaddr (heap_start s) l < 2 ^ 64;
  rep_size : endaddr (heap_start s) l - heap_start s < 2 ^ 63;
}.

(** The allocated blocks, as payload address and length. *)
Fixpoint allocs (a : Z) (l : list chunk) : list (Z * Z) :=
  match l with
  | [] => []
  | c :: l' =>
      let rest := allocs (a + HB_SIZE + c.1) l' in
      if c.2 then rest else (a + HB_SIZE, c.1) :: rest
  end.

Lemma endaddr_app a l1 l2 : endaddr a (l1 ++ l2) = endaddr (endaddr a l1) l2.
Proof. revert a. induction l1 as [|c l1 IH]; intros a; [done|]. apply IH. Qed.

Lemma lastaddr_app p a l1 l2 :
  lastaddr p a (l1 ++ l2) = lastaddr (lastaddr p a l1) (endaddr a l1) l2.
Proof. revert p a. induction l1 as [|c l1 IH]; intros p a; [done|]. apply IH. Qed.

Lemma allocs_app a l1 l2 : allocs a (l1 ++ l2) = allocs a l1 ++ allocs (endaddr a l1) l2.
Proof.
  revert a. induction l1 as [|c l1 IH]; intros a; simpl; [done|].
  rewrite IH. by destruct c.2.
Qed.

Lemma endaddr_ge a l : Forall (fun c => 0 <= c.1) l -> a + HB_SIZE * Z.of_nat (length l) <= endaddr a l.
Proof.
  intros Hl. revert a. induction Hl as [|c l Hc Hl IH]; intros a; simpl; [lia|].
  specialize (IH (a + HB_SIZE + c.1)). unfold HB_SIZE in *. lia.
Qed.

Lemma lastaddr_range p a l :
  l <> [] -> Forall (fun c => 0 <= c.1) l -> a <= lastaddr p a l < endaddr a l.
Proof.
  intros Hne Hl. revert p a. induction Hl as [|c l Hc Hl IH]; intros p a; [done|]. simpl.
  pose proof (endaddr_ge (a + HB_SIZE + c.1) l Hl). unfold HB_SIZE in *.
  destruct l as [|c' l']; [simpl in *; lia|].
  specialize (IH ltac:(done) a (a + 32 + c.1)). lia.
Qed.

Lemma seg_app m p a l1 l2 q :
  l2 <> [] ->
  seg m p a (l1 ++ l2) q <->
  seg m p a l1 (endaddr a l1) /\ seg m (lastaddr p a l1) (endaddr a l1) l2 q.
Proof.
  intros Hne. revert p a. induction l1 as [|c l1 IH]; intros p a; [simpl; tauto|].
  simpl. rewrite IH. destruct l1 as [|c' l1']; simpl.
  - destruct l2; [done|]. tauto.
  - tauto.
Qed.

(** A segment does not depend on headers outside its addresses. *)
Lemma seg_insert_out m p a l q x b :
  Forall (fun c => 0 <= c.1) l -> x < a \/ endaddr a l <= x ->
  seg m p a l q -> seg (<[x := b]> m) p a l q.
Proof.
  intros Hl. revert p a. induction Hl as [|c l Hc Hl IH]; intros p a Hx; [done|].
  simpl in *. pose proof (endaddr_ge (a + HB_SIZE + c.1) l Hl). unfold HB_SIZE in *.
  intros [Hm Hs]. split.
  - rewrite lookup_insert_ne by lia. done.
  - apply IH; [lia|done].
Qed.

(** The part of the chain around one block. *)
Lemma seg_middle m p a l1 c l2 q :
  seg m p a (l1 ++ c :: l2) q <->
  seg m p a l1 (endaddr a l1) /\
  m !! endaddr a l1 = Some (mk_block c.1 c.2 (lastaddr p a l1)
     (if l2 is [] then q else endaddr a l1 + HB_SIZE + c.1)) /\
  seg m (endaddr a l1) (endaddr a l1 + HB_SIZE + c.1) l2 q.
Proof. rewrite seg_app by done. simpl. done. Qed.

(** Relinking the head of a segment. *)
Lemma seg_set_prev m p a c l q p' :
  0 <= c.1 -> Forall (fun c => 0 <= c.1) l ->
  seg m p a (c :: l) q ->
  seg (<[a := set_prev p' (mk_block c.1 c.2 p (if l is [] then q else a + HB_SIZE + c.1))]> m)
      p' a (c :: l) q.
Proof.
  intros Hc Hl [Hm Hs]. split; simpl.
  - by rewrite lookup_insert_eq.
  - apply seg_insert_out; [done|unfold HB_SIZE; lia|done].
Qed.

(** ** Rules for the header accesses *)

Lemma wp_rd {A} (f : heap_block -> A) p b Q s :
  p <> 0 -> blocks s !! p = Some b -> Q (f b) s -> wp (rd f p) Q s.
Proof.
  intros Hp Hb HQ. unfold rd. apply wp_bind, wp_guard; [by apply truth_true|].
  apply wp_bind, wp_gets. rewrite Hb. eapply wp_unwrap; [reflexivity|done].
Qed.

Lemma wp_wr f p b (Q : () -> kheap -> Prop) s :
  p <> 0 -> blocks s !! p = Some b ->
  Q () (set_blocks (<[p := f b]> (blocks s)) s) -> wp (wr f p) Q s.
Proof.
  intros Hp Hb HQ. unfold wr. apply wp_bind, wp_guard; [by apply truth_true|].
  apply wp_modify. by rewrite Hb.
Qed.

(** Storing a field of a header that is being made. *)
Lemma wp_wr_new f p (Q : () -> kheap -> Prop) s :
  p <> 0 ->
  Q () (set_blocks (<[p := f (default (mk_block 0 false 0 0) (blocks s !! p))]> (blocks s)) s) ->
  wp (wr f p) Q s.
Proof. intros Hp HQ. apply wp_bind, wp_guard; [by apply truth_true|done]. Qed.

(** What the list operations never change. *)
Definition heap_same (s s' : kheap) : Prop :=
  heap_start s' = heap_start s /\ heap_end s' = heap_end s /\
  kheap_lock s' = kheap_lock s /\ hmem s' = hmem s.

#[export] Instance heap_same_preorder : PreOrder heap_same.
Proof. split; [done|]. intros s1 s2 s3 (?&?&?&?) (?&?&?&?). split_and!; congruence. Qed.

Section middle.
Context (s : kheap) (l1 : list chunk) (c : chunk) (l2 : list chunk).
Hypothesis Hrep : heap_rep s (l1 ++ c :: l2).
Let a := endaddr (heap_start s) l1.

Lemma middle_len : Forall (fun c => 0 <= c.1) l1 /\ 0 <= c.1 /\ Forall (fun c => 0 <= c.1) l2.
Proof. destruct Hrep as [_ _ _ _ Hl _ _]. rewrite Forall_app, Forall_cons in Hl. tauto. Qed.

Lemma middle_addr :
  0 < heap_start s <= a /\ a + HB_SIZE + c.1 <= endaddr (a + HB_SIZE + c.1) l2 < 2 ^ 64 /\
  endaddr (a + HB_SIZE + c.1) l2 - heap_start s < 2 ^ 63.
Proof.
  destruct middle_len as (Hl1 & Hc & Hl2). destruct Hrep as [_ Hs _ _ _ He Hz].
  rewrite endaddr_app in He, Hz. simpl in He, Hz. fold a in He, Hz.
  pose proof (endaddr_ge (heap_start s) l1 Hl1) as H1.
  pose proof (endaddr_ge (a + HB_SIZE + c.1) l2 Hl2) as H2.
  fold a in H1. unfold HB_SIZE in *. lia.
Qed.

Lemma middle_lookup :
  blocks s !! a = Some (mk_block c.1 c.2 (lastaddr 0 (heap_start s) l1)
    (if l2 is [] then 0 else a + HB_SIZE + c.1)).
Proof. destruct Hrep as [_ _ Hseg _ _ _ _]. apply seg_middle in Hseg. tauto. Qed.
End middle.

(** ** Coalescing *)

(** [absorb c l2] is the chain from a block [c] on after [heap_combine_forward]. *)
Definition absorb (c : chunk) (l2 : list chunk) : list chunk :=
  match l2 with
  | (n2, true) :: l3 => (c.1 + (n2 + HB_SIZE), c.2) :: l3
  | _ => c :: l2
  end.

Lemma absorb_endaddr a c l2 : endaddr a (absorb c l2) = endaddr a (c :: l2).
Proof.
  destruct l2 as [|[n2 []] l3]; [done| |done]. simpl. f_equal. lia.
Qed.

(** Merging free blocks does not change what is allocated. *)
Lemma absorb_allocs a n l2 : allocs a (absorb (n, true) l2) = allocs a ((n, true) :: l2).
Proof.
  destruct l2 as [|[n2 []] l3]; [done| |done]. simpl. f_equal. lia.
Qed.

(** Replacing the two blocks [c] and [(n2, true)] by one relinks the chain. *)
Lemma seg_merge m p a l1 c n2 l3 m' :
  Forall (fun c => 0 <= c.1) l1 -> 0 <= c.1 -> 0 <= n2 -> Forall (fun c => 0 <= c.1) l3 ->
  seg m p a (l1 ++ c :: (n2, true) :: l3) 0 ->
  let x := endaddr a l1 in
  let y := x + HB_SIZE + c.1 in
  let z := y + HB_SIZE + n2 in
  m' = <[x := mk_block (c.1 + (n2 + HB_SIZE)) c.2 (lastaddr p a l1)
               (if l3 is [] then 0 else z)]>
         (match l3 with
          | [] => m
          | d :: l4 => <[z := mk_block d.1 d.2 x (if l4 is [] then 0 else z + HB_SIZE + d.1)]> m
          end) ->
  seg m' p a (l1 ++ (c.1 + (n2 + HB_SIZE), c.2) :: l3) 0.
Proof.
  intros Hl1 Hc Hn2 Hl3 Hseg x y z ->.
  apply seg_middle in Hseg. destruct Hseg as (Hs1 & Hm & [Hm2 Hs3]).
  pose proof (endaddr_ge a l1 Hl1) as Hx. fold x in Hx, Hs1, Hm, Hm2, Hs3.
  apply seg_middle. fold x. simpl in *.
  assert (x + HB_SIZE + (c.1 + (n2 + HB_SIZE)) = z) as Hz by (unfold z, y; lia). rewrite Hz.
  unfold HB_SIZE in *. split_and!.
  - apply seg_insert_out; [done|fold x; lia|]. destruct l3 as [|d l4]; [done|].
    apply seg_insert_out; [done|unfold z, y; fold x; lia|done].
  - by rewrite lookup_insert_eq.
  - apply seg_insert_out; [done|unfold z, y; lia|]. destruct l3 as [|d l4]; [done|].
    apply Forall_cons in Hl3 as [Hd Hl4].
    eapply (seg_set_prev _ _ _ _ _ _ x) in Hs3; [|done|done]. apply Hs3.
Qed.

(** The whole heap after the merge. *)
Lemma heap_rep_merge s s' l1 c n2 l3 :
  heap_rep s (l1 ++ c :: (n2, true) :: l3) ->
  let x := endaddr (heap_start s) l1 in
  let y := x + HB_SIZE + c.1 in
  let z := y + HB_SIZE + n2 in
  heap_same s s' ->
  blocks s' =
    <[x := mk_block (c.1 + (n2 + HB_SIZE)) c.2 (lastaddr 0 (heap_start s) l1)
             (if l3 is [] then 0 else z)]>
      (match l3 with
       | [] => blocks s
       | d :: l4 =>
           <[z := mk_block d.1 d.2 x (if l4 is [] then 0 else z + HB_SIZE + d.1)]> (blocks s)
       end) ->
  last_block s' = (if l3 is [] then x else last_block s) ->
  heap_rep s' (l1 ++ (c.1 + (n2 + HB_SIZE), c.2) :: l3).
Proof.
  intros Hrep x y z (Hs' & _) Hb Hl'.
  destruct (middle_len _ _ _ _ Hrep) as (Hl1 & Hc & [Hn2 Hl3]%Forall_cons).
  destruct Hrep as [Hne Hst Hseg Hlast Hlen Hend Hsz].
  assert (endaddr (heap_start s) (l1 ++ (c.1 + (n2 + HB_SIZE), c.2) :: l3)
          = endaddr (heap_start s) (l1 ++ c :: (n2, true) :: l3)) as Heq.
  { rewrite !endaddr_app. simpl. f_equal. lia. }
  split; rewrite ?Hs', ?Heq; try done.
  - by destruct l1.
  - rewrite Hb. by eapply seg_merge.
  - rewrite Hl', lastaddr_app. simpl. fold x.
    replace (x + HB_SIZE + (c.1 + (n2 + HB_SIZE))) with z by (unfold z, y; lia).
    destruct l3 as [|d l4]; [done|]. by rewrite Hlast, lastaddr_app.
  - apply Forall_app; split; [done|]. apply Forall_cons; split; [|done].
    simpl in *. unfold HB_SIZE. lia.
Qed.

(** [hrd H] and [hwr H] step over a read or a write of a header whose contents
    [H] gives, looking through the writes made so far. *)
Ltac hlookup H :=
  simpl; rewrite ?lookup_insert_ne by lia; first [exact H | by rewrite lookup_insert_eq].
Ltac map_norm :=
  apply map_eq; intros ?k; rewrite !lookup_insert; repeat case_decide; simplify_eq; done.
Ltac hrd H := wp_focus; eapply wp_rd; [lia|hlookup H|]; simpl.
Ltac hwr H := wp_focus; eapply wp_wr; [lia|hlookup H|]; simpl.

Lemma heap_combine_forward_wp s l1 c l2 (Q : () -> kheap -> Prop) :
  heap_rep s (l1 ++ c :: l2) ->
  (forall s', heap_same s s' -> heap_rep s' (l1 ++ absorb c l2) -> Q () s') ->
  wp (heap_combine_forward (endaddr (heap_start s) l1)) Q s.
Proof.
  intros Hrep HQ. pose proof (middle_lookup _ _ _ _ Hrep) as Hm.
  pose proof (middle_addr _ _ _ _ Hrep) as Ha. pose proof (middle_len _ _ _ _ Hrep) as Hl.
  unfold heap_combine_forward. set (x := endaddr (heap_start s) l1) in *.
  hrd Hm. destruct l2 as [|[n2 f2] l3]; simpl; [apply wp_ret, HQ; done|].
  destruct Hl as (Hl1 & Hc & [Hn2 Hl3]%Forall_cons). simpl in Hn2, Ha.
  pose proof (endaddr_ge (x + HB_SIZE + c.1 + HB_SIZE + n2) l3 Hl3) as He.
  set (y := x + HB_SIZE + c.1) in *. set (z := y + HB_SIZE + n2) in *.
  assert (0 < x /\ x < y /\ y < z) as Hxyz by (unfold z, y, HB_SIZE in *; lia).
  rewrite (proj2 (Z.eqb_neq y 0)) by lia.
  pose proof (rep_seg _ _ Hrep) as (_ & _ & Hm2 & Hs3)%seg_middle. simpl in Hm2, Hs3.
  fold x y in Hm2, Hs3. fold z in Hm2, Hs3. hrd Hm2.
  destruct f2; simpl; [|apply wp_ret, HQ; done].
  pose proof (rep_last _ _ Hrep) as Hlast.
  rewrite lastaddr_app in Hlast. simpl in Hlast. fold x y z in Hlast.
  assert (u64 (c.1 + (n2 + HB_SIZE)) = c.1 + (n2 + HB_SIZE)) as Hu.
  { apply uN_small. unfold z, y, HB_SIZE in *. lia. }
  wp_step. wp_step. destruct l3 as [|d l4].
  - simpl in Hlast. rewrite Hlast, Z.eqb_refl. wp_step. wp_step.
    hrd Hm2. wp_steps. hrd Hm. hrd Hm2. hwr Hm. hrd Hm2. hwr Hm.
    rewrite insert_insert_eq. unfold set_len, set_next, set_prev; simpl. rewrite Hu.
    apply HQ; [done|]. by apply (heap_rep_merge s).
  - pose proof (lastaddr_range y z (d :: l4) ltac:(done) Hl3).
    rewrite (proj2 (Z.eqb_neq y (last_block s))) by lia. wp_step. wp_step.
    pose proof Hs3 as [Hm3 _]. fold z in Hm3.
    hrd Hm2. rewrite (proj2 (Z.eqb_neq z 0)) by lia. simpl.
    hwr Hm3. hrd Hm. hrd Hm2. hwr Hm. hrd Hm2. hwr Hm.
    rewrite insert_insert_eq. unfold set_len, set_next, set_prev; simpl. rewrite Hu.
    apply HQ; [done|]. by apply (heap_rep_merge s).
Qed.

(** The chain after [heap_combine_back] on the block [c]. *)
Definition absorb_back (l1 : list chunk) (c : chunk) (l2 : list chunk) : list chunk :=
  match reverse l1 with
  | (n0, true) :: r => reverse r ++ absorb (n0, true) (c :: l2)
  | _ => l1 ++ c :: l2
  end.

Lemma heap_combine_back_wp s l1 c l2 (Q : () -> kheap -> Prop) :
  heap_rep s (l1 ++ c :: l2) ->
  (forall s', heap_same s s' -> heap_rep s' (absorb_back l1 c l2) -> Q () s') ->
  wp (heap_combine_back (endaddr (heap_start s) l1)) Q s.
Proof.
  intros Hrep HQ. pose proof (middle_lookup _ _ _ _ Hrep) as Hm.
  pose proof (middle_addr _ _ _ _ Hrep) as Ha.
  unfold heap_combine_back, absorb_back in *. set (x := endaddr (heap_start s) l1) in *.
  hrd Hm. destruct l1 as [|[n0 f0] r _] using rev_ind.
  { simpl in *. apply wp_ret, HQ; done. }
  rewrite reverse_snoc in HQ. rewrite <- (app_assoc r) in Hrep. simpl in Hrep.
  pose proof (middle_lookup _ _ _ _ Hrep) as Hm0.
  pose proof (middle_addr _ _ _ _ Hrep) as Ha0.
  rewrite lastaddr_app. simpl. rewrite (proj2 (Z.eqb_neq _ 0)) by lia.
  hrd Hm0. destruct f0.
  - apply (heap_combine_forward_wp s r (n0, true) (c :: l2)); [done|].
    rewrite reverse_involutive in HQ. done.
  - apply wp_ret, HQ; [done|]. by rewrite <- app_assoc.
Qed.

(** ** Splitting *)

(** The blocks a block [c] becomes when [n] bytes are cut off its front. *)
Definition split_chunk (n : Z) (c : chunk) : list chunk :=
  if (16 <=? n) && (16 <=? c.1 - n - HB_SIZE)
  then [(n, c.2); (c.1 - n - HB_SIZE, c.2)] else [c].

Lemma split_chunk_cases n c :
  (16 <= n /\ 16 <= c.1 - n - HB_SIZE /\
   split_chunk n c = [(n, c.2); (c.1 - n - HB_SIZE, c.2)]) \/
  ((n < 16 \/ c.1 - n - HB_SIZE < 16) /\ split_chunk n c = [c]).
Proof.
  unfold split_chunk. destruct (Z.leb_spec 16 n), (Z.leb_spec 16 (c.1 - n - HB_SIZE)); simpl;
    first [by left | right; split; [lia|done]].
Qed.

Lemma split_chunk_endaddr a n c l : endaddr a (split_chunk n c ++ l) = endaddr a (c :: l).
Proof.
  destruct (split_chunk_cases n c) as [(?&?&->)|(?&->)]; [|done]. simpl. f_equal. lia.
Qed.

(** The heap after a block is cut in two. *)
Lemma heap_rep_cut s s' l1 c l2 n :
  heap_rep s (l1 ++ c :: l2) ->
  16 <= n -> 16 <= c.1 - n - HB_SIZE ->
  let x := endaddr (heap_start s) l1 in
  let y := x + n + HB_SIZE in
  let z := x + HB_SIZE + c.1 in
  heap_same s s' ->
  blocks s' =
    <[x := mk_block n c.2 (lastaddr 0 (heap_start s) l1) y]>
     (<[y := mk_block (c.1 - n - HB_SIZE) c.2 x (if l2 is [] then 0 else z)]>
      (match l2 with
       | [] => blocks s
       | d :: l3 =>
           <[z := mk_block d.1 d.2 y (if l3 is [] then 0 else z + HB_SIZE + d.1)]> (blocks s)
       end)) ->
  last_block s' = (if l2 is [] then y else last_block s) ->
  heap_rep s' (l1 ++ split_chunk n c ++ l2).
Proof.
  intros Hrep Hn Hc x y z (Hs' & _) Hb Hl'.
  destruct (middle_len _ _ _ _ Hrep) as (Hl1 & Hc0 & Hl2).
  pose proof (endaddr_ge (heap_start s) l1 Hl1) as Hx. fold x in Hx.
  destruct Hrep as [Hne Hst Hseg Hlast Hlen Hend Hsz].
  assert (endaddr (heap_start s) (l1 ++ split_chunk n c ++ l2)
          = endaddr (heap_start s) (l1 ++ c :: l2)) as Heq.
  { rewrite !endaddr_app, <- endaddr_app, split_chunk_endaddr. done. }
  split; rewrite ?Hs', ?Heq; try done.
  - destruct l1; [|done]. by destruct (split_chunk_cases n c) as [(?&?&->)|(?&->)].
  - destruct (split_chunk_cases n c) as [(?&?&->)|(?&?)]; [|lia].
    apply seg_middle in Hseg as (Hs1 & Hm & Hs2). simpl app.
    apply seg_middle. fold x. fold x in Hs1, Hm, Hs2. fold z in Hs2. rewrite Hb. simpl.
    replace (x + HB_SIZE + n) with y by (unfold y; lia).
    replace (y + HB_SIZE + (c.1 - n - HB_SIZE)) with z by (unfold y, z; lia).
    assert (x < y /\ y < z) as Hxyz by (unfold y, z, HB_SIZE in *; lia).
    assert (forall m, seg m 0 (heap_start s) l1 x ->
      seg (match l2 with
       | [] => m
       | d :: l3 =>
           <[z := mk_block d.1 d.2 y (if l3 is [] then 0 else z + HB_SIZE + d.1)]> m
       end) 0 (heap_start s) l1 x).
    { intros m ?. destruct l2; [done|]. apply seg_insert_out; [done|fold x; lia|done]. }
    split_and!.
    + apply seg_insert_out; [done|fold x; lia|]. apply seg_insert_out; [done|fold x; lia|]. auto.
    + by rewrite lookup_insert_eq.
    + rewrite lookup_insert_ne by lia. by rewrite lookup_insert_eq.
    + apply seg_insert_out; [done|lia|]. apply seg_insert_out; [done|lia|].
      destruct l2 as [|d l3]; [done|]. apply Forall_cons in Hl2 as [Hd Hl3].
      by eapply (seg_set_prev _ _ _ _ _ _ y) in Hs2.
  - destruct (split_chunk_cases n c) as [(?&?&->)|(?&?)]; [|lia].
    rewrite Hl', Hlast, !lastaddr_app. simpl. fold x.
    replace (x + HB_SIZE + n) with y by (unfold y; lia).
    replace (y + HB_SIZE + (c.1 - n - HB_SIZE)) with z by (unfold y, z; lia).
    by destruct l2.
  - destruct (split_chunk_cases n c) as [(?&?&->)|(?&?)]; [|lia].
    rewrite !Forall_app, !Forall_cons. simpl. split_and!; try done; unfold HB_SIZE in *; lia.
Qed.

Lemma heap_split_block_wp s l1 c l2 n (Q : Z -> kheap -> Prop) :
  heap_rep s (l1 ++ c :: l2) -> 0 <= n < 2 ^ 62 ->
  (forall r s', heap_same s s' -> heap_rep s' (l1 ++ split_chunk n c ++ l2) -> Q r s') ->
  wp (heap_split_block (endaddr (heap_start s) l1) n) Q s.
Proof.
  intros Hrep Hn HQ. pose proof (middle_lookup _ _ _ _ Hrep) as Hm.
  pose proof (middle_addr _ _ _ _ Hrep) as Ha. pose proof (middle_len _ _ _ _ Hrep) as (Hl1 & Hc & Hl2).
  pose proof (endaddr_ge (heap_start s) l1 Hl1) as Hx0.
  unfold heap_split_block. set (x := endaddr (heap_start s) l1) in *.
  destruct (Z.ltb_spec n 16).
  { apply wp_ret, HQ; [done|]. destruct (split_chunk_cases n c) as [(?&?&?)|(?&->)]; [lia|done]. }
  hrd Hm.
  assert (s64 (u64 (c.1 - n - HB_SIZE)) = c.1 - n - HB_SIZE) as Hs64.
  { unfold sN, uN. rewrite Zplus_mod_idemp_l, Z.mod_small; unfold HB_SIZE in *; lia. }
  rewrite Hs64. destruct (Z.ltb_spec (c.1 - n - HB_SIZE) 16).
  { apply wp_ret, HQ; [done|]. destruct (split_chunk_cases n c) as [(?&?&?)|(?&->)]; [lia|done]. }
  assert (u64 (x + n + HB_SIZE) = x + n + HB_SIZE) as -> by (apply uN_small; unfold HB_SIZE in *; lia).
  set (y := x + n + HB_SIZE) in *. set (z := x + HB_SIZE + c.1) in *.
  assert (0 < x /\ x < y /\ y < z) as Hxyz by (unfold z, y, HB_SIZE in *; lia).
  assert (u64 (c.1 - n - HB_SIZE) = c.1 - n - HB_SIZE) as Hu by (apply uN_small; unfold HB_SIZE in *; lia).
  pose proof (rep_last _ _ Hrep) as Hlast. rewrite lastaddr_app in Hlast. simpl in Hlast.
  fold x z in Hlast. hrd Hm. destruct l2 as [|d l3].
  - simpl in Hlast. simpl. wp_step. wp_step.
    hrd Hm. wp_focus. apply wp_wr_new; [lia|]. simpl.
    hwr Hm. hwr Hm. hwr Hm. hrd Hm. hwr Hm. hwr Hm. wp_step. wp_step. simpl. rewrite Hlast, Z.eqb_refl.
    wp_steps. apply HQ; [done|]. eapply (heap_rep_cut s); try done. simpl. rewrite Hu. map_norm.
  - pose proof (lastaddr_range x z (d :: l3) ltac:(done) Hl2).
    pose proof (rep_seg _ _ Hrep) as (_ & _ & Hm2 & Hs3)%seg_middle. fold x z in Hm2.
    rewrite (proj2 (truth_true z)) by lia. hwr Hm2.
    hrd Hm. wp_focus. apply wp_wr_new; [lia|]. simpl.
    hwr Hm. hwr Hm. hwr Hm. hrd Hm. hwr Hm. hwr Hm. wp_step. wp_step. simpl.
    rewrite (proj2 (Z.eqb_neq _ x)) by lia.
    wp_steps. apply HQ; [done|]. eapply (heap_rep_cut s); try done. simpl. rewrite Hu. map_norm.
Qed.

(** ** Marking, clearing and growing *)

(** Writing the [free] flag of one block. *)
Lemma heap_set_free_wp s l1 c l2 v (Q : () -> kheap -> Prop) :
  heap_rep s (l1 ++ c :: l2) ->
  (forall s', heap_same s s' -> heap_rep s' (l1 ++ (c.1, v) :: l2) -> Q () s') ->
  wp (wr (set_free v) (endaddr (heap_start s) l1)) Q s.
Proof.
  intros Hrep HQ. pose proof (middle_lookup _ _ _ _ Hrep) as Hm.
  pose proof (middle_addr _ _ _ _ Hrep) as Ha. pose proof (middle_len _ _ _ _ Hrep) as (Hl1 & Hc & Hl2).
  hwr Hm. apply HQ; [done|]. destruct Hrep as [Hne Hst Hseg Hlast Hlen Hend Hsz].
  split; simpl; try done.
  - by destruct l1.
  - apply seg_middle in Hseg as (Hs1 & _ & Hs2). apply seg_middle. split_and!.
    + apply seg_insert_out; [done|lia|done].
    + by rewrite lookup_insert_eq.
    + apply seg_insert_out; [done|simpl; unfold HB_SIZE in *; lia|done].
  - rewrite Hlast, !lastaddr_app. done.
  - rewrite Forall_app, Forall_cons. done.
  - rewrite endaddr_app in *. done.
  - rewrite endaddr_app in *. done.
Qed.

(** [memset] touches the payload bytes of its range and nothing else. *)
Definition filled (c p n : Z) (m m' : gmap Z Z) : Prop :=
  forall x, m' !! x = if (p <=? x) && (x <? p + n) then Some c else m !! x.

Lemma payload_memset_wp p c n s (Q : () -> kheap -> Prop) :
  0 <= n ->
  (forall m', filled c p n (hmem s) m' -> Q () (set_hmem m' s)) ->
  wp (payload_memset p c n) Q s.
Proof.
  intros Hn HQ. unfold payload_memset.
  apply (wp_for_each (fun i s' => exists m', filled c p i (hmem s) m' /\ s' = set_hmem m' s)).
  - done.
  - exists (hmem s). split; [|by destruct s]. intros x.
    destruct (Z.leb_spec p x), (Z.ltb_spec x (p + 0)); simpl; done || lia.
  - intros i s' Hi (m' & Hf & ->). apply wp_modify. eexists. split; [|reflexivity]. intros x.
    simpl. rewrite lookup_insert. case_decide as Hx.
    + subst. destruct (Z.leb_spec p (p + i)), (Z.ltb_spec (p + i) (p + (i + 1))); simpl; done || lia.
    + rewrite Hf.
      destruct (Z.leb_spec p x), (Z.ltb_spec x (p + i)), (Z.ltb_spec x (p + (i + 1))); simpl; done || lia.
  - intros s' (m' & Hf & ->). auto.
Qed.

(** The chain after [kheap_expand]. *)
Definition aexpand (n : Z) (l : list chunk) : list chunk := absorb_back l (n, true) [].

(** There is room for [n] more bytes: the addresses after the heap exist and
    the heap stays below half the address space. *)
Definition room (s : kheap) (l : list chunk) (n : Z) : Prop :=
  endaddr (heap_start s) l + n < 2 ^ 64 /\ endaddr (heap_start s) l - heap_start s + n < 2 ^ 63.

Lemma heap_rep_extend s s' l c n :
  heap_rep s (l ++ [c]) -> 0 <= n -> room s (l ++ [c]) (HB_SIZE + n) ->
  heap_start s' = heap_start s ->
  let x := endaddr (heap_start s) l in
  let y := x + HB_SIZE + c.1 in
  blocks s' = <[y := mk_block n true x 0]>
              (<[x := mk_block c.1 c.2 (lastaddr 0 (heap_start s) l) y]> (blocks s)) ->
  last_block s' = y ->
  heap_rep s' ((l ++ [c]) ++ [(n, true)]).
Proof.
  intros Hrep Hn [Hr1 Hr2] Hs' x y Hb Hl'.
  pose proof (middle_addr _ _ _ _ Hrep) as Ha. fold x in Ha.
  destruct (middle_len _ _ _ _ Hrep) as (Hl1 & Hc & _).
  destruct Hrep as [Hne Hst Hseg Hlast Hlen Hend Hsz].
  assert (endaddr (heap_start s) (l ++ [c]) = y) as Hy by (rewrite endaddr_app; done).
  split; rewrite ?Hs', ?endaddr_app, ?Hy; simpl; try done; unfold HB_SIZE in *; try lia.
  - by destruct l.
  - apply seg_middle in Hseg as (Hs1 & Hm & _). fold x in Hs1, Hm.
    apply seg_middle. rewrite Hy. split_and!; [|by rewrite Hb, lookup_insert_eq, lastaddr_app|done].
    apply seg_middle. fold x. rewrite Hb. split_and!; [| |done].
    + apply seg_insert_out; [done|fold x; lia|]. apply seg_insert_out; [done|fold x; lia|done].
    + rewrite lookup_insert_ne by lia. rewrite lookup_insert_eq. done.
  - rewrite lastaddr_app, Hy. done.
  - rewrite Forall_app, Forall_cons. done.
Qed.

Lemma kheap_expand_wp s l n (Q : () -> kheap -> Prop) :
  heap_rep s l -> kheap_lock s = 0 -> 0 <= n -> room s l (HB_SIZE + n) ->
  (forall s', heap_same s s' -> heap_rep s' (aexpand n l) -> Q () s') ->
  wp (kheap_expand n) Q s.
Proof.
  intros Hrep Hlock Hn Hroom HQ. pose proof (rep_ne _ _ Hrep) as Hne.
  destruct l as [|c l _] using rev_ind; [done|].
  pose proof (middle_lookup _ _ _ _ Hrep) as Hm. pose proof (middle_addr _ _ _ _ Hrep) as Ha.
  destruct (middle_len _ _ _ _ Hrep) as (Hl1 & Hc & _).
  pose proof (rep_last _ _ Hrep) as Hlast. rewrite lastaddr_app in Hlast. simpl in Hlast.
  unfold kheap_expand. set (x := endaddr (heap_start s) l) in *.
  unfold acquire_lock. wp_steps. rewrite Hlock. simpl. wp_steps. simpl.
  rewrite Hlast. hrd Hm.
  destruct Hroom as [Hr1 Hr2]. rewrite !endaddr_app in Hr1, Hr2. simpl in Hr1, Hr2. fold x in Hr1, Hr2.
  assert (u64 (u64 (x + c.1) + HB_SIZE) = x + HB_SIZE + c.1) as ->.
  { unfold HB_SIZE in *. rewrite (uN_small 64 (x + c.1)), uN_small by lia. lia. }
  set (y := x + HB_SIZE + c.1) in *.
  assert (0 < x /\ x < y) as Hxy by (unfold y, HB_SIZE in *; lia).
  wp_focus. apply wp_wr_new; [lia|]. simpl. wp_steps. simpl. rewrite Hlast.
  hwr Hm. wp_steps. simpl. rewrite Hlast. hwr Hm. wp_steps. simpl. hwr Hm. hwr Hm.
  wp_focus.
  match goal with |- wp _ _ ?s0 => set (s1 := s0) end.
  assert (heap_rep s1 ((l ++ [c]) ++ [(n, true)])) as Hrep1.
  { apply (heap_rep_extend s); try done; [split; rewrite endaddr_app; done|].
    fold x. fold y. unfold s1. simpl. map_norm. }
  replace y with (endaddr (heap_start s1) (l ++ [c])) by (rewrite endaddr_app; done).
  apply heap_combine_back_wp with (c := (n, true)) (l2 := []); [done|].
  intros s' (Hs1 & Hs2 & Hs3 & Hs4) Hrep'. unfold release_lock. wp_step.
  apply HQ; [split_and!; done|]. destruct Hrep'. split; done.
Qed.

(** ** The abstract allocator *)

(** What [kmalloc] accepts: exactly the requested length, or more than the
    request and another header. *)
Definition fits (n : Z) (c : chunk) : bool :=
  c.2 && ((n + HB_SIZE <? c.1) || (c.1 =? n)).

(** First fit, as the blocks before, the block, and the blocks after. *)
Fixpoint afit (n : Z) (l : list chunk) : option (list chunk * chunk * list chunk) :=
  match l with
  | [] => None
  | c :: l' =>
      if fits n c then Some ([], c, l')
      else match afit n l' with
           | Some (l1, d, l2) => Some (c :: l1, d, l2)
           | None => None
           end
  end.

(** The block handed out and the free rest. *)
Definition aused (n : Z) (c : chunk) : list chunk :=
  match split_chunk n c with
  | d :: r => (d.1, false) :: r
  | [] => []
  end.

(** The payload address and the new chain. *)
Fixpoint amalloc (fuel : nat) (n a : Z) (l : list chunk) : option (Z * list chunk) :=
  match fuel with
  | O => None
  | S fuel' =>
      match afit n l with
      | Some (l1, c, l2) => Some (endaddr a l1 + HB_SIZE, l1 ++ aused n c ++ l2)
      | None => amalloc fuel' n a (aexpand n l)
      end
  end.

(** The chain after [kfree] of the block between [l1] and [l2]. *)
Definition afree (l1 : list chunk) (n : Z) (l2 : list chunk) : list chunk :=
  match absorb (n, true) l2 with
  | d :: r => absorb_back l1 d r
  | [] => []
  end.

Lemma afit_Some n l l1 c l2 :
  afit n l = Some (l1, c, l2) ->
  l = l1 ++ c :: l2 /\ fits n c = true /\ Forall (fun d => fits n d = false) l1.
Proof.
  revert l1. induction l as [|d l IH]; intros l1; simpl; [done|].
  destruct (fits n d) eqn:Hd; [by intros [= <- <- <-]|].
  destruct (afit n l) as [[[l1' c'] l2']|]; [|done].
  intros [= <- -> ->]. destruct (IH l1' eq_refl) as (-> & ? & ?). by auto.
Qed.

Lemma afit_None n l : afit n l = None <-> Forall (fun d => fits n d = false) l.
Proof.
  induction l as [|d l IH]; simpl; [done|]. rewrite Forall_cons.
  destruct (fits n d); [split; [done|by intros []]|].
  destruct (afit n l) as [[[l1' c'] l2']|]; rewrite <- IH; (split; [done|by intros []]) || tauto.
Qed.

Lemma afit_app n l1 l2 :
  Forall (fun d => fits n d = false) l1 ->
  afit n (l1 ++ l2) =
  match afit n l2 with Some (m1, c, m2) => Some (l1 ++ m1, c, m2) | None => None end.
Proof.
  induction 1 as [|d l1 Hd _ IH]; simpl.
  - by destruct (afit n l2) as [[[]]|].
  - rewrite Hd, IH. by destruct (afit n l2) as [[[]]|].
Qed.

(** Two expansions are always enough for a request to be satisfied. *)
Lemma aexpand_snoc n l f m : aexpand n (l ++ [(m, f)]) =
  if f then l ++ [(m + (n + HB_SIZE), true)] else (l ++ [(m, f)]) ++ [(n, true)].
Proof.
  unfold aexpand, absorb_back. rewrite reverse_snoc. destruct f; [|done].
  by rewrite reverse_involutive.
Qed.

Lemma amalloc_enough n a l :
  0 <= n -> l <> [] -> Forall (fun c => 0 <= c.1) l -> exists p l', amalloc 3 n a l = Some (p, l').
Proof.
  intros Hn Hne Hl. destruct l as [|[m f] l _] using rev_ind; [done|].
  simpl. destruct (afit n (l ++ [(m, f)])) as [[[l1 c] l2]|] eqn:H1; [by eauto|].
  apply afit_None, Forall_app in H1 as [H1 _].
  apply Forall_app in Hl as [_ [Hm _]%Forall_cons]. simpl in Hm.
  rewrite aexpand_snoc. destruct f.
  - destruct (afit n (l ++ [_])) as [[[l1 c] l2]|] eqn:H2; [by eauto|].
    rewrite aexpand_snoc, afit_app by done. simpl. unfold fits at 1. simpl.
    destruct (Z.ltb_spec (n + HB_SIZE) (m + (n + HB_SIZE) + (n + HB_SIZE))); simpl; [by eauto|].
    unfold HB_SIZE in *. lia.
  - rewrite <- app_assoc, afit_app by done. simpl. unfold fits. simpl. 
    rewrite Z.eqb_refl, orb_true_r. simpl. by eauto.
Qed.

(** ** The walk over the chain *)

Lemma seg_delete_out m p a l q x :
  Forall (fun c => 0 <= c.1) l -> x < a ->
  seg m p a l q -> seg (delete x m) p a l q.
Proof.
  intros Hl. revert p a. induction Hl as [|c l Hc Hl IH]; intros p a Hx; [done|].
  simpl. intros [Hm Hs]. split; [by rewrite lookup_delete_ne by lia|].
  apply IH; [unfold HB_SIZE; lia|done].
Qed.

(** Every block has a header of its own in memory. *)
Lemma seg_size m p a l q :
  Forall (fun c => 0 <= c.1) l -> seg m p a l q -> (length l <= size m)%nat.
Proof.
  intros Hl. revert m p a. induction Hl as [|c l Hc Hl IH]; intros m p a; simpl; [lia|].
  intros [Hm Hs]. apply (seg_delete_out _ _ _ _ _ a) in Hs; [|done|unfold HB_SIZE; lia].
  apply IH in Hs. rewrite map_size_delete_Some in Hs by eauto.
  assert (size m <> 0%nat); [|lia]. intros H0%map_size_empty_iff. by rewrite H0 in Hm.
Qed.

(** What [kmalloc] leaves behind when it hands out the block [c] at [l1]. *)
Definition kmalloc_done (s : kheap) (n : Z) (l1 : list chunk) (c : chunk) (l2 : list chunk)
    (p : Z) (s' : kheap) : Prop :=
  p = endaddr (heap_start s) l1 + HB_SIZE /\
  heap_rep s' (l1 ++ aused n c ++ l2) /\
  heap_start s' = heap_start s /\ heap_end s' = heap_end s /\ kheap_lock s' = 0 /\
  filled 0 p n (hmem s) (hmem s').

Lemma heap_rep_set_lock s l v : heap_rep s l -> heap_rep (set_lock v s) l.
Proof. intros []. by split. Qed.
Lemma heap_rep_set_hmem s l m : heap_rep s l -> heap_rep (set_hmem m s) l.
Proof. intros []. by split. Qed.
#[export] Hint Resolve heap_rep_set_lock heap_rep_set_hmem : kernel.

(** The common end of the two ways to hand out a block. *)
Lemma kmalloc_finish_wp s0 s n l1 c l2 :
  heap_rep s (l1 ++ c :: l2) -> heap_start s = heap_start s0 -> heap_end s = heap_end s0 ->
  hmem s = hmem s0 -> 0 <= n ->
  let a := endaddr (heap_start s0) l1 in
  wp (wr (set_free false) a;; release_lock;;
      payload_memset (u64 (a + HB_SIZE)) 0 n;;
      mret (inr (A := Z) (Some (u64 (a + HB_SIZE)))))
     (fun r s' => exists p, r = inr (Some p) /\
        p = a + HB_SIZE /\ heap_rep s' (l1 ++ (c.1, false) :: l2) /\
        heap_start s' = heap_start s0 /\ heap_end s' = heap_end s0 /\ kheap_lock s' = 0 /\
        filled 0 p n (hmem s0) (hmem s')) s.
Proof.
  intros Hrep Hs He Hh Hn a. pose proof (middle_addr _ _ _ _ Hrep) as Ha. rewrite Hs in Ha. fold a in Ha.
  destruct (middle_len _ _ _ _ Hrep) as (_ & Hc & _).
  rewrite uN_small by (unfold HB_SIZE in *; lia).
  unfold a. rewrite <- Hs. wp_focus. apply heap_set_free_wp with (c := c) (l2 := l2); [done|].
  intros s1 (H1 & H2 & H3 & H4) Hrep1. unfold release_lock. wp_step. wp_step.
  wp_focus. apply payload_memset_wp; [done|]. intros m' Hf. wp_step. eexists. split; [done|].
  simpl in *. rewrite <- Hh, <- H4. split_and!; try congruence; auto with kernel.
Qed.

(** The walk: the blocks before the current one do not fit, and [k] are left. *)
Definition walk_inv (s : kheap) (n : Z) (l : list chunk) (k : nat) (curr : Z) (s' : kheap) : Prop :=
  s' = s /\ exists l1 l2, l = l1 ++ l2 /\ l2 <> [] /\ k = length l2 /\
    curr = endaddr (heap_start s) l1 /\ Forall (fun d => fits n d = false) l1.

Definition walk_post (s : kheap) (n : Z) (l : list chunk) (r : option Z) (s' : kheap) : Prop :=
  match r, afit n l with
  | Some p, Some (l1, c, l2) => kmalloc_done s n l1 c l2 p s'
  | None, None => s' = s
  | _, _ => False
  end.

Section walk.
Context (s : kheap) (n : Z) (l1 : list chunk) (c : chunk) (l2 : list chunk).
Hypothesis Hrep : heap_rep s (l1 ++ c :: l2).
Hypothesis Hn : 0 <= n < 2 ^ 62.
Hypothesis Hf : Forall (fun d => fits n d = false) l1.
Let l := l1 ++ c :: l2.
Let x := endaddr (heap_start s) l1.
Let Q (r : Z + option Z) (s' : kheap) : Prop :=
  match r with
  | inl a' => exists k', (k' < length (c :: l2))%nat /\ walk_inv s n l k' a' s'
  | inr b => walk_post s n l b s'
  end.

(** Going on to the next block, or leaving at the end. *)
Lemma kmalloc_next_wp :
  fits n c = false ->
  wp (nx ← rd next x; if nx =? 0 then mret (inr None) else mret (inl nx)) Q s.
Proof.
  intros Hfc. pose proof (middle_lookup _ _ _ _ Hrep) as Hm.
  pose proof (middle_addr _ _ _ _ Hrep) as Ha. pose proof (middle_len _ _ _ _ Hrep) as Hl.
  fold x in Hm, Ha. hrd Hm. destruct l2 as [|d l3].
  - apply wp_ret. simpl. unfold walk_post, l. rewrite afit_app by done. simpl. by rewrite Hfc.
  - rewrite (proj2 (Z.eqb_neq _ 0)) by (unfold HB_SIZE in *; lia). apply wp_ret.
    exists (length (d :: l3)). split; [simpl; lia|]. split; [done|].
    exists (l1 ++ [c]), (d :: l3). unfold l. rewrite <- app_assoc, endaddr_app. split_and!; try done.
    rewrite Forall_app, Forall_singleton. done.
Qed.

Lemma walk_post_here p s' : fits n c = true -> kmalloc_done s n l1 c l2 p s' -> Q (inr (Some p)) s'.
Proof.
  intros Hfc Hd. simpl. unfold walk_post, l. rewrite afit_app by done. simpl.
  rewrite Hfc, app_nil_r. done.
Qed.

Lemma kmalloc_round_wp : wp (kmalloc_round n x) Q s.
Proof.
  pose proof (middle_lookup _ _ _ _ Hrep) as Hm. pose proof (middle_addr _ _ _ _ Hrep) as Ha.
  destruct (middle_len _ _ _ _ Hrep) as (_ & Hc & _). fold x in Hm, Ha.
  pose proof walk_post_here as Hdone. pose proof kmalloc_next_wp as Hnext.
  unfold kmalloc_round. unfold fits in Hdone, Hnext.
  hrd Hm. destruct c.2 eqn:Hfree; [|by apply Hnext].
  hrd Hm. rewrite (uN_small 64) by (unfold HB_SIZE; lia). unfold kmalloc_done, aused in Hdone.
  destruct (Z.ltb_spec (n + HB_SIZE) c.1) as [Hlt|Hge].
  - wp_focus. apply heap_split_block_wp with (c := c) (l2 := l2); [done|lia|].
    intros r s1 (H1 & H2 & H3 & H4) Hrep1.
    destruct (split_chunk n c) as [|d r'] eqn:Hsp.
    { by destruct (split_chunk_cases n c) as [(?&?&?)|(?&?)]; rewrite Hsp in *. }
    eapply wp_mono; [apply (kmalloc_finish_wp s s1 n l1 d (r' ++ l2)); done || lia|].
    intros ? s2 (p & -> & ?). by apply Hdone.
  - destruct (Z.eqb_spec c.1 n) as [Heq|Hne']; [|by apply Hnext].
    eapply wp_mono; [apply (kmalloc_finish_wp s s n l1 c l2); done || lia|].
    intros ? s2 (p & -> & ?). apply Hdone; [done|].
    destruct (split_chunk_cases n c) as [(?&?&?)|(?&->)]; [unfold HB_SIZE in *; lia|done].
Qed.
End walk.

Lemma kmalloc_walk_wp s n l :
  heap_rep s l -> 0 <= n < 2 ^ 62 ->
  wp (while_ (N.of_nat (S (size (blocks s)))) (kmalloc_round n) (heap_start s)) (walk_post s n l) s.
Proof.
  intros Hrep Hn.
  pose proof (seg_size _ _ _ _ _ (rep_len _ _ Hrep) (rep_seg _ _ Hrep)) as Hsize.
  apply (wp_while (walk_inv s n l) (length l)).
  - split; [done|]. exists [], l. split_and!; done || apply (rep_ne _ _ Hrep).
  - rewrite Nat2N.id. apply Nat.lt_succ_r, Hsize.
  - intros k curr s' (-> & l1 & l2 & -> & Hne & -> & -> & Hf). destruct l2 as [|c l2]; [done|].
    by apply kmalloc_round_wp.
Qed.

(** ** [kmalloc], [kfree] and [krealloc] *)

Lemma round16_spec n : 0 <= n < 2 ^ 62 ->
  n <= round16 n < n + 16 /\ round16 n `mod` 16 = 0.
Proof.
  intros Hn. unfold round16. destruct (truth (n `mod` 16)) eqn:Ht.
  - rewrite uN_small by dlia. apply truth_true in Ht. dlia.
  - apply truth_false in Ht. dlia.
Qed.

Lemma round16_id n : n `mod` 16 = 0 -> round16 n = n.
Proof. intros Hn. unfold round16. by rewrite Hn. Qed.

Lemma absorb_back_endaddr a l1 c l2 : endaddr a (absorb_back l1 c l2) = endaddr a (l1 ++ c :: l2).
Proof.
  unfold absorb_back. destruct l1 as [|[n0 f0] r _] using rev_ind; [done|].
  rewrite reverse_snoc. destruct f0; [|done].
  rewrite reverse_involutive, <- app_assoc, !endaddr_app, absorb_endaddr. done.
Qed.

Lemma aexpand_endaddr a n l : endaddr a (aexpand n l) = endaddr a l + HB_SIZE + n.
Proof. unfold aexpand. rewrite absorb_back_endaddr, endaddr_app. done. Qed.

(** What a finished [kmalloc n] did to the memory it does not manage: the
    payload is zeroed, everything else is as it was. *)
Definition malloc_frame (s : kheap) (n p : Z) (s' : kheap) : Prop :=
  heap_start s' = heap_start s /\ heap_end s' = heap_end s /\ kheap_lock s' = 0 /\
  filled 0 p n (hmem s) (hmem s').

Lemma kmalloc_wp fuel s l n0 p l' :
  let n := round16 n0 in
  heap_rep s l -> kheap_lock s = 0 -> 0 <= n < 2 ^ 62 -> n `mod` 16 = 0 ->
  room s l (Z.of_nat fuel * (HB_SIZE + n)) ->
  amalloc fuel n (heap_start s) l = Some (p, l') ->
  wp (kmalloc fuel n0) (fun r s' => r = p /\ heap_rep s' l' /\ malloc_frame s n p s') s.
Proof.
  revert s l n0. induction fuel as [|fuel IH]; intros s l n0 n Hrep Hlock Hn H16 Hroom Hm; [done|].
  simpl kmalloc. fold n. unfold acquire_lock. wp_steps. rewrite Hlock. simpl. wp_steps.
  pose proof (rep_start _ _ Hrep). simpl. rewrite (proj2 (Z.eqb_neq _ 0)) by lia.
  wp_steps. wp_focus. eapply wp_mono; [apply (kmalloc_walk_wp (set_lock 1 s) n l); auto with kernel|].
  simpl in Hm. intros r s1. unfold walk_post. destruct (afit n l) as [[[l1 c] l2]|], r as [p'|]; try done.
  - injection Hm as <- <-. intros (-> & Hrep1 & Hs1). apply wp_ret. done.
  - intros ->. unfold release_lock. wp_steps. wp_focus.
    apply kheap_expand_wp with (l := l); [by auto with kernel|done|lia| |].
    { destruct Hroom. split; simpl; unfold HB_SIZE in *; lia. }
    intros s2 (H1 & H2 & H3 & H4) Hrep2. simpl in *.
    assert (round16 n = n) as Hidn by (by apply round16_id).
    specialize (IH s2 (aexpand n l) n). rewrite Hidn in IH. eapply wp_mono.
    + apply IH; [done|congruence|done|done| |by rewrite H1].
      destruct Hroom. unfold room. rewrite aexpand_endaddr, H1. unfold HB_SIZE in *. lia.
    + intros ? s3 (-> & Hrep3 & Hs3 & He3 & Hl3 & Hm3).
      split_and!; [done|done|]. unfold malloc_frame. rewrite Hs3, He3, H1, H2. rewrite H4 in Hm3. done.
Qed.

Lemma heap_same_trans s1 s2 s3 : heap_same s1 s2 -> heap_same s2 s3 -> heap_same s1 s3.
Proof. intros. by transitivity s2. Qed.

Lemma kfree_wp s l1 n l2 :
  heap_rep s (l1 ++ (n, false) :: l2) -> kheap_lock s = 0 ->
  wp (kfree (endaddr (heap_start s) l1 + HB_SIZE))
     (fun _ s' => heap_same s s' /\ heap_rep s' (afree l1 n l2)) s.
Proof.
  intros Hrep Hlock. pose proof (middle_addr _ _ _ _ Hrep) as Ha.
  unfold kfree, acquire_lock. wp_steps. rewrite Hlock. simpl. wp_steps.
  replace (endaddr (heap_start s) l1 + HB_SIZE - HB_SIZE) with (endaddr (heap_start s) l1) by lia.
  destruct (middle_len _ _ _ _ Hrep) as (_ & Hc & _). simpl in Hc.
  rewrite uN_small by (simpl in *; unfold HB_SIZE in *; lia).
  change (heap_start s) with (heap_start (set_lock 1 s)). wp_focus.
  apply heap_set_free_wp with (c := (n, false)) (l2 := l2); [by auto with kernel|].
  intros s1 Hs1 Hrep1. simpl in Hrep1. replace (heap_start (set_lock 1 s)) with (heap_start s1) by apply Hs1.
  wp_focus. apply heap_combine_forward_wp with (c := (n, true)) (l2 := l2); [done|].
  intros s2 Hs2 Hrep2. replace (heap_start s1) with (heap_start s2) by apply Hs2. unfold afree.
  destruct (absorb (n, true) l2) as [|d r] eqn:Habs; [by destruct l2 as [|[? []]]|].
  wp_focus. apply heap_combine_back_wp with (c := d) (l2 := r); [done|].
  intros s3 Hs3 Hrep3. unfold release_lock. wp_steps. pose proof (heap_same_trans _ _ _ Hs1 Hs2) as Hs.
  destruct (heap_same_trans _ _ _ Hs Hs3) as (?&?&?&?). split; [by split_and!|by auto with kernel].
Qed.

(** ** What the abstract allocator guarantees *)

Lemma absorb_back_allocs a l1 n l2 :
  allocs a (absorb_back l1 (n, true) l2) = allocs a (l1 ++ (n, true) :: l2).
Proof.
  unfold absorb_back. destruct l1 as [|[n0 f0] r _] using rev_ind; [done|].
  rewrite reverse_snoc. destruct f0; [|done].
  rewrite reverse_involutive, <- app_assoc, !allocs_app, absorb_allocs. done.
Qed.

Lemma aexpand_allocs a n l : allocs a (aexpand n l) = allocs a l.
Proof. unfold aexpand. rewrite absorb_back_allocs, allocs_app. simpl. by rewrite app_nil_r. Qed.

Lemma aused_allocs a n c l2 :
  0 <= n -> fits n c = true ->
  exists k, n <= k <= c.1 /\ allocs a (aused n c ++ l2) = (a + HB_SIZE, k) :: allocs a (c :: l2).
Proof.
  intros Hn [Hc Hf]%andb_true_iff. unfold aused.
  destruct (split_chunk_cases n c) as [(?&?&->)|(?&->)]; simpl; rewrite Hc.
  - exists n. split; [unfold HB_SIZE in *; lia|]. do 2 f_equal. lia.
  - exists c.1. split; [|done].
    apply orb_true_iff in Hf as [Hf%Z.ltb_lt|Hf%Z.eqb_eq]; unfold HB_SIZE in *; lia.
Qed.

Lemma aused_endaddr a n c l2 : endaddr a (aused n c ++ l2) = endaddr a (c :: l2).
Proof.
  rewrite <- (split_chunk_endaddr a n c l2). unfold aused. by destruct (split_chunk n c).
Qed.

(** The new block is added to the allocated ones, and nothing else changes. *)
Lemma amalloc_allocs fuel n a l p l' :
  0 <= n -> amalloc fuel n a l = Some (p, l') ->
  (exists k, n <= k /\ allocs a l' ≡ₚ (p, k) :: allocs a l) /\
  endaddr a l <= endaddr a l' <= endaddr a l + Z.of_nat fuel * (HB_SIZE + n).
Proof.
  intros Hn. revert l. induction fuel as [|fuel IH]; intros l; [done|]. simpl.
  destruct (afit n l) as [[[l1 c] l2]|] eqn:Hfit.
  - intros [= <- <-]. apply afit_Some in Hfit as (-> & Hf & _). split.
    + destruct (aused_allocs (endaddr a l1) n c l2 Hn Hf) as (k & Hk & Heq).
      exists k. split; [lia|]. rewrite !(allocs_app a l1), Heq. by rewrite <- Permutation_middle.
    + rewrite !(endaddr_app a l1), aused_endaddr. unfold HB_SIZE. lia.
  - intros Hm. apply IH in Hm. rewrite aexpand_allocs, aexpand_endaddr in Hm.
    unfold HB_SIZE in *. split; [tauto|lia].
Qed.

Lemma afree_allocs a l1 n l2 :
  allocs a (l1 ++ (n, false) :: l2) ≡ₚ (endaddr a l1 + HB_SIZE, n) :: allocs a (afree l1 n l2).
Proof.
  assert (allocs a (afree l1 n l2) = allocs a (l1 ++ (n, true) :: l2)) as ->.
  { unfold afree. pose proof (absorb_allocs (endaddr a l1) n l2) as Habs.
    destruct (absorb (n, true) l2) as [|[m f] r] eqn:He; [by destruct l2 as [|[? []]]|].
    assert (f = true) as -> by (destruct l2 as [|[? []]]; simpl in He; congruence).
    rewrite absorb_back_allocs, !(allocs_app a l1). by f_equal. }
  rewrite !allocs_app. simpl. by rewrite <- Permutation_middle.
Qed.

Lemma afree_endaddr a l1 n l2 : endaddr a (afree l1 n l2) = endaddr a (l1 ++ (n, false) :: l2).
Proof.
  unfold afree. pose proof (absorb_endaddr (endaddr a l1) (n, true) l2) as Habs.
  destruct (absorb (n, true) l2) as [|d r] eqn:He; [by destruct l2 as [|[? []]]|].
  rewrite absorb_back_endaddr, !(endaddr_app a l1). apply Habs.
Qed.

(** An allocated range comes from a block of the chain. *)
Lemma allocs_elem a l p k :
  (p, k) ∈ allocs a l ->
  exists l1 l2, l = l1 ++ (k, false) :: l2 /\ p = endaddr a l1 + HB_SIZE.
Proof.
  revert a. induction l as [|[m f] l IH]; intros a; simpl; [by intros ?%elem_of_nil|].
  destruct f.
  - intros (l1 & l2 & -> & ->)%IH. by exists ((m, true) :: l1), l2.
  - intros [[= -> ->]|(l1 & l2 & -> & ->)%IH]%elem_of_cons; [by exists [], l|].
    by exists ((m, false) :: l1), l2.
Qed.

(** Two ranges, headers included, that do not touch. *)
Definition apart (u v : Z * Z) : Prop :=
  u.1 + u.2 + HB_SIZE <= v.1 \/ v.1 + v.2 + HB_SIZE <= u.1.

#[export] Instance apart_sym : Symmetric apart.
Proof. intros u v [?|?]; [by right|by left]. Qed.

Lemma allocs_lower a l u :
  Forall (fun c => 0 <= c.1) l -> u ∈ allocs a l ->
  a + HB_SIZE <= u.1 /\ 0 <= u.2 /\ u.1 + u.2 <= endaddr a l.
Proof.
  intros Hl Hu. destruct u as [p k]. apply allocs_elem in Hu as (l1 & l2 & -> & ->).
  apply Forall_app in Hl as [Hl1 [Hk Hl2]%Forall_cons]. rewrite endaddr_app. simpl in *.
  pose proof (endaddr_ge a l1 Hl1). pose proof (endaddr_ge (endaddr a l1 + HB_SIZE + k) l2 Hl2).
  unfold HB_SIZE in *. lia.
Qed.

(** Allocated ranges are pairwise apart. *)
Lemma allocs_apart a l : Forall (fun c => 0 <= c.1) l -> ForallOrdPairs apart (allocs a l).
Proof.
  intros Hl. revert a. induction Hl as [|[m f] l Hc Hl IH]; intros a; simpl; [constructor|].
  destruct f; [done|]. constructor; [|done].
  apply Forall_forall. intros u Hu. left. simpl.
  apply allocs_lower in Hu; [|done]. unfold HB_SIZE in *. lia.
Qed.

Lemma ForallOrdPairs_perm {A} (R : A -> A -> Prop) `{!Symmetric R} (l1 l2 : list A) :
  l1 ≡ₚ l2 -> ForallOrdPairs R l1 -> ForallOrdPairs R l2.
Proof.
  induction 1 as [|x l1 l2 Hp IH|x y l|l1 l2 l3 _ IH1 _ IH2]; intros HF; [done| | |auto].
  - inversion_clear HF as [|? ? Hx HF']. constructor; [by rewrite <- Hp|auto].
  - inversion_clear HF as [|? ? Hy HF']. inversion_clear HF' as [|? ? Hx HF''].
    apply Forall_cons in Hy as [Hxy Hy]. repeat constructor; auto.
Qed.

(** Everything a caller of [kmalloc] can rely on, in one lemma. *)
Lemma kmalloc_spec s l n :
  heap_rep s l -> kheap_lock s = 0 -> 0 <= n < 2 ^ 61 ->
  room s l (3 * (HB_SIZE + round16 n)) ->
  wp (kmalloc 3 n) (fun p s' => exists l' k,
    amalloc 3 (round16 n) (heap_start s) l = Some (p, l') /\
    heap_rep s' l' /\ malloc_frame s (round16 n) p s' /\
    round16 n <= k /\ allocs (heap_start s) l' ≡ₚ (p, k) :: allocs (heap_start s) l /\
    Forall (apart (p, k)) (allocs (heap_start s) l) /\
    heap_start s + HB_SIZE <= p /\ p + k <= endaddr (heap_start s) l' /\
    endaddr (heap_start s) l' <= endaddr (heap_start s) l + 3 * (HB_SIZE + round16 n)) s.
Proof.
  intros Hrep Hlock Hn Hroom. pose proof (round16_spec n ltac:(lia)) as [Hr H16].
  destruct (amalloc_enough (round16 n) (heap_start s) l) as (p & l' & Hm);
    [lia|apply (rep_ne _ _ Hrep)|apply (rep_len _ _ Hrep)|].
  apply amalloc_allocs in Hm as Hm'; [|lia]. destruct Hm' as [(k & Hk & Hp) He].
  eapply wp_mono; [apply (kmalloc_wp 3 s l n p l'); done || lia|].
  intros ? s' (-> & Hrep' & Hfr). exists l', k.
  assert (heap_start s' = heap_start s) as Hst by apply Hfr.
  pose proof (rep_len _ _ Hrep') as Hl'.
  pose proof (allocs_apart (heap_start s) l' Hl') as Hap.
  apply (ForallOrdPairs_perm _ _ _ Hp) in Hap. inversion_clear Hap.
  pose proof (allocs_lower (heap_start s) l' (p, k) Hl') as Hb. rewrite Hp in Hb.
  destruct Hb as (Hb1 & Hb2 & Hb3); [by left|]. simpl in *.
  split_and!; done || lia.
Qed.

(** The heap is an implementation of the allocator interface. *)
#[export] Program Instance kheap_KAlloc : KAlloc kheap := {
  ka_malloc := kmalloc 3;
  ka_free := kfree;
  ka_inv s L b := exists l, heap_rep s l /\ kheap_lock s = 0 /\ room s l b /\
    allocs (heap_start s) l ≡ₚ L;
  ka_round := round16;
  ka_cost n := 3 * (HB_SIZE + round16 n);
}.
Next Obligation.
  intros n Hn. pose proof (round16_spec n ltac:(lia)). lia.
Qed.
Next Obligation.
  intros n Hn. cbn beta. pose proof (round16_spec n ltac:(lia)). unfold HB_SIZE. lia.
Qed.
Next Obligation.
  intros s L b n (l & Hrep & Hlock & Hroom & HL) Hn Hb. cbn beta in *.
  assert (0 <= n <= round16 n) as Hr by (pose proof (round16_spec n); lia).
  eapply wp_mono; [apply (kmalloc_spec s l n); try done|].
  { destruct Hroom. split; unfold HB_SIZE in *; lia. }
  intros p s' (l' & k & _ & Hrep' & (Hs & _ & Hlk & _) & Hk & Hp & Hap & Hlo & Hhi & He).
  pose proof (rep_start _ _ Hrep). pose proof (rep_end _ _ Hrep') as Hend. rewrite Hs in Hend.
  exists k. split_and!; [lia|unfold HB_SIZE in *; lia|lia| |].
  - rewrite <- HL. rewrite Forall_forall in Hap |- *. intros v Hv. specialize (Hap v Hv).
    apply allocs_lower in Hv; [|apply (rep_len _ _ Hrep)].
    unfold apart, separated, HB_SIZE in *. simpl in *. lia.
  - exists l'. rewrite Hs. split_and!; [done|done| |by rewrite Hp, HL].
    destruct Hroom. unfold room. rewrite Hs. lia.
Qed.
Next Obligation.
  intros s L b p k (l & Hrep & Hlock & Hroom & HL).
  assert ((p, k) ∈ allocs (heap_start s) l) as Hin by (rewrite HL; by left).
  apply allocs_elem in Hin as (l1 & l2 & -> & ->).
  eapply wp_mono; [by apply (kfree_wp s l1 k l2)|].
  intros [] s' ((Hs & He & Hl & Hm) & Hrep'). exists (afree l1 k l2). rewrite Hs, Hl.
  split_and!; [done|done| |].
  - unfold room. rewrite Hs, afree_endaddr. apply Hroom.
  - rewrite afree_allocs in HL. by apply Permutation_cons_inv in HL.
Qed.
Next Obligation.
  intros s L L' b HL (l & ? & ? & ? & Hp). exists l. by rewrite <- HL.
Qed.

(** ** Coalescing and alignment *)

Definition hfree (l : list chunk) : bool := match l with c :: _ => c.2 | [] => false end.
Definition lfree (l : list chunk) : bool := match last l with Some c => c.2 | None => false end.

(** No two neighbours are free. *)
Fixpoint coalesced (l : list chunk) : bool :=
  match l with
  | [] => true
  | c :: l' => negb (c.2 && hfree l') && coalesced l'
  end.

Definition chain_ok (l : list chunk) : Prop :=
  coalesced l = true /\ Forall (fun c => c.1 `mod` 16 = 0) l.

Lemma hfree_app l1 l2 : hfree (l1 ++ l2) = match l1 with [] => hfree l2 | c :: _ => c.2 end.
Proof. by destruct l1. Qed.

Lemma lfree_snoc l c : lfree (l ++ [c]) = c.2.
Proof. unfold lfree. by rewrite last_snoc. Qed.

Lemma coalesced_app l1 l2 :
  coalesced (l1 ++ l2) = coalesced l1 && coalesced l2 && negb (lfree l1 && hfree l2).
Proof.
  induction l1 as [|c l1 IH]; simpl; [by rewrite andb_true_r|].
  rewrite IH, hfree_app. destruct l1 as [|d l1]; simpl; [|].
  - unfold lfree. simpl. destruct c.2, (hfree l2), (coalesced l2); done.
  - replace (lfree (c :: d :: l1)) with (lfree (d :: l1)) by done.
    destruct c.2, d.2, (hfree l1), (coalesced l1), (coalesced l2), (lfree _), (hfree l2); done.
Qed.

Lemma chain_ok_app l1 l2 :
  chain_ok (l1 ++ l2) <-> chain_ok l1 /\ chain_ok l2 /\ lfree l1 && hfree l2 = false.
Proof.
  unfold chain_ok. rewrite coalesced_app, Forall_app, !andb_true_iff, negb_true_iff. tauto.
Qed.

Lemma chain_ok_cons c l :
  chain_ok (c :: l) <-> c.1 `mod` 16 = 0 /\ c.2 && hfree l = false /\ chain_ok l.
Proof.
  unfold chain_ok. simpl. rewrite Forall_cons, andb_true_iff, negb_true_iff. tauto.
Qed.

Lemma absorb_back_ok l1 n l2 :
  chain_ok l1 -> chain_ok ((n, true) :: l2) -> chain_ok (absorb_back l1 (n, true) l2).
Proof.
  intros H1 H2. unfold absorb_back. destruct l1 as [|[n0 f0] r _] using rev_ind; [done|].
  rewrite reverse_snoc. apply chain_ok_app in H1 as (Hr & [Hn0 _]%chain_ok_cons & Hj).
  apply chain_ok_cons in H2 as (Hn & Hh & H2). simpl in *. destruct f0.
  - rewrite reverse_involutive. apply chain_ok_app. simpl. split_and!; [done| |done].
    apply chain_ok_cons. split_and!; simpl; [unfold HB_SIZE; dlia|done|done].
  - apply chain_ok_app. rewrite lfree_snoc. split_and!; [|by apply chain_ok_cons|done].
    apply chain_ok_app. split_and!; [done| |done]. by apply chain_ok_cons.
Qed.

Lemma aused_ok n l1 c l2 :
  n `mod` 16 = 0 -> fits n c = true -> chain_ok (l1 ++ c :: l2) -> chain_ok (l1 ++ aused n c ++ l2).
Proof.
  intros Hn [Hc _]%andb_true_iff (H1 & (Hm & Hh & H2)%chain_ok_cons & Hj)%chain_ok_app.
  unfold aused. destruct (split_chunk_cases n c) as [(?&?&->)|(?&->)]; simpl.
  - rewrite chain_ok_app, !chain_ok_cons. simpl. rewrite Hc in *. rewrite andb_false_r.
    split_and!; try done. unfold HB_SIZE. dlia.
  - rewrite chain_ok_app, !chain_ok_cons. simpl. rewrite andb_false_r. done.
Qed.

Lemma endaddr_mod16 a l :
  Forall (fun c => c.1 `mod` 16 = 0) l -> endaddr a l `mod` 16 = a `mod` 16.
Proof.
  intros Hl. revert a. induction Hl as [|c l Hc Hl IH]; intros a; simpl; [done|].
  rewrite IH. unfold HB_SIZE. dlia.
Qed.

Lemma amalloc_ok fuel n a l p l' :
  n `mod` 16 = 0 -> chain_ok l -> amalloc fuel n a l = Some (p, l') ->
  chain_ok l' /\ p `mod` 16 = a `mod` 16.
Proof.
  intros Hn. revert l. induction fuel as [|fuel IH]; intros l Hl; [done|]. simpl.
  destruct (afit n l) as [[[l1 c] l2]|] eqn:Hfit.
  - intros [= <- <-]. apply afit_Some in Hfit as (-> & Hf & _). split; [by apply aused_ok|].
    apply chain_ok_app in Hl as ([_ Hl] & _). apply (endaddr_mod16 a) in Hl.
    unfold HB_SIZE. dlia.
  - apply IH. apply absorb_back_ok; [done|]. by repeat constructor.
Qed.

Lemma afree_ok l1 n l2 : chain_ok (l1 ++ (n, false) :: l2) -> chain_ok (afree l1 n l2).
Proof.
  intros (H1 & (Hn & _ & H2)%chain_ok_cons & _)%chain_ok_app. unfold afree. simpl in Hn.
  destruct l2 as [|[n2 []] l3]; simpl; apply absorb_back_ok; try done; simpl in *.
  - by repeat constructor.
  - apply chain_ok_cons in H2 as (Hn2 & Hh & H2). apply chain_ok_cons. simpl in *.
    split_and!; [unfold HB_SIZE; dlia|done|done].
  - by apply chain_ok_cons.
Qed.

(** ** Properties *)

(** The heap as [kheap_init] leaves it: one empty free block at the start. *)
Definition boot_heap (start size : Z) : kheap :=
  mk_kheap start (start + size) start 0 {[start := mk_block 0 true 0 0]} ∅.

(** The address after the last block, and the room behind it. *)
Definition heap_top (s : kheap) : Z :=
  last_block s + HB_SIZE + default 0 (len <$> blocks s !! last_block s).

Definition heap_room (s : kheap) (n : Z) : Prop :=
  heap_top s + n < 2 ^ 64 /\ heap_top s - heap_start s + n < 2 ^ 63.

Lemma heap_top_rep s l : heap_rep s l -> heap_top s = endaddr (heap_start s) l.
Proof.
  intros Hrep. pose proof (rep_ne _ _ Hrep). pose proof (rep_last _ _ Hrep) as Hl.
  destruct l as [|c l _] using rev_ind; [done|].
  pose proof (middle_lookup _ _ _ _ Hrep) as Hm.
  unfold heap_top. rewrite Hl, lastaddr_app. simpl. rewrite Hm, endaddr_app. done.
Qed.

Lemma heap_room_rep s l n : heap_rep s l -> heap_room s n <-> room s l n.
Proof. intros Hrep. unfold heap_room, room. by rewrite (heap_top_rep s l). Qed.

Lemma boot_heap_rep start size :
  0 < start -> start + HB_SIZE < 2 ^ 64 -> heap_rep (boot_heap start size) [(0, true)].
Proof.
  intros Hs He. split; simpl; try done; unfold HB_SIZE in *; try lia.
  - by rewrite lookup_singleton_eq.
  - by repeat constructor.
Qed.

(** The heaps the kernel can get to from boot by calling [kmalloc], and [kfree]
    on pointers [kmalloc] returned and that were not freed since. *)
Inductive heap_reach : kheap -> list Z -> Prop :=
  | reach_boot start size :
      0 < start -> start `mod` 16 = 0 -> start + HB_SIZE < 2 ^ 64 ->
      heap_reach (boot_heap start size) []
  | reach_malloc s ps n p s' :
      heap_reach s ps -> 0 <= n < 2 ^ 61 -> heap_room s (3 * (HB_SIZE + round16 n)) ->
      kmalloc 3 n s = Ok (p, s') -> heap_reach s' (p :: ps)
  | reach_free s ps1 p ps2 s' :
      heap_reach s (ps1 ++ p :: ps2) -> kfree p s = Ok ((), s') -> heap_reach s' (ps1 ++ ps2).

(** The invariant of reachable heaps. *)
Definition heap_inv (s : kheap) (L : list (Z * Z)) : Prop :=
  exists l, heap_rep s l /\ kheap_lock s = 0 /\ chain_ok l /\ heap_start s `mod` 16 = 0 /\
    allocs (heap_start s) l ≡ₚ L.

Lemma heap_inv_malloc s L n :
  heap_inv s L -> 0 <= n < 2 ^ 61 -> heap_room s (3 * (HB_SIZE + round16 n)) ->
  wp (kmalloc 3 n) (fun p s' => exists k, heap_inv s' ((p, k) :: L) /\
    n <= round16 n <= k /\ p `mod` 16 = 0 /\ Forall (apart (p, k)) L /\ malloc_frame s (round16 n) p s') s.
Proof.
  intros (l & Hrep & Hlock & Hok & Hal & HL) Hn Hroom. rewrite heap_room_rep in Hroom by done.
  eapply wp_mono; [by apply (kmalloc_spec s l n)|].
  intros p s' (l' & k & Hm & Hrep' & Hfr & Hk & Hp & Hap & _). exists k.
  pose proof (round16_spec n ltac:(lia)) as [Hr H16].
  apply amalloc_ok in Hm as [Hok' Hpa]; [|done|done]. rewrite HL in Hap.
  split_and!; [|lia|done|lia|done|done]. exists l'. destruct Hfr as (Hs & _ & Hl & _).
  rewrite Hs. split_and!; try done. by rewrite Hp, HL.
Qed.

Lemma heap_inv_free s L p k :
  heap_inv s ((p, k) :: L) ->
  wp (kfree p) (fun _ s' => heap_inv s' L /\ heap_same s s') s.
Proof.
  intros (l & Hrep & Hlock & Hok & Hal & HL).
  assert ((p, k) ∈ allocs (heap_start s) l) as Hin by (rewrite HL; by left).
  apply allocs_elem in Hin as (l1 & l2 & -> & ->).
  eapply wp_mono; [by apply (kfree_wp s l1 k l2)|].
  intros [] s' (Hsame & Hrep'). split; [|done]. destruct Hsame as (Hs & He & Hl & Hm).
  exists (afree l1 k l2). rewrite Hs, Hl. split_and!; try done; [by apply afree_ok|].
  rewrite afree_allocs in HL. by apply Permutation_cons_inv in HL.
Qed.

Lemma heap_inv_perm s L L' : L ≡ₚ L' -> heap_inv s L -> heap_inv s L'.
Proof. intros HL (l & ?&?&?&?& Hp). exists l. by rewrite <- HL. Qed.

Lemma heap_reach_inv s ps : heap_reach s ps -> exists L, heap_inv s L /\ map fst L = ps.
Proof.
  induction 1 as [start size H0 H16 He|s ps n p s' _ IH Hn Hroom Hm|s ps1 p ps2 s' _ IH Hf].
  - exists []. split; [|done]. exists [(0, true)]. split_and!; try done.
    + by apply boot_heap_rep.
    + by repeat constructor.
  - destruct IH as (L & Hinv & <-). pose proof (heap_inv_malloc s L n Hinv Hn Hroom) as Hwp.
    unfold wp in Hwp. rewrite Hm in Hwp. destruct Hwp as (k & Hinv' & _). by exists ((p, k) :: L).
  - destruct IH as (L & Hinv & Heq). apply map_eq_app in Heq as (L1 & L2' & -> & Heq1 & Heq2).
    destruct L2' as [|[p' k] L2]; [done|]. simpl in Heq2. injection Heq2 as -> Heq2.
    apply (heap_inv_perm _ _ ((p, k) :: L1 ++ L2)) in Hinv; [|by rewrite <- Permutation_middle].
    pose proof (heap_inv_free s (L1 ++ L2) p k Hinv) as Hwp. unfold wp in Hwp.
    rewrite Hf in Hwp. destruct Hwp as [Hwp _]. exists (L1 ++ L2). split; [done|].
    rewrite map_app. congruence.
Qed.

Lemma boot_heap_inv start size :
  0 < start -> start `mod` 16 = 0 -> start + HB_SIZE < 2 ^ 64 -> heap_inv (boot_heap start size) [].
Proof.
  intros Hs H16 He. exists [(0, true)]. split_and!; try done; [by apply boot_heap_rep|by repeat constructor].
Qed.

(** C1: [kmalloc] refines the abstract first-fit allocator: from any well-formed
    heap with enough address space it terminates, after at most two expansions,
    with exactly the address and the block chain the abstract allocator gives, and
    it zeroes the payload, releases the lock and leaves all other memory alone. *)
Theorem kmalloc_refines s l n :
  heap_rep s l -> kheap_lock s = 0 -> 0 <= n < 2 ^ 61 ->
  heap_room s (3 * (HB_SIZE + round16 n)) ->
  exists p l' s', kmalloc 3 n s = Ok (p, s') /\
    amalloc 3 (round16 n) (heap_start s) l = Some (p, l') /\
    heap_rep s' l' /\ malloc_frame s (round16 n) p s'.
Proof.
  intros Hrep Hlock Hn Hroom. rewrite heap_room_rep in Hroom by done.
  destruct (wp_Ok _ _ _ (kmalloc_spec s l n Hrep Hlock Hn Hroom)) as (p & s' & Hm & l' & k & H).
  exists p, l', s'. tauto.
Qed.

Lemma kmalloc_refines_witness :
  exists p l' s', kmalloc 3 100 (boot_heap 4096 409600) = Ok (p, s') /\
    amalloc 3 (round16 100) 4096 [(0, true)] = Some (p, l') /\
    heap_rep s' l' /\ malloc_frame (boot_heap 4096 409600) (round16 100) p s'.
Proof.
  apply (kmalloc_refines (boot_heap 4096 409600) [(0, true)] 100).
  - apply boot_heap_rep; unfold HB_SIZE; lia.
  - reflexivity.
  - lia.
  - split; vm_compute; reflexivity.
Defined.

(** The block [kmalloc n] returns is at least [n] bytes long, 16-byte aligned,
    disjoint (its header included) from every live block, and zeroed; it becomes
    live and no other block stops being so, and the heap invariant is kept. *)
Theorem kmalloc_fresh s L n :
  heap_inv s L -> 0 <= n < 2 ^ 61 -> heap_room s (3 * (HB_SIZE + round16 n)) ->
  exists p k s', kmalloc 3 n s = Ok (p, s') /\ heap_inv s' ((p, k) :: L) /\
    n <= k /\ p `mod` 16 = 0 /\ Forall (apart (p, k)) L /\
    (forall i, 0 <= i < n -> hmem s' !! (p + i) = Some 0) /\
    (forall q m, (q, m) ∈ L -> forall i, 0 <= i < m -> hmem s' !! (q + i) = hmem s !! (q + i)).
Proof.
  intros Hinv Hn Hroom.
  destruct (wp_Ok _ _ _ (heap_inv_malloc s L n Hinv Hn Hroom))
    as (p & s' & Hm & k & Hinv' & Hk & H16 & Hap & Hs & He & Hl & Hfill).
  exists p, k, s'. split_and!; try done; [lia| |].
  - intros i Hi. rewrite Hfill, (proj2 (Z.leb_le _ _)), (proj2 (Z.ltb_lt _ _)) by lia. done.
  - intros q m Hq i Hi. rewrite Hfill. rewrite Forall_forall in Hap. apply Hap in Hq.
    unfold apart, HB_SIZE in Hq. simpl in Hq.
    destruct (Z.leb_spec p (q + i)), (Z.ltb_spec (q + i) (p + round16 n)); simpl; done || lia.
Qed.

Lemma kmalloc_fresh_witness :
  exists p k s', kmalloc 3 40 (boot_heap 4096 409600) = Ok (p, s') /\
    heap_inv s' ((p, k) :: []) /\
    40 <= k /\ p `mod` 16 = 0 /\ Forall (apart (p, k)) [] /\
    (forall i, 0 <= i < 40 -> hmem s' !! (p + i) = Some 0) /\
    (forall q m, (q, m) ∈ [] -> forall i, 0 <= i < m ->
       hmem s' !! (q + i) = hmem (boot_heap 4096 409600) !! (q + i)).
Proof.
  apply (kmalloc_fresh (boot_heap 4096 409600) [] 40).
  - apply boot_heap_inv; unfold HB_SIZE; first [lia | reflexivity].
  - lia.
  - split; vm_compute; reflexivity.
Defined.

(** C31: [kfree] of a live block terminates, makes exactly that block dead, keeps
    the invariant (in particular free neighbours are merged), writes no payload
    byte and leaves the lock free. *)
Theorem kfree_correct s L1 p k L2 :
  heap_inv s (L1 ++ (p, k) :: L2) ->
  exists s', kfree p s = Ok ((), s') /\ heap_inv s' (L1 ++ L2) /\ heap_same s s'.
Proof.
  intros Hinv. apply (heap_inv_perm _ _ ((p, k) :: L1 ++ L2)) in Hinv;
    [|by rewrite <- Permutation_middle].
  destruct (wp_Ok _ _ _ (heap_inv_free s (L1 ++ L2) p k Hinv)) as ([] & s' & Hf & Hinv' & Hs).
  by exists s'.
Qed.

(** A heap with a used block between two others, for the examples. *)
Definition demo_heap : kheap :=
  mk_kheap 4096 413696 4192 0
    (<[4096 := mk_block 16 false 0 4144]> (<[4144 := mk_block 16 false 4096 4192]>
      {[4192 := mk_block 64 true 4144 0]})) ∅.

Lemma demo_heap_inv : heap_inv demo_heap [(4128, 16); (4176, 16)].
Proof.
  exists [(16, false); (16, false); (64, true)]. split_and!; try done.
  - split; try done.
    + by repeat constructor.
  - by repeat constructor.
Qed.

Lemma kfree_correct_witness :
  exists s', kfree 4176 demo_heap = Ok ((), s') /\ heap_inv s' ([(4128, 16)] ++ []) /\
    heap_same demo_heap s'.
Proof. apply (kfree_correct demo_heap [(4128, 16)] 4176 16 []), demo_heap_inv. Defined.

(** C2: In every heap reachable from boot by [kmalloc] and [kfree], the live
    pointers are 16-byte aligned payloads of pairwise disjoint blocks, the block
    chain is well-formed, and no two adjacent blocks are free. *)
Theorem kheap_reachable_safe s ps :
  heap_reach s ps ->
  exists L l, map fst L = ps /\ heap_rep s l /\ coalesced l = true /\
    allocs (heap_start s) l ≡ₚ L /\ ForallOrdPairs apart L /\
    Forall (fun u => u.1 `mod` 16 = 0) L.
Proof.
  intros (L & (l & Hrep & Hlock & [Hco H16] & Hal & HL) & Hps)%heap_reach_inv.
  exists L, l. split_and!; try done.
  - eapply ForallOrdPairs_perm; [apply apart_sym|done|]. apply allocs_apart, (rep_len _ _ Hrep).
  - rewrite <- HL. apply Forall_forall. intros [q k] Hq. apply allocs_elem in Hq as (l1 & l2 & -> & ->).
    apply Forall_app in H16 as [H16 _]. apply (endaddr_mod16 (heap_start s)) in H16.
    simpl. unfold HB_SIZE. dlia.
Qed.

Lemma kheap_reachable_safe_witness :
  exists s p q, heap_reach s [q] /\ kmalloc 3 100 (boot_heap 4096 409600) = Ok (p, s) /\
  exists L l, map fst L = [q] /\ heap_rep s l /\ coalesced l = true /\
    allocs (heap_start s) l ≡ₚ L /\ ForallOrdPairs apart L /\
    Forall (fun u => u.1 `mod` 16 = 0) L.
Proof.
  destruct (kmalloc 3 100 (boot_heap 4096 409600)) as [[p s]|f] eqn:Hm;
    [|vm_compute in Hm; discriminate Hm].
  assert (heap_reach s [p]) as Hr.
  { apply (reach_malloc (boot_heap 4096 409600) [] 100 p s); [|lia|split; vm_compute; reflexivity|exact Hm].
    apply reach_boot; [lia|reflexivity|unfold HB_SIZE; lia]. }
  exists s, p, p. split; [exact Hr|]. split; [reflexivity|].
  apply (kheap_reachable_safe s [p] Hr).
Defined.

(** [krealloc] to a larger size than the block has does nothing: it returns
    the old pointer to the block that is too small. *)
Theorem krealloc_grow_noop fuel s L p k size :
  heap_inv s L -> (p, k) ∈ L -> k < size -> krealloc fuel p size s = Ok (p, s).
Proof.
  intros (l & Hrep & Hlock & Hok & Hal & HL) Hin Hk. rewrite <- HL in Hin.
  apply allocs_elem in Hin as (l1 & l2 & -> & ->).
  pose proof (middle_lookup _ _ _ _ Hrep) as Hm. pose proof (middle_addr _ _ _ _ Hrep) as Ha.
  destruct (middle_len _ _ _ _ Hrep) as (_ & Hc & _). simpl in *.
  assert (wp (krealloc fuel (endaddr (heap_start s) l1 + HB_SIZE) size)
    (fun r s' => r = endaddr (heap_start s) l1 + HB_SIZE /\ s' = s) s) as Hwp.
  { unfold krealloc.
    replace (_ + HB_SIZE - HB_SIZE) with (endaddr (heap_start s) l1) by lia.
    rewrite uN_small by (unfold HB_SIZE in *; lia). hrd Hm.
    rewrite (proj2 (Z.ltb_lt _ _)) by lia. by apply wp_ret. }
  by destruct (wp_Ok _ _ _ Hwp) as (r & s' & Hr & -> & ->).
Qed.

Lemma krealloc_grow_noop_witness : krealloc 3 4128 4096 demo_heap = Ok (4128, demo_heap).
Proof.
  apply (krealloc_grow_noop 3 demo_heap [(4128, 16); (4176, 16)] 4128 16 4096).
  - apply demo_heap_inv.
  - apply elem_of_cons. left. reflexivity.
  - lia.
Defined.

(** A [kmalloc] before [kheap_init] never returns: it takes the heap lock and
    then calls [kheap_expand], which spins on the same lock. *)
Theorem kmalloc_before_init_hangs fuel n s :
  heap_start s = 0 -> kheap_lock s = 0 -> kmalloc (S fuel) n s = Err Hang.
Proof.
  intros H0 Hl. simpl. unfold bindM, acquire_lock, kheap_expand, acquire_lock, bindM, gets, modify.
  rewrite Hl. simpl. rewrite H0. done.
Qed.

Lemma kmalloc_before_init_hangs_witness :
  kmalloc 1 64 (mk_kheap 0 0 0 0 ∅ ∅) = Err Hang.
Proof. apply (kmalloc_before_init_hangs 0 64); reflexivity. Defined.
