(* ===== verification/DList.v ===== *)
(** * Doubly linked lists (src/util/list.c, src/util/list.h)

    Lists and their nodes as records in memory, keyed by address, with the
    allocator they take their memory from as a parameter ([KAlloc]).  Freed memory
    is no longer accessible in the model, so a use after free is a fault. *)

From S2P Require Import Prelude Alloc Kheap.

Record list_node : Type := mk_node { nprev : Z; nnext : Z; nval : Z }.
Record list_t : Type := mk_list { head : Z; tail : Z; cnt : Z }.

Definition NODE_SIZE : Z := 24.
Definition LIST_SIZE : Z := 24.

Definition set_nprev (v : Z) (n : list_node) := mk_node v (nnext n) (nval n).
Definition set_nnext (v : Z) (n : list_node) := mk_node (nprev n) v (nval n).
Definition set_nval (v : Z) (n : list_node) := mk_node (nprev n) (nnext n) v.
Definition set_head (v : Z) (l : list_t) := mk_list v (tail l) (cnt l).
Definition set_tail (v : Z) (l : list_t) := mk_list (head l) v (cnt l).
Definition set_cnt (v : Z) (l : list_t) := mk_list (head l) (tail l) v.

(** The memory of the lists: the allocator's state and the live records. *)
Record lmem (H : Type) : Type := mk_lmem {
  lheap : H;
  nodes : gmap Z list_node;
  lists : gmap Z list_t;
}.
Arguments mk_lmem {H}.
Arguments lheap {H}.
Arguments nodes {H}.
Arguments lists {H}.

Section ops.
Context {H : Type} `{KAlloc H}.

Definition set_nodes (m : gmap Z list_node) (s : lmem H) := mk_lmem (lheap s) m (lists s).
Definition set_lists (m : gmap Z list_t) (s : lmem H) := mk_lmem (lheap s) (nodes s) m.

Definition with_heap {A} (m : M H A) : M (lmem H) A := fun s =>
  match m (lheap s) with
  | Ok (a, h) => Ok (a, mk_lmem h (nodes s) (lists s))
  | Err f => Err f
  end.

(** Node and list accesses. *)
Definition nrd {A} (f : list_node -> A) (p : Z) : M (lmem H) A :=
  guard (truth p) NullDeref;;
  o ← gets (fun s => nodes s !! p);
  unwrap (f <$> o) OutOfBounds.
Definition nwr (f : list_node -> list_node) (p : Z) : M (lmem H) () :=
  n ← nrd id p; modify (fun s => set_nodes (<[p := f n]> (nodes s)) s).
Definition lrd {A} (f : list_t -> A) (p : Z) : M (lmem H) A :=
  guard (truth p) NullDeref;;
  o ← gets (fun s => lists s !! p);
  unwrap (f <$> o) OutOfBounds.
Definition lwr (f : list_t -> list_t) (p : Z) : M (lmem H) () :=
  l ← lrd id p; modify (fun s => set_lists (<[p := f l]> (lists s)) s).

(** [kmalloc(sizeof(list_node_t))]: the memory is zeroed by [kmalloc]. *)
Definition new_node : M (lmem H) Z :=
  p ← with_heap (ka_malloc NODE_SIZE);
  modify (fun s => set_nodes (<[p := mk_node 0 0 0]> (nodes s)) s);;
  mret p.
Definition free_node (p : Z) : M (lmem H) () :=
  with_heap (ka_free p);; modify (fun s => set_nodes (delete p (nodes s)) s).

Definition list_create : M (lmem H) Z :=
  p ← with_heap (ka_malloc LIST_SIZE);
  modify (fun s => set_lists (<[p := mk_list 0 0 0]> (lists s)) s);;
  mret p.

Definition list_push_back (list val : Z) : M (lmem H) Z :=
  node ← new_node;
  h ← lrd head list;
  t ← lrd tail list;
  if negb (truth h) && negb (truth t) then
    lwr (set_head node) list;;
    lwr (set_tail node) list;;
    nwr (set_nprev 0) node;;
    nwr (set_nnext 0) node;;
    nwr (set_nval val) node;;
    c ← lrd cnt list;
    lwr (set_cnt (u32 (c + 1))) list;;
    mret node
  else
    nwr (set_nprev t) node;;
    nwr (set_nnext 0) node;;
    nwr (set_nval val) node;;
    nwr (set_nnext node) t;;
    lwr (set_tail node) list;;
    c ← lrd cnt list;
    lwr (set_cnt (u32 (c + 1))) list;;
    mret node.

(** [None] is the indeterminate result of the bare [return;]. *)
Definition list_pop_back (list : Z) : M (lmem H) (option Z) :=
  c ← lrd cnt list;
  if c =? 0 then mret None else
  node ← lrd tail list;
  p ← nrd nprev node;
  lwr (set_tail p) list;;
  t ← lrd tail list;
  (if truth t then nwr (set_nnext 0) t else mret ());;
  c' ← lrd cnt list;
  lwr (set_cnt (u32 (c' - 1))) list;;
  val ← nrd nval node;
  free_node node;;
  mret (Some val).

Definition list_push_front (list val : Z) : M (lmem H) Z :=
  h ← lrd head list;
  t ← lrd tail list;
  if negb (truth h) && negb (truth t) then list_push_back list val else
  node ← new_node;
  nwr (set_nprev 0) node;;
  h1 ← lrd head list;
  nwr (set_nnext h1) node;;
  nwr (set_nval val) node;;
  h2 ← lrd head list;
  nwr (set_nprev node) h2;;
  lwr (set_head node) list;;
  c ← lrd cnt list;
  lwr (set_cnt (u32 (c + 1))) list;;
  mret node.

Definition list_pop_front (list : Z) : M (lmem H) (option Z) :=
  c ← lrd cnt list;
  if c =? 0 then mret None else
  node ← lrd head list;
  n ← nrd nnext node;
  lwr (set_head n) list;;
  h ← lrd head list;
  (if truth h then nwr (set_nprev 0) h else lwr (set_tail 0) list);;
  c' ← lrd cnt list;
  lwr (set_cnt (u32 (c' - 1))) list;;
  val ← nrd nval node;
  free_node node;;
  mret (Some val).

(** One round of [list_foreach] with [i++ == idx]: [inr] leaves the loop. *)
Definition list_get_round (idx : Z) (st : Z * Z) : M (lmem H) (Z * Z + Z) :=
  let '(node, i) := st in
  if node =? 0 then mret (inr 0)
  else if i =? idx then mret (inr node)
  else n ← nrd nnext node; mret (inl (n, u32 (i + 1))).

Definition list_get (list idx : Z) : M (lmem H) Z :=
  c ← lrd cnt list;
  if c <=? idx then mret 0 else
  h ← lrd head list;
  bound ← gets (fun s => N.of_nat (S (S (size (nodes s)))));
  while_ bound (list_get_round idx) (h, 0).

Definition list_remove (list idx : Z) : M (lmem H) () :=
  node ← list_get list idx;
  p ← nrd nprev node;
  (if truth p then n ← nrd nnext node; nwr (set_nnext n) p else mret ());;
  n ← nrd nnext node;
  (if truth n then p' ← nrd nprev node; nwr (set_nprev p') n else mret ());;
  h ← lrd head list;
  (if node =? h then n' ← nrd nnext node; lwr (set_head n') list else mret ());;
  t ← lrd tail list;
  (if node =? t then p' ← nrd nprev node; lwr (set_tail p') list else mret ());;
  c ← lrd cnt list;
  lwr (set_cnt (u32 (c - 1))) list;;
  free_node node.

Definition list_insert (list val idx : Z) : M (lmem H) () :=
  c ← lrd cnt list;
  (if idx =? c then list_push_back list val;; mret () else mret ());;
  new ← new_node;
  nwr (set_nval val) new;;
  node ← list_get list idx;
  p ← nrd nprev node;
  nwr (set_nprev p) new;;
  p1 ← nrd nprev new;
  (if truth p1 then nwr (set_nnext new) p1 else mret ());;
  nwr (set_nnext node) new;;
  nwr (set_nprev new) node;;
  p2 ← nrd nprev new;
  if p2 =? 0 then lwr (set_head new) list else mret ().

Definition list_destroy (list : Z) : M (lmem H) () :=
  c ← lrd cnt list;
  for_each 0 c (fun _ => list_pop_back list;; mret ());;
  with_heap (ka_free list);;
  modify (fun s => set_lists (delete list (lists s)) s).
End ops.

(** ** The sequence a list stands for *)

(** Addresses and values of the nodes, in order. *)
Abbreviation nseq := (list (Z * Z)).

Definition hd_addr (l : nseq) (q : Z) : Z := match l with x :: _ => x.1 | [] => q end.
Definition last_addr (p : Z) (l : nseq) : Z := match last l with Some x => x.1 | None => p end.

Fixpoint nseg (m : gmap Z list_node) (p : Z) (l : nseq) (q : Z) : Prop :=
  match l with
  | [] => True
  | x :: l' => m !! x.1 = Some (mk_node p (hd_addr l' q) x.2) /\ nseg m x.1 l' q
  end.

Lemma last_addr_cons p x l : last_addr p (x :: l) = last_addr x.1 l.
Proof. unfold last_addr. rewrite last_cons. by destruct (last l). Qed.

Lemma last_addr_snoc p l x : last_addr p (l ++ [x]) = x.1.
Proof. unfold last_addr. by rewrite last_snoc. Qed.

Lemma hd_addr_app l1 l2 q : hd_addr (l1 ++ l2) q = hd_addr l1 (hd_addr l2 q).
Proof. by destruct l1. Qed.

Lemma nseg_app m p l1 l2 q :
  nseg m p (l1 ++ l2) q <-> nseg m p l1 (hd_addr l2 q) /\ nseg m (last_addr p l1) l2 q.
Proof.
  revert p. induction l1 as [|x l1 IH]; intros p; simpl; [tauto|].
  rewrite IH, hd_addr_app, last_addr_cons. tauto.
Qed.

(** A segment only depends on its own nodes. *)
Lemma nseg_agree m m' p l q :
  (forall a, a ∈ l.*1 -> m' !! a = m !! a) -> nseg m p l q -> nseg m' p l q.
Proof.
  revert p. induction l as [|x l IH]; intros p Heq; simpl; [done|].
  intros [Hx Hl]. split; [rewrite Heq; [done|by left]|].
  apply IH; [|done]. intros a Ha. apply Heq. by right.
Qed.

Lemma nseg_elem m p l q a : nseg m p l q -> a ∈ l.*1 -> is_Some (m !! a).
Proof.
  revert p. induction l as [|x l IH]; intros p; simpl; [by intros _ ?%elem_of_nil|].
  intros [Hx Hl] [->|Ha]%elem_of_cons; [by eexists|by eapply IH].
Qed.

(** Changing what the first node's [prev], or the last node's [next], points to. *)
Lemma nseg_set_first m p l q a v n p' :
  nseg m p ((a, v) :: l) q -> a ∉ l.*1 -> m !! a = Some n ->
  nseg (<[a := set_nprev p' n]> m) p' ((a, v) :: l) q.
Proof.
  intros [Hx Hl] Hni Hn. simpl in *. split.
  - rewrite lookup_insert_eq. rewrite Hx in Hn. by injection Hn as <-.
  - eapply nseg_agree; [|done]. intros b Hb. rewrite lookup_insert_ne; [done|]. by intros ->.
Qed.

Lemma nseg_set_last m p l q a v n q' :
  nseg m p (l ++ [(a, v)]) q -> a ∉ l.*1 -> m !! a = Some n ->
  nseg (<[a := set_nnext q' n]> m) p (l ++ [(a, v)]) q'.
Proof.
  rewrite !nseg_app. simpl. intros (Hl & Hx & _) Hni Hn. split_and!; [| |done].
  - eapply nseg_agree; [|done]. intros b Hb. rewrite lookup_insert_ne; [done|]. by intros ->.
  - rewrite lookup_insert_eq. rewrite Hx in Hn. by injection Hn as <-.
Qed.

Lemma alter_Some {A} (f : A -> A) (m : gmap Z A) i x :
  m !! i = Some x -> alter f i m = <[i := f x]> m.
Proof.
  intros Hm. apply map_eq. intros j. rewrite lookup_alter, lookup_insert.
  case_decide; [by rewrite Hm|done].
Qed.

(** [p->next = q'] and [q->prev = p'], skipped for a null pointer. *)
Definition fix_next (m : gmap Z list_node) (p q : Z) : gmap Z list_node :=
  if truth p then alter (set_nnext q) p m else m.
Definition fix_prev (m : gmap Z list_node) (q p : Z) : gmap Z list_node :=
  if truth q then alter (set_nprev p) q m else m.

Lemma last_addr_elem l : l <> [] -> last_addr 0 l ∈ l.*1.
Proof.
  destruct l as [|x l _] using rev_ind; [done|]. intros _. rewrite last_addr_snoc, fmap_app.
  apply elem_of_app. right. by left.
Qed.

Lemma fix_next_out m l q a : a ∉ l.*1 -> fix_next m (last_addr 0 l) q !! a = m !! a.
Proof.
  intros Ha. unfold fix_next. destruct (truth _) eqn:Ht; [|done].
  apply lookup_alter_ne. intros <-. apply Ha, last_addr_elem. by intros ->.
Qed.

Lemma fix_prev_out m l p a : a ∉ l.*1 -> fix_prev m (hd_addr l 0) p !! a = m !! a.
Proof.
  intros Ha. unfold fix_prev. destruct (truth _) eqn:Ht; [|done].
  apply lookup_alter_ne. intros <-. apply Ha. destruct l; [done|]. by left.
Qed.

Lemma fix_next_insert m a x p q :
  p <> a -> fix_next (<[a := x]> m) p q = <[a := x]> (fix_next m p q).
Proof. intros. unfold fix_next. destruct (truth p); [|done]. by apply alter_insert_ne. Qed.

Lemma nseg_fix_next m p l q q' :
  nseg m p l q -> NoDup l.*1 -> 0 ∉ l.*1 -> nseg (fix_next m (last_addr 0 l) q') p l q'.
Proof.
  intros Hs Hnd Hnz. destruct l as [|[a v] l _] using rev_ind; [done|].
  rewrite last_addr_snoc. rewrite fmap_app in *. simpl in *. apply NoDup_app in Hnd as (_ & Hnd & _).
  assert (a <> 0) as Ha by (intros ->; apply Hnz, elem_of_app; right; by left).
  assert (a ∉ l.*1) as Hal by (intros Hx; apply Hnd in Hx; apply Hx; by left).
  unfold fix_next. rewrite (proj2 (truth_true a)) by done.
  pose proof Hs as (_ & Hm & _)%nseg_app. simpl in Hm.
  rewrite (alter_Some _ _ _ _ Hm). by eapply nseg_set_last.
Qed.

Lemma nseg_fix_prev m p l q p' :
  nseg m p l q -> NoDup l.*1 -> 0 ∉ l.*1 -> nseg (fix_prev m (hd_addr l 0) p') p' l q.
Proof.
  intros Hs Hnd Hnz. destruct l as [|[a v] l]; [done|]. simpl in *.
  apply NoDup_cons in Hnd as [Hnd _]. apply not_elem_of_cons in Hnz as [Ha _].
  unfold fix_prev. rewrite (proj2 (truth_true a)) by done. destruct Hs as [Hm Hs].
  split; simpl in *; [by rewrite lookup_alter_eq, Hm|].
  eapply nseg_agree; [|done]. intros x Hx. apply lookup_alter_ne. by intros ->.
Qed.

(** Taking the node [a] out of the middle. *)
Lemma nseg_unlink m l1 a v l2 :
  nseg m 0 (l1 ++ (a, v) :: l2) 0 -> NoDup (l1 ++ (a, v) :: l2).*1 -> 0 ∉ (l1 ++ (a, v) :: l2).*1 ->
  let p := last_addr 0 l1 in
  let q := hd_addr l2 0 in
  nseg (delete a (fix_prev (fix_next m p q) q p)) 0 (l1 ++ l2) 0.
Proof.
  rewrite fmap_app. intros (Hs1 & Hm & Hs2)%nseg_app Hnd Hnz p q. simpl in *.
  apply NoDup_app in Hnd as (Hnd1 & Hx & [Ha2 Hnd2]%NoDup_cons).
  apply not_elem_of_app in Hnz as [Hz1 [Hz2 Hz3]%not_elem_of_cons].
  assert (a ∉ l1.*1) as Ha1 by (intros ?; apply (Hx a); [done|by left]).
  assert (forall y, y ∈ l1.*1 -> y ∉ l2.*1) as Hd by (intros y H1 H2; apply (Hx y); [done|by right]).
  apply nseg_app. fold p q. split.
  - eapply nseg_agree; [|by apply (nseg_fix_next _ _ _ _ q Hs1)]. intros y Hy.
    rewrite lookup_delete_ne by (by intros ->). apply fix_prev_out; auto.
  - eapply nseg_agree; [|by apply (nseg_fix_prev _ _ _ _ p Hs2)]. intros y Hy.
    rewrite lookup_delete_ne by (by intros ->).
    assert (y ∉ l1.*1) as Hy1 by (intros ?; by apply (Hd y)).
    fold q. unfold fix_prev. destruct (truth q); [|by apply fix_next_out].
    unfold p. rewrite !lookup_alter. case_decide as Hq; [rewrite Hq|]; by rewrite fix_next_out.
Qed.

(** Putting a new node [a] in the middle. *)
Lemma nseg_link m l1 a v l2 :
  nseg m 0 (l1 ++ l2) 0 -> NoDup (l1 ++ l2).*1 -> 0 ∉ (l1 ++ l2).*1 -> a ∉ (l1 ++ l2).*1 ->
  let p := last_addr 0 l1 in
  let q := hd_addr l2 0 in
  m !! a = Some (mk_node p q v) ->
  nseg (fix_prev (fix_next m p a) q a) 0 (l1 ++ (a, v) :: l2) 0.
Proof.
  rewrite fmap_app. intros (Hs1 & Hs2)%nseg_app (Hnd1 & Hx & Hnd2)%NoDup_app
    [Hz1 Hz2]%not_elem_of_app [Ha1 Ha2]%not_elem_of_app p q Hm.
  apply nseg_app. fold p q. simpl. split_and!.
  - eapply nseg_agree; [|by apply (nseg_fix_next _ _ _ _ a Hs1)]. intros y Hy. apply fix_prev_out; auto.
  - unfold q, p. rewrite fix_prev_out, fix_next_out; done.
  - eapply nseg_agree; [|by apply (nseg_fix_prev _ _ _ _ a Hs2)]. intros y Hy. fold q.
    assert (y ∉ l1.*1) as Hy1 by (intros ?; by apply (Hx y)).
    unfold fix_prev. destruct (truth q); [|by apply fix_next_out].
    unfold p. rewrite !lookup_alter. case_decide as Hq; [rewrite Hq|]; by rewrite fix_next_out.
Qed.

Lemma nseg_size m p l q : nseg m p l q -> NoDup l.*1 -> (length l <= size m)%nat.
Proof.
  intros Hs Hnd. rewrite <- (length_fmap fst l), <- (size_list_to_set (C := gset Z)) by done.
  rewrite <- size_dom. apply subseteq_size. intros a Ha%elem_of_list_to_set.
  apply elem_of_dom. by eapply nseg_elem.
Qed.

Section rep.
Context {H : Type} `{KAlloc H}.
Implicit Types s : lmem H.

(** [list_shape s lp h l c]: the record at [lp] has the head [h], the count [c]
    and, as its tail, the last of the linked nodes [l].  For a proper list the
    head is the first node; [list_pop_back] does not always keep it so. *)
Record list_shape s (lp h : Z) (l : nseq) (c : Z) : Prop := {
  shape_ptr : lp <> 0;
  shape_list : lists s !! lp = Some (mk_list h (last_addr 0 l) c);
  shape_seg : nseg (nodes s) 0 l 0;
  shape_nodup : NoDup l.*1;
  shape_nz : 0 ∉ l.*1;
}.

Definition list_rep s (lp : Z) (l : nseq) (c : Z) : Prop := list_shape s lp (hd_addr l 0) l c.

(** The allocator knows every record of the model as a live block. *)
Definition dl_ok s (b : Z) : Prop :=
  exists L, ka_inv (lheap s) L b /\ NoDup L.*1 /\
    (forall a, is_Some (nodes s !! a) -> a ∈ L.*1) /\
    (forall a, is_Some (lists s !! a) -> a ∈ L.*1) /\
    (forall a, is_Some (nodes s !! a) -> lists s !! a = None).

(** Nothing but the list [lp] and the nodes at [A] has changed. *)
Definition same_outside s s' (lp : Z) (A : list Z) : Prop :=
  (forall lp', lp' <> lp -> lists s' !! lp' = lists s !! lp') /\
  (forall a, is_Some (nodes s !! a) -> a ∉ A -> nodes s' !! a = nodes s !! a).

(** So any other list whose nodes are not among them is what it was. *)
Lemma list_rep_frame s s' lp A lp' l c :
  same_outside s s' lp A -> lp' <> lp -> l.*1 ## A ->
  list_rep s lp' l c -> list_rep s' lp' l c.
Proof.
  intros [Hl Hn] Hne Hd [H1 H2 H3 H4 H5]. split; try done; [by rewrite Hl|].
  eapply nseg_agree; [|done]. intros a Ha. apply Hn; [by eapply nseg_elem|].
  intros HA. by apply (Hd a).
Qed.

Lemma dl_ok_dom s s' b :
  dl_ok s b -> lheap s' = lheap s ->
  (forall a, is_Some (nodes s' !! a) -> is_Some (nodes s !! a)) ->
  (forall a, is_Some (lists s' !! a) -> is_Some (lists s !! a)) ->
  dl_ok s' b.
Proof.
  intros (L & Hi & Hnd & HN & HL & Ha) Hh Hn Hl. exists L. rewrite Hh. split_and!; auto.
  intros a Hna. destruct (lists s' !! a) eqn:E; [|done].
  assert (is_Some (lists s !! a)) as [x Hx] by (apply Hl; by rewrite E).
  apply Hn, Ha in Hna. congruence.
Qed.

Lemma wp_with_heap {A} (m : M H A) (Q : A -> lmem H -> Prop) s :
  wp m (fun a h => Q a (mk_lmem h (nodes s) (lists s))) (lheap s) -> wp (with_heap m) Q s.
Proof. unfold wp, with_heap. by destruct (m (lheap s)) as [[a h]|]. Qed.

Lemma wp_nrd {A} (f : list_node -> A) p n Q s :
  p <> 0 -> nodes s !! p = Some n -> Q (f n) s -> wp (nrd f p) Q s.
Proof.
  intros Hp Hn HQ. apply wp_bind, wp_guard; [by apply truth_true|].
  apply wp_bind, wp_gets. rewrite Hn. by eapply wp_unwrap.
Qed.
Lemma wp_nwr f p n (Q : () -> lmem H -> Prop) s :
  p <> 0 -> nodes s !! p = Some n ->
  Q () (set_nodes (<[p := f n]> (nodes s)) s) -> wp (nwr f p) Q s.
Proof. intros Hp Hn HQ. by eapply wp_bind, wp_nrd. Qed.
Lemma wp_lrd {A} (f : list_t -> A) p n Q s :
  p <> 0 -> lists s !! p = Some n -> Q (f n) s -> wp (lrd f p) Q s.
Proof.
  intros Hp Hn HQ. apply wp_bind, wp_guard; [by apply truth_true|].
  apply wp_bind, wp_gets. rewrite Hn. by eapply wp_unwrap.
Qed.
Lemma wp_lwr f p n (Q : () -> lmem H -> Prop) s :
  p <> 0 -> lists s !! p = Some n ->
  Q () (set_lists (<[p := f n]> (lists s)) s) -> wp (lwr f p) Q s.
Proof. intros Hp Hn HQ. by eapply wp_bind, wp_lrd. Qed.

Lemma lrd_eq {A} (f : list_t -> A) p n s :
  p <> 0 -> lists s !! p = Some n -> lrd f p s = Ok (f n, s).
Proof.
  intros Hp Hn. unfold lrd, bindM, guard, gets. rewrite (proj2 (truth_true p)) by done. simpl.
  by rewrite Hn.
Qed.
Lemma nwr_eq f p n s :
  p <> 0 -> nodes s !! p = Some n -> nwr f p s = Ok ((), set_nodes (<[p := f n]> (nodes s)) s).
Proof.
  intros Hp Hn. unfold nwr, nrd, bindM, guard, gets. rewrite (proj2 (truth_true p)) by done. simpl.
  by rewrite Hn.
Qed.

(** A malloc in the list memory: a fresh address. *)
Lemma malloc_wp s b n (Q : Z -> lmem H -> Prop) :
  dl_ok s (b + ka_cost n) -> 0 <= b -> 0 <= n < 2 ^ 61 ->
  (forall p h, p <> 0 -> nodes s !! p = None -> lists s !! p = None ->
     (forall x y, dl_ok (mk_lmem h (<[p := x]> (nodes s)) (lists s)) b /\
                  dl_ok (mk_lmem h (nodes s) (<[p := y]> (lists s))) b) ->
     Q p (mk_lmem h (nodes s) (lists s))) ->
  wp (with_heap (ka_malloc n)) Q s.
Proof.
  intros (L & Hi & Hnd & HN & HL & Ha) Hb Hn HQ. apply wp_with_heap.
  eapply wp_mono; [by eapply ka_malloc_wp|].
  intros p h (k & Hk & Hp & Hpk & Hsep & Hi'). simpl.
  assert (p ∉ L.*1) as Hfresh.
  { intros ([q m] & -> & Hq)%list_elem_of_fmap. rewrite Forall_forall in Hsep.
    apply Hsep in Hq as [Hne _]. done. }
  assert (nodes s !! p = None) as Hpn by (apply eq_None_not_Some; auto).
  assert (lists s !! p = None) as Hpl by (apply eq_None_not_Some; auto).
  apply HQ; [lia|done|done|]. intros x y.
  split; exists ((p, k) :: L); simpl; split_and!; try done; try (by constructor).
  all: intros a; rewrite ?lookup_insert; repeat case_decide; subst; intros Hs; rewrite ?elem_of_cons;
    auto; by destruct Hs; congruence.
Qed.

(** A free of a record that is live. *)
Lemma free_wp s b p (Q : () -> lmem H -> Prop) :
  dl_ok s b -> is_Some (nodes s !! p) \/ is_Some (lists s !! p) ->
  (forall h, dl_ok (mk_lmem h (delete p (nodes s)) (delete p (lists s))) b ->
     Q () (mk_lmem h (nodes s) (lists s))) ->
  wp (with_heap (ka_free p)) Q s.
Proof.
  intros (L & Hi & Hnd & HN & HL & Ha) Hp HQ. apply wp_with_heap.
  assert (p ∈ L.*1) as Hpin by (destruct Hp; auto).
  apply list_elem_of_fmap in Hpin as ([q k] & -> & Hq). simpl in *.
  destruct (ka_inv_front _ _ _ _ Hq Hi) as (L' & HLL & Hi').
  eapply wp_mono; [by apply (ka_free_wp _ L' b q k)|]. intros [] h Hi''. apply HQ.
  rewrite HLL in Hnd. apply NoDup_cons in Hnd as [Hni Hnd]. exists L'.
  assert (forall a, a ∈ L.*1 -> a <> q -> a ∈ L'.*1) as Hin.
  { intros a. rewrite HLL. simpl. rewrite elem_of_cons. naive_solver. }
  split_and!; try done; simpl; intros a; rewrite !lookup_delete; case_decide; subst;
    intros Hs; try (by destruct Hs); auto.
Qed.

Lemma new_node_wp s b (Q : Z -> lmem H -> Prop) :
  dl_ok s (b + ka_cost NODE_SIZE) -> 0 <= b ->
  (forall p h, p <> 0 -> nodes s !! p = None -> lists s !! p = None ->
     let s' := mk_lmem h (<[p := mk_node 0 0 0]> (nodes s)) (lists s) in
     dl_ok s' b -> Q p s') ->
  wp new_node Q s.
Proof.
  intros Hok Hb HQ. apply wp_bind. eapply malloc_wp; [done|done|unfold NODE_SIZE; lia|].
  intros p h Hp Hn Hl Hx. wp_steps. apply HQ; [done..|]. apply (Hx _ (mk_list 0 0 0)).
Qed.

Lemma free_node_wp s b p (Q : () -> lmem H -> Prop) :
  dl_ok s b -> is_Some (nodes s !! p) ->
  (forall h, let s' := mk_lmem h (delete p (nodes s)) (lists s) in dl_ok s' b -> Q () s') ->
  wp (free_node p) Q s.
Proof.
  intros Hok Hp HQ. apply wp_bind. eapply free_wp; [done|by left|].
  intros h Hx. wp_steps. apply HQ. destruct Hok as (_ & _ & _ & _ & _ & Ha).
  rewrite (delete_id (lists s)) in Hx by auto. done.
Qed.
End rep.

(** Steps over the accesses of a record whose contents [E] gives. *)
Ltac dlookup E :=
  simpl; rewrite ?lookup_insert_ne by congruence; first [exact E | by rewrite lookup_insert_eq].
Ltac nrd_step E := wp_focus; eapply wp_nrd; [done|dlookup E|]; simpl.
Ltac nwr_step E := wp_focus; eapply wp_nwr; [done|dlookup E|]; simpl.
Ltac lrd_step E := wp_focus; eapply wp_lrd; [done|dlookup E|]; simpl.
Ltac lwr_step E := wp_focus; eapply wp_lwr; [done|dlookup E|]; simpl.
(** Lookups in updated maps, by cases on the addresses. *)
Ltac map_cases :=
  repeat (rewrite lookup_insert || rewrite lookup_delete); repeat case_decide; subst; simpl.
Ltac dl_norm :=
  unfold set_nodes, set_lists, set_head, set_tail, set_cnt, set_nprev, set_nnext, set_nval; simpl;
  rewrite ?insert_insert_eq.
Ltac dl_dom :=
  intros ?; simpl; map_cases;
  first [exact id | intros _; eexists; first [eassumption | reflexivity] | congruence].
(** Membership of an address among the nodes of a concrete shape. *)
Ltac dl_in :=
  rewrite ?fmap_app, ?fmap_cons, ?elem_of_app, ?elem_of_cons; simpl; tauto.
Ltac dl_not_in :=
  rewrite ?fmap_app, ?fmap_cons, ?not_elem_of_app, ?not_elem_of_cons in *; simpl in *;
  intuition congruence.
(** The bookkeeping goals after an operation: the allocator still knows every
    record, and nothing outside the list has changed. *)
Ltac dl_keep Hok := eapply dl_ok_dom; [exact Hok|done|dl_dom|dl_dom].
Ltac dl_frame :=
  split; [intros ? ?; simpl; by rewrite lookup_insert_ne by congruence
         |intros ? [? ?] ?Hni; simpl; map_cases;
          first [reflexivity | congruence | exfalso; apply Hni; dl_in]].

Section specs.
Context {H : Type} `{KAlloc H}.
Implicit Types s : lmem H.

Lemma list_push_back_wp s b lp l c v :
  dl_ok s (b + ka_cost NODE_SIZE) -> 0 <= b -> list_rep s lp l c -> 0 <= c < 2 ^ 32 - 1 ->
  wp (list_push_back lp v) (fun p s' =>
    dl_ok s' b /\ p <> 0 /\ nodes s !! p = None /\ list_rep s' lp (l ++ [(p, v)]) (c + 1) /\
    same_outside s s' lp l.*1) s.
Proof.
  intros Hok Hb [Hlp Hl Hseg Hnd Hnz] Hc. apply wp_bind. eapply new_node_wp; [done|done|].
  intros p h Hp Hpn Hpl s1 Hok1. unfold s1 in *. clear s1.
  assert (p ∉ l.*1) as Hpl'.
  { intros Hin. apply (nseg_elem _ _ _ _ _ Hseg) in Hin as [??]. congruence. }
  lrd_step Hl. lrd_step Hl. assert (u32 (c + 1) = c + 1) as Hu by (apply uN_small; lia).
  destruct l as [|[t vt] r _] using rev_ind.
  - simpl. lwr_step Hl. lwr_step Hl. nwr_step Hl. nwr_step Hl. nwr_step Hl. lrd_step Hl. lwr_step Hl.
    wp_step. dl_norm. rewrite Hu. split_and!; [dl_keep Hok1|exact Hp|exact Hpn| |dl_frame].
    split; simpl; [done|by rewrite lookup_insert_eq| | |set_solver].
    + by rewrite lookup_insert_eq.
    + apply NoDup_singleton.
  - rewrite last_addr_snoc in *. simpl. rewrite fmap_app in Hnd, Hnz, Hpl'. simpl in Hnd, Hnz, Hpl'.
    assert (t <> 0) as Ht by set_solver. assert (p <> t) as Hpt by set_solver.
    assert (t ∉ r.*1) as Htr by (apply NoDup_app in Hnd; set_solver).
    rewrite (proj2 (truth_true t)) by done. rewrite andb_false_r.
    pose proof Hseg as (_ & Hmt & _)%nseg_app. simpl in Hmt.
    nwr_step Hl. nwr_step Hl. nwr_step Hl. nwr_step Hmt. lwr_step Hl. lrd_step Hl. lwr_step Hl.
    wp_step. dl_norm. rewrite Hu. split_and!; [dl_keep Hok1|exact Hp|exact Hpn| |dl_frame].
    split; simpl; [done| | | |].
    + rewrite lookup_insert_eq, last_addr_snoc. by destruct r.
    + apply nseg_app. rewrite last_addr_snoc. simpl. split_and!; [| |done].
      * eapply (nseg_set_last _ _ _ _ _ _ _ p) in Hseg; [|done|done].
        eapply nseg_agree; [|exact Hseg]. intros a Ha. rewrite fmap_app in Ha. by map_cases.
      * rewrite lookup_insert_ne by done. by rewrite lookup_insert_eq.
    + rewrite !fmap_app. simpl. apply NoDup_app. split_and!; [done|set_solver|apply NoDup_singleton].
    + rewrite !fmap_app. simpl. set_solver.
Qed.

Lemma list_pop_front_wp s b lp a v l c :
  dl_ok s b -> list_rep s lp ((a, v) :: l) c -> 0 < c < 2 ^ 32 ->
  wp (list_pop_front lp) (fun r s' =>
    dl_ok s' b /\ r = Some v /\ nodes s' !! a = None /\ list_rep s' lp l (c - 1) /\
    same_outside s s' lp (a :: l.*1)) s.
Proof.
  intros Hok [Hlp Hl Hseg Hnd Hnz] Hc. simpl in *. unfold list_pop_front.
  apply NoDup_cons in Hnd as [Hna Hnd]. apply not_elem_of_cons in Hnz as [Ha Hnz].
  apply not_eq_sym in Ha. destruct Hseg as [Hma Hseg]. simpl in *.
  lrd_step Hl. rewrite (proj2 (Z.eqb_neq c 0)) by lia. lrd_step Hl. nrd_step Hma.
  lwr_step Hl. lrd_step Hl. rewrite last_addr_cons in *.
  assert (u32 (c - 1) = c - 1) as Hu by (apply uN_small; lia).
  destruct l as [|[d vd] l]; simpl.
  - lwr_step Hl. lrd_step Hl. lwr_step Hl. nrd_step Hma. dl_norm. rewrite Hu.
    wp_focus. eapply free_node_wp; [dl_keep Hok|by eexists|]. intros h s1 Hok1. subst s1. wp_step.
    split_and!; [exact Hok1|done|by apply lookup_delete_eq| |dl_frame].
    split; simpl; try done. by rewrite lookup_insert_eq.
  - apply not_elem_of_cons in Hna as [Had Hna]. apply not_elem_of_cons in Hnz as [Hd Hnz].
    apply not_eq_sym in Hd. apply NoDup_cons in Hnd as [Hnd1 Hnd]. simpl in *.
    rewrite (proj2 (truth_true d)) by done. pose proof Hseg as [Hmd _]. simpl in Hmd.
    nwr_step Hmd. lrd_step Hl. lwr_step Hl. nrd_step Hma. dl_norm. rewrite Hu.
    wp_focus. eapply free_node_wp; [dl_keep Hok|simpl; map_cases; by eexists|]. intros h s1 Hok1. subst s1. wp_step.
    split_and!; [exact Hok1|done|by apply lookup_delete_eq| |dl_frame].
    split; simpl; [done|by rewrite lookup_insert_eq, !last_addr_cons| |by apply NoDup_cons|dl_not_in].
    rewrite lookup_delete_ne, lookup_insert_eq by done. split; [done|].
    destruct Hseg as [_ Hseg]. eapply nseg_agree; [|exact Hseg].
    intros x Hx. map_cases; done.
Qed.

(** The last node goes; the head is left alone, also when it was that node. *)
Lemma list_pop_back_wp s b lp h l a v c :
  dl_ok s b -> list_shape s lp h (l ++ [(a, v)]) c -> 0 < c < 2 ^ 32 ->
  wp (list_pop_back lp) (fun r s' =>
    dl_ok s' b /\ r = Some v /\ nodes s' !! a = None /\ list_shape s' lp h l (c - 1) /\
    same_outside s s' lp (l ++ [(a, v)]).*1 /\
    (forall x, is_Some (nodes s' !! x) -> is_Some (nodes s !! x))) s.
Proof.
  intros Hok [Hlp Hl Hseg Hnd Hnz] Hc. unfold list_pop_back. rewrite last_addr_snoc in Hl.
  rewrite fmap_app in Hnd, Hnz. simpl in *.
  apply NoDup_app in Hnd as (Hndl & Hna & _). apply not_elem_of_app in Hnz as [Hnz Ha].
  assert (a ∉ l.*1) as Hal by (intros Hx; apply Hna in Hx; apply Hx; by left).
  assert (a <> 0) as Ha0 by (intros ->; apply Ha; by left).
  pose proof Hseg as (Hs & Hma & _)%nseg_app. simpl in Hma, Hs.
  lrd_step Hl. rewrite (proj2 (Z.eqb_neq c 0)) by lia. lrd_step Hl. nrd_step Hma.
  lwr_step Hl. lrd_step Hl. assert (u32 (c - 1) = c - 1) as Hu by (apply uN_small; lia).
  destruct l as [|[d vd] l _] using rev_ind; simpl.
  - wp_step. wp_step. lrd_step Hl. lwr_step Hl. nrd_step Hma. dl_norm. rewrite Hu.
    wp_focus. eapply free_node_wp; [dl_keep Hok|by eexists|]. intros h' s1 Hok1. subst s1. wp_step.
    split_and!; [exact Hok1|done|by apply lookup_delete_eq| |dl_frame|dl_dom].
    split; simpl; try done. by rewrite lookup_insert_eq.
  - rewrite last_addr_snoc in *. rewrite fmap_app in Hndl, Hnz, Hal. simpl in *.
    apply NoDup_app in Hndl as (Hndl & Hnd & Hdd).
    assert (d ∉ l.*1) as Hdl by (intros Hx; apply Hnd in Hx; apply Hx; by left).
    assert (d <> 0 /\ a <> d) as [Hd0 Had] by dl_not_in.
    rewrite (proj2 (truth_true d)) by done. pose proof Hs as (_ & Hmd & _)%nseg_app. simpl in Hmd.
    nwr_step Hmd. lrd_step Hl. lwr_step Hl. nrd_step Hma. dl_norm. rewrite Hu.
    wp_focus. eapply free_node_wp; [dl_keep Hok|simpl; map_cases; by eexists|]. intros h' s1 Hok1. subst s1. wp_step.
    split_and!; [exact Hok1|done|by apply lookup_delete_eq| |dl_frame|dl_dom].
    split; simpl; [done|by rewrite lookup_insert_eq, last_addr_snoc| | |rewrite fmap_app; exact Hnz].
    + eapply (nseg_set_last _ _ _ _ _ _ _ 0) in Hs; [|done|done].
      eapply nseg_agree; [|exact Hs]. intros x Hx. rewrite fmap_app in Hx. simpl in Hx.
      rewrite lookup_delete_ne by congruence. done.
    + rewrite fmap_app. apply NoDup_app. done.
Qed.

Lemma list_push_front_wp s b lp l c v :
  dl_ok s (b + ka_cost NODE_SIZE) -> 0 <= b -> list_rep s lp l c -> 0 <= c < 2 ^ 32 - 1 ->
  wp (list_push_front lp v) (fun p s' =>
    dl_ok s' b /\ p <> 0 /\ nodes s !! p = None /\ list_rep s' lp ((p, v) :: l) (c + 1) /\
    same_outside s s' lp l.*1) s.
Proof.
  intros Hok Hb Hrep Hc. pose proof Hrep as [Hlp Hl Hseg Hnd Hnz]. unfold list_push_front.
  lrd_step Hl. lrd_step Hl. destruct l as [|[d vd] l]; [by apply (list_push_back_wp s b lp [] c v)|].
  simpl in Hnz. assert (d <> 0) as Hd by (intros ->; apply Hnz; by left).
  simpl. rewrite (proj2 (truth_true d)) by done. simpl. apply wp_bind.
  eapply new_node_wp; [done|done|]. intros p h Hp Hpn Hpl s1 Hok1. subst s1.
  assert (u32 (c + 1) = c + 1) as Hu by (apply uN_small; lia).
  pose proof Hseg as [Hmd Hs]. simpl in Hmd. assert (p <> d) as Hpd by congruence.
  nwr_step Hl. lrd_step Hl. nwr_step Hl. nwr_step Hl. lrd_step Hl. nwr_step Hmd.
  lwr_step Hl. lrd_step Hl. lwr_step Hl. wp_step. dl_norm. rewrite Hu.
  assert (p ∉ ((d, vd) :: l).*1) as Hpl'.
  { intros Hin. apply (nseg_elem _ _ _ _ _ Hseg) in Hin as [??]. congruence. }
  split_and!; [dl_keep Hok1|exact Hp|exact Hpn| |dl_frame].
  split; simpl; [done|by rewrite lookup_insert_eq, !last_addr_cons| | |].
  - rewrite lookup_insert_ne, lookup_insert_eq by done. split; [done|].
    rewrite lookup_insert_eq. split; [done|]. eapply nseg_agree; [|exact Hs].
    apply NoDup_cons in Hnd as [Hnd _]. intros x Hx. simpl in *. map_cases; try done.
    exfalso. apply Hpl'. by right.
  - apply NoDup_cons. done.
  - apply not_elem_of_cons. done.
Qed.

(** [list_get] is the lookup by index, and changes nothing. *)
Lemma list_get_wp s lp l c i :
  list_rep s lp l c -> 0 <= i < 2 ^ 32 ->
  wp (list_get lp i) (fun r s' => s' = s /\
    r = if i <? c then default 0 (fst <$> l !! Z.to_nat i) else 0) s.
Proof.
  intros [Hlp Hl Hseg Hnd Hnz] Hi. unfold list_get. lrd_step Hl.
  rewrite Z.ltb_antisym. destruct (Z.leb_spec c i); [by apply wp_ret|]. simpl.
  lrd_step Hl. wp_step. wp_step. pose proof (nseg_size _ _ _ _ Hseg Hnd) as Hsz.
  eapply (wp_while (fun k st s' => s' = s /\ exists l1 l2, l = l1 ++ l2 /\ k = length l2 /\
    st = (hd_addr l2 0, Z.of_nat (length l1)) /\ Z.of_nat (length l1) <= i) (length l)).
  - split; [done|]. exists [], l. simpl. split_and!; done || lia.
  - rewrite Nat2N.id. lia.
  - clear Hsz. intros k st s' (-> & l1 & l2 & -> & -> & -> & Hle). unfold list_get_round.
    destruct l2 as [|[a v] l2]; simpl hd_addr; simpl length.
    { apply wp_ret. split; [done|]. rewrite app_nil_r, lookup_ge_None_2; [done|lia]. }
    rewrite fmap_app in Hnz. apply not_elem_of_app in Hnz as [_ [Ha _]%not_elem_of_cons].
    rewrite (proj2 (Z.eqb_neq a 0)) by (simpl in Ha; congruence).
    destruct (Z.eqb_spec (Z.of_nat (length l1)) i) as [<-|Hne].
    { apply wp_ret. split; [done|]. rewrite Nat2Z.id. by rewrite list_lookup_middle. }
    pose proof Hseg as (_ & Hma & _)%nseg_app. simpl in Hma, Ha.
    wp_focus. eapply wp_nrd; [congruence|exact Hma|]. apply wp_ret.
    exists (length l2). split; [lia|]. split; [done|]. exists (l1 ++ [(a, v)]), l2.
    rewrite <- app_assoc, length_app. simpl. rewrite uN_small by lia.
    split_and!; try done; [f_equal; lia|lia].
Qed.

(** The null-checked pointer updates. *)
Lemma wp_fix_next s p q a nd (Q : () -> lmem H -> Prop) :
  (truth p = true -> is_Some (nodes s !! p)) -> a <> 0 -> nodes s !! a = Some nd -> nnext nd = q ->
  Q () (set_nodes (fix_next (nodes s) p q) s) ->
  wp (if truth p then n ← nrd nnext a; nwr (set_nnext n) p else mret ()) Q s.
Proof.
  intros Hp Ha Hnd <- HQ. unfold fix_next in HQ. destruct (truth p) eqn:Ht.
  - destruct (Hp eq_refl) as [n Hn]. apply truth_true in Ht. nrd_step Hnd. nwr_step Hn.
    rewrite (alter_Some _ _ _ _ Hn) in HQ. done.
  - apply wp_ret. by destruct s.
Qed.
Lemma wp_fix_prev s p q a nd (Q : () -> lmem H -> Prop) :
  (truth q = true -> is_Some (nodes s !! q)) -> a <> 0 -> nodes s !! a = Some nd -> nprev nd = p ->
  Q () (set_nodes (fix_prev (nodes s) q p) s) ->
  wp (if truth q then n ← nrd nprev a; nwr (set_nprev n) q else mret ()) Q s.
Proof.
  intros Hp Ha Hnd <- HQ. unfold fix_prev in HQ. destruct (truth q) eqn:Ht.
  - destruct (Hp eq_refl) as [n Hn]. apply truth_true in Ht. nrd_step Hnd. nwr_step Hn.
    rewrite (alter_Some _ _ _ _ Hn) in HQ. done.
  - apply wp_ret. by destruct s.
Qed.

(** The neighbours of a node, when they exist, are nodes. *)
Lemma nseg_neighbours m l1 q p l2 q' :
  nseg m 0 l1 q -> nseg m p l2 q' ->
  (truth (last_addr 0 l1) = true -> is_Some (m !! last_addr 0 l1)) /\
  (truth (hd_addr l2 0) = true -> is_Some (m !! hd_addr l2 0)).
Proof.
  intros H1 H2. split.
  - intros Ht. eapply nseg_elem; [exact H1|]. apply last_addr_elem. by intros ->.
  - intros Ht. eapply nseg_elem; [exact H2|]. destruct l2; [done|]. by left.
Qed.

Lemma fix_is_Some m p q r t a :
  is_Some (fix_prev (fix_next m p q) r t !! a) -> is_Some (m !! a).
Proof.
  unfold fix_prev, fix_next. destruct (truth p), (truth r); rewrite ?lookup_alter;
    repeat case_decide; subst; rewrite ?fmap_is_Some; done.
Qed.

Lemma fix_next_is_Some m p q a : is_Some (m !! a) -> is_Some (fix_next m p q !! a).
Proof.
  unfold fix_next. destruct (truth p); [|done]. rewrite lookup_alter.
  case_decide; subst; by rewrite ?fmap_is_Some.
Qed.

Lemma fix_outside m p q r t a :
  a <> p -> a <> r -> fix_prev (fix_next m p q) r t !! a = m !! a.
Proof.
  unfold fix_prev, fix_next. intros. destruct (truth p), (truth r);
    rewrite ?lookup_alter_ne by congruence; done.
Qed.

Lemma last_addr_app_cons p l1 x l2 : last_addr p (l1 ++ x :: l2) = last_addr x.1 l2.
Proof.
  rewrite <- (last_addr_cons p). unfold last_addr. by rewrite last_app_cons.
Qed.

Lemma wp_fix_head s lp h t c a nd (Q : () -> lmem H -> Prop) :
  lp <> 0 -> lists s !! lp = Some (mk_list h t c) -> a <> 0 -> nodes s !! a = Some nd ->
  Q () (set_lists (<[lp := mk_list (if a =? h then nnext nd else h) t c]> (lists s)) s) ->
  wp (if a =? h then n ← nrd nnext a; lwr (set_head n) lp else mret ()) Q s.
Proof.
  intros Hlp Hl Ha Hnd HQ. destruct (a =? h); [nrd_step Hnd; by lwr_step Hl|].
  apply wp_ret. rewrite insert_id in HQ by done. by destruct s.
Qed.

Lemma wp_fix_tail s lp h t c a nd (Q : () -> lmem H -> Prop) :
  lp <> 0 -> lists s !! lp = Some (mk_list h t c) -> a <> 0 -> nodes s !! a = Some nd ->
  Q () (set_lists (<[lp := mk_list h (if a =? t then nprev nd else t) c]> (lists s)) s) ->
  wp (if a =? t then n ← nrd nprev a; lwr (set_tail n) lp else mret ()) Q s.
Proof.
  intros Hlp Hl Ha Hnd HQ. destruct (a =? t); [nrd_step Hnd; by lwr_step Hl|].
  apply wp_ret. rewrite insert_id in HQ by done. by destruct s.
Qed.

Lemma unlink_head l1 a v l2 : a ∉ l1.*1 ->
  (if a =? hd_addr (l1 ++ (a, v) :: l2) 0 then hd_addr l2 0 else hd_addr (l1 ++ (a, v) :: l2) 0)
  = hd_addr (l1 ++ l2) 0.
Proof.
  intros Ha. destruct l1 as [|[d vd] l1]; simpl; [by rewrite Z.eqb_refl|].
  rewrite (proj2 (Z.eqb_neq a d)); [done|]. dl_not_in.
Qed.

Lemma unlink_tail l1 a v l2 : a ∉ l2.*1 ->
  (if a =? last_addr 0 (l1 ++ (a, v) :: l2) then last_addr 0 l1 else last_addr 0 (l1 ++ (a, v) :: l2))
  = last_addr 0 (l1 ++ l2).
Proof.
  intros Ha. rewrite last_addr_app_cons. destruct l2 as [|[d vd] l2 _] using rev_ind; simpl.
  - by rewrite Z.eqb_refl, app_nil_r.
  - rewrite app_assoc, !last_addr_snoc. rewrite (proj2 (Z.eqb_neq a _)); [done|].
    simpl. intros ->. apply Ha. dl_in.
Qed.

Lemma list_remove_wp s b lp l1 a v l2 c :
  dl_ok s b -> list_rep s lp (l1 ++ (a, v) :: l2) c -> Z.of_nat (length l1) < c < 2 ^ 32 ->
  wp (list_remove lp (Z.of_nat (length l1))) (fun _ s' =>
    dl_ok s' b /\ nodes s' !! a = None /\ list_rep s' lp (l1 ++ l2) (c - 1) /\
    same_outside s s' lp (l1 ++ (a, v) :: l2).*1) s.
Proof.
  intros Hok Hrep Hc. pose proof Hrep as [Hlp Hl Hseg Hnd Hnz].
  unfold list_remove. wp_focus. eapply wp_mono; [apply (list_get_wp s lp (l1 ++ (a, v) :: l2) c); [done|lia]|].
  intros ? ? [-> ->]. rewrite (proj2 (Z.ltb_lt _ _)), Nat2Z.id, list_lookup_middle by done || lia.
  pose proof Hseg as (Hs1 & Hma & Hs2)%nseg_app. simpl in Hma, Hs2.
  pose proof (nseg_unlink _ _ _ _ _ Hseg Hnd Hnz) as Hun. cbv zeta in Hun.
  destruct (nseg_neighbours _ _ _ _ _ _ Hs1 Hs2) as [Hn1 Hn2].
  assert (a <> 0 /\ a ∉ l1.*1 /\ a ∉ l2.*1) as (Ha & Ha1 & Ha2).
  { rewrite fmap_app in Hnd, Hnz. apply NoDup_app in Hnd as (_ & Hx & [Ha2 _]%NoDup_cons).
    split_and!; [dl_not_in| |done]. intros ?. apply (Hx a); [done|by left]. }
  set (p := last_addr 0 l1) in *. set (q := hd_addr l2 0) in *. simpl.
  nrd_step Hma. wp_focus. apply wp_fix_next with (q := q) (nd := mk_node p q v); [exact Hn1|exact Ha|exact Hma|done|].
  assert (fix_next (nodes s) p q !! a = Some (mk_node p q v)) as Hma1.
  { unfold p. by rewrite fix_next_out. }
  nrd_step Hma1. wp_focus. apply wp_fix_prev with (p := p) (nd := mk_node p q v); [|exact Ha|exact Hma1|done|]; simpl.
  { intros Ht. by apply fix_next_is_Some, Hn2. }
  assert (fix_prev (fix_next (nodes s) p q) q p !! a = Some (mk_node p q v)) as Hma2.
  { unfold q. by rewrite fix_prev_out. }
  lrd_step Hl. wp_focus. eapply wp_fix_head; [done|exact Hl|exact Ha|exact Hma2|]. simpl.
  unfold q at 3. rewrite unlink_head by done.
  lrd_step Hl. wp_focus. eapply wp_fix_tail; [done|by apply lookup_insert_eq|exact Ha|exact Hma2|]. simpl.
  unfold p at 3. rewrite unlink_tail by done. lrd_step Hl. lwr_step Hl. dl_norm.
  rewrite uN_small by lia.
  eapply free_node_wp; [|by eexists|].
  { eapply dl_ok_dom; [exact Hok|done|intros x; apply fix_is_Some|dl_dom]. }
  intros h s1 Hok1. subst s1. simpl in *.
  split_and!; [exact Hok1|by apply lookup_delete_eq| |].
  - split; simpl; [done|by rewrite lookup_insert_eq|exact Hun| |]; rewrite fmap_app in *; simpl in *.
    + apply NoDup_app in Hnd as (Hnd1 & Hx & [_ Hnd2]%NoDup_cons). apply NoDup_app.
      split_and!; try done. intros x Hx1 Hx2. apply (Hx x Hx1). by right.
    + dl_not_in.
  - split; simpl; [intros ? ?; by rewrite lookup_insert_ne by congruence|].
    intros x [nx Hx] Hxin. rewrite lookup_delete_ne by (intros ->; apply Hxin; dl_in).
    unfold p, q. rewrite fix_prev_out, fix_next_out; [done|..]; intros ?; apply Hxin; dl_in.
Qed.

(** A record nobody uses yet does not matter to a list. *)
Lemma list_rep_new_node s lp l c (h : H) p x :
  nodes s !! p = None -> list_rep s lp l c ->
  list_rep (mk_lmem h (<[p := x]> (nodes s)) (lists s)) lp l c.
Proof.
  intros Hp [H1 H2 H3 H4 H5]. split; try done. simpl. eapply nseg_agree; [|done].
  intros a [y Hy]%(nseg_elem _ _ _ _ _ H3). rewrite lookup_insert_ne by congruence. done.
Qed.

Lemma list_rep_link s (h : H) lp l1 p v l2 c :
  list_rep s lp (l1 ++ l2) c -> nodes s !! p = None -> p <> 0 -> l2 <> [] ->
  let pr := last_addr 0 l1 in
  let q := hd_addr l2 0 in
  let s' := mk_lmem h (fix_prev (fix_next (<[p := mk_node pr q v]> (nodes s)) pr p) q p)
    (<[lp := mk_list (hd_addr (l1 ++ (p, v) :: l2) 0) (last_addr 0 (l1 ++ l2)) c]> (lists s)) in
  list_rep s' lp (l1 ++ (p, v) :: l2) c /\ same_outside s s' lp (l1 ++ l2).*1.
Proof.
  intros [H1 H2 H3 H4 H5] Hpn Hp Hne pr q s'.
  assert (p ∉ (l1 ++ l2).*1) as Hpl'.
  { intros Hin. apply (nseg_elem _ _ _ _ _ H3) in Hin as [??]. congruence. }
  split; [split; simpl|split; simpl].
  - done.
  - rewrite lookup_insert_eq. destruct l2 as [|x l2]; [done|].
    by rewrite !last_addr_app_cons, last_addr_cons.
  - apply nseg_link; try done; [|by apply lookup_insert_eq].
    eapply nseg_agree; [|exact H3]. intros a Ha. apply lookup_insert_ne. by intros ->.
  - rewrite fmap_app in *. apply NoDup_app in H4 as (Hn1 & Hx & Hn2). simpl.
    apply not_elem_of_app in Hpl' as [Hp1 Hp2]. apply NoDup_app. rewrite NoDup_cons. split_and!; try done.
    intros a Ha [->|Ha2]%elem_of_cons; [done|]. by apply (Hx a).
  - rewrite fmap_app in *. simpl. rewrite not_elem_of_app, not_elem_of_cons in *. split_and!; [tauto|done|tauto].
  - intros lp' Hlp'. by rewrite lookup_insert_ne.
  - intros a [x Hx] Ha. rewrite fmap_app in Ha. apply not_elem_of_app in Ha as [Ha1 Ha2].
    unfold pr, q. rewrite fix_prev_out, fix_next_out, lookup_insert_ne by congruence. done.
Qed.

(** The insertion proper: the new node is linked in front of the one at the
    index, and the count stays what it was. *)
Lemma list_insert_wp s b lp l1 d vd l2 c v :
  dl_ok s (b + ka_cost NODE_SIZE) -> 0 <= b ->
  list_rep s lp (l1 ++ (d, vd) :: l2) c -> Z.of_nat (length l1) < c < 2 ^ 32 ->
  wp (list_insert lp v (Z.of_nat (length l1))) (fun _ s' => exists p,
    dl_ok s' b /\ p <> 0 /\ nodes s !! p = None /\
    list_rep s' lp (l1 ++ (p, v) :: (d, vd) :: l2) c /\
    same_outside s s' lp (l1 ++ (d, vd) :: l2).*1) s.
Proof.
  intros Hok Hb Hrep Hc. pose proof Hrep as [Hlp Hl Hseg Hnd Hnz].
  unfold list_insert. lrd_step Hl. rewrite (proj2 (Z.eqb_neq _ c)) by lia. wp_steps.
  apply wp_bind. eapply new_node_wp; [done|done|]. intros p h Hp Hpn Hpl s1 Hok1. subst s1.
  assert (p ∉ (l1 ++ (d, vd) :: l2).*1) as Hpl'.
  { intros Hin. apply (nseg_elem _ _ _ _ _ Hseg) in Hin as [??]. congruence. }
  nwr_step Hl. dl_norm. wp_focus. eapply wp_mono.
  { apply (list_get_wp _ lp (l1 ++ (d, vd) :: l2) c); [by apply list_rep_new_node|lia]. }
  intros ? ? [-> ->]. rewrite (proj2 (Z.ltb_lt _ _)), Nat2Z.id, list_lookup_middle by done || lia.
  simpl. pose proof Hseg as (Hs1 & Hmd & Hs2)%nseg_app. simpl in Hmd, Hs2.
  assert (d <> 0 /\ p <> d) as [Hd Hpd] by dl_not_in.
  nrd_step Hmd. nwr_step Hl. nrd_step Hl. rewrite insert_insert_eq. dl_norm.
  destruct (nseg_neighbours _ _ _ _ _ _ Hs1 Hs2) as [Hn1 _]. set (pr := last_addr 0 l1) in *.
  assert (pr <> p) as Hprp.
  { intros ->. destruct (truth p) eqn:Ht; [destruct Hn1; congruence|]. by apply truth_false in Ht. }
  apply wp_bind, (wp_mono _ (fun _ s' =>
    s' = mk_lmem h (<[p := mk_node pr 0 v]> (fix_next (nodes s) pr p)) (lists s))).
  { rewrite <- fix_next_insert by done. unfold fix_next. destruct (truth pr) eqn:Ht; [|by apply wp_ret].
    destruct (Hn1 eq_refl) as [n Hn]. apply truth_true in Ht.
    nwr_step Hn. rewrite (alter_Some _ _ _ n); [done|]. by rewrite lookup_insert_ne. }
  intros [] ? ->.
  assert (fix_next (nodes s) pr p !! d = Some (mk_node pr (hd_addr l2 0) vd)) as Hmd'.
  { rewrite fmap_app in Hnd. apply NoDup_app in Hnd as (_ & Hx & _).
    unfold pr. rewrite fix_next_out; [done|]. intros Hdl. apply (Hx d Hdl). by left. }
  nwr_step Hl. nwr_step Hmd'. rewrite insert_insert_eq. nrd_step Hmd'. dl_norm.
  rewrite fmap_app in Hnd. 
  eapply (wp_mono _ (fun _ s' => s' = mk_lmem h
    (fix_prev (fix_next (<[p := mk_node pr d v]> (nodes s)) pr p) d p)
    (<[lp := mk_list (hd_addr (l1 ++ (p, v) :: (d, vd) :: l2) 0) (last_addr d l2) c]> (lists s)))).
  { rewrite fix_next_insert by done. unfold fix_prev. rewrite (proj2 (truth_true d)) by done.
    erewrite alter_Some; [|by rewrite lookup_insert_ne].
    rewrite last_addr_app_cons in Hl. destruct l1 as [|[e ve] l1 _] using rev_ind.
    - simpl. by lwr_step Hl.
    - assert (pr = e) as -> by apply last_addr_snoc. 
      assert (e <> 0) as He by (rewrite fmap_app in Hnz; dl_not_in).
      rewrite (proj2 (Z.eqb_neq e 0)) by done. apply wp_ret. rewrite (insert_id (lists s)); [done|].
      rewrite Hl. f_equal. by rewrite <- !app_assoc, !hd_addr_app. }
  intros [] ? ->. exists p. pose proof (list_rep_link s h lp l1 p v ((d, vd) :: l2) c Hrep Hpn Hp ltac:(done))
    as [Hrep' Hsame]. simpl in Hrep', Hsame. rewrite last_addr_app_cons in Hrep', Hsame.
  split_and!; [|exact Hp|exact Hpn|exact Hrep'|exact Hsame].
  eapply dl_ok_dom; [exact Hok1|done| |dl_dom].
  intros x Hx%fix_is_Some. simpl. revert Hx. map_cases; [by eexists|done].
Qed.

Lemma list_create_wp s b :
  dl_ok s (b + ka_cost LIST_SIZE) -> 0 <= b ->
  wp list_create (fun lp s' => dl_ok s' b /\ lists s !! lp = None /\ list_rep s' lp [] 0 /\
    same_outside s s' lp []) s.
Proof.
  intros Hok Hb. apply wp_bind. eapply malloc_wp; [done|done|unfold LIST_SIZE; lia|].
  intros p h Hp Hn Hl Hx. wp_steps. dl_norm. split_and!; [apply (Hx (mk_node 0 0 0))|done| |dl_frame].
  split; simpl; [done|by rewrite lookup_insert_eq|done|constructor|by apply not_elem_of_nil].
Qed.

Lemma same_outside_trans s1 s2 s3 lp A B :
  same_outside s1 s2 lp A -> same_outside s2 s3 lp B -> B ⊆ A -> same_outside s1 s3 lp A.
Proof.
  intros [Hl1 Hn1] [Hl2 Hn2] Hsub. split.
  - intros lp' Hne. by rewrite Hl2, Hl1.
  - intros a Ha Hna. rewrite <- (Hn1 a Ha Hna) in Ha |- *. apply Hn2; [done|].
    intros Hb. by apply Hna, Hsub.
Qed.

(** [list_destroy] frees all the nodes and the list. *)
Lemma list_destroy_wp s b lp l :
  dl_ok s b -> list_rep s lp l (Z.of_nat (length l)) -> Z.of_nat (length l) < 2 ^ 32 ->
  wp (list_destroy lp) (fun _ s' => dl_ok s' b /\ lists s' !! lp = None /\
    (forall a, a ∈ l.*1 -> nodes s' !! a = None) /\ same_outside s s' lp l.*1) s.
Proof.
  intros Hok Hrep Hlen. pose proof Hrep as [Hlp Hl _ _ _]. unfold list_destroy. lrd_step Hl.
  wp_focus. apply (wp_for_each (fun i s' => exists l1 l2, l = l1 ++ l2 /\ Z.of_nat (length l2) = i /\
    dl_ok s' b /\ list_shape s' lp (hd_addr l 0) l1 (Z.of_nat (length l1)) /\
    (forall a, a ∈ l2.*1 -> nodes s' !! a = None) /\ same_outside s s' lp l.*1)); [lia| | |].
  - exists l, []. rewrite app_nil_r. split_and!; try done. by intros a ?%elem_of_nil.
  - intros i s1 Hi (l1 & l2 & -> & Hl2 & Hok1 & Hsh & Hgone & Hsame). rewrite length_app in Hi, Hlen.
    destruct l1 as [|[a v] l1 _] using rev_ind; [simpl in *; lia|]. rewrite length_app in Hsh. simpl in Hsh.
    wp_focus. eapply wp_mono; [eapply list_pop_back_wp; [exact Hok1|exact Hsh|rewrite length_app in *; simpl in *; lia]|].
    intros r s2 (Hok2 & _ & Hna & Hsh2 & Hsame2 & Hdom). wp_step.
    exists l1, ((a, v) :: l2). rewrite <- app_assoc. simpl.
    replace (Z.of_nat (length l1 + 1) - 1) with (Z.of_nat (length l1)) in Hsh2 by lia.
    rewrite <- app_assoc in Hsh2. split_and!; [done|lia|done|done| |].
    + intros x [->|Hx]%elem_of_cons; [done|]. apply eq_None_not_Some. intros Hs%Hdom.
      rewrite Hgone in Hs by done. by destruct Hs.
    + rewrite <- app_assoc in Hsame. eapply same_outside_trans; [exact Hsame|exact Hsame2|].
      intros x. rewrite !fmap_app. simpl. rewrite !elem_of_app, !elem_of_cons, elem_of_nil. tauto.
  - intros s1 (l1 & l2 & -> & Hl2 & Hok1 & Hsh & Hgone & Hsame). rewrite length_app in Hl2.
    destruct l1; [|simpl in *; lia]. destruct Hsh as [_ Hls _ _ _]. simpl in *.
    wp_focus. eapply free_wp; [exact Hok1|right; by eexists|]. intros h Hx. wp_step.
    destruct Hok1 as (L & _ & _ & _ & _ & Hap). 
    assert (nodes s1 !! lp = None) as Hnlp.
    { destruct (nodes s1 !! lp) eqn:E; [|done]. rewrite Hap in Hls; [done|by rewrite E]. }
    rewrite delete_id in Hx by done. split_and!; [exact Hx|by apply lookup_delete_eq|exact Hgone|].
    destruct Hsame as [Hs1 Hs2]. split; simpl; [|done].
    intros lp' Hne. rewrite lookup_delete_ne by done. auto.
Qed.
End specs.

(** ** Lists as sequences of values *)

(** The operations on a list, and what each should do to the sequence of values. *)
Inductive lop : Type :=
  | PushBack (v : Z)
  | PushFront (v : Z)
  | PopFront
  | PopBack
  | Get (i : nat)
  | Remove (i : nat).

Definition deque_op (o : lop) (xs : list Z) : option Z * list Z :=
  match o with
  | PushBack v => (None, xs ++ [v])
  | PushFront v => (None, v :: xs)
  | PopFront => (hd_error xs, tl xs)
  | PopBack => (last xs, take (length xs - 1) xs)
  | Get i => (xs !! i, xs)
  | Remove i => (None, delete i xs)
  end.
Fixpoint deque_ops (ops : list lop) (xs : list Z) : list (option Z) * list Z :=
  match ops with
  | [] => ([], xs)
  | o :: ops' => let '(r, ys) := deque_op o xs in let '(rs, zs) := deque_ops ops' ys in (r :: rs, zs)
  end.

(** Where the code does that: an index must be in range, and [list_pop_back] must not take
    the only element (it would leave a dangling head). *)
Definition covered (o : lop) (xs : list Z) : Prop :=
  match o with
  | PopBack => length xs <> 1%nat
  | Get i | Remove i => (i < length xs)%nat
  | _ => True
  end.
Fixpoint covered_ops (ops : list lop) (xs : list Z) : Prop :=
  match ops with [] => True | o :: ops' => covered o xs /\ covered_ops ops' (deque_op o xs).2 end.

(** The covered part as a partial function. *)
Definition spec_op (o : lop) (xs : list Z) : option (option Z * list Z) :=
  match o with
  | PushBack v => Some (None, xs ++ [v])
  | PushFront v => Some (None, v :: xs)
  | PopFront => match xs with [] => Some (None, []) | x :: xs' => Some (Some x, xs') end
  | PopBack =>
      match reverse xs with
      | [] => Some (None, [])
      | [_] => None
      | x :: r => Some (Some x, reverse r)
      end
  | Get i => match xs !! i with Some v => Some (Some v, xs) | None => None end
  | Remove i => match xs !! i with Some _ => Some (None, delete i xs) | None => None end
  end.

Fixpoint spec_ops (ops : list lop) (xs : list Z) : option (list (option Z) * list Z) :=
  match ops with
  | [] => Some ([], xs)
  | o :: ops' =>
      match spec_op o xs with
      | Some (r, ys) =>
          match spec_ops ops' ys with Some (rs, zs) => Some (r :: rs, zs) | None => None end
      | None => None
      end
  end.

Lemma spec_op_covered o xs : covered o xs -> spec_op o xs = Some (deque_op o xs).
Proof.
  destruct o as [v|v| | |i|i]; cbn; try done.
  - by destruct xs.
  - destruct xs as [|x xs _] using rev_ind; [done|]. rewrite length_app, reverse_snoc, last_snoc. cbn. intros Hl.
    rewrite Nat.add_sub, take_app_length. destruct (reverse xs) as [|y r] eqn:E.
    + apply (f_equal length) in E. rewrite length_reverse in E. cbn in E. lia.
    + by rewrite <- E, reverse_involutive.
  - intros Hi. by destruct (lookup_lt_is_Some_2 xs i Hi) as [x ->].
  - intros Hi. by destruct (lookup_lt_is_Some_2 xs i Hi) as [x ->].
Qed.
Lemma spec_ops_covered ops xs : covered_ops ops xs -> spec_ops ops xs = Some (deque_ops ops xs).
Proof.
  revert xs. induction ops as [|o ops IH]; intros xs; [done|]. cbn. intros [Ho Hops].
  rewrite (spec_op_covered o xs Ho). destruct (deque_op o xs) as [r ys]. rewrite (IH ys Hops).
  by destruct (deque_ops ops ys).
Qed.

Definition is_push (o : lop) : bool :=
  match o with PushBack _ | PushFront _ => true | _ => false end.
Definition pushes (ops : list lop) : Z := Z.of_nat (length (filter (fun o => is_push o = true) ops)).

Section run.
Context {H : Type} `{KAlloc H}.
Implicit Types s : lmem H.

Definition run_op (lp : Z) (o : lop) : M (lmem H) (option Z) :=
  match o with
  | PushBack v => list_push_back lp v;; mret None
  | PushFront v => list_push_front lp v;; mret None
  | PopFront => list_pop_front lp
  | PopBack => list_pop_back lp
  | Get i => node ← list_get lp (Z.of_nat i); v ← nrd nval node; mret (Some v)
  | Remove i => list_remove lp (Z.of_nat i);; mret None
  end.

Fixpoint run_ops (lp : Z) (ops : list lop) : M (lmem H) (list (option Z)) :=
  match ops with
  | [] => mret []
  | o :: ops' => r ← run_op lp o; rs ← run_ops lp ops'; mret (r :: rs)
  end.

(** The list at [lp] is well-formed and holds the values [xs]. *)
Definition holds s (lp : Z) (xs : list Z) : Prop :=
  exists l, list_rep s lp l (Z.of_nat (length l)) /\ l.*2 = xs.

Lemma lookup_split_snd (l : nseq) i v :
  l.*2 !! i = Some v -> exists l1 a l2, l = l1 ++ (a, v) :: l2 /\ i = length l1.
Proof.
  rewrite list_lookup_fmap. destruct (l !! i) as [[a w]|] eqn:E; [|done]. intros [= ->].
  exists (take i l), a, (drop (S i) l). split; [by rewrite take_drop_middle|].
  apply lookup_lt_Some in E. rewrite length_take. lia.
Qed.

Lemma run_pop_back_wp s b lp xs r ys :
  spec_op PopBack xs = Some (r, ys) -> holds s lp xs -> Z.of_nat (length xs) < 2 ^ 32 - 1 -> dl_ok s b ->
  wp (run_op lp PopBack) (fun r' s' => r' = r /\ holds s' lp ys /\ dl_ok s' b) s.
Proof.
  intros Hspec (l & Hrep & <-) Hlen Hok. rewrite length_fmap in Hlen. simpl in *.
  destruct l as [|[a v] l _] using rev_ind.
  + injection Hspec as <- <-. destruct Hrep as [Hlp Hl H3 H4 H5]. unfold list_pop_back. lrd_step Hl.
    apply wp_ret. split_and!; try done. by exists [].
  + rewrite fmap_app in Hspec. simpl in Hspec. rewrite reverse_snoc in Hspec.
    rewrite length_app in *. simpl in Hlen, Hrep.
    eapply wp_mono; [eapply list_pop_back_wp; [done|exact Hrep|simpl length in *; lia]|].
    intros r' s' (Hok' & -> & _ & Hsh & _).
    destruct l as [|x l]; [done|]. destruct (reverse (x :: l).*2) as [|y r0] eqn:Hrev.
    { apply (f_equal length) in Hrev. by rewrite length_reverse in Hrev. }
    injection Hspec as <- <-. split_and!; try done. exists (x :: l).
    rewrite <- Hrev, reverse_involutive. split; [|done].
    replace (Z.of_nat (length (x :: l))) with (Z.of_nat (length (x :: l) + 1) - 1) by lia. done.
Qed.

Lemma run_get_wp s b lp i xs r ys :
  spec_op (Get i) xs = Some (r, ys) -> holds s lp xs -> Z.of_nat (length xs) < 2 ^ 32 - 1 -> dl_ok s b ->
  wp (run_op lp (Get i)) (fun r' s' => r' = r /\ holds s' lp ys /\ dl_ok s' b) s.
Proof.
  intros Hspec (l & Hrep & <-) Hlen Hok. rewrite length_fmap in Hlen. simpl in *.
  destruct (l.*2 !! i) as [v|] eqn:Hi; [|done]. injection Hspec as <- <-.
  apply lookup_split_snd in Hi as (l1 & a & l2 & -> & ->). rewrite length_app in *. simpl in Hlen, Hrep.
  wp_focus. eapply wp_mono; [apply (list_get_wp _ _ _ _ _ Hrep); lia|].
  intros ? ? [-> ->]. rewrite (proj2 (Z.ltb_lt _ _)), Nat2Z.id, list_lookup_middle by done || lia.
  pose proof Hrep as [_ _ Hseg Hnd Hnz]. pose proof Hseg as (_ & Hma & _)%nseg_app. simpl in Hma |- *.
  assert (a <> 0) as Ha by (rewrite fmap_app in Hnz; dl_not_in).
  nrd_step Hma. wp_step. split_and!; try done. exists (l1 ++ (a, v) :: l2). by rewrite length_app.
Qed.

Lemma run_remove_wp s b lp i xs r ys :
  spec_op (Remove i) xs = Some (r, ys) -> holds s lp xs -> Z.of_nat (length xs) < 2 ^ 32 - 1 -> dl_ok s b ->
  wp (run_op lp (Remove i)) (fun r' s' => r' = r /\ holds s' lp ys /\ dl_ok s' b) s.
Proof.
  intros Hspec (l & Hrep & <-) Hlen Hok. rewrite length_fmap in Hlen. simpl in *.
  destruct (l.*2 !! i) as [v|] eqn:Hi; [|done]. injection Hspec as <- <-.
  apply lookup_split_snd in Hi as (l1 & a & l2 & -> & ->). rewrite length_app in *. simpl in Hlen, Hrep.
  wp_focus. eapply wp_mono; [eapply list_remove_wp; [done|done|lia]|].
  intros ? s' (Hok' & _ & Hrep' & _). wp_step. split_and!; try done. exists (l1 ++ l2).
  rewrite length_app, !fmap_app. simpl. split.
  + replace (Z.of_nat (length l1 + length l2)) with (Z.of_nat (length l1 + S (length l2)) - 1) by lia. done.
  + by rewrite <- (length_fmap snd l1), delete_middle.
Qed.

Lemma run_op_wp s b lp o xs r ys :
  spec_op o xs = Some (r, ys) -> holds s lp xs -> 0 <= b -> Z.of_nat (length xs) < 2 ^ 32 - 1 ->
  dl_ok s (b + if is_push o then ka_cost NODE_SIZE else 0) ->
  wp (run_op lp o) (fun r' s' => r' = r /\ holds s' lp ys /\ dl_ok s' b) s.
Proof.
  intros Hspec Hh Hb Hlen Hok.
  destruct o as [v|v| | |i|i]; simpl is_push in Hok; rewrite ?Z.add_0_r in Hok;
    [..|by eapply run_pop_back_wp|by eapply run_get_wp|by eapply run_remove_wp];
    destruct Hh as (l & Hrep & <-); rewrite length_fmap in Hlen; simpl in *.
  - injection Hspec as <- <-. wp_focus. eapply wp_mono; [apply (list_push_back_wp _ _ _ _ _ v Hok Hb Hrep); lia|].
    intros p s' (Hok' & _ & _ & Hrep' & _). wp_step. split_and!; try done.
    exists (l ++ [(p, v)]). rewrite length_app, Nat2Z.inj_add, fmap_app. done.
  - injection Hspec as <- <-. wp_focus. eapply wp_mono; [apply (list_push_front_wp _ _ _ _ _ v Hok Hb Hrep); lia|].
    intros p s' (Hok' & _ & _ & Hrep' & _). wp_step. split_and!; try done.
    exists ((p, v) :: l). split; [|done]. simpl length. rewrite Nat2Z.inj_succ. done.
  - destruct l as [|[a v] l]; injection Hspec as <- <-.
    + destruct Hrep as [Hlp Hl H3 H4 H5]. unfold list_pop_front. lrd_step Hl. apply wp_ret.
      split_and!; try done. by exists [].
    + eapply wp_mono; [eapply list_pop_front_wp; [done|done|simpl in *; lia]|].
      intros r' s' (Hok' & -> & _ & Hrep' & _). split_and!; try done. exists l. split; [|done].
      replace (Z.of_nat (length l)) with (Z.of_nat (length ((a, v) :: l)) - 1) by (simpl length; lia).
      done.
Qed.

Lemma spec_op_length o xs r ys :
  spec_op o xs = Some (r, ys) -> (length ys <= length xs + if is_push o then 1 else 0)%nat.
Proof.
  destruct o as [v|v| | |i|i]; simpl.
  - intros [= <- <-]. rewrite length_app. simpl. lia.
  - intros [= <- <-]. simpl. lia.
  - destruct xs; intros [= <- <-]; simpl; lia.
  - rewrite <- (length_reverse xs). destruct (reverse xs) as [|x [|y l]]; [|done|];
      intros [= <- <-]; rewrite ?length_reverse; simpl; lia.
  - destruct (xs !! i); [|done]. intros [= <- <-]. lia.
  - destruct (xs !! i) eqn:E; [|done]. intros [= <- <-]. rewrite length_delete by done. lia.
Qed.

(** A sequence of operations in the covered cases. *)
Lemma run_ops_ok s b lp ops xs rs ys :
  spec_ops ops xs = Some (rs, ys) ->
  holds s lp xs -> 0 <= b -> Z.of_nat (length xs) + pushes ops < 2 ^ 32 - 1 ->
  dl_ok s (b + pushes ops * ka_cost NODE_SIZE) ->
  exists s', run_ops lp ops s = Ok (rs, s') /\ holds s' lp ys /\ dl_ok s' b.
Proof.
  pose proof (ka_cost_nonneg (H := H) NODE_SIZE ltac:(unfold NODE_SIZE; lia)) as Hcost.
  revert s xs rs. induction ops as [|o ops IH]; intros s xs rs Hspec Hh Hb Hlen Hok; simpl in *.
  { injection Hspec as <- <-. exists s. unfold pushes in Hok. simpl in Hok.
    rewrite Z.mul_0_l, Z.add_0_r in Hok. done. }
  destruct (spec_op o xs) as [[r zs]|] eqn:Ho; [|done].
  destruct (spec_ops ops zs) as [[rs' ws]|] eqn:Hops; [|done]. injection Hspec as <- <-.
  pose proof (spec_op_length _ _ _ _ Ho) as Hl.
  assert (pushes (o :: ops) = pushes ops + if is_push o then 1 else 0) as Hp.
  { unfold pushes. rewrite filter_cons. destruct (is_push o); simpl; lia. }
  assert (0 <= pushes ops) as Hp0 by (unfold pushes; lia). rewrite Hp in Hlen, Hok.
  assert (0 <= b + pushes ops * ka_cost NODE_SIZE) as Hb' by (pose proof (Z.mul_nonneg_nonneg _ _ Hp0 Hcost); lia).
  assert (Z.of_nat (length xs) < 2 ^ 32 - 1) as Hlx by (destruct (is_push o); lia).
  replace (b + _ * _) with (b + pushes ops * ka_cost NODE_SIZE + if is_push o then ka_cost NODE_SIZE else 0)
    in Hok by (destruct (is_push o); lia).
  destruct (wp_Ok _ _ _ (run_op_wp s _ lp o xs r zs Ho Hh Hb' Hlx Hok)) as (r' & s1 & Hrun & -> & Hh1 & Hok1).
  destruct (IH s1 zs rs' Hops Hh1 Hb ltac:(destruct (is_push o); lia) Hok1) as (s2 & Hrun2 & Hh2 & Hok2).
  exists s2. split; [|done]. unfold bindM. rewrite Hrun, Hrun2. done.
Qed.


(** [list_destroy] of a well-formed list gives back the list record and every
    node to the allocator, and touches no other list. *)
Theorem list_destroy_frees s b lp l :
  dl_ok s b -> list_rep s lp l (Z.of_nat (length l)) -> Z.of_nat (length l) < 2 ^ 32 ->
  exists s', list_destroy lp s = Ok ((), s') /\ dl_ok s' b /\ lists s' !! lp = None /\
    (forall a, a ∈ l.*1 -> nodes s' !! a = None) /\
    (forall lp' l' c', lp' <> lp -> l'.*1 ## l.*1 ->
       list_rep s lp' l' c' -> list_rep s' lp' l' c').
Proof.
  intros Hok Hrep Hlen.
  destruct (wp_Ok _ _ _ (list_destroy_wp s b lp l Hok Hrep Hlen)) as ([] & s' & Hd & Hok' & Hn & Hg & Hs).
  exists s'. split_and!; try done. intros. by eapply list_rep_frame.
Qed.

(** [list_insert] in front of an existing element links the new node in but
    leaves the count as it was, so that [list_get] no longer finds the last
    element although it is linked. *)
Theorem list_insert_loses_last s b lp l1 d vd l2 v :
  dl_ok s (b + ka_cost NODE_SIZE) -> 0 <= b ->
  let l := l1 ++ (d, vd) :: l2 in
  let n := Z.of_nat (length l) in
  list_rep s lp l n -> n < 2 ^ 32 ->
  exists p s', list_insert lp v (Z.of_nat (length l1)) s = Ok ((), s') /\
    list_rep s' lp (l1 ++ (p, v) :: (d, vd) :: l2) n /\ list_get lp n s' = Ok (0, s').
Proof.
  intros Hok Hb l n Hrep Hn. assert (Z.of_nat (length l1) < n) as Hlt.
  { unfold n, l. rewrite length_app. simpl. lia. }
  destruct (wp_Ok _ _ _ (list_insert_wp s b lp l1 d vd l2 n v Hok Hb Hrep ltac:(lia)))
    as ([] & s' & Hi & p & Hok' & _ & _ & Hrep' & _).
  exists p, s'. split_and!; try done.
  destruct (wp_Ok _ _ _ (list_get_wp s' lp _ n n Hrep' ltac:(lia))) as (r & s'' & Hg & -> & ->).
  by rewrite Z.ltb_irrefl in Hg.
Qed.

(** Popping the only element from the back leaves the head pointing at the
    freed node, and the next [list_push_back] dereferences the null tail. *)
Theorem list_pop_back_last_breaks s b lp a v w :
  dl_ok s (b + ka_cost NODE_SIZE) -> 0 <= b -> list_rep s lp [(a, v)] 1 ->
  exists s', list_pop_back lp s = Ok (Some v, s') /\ nodes s' !! a = None /\
    lists s' !! lp = Some (mk_list a 0 0) /\ list_push_back lp w s' = Err NullDeref.
Proof.
  intros Hok Hb Hrep. pose proof Hrep as [_ _ _ _ Hnz]. simpl in Hnz.
  assert (a <> 0) as Ha by (intros ->; apply Hnz; by left).
  destruct (wp_Ok _ _ _ (list_pop_back_wp s _ lp a [] a v 1 Hok Hrep ltac:(lia)))
    as (? & s' & Hp & Hok' & -> & Hna & [Hlp Hl _ _ _] & _). simpl in Hl.
  exists s'. split_and!; try done.
  assert (wp new_node (fun p s2 => p <> 0 /\ nodes s2 !! p = Some (mk_node 0 0 0) /\
    lists s2 = lists s') s') as Hnew.
  { eapply new_node_wp; [done|done|]. intros p h Hp0 _ _ s2 _. split_and!; [done|by apply lookup_insert_eq|done]. }
  destruct (wp_Ok _ _ _ Hnew) as (p & s2 & Hn & Hp0 & Hn2 & Hls).
  assert (lists s2 !! lp = Some (mk_list a 0 0)) as Hl2 by (by rewrite Hls).
  unfold list_push_back. eapply bind_Ok; [exact Hn|].
  eapply bind_Ok; [by apply (lrd_eq head)|]. eapply bind_Ok; [by apply (lrd_eq tail)|]. simpl.
  rewrite (proj2 (truth_true a)) by done. simpl.
  eapply bind_Ok; [by apply nwr_eq|]. eapply bind_Ok; [by apply nwr_eq, lookup_insert_eq|].
  eapply bind_Ok; [by apply nwr_eq, lookup_insert_eq|]. by apply bind_Err.
Qed.
End run.

(** ** On the kernel heap *)

(** The list memory right after [kheap_init], and a list in it. *)
Definition boot_lmem : lmem kheap := mk_lmem (boot_heap 4096 409600) ∅ ∅.

Lemma boot_dl_ok b : b < 2 ^ 60 -> dl_ok boot_lmem b.
Proof.
  intros Hb. exists []. split_and!; [|constructor|..]; simpl.
  - exists [(0, true)]. split_and!; [apply boot_heap_rep; unfold HB_SIZE; lia|done| |done].
    split; simpl; unfold HB_SIZE; lia.
  - intros a. rewrite lookup_empty. by intros [??].
  - intros a. rewrite lookup_empty. by intros [??].
  - intros a. rewrite lookup_empty. by intros [??].
Qed.

Lemma kheap_node_cost : ka_cost (H := kheap) NODE_SIZE = 192.
Proof. reflexivity. Qed.
Lemma kheap_list_cost : ka_cost (H := kheap) LIST_SIZE = 192.
Proof. reflexivity. Qed.

(** A list with one element, made by the code. *)
Definition one_list (v : Z) : M (lmem kheap) (Z * Z) :=
  lp ← list_create; a ← list_push_back lp v; mret (lp, a).

Lemma one_list_wp v b : 0 <= b < 2 ^ 59 ->
  wp (one_list v) (fun r s => dl_ok s b /\ r.1 <> 0 /\ list_rep s r.1 [(r.2, v)] 1) boot_lmem.
Proof.
  intros Hb. unfold one_list. wp_focus. eapply wp_mono.
  { apply (list_create_wp _ (b + ka_cost NODE_SIZE)); rewrite kheap_node_cost; [|lia].
    apply boot_dl_ok. rewrite kheap_list_cost. lia. }
  intros lp s (Hok & _ & Hrep & _). wp_focus. eapply wp_mono.
  { apply (list_push_back_wp s b lp [] 0 v Hok); [lia|done|lia]. }
  intros a s' (Hok' & _ & _ & Hrep' & _). wp_step. split_and!; try done. simpl. apply Hrep'.
Qed.


Lemma list_destroy_frees_witness :
  exists lp a s, one_list 7 boot_lmem = Ok ((lp, a), s) /\
  exists s', list_destroy lp s = Ok ((), s') /\ dl_ok s' 0 /\ lists s' !! lp = None /\
    (forall x, x ∈ [(a, 7)].*1 -> nodes s' !! x = None) /\
    (forall lp' l' c', lp' <> lp -> l'.*1 ## [(a, 7)].*1 ->
       list_rep s lp' l' c' -> list_rep s' lp' l' c').
Proof.
  destruct (wp_Ok _ _ _ (one_list_wp 7 0 ltac:(lia))) as ([lp a] & s & Hone & Hok & Hlp & Hrep).
  exists lp, a, s. split; [exact Hone|].
  apply (list_destroy_frees s 0 lp [(a, 7)]); [exact Hok|exact Hrep|reflexivity].
Defined.

Lemma list_insert_loses_last_witness :
  exists lp a s, one_list 7 boot_lmem = Ok ((lp, a), s) /\
  exists p s', list_insert lp 9 0 s = Ok ((), s') /\
    list_rep s' lp ([] ++ (p, 9) :: (a, 7) :: []) 1 /\ list_get lp 1 s' = Ok (0, s').
Proof.
  destruct (wp_Ok _ _ _ (one_list_wp 7 (ka_cost NODE_SIZE) ltac:(rewrite kheap_node_cost; lia)))
    as ([lp a] & s & Hone & Hok & Hlp & Hrep).
  exists lp, a, s. split; [exact Hone|].
  apply (list_insert_loses_last s 0 lp [] a 7 [] 9); [exact Hok|lia|exact Hrep|reflexivity].
Defined.

Lemma list_pop_back_last_breaks_witness :
  exists lp a s, one_list 7 boot_lmem = Ok ((lp, a), s) /\
  exists s', list_pop_back lp s = Ok (Some 7, s') /\ nodes s' !! a = None /\
    lists s' !! lp = Some (mk_list a 0 0) /\ list_push_back lp 8 s' = Err NullDeref.
Proof.
  destruct (wp_Ok _ _ _ (one_list_wp 7 (ka_cost NODE_SIZE) ltac:(rewrite kheap_node_cost; lia)))
    as ([lp a] & s & Hone & Hok & Hlp & Hrep).
  exists lp, a, s. split; [exact Hone|].
  apply (list_pop_back_last_breaks s 0 lp a 7 8); [exact Hok|lia|exact Hrep].
Defined.
