(* ===== verification/Strings.v ===== *)
(** * Memory and string routines (src/util/stdlib.c, src/util/math.c,
      src/util/printf.c)

    Memory is a map from addresses to bytes; an access outside it is a fault, so
    a theorem about a routine also says that it stays inside its buffers.
    [strdup] and [strtok] take their memory from the allocator interface. *)

From S2P Require Import Prelude Alloc.

(** The byte memory, the allocator's state, and [strtok]'s static pointer. *)
Record smem (H : Type) : Type := mk_smem {
  bytes : gmap Z Z;
  sheap : H;
  olds : Z;
}.
Arguments mk_smem {H}.
Arguments bytes {H}.
Arguments sheap {H}.
Arguments olds {H}.

Section ops.
Context {H : Type} `{KAlloc H}.

Definition set_bytes (m : gmap Z Z) (s : smem H) := mk_smem m (sheap s) (olds s).
Definition set_olds (p : Z) (s : smem H) := mk_smem (bytes s) (sheap s) p.

Definition ld (p : Z) : M (smem H) Z :=
  guard (truth p) NullDeref;;
  o ← gets (fun s => bytes s !! p);
  unwrap o OutOfBounds.
Definition st (p v : Z) : M (smem H) () :=
  ld p;; modify (fun s => set_bytes (<[p := u8 v]> (bytes s)) s).

(** A bound on the rounds of a loop that reads one more byte in each. *)
Definition mem_bound : M (smem H) N := gets (fun s => N.of_nat (S (size (bytes s)))).

(** [kmalloc(n)] as seen by the string code: [n] zeroed bytes, rounded up as
    the allocator does. *)
Fixpoint zeros (n : nat) (p : Z) (m : gmap Z Z) : gmap Z Z :=
  match n with
  | O => m
  | S n' => <[p := 0]> (zeros n' (p + 1) m)
  end.
Definition kmalloc (n : Z) : M (smem H) Z := fun s =>
  match ka_malloc n (sheap s) with
  | Ok (p, h) => Ok (p, mk_smem (zeros (Z.to_nat (ka_round n)) p (bytes s)) h (olds s))
  | Err f => Err f
  end.

Definition memcmp (s1 s2 n : Z) : M (smem H) Z :=
  r ← for_ 0 n (fun i =>
    a ← ld (s1 + i); b ← ld (s2 + i);
    if a <? b then mret (Some (-1)) else if b <? a then mret (Some 1) else mret None);
  mret (default 0 r).

Definition memcpy (dst src n : Z) : M (smem H) Z :=
  for_each 0 n (fun i => c ← ld (src + i); st (dst + i) c);; mret dst.

Definition memmove (dst src n : Z) : M (smem H) Z :=
  for_each 0 n (fun i => c ← ld (src + i); st (dst + i) c);; mret dst.

Definition memset (dst c n : Z) : M (smem H) Z :=
  for_each 0 n (fun i => st (dst + i) c);; mret dst.

Definition strlen (str : Z) : M (smem H) Z :=
  bound ← mem_bound;
  while_ bound (fun s => c ← ld (str + s); if c =? 0 then mret (inr s) else mret (inl (s + 1))) 0.

(** [char] is signed. *)
Definition strcmp (str1 str2 : Z) : M (smem H) Z :=
  len1 ← strlen str1;
  len2 ← strlen str2;
  let len := if len1 <? len2 then len1 else len2 in
  if (len =? 0) || negb (len1 =? len2) then mret 1 else
  r ← for_ 0 len (fun i =>
    a ← ld (str1 + i); b ← ld (str2 + i);
    if negb (a =? b) then mret (Some (s8 a - s8 b)) else mret None);
  mret (default 0 r).

Definition strncpy (dst src n : Z) : M (smem H) Z :=
  for_ (B := ()) 0 n (fun i =>
    c ← ld (src + i);
    if c =? 0 then mret (Some ()) else st (dst + i) c;; mret None);;
  mret dst.

Definition strcpy (dst src : Z) : M (smem H) Z :=
  len ← strlen src;
  strncpy dst src len;;
  st (dst + len) 0;;
  mret dst.

Definition strrev_round (str : Z) (ij : Z * Z) : M (smem H) (Z * Z + ()) :=
  let '(i, j) := ij in
  if j <? i then
    c ← ld (str + i);
    d ← ld (str + j);
    st (str + i) d;;
    st (str + j) c;;
    mret (inl (i - 1, j + 1))
  else mret (inr ()).

Definition strrev (str : Z) : M (smem H) Z :=
  len ← strlen str;
  bound ← mem_bound;
  while_ bound (strrev_round str) (s32 (len - 1), 0);;
  mret str.

Definition strncmp (str1 str2 n : Z) : M (smem H) Z :=
  r ← for_ 0 n (fun i =>
    a ← ld (str1 + i); b ← ld (str2 + i);
    if negb (a =? b) then mret (Some (s8 a - s8 b)) else mret None);
  mret (default 0 r).

(** [*str] is passed in and the new [*str] returned with the token.  The inner
    [break] only leaves the loop over the delimiters. *)
Definition strsep (str delim : Z) : M (smem H) (Z * Z) :=
  len ← strlen delim;
  let begin := str in
  bound ← mem_bound;
  s ← while_ bound (fun s =>
    c ← ld (begin + s);
    if c =? 0 then mret (inr s) else
    for_ (B := ()) 0 len (fun i =>
      c' ← ld (begin + s); d ← ld (delim + i);
      if c' =? d then mret (Some ()) else mret None);;
    mret (inl (s + 1))) 0;
  let end_ := begin + s in
  c ← ld end_;
  if truth c then st end_ 0;; mret (begin, end_ + 1) else mret (begin, 0).

Definition strdup (str : Z) : M (smem H) Z :=
  len ← strlen str;
  ret ← kmalloc (len + 1);
  strcpy ret str;;
  mret ret.

(** src/util/math.c *)
Definition abs (n : Z) : Z := if n <? 0 then s32 (- n) else n.

(** The digit character of a remainder. *)
Definition digit (r : Z) : Z := if 10 <=? r then 65 + (r - 10) else 48 + r.

(** The digit loop of [itoa] and [ultoa]; C division truncates. *)
Definition digits_round (str base : Z) (ni : Z * Z) : M (smem H) (Z * Z + Z) :=
  let '(n, i) := ni in
  if truth n then
    let r := Z.rem n base in
    st (str + i) (digit r);;
    mret (inl (Z.quot n base, i + 1))
  else mret (inr i).

Definition itoa (value str base : Z) : M (smem H) Z :=
  if (base <? 2) || (32 <? base) then mret str else
  let n := abs value in
  i0 ← while_ 65 (digits_round str base) (n, 0);
  i1 ← (if i0 =? 0 then st (str + i0) 48;; mret (i0 + 1) else mret i0);
  i2 ← (if (value <? 0) && (base =? 10) then st (str + i1) 45;; mret (i1 + 1) else mret i1);
  st (str + i2) 0;;
  strrev str.

Definition ultoa (n str base : Z) : M (smem H) Z :=
  if (base <? 2) || (32 <? base) then mret str else
  i0 ← while_ 65 (digits_round str base) (n, 0);
  i1 ← (if i0 =? 0 then st (str + i0) 48;; mret (i0 + 1) else mret i0);
  st (str + i1) 0;;
  strrev str.

(** One character of [strtok]'s scan: [true] when it is a delimiter; otherwise
    it is stored to [ret[k]] once per delimiter. *)
Definition strtok_scan (s delim ret i k : Z) : M (smem H) bool :=
  bound ← mem_bound;
  while_ bound (fun j =>
    d ← ld (delim + j);
    if d =? 0 then mret (inr false) else
    c ← ld (s + i);
    if negb (c =? d) then st (ret + k) c;; mret (inl (j + 1)) else mret (inr true)) 0.

Definition strtok (s0 delim : Z) : M (smem H) Z :=
  (if truth s0 then modify (set_olds s0) else mret ());;
  s ← gets olds;
  let early :=
    if negb (truth s) || negb (truth delim) then mret true
    else c ← ld s; mret (c =? 0) in
  e ← early;
  if (e : bool) then mret 0 else
  ret ← kmalloc 1000;
  bound ← mem_bound;
  i ← while_ bound (fun i =>
    c ← ld (s + i);
    if c =? 0 then mret (inr i) else
    hit ← strtok_scan s delim ret i i;
    if (hit : bool) then mret (inr i) else mret (inl (i + 1))) 0;
  modify (set_olds (s + i + 1));;
  st (ret + i) 0;;
  mret ret.

(** [for (j = 0; j < len; j++) str[stridx++] = from[j];] *)
Definition emit (str stridx from len : Z) : M (smem H) Z :=
  for_each 0 len (fun j => c ← ld (from + j); st (str + u32 (stridx + j)) c);;
  mret (u32 (stridx + len)).

(** One conversion of [vsnprintf], the [switch] on the character [f] after a
    [%]; an unknown one prints nothing.  [va] are the arguments left and
    [buffer] is the local array. *)
Definition convert (str buffer f stridx : Z) (va : list Z) : M (smem H) (Z * list Z) :=
  if f =? 37 (* % *) then
    st (str + stridx) 37;; mret (u32 (stridx + 1), va)
  else if f =? 99 (* c *) then
    a ← unwrap (hd_error va) OutOfBounds;
    st (str + stridx) a;; mret (u32 (stridx + 1), tl va)
  else if (f =? 105) || (f =? 100) (* i, d *) then
    a ← unwrap (hd_error va) OutOfBounds;
    itoa (s32 a) buffer 10;;
    len ← strlen buffer;
    i ← emit str stridx buffer len;
    mret (i, tl va)
  else if f =? 115 (* s *) then
    a ← unwrap (hd_error va) OutOfBounds;
    len ← strlen a;
    i ← emit str stridx a len;
    mret (i, tl va)
  else if f =? 120 (* x *) then
    a ← unwrap (hd_error va) OutOfBounds;
    ultoa (u64 a) buffer 16;;
    len ← strlen buffer;
    i ← emit str stridx buffer len;
    mret (i, tl va)
  else if f =? 108 (* l *) then
    a ← unwrap (hd_error va) OutOfBounds;
    ultoa (u64 a) buffer 10;;
    len ← strlen buffer;
    i ← emit str stridx buffer len;
    mret (i, tl va)
  else mret (stridx, va).

Definition vsnprintf_round (str buffer : Z) (x : Z * Z * list Z)
    : M (smem H) (Z * Z * list Z + Z) :=
  let '(format, stridx, va) := x in
  c ← ld format;
  if c =? 0 then mret (inr stridx) else
  if c =? 37 then
    f ← ld (format + 1);
    '(i, va') ← convert str buffer f stridx va;
    mret (inl (format + 2, i, va'))
  else
    st (str + stridx) c;;
    mret (inl (format + 1, u32 (stridx + 1), va)).

Definition vsnprintf (str format : Z) (va : list Z) (buffer : Z) : M (smem H) Z :=
  bound ← mem_bound;
  stridx ← while_ bound (vsnprintf_round str buffer) (format, 0, va);
  st (str + stridx) 0;;
  mret (s32 stridx).

(** The [n] of [snprintf] is not used. *)
Definition snprintf (s n format : Z) (va : list Z) (buffer : Z) : M (smem H) () :=
  vsnprintf s format va buffer;; mret ().
End ops.

(** ** Bytes, buffers and C strings in memory *)

(** The bytes [l] are at [p]. *)
Definition bytes_at (m : gmap Z Z) (p : Z) (l : list Z) : Prop :=
  forall i b, l !! i = Some b -> m !! (p + Z.of_nat i) = Some b.

(** [n] bytes at [p] can be accessed. *)
Definition buf (m : gmap Z Z) (p n : Z) : Prop :=
  0 < p /\ forall x, p <= x < p + n -> is_Some (m !! x).

(** The NUL-terminated string [l] is at [p]. *)
Definition cstr (m : gmap Z Z) (p : Z) (l : list Z) : Prop :=
  0 < p /\ bytes_at m p (l ++ [0]) /\ Forall (fun b => 0 < b < 256) l.

(** Nothing outside [n] bytes at [p] has changed. *)
Definition unchanged_outside (p n : Z) (m m' : gmap Z Z) : Prop :=
  forall x, x < p \/ p + n <= x -> m' !! x = m !! x.

Lemma bytes_at_app m p l1 l2 :
  bytes_at m p (l1 ++ l2) <-> bytes_at m p l1 /\ bytes_at m (p + Z.of_nat (length l1)) l2.
Proof.
  split.
  - intros Hb. split; intros i b Hi.
    + apply Hb. by apply lookup_app_l_Some.
    + rewrite <- Z.add_assoc, <- Nat2Z.inj_add. apply Hb.
      rewrite lookup_app_r by lia. by replace (length l1 + i - length l1)%nat with i by lia.
  - intros [H1 H2] i b Hi. apply lookup_app_Some in Hi as [Hi|[Hle Hi]]; [auto|].
    apply H2 in Hi. rewrite <- Hi. f_equal. lia.
Qed.

Lemma bytes_at_cons m p b l :
  bytes_at m p (b :: l) <-> m !! p = Some b /\ bytes_at m (p + 1) l.
Proof.
  rewrite (bytes_at_app m p [b] l). simpl. split; intros [H1 H2]; split; try done.
  - replace p with (p + Z.of_nat 0) by lia. by apply H1.
  - intros [|i] b' Hi; [|done]. injection Hi as <-. by rewrite Z.add_0_r.
Qed.

Lemma bytes_at_nil m p : bytes_at m p [].
Proof. by intros i b ?. Qed.

Lemma bytes_at_agree m m' p l :
  (forall x, p <= x < p + Z.of_nat (length l) -> m' !! x = m !! x) ->
  bytes_at m p l -> bytes_at m' p l.
Proof.
  intros Heq Hb i b Hi. rewrite Heq; [by apply Hb|]. apply lookup_lt_Some in Hi. lia.
Qed.

(** Every byte has an address of its own. *)
Lemma bytes_at_size m p l : bytes_at m p l -> (length l <= size m)%nat.
Proof.
  intros Hb. set (as_ := (fun i => p + Z.of_nat i) <$> seq 0 (length l)).
  assert (length l = size (list_to_set (C := gset Z) as_)) as ->.
  { rewrite size_list_to_set; [unfold as_; by rewrite length_fmap, length_seq|].
    apply NoDup_fmap_2; [intros ??; lia|apply NoDup_seq]. }
  rewrite <- size_dom. apply subseteq_size. intros a Ha%elem_of_list_to_set.
  apply list_elem_of_fmap in Ha as (i & -> & Hi%elem_of_seq). apply elem_of_dom.
  destruct (lookup_lt_is_Some_2 l i) as [b Hb']; [lia|]. eexists. by apply Hb.
Qed.

Lemma cstr_lookup m p l i : cstr m p l -> 0 <= i < Z.of_nat (length l) ->
  exists b, l !! Z.to_nat i = Some b /\ m !! (p + i) = Some b /\ 0 < b < 256.
Proof.
  intros (Hp & Hb & Hl) Hi. destruct (lookup_lt_is_Some_2 l (Z.to_nat i)) as [b Hbi]; [lia|].
  exists b. split; [done|]. split.
  - rewrite <- (Z2Nat.id i) by lia. apply Hb. by apply lookup_app_l_Some.
  - rewrite Forall_lookup in Hl. eauto.
Qed.

Lemma cstr_nul m p l : cstr m p l -> m !! (p + Z.of_nat (length l)) = Some 0.
Proof. intros (Hp & Hb & Hl). apply Hb. by rewrite lookup_app_r, Nat.sub_diag by lia. Qed.

Lemma cstr_agree m m' p l :
  (forall x, p <= x <= p + Z.of_nat (length l) -> m' !! x = m !! x) -> cstr m p l -> cstr m' p l.
Proof.
  intros Heq (Hp & Hb & Hl). split_and!; try done. eapply bytes_at_agree; [|done].
  intros x Hx. apply Heq. rewrite length_app in Hx. simpl in Hx. lia.
Qed.

Section specs.
Context {H : Type}.
Implicit Types s : smem H.

Lemma wp_ld p v Q s : 0 < p -> bytes s !! p = Some v -> Q v s -> wp (ld p) Q s.
Proof.
  intros Hp Hv HQ. apply wp_bind, wp_guard; [apply truth_true; lia|].
  apply wp_bind, wp_gets. by eapply wp_unwrap.
Qed.

Lemma wp_st p v (Q : () -> smem H -> Prop) s :
  0 < p -> is_Some (bytes s !! p) ->
  Q () (set_bytes (<[p := u8 v]> (bytes s)) s) -> wp (st p v) Q s.
Proof. intros Hp [x Hx] HQ. apply wp_bind. by eapply wp_ld. Qed.

Lemma wp_mem_bound (Q : N -> smem H -> Prop) s :
  Q (N.of_nat (S (size (bytes s)))) s -> wp mem_bound Q s.
Proof. done. Qed.

Lemma strlen_wp s p l (Q : Z -> smem H -> Prop) :
  cstr (bytes s) p l -> Q (Z.of_nat (length l)) s -> wp (strlen p) Q s.
Proof.
  intros Hc HQ. pose proof Hc as (Hp & Hb & Hl). apply wp_bind, wp_mem_bound.
  apply (wp_while (fun k i s' => s' = s /\ 0 <= i /\ i + Z.of_nat k = Z.of_nat (length l)) (length l)).
  - split_and!; done || lia.
  - apply bytes_at_size in Hb. rewrite length_app in Hb. simpl in Hb. lia.
  - intros k i s' (-> & Hi & Hk). wp_focus. destruct (decide (i = Z.of_nat (length l))) as [->|Hne].
    + eapply wp_ld; [lia|by apply cstr_nul|]. rewrite Z.eqb_refl. by apply wp_ret.
    + destruct (cstr_lookup _ _ _ i Hc) as (b & _ & Hbi & Hr); [lia|].
      eapply wp_ld; [lia|done|]. rewrite (proj2 (Z.eqb_neq b 0)) by lia. apply wp_ret.
      exists (pred k). split_and!; done || lia.
Qed.

(** The forward copy loop, for any two ranges where no byte is read after it was
    overwritten. *)
Lemma memcpy_wp s dst src n (Q : Z -> smem H -> Prop) :
  0 <= n -> buf (bytes s) dst n -> buf (bytes s) src n ->
  (forall x b, src <= x < src + n -> bytes s !! x = Some b -> 0 <= b < 256) ->
  dst <= src \/ src + n <= dst ->
  (forall m', (forall i, 0 <= i < n -> m' !! (dst + i) = bytes s !! (src + i)) ->
     unchanged_outside dst n (bytes s) m' -> Q dst (set_bytes m' s)) ->
  wp (memcpy dst src n) Q s.
Proof.
  intros Hn [Hd Hdst] [Hs0 Hsrc] Hbyte Hov HQ. unfold memcpy. wp_focus.
  apply (wp_for_each (fun i s' => exists m', s' = set_bytes m' s /\
    (forall j, 0 <= j < i -> m' !! (dst + j) = bytes s !! (src + j)) /\
    unchanged_outside dst i (bytes s) m')); [done| | |].
  - exists (bytes s). split_and!; [by destruct s|intros j Hj; lia|by intros x Hx].
  - intros i s' Hi (m' & -> & Hcp & Hout). destruct (Hsrc (src + i)) as [b Hb]; [lia|].
    wp_focus. eapply wp_ld; [lia|simpl; rewrite Hout; [exact Hb|lia]|].
    eapply wp_st; [lia|simpl; rewrite Hout by lia; apply Hdst; lia|].
    assert (u8 b = b) as -> by (apply uN_small; apply (Hbyte (src + i)); [lia|done]).
    eexists. split; [reflexivity|]. simpl. split.
    + intros j Hj. destruct (decide (j = i)) as [->|Hne]; [by rewrite lookup_insert_eq|].
      rewrite lookup_insert_ne by lia. apply Hcp. lia.
    + intros x Hx. rewrite lookup_insert_ne by lia. apply Hout. lia.
  - intros s' (m' & -> & Hcp & Hout). apply wp_ret. auto.
Qed.

(** [strcpy] to a buffer that does not overlap the source. *)
Lemma strcpy_wp s dst src l (Q : Z -> smem H -> Prop) :
  cstr (bytes s) src l -> buf (bytes s) dst (Z.of_nat (length l) + 1) ->
  dst + Z.of_nat (length l) < src \/ src + Z.of_nat (length l) < dst ->
  (forall m', cstr m' dst l -> unchanged_outside dst (Z.of_nat (length l) + 1) (bytes s) m' ->
     Q dst (set_bytes m' s)) ->
  wp (strcpy dst src) Q s.
Proof.
  intros Hc [Hd Hbuf] Hov HQ. pose proof Hc as (Hs0 & _ & Hl). unfold strcpy. wp_focus.
  eapply strlen_wp; [done|]. set (n := Z.of_nat (length l)) in *. wp_focus. unfold strncpy. wp_focus.
  apply (wp_for (fun i s' => exists m', s' = set_bytes m' s /\
    (forall j, 0 <= j < i -> m' !! (dst + j) = bytes s !! (src + j)) /\
    unchanged_outside dst i (bytes s) m')); [lia| | |].
  - exists (bytes s). split_and!; [by destruct s|intros j Hj; lia|by intros x Hx].
  - intros i s' Hi (m' & -> & Hcp & Hout). destruct (cstr_lookup _ _ _ i Hc) as (b & _ & Hb & Hr); [lia|].
    wp_focus. eapply wp_ld; [lia|simpl; rewrite Hout; [exact Hb|lia]|].
    rewrite (proj2 (Z.eqb_neq b 0)) by lia. wp_focus.
    eapply wp_st; [lia|simpl; rewrite Hout by lia; apply Hbuf; lia|]. apply wp_ret.
    rewrite uN_small by lia. eexists. split; [reflexivity|]. simpl. split.
    + intros j Hj. destruct (decide (j = i)) as [->|Hne]; [by rewrite lookup_insert_eq|].
      rewrite lookup_insert_ne by lia. apply Hcp. lia.
    + intros x Hx. rewrite lookup_insert_ne by lia. apply Hout. lia.
  - intros s' (m' & -> & Hcp & Hout). apply wp_ret. wp_focus.
    eapply wp_st; [lia|simpl; rewrite Hout by lia; apply Hbuf; lia|]. apply wp_ret. simpl.
    apply HQ.
    + split_and!; [done| |done]. apply bytes_at_app. split.
      * intros i b Hi. pose proof (lookup_lt_Some _ _ _ Hi). rewrite lookup_insert_ne by lia.
        rewrite Hcp by lia. destruct Hc as (_ & Hb & _). apply Hb. by apply lookup_app_l_Some.
      * apply bytes_at_cons. split; [|apply bytes_at_nil]. fold n. by rewrite lookup_insert_eq.
    + intros x Hx. rewrite lookup_insert_ne by lia. apply Hout. lia.
Qed.

(** [strcmp] tells non-empty strings apart; a length mismatch, and two empty
    strings, give 1. *)
Lemma strcmp_wp s p q l1 l2 :
  cstr (bytes s) p l1 -> cstr (bytes s) q l2 ->
  wp (strcmp p q) (fun r s' => s' = s /\ (r = 0 <-> l1 = l2 /\ l1 <> [])) s.
Proof.
  intros H1 H2. unfold strcmp. wp_focus. eapply strlen_wp; [done|]. wp_focus. eapply strlen_wp; [done|].
  cbv zeta. destruct (decide (length l1 = length l2)) as [Hlen|Hne].
  2: { rewrite (proj2 (Z.eqb_neq (Z.of_nat _) _)) by lia. rewrite orb_true_r. apply wp_ret.
       split; [done|]. split; [done|]. intros [-> _]. done. }
  rewrite Hlen, Z.ltb_irrefl, Z.eqb_refl. destruct l2 as [|c2 l2].
  { apply wp_ret. split; [done|]. destruct l1; [|done]. naive_solver. }
  set (n := Z.of_nat (length (c2 :: l2))) in *.
  rewrite (proj2 (Z.eqb_neq n 0)) by (unfold n; simpl; lia). simpl. wp_focus.
  apply (wp_for (fun i s' => s' = s /\ forall j, 0 <= j < i -> bytes s !! (p + j) = bytes s !! (q + j)));
    [lia|split; [done|lia]| |].
  - intros i ? Hi (-> & Hpre). destruct (cstr_lookup _ _ _ i H1) as (b1 & Hl1 & Hb1 & Hr1); [lia|].
    destruct (cstr_lookup _ _ _ i H2) as (b2 & Hl2 & Hb2 & Hr2); [lia|].
    pose proof H1 as (Hp & _). pose proof H2 as (Hq & _).
    wp_focus. eapply wp_ld; [lia|done|]. wp_focus. eapply wp_ld; [lia|done|].
    destruct (Z.eqb_spec b1 b2) as [->|Hne]; simpl; apply wp_ret.
    + split; [done|]. intros j Hj. destruct (decide (j = i)) as [->|]; [congruence|]. apply Hpre. lia.
    + apply wp_ret. split; [done|]. simpl. split; [|intros [-> _]; congruence].
      unfold sN. intros Heq. exfalso. apply Hne. clear -Heq Hr1 Hr2. dlia.
  - intros ? (-> & Hall). apply wp_ret. split; [done|]. split; [|done]. intros _. split.
    + apply list_eq_same_length with (n := length (c2 :: l2)); [done|done|].
      intros i x y Hi Hx Hy. specialize (Hall (Z.of_nat i) ltac:(unfold n; lia)).
      destruct H1 as (_ & Hb1 & _), H2 as (_ & Hb2 & _).
      apply (lookup_app_l_Some _ [0]), Hb1 in Hx. apply (lookup_app_l_Some _ [0]), Hb2 in Hy. congruence.
    + intros ->. done.
Qed.

(** The state of the reversal after [j] swaps. *)
Definition rev_inv (m : gmap Z Z) (p n j : Z) (m' : gmap Z Z) : Prop :=
  (forall x, 0 <= x < n ->
     m' !! (p + x) = if (x <? j) || (n - 1 - j <? x) then m !! (p + (n - 1 - x)) else m !! (p + x)) /\
  unchanged_outside p n m m'.

Lemma rev_inv_step m p n j m' b c :
  rev_inv m p n j m' -> 0 <= j < n - 1 - j ->
  m !! (p + j) = Some b -> m !! (p + (n - 1 - j)) = Some c ->
  rev_inv m p n (j + 1) (<[p + j := c]> (<[p + (n - 1 - j) := b]> m')).
Proof.
  intros [Hm Hout] Hj Hb Hc. split.
  - intros x Hx. destruct (decide (x = j)) as [->|Hxj].
    { rewrite lookup_insert_eq, <- Hc. rewrite (proj2 (Z.ltb_lt j (j + 1))) by lia. done. }
    rewrite lookup_insert_ne by lia. destruct (decide (x = n - 1 - j)) as [->|Hxi].
    { rewrite lookup_insert_eq, <- Hb. rewrite (proj2 (Z.ltb_lt (n - 1 - (j + 1)) _)) by lia.
      rewrite orb_true_r. f_equal. lia. }
    rewrite lookup_insert_ne by lia. rewrite Hm by done.
    destruct (Z.ltb_spec x j), (Z.ltb_spec x (j + 1)), (Z.ltb_spec (n - 1 - j) x),
      (Z.ltb_spec (n - 1 - (j + 1)) x); simpl; done || lia.
  - intros x Hx. rewrite !lookup_insert_ne by lia. by apply Hout.
Qed.

Lemma rev_inv_done m p l j m' :
  cstr m p l -> rev_inv m p (Z.of_nat (length l)) j m' -> Z.of_nat (length l) - 1 - j <= j ->
  cstr m' p (reverse l).
Proof.
  intros Hc [Hm Hout] Hj. pose proof Hc as (Hp & Hb & Hl).
  assert (forall i, (i < length l)%nat -> m' !! (p + Z.of_nat i) = reverse l !! i) as Hrev.
  { intros i Hi. rewrite reverse_lookup by done.
    destruct (cstr_lookup _ _ _ (Z.of_nat (length l) - 1 - Z.of_nat i) Hc) as (b & Hbl & Hbm & _); [lia|].
    replace (length l - S i)%nat with (Z.to_nat (Z.of_nat (length l) - 1 - Z.of_nat i)) by lia.
    rewrite Hbl, Hm, <- Hbm by lia.
    destruct (Z.ltb_spec (Z.of_nat i) j), (Z.ltb_spec (Z.of_nat (length l) - 1 - j) (Z.of_nat i));
      simpl; try done. f_equal. lia. }
  split_and!; [done| |by apply Forall_reverse].
  apply bytes_at_app. rewrite length_reverse. split.
  - intros i b Hi. rewrite Hrev; [done|]. apply lookup_lt_Some in Hi. by rewrite length_reverse in Hi.
  - apply bytes_at_cons. split; [|apply bytes_at_nil]. rewrite Hout by lia. by apply cstr_nul.
Qed.

Lemma strrev_wp s p l (Q : Z -> smem H -> Prop) :
  cstr (bytes s) p l -> Z.of_nat (length l) < 2 ^ 31 ->
  (forall m', cstr m' p (reverse l) -> unchanged_outside p (Z.of_nat (length l)) (bytes s) m' ->
     Q p (set_bytes m' s)) ->
  wp (strrev p) Q s.
Proof.
  intros Hc Hlen HQ. pose proof Hc as (Hp & Hb & Hl). unfold strrev. wp_focus.
  eapply strlen_wp; [done|]. wp_focus. apply wp_mem_bound. set (n := Z.of_nat (length l)) in *.
  rewrite sN_small by lia. wp_focus.
  apply (wp_while (fun k ij s' => exists m' j, s' = set_bytes m' s /\ ij = (n - 1 - j, j) /\
    0 <= j <= n /\ (n - j <= Z.of_nat k)%Z /\ rev_inv (bytes s) p n j m') (length l)).
  - exists (bytes s), 0. split_and!; try done; [by destruct s|f_equal; lia|lia..|].
    split; [|by intros x Hx]. intros x Hx.
    rewrite (proj2 (Z.ltb_ge x 0)), (proj2 (Z.ltb_ge _ x)) by lia. done.
  - apply bytes_at_size in Hb. rewrite length_app in Hb. simpl in Hb. lia.
  - intros k ij s' (m' & j & -> & -> & Hj & Hk & Hinv). unfold strrev_round.
    destruct (Z.ltb_spec j (n - 1 - j)) as [Hlt|Hge].
    + pose proof Hinv as [Hm _].
      destruct (cstr_lookup _ _ _ j Hc) as (b & _ & Hb1 & Hr1); [lia|].
      destruct (cstr_lookup _ _ _ (n - 1 - j) Hc) as (c & _ & Hc1 & Hr2); [lia|].
      assert (m' !! (p + (n - 1 - j)) = Some c) as Hmi.
      { rewrite Hm, <- Hc1 by lia. rewrite (proj2 (Z.ltb_ge _ j)), (proj2 (Z.ltb_ge (n - 1 - j) _)) by lia. done. }
      assert (m' !! (p + j) = Some b) as Hmj.
      { rewrite Hm, <- Hb1 by lia. rewrite (proj2 (Z.ltb_ge _ j)), (proj2 (Z.ltb_ge (n - 1 - j) _)) by lia. done. }
      wp_focus. eapply wp_ld; [lia|done|]. wp_focus. eapply wp_ld; [lia|done|].
      wp_focus. eapply wp_st; [lia|by eexists|]. wp_focus. eapply wp_st; [lia| |].
      { simpl. rewrite lookup_insert_ne by lia. by eexists. }
      apply wp_ret. exists (pred k). split; [lia|]. simpl. rewrite !uN_small by lia.
      eexists _, (j + 1). split_and!; [reflexivity|f_equal; lia|lia..|]. apply rev_inv_step; done || lia.
    + apply wp_ret. apply wp_ret. apply HQ; [by eapply rev_inv_done|apply Hinv].
Qed.
End specs.

(** ** Numbers as digit strings *)

(** The value of a digit character, of digits with the least significant first,
    and of a numeral as it is written. *)
Definition dval (c : Z) : Z := if 65 <=? c then c - 65 + 10 else c - 48.
Definition lval (base : Z) (ds : list Z) : Z := foldr (fun c acc => dval c + base * acc) 0 ds.
Definition sval (base : Z) (cs : list Z) : Z := fold_left (fun acc c => dval c + base * acc) cs 0.

(** The digit characters of a base. *)
Definition is_digit (base c : Z) : Prop := exists r, 0 <= r < base /\ c = digit r.

(** A numeral has digits only and no superfluous leading zero. *)
Definition numeral (base : Z) (cs : list Z) : Prop :=
  Forall (is_digit base) cs /\ cs <> [] /\ (head cs = Some 48 -> cs = [48]).

Lemma sval_reverse base ds : sval base (reverse ds) = lval base ds.
Proof.
  unfold sval, lval, reverse. rewrite rev_append_rev, app_nil_r. symmetry.
  rewrite <- (rev_involutive ds) at 1. apply fold_left_rev_right.
Qed.

Lemma dval_digit base r : base <= 32 -> 0 <= r < base -> dval (digit r) = r.
Proof.
  intros. unfold dval, digit. destruct (Z.leb_spec 10 r).
  - rewrite (proj2 (Z.leb_le 65 _)) by lia. lia.
  - rewrite (proj2 (Z.leb_gt 65 _)) by lia. lia.
Qed.

Lemma digit_byte r : 0 <= r < 32 -> 0 < digit r < 256.
Proof. intros. unfold digit. destruct (10 <=? r); lia. Qed.

Lemma is_digit_byte base c : base <= 32 -> is_digit base c -> 0 < c < 256.
Proof. intros Hb (r & Hr & ->). apply digit_byte. lia. Qed.

Lemma lval_snoc base ds c : lval base (ds ++ [c]) = lval base ds + base ^ Z.of_nat (length ds) * dval c.
Proof.
  induction ds as [|d ds IH]; [unfold lval; simpl; lia|].
  unfold lval in *. simpl foldr. rewrite IH. simpl length.
  rewrite Nat2Z.inj_succ, Z.pow_succ_r by lia. lia.
Qed.

Section numbers.
Context {H : Type}.
Implicit Types s : smem H.

(** What the digit loop has written when [n'] of the number is left. *)
Record digits_inv (s : smem H) (p base n : Z) (k : nat) (ni : Z * Z) (s' : smem H) (ds : list Z) : Prop := {
  di_mem : exists m', s' = set_bytes m' s /\ bytes_at m' p ds /\ unchanged_outside p (ni.2) (bytes s) m';
  di_len : ni.2 = Z.of_nat (length ds);
  di_fuel : ni.2 + Z.of_nat k = 64;
  di_rest : 0 <= ni.1 < 2 ^ Z.of_nat k;
  di_val : n = lval base ds + base ^ ni.2 * ni.1;
  di_dig : Forall (is_digit base) ds;
  di_top : ni.1 = 0 -> last ds <> Some 48;
}.

Lemma digits_round_wp s p base n k ni s' ds :
  2 <= base <= 32 -> buf (bytes s) p 66 -> digits_inv s p base n k ni s' ds ->
  wp (digits_round p base ni) (fun r s'' =>
    match r with
    | inl ni' => exists k', (k' < k)%nat /\ exists ds', digits_inv s p base n k' ni' s'' ds'
    | inr i => exists ds', digits_inv s p base n k (0, i) s'' ds'
    end) s'.
Proof.
  intros Hbase [Hp Hbuf] [(m' & -> & Hb & Hout) Hlen Hfuel Hrest Hval Hdig Htop].
  destruct ni as [n' i]. simpl in *. destruct (truth n') eqn:Ht.
  2: { apply truth_false in Ht as ->. apply wp_ret. exists ds. split; simpl; try done. by exists m'. }
  apply truth_true in Ht. assert (k <> 0%nat) as Hk by (intros ->; simpl in *; lia).
  rewrite Z.rem_mod_nonneg, Z.quot_div_nonneg by lia.
  assert (0 <= n' `mod` base < base) as Hr by (apply Z.mod_pos_bound; lia).
  wp_focus. eapply wp_st; [lia|simpl; rewrite Hout by lia; apply Hbuf; lia|]. apply wp_ret.
  rewrite uN_small by (pose proof (digit_byte (n' `mod` base)); lia).
  exists (pred k). split; [lia|]. exists (ds ++ [digit (n' `mod` base)]). split; simpl.
  - eexists. split; [reflexivity|]. simpl. split.
    + apply bytes_at_app. split.
      * eapply bytes_at_agree; [|done]. intros x Hx. by rewrite lookup_insert_ne by lia.
      * apply bytes_at_cons. split; [|apply bytes_at_nil]. rewrite <- Hlen. by rewrite lookup_insert_eq.
    + intros x Hx. rewrite lookup_insert_ne by lia. apply Hout. lia.
  - rewrite length_app. simpl. lia.
  - lia.
  - split; [apply Z.div_pos; lia|]. apply Z.div_lt_upper_bound; [lia|].
    replace (Z.of_nat k) with (Z.succ (Z.of_nat (pred k))) in Hrest by lia.
    rewrite Z.pow_succ_r in Hrest by lia. nia.
  - rewrite lval_snoc, (dval_digit base) by lia. rewrite <- Hlen, Z.pow_add_r, Z.pow_1_r by lia.
    rewrite Hval at 1. rewrite (Z.div_mod n' base) at 1 by lia. ring.
  - apply Forall_app. split; [done|]. apply Forall_singleton. by eexists.
  - intros Hz. rewrite last_snoc. intros [= Hd]. apply Z.div_small_iff in Hz; [|lia].
    rewrite Z.mod_small in Hd by lia. unfold digit in Hd. destruct (10 <=? n') eqn:?; lia.
Qed.

Lemma digits_loop_wp s p base n (Q : Z -> smem H -> Prop) :
  2 <= base <= 32 -> buf (bytes s) p 66 -> 0 <= n < 2 ^ 64 ->
  (forall i s' ds k, digits_inv s p base n k (0, i) s' ds -> Q i s') ->
  wp (while_ 65 (digits_round p base) (n, 0)) Q s.
Proof.
  intros Hbase Hbuf Hn HQ.
  apply (wp_while (fun k ni s' => exists ds, digits_inv s p base n k ni s' ds) 64).
  - exists []. split; simpl; try done; [|unfold lval; simpl; lia].
    exists (bytes s). split_and!; [by destruct s|apply bytes_at_nil|by intros x Hx].
  - lia.
  - intros k ni s' (ds & Hinv). eapply wp_mono; [by eapply digits_round_wp|].
    intros [ni'|i] s'' Hr; [done|]. destruct Hr as (ds' & Hinv'). by eapply HQ.
Qed.

(** A written numeral, least significant digit first. *)
Record written (s : smem H) (p base n i : Z) (s' : smem H) (ds : list Z) : Prop := {
  wr_mem : exists m', s' = set_bytes m' s /\ bytes_at m' p ds /\ unchanged_outside p i (bytes s) m';
  wr_len : i = Z.of_nat (length ds) /\ i <= 64;
  wr_val : lval base ds = n;
  wr_num : numeral base (reverse ds);
}.

(** [if (i == 0) str[i++] = '0';] *)
Lemma zero_fix_wp s p base n i s' ds k :
  2 <= base <= 32 -> buf (bytes s) p 66 -> digits_inv s p base n k (0, i) s' ds ->
  wp (if i =? 0 then st (p + i) 48;; mret (i + 1) else mret i)
     (fun i1 s'' => exists ds', written s p base n i1 s'' ds') s'.
Proof.
  intros Hbase [Hp Hbuf] [(m' & -> & Hb & Hout) Hlen Hfuel Hrest Hval Hdig Htop]. simpl in *.
  rewrite Z.mul_0_r, Z.add_0_r in Hval. destruct (Z.eqb_spec i 0) as [->|Hi].
  - destruct ds; [|simpl in Hlen; lia]. rewrite Z.add_0_r. wp_focus.
    eapply wp_st; [lia|simpl; rewrite Hout by lia; apply Hbuf; lia|]. apply wp_ret.
    exists [48]. split; simpl; [|lia|unfold lval in *; simpl in *; rewrite Hval; unfold dval; simpl; lia|].
    + eexists. split; [reflexivity|]. split.
      * apply bytes_at_cons. split; [by rewrite lookup_insert_eq|apply bytes_at_nil].
      * intros x Hx. rewrite lookup_insert_ne by lia. apply Hout. lia.
    + split_and!; [|done|done]. apply Forall_singleton. exists 0. split; [lia|done].
  - apply wp_ret. exists ds. split; simpl; [by exists m'|lia|done|].
    split_and!.
    + by apply Forall_reverse.
    + intros He. apply (f_equal length) in He. rewrite length_reverse in He. simpl in He. lia.
    + rewrite head_reverse. intros He. by destruct Htop.
Qed.

(** The terminator and the reversal. *)
Lemma finish_wp s p m ds (Q : Z -> smem H -> Prop) :
  0 < p -> bytes_at m p ds -> Forall (fun b => 0 < b < 256) ds -> Z.of_nat (length ds) <= 65 ->
  is_Some (m !! (p + Z.of_nat (length ds))) ->
  (forall m', cstr m' p (reverse ds) -> unchanged_outside p (Z.of_nat (length ds) + 1) m m' ->
     Q p (set_bytes m' s)) ->
  wp (st (p + Z.of_nat (length ds)) 0;; strrev p) Q (set_bytes m s).
Proof.
  intros Hp Hb Hl Hlen Hsome HQ. wp_focus. eapply wp_st; [lia|done|]. simpl.
  eapply (strrev_wp _ p ds); [|lia|].
  - split_and!; [done| |done]. simpl. apply bytes_at_app. split.
    + eapply bytes_at_agree; [|done]. intros x Hx. by rewrite lookup_insert_ne by lia.
    + apply bytes_at_cons. split; [by rewrite lookup_insert_eq|apply bytes_at_nil].
  - intros m' Hc Hout. simpl in Hout. apply HQ; [done|]. intros x Hx.
    rewrite Hout by lia. by rewrite lookup_insert_ne by lia.
Qed.

Lemma written_byte s p base n i s' ds :
  2 <= base <= 32 -> written s p base n i s' ds -> Forall (fun b => 0 < b < 256) ds.
Proof.
  intros Hbase [_ _ _ [Hd _]]. apply Forall_reverse in Hd. rewrite reverse_involutive in Hd.
  eapply Forall_impl; [done|]. intros c Hc. apply (is_digit_byte base); [lia|done].
Qed.

Lemma ultoa_wp s p base n (Q : Z -> smem H -> Prop) :
  2 <= base <= 32 -> 0 <= n < 2 ^ 64 -> buf (bytes s) p 66 ->
  (forall m' cs, cstr m' p cs -> numeral base cs -> sval base cs = n -> Z.of_nat (length cs) <= 64 ->
     unchanged_outside p 66 (bytes s) m' -> Q p (set_bytes m' s)) ->
  wp (ultoa n p base) Q s.
Proof.
  intros Hbase Hn Hbuf HQ. unfold ultoa.
  rewrite (proj2 (Z.ltb_ge base 2)), (proj2 (Z.ltb_ge 32 base)) by lia. simpl. wp_focus.
  apply digits_loop_wp with (n := n); [done..|]. intros i s' ds k Hd. wp_focus.
  eapply wp_mono; [by eapply zero_fix_wp|]. intros i1 s1 (ds1 & Hw).
  pose proof (written_byte _ _ _ _ _ _ _ Hbase Hw) as Hbytes.
  destruct Hw as [(m' & -> & Hb & Hout) [-> Hlen] Hval Hnum]. destruct Hbuf as [Hp Hbuf].
  apply finish_wp; [done..|lia|rewrite Hout by lia; apply Hbuf; lia|].
  intros m2 Hc Hout2. apply (HQ m2 (reverse ds1)); try done.
  - by rewrite sval_reverse.
  - by rewrite length_reverse.
  - intros x Hx. rewrite Hout2, Hout by lia. done.
Qed.

(** [itoa], except for the one value whose absolute value is not an [int]. *)
Lemma itoa_wp s p base v (Q : Z -> smem H -> Prop) :
  2 <= base <= 32 -> - 2 ^ 31 < v < 2 ^ 31 -> buf (bytes s) p 67 ->
  (forall m' cs, let sign := if (v <? 0) && (base =? 10) then [45] else [] in
     cstr m' p (sign ++ cs) -> numeral base cs -> sval base cs = Z.abs v ->
     Z.of_nat (length cs) <= 64 -> unchanged_outside p 67 (bytes s) m' -> Q p (set_bytes m' s)) ->
  wp (itoa v p base) Q s.
Proof.
  intros Hbase Hv [Hp Hbuf] HQ. unfold itoa.
  rewrite (proj2 (Z.ltb_ge base 2)), (proj2 (Z.ltb_ge 32 base)) by lia. simpl.
  assert (abs v = Z.abs v) as ->.
  { unfold abs. destruct (Z.ltb_spec v 0); [rewrite sN_small by lia|]; lia. }
  assert (buf (bytes s) p 66) as Hbuf66 by (split; [done|intros x Hx; apply Hbuf; lia]).
  wp_focus. apply digits_loop_wp with (n := Z.abs v); [done..|lia|]. intros i s' ds k Hd. wp_focus.
  eapply wp_mono; [by eapply zero_fix_wp|]. intros i1 s1 (ds1 & Hw).
  pose proof (written_byte _ _ _ _ _ _ _ Hbase Hw) as Hbytes.
  destruct Hw as [(m' & -> & Hb & Hout) [-> Hlen] Hval Hnum]. wp_focus.
  destruct ((v <? 0) && (base =? 10)) eqn:Hneg; cbv zeta in HQ.
  - wp_focus. eapply wp_st; [lia|simpl; rewrite Hout by lia; apply Hbuf; lia|]. apply wp_ret. simpl.
    replace (Z.of_nat (length ds1) + 1) with (Z.of_nat (length (ds1 ++ [45]))) by (rewrite length_app; simpl; lia).
    apply (finish_wp s p _ (ds1 ++ [45])).
    + done.
    + apply bytes_at_app. split.
      * eapply bytes_at_agree; [|done]. intros x Hx. by rewrite lookup_insert_ne by lia.
      * apply bytes_at_cons. split; [by rewrite lookup_insert_eq|apply bytes_at_nil].
    + apply Forall_app. split; [done|]. apply Forall_singleton. lia.
    + rewrite length_app. simpl. lia.
    + rewrite length_app. simpl. rewrite lookup_insert_ne, Hout by lia. apply Hbuf. lia.
    + intros m2 Hc Hout2. apply (HQ m2 (reverse ds1)); rewrite ?length_reverse, ?sval_reverse; try done.
      * by rewrite reverse_snoc in Hc.
      * intros x Hx. rewrite length_app in Hout2. simpl in Hout2.
        rewrite Hout2, lookup_insert_ne, Hout by lia. done.
  - apply wp_ret. apply finish_wp; [done..|lia|rewrite Hout by lia; apply Hbuf; lia|].
    intros m2 Hc Hout2. apply (HQ m2 (reverse ds1)); rewrite ?length_reverse, ?sval_reverse; try done.
    intros x Hx. rewrite Hout2, Hout by lia. done.
Qed.
End numbers.

(** ** Properties *)

Section properties.
Context {H : Type}.
Implicit Types s : smem H.

(** [strcmp] of two strings is zero exactly when they are equal and not empty,
    and it changes nothing. *)
Theorem strcmp_zero_iff s p q l1 l2 :
  cstr (bytes s) p l1 -> cstr (bytes s) q l2 ->
  exists r, strcmp p q s = Ok (r, s) /\ (r = 0 <-> l1 = l2 /\ l1 <> []).
Proof.
  intros H1 H2. destruct (wp_Ok _ _ _ (strcmp_wp s p q l1 l2 H1 H2)) as (r & s' & Hr & -> & Hiff).
  by exists r.
Qed.

(** [strcpy] into a large enough buffer that does not overlap the source puts
    the same string there and changes no byte outside the buffer. *)
Theorem strcpy_correct s dst src l :
  cstr (bytes s) src l -> buf (bytes s) dst (Z.of_nat (length l) + 1) ->
  dst + Z.of_nat (length l) < src \/ src + Z.of_nat (length l) < dst ->
  exists m', strcpy dst src s = Ok (dst, set_bytes m' s) /\ cstr m' dst l /\ cstr m' src l /\
    unchanged_outside dst (Z.of_nat (length l) + 1) (bytes s) m'.
Proof.
  intros Hc Hbuf Hov.
  assert (wp (strcpy dst src) (fun r s' => exists m', r = dst /\ s' = set_bytes m' s /\ cstr m' dst l /\
    unchanged_outside dst (Z.of_nat (length l) + 1) (bytes s) m') s) as Hwp.
  { apply (strcpy_wp s dst src l); try done. intros m' Hm Hout. by exists m'. }
  destruct (wp_Ok _ _ _ Hwp) as (r & s' & Hr & m' & -> & -> & Hm & Hout). exists m'.
  split_and!; try done. eapply cstr_agree; [|done]. intros x Hx. apply Hout. lia.
Qed.

(** [ultoa] writes, for every base it supports and every 64-bit number, the
    numeral of that number: digits of the base only, no superfluous leading
    zero, and reading it back in the base gives the number.  It needs no more
    than 66 bytes and writes nowhere else. *)
Theorem ultoa_correct s p base n :
  2 <= base <= 32 -> 0 <= n < 2 ^ 64 -> buf (bytes s) p 66 ->
  exists m' cs, ultoa n p base s = Ok (p, set_bytes m' s) /\ cstr m' p cs /\ numeral base cs /\
    sval base cs = n /\ unchanged_outside p 66 (bytes s) m'.
Proof.
  intros Hbase Hn Hbuf.
  assert (wp (ultoa n p base) (fun r s' => exists m' cs, r = p /\ s' = set_bytes m' s /\ cstr m' p cs /\
    numeral base cs /\ sval base cs = n /\ unchanged_outside p 66 (bytes s) m') s) as Hwp.
  { apply ultoa_wp; try done. intros m' cs ?????. by exists m', cs. }
  destruct (wp_Ok _ _ _ Hwp) as (r & s' & Hr & m' & cs & -> & -> & ?). exists m', cs. tauto.
Qed.

(** [itoa] writes the numeral of the absolute value, with a minus sign in
    front for a negative number in base 10, for every [int] but the smallest. *)
Theorem itoa_correct s p base v :
  2 <= base <= 32 -> - 2 ^ 31 < v < 2 ^ 31 -> buf (bytes s) p 67 ->
  exists m' cs, itoa v p base s = Ok (p, set_bytes m' s) /\
    cstr m' p ((if (v <? 0) && (base =? 10) then [45] else []) ++ cs) /\
    numeral base cs /\ sval base cs = Z.abs v /\ unchanged_outside p 67 (bytes s) m'.
Proof.
  intros Hbase Hn Hbuf.
  assert (wp (itoa v p base) (fun r s' => exists m' cs, r = p /\ s' = set_bytes m' s /\
    cstr m' p ((if (v <? 0) && (base =? 10) then [45] else []) ++ cs) /\
    numeral base cs /\ sval base cs = Z.abs v /\ unchanged_outside p 67 (bytes s) m') s) as Hwp.
  { apply itoa_wp; try done. intros m' cs sign ?????. by exists m', cs. }
  destruct (wp_Ok _ _ _ Hwp) as (r & s' & Hr & m' & cs & -> & -> & ?). exists m', cs. tauto.
Qed.

(** [memmove] copies forward whatever the overlap: moving a range up by one
    byte fills the destination with copies of the first byte. *)
Theorem memmove_up_smears s src n b :
  0 <= n -> buf (bytes s) src (n + 1) -> bytes s !! src = Some b -> 0 <= b < 256 ->
  exists m', memmove (src + 1) src n s = Ok (src + 1, set_bytes m' s) /\
    forall i, 0 <= i <= n -> m' !! (src + i) = Some b.
Proof.
  intros Hn [Hs Hbuf] Hb Hr.
  assert (wp (memmove (src + 1) src n) (fun r s' => exists m', r = src + 1 /\ s' = set_bytes m' s /\
    forall i, 0 <= i <= n -> m' !! (src + i) = Some b) s) as Hwp.
  { unfold memmove. wp_focus. apply (wp_for_each (fun i s' => exists m', s' = set_bytes m' s /\
      (forall j, 0 <= j <= i -> m' !! (src + j) = Some b) /\
      unchanged_outside (src + 1) i (bytes s) m')); [done| | |].
    - exists (bytes s). split_and!; [by destruct s| |by intros x Hx].
      intros j Hj. replace (src + j) with src by lia. done.
    - intros i s' Hi (m' & -> & Hcp & Hout). wp_focus. eapply wp_ld; [lia|apply Hcp; lia|].
      eapply wp_st; [lia|simpl; rewrite Hout by lia; apply Hbuf; lia|]. rewrite uN_small by lia.
      eexists. split; [reflexivity|]. simpl. split; intros j Hj.
      + destruct (decide (j = i + 1)) as [->|Hne].
        * replace (src + (i + 1)) with (src + 1 + i) by lia. by rewrite lookup_insert_eq.
        * rewrite lookup_insert_ne by lia. apply Hcp. lia.
      + rewrite lookup_insert_ne by lia. apply Hout. lia.
    - intros s' (m' & -> & Hcp & Hout). apply wp_ret. exists m'. done. }
  destruct (wp_Ok _ _ _ Hwp) as (r & s' & Hm & m' & -> & -> & Hall). by exists m'.
Qed.

(** [strsep] never stops at a delimiter: whatever the delimiters are, it
    returns the whole string as one token, reports that nothing is left, and
    changes nothing. *)
Theorem strsep_never_splits s str delim l ds :
  cstr (bytes s) str l -> cstr (bytes s) delim ds ->
  strsep str delim s = Ok ((str, 0), s).
Proof.
  intros Hl Hd. pose proof Hl as (Hp & Hb & _). pose proof Hd as (Hq & _).
  assert (wp (strsep str delim) (fun r s' => r = (str, 0) /\ s' = s) s) as Hwp.
  { unfold strsep. wp_focus. eapply strlen_wp; [done|]. wp_focus. apply wp_mem_bound. wp_focus.
    apply (wp_while (fun k i s' => s' = s /\ 0 <= i /\ i + Z.of_nat k = Z.of_nat (length l)) (length l)).
    - split_and!; done || lia.
    - apply bytes_at_size in Hb. rewrite length_app in Hb. simpl in Hb. lia.
    - intros k i s' (-> & Hi & Hk). wp_focus. destruct (decide (i = Z.of_nat (length l))) as [->|Hne].
      + pose proof (cstr_nul _ _ _ Hl) as H0. eapply wp_ld; [lia|done|]. rewrite Z.eqb_refl. apply wp_ret.
        wp_focus. eapply wp_ld; [lia|done|]. by apply wp_ret.
      + destruct (cstr_lookup _ _ _ i Hl) as (b & _ & Hbi & Hr); [lia|].
        eapply wp_ld; [lia|done|]. rewrite (proj2 (Z.eqb_neq b 0)) by lia. wp_focus.
        apply (wp_for (fun _ s' => s' = s)); [lia|done| |].
        * intros j ? Hj ->. destruct (cstr_lookup _ _ _ j Hd) as (d & _ & Hdj & _); [lia|].
          wp_focus. eapply wp_ld; [lia|done|]. wp_focus. eapply wp_ld; [lia|done|].
          destruct (b =? d); apply wp_ret; [|done]. apply wp_ret. exists (pred k). split_and!; done || lia.
        * intros ? ->. apply wp_ret. exists (pred k). split_and!; done || lia. }
  by destruct (wp_Ok _ _ _ Hwp) as (r & s' & Hr & -> & ->).
Qed.
End properties.

(** A small memory for the examples: two strings and a free buffer. *)
Fixpoint poke (p : Z) (l : list Z) (m : gmap Z Z) : gmap Z Z :=
  match l with
  | [] => m
  | b :: l' => <[p := b]> (poke (p + 1) l' m)
  end.

Definition demo_mem : smem () :=
  mk_smem (poke 100 [97; 44; 98; 0] (poke 200 [97; 44; 98; 0] (poke 300 (replicate 80 7) ∅))) () 0.

Lemma demo_str1 : cstr (bytes demo_mem) 100 [97; 44; 98].
Proof. split_and!; [lia| |repeat constructor]. simpl app. rewrite !bytes_at_cons. by split_and!. Qed.
Lemma demo_str2 : cstr (bytes demo_mem) 200 [97; 44; 98].
Proof. split_and!; [lia| |repeat constructor]. simpl app. rewrite !bytes_at_cons. by split_and!. Qed.
Lemma demo_delim : cstr (bytes demo_mem) 202 [98].
Proof. split_and!; [lia| |repeat constructor]. simpl app. rewrite !bytes_at_cons. by split_and!. Qed.

(** Checking a buffer by evaluation. *)
Definition buf_check (m : gmap Z Z) (p : Z) (n : nat) : bool :=
  forallb (fun i => match m !! (p + Z.of_nat i) with Some _ => true | None => false end) (seq 0 n).
Lemma buf_check_sound m p n : 0 < p -> buf_check m p n = true -> buf m p (Z.of_nat n).
Proof.
  intros Hp Hc. split; [done|]. intros x Hx. unfold buf_check in Hc. rewrite forallb_forall in Hc.
  specialize (Hc (Z.to_nat (x - p)) ltac:(apply in_seq; lia)).
  replace (p + Z.of_nat (Z.to_nat (x - p))) with x in Hc by lia.
  destruct (m !! x); [by eexists|done].
Qed.
Lemma demo_buf : buf (bytes demo_mem) 300 80.
Proof. apply (buf_check_sound _ 300 80); [lia|vm_compute; reflexivity]. Qed.
Lemma buf_le m p n n' : n' <= n -> buf m p n -> buf m p n'.
Proof. intros Hn [Hp Hb]. split; [done|]. intros x Hx. apply Hb. lia. Qed.

Lemma strcmp_zero_iff_witness :
  exists r, strcmp 100 200 demo_mem = Ok (r, demo_mem) /\
    (r = 0 <-> [97; 44; 98] = [97; 44; 98] /\ [97; 44; 98] <> []).
Proof. apply (strcmp_zero_iff demo_mem 100 200); [apply demo_str1|apply demo_str2]. Defined.

Lemma strcpy_correct_witness :
  exists m', strcpy 300 100 demo_mem = Ok (300, set_bytes m' demo_mem) /\
    cstr m' 300 [97; 44; 98] /\ cstr m' 100 [97; 44; 98] /\
    unchanged_outside 300 4 (bytes demo_mem) m'.
Proof.
  apply (strcpy_correct demo_mem 300 100 [97; 44; 98]);
    [apply demo_str1|apply (buf_le _ _ 80); [simpl; lia|apply demo_buf]|right; simpl; lia].
Defined.

Lemma ultoa_correct_witness :
  exists m' cs, ultoa 48879 300 16 demo_mem = Ok (300, set_bytes m' demo_mem) /\ cstr m' 300 cs /\
    numeral 16 cs /\ sval 16 cs = 48879 /\ unchanged_outside 300 66 (bytes demo_mem) m'.
Proof.
  apply (ultoa_correct demo_mem 300 16 48879);
    [lia|lia|apply (buf_le _ _ 80); [lia|apply demo_buf]].
Defined.

Lemma itoa_correct_witness :
  exists m' cs, itoa (-120) 300 10 demo_mem = Ok (300, set_bytes m' demo_mem) /\
    cstr m' 300 ([45] ++ cs) /\ numeral 10 cs /\ sval 10 cs = 120 /\
    unchanged_outside 300 67 (bytes demo_mem) m'.
Proof.
  apply (itoa_correct demo_mem 300 10 (-120));
    [lia|lia|apply (buf_le _ _ 80); [lia|apply demo_buf]].
Defined.

Lemma memmove_up_smears_witness :
  exists m', memmove 101 100 3 demo_mem = Ok (101, set_bytes m' demo_mem) /\
    forall i, 0 <= i <= 3 -> m' !! (100 + i) = Some 97.
Proof.
  apply (memmove_up_smears demo_mem 100 3 97); [lia| |reflexivity|lia].
  apply (buf_check_sound _ 100 4); [lia|vm_compute; reflexivity].
Defined.

Lemma strsep_never_splits_witness : strsep 100 202 demo_mem = Ok ((100, 0), demo_mem).
Proof. apply (strsep_never_splits demo_mem 100 202 [97; 44; 98] [98]); [apply demo_str1|apply demo_delim]. Defined.

(** The smallest [int] has no absolute value: its digits come out as other
    characters ([-./,),(-*,(] instead of the number). *)
Example itoa_int_min :
  match itoa (- 2 ^ 31) 300 10 demo_mem with
  | Ok (_, s) => (fun i => bytes s !! (300 + i)) <$> [0; 1; 2; 3; 4; 5; 6; 7; 8; 9; 10; 11]
  | Err _ => []
  end = Some <$> [45; 46; 47; 44; 41; 44; 40; 45; 42; 44; 40; 0].
Proof. vm_compute. reflexivity. Qed.
