(* ===== verification/Paging.v ===== *)
(** * Paging (src/mem/paging.c, src/mem/paging.h) and [kheap_init] (src/mem/kheap.c)

    The kernel's heap window ([kheapdir], [kheap_tables]) and the page allocator
    on it, the page maps of processes, and the regions of an address space.
    Arrays are maps from indices with the bounds checked on every access.  The
    addresses the linker gives the static structures are parameters ([layout]).
    The TLB is not modelled: [invlpg] has no effect here. *)

From S2P Require Import Prelude Pmm Alloc Kheap DList.

Definition KERNEL_VIRTUAL_ADDR : Z := 0xffffffff80000000.
Definition IO_VIRTUAL_ADDR : Z := KERNEL_VIRTUAL_ADDR - 0x100000000.
Definition PAGE_SIZE_2M : Z := 0x200000.
Definition PAGE_SIZE_1G : Z := 0x40000000.
Definition PAGES_PER_TABLE : Z := 512.
Definition TABLES_PER_DIR : Z := 512.
Definition DIRS_PER_PDP : Z := 512.
Definition PDP_SIZE : Z := 0x8000000000.
Definition KHEAP_PDP_IDX : Z := 511.
Definition KHEAP_PML4_IDX : Z := 511.

Definition PML4_IDX (v : Z) : Z := Z.shiftr v 39 .& 0x1ff.
Definition PDP_IDX (v : Z) : Z := Z.shiftr v 30 .& 0x1ff.
Definition PD_IDX (v : Z) : Z := Z.shiftr v 21 .& 0x1ff.
Definition PT_IDX (v : Z) : Z := Z.shiftr v 12 .& 0x1ff.

(** The flags have the same bits at every level. *)
Definition PRESENT : Z := 1.
Definition WRITABLE : Z := 2.
Definition USER : Z := 4.
Definition PD_CACHEDISABLED : Z := 16.
Definition PD_2M : Z := 128.
Definition PAGE_FRAME : Z := 0xffffffffff000.

Record mregion : Type := mk_mregion { base : Z; end_ : Z }.

(** [page_map_t]; the page tables are frames of physical memory ([tabs] of the state), to
    which [page_tables] has the kernel's addresses and [page_dirs] the frames. *)
Record page_map : Type := mk_page_map {
  pml4 : gmap Z Z;
  pml4_phys : Z;
  pdp : gmap Z Z;
  pdp_phys : Z;
  page_dirs : gmap (Z * Z) Z;
  page_dirs_phys : gmap Z Z;
  page_tables : gmap (Z * Z) Z;
  regions : Z;
}.

(** Where the static page structures are. *)
Record layout : Type := mk_layout {
  a_kpml4 : Z; a_kpdp : Z; a_kpd : Z; a_kheapdir : Z; a_kheap_tables : Z; a_iodirs : Z;
}.

Record pstate (H : Type) : Type := mk_pstate {
  kpml4_phys : Z;
  kpml4 : gmap Z Z;
  kpdp : gmap Z Z;
  kpd : gmap Z Z;
  kheapdir : gmap Z Z;
  kheap_tables : gmap Z Z;       (* kheap_tables[i][j] at i * 512 + j *)
  iodirs : gmap Z Z;             (* iodirs[i].entries[j] at i * 512 + j *)
  temp_mem : Z;
  phys : pmm;
  lm : lmem H;
  maps : gmap Z page_map;
  tabs : gmap Z (gmap Z Z);      (* the page tables, by the address of their frame *)
  mregions : gmap Z mregion;
}.
Arguments mk_pstate {H}.
Arguments kpml4_phys {H}. Arguments kpml4 {H}. Arguments kpdp {H}. Arguments kpd {H}.
Arguments kheapdir {H}. Arguments kheap_tables {H}. Arguments iodirs {H}. Arguments temp_mem {H}.
Arguments phys {H}. Arguments lm {H}. Arguments maps {H}. Arguments tabs {H}. Arguments mregions {H}.

(** An entry of a zero-initialised array. *)
Definition ent {K} `{Countable K} (m : gmap K Z) (k : K) : Z := default 0 (m !! k).

(** [set_page_frame]: the new value of an entry. *)
Definition set_page_frame (page addr : Z) : Z :=
  (page .& Z.lnot PAGE_FRAME) .| (addr .& PAGE_FRAME).

(** The frame of [kheap_tables[i]]. *)
Definition table_frame (lay : layout) (i : Z) : Z :=
  u64 (a_kheap_tables lay + i * 4096 - KERNEL_VIRTUAL_ADDR) .& PAGE_FRAME.

(** The processor's walk for a page of the kernel's window, from the directory [kheapdir] on
    (the two levels above it are fixed by [paging_init]): the frame behind the address.  The
    directory entry must lead to the table the kernel writes. *)
Definition kframe {H} (lay : layout) (s : pstate H) (v : Z) : option Z :=
  let i := PD_IDX v in
  let d := ent (kheapdir s) i in
  let e := ent (kheap_tables s) (i * 512 + PT_IDX v) in
  if (PML4_IDX v =? KHEAP_PML4_IDX) && (PDP_IDX v =? KHEAP_PDP_IDX) && Z.testbit d 0 &&
     (d .& PAGE_FRAME =? table_frame lay i) && Z.testbit e 0
  then Some (e .& PAGE_FRAME) else None.

Section ops.
Context {H : Type} `{KAlloc H} (lay : layout).
Local Abbreviation P := (M (pstate H)).

Definition upd_dir (f : gmap Z Z -> gmap Z Z) (s : pstate H) := mk_pstate (kpml4_phys s) (kpml4 s)
  (kpdp s) (kpd s) (f (kheapdir s)) (kheap_tables s) (iodirs s) (temp_mem s) (phys s) (lm s) (maps s) (tabs s) (mregions s).
Definition upd_tables (f : gmap Z Z -> gmap Z Z) (s : pstate H) := mk_pstate (kpml4_phys s) (kpml4 s)
  (kpdp s) (kpd s) (kheapdir s) (f (kheap_tables s)) (iodirs s) (temp_mem s) (phys s) (lm s) (maps s) (tabs s) (mregions s).
Definition upd_phys (p : pmm) (s : pstate H) := mk_pstate (kpml4_phys s) (kpml4 s)
  (kpdp s) (kpd s) (kheapdir s) (kheap_tables s) (iodirs s) (temp_mem s) p (lm s) (maps s) (tabs s) (mregions s).
Definition upd_lm (l : lmem H) (s : pstate H) := mk_pstate (kpml4_phys s) (kpml4 s)
  (kpdp s) (kpd s) (kheapdir s) (kheap_tables s) (iodirs s) (temp_mem s) (phys s) l (maps s) (tabs s) (mregions s).
Definition upd_maps (f : gmap Z page_map -> gmap Z page_map) (s : pstate H) := mk_pstate (kpml4_phys s) (kpml4 s)
  (kpdp s) (kpd s) (kheapdir s) (kheap_tables s) (iodirs s) (temp_mem s) (phys s) (lm s) (f (maps s)) (tabs s) (mregions s).
Definition upd_tabs (f : gmap Z (gmap Z Z) -> gmap Z (gmap Z Z)) (s : pstate H) := mk_pstate (kpml4_phys s) (kpml4 s)
  (kpdp s) (kpd s) (kheapdir s) (kheap_tables s) (iodirs s) (temp_mem s) (phys s) (lm s) (maps s) (f (tabs s)) (mregions s).
Definition upd_mregions (f : gmap Z mregion -> gmap Z mregion) (s : pstate H) := mk_pstate (kpml4_phys s) (kpml4 s)
  (kpdp s) (kpd s) (kheapdir s) (kheap_tables s) (iodirs s) (temp_mem s) (phys s) (lm s) (maps s) (tabs s) (f (mregions s)).

Definition with_phys {A} (m : M pmm A) : P A := fun s =>
  match m (phys s) with
  | Ok (a, p) => Ok (a, upd_phys p s)
  | Err f => Err f
  end.
Definition with_lm {A} (m : M (lmem H) A) : P A := fun s =>
  match m (lm s) with
  | Ok (a, l) => Ok (a, upd_lm l s)
  | Err f => Err f
  end.

Definition in512 (i : Z) : bool := (0 <=? i) && (i <? 512).

Definition dir_get (i : Z) : P Z :=
  guard (in512 i) OutOfBounds;; gets (fun s => ent (kheapdir s) i).
Definition dir_set (i v : Z) : P () :=
  guard (in512 i) OutOfBounds;; modify (upd_dir (<[i := v]>)).
Definition tab_get (i j : Z) : P Z :=
  guard (in512 i && in512 j) OutOfBounds;; gets (fun s => ent (kheap_tables s) (i * 512 + j)).
Definition tab_set (i j v : Z) : P () :=
  guard (in512 i && in512 j) OutOfBounds;; modify (upd_tables (<[i * 512 + j := v]>)).

Definition temp_kmalloc (sz : Z) : P Z := fun s =>
  Ok (temp_mem s, mk_pstate (kpml4_phys s) (kpml4 s) (kpdp s) (kpd s) (kheapdir s) (kheap_tables s)
    (iodirs s) (u64 (temp_mem s + sz)) (phys s) (lm s) (maps s) (tabs s) (mregions s)).

Definition page_map_mmio (physaddr : Z) : Z := u64 (physaddr + IO_VIRTUAL_ADDR).

(** The contents of the static structures after [paging_init]. *)
Definition fill (n : nat) (f : Z -> Z) : gmap Z Z :=
  list_to_map ((fun i => (Z.of_nat i, f (Z.of_nat i))) <$> seq 0 n).

Definition paging_init : P () := modify (fun s =>
  let off a := u64 (a - KERNEL_VIRTUAL_ADDR) in
  let e := set_page_frame 0 (off (a_kpdp lay)) .| (PRESENT .| WRITABLE) in
  let pml4' := <[0 := e]> (<[PML4_IDX KERNEL_VIRTUAL_ADDR := e]> ∅) in
  let kpd' := fill 512 (fun i => u32 (PAGE_SIZE_2M * i) .| PRESENT .| WRITABLE .| PD_2M) in
  let pdp0 := <[PDP_IDX KERNEL_VIRTUAL_ADDR := off (a_kpd lay) .| PRESENT .| WRITABLE]> ∅ in
  let pdp1 := <[KHEAP_PDP_IDX := set_page_frame (PRESENT .| WRITABLE) (off (a_kheapdir lay))]> pdp0 in
  let pdp2 := fold_left (fun m i =>
    <[PDP_IDX IO_VIRTUAL_ADDR + i := off (a_iodirs lay + i * 4096) .| PRESENT .| WRITABLE]> m)
    [0; 1; 2; 3] pdp1 in
  let iodirs' := fill 2048 (fun q =>
    (PAGE_SIZE_1G * (q `div` 512) + PAGE_SIZE_2M * (q `mod` 512)) .|
    (PD_2M .| WRITABLE .| PRESENT .| PD_CACHEDISABLED)) in
  let pdp3 := <[0 := ent pdp2 (PDP_IDX KERNEL_VIRTUAL_ADDR)]> pdp2 in
  mk_pstate (off (a_kpml4 lay)) pml4' pdp3 kpd' (kheapdir s) ∅ iodirs' (temp_mem s)
    (phys s) (lm s) (maps s) (tabs s) (mregions s)).

(** The marking loops of [page_kernel_alloc4k]: [n] pages from [(pdoff, offset)].
    The second pass also enters the tables it starts to use. *)
Definition enter_table (pdoff : Z) : P () :=
  d ← dir_get pdoff;
  dir_set pdoff (set_page_frame d (u64 (a_kheap_tables lay + pdoff * 4096 - KERNEL_VIRTUAL_ADDR)));;
  d' ← dir_get pdoff;
  dir_set pdoff (d' .| (PRESENT .| WRITABLE)).

Definition mark_pages (enter : bool) (n pdoff offset : Z) : P () :=
  for_acc (B := ()) 0 n (fun _ (po : Z * Z) =>
    let '(pdoff, offset) := po in
    po' ← (if 512 <=? offset then
             (if enter then enter_table (pdoff + 1) else mret ());; mret (pdoff + 1, 0)
           else mret (pdoff, offset));
    tab_set po'.1 po'.2 (PRESENT .| WRITABLE);;
    mret (inl (po'.1, po'.2 + 1))) (pdoff, offset);;
  mret ().

Definition kheap_addr (pdoff offset : Z) : Z :=
  u64 (PDP_SIZE * KHEAP_PML4_IDX + KHEAP_PDP_IDX * PAGE_SIZE_1G + pdoff * PAGE_SIZE_2M + offset * 4096)
  .| 0xffff000000000000.

(** The locals of the two searches: counter, pdoff, offset. *)
Definition search : Type := Z * Z * Z.

Definition alloc4k_page (cnt i j : Z) (a : search) : P (search + Z) :=
  let '(counter, pdoff, offset) := a in
  e ← tab_get i j;
  if truth (e .& PRESENT) then mret (inl (0, i, j + 1)) else
  let counter' := u32 (counter + 1) in
  if cnt <=? counter' then
    mark_pages false counter' pdoff offset;;
    mret (inr (kheap_addr pdoff offset))
  else mret (inl (counter', pdoff, offset)).

Definition alloc4k_pass1 (cnt : Z) : P (search + Z) :=
  for_acc 0 TABLES_PER_DIR (fun i a =>
    d ← dir_get i;
    if negb (truth (d .& PRESENT)) || truth (d .& PD_2M) then mret (inl (0, i + 1, 0))
    else for_acc 0 PAGES_PER_TABLE (alloc4k_page cnt i) a) (0, 0, 0).

Definition alloc4k_pass2 (cnt : Z) : P (search + Z) :=
  for_acc 0 TABLES_PER_DIR (fun i (a : search) =>
    let '(counter, pdoff, offset) := a in
    d ← dir_get i;
    if truth (d .& PRESENT) then mret (inl (0, i + 1, 0)) else
    let counter' := u32 (counter + 512) in
    if cnt <=? counter' then
      enter_table pdoff;;
      mark_pages true cnt pdoff offset;;
      mret (inr (kheap_addr pdoff offset))
    else mret (inl (counter', pdoff, offset))) (0, 0, 0).

(** Without free pages the function ends without a [return]. *)
Definition page_kernel_alloc4k (cnt : Z) : P Z :=
  r ← alloc4k_pass1 cnt;
  match r with
  | inr addr => mret addr
  | inl _ =>
      r' ← alloc4k_pass2 cnt;
      match r' with inr addr => mret addr | inl _ => throw NoReturn end
  end.

Definition page_kernel_free4k (addr cnt : Z) : P () :=
  for_each 0 cnt (fun i =>
    let virt := u64 (addr + i * 4096) in tab_set (PD_IDX virt) (PT_IDX virt) 0).

Definition page_kernel_map_memory (virt phys cnt : Z) : P () :=
  for_each 0 cnt (fun i =>
    let v := u64 (virt + i * 4096) in
    let p := u64 (phys + i * 4096) in
    e ← tab_get (PD_IDX v) (PT_IDX v);
    tab_set (PD_IDX v) (PT_IDX v) (set_page_frame e p);;
    e' ← tab_get (PD_IDX v) (PT_IDX v);
    tab_set (PD_IDX v) (PT_IDX v) (e' .| (PRESENT .| WRITABLE))).

(** A fresh kernel page backed by a fresh frame. *)
Definition kernel_page : P (Z * Z) :=
  v ← page_kernel_alloc4k 1;
  p ← with_phys pmm_request;
  page_kernel_map_memory v p 1;;
  mret (v, p).

(** Page maps and their tables. *)
Definition map_get (map : Z) : P page_map :=
  o ← gets (fun s => maps s !! map); unwrap o OutOfBounds.
Definition map_upd (map : Z) (f : page_map -> page_map) : P () :=
  m ← map_get map; modify (upd_maps (<[map := f m]>)).

Definition set_dirs (d : gmap (Z * Z) Z) (m : page_map) := mk_page_map (pml4 m) (pml4_phys m) (pdp m)
  (pdp_phys m) d (page_dirs_phys m) (page_tables m) (regions m).
Definition set_tables (t : gmap (Z * Z) Z) (m : page_map) := mk_page_map (pml4 m) (pml4_phys m) (pdp m)
  (pdp_phys m) (page_dirs m) (page_dirs_phys m) t (regions m).
Definition set_pdp (d : gmap Z Z) (m : page_map) := mk_page_map (pml4 m) (pml4_phys m) d
  (pdp_phys m) (page_dirs m) (page_dirs_phys m) (page_tables m) (regions m).
Definition set_dirs_phys (d : gmap Z Z) (m : page_map) := mk_page_map (pml4 m) (pml4_phys m) (pdp m)
  (pdp_phys m) (page_dirs m) d (page_tables m) (regions m).

(** An access at the kernel address [t] of a page table goes to the frame the kernel's
    window has there; tables that share a frame are the same memory. *)
Definition frame_at (t : Z) : P Z :=
  guard (truth t) NullDeref;;
  o ← gets (fun s => kframe lay s t);
  unwrap o OutOfBounds.
Definition pte_get (t i : Z) : P Z :=
  f ← frame_at t;
  o ← gets (fun s => tabs s !! f);
  tab ← unwrap o OutOfBounds;
  mret (ent tab i).
Definition pte_set (t i v : Z) : P () :=
  f ← frame_at t;
  o ← gets (fun s => tabs s !! f);
  tab ← unwrap o OutOfBounds;
  modify (upd_tabs (<[f := <[i := v]> tab]>)).

Definition page_mk_table (pdpidx pdidx map : Z) : P () :=
  '(table, table_phys) ← kernel_page;
  f ← frame_at table;
  modify (upd_tabs (<[f := ∅]>));;
  m ← map_get map;
  map_upd map (set_dirs (<[(pdpidx, pdidx) :=
    set_page_frame (ent (page_dirs m) (pdpidx, pdidx)) table_phys]> (page_dirs m)));;
  m' ← map_get map;
  map_upd map (set_dirs (<[(pdpidx, pdidx) :=
    ent (page_dirs m') (pdpidx, pdidx) .| (PRESENT .| WRITABLE .| USER)]> (page_dirs m')));;
  m'' ← map_get map;
  map_upd map (set_tables (<[(pdpidx, pdidx) := table]> (page_tables m''))).

Definition page_getphys (virt map : Z) : P Z :=
  if PML4_IDX virt =? 0 then
    m ← map_get map;
    let ij := (PDP_IDX virt, PD_IDX virt) in
    if negb (truth (ent (page_dirs m) ij .& PRESENT)) || negb (truth (ent (page_tables m) ij))
    then mret 0
    else
      e ← pte_get (ent (page_tables m) ij) (PT_IDX virt);
      mret (e .& PAGE_FRAME)
  else mret 0.

Definition page_map_page (virt phys map : Z) : P () :=
  let ij := (PDP_IDX virt, PD_IDX virt) in
  m ← map_get map;
  (if negb (truth (ent (page_dirs m) ij .& PRESENT)) then page_mk_table ij.1 ij.2 map else mret ());;
  m' ← map_get map;
  let t := ent (page_tables m') ij in
  e ← pte_get t (PT_IDX virt);
  pte_set t (PT_IDX virt) (set_page_frame e phys);;
  e' ← pte_get t (PT_IDX virt);
  pte_set t (PT_IDX virt) (e' .| (PRESENT .| WRITABLE .| USER)).

Definition page_map_memory (virt phys cnt map : Z) : P () :=
  for_each 0 cnt (fun i => page_map_page (u64 (virt + i * 4096)) (u64 (phys + i * 4096)) map).

(** The start [page_mk_map] and [page_clone_map] share: the top level with the
    kernel's entries, the second level, and the three index pages. *)
Definition new_top : P (gmap Z Z * Z * Z) :=
  '(pml4v, pml4p) ← kernel_page;
  kp ← gets kpml4;
  '(pdpv, pdpp) ← kernel_page;
  let pml4' := <[0 := set_page_frame (ent kp 0) pdpp .| (PRESENT .| WRITABLE .| USER)]> kp in
  kernel_page;;
  kernel_page;;
  kernel_page;;
  mret (pml4', pml4p, pdpp).

(** [kmalloc(sizeof(page_map_t))] and the record. *)
Definition new_map (m : Z -> page_map) : P Z :=
  map ← with_lm (with_heap (ka_malloc 64));
  l ← with_lm list_create;
  modify (upd_maps (<[map := m l]>));;
  mret map.

Definition dir_flags : Z := PRESENT .| WRITABLE .| USER.

Definition page_mk_map : P Z :=
  '(pml4', pml4p, pdpp) ← new_top;
  r ← for_acc (B := ()) 0 DIRS_PER_PDP (fun i (a : gmap Z Z * gmap Z Z) =>
    '(dv, dp) ← kernel_page;
    let pdp' := <[i := set_page_frame (ent a.1 i) dp .| dir_flags]> a.1 in
    with_lm (with_heap (ka_malloc 4096));;
    mret (inl (pdp', <[i := dp]> a.2))) (∅, ∅);
  match r with
  | inl (pdp', dphys) => new_map (mk_page_map pml4' pml4p pdp' pdpp ∅ dphys ∅)
  | inr _ => throw NoReturn
  end.

(** Directory [i] of the clone. *)
Definition clone_dir (map i : Z) : P () :=
  '(dv, dp) ← kernel_page;
  map_upd map (fun m => set_dirs_phys (<[i := dp]> (page_dirs_phys m)) m);;
  with_lm (with_heap (ka_malloc 4096));;
  map_upd map (fun m => set_pdp (<[i := set_page_frame (ent (pdp m) i) dp .| dir_flags]> (pdp m)) m).

Definition page_clone_map (src : Z) : P Z :=
  '(pml4', pml4p, pdpp) ← new_top;
  map ← new_map (mk_page_map pml4' pml4p ∅ pdpp ∅ ∅ ∅);
  for_each 0 DIRS_PER_PDP (fun i =>
    clone_dir map i;;
    for_each 0 TABLES_PER_DIR (fun j =>
      sm ← map_get src;
      let srcpage := ent (page_tables sm) (i, j) in
      if truth srcpage then
        page_mk_table i j map;;
        m ← map_get map;
        f ← frame_at srcpage;
        o ← gets (fun s => tabs s !! f);
        tab ← unwrap o OutOfBounds;
        f' ← frame_at (ent (page_tables m) (i, j));
        modify (upd_tabs (<[f' := tab]>))
      else
        map_upd map (fun m => set_dirs (<[(i, j) := 0]> (page_dirs m)) m);;
        map_upd map (fun m => set_tables (<[(i, j) := 0]> (page_tables m)) m)));;
  mret map.

(** ** Regions of an address space *)

Definition reg_get (r : Z) : P mregion :=
  o ← gets (fun s => mregions s !! r); unwrap o OutOfBounds.

Definition new_region (base end_ : Z) : P Z :=
  r ← with_lm (with_heap (ka_malloc 16));
  modify (upd_mregions (<[r := mk_mregion base end_]>));;
  mret r.

(** [list_foreach] over the regions of a map, with the index [i] and further
    locals [a]; the body sees the region and returns [inr] to leave. *)
Definition regions_foreach {A B} (l : Z) (body : Z -> mregion -> A -> P (A + B)) (a : A) : P (A + B) :=
  h ← with_lm (lrd head l);
  bound ← gets (fun s => N.of_nat (S (size (nodes (lm s)))));
  while_ bound (fun (x : Z * Z * A) =>
    let '(node, i, a) := x in
    if node =? 0 then mret (inr (inl a)) else
    v ← with_lm (nrd nval node);
    r ← reg_get v;
    o ← body i r a;
    match o with
    | inr b => mret (inr (inr b))
    | inl a' => n ← with_lm (nrd nnext node); mret (inl (n, u32 (i + 1), a'))
    end) (h, 0, a).

(** The value returned from the [void] function is not used. *)
Definition space_alloc_region_at (base_ size map : Z) : P () :=
  newreg ← new_region base_ (u64 (base_ + size));
  m ← map_get map;
  r ← regions_foreach (regions m) (fun i r (_ : ()) =>
    if u64 (base_ + size) <=? base r then
      with_lm (list_insert (regions m) newreg i);; mret (inr ())
    else mret (inl ())) ();
  match r with
  | inr _ => mret ()
  | inl _ => with_lm (list_push_back (regions m) newreg);; mret ()
  end.

(** The three ways a candidate is pushed behind a region it meets. *)
Definition space_advance (size : Z) (r : mregion) (be : Z * Z) : Z * Z :=
  let '(b, e) := be in
  let skip := (end_ r, u64 (end_ r + size)) in
  let '(b, e) := if (base r <=? b) && (b <? end_ r) then skip else (b, e) in
  let '(b, e) := if (base r <? e) && (e <=? end_ r) then skip else (b, e) in
  if (b <? base r) && (end_ r <? e) then skip else (b, e).

Definition space_alloc_region (size map : Z) : P Z :=
  m ← map_get map;
  r ← regions_foreach (regions m) (fun i r (be : Z * Z) =>
    if be.2 <=? base r then
      newreg ← new_region be.1 be.2;
      with_lm (list_insert (regions m) newreg i);;
      mret (inr be.1)
    else mret (inl (space_advance size r be))) (4096, u64 (4096 + size));
  match r with
  | inr b => mret b
  | inl be =>
      if be.2 <? KERNEL_VIRTUAL_ADDR then
        newreg ← new_region be.1 be.2;
        with_lm (list_push_back (regions m) newreg);;
        mret be.1
      else mret 0
  end.
End ops.

(** src/mem/kheap.c: [kheap_init] maps ten thousand pages for the heap and makes
    the first block. *)
Definition KHEAP_PAGES : Z := 10000.

Definition upd_heap (f : kheap -> kheap) (s : pstate kheap) : pstate kheap :=
  upd_lm (mk_lmem (f (lheap (lm s))) (nodes (lm s)) (lists (lm s))) s.

Definition kheap_init (lay : layout) : M (pstate kheap) () :=
  addr ← page_kernel_alloc4k lay KHEAP_PAGES;
  for_each 0 KHEAP_PAGES (fun i =>
    p ← with_phys pmm_request;
    page_kernel_map_memory (u64 (addr + u32 (i * 4096))) p 1);;
  let heap_len := KHEAP_PAGES * 4096 in
  modify (upd_heap (fun h =>
    mk_kheap addr (u64 (addr + heap_len)) addr (kheap_lock h)
      (<[addr := mk_block 0 true 0 0]> (blocks h)) (hmem h))).

(** ** Frames and flags *)

(** [set_page_frame] replaces the frame bits and keeps the others. *)
Lemma set_page_frame_bits page addr i : 0 <= i ->
  Z.testbit (set_page_frame page addr) i =
  if (12 <=? i) && (i <? 52) then Z.testbit addr i else Z.testbit page i.
Proof.
  intros Hi. unfold set_page_frame. rewrite Z.lor_spec, !Z.land_spec, Z.lnot_spec by lia.
  assert (Z.testbit PAGE_FRAME i = (12 <=? i) && (i <? 52)) as ->.
  { replace PAGE_FRAME with (Z.shiftl (Z.ones 40) 12) by reflexivity.
    rewrite Z.shiftl_spec by lia. destruct (Z.leb_spec 12 i); simpl.
    - rewrite Z.testbit_ones_nonneg by lia. destruct (Z.ltb_spec i 52), (Z.ltb_spec (i - 12) 40); done || lia.
    - by rewrite Z.testbit_neg_r by lia. }
  destruct ((12 <=? i) && (i <? 52)); simpl; by rewrite ?andb_true_r, ?andb_false_r, ?orb_false_r.
Qed.

Lemma frame_of_addr addr : 0 <= addr < 2 ^ 52 -> addr `mod` 4096 = 0 -> addr .& PAGE_FRAME = addr.
Proof.
  intros Ha Hm. apply Z.bits_inj'. intros i Hi. rewrite Z.land_spec.
  replace PAGE_FRAME with (Z.shiftl (Z.ones 40) 12) by reflexivity. rewrite Z.shiftl_spec by lia.
  destruct (Z.lt_ge_cases i 12) as [Hl|Hl].
  - rewrite (Z.testbit_neg_r (Z.ones 40)), andb_false_r by lia.
    rewrite <- (Z.mod_pow2_bits_low addr 12 i) by lia. change (2 ^ 12) with 4096. by rewrite Hm, Z.bits_0.
  - destruct (Z.lt_ge_cases i 52) as [Hh|Hh].
    + rewrite Z.testbit_ones_nonneg by lia. rewrite (proj2 (Z.ltb_lt (i - 12) 40)) by lia. apply andb_true_r.
    + by rewrite (bounded_testbit_high addr 52) by lia.
Qed.

Lemma frame_bits_of_entry e addr f : 0 <= f < 2 ^ 12 -> (set_page_frame e addr .| f) .& PAGE_FRAME = addr .& PAGE_FRAME.
Proof.
  intros Hf. apply Z.bits_inj'. intros i Hi. rewrite !Z.land_spec, Z.lor_spec, set_page_frame_bits by lia.
  replace PAGE_FRAME with (Z.shiftl (Z.ones 40) 12) by reflexivity. rewrite Z.shiftl_spec by lia.
  destruct (Z.leb_spec 12 i); simpl.
  - rewrite (bounded_testbit_high f 12), orb_false_r by lia. rewrite Z.testbit_ones_nonneg by lia.
    destruct (Z.ltb_spec i 52), (Z.ltb_spec (i - 12) 40); simpl; rewrite ?andb_false_r; done || lia.
  - by rewrite (Z.testbit_neg_r (Z.ones 40)), !andb_false_r by lia.
Qed.

(** The frame of an entry that was just given one. *)
Lemma frame_of_entry e addr f :
  0 <= addr < 2 ^ 52 -> addr `mod` 4096 = 0 -> 0 <= f < 2 ^ 12 ->
  (set_page_frame e addr .| f) .& PAGE_FRAME = addr.
Proof.
  intros Ha Hm Hf. rewrite frame_bits_of_entry by done. by apply frame_of_addr.
Qed.

Lemma present_bit e : truth (e .& PRESENT) = Z.testbit e 0.
Proof. apply (truth_land_pow2 e 0). lia. Qed.

Lemma testbit_lor_3 e : Z.testbit (e .| (PRESENT .| WRITABLE)) 0 = true.
Proof. rewrite Z.lor_spec. by rewrite orb_true_r. Qed.
Lemma testbit_lor_7 e : Z.testbit (e .| (PRESENT .| WRITABLE .| USER)) 0 = true.
Proof. rewrite Z.lor_spec. by rewrite orb_true_r. Qed.

Lemma idx_range v k : 0 <= Z.shiftr v k .& 0x1ff < 512.
Proof.
  change 0x1ff with (Z.ones 9). rewrite Z.land_ones by lia. apply Z.mod_pos_bound. lia.
Qed.

(** ** The kernel's page window *)

(** Page [q] of the window (counted through all tables), whether it is taken,
    and its virtual address. *)
Definition taken {H} (s : pstate H) (q : Z) : bool := Z.testbit (ent (kheap_tables s) q) 0.
Definition entered {H} (s : pstate H) (i : Z) : bool := Z.testbit (ent (kheapdir s) i) 0.
Definition WINDOW : Z := 512 * 512.
Definition window_addr (q : Z) : Z := 0xffffffffc0000000 + q * 4096.

(** Tables that are not entered in the directory hold no page, the directory has no 2 MiB
    pages, and its present entries lead to the tables the kernel writes. *)
Record window_ok {H} (lay : layout) (s : pstate H) : Prop := {
  wo_free : forall q, 0 <= q < WINDOW -> entered s (q `div` 512) = false -> taken s q = false;
  wo_4k : forall i, Z.testbit (ent (kheapdir s) i) 7 = false;
  wo_frame : forall i, entered s i = true -> ent (kheapdir s) i .& PAGE_FRAME = table_frame lay i;
}.

Lemma kheap_addr_window pdoff offset :
  0 <= pdoff * 512 + offset < WINDOW -> kheap_addr pdoff offset = window_addr (pdoff * 512 + offset).
Proof.
  intros Hq. unfold kheap_addr, window_addr, WINDOW in *.
  unfold PDP_SIZE, KHEAP_PML4_IDX, KHEAP_PDP_IDX, PAGE_SIZE_1G, PAGE_SIZE_2M in *.
  rewrite uN_small by lia.
  change 0xffff000000000000 with (0xffff * 2 ^ 48).
  rewrite lor_high by lia. lia.
Qed.

(** The address of a page indexes that page. *)
Lemma window_addr_idx q : 0 <= q < WINDOW ->
  PD_IDX (window_addr q) = q `div` 512 /\ PT_IDX (window_addr q) = q `mod` 512.
Proof.
  intros Hq. unfold PD_IDX, PT_IDX, window_addr, WINDOW in *. change 0x1ff with (Z.ones 9).
  rewrite !Z.land_ones, !Z.shiftr_div_pow2 by lia. split; dlia.
Qed.
Lemma window_addr_top q : 0 <= q < WINDOW ->
  PML4_IDX (window_addr q) = KHEAP_PML4_IDX /\ PDP_IDX (window_addr q) = KHEAP_PDP_IDX.
Proof.
  intros Hq. unfold PML4_IDX, PDP_IDX, KHEAP_PML4_IDX, KHEAP_PDP_IDX, window_addr, WINDOW in *. rewrite !Z.shiftr_div_pow2 by lia.
  assert ((0xffffffffc0000000 + q * 4096) `div` 2 ^ 39 = 33554431) as -> by (symmetry; apply Z.div_unique with (r := 0x7fc0000000 + q * 4096); lia).
  assert ((0xffffffffc0000000 + q * 4096) `div` 2 ^ 30 = 17179869183) as -> by (symmetry; apply Z.div_unique with (r := q * 4096); lia).
  done.
Qed.

Lemma kframe_window {H} lay (s : pstate H) q : window_ok lay s -> 0 <= q < WINDOW ->
  kframe lay s (window_addr q) =
  if entered s (q `div` 512) && taken s q then Some (ent (kheap_tables s) q .& PAGE_FRAME) else None.
Proof.
  intros Hok Hq. unfold kframe. destruct (window_addr_idx q Hq) as [-> ->], (window_addr_top q Hq) as [-> ->].
  rewrite !Z.eqb_refl. replace (q `div` 512 * 512 + q `mod` 512) with q by dlia. cbn [andb].
  change (Z.testbit (ent (kheapdir s) (q `div` 512)) 0) with (entered s (q `div` 512)).
  destruct (entered s (q `div` 512)) eqn:He; [|done]. by rewrite (wo_frame _ _ Hok _ He), Z.eqb_refl.
Qed.
Lemma kframe_taken {H} lay (s : pstate H) q f :
  window_ok lay s -> 0 <= q < WINDOW -> kframe lay s (window_addr q) = Some f -> taken s q = true.
Proof. intros Hok Hq. rewrite kframe_window by done. destruct (taken s q); [done|]. by rewrite andb_false_r. Qed.

Lemma ent_insert {K} `{Countable K} (m : gmap K Z) k v j :
  ent (<[k := v]> m) j = if decide (k = j) then v else ent m j.
Proof. unfold ent. rewrite lookup_insert. by case_decide. Qed.

Lemma ent_empty {K} `{Countable K} (k : K) : ent ∅ k = 0.
Proof. unfold ent. by rewrite lookup_empty. Qed.

Lemma in512_true i : 0 <= i < 512 -> in512 i = true.
Proof. intros. unfold in512. rewrite (proj2 (Z.leb_le 0 i)), (proj2 (Z.ltb_lt i 512)) by lia. done. Qed.

Section window.
Context {H : Type} (lay : layout).
Implicit Types s : pstate H.

Lemma wp_dir_get i Q s : 0 <= i < 512 -> Q (ent (kheapdir s) i) s -> wp (dir_get i) Q s.
Proof. intros Hi HQ. apply wp_bind, wp_guard; [by apply in512_true|]. by apply wp_gets. Qed.
Lemma wp_dir_set i v (Q : () -> pstate H -> Prop) s :
  0 <= i < 512 -> Q () (upd_dir (<[i := v]>) s) -> wp (dir_set i v) Q s.
Proof. intros Hi HQ. apply wp_bind, wp_guard; [by apply in512_true|]. by apply wp_modify. Qed.
Lemma wp_tab_get i j Q s :
  0 <= i < 512 -> 0 <= j < 512 -> Q (ent (kheap_tables s) (i * 512 + j)) s -> wp (tab_get i j) Q s.
Proof. intros. apply wp_bind, wp_guard; [by rewrite !in512_true|]. by apply wp_gets. Qed.
Lemma wp_tab_set i j v (Q : () -> pstate H -> Prop) s :
  0 <= i < 512 -> 0 <= j < 512 -> Q () (upd_tables (<[i * 512 + j := v]>) s) -> wp (tab_set i j v) Q s.
Proof. intros. apply wp_bind, wp_guard; [by rewrite !in512_true|]. by apply wp_modify. Qed.

Lemma enter_table_wp i (Q : () -> pstate H -> Prop) s :
  0 <= i < 512 ->
  (forall v, Z.testbit v 0 = true -> Z.testbit v 7 = Z.testbit (ent (kheapdir s) i) 7 ->
     v .& PAGE_FRAME = table_frame lay i -> Q () (upd_dir (<[i := v]>) s)) ->
  wp (enter_table lay i) Q s.
Proof.
  intros Hi HQ. unfold enter_table. wp_focus. apply wp_dir_get; [done|]. wp_focus. apply wp_dir_set; [done|].
  wp_focus. apply wp_dir_get; [done|]. apply wp_dir_set; [done|]. cbn [kheapdir upd_dir].
  rewrite ent_insert, decide_True by done.
  set (a := u64 _). assert (Z.testbit (set_page_frame (ent (kheapdir s) i) a .| (PRESENT .| WRITABLE)) 7 =
    Z.testbit (ent (kheapdir s) i) 7) as H7.
  { rewrite Z.lor_spec, set_page_frame_bits by lia. apply orb_false_r. }
  specialize (HQ _ (testbit_lor_3 _) H7 (frame_bits_of_entry _ a (PRESENT .| WRITABLE) ltac:(done))). unfold upd_dir in *. cbn [kheapdir] in *. by rewrite insert_insert_eq.
Qed.

(** The window of [s'] is that of [s] with the pages from [q] on taken; nothing
    else differs. *)
Record marked s (q n : Z) s' : Prop := {
  mk_rest : exists d t, s' = upd_dir (fun _ => d) (upd_tables (fun _ => t) s);
  mk_taken : forall x, 0 <= x < WINDOW ->
    taken s' x = bool_decide (q <= x < q + n) || taken s x;
  mk_entered : forall i, entered s i = true -> entered s' i = true;
  mk_in : forall x, q <= x < q + n -> entered s' (x `div` 512) = true;
  mk_only : forall i, entered s' i = true -> entered s i = true \/ exists x, q <= x <= q + n /\ i = x `div` 512;
  mk_4k : forall i, Z.testbit (ent (kheapdir s') i) 7 = Z.testbit (ent (kheapdir s) i) 7;
  mk_frame : forall i, entered s' i = true ->
    ent (kheapdir s') i = ent (kheapdir s) i \/ ent (kheapdir s') i .& PAGE_FRAME = table_frame lay i;
  mk_value : forall x, q <= x < q + n -> ent (kheap_tables s') x = 3;
  mk_kept : forall x, 0 <= x < WINDOW -> x < q \/ q + n <= x -> ent (kheap_tables s') x = ent (kheap_tables s) x;
}.

Lemma marked_window_ok s q n s' : window_ok lay s -> marked s q n s' -> window_ok lay s'.
Proof.
  intros Hok Hm. split; [|intros i; rewrite (mk_4k _ _ _ _ Hm); apply (wo_4k _ _ Hok)|].
  2: { intros i Hi. destruct (mk_frame _ _ _ _ Hm i Hi) as [Heq|?]; [|done].
       unfold entered in Hi. rewrite Heq in *. by apply (wo_frame _ _ Hok). }
  intros x Hx He. rewrite (mk_taken _ _ _ _ Hm) by done.
  case_bool_decide as Hr.
  - rewrite (mk_in _ _ _ _ Hm) in He by done. done.
  - apply (wo_free _ _ Hok); [done|]. destruct (entered s (x `div` 512)) eqn:E; [|done].
    apply (mk_entered _ _ _ _ Hm) in E. congruence.
Qed.

Lemma marked_0 s q : marked s q 0 s.
Proof.
  split; try done; try lia.
  - exists (kheapdir s), (kheap_tables s). by destruct s.
  - intros x Hx. case_bool_decide; [lia|done].
  - by left.
Qed.

(** One more page. *)
Lemma marked_snoc s q n s1 i j v :
  marked s q n s1 -> 0 <= n -> q + n = i * 512 + j -> 0 <= i < 512 -> 0 <= j < 512 -> v = 3 ->
  entered s1 i = true ->
  marked s q (n + 1) (upd_tables (<[i * 512 + j := v]>) s1).
Proof.
  intros [(d & t & ->) Ht He Hi Ho H4 Hfr Hv Hk] Hn Hq Hi5 Hj5 -> Hent. split.
  - by exists d, (<[i * 512 + j := 3]> t).
  - intros x Hx. unfold taken. simpl. rewrite ent_insert. case_decide as Hxq.
    + subst x. rewrite bool_decide_true by lia. done.
    + specialize (Ht x Hx). unfold taken in Ht. simpl in Ht. rewrite Ht.
      f_equal. apply bool_decide_ext. lia.
  - done.
  - intros x Hx. destruct (decide (x = q + n)) as [->|Hne]; [|apply Hi; lia].
    rewrite Hq. replace ((i * 512 + j) `div` 512) with i by dlia. done.
  - intros i' Hi'. destruct (Ho i' Hi') as [?|(x & Hx & ->)]; [by left|]. right. exists x. split; [lia|done].
  - done.
  - done.
  - intros x Hx. simpl. rewrite ent_insert. case_decide; [done|]. apply Hv. lia.
  - intros x Hx Hout. simpl. rewrite ent_insert. case_decide; [lia|]. apply Hk; [done|lia].
Qed.

Lemma marked_enter s q n s1 i v :
  marked s q n s1 -> 0 <= n -> i = (q + n) `div` 512 -> Z.testbit v 0 = true -> Z.testbit v 7 = Z.testbit (ent (kheapdir s1) i) 7 ->
  v .& PAGE_FRAME = table_frame lay i -> marked s q n (upd_dir (<[i := v]>) s1).
Proof.
  intros [(d & t & ->) Ht He Hi Ho H4 Hfr Hv Hk] Hn Hiq Hb Hb7 Hvf.
  assert (forall j, entered (upd_dir (fun _ => d) (upd_tables (fun _ => t) s)) j = true ->
    entered (upd_dir (<[i := v]>) (upd_dir (fun _ => d) (upd_tables (fun _ => t) s))) j = true) as Hmono.
  { intros j. unfold entered. simpl. rewrite ent_insert. by case_decide. }
  split; try done; [by exists (<[i := v]> d), t|..]; eauto.
  - intros j. unfold entered at 1. simpl. rewrite ent_insert. case_decide as Hij; [|apply Ho].
    intros _. right. exists (q + n). split; [lia|congruence].
  - intros j. simpl in *. rewrite ent_insert. case_decide as Hij; [subst j; by rewrite Hb7|apply H4].
  - intros j. unfold entered. simpl. rewrite ent_insert. case_decide as Hij; [subst j; by right|apply Hfr].
Qed.

(** Entering a table before the marking. *)
Lemma marked_entered_first s q n i v s' :
  0 <= n -> i = q `div` 512 -> Z.testbit v 0 = true -> Z.testbit v 7 = Z.testbit (ent (kheapdir s) i) 7 ->
  v .& PAGE_FRAME = table_frame lay i -> marked (upd_dir (<[i := v]>) s) q n s' -> marked s q n s'.
Proof.
  intros Hn Hiq Hv Hv7 Hvf [(d & t & ->) Ht He Hin Ho H4 Hfr Hval Hk]. split; try done.
  - by exists d, t.
  - intros j Hj. apply He. unfold entered. simpl. rewrite ent_insert. by case_decide.
  - intros j Hj. destruct (Ho j Hj) as [Hs|?]; [|by right]. unfold entered in Hs. simpl in Hs.
    rewrite ent_insert in Hs. case_decide as Hij; [|by left]. right. exists q. split; [lia|congruence].
  - intros j. rewrite H4. simpl. rewrite ent_insert. case_decide as Hij; [by subst j|done].
  - intros j Hj. destruct (Hfr j Hj) as [Heq|?]; [|by right]. cbn [kheapdir upd_dir] in Heq. rewrite ent_insert in Heq.
    case_decide as Hij; [|by left]. subst j. right. cbn [kheapdir upd_dir]. by rewrite Heq.
Qed.

Lemma mark_pages_wp enter s n pdoff offset (Q : () -> pstate H -> Prop) :
  let q := pdoff * 512 + offset in
  0 <= n -> 0 <= pdoff -> 0 <= offset <= 512 -> q + n <= WINDOW ->
  (enter = true -> entered s pdoff = true) ->
  (enter = false -> forall x, q <= x < q + n -> entered s (x `div` 512) = true) ->
  (forall s', marked s q n s' -> Q () s') ->
  wp (mark_pages lay enter n pdoff offset) Q s.
Proof.
  intros q Hn Hpd Hoff Hw He1 He2 HQ. unfold mark_pages, WINDOW in *. wp_focus.
  apply (wp_for_acc (fun k (po : Z * Z) s' => marked s q k s' /\ po.1 * 512 + po.2 = q + k /\
    0 <= po.1 /\ 0 <= po.2 <= 512 /\ (enter = true -> entered s' po.1 = true))).
  - done.
  - split_and!; simpl; try done; [apply marked_0|lia..].
  - intros k [pd off] s1 Hk (Hm & Hpo & Hpd1 & Hoff1 & Hent). simpl in *. wp_focus.
    assert (forall pd' off' s2, marked s q k s2 -> pd' * 512 + off' = q + k -> 0 <= pd' -> 0 <= off' < 512 ->
      entered s2 pd' = true ->
      wp (tab_set pd' off' (PRESENT .| WRITABLE);; mret (inl (B := ()) (pd', off' + 1)))
         (fun r s' => match r with
            | inl po => marked s q (k + 1) s' /\ po.1 * 512 + po.2 = q + (k + 1) /\
                0 <= po.1 /\ 0 <= po.2 <= 512 /\ (enter = true -> entered s' po.1 = true)
            | inr _ => wp (mret ()) Q s'
            end) s2) as Hset.
    { intros pd' off' s2 Hm2 Hq2 Hpd2 Hoff2 He. wp_focus. apply wp_tab_set; [lia|lia|]. apply wp_ret.
      simpl. split_and!; [|lia..|done]. apply marked_snoc; try done; lia. }
    destruct (Z.leb_spec 512 off) as [Hge|Hlt].
    + assert (off = 512) as -> by lia. destruct enter.
      * wp_focus. apply enter_table_wp; [lia|]. intros v Hv Hv7 Hvf. apply wp_ret.
        apply Hset; simpl; try lia; [apply marked_enter; try done; [lia|dlia]|].
        unfold entered. simpl. rewrite ent_insert, decide_True by done. done.
      * apply wp_bind, wp_ret, wp_ret. apply Hset; simpl; try done; try lia.
        apply (mk_entered _ _ _ _ Hm). replace (pd + 1) with ((q + k) `div` 512) by dlia. apply He2; [done|lia].
    + apply wp_ret. apply Hset; simpl; try done; try lia. destruct enter; [by apply Hent|].
      apply (mk_entered _ _ _ _ Hm). replace pd with ((q + k) `div` 512) by dlia. apply He2; [done|lia].
  - intros [pd off] s1 (Hm & _). apply wp_ret, HQ. done.
Qed.

(** What a successful allocation did. *)
Definition alloc4k_post s (cnt addr : Z) s' : Prop :=
  exists q, addr = window_addr q /\ 0 <= q /\ q + cnt <= WINDOW /\
    (forall x, q <= x < q + cnt -> taken s x = false) /\ marked s q cnt s'.

(** The run of free pages the first search has at page [q]. *)
Definition run_inv s (cnt q : Z) (a : search) : Prop :=
  let '(counter, pdoff, offset) := a in
  let r := pdoff * 512 + offset in
  0 <= pdoff /\ 0 <= offset <= 512 /\ 0 <= r <= q /\ counter = q - r /\ counter < cnt /\
  (forall x, r <= x < q -> taken s x = false /\ entered s (x `div` 512) = true) /\
  (cnt = 1 -> window_ok lay s -> forall x, 0 <= x < q -> entered s (x `div` 512) = true -> taken s x = true).

Lemma alloc4k_page_wp s cnt i j a (Q : search + Z -> pstate H -> Prop) :
  1 <= cnt <= WINDOW -> 0 <= i < 512 -> 0 <= j < 512 -> entered s i = true ->
  run_inv s cnt (i * 512 + j) a ->
  (forall a', run_inv s cnt (i * 512 + j + 1) a' -> Q (inl a') s) ->
  (forall addr s', alloc4k_post s cnt addr s' -> Q (inr addr) s') ->
  wp (alloc4k_page lay cnt i j a) Q s.
Proof.
  intros Hcnt Hi Hj Hent Hrun Hnext Hdone. destruct a as [[counter pdoff] offset].
  destruct Hrun as (Hpd & Hoff & Hr & Hc & Hlt & Hall & Hone). unfold alloc4k_page, WINDOW in *.
  wp_focus. apply wp_tab_get; [done|done|]. rewrite present_bit. fold (taken s (i * 512 + j)).
  destruct (taken s (i * 512 + j)) eqn:Ht.
  - apply wp_ret, Hnext. unfold run_inv. split_and!; try lia. intros H1 Hok x Hx He.
    destruct (decide (x = i * 512 + j)) as [->|]; [done|]. apply Hone; [done|done|lia|done].
  - rewrite (uN_small 32) by lia.
    assert (forall x, pdoff * 512 + offset <= x < i * 512 + j + 1 ->
      taken s x = false /\ entered s (x `div` 512) = true) as Hall'.
    { intros x Hx. destruct (decide (x = i * 512 + j)) as [->|]; [|apply Hall; lia].
      split; [done|]. by replace ((i * 512 + j) `div` 512) with i by dlia. }
    destruct (Z.leb_spec cnt (counter + 1)) as [Hge|Hlt'].
    + assert (counter + 1 = cnt) as -> by lia. wp_focus.
      apply mark_pages_wp; unfold WINDOW; try lia; [intros _ x Hx; apply Hall'; lia|].
      intros s' Hm. apply wp_ret, Hdone. exists (pdoff * 512 + offset).
      rewrite kheap_addr_window by (unfold WINDOW; lia). unfold WINDOW. split_and!; try done; try lia.
      intros x Hx. apply Hall'. lia.
    + apply wp_ret, Hnext. unfold run_inv. split_and!; try lia. done.
Qed.

Lemma alloc4k_pass1_wp s cnt (Q : search + Z -> pstate H -> Prop) :
  1 <= cnt <= WINDOW ->
  ((cnt = 1 -> window_ok lay s -> forall x, 0 <= x < WINDOW -> entered s (x `div` 512) = true -> taken s x = true) ->
   forall a, Q (inl a) s) ->
  (forall addr s', alloc4k_post s cnt addr s' -> Q (inr addr) s') ->
  wp (alloc4k_pass1 lay cnt) Q s.
Proof.
  intros Hcnt Hnone Hdone. unfold alloc4k_pass1.
  apply (wp_for_acc (fun i a s' => s' = s /\ run_inv s cnt (i * 512) a)).
  - done.
  - split; [done|]. unfold run_inv. split_and!; try lia.
  - intros i a ? Hi (-> & Hrun). unfold TABLES_PER_DIR in Hi. wp_focus. apply wp_dir_get; [done|].
    rewrite present_bit. fold (entered s i). destruct (entered s i) eqn:He; simpl.
    2: { apply wp_ret. split; [done|]. destruct a as [[??]?]. destruct Hrun as (_ & _ & _ & _ & _ & _ & Hone).
         unfold run_inv. split_and!; try lia. intros H1 Hok x Hx Hex. destruct (decide (x < i * 512)); [apply Hone; [done|done|lia|done]|].
         replace (x `div` 512) with i in Hex by dlia. congruence. }
    destruct (truth _) eqn:H2M.
    { apply wp_ret. split; [done|]. unfold run_inv. split_and!; try lia. intros _ Hok.
      change PD_2M with (2 ^ 7) in H2M. rewrite truth_land_pow2, (wo_4k _ _ Hok) in H2M by lia. done. }
    apply (wp_for_acc (fun j a s' => s' = s /\ run_inv s cnt (i * 512 + j) a)).
    + done.
    + by rewrite Z.add_0_r.
    + intros j a' ? Hj (-> & Hrun'). unfold PAGES_PER_TABLE in Hj.
      apply alloc4k_page_wp; try done. intros a'' Hr. split; [done|]. by rewrite Z.add_assoc.
    + intros a' ? (-> & Hrun'). unfold PAGES_PER_TABLE in Hrun'. split; [done|].
      by replace ((i + 1) * 512) with (i * 512 + 512) by lia.
  - intros [[counter pdoff] offset] ? (-> & _ & _ & _ & _ & _ & _ & Hone). apply Hnone. exact Hone.
Qed.

(** Enough consecutive tables that are not in use. *)
Definition unentered_run s (cnt t k : Z) : Prop :=
  0 <= t /\ 0 <= k /\ cnt <= 512 * k /\ forall i, t <= i < t + k -> entered s i = false.

(** The second search at table [i]: the tables from [pdoff] on are unused, and
    no earlier run was long enough. *)
Definition run2_inv s (cnt i : Z) (a : search) : Prop :=
  let '(counter, pdoff, offset) := a in
  offset = 0 /\ 0 <= pdoff <= i /\ counter = (i - pdoff) * 512 /\ counter < cnt /\
  (forall x, pdoff <= x < i -> entered s x = false) /\
  (pdoff = 0 \/ entered s (pdoff - 1) = true) /\
  (forall t k, unentered_run s cnt t k -> i < t + k).

Lemma alloc4k_pass2_wp s cnt (Q : search + Z -> pstate H -> Prop) :
  1 <= cnt <= WINDOW -> window_ok lay s ->
  ((forall t k, unentered_run s cnt t k -> 512 < t + k) -> forall a, Q (inl a) s) ->
  (forall addr s', alloc4k_post s cnt addr s' -> Q (inr addr) s') ->
  wp (alloc4k_pass2 lay cnt) Q s.
Proof.
  intros Hcnt Hok Hnone Hdone. unfold alloc4k_pass2.
  apply (wp_for_acc (fun i a s' => s' = s /\ run2_inv s cnt i a)).
  - done.
  - split; [done|]. unfold run2_inv. split_and!; try lia. intros t k (Ht & Hk & Hc & _). lia.
  - intros i [[counter pdoff] offset] ? Hi (-> & -> & Hpd & Hc & Hlt & Hun & Hprev & Hruns).
    unfold TABLES_PER_DIR, WINDOW in *. wp_focus. apply wp_dir_get; [done|]. rewrite present_bit.
    fold (entered s i). destruct (entered s i) eqn:He.
    { apply wp_ret. split; [done|]. unfold run2_inv. split_and!; try lia.
      - right. by replace (i + 1 - 1) with i by lia.
      - intros t k Hrun. specialize (Hruns t k Hrun). destruct Hrun as (Ht & Hk & Hck & Hrun).
        destruct (decide (i < t)); [lia|]. rewrite Hrun in He by lia. done. }
    assert (forall x, pdoff <= x < i + 1 -> entered s x = false) as Hun'.
    { intros x Hx. destruct (decide (x = i)) as [->|]; [done|]. apply Hun. lia. }
    rewrite (uN_small 32) by lia. destruct (Z.leb_spec cnt (counter + 512)) as [Hge|Hlt'].
    + wp_focus. apply enter_table_wp; [lia|]. intros v Hv Hv7 Hvf. wp_focus.
      apply mark_pages_wp; unfold WINDOW; try lia.
      { intros _. unfold entered. simpl. rewrite ent_insert, decide_True by done. done. }
      intros s' Hm. apply wp_ret, Hdone. exists (pdoff * 512). rewrite Z.add_0_r in Hm.
      rewrite kheap_addr_window, Z.add_0_r by (unfold WINDOW; lia).
      split_and!; try done; try (unfold WINDOW; lia).
      * intros x Hx. apply (wo_free _ _ Hok); [unfold WINDOW; lia|]. apply Hun'. dlia.
      * eapply (marked_entered_first _ _ _ pdoff); [lia|dlia|exact Hv|exact Hv7|exact Hvf|exact Hm].
    + apply wp_ret. split; [done|]. unfold run2_inv. split_and!; try done; try lia.
      intros t k Hrun. specialize (Hruns t k Hrun).
      destruct (decide (t + k = i + 1)) as [Heq|]; [|lia]. destruct Hrun as (Ht & Hk & Hc' & Hrun).
      destruct Hprev as [->|Hprev]; [lia|]. destruct (decide (t <= pdoff - 1)); [|lia].
      rewrite Hrun in Hprev by lia. done.
  - intros [[counter pdoff] offset] ? (-> & Hinv). unfold TABLES_PER_DIR in Hinv. apply Hnone. apply Hinv.
Qed.

(** There are enough unused tables in a row for [cnt] pages. *)
Definition window_room s (cnt : Z) : Prop :=
  exists t k, unentered_run s cnt t k /\ t + k <= 512.

Lemma page_kernel_alloc4k_wp s cnt (Q : Z -> pstate H -> Prop) :
  1 <= cnt <= WINDOW -> window_ok lay s -> window_room s cnt ->
  (forall addr s', alloc4k_post s cnt addr s' -> Q addr s') ->
  wp (page_kernel_alloc4k lay cnt) Q s.
Proof.
  intros Hcnt Hok (t & k & Hrun & Htk) HQ. unfold page_kernel_alloc4k. wp_focus.
  apply alloc4k_pass1_wp; [done| |intros; apply wp_ret; auto]. intros _ _. wp_focus.
  apply alloc4k_pass2_wp; [done|done| |intros; apply wp_ret; auto].
  intros Hnone. specialize (Hnone t k Hrun). lia.
Qed.

(** For one page it is enough that a page is free. *)
Definition has_page s : Prop := exists q, 0 <= q < WINDOW /\ taken s q = false.

Lemma window_room_has_page s : window_ok lay s -> window_room s 1 -> has_page s.
Proof.
  intros Hok (t & k & (Ht & Hk & Hc & Hun) & Htk). exists (512 * t).
  assert (0 <= 512 * t < WINDOW) as Hr by (unfold WINDOW; lia). split; [done|]. apply (wo_free _ _ Hok _ Hr), Hun. dlia.
Qed.

Lemma page_kernel_alloc1_wp s (Q : Z -> pstate H -> Prop) :
  window_ok lay s -> has_page s -> (forall addr s', alloc4k_post s 1 addr s' -> Q addr s') ->
  wp (page_kernel_alloc4k lay 1) Q s.
Proof.
  intros Hok (q & Hq & Hfree) HQ. unfold page_kernel_alloc4k. wp_focus.
  apply alloc4k_pass1_wp; [unfold WINDOW; lia| |intros; apply wp_ret; auto]. intros Hall _. wp_focus.
  apply alloc4k_pass2_wp; [unfold WINDOW; lia|done| |intros; apply wp_ret; auto]. intros Hnone.
  destruct (entered s (q `div` 512)) eqn:He; [by rewrite Hall in Hfree|].
  specialize (Hnone (q `div` 512) 1). unfold WINDOW in Hq. exfalso. cut (512 < q `div` 512 + 1); [dlia|]. apply Hnone.
  split_and!; [dlia|lia|lia|]. intros i Hi. by replace i with (q `div` 512) by lia.
Qed.

(** Only the table entries of the window change. *)
Definition set_tab (t : gmap Z Z) s : pstate H := upd_tables (fun _ => t) s.

(** One entry of the window, set by [page_kernel_map_memory]. *)
Lemma map_entry_wp s q p (Q : () -> pstate H -> Prop) :
  0 <= q < WINDOW ->
  (forall e, Z.testbit e 0 = true -> (0 <= p < 2 ^ 52 -> p `mod` 4096 = 0 -> e .& PAGE_FRAME = p) ->
     Q () (upd_tables (<[q := e]>) s)) ->
  wp (e ← tab_get (PD_IDX (window_addr q)) (PT_IDX (window_addr q));
    tab_set (PD_IDX (window_addr q)) (PT_IDX (window_addr q)) (set_page_frame e (u64 p));;
    e' ← tab_get (PD_IDX (window_addr q)) (PT_IDX (window_addr q));
    tab_set (PD_IDX (window_addr q)) (PT_IDX (window_addr q)) (e' .| (PRESENT .| WRITABLE))) Q s.
Proof.
  intros Hq HQ. destruct (window_addr_idx q Hq) as [-> ->].
  assert (0 <= q `div` 512 < 512) by (unfold WINDOW in *; dlia).
  assert (0 <= q `mod` 512 < 512) by dlia.
  assert (q `div` 512 * 512 + q `mod` 512 = q) as Heq by dlia.
  wp_focus. apply wp_tab_get; [done|done|]. wp_focus. apply wp_tab_set; [done|done|].
  wp_focus. apply wp_tab_get; [done|done|]. apply wp_tab_set; [done|done|].
  unfold upd_tables. simpl. rewrite Heq, ent_insert, decide_True, insert_insert_eq by done.
  apply HQ; [apply testbit_lor_3|]. intros Hp Hm. rewrite (uN_small 64 p) by lia.
  apply frame_of_entry; [done|done|]. split; [done|reflexivity].
Qed.

(** The entries of [t] from [q] on are present and lead to the frames from [p] on; the
    others are those of [s]. *)
Definition mapped_run s (q n p : Z) (t : gmap Z Z) : Prop :=
  forall x, if decide (q <= x < q + n)
            then Z.testbit (ent t x) 0 = true /\
                 (0 <= p -> p + n * 4096 <= 2 ^ 52 -> p `mod` 4096 = 0 -> ent t x .& PAGE_FRAME = p + (x - q) * 4096)
            else ent t x = ent (kheap_tables s) x.

Lemma page_kernel_map_run_wp s q n p (Q : () -> pstate H -> Prop) :
  0 <= q -> 0 <= n -> q + n <= WINDOW ->
  (forall t, mapped_run s q n p t -> Q () (upd_tables (fun _ => t) s)) ->
  wp (page_kernel_map_memory (window_addr q) p n) Q s.
Proof.
  intros Hq Hn Hqn HQ. unfold page_kernel_map_memory.
  apply (wp_for_each (fun i s' => exists t, s' = upd_tables (fun _ => t) s /\ forall x, if decide (q <= x < q + i)
    then Z.testbit (ent t x) 0 = true /\
         (0 <= p -> p + n * 4096 <= 2 ^ 52 -> p `mod` 4096 = 0 -> ent t x .& PAGE_FRAME = p + (x - q) * 4096)
    else ent t x = ent (kheap_tables s) x)); [done| | |].
  - exists (kheap_tables s). split; [by destruct s|]. intros x. by rewrite decide_False by lia.
  - intros i s' Hi (t & -> & Ht).
    assert (u64 (window_addr q + i * 4096) = window_addr (q + i)) as ->.
    { rewrite uN_small; unfold window_addr, WINDOW in *; lia. }
    apply map_entry_wp; [lia|]. intros e He Hf. exists (<[q + i := e]> t). split; [done|]. intros x.
    rewrite ent_insert. specialize (Ht x). destruct (decide (q + i = x)) as [<-|Hne].
    + rewrite decide_True by lia. split; [done|]. intros Hp Hlim Hal.
      rewrite Hf; [lia|lia|]. replace (p + i * 4096) with (p + i * 4096) by lia. rewrite Z.mod_add by lia. done.
    + repeat case_decide; (done || lia).
  - intros s' (t & -> & Ht). by apply HQ.
Qed.

Lemma page_kernel_map1_wp s q p (Q : () -> pstate H -> Prop) :
  0 <= q < WINDOW ->
  (forall e, Z.testbit e 0 = true -> (0 <= p < 2 ^ 52 -> p `mod` 4096 = 0 -> e .& PAGE_FRAME = p) ->
     Q () (upd_tables (<[q := e]>) s)) ->
  wp (page_kernel_map_memory (window_addr q) p 1) Q s.
Proof.
  intros Hq HQ. unfold page_kernel_map_memory.
  apply (wp_for_each (fun i s' => if i =? 0 then s' = s else Q () s')); [lia|done| |].
  - intros i ? Hi. assert (i = 0) as -> by lia. intros ->.
    assert (u64 (window_addr q) = window_addr q) as Hw.
    { apply uN_small. unfold window_addr, WINDOW in *. lia. }
    rewrite Z.mul_0_l, !Z.add_0_r, Hw. by apply map_entry_wp.
  - intros s' HQ'. exact HQ'.
Qed.
End window.

(** ** Page maps *)

Section maps.
Context {H : Type} (lay : layout).
Implicit Types s : pstate H.

(** The frame a directory entry of a page map names, the entry the processor finds for an
    address in the table there, and the frame in it. *)
Definition dir_frame (m : page_map) (ij : Z * Z) : Z := ent (page_dirs m) ij .& PAGE_FRAME.
Definition pte_at s (m : page_map) (virt : Z) : Z :=
  let ij := (PDP_IDX virt, PD_IDX virt) in
  if (PML4_IDX virt =? 0) && Z.testbit (ent (page_dirs m) ij) 0
  then ent (default ∅ (tabs s !! dir_frame m ij)) (PT_IDX virt)
  else 0.
Definition phys_of s (m : page_map) (virt : Z) : Z := pte_at s m virt .& PAGE_FRAME.

(** A frame of the bitmap that has been handed out. *)
Definition owned s (f : Z) : Prop :=
  f `mod` 4096 = 0 /\ 0 <= f `div` 4096 < bitmapsize (phys s) * 8 /\ used (phys s) (f `div` 4096) = true.
Definition has_frame s : Prop := exists k, 0 <= k < bitmapsize (phys s) * 8 /\ used (phys s) k = false.

(** The frames of page tables have been handed out; for every present directory entry the
    kernel's pointer leads, through its window, to the frame in the entry, which is a table;
    and no two entries name the same frame. *)
Record maps_ok s : Prop := {
  mo_tabs : forall f, is_Some (tabs s !! f) -> owned s f;
  mo_dirs : forall a m ij, maps s !! a = Some m -> Z.testbit (ent (page_dirs m) ij) 0 = true ->
    exists q, 0 <= q < WINDOW /\ ent (page_tables m) ij = window_addr q /\
      kframe lay s (window_addr q) = Some (dir_frame m ij) /\ is_Some (tabs s !! dir_frame m ij);
  mo_inj : forall a m ij a' m' ij', maps s !! a = Some m -> maps s !! a' = Some m' ->
    Z.testbit (ent (page_dirs m) ij) 0 = true -> Z.testbit (ent (page_dirs m') ij') 0 = true ->
    dir_frame m ij = dir_frame m' ij' -> a = a' /\ ij = ij';
}.

Definition pg_ok s : Prop := window_ok lay s /\ pmm_wf (phys s) /\ maps_ok s.

(** The kernel address of a page table in use. *)
Definition table_page s (v : Z) : Prop :=
  exists a m ij, maps s !! a = Some m /\ Z.testbit (ent (page_dirs m) ij) 0 = true /\ ent (page_tables m) ij = v.

Lemma window_addr_nz q : 0 <= q < WINDOW -> window_addr q <> 0.
Proof. unfold window_addr, WINDOW. lia. Qed.
Lemma window_addr_inj q q' : window_addr q = window_addr q' -> q = q'.
Proof. unfold window_addr. lia. Qed.

Lemma table_page_taken s q : window_ok lay s -> maps_ok s -> 0 <= q < WINDOW -> table_page s (window_addr q) -> taken s q = true.
Proof.
  intros Hw Hok Hq (a & m & ij & Ha & Hb & Ht). destruct (mo_dirs _ Hok _ _ _ Ha Hb) as (q' & Hq' & Ht' & Hf & _).
  assert (q' = q) as -> by (apply window_addr_inj; congruence). by eapply kframe_taken.
Qed.

(** Every mapping of the kernel's window stays. *)
Definition kframes_kept s s' : Prop := forall q f, 0 <= q < WINDOW -> kframe lay s (window_addr q) = Some f -> kframe lay s' (window_addr q) = Some f.

(** Steps that keep maps and tables, the frames handed out and the window's mappings of the
    tables keep the invariant. *)
Lemma maps_ok_keep s s' :
  maps_ok s -> maps s' = maps s -> tabs s' = tabs s -> (forall f, owned s f -> owned s' f) ->
  (forall q f, 0 <= q < WINDOW -> table_page s (window_addr q) -> kframe lay s (window_addr q) = Some f -> kframe lay s' (window_addr q) = Some f) ->
  maps_ok s'.
Proof.
  intros [H1 H2 H3] Em Et Ho Hk. split.
  - intros f. rewrite Et. auto.
  - intros a m ij. rewrite Em, Et. intros Ha Hb. destruct (H2 a m ij Ha Hb) as (q & Hq & Ht & Hf & Hs).
    exists q. split_and!; try done; try lia. apply Hk; [done| |done]. by exists a, m, ij.
  - intros a m ij a' m' ij'. rewrite Em. apply H3.
Qed.

(** One more page of the window, [q], and one more frame, [p], are in use, and the page is
    mapped to the frame. *)
Record uses_page s (q p : Z) s' : Prop := {
  up_range : 0 <= q < WINDOW;
  up_free : taken s q = false;
  up_taken : forall x, 0 <= x < WINDOW -> taken s' x = bool_decide (x = q) || taken s x;
  up_frame : kframe lay s' (window_addr q) = Some p;
  up_kept : kframes_kept s s';
  up_phys : request_post (phys s) p (phys s');
  up_new : owned s' p /\ ~ owned s p;
  up_owned : forall f, owned s f -> owned s' f;
  up_lm : lm s' = lm s;
  up_regs : mregions s' = mregions s;
}.

(** A frame handed out by the bitmap. *)
Lemma request_frame s s' p :
  request_post (phys s) p (phys s') -> has_frame s ->
  (forall f, owned s f -> owned s' f) /\ owned s' p /\ ~ owned s p /\ bitmapsize (phys s') = bitmapsize (phys s) /\
  forall x, 0 <= x < bitmapsize (phys s) * 8 -> x <> p `div` 4096 -> used (phys s') x = used (phys s) x.
Proof.
  intros [(k & Hk & -> & Hf & _ & Hsz & Hu & _)|(_ & _ & Hall)] (x & Hx & Hux).
  2: { rewrite Hall in Hux by done. done. }
  unfold owned, PAGE_SIZE_4K. rewrite Z.mod_mul, Z.div_mul, Hsz by lia. split_and!; try done.
  - intros f (Hf4 & Hr & Hus). split_and!; try done; try lia. rewrite Hu by lia. by destruct (_ =? _).
  - lia.
  - lia.
  - rewrite Hu by lia. by rewrite Z.eqb_refl.
  - intros (_ & _ & Hus). congruence.
  - intros y Hy Hne. rewrite Hu by lia. by rewrite (proj2 (Z.eqb_neq _ _) Hne).
Qed.

Lemma owned_range s f : pmm_wf (phys s) -> owned s f -> 0 <= f < 2 ^ 52 /\ f `mod` 4096 = 0.
Proof. intros [Hsz _] (Hm & Hr & _). unfold BUFFER_SIZE in Hsz. split; [|done]. dlia. Qed.

(** A fresh kernel page mapped to a fresh frame: no page table lives there. *)
Lemma kernel_page_wp s (Q : Z * Z -> pstate H -> Prop) :
  pg_ok s -> has_page s -> has_frame s ->
  (forall q p s', uses_page s q p s' -> ~ table_page s (window_addr q) ->
     pg_ok s' -> maps s' = maps s -> tabs s' = tabs s -> Q (window_addr q, p) s') ->
  wp (kernel_page lay) Q s.
Proof.
  intros (Hw & Hp & Hm) Hroom Hfr HQ. unfold kernel_page. wp_focus.
  apply page_kernel_alloc1_wp; [done|done|].
  intros addr s1 (q & -> & Hq & Hqw & Hfree & Hmk). wp_focus.
  pose proof (marked_window_ok _ _ _ _ _ Hw Hmk) as Hw1.
  destruct (mk_rest _ _ _ _ _ Hmk) as (d & t & Hs1). assert (phys s1 = phys s) as Hph by (by subst s1).
  unfold wp at 1, with_phys. rewrite Hph.
  destruct (wp_Ok _ _ _ (pmm_request_wp (fun p ph => request_post (phys s) p ph) _ Hp ltac:(done)))
    as (p & ph & -> & Hreq).
  assert (pmm_wf ph) as Hwf.
  { destruct Hreq as [(k & _ & _ & _ & _ & _ & _ & Hwf)|(_ & -> & _)]; auto. }
  destruct (request_frame s (upd_phys ph s1) p Hreq Hfr) as (Hmono & Hop & Hnop & _).
  destruct (owned_range (upd_phys ph s1) p Hwf Hop) as [Hp52 Hp4].
  wp_focus. apply page_kernel_map1_wp; [lia|]. intros e He Hef. apply wp_ret.
  set (s' := upd_tables (<[q := e]>) (upd_phys ph s1)).
  assert (forall x, 0 <= x < WINDOW -> taken s' x = bool_decide (x = q) || taken s x) as Htaken.
  { intros x Hx. unfold taken at 1, s'. cbn [kheap_tables upd_tables]. rewrite ent_insert. case_decide as Hxq.
    - subst x. by rewrite bool_decide_true by done.
    - rewrite bool_decide_false by congruence. change (taken s1 x = taken s x).
      rewrite (mk_taken _ _ _ _ _ Hmk) by done. by rewrite bool_decide_false by lia. }
  assert (window_ok lay s') as Hw'.
  { split; [|exact (wo_4k _ _ Hw1)|exact (wo_frame _ _ Hw1)]. intros x Hx Hent. change (entered s1 (x `div` 512) = false) in Hent.
    rewrite Htaken by done. case_bool_decide as Hxq.
    - subst x. rewrite (mk_in _ _ _ _ _ Hmk) in Hent by lia. done.
    - pose proof (wo_free _ _ Hw1 x Hx Hent) as Hf. rewrite (mk_taken _ _ _ _ _ Hmk) in Hf by done.
      by apply orb_false_iff in Hf as [_ ->]. }
  assert (kframes_kept s s') as Hkept.
  { intros x f Hx Hf. pose proof (kframe_taken _ _ _ _ Hw Hx Hf) as Hxt.
    assert (x <> q) as Hxq by (intros ->; rewrite Hfree in Hxt by lia; done).
    rewrite kframe_window in Hf |- * by done. rewrite Htaken, Hxt, orb_true_r by done. rewrite Hxt in Hf.
    destruct (entered s (x `div` 512)) eqn:Hxe; [|done]. change (entered s' (x `div` 512)) with (entered s1 (x `div` 512)).
    rewrite (mk_entered _ _ _ _ _ Hmk _ Hxe). unfold s'. cbn [kheap_tables upd_tables upd_phys andb]. rewrite ent_insert, decide_False by congruence.
    by rewrite (mk_kept _ _ _ _ _ Hmk) by lia. }
  assert (kframe lay s' (window_addr q) = Some p) as Hqf.
  { rewrite kframe_window by (done || lia). rewrite Htaken, bool_decide_true by lia. change (entered s' (q `div` 512)) with (entered s1 (q `div` 512)).
    rewrite (mk_in _ _ _ _ _ Hmk) by lia. unfold s'. cbn [kheap_tables upd_tables upd_phys andb orb]. by rewrite ent_insert, decide_True, Hef. }
  assert (maps s' = maps s /\ tabs s' = tabs s /\ lm s' = lm s /\ mregions s' = mregions s) as (Em & Et & El & Er) by (by subst s1).
  apply HQ; try done.
  - split; try done; [lia|apply Hfree; lia].
  - intros Htp. apply table_page_taken in Htp; [|done|done|lia]. rewrite Hfree in Htp by lia. done.
  - split_and!; [done|done|]. apply (maps_ok_keep s); try done. intros x f Hx _. by apply Hkept.
Qed.

Lemma wp_map_get a m Q s : maps s !! a = Some m -> Q m s -> wp (map_get a) Q s.
Proof. intros Ha HQ. apply wp_bind, wp_gets. by eapply wp_unwrap. Qed.
Lemma wp_map_upd a m f (Q : () -> pstate H -> Prop) s :
  maps s !! a = Some m -> Q () (upd_maps (<[a := f m]>) s) -> wp (map_upd a f) Q s.
Proof. intros Ha HQ. by eapply wp_bind, wp_map_get. Qed.

(** A directory entry after [page_mk_table]. *)
Definition table_entered (m : page_map) (ij : Z * Z) (t e : Z) : page_map :=
  set_tables (<[ij := t]> (page_tables m)) (set_dirs (<[ij := e]> (page_dirs m)) m).

Lemma maps_ok_enter s s' a m ij q p e :
  maps_ok s -> maps s !! a = Some m -> Z.testbit (ent (page_dirs m) ij) 0 = false ->
  uses_page s q p s' -> e .& PAGE_FRAME = p ->
  tabs s' = <[p := ∅]> (tabs s) ->
  maps s' = <[a := table_entered m ij (window_addr q) e]> (maps s) -> maps_ok s'.
Proof.
  intros [H1 H2 H3] Ha Hnp Hup Hep Htabs Hmaps. destruct (up_new _ _ _ _ Hup) as [Hop Hnop].
  (* a directory entry of the new maps is an old one, or the one just made *)
  assert (forall b mb kl, maps s' !! b = Some mb -> Z.testbit (ent (page_dirs mb) kl) 0 = true ->
    (b = a /\ kl = ij /\ ent (page_tables mb) kl = window_addr q /\ dir_frame mb kl = p) \/
    exists mb', maps s !! b = Some mb' /\ Z.testbit (ent (page_dirs mb') kl) 0 = true /\
       ent (page_tables mb') kl = ent (page_tables mb) kl /\ dir_frame mb' kl = dir_frame mb kl) as Hcase.
  { intros b mb kl. rewrite Hmaps, lookup_insert. case_decide as Hab; [|intros Hb Hbit; right; by exists mb].
    subst b. intros [= <-]. unfold dir_frame, table_entered, set_tables, set_dirs. cbn [page_dirs page_tables].
    rewrite !ent_insert. case_decide as Hij; [by left|]. intros Hb. right. by exists m. }
  split.
  - intros f. rewrite Htabs, lookup_insert. case_decide as Ht; [by subst f|]. intros Hf. by apply (up_owned _ _ _ _ Hup), H1.
  - intros b mb kl Hb Hbit. rewrite Htabs. destruct (Hcase _ _ _ Hb Hbit) as [(-> & -> & Heq & Hf)|(mb' & Hb' & Hbit' & <- & <-)].
    + exists q. rewrite Hf, lookup_insert_eq. split_and!; try done; try apply (up_range _ _ _ _ Hup). apply (up_frame _ _ _ _ Hup).
    + destruct (H2 _ _ _ Hb' Hbit') as (q' & Hq' & Heq & Hkf & Hs). exists q'. split_and!; try done; try lia.
      * by apply (up_kept _ _ _ _ Hup).
      * rewrite lookup_insert. by case_decide.
  - intros b mb kl b' mb' kl' Hb Hb' Hbit Hbit' Heq.
    assert (forall b mb kl, maps s !! b = Some mb -> Z.testbit (ent (page_dirs mb) kl) 0 = true -> dir_frame mb kl <> p) as Hne.
    { intros c mc kc Hc Hcb Hcq. destruct (H2 _ _ _ Hc Hcb) as (? & _ & _ & _ & Hs). rewrite Hcq in Hs. by apply Hnop, H1. }
    destruct (Hcase _ _ _ Hb Hbit) as [(-> & -> & _ & Hf1)|(m1 & Hm1 & Hbit1 & _ & Hf1)],
             (Hcase _ _ _ Hb' Hbit') as [(-> & -> & _ & Hf2)|(m2 & Hm2 & Hbit2 & _ & Hf2)]; try done.
    + destruct (Hne _ _ _ Hm2 Hbit2). congruence.
    + destruct (Hne _ _ _ Hm1 Hbit1). congruence.
    + eapply (H3 _ m1 _ _ m2); try done. congruence.
Qed.

Lemma wp_frame_at t f Q s : t <> 0 -> kframe lay s t = Some f -> Q f s -> wp (frame_at lay t) Q s.
Proof. intros Ht Hf HQ. apply wp_bind, wp_guard; [by apply truth_true|]. apply wp_bind, wp_gets. by eapply wp_unwrap. Qed.
Lemma wp_pte_get t f tab i Q s :
  t <> 0 -> kframe lay s t = Some f -> tabs s !! f = Some tab -> Q (ent tab i) s -> wp (pte_get lay t i) Q s.
Proof.
  intros Ht Hf Htab HQ. eapply wp_bind, wp_frame_at; [done|done|]. apply wp_bind, wp_gets.
  apply wp_bind. eapply wp_unwrap; [done|]. by apply wp_ret.
Qed.
Lemma wp_pte_set t f tab i v (Q : () -> pstate H -> Prop) s :
  t <> 0 -> kframe lay s t = Some f -> tabs s !! f = Some tab ->
  Q () (upd_tabs (<[f := <[i := v]> tab]>) s) -> wp (pte_set lay t i v) Q s.
Proof.
  intros Ht Hf Htab HQ. eapply wp_bind, wp_frame_at; [done|done|]. apply wp_bind, wp_gets.
  apply wp_bind. eapply wp_unwrap; [done|]. by apply wp_modify.
Qed.

Lemma page_mk_table_wp s i j a m (Q : () -> pstate H -> Prop) :
  pg_ok s -> has_page s -> has_frame s -> maps s !! a = Some m -> Z.testbit (ent (page_dirs m) (i, j)) 0 = false ->
  (forall q p e s', uses_page s q p s' -> pg_ok s' -> Z.testbit e 0 = true -> e .& PAGE_FRAME = p ->
     tabs s' = <[p := ∅]> (tabs s) ->
     maps s' = <[a := table_entered m (i, j) (window_addr q) e]> (maps s) -> Q () s') ->
  wp (page_mk_table lay i j a) Q s.
Proof.
  intros Hok Hroom Hfr Ha Hnp HQ. unfold page_mk_table. wp_focus. apply kernel_page_wp; [done|done|done|].
  intros q p s1 Hup _ (Hw1 & Hp1 & Hm1) Hmaps Htabs. pose proof Ha as Ha0. rewrite <- Hmaps in Ha.
  destruct (owned_range s1 p Hp1 (proj1 (up_new _ _ _ _ Hup))) as [Hp52 Hp4].
  wp_focus. eapply wp_frame_at; [apply window_addr_nz, (up_range _ _ _ _ Hup)|apply (up_frame _ _ _ _ Hup)|]. wp_step. wp_step.
  wp_focus. eapply wp_map_get; [exact Ha|]. wp_focus. eapply wp_map_upd; [exact Ha|].
  wp_focus. eapply wp_map_get; [by apply lookup_insert_eq|].
  wp_focus. eapply wp_map_upd; [by apply lookup_insert_eq|].
  wp_focus. eapply wp_map_get; [by apply lookup_insert_eq|].
  eapply wp_map_upd; [by apply lookup_insert_eq|].
  unfold upd_maps, upd_tabs. simpl. rewrite !insert_insert_eq, ent_insert, decide_True by done.
  set (e := set_page_frame _ _ .| _). set (s' := mk_pstate _ _ _ _ _ _ _ _ _ _ _ _ _).
  assert (e .& PAGE_FRAME = p) as Hep by (apply frame_of_entry; [done|done|split; [done|reflexivity]]).
  assert (uses_page s q p s') as Hup' by (by destruct Hup; split).
  assert (maps s' = <[a := table_entered m (i, j) (window_addr q) e]> (maps s)) as Em.
  { unfold s'. cbn [maps]. rewrite <- Hmaps. f_equal. }
  assert (tabs s' = <[p := ∅]> (tabs s)) as Et by (unfold s'; cbn [tabs]; by rewrite Htabs).
  eapply (HQ q p e); try done; [|apply testbit_lor_7].
  split_and!; [by destruct Hw1; split|exact Hp1|]. destruct Hok as (_ & _ & Hm). by eapply (maps_ok_enter s).
Qed.

(** The page an address belongs to, within the part of the address space a page
    map covers. *)
Definition page_idx (v : Z) : Z * Z * Z * Z := (PML4_IDX v, PDP_IDX v, PD_IDX v, PT_IDX v).

(** The upper levels of two maps are the same. *)
Definition same_top (m m' : page_map) : Prop :=
  pml4 m' = pml4 m /\ pml4_phys m' = pml4_phys m /\ pdp m' = pdp m /\ pdp_phys m' = pdp_phys m /\
  page_dirs_phys m' = page_dirs_phys m /\ regions m' = regions m.

(** The maps of [s] are those of [s'], with their upper levels, regions and entries, except
    for the pages [P] of the map [a]. *)
Definition same_translation s s' (a : Z) (P : Z -> Prop) : Prop :=
  (forall b, maps s !! b = None -> maps s' !! b = None) /\
  forall b mb, maps s !! b = Some mb -> exists mb', maps s' !! b = Some mb' /\ same_top mb mb' /\
    forall v, (b = a -> ~ P v) -> pte_at s' mb' v = pte_at s mb v.

Lemma mk_table_translation s s' a m ij q p e :
  maps_ok s -> maps s !! a = Some m -> Z.testbit (ent (page_dirs m) ij) 0 = false ->
  uses_page s q p s' -> e .& PAGE_FRAME = p -> tabs s' = <[p := ∅]> (tabs s) ->
  maps s' = <[a := table_entered m ij (window_addr q) e]> (maps s) ->
  same_translation s s' a (fun _ => False).
Proof.
  intros Hok Ha Hnp Hup Hep Htabs Hmaps. split.
  { intros b Hb. rewrite Hmaps, lookup_insert_ne; [done|congruence]. }
  intros b mb Hb.
  assert (forall v mb, maps s !! b = Some mb ->
    Z.testbit (ent (page_dirs mb) (PDP_IDX v, PD_IDX v)) 0 = true -> p <> dir_frame mb (PDP_IDX v, PD_IDX v)) as Hold.
  { intros v mb0 Hb0 Hbit Heq. destruct (mo_dirs _ Hok _ _ _ Hb0 Hbit) as (_ & _ & _ & _ & Hs). rewrite <- Heq in Hs.
    by apply (up_new _ _ _ _ Hup), (mo_tabs _ Hok). }
  rewrite Hmaps, lookup_insert. case_decide as Hab.
  - subst b. assert (mb = m) as -> by congruence. eexists. split; [done|]. split; [done|]. intros v _. unfold pte_at, dir_frame.
    unfold table_entered, set_tables, set_dirs. cbn [page_dirs page_tables]. rewrite !ent_insert, Htabs.
    case_decide as Hij.
    + rewrite Hep, lookup_insert_eq. cbn [default id]. rewrite <- Hij, Hnp, andb_false_r, ent_empty. by destruct (_ && _).
    + destruct (Z.testbit (ent (page_dirs m) (PDP_IDX v, PD_IDX v)) 0) eqn:Hbit; [|by rewrite !andb_false_r].
      rewrite lookup_insert_ne; [done|]. by apply (Hold v m).
  - exists mb. split; [done|]. split; [done|]. intros v _. unfold pte_at. rewrite Htabs.
    destruct (Z.testbit (ent (page_dirs mb) (PDP_IDX v, PD_IDX v)) 0) eqn:Hbit; [|by rewrite !andb_false_r].
    rewrite lookup_insert_ne; [done|]. by apply (Hold v mb).
Qed.

(** Changing one entry of one table. *)
Lemma pte_translation s a m virt tab e :
  maps_ok s -> maps s !! a = Some m ->
  let ij := (PDP_IDX virt, PD_IDX virt) in
  let f := dir_frame m ij in
  Z.testbit (ent (page_dirs m) ij) 0 = true -> tabs s !! f = Some tab -> PML4_IDX virt = 0 ->
  let s' := upd_tabs (<[f := <[PT_IDX virt := e]> tab]>) s in
  maps_ok s' /\ pte_at s' m virt = e /\
  same_translation s s' a (fun v => page_idx v = page_idx virt).
Proof.
  intros Hok Ha ij f Hbit Htab Hu s'. split_and!.
  - destruct Hok as [H1 H2 H3]. split; cbn [tabs maps upd_tabs s'].
    + intros t'. rewrite lookup_insert. case_decide as Htt; [|apply H1]. intros _. rewrite <- Htt. apply H1. by eexists.
    + intros b mb kl Hb Hbb. destruct (H2 _ _ _ Hb Hbb) as (q & Hq & Heq & Hkf & Hs). exists q. split_and!; try done; try lia.
      rewrite lookup_insert. by case_decide.
    + done.
  - unfold pte_at. fold ij. fold f. rewrite Hu, Hbit.
    cbn [andb Z.eqb tabs upd_tabs s']. rewrite lookup_insert_eq. cbn [default id]. by rewrite ent_insert, decide_True.
  - split; [done|]. intros b mb Hb. exists mb. split; [done|]. split; [done|]. intros v Hv. unfold pte_at.
    destruct (Z.eqb_spec (PML4_IDX v) 0) as [Hv0|]; [|done]. cbn [andb].
    set (ij' := (PDP_IDX v, PD_IDX v)). destruct (Z.testbit (ent (page_dirs mb) ij') 0) eqn:Hbit'; [|done].
    cbn [tabs upd_tabs s']. rewrite lookup_insert. case_decide as Htt; [|done].
    destruct (mo_inj _ Hok _ _ _ _ _ _ Ha Hb Hbit Hbit' Htt) as [<- Hij].
    assert (mb = m) as -> by congruence. rewrite <- Htt. rewrite Htab. cbn [default id].
    rewrite ent_insert. case_decide as Hpt; [|done].
    destruct (Hv eq_refl). unfold page_idx. unfold ij, ij' in Hij. injection Hij as -> ->. congruence.
Qed.

Lemma same_top_trans m1 m2 m3 : same_top m1 m2 -> same_top m2 m3 -> same_top m1 m3.
Proof. unfold same_top. intros (?&?&?&?&?&?) (?&?&?&?&?&?). split_and!; congruence. Qed.

Lemma same_translation_trans s1 s2 s3 a (P : Z -> Prop) :
  same_translation s1 s2 a (fun _ => False) -> same_translation s2 s3 a P -> same_translation s1 s3 a P.
Proof.
  intros [N12 H12] [N23 H23]. split; [auto|]. intros b mb Hb. destruct (H12 _ _ Hb) as (m2 & Hm2 & Hr2 & Ht2).
  destruct (H23 _ _ Hm2) as (m3 & Hm3 & Hr3 & Ht3). exists m3. split; [done|]. split; [by eapply same_top_trans|].
  intros v Hv. rewrite Ht3 by done. apply Ht2. tauto.
Qed.

(** What mapping a page takes: nothing, or a page and a frame for a new table.  The window's
    mappings stay, and its pages that are taken for other things stay free of tables. *)
Definition map_step s s' : Prop :=
  (kheap_tables s' = kheap_tables s /\ phys s' = phys s /\ lm s' = lm s /\ mregions s' = mregions s \/
   exists q p, uses_page s q p s') /\
  kframes_kept s s' /\
  forall x, 0 <= x < WINDOW -> taken s x = true -> ~ table_page s (window_addr x) -> ~ table_page s' (window_addr x).

(** An entry of a table in use, set as [page_map_memory] does. *)
Lemma set_entry_wp s virt p a m (Q : () -> pstate H -> Prop) :
  let ij := (PDP_IDX virt, PD_IDX virt) in
  pg_ok s -> maps s !! a = Some m -> Z.testbit (ent (page_dirs m) ij) 0 = true -> PML4_IDX virt = 0 ->
  0 <= p < 2 ^ 52 -> p `mod` 4096 = 0 ->
  (forall s', pg_ok s' -> maps s' = maps s -> Z.testbit (pte_at s' m virt) 0 = true -> phys_of s' m virt = p ->
     same_translation s s' a (fun v => page_idx v = page_idx virt) ->
     (exists t, s' = upd_tabs (fun _ => t) s) -> Q () s') ->
  wp (m' ← map_get a;
      let t := ent (page_tables m') ij in
      e ← pte_get lay t (PT_IDX virt);
      pte_set lay t (PT_IDX virt) (set_page_frame e p);;
      e' ← pte_get lay t (PT_IDX virt);
      pte_set lay t (PT_IDX virt) (e' .| (PRESENT .| WRITABLE .| USER))) Q s.
Proof.
  intros ij (Hw1 & Hp1 & Hm1) Ha1 Hbit Hu Hp Hpm HQ. wp_focus. eapply wp_map_get; [exact Ha1|]. cbv zeta.
  destruct (mo_dirs _ Hm1 _ _ _ Ha1 Hbit) as (q & Hq & -> & Hkf & [tab Htab]).
  pose proof (window_addr_nz q Hq) as Ht.
  wp_focus. eapply wp_pte_get; [exact Ht|exact Hkf|exact Htab|]. wp_focus. eapply wp_pte_set; [exact Ht|exact Hkf|exact Htab|].
  wp_focus. eapply wp_pte_get; [exact Ht|exact Hkf|by apply lookup_insert_eq|].
  eapply wp_pte_set; [exact Ht|exact Hkf|by apply lookup_insert_eq|].
  unfold upd_tabs. cbn [tabs]. rewrite !insert_insert_eq, ent_insert, decide_True by done.
  destruct (pte_translation s a m virt tab
    (set_page_frame (ent tab (PT_IDX virt)) p .| (PRESENT .| WRITABLE .| USER)) Hm1 Ha1 Hbit Htab Hu)
    as (Hok' & Hph & Htr').
  apply HQ; [split_and!; [by destruct Hw1; split|exact Hp1|exact Hok']|done| | |exact Htr'|by eexists].
  - etransitivity; [apply (f_equal (fun e => Z.testbit e 0)), Hph|apply testbit_lor_7].
  - etransitivity; [unfold phys_of; apply (f_equal (fun e => e .& PAGE_FRAME)), Hph|].
    apply frame_of_entry; [done|done|split; [done|reflexivity]].
Qed.

Lemma map_step_tabs s s1 t : map_step s s1 -> map_step s (upd_tabs (fun _ => t) s1).
Proof.
  intros (Hres & Hk & Htp). split_and!; [|exact Hk|exact Htp].
  destruct Hres as [Hres|(q & f & [])]; [by left|right; exists q, f; by split].
Qed.

Lemma map_step_table s s' a m ij q p e :
  uses_page s q p s' -> maps s !! a = Some m -> maps s' = <[a := table_entered m ij (window_addr q) e]> (maps s) ->
  map_step s s'.
Proof.
  intros Hup Ha Hmaps. split; [right; by exists q, p|]. split; [apply (up_kept _ _ _ _ Hup)|].
  intros x Hx Hxt Hn (b & mb & kl & Hb & Hbit & Heq). rewrite Hmaps, lookup_insert in Hb. case_decide as Hab.
  - subst b. injection Hb as <-. unfold table_entered, set_tables, set_dirs in Hbit, Heq. cbn [page_dirs page_tables] in Hbit, Heq.
    rewrite ent_insert in Hbit, Heq. case_decide as Hij.
    + apply window_addr_inj in Heq as ->. rewrite (up_free _ _ _ _ Hup) in Hxt. done.
    + apply Hn. by exists a, m, kl.
  - apply Hn. by exists b, mb, kl.
Qed.

Lemma page_map_page_wp s virt p a m (Q : () -> pstate H -> Prop) :
  pg_ok s -> has_page s -> has_frame s -> maps s !! a = Some m -> PML4_IDX virt = 0 ->
  0 <= p < 2 ^ 52 -> p `mod` 4096 = 0 ->
  (forall s' m', pg_ok s' -> maps s' !! a = Some m' ->
     Z.testbit (pte_at s' m' virt) 0 = true -> phys_of s' m' virt = p ->
     same_translation s s' a (fun v => page_idx v = page_idx virt) -> map_step s s' -> Q () s') ->
  wp (page_map_page lay virt p a) Q s.
Proof.
  intros Hok Hroom Hfr Ha Hu Hp Hpm HQ. unfold page_map_page.
  set (ij := (PDP_IDX virt, PD_IDX virt)). wp_focus. eapply wp_map_get; [exact Ha|]. wp_focus.
  assert (forall s1 m1, pg_ok s1 -> maps s1 !! a = Some m1 -> Z.testbit (ent (page_dirs m1) ij) 0 = true ->
    same_translation s s1 a (fun _ => False) -> map_step s s1 ->
    wp (m' ← map_get a;
        let t := ent (page_tables m') ij in
        e ← pte_get lay t (PT_IDX virt);
        pte_set lay t (PT_IDX virt) (set_page_frame e p);;
        e' ← pte_get lay t (PT_IDX virt);
        pte_set lay t (PT_IDX virt) (e' .| (PRESENT .| WRITABLE .| USER))) Q s1) as Hset.
  { intros s1 m1 Hok1 Ha1 Hbit Htr Hstep. apply set_entry_wp with (m := m1); try done.
    intros s2 Hok2 Em Hb2 Hph2 Htr2 (t & ->). apply (HQ _ m1); try done; [by eapply same_translation_trans|by apply map_step_tabs]. }
  rewrite present_bit. destruct (Z.testbit (ent (page_dirs m) ij) 0) eqn:Hbit; simpl negb; cbv iota.
  - apply wp_ret. apply (Hset s m); try done; [|split; [by left|split; [intros ? ?; done|auto]]].
    split; [done|]. intros b mb Hb. by exists mb.
  - apply page_mk_table_wp with (m := m); try done. intros q f e s1 Hup Hok1 He Hef Htabs Hmaps.
    apply (Hset s1 (table_entered m ij (window_addr q) e)); [done|by rewrite Hmaps, lookup_insert_eq| | |].
    + unfold table_entered, set_tables, set_dirs. cbn [page_dirs]. by rewrite ent_insert, decide_True.
    + destruct Hok as (_ & _ & Hm). by eapply mk_table_translation.
    + by eapply map_step_table.
Qed.

Lemma page_getphys_eq s virt a m :
  maps_ok s -> maps s !! a = Some m -> page_getphys lay virt a s = Ok (phys_of s m virt, s).
Proof.
  intros Hok Ha.
  assert (wp (page_getphys lay virt a) (fun r s' => r = phys_of s m virt /\ s' = s) s) as Hwp.
  { unfold page_getphys, phys_of, pte_at. destruct (PML4_IDX virt =? 0); [|by apply wp_ret]. cbn [andb].
    wp_focus. eapply wp_map_get; [exact Ha|]. cbv zeta. rewrite present_bit.
    destruct (Z.testbit (ent (page_dirs m) (PDP_IDX virt, PD_IDX virt)) 0) eqn:Hbit; cbn [andb negb orb];
      [|by apply wp_ret].
    destruct (mo_dirs _ Hok _ _ _ Ha Hbit) as (q & Hq & -> & Hkf & [tab Htab]). pose proof (window_addr_nz q Hq) as Ht.
    rewrite (proj2 (truth_true _) Ht). cbn [negb]. wp_focus. eapply wp_pte_get; [exact Ht|exact Hkf|exact Htab|].
    apply wp_ret. by rewrite Htab. }
  by destruct (wp_Ok _ _ _ Hwp) as (r & s' & Hr & -> & ->).
Qed.
End maps.

(** ** Regions *)

Section regions.
Context {H : Type} `{KAlloc H}.
Implicit Types s : pstate H.

Lemma wp_with_lm {A} (c : M (lmem H) A) (Q : A -> pstate H -> Prop) s :
  wp c (fun a l => Q a (upd_lm l s)) (lm s) -> wp (with_lm c) Q s.
Proof. unfold wp, with_lm. by destruct (c (lm s)) as [[a l]|]. Qed.

Lemma upd_lm_id s : upd_lm (lm s) s = s.
Proof. by destruct s. Qed.

(** The regions a list of pointers stands for. *)
Definition regions_at s (l : nseq) (rs : list mregion) : Prop :=
  Forall2 (fun x r => mregions s !! x.2 = Some r) l rs.

(** The walk over the regions, with a pure invariant on the locals. *)
Lemma regions_foreach_wp {A B} s lp l c rs (I : nat -> A -> Prop)
    (body : Z -> mregion -> A -> M (pstate H) (A + B)) (Q : A + B -> pstate H -> Prop) a :
  list_rep (lm s) lp l c -> regions_at s l rs -> Z.of_nat (length l) < 2 ^ 32 ->
  I 0%nat a ->
  (forall i r a, rs !! i = Some r -> I i a ->
     wp (body (Z.of_nat i) r a) (fun o s' => match o with
                                             | inl a' => s' = s /\ I (S i) a'
                                             | inr b => Q (inr b) s'
                                             end) s) ->
  (forall a, I (length l) a -> Q (inl a) s) ->
  wp (regions_foreach lp body a) Q s.
Proof.
  intros Hrep Hregs Hlen HI Hbody Hend. pose proof Hrep as [Hlp Hl Hseg Hnd Hnz].
  unfold regions_foreach. wp_focus. apply wp_with_lm. eapply wp_lrd; [exact Hlp|exact Hl|]. rewrite upd_lm_id.
  wp_step. wp_step. simpl head. pose proof (nseg_size _ _ _ _ Hseg Hnd) as Hsz.
  eapply (wp_while (fun k (x : Z * Z * A) s' => s' = s /\ exists l1 l2, l = l1 ++ l2 /\ k = length l2 /\
    x.1 = (hd_addr l2 0, Z.of_nat (length l1)) /\ I (length l1) x.2) (length l)).
  - split; [done|]. by exists [], l.
  - rewrite Nat2N.id. lia.
  - clear Hsz HI. intros k [[node i] a'] ? (-> & l1 & l2 & -> & -> & Hx & HI). simpl in Hx, HI.
    injection Hx as -> ->. destruct l2 as [|[n v] l2].
    { simpl hd_addr. rewrite Z.eqb_refl. apply wp_ret, Hend. by rewrite app_nil_r. }
    assert (n <> 0) as Hn by (rewrite fmap_app in Hnz; dl_not_in). simpl hd_addr.
    rewrite (proj2 (Z.eqb_neq n 0)) by done. pose proof Hseg as (_ & Hmn & _)%nseg_app. simpl in Hmn.
    wp_focus. apply wp_with_lm. eapply wp_nrd; [exact Hn|exact Hmn|]. rewrite upd_lm_id. simpl nval.
    apply Forall2_app_inv_l in Hregs as (rs1 & rs2 & Hr1 & Hr2 & ->).
    apply Forall2_cons_inv_l in Hr2 as (r & rs3 & Hr & _ & ->). simpl in Hr.
    apply wp_bind, wp_bind, wp_gets. eapply wp_unwrap; [exact Hr|]. wp_focus.
    apply Forall2_length in Hr1. eapply wp_mono; [apply Hbody; [|exact HI]|].
    { rewrite Hr1. by rewrite list_lookup_middle. }
    intros [a''|b] s' HQ; [|by apply wp_ret]. destruct HQ as [-> HI']. wp_focus.
    apply wp_with_lm. eapply wp_nrd; [exact Hn|exact Hmn|]. rewrite upd_lm_id. simpl nnext. apply wp_ret.
    rewrite length_app in Hlen. simpl in Hlen. exists (length l2). split; [simpl; lia|]. split; [done|].
    exists (l1 ++ [(n, v)]), l2. rewrite <- app_assoc, length_app. simpl. rewrite uN_small by lia.
    split_and!; try done; [f_equal; lia|]. by replace (length l1 + 1)%nat with (S (length l1)) by lia.
Qed.

(** Regions in address order. *)
Fixpoint ordered (lo : Z) (rs : list mregion) : Prop :=
  match rs with
  | [] => True
  | r :: rs' => lo <= base r <= end_ r /\ ordered (end_ r) rs'
  end.

Definition clear_of (b e : Z) (r : mregion) : Prop := end_ r <= b \/ e <= base r.

Lemma ordered_app lo rs1 rs2 :
  ordered lo (rs1 ++ rs2) <->
  ordered lo rs1 /\ ordered (default lo (end_ <$> last rs1)) rs2.
Proof.
  revert lo. induction rs1 as [|r rs1 IH]; intros lo; simpl; [tauto|].
  rewrite IH, last_cons. destruct (last rs1); simpl; tauto.
Qed.

Lemma ordered_above lo rs r : ordered lo rs -> r ∈ rs -> lo <= base r <= end_ r.
Proof.
  revert lo. induction rs as [|x rs IH]; intros lo; simpl; [by intros _ ?%elem_of_nil|].
  intros [Hx Ho] [->|Hr]%elem_of_cons; [done|]. apply (IH _ Ho) in Hr. lia.
Qed.

(** A candidate that meets a region ends up right behind it, or already was. *)
Lemma space_advance_spec size r b :
  0 <= size -> base r <= end_ r -> base r < b + size -> end_ r + size < 2 ^ 64 -> 0 <= end_ r ->
  exists b', space_advance size r (b, b + size) = (b', b' + size) /\ b <= b' /\ end_ r <= b' /\
    (b' = b \/ b' = end_ r).
Proof.
  intros Hs Hr Hlt Hov He. unfold space_advance. rewrite (uN_small 64) by lia.
  destruct ((base r <=? b) && (b <? end_ r)) eqn:C1.
  - apply andb_true_iff in C1 as [C1%Z.leb_le C2%Z.ltb_lt]. exists (end_ r).
    destruct ((base r <? end_ r + size) && (end_ r + size <=? end_ r)) eqn:C3;
      rewrite (proj2 (Z.ltb_ge (end_ r) (base r))) by lia; simpl; split_and!; done || lia.
  - destruct ((base r <? b + size) && (b + size <=? end_ r)) eqn:C2.
    + apply andb_true_iff in C2 as [C2%Z.ltb_lt C3%Z.leb_le]. exists (end_ r).
      rewrite (proj2 (Z.ltb_ge (end_ r) (base r))) by lia. simpl. split_and!; done || lia.
    + rewrite (proj2 (Z.ltb_lt (base r) (b + size))), andb_true_l in C2 by lia. apply Z.leb_gt in C2.
      destruct ((b <? base r) && (end_ r <? b + size)) eqn:C3.
      * apply andb_true_iff in C3 as [C3%Z.ltb_lt C4%Z.ltb_lt]. exists (end_ r). split_and!; done || lia.
      * exists b. apply andb_false_iff in C1 as [C1%Z.leb_gt|C1%Z.ltb_ge];
          apply andb_false_iff in C3 as [C3%Z.ltb_ge|C3%Z.ltb_ge]; split_and!; done || lia.
Qed.

Lemma new_region_wp s bud b e (Q : Z -> pstate H -> Prop) :
  dl_ok (lm s) (bud + ka_cost 16) -> 0 <= bud ->
  (forall g s', dl_ok (lm s') bud -> mregions s' !! g = Some (mk_mregion b e) -> maps s' = maps s ->
     nodes (lm s') = nodes (lm s) -> lists (lm s') = lists (lm s) -> Q g s') ->
  wp (new_region b e) Q s.
Proof.
  intros Hok Hb HQ. unfold new_region. wp_focus. apply wp_with_lm.
  eapply malloc_wp; [exact Hok|done|lia|]. intros g h Hg Hn Hl Hx. wp_step. wp_step. wp_step.
  destruct (Hx (mk_node 0 0 0) (mk_list 0 0 0)) as [Hok' _].
  apply HQ; try done; [|by apply lookup_insert_eq].
  eapply dl_ok_dom; [exact Hok'|done| |done]. intros x. simpl. rewrite lookup_insert.
  case_decide; [by eexists|done].
Qed.

Lemma list_rep_same (m m' : lmem H) lp l c :
  nodes m' = nodes m -> lists m' = lists m -> list_rep m lp l c -> list_rep m' lp l c.
Proof. intros Hn Hl [H1 H2 H3 H4 H5]. split; try done; by rewrite ?Hn, ?Hl. Qed.

(** The bounds under which no address computation of the search wraps. *)
Definition regions_fit (size : Z) (rs : list mregion) : Prop :=
  Forall (fun r => end_ r < 2 ^ 63) rs /\ 0 <= size < 2 ^ 62.

(** The candidate base [b] when the search is at region [i]. *)
Definition cand_inv (size : Z) (rs : list mregion) (i : nat) (be : Z * Z) : Prop :=
  exists b, be = (b, b + size) /\ 4096 <= b < 2 ^ 63 /\
    (forall j r, (j < i)%nat -> rs !! j = Some r -> end_ r <= b) /\ (b = 4096 \/ exists r, r ∈ rs /\ b = end_ r).

(** A region list with a new region in it at its place in the order. *)
Definition region_added s (lp : Z) (l : nseq) (rs : list mregion) (b size : Z) (s' : pstate H) : Prop :=
  exists l1 l2 rs1 rs2 p g c, l = l1 ++ l2 /\ rs = rs1 ++ rs2 /\ length l1 = length rs1 /\
    list_rep (lm s') lp (l1 ++ (p, g) :: l2) c /\
    mregions s' !! g = Some (mk_mregion b (b + size)) /\
    Forall (fun r => end_ r <= b) rs1 /\ Forall (fun r => b + size <= base r) rs2.

Lemma cand_inv_step size rs i r be :
  ordered 0 rs -> regions_fit size rs -> rs !! i = Some r -> cand_inv size rs i be ->
  (be.2 <=? base r) = false -> cand_inv size rs (S i) (space_advance size r be).
Proof.
  intros Ho [Hfit Hs] Hr (b & -> & Hb & Hbelow & Hfrom) Hlt. apply Z.leb_gt in Hlt. simpl in Hlt.
  assert (r ∈ rs) as Hin by (by eapply list_elem_of_lookup_2).
  pose proof (ordered_above _ _ _ Ho Hin) as Hord. rewrite Forall_forall in Hfit. specialize (Hfit r Hin).
  destruct (space_advance_spec size r b) as (b' & -> & Hbb & Heb & Hcase); try lia.
  exists b'. split; [done|]. split; [lia|]. split; [|destruct Hcase as [->| ->]; eauto]. intros j r' Hj Hr'.
  destruct (decide (j = i)) as [->|Hne]; [assert (r' = r) as -> by congruence; done|].
  specialize (Hbelow j r' ltac:(lia) Hr'). lia.
Qed.

Lemma ordered_split lo rs i r e :
  ordered lo rs -> rs !! i = Some r -> e <= base r -> Forall (fun r => e <= base r) (drop i rs).
Proof.
  intros Ho Hr He. rewrite <- (take_drop_middle _ _ _ Hr) in Ho. apply ordered_app in Ho as [_ [Hb Ho]].
  rewrite (drop_S _ _ _ Hr). constructor; [done|]. apply Forall_forall. intros x Hx.
  apply (ordered_above _ _ _ Ho) in Hx. lia.
Qed.

Lemma Forall_take_below rs i b :
  (forall j r, (j < i)%nat -> rs !! j = Some r -> end_ r <= b) -> Forall (fun r : mregion => end_ r <= b) (take i rs).
Proof.
  intros Hb. apply Forall_lookup. intros j r Hj. apply lookup_take_Some in Hj as [Hj Hlt]. eauto.
Qed.

Lemma space_alloc_region_wp s a m l rs bud size :
  maps s !! a = Some m -> list_rep (lm s) (regions m) l (Z.of_nat (length l)) ->
  regions_at s l rs -> ordered 0 rs -> regions_fit size rs -> Z.of_nat (length l) < 2 ^ 32 - 1 ->
  dl_ok (lm s) (bud + ka_cost NODE_SIZE + ka_cost 16) -> 0 <= bud ->
  wp (space_alloc_region size a) (fun b s' => b <> 0 /\ 4096 <= b /\
    Forall (clear_of b (b + size)) rs /\ region_added s (regions m) l rs b size s') s.
Proof.
  intros Ha Hrep Hregs Hord Hfit Hlen Hok Hbud. unfold space_alloc_region.
  pose proof (ka_cost_nonneg (H := H) NODE_SIZE ltac:(unfold NODE_SIZE; lia)) as Hcost.
  pose proof Hfit as [_ Hsize]. rewrite (uN_small 64) by lia.
  wp_focus. apply wp_bind, wp_gets. eapply wp_unwrap; [exact Ha|]. wp_focus.
  eapply (regions_foreach_wp s (regions m) l _ rs (cand_inv size rs)); [exact Hrep|exact Hregs|lia| | |].
  - exists 4096. split; [done|]. split; [lia|]. split; [intros; lia|by left].
  - intros i r be Hr Hinv. destruct (be.2 <=? base r) eqn:Hle.
    2: { apply wp_ret. split; [done|]. by apply cand_inv_step. }
    destruct Hinv as (b & -> & Hb & Hbelow & _). simpl in Hle. apply Z.leb_le in Hle. simpl fst. simpl snd.
    pose proof (Forall2_length _ _ _ Hregs) as Hll. apply lookup_lt_Some in Hr as Hi.
    destruct (lookup_lt_is_Some_2 l i) as [[d vd] Hli]; [lia|].
    pose proof (take_drop_middle _ _ _ Hli) as Hl. wp_focus.
    eapply (new_region_wp s (bud + ka_cost NODE_SIZE)); [exact Hok|lia|].
    intros g s1 Hok1 Hg Hm1 Hn1 Hls1. wp_focus. apply wp_with_lm.
    assert (length (take i l) = i) as Hti by (rewrite length_take; lia).
    eapply wp_mono; [rewrite <- Hti at 1; eapply (list_insert_wp (lm s1) bud (regions m) (take i l) d vd (drop (S i) l))|].
    { exact Hok1. } { done. } { rewrite Hl. by eapply list_rep_same. } { rewrite Hti. lia. }
    intros [] lm' (p & Hok' & Hp & _ & Hrep' & _). apply wp_ret. apply wp_ret.
    pose proof (Forall_take_below rs i b Hbelow) as Hbl.
    pose proof (ordered_split _ _ _ _ (b + size) Hord Hr Hle) as Hab.
    split_and!; [lia|lia| |].
    + rewrite <- (take_drop i rs). apply Forall_app. split; (eapply Forall_impl; [done|]); unfold clear_of; simpl; lia.
    + exists (take i l), ((d, vd) :: drop (S i) l), (take i rs), (drop i rs), p, g, (Z.of_nat (length l)).
      rewrite take_drop, Hl, !length_take. split_and!; try done. lia.
  - intros be (b & -> & Hb & Hbelow & _). cbn [fst snd].
    rewrite (proj2 (Z.ltb_lt (b + size) KERNEL_VIRTUAL_ADDR)) by (unfold KERNEL_VIRTUAL_ADDR; lia).
    wp_focus. eapply (new_region_wp s (bud + ka_cost NODE_SIZE)); [exact Hok|lia|].
    intros g s1 Hok1 Hg Hm1 Hn1 Hls1. wp_focus. apply wp_with_lm.
    eapply wp_mono; [eapply (list_push_back_wp (lm s1) bud (regions m) l); [exact Hok1|done| |]|].
    { by eapply list_rep_same. } { lia. }
    intros p lm' (Hok' & Hp & _ & Hrep' & _). apply wp_ret.
    pose proof (Forall2_length _ _ _ Hregs) as Hll. rewrite Hll in Hbelow.
    pose proof (Forall_take_below rs (length rs) b Hbelow) as Hbl. rewrite firstn_all in Hbl.
    split_and!; [lia|lia| |].
    + eapply Forall_impl; [exact Hbl|]. unfold clear_of. simpl. lia.
    + exists l, [], rs, [], p, g, (Z.of_nat (length l) + 1). rewrite !app_nil_r. split_and!; done.
Qed.
End regions.

(** ** Properties *)

Section properties.
Context {H : Type} (lay : layout).
Implicit Types s : pstate H.

(** C3: As long as enough unused page tables in a row are left, the kernel page
    allocator returns the address of [cnt] consecutive pages of the window that
    were all free, marks exactly those, enters their tables in the directory,
    and keeps the window's invariant; nothing outside the window changes. *)
Theorem page_kernel_alloc4k_correct s cnt :
  1 <= cnt <= WINDOW -> window_ok lay s -> window_room s cnt ->
  exists q s', page_kernel_alloc4k lay cnt s = Ok (window_addr q, s') /\
    0 <= q /\ q + cnt <= WINDOW /\ window_ok lay s' /\
    (forall x, q <= x < q + cnt -> taken s x = false /\ taken s' x = true /\ entered s' (x `div` 512) = true) /\
    (forall x, 0 <= x < WINDOW -> x < q \/ q + cnt <= x -> ent (kheap_tables s') x = ent (kheap_tables s) x) /\
    exists d t, s' = upd_dir (fun _ => d) (upd_tables (fun _ => t) s).
Proof.
  intros Hcnt Hok Hroom.
  destruct (wp_Ok _ _ _ (page_kernel_alloc4k_wp lay s cnt (alloc4k_post lay s cnt) Hcnt Hok Hroom ltac:(done)))
    as (addr & s' & Ha & q & -> & Hq & Hqw & Hfree & Hm).
  exists q, s'. split_and!; try done.
  - by eapply marked_window_ok.
  - intros x Hx. split_and!; [auto| |by eapply mk_in].
    rewrite (mk_taken _ _ _ _ _ Hm) by lia. by rewrite bool_decide_true by lia.
  - apply (mk_kept _ _ _ _ _ Hm).
  - apply (mk_rest _ _ _ _ _ Hm).
Qed.

Lemma page_kernel_free4k_wp s q cnt (Q : () -> pstate H -> Prop) :
  0 <= q -> 0 <= cnt -> q + cnt <= WINDOW ->
  (forall t, (forall x, ent t x = if bool_decide (q <= x < q + cnt) then 0 else ent (kheap_tables s) x) ->
     Q () (upd_tables (fun _ => t) s)) ->
  wp (page_kernel_free4k (window_addr q) cnt) Q s.
Proof.
  intros Hq Hcnt Hw HQ. unfold page_kernel_free4k.
  apply (wp_for_each (fun i s' => exists t, s' = upd_tables (fun _ => t) s /\
    forall x, ent t x = if bool_decide (q <= x < q + i) then 0 else ent (kheap_tables s) x)); [done| | |].
  - exists (kheap_tables s). split; [by destruct s|]. intros x. by rewrite bool_decide_false by lia.
  - intros i ? Hi (t & -> & Ht). cbv zeta.
    assert (u64 (window_addr q + i * 4096) = window_addr (q + i)) as ->.
    { rewrite uN_small; unfold window_addr, WINDOW in *; lia. }
    destruct (window_addr_idx (q + i)) as [-> ->]; [lia|].
    apply wp_tab_set; [unfold WINDOW in *; dlia|dlia|].
    replace ((q + i) `div` 512 * 512 + (q + i) `mod` 512) with (q + i) by dlia.
    exists (<[q + i := 0]> t). split; [done|]. intros x. rewrite ent_insert, Ht.
    repeat case_bool_decide; case_decide; done || lia.
  - intros s' (t & -> & Ht). by apply HQ.
Qed.

(** Freeing the pages of an allocation gives back exactly those pages: after
    [page_kernel_alloc4k] and [page_kernel_free4k] every page of the window is
    taken if and only if it was before. *)
Theorem page_kernel_alloc_free s cnt :
  1 <= cnt <= WINDOW -> window_ok lay s -> window_room s cnt ->
  exists s', (addr ← page_kernel_alloc4k lay cnt; page_kernel_free4k addr cnt) s = Ok ((), s') /\
    window_ok lay s' /\ forall x, 0 <= x < WINDOW -> taken s' x = taken s x.
Proof.
  intros Hcnt Hok Hroom.
  assert (wp (addr ← page_kernel_alloc4k lay cnt; page_kernel_free4k addr cnt)
    (fun _ s' => window_ok lay s' /\ forall x, 0 <= x < WINDOW -> taken s' x = taken s x) s) as Hwp.
  { wp_focus. apply page_kernel_alloc4k_wp; [done..|]. intros addr s1 (q & -> & Hq & Hqw & Hfree & Hm).
    pose proof (marked_window_ok _ _ _ _ _ Hok Hm) as Hok1.
    apply page_kernel_free4k_wp; [lia|lia|lia|]. intros t Ht.
    assert (forall x, 0 <= x < WINDOW -> taken (upd_tables (fun _ => t) s1) x = taken s x) as Htk.
    { intros x Hx. unfold taken at 1. cbn [kheap_tables upd_tables]. rewrite Ht.
      case_bool_decide as Hr; [rewrite Hfree by done; done|].
      change (taken s1 x = taken s x). rewrite (mk_taken _ _ _ _ _ Hm) by done. by rewrite bool_decide_false. }
    split; [|done]. split; [|exact (wo_4k _ _ Hok1)|exact (wo_frame _ _ Hok1)]. intros x Hx He. rewrite Htk by done. apply (wo_free _ _ Hok); [done|].
    destruct (entered s (x `div` 512)) eqn:E; [|done]. apply (mk_entered _ _ _ _ _ Hm) in E.
    change (entered s1 (x `div` 512) = false) in He. congruence. }
  destruct (wp_Ok _ _ _ Hwp) as ([] & s' & Hr & ?). by exists s'.
Qed.

Lemma PML4_IDX_low virt : 0 <= virt < 2 ^ 39 -> PML4_IDX virt = 0.
Proof. intros Hv. unfold PML4_IDX. rewrite Z.shiftr_div_pow2, Z.div_small by lia. done. Qed.

(** One page through [page_map_memory]. *)
Lemma page_map_memory1_wp s virt p a m (Q : () -> pstate H -> Prop) :
  pg_ok lay s -> has_page s -> has_frame s -> maps s !! a = Some m ->
  0 <= virt < 2 ^ 39 -> 0 <= p < 2 ^ 52 -> p `mod` 4096 = 0 ->
  (forall s' m', pg_ok lay s' -> maps s' !! a = Some m' ->
     Z.testbit (pte_at s' m' virt) 0 = true -> phys_of s' m' virt = p ->
     same_translation s s' a (fun v => page_idx v = page_idx virt) -> map_step lay s s' -> Q () s') ->
  wp (page_map_memory lay virt p 1 a) Q s.
Proof.
  intros Hok Hroom Hfr Ha Hv Hp Hpm HQ. pose proof (PML4_IDX_low virt Hv) as Hu. unfold page_map_memory.
  apply (wp_for_each (fun i s' => if i =? 0 then s' = s else Q () s')); [lia|done| |].
  - intros i ? Hi. assert (i = 0) as -> by lia. intros ->. rewrite Z.mul_0_l, !Z.add_0_r.
    assert (u64 virt = virt) as -> by (apply uN_small; lia).
    assert (u64 p = p) as -> by (apply uN_small; lia).
    eapply wp_mono; [apply (page_map_page_wp lay s virt p a m (fun _ s' => Q () s')); try done|]. by intros [] s'.
  - intros s' HQ'. exact HQ'.
Qed.

(** C17: With a page of the window and a frame left for a new table, mapping a page makes
    the table in the frame its directory entry names lead to the mapped frame,
    [page_getphys] gives that frame, and every other translation, in this map and in all
    others, is what it was; the tables stay well-formed, reachable at the kernel's
    addresses of them, and unshared. *)
Theorem page_map_getphys s virt p a m :
  pg_ok lay s -> has_page s -> has_frame s -> maps s !! a = Some m ->
  0 <= virt < 2 ^ 39 -> 0 <= p < 2 ^ 52 -> p `mod` 4096 = 0 ->
  exists s', page_map_memory lay virt p 1 a s = Ok ((), s') /\ pg_ok lay s' /\
    (exists m', maps s' !! a = Some m' /\ Z.testbit (pte_at s' m' virt) 0 = true /\ phys_of s' m' virt = p) /\
    page_getphys lay virt a s' = Ok (p, s') /\
    forall b v r, is_Some (maps s !! b) -> b <> a \/ page_idx v <> page_idx virt ->
      page_getphys lay v b s = Ok (r, s) -> page_getphys lay v b s' = Ok (r, s').
Proof.
  intros Hok Hroom Hfr Ha Hv Hp Hpm.
  assert (wp (page_map_memory lay virt p 1 a) (fun _ s' => exists m', pg_ok lay s' /\ maps s' !! a = Some m' /\
    Z.testbit (pte_at s' m' virt) 0 = true /\ phys_of s' m' virt = p /\ same_translation s s' a (fun v => page_idx v = page_idx virt)) s) as Hwp.
  { eapply page_map_memory1_wp; try done. intros s' m' ? ? ? ? ? _. by exists m'. }
  destruct (wp_Ok _ _ _ Hwp) as ([] & s' & Hr & m' & Hok' & Hm' & Hpr & Hph & Htr).
  pose proof Hok as (_ & _ & Hm). pose proof Hok' as (_ & _ & Hmo'). exists s'. split_and!; try done; [by exists m'|..].
  - rewrite (page_getphys_eq _ _ _ _ _ Hmo' Hm'). by rewrite Hph.
  - intros b v r [mb Hb] Hne. rewrite (page_getphys_eq _ _ _ _ _ Hm Hb). intros [= <-].
    destruct (proj2 Htr _ _ Hb) as (mb' & Hb' & _ & Heq). rewrite (page_getphys_eq _ _ _ _ _ Hmo' Hb').
    unfold phys_of. rewrite Heq; [done|]. intros -> Hidx. by destruct Hne.
Qed.
End properties.

(** [space_alloc_region] on a well-formed, address-ordered region list returns
    the base of a range that is disjoint from every region, lies above the first
    page, and is recorded in the list at its place in the order. *)
Theorem space_alloc_region_disjoint `{KAlloc H} (s : pstate H) a m l rs bud size :
  maps s !! a = Some m -> list_rep (lm s) (regions m) l (Z.of_nat (length l)) ->
  regions_at s l rs -> ordered 0 rs -> regions_fit size rs -> Z.of_nat (length l) < 2 ^ 32 - 1 ->
  dl_ok (lm s) (bud + ka_cost NODE_SIZE + ka_cost 16) -> 0 <= bud ->
  exists b s', space_alloc_region size a s = Ok (b, s') /\ 4096 <= b /\
    Forall (clear_of b (b + size)) rs /\ region_added s (regions m) l rs b size s'.
Proof.
  intros H1 H2 H3 H4 H5 H6 H7 H8.
  destruct (wp_Ok _ _ _ (space_alloc_region_wp s a m l rs bud size H1 H2 H3 H4 H5 H6 H7 H8))
    as (b & s' & Hr & _ & Hb & Hc & Hadd).
  by exists b, s'.
Qed.

(** An empty window with one page map, for the examples. *)
Definition demo_layout : layout :=
  mk_layout 0xffffffff80100000 0xffffffff80101000 0xffffffff80102000 0xffffffff80103000
    0xffffffff80200000 0xffffffff80400000.
Definition demo_pstate {H} (l : lmem H) (lp : Z) (regs : gmap Z mregion) : pstate H :=
  mk_pstate 0 ∅ ∅ ∅ ∅ ∅ ∅ 0 (mk_pmm 4 ∅) l {[1 := mk_page_map ∅ 0 ∅ 0 ∅ ∅ ∅ lp]} ∅ regs.

Lemma demo_window {H} lay (l : lmem H) lp regs cnt :
  cnt <= WINDOW -> window_ok lay (demo_pstate l lp regs) /\ window_room (demo_pstate l lp regs) cnt.
Proof.
  intros Hc. split.
  - split; [intros q Hq _; unfold taken; simpl kheap_tables; by rewrite ent_empty|..].
    + intros i. cbn [demo_pstate kheapdir]. rewrite ent_empty. apply Z.bits_0.
    + intros i. unfold entered. simpl kheapdir. by rewrite ent_empty.
  - exists 0, 512. split; [|lia]. split_and!; [lia|lia|unfold WINDOW in *; lia|].
    intros i Hi. unfold entered. simpl kheapdir. by rewrite ent_empty.
Qed.

Lemma demo_has_page {H} (l : lmem H) lp regs : has_page (demo_pstate l lp regs).
Proof. destruct (demo_window demo_layout l lp regs 1) as [Hok Hroom]; [unfold WINDOW; lia|]. by eapply window_room_has_page. Qed.

Lemma demo_has_frame {H} (l : lmem H) lp regs : has_frame (demo_pstate l lp regs).
Proof. exists 0. split; [cbn; lia|reflexivity]. Qed.

Lemma demo_pg_ok {H} lay (l : lmem H) lp regs : pg_ok lay (demo_pstate l lp regs).
Proof.
  split_and!; [apply (demo_window lay l lp regs 0); unfold WINDOW; lia|apply pmm_wf_empty; unfold BUFFER_SIZE; lia|].
  split; unfold demo_pstate; cbn [tabs maps].
  - intros t. rewrite lookup_empty. by intros [??].
  - intros a m ij [<- <-]%lookup_singleton_Some. cbn [page_dirs]. by rewrite ent_empty.
  - intros a m ij a' m' ij' [<- <-]%lookup_singleton_Some _. cbn [page_dirs]. by rewrite ent_empty.
Qed.

Lemma page_kernel_alloc4k_correct_witness :
  let s := demo_pstate (mk_lmem () ∅ ∅) 0 ∅ in
  exists q s', page_kernel_alloc4k demo_layout 600 s = Ok (window_addr q, s') /\
    0 <= q /\ q + 600 <= WINDOW /\ window_ok demo_layout s' /\
    (forall x, q <= x < q + 600 -> taken s x = false /\ taken s' x = true /\ entered s' (x `div` 512) = true) /\
    (forall x, 0 <= x < WINDOW -> x < q \/ q + 600 <= x -> ent (kheap_tables s') x = ent (kheap_tables s) x) /\
    exists d t, s' = upd_dir (fun _ => d) (upd_tables (fun _ => t) s).
Proof.
  intros s. unfold s. destruct (demo_window demo_layout (mk_lmem () ∅ ∅) 0 ∅ 600) as [Hok Hroom]; [unfold WINDOW; lia|].
  apply page_kernel_alloc4k_correct; [unfold WINDOW; lia|exact Hok|exact Hroom].
Defined.

Lemma page_kernel_alloc_free_witness :
  let s := demo_pstate (mk_lmem () ∅ ∅) 0 ∅ in
  exists s', (addr ← page_kernel_alloc4k demo_layout 600; page_kernel_free4k addr 600) s = Ok ((), s') /\
    window_ok demo_layout s' /\ forall x, 0 <= x < WINDOW -> taken s' x = taken s x.
Proof.
  intros s. unfold s. destruct (demo_window demo_layout (mk_lmem () ∅ ∅) 0 ∅ 600) as [Hok Hroom]; [unfold WINDOW; lia|].
  apply (page_kernel_alloc_free demo_layout); [unfold WINDOW; lia|exact Hok|exact Hroom].
Defined.

Lemma page_map_getphys_witness :
  let s := demo_pstate (mk_lmem () ∅ ∅) 0 ∅ in
  exists s', page_map_memory demo_layout 0x400000 0x7000 1 1 s = Ok ((), s') /\ pg_ok demo_layout s' /\
    (exists m', maps s' !! 1 = Some m' /\ Z.testbit (pte_at s' m' 0x400000) 0 = true /\ phys_of s' m' 0x400000 = 0x7000) /\
    page_getphys demo_layout 0x400000 1 s' = Ok (0x7000, s') /\
    forall b v r, is_Some (maps s !! b) -> b <> 1 \/ page_idx v <> page_idx 0x400000 ->
      page_getphys demo_layout v b s = Ok (r, s) -> page_getphys demo_layout v b s' = Ok (r, s').
Proof.
  intros s. apply (page_map_getphys demo_layout s 0x400000 0x7000 1 (mk_page_map ∅ 0 ∅ 0 ∅ ∅ ∅ 0)).
  - apply demo_pg_ok.
  - apply demo_has_page.
  - apply demo_has_frame.
  - apply lookup_singleton_eq.
  - lia.
  - lia.
  - reflexivity.
Defined.

Lemma space_alloc_region_disjoint_witness :
  exists lp x l0, one_list 7 boot_lmem = Ok ((lp, x), l0) /\
  let s := demo_pstate l0 lp {[7 := mk_mregion 4096 12288]} in
  exists b s', space_alloc_region 8192 1 s = Ok (b, s') /\ 4096 <= b /\
    Forall (clear_of b (b + 8192)) [mk_mregion 4096 12288] /\
    region_added s lp [(x, 7)] [mk_mregion 4096 12288] b 8192 s'.
Proof.
  assert (ka_cost (H := kheap) 16 = 144) as H16 by reflexivity.
  destruct (wp_Ok _ _ _ (one_list_wp 7 (0 + ka_cost NODE_SIZE + ka_cost 16)
    ltac:(rewrite kheap_node_cost, H16; lia))) as ([lp x] & l0 & Hone & Hok & Hlp & Hrep).
  exists lp, x, l0. split; [exact Hone|]. intros s.
  apply (space_alloc_region_disjoint s 1 (mk_page_map ∅ 0 ∅ 0 ∅ ∅ ∅ lp) [(x, 7)] [mk_mregion 4096 12288] 0 8192).
  - apply lookup_singleton_eq.
  - exact Hrep.
  - apply Forall2_cons; split; [apply lookup_singleton_eq|apply Forall2_nil; exact I].
  - split; [simpl; lia|exact I].
  - split; [apply Forall_singleton; simpl; lia|lia].
  - simpl. lia.
  - exact Hok.
  - lia.
Defined.
