(* ===== verification/Path.v ===== *)
(** * Paths (src/fs/vfs/path.c)

    The path code over one memory that holds the byte memory of Strings.v and the
    list records of DList.v, with one allocator behind both. *)

From S2P Require Import Prelude Alloc Kheap DList Strings.

(** [vpaths] holds the [vfs_path_t] records: the list of parts. *)
Record vmem (H : Type) : Type := mk_vmem {
  vheap : H;
  vbytes : gmap Z Z;
  volds : Z;
  vnodes : gmap Z list_node;
  vlists : gmap Z list_t;
  vpaths : gmap Z Z;
}.
Arguments mk_vmem {H}.
Arguments vheap {H}. Arguments vbytes {H}. Arguments volds {H}.
Arguments vnodes {H}. Arguments vlists {H}. Arguments vpaths {H}.

(** The string literals of path.c. *)
Record literals : Type := mk_literals { L_SLASH : Z; L_DOT : Z; L_DOTDOT : Z }.

Section ops.
Context {H : Type} `{KAlloc H} (lit : literals).
Local Abbreviation V := (M (vmem H)).

Definition lmem_of (s : vmem H) : lmem H := mk_lmem (vheap s) (vnodes s) (vlists s).
Definition smem_of (s : vmem H) : smem H := mk_smem (vbytes s) (vheap s) (volds s).

Definition with_l {A} (m : M (lmem H) A) : V A := fun s =>
  match m (lmem_of s) with
  | Ok (a, l) => Ok (a, mk_vmem (lheap l) (vbytes s) (volds s) (nodes l) (lists l) (vpaths s))
  | Err f => Err f
  end.
Definition with_s {A} (m : M (smem H) A) : V A := fun s =>
  match m (smem_of s) with
  | Ok (a, b) => Ok (a, mk_vmem (sheap b) (bytes b) (olds b) (vnodes s) (vlists s) (vpaths s))
  | Err f => Err f
  end.

(** [kfree] of any pointer: a record at that address is gone. *)
Definition free_ptr (p : Z) : V () :=
  with_l (with_heap (ka_free p));;
  modify (fun s => mk_vmem (vheap s) (vbytes s) (volds s)
    (delete p (vnodes s)) (delete p (vlists s)) (delete p (vpaths s))).

(** One character of [strsplit]; [tok] is [tok_size]. *)
Definition strsplit_step (list str c token i tok : Z) : V Z :=
  b ← with_s (ld (str + i));
  if (b =? c) || (b =? 0) then
    if truth tok then
      with_s (st (token + tok) 0);;
      ele ← with_s (Strings.kmalloc tok);
      with_s (strcpy ele token);;
      with_l (list_push_back list ele);;
      mret 0
    else mret tok
  else
    with_s (st (token + tok) b);;
    mret (tok + 1).

Definition strsplit (str c : Z) : V Z :=
  list ← with_l list_create;
  len ← with_s (strlen str);
  token ← with_s (Strings.kmalloc len);
  for_acc (B := ()) 0 (len + 1) (fun i tok =>
    tok' ← strsplit_step list str c token i tok; mret (inl tok')) 0;;
  free_ptr token;;
  mret list.

Definition new_path (parts : Z) (p : Z) : V Z :=
  modify (fun s => mk_vmem (vheap s) (vbytes s) (volds s) (vnodes s) (vlists s) (<[p := parts]> (vpaths s)));;
  mret p.

Definition vfs_mkpath (pathstr working_dir : Z) : V Z :=
  c ← with_s (ld pathstr);
  len ← with_s (strlen pathstr);
  if (c =? 47) && (len =? 1) then
    p ← with_l (with_heap (ka_malloc 8));
    parts ← with_l list_create;
    new_path parts p
  else
    abspath ← (if truth working_dir && negb (c =? 47) then
      wlen ← with_s (strlen working_dir);
      a ← with_s (Strings.kmalloc (len + wlen + 1));
      with_s (strcpy a working_dir);;
      wlen' ← with_s (strlen working_dir);
      with_s (strcpy (a + wlen') pathstr);;
      mret a
    else
      a ← with_s (Strings.kmalloc (len + 1));
      with_s (strcpy a (pathstr + 1));;
      with_s (st (a + len) 0);;
      mret a);
    p ← with_l (with_heap (ka_malloc 8));
    parts ← strsplit abspath 47;
    new_path parts p;;
    free_ptr abspath;;
    mret p.

(** [list_foreach] with a body that does not leave the loop. *)
Definition foreach_node (list : Z) (body : Z -> V ()) : V () :=
  h ← with_l (lrd head list);
  bound ← gets (fun s => N.of_nat (S (size (vnodes s))));
  while_ bound (fun node =>
    if node =? 0 then mret (inr ()) else
    body node;;
    n ← with_l (nrd nnext node);
    mret (inl n)) h.

Definition vfs_destroy_path (path : Z) : V () :=
  o ← gets (fun s => vpaths s !! path);
  parts ← unwrap o OutOfBounds;
  foreach_node parts free_ptr;;
  with_l (list_destroy parts);;
  free_ptr path.

(** Appending to the string at [dst]. *)
Definition append (dst src : Z) : V () :=
  n ← with_s (strlen dst); with_s (strcpy (dst + n) src);; mret ().

(** One token of [vfs_mk_canonpath]; [fs] is [finalsize]. *)
Definition canon_token (tokens token fs : Z) : V Z :=
  c ← with_s (ld token);
  if c =? 0 then free_ptr token;; mret fs else
  r ← with_s (strcmp token (L_DOTDOT lit));
  if r =? 0 then
    n ← with_l (lrd cnt tokens);
    if 0 <? n then
      o ← with_l (list_pop_back tokens);
      del ← unwrap o OutOfBounds;
      len ← with_s (strlen del);
      free_ptr del;;
      mret (u64 (fs - (len + 1)))
    else mret fs
  else
  r' ← with_s (strcmp token (L_DOT lit));
  if r' =? 0 then free_ptr token;; mret fs else
  with_l (list_push_back tokens token);;
  len ← with_s (strlen token);
  mret (u64 (fs + (len + 1))).

(** The loop over the tokens has no bound in the source; [fuel] bounds it. *)
Definition vfs_mk_canonpath (fuel : N) (path working : Z) : V Z :=
  c ← with_s (ld path);
  plen ← with_s (strlen path);
  temppath ← (if truth working && negb (c =? 47) then
    wlen ← with_s (strlen working);
    t ← with_s (Strings.kmalloc (plen + wlen + 2));
    with_s (strcpy t working);;
    append t (L_SLASH lit);;
    append t path;;
    mret t
  else
    t ← with_s (Strings.kmalloc (plen + 1));
    with_s (strcpy t path);;
    mret t);
  tokens ← with_l list_create;
  token ← with_s (strtok temppath (L_SLASH lit));
  fs ← while_ fuel (fun (x : Z * Z) =>
    if x.1 =? 0 then mret (inr x.2) else
    fs' ← canon_token tokens x.1 x.2;
    t' ← with_s (strtok 0 (L_SLASH lit));
    mret (inl (t', fs'))) (token, 1);
  final ← with_s (Strings.kmalloc (u64 (fs + 1)));
  n ← with_l (lrd cnt tokens);
  (if n =? 0 then with_s (strcpy final (L_SLASH lit));; mret ()
   else foreach_node tokens (fun node =>
     t ← with_l (nrd nval node);
     append final (L_SLASH lit);;
     append final t));;
  n' ← with_l (lrd cnt tokens);
  for_each 0 n' (fun _ =>
    o ← with_l (list_pop_back tokens);
    p ← unwrap o OutOfBounds;
    free_ptr p);;
  mret final.
End ops.

(** ** The path code on the kernel heap *)

(** A string as bytes. *)
Definition zs (s : list Z) : list Z := s ++ [0].

(** Memory with the literals, and the
    path at 400 and working directory at 500. *)
Definition path_lits : literals := mk_literals 300 310 320.
Definition path_mem (path working : list Z) : vmem kheap :=
  mk_vmem (boot_heap 4096 409600)
    (poke 300 (zs [47]) (poke 310 (zs [46]) (poke 320 (zs [46; 46])
      (poke 400 (zs path) (poke 500 (zs working) ∅))))) 0 ∅ ∅ ∅.

Fixpoint read_str (fuel : nat) (m : gmap Z Z) (p : Z) : list Z :=
  match fuel with
  | O => []
  | S fuel' => match m !! p with
               | Some 0 | None => []
               | Some b => b :: read_str fuel' m (p + 1)
               end
  end.

Definition canon (path working : list Z) : outcome (list Z) :=
  match vfs_mk_canonpath path_lits 50 400 (if working is [] then 0 else 500) (path_mem path working) with
  | Ok (p, s) => Ok (read_str 100 (vbytes s) p)
  | Err f => Err f
  end.

(** Normalisation as intended. *)
Example canon_plain : canon [47; 97; 47; 46; 47; 98; 47; 47; 99] [] = Ok [47; 97; 47; 98; 47; 99].
Proof. vm_compute. reflexivity. Qed.
Example canon_dotdot : canon [47; 97; 47; 98; 47; 46; 46; 47; 99] [] = Ok [47; 97; 47; 99].
Proof. vm_compute. reflexivity. Qed.
Example canon_relative : canon [98] [47; 97] = Ok [47; 97; 47; 98].
Proof. vm_compute. reflexivity. Qed.

(** Canonicalising a path in which [..] removes the only component so far and
    another component follows ([/a/../b]) faults: the list is left with a dangling
    head and the next push dereferences the null tail. *)
Theorem canonpath_dotdot_faults : canon [47; 97; 47; 46; 46; 47; 98] [] = Err NullDeref.
Proof. vm_compute. reflexivity. Qed.

(** When the copy of the path exactly fills its heap block (here 15 characters
    and the terminator), [strtok] goes on reading behind the block. *)
Theorem canonpath_overread :
  canon [47; 97; 97; 97; 97; 97; 97; 97; 97; 97; 97; 97; 97; 97; 98] [] = Err OutOfBounds.
Proof. vm_compute. reflexivity. Qed.

Section properties.
Context {H : Type} `{KAlloc H}.

(** [vfs_destroy_path] of a path with at least one part uses memory after
    freeing it: it frees the list nodes themselves and then follows their
    links. *)
Theorem vfs_destroy_path_use_after_free (s : vmem H) p parts a v l c b :
  dl_ok (lmem_of s) b -> vpaths s !! p = Some parts ->
  list_rep (lmem_of s) parts ((a, v) :: l) c ->
  vfs_destroy_path p s = Err OutOfBounds.
Proof.
  intros Hok Hp [Hlp Hl Hseg Hnd Hnz]. simpl in Hnz.
  destruct s as [h0 b0 o0 n0 l0 p0]. unfold lmem_of in *. cbn [vheap vnodes vlists vpaths nodes lists] in *.
  assert (a <> 0) as Ha by (intros ->; apply Hnz; by left).
  unfold vfs_destroy_path. eapply bind_Ok; [done|]. eapply bind_Ok; [cbn; by rewrite Hp|]. apply bind_Err.
  unfold foreach_node. eapply bind_Ok; [unfold with_l, lmem_of; cbn [vheap vnodes vlists]; by rewrite (lrd_eq head parts _ (mk_lmem h0 n0 l0) Hlp Hl)|].
  eapply bind_Ok; [done|]. apply while_Err; [lia|]. cbn [hd_addr fst head].
  rewrite (proj2 (Z.eqb_neq a 0)) by done.
  assert (is_Some (n0 !! a)) as Hsome by (destruct Hseg as [Hm _]; by eexists).
  assert (wp (with_heap (ka_free a)) (fun _ l' => nodes l' = n0) (mk_lmem h0 n0 l0)) as Hfree.
  { eapply free_wp; [exact Hok|by left|]. done. }
  destruct (wp_Ok _ _ _ Hfree) as ([] & l' & Hf & Hn).
  eapply bind_Ok; [unfold free_ptr; eapply bind_Ok; [unfold with_l, lmem_of; cbn; by rewrite Hf|done]|].
  apply bind_Err. unfold with_l, nrd. unfold bindM, guard. rewrite (proj2 (truth_true a)) by done.
  cbn. by rewrite lookup_delete_eq.
Qed.
End properties.

Lemma vfs_destroy_path_use_after_free_witness :
  exists lp a l0, one_list 7 boot_lmem = Ok ((lp, a), l0) /\
    vfs_destroy_path 9 (mk_vmem (lheap l0) ∅ 0 (nodes l0) (lists l0) {[9 := lp]}) = Err OutOfBounds.
Proof.
  destruct (wp_Ok _ _ _ (one_list_wp 7 0 ltac:(lia))) as ([lp a] & l0 & Hone & Hok & Hlp & Hrep).
  exists lp, a, l0. split; [exact Hone|]. destruct l0 as [h n l].
  apply (vfs_destroy_path_use_after_free (mk_vmem h ∅ 0 n l {[9 := lp]}) 9 lp a 7 [] 1 0).
  - exact Hok.
  - apply lookup_singleton_eq.
  - exact Hrep.
Defined.
