(* ===== verification/Vfs.v ===== *)
(** * The virtual file system (src/fs/vfs/vfs.c, src/fs/vfs/mount.c, src/fs/vfs/vfs.h,
      src/util/tree.c)

    The mount tree as an inductive tree whose nodes carry the entry's name and
    file, the operations that go through a node's function pointers, and path
    resolution.  Names are strings as values; comparing them is the [strcmp] of
    Strings.v (equal and not empty).  A file system is a parameter: the functions
    its nodes point to. *)

From S2P Require Import Prelude Strings.

(** ** The mount tree *)

Abbreviation name := (list Z).

(** [strcmp(a, b) == 0]. *)
Definition str_eq (a b : name) : bool := bool_decide (a = b) && negb (bool_decide (a = [])).

(** The comparison is the one the verified routine makes. *)
Lemma str_eq_strcmp {H} (s : smem H) p q a b :
  cstr (bytes s) p a -> cstr (bytes s) q b ->
  exists r, strcmp p q s = Ok (r, s) /\ (r =? 0) = str_eq a b.
Proof.
  intros Ha Hb. destruct (wp_Ok _ _ _ (strcmp_wp s p q a b Ha Hb)) as (r & s' & Hr & -> & Hiff).
  exists r. split; [done|]. unfold str_eq. repeat case_bool_decide; destruct (Z.eqb_spec r 0); naive_solver.
Qed.

(** A tree node with its [vfs_ent_t] (name and file; 0 is the null file) and its
    children in list order. *)
Inductive vtree : Type :=
  | VNode (ename : name) (efile : Z) (children : list vtree).

Definition ename (t : vtree) : name := let 'VNode n _ _ := t in n.
Definition efile (t : vtree) : Z := let 'VNode _ f _ := t in f.
Definition children (t : vtree) : list vtree := let 'VNode _ _ c := t in c.

(** [vfs_init]: [tree_create] and an entry named "root" without a file. *)
Definition vfs_init : vtree := VNode [114; 111; 111; 116] 0 [].

(** The loop over the children: the first one with the name. *)
Fixpoint find_child (n : name) (cs : list vtree) : option (list vtree * vtree * list vtree) :=
  match cs with
  | [] => None
  | c :: cs' =>
      if str_eq (ename c) n then Some ([], c, cs')
      else match find_child n cs' with
           | Some (l, d, r) => Some (c :: l, d, r)
           | None => None
           end
  end.

(** [tree_insert] of a fresh entry ([kmalloc] zeroes its file). *)
Definition tree_node_create (n : name) : vtree := VNode n 0 [].
Definition tree_insert (t : vtree) (c : vtree) : vtree := VNode (ename t) (efile t) (children t ++ [c]).

Fixpoint vfs_mount_recur (parts : list name) (dev : Z) (node : vtree) : vtree :=
  match parts with
  | [] => VNode (ename node) dev (children node)
  | n :: parts' =>
      match find_child n (children node) with
      | Some (l, c, r) => VNode (ename node) (efile node) (l ++ vfs_mount_recur parts' dev c :: r)
      | None => tree_insert node (vfs_mount_recur parts' dev (tree_node_create n))
      end
  end.

Definition vfs_mount (dev : Z) (parts : list name) (root : vtree) : vtree :=
  match parts with
  | [] => VNode (ename root) dev (children root)
  | _ => vfs_mount_recur parts dev root
  end.

(** The tokens are those successive [strtok] calls give. *)
Fixpoint vfs_get_mountpoint_recur (node : vtree) (tokens : list name) : Z :=
  match tokens with
  | [] => efile node
  | t :: ts =>
      match find_child t (children node) with
      | Some (_, c, _) => vfs_get_mountpoint_recur c ts
      | None => efile node
      end
  end.

Definition vfs_get_mountpoint (root : vtree) (tokens : list name) : Z :=
  match tokens with
  | [] => efile root
  | _ => vfs_get_mountpoint_recur root tokens
  end.

(** ** Nodes and their operations *)

Definition FS_CHARDEV : Z := 4.
Definition FS_BLKDEV : Z := 8.

(** [fs_fd_t]. *)
Record fs_fd : Type := mk_fd { fd_node : Z; fd_pos : Z; fd_flags : Z; fd_mode : Z }.

(** The function pointers of a [vfs_node_t] over a state [St]; [None] is a null
    pointer. *)
Record vfs_ops (St : Type) : Type := mk_vfs_ops {
  op_open : option (Z -> Z -> M St Z);
  op_read : option (Z -> Z -> Z -> M St Z);
  op_write : option (Z -> Z -> Z -> M St Z);
  op_close : option (M St ());
  op_finddir : option (name -> M St Z);
  op_listdir : option (M St Z);
  op_mkfile : option (name -> M St ());
  op_mkdir : option (name -> M St ());
  op_ioctl : option (Z -> Z -> M St Z);
  op_mmap : option (Z -> Z -> Z -> Z -> Z -> Z -> M St Z);
}.
Arguments mk_vfs_ops {St}.
Arguments op_open {St}. Arguments op_read {St}. Arguments op_write {St}. Arguments op_close {St}.
Arguments op_finddir {St}. Arguments op_listdir {St}. Arguments op_mkfile {St}. Arguments op_mkdir {St}.
Arguments op_ioctl {St}. Arguments op_mmap {St}.

(** What the VFS needs of the rest of the kernel: the operations, flags and size of the
    node at an address, and freeing memory. *)
Class VfsNodes (St : Type) : Type := {
  node_ops : Z -> vfs_ops St;
  node_flags : Z -> Z;
  node_size : Z -> Z;
  node_free : Z -> M St ();
}.

(** File descriptors are heap objects: allocated, read and freed by address. *)
Class VfsFds (St : Type) : Type := {
  fd_alloc : fs_fd -> M St Z;
  fd_load : Z -> M St fs_fd;
  fd_free : Z -> M St ();
}.

Section ops.
Context {St : Type} `{VfsNodes St}.

Definition vfs_open `{VfsFds St} (file flags mode : Z) : M St Z :=
  match op_open (node_ops file) with
  | Some f => f flags mode
  | None => fd_alloc (mk_fd file 0 flags mode)
  end.

Definition vfs_close `{VfsFds St} (file : Z) : M St () :=
  fd ← fd_load file;
  (match op_close (node_ops (fd_node fd)) with Some f => f | None => mret () end);;
  fd_free file.

Definition vfs_read (file ptr off size : Z) : M St Z :=
  match op_read (node_ops file) with Some f => f ptr off size | None => mret 0 end.
Definition vfs_write (file ptr off size : Z) : M St Z :=
  match op_write (node_ops file) with Some f => f ptr off size | None => mret 0 end.
Definition vfs_listdir (dir : Z) : M St Z :=
  match op_listdir (node_ops dir) with Some f => f | None => mret 0 end.
Definition vfs_mkfile (parent : Z) (n : name) : M St () :=
  match op_mkfile (node_ops parent) with Some f => f n | None => mret () end.
Definition vfs_mkdir (parent : Z) (n : name) : M St () :=
  match op_mkdir (node_ops parent) with Some f => f n | None => mret () end.
Definition vfs_ioctl (file request argp : Z) : M St Z :=
  match op_ioctl (node_ops file) with Some f => f request argp | None => mret 0 end.

(** The walk of [vfs_resolve_path]; a null [finddir] is a call through null. *)
Fixpoint resolve_walk (mount node : Z) (tokens : list name) : M St Z :=
  match tokens with
  | [] => mret node
  | t :: ts =>
      f ← unwrap (op_finddir (node_ops node)) NullDeref;
      next ← f t;
      if next =? 0 then mret 0 else
      (if negb (node =? mount) then node_free node else mret ());;
      resolve_walk mount next ts
  end.

(** [tokens] are the components of the canonical path. *)
Definition vfs_resolve_path (root : vtree) (tokens : list name) : M St Z :=
  let mount := vfs_get_mountpoint root tokens in
  guard (truth mount) NullDeref;;
  if (node_flags mount =? FS_BLKDEV) || (node_flags mount =? FS_CHARDEV) then mret mount
  else resolve_walk mount mount tokens.

Definition vfs_stat (root : vtree) (tokens : list name) : M St Z :=
  node ← vfs_resolve_path root tokens;
  mret (if node =? 0 then -1 else 0).
End ops.

(** ** Properties of the mount tree *)

Lemma str_eq_refl n : n <> [] -> str_eq n n = true.
Proof. intros. unfold str_eq. by rewrite bool_decide_true, bool_decide_false. Qed.
Lemma str_eq_true a b : str_eq a b = true <-> a = b /\ a <> [].
Proof. unfold str_eq. repeat case_bool_decide; naive_solver. Qed.

Lemma find_child_app n l c r :
  (forall d, d ∈ l -> str_eq (ename d) n = false) -> str_eq (ename c) n = true ->
  find_child n (l ++ c :: r) = Some (l, c, r).
Proof.
  induction l as [|d l IH]; simpl; intros Hl Hc; [by rewrite Hc|].
  rewrite (Hl d) by (by left). rewrite IH; [done| |done]. intros e He. apply Hl. by right.
Qed.

Lemma find_child_Some n cs l c r :
  find_child n cs = Some (l, c, r) ->
  cs = l ++ c :: r /\ str_eq (ename c) n = true /\ forall d, d ∈ l -> str_eq (ename d) n = false.
Proof.
  revert l. induction cs as [|d cs IH]; intros l; simpl; [done|].
  destruct (str_eq (ename d) n) eqn:Hd.
  - intros [= <- <- <-]. split_and!; try done. by intros e ?%elem_of_nil.
  - destruct (find_child n cs) as [[[l' d'] r']|]; [|done]. intros [= <- <- <-].
    destruct (IH l' eq_refl) as (-> & Hc & Hl). split_and!; try done.
    intros e [->|He]%elem_of_cons; auto.
Qed.

Lemma find_child_None n cs :
  find_child n cs = None -> forall d, d ∈ cs -> str_eq (ename d) n = false.
Proof.
  induction cs as [|d cs IH]; simpl; [by intros _ d ?%elem_of_nil|].
  destruct (str_eq (ename d) n) eqn:Hd; [done|].
  destruct (find_child n cs) as [[[]]|]; [done|]. intros _ e [->|He]%elem_of_cons; auto.
Qed.

Lemma ename_mount parts dev t : ename (vfs_mount_recur parts dev t) = ename t.
Proof. destruct parts; [done|]. simpl. by destruct (find_child _ _) as [[[]]|]. Qed.

(** What mounting does to the children a token selects. *)
Lemma find_child_mount_same n parts dev t :
  n <> [] -> exists l c r,
    find_child n (children (vfs_mount_recur (n :: parts) dev t)) = Some (l, vfs_mount_recur parts dev c, r) /\
    ((exists l0 r0, find_child n (children t) = Some (l0, c, r0)) \/
     (find_child n (children t) = None /\ c = tree_node_create n)).
Proof.
  intros Hn. simpl. destruct (find_child n (children t)) as [[[l c] r]|] eqn:Hf; simpl.
  - apply find_child_Some in Hf as (_ & Hc & Hl). exists l, c, r. split; [|by eauto].
    apply find_child_app; [done|]. by rewrite ename_mount.
  - exists (children t), (tree_node_create n), []. split; [|by eauto].
    apply find_child_app; [by apply find_child_None|]. rewrite ename_mount. by apply str_eq_refl.
Qed.

Lemma find_child_insert_other n m l c c' r :
  n <> m -> str_eq (ename c) m = true -> ename c' = ename c ->
  match find_child n (l ++ c :: r) with
  | Some (_, d, _) => exists l' r', find_child n (l ++ c' :: r) = Some (l', d, r')
  | None => find_child n (l ++ c' :: r) = None
  end.
Proof.
  intros Hne Hc Hn.
  assert (str_eq (ename c) n = false) as Hcn.
  { destruct (str_eq (ename c) n) eqn:E; [|done]. apply str_eq_true in E as [E _].
    apply str_eq_true in Hc as [Hc _]. congruence. }
  induction l as [|x l IH]; simpl.
  - rewrite Hn, Hcn. destruct (find_child n r) as [[[l' d] r']|]; eauto.
  - destruct (str_eq (ename x) n); [by eauto|].
    destruct (find_child n (l ++ c :: r)) as [[[l' d] r']|];
      [destruct IH as (l'' & r'' & ->); eauto|by rewrite IH].
Qed.

Lemma find_child_snoc_other n m l c :
  n <> m -> str_eq (ename c) m = true ->
  match find_child n l with
  | Some (_, d, _) => exists l' r', find_child n (l ++ [c]) = Some (l', d, r')
  | None => find_child n (l ++ [c]) = None
  end.
Proof.
  intros Hne Hc. assert (str_eq (ename c) n = false) as Hcn.
  { destruct (str_eq (ename c) n) eqn:E; [|done]. apply str_eq_true in E as [E _].
    apply str_eq_true in Hc as [Hc _]. congruence. }
  induction l as [|x l IH]; simpl; [by rewrite Hcn|].
  destruct (str_eq (ename x) n); [by eauto|].
  destruct (find_child n l) as [[[l' d] r']|]; [destruct IH as (l'' & r'' & ->); eauto|by rewrite IH].
Qed.

(** A token other than the first of the mount path selects the same child. *)
Lemma find_child_mount_other n m parts dev t :
  n <> m -> m <> [] ->
  match find_child n (children t) with
  | Some (_, d, _) => exists l' r', find_child n (children (vfs_mount_recur (m :: parts) dev t)) = Some (l', d, r')
  | None => find_child n (children (vfs_mount_recur (m :: parts) dev t)) = None
  end.
Proof.
  intros Hne Hm. simpl. destruct (find_child m (children t)) as [[[l c] r]|] eqn:Hf; simpl.
  - apply find_child_Some in Hf as (-> & Hc & _). eapply find_child_insert_other; [done|done|].
    apply ename_mount.
  - eapply find_child_snoc_other; [done|]. rewrite ename_mount. by apply str_eq_refl.
Qed.

(** The node at a path, if all its components exist. *)
Fixpoint subtree (t : vtree) (ps : list name) : option vtree :=
  match ps with
  | [] => Some t
  | p :: ps' => match find_child p (children t) with
                | Some (_, c, _) => subtree c ps'
                | None => None
                end
  end.

Abbreviation named := (Forall (fun n : name => n <> [])).

Lemma vfs_mount_recur_eq dev ps t : vfs_mount dev ps t = vfs_mount_recur ps dev t.
Proof. by destruct ps. Qed.
Lemma vfs_get_mountpoint_recur_eq t ts : vfs_get_mountpoint t ts = vfs_get_mountpoint_recur t ts.
Proof. by destruct ts. Qed.

Lemma efile_mount_cons p ps dev t : efile (vfs_mount_recur (p :: ps) dev t) = efile t.
Proof. simpl. by destruct (find_child _ _) as [[[]]|]. Qed.

Lemma subtree_fresh_cons n ps : ps <> [] -> subtree (tree_node_create n) ps = None.
Proof. by destruct ps. Qed.

Lemma mount_recur_below ps rest dev t :
  named ps -> (subtree t ps = None \/ exists c, subtree t ps = Some c /\ vfs_get_mountpoint_recur (VNode (ename c) dev (children c)) rest = dev) ->
  vfs_get_mountpoint_recur (vfs_mount_recur ps dev t) (ps ++ rest) = dev.
Proof.
  intros Hn. revert t. induction Hn as [|p ps Hp Hps IH]; intros t Hs.
  { destruct Hs as [|(c & [= <-] & Hc)]; [done|]. exact Hc. }
  destruct (find_child_mount_same p ps dev t Hp) as (l & c & r & Hf & Hc).
  simpl app. simpl vfs_get_mountpoint_recur. simpl in Hf. rewrite Hf. apply IH. simpl in Hs.
  destruct Hc as [(l0 & r0 & Hc)|[Hc ->]]; rewrite Hc in Hs; [done|].
  destruct ps as [|p' ps]; [|by left]. right. eexists. split; [done|]. simpl. by destruct rest.
Qed.

Lemma mount_recur_diverge pre p ps q qs dev t :
  named (pre ++ p :: ps) -> p <> q ->
  vfs_get_mountpoint_recur (vfs_mount_recur (pre ++ p :: ps) dev t) (pre ++ q :: qs) =
  match subtree t pre with
  | Some c => vfs_get_mountpoint_recur t (pre ++ q :: qs)
  | None => 0
  end.
Proof.
  intros Hn Hpq. revert t. induction pre as [|x pre IH]; intros t; simpl app.
  - assert (p <> []) as Hp by (by inversion Hn).
    pose proof (find_child_mount_other q p ps dev t (not_eq_sym Hpq) Hp) as Hother.
    cbn [subtree vfs_get_mountpoint_recur].
    destruct (find_child q (children t)) as [[[l d] r]|].
    + destruct Hother as (l' & r' & ->). done.
    + rewrite Hother. apply efile_mount_cons.
  - apply Forall_cons in Hn as [Hx Hn].
    destruct (find_child_mount_same x (pre ++ p :: ps) dev t Hx) as (l & c & r & Hf & Hc).
    cbn [vfs_get_mountpoint_recur subtree]. rewrite Hf, IH by done.
    destruct Hc as [(l0 & r0 & ->)|[-> ->]]; [done|].
    destruct pre as [|y pre]; [|done]. simpl. done.
Qed.

(** After mounting a device at a path that was not in the tree, that path and
    everything below it resolve to the device. *)
Theorem mount_then_lookup dev ps rest root :
  named ps -> subtree root ps = None ->
  vfs_get_mountpoint (vfs_mount dev ps root) (ps ++ rest) = dev.
Proof.
  intros Hn Hs. rewrite vfs_mount_recur_eq, vfs_get_mountpoint_recur_eq. apply mount_recur_below; auto.
Qed.

Lemma mount_then_lookup_witness :
  vfs_get_mountpoint (vfs_mount 5 [[100]; [116]] vfs_init) ([[100]; [116]] ++ [[120]]) = 5.
Proof. apply (mount_then_lookup 5 [[100]; [116]] [[120]]); [repeat constructor; discriminate|reflexivity]. Defined.

(** A mount does not change what a path resolves to that leaves the mount
    path at a node which already existed. *)
Theorem mount_elsewhere_unchanged dev pre p ps q qs root :
  named (pre ++ p :: ps) -> p <> q -> is_Some (subtree root pre) ->
  vfs_get_mountpoint (vfs_mount dev (pre ++ p :: ps) root) (pre ++ q :: qs) =
  vfs_get_mountpoint root (pre ++ q :: qs).
Proof.
  intros Hn Hpq [c Hc]. rewrite vfs_mount_recur_eq, !vfs_get_mountpoint_recur_eq.
  rewrite mount_recur_diverge by done. by rewrite Hc.
Qed.

Lemma mount_elsewhere_unchanged_witness :
  vfs_get_mountpoint (vfs_mount 5 ([] ++ [100] :: [[116]]) (vfs_mount 1 [] vfs_init)) ([] ++ [101] :: []) =
  vfs_get_mountpoint (vfs_mount 1 [] vfs_init) ([] ++ [101] :: []).
Proof.
  apply (mount_elsewhere_unchanged 5 [] [100] [[116]] [101] []);
    [repeat constructor; discriminate|discriminate|exists (vfs_mount 1 [] vfs_init); reflexivity].
Defined.

Section resolve.
Context {St : Type} `{VfsNodes St}.

(** A mount hides the file system above it for every other path through the
    directories it had to create: those directories have no file, and resolving
    such a path dereferences a null mount point. *)
Theorem mount_shadows_parent dev pre p ps q qs root (s : St) :
  named (pre ++ p :: ps) -> p <> q -> subtree root pre = None ->
  vfs_resolve_path (vfs_mount dev (pre ++ p :: ps) root) (pre ++ q :: qs) s = Err NullDeref.
Proof.
  intros Hn Hpq Hs. unfold vfs_resolve_path.
  rewrite vfs_mount_recur_eq, vfs_get_mountpoint_recur_eq, mount_recur_diverge, Hs by done. done.
Qed.

(** Below a mount point that is not the root, path resolution starts from the
    first component of the whole path again: when the mounted file system has no
    entry with the name of its own mount directory, nothing in it is found. *)
Theorem resolve_restarts_below_mount dev mnt rest root (s s' : St) f :
  mnt <> [] -> subtree root [mnt] = None -> dev <> 0 ->
  node_flags dev <> FS_BLKDEV -> node_flags dev <> FS_CHARDEV ->
  op_finddir (node_ops dev) = Some f -> f mnt s = Ok (0, s') ->
  vfs_resolve_path (vfs_mount dev [mnt] root) (mnt :: rest) s = Ok (0, s').
Proof.
  intros Hm Hs Hd Hb Hc Hf Hnone. unfold vfs_resolve_path.
  rewrite vfs_mount_recur_eq, vfs_get_mountpoint_recur_eq.
  pose proof (mount_recur_below [mnt] rest dev root ltac:(by repeat constructor) (or_introl Hs)) as Hlook.
  cbn [app] in Hlook. rewrite Hlook.
  unfold bindM, guard. rewrite (proj2 (truth_true dev)) by done.
  rewrite (proj2 (Z.eqb_neq _ _) Hb), (proj2 (Z.eqb_neq _ _) Hc). simpl.
  unfold bindM, unwrap. rewrite Hf. simpl. by rewrite Hnone.
Qed.

(** What resolution should do below a mount point: look up one component after
    the other. *)
Fixpoint lookup_all (fd : Z -> name -> Z) (node : Z) (ts : list name) : Z :=
  match ts with
  | [] => node
  | t :: ts' => let n := fd node t in if n =? 0 then 0 else lookup_all fd n ts'
  end.

(** With only the root file system mounted, resolving a path looks up its
    components one after the other, from the root, and ends with the node found
    or with null as soon as one does not exist. *)
Theorem resolve_root_mount (fd : Z -> name -> Z) dev tokens root (s : St) :
  children root = [] -> dev <> 0 -> node_flags dev <> FS_BLKDEV -> node_flags dev <> FS_CHARDEV ->
  (forall n s, node_free n s = Ok ((), s)) ->
  (forall n, op_finddir (node_ops n) = Some (fun t => mret (fd n t))) ->
  vfs_resolve_path (vfs_mount dev [] root) tokens s = Ok (lookup_all fd dev tokens, s).
Proof.
  intros Hch Hd Hb Hc Hfree Hops. unfold vfs_resolve_path.
  assert (vfs_get_mountpoint (vfs_mount dev [] root) tokens = dev) as ->.
  { rewrite vfs_get_mountpoint_recur_eq. destruct tokens; [done|]. simpl. by rewrite Hch. }
  unfold bindM at 1, guard. rewrite (proj2 (truth_true dev)) by done.
  rewrite (proj2 (Z.eqb_neq _ _) Hb), (proj2 (Z.eqb_neq _ _) Hc). simpl.
  assert (forall node, resolve_walk dev node tokens s = Ok (lookup_all fd node tokens, s)) as Hwalk; [|apply Hwalk].
  induction tokens as [|t ts IH]; intros node; [done|]. simpl. unfold bindM, unwrap. rewrite Hops. simpl.
  destruct (fd node t =? 0) eqn:E; simpl; [done|].
  destruct (node =? dev); simpl; [apply IH|]. rewrite Hfree. apply IH.
Qed.
End resolve.

(** A file system in which every directory has one entry, "a", for the examples. *)
Definition demo_fd (n : Z) (t : name) : Z := if bool_decide (t = [97]) then n + 1 else 0.
Definition demo_nodes : VfsNodes () := {|
  node_ops n := mk_vfs_ops None None None None (Some (fun t => mret (demo_fd n t))) None None None None None;
  node_flags _ := 2;
  node_size _ := 0;
  node_free _ := mret ();
|}.

Lemma mount_shadows_parent_witness :
  vfs_resolve_path (H := demo_nodes) (vfs_mount 5 ([[100]] ++ [116] :: []) (vfs_mount 1 [] vfs_init))
    ([[100]] ++ [97] :: []) () = Err NullDeref.
Proof.
  apply (mount_shadows_parent (H := demo_nodes) 5 [[100]] [116] [] [97] []);
    [repeat constructor; discriminate|discriminate|reflexivity].
Defined.

Lemma resolve_restarts_below_mount_witness :
  vfs_resolve_path (H := demo_nodes) (vfs_mount 5 [[109]] (vfs_mount 1 [] vfs_init)) [[109]; [97]] ()
  = Ok (0, ()).
Proof.
  apply (resolve_restarts_below_mount (H := demo_nodes) 5 [109] [[97]] _ () () (fun t => mret (demo_fd 5 t)));
    first [discriminate | reflexivity].
Defined.

Lemma resolve_root_mount_witness :
  vfs_resolve_path (H := demo_nodes) (vfs_mount 1 [] vfs_init) [[97]; [97]] () = Ok (3, ()).
Proof.
  apply (resolve_root_mount (H := demo_nodes) demo_fd 1 [[97]; [97]] vfs_init ());
    first [discriminate | reflexivity | intros n []; reflexivity | intros n; reflexivity].
Defined.
