(* ===== verification/Tree.v ===== *)
(** * Trees on the heap (src/util/tree.c, src/fs/vfs/mount.c)

    The mount tree as the code keeps it: tree nodes, entries and lists of children as
    records of the kernel heap.  [rep] relates such a tree to the inductive tree of
    [Vfs]; [vfs_mount_recur] and [vfs_get_mountpoint] on the heap are shown to be the
    functions on the inductive tree. *)

From S2P Require Import Prelude Alloc Kheap DList Strings Vfs.

(** [tree_node_t] and [vfs_ent_t]. *)
Record tnode : Type := mk_tnode { t_children : Z; t_data : Z; t_parent : Z }.
Record vent : Type := mk_vent { ent_name : Z; ent_file : Z }.

Definition set_tchildren (v : Z) (n : tnode) := mk_tnode v (t_data n) (t_parent n).
Definition set_tdata (v : Z) (n : tnode) := mk_tnode (t_children n) v (t_parent n).
Definition set_tparent (v : Z) (n : tnode) := mk_tnode (t_children n) (t_data n) v.

(** The memory: lists, tree nodes, trees (their root pointers), entries and strings, by
    address.  A record used at another type is a fault. *)
Record tmem (H : Type) : Type := mk_tmem {
  t_lm : lmem H; t_nodes : gmap Z tnode; t_trees : gmap Z Z; t_ents : gmap Z vent; t_strs : gmap Z (list Z);
}.
Arguments mk_tmem {H}. Arguments t_lm {H}. Arguments t_nodes {H}. Arguments t_trees {H}.
Arguments t_ents {H}. Arguments t_strs {H}.

Section ops.
Context {H : Type} `{KAlloc H}.
Abbreviation T := (M (tmem H)).
Implicit Types s : tmem H.

Definition upd_tlm (l : lmem H) s : tmem H := mk_tmem l (t_nodes s) (t_trees s) (t_ents s) (t_strs s).
Definition upd_tnodes (f : gmap Z tnode -> gmap Z tnode) s : tmem H :=
  mk_tmem (t_lm s) (f (t_nodes s)) (t_trees s) (t_ents s) (t_strs s).
Definition upd_trees (f : gmap Z Z -> gmap Z Z) s : tmem H :=
  mk_tmem (t_lm s) (t_nodes s) (f (t_trees s)) (t_ents s) (t_strs s).
Definition upd_ents (f : gmap Z vent -> gmap Z vent) s : tmem H :=
  mk_tmem (t_lm s) (t_nodes s) (t_trees s) (f (t_ents s)) (t_strs s).
Definition upd_strs (f : gmap Z (list Z) -> gmap Z (list Z)) s : tmem H :=
  mk_tmem (t_lm s) (t_nodes s) (t_trees s) (t_ents s) (f (t_strs s)).

Definition with_tl {A} (m : M (lmem H) A) : T A := fun s =>
  match m (t_lm s) with Ok (a, l) => Ok (a, upd_tlm l s) | Err f => Err f end.
(** [kmalloc] zeroes what it delivers. *)
Definition tmalloc (n : Z) : T Z := with_tl (with_heap (ka_malloc n)).

Definition trd {A} (f : tnode -> A) (p : Z) : T A :=
  guard (truth p) NullDeref;; s ← get; unwrap (f <$> t_nodes s !! p) OutOfBounds.
Definition twr (f : tnode -> tnode) (p : Z) : T () :=
  n ← trd id p; modify (upd_tnodes (insert p (f n))).
Definition erd (p : Z) : T vent :=
  guard (truth p) NullDeref;; s ← get; unwrap (t_ents s !! p) OutOfBounds.
Definition ewr (p : Z) (e : vent) : T () := _ ← erd p; modify (upd_ents (insert p e)).
Definition srd (p : Z) : T (list Z) :=
  guard (truth p) NullDeref;; s ← get; unwrap (t_strs s !! p) OutOfBounds.
Definition new_string (str : list Z) : T Z :=
  p ← tmalloc (Z.of_nat (length str) + 1); modify (upd_strs (insert p str));; mret p.

(** ** tree.c *)

Definition TREE_NODE_SIZE : Z := 24.
Definition TREE_SIZE : Z := 8.

Definition new_tnode : T Z :=
  p ← tmalloc TREE_NODE_SIZE; modify (upd_tnodes (insert p (mk_tnode 0 0 0)));; mret p.

Definition new_tree : T Z :=
  p ← tmalloc TREE_SIZE; modify (upd_trees (insert p 0));; mret p.

Definition tree_create : T Z :=
  tree ← new_tree;
  root ← new_tnode;
  modify (upd_trees (insert tree root));;
  c ← with_tl list_create;
  twr (set_tchildren c) root;;
  twr (set_tparent 0) root;;
  mret tree.

(** Only the tree's own record is freed. *)
Definition tree_destroy (tree : Z) : T () :=
  with_tl (with_heap (ka_free tree));; modify (upd_trees (delete tree)).

Definition tree_node_create (data : Z) : T Z :=
  node ← new_tnode;
  twr (set_tdata data) node;;
  c ← with_tl list_create;
  twr (set_tchildren c) node;;
  mret node.

Definition tree_insert (parent data : Z) : T Z :=
  node ← tree_node_create data;
  twr (set_tparent parent) node;;
  c ← trd t_children parent;
  with_tl (list_push_back c node);;
  mret node.

(** [list_foreach]: the loop body may leave with a result. *)
Definition foreach_in {A} (list : Z) (f : Z -> T (option A)) : T (option A) :=
  h ← with_tl (lrd head list);
  s ← get;
  while_ (N.of_nat (S (size (nodes (t_lm s))))) (fun node =>
    if node =? 0 then mret (inr None) else
    r ← f node;
    match r with
    | Some a => mret (inr (Some a))
    | None => n ← with_tl (nrd nnext node); mret (inl n)
    end) h.

(** [tree_remove_recur] compares the children of the root with the node and does
    nothing about it; neither function returns a value. *)
Definition tree_remove_recur (parent remove_node : Z) : T () :=
  c ← trd t_children parent;
  _ ← foreach_in c (fun node => mret (if node =? remove_node then None else @None ()));
  mret ().
Definition tree_remove (tree node : Z) : T () :=
  s ← get; root ← unwrap (t_trees s !! tree) OutOfBounds; tree_remove_recur root node.

(** [tree_node_destroy(tree, child)] is called on the list nodes, not on the tree nodes
    they hold. *)
Fixpoint tree_node_destroy (fuel : nat) (node : Z) : T Z :=
  match fuel with
  | O => fun _ => Err Hang
  | S fuel' =>
      c ← trd t_children node;
      _ ← foreach_in c (fun child => _ ← tree_node_destroy fuel' child; mret (@None ()));
      data ← trd t_data node;
      c' ← trd t_children node;
      with_tl (list_destroy c');;
      with_tl (with_heap (ka_free node));;
      modify (upd_tnodes (delete node));;
      mret data
  end.

(** ** mount.c on the tree *)

Definition ENT_SIZE : Z := 16.
Definition new_ent : T Z :=
  p ← tmalloc ENT_SIZE; modify (upd_ents (insert p (mk_vent 0 0)));; mret p.

(** [vfs_init]; the result is [vfs_tree]. *)
Definition tree_vfs_init : T Z :=
  tree ← tree_create;
  root ← new_ent;
  n ← new_string [114; 111; 111; 116];
  e ← erd root; ewr root (mk_vent n (ent_file e));;
  e' ← erd root; ewr root (mk_vent (ent_name e') 0);;
  s ← get;
  r ← unwrap (t_trees s !! tree) OutOfBounds;
  twr (set_tdata root) r;;
  mret tree.

(** The loop over the children: the tree node whose entry has the name. *)
Definition tree_find (node : Z) (name : list Z) : T (option Z) :=
  c ← trd t_children node;
  foreach_in c (fun child =>
    tnode ← with_tl (nrd nval child);
    d ← trd t_data tnode;
    e ← erd d;
    str ← srd (ent_name e);
    mret (if str_eq str name then Some tnode else None)).

Fixpoint tree_mount_recur (fuel : nat) (parts node dev depth : Z) : T () :=
  match fuel with
  | O => fun _ => Err Hang
  | S fuel' =>
      c ← with_tl (lrd cnt parts);
      if c =? depth then
        d ← trd t_data node; e ← erd d; ewr d (mk_vent (ent_name e) dev)
      else
        ln ← with_tl (list_get parts depth);
        np ← with_tl (nrd nval ln);
        name ← srd np;
        found ← tree_find node name;
        next ← match found with
               | Some t => mret t
               | None =>
                   ent ← new_ent;
                   str ← srd np;
                   n ← new_string str;
                   e ← erd ent; ewr ent (mk_vent n (ent_file e));;
                   tree_insert node ent
               end;
        tree_mount_recur fuel' parts next dev (u32 (depth + 1))
  end.

(** [vfs_mount], between making the path and destroying it. *)
Definition tree_mount (fuel : nat) (tree parts dev : Z) : T () :=
  c ← with_tl (lrd cnt parts);
  s ← get; root ← unwrap (t_trees s !! tree) OutOfBounds;
  if c =? 0 then d ← trd t_data root; e ← erd d; ewr d (mk_vent (ent_name e) dev)
  else tree_mount_recur fuel parts root dev 0.

(** The tokens are those successive [strtok] calls give. *)
Fixpoint tree_get_mountpoint_recur (node : Z) (tokens : list name) : T Z :=
  match tokens with
  | [] => d ← trd t_data node; e ← erd d; mret (ent_file e)
  | t :: ts =>
      found ← tree_find node t;
      match found with
      | Some n => tree_get_mountpoint_recur n ts
      | None => d ← trd t_data node; e ← erd d; mret (ent_file e)
      end
  end.
Definition tree_get_mountpoint (tree : Z) (tokens : list name) : T Z :=
  s ← get; root ← unwrap (t_trees s !! tree) OutOfBounds;
  match tokens with
  | [] => d ← trd t_data root; e ← erd d; mret (ent_file e)
  | _ => tree_get_mountpoint_recur root tokens
  end.
End ops.

(** ** Objects by kind and address *)

Inductive kind : Type := KNode | KEnt | KStr | KTree | KList | KLNode.
#[export] Instance kind_eq_dec : EqDecision kind.
Proof. solve_decision. Defined.
Inductive obj : Type := ONode (n : tnode) | OEnt (e : vent) | OStr (l : list Z) | OTree (r : Z) | OList (l : list_t) | OLNode (n : list_node).

Section rep.
Context {H : Type} {K : KAlloc H}.
Implicit Types s : tmem H.

Definition at_ s (x : kind * Z) : option obj :=
  match x.1 with
  | KNode => ONode <$> t_nodes s !! x.2 | KEnt => OEnt <$> t_ents s !! x.2 | KStr => OStr <$> t_strs s !! x.2
  | KTree => OTree <$> t_trees s !! x.2 | KList => OList <$> lists (t_lm s) !! x.2 | KLNode => OLNode <$> nodes (t_lm s) !! x.2
  end.
Definition live s x : Prop := is_Some (at_ s x).
(** Of what there was in [s], nothing but [A] has changed. *)
Definition keeps s s' (A : list (kind * Z)) : Prop := forall x, live s x -> x ∉ A -> at_ s' x = at_ s x.

(** A tree with its addresses: of the list node that holds it, the tree node, the list of
    its children, its entry and the entry's name. *)
Inductive ptree : Type := PNode (ln a la e sa : Z) (n : name) (f : Z) (cs : list ptree).
Definition pln (t : ptree) : Z := let 'PNode ln _ _ _ _ _ _ _ := t in ln.
Definition paddr (t : ptree) : Z := let 'PNode _ a _ _ _ _ _ _ := t in a.
Definition pname (t : ptree) : name := let 'PNode _ _ _ _ _ n _ _ := t in n.
Definition pcs (t : ptree) : list ptree := let 'PNode _ _ _ _ _ _ _ cs := t in cs.

Fixpoint perase (t : ptree) : vtree := let 'PNode _ _ _ _ _ n f cs := t in VNode n f (perase <$> cs).
(** The records it is made of; the list node belongs to the list of its parent. *)
Fixpoint fp (t : ptree) : list (kind * Z) :=
  let 'PNode _ a la e sa _ _ cs := t in
  (KNode, a) :: (KList, la) :: (KEnt, e) :: (KStr, sa) :: flat_map (fun c => (KLNode, pln c) :: fp c) cs.
Definition fps (cs : list ptree) : list (kind * Z) := flat_map (fun c => (KLNode, pln c) :: fp c) cs.
Definition held (c : ptree) : Z * Z := (pln c, paddr c).

Fixpoint rep s (par : Z) (t : ptree) : Prop :=
  let 'PNode _ a la e sa n f cs := t in
  a <> 0 /\ e <> 0 /\ sa <> 0 /\ t_nodes s !! a = Some (mk_tnode la e par) /\ t_ents s !! e = Some (mk_vent sa f) /\
  t_strs s !! sa = Some n /\ list_rep (t_lm s) la (held <$> cs) (Z.of_nat (length cs)) /\
  foldr (fun c P => rep s a c /\ P) True cs.

Lemma foldr_and {A} (P : A -> Prop) l : foldr (fun c Q => P c /\ Q) True l <-> Forall P l.
Proof. induction l as [|x l IH]; simpl; [split; [constructor|done]|]. by rewrite Forall_cons, IH. Qed.

Lemma rep_node s par ln a la e sa n f cs :
  rep s par (PNode ln a la e sa n f cs) <->
  a <> 0 /\ e <> 0 /\ sa <> 0 /\ t_nodes s !! a = Some (mk_tnode la e par) /\ t_ents s !! e = Some (mk_vent sa f) /\
  t_strs s !! sa = Some n /\ list_rep (t_lm s) la (held <$> cs) (Z.of_nat (length cs)) /\ Forall (rep s a) cs.
Proof. cbn [rep]. by rewrite foldr_and. Qed.

Section ptree_ind.
Context (P : ptree -> Prop) (HP : forall ln a la e sa n f cs, Forall P cs -> P (PNode ln a la e sa n f cs)).
Fixpoint ptree_all (t : ptree) : P t :=
  match t with
  | PNode ln a la e sa n f cs =>
      HP ln a la e sa n f cs ((fix all (cs : list ptree) : Forall P cs :=
        match cs with [] => List.Forall_nil P | c :: r => List.Forall_cons P c r (ptree_all c) (all r) end) cs)
  end.
End ptree_ind.

Lemma fp_child c cs : c ∈ cs -> forall x, x ∈ fp c -> x ∈ fps cs.
Proof.
  intros Hc x Hx. unfold fps. apply list_elem_of_In, in_flat_map. exists c. rewrite <-!list_elem_of_In.
  split; [done|by right].
Qed.
Lemma fp_lnode c cs : c ∈ cs -> (KLNode, pln c) ∈ fps cs.
Proof. intros Hc. unfold fps. apply list_elem_of_In, in_flat_map. exists c. rewrite <-!list_elem_of_In. split; [done|by left]. Qed.
Lemma fps_app l r : fps (l ++ r) = fps l ++ fps r.
Proof. apply flat_map_app. Qed.


Ltac at_case := intros; unfold at_; cbn [fst snd];
  lazymatch goal with |- _ <-> _ <$> ?o = _ => destruct o; cbn; split; intros [=]; congruence end.
Lemma at_node s x n : t_nodes s !! x = Some n <-> at_ s (KNode, x) = Some (ONode n).
Proof. at_case. Qed.
Lemma at_ent s x n : t_ents s !! x = Some n <-> at_ s (KEnt, x) = Some (OEnt n).
Proof. at_case. Qed.
Lemma at_str s x n : t_strs s !! x = Some n <-> at_ s (KStr, x) = Some (OStr n).
Proof. at_case. Qed.
Lemma at_list s x n : lists (t_lm s) !! x = Some n <-> at_ s (KList, x) = Some (OList n).
Proof. at_case. Qed.
Lemma at_lnode s x n : nodes (t_lm s) !! x = Some n <-> at_ s (KLNode, x) = Some (OLNode n).
Proof. at_case. Qed.

(** Lists and trees depend on their records only. *)
Lemma list_rep_agree s s' lp l c :
  at_ s' (KList, lp) = at_ s (KList, lp) -> (forall a, a ∈ l.*1 -> at_ s' (KLNode, a) = at_ s (KLNode, a)) ->
  list_rep (t_lm s) lp l c -> list_rep (t_lm s') lp l c.
Proof.
  intros Hl Hn [H1 H2 H3 H4 H5]. split; try done.
  - apply at_list. rewrite Hl. by apply at_list.
  - eapply nseg_agree; [|exact H3]. intros a Ha. destruct (nseg_elem _ _ _ _ _ H3 Ha) as [x Hx].
    rewrite Hx. apply at_lnode. rewrite Hn by done. by apply at_lnode.
Qed.

Lemma rep_agree s s' par t : (forall x, x ∈ fp t -> at_ s' x = at_ s x) -> rep s par t -> rep s' par t.
Proof.
  revert par. induction t as [ln a la e sa n f cs IH] using ptree_all. intros par Hs.
  rewrite !rep_node. intros (Ha & He & Hsa & Hn & Hent & Hstr & Hl & Hcs). cbn [fp] in Hs. fold (fps cs) in Hs.
  split_and!; [done..| | | | |].
  - apply at_node. rewrite Hs by set_solver. by apply at_node.
  - apply at_ent. rewrite Hs by set_solver. by apply at_ent.
  - apply at_str. rewrite Hs by set_solver. by apply at_str.
  - eapply list_rep_agree; [| |exact Hl]; [apply Hs; set_solver|]. intros b Hb. apply Hs.
    rewrite <-list_fmap_compose in Hb. apply list_elem_of_fmap in Hb as (c & -> & Hc). do 4 right. by apply fp_lnode.
  - rewrite Forall_forall in IH, Hcs |- *. intros c Hc. apply IH; [done| |by apply Hcs].
    intros x Hx. apply Hs. do 4 right. by eapply fp_child.
Qed.

(** All of them are live. *)
Lemma rep_live s par t x : rep s par t -> x ∈ fp t -> live s x.
Proof.
  revert par. induction t as [ln a la e sa n f cs IH] using ptree_all. intros par.
  rewrite rep_node. intros (Ha & He & Hsa & Hn & Hent & Hstr & Hl & Hcs). cbn [fp]. fold (fps cs).
  rewrite !elem_of_cons. intros [->|[->|[->|[->|Hx]]]]; unfold live.
  - apply at_node in Hn. rewrite Hn. by eexists.
  - destruct Hl as [_ Hl _ _ _]. apply at_list in Hl. rewrite Hl. by eexists.
  - apply at_ent in Hent. rewrite Hent. by eexists.
  - apply at_str in Hstr. rewrite Hstr. by eexists.
  - unfold fps in Hx. apply list_elem_of_In, in_flat_map in Hx as (c & Hc & Hx). apply list_elem_of_In in Hc, Hx.
    apply elem_of_cons in Hx as [->|Hx].
    + destruct Hl as [_ _ Hs _ _]. destruct (nseg_elem _ _ _ _ (pln c) Hs) as [y Hy].
      { rewrite <-list_fmap_compose. apply list_elem_of_fmap. by exists c. }
      apply at_lnode in Hy. rewrite Hy. by eexists.
    + rewrite Forall_forall in IH, Hcs. eapply IH; [done|by apply Hcs|done].
Qed.

(** ** Allocation *)

(** Tree nodes, entries, strings and trees are heap blocks set aside from the lists. *)
Definition rlive s (a : Z) : Prop :=
  is_Some (t_nodes s !! a) \/ is_Some (t_ents s !! a) \/ is_Some (t_strs s !! a) \/ is_Some (t_trees s !! a).
Definition tm_ok s (b : Z) : Prop :=
  exists R, dl_ok (H0 := ka_framed R) (t_lm s) b /\ forall a, rlive s a -> a ∈ R.*1.

Lemma with_tl_wp {A} (m : M (lmem H) A) (Q : A -> tmem H -> Prop) s :
  wp m (fun a l => Q a (upd_tlm l s)) (t_lm s) -> wp (with_tl m) Q s.
Proof. unfold wp, with_tl. by destruct (m (t_lm s)) as [[a l]|]. Qed.

Lemma tmalloc_wp s b n (Q : Z -> tmem H -> Prop) :
  tm_ok s (b + ka_cost n) -> 0 <= b -> 0 <= n < 2 ^ 61 ->
  (forall p h, let l := mk_lmem h (nodes (t_lm s)) (lists (t_lm s)) in
     p <> 0 -> ~ rlive s p ->
     (forall s2, t_lm s2 = l -> (forall a, rlive s2 a -> a = p \/ rlive s a) -> tm_ok s2 b) -> Q p (upd_tlm l s)) ->
  wp (tmalloc n) Q s.
Proof.
  intros (R & (L & Hi & Hnd & HN & HL & Hx) & HR) Hb Hsz HQ. apply with_tl_wp, wp_with_heap.
  eapply wp_mono; [apply (ka_malloc_wp (lheap (t_lm s)) (L ++ R)); [exact Hi|lia|done]|].
  intros p h (k & _ & Hp & _ & Hsep & Hi'). apply Forall_app in Hsep as [_ HsR].
  apply HQ; [lia| |].
  - intros Hr. apply HR in Hr. apply list_elem_of_fmap in Hr as ([a len] & -> & Hin). rewrite Forall_forall in HsR.
    by destruct (HsR _ Hin).
  - intros s2 El Hs2. exists ((p, k) :: R). split.
    + exists L. rewrite El. split_and!; [|done..]. cbn [lheap ka_inv ka_framed]. eapply ka_perm; [|exact Hi'].
      by rewrite Permutation_middle.
    + intros a Ha. apply Hs2 in Ha as [->|Ha]; [by left|right; auto].
Qed.

Ltac rlive_ins := intros a; unfold rlive; cbn [t_nodes t_ents t_strs t_trees upd_tnodes upd_ents upd_strs upd_trees upd_tlm];
  rewrite ?lookup_insert; destruct (decide _); [by left|]; tauto.

(** What is added where nothing was changes nothing that was there. *)
Lemma not_rlive s p : ~ rlive s p -> t_nodes s !! p = None /\ t_ents s !! p = None /\ t_strs s !! p = None /\ t_trees s !! p = None.
Proof. unfold rlive. rewrite <-!not_eq_None_Some. intros Hn. split_and!; apply dec_stable; tauto. Qed.
Lemma keeps_refl s A : keeps s s A.
Proof. by intros x. Qed.
Lemma keeps_trans s1 s2 s3 A B : keeps s1 s2 A -> keeps s2 s3 B -> (forall x, x ∈ B -> live s1 x -> x ∈ A) -> keeps s1 s3 A.
Proof.
  intros H1 H2 Hsub x Hx HA. rewrite <-(H1 x Hx HA). apply H2; [unfold live; by rewrite (H1 x Hx HA)|].
  intros HB. by apply HA, Hsub.
Qed.
Lemma keeps_live s s' A x : keeps s s' A -> live s x -> x ∉ A -> live s' x.
Proof. intros Hk Hl Hx. unfold live. by rewrite (Hk _ Hl Hx). Qed.

Ltac keeps_ins Hfresh := intros [k x] Hl _; unfold live, at_ in *; destruct k; cbn in Hl |- *; try done;
  rewrite lookup_insert_ne; [done|intros <-; rewrite Hfresh in Hl; by destruct Hl].

Lemma new_tnode_wp s b (Q : Z -> tmem H -> Prop) :
  tm_ok s (b + ka_cost TREE_NODE_SIZE) -> 0 <= b ->
  (forall p s', p <> 0 -> ~ live s (KNode, p) -> tm_ok s' b -> t_nodes s' !! p = Some (mk_tnode 0 0 0) -> keeps s s' [] -> Q p s') ->
  wp new_tnode Q s.
Proof.
  intros Hok Hb HQ. unfold new_tnode. wp_focus. eapply tmalloc_wp; [exact Hok|done|unfold TREE_NODE_SIZE; lia|].
  intros p h l Hp Hr Hok'. destruct (not_rlive _ _ Hr) as (Hf & _). wp_step. wp_step. wp_step. apply HQ; [done| | | |].
  - unfold live, at_. cbn. rewrite Hf. by intros [??].
  - apply Hok'; [done|]. rlive_ins.
  - apply lookup_insert_eq.
  - keeps_ins Hf.
Qed.
Lemma new_ent_wp s b (Q : Z -> tmem H -> Prop) :
  tm_ok s (b + ka_cost ENT_SIZE) -> 0 <= b ->
  (forall p s', p <> 0 -> ~ live s (KEnt, p) -> tm_ok s' b -> t_ents s' !! p = Some (mk_vent 0 0) -> keeps s s' [] -> Q p s') ->
  wp new_ent Q s.
Proof.
  intros Hok Hb HQ. unfold new_ent. wp_focus. eapply tmalloc_wp; [exact Hok|done|unfold ENT_SIZE; lia|].
  intros p h l Hp Hr Hok'. destruct (not_rlive _ _ Hr) as (_ & Hf & _). wp_step. wp_step. wp_step. apply HQ; [done| | | |].
  - unfold live, at_. cbn. rewrite Hf. by intros [??].
  - apply Hok'; [done|]. rlive_ins.
  - apply lookup_insert_eq.
  - keeps_ins Hf.
Qed.
Lemma new_string_wp s b str (Q : Z -> tmem H -> Prop) :
  tm_ok s (b + ka_cost (Z.of_nat (length str) + 1)) -> 0 <= b -> Z.of_nat (length str) + 1 < 2 ^ 61 ->
  (forall p s', p <> 0 -> ~ live s (KStr, p) -> tm_ok s' b -> t_strs s' !! p = Some str -> keeps s s' [] -> Q p s') ->
  wp (new_string str) Q s.
Proof.
  intros Hok Hb Hlen HQ. unfold new_string. wp_focus. eapply tmalloc_wp; [exact Hok|done|lia|].
  intros p h l Hp Hr Hok'. destruct (not_rlive _ _ Hr) as (_ & _ & Hf & _). wp_step. wp_step. wp_step. apply HQ; [done| | | |].
  - unfold live, at_. cbn. rewrite Hf. by intros [??].
  - apply Hok'; [done|]. rlive_ins.
  - apply lookup_insert_eq.
  - keeps_ins Hf.
Qed.

Lemma new_tree_wp s b (Q : Z -> tmem H -> Prop) :
  tm_ok s (b + ka_cost TREE_SIZE) -> 0 <= b ->
  (forall p s', p <> 0 -> ~ live s (KTree, p) -> tm_ok s' b -> t_trees s' !! p = Some 0 -> keeps s s' [] -> Q p s') ->
  wp new_tree Q s.
Proof.
  intros Hok Hb HQ. unfold new_tree. wp_focus. eapply tmalloc_wp; [exact Hok|done|unfold TREE_SIZE; lia|].
  intros p h l Hp Hr Hok'. destruct (not_rlive _ _ Hr) as (_ & _ & _ & Hf). wp_step. wp_step. wp_step. apply HQ; [done| | | |].
  - unfold live, at_. cbn. rewrite Hf. by intros [??].
  - apply Hok'; [done|]. rlive_ins.
  - apply lookup_insert_eq.
  - keeps_ins Hf.
Qed.

(** Changes of records that are there. *)
Lemma tm_ok_dom s s' b : tm_ok s b -> t_lm s' = t_lm s -> (forall a, rlive s' a -> rlive s a) -> tm_ok s' b.
Proof. intros (R & Hdl & HR) El Hs. exists R. rewrite El. split; [done|]. auto. Qed.

Lemma trd_wp {A} (f : tnode -> A) p n (Q : A -> tmem H -> Prop) s :
  p <> 0 -> t_nodes s !! p = Some n -> Q (f n) s -> wp (trd f p) Q s.
Proof.
  intros Hp Hn HQ. unfold trd. wp_step. apply wp_guard; [by apply truth_true|]. wp_step. wp_step.
  eapply wp_unwrap; [by rewrite Hn|done].
Qed.
Lemma erd_wp p n (Q : vent -> tmem H -> Prop) s : p <> 0 -> t_ents s !! p = Some n -> Q n s -> wp (erd p) Q s.
Proof.
  intros Hp Hn HQ. unfold erd. wp_step. apply wp_guard; [by apply truth_true|]. wp_step. wp_step. by eapply wp_unwrap.
Qed.
Lemma srd_wp p n (Q : list Z -> tmem H -> Prop) s : p <> 0 -> t_strs s !! p = Some n -> Q n s -> wp (srd p) Q s.
Proof.
  intros Hp Hn HQ. unfold srd. wp_step. apply wp_guard; [by apply truth_true|]. wp_step. wp_step. by eapply wp_unwrap.
Qed.

Ltac keeps_upd := intros [k x] Hl Hx; unfold at_; destruct k; cbn; try done;
  rewrite lookup_insert_ne; [done|intros <-; apply Hx; by left].
Ltac rlive_upd Hn := intros a; unfold rlive; cbn [t_nodes t_ents t_strs t_trees upd_tnodes upd_ents];
  rewrite lookup_insert; destruct (decide _) as [<-|]; [rewrite Hn; eauto|done].

Lemma twr_wp f p n (Q : () -> tmem H -> Prop) s b :
  tm_ok s b -> p <> 0 -> t_nodes s !! p = Some n ->
  (forall s', tm_ok s' b -> t_nodes s' !! p = Some (f n) -> keeps s s' [(KNode, p)] -> t_lm s' = t_lm s -> Q () s') ->
  wp (twr f p) Q s.
Proof.
  intros Hok Hp Hn HQ. unfold twr. wp_focus. eapply trd_wp; [done|done|]. wp_step. apply HQ.
  - eapply tm_ok_dom; [exact Hok|done|]. rlive_upd Hn.
  - apply lookup_insert_eq.
  - keeps_upd.
  - done.
Qed.
Lemma ewr_wp p e n (Q : () -> tmem H -> Prop) s b :
  tm_ok s b -> p <> 0 -> t_ents s !! p = Some n ->
  (forall s', tm_ok s' b -> t_ents s' !! p = Some e -> keeps s s' [(KEnt, p)] -> t_lm s' = t_lm s -> Q () s') ->
  wp (ewr p e) Q s.
Proof.
  intros Hok Hp Hn HQ. unfold ewr. wp_focus. eapply erd_wp; [done|done|]. wp_step. apply HQ.
  - eapply tm_ok_dom; [exact Hok|done|]. rlive_upd Hn.
  - apply lookup_insert_eq.
  - keeps_upd.
  - done.
Qed.

(** Lists beside the other records. *)
Lemma tl_create_wp s b (Q : Z -> tmem H -> Prop) :
  tm_ok s (b + ka_cost LIST_SIZE) -> 0 <= b ->
  (forall lp s', ~ live s (KList, lp) -> tm_ok s' b -> list_rep (t_lm s') lp [] 0 -> keeps s s' [] -> Q lp s') ->
  wp (with_tl list_create) Q s.
Proof.
  intros (R & Hdl & HR) Hb HQ. apply with_tl_wp.
  eapply wp_mono; [apply (list_create_wp (H0 := ka_framed R) (t_lm s) b); [exact Hdl|done]|].
  intros lp l (Hok & Hnone & Hrep & [Hl Hn]). apply HQ.
  - unfold live, at_. cbn. rewrite Hnone. by intros [??].
  - by exists R.
  - done.
  - intros [k x] Hlive _. unfold live, at_ in *. destruct k; cbn in Hlive |- *; try done.
    + rewrite Hl; [done|]. intros ->. rewrite Hnone in Hlive. by destruct Hlive.
    + rewrite Hn; [done| |by apply not_elem_of_nil]. by destruct (nodes (t_lm s) !! x); [eexists|destruct Hlive].
Qed.
Lemma tl_push_wp s b lp l c v (Q : Z -> tmem H -> Prop) :
  tm_ok s (b + ka_cost NODE_SIZE) -> 0 <= b -> list_rep (t_lm s) lp l c -> 0 <= c < 2 ^ 32 - 1 ->
  (forall p s', ~ live s (KLNode, p) -> tm_ok s' b -> list_rep (t_lm s') lp (l ++ [(p, v)]) (c + 1) ->
     keeps s s' ((KList, lp) :: ((fun a => (KLNode, a)) <$> l.*1)) -> Q p s') ->
  wp (with_tl (list_push_back lp v)) Q s.
Proof.
  intros (R & Hdl & HR) Hb Hrep Hc HQ. apply with_tl_wp.
  eapply wp_mono; [apply (list_push_back_wp (H0 := ka_framed R) (t_lm s) b lp l c v); [exact Hdl|done|done|done]|].
  intros p m (Hok & Hp & Hnone & Hrep' & [Hl Hn]). apply HQ.
  - unfold live, at_. cbn. rewrite Hnone. by intros [??].
  - by exists R.
  - done.
  - intros [k x] Hlive Hout. apply not_elem_of_cons in Hout as [Hne Hout].
    unfold live, at_ in *. destruct k; cbn in Hlive |- *; try done.
    + rewrite Hl; [done|]. intros ->. done.
    + rewrite Hn; [done| |]; [by destruct (nodes (t_lm s) !! x); [eexists|destruct Hlive]|].
      intros Hin. apply Hout, list_elem_of_fmap. by exists x.
Qed.

(** ** Finding a child *)

Fixpoint first_some {A B} (g : A -> option B) (l : list A) : option B :=
  match l with [] => None | x :: r => match g x with Some b => Some b | None => first_some g r end end.

(** A loop whose body only reads delivers the first result. *)
Lemma foreach_in_wp {A} (f : Z -> M (tmem H) (option A)) (g : Z * Z -> option A) lp l c s (Q : option A -> tmem H -> Prop) :
  list_rep (t_lm s) lp l c ->
  (forall x, x ∈ l -> wp (f x.1) (fun r s' => s' = s /\ r = g x) s) ->
  Q (first_some g l) s -> wp (foreach_in lp f) Q s.
Proof.
  intros [Hlp Hl Hseg Hnd Hnz] Hf HQ. unfold foreach_in. wp_focus. apply with_tl_wp. eapply wp_lrd; [done|done|].
  wp_step. wp_step. pose proof (nseg_size _ _ _ _ Hseg Hnd) as Hsz. replace (upd_tlm (t_lm s) s) with s by (by destruct s).
  eapply (wp_while (fun k a s' => s' = s /\ exists l1 l2, l = l1 ++ l2 /\ k = length l2 /\ a = hd_addr l2 0 /\
    first_some g l = first_some g l2) (length l)).
  - split; [done|]. by exists [], l.
  - rewrite Nat2N.id. lia.
  - intros k a s' (-> & l1 & l2 & El & -> & -> & Efirst). destruct l2 as [|x l2]; simpl hd_addr.
    { rewrite Z.eqb_refl. apply wp_ret. change None with (first_some g []). by rewrite <-Efirst. }
    assert (x ∈ l) as Hin by (rewrite El; apply elem_of_app; right; by left).
    assert (x.1 <> 0) as Hx by (intros E; apply Hnz; rewrite <-E; apply list_elem_of_fmap; by exists x).
    rewrite (proj2 (Z.eqb_neq _ _) Hx). wp_focus. eapply wp_mono; [by apply Hf|]. intros r s' [-> ->].
    cbn [first_some] in Efirst. destruct (g x) as [b|] eqn:Hg.
    + apply wp_ret. by rewrite Efirst in HQ.
    + rewrite El in Hseg. apply nseg_app in Hseg as (_ & Hm & _).
      wp_focus. apply with_tl_wp. eapply wp_nrd; [done|exact Hm|]. apply wp_ret. exists (length l2). split; [simpl; lia|].
      split; [by destruct s|]. exists (l1 ++ [x]), l2. rewrite <-app_assoc. by split_and!.
Qed.

(** The child a name leads to. *)
Definition child_named (n : name) (c : ptree) : option ptree := if str_eq (pname c) n then Some c else None.

Lemma rep_data s par t : rep s par t -> exists la e sa f, paddr t <> 0 /\ e <> 0 /\ sa <> 0 /\
  t_nodes s !! paddr t = Some (mk_tnode la e par) /\ t_ents s !! e = Some (mk_vent sa f) /\ t_strs s !! sa = Some (pname t) /\
  f = efile (perase t).
Proof.
  destruct t as [ln a la e sa n f cs]. rewrite rep_node. intros (Ha & He & Hsa & Hn & Hent & Hstr & _).
  by exists la, e, sa, f.
Qed.

Lemma first_some_held (cs : list ptree) (g : Z * Z -> option Z) n :
  (forall c, c ∈ cs -> g (held c) = paddr <$> child_named n c) ->
  first_some g (held <$> cs) = paddr <$> first_some (child_named n) cs.
Proof.
  induction cs as [|c cs IH]; intros Hg; [done|]. cbn [fmap list_fmap first_some]. rewrite Hg by (by left).
  destruct (child_named n c); [done|]. apply IH. intros c' Hc'. apply Hg. by right.
Qed.

(** The loop's test, on an element of the list of children. *)
Definition named_at s (n : name) (x : Z * Z) : option Z :=
  match t_nodes s !! x.2 with
  | Some nd => match t_ents s !! t_data nd with
               | Some e => match t_strs s !! ent_name e with
                           | Some str => if str_eq str n then Some x.2 else None
                           | None => None
                           end
               | None => None
               end
  | None => None
  end.

Lemma tree_find_wp s par t n (Q : option Z -> tmem H -> Prop) :
  rep s par t -> Q (paddr <$> first_some (child_named n) (pcs t)) s -> wp (tree_find (paddr t) n) Q s.
Proof.
  destruct t as [ln a la e sa n0 f cs]. rewrite rep_node. cbn [paddr pcs].
  intros (Ha & _ & _ & Hn & _ & _ & Hl & Hcs) HQ. unfold tree_find. wp_focus. eapply trd_wp; [done|exact Hn|].
  assert (forall c, c ∈ cs -> (pln c) ∈ (held <$> cs).*1) as Hln.
  { intros c Hc. rewrite <-list_fmap_compose. apply list_elem_of_fmap. by exists c. }
  pose proof Hl as [_ _ Hseg Hnd Hnz]. rewrite Forall_forall in Hcs.
  eapply (foreach_in_wp _ (named_at s n)); [exact Hl| |].
  - intros x (c & -> & Hc)%list_elem_of_fmap.
    destruct (rep_data _ _ _ (Hcs c Hc)) as (la' & e' & sa' & f' & Hp' & He' & Hsa' & Hn' & Hent' & Hstr' & _).
    apply list_elem_of_split in Hc as (l1 & l2 & ->). rewrite fmap_app in Hseg.
    apply nseg_app in Hseg as (_ & Hm & _). wp_focus. apply with_tl_wp.
    eapply wp_nrd; [|exact Hm|]; [intros E; apply Hnz; rewrite <-E; apply Hln, elem_of_app; right; by left|].
    replace (upd_tlm (t_lm s) s) with s by (by destruct s). cbn [nval held snd].
    wp_focus. eapply trd_wp; [done|exact Hn'|]. wp_focus. eapply erd_wp; [done|exact Hent'|].
    wp_focus. eapply srd_wp; [done|exact Hstr'|]. apply wp_ret. split; [done|].
    unfold named_at, held. cbn [snd]. rewrite Hn'. cbn [t_data]. rewrite Hent'. cbn [ent_name]. by rewrite Hstr'.
  - rewrite (first_some_held _ _ n); [done|]. intros c Hc.
    destruct (rep_data _ _ _ (Hcs c Hc)) as (la' & e' & sa' & f' & _ & _ & _ & Hn' & Hent' & Hstr' & _).
    unfold named_at, held, child_named. cbn [snd]. rewrite Hn'. cbn [t_data]. rewrite Hent'. cbn [ent_name]. rewrite Hstr'.
    by destruct (str_eq _ _).
Qed.

(** The search in the inductive tree. *)
Lemma find_child_erase n cs :
  match first_some (child_named n) cs with
  | Some c => exists l r, cs = l ++ c :: r /\ find_child n (perase <$> cs) = Some (perase <$> l, perase c, perase <$> r)
  | None => find_child n (perase <$> cs) = None
  end.
Proof.
  induction cs as [|c cs IH]; [done|]. cbn [first_some fmap list_fmap find_child]. unfold child_named at 1.
  replace (ename (perase c)) with (pname c) by (by destruct c). destruct (str_eq (pname c) n).
  - by exists [], cs.
  - destruct (first_some (child_named n) cs) as [d|].
    + destruct IH as (l & r & -> & ->). by exists (c :: l), r.
    + by rewrite IH.
Qed.

(** Looking a path up in the tree on the heap is looking it up in the tree it stands
    for, and changes nothing. *)
Lemma tree_get_mountpoint_recur_wp s par t tokens :
  rep s par t ->
  wp (tree_get_mountpoint_recur (paddr t) tokens)
    (fun r s' => s' = s /\ r = vfs_get_mountpoint_recur (perase t) tokens) s.
Proof.
  revert par t. induction tokens as [|n tokens IH]; intros par t Hrep;
    destruct (rep_data _ _ _ Hrep) as (la & e & sa & f & Hp & He & Hsa & Hn & Hent & _ & Ef); cbn [tree_get_mountpoint_recur].
  - wp_focus. eapply trd_wp; [done|exact Hn|]. wp_focus. eapply erd_wp; [done|exact Hent|]. apply wp_ret.
    cbn [ent_file vfs_get_mountpoint_recur]. done.
  - wp_focus. eapply tree_find_wp; [exact Hrep|]. pose proof (find_child_erase n (pcs t)) as Hfind.
    assert (children (perase t) = perase <$> pcs t) as Ec by (by destruct t).
    cbn [vfs_get_mountpoint_recur]. rewrite Ec. destruct (first_some _ _) as [c|]; cbn [fmap option_fmap option_map].
    + destruct Hfind as (l & r & Ecs & ->). apply (IH (paddr t) c).
      destruct t as [????????]. rewrite rep_node in Hrep. destruct Hrep as (_ & _ & _ & _ & _ & _ & _ & Hcs).
      cbn [pcs paddr] in *. subst. apply Forall_app in Hcs as [_ Hcs]. by apply Forall_cons in Hcs as [Hc _].
    + rewrite Hfind. wp_focus. eapply trd_wp; [done|exact Hn|]. wp_focus. eapply erd_wp; [done|exact Hent|]. by apply wp_ret.
Qed.

(** ** Growing a tree *)

Definition with_cs (t : ptree) (cs : list ptree) : ptree :=
  let 'PNode ln a la e sa n f _ := t in PNode ln a la e sa n f cs.

(** [t'] is [t] after a step: nothing outside [t] has changed, and what is new in it was
    not there before. *)
Record grown s s' (par : Z) (t t' : ptree) : Prop := {
  gr_rep : rep s' par t';
  gr_held : held t' = held t;
  gr_nodup : NoDup (fp t');
  gr_new : forall x, x ∈ fp t' -> x ∈ fp t \/ ~ live s x;
  gr_keeps : keeps s s' (fp t);
}.

Lemma grown_trans s1 s2 s3 par t1 t2 t3 : grown s1 s2 par t1 t2 -> grown s2 s3 par t2 t3 -> grown s1 s3 par t1 t3.
Proof.
  intros [H1 H2 H3 H4 H5] [G1 G2 G3 G4 G5]. split; [done|by rewrite G2|done| |].
  - intros x Hx. destruct (decide (x ∈ fp t1)) as [?|Hout]; [by left|right]. intros Hl.
    destruct (G4 x Hx) as [Hin|Hn]; [by destruct (H4 x Hin)|]. apply Hn. by apply (keeps_live s1 s2 (fp t1)).
  - eapply keeps_trans; [exact H5|exact G5|]. intros x Hx Hl. by destruct (H4 x Hx).
Qed.

Lemma NoDup_replace {A} (l x y r : list A) :
  NoDup (l ++ x ++ r) -> NoDup y -> (forall a, a ∈ y -> a ∈ x \/ (a ∉ l /\ a ∉ r)) -> NoDup (l ++ y ++ r).
Proof.
  intros (Hl & Hlx & (Hx & Hxr & Hr)%NoDup_app)%NoDup_app Hy Hyx. apply NoDup_app. split_and!; [done| |].
  - intros a Ha Hin. apply elem_of_app in Hin as [Hin|Hin].
    + destruct (Hyx a Hin) as [Hax|[? _]]; [|done]. apply (Hlx a Ha), elem_of_app. by left.
    + apply (Hlx a Ha), elem_of_app. by right.
  - apply NoDup_app. split_and!; [done| |done]. intros a Ha Har.
    destruct (Hyx a Ha) as [Hax|[_ ?]]; [by apply (Hxr a)|done].
Qed.

Lemma fp_with ln a la e sa n f l c r :
  fp (PNode ln a la e sa n f (l ++ c :: r)) =
  ([(KNode, a); (KList, la); (KEnt, e); (KStr, sa)] ++ fps l ++ [(KLNode, pln c)]) ++ fp c ++ fps r.
Proof. cbn [fp]. fold (fps (l ++ c :: r)). rewrite fps_app. cbn. by rewrite <-app_assoc. Qed.

Lemma fps_lnodes cs x : x ∈ (fun a => (KLNode, a)) <$> (held <$> cs).*1 -> x ∈ fps cs.
Proof.
  rewrite <-!list_fmap_compose. intros (c & -> & Hc)%list_elem_of_fmap. by apply fp_lnode.
Qed.

(** A step in a child is a step in the tree. *)
Lemma grown_child s s' par ln a la e sa n f l c r c' :
  rep s par (PNode ln a la e sa n f (l ++ c :: r)) -> NoDup (fp (PNode ln a la e sa n f (l ++ c :: r))) ->
  grown s s' a c c' -> grown s s' par (PNode ln a la e sa n f (l ++ c :: r)) (PNode ln a la e sa n f (l ++ c' :: r)).
Proof.
  intros Hrep Hnd [H1 H2 H3 H4 H5]. pose proof Hnd as Hnd'. rewrite fp_with in Hnd'.
  apply NoDup_app in Hnd' as (Hnl & Hlx & (_ & Hxr & _)%NoDup_app).
  assert (pln c' = pln c) as Hpl by (injection H2; done).
  assert (forall x, x ∈ fp (PNode ln a la e sa n f (l ++ c :: r)) -> x ∉ fp c -> at_ s' x = at_ s x) as Hsame.
  { intros x Hx Hc. apply H5; [|done]. by eapply rep_live. }
  assert (forall x, x ∈ [(KNode, a); (KList, la); (KEnt, e); (KStr, sa)] ++ fps l ++ [(KLNode, pln c)] \/ x ∈ fps r ->
    at_ s' x = at_ s x) as Hout.
  { intros x Hx. apply Hsame.
    - rewrite fp_with. destruct Hx as [Hx|Hx]; [apply elem_of_app; by left|].
      apply elem_of_app. right. apply elem_of_app. by right.
    - destruct Hx as [Hx|Hx]; [|intros Hc; by apply (Hxr x)]. intros Hc. apply (Hlx x Hx), elem_of_app. by left. }
  split.
  - rewrite rep_node in Hrep |- *. destruct Hrep as (Ha & He & Hsa & Hn & Hent & Hstr & Hl & Hcs).
    apply Forall_app in Hcs as [Hcl [_ Hcr]%Forall_cons]. split_and!; [done..| | | | |].
    + apply at_node. rewrite Hout by (left; set_solver). by apply at_node.
    + apply at_ent. rewrite Hout by (left; set_solver). by apply at_ent.
    + apply at_str. rewrite Hout by (left; set_solver). by apply at_str.
    + rewrite !fmap_app, !length_app in *. cbn [fmap list_fmap length] in *. rewrite H2.
      eapply list_rep_agree; [| |exact Hl]; [apply Hout; left; set_solver|]. intros x Hx. apply Hout.
      rewrite fmap_app in Hx. apply elem_of_app in Hx as [Hx|Hx].
      * left. apply elem_of_app. right. apply elem_of_app. left. apply fps_lnodes, list_elem_of_fmap. by exists x.
      * cbn in Hx. apply elem_of_cons in Hx as [->|Hx]; [left; apply elem_of_app; right; apply elem_of_app; right; by left|].
        right. apply fps_lnodes, list_elem_of_fmap. by exists x.
    + apply Forall_app. split; [|apply Forall_cons; split; [done|]]; rewrite Forall_forall in *.
      * intros d Hd. eapply rep_agree; [|by apply Hcl]. intros x Hx. apply Hout. left. apply elem_of_app. right.
        apply elem_of_app. left. by eapply fp_child.
      * intros d Hd. eapply rep_agree; [|by apply Hcr]. intros x Hx. apply Hout. right. by eapply fp_child.
  - done.
  - rewrite fp_with in Hnd |- *. rewrite Hpl. eapply NoDup_replace; [exact Hnd|done|]. intros x Hx.
    destruct (H4 x Hx) as [?|Hn]; [by left|right].
    split; intros Hin; apply Hn; (eapply rep_live; [exact Hrep|]); rewrite fp_with;
      [apply elem_of_app; by left|apply elem_of_app; right; apply elem_of_app; by right].
  - intros x. rewrite !fp_with, Hpl, !elem_of_app. intros [Hx|[Hx|Hx]]; [tauto| |tauto].
    destruct (H4 x Hx); [tauto|by right].
  - intros x Hx Hout'. apply H5; [done|]. intros Hc. apply Hout'. rewrite fp_with, !elem_of_app. tauto.
Qed.

(** [tree_insert]: one more child, behind the others. *)
Definition insert_cost : Z := ka_cost TREE_NODE_SIZE + (ka_cost LIST_SIZE + ka_cost NODE_SIZE).

Lemma costs_nonneg : 0 <= ka_cost TREE_NODE_SIZE /\ 0 <= ka_cost LIST_SIZE /\ 0 <= ka_cost NODE_SIZE /\ 0 <= ka_cost ENT_SIZE.
Proof. split_and!; apply ka_cost_nonneg; unfold TREE_NODE_SIZE, LIST_SIZE, NODE_SIZE, ENT_SIZE; lia. Qed.

Lemma tree_node_create_wp s b data (Q : Z -> tmem H -> Prop) :
  tm_ok s (b + (ka_cost TREE_NODE_SIZE + ka_cost LIST_SIZE)) -> 0 <= b ->
  (forall p la s', p <> 0 -> ~ live s (KNode, p) -> ~ live s (KList, la) -> tm_ok s' b ->
     t_nodes s' !! p = Some (mk_tnode la data 0) -> list_rep (t_lm s') la [] 0 -> keeps s s' [] -> Q p s') ->
  wp (tree_node_create data) Q s.
Proof.
  intros Hok Hb HQ. destruct costs_nonneg as (? & ? & _). unfold tree_node_create. wp_focus.
  apply (new_tnode_wp s (b + ka_cost LIST_SIZE)); [|lia|]; [by replace (b + ka_cost LIST_SIZE + ka_cost TREE_NODE_SIZE) with (b + (ka_cost TREE_NODE_SIZE + ka_cost LIST_SIZE)) by lia|].
  intros p s1 Hp Hf1 Hok1 Hn1 Hk1. wp_focus. eapply twr_wp; [exact Hok1|done|exact Hn1|]. intros s2 Hok2 Hn2 Hk2 _.
  assert (keeps s s2 []) as K2.
  { eapply keeps_trans; [exact Hk1|exact Hk2|]. intros x ->%list_elem_of_singleton ?. done. }
  wp_focus. apply (tl_create_wp s2 b); [done|done|]. intros la s3 Hf3 Hok3 Hl3 Hk3.
  assert (t_nodes s3 !! p = Some (mk_tnode 0 data 0)) as Hn3.
  { apply at_node. rewrite Hk3; [by apply at_node| |by apply not_elem_of_nil]. unfold live. apply at_node in Hn2. rewrite Hn2. by eexists. }
  wp_focus. eapply twr_wp; [exact Hok3|done|exact Hn3|]. intros s4 Hok4 Hn4 Hk4 El4. apply wp_ret.
  apply (HQ p la); [done|done| |done|done|by rewrite El4|].
  - intros Hl. apply Hf3. eapply keeps_live; [exact K2|done|by apply not_elem_of_nil].
  - eapply keeps_trans; [exact K2|eapply keeps_trans; [|exact Hk4|]|].
    + intros x Hx _. by apply Hk3; [|apply not_elem_of_nil].
    + intros x ->%list_elem_of_singleton _. exact (proj2 (list_elem_of_singleton (KNode, p) (KNode, p)) eq_refl).
    + intros x ->%list_elem_of_singleton ?. done.
Qed.

Lemma lnode_sep cs c1 c2 : NoDup (fps cs) -> c1 ∈ cs -> c2 ∈ cs -> (KLNode, pln c1) ∉ fp c2.
Proof.
  induction cs as [|c cs IH]; [by intros _ ?%elem_of_nil|]. cbn. intros [Hc (Hnd1 & Hx & Hnd2)%NoDup_app]%NoDup_cons.
  apply not_elem_of_app in Hc as [Hc1 Hc2].
  intros [->|H1]%elem_of_cons [->|H2]%elem_of_cons; [done| | |by apply IH].
  - intros Hin. apply Hc2. by eapply fp_child.
  - intros Hin. apply (Hx _ Hin). by apply fp_lnode.
Qed.

Lemma fresh_not_fp s par t x : rep s par t -> ~ live s x -> x ∉ fp t.
Proof. intros Hr Hn Hx. by apply Hn, (rep_live s par t). Qed.

Lemma tree_insert_wp s b par ln a la e sa n f cs ent np str (Q : Z -> tmem H -> Prop) :
  let t := PNode ln a la e sa n f cs in
  tm_ok s (b + insert_cost) -> 0 <= b -> rep s par t -> NoDup (fp t) -> Z.of_nat (length cs) < 2 ^ 32 - 1 ->
  ent <> 0 -> np <> 0 -> t_ents s !! ent = Some (mk_vent np 0) -> t_strs s !! np = Some str ->
  (KEnt, ent) ∉ fp t -> (KStr, np) ∉ fp t ->
  (forall c s', perase c = VNode str 0 [] -> pcs c = [] -> tm_ok s' b ->
     rep s' par (with_cs t (cs ++ [c])) -> NoDup (fp (with_cs t (cs ++ [c]))) ->
     (forall x, x ∈ fp c -> x = (KEnt, ent) \/ x = (KStr, np) \/ ~ live s x) -> ~ live s (KLNode, pln c) ->
     keeps s s' (fp t) -> Q (paddr c) s') ->
  wp (tree_insert a ent) Q s.
Proof.
  intros t Hok Hb Hrep Hnd Hlen Hent0 Hnp0 Hent Hnp HentT HnpT HQ. destruct costs_nonneg as (? & ? & ? & _).
  unfold tree_insert. wp_focus. eapply (tree_node_create_wp s (b + ka_cost NODE_SIZE)); [|lia|].
  { replace (b + ka_cost NODE_SIZE + _) with (b + insert_cost) by (unfold insert_cost; lia). exact Hok. }
  intros p la' s1 Hp Hfp Hfl Hok1 Hn1 Hl1 Hk1. wp_focus. eapply twr_wp; [exact Hok1|done|exact Hn1|].
  intros s2 Hok2 Hn2 Hk2 El2. cbn [set_tparent t_children t_data] in Hn2.
  assert (keeps s s2 []) as K2.
  { eapply keeps_trans; [exact Hk1|exact Hk2|]. intros x ->%list_elem_of_singleton ?. done. }
  assert (rep s2 par t) as Hrep2.
  { eapply rep_agree; [|exact Hrep]. intros x Hx. apply K2; [by eapply rep_live|by apply not_elem_of_nil]. }
  pose proof Hrep2 as Hrep2'. unfold t in Hrep2'. rewrite rep_node in Hrep2'.
  destruct Hrep2' as (Ha & He & Hsa & Hna & Hea & Hsta & Hla & Hcs).
  wp_focus. eapply trd_wp; [done|exact Hna|]. cbn [t_children]. wp_focus.
  eapply (tl_push_wp s2 b la _ _ p); [exact Hok2|done|exact Hla|lia|]. intros ln' s3 Hf3 Hok3 Hl3 Hk3.
  apply wp_ret. pose (c := PNode ln' p la' ent np str 0 []). 
  assert (~ live s (KLNode, ln')) as Hfln.
  { intros Hl. apply Hf3. eapply keeps_live; [exact K2|done|by apply not_elem_of_nil]. }
  assert (forall k x, (k, x) ∈ (KList, la) :: ((fun a => (KLNode, a)) <$> (held <$> cs).*1) ->
    (k, x) = (KList, la) \/ (k = KLNode /\ (k, x) ∈ fps cs)) as Htouched.
  { intros k x [?|Hx]%elem_of_cons; [by left|right]. split; [|by apply fps_lnodes].
    by apply list_elem_of_fmap in Hx as (? & [= -> ->] & _). }
  assert (forall k x o, at_ s2 (k, x) = Some o -> k <> KLNode -> (k, x) <> (KList, la) -> at_ s3 (k, x) = Some o) as Hget.
  { intros k x o Ho Hk Hne. rewrite Hk3; [done|by eexists|]. intros Hx. by destruct (Htouched _ _ Hx) as [?|[? _]]. }
  assert (NoDup (fps cs) /\ (KList, la) ∉ fps cs) as [Hndc Hlac].
  { unfold t in Hnd. cbn [fp] in Hnd. fold (fps cs) in Hnd. rewrite !NoDup_cons, !not_elem_of_cons in Hnd. tauto. }
  assert (la' <> la) as Hll.
  { intros ->. apply Hfl. eapply rep_live; [exact Hrep|]. unfold t. cbn [fp]. right. by left. }
  assert (fp (PNode ln a la e sa n f (cs ++ [c])) = fp t ++ (KLNode, ln') :: fp c) as Efp.
  { unfold t. cbn [fp]. fold (fps (cs ++ [c])) (fps cs). rewrite fps_app. cbn. done. }
  apply (HQ c); [done|done|exact Hok3| | | |done|].
  - cbn [with_cs t]. rewrite rep_node. split_and!; [done..| | | | |].
    + apply at_node, Hget; [by apply at_node|done|done].
    + apply at_ent, Hget; [by apply at_ent|done|done].
    + apply at_str, Hget; [by apply at_str|done|done].
    + rewrite fmap_app, length_app. cbn [fmap list_fmap length held]. rewrite Nat2Z.inj_add. exact Hl3.
    + apply Forall_app. split; [|apply Forall_singleton].
      * rewrite Forall_forall in Hcs |- *. intros d Hd. eapply rep_agree; [|by apply Hcs].
        intros x Hx. apply Hk3; [by eapply rep_live; [apply Hcs|]|]. intros [->|Hin]%elem_of_cons.
        { apply Hlac. by eapply fp_child. }
        rewrite <-!list_fmap_compose in Hin. apply list_elem_of_fmap in Hin as (d' & -> & Hd').
        by apply (lnode_sep cs d' d).
      * unfold c. rewrite rep_node. split_and!; [done..| | | | |constructor].
        -- apply at_node, Hget; [by apply at_node|done|done].
        -- apply at_ent, Hget; [|done|done]. rewrite K2; [by apply at_ent| |by apply not_elem_of_nil].
           apply at_ent in Hent. unfold live. rewrite Hent. by eexists.
        -- apply at_str, Hget; [|done|done]. rewrite K2; [by apply at_str| |by apply not_elem_of_nil].
           apply at_str in Hnp. unfold live. rewrite Hnp. by eexists.
        -- rewrite <-El2 in Hl1. destruct Hl1 as [G1 G2 G3 G4 G5]. split; try done.
           apply at_list, Hget; [by apply at_list|done|]. intros [= ?]. done.
  - cbn [with_cs t]. rewrite Efp. apply NoDup_app. split_and!; [done| |].
    + intros x Hx. cbn. rewrite !not_elem_of_cons.
      split_and!; try (intros ->; done); try (intros E; apply (fresh_not_fp s par t x); [done|by rewrite E|done]); by apply not_elem_of_nil.
    + cbn. rewrite !NoDup_cons, !not_elem_of_cons. split_and!; try done; try apply not_elem_of_nil; by apply NoDup_nil.
  - unfold c. intros x. cbn. rewrite !elem_of_cons. intros [->|[->|[->|[->|Hx]]]]; [tauto..|by apply elem_of_nil in Hx].
  - eapply keeps_trans; [intros x Hx _; by apply K2; [|apply not_elem_of_nil]|exact Hk3|]. intros [k x] Hx _.
    unfold t. cbn [fp]. fold (fps cs). destruct (Htouched _ _ Hx) as [->|[_ ?]]; [right; by left|by do 4 right].
Qed.

(** ** Mounting *)

(** A path in memory: a list of strings. *)
Definition path_fp (pl : Z) (l : nseq) : list (kind * Z) :=
  (KList, pl) :: ((fun a => (KLNode, a)) <$> l.*1) ++ ((fun a => (KStr, a)) <$> l.*2).
Definition path_rep s (pl : Z) (l : nseq) (parts : list name) : Prop :=
  list_rep (t_lm s) pl l (Z.of_nat (length parts)) /\
  Forall2 (fun x str => x.2 <> 0 /\ t_strs s !! x.2 = Some str) l parts.
Definition apart (A B : list (kind * Z)) : Prop := forall x, x ∈ A -> x ∉ B.

Lemma path_live s pl l parts x : path_rep s pl l parts -> x ∈ path_fp pl l -> live s x.
Proof.
  intros [[_ Hl Hseg _ _] Hf]. unfold path_fp. rewrite elem_of_cons, elem_of_app. intros [->|[Hx|Hx]]; unfold live.
  - apply at_list in Hl. rewrite Hl. by eexists.
  - apply list_elem_of_fmap in Hx as (y & -> & Hy). destruct (nseg_elem _ _ _ _ _ Hseg Hy) as [o Ho].
    apply at_lnode in Ho. rewrite Ho. by eexists.
  - apply list_elem_of_fmap in Hx as (y & -> & (z & -> & Hz)%list_elem_of_fmap).
    apply list_elem_of_lookup in Hz as [i Hi]. destruct (Forall2_lookup_l _ _ _ _ _ Hf Hi) as (str & _ & _ & Hs).
    apply at_str in Hs. rewrite Hs. by eexists.
Qed.

(** A step elsewhere leaves the path as it is. *)
Lemma path_grown s s' par t t' pl l parts :
  path_rep s pl l parts -> apart (path_fp pl l) (fp t) -> grown s s' par t t' ->
  path_rep s' pl l parts /\ apart (path_fp pl l) (fp t').
Proof.
  intros Hp Hap [H1 H2 H3 H4 H5].
  assert (forall x, x ∈ path_fp pl l -> at_ s' x = at_ s x) as Hsame.
  { intros x Hx. apply H5; [by eapply path_live|by apply Hap]. }
  split.
  - destruct Hp as [Hl Hf]. split.
    + eapply list_rep_agree; [| |exact Hl]; [apply Hsame; by left|]. intros a Ha. apply Hsame.
      right. apply elem_of_app. left. apply list_elem_of_fmap. by exists a.
    + apply Forall2_same_length_lookup. split; [by eapply Forall2_length|]. intros i x str Hx Hs.
      destruct (Forall2_lookup_l _ _ _ _ _ Hf Hx) as (str' & Hs' & Hx0 & Hstr). split; [done|]. simplify_eq.
      apply at_str. rewrite Hsame; [by apply at_str|]. right. apply elem_of_app. right. apply list_elem_of_fmap.
      exists x.2. split; [done|]. apply list_elem_of_fmap. exists x. split; [done|by eapply list_elem_of_lookup_2].
  - intros x Hx Hin. destruct (H4 x Hin) as [Hin'|Hn]; [by apply (Hap x)|]. by apply Hn, (path_live s pl l parts).
Qed.

(** The last step of a mount: the file of the entry. *)
Definition with_file (t : ptree) (dev : Z) : ptree := let 'PNode ln a la e sa n _ cs := t in PNode ln a la e sa n dev cs.

Lemma set_file_wp s b par t dev :
  tm_ok s b -> rep s par t -> NoDup (fp t) ->
  wp (d ← trd t_data (paddr t); e ← erd d; ewr d (mk_vent (ent_name e) dev))
    (fun _ s' => tm_ok s' b /\ grown s s' par t (with_file t dev)) s.
Proof.
  destruct t as [ln a la e sa n f cs]. intros Hok Hrep Hnd. pose proof Hrep as Hrep'. rewrite rep_node in Hrep'.
  destruct Hrep' as (Ha & He & Hsa & Hn & Hent & Hstr & Hl & Hcs). cbn [paddr].
  wp_focus. eapply trd_wp; [done|exact Hn|]. wp_focus. eapply erd_wp; [done|exact Hent|].
  eapply ewr_wp; [exact Hok|done|exact Hent|]. intros s' Hok' He' Hk' El'. split; [done|].
  cbn [fp] in Hnd. fold (fps cs) in Hnd.
  assert ((KEnt, e) ∉ fps cs) as Hout by (rewrite !NoDup_cons, !not_elem_of_cons in Hnd; tauto).
  assert (forall x, x ∈ fp (PNode ln a la e sa n f cs) -> x <> (KEnt, e) -> at_ s' x = at_ s x) as Hsame.
  { intros x Hx Hne. apply Hk'; [by eapply rep_live|]. by intros ->%list_elem_of_singleton. }
  cbn [fp] in Hsame. fold (fps cs) in Hsame. split.
  - cbn [with_file]. rewrite rep_node. split_and!; [done..| | | | |].
    + apply at_node. rewrite Hsame; [by apply at_node|by left|done].
    + done.
    + apply at_str. rewrite Hsame; [by apply at_str|do 3 right; by left|done].
    + by rewrite El'.
    + rewrite Forall_forall in Hcs |- *. intros c Hc. eapply rep_agree; [|by apply Hcs]. intros x Hx.
      apply Hsame; [do 4 right; by eapply fp_child|]. intros ->. apply Hout. by eapply fp_child.
  - done.
  - done.
  - cbn. tauto.
  - intros x Hx Hx'. apply Hk'; [done|]. intros ->%list_elem_of_singleton. apply Hx'. cbn [fp]. do 2 right. by left.
Qed.

(** No node has too many children for one more. *)
Fixpoint narrow (t : ptree) : Prop :=
  let 'PNode _ _ _ _ _ _ _ cs := t in Z.of_nat (length cs) < 2 ^ 32 - 1 /\ foldr (fun c P => narrow c /\ P) True cs.

Lemma narrow_child ln a la e sa n f l c r :
  narrow (PNode ln a la e sa n f (l ++ c :: r)) -> Z.of_nat (length (l ++ c :: r)) < 2 ^ 32 - 1 /\ narrow c.
Proof.
  cbn [narrow]. rewrite foldr_and. intros [Hlen Hcs]. split; [done|]. apply Forall_app in Hcs as [_ Hcs].
  by apply Forall_cons in Hcs as [Hc _].
Qed.

Lemma rep_child s par ln a la e sa n f l c r :
  rep s par (PNode ln a la e sa n f (l ++ c :: r)) -> NoDup (fp (PNode ln a la e sa n f (l ++ c :: r))) ->
  rep s a c /\ NoDup (fp c) /\ forall x, x ∈ fp c -> x ∈ fp (PNode ln a la e sa n f (l ++ c :: r)).
Proof.
  rewrite rep_node, fp_with. intros (_ & _ & _ & _ & _ & _ & _ & Hcs) Hnd. split_and!.
  - apply Forall_app in Hcs as [_ Hcs]. by apply Forall_cons in Hcs as [Hc _].
  - by apply NoDup_app in Hnd as (_ & _ & (? & _)%NoDup_app).
  - intros x Hx. rewrite !elem_of_app. tauto.
Qed.

Definition part_cost (n : name) : Z := ka_cost ENT_SIZE + (ka_cost (Z.of_nat (length n) + 1) + insert_cost).
Fixpoint path_cost (parts : list name) : Z := match parts with [] => 0 | n :: r => part_cost n + path_cost r end.
Definition part_ok (n : name) : Prop := Z.of_nat (length n) + 1 < 2 ^ 61.
Lemma part_cost_nonneg n : part_ok n -> 0 <= part_cost n.
Proof.
  intros Hn. unfold part_cost, insert_cost, part_ok in *. destruct costs_nonneg as (? & ? & ? & ?).
  assert (0 <= ka_cost (Z.of_nat (length n) + 1)) by (apply ka_cost_nonneg; lia). lia.
Qed.
Lemma path_cost_nonneg parts : Forall part_ok parts -> 0 <= path_cost parts.
Proof. induction 1 as [|n r Hn _ IH]; simpl; [lia|]. pose proof (part_cost_nonneg n Hn). lia. Qed.

(** The branch that makes a new entry. *)
Lemma mount_insert_wp s b par t np str (Q : Z -> tmem H -> Prop) :
  tm_ok s (b + part_cost str) -> 0 <= b -> part_ok str -> rep s par t -> NoDup (fp t) ->
  Z.of_nat (length (pcs t)) < 2 ^ 32 - 1 -> np <> 0 -> t_strs s !! np = Some str ->
  (forall c s', perase c = VNode str 0 [] -> pcs c = [] -> tm_ok s' b -> grown s s' par t (with_cs t (pcs t ++ [c])) -> Q (paddr c) s') ->
  wp (ent ← new_ent; str' ← srd np; n ← new_string str'; e ← erd ent; ewr ent (mk_vent n (ent_file e));; tree_insert (paddr t) ent) Q s.
Proof.
  intros Hok Hb Hpart Hrep Hnd Hlen Hnp Hstr HQ. unfold part_ok in Hpart. destruct costs_nonneg as (? & ? & ? & ?).
  assert (0 <= ka_cost (Z.of_nat (length str) + 1)) by (apply ka_cost_nonneg; lia).
  wp_focus. apply (new_ent_wp s (b + (ka_cost (Z.of_nat (length str) + 1) + insert_cost))); [|unfold insert_cost; lia|].
  { replace (b + _ + _) with (b + part_cost str) by (unfold part_cost; lia). exact Hok. }
  intros ent s1 Hent Hf1 Hok1 He1 Hk1.
  assert (forall x, live s x -> at_ s1 x = at_ s x) as K1 by (intros x Hx; by apply Hk1; [|apply not_elem_of_nil]).
  wp_focus. eapply srd_wp; [done| |].
  { apply at_str. rewrite K1; [by apply at_str|]. apply at_str in Hstr. unfold live. rewrite Hstr. by eexists. }
  wp_focus. apply (new_string_wp s1 (b + insert_cost)); [|unfold insert_cost; lia|done|].
  { replace (b + insert_cost + _) with (b + (ka_cost (Z.of_nat (length str) + 1) + insert_cost)) by lia. exact Hok1. }
  intros n s2 Hn Hf2 Hok2 Hs2 Hk2. wp_focus.
  assert (live s1 (KEnt, ent)) as Hle by (apply at_ent in He1; unfold live; rewrite He1; by eexists).
  assert (t_ents s2 !! ent = Some (mk_vent 0 0)) as He2 by (apply at_ent; rewrite Hk2; [by apply at_ent|done|by apply not_elem_of_nil]).
  eapply erd_wp; [done|exact He2|]. wp_focus. eapply ewr_wp; [exact Hok2|done|exact He2|]. intros s3 Hok3 He3 Hk3 El3.
  assert (forall x, live s x -> at_ s2 x = at_ s x) as K2.
  { intros x Hx. rewrite Hk2; [by apply K1| |by apply not_elem_of_nil]. unfold live. by rewrite K1. }
  assert (forall x, live s x -> at_ s3 x = at_ s x) as K3.
  { intros x Hx. rewrite Hk3; [by apply K2|unfold live; by rewrite K2|]. by intros ->%list_elem_of_singleton. }
  assert (rep s3 par t) as Hrep3 by (eapply rep_agree; [|exact Hrep]; intros x Hx; apply K3; by eapply rep_live).
  assert (forall x, live s x -> live s3 x) as KL by (intros x Hx; unfold live; by rewrite K3).
  assert (~ live s (KStr, n)) as Hf2' by (intros Hx; apply Hf2; unfold live; by rewrite K1).
  destruct t as [ln a la e sa n0 f cs]. cbn [paddr pcs] in *.
  apply (tree_insert_wp s3 b par ln a la e sa n0 f cs ent n str);
    [exact Hok3|done|exact Hrep3|exact Hnd|exact Hlen|done|done|exact He3| |by apply (fresh_not_fp s par)|by apply (fresh_not_fp s par)|].
  { apply at_str. rewrite Hk3; [by apply at_str| |]; [apply at_str in Hs2; unfold live; rewrite Hs2; by eexists|].
    by intros ?%list_elem_of_singleton. }
  intros c s4 Hc1 Hc2 Hok4 Hrep4 Hnd4 Hnew Hfln Hk4. apply HQ; [done|done|done|]. split; [done|done|done| |].
  - intros x. cbn [with_cs fp]. fold (fps (cs ++ [c])) (fps cs). rewrite fps_app. cbn [fps flat_map].
    rewrite !elem_of_cons, elem_of_app, app_nil_r, elem_of_cons. intros [?|[?|[?|[?|[?|[->|Hx]]]]]]; [tauto..| |].
    + right. intros Hx. by apply Hfln, KL.
    + right. destruct (Hnew x Hx) as [->|[->|Hn']]; [done|done|]. intros Hl. by apply Hn', KL.
  - intros x Hx Hout. rewrite Hk4; [by apply K3|by apply KL|done].
Qed.

(** Mounting on the heap is mounting in the tree it stands for. *)
Lemma tree_mount_recur_wp fuel s b par t pl l parts depth dev :
  tm_ok s (b + path_cost (drop depth parts)) -> 0 <= b -> rep s par t -> NoDup (fp t) -> narrow t ->
  path_rep s pl l parts -> apart (path_fp pl l) (fp t) -> Forall part_ok parts ->
  (depth <= length parts)%nat -> Z.of_nat (length parts) < 2 ^ 32 -> (length parts - depth < fuel)%nat ->
  wp (tree_mount_recur fuel pl (paddr t) dev (Z.of_nat depth)) (fun _ s' => exists t' b', b <= b' /\ tm_ok s' b' /\
    grown s s' par t t' /\ perase t' = vfs_mount_recur (drop depth parts) dev (perase t)) s.
Proof.
  revert s b par t depth. induction fuel as [|fuel IH]; [lia|].
  intros s b par t depth Hok Hb Hrep Hnd Hnar Hpath Hap Hparts Hd Hlen Hfuel. cbn [tree_mount_recur].
  pose proof Hpath as [Hl Hf]. wp_focus. apply with_tl_wp. eapply wp_lrd; [apply Hl|apply Hl|]. cbn [cnt].
  replace (upd_tlm (t_lm s) s) with s by (by destruct s).
  destruct (Z.eqb_spec (Z.of_nat (length parts)) (Z.of_nat depth)) as [Ed|Hne].
  - rewrite drop_ge in Hok |- * by lia. eapply wp_mono; [by apply set_file_wp|]. intros [] s' [Hok' Hg].
    exists (with_file t dev), (b + 0). split_and!; [lia|done|done|]. by destruct t.
  - destruct (lookup_lt_is_Some_2 parts depth) as [str Hstr]; [lia|].
    destruct (Forall2_lookup_r _ _ _ _ _ Hf Hstr) as ([lnp np] & Hlx & Hnp & Hnstr).
    rewrite (drop_S _ _ _ Hstr) in Hok |- *. cbn [path_cost] in Hok.
    assert (part_ok str) as Hpo by (rewrite Forall_forall in Hparts; by eapply Hparts, list_elem_of_lookup_2).
    pose proof (part_cost_nonneg str Hpo). assert (0 <= path_cost (drop (S depth) parts)) as Hpc by (by apply path_cost_nonneg, Forall_drop).
    wp_focus. apply with_tl_wp. eapply wp_mono; [apply (list_get_wp (t_lm s) pl l (Z.of_nat (length parts)) (Z.of_nat depth)); [exact Hl|lia]|].
    intros r ls [-> ->]. replace (upd_tlm (t_lm s) s) with s by (by destruct s).
    rewrite (proj2 (Z.ltb_lt _ _)), Nat2Z.id, Hlx by lia. change (default 0 _) with lnp.
    wp_focus. apply with_tl_wp. destruct Hl as [_ _ Hseg _ Hnz]. pose proof (take_drop_middle _ _ _ Hlx) as El.
    rewrite <-El in Hseg. apply nseg_app in Hseg as (_ & Hm & _). cbn [fst snd] in Hm, Hnp, Hnstr.
    eapply wp_nrd; [|exact Hm|].
    { intros ->. apply Hnz, list_elem_of_fmap. exists (0, np). split; [done|by eapply list_elem_of_lookup_2]. }
    replace (upd_tlm (t_lm s) s) with s by (by destruct s). cbn [nval]. wp_focus. eapply srd_wp; [done|exact Hnstr|].
    wp_focus. eapply tree_find_wp; [exact Hrep|]. pose proof (find_child_erase str (pcs t)) as Hfind.
    replace (u32 (Z.of_nat depth + 1)) with (Z.of_nat (S depth)) by (rewrite uN_small; lia).
    destruct t as [ln a la e sa n f cs]. cbn [pcs paddr] in *.
    destruct (first_some _ _) as [c|]; cbn [fmap option_fmap option_map].
    + destruct Hfind as (lc & rc & -> & Hfc). wp_focus. apply wp_ret. destruct (narrow_child _ _ _ _ _ _ _ _ _ _ Hnar) as [_ Hnc].
      destruct (rep_child _ _ _ _ _ _ _ _ _ _ _ _ Hrep Hnd) as (Hrc & Hndc & Hsub).
      eapply wp_mono; [apply (IH s (b + part_cost str) a c (S depth)); try done; try lia|].
      * by replace (b + part_cost str + _) with (b + (part_cost str + path_cost (drop (S depth) parts))) by lia.
      * intros x Hx Hc. by apply (Hap x Hx), Hsub.
      * intros [] s' (c' & b' & Hb' & Hok' & Hg & Her).
        exists (PNode ln a la e sa n f (lc ++ c' :: rc)), b'. split_and!; [lia|done|by apply grown_child|].
        cbn [perase vfs_mount_recur children ename efile]. rewrite Hfc, fmap_app. cbn [fmap list_fmap]. by rewrite Her.
    + wp_focus. apply (mount_insert_wp s (b + path_cost (drop (S depth) parts)) par (PNode ln a la e sa n f cs) np str);
        [|lia|done|done|done|by destruct Hnar|done|done|].
      { by replace (b + _ + part_cost str) with (b + (part_cost str + path_cost (drop (S depth) parts))) by lia. }
      intros c s1 Hc1 Hc2 Hok1 Hg1. cbn [with_cs pcs] in Hg1.
      destruct (path_grown _ _ _ _ _ _ _ _ Hpath Hap Hg1) as [Hpath1 Hap1].
      destruct (rep_child _ _ _ _ _ _ _ _ _ _ _ _ (gr_rep _ _ _ _ _ Hg1) (gr_nodup _ _ _ _ _ Hg1)) as (Hrc & Hndc & Hsub).
      eapply wp_mono; [apply (IH s1 b a c (S depth)); try done; try lia|].
      * destruct c. cbn [pcs] in Hc2. subst. by split.
      * intros x Hx Hc. by apply (Hap1 x Hx), Hsub.
      * intros [] s' (c' & b' & Hb' & Hok' & Hg & Her).
        exists (PNode ln a la e sa n f (cs ++ c' :: [])), b'. split_and!; [lia|done| |].
        { eapply grown_trans; [exact Hg1|]. apply grown_child; [apply Hg1|apply Hg1|done]. }
        cbn [perase vfs_mount_recur children ename efile]. rewrite Hfind. unfold Vfs.tree_insert. cbn [children ename efile].
        rewrite fmap_app. cbn [fmap list_fmap]. rewrite Her, Hc1. done.
Qed.

Lemma keeps_at s s' A x o : keeps s s' A -> at_ s x = Some o -> x ∉ A -> at_ s' x = Some o.
Proof. intros Hk Hx HA. rewrite Hk; [done|by eexists|done]. Qed.
Lemma at_tree s x r : t_trees s !! x = Some r <-> at_ s (KTree, x) = Some (OTree r).
Proof. at_case. Qed.
Lemma fp_no_tree t x : (KTree, x) ∉ fp t.
Proof.
  induction t as [ln a la e sa n f cs IH] using ptree_all. cbn [fp]. fold (fps cs). rewrite !not_elem_of_cons.
  split_and!; try done. intros Hin. unfold fps in Hin. apply list_elem_of_In, in_flat_map in Hin as (c & Hc & Hx).
  apply list_elem_of_In in Hc, Hx. apply elem_of_cons in Hx as [?|Hx]; [done|]. rewrite Forall_forall in IH. by apply (IH c Hc).
Qed.

(** ** The empty tree *)

Definition ROOT_NAME : name := [114; 111; 111; 116].
Definition init_cost : Z :=
  ka_cost TREE_SIZE + (ka_cost TREE_NODE_SIZE + (ka_cost LIST_SIZE + (ka_cost ENT_SIZE + ka_cost 5))).

Lemma init_costs : 0 <= ka_cost TREE_SIZE /\ 0 <= ka_cost 5.
Proof. split; apply ka_cost_nonneg; unfold TREE_SIZE; lia. Qed.

Lemma tree_create_wp s b (Q : Z -> tmem H -> Prop) :
  tm_ok s (b + (ka_cost TREE_SIZE + (ka_cost TREE_NODE_SIZE + ka_cost LIST_SIZE))) -> 0 <= b ->
  (forall tree root la s', root <> 0 -> tm_ok s' b -> t_trees s' !! tree = Some root ->
     t_nodes s' !! root = Some (mk_tnode la 0 0) -> list_rep (t_lm s') la [] 0 -> Q tree s') ->
  wp tree_create Q s.
Proof.
  intros Hok Hb HQ. destruct costs_nonneg as (? & ? & _). destruct init_costs as [? _]. unfold tree_create. wp_focus.
  apply (new_tree_wp s (b + (ka_cost TREE_NODE_SIZE + ka_cost LIST_SIZE))); [|lia|].
  { by replace (b + (ka_cost TREE_NODE_SIZE + ka_cost LIST_SIZE) + ka_cost TREE_SIZE) with (b + (ka_cost TREE_SIZE + (ka_cost TREE_NODE_SIZE + ka_cost LIST_SIZE))) by lia. }
  intros tree s1 Ht _ Hok1 Ht1 _. wp_focus. apply (new_tnode_wp s1 (b + ka_cost LIST_SIZE)); [|lia|].
  { by replace (b + ka_cost LIST_SIZE + ka_cost TREE_NODE_SIZE) with (b + (ka_cost TREE_NODE_SIZE + ka_cost LIST_SIZE)) by lia. }
  intros root s2 Hr _ Hok2 Hn2 Hk2. pose proof (keeps_at _ _ _ _ _ Hk2 (proj1 (at_tree _ _ _) Ht1) (not_elem_of_nil _)) as Ht2.
  apply at_tree in Ht2. wp_step. wp_step. set (s3 := upd_trees _ s2).
  assert (tm_ok s3 (b + ka_cost LIST_SIZE)) as Hok3.
  { eapply tm_ok_dom; [exact Hok2|done|]. intros a. unfold rlive, s3. cbn [t_nodes t_ents t_strs t_trees upd_trees].
    rewrite lookup_insert. destruct (decide _) as [<-|]; [rewrite Ht2; eauto|done]. }
  wp_focus. apply (tl_create_wp s3 b); [done|done|]. intros la s4 _ Hok4 Hl4 Hk4.
  assert (t_trees s4 !! tree = Some root) as Ht4.
  { apply at_tree. eapply keeps_at; [exact Hk4| |by apply not_elem_of_nil]. apply at_tree. unfold s3. cbn. apply lookup_insert_eq. }
  assert (t_nodes s4 !! root = Some (mk_tnode 0 0 0)) as Hn4.
  { apply at_node. eapply keeps_at; [exact Hk4| |by apply not_elem_of_nil]. by apply at_node. }
  wp_focus. eapply twr_wp; [exact Hok4|done|exact Hn4|]. intros s5 Hok5 Hn5 Hk5 El5. wp_focus.
  eapply twr_wp; [exact Hok5|done|exact Hn5|]. intros s6 Hok6 Hn6 Hk6 El6. apply wp_ret.
  apply (HQ tree root la); [done|done| |done|by rewrite El6, El5].
  apply at_tree. eapply keeps_at; [exact Hk6|eapply keeps_at; [exact Hk5|by apply at_tree|]|]; by intros ?%list_elem_of_singleton.
Qed.

(** [vfs_init] makes the tree of one entry without a file. *)
Lemma tree_vfs_init_wp s b (Q : Z -> tmem H -> Prop) :
  tm_ok s (b + init_cost) -> 0 <= b ->
  (forall tree t s', tm_ok s' b -> t_trees s' !! tree = Some (paddr t) -> rep s' 0 t -> NoDup (fp t) -> narrow t ->
     perase t = vfs_init -> Q tree s') ->
  wp tree_vfs_init Q s.
Proof.
  intros Hok Hb HQ. destruct costs_nonneg as (? & ? & _ & ?). destruct init_costs as [? ?]. unfold tree_vfs_init. wp_focus.
  apply (tree_create_wp s (b + (ka_cost ENT_SIZE + ka_cost 5))); [|lia|].
  { replace (b + (ka_cost ENT_SIZE + ka_cost 5) + _) with (b + init_cost) by (unfold init_cost; lia). exact Hok. }
  intros tree root la s1 Hroot Hok1 Ht1 Hn1 Hl1. wp_focus. apply (new_ent_wp s1 (b + ka_cost 5)); [|lia|].
  { by replace (b + ka_cost 5 + ka_cost ENT_SIZE) with (b + (ka_cost ENT_SIZE + ka_cost 5)) by lia. }
  intros e s2 He _ Hok2 He2 Hk2. wp_focus. apply (new_string_wp s2 b ROOT_NAME); [exact Hok2|done|done|].
  intros n s3 Hn _ Hok3 Hs3 Hk3.
  assert (forall x o, at_ s1 x = Some o -> at_ s3 x = Some o) as K3.
  { intros x o Hx. eapply keeps_at; [exact Hk3|eapply keeps_at; [exact Hk2|done|]|]; by apply not_elem_of_nil. }
  assert (t_ents s3 !! e = Some (mk_vent 0 0)) as He3.
  { apply at_ent. eapply keeps_at; [exact Hk3|by apply at_ent|by apply not_elem_of_nil]. }
  wp_focus. eapply erd_wp; [done|exact He3|]. wp_focus. eapply ewr_wp; [exact Hok3|done|exact He3|]. intros s4 Hok4 He4 Hk4 El4.
  wp_focus. eapply erd_wp; [done|exact He4|]. wp_focus. eapply ewr_wp; [exact Hok4|done|exact He4|]. intros s5 Hok5 He5 Hk5 El5.
  assert (forall x o, at_ s3 x = Some o -> x <> (KEnt, e) -> at_ s5 x = Some o) as K5.
  { intros x o Hx Hne. eapply keeps_at; [exact Hk5|eapply keeps_at; [exact Hk4|done|]|]; by intros ?%list_elem_of_singleton. }
  assert (t_trees s5 !! tree = Some root) as Ht5 by (apply at_tree, K5; [apply K3; by apply at_tree|done]).
  assert (t_nodes s5 !! root = Some (mk_tnode la 0 0)) as Hn5 by (apply at_node, K5; [apply K3; by apply at_node|done]).
  wp_step. wp_step. wp_focus. eapply wp_unwrap; [exact Ht5|]. wp_focus.
  eapply twr_wp; [exact Hok5|done|exact Hn5|]. intros s6 Hok6 Hn6 Hk6 El6. apply wp_ret.
  assert (forall k x o, at_ s5 (k, x) = Some o -> k <> KNode -> at_ s6 (k, x) = Some o) as K6.
  { intros k x o Hx Hne. eapply keeps_at; [exact Hk6|done|]. intros E%list_elem_of_singleton. congruence. }
  apply (HQ tree (PNode 0 root la e n ROOT_NAME 0 [])); [done| | | | |done].
  - apply at_tree, K6; [by apply at_tree|done].
  - rewrite rep_node. split_and!; [done|done|done|done| | | |constructor].
    + apply at_ent, K6; [by apply at_ent|done].
    + apply at_str, K6; [apply K5; [by apply at_str|done]|done].
    + cbn [fmap list_fmap length]. destruct Hl1 as [G1 G2 G3 G4 G5]. split; try done. apply at_list, K6; [|done].
      apply K5; [|done]. apply K3. by apply at_list.
  - cbn. rewrite !NoDup_cons, !not_elem_of_cons. split_and!; try done; try apply not_elem_of_nil; by apply NoDup_nil.
  - split; [done|exact I].
Qed.


(** [tree_node_destroy] of a node with a child takes the list node for a tree node. *)
Theorem tree_node_destroy_confused fuel s par t c cs :
  rep s par t -> pcs t = c :: cs -> ~ live s (KNode, pln c) -> (1 < fuel)%nat ->
  tree_node_destroy fuel (paddr t) s = Err OutOfBounds.
Proof.
  destruct t as [ln a la e sa n f cs0]. cbn [pcs paddr]. intros Hrep -> Hc Hfuel. rewrite rep_node in Hrep.
  destruct Hrep as (Ha & _ & _ & Hn & _ & _ & [Hl1 Hl2 Hl3 Hl4 Hl5] & _).
  destruct fuel as [|[|fuel]]; [lia|lia|].
  assert (pln c <> 0) as Hc0 by (intros E; apply Hl5; rewrite <-E; by left).
  assert (forall p, trd t_children p s = if truth p then match t_nodes s !! p with Some nd => Ok (t_children nd, s) | None => Err OutOfBounds end else Err NullDeref) as Htrd.
  { intros p. unfold trd, bindM, guard, get. destruct (truth p); cbn; [|done]. destruct (t_nodes s !! p); reflexivity. }
  cbn [tree_node_destroy]. eapply bind_Ok; [rewrite Htrd, (proj2 (truth_true a) Ha), Hn; done|]. apply bind_Err. cbn [t_children].
  unfold foreach_in. eapply bind_Ok; [unfold with_tl; by rewrite (lrd_eq head la _ (t_lm s) Hl1 Hl2)|]. cbn [head].
  eapply bind_Ok; [done|]. apply while_Err; [lia|]. cbn [hd_addr fst held fmap list_fmap].
  rewrite (proj2 (Z.eqb_neq _ _) Hc0). apply bind_Err, bind_Err, bind_Err. replace (upd_tlm (t_lm s) s) with s by (by destruct s).
  rewrite Htrd, (proj2 (truth_true _) Hc0). destruct (t_nodes s !! pln c) eqn:E; [|done].
  destruct Hc. unfold live, at_. cbn. rewrite E. by eexists.
Qed.
End rep.

(** ** Witnesses *)

(** The empty tree, and the path [/dev] in memory. *)
Definition boot_tmem : tmem kheap := mk_tmem boot_lmem ∅ ∅ ∅ ∅.
Definition demo_tree : M (tmem kheap) (Z * Z) :=
  tree ← tree_vfs_init;
  pl ← with_tl list_create;
  n ← new_string [100; 101; 118];
  with_tl (list_push_back pl n);;
  mret (tree, pl).

Lemma boot_tm_ok b : b < 2 ^ 60 -> tm_ok boot_tmem b.
Proof.
  intros Hb. exists []. split.
  - destruct (boot_dl_ok b Hb) as (L & Hi & Hrest). exists L. split; [|exact Hrest]. cbn [ka_inv ka_framed]. by rewrite app_nil_r.
  - intros a. unfold rlive. cbn. rewrite !lookup_empty. by intros [[??]|[[??]|[[??]|[??]]]].
Qed.

Lemma demo_costs :
  (0 <= ka_cost (H := kheap) NODE_SIZE < 2 ^ 20 /\ 0 <= ka_cost (H := kheap) LIST_SIZE < 2 ^ 20) /\
  (0 <= ka_cost (H := kheap) 4 < 2 ^ 20 /\ 0 <= init_cost (K := kheap_KAlloc) < 2 ^ 20) /\
  0 <= path_cost (K := kheap_KAlloc) [[100; 101; 118]] < 2 ^ 20.
Proof. vm_compute. repeat split; congruence. Qed.

Lemma demo_tree_wp b : 0 <= b < 2 ^ 59 ->
  wp demo_tree (fun r s => exists t l, tm_ok s b /\ t_trees s !! r.1 = Some (paddr t) /\ rep s 0 t /\ NoDup (fp t) /\
    narrow t /\ perase t = vfs_init /\ path_rep s r.2 l [[100; 101; 118]] /\ apart (path_fp r.2 l) (fp t)) boot_tmem.
Proof.
  intros Hb. destruct demo_costs as ((? & ?) & (? & ?) & _). unfold demo_tree. wp_focus.
  apply (tree_vfs_init_wp boot_tmem (b + (ka_cost (H := kheap) NODE_SIZE + (ka_cost (H := kheap) 4 + ka_cost (H := kheap) LIST_SIZE))));
    [apply boot_tm_ok; lia|lia|].
  intros tree t s1 Hok1 Ht1 Hrep1 Hnd Hnar He. wp_focus.
  apply (tl_create_wp s1 (b + (ka_cost (H := kheap) NODE_SIZE + ka_cost (H := kheap) 4))); [by rewrite <-!Z.add_assoc|lia|].
  intros pl s2 Hf2 Hok2 Hl2 Hk2. wp_focus.
  apply (new_string_wp s2 (b + ka_cost (H := kheap) NODE_SIZE)); [by rewrite <-Z.add_assoc|lia|done|].
  intros n s3 Hn Hf3 Hok3 Hs3 Hk3. wp_focus.
  assert (list_rep (t_lm s3) pl [] 0) as Hl3.
  { eapply list_rep_agree; [| |exact Hl2]; [|by intros a ?%elem_of_nil]. apply Hk3; [|by apply not_elem_of_nil].
    destruct Hl2 as [_ Hl2 _ _ _]. apply at_list in Hl2. unfold live. rewrite Hl2. by eexists. }
  eapply (tl_push_wp s3 b pl [] 0 n); [exact Hok3|lia|exact Hl3|done|]. intros ln s4 Hf4 Hok4 Hl4 Hk4. apply wp_ret.
  assert (forall x o, at_ s1 x = Some o -> at_ s3 x = Some o) as K3.
  { intros x o Hx. eapply keeps_at; [exact Hk3|eapply keeps_at; [exact Hk2|done|]|]; by apply not_elem_of_nil. }
  assert (forall x, live s1 x -> live s3 x) as L3 by (intros x [o Ho]; unfold live; rewrite (K3 _ _ Ho); by eexists).
  assert (forall x, live s1 x -> at_ s4 x = at_ s1 x) as K4.
  { intros x [o Ho]. rewrite Ho. eapply keeps_at; [exact Hk4|by apply K3|]. intros ->%list_elem_of_singleton.
    apply Hf2. by eexists. }
  exists t, [(ln, n)]. cbn [fst snd]. split_and!; [done| | |done|done|done| |].
  - apply at_tree. rewrite K4; [by apply at_tree|]. apply at_tree in Ht1. unfold live. rewrite Ht1. by eexists.
  - eapply rep_agree; [|exact Hrep1]. intros x Hx. apply K4. by eapply rep_live.
  - split; [exact Hl4|]. constructor; [|constructor]. split; [done|]. apply at_str.
    eapply keeps_at; [exact Hk4|by apply at_str|]. by intros ?%list_elem_of_singleton.
  - assert (forall x, x ∈ fp t -> live s1 x) as Hlive by (intros x Hx; by eapply rep_live).
    intros x Hp Hin. apply Hlive in Hin. unfold path_fp in Hp. cbn [fmap list_fmap fst snd app] in Hp.
    rewrite !elem_of_cons in Hp. destruct Hp as [->|[->|[->|Hp]]]; [| | |by apply elem_of_nil in Hp].
    + done.
    + by apply Hf4, L3.
    + apply Hf3. unfold live. destruct Hin as [o Ho]. rewrite (keeps_at _ _ _ _ _ Hk2 Ho (not_elem_of_nil _)). by eexists.
Qed.

