(* ===== verification/Disk.v ===== *)
(** * Disk

    What the file systems share: little-endian packed structures, byte buffers
    with bounds, and the interface of a block device.  A device node's [read]
    and [write] take a first sector and a number of 512-byte sectors
    ([dev->read(dev, buf, lba, cnt)]); the class [BlkDev] states what a file
    system may rely on, and [memdisk] is an instance. *)

From S2P Require Import Prelude.

(** ** Bytes and packed structures *)

Abbreviation byte := (fun b : Z => 0 <= b < 256).
Abbreviation bytes := (Forall byte).

(** [n] little-endian bytes of [x], and the value of little-endian bytes. *)
Fixpoint le_enc (n : nat) (x : Z) : list Z :=
  match n with O => [] | S n' => x `mod` 256 :: le_enc n' (x `div` 256) end.
Fixpoint le_dec (bs : list Z) : Z :=
  match bs with [] => 0 | b :: r => b + 256 * le_dec r end.

Lemma length_le_enc n x : length (le_enc n x) = n.
Proof. revert x. induction n; intros; simpl; auto. Qed.

Lemma bytes_le_enc n x : bytes (le_enc n x).
Proof. revert x. induction n; intros; simpl; constructor; auto. dlia. Qed.

Lemma le_dec_enc n x : le_dec (le_enc n x) = uN (8 * Z.of_nat n) x.
Proof.
  revert x. induction n as [|n IH]; intros x; [symmetry; apply Z.mod_1_r|].
  simpl le_enc. simpl le_dec. rewrite IH. unfold uN.
  replace (8 * Z.of_nat (S n)) with (8 + 8 * Z.of_nat n) by lia.
  rewrite Z.pow_add_r by lia. change (2 ^ 8) with 256.
  rewrite Z.rem_mul_r by lia. lia.
Qed.

Lemma le_enc_dec bs : bytes bs -> le_enc (length bs) (le_dec bs) = bs.
Proof.
  induction 1 as [|b r Hb _ IH]; [done|]. cbn [le_dec le_enc length]. f_equal; [dlia|].
  transitivity (le_enc (length r) (le_dec r)); [|done]. f_equal. dlia.
Qed.

Lemma le_dec_range bs : bytes bs -> 0 <= le_dec bs < 2 ^ (8 * Z.of_nat (length bs)).
Proof.
  induction 1 as [|b r Hb _ IH]; [simpl; lia|]. simpl le_dec. simpl length.
  replace (8 * Z.of_nat (S (length r))) with (8 + 8 * Z.of_nat (length r)) by lia.
  rewrite Z.pow_add_r by lia. change (2 ^ 8) with 256. lia.
Qed.

(** A packed struct is the list of its fields' widths in bytes; its value the list
    of the fields' values. *)
Abbreviation layout := (list nat).
Definition pack (ws : layout) (vs : list Z) : list Z := concat (zip_with le_enc ws vs).
Fixpoint unpack (ws : layout) (bs : list Z) : list Z :=
  match ws with [] => [] | w :: ws' => le_dec (take w bs) :: unpack ws' (drop w bs) end.

(** [vs] are values of fields of the widths [ws]. *)
Abbreviation fits := (Forall2 (fun (w : nat) (x : Z) => 0 <= x < 2 ^ (8 * Z.of_nat w))).

Lemma length_pack ws vs : length ws = length vs -> length (pack ws vs) = sum_list ws.
Proof.
  revert vs. induction ws as [|w ws IH]; intros [|x vs]; simpl; try done.
  intros [= H]. unfold pack in *. simpl. by rewrite length_app, length_le_enc, IH.
Qed.

Lemma bytes_pack ws vs : bytes (pack ws vs).
Proof.
  unfold pack. revert vs. induction ws; intros [|x vs]; simpl; try constructor.
  apply Forall_app. split; [apply bytes_le_enc|auto].
Qed.

Lemma length_unpack ws bs : length (unpack ws bs) = length ws.
Proof. revert bs. induction ws; intros; simpl; auto. Qed.

Lemma unpack_pack ws vs : fits ws vs -> unpack ws (pack ws vs) = vs.
Proof.
  induction 1 as [|w x ws vs Hx _ IH]; [done|]. unfold pack in *. simpl.
  rewrite take_app_length', drop_app_length' by (by rewrite length_le_enc).
  rewrite le_dec_enc, IH, uN_small by done. done.
Qed.

Lemma pack_unpack ws bs :
  bytes bs -> length bs = sum_list ws -> pack ws (unpack ws bs) = bs.
Proof.
  revert bs. induction ws as [|w ws IH]; simpl; intros bs Hb Hl; [by destruct bs|].
  unfold pack in *. simpl. rewrite IH.
  - rewrite <- (take_drop w bs) at 3. f_equal.
    assert (length (take w bs) = w) as Hw by (rewrite length_take; lia).
    rewrite <- Hw at 1. apply le_enc_dec. by apply Forall_take.
  - by apply Forall_drop.
  - rewrite length_drop. lia.
Qed.

Lemma unpack_fits ws bs : bytes bs -> (sum_list ws <= length bs)%nat -> fits ws (unpack ws bs).
Proof.
  revert bs. induction ws as [|w ws IH]; simpl; intros bs Hb Hl; constructor.
  - pose proof (le_dec_range (take w bs)) as Hr. rewrite length_take, Nat.min_l in Hr by lia.
    apply Hr. by apply Forall_take.
  - apply IH; [by apply Forall_drop|]. rewrite length_drop. lia.
Qed.

(** ** Bit fields *)

(** The fields of a bit-field struct, first field in the lowest bits. *)
Fixpoint bpack (ws : list Z) (vs : list Z) : Z :=
  match ws, vs with w :: ws', v :: vs' => uN w v + 2 ^ w * bpack ws' vs' | _, _ => 0 end.
Fixpoint bunpack (ws : list Z) (x : Z) : list Z :=
  match ws with [] => [] | w :: ws' => uN w x :: bunpack ws' (x `div` 2 ^ w) end.

Abbreviation bfits := (Forall2 (fun w x : Z => 0 <= w /\ 0 <= x < 2 ^ w)).

Lemma bunpack_bpack ws vs : bfits ws vs -> bunpack ws (bpack ws vs) = vs.
Proof.
  induction 1 as [|w v ws vs [Hw Hv] _ IH]; [done|]. cbn [bpack bunpack]. rewrite (uN_small w v) by done.
  f_equal; [|rewrite <- IH at 2; f_equal].
  - unfold uN. rewrite Z.mul_comm, Z.mod_add by lia. by apply Z.mod_small.
  - rewrite Z.mul_comm, Z.div_add by lia. rewrite Z.div_small by done. lia.
Qed.

Lemma bpack_range ws vs : Forall (fun w => 0 <= w) ws -> 0 <= bpack ws vs < 2 ^ foldr Z.add 0 ws.
Proof.
  intros Hw. revert vs. induction Hw as [|w ws Hw Hws IH]; intros [|v vs]; cbn [bpack]; try (simpl; lia);
    cbn [foldr]; assert (0 <= foldr Z.add 0 ws) by (clear IH; induction Hws; simpl in *; lia); [lia|].
  rewrite Z.pow_add_r by lia. pose proof (uN_range w v Hw). pose proof (IH vs).
  assert (2 ^ w * bpack ws vs <= 2 ^ w * (2 ^ foldr Z.add 0 ws - 1)) by (apply Z.mul_le_mono_nonneg_l; lia).
  assert (0 <= 2 ^ w * bpack ws vs) by (apply Z.mul_nonneg_nonneg; lia). lia.
Qed.

(** ** Buffers *)

(** Reading and writing [n] bytes at an offset of a buffer; outside it is a fault. *)
Definition buf_read {St} (buf : list Z) (off n : Z) : M St (list Z) :=
  guard ((0 <=? off) && (0 <=? n) && (off + n <=? Z.of_nat (length buf))) OutOfBounds;;
  mret (take (Z.to_nat n) (drop (Z.to_nat off) buf)).
Definition buf_write {St} (buf : list Z) (off : Z) (bs : list Z) : M St (list Z) :=
  guard ((0 <=? off) && (off + Z.of_nat (length bs) <=? Z.of_nat (length buf))) OutOfBounds;;
  mret (list_inserts (Z.to_nat off) bs buf).
(** An unsigned [w]-byte value at an offset. *)
Definition buf_get {St} (w : nat) (buf : list Z) (off : Z) : M St Z :=
  bs ← buf_read buf off (Z.of_nat w); mret (le_dec bs).

Lemma inserts_split (bs buf : list Z) off :
  (off + length bs <= length buf)%nat ->
  list_inserts off bs buf = take off buf ++ bs ++ drop (off + length bs) buf.
Proof.
  intros Hl. apply list_eq. intros j.
  destruct (decide (j < off)%nat) as [?|?].
  { rewrite list_lookup_inserts_lt by done. rewrite lookup_app_l by (rewrite length_take; lia).
    by rewrite lookup_take_lt. }
  rewrite lookup_app_r by (rewrite length_take; lia).
  rewrite length_take, Nat.min_l by lia.
  destruct (decide (j < off + length bs)%nat) as [?|?].
  - rewrite list_lookup_inserts by lia. by rewrite lookup_app_l by lia.
  - rewrite list_lookup_inserts_ge by lia. rewrite lookup_app_r by lia.
    rewrite lookup_drop. f_equal. lia.
Qed.

Lemma inserts_all (bs buf : list Z) : length bs = length buf -> list_inserts 0 bs buf = bs.
Proof.
  intros Hl. rewrite inserts_split by lia. rewrite drop_ge by lia. simpl. by rewrite app_nil_r.
Qed.

Lemma bytes_inserts off (bs buf : list Z) : bytes bs -> bytes buf -> bytes (list_inserts off bs buf).
Proof.
  intros Hb Hc. revert off. induction Hb; intros; simpl; [done|]. by apply Forall_insert.
Qed.

Section buf_wp.
Context {St : Type}.
Lemma buf_read_wp buf off n (Q : list Z -> St -> Prop) s :
  0 <= off -> 0 <= n -> off + n <= Z.of_nat (length buf) ->
  Q (take (Z.to_nat n) (drop (Z.to_nat off) buf)) s -> wp (buf_read buf off n) Q s.
Proof.
  intros. unfold buf_read. wp_step. wp_step; [|by wp_step].
  rewrite !andb_true_iff, !Z.leb_le. lia.
Qed.
Lemma buf_write_wp buf off bs (Q : list Z -> St -> Prop) s :
  0 <= off -> off + Z.of_nat (length bs) <= Z.of_nat (length buf) ->
  Q (list_inserts (Z.to_nat off) bs buf) s -> wp (buf_write buf off bs) Q s.
Proof.
  intros. unfold buf_write. wp_step. wp_step; [|by wp_step].
  rewrite !andb_true_iff, !Z.leb_le. lia.
Qed.
Lemma buf_get_wp w buf off (Q : Z -> St -> Prop) s :
  0 <= off -> off + Z.of_nat w <= Z.of_nat (length buf) ->
  Q (le_dec (take w (drop (Z.to_nat off) buf))) s -> wp (buf_get w buf off) Q s.
Proof.
  intros. unfold buf_get. wp_focus. apply buf_read_wp; [lia..|]. rewrite Nat2Z.id. by wp_step.
Qed.
End buf_wp.

(** ** Physical memory *)

Definition pmem : Type := Z -> Z.
Definition mem_put (m : pmem) (a : Z) (bs : list Z) : pmem := fun x =>
  if (a <=? x) && (x <? a + Z.of_nat (length bs)) then default 0 (bs !! Z.to_nat (x - a)) else m x.
Definition mem_get (m : pmem) (a n : Z) : list Z := m <$> seqZ a n.

Lemma mem_get_put_same m a bs n : n = Z.of_nat (length bs) -> mem_get (mem_put m a bs) a n = bs.
Proof.
  intros ->. unfold mem_get. apply list_eq. intros i. rewrite list_lookup_fmap.
  destruct (decide (i < length bs)%nat) as [Hi|Hi].
  - rewrite lookup_seqZ_lt by lia. cbn [fmap option_fmap option_map]. unfold mem_put.
    rewrite (proj2 (Z.leb_le _ _)), (proj2 (Z.ltb_lt _ _)) by lia. cbn [andb].
    replace (Z.to_nat (a + Z.of_nat i - a)) with i by lia.
    destruct (lookup_lt_is_Some_2 bs i Hi) as [b ->]. done.
  - rewrite lookup_seqZ_ge by lia. rewrite lookup_ge_None_2 by lia. done.
Qed.
Lemma mem_put_outside m a bs x : x < a \/ a + Z.of_nat (length bs) <= x -> mem_put m a bs x = m x.
Proof.
  intros Hx. unfold mem_put. destruct (Z.leb_spec a x), (Z.ltb_spec x (a + Z.of_nat (length bs))); try done. lia.
Qed.
Lemma length_mem_get m a n : 0 <= n -> Z.of_nat (length (mem_get m a n)) = n.
Proof. intros. unfold mem_get. rewrite length_fmap, length_seqZ. lia. Qed.
Lemma mem_get_app m a n k : 0 <= n -> 0 <= k -> mem_get m a (n + k) = mem_get m a n ++ mem_get m (a + n) k.
Proof. intros. unfold mem_get. rewrite seqZ_app by done. apply fmap_app. Qed.

(** ** Block devices *)

Class BlkDev (D : Type) : Type := {
  blk_read : D -> Z -> Z -> list Z;
  blk_write : D -> Z -> list Z -> D;
  blk_read_length d lba n : 0 <= n -> Z.of_nat (length (blk_read d lba n)) = 512 * n;
  blk_read_bytes d lba n : bytes (blk_read d lba n);
  blk_read_split d lba n m :
    0 <= n -> 0 <= m -> blk_read d lba (n + m) = blk_read d lba n ++ blk_read d (lba + n) m;
  blk_read_same d lba n bs :
    Z.of_nat (length bs) = 512 * n -> bytes bs -> blk_read (blk_write d lba bs) lba n = bs;
  blk_read_other d lba n bs lba' m :
    Z.of_nat (length bs) = 512 * n -> lba + n <= lba' \/ lba' + m <= lba ->
    blk_read (blk_write d lba bs) lba' m = blk_read d lba' m;
}.

(** A disk image in memory: the runs of bytes written so far, the latest first;
    bytes never written are 0. *)
Definition memdisk : Type := list (Z * list Z).

Fixpoint md_get (d : memdisk) (x : Z) : Z :=
  match d with
  | [] => 0
  | (a, bs) :: d' =>
      if (a <=? x) && (x <? a + Z.of_nat (length bs)) then default 0 (bs !! Z.to_nat (x - a)) `mod` 256
      else md_get d' x
  end.
Definition md_read (d : memdisk) (lba n : Z) : list Z := md_get d <$> seqZ (512 * lba) (512 * n).
Definition md_put (d : memdisk) (a : Z) (bs : list Z) : memdisk := (a, bs) :: d.

#[global] Arguments md_put : simpl never.

Lemma md_put_get d a bs x :
  md_get (md_put d a bs) x =
  if decide (a <= x < a + Z.of_nat (length bs)) then default 0 (bs !! Z.to_nat (x - a)) `mod` 256 else md_get d x.
Proof.
  unfold md_put. simpl.
  destruct (Z.leb_spec a x), (Z.ltb_spec x (a + Z.of_nat (length bs))); simpl; case_decide; (done || lia).
Qed.

Lemma md_get_byte d x : byte (md_get d x).
Proof. induction d as [|[a bs] d IH]; simpl; [lia|]. case_match; [dlia|done]. Qed.

#[export] Program Instance memdisk_BlkDev : BlkDev memdisk := {|
  blk_read := md_read;
  blk_write d lba bs := md_put d (512 * lba) bs;
|}.
Next Obligation. intros. unfold md_read. rewrite length_fmap, length_seqZ. lia. Qed.
Next Obligation.
  intros. unfold md_read. apply Forall_fmap, Forall_true. intros x. apply md_get_byte.
Qed.
Next Obligation.
  intros. unfold md_read. rewrite <- fmap_app. f_equal.
  rewrite !Z.mul_add_distr_l. apply seqZ_app; lia.
Qed.
Next Obligation.
  intros d lba n bs Hl Hb. unfold md_read. apply list_eq. intros i.
  rewrite list_lookup_fmap. destruct (decide (i < length bs)%nat) as [Hi|Hi].
  - rewrite lookup_seqZ_lt by lia. change (Some (md_get (md_put d (512 * lba) bs) (512 * lba + Z.of_nat i)) = bs !! i). rewrite md_put_get.
    rewrite decide_True by lia. replace (Z.to_nat _) with i by lia.
    destruct (lookup_lt_is_Some_2 bs i Hi) as [b Hbi]. rewrite Hbi. simpl. f_equal.
    pose proof (Forall_lookup_1 _ _ _ _ Hb Hbi). by rewrite Z.mod_small.
  - rewrite lookup_seqZ_ge by lia. rewrite lookup_ge_None_2 by lia. done.
Qed.
Next Obligation.
  intros d lba n bs lba' m Hl Hd. unfold md_read. apply list_fmap_ext. intros i x Hx.
  apply lookup_seqZ in Hx as [-> Hi]. rewrite md_put_get, decide_False by lia. done.
Qed.
