(* ===== verification/Layout.v ===== *)
(** * Layout: where C puts the fields of a structure

    The layout rules of the x86-64 ABI for the types the headers use: integers and
    pointers, arrays, structures (packed or padded to the alignment of their fields),
    unions, and bit-fields that fill whole units.  [Headers] writes the structures of the
    kernel's headers down in these terms and compares them with the sizes, offsets and
    decoders of the rest of the development. *)

From Stdlib Require String.
Abbreviation string := String.string.
From S2P Require Import Prelude Disk.

(** [CBits w fs]: bit-fields that share a unit of [w] bytes, from the lowest bit on. *)
Inductive ctype : Type :=
  | CInt (w : Z)
  | CArr (t : ctype) (n : Z)
  | CBits (w : Z) (fs : list (string * Z))
  | CStruct (packed : bool) (fs : list (string * ctype))
  | CUnion (packed : bool) (fs : list (string * ctype)).

Definition align_up (o a : Z) : Z := (o + (a - 1)) `div` a * a.

Fixpoint alignof (t : ctype) : Z :=
  match t with
  | CInt w => w
  | CArr t _ => alignof t
  | CBits w _ => w
  | CStruct packed fs | CUnion packed fs =>
      if packed then 1 else
      (fix go (fs : list (string * ctype)) := match fs with [] => 1 | (_, t) :: r => Z.max (alignof t) (go r) end) fs
  end.

(** Where a field goes when the ones before it end at [off]. *)
Definition put_at (packed : bool) (off : Z) (t : ctype) : Z := if packed then off else align_up off (alignof t).

Fixpoint sizeof (t : ctype) : Z :=
  match t with
  | CInt w => w
  | CArr t n => sizeof t * n
  | CBits w _ => w
  | CStruct packed fs =>
      let end_ := (fix go (off : Z) (fs : list (string * ctype)) :=
        match fs with [] => off | (_, t) :: r => go (put_at packed off t + sizeof t) r end) 0 fs in
      align_up end_ (alignof (CStruct packed fs))
  | CUnion packed fs =>
      align_up ((fix go (fs : list (string * ctype)) := match fs with [] => 0 | (_, t) :: r => Z.max (sizeof t) (go r) end) fs)
        (alignof (CUnion packed fs))
  end.

(** The fields with their offsets. *)
Fixpoint place (packed : bool) (off : Z) (fs : list (string * ctype)) : list (string * (Z * ctype)) :=
  match fs with
  | [] => []
  | (n, t) :: r => let o := put_at packed off t in (n, (o, t)) :: place packed (o + sizeof t) r
  end.
Fixpoint place_end (packed : bool) (off : Z) (fs : list (string * ctype)) : Z :=
  match fs with [] => off | (_, t) :: r => place_end packed (put_at packed off t + sizeof t) r end.
Definition layout_of (t : ctype) : list (string * (Z * ctype)) :=
  match t with
  | CStruct packed fs => place packed 0 fs
  | CUnion _ fs => (fun x => (x.1, (0, x.2))) <$> fs
  | _ => []
  end.

Fixpoint field_named (n : string) (l : list (string * (Z * ctype))) : option (Z * ctype) :=
  match l with [] => None | (m, x) :: r => if String.eqb m n then Some x else field_named n r end.

(** The offset and type of a field of a field of ... *)
Fixpoint path_of (t : ctype) (path : list string) : option (Z * ctype) :=
  match path with
  | [] => Some (0, t)
  | n :: r => match field_named n (layout_of t) with
              | Some (o, t') => match path_of t' r with Some (o', t'') => Some (o + o', t'') | None => None end
              | None => None
              end
  end.
Definition offsetof (t : ctype) (path : list string) : option Z := fst <$> path_of t path.
(** The value of an integer field in the bytes of a structure. *)
Definition rd_field (t : ctype) (path : list string) (bs : list Z) : option Z :=
  (fun x => le_dec (take (Z.to_nat (sizeof x.2)) (drop (Z.to_nat x.1) bs))) <$> path_of t path.

(** Integers have 1, 2, 4 or 8 bytes; bit-fields fill their unit at most. *)
Fixpoint wf_type (t : ctype) : Prop :=
  match t with
  | CInt w => w ∈ [1; 2; 4; 8]
  | CArr t n => wf_type t /\ 0 <= n
  | CBits w fs => w ∈ [1; 2; 4; 8] /\ Forall (fun f => 0 < f.2) fs /\ foldr (fun f n => f.2 + n) 0 fs <= 8 * w
  | CStruct _ fs | CUnion _ fs =>
      (fix go (fs : list (string * ctype)) := match fs with [] => True | (_, t) :: r => wf_type t /\ go r end) fs
  end.

Definition wf_width (w : Z) : bool := (w =? 1) || (w =? 2) || (w =? 4) || (w =? 8).
Fixpoint wf_typeb (t : ctype) : bool :=
  match t with
  | CInt w => wf_width w
  | CArr t n => wf_typeb t && (0 <=? n)
  | CBits w fs => wf_width w && forallb (fun f => 0 <? f.2) fs && (foldr (fun f n => f.2 + n) 0 fs <=? 8 * w)
  | CStruct _ fs | CUnion _ fs =>
      (fix go (fs : list (string * ctype)) := match fs with [] => true | (_, t) :: r => wf_typeb t && go r end) fs
  end.

(** ** Alignment *)

Lemma align_up_spec o a : 0 < a -> o <= align_up o a < o + a /\ (a | align_up o a).
Proof. intros Ha. unfold align_up. split; [dlia|]. by eexists. Qed.

Section type_ind.
Context (P : ctype -> Prop).
Context (Hint : forall w, P (CInt w)) (Harr : forall t n, P t -> P (CArr t n)) (Hbits : forall w fs, P (CBits w fs)).
Context (Hstruct : forall p fs, Forall (fun f => P f.2) fs -> P (CStruct p fs)).
Context (Hunion : forall p fs, Forall (fun f => P f.2) fs -> P (CUnion p fs)).
Fixpoint ctype_all (t : ctype) : P t :=
  let fix all (fs : list (string * ctype)) : Forall (fun f => P f.2) fs :=
    match fs with
    | [] => List.Forall_nil _
    | f :: r => List.Forall_cons _ f r (let 'pair _ t as f := f return P f.2 in ctype_all t) (all r)
    end in
  match t with
  | CInt w => Hint w
  | CArr t n => Harr t n (ctype_all t)
  | CBits w fs => Hbits w fs
  | CStruct p fs => Hstruct p fs (all fs)
  | CUnion p fs => Hunion p fs (all fs)
  end.
End type_ind.

Definition pow2s (a : Z) : Prop := a = 1 \/ a = 2 \/ a = 4 \/ a = 8.
Lemma pow2s_max a b : pow2s a -> pow2s b -> pow2s (Z.max a b) /\ (a | Z.max a b) /\ (b | Z.max a b).
Proof.
  unfold pow2s. intros Ha Hb. destruct Ha as [->|[->|[->| ->]]], Hb as [->|[->|[->| ->]]]; cbn [Z.max Z.compare Pos.compare Pos.compare_cont];
    (split; [tauto|]); split; apply Z.mod_divide; done.
Qed.

(** The alignment of a structure. *)
Fixpoint max_align (fs : list (string * ctype)) : Z := match fs with [] => 1 | (_, t) :: r => Z.max (alignof t) (max_align r) end.
Lemma alignof_struct p fs : alignof (CStruct p fs) = if p then 1 else max_align fs.
Proof. done. Qed.
Lemma alignof_union p fs : alignof (CUnion p fs) = if p then 1 else max_align fs.
Proof. done. Qed.
Lemma wf_fields p fs : wf_type (CStruct p fs) <-> Forall (fun f => wf_type f.2) fs.
Proof. cbn. induction fs as [|[n t] fs IH]; [split; [constructor|done]|]. by rewrite Forall_cons, IH. Qed.
Lemma wf_union p fs : wf_type (CUnion p fs) <-> Forall (fun f => wf_type f.2) fs.
Proof. exact (wf_fields p fs). Qed.

Lemma wf_width_ok w : wf_width w = true -> w ∈ [1; 2; 4; 8].
Proof. unfold wf_width. rewrite !orb_true_iff, !Z.eqb_eq, !elem_of_cons. tauto. Qed.
Lemma wf_typeb_ok t : wf_typeb t = true -> wf_type t.
Proof.
  induction t as [w|t n IH|w fs|p fs IH|p fs IH] using ctype_all.
  - apply wf_width_ok.
  - cbn. rewrite andb_true_iff, Z.leb_le. intros [? ?]. auto.
  - cbn. rewrite !andb_true_iff, Z.leb_le. intros [[Hw Hf] Hs]. split_and!; [by apply wf_width_ok| |done].
    apply Forall_forall. intros f Hin. rewrite forallb_forall in Hf. apply Z.ltb_lt, Hf. by apply list_elem_of_In.
  - rewrite wf_fields. cbn. induction IH as [|[n t] fs Ht _ IHfs]; [constructor|]. rewrite andb_true_iff. intros [? ?].
    constructor; auto.
  - rewrite wf_union. cbn. induction IH as [|[n t] fs Ht _ IHfs]; [constructor|]. rewrite andb_true_iff. intros [? ?].
    constructor; auto.
Qed.

Lemma max_align_ok fs : Forall (fun f => pow2s (alignof f.2)) fs ->
  pow2s (max_align fs) /\ Forall (fun f => (alignof f.2 | max_align fs)) fs.
Proof.
  induction 1 as [|[n t] fs Ht Hfs [IH1 IH2]]; [split; [by left|constructor]|]. cbn [max_align snd] in *.
  destruct (pow2s_max _ _ Ht IH1) as (H1 & H2 & H3). split; [done|]. constructor; [done|].
  eapply Forall_impl; [exact IH2|]. intros f Hf. exact (Z.divide_trans _ _ _ Hf H3).
Qed.

Lemma alignof_pow2 t : wf_type t -> pow2s (alignof t).
Proof.
  induction t as [w|t n IH|w fs|p fs IH|p fs IH] using ctype_all.
  - cbn. unfold pow2s. set_solver.
  - intros [Ht _]. by apply IH.
  - intros [Hw _]. cbn. unfold pow2s. set_solver.
  - rewrite wf_fields, alignof_struct. intros Hfs. destruct p; [by left|]. apply max_align_ok.
    apply Forall_forall. intros f Hf. rewrite Forall_forall in IH, Hfs. auto.
  - rewrite wf_union, alignof_union. intros Hfs. destruct p; [by left|]. apply max_align_ok.
    apply Forall_forall. intros f Hf. rewrite Forall_forall in IH, Hfs. auto.
Qed.
Lemma alignof_pos t : wf_type t -> 0 < alignof t.
Proof. intros Ht. destruct (alignof_pow2 t Ht) as [->|[->|[->| ->]]]; lia. Qed.

(** ** Sizes and offsets *)

Lemma sizeof_struct p fs : sizeof (CStruct p fs) = align_up (place_end p 0 fs) (alignof (CStruct p fs)).
Proof.
  cbn [sizeof]. f_equal. generalize 0. induction fs as [|[n t] fs IH]; intros off; [done|]. cbn [place_end]. apply IH.
Qed.

Lemma put_at_spec p off t : wf_type t -> off <= put_at p off t /\ (p = false -> (alignof t | put_at p off t)).
Proof.
  intros Ht. unfold put_at. destruct p; [split; [lia|done]|].
  destruct (align_up_spec off (alignof t) (alignof_pos t Ht)) as [? ?]. split; [lia|done].
Qed.

(** Every type has a size that is a multiple of its alignment. *)
Lemma sizeof_ok t : wf_type t -> 0 <= sizeof t /\ (alignof t | sizeof t).
Proof.
  induction t as [w|t n IH|w fs|p fs IH|p fs IH] using ctype_all.
  - cbn. intros Hw. split; [set_solver by lia|apply Z.divide_refl].
  - intros [Ht Hn]. destruct (IH Ht) as [H1 H2]. cbn [sizeof alignof]. split; [nia|by apply Z.divide_mul_l].
  - intros [Hw _]. cbn. split; [set_solver by lia|apply Z.divide_refl].
  - intros Hwf. rewrite sizeof_struct. destruct (align_up_spec (place_end p 0 fs) _ (alignof_pos _ Hwf)) as [H1 H2]. split; [|done].
    enough (forall off, off <= place_end p off fs) as Hle by (specialize (Hle 0); lia).
    apply wf_fields in Hwf. clear H1 H2. induction fs as [|[n t] fs IHfs]; intros off; [cbn; lia|].
    apply Forall_cons in IH as [IHt IH]. apply Forall_cons in Hwf as [Ht Hwf]. cbn [place_end snd] in *.
    destruct (IHt Ht). destruct (put_at_spec p off t Ht). specialize (IHfs IH Hwf (put_at p off t + sizeof t)). lia.
  - intros Hwf. cbn [sizeof]. destruct (align_up_spec ((fix go (fs : list (string * ctype)) := match fs with [] => 0 | (_, t) :: r => Z.max (sizeof t) (go r) end) fs)
      _ (alignof_pos _ Hwf)) as [H1 H2]. split; [|done].
    enough (0 <= (fix go (fs : list (string * ctype)) := match fs with [] => 0 | (_, t) :: r => Z.max (sizeof t) (go r) end) fs) by lia.
    clear. induction fs as [|[n t] fs IHfs]; lia.
Qed.

Lemma place_ok p off fs i n o t :
  Forall (fun f => wf_type f.2) fs -> place p off fs !! i = Some (n, (o, t)) ->
  wf_type t /\ off <= o /\ o + sizeof t <= place_end p off fs /\ (p = false -> (alignof t | o)) /\ (n, t) ∈ fs.
Proof.
  revert off i. induction fs as [|[m u] fs IH]; intros off i Hwf; [done|]. apply Forall_cons in Hwf as [Hu Hwf]. cbn [snd] in Hu.
  destruct (put_at_spec p off u Hu) as [H1 H2]. destruct (sizeof_ok u Hu) as [H3 _].
  assert (forall off, off <= place_end p off fs) as Hle.
  { clear - Hwf. induction fs as [|[n t] fs IHfs]; intros off; [cbn; lia|]. apply Forall_cons in Hwf as [Ht Hwf]. cbn [place_end snd] in *.
    destruct (sizeof_ok t Ht). destruct (put_at_spec p off t Ht). specialize (IHfs Hwf (put_at p off t + sizeof t)). lia. }
  destruct i as [|i]; cbn [place place_end lookup list_lookup].
  - intros [= <- <- <-]. specialize (Hle (put_at p off u + sizeof u)). split_and!; [done|lia|lia|done|by left].
  - intros Hi. destruct (IH _ _ Hwf Hi) as (? & ? & ? & ? & ?). split_and!; [done|lia|lia|done|by right].
Qed.

(** Fields in the order they are declared, none reaching into the next. *)
Lemma place_sep p off fs i j n o t m o' t' :
  Forall (fun f => wf_type f.2) fs -> (i < j)%nat ->
  place p off fs !! i = Some (n, (o, t)) -> place p off fs !! j = Some (m, (o', t')) -> o + sizeof t <= o'.
Proof.
  revert off i j. induction fs as [|[k u] fs IH]; intros off i j Hwf Hij; [done|]. apply Forall_cons in Hwf as [Hu Hwf].
  destruct j as [|j]; [lia|]. destruct i as [|i]; cbn [place lookup list_lookup].
  - intros [= <- <- <-] Hj. by destruct (place_ok _ _ _ _ _ _ _ Hwf Hj) as (_ & ? & _).
  - apply IH; [done|lia].
Qed.

Lemma layout_field t n o u : wf_type t -> (n, (o, u)) ∈ layout_of t -> wf_type u /\ 0 <= o /\ o + sizeof u <= sizeof t.
Proof.
  intros Hwf Hin. destruct t as [w|t k|w fs|p fs|p fs]; try by apply elem_of_nil in Hin.
  - apply list_elem_of_lookup in Hin as [i Hi]. pose proof Hwf as Hfs. rewrite wf_fields in Hfs.
    destruct (place_ok _ _ _ _ _ _ _ Hfs Hi) as (? & ? & ? & _). rewrite sizeof_struct.
    destruct (align_up_spec (place_end p 0 fs) _ (alignof_pos _ Hwf)) as [? _]. split_and!; [done|lia|lia].
  - apply list_elem_of_fmap in Hin as ([m v] & [= -> -> ->] & Hin). pose proof Hwf as Hfs. rewrite wf_union in Hfs.
    rewrite Forall_forall in Hfs. pose proof (Hfs _ Hin) as Hv. split_and!; [done|lia|]. cbn [sizeof snd].
    match goal with |- _ <= align_up ?e _ => destruct (align_up_spec e _ (alignof_pos _ Hwf)) as [? _]; assert (sizeof v <= e); [|lia] end.
    clear - Hin. induction fs as [|[k u] fs IH]; [by apply elem_of_nil in Hin|].
    apply elem_of_cons in Hin as [[= -> ->]|Hin]; [lia|]. apply IH in Hin. lia.
Qed.

Lemma field_named_in n l x : field_named n l = Some x -> (n, x) ∈ l.
Proof.
  induction l as [|[m y] l IH]; [done|]. cbn. destruct (String.eqb m n) eqn:E.
  - intros [= ->]. apply String.eqb_eq in E as ->. by left.
  - intros Hx. right. by apply IH.
Qed.

(** A field, however deep, lies within the structure. *)
Lemma path_in_bounds t path o u : wf_type t -> path_of t path = Some (o, u) -> 0 <= o /\ o + sizeof u <= sizeof t.
Proof.
  revert t o. induction path as [|n path IH]; intros t o Hwf; cbn [path_of].
  - intros [= <- <-]. lia.
  - destruct (field_named n (layout_of t)) as [[o1 t1]|] eqn:Hf; [|done].
    destruct (layout_field _ _ _ _ Hwf (field_named_in _ _ _ Hf)) as (Hw1 & ? & ?).
    destruct (path_of t1 path) as [[o2 t2]|] eqn:Hp; [|done]. intros [= <- <-]. destruct (IH _ _ Hw1 Hp). lia.
Qed.

(** The layout of a structure: for every structure type, the fields come in the order
    they are declared, each within the structure and none reaching into another; without
    packing each field is at a multiple of its alignment, which divides that of the
    structure, so that a structure at an aligned address has aligned fields; and the size
    of the structure is a multiple of its alignment, so that this holds in arrays too. *)
Theorem struct_layout_sound p fs :
  let t := CStruct p fs in
  wf_type t ->
  (forall i n o u, layout_of t !! i = Some (n, (o, u)) ->
     0 <= o /\ o + sizeof u <= sizeof t /\ (p = false -> (alignof u | o) /\ (alignof u | alignof t))) /\
  (forall i j n o u m o' u', (i < j)%nat -> layout_of t !! i = Some (n, (o, u)) -> layout_of t !! j = Some (m, (o', u')) ->
     o + sizeof u <= o') /\
  (alignof t | sizeof t).
Proof.
  intros t Hwf. pose proof Hwf as Hfs. unfold t in Hfs. rewrite wf_fields in Hfs. split_and!.
  - intros i n o u Hi. destruct (layout_field t n o u Hwf) as (Hu & ? & ?); [by eapply list_elem_of_lookup_2|].
    split_and!; [done|done|]. intros ->. destruct (place_ok _ _ _ _ _ _ _ Hfs Hi) as (_ & _ & _ & Ha & Hin).
    split; [by apply Ha|]. unfold t. rewrite alignof_struct.
    destruct (max_align_ok fs) as [_ Hmax]; [eapply Forall_impl; [exact Hfs|]; intros f; apply alignof_pow2|].
    rewrite Forall_forall in Hmax. exact (Hmax _ Hin).
  - intros i j n o u m o' u' Hij Hi Hj. exact (place_sep p 0 fs i j n o u m o' u' Hfs Hij Hi Hj).
  - by apply sizeof_ok.
Qed.
