(* ===== verification/Ext2.v ===== *)
(** * Ext2: the ext2 file system (src/fs/ext2)

    [ext2_superblock_t], [ext2_bgd_t], [ext2_inode_t] and [ext2_dir_ent_t] are
    packed structures over [Disk]'s codec; the operations of super.c, inode.c,
    file.c and dir.c are translated one by one over a block device of class
    [BlkDev].

    The state holds the device, the group descriptors ([vol->blk_grps], the only
    part of the volume that changes after mounting), the number of live [kmalloc]
    blocks (so that a leak is visible) and the number of console warnings.  A
    buffer is a value: [kmalloc] returns zeroed memory that nothing else points
    to ([Kheap.kmalloc_fresh]).  Every access to a buffer checks its bounds. *)

From S2P Require Import Prelude Disk.

(** ** On-disk structures *)

Definition EXT2_SB_LOC : Z := 1024.
Definition EXT2_SB_LBA : Z := 2.
Definition EXT2_ROOT_DIR : Z := 2.
Definition EXT2_REGFILE : Z := 1.
Definition EXT2_DIR : Z := 2.
Definition FS_FILE : Z := 1.
Definition FS_DIR : Z := 2.
Definition EXT2_DIRENT_NAME_OFF : Z := 8.

(** [ext2_superblock_t]: 13 words, 6 half-words, 4 words, 2 half-words. *)
Record ext2_superblock : Type := mk_super {
  inode_cnt : Z; blk_cnt : Z; res_blocks : Z; sb_free_blocks : Z; sb_free_inodes : Z;
  first_dat_block : Z; log_block_sz : Z; log_frag_sz : Z; blks_per_grp : Z; frags_per_grp : Z;
  inodes_per_grp : Z; mnt_time : Z; write_time : Z;
  mnt_cnt : Z; max_mnt_cnt : Z; ext2_sig : Z; sb_state : Z; sb_errors : Z; min_version : Z;
  last_check : Z; check_intvl : Z; os_id : Z; maj_version : Z;
  res_uid : Z; res_gid : Z;
}.
Definition superblock_layout : layout := replicate 13 4%nat ++ replicate 6 2%nat ++ replicate 4 4%nat ++ [2; 2]%nat.
Definition superblock_of (bs : list Z) : ext2_superblock :=
  let vs := unpack superblock_layout bs in
  let f := fun i : nat => vs !!! i in
  mk_super (f 0%nat) (f 1%nat) (f 2%nat) (f 3%nat) (f 4%nat) (f 5%nat) (f 6%nat) (f 7%nat) (f 8%nat) (f 9%nat)
    (f 10%nat) (f 11%nat) (f 12%nat) (f 13%nat) (f 14%nat) (f 15%nat) (f 16%nat) (f 17%nat) (f 18%nat)
    (f 19%nat) (f 20%nat) (f 21%nat) (f 22%nat) (f 23%nat) (f 24%nat).

(** [ext2_superblock_ext_t]; the byte arrays are kept as bytes. *)
Record ext2_superblock_ext : Type := mk_superext {
  first_inode : Z; inode_sz : Z; block_group : Z; features_compat : Z; features_req : Z;
  features_ro : Z; fs_id : list Z; volume_name : list Z; last_mnt : list Z; alg_bitmap : Z;
  prealloc_blocks : Z; prealloc_dir_blocks : Z; sbx_unused : Z; sbx_padding : list Z;
  journal_id : list Z; journal_inode : Z; journal_dev : Z; orpan_inode_head : Z;
}.
Definition superext_layout : layout :=
  [4; 2; 2; 4; 4; 4]%nat ++ replicate 96 1%nat ++ [4; 1; 1; 2]%nat ++ replicate 32 1%nat ++ [4; 4; 4]%nat.
Definition superext_of (bs : list Z) : ext2_superblock_ext :=
  let vs := unpack superext_layout bs in
  let f := fun i : nat => vs !!! i in
  let arr := fun i n : nat => take n (drop i vs) in
  mk_superext (f 0%nat) (f 1%nat) (f 2%nat) (f 3%nat) (f 4%nat) (f 5%nat)
    (arr 6 16)%nat (arr 22 16)%nat (arr 38 64)%nat (f 102%nat) (f 103%nat) (f 104%nat) (f 105%nat)
    (arr 106 16)%nat (arr 122 16)%nat (f 138%nat) (f 139%nat) (f 140%nat).

(** [ext2_bgd_t], a packed structure of 38 bytes. *)
Record ext2_bgd : Type := mk_bgd {
  block_bitmap_addr : Z; inode_bitmap_addr : Z; inode_tbl_addr : Z;
  free_blocks : Z; free_inodes : Z; dir_cnt : Z; bgd_padding : Z; bgd_res : list Z;
}.
Definition BGD_SIZE : Z := 38.
Definition bgd_layout : layout := [4; 4; 4; 4; 4; 4; 2]%nat ++ replicate 12 1%nat.
Definition bgd_vals (g : ext2_bgd) : list Z :=
  [block_bitmap_addr g; inode_bitmap_addr g; inode_tbl_addr g; free_blocks g; free_inodes g; dir_cnt g;
   bgd_padding g] ++ bgd_res g.
Definition bgd_of_vals (vs : list Z) : ext2_bgd :=
  mk_bgd (vs !!! 0%nat) (vs !!! 1%nat) (vs !!! 2%nat) (vs !!! 3%nat) (vs !!! 4%nat) (vs !!! 5%nat)
    (vs !!! 6%nat) (drop 7 vs).
Definition bgd_of (bs : list Z) : ext2_bgd := bgd_of_vals (unpack bgd_layout bs).
Definition bgd_bytes (g : ext2_bgd) : list Z := pack bgd_layout (bgd_vals g).

(** The array [blk_grps] of [n] descriptors at the start of a buffer. *)
Definition bgds_of (n : Z) (bs : list Z) : list ext2_bgd :=
  (fun i => bgd_of (drop (Z.to_nat (BGD_SIZE * i)) bs)) <$> seqZ 0 n.

(** [ext2_inode_t], 128 bytes; [size_u] is the union with [dir_acl]. *)
Record ext2_inode : Type := mk_inode {
  mode : Z; userid : Z; isize : Z; last_access : Z; creation_time : Z; last_mod_time : Z; del_time : Z;
  grpid : Z; link_cnt : Z; sector_cnt : Z; iflags : Z; os_spec1 : Z;
  iblocks : list Z;
  gen_num : Z; file_acl : Z; size_u : Z; frag_addr : Z; os_spec2 : list Z;
}.
Definition INODE_SIZE : Z := 128.
Definition inode_layout : layout :=
  [2; 2; 4; 4; 4; 4; 4; 2; 2; 4; 4; 4]%nat ++ replicate 15 4%nat ++ [4; 4; 4; 4]%nat ++ replicate 12 1%nat.
Definition inode_vals (i : ext2_inode) : list Z :=
  [mode i; userid i; isize i; last_access i; creation_time i; last_mod_time i; del_time i;
   grpid i; link_cnt i; sector_cnt i; iflags i; os_spec1 i] ++ iblocks i ++
  [gen_num i; file_acl i; size_u i; frag_addr i] ++ os_spec2 i.
Definition inode_of_vals (vs : list Z) : ext2_inode :=
  let f := fun i : nat => vs !!! i in
  mk_inode (f 0%nat) (f 1%nat) (f 2%nat) (f 3%nat) (f 4%nat) (f 5%nat) (f 6%nat) (f 7%nat) (f 8%nat) (f 9%nat)
    (f 10%nat) (f 11%nat) (take 15 (drop 12 vs)) (f 27%nat) (f 28%nat) (f 29%nat) (f 30%nat) (drop 31 vs).
Definition inode_of (bs : list Z) : ext2_inode := inode_of_vals (unpack inode_layout bs).
Definition inode_bytes (i : ext2_inode) : list Z := pack inode_layout (inode_vals i).

(** [ext2_vol_t], without the device and the group descriptors, which are state. *)
Record ext2_vol : Type := mk_vol {
  blk_sz : Z; blk_grp_cnt : Z; super : ext2_superblock; superext : ext2_superblock_ext;
}.

(** The fields of a [vfs_node_t] the file system sets. *)
Record e2node : Type := mk_node { inode_num : Z; nsize : Z; nflags : Z; nname : list Z }.

(** ** State and primitives *)

Record e2state (D : Type) : Type := mk_e2 {
  e_dev : D; e_grps : list ext2_bgd; e_live : Z; e_warnings : Z;
}.
Arguments mk_e2 {D}. Arguments e_dev {D}. Arguments e_grps {D}. Arguments e_live {D}. Arguments e_warnings {D}.

Section prims.
Context {D : Type} `{BlkDev D}.
Abbreviation E := (M (e2state D)).

Definition set_dev (d : D) (s : e2state D) : e2state D := mk_e2 d (e_grps s) (e_live s) (e_warnings s).
Definition set_grps (g : list ext2_bgd) (s : e2state D) : e2state D := mk_e2 (e_dev s) g (e_live s) (e_warnings s).
Definition add_live (n : Z) (s : e2state D) : e2state D := mk_e2 (e_dev s) (e_grps s) (e_live s + n) (e_warnings s).
Definition warn : E () := modify (fun s => mk_e2 (e_dev s) (e_grps s) (e_live s) (e_warnings s + 1)).

(** [kmalloc] of a buffer and [kfree] of one. *)
Definition buf_alloc (n : Z) : E (list Z) := modify (add_live 1);; mret (replicate (Z.to_nat n) 0).
Definition buf_free : E () := modify (add_live (-1)).

(** [dev->read(dev, buf, lba, cnt)] and [dev->write(dev, buf, lba, cnt)]. *)
Definition dev_read (buf : list Z) (lba cnt : Z) : E (list Z) :=
  d ← gets e_dev; buf_write buf 0 (blk_read d lba cnt).
Definition dev_write (buf : list Z) (lba cnt : Z) : E () :=
  bs ← buf_read buf 0 (512 * cnt);
  modify (fun s => set_dev (blk_write (e_dev s) lba bs) s).

(** Unsigned division and remainder trap on zero. *)
Definition udiv (a b : Z) : E Z := guard (truth b) DivByZero;; mret (a `div` b).
Definition umod (a b : Z) : E Z := guard (truth b) DivByZero;; mret (a `mod` b).

Definition grp (i : Z) : E ext2_bgd := gs ← gets e_grps; unwrap (gs !! Z.to_nat i) OutOfBounds.
Definition set_grp (i : Z) (g : ext2_bgd) : E () := modify (fun s => set_grps (<[Z.to_nat i := g]> (e_grps s)) s).
End prims.

(** ** Addresses, inodes and blocks *)

Definition EXT2_INO_SIND : Z := 12.
Definition EXT2_INO_DIND : Z := 13.
Definition EXT2_INO_TIND : Z := 14.

Definition ext2_get_size (ino : ext2_inode) : Z := u64 (isize ino + u64 (size_u ino * 2 ^ 32)).

Definition ext2_init_inode (ino : ext2_inode) (type perms : Z) : ext2_inode :=
  mk_inode (u16 (perms .& 0xfff .| type)) 0 0 0 0 0 0 0 (if type =? EXT2_DIR then 2 else 0) 0 0 0
    (replicate 15 0) 0 (file_acl ino) 0 0 (replicate 12 0).

Definition set_iblock (idx blk : Z) (ino : ext2_inode) : ext2_inode :=
  mk_inode (mode ino) (userid ino) (isize ino) (last_access ino) (creation_time ino) (last_mod_time ino)
    (del_time ino) (grpid ino) (link_cnt ino) (sector_cnt ino) (iflags ino) (os_spec1 ino)
    (<[Z.to_nat idx := blk]> (iblocks ino)) (gen_num ino) (file_acl ino) (size_u ino) (frag_addr ino) (os_spec2 ino).
Definition set_sectors (n : Z) (ino : ext2_inode) : ext2_inode :=
  mk_inode (mode ino) (userid ino) (isize ino) (last_access ino) (creation_time ino) (last_mod_time ino)
    (del_time ino) (grpid ino) (link_cnt ino) n (iflags ino) (os_spec1 ino)
    (iblocks ino) (gen_num ino) (file_acl ino) (size_u ino) (frag_addr ino) (os_spec2 ino).
Definition set_isize (n : Z) (ino : ext2_inode) : ext2_inode :=
  mk_inode (mode ino) (userid ino) n (last_access ino) (creation_time ino) (last_mod_time ino)
    (del_time ino) (grpid ino) (link_cnt ino) (sector_cnt ino) (iflags ino) (os_spec1 ino)
    (iblocks ino) (gen_num ino) (file_acl ino) (size_u ino) (frag_addr ino) (os_spec2 ino).
Definition set_links (n : Z) (ino : ext2_inode) : ext2_inode :=
  mk_inode (mode ino) (userid ino) (isize ino) (last_access ino) (creation_time ino) (last_mod_time ino)
    (del_time ino) (grpid ino) n (sector_cnt ino) (iflags ino) (os_spec1 ino)
    (iblocks ino) (gen_num ino) (file_acl ino) (size_u ino) (frag_addr ino) (os_spec2 ino).

Section ext2.
Context {D : Type} `{BlkDev D} (vol : ext2_vol).
Abbreviation E := (M (e2state D)).

Definition ext2_inode_bg_idx (inode : Z) : E Z := umod (u32 (inode - 1)) (inodes_per_grp (super vol)).
Definition ext2_inode_bg (inode : Z) : E Z := udiv (u32 (inode - 1)) (inodes_per_grp (super vol)).

Definition ext2_inode_lba (inode : Z) : E Z :=
  g ← ext2_inode_bg inode;
  d ← grp g;
  let blk := inode_tbl_addr d in
  idx ← ext2_inode_bg_idx inode;
  mret (u32 (u32 (blk * blk_sz vol) + u32 (idx * inode_sz (superext vol))) `div` 512).

Definition ext2_loc_to_blk (loc : Z) : Z :=
  u32 (Z.shiftr (Z.shiftr loc (log_block_sz (super vol))) 10).
Definition ext2_blk_to_lba (blk : Z) : Z := u64 (blk * (blk_sz vol `div` 512)).

(** The sectors of one block. *)
Abbreviation spb := (blk_sz vol `div` 512).

Definition ext2_rewrite_bgds : E () :=
  let bgds_loc := u32 (2 * spb) in
  buffer ← buf_alloc (blk_sz vol);
  buffer ← dev_read buffer bgds_loc spb;
  gs ← gets e_grps;
  buffer ← buf_write buffer 0 (concat (bgd_bytes <$> take (Z.to_nat (blk_grp_cnt vol)) gs));
  dev_write buffer bgds_loc spb.

(** The search of both allocators through a bitmap block: the first byte that is
    not full, its first clear bit. *)
Definition scan_bits {A} (buf : list Z) (claim : Z -> Z -> Z -> E A) : E (option A) :=
  for_ 0 (blk_sz vol) (fun j =>
    b ← unwrap (buf !! Z.to_nat j) OutOfBounds;
    if b =? 0xff then mret None else
    for_ 0 8 (fun k =>
      if b .& Z.shiftl 1 k =? 0 then r ← claim j k (b .| Z.shiftl 1 k); mret (Some r)
      else mret None)).

Definition ext2_alloc_block : E Z :=
  buf ← buf_alloc (blk_sz vol);
  r ← for_acc 0 (blk_grp_cnt vol) (fun i buf =>
    g ← grp i;
    let bm := block_bitmap_addr g in
    buf ← dev_read buf (ext2_blk_to_lba bm) spb;
    o ← scan_bits buf (fun j k byte =>
          buf ← buf_write buf j [byte];
          dev_write buf (ext2_blk_to_lba bm) spb;;
          g ← grp i;
          set_grp i (mk_bgd (block_bitmap_addr g) (inode_bitmap_addr g) (inode_tbl_addr g)
                       (u32 (free_blocks g - 1)) (free_inodes g) (dir_cnt g) (bgd_padding g) (bgd_res g));;
          ext2_rewrite_bgds;;
          buf_free;;
          mret (u32 (u32 (u32 (i * blks_per_grp (super vol)) + u32 (j * 8)) + k)));
    match o with Some n => mret (inr n) | None => mret (inl buf) end) buf;
  match r with
  | inr n => mret n
  | inl _ => buf_free;; mret 0
  end.

Definition ext2_free_block (blk : Z) : E () := mret ().

Definition ext2_write_inode (num : Z) (ino : ext2_inode) : E () :=
  group ← udiv num (inodes_per_grp (super vol));
  g ← grp group;
  let table := inode_tbl_addr g in
  offset ← udiv (u32 (u32 (num - 1) * inode_sz (superext vol))) (blk_sz vol);
  buf ← buf_alloc (blk_sz vol);
  buf ← dev_read buf (ext2_blk_to_lba (u32 (table + offset))) spb;
  ipb ← udiv (blk_sz vol) (inode_sz (superext vol));
  let ino_offset := u32 (u32 (num - 1) - u32 (offset * ipb)) in
  src ← buf_read (inode_bytes ino) 0 (inode_sz (superext vol));
  buf ← buf_write buf (u32 (ino_offset * inode_sz (superext vol))) src;
  dev_write buf (ext2_blk_to_lba (u32 (table + offset))) spb;;
  buf_free.

Definition ext2_read_inode (num : Z) : E ext2_inode :=
  buf ← buf_alloc 512;
  lba ← ext2_inode_lba num;
  buf ← dev_read buf lba 1;
  idx ← ext2_inode_bg_idx num;
  bs ← buf_read buf (u32 (idx * inode_sz (superext vol)) `mod` 512) INODE_SIZE;
  buf_free;;
  mret (inode_of bs).

Definition ext2_get_inode_blk (idx : Z) (ino : ext2_inode) : E Z :=
  let bpp := blk_sz vol `div` 4 in
  let sind_strt := EXT2_INO_SIND in
  let dind_strt := u32 (sind_strt + bpp) in
  let tind_strt := u32 (dind_strt + u32 (bpp * bpp)) in
  if idx <? sind_strt then unwrap (iblocks ino !! Z.to_nat idx) OutOfBounds
  else if idx <? dind_strt then
    buf ← buf_alloc (blk_sz vol);
    p ← unwrap (iblocks ino !! Z.to_nat EXT2_INO_SIND) OutOfBounds;
    buf ← dev_read buf (ext2_blk_to_lba p) spb;
    ret ← buf_get 4 buf (4 * (idx - EXT2_INO_SIND));
    buf_free;;
    mret ret
  else if idx <? tind_strt then
    blk_ptrs ← buf_alloc (blk_sz vol);
    buf ← buf_alloc (blk_sz vol);
    p ← unwrap (iblocks ino !! Z.to_nat EXT2_INO_DIND) OutOfBounds;
    blk_ptrs ← dev_read blk_ptrs (ext2_blk_to_lba p) spb;
    q ← udiv (idx - dind_strt) bpp;
    blk_ptr ← buf_get 4 blk_ptrs (4 * q);
    buf ← dev_read buf (ext2_blk_to_lba blk_ptr) spb;
    r ← umod (idx - dind_strt) bpp;
    ret ← buf_get 4 buf (4 * r);
    buf_free;; buf_free;;
    mret ret
  else warn;; mret 0.

Definition ext2_set_inode_blk (idx : Z) (ino : ext2_inode) (inonum blk : Z) : E ext2_inode :=
  let bpp := blk_sz vol `div` 4 in
  let sind_strt := EXT2_INO_SIND in
  let dind_strt := u32 (sind_strt + bpp) in
  let tind_strt := u32 (dind_strt + u32 (bpp * bpp)) in
  if idx <? sind_strt then
    let ino := set_sectors (u32 (sector_cnt ino + spb)) (set_iblock idx blk ino) in
    ext2_write_inode inonum ino;;
    mret ino
  else if idx <? dind_strt then mret ino
  else if idx <? tind_strt then mret ino
  else warn;; mret ino.

Definition ext2_read_inode_blk (idx : Z) (ino : ext2_inode) (buffer : list Z) : E (list Z) :=
  blk ← ext2_get_inode_blk idx ino; dev_read buffer (ext2_blk_to_lba blk) spb.
Definition ext2_write_inode_blk (idx : Z) (ino : ext2_inode) (buffer : list Z) : E () :=
  blk ← ext2_get_inode_blk idx ino; dev_write buffer (ext2_blk_to_lba blk) spb.

Definition ext2_alloc_inode_blk (ino : ext2_inode) (inonum : Z) : E ext2_inode :=
  blk ← ext2_alloc_block;
  blk_cnt ← udiv (sector_cnt ino) spb;
  ext2_set_inode_blk blk_cnt ino inonum blk.
Definition ext2_free_inode_blk (ino : ext2_inode) (inonum blk : Z) : E ext2_inode :=
  ext2_free_block blk;; ext2_set_inode_blk blk ino inonum 0.

Definition ext2_alloc_inode : E Z :=
  buf ← buf_alloc (blk_sz vol);
  r ← for_acc 0 (blk_grp_cnt vol) (fun i buf =>
    g ← grp i;
    if negb (truth (free_inodes g)) then mret (inl buf) else
    let bm := inode_bitmap_addr g in
    buf ← dev_read buf (ext2_blk_to_lba bm) spb;
    o ← scan_bits buf (fun j k byte =>
          buf ← buf_write buf j [byte];
          dev_write buf (ext2_blk_to_lba bm) spb;;
          g ← grp i;
          set_grp i (mk_bgd (block_bitmap_addr g) (inode_bitmap_addr g) (inode_tbl_addr g)
                       (free_blocks g) (u32 (free_inodes g - 1)) (dir_cnt g) (bgd_padding g) (bgd_res g));;
          ext2_rewrite_bgds;;
          buf_free;;
          mret (u32 (u32 (u32 (i * inodes_per_grp (super vol)) + u32 (j * 8)) + k)));
    match o with Some n => mret (inr n) | None => mret (inl buf) end) buf;
  match r with
  | inr n => mret n
  | inl _ => warn;; buf_free;; mret 0
  end.

Definition ext2_free_inode (ino : Z) : E () := mret ().

(** ** Files *)

(** The part of block [i] a transfer of [startblk]..[endblk] touches: its first
    byte and its length. *)
Definition blk_part (startblk endblk modoff modend i : Z) : Z * Z :=
  let start := if i =? startblk then modoff else 0 in
  let size := if i =? startblk then u32 (blk_sz vol - modoff) else blk_sz vol in
  (start, if i =? endblk then modend else size).

(** [ptr] is the caller's buffer. *)
Definition ext2_read (node : e2node) (ptr : list Z) (off size : Z) : E (Z * list Z) :=
  q ← udiv off (blk_sz vol);
  let startblk := u32 q in
  q ← udiv (u64 (size + off)) (blk_sz vol);
  let endblk := u32 q in
  modoff ← umod off (blk_sz vol);
  modend ← umod (u64 (size + off)) (blk_sz vol);
  ino ← ext2_read_inode (inode_num node);
  buf ← buf_alloc (blk_sz vol);
  r ← for_acc (B := Empty_set) startblk (endblk + 1) (fun i '(buf, ptr, ptroff) =>
    buf ← ext2_read_inode_blk i ino buf;
    let '(start, size) := blk_part startblk endblk modoff modend i in
    bs ← buf_read buf start size;
    ptr ← buf_write ptr ptroff bs;
    mret (inl (buf, ptr, u64 (ptroff + size)))) (buf, ptr, 0);
  guard (endblk <? 2 ^ 32 - 1) Hang;;
  buf_free;;
  match r with
  | inl (_, ptr, _) => mret (size, ptr)
  | inr e => match e with end
  end.

Definition ext2_write (file : e2node) (ptr : list Z) (off size : Z) : E (Z * e2node) :=
  ino ← ext2_read_inode (inode_num file);
  m ← umod (nsize file) (blk_sz vol);
  '(ino, file) ← (if u64 (off + size) >? u32 (nsize file + m) then
    let file := mk_node (inode_num file) (u32 (off + size)) (nflags file) (nname file) in
    n ← udiv (u64 (u64 (off + size) - nsize file)) (blk_sz vol);
    r ← for_acc (B := Empty_set) 0 (n + 1) (fun _ ino =>
          ino ← ext2_alloc_inode_blk ino (inode_num file); mret (inl ino)) ino;
    guard (n + 1 <=? 2 ^ 32) Hang;;
    match r with
    | inl ino =>
        let ino := set_isize (u32 (off + size)) ino in
        ext2_write_inode (inode_num file) ino;;
        mret (ino, file)
    | inr e => match e with end
    end
  else mret (ino, file));
  q ← udiv off (blk_sz vol);
  let startblk := u32 q in
  q ← udiv (u64 (size + off)) (blk_sz vol);
  let endblk := u32 q in
  modoff ← umod off (blk_sz vol);
  modend ← umod (u64 (size + off)) (blk_sz vol);
  buf ← buf_alloc (blk_sz vol);
  r ← for_acc (B := Empty_set) startblk (endblk + 1) (fun i '(buf, ptroff) =>
    buf ← ext2_read_inode_blk i ino buf;
    let '(start, size) := blk_part startblk endblk modoff modend i in
    bs ← buf_read ptr ptroff size;
    buf ← buf_write buf start bs;
    ext2_write_inode_blk i ino buf;;
    mret (inl (buf, u64 (ptroff + size)))) (buf, 0);
  guard (endblk <? 2 ^ 32 - 1) Hang;;
  buf_free;;
  mret (size, file).

(** ** Directories *)

(** [strncpy(node->name, buf + off, n)] into zeroed memory: the name up to a 0 byte. *)
Fixpoint copy_name (n : nat) (buf : list Z) (off : Z) : E (list Z) :=
  match n with
  | O => mret []
  | S n' =>
      b ← buf_get 1 buf off;
      if b =? 0 then mret [] else
      r ← copy_name n' buf (off + 1);
      mret (b :: r)
  end.

(** The entry at offset [ent] of [buf]. *)
Definition ent_inode (buf : list Z) (ent : Z) : E Z := buf_get 4 buf ent.
Definition ent_size (buf : list Z) (ent : Z) : E Z := buf_get 2 buf (ent + 4).
Definition ent_name_len (buf : list Z) (ent : Z) : E Z := buf_get 1 buf (ent + 6).
Definition ent_file_type (buf : list Z) (ent : Z) : E Z := buf_get 1 buf (ent + 7).

Definition ext2_dirent_to_node (buf : list Z) (ent : Z) : E e2node :=
  _ ← buf_alloc 1;
  len ← ent_name_len buf ent;
  _ ← buf_alloc (len + 1);
  name ← copy_name (Z.to_nat len) buf (ent + EXT2_DIRENT_NAME_OFF);
  inum ← ent_inode buf ent;
  ino ← ext2_read_inode inum;
  type ← ent_file_type buf ent;
  mret (mk_node inum (u32 (ext2_get_size ino))
          (if type =? EXT2_DIR then FS_DIR else if type =? EXT2_REGFILE then FS_FILE else 0)
          name).

(** Moving to the next entry, in the next block when this one is used up. *)
Definition next_ent (ino : ext2_inode) (blk_idx blk_off : Z) (buf : list Z) : E (Z * Z * list Z) :=
  if blk_off >=? blk_sz vol then
    let blk_idx := u32 (blk_idx + 1) in
    buf ← ext2_read_inode_blk blk_idx ino buf;
    mret (blk_idx, 0, buf)
  else mret (blk_idx, blk_off, buf).

(** [strlen(name) == len && strncmp(fnd_name, name, len) == 0]; [strncmp] is only
    called, and only reads the entry, when the lengths agree. *)
Definition ent_matches (buf : list Z) (ent : Z) (name : list Z) : E bool :=
  len ← ent_name_len buf ent;
  if negb (Z.of_nat (length name) =? len) then mret false else
  r ← for_ 0 len (fun i =>
        a ← buf_get 1 buf (ent + EXT2_DIRENT_NAME_OFF + i);
        b ← unwrap (name !! Z.to_nat i) OutOfBounds;
        mret (if negb (a =? b) then Some () else None));
  mret (match r with None => true | Some _ => false end).

Definition ext2_finddir (fuel : N) (dir : e2node) (name : list Z) : E (option e2node) :=
  ino ← ext2_read_inode (inode_num dir);
  buf ← buf_alloc (blk_sz vol);
  buf ← ext2_read_inode_blk 0 ino buf;
  while_ fuel (fun '(blk_idx, blk_off, buf) =>
    if negb (u32 (blk_idx * blk_sz vol) <? isize ino) then buf_free;; mret (inr None) else
    let fnd_dir := blk_off in
    sz ← ent_size buf fnd_dir;
    let blk_off := u32 (blk_off + sz) in
    m ← ent_matches buf fnd_dir name;
    if m : bool then
      node ← ext2_dirent_to_node buf fnd_dir;
      buf_free;;
      mret (inr (Some node))
    else
      a ← next_ent ino blk_idx blk_off buf;
      mret (inl a)) (0, 0, buf).

(** The list of nodes is returned as a sequence. *)
Definition ext2_listdir (fuel : N) (parent : e2node) : E (list e2node) :=
  ino ← ext2_read_inode (inode_num parent);
  buf ← buf_alloc (blk_sz vol);
  buf ← ext2_read_inode_blk 0 ino buf;
  while_ fuel (fun '(blk_idx, blk_off, buf, nodes) =>
    if negb (u32 (blk_idx * blk_sz vol) <? isize ino) then buf_free;; mret (inr nodes) else
    let fnd_dir := blk_off in
    sz ← ent_size buf fnd_dir;
    let blk_off := u32 (blk_off + sz) in
    node ← ext2_dirent_to_node buf fnd_dir;
    a ← next_ent ino blk_idx blk_off buf;
    mret (inl (a, nodes ++ [node]))) (0, 0, buf, []).

(** The loop of [ext2_add_entry] that looks for the last entry; [garbage] stands
    for the uninitialised stack variable [newino]. *)
Definition ext2_add_entry (fuel : N) (garbage : ext2_inode) (parent : e2node) (name : list Z) (type : Z) : E () :=
  newino_num ← ext2_alloc_inode;
  let newino := ext2_init_inode garbage type 0 in
  ext2_write_inode newino_num newino;;
  let size := u32 (8 + Z.of_nat (length name)) in
  let name_len := u8 (Z.of_nat (length name)) in
  dirent ← buf_alloc size;
  dirent ← buf_write dirent 7 [u8 type];
  dirent ← buf_write dirent 0 (le_enc 4 newino_num);
  dirent ← buf_write dirent 6 [name_len];
  dirent ← buf_write dirent 4 (le_enc 2 size);
  src ← buf_read name 0 name_len;
  dirent ← buf_write dirent 8 src;
  let pinonum := inode_num parent in
  pino ← ext2_read_inode pinonum;
  buf ← buf_alloc (blk_sz vol);
  buf ← ext2_read_inode_blk 0 pino buf;
  '(ent, blk_idx, buf) ← while_ fuel (fun '(blk_idx, blk_off, buf, ent, direntoff) =>
    if negb (u32 (blk_idx * blk_sz vol) <? isize pino) then mret (inr (ent, blk_idx, buf)) else
    sz ← ent_size buf ent;
    let blk_off := u32 (blk_off + sz) in
    '(blk_idx, blk_off, buf) ← next_ent pino blk_idx blk_off buf;
    if direntoff =? link_cnt pino + 1 then
      len ← ent_name_len buf ent;
      buf ← buf_write buf (ent + 4) (le_enc 2 (len + 8));
      sz ← ent_size buf ent;
      mret (inr (u32 (blk_off + sz), blk_idx, buf))
    else mret (inl (blk_idx, blk_off, buf, blk_off, u32 (direntoff + 1)))) (0, 0, buf, 0, 0);
  dsize ← ent_size dirent 0;
  src ← buf_read dirent 0 dsize;
  buf ← buf_write buf ent src;
  ext2_write_inode_blk blk_idx pino buf;;
  let pino := set_links (u16 (link_cnt pino + 1)) pino in
  ext2_write_inode pinonum pino;;
  buf_free.

Definition ext2_mkfile (fuel : N) (garbage : ext2_inode) (parent : e2node) (name : list Z) : E () :=
  ext2_add_entry fuel garbage parent name EXT2_REGFILE.
Definition ext2_mkdir (fuel : N) (garbage : ext2_inode) (parent : e2node) (name : list Z) : E () :=
  ext2_add_entry fuel garbage parent name EXT2_DIR.

Definition ext2_get_root (ino : ext2_inode) : e2node :=
  mk_node EXT2_ROOT_DIR (u32 (ext2_get_size ino)) FS_DIR [47].
End ext2.

(** ** Mounting *)

Section mount.
Context {D : Type} `{BlkDev D}.
Abbreviation E := (M (e2state D)).

Definition ext2_is_ext2 : E bool :=
  sb ← buf_alloc 512;
  sb ← dev_read sb EXT2_SB_LBA 1;
  let sig := ext2_sig (superblock_of sb) in
  buf_free;;
  mret (sig =? 0xef53).

(** [room] is the number of bytes of the block of [vol] from [&vol->super] on. *)
Definition ext2_init_room (room : Z) : E (ext2_vol * e2node) :=
  _ ← buf_alloc 1;
  _ ← buf_alloc 1;
  sbuf ← dev_read (replicate (Z.to_nat room) 0) EXT2_SB_LBA 1;
  let sb := superblock_of sbuf in
  let sbx := superext_of (drop 84 sbuf) in
  let bsz := u32 (Z.shiftl 1024 (log_block_sz sb)) in
  r ← umod (blk_cnt sb) (blks_per_grp sb);
  q ← udiv (blk_cnt sb) (blks_per_grp sb);
  let cnt := if truth r then u32 (q + 1) else q in
  let vol := mk_vol bsz cnt sb sbx in
  grps ← buf_alloc (u64 (cnt * BGD_SIZE + 512));
  let block_glba := ext2_blk_to_lba vol (u32 (ext2_loc_to_blk vol EXT2_SB_LOC + 1)) in
  let sectors := u32 ((cnt * BGD_SIZE) `div` 512 + 1) in
  grps ← dev_read grps block_glba sectors;
  modify (set_grps (bgds_of cnt grps));;
  ino ← ext2_read_inode vol EXT2_ROOT_DIR;
  mret (vol, ext2_get_root ino).

(** [sizeof(ext2_vol_t)] is 264, the superblock starts at offset 28, and [kmalloc]
    rounds to 16. *)
Definition ext2_init : E (ext2_vol * e2node) := ext2_init_room (272 - 28).
End mount.

(** ** Reference definitions *)

(** A volume this code can handle: blocks of 1 to 64 KiB, 128-byte inodes, and
    group descriptors within one block. *)
Record vol_ok (vol : ext2_vol) : Prop := {
  vo_blk : exists k, 0 <= k <= 6 /\ blk_sz vol = 1024 * 2 ^ k;
  vo_isz : inode_sz (superext vol) = INODE_SIZE;
  vo_ipg : 0 < inodes_per_grp (super vol) < 2 ^ 32;
  vo_cnt : 0 <= blk_grp_cnt vol /\ blk_grp_cnt vol * BGD_SIZE <= blk_sz vol;
}.

Section reference.
Context {D : Type} `{BlkDev D} (vol : ext2_vol).

(** The contents of a block, and the block numbers stored in it. *)
Definition block (d : D) (p : Z) : list Z := blk_read d (p * (blk_sz vol `div` 512)) (blk_sz vol `div` 512).
Definition ptrs (d : D) (p : Z) : list Z :=
  unpack (replicate (Z.to_nat (blk_sz vol `div` 4)) 4%nat) (block d p).

(** The block numbers of a file in order: 12 direct ones, those of the singly
    indirect block, those of the blocks of the doubly indirect block. *)
Definition ino_map (d : D) (ino : ext2_inode) : list Z :=
  take 12 (iblocks ino) ++ ptrs d (iblocks ino !!! 12%nat) ++
  concat (ptrs d <$> ptrs d (iblocks ino !!! 13%nat)).
Definition contents (d : D) (ino : ext2_inode) : list Z := concat (block d <$> ino_map d ino).

(** The bytes of a file, as the format defines them: as many as its size says; a pointer 0
    stands for a block of zeros, one in the place of a pointer block for zeros only. *)
Definition ptrs_of (d : D) (p : Z) : list Z := if p =? 0 then replicate (Z.to_nat (blk_sz vol `div` 4)) 0 else ptrs d p.
Definition file_map (d : D) (ino : ext2_inode) : list Z :=
  take 12 (iblocks ino) ++ ptrs_of d (iblocks ino !!! 12%nat) ++
  concat (ptrs_of d <$> ptrs_of d (iblocks ino !!! 13%nat)).
Definition file_block (d : D) (p : Z) : list Z := if p =? 0 then replicate (Z.to_nat (blk_sz vol)) 0 else block d p.
Definition file_bytes (d : D) (ino : ext2_inode) : list Z :=
  take (Z.to_nat (isize ino)) (concat (file_block d <$> file_map d ino)).
End reference.

(** An inode as it is read from the disk. *)
Record inode_ok (ino : ext2_inode) : Prop := {
  io_blocks : length (iblocks ino) = 15%nat;
  io_fits : fits inode_layout (inode_vals ino);
}.

(** ** Lemmas *)

Lemma unpack_lookup ws bs i w :
  ws !! i = Some w -> unpack ws bs !! i = Some (le_dec (take w (drop (sum_list (take i ws)) bs))).
Proof.
  revert bs i. induction ws as [|w' ws IH]; intros bs [|i]; simpl; try done; [by intros [= ->]|].
  intros Hw. rewrite IH by done. by rewrite drop_drop.
Qed.

Lemma sum_list_replicate n w : sum_list (replicate n w) = (n * w)%nat.
Proof. induction n; simpl; lia. Qed.

(** Looking up in a concatenation of lists of equal length. *)
Lemma concat_lookup_uniform {A} (ls : list (list A)) n q r l :
  Forall (fun l => length l = n) ls -> ls !! q = Some l -> (r < n)%nat ->
  concat ls !! (q * n + r)%nat = l !! r.
Proof.
  intros Hls. revert q. induction Hls as [|l' ls Hl Hls IH]; intros [|q] Hq Hr; simpl in *; try done.
  - injection Hq as ->. by rewrite lookup_app_l by lia.
  - rewrite lookup_app_r by lia. rewrite <- (IH q) by done. f_equal. lia.
Qed.

Lemma length_concat_uniform {A} (ls : list (list A)) n :
  Forall (fun l => length l = n) ls -> length (concat ls) = (length ls * n)%nat.
Proof. induction 1; simpl; [done|]. rewrite length_app. lia. Qed.

(** Within one of the lists, a range of the concatenation is a range of the list. *)
Lemma concat_range_uniform {A} (ls : list (list A)) n q l r k :
  Forall (fun l => length l = n) ls -> ls !! q = Some l -> (r + k <= n)%nat ->
  take k (drop (q * n + r) (concat ls)) = take k (drop r l).
Proof.
  intros Hls. revert q. induction Hls as [|l' ls Hl Hls IH]; intros [|q] Hq Hr; simpl in *; try done.
  - injection Hq as ->. rewrite drop_app_le by lia. rewrite take_app_le by (rewrite length_drop; lia). done.
  - rewrite drop_app_ge by lia. rewrite <- (IH q) by done. do 2 f_equal. lia.
Qed.

(** The element behind [q] whole lists and [r] more. *)
Lemma lookup_concat_uniform {A} (ls : list (list A)) n q r :
  Forall (fun l => length l = n) ls -> (r < n)%nat -> concat ls !! (q * n + r)%nat = ls !! q ≫= (fun l => l !! r).
Proof.
  intros Hls Hr. revert q. induction Hls as [|l ls Hl Hls IH]; intros [|q]; simpl; try done.
  - by rewrite lookup_app_l by lia.
  - rewrite lookup_app_r by lia. rewrite <- IH. f_equal. lia.
Qed.

(** Ranges of two concatenations agree if the lists they touch do. *)
Lemma concat_range_agree {A} (ls ls' : list (list A)) n off k :
  (0 < n)%nat -> Forall (fun l => length l = n) ls -> Forall (fun l => length l = n) ls' ->
  (forall q, (q * n < off + k)%nat -> (off < S q * n)%nat -> ls !! q = ls' !! q) ->
  take k (drop off (concat ls)) = take k (drop off (concat ls')).
Proof.
  intros Hn Hls Hls' Hq. apply list_eq. intros i. destruct (decide (i < k)%nat) as [Hi|Hi].
  - rewrite !lookup_take_lt, !lookup_drop by done. pose proof (Nat.div_mod (off + i) n ltac:(lia)) as E.
    pose proof (Nat.mod_upper_bound (off + i) n ltac:(lia)) as Hr.
    replace (off + i)%nat with ((off + i) `div` n * n + (off + i) `mod` n)%nat by lia.
    rewrite !lookup_concat_uniform by done. rewrite (Hq ((off + i) `div` n)%nat); [done|nia|nia].
  - by rewrite !lookup_take_ge by lia.
Qed.

Section facts.
Context {D : Type} `{BlkDev D} (vol : ext2_vol) (Hvol : vol_ok vol).
Abbreviation spb := (blk_sz vol `div` 512).
Abbreviation bpp := (blk_sz vol `div` 4).
Implicit Types (s : e2state D) (d : D).

Lemma blk_sz_facts :
  1024 <= blk_sz vol <= 65536 /\ blk_sz vol = 512 * spb /\ blk_sz vol = 4 * bpp /\
  blk_sz vol = 128 * (blk_sz vol `div` 128) /\ 2 <= spb <= 128.
Proof.
  destruct (vo_blk _ Hvol) as (k & Hk & Hb).
  assert (2 ^ 0 <= 2 ^ k <= 2 ^ 6) by (split; apply Z.pow_le_mono_r; lia).
  change (2 ^ 0) with 1 in *. change (2 ^ 6) with 64 in *. dlia.
Qed.

Lemma length_block d p : Z.of_nat (length (block vol d p)) = blk_sz vol.
Proof. unfold block. rewrite blk_read_length; pose proof blk_sz_facts; lia. Qed.
Lemma bytes_block d p : bytes (block vol d p).
Proof. apply blk_read_bytes. Qed.

Lemma length_ptrs d p : Z.of_nat (length (ptrs vol d p)) = bpp.
Proof.
  unfold ptrs. rewrite length_unpack, length_replicate. pose proof blk_sz_facts. lia.
Qed.

Lemma ptrs_lookup d p i : 0 <= i < bpp ->
  ptrs vol d p !! Z.to_nat i = Some (le_dec (take 4 (drop (Z.to_nat (4 * i)) (block vol d p)))).
Proof.
  intros Hi. unfold ptrs. erewrite unpack_lookup by (apply lookup_replicate_2; lia).
  do 4 f_equal. rewrite take_replicate, sum_list_replicate, Nat.min_l by lia. lia.
Qed.

Lemma ptrs_range d p x : x ∈ ptrs vol d p -> 0 <= x < 2 ^ 32.
Proof.
  intros Hx. assert (fits (replicate (Z.to_nat bpp) 4%nat) (ptrs vol d p)) as Hf.
  { apply unpack_fits; [apply bytes_block|]. rewrite sum_list_replicate.
    pose proof (length_block d p). pose proof blk_sz_facts. lia. }
  apply list_elem_of_lookup in Hx as [i Hi].
  eapply Forall2_lookup_r in Hf as (w & Hw & Hr); [|exact Hi].
  apply lookup_replicate in Hw as [-> _]. done.
Qed.

(** Reading one block into a buffer of that size. *)
Lemma blk_to_lba p : 0 <= p < 2 ^ 32 -> ext2_blk_to_lba vol p = p * spb.
Proof. intros. unfold ext2_blk_to_lba. apply uN_small. pose proof blk_sz_facts. nia. Qed.

Lemma dev_read_block_wp buf p Q s :
  0 <= p < 2 ^ 32 -> Z.of_nat (length buf) = blk_sz vol ->
  Q (block vol (e_dev s) p) s -> wp (dev_read buf (ext2_blk_to_lba vol p) spb) Q s.
Proof.
  intros Hp Hb HQ. rewrite blk_to_lba by done. unfold dev_read. wp_step. wp_step.
  pose proof (length_block (e_dev s) p) as Hl. unfold block in *.
  apply buf_write_wp; [lia..|]. simpl. rewrite inserts_all by lia. done.
Qed.

Lemma dev_write_block_wp buf p Q s :
  0 <= p < 2 ^ 32 -> Z.of_nat (length buf) = blk_sz vol ->
  Q () (set_dev (blk_write (e_dev s) (p * spb) buf) s) ->
  wp (dev_write buf (ext2_blk_to_lba vol p) spb) Q s.
Proof.
  intros Hp Hb HQ. rewrite blk_to_lba by done. unfold dev_write. wp_focus.
  pose proof blk_sz_facts. apply buf_read_wp; [lia..|]. wp_step.
  simpl. rewrite drop_0, firstn_all2 by lia. done.
Qed.

Lemma block_write_same d p bs :
  Z.of_nat (length bs) = blk_sz vol -> bytes bs -> block vol (blk_write d (p * spb) bs) p = bs.
Proof. intros. unfold block. apply blk_read_same; [|done]. pose proof blk_sz_facts. lia. Qed.
Lemma block_write_other d p q bs :
  Z.of_nat (length bs) = blk_sz vol -> p <> q -> block vol (blk_write d (p * spb) bs) q = block vol d q.
Proof.
  intros. unfold block. pose proof blk_sz_facts. apply (blk_read_other _ _ spb); [lia|nia].
Qed.

Lemma buf_alloc_wp n Q s : Q (replicate (Z.to_nat n) 0) (add_live 1 s) -> wp (buf_alloc n) Q s.
Proof. done. Qed.
Lemma buf_free_wp Q s : Q () (add_live (-1) s) -> wp buf_free Q s.
Proof. done. Qed.
Lemma add_live_0 s n m : n + m = 0 -> add_live n (add_live m s) = s.
Proof. intros. destruct s. unfold add_live. simpl. f_equal. lia. Qed.
Lemma add_live_set_dev d s n m : n + m = 0 -> add_live n (set_dev d (add_live m s)) = set_dev d s.
Proof. intros. destruct s. unfold add_live, set_dev. simpl. f_equal. lia. Qed.
Lemma udiv_wp a b Q s : b <> 0 -> Q (a `div` b) s -> wp (udiv a b) Q s.
Proof. intros. unfold udiv. wp_step. wp_step; [by apply truth_true|]. by wp_step. Qed.
Lemma umod_wp a b Q s : b <> 0 -> Q (a `mod` b) s -> wp (umod a b) Q s.
Proof. intros. unfold umod. wp_step. wp_step; [by apply truth_true|]. by wp_step. Qed.

Lemma length_ino_map d ino :
  length (iblocks ino) = 15%nat -> Z.of_nat (length (ino_map vol d ino)) = 12 + bpp + bpp * bpp.
Proof.
  intros Hi. unfold ino_map. rewrite !length_app, length_take, Hi.
  rewrite (length_concat_uniform _ (Z.to_nat bpp)), length_fmap.
  - pose proof (length_ptrs d (iblocks ino !!! 12%nat)). pose proof (length_ptrs d (iblocks ino !!! 13%nat)).
    pose proof blk_sz_facts. lia.
  - apply Forall_fmap, Forall_true. intros p. simpl. pose proof (length_ptrs d p). lia.
Qed.

Lemma iblocks_range ino i p : inode_ok ino -> iblocks ino !! i = Some p -> 0 <= p < 2 ^ 32.
Proof.
  intros [Hl Hf] Hi. assert (i < 15)%nat as Hi15 by (rewrite <- Hl; by eapply lookup_lt_Some).
  apply (Forall2_lookup_r _ _ _ (12 + i) p) in Hf as (w & Hw & Hr).
  - unfold inode_layout in Hw. rewrite lookup_app_r, lookup_app_l in Hw by (simpl; lia).
    replace (12 + i - _)%nat with i in Hw by (simpl; lia).
    apply lookup_replicate in Hw as [-> _]. done.
  - unfold inode_vals. rewrite lookup_app_r, lookup_app_l by (simpl; lia).
    replace (12 + i - _)%nat with i by (simpl; lia). done.
Qed.

Lemma iblocks_lookup ino i : inode_ok ino -> (i < 15)%nat ->
  iblocks ino !! i = Some (iblocks ino !!! i) /\ 0 <= iblocks ino !!! i < 2 ^ 32.
Proof.
  intros Hi Hl. assert (iblocks ino !! i = Some (iblocks ino !!! i)) as He
    by (apply list_lookup_lookup_total_lt; rewrite (io_blocks _ Hi); done).
  split; [done|]. by eapply iblocks_range.
Qed.

(** The three ranges of [ino_map]. *)
Lemma ino_map_direct d ino idx : inode_ok ino -> 0 <= idx < 12 ->
  ino_map vol d ino !! Z.to_nat idx = iblocks ino !! Z.to_nat idx.
Proof.
  intros [Hl _] Hi. unfold ino_map. rewrite lookup_app_l by (rewrite length_take; lia).
  apply lookup_take_lt. lia.
Qed.
Lemma ino_map_single d ino idx : inode_ok ino -> 12 <= idx < 12 + bpp ->
  ino_map vol d ino !! Z.to_nat idx = ptrs vol d (iblocks ino !!! 12%nat) !! Z.to_nat (idx - 12).
Proof.
  intros [Hl _] Hi. unfold ino_map. pose proof (length_ptrs d (iblocks ino !!! 12%nat)).
  rewrite lookup_app_r by (rewrite length_take; lia).
  rewrite lookup_app_l by (rewrite length_take; lia). f_equal. rewrite length_take. lia.
Qed.
Lemma ino_map_double d ino idx p : inode_ok ino -> 12 + bpp <= idx < 12 + bpp + bpp * bpp ->
  ptrs vol d (iblocks ino !!! 13%nat) !! Z.to_nat ((idx - (12 + bpp)) `div` bpp) = Some p ->
  ino_map vol d ino !! Z.to_nat idx = ptrs vol d p !! Z.to_nat ((idx - (12 + bpp)) `mod` bpp).
Proof.
  intros [Hl _] Hi Hp. unfold ino_map. pose proof (length_ptrs d (iblocks ino !!! 12%nat)).
  pose proof blk_sz_facts.
  rewrite lookup_app_r by (rewrite length_take; lia).
  rewrite lookup_app_r by (rewrite length_take; lia).
  rewrite <- (concat_lookup_uniform (ptrs vol d <$> ptrs vol d (iblocks ino !!! 13%nat)) (Z.to_nat bpp)
                (Z.to_nat ((idx - (12 + bpp)) `div` bpp)) _ (ptrs vol d p)).
  - f_equal. rewrite length_take.
    pose proof (Z.div_mod (idx - (12 + bpp)) bpp). pose proof (Z.mod_pos_bound (idx - (12 + bpp)) bpp).
    assert (0 <= (idx - (12 + bpp)) `div` bpp) by (apply Z.div_pos; lia).
    rewrite <- Z2Nat.inj_mul, <- Z2Nat.inj_add by nia. lia.
  - apply Forall_fmap, Forall_true. intros q. simpl. pose proof (length_ptrs d q). lia.
  - rewrite list_lookup_fmap, Hp. done.
  - pose proof (Z.mod_pos_bound (idx - (12 + bpp)) bpp). lia.
Qed.

(** The guards of [ext2_get_inode_blk] without their wrap-around. *)
Lemma inode_blk_guards :
  u32 (EXT2_INO_SIND + bpp) = 12 + bpp /\ u32 (12 + bpp + u32 (bpp * bpp)) = 12 + bpp + bpp * bpp.
Proof.
  pose proof blk_sz_facts. unfold EXT2_INO_SIND.
  assert (0 <= bpp * bpp <= 16384 * 16384) by nia.
  rewrite (uN_small 32 (bpp * bpp)) by lia. rewrite !uN_small by lia. done.
Qed.

Lemma get_inode_blk_wp idx ino Q s :
  inode_ok ino -> 0 <= idx < 12 + bpp + bpp * bpp ->
  (forall p, ino_map vol (e_dev s) ino !! Z.to_nat idx = Some p -> 0 <= p < 2 ^ 32 -> Q p s) ->
  wp (ext2_get_inode_blk vol idx ino) Q s.
Proof.
  intros Hino Hi HQ. unfold ext2_get_inode_blk.
  destruct inode_blk_guards as [E1 E2]. rewrite E1, E2. clear E1 E2.
  pose proof blk_sz_facts as Hb. change EXT2_INO_SIND with 12 in *.
  destruct (iblocks_lookup ino 12 Hino ltac:(lia)) as [H12 R12].
  destruct (iblocks_lookup ino 13 Hino ltac:(lia)) as [H13 R13].
  destruct (Z.ltb_spec idx 12) as [Hd|Hd].
  { destruct (iblocks_lookup ino (Z.to_nat idx) Hino ltac:(lia)) as [Hl Hr].
    wp_step; [exact Hl|]. apply HQ; [|done]. by rewrite ino_map_direct by (done || lia). }
  destruct (Z.ltb_spec idx (12 + bpp)) as [Hs|Hs].
  { wp_focus. apply buf_alloc_wp. wp_step. wp_step; [exact H12|]. wp_focus.
    apply dev_read_block_wp; [done|rewrite length_replicate; lia|]. wp_focus.
    apply buf_get_wp; [lia|rewrite length_block; lia|].
    wp_focus. apply buf_free_wp. wp_step. rewrite add_live_0 by lia.
    pose proof (ptrs_lookup (e_dev s) (iblocks ino !!! 12%nat) (idx - 12) ltac:(lia)) as Hp.
    apply HQ; [by rewrite ino_map_single by (done || lia)|].
    eapply ptrs_range, list_elem_of_lookup_2, Hp. }
  destruct (Z.ltb_spec idx (12 + bpp + bpp * bpp)) as [_|]; [|lia].
  pose proof (Z.mod_pos_bound (idx - (12 + bpp)) bpp) as Hm.
  assert (0 <= (idx - (12 + bpp)) `div` bpp < bpp) as Hq
    by (split; [apply Z.div_pos|apply Z.div_lt_upper_bound]; lia).
  pose proof (ptrs_lookup (e_dev s) (iblocks ino !!! 13%nat) _ Hq) as Hp1.
  set (p := le_dec _) in Hp1. pose proof (ptrs_range _ _ p (list_elem_of_lookup_2 _ _ _ Hp1)) as Hpr.
  wp_focus. apply buf_alloc_wp. wp_focus. apply buf_alloc_wp. wp_step. wp_step; [exact H13|]. wp_focus.
  apply dev_read_block_wp; [done|rewrite length_replicate; lia|].
  wp_focus. apply udiv_wp; [lia|]. wp_focus.
  apply buf_get_wp; [lia|rewrite length_block; lia|]. wp_focus. fold p.
  apply dev_read_block_wp; [done|rewrite length_replicate; lia|].
  wp_focus. apply umod_wp; [lia|]. wp_focus.
  apply buf_get_wp; [lia|rewrite length_block; lia|].
  wp_focus. apply buf_free_wp. wp_focus. apply buf_free_wp. wp_step.
  pose proof (ptrs_lookup (e_dev s) p ((idx - (12 + bpp)) `mod` bpp) ltac:(lia)) as Hp2.
  replace (add_live (-1) _) with s by (destruct s; unfold add_live; simpl; f_equal; lia).
  apply HQ; [by rewrite (ino_map_double _ _ _ p) by (done || lia)|].
  eapply ptrs_range, list_elem_of_lookup_2, Hp2.
Qed.

Abbreviation max_blks := (12 + bpp + bpp * bpp).

Lemma read_inode_blk_wp idx ino buf Q s :
  inode_ok ino -> 0 <= idx < max_blks -> Z.of_nat (length buf) = blk_sz vol ->
  (forall p, ino_map vol (e_dev s) ino !! Z.to_nat idx = Some p -> Q (block vol (e_dev s) p) s) ->
  wp (ext2_read_inode_blk vol idx ino buf) Q s.
Proof.
  intros. unfold ext2_read_inode_blk. wp_focus. apply get_inode_blk_wp; [done..|].
  intros p Hp Hr. apply dev_read_block_wp; auto.
Qed.

(** A part of a block is a range of the file. *)
Lemma contents_range d ino idx p r k :
  0 <= idx -> 0 <= r -> 0 <= k -> r + k <= blk_sz vol -> ino_map vol d ino !! Z.to_nat idx = Some p ->
  take (Z.to_nat k) (drop (Z.to_nat r) (block vol d p)) =
  take (Z.to_nat k) (drop (Z.to_nat (idx * blk_sz vol + r)) (contents vol d ino)).
Proof.
  intros ???? Hp. pose proof blk_sz_facts. unfold contents.
  replace (Z.to_nat (idx * blk_sz vol + r)) with (Z.to_nat idx * Z.to_nat (blk_sz vol) + Z.to_nat r)%nat
    by (rewrite <- Z2Nat.inj_mul, <- Z2Nat.inj_add; lia).
  symmetry. apply concat_range_uniform; [| |lia].
  - apply Forall_fmap, Forall_true. intros q. simpl. pose proof (length_block d q). lia.
  - by rewrite list_lookup_fmap, Hp.
Qed.

Lemma length_contents d ino :
  length (iblocks ino) = 15%nat -> Z.of_nat (length (contents vol d ino)) = max_blks * blk_sz vol.
Proof.
  intros Hi. unfold contents. rewrite (length_concat_uniform _ (Z.to_nat (blk_sz vol))), length_fmap.
  - pose proof (length_ino_map d ino Hi). pose proof blk_sz_facts. nia.
  - apply Forall_fmap, Forall_true. intros p. simpl. pose proof (length_block d p). lia.
Qed.

(** Where the format's map has a block, the code's lookup finds it. *)
Lemma file_map_ino d ino i p :
  length (iblocks ino) = 15%nat -> file_map vol d ino !! i = Some p -> p <> 0 -> ino_map vol d ino !! i = Some p.
Proof.
  intros Hl Hf Hp. pose proof blk_sz_facts. assert (forall q, length (ptrs_of vol d q) = Z.to_nat bpp) as Hlo.
  { intros q. unfold ptrs_of. destruct (q =? 0); [apply length_replicate|]. pose proof (length_ptrs d q). lia. }
  assert (forall q, length (ptrs vol d q) = Z.to_nat bpp) as Hlp by (intros q; pose proof (length_ptrs d q); lia).
  assert (forall q j x, ptrs_of vol d q !! j = Some x -> x <> 0 -> q <> 0 /\ ptrs vol d q !! j = Some x) as Hof.
  { intros q j x. unfold ptrs_of. destruct (Z.eqb_spec q 0) as [->|]; [|done]. intros [-> _]%lookup_replicate. done. }
  unfold file_map in Hf. unfold ino_map. apply lookup_app_Some in Hf as [Hf|[Hi Hf]].
  { apply lookup_app_l_Some, Hf. }
  rewrite lookup_app_r by done. apply lookup_app_Some in Hf as [Hf|[Hi2 Hf]].
  { apply lookup_app_l_Some. by apply Hof in Hf as [_ ?]. }
  rewrite Hlo in Hi2, Hf. rewrite lookup_app_r by (rewrite Hlp; lia). rewrite Hlp.
  set (j := (i - length (take 12 (iblocks ino)) - Z.to_nat bpp)%nat) in *.
  pose proof (Nat.div_mod j (Z.to_nat bpp) ltac:(lia)) as E. pose proof (Nat.mod_upper_bound j (Z.to_nat bpp) ltac:(lia)) as Hr.
  replace j with (j `div` Z.to_nat bpp * Z.to_nat bpp + j `mod` Z.to_nat bpp)%nat in Hf |- * by lia.
  rewrite (lookup_concat_uniform _ (Z.to_nat bpp)) in Hf by (done || (apply Forall_fmap, Forall_true; intros; simpl; auto)).
  rewrite (lookup_concat_uniform _ (Z.to_nat bpp)) by (done || (apply Forall_fmap, Forall_true; intros; simpl; auto)).
  rewrite list_lookup_fmap in Hf. rewrite list_lookup_fmap. destruct (ptrs_of vol d (iblocks ino !!! 13%nat) !! _) as [q|] eqn:Eq; [|done]. cbn in Hf.
  apply Hof in Hf as [Hq Hf]; [|done]. apply Hof in Eq as [_ ->]; [|done]. exact Hf.
Qed.

Lemma length_file_block d p : Z.of_nat (length (file_block vol d p)) = blk_sz vol.
Proof.
  unfold file_block. destruct (p =? 0); [|apply length_block]. rewrite length_replicate. pose proof blk_sz_facts. lia.
Qed.

(** A range inside the file whose blocks are there. *)
Lemma file_bytes_range d ino off size :
  length (iblocks ino) = 15%nat -> 0 <= off -> 0 <= size -> off + size <= isize ino ->
  (forall i, off < (i + 1) * blk_sz vol -> i * blk_sz vol < off + size -> exists p, file_map vol d ino !! Z.to_nat i = Some p /\ p <> 0) ->
  take (Z.to_nat size) (drop (Z.to_nat off) (contents vol d ino)) = take (Z.to_nat size) (drop (Z.to_nat off) (file_bytes vol d ino)).
Proof.
  intros Hl Hoff Hsz Hfit Hmap. pose proof blk_sz_facts as HB. unfold file_bytes.
  rewrite skipn_firstn_comm, firstn_firstn, Nat.min_l by lia. unfold contents.
  apply (concat_range_agree _ _ (Z.to_nat (blk_sz vol))); [lia|..].
  - apply Forall_fmap, Forall_true. intros p. simpl. pose proof (length_block d p). lia.
  - apply Forall_fmap, Forall_true. intros p. simpl. pose proof (length_file_block d p). lia.
  - intros q Hq1 Hq2. destruct (Hmap (Z.of_nat q)) as (p & Hp & Hp0); [nia|nia|]. rewrite Nat2Z.id in Hp.
    rewrite !list_lookup_fmap, Hp, (file_map_ino d ino q p Hl Hp Hp0). cbn. unfold file_block.
    by rewrite (proj2 (Z.eqb_neq _ _) Hp0).
Qed.

(** One round of the copying loop, in terms of the file's contents. *)
Definition read_upto (c ptr : list Z) (off n : Z) : list Z :=
  take (Z.to_nat n) (drop (Z.to_nat off) c) ++ drop (Z.to_nat n) ptr.

Lemma read_upto_step c ptr off n k :
  0 <= off -> 0 <= n -> 0 <= k -> n + k <= Z.of_nat (length ptr) -> off + n + k <= Z.of_nat (length c) ->
  list_inserts (Z.to_nat n) (take (Z.to_nat k) (drop (Z.to_nat (off + n)) c)) (read_upto c ptr off n) =
  read_upto c ptr off (n + k).
Proof.
  intros. unfold read_upto.
  assert (length (take (Z.to_nat n) (drop (Z.to_nat off) c)) = Z.to_nat n) as Hn
    by (rewrite length_take, length_drop; lia).
  assert (length (take (Z.to_nat k) (drop (Z.to_nat (off + n)) c)) = Z.to_nat k) as Hk
    by (rewrite length_take, length_drop; lia).
  rewrite inserts_split by (rewrite length_app, Hn, Hk, length_drop; lia).
  rewrite Hk, take_app_length' by done. rewrite drop_app_ge, Hn, drop_drop by lia.
  rewrite app_assoc. f_equal; [|f_equal; lia].
  replace (drop (Z.to_nat (off + n)) c) with (drop (Z.to_nat n) (drop (Z.to_nat off) c))
    by (rewrite drop_drop; f_equal; lia).
  rewrite take_take_drop. f_equal. lia.
Qed.
End facts.

(** C32: [ext2_get_inode_blk] is the lookup in the file's block map (12 direct
    pointers, the singly indirect block, the doubly indirect block), leaves the
    disk alone and frees its buffers; beyond the map it warns and returns 0. *)
Theorem ext2_get_inode_blk_correct {D} `{BlkDev D} vol ino idx (s : e2state D) :
  vol_ok vol -> inode_ok ino -> 0 <= idx < 2 ^ 32 ->
  ext2_get_inode_blk vol idx ino s =
  Ok (default 0 (ino_map vol (e_dev s) ino !! Z.to_nat idx),
      if idx <? 12 + blk_sz vol `div` 4 + (blk_sz vol `div` 4) * (blk_sz vol `div` 4) then s
      else mk_e2 (e_dev s) (e_grps s) (e_live s) (e_warnings s + 1)).
Proof.
  intros Hvol Hino Hi. pose proof (length_ino_map vol Hvol (e_dev s) ino (io_blocks _ Hino)) as Hl.
  destruct (Z.ltb_spec idx (12 + blk_sz vol `div` 4 + (blk_sz vol `div` 4) * (blk_sz vol `div` 4))).
  - pose proof (get_inode_blk_wp vol Hvol idx ino
      (fun r s' => r = default 0 (ino_map vol (e_dev s) ino !! Z.to_nat idx) /\ s' = s) s Hino ltac:(lia)) as Hw.
    destruct (wp_Ok _ _ _ (Hw ltac:(by intros p -> _))) as (r & s' & He & -> & ->). exact He.
  - rewrite lookup_ge_None_2 by lia. unfold ext2_get_inode_blk.
    destruct (inode_blk_guards vol Hvol) as [E1 E2]. rewrite E1, E2. pose proof (blk_sz_facts vol Hvol).
    change EXT2_INO_SIND with 12. do 3 (rewrite (proj2 (Z.ltb_ge _ _)) by nia). done.
Qed.

Section transfer.
Context {D : Type} `{BlkDev D} (vol : ext2_vol) (Hvol : vol_ok vol).
Context (off size : Z) (Hoff : 0 <= off) (Hsize : 0 <= size).
Abbreviation B := (blk_sz vol).
Abbreviation startblk := (off `div` B).
Abbreviation endblk := ((size + off) `div` B).

(** The bytes transferred before block [i]. *)
Definition xfer (i : Z) : Z := if i =? startblk then 0 else Z.min (i * B) (off + size) - off.

Lemma blk_part_spec i start n :
  off `mod` B = 0 \/ startblk < endblk -> startblk <= i <= endblk ->
  blk_part vol startblk endblk (off `mod` B) ((size + off) `mod` B) i = (start, n) ->
  0 <= start /\ 0 <= n /\ start + n <= B /\ i * B + start = off + xfer i /\ xfer (i + 1) = xfer i + n /\
  0 <= xfer i /\ xfer i + n <= size.
Proof.
  intros Hc Hi. pose proof (blk_sz_facts vol Hvol) as HB. unfold blk_part, xfer.
  pose proof (Z.div_mod off B ltac:(lia)) as E1. pose proof (Z.mod_pos_bound off B ltac:(lia)) as R1.
  pose proof (Z.div_mod (size + off) B ltac:(lia)) as E2. pose proof (Z.mod_pos_bound (size + off) B ltac:(lia)) as R2.
  generalize dependent (off `mod` B). intros r1 Hc E1 R1.
  generalize dependent ((size + off) `mod` B). intros r2 E2 R2.
  generalize dependent ((size + off) `div` B). intros q2. generalize dependent (off `div` B). intros q1.
  intros E1 Hc Hi E2 [= <- <-].
  destruct (Z.eqb_spec (i + 1) q1) as [|_]; [lia|].
  destruct (Z.eqb_spec i q1) as [->|N1], (Z.eqb_spec q1 q2) as [->|N2]; rewrite ?Z.eqb_refl.
  - assert (r1 = 0) as -> by lia. lia.
  - rewrite (uN_small 32) by lia. assert ((q1 + 1) * B <= q2 * B) by (apply Z.mul_le_mono_nonneg_r; lia). lia.
  - lia.
  - assert ((q1 + 1) * B <= i * B) by (apply Z.mul_le_mono_nonneg_r; lia).
    destruct (Z.eqb_spec i q2) as [->|N3]; [lia|].
    assert ((i + 1) * B <= q2 * B) by (apply Z.mul_le_mono_nonneg_r; lia). lia.
Qed.

Lemma xfer_end : xfer (endblk + 1) = size.
Proof.
  pose proof (blk_sz_facts vol Hvol) as HB. unfold xfer.
  pose proof (Z.div_mod (size + off) B ltac:(lia)) as E2. pose proof (Z.mod_pos_bound (size + off) B ltac:(lia)) as R2.
  assert (startblk <= endblk) by (apply Z.div_le_mono; lia).
  rewrite (proj2 (Z.eqb_neq (endblk + 1) startblk)) by lia. nia.
Qed.
End transfer.

(** The block numbers of a transfer, without their conversions. *)
Lemma transfer_blocks vol x :
  vol_ok vol -> 0 <= x < (12 + blk_sz vol `div` 4 + (blk_sz vol `div` 4) * (blk_sz vol `div` 4)) * blk_sz vol ->
  u64 x = x /\ u32 (x `div` blk_sz vol) = x `div` blk_sz vol /\
  0 <= x `div` blk_sz vol < 12 + blk_sz vol `div` 4 + (blk_sz vol `div` 4) * (blk_sz vol `div` 4) /\
  x `div` blk_sz vol < 2 ^ 32 - 1.
Proof.
  intros Hvol Hx. pose proof (blk_sz_facts vol Hvol) as HB.
  assert (0 <= x `div` blk_sz vol) by (apply Z.div_pos; lia).
  assert (x `div` blk_sz vol < 12 + blk_sz vol `div` 4 + (blk_sz vol `div` 4) * (blk_sz vol `div` 4))
    by (apply Z.div_lt_upper_bound; lia).
  assert (0 <= (blk_sz vol `div` 4) * (blk_sz vol `div` 4) <= 16384 * 16384)
    by (split; [|apply Z.mul_le_mono_nonneg]; lia).
  assert ((12 + blk_sz vol `div` 4 + (blk_sz vol `div` 4) * (blk_sz vol `div` 4)) * blk_sz vol
    <= (12 + 16384 + 16384 * 16384) * 65536) by (apply Z.mul_le_mono_nonneg; lia).
  split_and!; [apply uN_small; lia|apply uN_small; lia|lia..].
Qed.

Lemma ext2_read_wp {D} `{BlkDev D} vol node ptr off size ino (s : e2state D) :
  vol_ok vol -> ext2_read_inode vol (inode_num node) s = Ok (ino, s) -> inode_ok ino ->
  0 <= off -> 0 <= size ->
  size + off < (12 + blk_sz vol `div` 4 + (blk_sz vol `div` 4) * (blk_sz vol `div` 4)) * blk_sz vol ->
  size <= Z.of_nat (length ptr) ->
  off `mod` blk_sz vol = 0 \/ off `div` blk_sz vol < (size + off) `div` blk_sz vol ->
  wp (ext2_read vol node ptr off size)
     (fun r s' => r = (size, read_upto (contents vol (e_dev s) ino) ptr off size) /\ s' = s) s.
Proof.
  intros Hvol Hread Hino Hoff Hsize Hmax Hptr Hc. pose proof (blk_sz_facts vol Hvol) as HB.
  destruct (transfer_blocks vol off Hvol ltac:(lia)) as (_ & E1 & R1 & _).
  destruct (transfer_blocks vol (size + off) Hvol ltac:(lia)) as (E & E2 & R2 & R2').
  pose proof (uN_range 64 (size + off) ltac:(lia)) as R64. rewrite E in R64.
  unfold ext2_read. rewrite E.
  wp_focus. apply udiv_wp; [lia|]. wp_focus. apply udiv_wp; [lia|]. rewrite E1, E2.
  wp_focus. apply umod_wp; [lia|]. wp_focus. apply umod_wp; [lia|].
  wp_focus. eapply wp_intro; [exact Hread|]. wp_focus. apply buf_alloc_wp. wp_focus.
  set (c := contents vol (e_dev s) ino).
  assert (off `div` blk_sz vol <= (size + off) `div` blk_sz vol) by (apply Z.div_le_mono; lia).
  pose proof (length_contents vol Hvol (e_dev s) ino (io_blocks _ Hino)) as Hlen. fold c in Hlen.
  apply (wp_for_acc (fun i '(buf, p, n) s' => Z.of_nat (length buf) = blk_sz vol /\ n = xfer vol off size i /\
           p = read_upto c ptr off n /\ s' = add_live 1 s)).
  - lia.
  - rewrite length_replicate. unfold xfer, read_upto. rewrite Z.eqb_refl. simpl. by rewrite drop_0, Z2Nat.id by lia.
  - intros i [[buf p] n] s' Hi (Hb & -> & -> & ->).
    destruct (blk_part vol _ _ _ _ i) as [start k] eqn:Hpart.
    destruct (blk_part_spec vol Hvol off size Hsize i start k Hc ltac:(lia) Hpart)
      as (Hs & Hk & Hsk & Hpos & Hnext & Hx & Hxk).
    wp_focus. apply read_inode_blk_wp; [done|done|lia|done|]. intros q Hq.
    change (e_dev (add_live 1 s)) with (e_dev s) in *.
    pose proof (length_block vol Hvol (e_dev s) q) as Hlb.
    wp_focus. apply buf_read_wp; [lia..|].
    assert (length (take (Z.to_nat k) (drop (Z.to_nat (off + xfer vol off size i)) c)) = Z.to_nat k) as Hk'
      by (rewrite length_take, length_drop; lia).
    rewrite (contents_range vol Hvol (e_dev s) ino i q start k) by (done || lia). rewrite Hpos. fold c.
    wp_focus. apply buf_write_wp; [lia| |].
    { rewrite Hk'. unfold read_upto. rewrite length_app, length_take, !length_drop. lia. }
    rewrite read_upto_step by lia. wp_step. split_and!; [done| |f_equal|done].
    + rewrite Hnext. apply uN_small. lia.
    + symmetry. apply uN_small. lia.
  - intros [[buf p] n] s' (_ & -> & -> & ->). rewrite xfer_end by done.
    wp_step. wp_step; [by apply Z.ltb_lt|]. wp_focus. apply buf_free_wp. wp_step.
    by rewrite add_live_0 by lia.
Qed.


(** A read is not cut off at the end of the file: whatever the inode's size, it reports
    [size] bytes and delivers what is in the blocks the pointers name, for a pointer 0 the
    volume's block 0. *)
Theorem ext2_read_unclamped {D} `{BlkDev D} vol node ptr off size ino (s : e2state D) :
  vol_ok vol -> ext2_read_inode vol (inode_num node) s = Ok (ino, s) -> inode_ok ino ->
  isize ino <= off -> 0 <= off -> 0 <= size ->
  size + off < (12 + blk_sz vol `div` 4 + (blk_sz vol `div` 4) * (blk_sz vol `div` 4)) * blk_sz vol ->
  size <= Z.of_nat (length ptr) ->
  off `mod` blk_sz vol = 0 \/ off `div` blk_sz vol < (size + off) `div` blk_sz vol ->
  ext2_read vol node ptr off size s =
  Ok ((size, take (Z.to_nat size) (drop (Z.to_nat off) (contents vol (e_dev s) ino)) ++
             drop (Z.to_nat size) ptr), s).
Proof.
  intros. destruct (wp_Ok _ _ _ (ext2_read_wp vol node ptr off size ino s ltac:(done) ltac:(done)
    ltac:(done) ltac:(done) ltac:(done) ltac:(done) ltac:(done) ltac:(done))) as (r & s' & He & -> & ->).
  exact He.
Qed.

(** A read inside one block that does not start on its boundary copies
    [off % blk_sz + size] bytes instead of [size]: with a buffer of [size] bytes
    it always runs over the end. *)
Theorem ext2_read_overruns {D} `{BlkDev D} vol node ptr off size ino (s : e2state D) :
  vol_ok vol -> ext2_read_inode vol (inode_num node) s = Ok (ino, s) -> inode_ok ino ->
  0 <= off -> 0 <= size ->
  size + off < (12 + blk_sz vol `div` 4 + (blk_sz vol `div` 4) * (blk_sz vol `div` 4)) * blk_sz vol ->
  size = Z.of_nat (length ptr) ->
  off `mod` blk_sz vol <> 0 -> off `div` blk_sz vol = (size + off) `div` blk_sz vol ->
  ext2_read vol node ptr off size s = Err OutOfBounds.
Proof.
  intros Hvol Hread Hino Hoff Hsize Hmax Hptr Hmod Hdiv. pose proof (blk_sz_facts vol Hvol) as HB.
  destruct (transfer_blocks vol (size + off) Hvol ltac:(lia)) as (E & E2 & R2 & _).
  unfold ext2_read. rewrite E.
  apply bind_fault, udiv_wp; [lia|]. apply bind_fault, udiv_wp; [lia|]. rewrite Hdiv, E2.
  apply bind_fault, umod_wp; [lia|]. apply bind_fault, umod_wp; [lia|].
  apply bind_fault. eapply wp_intro; [exact Hread|]. apply bind_fault, buf_alloc_wp. apply bind_Err.
  unfold for_acc. apply bind_Err.
  replace (Z.to_N _) with 1%N by lia. cbn [loop loopP fst snd]. apply bind_Err.
  apply bind_fault, read_inode_blk_wp; [done|done|lia|rewrite length_replicate; lia|]. intros p Hp.
  unfold blk_part. rewrite !Z.eqb_refl. cbv beta iota.
  pose proof (Z.mod_pos_bound off (blk_sz vol) ltac:(lia)) as R1. pose proof (length_block vol Hvol (e_dev (add_live 1 s)) p) as Hl.
  assert ((size + off) `mod` blk_sz vol = off `mod` blk_sz vol + size) as Hend
    by (rewrite !Z.mod_eq by lia; rewrite <- Hdiv; lia).
  rewrite Hend. destruct (decide (off `mod` blk_sz vol + (off `mod` blk_sz vol + size) <= blk_sz vol)).
  - apply bind_fault, buf_read_wp; [lia..|]. apply bind_Err. unfold buf_write. apply bind_Err.
    rewrite length_take, length_drop. unfold guard.
    rewrite (proj2 (Z.leb_gt (_ + _) _)); [by rewrite andb_false_r|lia].
  - apply bind_Err. unfold buf_read. apply bind_Err. unfold guard.
    rewrite (proj2 (Z.leb_gt (_ + _) _)); [by rewrite andb_false_r|lia].
Qed.

(** ** Inodes on the disk *)

Lemma inode_of_bytes ino : inode_ok ino -> inode_of (inode_bytes ino) = ino.
Proof.
  intros [Hl Hf]. unfold inode_of, inode_bytes. rewrite unpack_pack by done.
  destruct ino as [? ? ? ? ? ? ? ? ? ? ? ? b ? ? ? ? o]. simpl in Hl.
  do 15 (destruct b as [|? b]; [done|]). destruct b; [|done]. done.
Qed.

Lemma length_inode_bytes ino : inode_ok ino -> length (inode_bytes ino) = 128%nat.
Proof. intros [_ Hf]. unfold inode_bytes. by rewrite length_pack by (by eapply Forall2_length). Qed.

Lemma take_drop_take (l : list Z) a n m : (a + n <= m)%nat -> take n (drop a (take m l)) = take n (drop a l).
Proof.
  intros. rewrite !take_drop_commute. rewrite take_take, Nat.min_l by lia. done.
Qed.

Section inodes.
Context {D : Type} `{BlkDev D} (vol : ext2_vol) (Hvol : vol_ok vol).
Abbreviation spb := (blk_sz vol `div` 512).
Abbreviation ipb := (blk_sz vol `div` 128).
Abbreviation ipg := (inodes_per_grp (super vol)).
Implicit Types (s : e2state D) (d : D).

(** Inode [idx] of the table that starts at block [tbl]. *)
Definition inode_at (d : D) (tbl idx : Z) : ext2_inode :=
  inode_of (take 128 (drop (Z.to_nat (128 * (idx `mod` ipb))) (block vol d (tbl + idx `div` ipb)))).

Lemma ipb_facts : blk_sz vol = 128 * ipb /\ ipb = 4 * spb /\ 8 <= ipb <= 512.
Proof. pose proof (blk_sz_facts vol Hvol). dlia. Qed.

Lemma sector_of_block d p j : 0 <= j < spb ->
  blk_read d (p * spb + j) 1 = take 512 (drop (Z.to_nat (512 * j)) (block vol d p)).
Proof.
  intros Hj. unfold block. replace spb with (j + (1 + (spb - j - 1))) at 3 by lia.
  rewrite !blk_read_split by lia.
  pose proof (blk_read_length d (p * spb) j ltac:(lia)). pose proof (blk_read_length d (p * spb + j) 1 ltac:(lia)).
  rewrite drop_app_length' by lia. by rewrite take_app_length' by lia.
Qed.

(** Where [ext2_read_inode] looks: the sector of inode [idx] of table [tbl] and its
    offset there. *)
Lemma inode_sector tbl idx : 0 <= idx ->
  (tbl * blk_sz vol + idx * 128) `div` 512 = (tbl + idx `div` ipb) * spb + (idx `mod` ipb) `div` 4 /\
  (idx * 128) `mod` 512 = 128 * (idx `mod` ipb) - 512 * ((idx `mod` ipb) `div` 4) /\
  0 <= (idx `mod` ipb) `div` 4 < spb.
Proof.
  intros Hidx. destruct ipb_facts as (HB & H4 & Hr). pose proof (blk_sz_facts vol Hvol) as HS.
  pose proof (Z.div_mod idx ipb ltac:(lia)) as E. pose proof (Z.mod_pos_bound idx ipb ltac:(lia)) as R.
  generalize dependent (idx `mod` ipb). intros r E R.
  generalize dependent (idx `div` ipb). intros q E.
  assert (tbl * blk_sz vol + idx * 128 = 512 * ((tbl + q) * spb) + r * 128) as -> by nia.
  assert (idx * 128 = 512 * (q * spb) + r * 128) as -> by nia.
  generalize ((tbl + q) * spb) (q * spb). intros x y. dlia.
Qed.

Lemma read_inode_wp num gd Q s :
  1 <= num < 2 ^ 32 -> e_grps s !! Z.to_nat ((num - 1) `div` ipg) = Some gd ->
  0 <= inode_tbl_addr gd -> inode_tbl_addr gd * blk_sz vol + ipg * 128 <= 2 ^ 32 ->
  Q (inode_at (e_dev s) (inode_tbl_addr gd) ((num - 1) `mod` ipg)) s ->
  wp (ext2_read_inode vol num) Q s.
Proof.
  intros Hnum Hgd Ht Hfit HQ. pose proof (blk_sz_facts vol Hvol) as HB. pose proof (vo_ipg _ Hvol).
  pose proof (Z.mod_pos_bound (num - 1) ipg ltac:(lia)) as Hm.
  set (idx := (num - 1) `mod` ipg) in *.
  assert (0 <= inode_tbl_addr gd * blk_sz vol) by (apply Z.mul_nonneg_nonneg; lia).
  destruct (inode_sector (inode_tbl_addr gd) idx ltac:(lia)) as (E1 & E2 & R).
  unfold ext2_read_inode, ext2_inode_lba, ext2_inode_bg, ext2_inode_bg_idx, grp.
  rewrite (vo_isz _ Hvol), (uN_small 32 (num - 1)) by lia. unfold INODE_SIZE.
  wp_focus. apply buf_alloc_wp. wp_step. wp_focus. apply udiv_wp; [lia|]. wp_step. wp_step. wp_step.
  wp_step; [exact Hgd|]. wp_focus. apply umod_wp; [lia|]. fold idx.
  rewrite (uN_small 32 (idx * 128)) by lia. rewrite (uN_small 32 (_ * blk_sz vol)) by lia.
  rewrite uN_small by lia. wp_step. rewrite E1.
  unfold dev_read. wp_focus. wp_step. wp_step.
  change (e_dev (add_live 1 s)) with (e_dev s).
  pose proof (blk_read_length (e_dev s) ((inode_tbl_addr gd + idx `div` ipb) * spb + idx `mod` ipb `div` 4) 1 ltac:(lia)) as Hl.
  apply buf_write_wp; [lia|rewrite length_replicate; lia|].
  change (Z.to_nat 0) with 0%nat. rewrite inserts_all by (rewrite length_replicate; lia).
  wp_focus. apply umod_wp; [lia|]. fold idx. rewrite (uN_small 32 (idx * 128)), E2 by lia.
  pose proof (Z.mod_pos_bound idx ipb ltac:(destruct ipb_facts; lia)) as Hrm.
  wp_focus. apply buf_read_wp; [dlia|lia|dlia|]. wp_focus. apply buf_free_wp. wp_step.
  rewrite add_live_0 by lia.
  rewrite sector_of_block, take_drop_take, drop_drop by (lia || dlia).
  replace (Z.to_nat (512 * _) + _)%nat with (Z.to_nat (128 * (idx `mod` ipb))) by dlia. exact HQ.
Qed.

(** The block [ext2_write_inode] leaves behind. *)
Definition inode_put (d : D) (tbl idx : Z) (ino : ext2_inode) : list Z :=
  list_inserts (Z.to_nat (128 * (idx `mod` ipb))) (inode_bytes ino) (block vol d (tbl + idx `div` ipb)).

Lemma write_inode_wp num ino gd Q s :
  inode_ok ino -> 1 <= num < 2 ^ 25 -> e_grps s !! Z.to_nat (num `div` ipg) = Some gd ->
  0 <= inode_tbl_addr gd -> inode_tbl_addr gd + (num - 1) `div` ipb < 2 ^ 32 ->
  Q () (set_dev (blk_write (e_dev s) ((inode_tbl_addr gd + (num - 1) `div` ipb) * spb)
                   (inode_put (e_dev s) (inode_tbl_addr gd) (num - 1) ino)) s) ->
  wp (ext2_write_inode vol num ino) Q s.
Proof.
  intros Hino Hnum Hgd Ht Hfit HQ. pose proof (blk_sz_facts vol Hvol) as HB. pose proof (vo_ipg _ Hvol).
  destruct ipb_facts as (HB' & H4 & Hr).
  pose proof (Z.div_mod (num - 1) ipb ltac:(lia)) as E. pose proof (Z.mod_pos_bound (num - 1) ipb ltac:(lia)) as R.
  assert (0 <= (num - 1) `div` ipb) as Hq by (apply Z.div_pos; lia).
  assert (((num - 1) * 128) `div` blk_sz vol = (num - 1) `div` ipb) as Eoff.
  { transitivity (((num - 1) * 128) `div` (ipb * 128)); [f_equal; lia|]. apply Z.div_mul_cancel_r; lia. }
  unfold ext2_write_inode, grp. rewrite (vo_isz _ Hvol). unfold INODE_SIZE.
  rewrite (uN_small 32 (num - 1)), (uN_small 32 ((num - 1) * 128)) by lia.
  wp_focus. apply udiv_wp; [lia|]. wp_step. wp_step. wp_step. wp_step; [exact Hgd|].
  wp_focus. apply udiv_wp; [lia|]. rewrite Eoff. wp_focus. apply buf_alloc_wp.
  rewrite (uN_small 32 (inode_tbl_addr gd + _)) by lia.
  wp_focus. apply dev_read_block_wp; [done|lia|rewrite length_replicate; lia|].
  wp_focus. apply udiv_wp; [lia|].
  assert (0 <= (num - 1) `div` ipb * ipb <= num - 1) as Hpq by lia.
  rewrite (uN_small 32 (_ `div` ipb * ipb)) by lia.
  replace (num - 1 - _) with ((num - 1) `mod` ipb) by lia.
  rewrite (uN_small 32 ((num - 1) `mod` ipb)), (uN_small 32 (_ * 128)) by lia.
  pose proof (length_inode_bytes ino Hino) as Hli.
  wp_focus. apply buf_read_wp; [lia..|]. change (Z.to_nat 0) with 0%nat.
  rewrite drop_0, firstn_all2 by lia. change (e_dev (add_live 1 s)) with (e_dev s).
  pose proof (length_block vol Hvol (e_dev s) (inode_tbl_addr gd + (num - 1) `div` ipb)) as Hlb.
  wp_focus. apply buf_write_wp; [lia..|].
  replace ((num - 1) `mod` ipb * 128) with (128 * ((num - 1) `mod` ipb)) by lia.
  wp_focus. apply dev_write_block_wp; [done|lia|rewrite length_inserts; lia|]. apply buf_free_wp.
  rewrite add_live_set_dev by lia. exact HQ.
Qed.

Lemma inode_at_put d tbl num num' ino :
  inode_ok ino -> 0 <= num -> 0 <= num' ->
  inode_at (blk_write d ((tbl + num `div` ipb) * spb) (inode_put d tbl num ino)) tbl num' =
  if decide (num' = num) then ino else inode_at d tbl num'.
Proof.
  intros Hino Hn Hn'. destruct ipb_facts as (HB' & H4 & Hr). pose proof (blk_sz_facts vol Hvol) as HB.
  pose proof (Z.mod_pos_bound num ipb ltac:(lia)) as R. pose proof (Z.mod_pos_bound num' ipb ltac:(lia)) as R'.
  pose proof (length_block vol Hvol d (tbl + num `div` ipb)) as Hlb.
  pose proof (length_inode_bytes ino Hino) as Hli.
  assert (Z.of_nat (length (inode_put d tbl num ino)) = blk_sz vol) as Hlp
    by (unfold inode_put; rewrite length_inserts; done).
  assert (bytes (inode_put d tbl num ino)) as Hbp
    by (apply bytes_inserts; [apply bytes_pack|apply bytes_block]).
  unfold inode_at. destruct (decide (num' `div` ipb = num `div` ipb)) as [Hq|Hq].
  - rewrite Hq, block_write_same by done. unfold inode_put. rewrite inserts_split by lia.
    pose proof (Z.div_mod num ipb ltac:(lia)). pose proof (Z.div_mod num' ipb ltac:(lia)).
    case_decide as Hd.
    + subst num'. rewrite drop_app_length' by (rewrite length_take; lia).
      rewrite take_app_length' by done. by apply inode_of_bytes.
    + rewrite <- inserts_split by lia. f_equal. apply list_eq. intros j.
      destruct (decide (j < 128)%nat) as [Hj|]; [|by rewrite !lookup_take_ge by lia].
      rewrite !lookup_take_lt, !lookup_drop by done.
      destruct (decide (num' `mod` ipb < num `mod` ipb)).
      * apply list_lookup_inserts_lt. lia.
      * assert (num' `mod` ipb <> num `mod` ipb) by congruence. apply list_lookup_inserts_ge. lia.
  - rewrite block_write_other by (done || lia). rewrite decide_False by congruence. done.
Qed.

Lemma group_of num : 1 <= num <= ipg -> (num - 1) `div` ipg = 0 /\ (num - 1) `mod` ipg = num - 1.
Proof. intros. by rewrite Z.div_small, Z.mod_small by lia. Qed.

Lemma table_fits tbl : 0 <= tbl -> tbl * blk_sz vol + ipg * 128 <= 2 ^ 32 -> tbl <= 2 ^ 22 /\ ipg <= 2 ^ 25.
Proof. intros. pose proof (blk_sz_facts vol Hvol). pose proof (vo_ipg _ Hvol). nia. Qed.

Lemma read_inode_Ok num gd s :
  1 <= num < 2 ^ 32 -> e_grps s !! Z.to_nat ((num - 1) `div` ipg) = Some gd ->
  0 <= inode_tbl_addr gd -> inode_tbl_addr gd * blk_sz vol + ipg * 128 <= 2 ^ 32 ->
  ext2_read_inode vol num s = Ok (inode_at (e_dev s) (inode_tbl_addr gd) ((num - 1) `mod` ipg), s).
Proof.
  intros. destruct (wp_Ok _ _ _ (read_inode_wp num gd
    (fun i s' => i = inode_at (e_dev s) (inode_tbl_addr gd) ((num - 1) `mod` ipg) /\ s' = s) s
    ltac:(done) ltac:(done) ltac:(done) ltac:(done) ltac:(done))) as (i & s' & He & -> & ->). exact He.
Qed.

Lemma write_inode_Ok num ino gd s :
  inode_ok ino -> 1 <= num < 2 ^ 25 -> e_grps s !! Z.to_nat (num `div` ipg) = Some gd ->
  0 <= inode_tbl_addr gd -> inode_tbl_addr gd + (num - 1) `div` ipb < 2 ^ 32 ->
  ext2_write_inode vol num ino s =
  Ok ((), set_dev (blk_write (e_dev s) ((inode_tbl_addr gd + (num - 1) `div` ipb) * spb)
                   (inode_put (e_dev s) (inode_tbl_addr gd) (num - 1) ino)) s).
Proof.
  intros. destruct (wp_Ok _ _ _ (write_inode_wp num ino gd (fun _ s' => s' = _) s
    ltac:(done) ltac:(done) ltac:(done) ltac:(done) ltac:(done) eq_refl)) as ([] & s' & He & ->). exact He.
Qed.

(** Inode [num] as the group descriptors place it. *)
Definition inode_lookup s (num : Z) : option ext2_inode :=
  (fun gd => inode_at (e_dev s) (inode_tbl_addr gd) ((num - 1) `mod` ipg)) <$>
  e_grps s !! Z.to_nat ((num - 1) `div` ipg).

(** Every inode table lies below 4 GiB. *)
Definition tables_ok s : Prop :=
  Forall (fun gd => 0 <= inode_tbl_addr gd /\ inode_tbl_addr gd * blk_sz vol + ipg * 128 <= 2 ^ 32) (e_grps s).

Lemma read_inode_lookup_wp num ino Q s :
  tables_ok s -> 1 <= num < 2 ^ 32 -> inode_lookup s num = Some ino -> Q ino s ->
  wp (ext2_read_inode vol num) Q s.
Proof.
  intros Ht Hnum Hl HQ. unfold inode_lookup in Hl. apply fmap_Some in Hl as (gd & Hgd & ->).
  destruct (Forall_lookup_1 _ _ _ _ Ht Hgd) as [H0 Hfit].
  by apply (read_inode_wp num gd).
Qed.
End inodes.


(** An inode outside the first group is written to a block it is never read
    from: after [ext2_write_inode] it still reads as before. *)
Theorem inode_write_lost {D} `{BlkDev D} vol ino num gd (s : e2state D) :
  vol_ok vol -> inode_ok ino -> inodes_per_grp (super vol) < num < 2 ^ 25 ->
  num `mod` inodes_per_grp (super vol) <> 0 -> blk_sz vol `div` 128 <= inodes_per_grp (super vol) ->
  e_grps s !! Z.to_nat (num `div` inodes_per_grp (super vol)) = Some gd -> 0 <= inode_tbl_addr gd ->
  inode_tbl_addr gd * blk_sz vol + inodes_per_grp (super vol) * 128 <= 2 ^ 32 ->
  exists s' old, ext2_write_inode vol num ino s = Ok ((), s') /\
    ext2_read_inode vol num s = Ok (old, s) /\ ext2_read_inode vol num s' = Ok (old, s').
Proof.
  intros Hvol Hino Hnum Hmod Hipb Hgd Ht Hfit. pose proof (vo_ipg _ Hvol).
  destruct (ipb_facts vol Hvol) as (HB & _ & Hr).
  destruct (table_fits vol Hvol _ Ht Hfit) as [Ht22 Hi25].
  set (ipg := inodes_per_grp (super vol)) in *. set (ipb := blk_sz vol `div` 128) in *.
  assert ((num - 1) `div` ipg = num `div` ipg) as Eg.
  { symmetry. pose proof (Z.div_mod num ipg). pose proof (Z.mod_pos_bound num ipg).
    apply (Z.div_unique_pos _ _ _ (num `mod` ipg - 1)); lia. }
  assert (1 <= num `div` ipg) as Hg by (apply Z.div_le_lower_bound; lia).
  assert ((num - 1) `div` ipb <= num - 1) by (apply Z.div_le_upper_bound; nia).
  assert (((num - 1) `mod` ipg) `div` ipb < (num - 1) `div` ipb) as Hlt.
  { assert ((num - 1) `mod` ipg + 1 * ipb <= num - 1) as Hle by (rewrite Z.mod_eq, Eg by lia; nia).
    apply (Z.div_le_mono _ _ ipb) in Hle; [|lia]. rewrite Z.div_add in Hle by lia. lia. }
  eexists _, _. split; [|split].
  - apply (write_inode_Ok vol Hvol _ _ gd); [done|lia|done|done|fold ipb; lia].
  - apply (read_inode_Ok vol Hvol num gd s); [lia|by fold ipg; rewrite Eg|done..].
  - rewrite (read_inode_Ok vol Hvol num gd); [|lia|by fold ipg; rewrite Eg|done..].
    cbn [set_dev e_dev]. unfold inode_at. rewrite block_write_other; [done|done| |fold ipb ipg; lia].
    unfold inode_put. rewrite length_inserts. by apply length_block.
Qed.

(** ** The block allocator *)

(** Bit [b] of a bitmap. *)
Definition bit_at (bm : list Z) (b : Z) : bool := Z.testbit (bm !!! Z.to_nat (b `div` 8)) (b `mod` 8).

Lemma bit_at_jk bm j k : 0 <= j -> 0 <= k < 8 -> bit_at bm (8 * j + k) = Z.testbit (bm !!! Z.to_nat j) k.
Proof.
  intros. unfold bit_at. replace ((8 * j + k) `div` 8) with j by dlia.
  by replace ((8 * j + k) `mod` 8) with k by dlia.
Qed.

Lemma bit_at_insert bm j k b :
  0 <= j < Z.of_nat (length bm) -> 0 <= k < 8 -> 0 <= b ->
  bit_at (<[Z.to_nat j := Z.lor (bm !!! Z.to_nat j) (2 ^ k)]> bm) b = (b =? 8 * j + k) || bit_at bm b.
Proof.
  intros Hj Hk Hb. unfold bit_at. destruct (decide (b `div` 8 = j)) as [Hq|Hq].
  - rewrite Hq. rewrite list_lookup_total_insert_eq by lia. rewrite testbit_setbit by dlia.
    f_equal. apply eq_true_iff_eq. rewrite !Z.eqb_eq. dlia.
  - rewrite list_lookup_total_insert_ne by dlia. destruct (Z.eqb_spec b (8 * j + k)); [dlia|done].
Qed.

Lemma u32_sum a b c : u32 (u32 (u32 a + u32 b) + c) = u32 (a + b + c).
Proof.
  unfold uN. rewrite Z.add_mod_idemp_l, <- Z.add_assoc, Z.add_mod_idemp_l by lia.
  replace (a + (b `mod` 2 ^ 32 + c)) with (b `mod` 2 ^ 32 + (a + c)) by lia.
  rewrite Z.add_mod_idemp_l by lia. f_equal. lia.
Qed.

Section alloc.
Context {D : Type} `{BlkDev D} (vol : ext2_vol) (Hvol : vol_ok vol).
Abbreviation spb := (blk_sz vol `div` 512).
Implicit Types (s : e2state D) (d : D).

(** Every bit of the bitmap before bit [n] is set. *)
Abbreviation full_below bm n := (forall b, 0 <= b < n -> bit_at bm b = true).

Lemma scan_bits_wp {A} bm (claim : Z -> Z -> Z -> M (e2state D) A) Q s :
  Z.of_nat (length bm) = blk_sz vol -> bytes bm ->
  (forall j k, 0 <= j < blk_sz vol -> 0 <= k < 8 -> bit_at bm (8 * j + k) = false -> full_below bm (8 * j + k) ->
     wp (claim j k (Z.lor (bm !!! Z.to_nat j) (2 ^ k))) (fun r s' => Q (Some r) s') s) ->
  (full_below bm (8 * blk_sz vol) -> Q None s) ->
  wp (scan_bits vol bm claim) Q s.
Proof.
  intros Hl Hb Hclaim Hnone. unfold scan_bits.
  apply (wp_for (fun j s' => s' = s /\ full_below bm (8 * j))).
  - lia.
  - split; [done|lia].
  - intros j s' Hj [-> Hfull].
    assert (bm !! Z.to_nat j = Some (bm !!! Z.to_nat j)) as Hlk by (apply list_lookup_lookup_total_lt; lia).
    pose proof (Forall_lookup_1 _ _ _ _ Hb Hlk) as Hbyte.
    wp_step. wp_step; [exact Hlk|].
    destruct (Z.eqb_spec (bm !!! Z.to_nat j) 255) as [E|E].
    { wp_step. split; [done|]. intros b Hbr. destruct (decide (b < 8 * j)); [apply Hfull; lia|].
      replace b with (8 * j + (b - 8 * j)) by lia. rewrite bit_at_jk, E by lia.
      change 255 with (Z.ones 8). apply Z.ones_spec_low. lia. }
    apply (wp_for (fun k s' => s' = s /\ full_below bm (8 * j + k))).
    + lia.
    + split; [done|]. intros. apply Hfull. lia.
    + intros k s' Hk [-> Hfk]. rewrite Z.shiftl_1_l, land_pow2 by lia.
      destruct (Z.testbit (bm !!! Z.to_nat j) k) eqn:Et.
      * rewrite (proj2 (Z.eqb_neq _ _)) by lia. wp_step. split; [done|]. intros b Hbr.
        destruct (decide (b < 8 * j + k)); [apply Hfk; lia|].
        replace b with (8 * j + k) by lia. rewrite bit_at_jk by lia. done.
      * rewrite Z.eqb_refl. wp_focus. eapply wp_mono.
        { apply Hclaim; [lia|lia|by rewrite bit_at_jk by lia|done]. }
        intros r s'' HQ. wp_step. exact HQ.
    + intros s' [-> Hf]. split; [done|]. intros. apply Hf. lia.
  - intros s' [-> Hf]. by apply Hnone.
Qed.

(** What the allocators assume of the group descriptors: their bitmaps are blocks
    of their own, apart from the descriptor block 2. *)
Record grps_ok (gs : list ext2_bgd) (bm : ext2_bgd -> Z) : Prop := {
  go_len : Z.of_nat (length gs) = blk_grp_cnt vol;
  go_res : Forall (fun g => length (bgd_res g) = 12%nat) gs;
  go_range : forall i g, gs !! i = Some g -> 0 <= bm g < 2 ^ 32 /\ bm g <> 2;
  go_distinct : forall i j g g', gs !! i = Some g -> gs !! j = Some g' -> bm g = bm g' -> i = j;
}.

Lemma length_bgd_bytes g : length (bgd_res g) = 12%nat -> length (bgd_bytes g) = 38%nat.
Proof. intros Hr. unfold bgd_bytes. rewrite length_pack; [done|]. unfold bgd_vals. simpl. by rewrite Hr. Qed.

(** Block 2 with the descriptors [gs] at its start. *)
Definition new_bgds (d : D) (gs : list ext2_bgd) : list Z := list_inserts 0 (concat (bgd_bytes <$> gs)) (block vol d 2).

Lemma rewrite_bgds_wp Q s :
  Z.of_nat (length (e_grps s)) = blk_grp_cnt vol -> Forall (fun g => length (bgd_res g) = 12%nat) (e_grps s) ->
  (Z.of_nat (length (new_bgds (e_dev s) (e_grps s))) = blk_sz vol ->
     Q () (add_live 1 (set_dev (blk_write (e_dev s) (2 * spb) (new_bgds (e_dev s) (e_grps s))) s))) ->
  wp (ext2_rewrite_bgds vol) Q s.
Proof.
  intros Hlen Hres HQ. pose proof (blk_sz_facts vol Hvol) as HB. pose proof (vo_cnt _ Hvol) as [Hc Hfit].
  unfold ext2_rewrite_bgds. rewrite (uN_small 32 (2 * spb)) by lia.
  rewrite <- (blk_to_lba vol Hvol 2) by lia.
  wp_focus. apply buf_alloc_wp. wp_focus.
  apply dev_read_block_wp; [done|lia|rewrite length_replicate; lia|]. wp_step. wp_step.
  change (e_grps (add_live 1 s)) with (e_grps s). rewrite firstn_all2 by lia.
  pose proof (length_block vol Hvol (e_dev (add_live 1 s)) 2) as Hlb.
  assert (length (concat (bgd_bytes <$> e_grps s)) = length (e_grps s) * 38)%nat as Hl.
  { rewrite (length_concat_uniform _ 38), length_fmap; [done|]. apply Forall_fmap.
    eapply Forall_impl; [exact Hres|]. intros g. apply length_bgd_bytes. }
  unfold BGD_SIZE in Hfit.
  wp_focus. apply buf_write_wp; [lia|lia|].
  apply dev_write_block_wp; [done|lia|rewrite length_inserts; lia|].
  apply HQ. unfold new_bgds. rewrite length_inserts. change (e_dev (add_live 1 s)) with (e_dev s) in Hlb. lia.
Qed.

(** Bit [b] of group [i]'s bitmap is claimed: it was the first clear bit, it is the
    only bit of any bitmap that changes, the descriptor block begins with the group
    descriptors as they are now and is otherwise unchanged, as is every other block; one
    buffer is left allocated. *)
Record claimed (bm : ext2_bgd -> Z) (i : nat) (b : Z) s s' : Prop := {
  cl_group : exists g, e_grps s !! i = Some g /\ bit_at (block vol (e_dev s) (bm g)) b = false;
  cl_range : 0 <= b < 8 * blk_sz vol;
  cl_first : forall i' g' b', e_grps s !! i' = Some g' -> 0 <= b' < 8 * blk_sz vol ->
    (i' < i)%nat \/ (i' = i /\ b' < b) -> bit_at (block vol (e_dev s) (bm g')) b' = true;
  cl_bits : forall i' g' b', e_grps s !! i' = Some g' -> 0 <= b' < 8 * blk_sz vol ->
    bit_at (block vol (e_dev s') (bm g')) b' =
    bool_decide (i' = i /\ b' = b) || bit_at (block vol (e_dev s) (bm g')) b';
  cl_frame : forall p g, e_grps s !! i = Some g -> p <> bm g -> p <> 2 ->
    block vol (e_dev s') p = block vol (e_dev s) p;
  cl_bgds : block vol (e_dev s') 2 = new_bgds (e_dev s) (e_grps s');
  cl_live : e_live s' = e_live s + 1;
}.

(** The state after a claim satisfies [claimed]. *)
Lemma claimed_intro bm s i g j k gs :
  grps_ok (e_grps s) bm -> e_grps s !! i = Some g -> 0 <= j < blk_sz vol -> 0 <= k < 8 ->
  bit_at (block vol (e_dev s) (bm g)) (8 * j + k) = false ->
  (forall b, 0 <= b < 8 * j + k -> bit_at (block vol (e_dev s) (bm g)) b = true) ->
  (forall i' g' b, (i' < i)%nat -> e_grps s !! i' = Some g' -> 0 <= b < 8 * blk_sz vol ->
     bit_at (block vol (e_dev s) (bm g')) b = true) ->
  Z.of_nat (length (new_bgds (e_dev s) gs)) = blk_sz vol ->
  let buf := block vol (e_dev s) (bm g) in
  let buf' := <[Z.to_nat j := Z.lor (buf !!! Z.to_nat j) (2 ^ k)]> buf in
  claimed bm i (8 * j + k) s
    (add_live 1 (set_dev (blk_write (blk_write (e_dev s) (bm g * spb) buf') (2 * spb) (new_bgds (e_dev s) gs)) (set_grps gs s))).
Proof.
  intros Hok Hg Hj Hk Hclear Hbelow Hprev Hbs buf buf'. destruct Hok as [_ _ Hrange Hdist].
  pose proof (Hrange _ _ Hg) as [Hr H2]. pose proof (length_block vol Hvol (e_dev s) (bm g)) as Hlb.
  assert (Z.of_nat (length buf') = blk_sz vol) as Hlb' by (unfold buf'; by rewrite length_insert).
  assert (bytes buf') as Hby.
  { apply Forall_insert; [apply bytes_block|]. apply (lor_bounded _ _ 8); [lia| |].
    - eapply (Forall_lookup_1 byte); [apply (bytes_block vol (e_dev s) (bm g))|].
      apply list_lookup_lookup_total_lt. unfold buf. lia.
    - split; [lia|]. apply Z.pow_lt_mono_r; lia. }
  split.
  - eauto.
  - lia.
  - intros i' g' b' Hg' Hb' [Hi|[-> Hlt]]; [by eauto|]. assert (g' = g) as -> by congruence. apply Hbelow. lia.
  - intros i' g' b' Hg' Hb'. simpl. pose proof (Hrange _ _ Hg') as [_ H2'].
    rewrite (block_write_other vol Hvol _ 2) by congruence.
    destruct (decide (i' = i)) as [->|Hne].
    + assert (g' = g) as -> by congruence. rewrite block_write_same by done.
      unfold buf'. rewrite bit_at_insert by (unfold buf in *; lia). f_equal.
      apply eq_true_iff_eq. rewrite Z.eqb_eq, bool_decide_eq_true. naive_solver.
    + rewrite block_write_other; [|done|done|intros E; apply Hne; eapply Hdist; eauto].
      by rewrite bool_decide_false by naive_solver.
  - intros p g' Hg' Hp Hp2. assert (g' = g) as -> by congruence. simpl.
    rewrite !block_write_other by congruence. done.
  - cbn [e_dev e_grps add_live set_dev set_grps]. apply block_write_same; [done|done|]. apply bytes_inserts; [|apply bytes_block].
    apply Forall_concat, Forall_fmap, Forall_true. intros x. apply bytes_pack.
  - done.
Qed.

Definition take_block (g : ext2_bgd) : ext2_bgd :=
  mk_bgd (block_bitmap_addr g) (inode_bitmap_addr g) (inode_tbl_addr g)
    (u32 (free_blocks g - 1)) (free_inodes g) (dir_cnt g) (bgd_padding g) (bgd_res g).

Definition alloc_post s (n : Z) s' : Prop :=
  (n = 0 /\ s' = s /\ forall i g b, e_grps s !! i = Some g -> 0 <= b < 8 * blk_sz vol ->
     bit_at (block vol (e_dev s) (block_bitmap_addr g)) b = true) \/
  (exists i b, n = u32 (Z.of_nat i * blks_per_grp (super vol) + b) /\
     claimed block_bitmap_addr i b s s' /\ e_grps s' = alter take_block i (e_grps s)).

Lemma alloc_block_wp s :
  grps_ok (e_grps s) block_bitmap_addr -> wp (ext2_alloc_block vol) (alloc_post s) s.
Proof.
  intros Hok. pose proof Hok as [Hlen Hres Hrange _]. pose proof (blk_sz_facts vol Hvol) as HB.
  unfold ext2_alloc_block. wp_focus. apply buf_alloc_wp. wp_focus.
  apply (wp_for_acc (fun i buf s' => Z.of_nat (length buf) = blk_sz vol /\ s' = add_live 1 s /\
    forall i' g b, (i' < Z.to_nat i)%nat -> e_grps s !! i' = Some g -> 0 <= b < 8 * blk_sz vol ->
     bit_at (block vol (e_dev s) (block_bitmap_addr g)) b = true)).
  - lia.
  - rewrite length_replicate. split_and!; [lia|done|]. intros. lia.
  - intros i buf s' Hi (Hb & -> & Hprev). unfold grp at 1. wp_step. wp_step. wp_step.
    destruct (lookup_lt_is_Some_2 (e_grps s) (Z.to_nat i) ltac:(lia)) as [g Hg].
    wp_step; [exact Hg|]. pose proof (Hrange _ _ Hg) as [Hr H2].
    wp_focus. apply dev_read_block_wp; [done|done|done|].
    change (e_dev (add_live 1 s)) with (e_dev s).
    pose proof (length_block vol Hvol (e_dev s) (block_bitmap_addr g)) as Hlb.
    wp_focus. apply scan_bits_wp; [done|apply bytes_block| |].
    + intros j k Hj Hk Hclear Hbelow.
      wp_focus. apply buf_write_wp; [lia|simpl; lia|]. cbn [list_inserts].
      wp_focus. apply dev_write_block_wp; [done|done|by rewrite length_insert|].
      unfold grp. wp_step. wp_step. wp_step. wp_step; [exact Hg|].
      unfold set_grp. wp_step. wp_step. wp_focus.
      apply rewrite_bgds_wp; [cbn [e_grps set_grps set_dev add_live]; by rewrite length_insert| |].
      { cbn [e_grps set_grps set_dev add_live]. apply Forall_insert; [done|]. simpl.
        by apply (Forall_lookup_1 _ _ _ _ Hres Hg). }
      cbn [e_dev e_grps set_grps set_dev add_live]. intros Hbs. wp_focus. apply buf_free_wp. wp_step. wp_step. right.
      assert (new_bgds (blk_write (e_dev s) (block_bitmap_addr g * spb) (<[Z.to_nat j := Z.lor (block vol (e_dev s) (block_bitmap_addr g) !!! Z.to_nat j) (2 ^ k)]>
        (block vol (e_dev s) (block_bitmap_addr g)))) (<[Z.to_nat i := take_block g]> (e_grps s)) =
        new_bgds (e_dev s) (<[Z.to_nat i := take_block g]> (e_grps s))) as Enb.
      { unfold new_bgds. rewrite block_write_other; [done|done|by rewrite length_insert|done]. }
      exists (Z.to_nat i), (8 * j + k). split_and!.
      * rewrite u32_sum, Z2Nat.id by lia. f_equal. lia.
      * pose proof (claimed_intro block_bitmap_addr s (Z.to_nat i) g j k
          (<[Z.to_nat i := take_block g]> (e_grps s)) Hok Hg Hj Hk Hclear Hbelow Hprev ltac:(by rewrite <- Enb)) as Hc.
        cbv zeta in Hc. rewrite <- Enb in Hc. destruct Hc. split; try done. cbn. lia.
      * cbn [e_grps set_grps set_dev add_live].
        apply list_eq. intros x. destruct (decide (x = Z.to_nat i)) as [->|Hx].
        -- rewrite list_lookup_insert_eq by (by eapply lookup_lt_Some). by rewrite list_lookup_alter_eq, Hg.
        -- by rewrite list_lookup_insert_ne, list_lookup_alter_ne by done.
    + intros Hfull. wp_step. split_and!; [done|done|]. intros i' g' b Hi' Hg' Hb'.
      destruct (decide (i' < Z.to_nat i)%nat); [by eauto|].
      assert (i' = Z.to_nat i) as -> by lia. assert (g' = g) as -> by congruence. by apply Hfull.
  - intros buf s' (_ & -> & Hall). wp_focus. apply buf_free_wp. wp_step. left.
    rewrite add_live_0 by lia. split_and!; [done|done|]. intros i g b Hg Hb. eapply Hall; [|done..].
    apply lookup_lt_Some in Hg. lia.
Qed.
End alloc.


(** ** A volume to run the code on *)

(** Two groups of 64 blocks and 16 inodes; bitmaps at blocks 3, 4 and 13, 14, inode
    tables at 5 and 15. *)
Definition demo_super_vals : list Z :=
  [32; 128; 0; 100; 20; 1; 0; 0; 64; 64; 16; 0; 0; 0; 0; 0xef53; 1; 1; 0; 0; 0; 0; 1; 0; 0].
Definition demo_superext_vals : list Z := [11; 128; 0; 0; 0; 0] ++ replicate 96 0 ++ replicate 39 0.
Definition demo_grps : list ext2_bgd :=
  [mk_bgd 3 4 5 50 10 1 0 (replicate 12 0); mk_bgd 13 14 15 50 10 0 0 (replicate 12 0)].
Definition demo_inode : ext2_inode :=
  mk_inode 0x4000 0 1024 0 0 0 0 0 2 4 0 0 ([10; 11] ++ replicate 13 0) 0 0 0 0 (replicate 12 0).
(** A directory block: an entry for inode 2 named a, one for inode 3 named bc up to
    the end of the block. *)
Definition demo_dir : list Z :=
  le_enc 4 2 ++ le_enc 2 12 ++ [1; 2; 97; 0; 0; 0] ++ le_enc 4 3 ++ le_enc 2 1012 ++ [2; 1; 98; 99].
Definition demo_disk : memdisk :=
  let d := md_put [] 1024 (pack superblock_layout demo_super_vals ++ pack superext_layout demo_superext_vals) in
  let d := md_put d 2048 (concat (bgd_bytes <$> demo_grps)) in
  let d := md_put d (3 * 1024) [0xff; 0x7f] in
  let d := md_put d (5 * 1024 + 128) (inode_bytes demo_inode) in
  md_put d (10 * 1024) demo_dir.
Definition demo_vol : ext2_vol :=
  mk_vol 1024 2 (superblock_of (pack superblock_layout demo_super_vals))
    (superext_of (pack superext_layout demo_superext_vals)).
Definition demo_e2 : e2state memdisk := mk_e2 demo_disk demo_grps 0 0.
Definition demo_root : e2node := mk_node 2 1024 FS_DIR [47].

(** Mounting reads back the volume, given room for the whole sector. *)
Example mount_demo :
  ext2_init_room 512 (mk_e2 demo_disk [] 0 0) = Ok ((demo_vol, demo_root), mk_e2 demo_disk demo_grps 3 0).
Proof. vm_compute. reflexivity. Qed.

Example is_ext2_demo : ext2_is_ext2 demo_e2 = Ok (true, demo_e2).
Proof. vm_compute. reflexivity. Qed.

(** Looking up a name, and one that is not there. *)
Example finddir_demo :
  match ext2_finddir demo_vol 10 demo_root [98; 99] demo_e2 with
  | Ok (Some n, s) => (inode_num n, nname n, nflags n, e_live s) = (3, [98; 99], FS_FILE, 2)
  | _ => False
  end /\ ext2_finddir demo_vol 10 demo_root [98] demo_e2 = Ok (None, demo_e2).
Proof. vm_compute. auto. Qed.

Lemma demo_vol_ok : vol_ok demo_vol.
Proof.
  split; [exists 0|..]; vm_compute; auto; repeat split; congruence.
Qed.

Lemma demo_inode_ok : inode_ok demo_inode.
Proof. split; [done|]. unfold inode_layout, inode_vals. simpl. repeat constructor; lia. Qed.

Lemma demo_read_inode : ext2_read_inode demo_vol 2 demo_e2 = Ok (demo_inode, demo_e2).
Proof. vm_compute. reflexivity. Qed.

Lemma demo_grps_ok : grps_ok demo_vol (e_grps demo_e2) block_bitmap_addr.
Proof.
  split; [done|by repeat constructor|..].
  - intros [|[|]] g [= <-]; simpl; lia.
  - intros [|[|]] [|[|]] g g' [= <-] [= <-]; simpl; (done || lia).
Qed.

Lemma ext2_get_inode_blk_correct_witness :
  ext2_get_inode_blk demo_vol 1 demo_inode demo_e2 =
  Ok (default 0 (ino_map demo_vol demo_disk demo_inode !! 1%nat), demo_e2).
Proof. apply (ext2_get_inode_blk_correct demo_vol demo_inode 1 demo_e2 demo_vol_ok demo_inode_ok). lia. Defined.

Lemma ext2_read_unclamped_witness :
  ext2_read demo_vol demo_root (replicate 5 0) 2048 5 demo_e2 =
  Ok ((5, take 5 (drop 2048 (contents demo_vol demo_disk demo_inode))), demo_e2).
Proof.
  rewrite (ext2_read_unclamped demo_vol demo_root (replicate 5 0) 2048 5 demo_inode demo_e2
           demo_vol_ok demo_read_inode demo_inode_ok); [reflexivity|..];
    vm_compute; (by left) || (intros; congruence) || reflexivity.
Defined.

Lemma ext2_read_overruns_witness :
  ext2_read demo_vol demo_root (replicate 5 0) 3 5 demo_e2 = Err OutOfBounds.
Proof.
  apply (ext2_read_overruns demo_vol demo_root (replicate 5 0) 3 5 demo_inode demo_e2
           demo_vol_ok demo_read_inode demo_inode_ok); vm_compute; (intros; congruence) || reflexivity.
Defined.


(** The last inode of the first group does not come back. *)
Example inode_write_last :
  match ext2_write_inode demo_vol 16 demo_inode demo_e2 with
  | Ok (_, s') => isize <$> (fst <$> (match ext2_read_inode demo_vol 16 s' with Ok x => Some x | Err _ => None end)) = Some 0
  | Err _ => False
  end /\ isize demo_inode = 1024.
Proof. vm_compute. split; reflexivity. Qed.

Lemma inode_write_lost_witness :
  exists s' old, ext2_write_inode demo_vol 20 demo_inode demo_e2 = Ok ((), s') /\
    ext2_read_inode demo_vol 20 demo_e2 = Ok (old, demo_e2) /\ ext2_read_inode demo_vol 20 s' = Ok (old, s').
Proof.
  apply (inode_write_lost demo_vol demo_inode 20 (mk_bgd 13 14 15 50 10 0 0 (replicate 12 0)) demo_e2
           demo_vol_ok demo_inode_ok); (reflexivity || (vm_compute; split; congruence) || (vm_compute; congruence)).
Defined.


(** Mounting reads a 512-byte sector over the 244 bytes the heap block of the
    volume has behind [&vol->super]: it runs over the end on every device. *)
Theorem ext2_init_overflows {D} `{BlkDev D} (s : e2state D) : ext2_init s = Err OutOfBounds.
Proof.
  unfold ext2_init, ext2_init_room. do 2 apply bind_fault, buf_alloc_wp. apply bind_Err.
  unfold dev_read. apply bind_fault, wp_gets. unfold buf_write. apply bind_Err. unfold guard.
  pose proof (blk_read_length (e_dev (add_live 1 (add_live 1 s))) EXT2_SB_LBA 1 ltac:(lia)) as Hl.
  rewrite length_replicate, (proj2 (Z.leb_gt (_ + _) _)); [done|lia].
Qed.
