(* ===== verification/Ext2Dir.v ===== *)
(** * Ext2Dir: directories of ext2 (src/fs/ext2/dir.c)

    A directory is abstractly a sequence of entries, block by block; [dirent_bytes]
    is the format of an entry on the disk.  The theorems show that the loops of
    [ext2_finddir] and [ext2_listdir] (definitions in [Ext2]) walk that sequence:
    lookup returns the first entry with the name, listing all entries in order.
    The variant of both loops is the number of entries left.  [ext2_add_entry] is
    run on a concrete volume at the end. *)

From S2P Require Import Prelude Disk Ext2.

(** ** Entries *)

(** An entry, with the padding behind its name. *)
Record dirent : Type := mk_dirent { de_inode : Z; de_type : Z; de_name : list Z; de_pad : list Z }.

Definition de_size (e : dirent) : Z := 8 + Z.of_nat (length (de_name e)) + Z.of_nat (length (de_pad e)).

(** [ext2_dir_ent_t] and the bytes up to the next entry. *)
Definition dirent_bytes (e : dirent) : list Z :=
  le_enc 4 (de_inode e) ++ le_enc 2 (de_size e) ++ [Z.of_nat (length (de_name e))] ++ [de_type e] ++
  de_name e ++ de_pad e.

Definition dir_bytes (es : list dirent) : list Z := concat (dirent_bytes <$> es).

(** The fields have their widths and the name holds no 0 byte. *)
Record dirent_ok (e : dirent) : Prop := {
  dk_inode : 0 <= de_inode e < 2 ^ 32;
  dk_size : de_size e < 2 ^ 16;
  dk_len : (length (de_name e) < 256)%nat;
  dk_type : 0 <= de_type e < 256;
  dk_name : Forall (fun b => 0 < b < 256) (de_name e);
}.

Lemma length_dirent_bytes e : Z.of_nat (length (dirent_bytes e)) = de_size e.
Proof. unfold dirent_bytes, de_size. rewrite !length_app, !length_le_enc. simpl. lia. Qed.

Lemma de_size_pos e : 8 <= de_size e.
Proof. unfold de_size. lia. Qed.

Lemma dir_bytes_cons e es : dir_bytes (e :: es) = dirent_bytes e ++ dir_bytes es.
Proof. done. Qed.
Lemma dir_bytes_app es es' : dir_bytes (es ++ es') = dir_bytes es ++ dir_bytes es'.
Proof. unfold dir_bytes. by rewrite fmap_app, concat_app. Qed.

(** Reading a field that lies between two known parts of a buffer. *)
Lemma buf_get_mid {St} w A X C off (Q : Z -> St -> Prop) s :
  length X = w -> off = Z.of_nat (length A) -> Q (le_dec X) s -> wp (buf_get w (A ++ X ++ C) off) Q s.
Proof.
  intros HX -> HQ. apply buf_get_wp; [lia|rewrite !length_app; lia|].
  rewrite Nat2Z.id, drop_app_length, <- HX, take_app_length. done.
Qed.

(** The prefix of a directory block in front of a field. *)
Ltac in_front := rewrite !length_app, ?length_le_enc; simpl; lia.

Section fields.
Context {D : Type} `{BlkDev D}.
Context (A C : list Z) (e : dirent) (He : dirent_ok e).
Implicit Types (s : e2state D).
Abbreviation off := (Z.of_nat (length A)).
Abbreviation buf := (A ++ dirent_bytes e ++ C).

Lemma ent_inode_wp Q s : Q (de_inode e) s -> wp (ent_inode buf off) Q s.
Proof.
  intros HQ. unfold ent_inode, dirent_bytes. rewrite <- !app_assoc.
  apply buf_get_mid; [apply length_le_enc|done|]. rewrite le_dec_enc, uN_small; [done|]. apply He.
Qed.

Lemma ent_size_wp Q s : Q (de_size e) s -> wp (ent_size buf off) Q s.
Proof.
  intros HQ. unfold ent_size, dirent_bytes. rewrite <- !app_assoc, (app_assoc A).
  apply buf_get_mid; [apply length_le_enc|in_front|].
  rewrite le_dec_enc, uN_small; [done|]. pose proof (de_size_pos e). pose proof (dk_size _ He). lia.
Qed.

Lemma ent_name_len_wp Q s : Q (Z.of_nat (length (de_name e))) s -> wp (ent_name_len buf off) Q s.
Proof.
  intros HQ. unfold ent_name_len, dirent_bytes.
  rewrite <- !app_assoc, (app_assoc A), (app_assoc (A ++ _)).
  apply buf_get_mid; [done|in_front|]. simpl. by rewrite Z.add_0_r.
Qed.

Lemma ent_file_type_wp Q s : Q (de_type e) s -> wp (ent_file_type buf off) Q s.
Proof.
  intros HQ. unfold ent_file_type, dirent_bytes.
  rewrite <- !app_assoc, (app_assoc A), (app_assoc (A ++ _)), (app_assoc ((A ++ _) ++ _)).
  apply buf_get_mid; [done|in_front|]. simpl. by rewrite Z.add_0_r.
Qed.

(** The bytes in front of the name and behind it. *)
Lemma buf_name : exists P T, buf = P ++ de_name e ++ T /\ Z.of_nat (length P) = off + EXT2_DIRENT_NAME_OFF.
Proof.
  eexists (A ++ le_enc 4 (de_inode e) ++ le_enc 2 (de_size e) ++ [_; _]), _. split.
  - unfold dirent_bytes. rewrite <- !app_assoc. simpl. done.
  - unfold EXT2_DIRENT_NAME_OFF. in_front.
Qed.

Lemma copy_name_wp nm P T o Q s :
  Forall (fun b => 0 < b < 256) nm -> o = Z.of_nat (length P) ->
  Q nm s -> wp (copy_name (length nm) (P ++ nm ++ T) o) Q s.
Proof.
  intros Hn. revert P o Q. induction Hn as [|b nm Hb Hn IH]; intros P o Q -> HQ; [by apply wp_ret|].
  cbn [copy_name length]. wp_focus. change ((b :: nm) ++ T) with ([b] ++ nm ++ T).
  apply buf_get_mid; [done|done|]. cbn [le_dec]. rewrite Z.add_0_r.
  destruct (Z.eqb_spec b 0); [lia|]. wp_focus. rewrite (app_assoc P).
  apply IH; [rewrite length_app; simpl; lia|]. wp_step. done.
Qed.

Lemma ent_matches_wp name Q s :
  Q (bool_decide (de_name e = name)) s -> wp (ent_matches buf off name) Q s.
Proof.
  intros HQ. unfold ent_matches. wp_focus. apply ent_name_len_wp.
  destruct (Z.eqb_spec (Z.of_nat (length name)) (Z.of_nat (length (de_name e)))) as [El|El]; cbn [negb].
  2:{ wp_step. rewrite bool_decide_false in HQ by congruence. done. }
  destruct buf_name as (P & T & -> & HP). rewrite <- HP. clear HP.
  wp_focus.
  apply (wp_for (fun i s' => s' = s /\ take (Z.to_nat i) (de_name e) = take (Z.to_nat i) name)).
  - lia.
  - done.
  - intros i s' Hi [-> Hpre].
    destruct (lookup_lt_is_Some_2 (de_name e) (Z.to_nat i) ltac:(lia)) as [a Ha].
    destruct (lookup_lt_is_Some_2 name (Z.to_nat i) ltac:(lia)) as [b Hb].
    wp_focus. rewrite <- (take_drop_middle _ _ _ Ha) at 1. rewrite <- app_assoc.
    change ((a :: ?r) ++ T) with ([a] ++ r ++ T). rewrite (app_assoc P).
    apply buf_get_mid; [done|rewrite length_app, length_take; lia|]. cbn [le_dec]. rewrite Z.add_0_r.
    wp_step. wp_step; [exact Hb|]. wp_step. destruct (Z.eqb_spec a b) as [->|Hne]; cbn [negb].
    + split; [done|]. replace (Z.to_nat (i + 1)) with (S (Z.to_nat i)) by lia.
      by rewrite (take_S_r _ _ _ Ha), (take_S_r _ _ _ Hb), Hpre.
    + wp_step. rewrite bool_decide_false in HQ by congruence. done.
  - intros s' [-> Hpre]. wp_step.
    rewrite !firstn_all2 in Hpre by lia. by rewrite bool_decide_true in HQ by done.
Qed.
End fields.

(** ** Walking a directory *)

Section walk.
Context {D : Type} `{BlkDev D} (vol : ext2_vol) (Hvol : vol_ok vol).
Implicit Types (s : e2state D) (d : D).

(** The directory [ino] holds the entries [blks], one list per block. *)
Record dir_ok d (ino : ext2_inode) (blks : list (list dirent)) : Prop := {
  do_size : isize ino = Z.of_nat (length blks) * blk_sz vol;
  do_max : Z.of_nat (length blks) < 12 + blk_sz vol `div` 4 + (blk_sz vol `div` 4) * (blk_sz vol `div` 4);
  do_ents : Forall (Forall dirent_ok) blks;
  do_blocks : forall j es, blks !! j = Some es ->
    exists p, ino_map vol d ino !! j = Some p /\ block vol d p = dir_bytes es;
}.

Lemma isize_range ino : inode_ok ino -> 0 <= isize ino < 2 ^ 32.
Proof.
  intros [_ Hf]. apply (Forall2_lookup_r _ _ _ 2 (isize ino)) in Hf as (w & Hw & Hr); [|done].
  injection Hw as <-. done.
Qed.

(** The loop stands at offset [off] of block [i], in front of the entries [rest];
    it has read block [i] into [buf]. *)
Definition dir_at (blks : list (list dirent)) (i off : Z) (buf : list Z) (rest : list dirent) : Prop :=
  Z.of_nat (length buf) = blk_sz vol /\
  ((rest = [] /\ i = Z.of_nat (length blks)) \/
   (exists j es0 e es1, i = Z.of_nat j /\ blks !! j = Some (es0 ++ e :: es1) /\
      off = Z.of_nat (length (dir_bytes es0)) /\ buf = dir_bytes (es0 ++ e :: es1) /\
      rest = e :: es1 ++ concat (drop (S j) blks))).

(** The start of a block. *)
Lemma dir_at_start d ino blks j buf :
  dir_ok d ino blks -> (j <= length blks)%nat -> Z.of_nat (length buf) = blk_sz vol ->
  (forall es, blks !! j = Some es -> buf = dir_bytes es) ->
  dir_at blks (Z.of_nat j) 0 buf (concat (drop j blks)).
Proof.
  intros Hd Hj Hb Hes. split; [done|]. pose proof (blk_sz_facts vol Hvol).
  destruct (blks !! j) as [es|] eqn:E.
  - right. pose proof (Hes _ eq_refl) as ->. destruct es as [|e es]; [simpl in Hb; lia|].
    exists j, [], e, es. split_and!; try done. by rewrite (drop_S _ _ _ E).
  - left. apply lookup_ge_None in E. rewrite drop_ge by done. split; [done|lia].
Qed.

(** Reading block [j], the one behind the last included. *)
Lemma read_dir_blk_wp ino blks j buf Q s :
  inode_ok ino -> dir_ok (e_dev s) ino blks -> (j <= length blks)%nat -> Z.of_nat (length buf) = blk_sz vol ->
  (forall buf', dir_at blks (Z.of_nat j) 0 buf' (concat (drop j blks)) -> Q buf' s) ->
  wp (ext2_read_inode_blk vol (Z.of_nat j) ino buf) Q s.
Proof.
  intros Hino Hd Hj Hb HQ. pose proof (do_max _ _ _ Hd).
  apply read_inode_blk_wp; [done|done|lia|done|]. rewrite Nat2Z.id. intros p Hp.
  apply HQ, (dir_at_start (e_dev s) ino); [done|done|apply (length_block vol Hvol)|].
  intros es Hes. destruct (do_blocks _ _ _ Hd _ _ Hes) as (p' & Hp' & <-). congruence.
Qed.

(** The loop condition, and the step to the next entry. *)
Lemma dir_at_end d ino blks i off buf rest :
  inode_ok ino -> dir_ok d ino blks -> dir_at blks i off buf rest ->
  (u32 (i * blk_sz vol) <? isize ino) = bool_decide (rest <> []).
Proof.
  intros Hino Hd [_ Hat]. pose proof (isize_range _ Hino) as Hr. pose proof (blk_sz_facts vol Hvol) as HB.
  rewrite (do_size _ _ _ Hd) in *.
  destruct Hat as [[-> ->]|(j & es0 & e & es1 & -> & Hj & _ & _ & ->)].
  - rewrite uN_small by lia. by rewrite Z.ltb_irrefl.
  - apply lookup_lt_Some in Hj. rewrite uN_small by nia. rewrite bool_decide_true by done.
    apply Z.ltb_lt. nia.
Qed.

Lemma dir_at_entry d ino blks i off buf e rest :
  dir_ok d ino blks -> dir_at blks i off buf (e :: rest) ->
  exists A C, buf = A ++ dirent_bytes e ++ C /\ off = Z.of_nat (length A) /\ dirent_ok e /\
    u32 (off + de_size e) = off + de_size e.
Proof.
  intros Hd [Hb [[? _]|(j & es0 & e' & es1 & -> & Hj & -> & -> & [= <- ->])]]; [done|].
  pose proof (blk_sz_facts vol Hvol) as HB. rewrite dir_bytes_app, dir_bytes_cons in *.
  exists (dir_bytes es0), (dir_bytes es1). split_and!; try done.
  - pose proof (Forall_lookup_1 _ _ _ _ (do_ents _ _ _ Hd) Hj) as Hes.
    apply Forall_app in Hes as [_ Hes]. by apply Forall_cons in Hes as [? _].
  - apply uN_small. rewrite !length_app in Hb. pose proof (length_dirent_bytes e). pose proof (de_size_pos e). lia.
Qed.

Lemma next_ent_wp ino blks i off buf e rest Q s :
  inode_ok ino -> dir_ok (e_dev s) ino blks -> dir_at blks i off buf (e :: rest) ->
  (forall i' off' buf', dir_at blks i' off' buf' rest -> Q (i', off', buf') s) ->
  wp (next_ent vol ino i (off + de_size e) buf) Q s.
Proof.
  intros Hino Hd Hat HQ. pose proof (blk_sz_facts vol Hvol) as HB.
  destruct Hat as [Hb [[? _]|(j & es0 & e' & es1 & -> & Hj & -> & -> & [= <- ->])]]; [done|].
  pose proof (lookup_lt_Some _ _ _ Hj) as Hlt. pose proof (length_dirent_bytes e) as Hle.
  pose proof (isize_range _ Hino) as Hr. rewrite (do_size _ _ _ Hd) in Hr.
  unfold next_ent. destruct es1 as [|e1 es1].
  - rewrite dir_bytes_app, dir_bytes_cons, !length_app in Hb. cbn [dir_bytes fmap list_fmap concat length] in Hb.
    rewrite (proj2 (Z.geb_le _ _)) by lia.
    assert (Z.of_nat (length blks) <= Z.of_nat (length blks) * blk_sz vol) by nia. rewrite uN_small by lia.
    replace (Z.of_nat j + 1) with (Z.of_nat (S j)) by lia. wp_focus.
    apply (read_dir_blk_wp _ blks); [done|done|lia| |].
    + rewrite dir_bytes_app, dir_bytes_cons, !length_app. cbn [dir_bytes fmap list_fmap concat length]. lia.
    + intros buf' Hat'. wp_step. by apply HQ.
  - replace (_ >=? _) with false.
    + wp_step. apply HQ. split; [done|]. right.
      exists j, (es0 ++ [e]), e1, es1. rewrite <- app_assoc. split_and!; try done.
      rewrite dir_bytes_app, length_app, dir_bytes_cons, length_app. cbn [dir_bytes fmap list_fmap concat length]. lia.
    + symmetry. rewrite Z.geb_leb. apply Z.leb_gt.
      rewrite dir_bytes_app, !dir_bytes_cons, !length_app in Hb.
      pose proof (length_dirent_bytes e1). pose proof (de_size_pos e1). lia.
Qed.

(** The node of an entry. *)
Definition dirent_node (ino : ext2_inode) (e : dirent) : e2node :=
  mk_node (de_inode e) (u32 (ext2_get_size ino))
    (if de_type e =? EXT2_DIR then FS_DIR else if de_type e =? EXT2_REGFILE then FS_FILE else 0) (de_name e).

Lemma dirent_to_node_wp A C e ino off Q s :
  dirent_ok e -> off = Z.of_nat (length A) -> tables_ok vol s -> 1 <= de_inode e ->
  inode_lookup vol s (de_inode e) = Some ino ->
  Q (dirent_node ino e) (add_live 2 s) ->
  wp (ext2_dirent_to_node vol (A ++ dirent_bytes e ++ C) off) Q s.
Proof.
  intros He -> Ht H1 Hl HQ. unfold ext2_dirent_to_node.
  wp_focus. apply buf_alloc_wp. wp_focus. apply ent_name_len_wp.
  wp_focus. apply buf_alloc_wp. wp_focus. rewrite Nat2Z.id.
  destruct (buf_name A C e) as (P & T & Hbuf & HP). rewrite Hbuf at 1.
  apply copy_name_wp; [apply He|lia|].
  wp_focus. apply ent_inode_wp; [done|]. wp_focus.
  apply (read_inode_lookup_wp vol Hvol _ ino); [done|pose proof (dk_inode _ He); lia|done|].
  wp_focus. apply ent_file_type_wp. wp_step.
  replace (add_live 1 (add_live 1 s)) with (add_live 2 s); [done|].
  unfold add_live. simpl. f_equal. lia.
Qed.

(** *** Lookup *)

(** The first entry with a name. *)
Definition dir_lookup (name : list Z) (es : list dirent) : option dirent :=
  head (filter (fun e => de_name e = name) es).

Lemma finddir_wp fuel dir name ino blks s :
  tables_ok vol s -> 1 <= inode_num dir < 2 ^ 32 -> inode_lookup vol s (inode_num dir) = Some ino -> inode_ok ino ->
  dir_ok (e_dev s) ino blks ->
  (forall e, dir_lookup name (concat blks) = Some e -> 1 <= de_inode e /\ is_Some (inode_lookup vol s (de_inode e))) ->
  (length (concat blks) < N.to_nat fuel)%nat ->
  wp (ext2_finddir vol fuel dir name)
     (fun r s' => match dir_lookup name (concat blks) with
                  | None => r = None /\ s' = s
                  | Some e => exists i, inode_lookup vol s (de_inode e) = Some i /\
                                r = Some (dirent_node i e) /\ s' = add_live 2 s
                  end) s.
Proof.
  intros Ht Hnum Hl Hino Hd Hents Hfuel. pose proof (blk_sz_facts vol Hvol) as HB. unfold ext2_finddir.
  wp_focus. apply (read_inode_lookup_wp vol Hvol _ ino); [done..|]. wp_focus. apply buf_alloc_wp. wp_focus.
  apply (read_dir_blk_wp _ blks 0); [done|done|lia|rewrite length_replicate; lia|].
  intros buf Hat. rewrite drop_0 in Hat.
  apply (wp_while (fun k '(i, off, buf) s' => s' = add_live 1 s /\ exists rest, k = length rest /\
           dir_at blks i off buf rest /\ dir_lookup name (concat blks) = dir_lookup name rest)
           (length (concat blks))).
  - split; [done|]. by exists (concat blks).
  - done.
  - clear buf Hat. intros k [[i off] buf] s' (-> & rest & -> & Hat & Hsame).
    rewrite (dir_at_end (e_dev s) ino blks _ _ _ rest) by done.
    destruct rest as [|e rest].
    + simpl. wp_focus. apply buf_free_wp. wp_step. rewrite Hsame. simpl. by rewrite add_live_0 by lia.
    + rewrite bool_decide_true by done. cbn [negb].
      destruct (dir_at_entry _ _ _ _ _ _ _ _ Hd Hat) as (A & C & -> & -> & He & Hu).
      wp_focus. apply ent_size_wp; [done|]. rewrite Hu. wp_focus. apply ent_matches_wp.
      unfold dir_lookup in *. rewrite filter_cons in Hsame.
      destruct (decide (de_name e = name)) as [Hn|Hn].
      * rewrite bool_decide_true by done. simpl in Hsame. rewrite Hsame in *.
        destruct (Hents _ eq_refl) as [H1 [i' Hi']]. wp_focus.
        apply (dirent_to_node_wp _ _ _ i'); [done|done|done|done|done|].
        wp_focus. apply buf_free_wp. wp_step. exists i'. split_and!; [done|done|].
        unfold add_live. simpl. f_equal. lia.
      * rewrite bool_decide_false by done. wp_focus.
        apply (next_ent_wp _ blks _ _ _ _ rest); [done|done|done|].
        intros i' off' buf' Hat'. wp_step. exists (length rest). split; [simpl; lia|]. eauto.
Qed.

(** *** Listing *)

Lemma listdir_wp fuel dir ino blks inos s :
  tables_ok vol s -> 1 <= inode_num dir < 2 ^ 32 -> inode_lookup vol s (inode_num dir) = Some ino -> inode_ok ino ->
  dir_ok (e_dev s) ino blks ->
  Forall2 (fun e i => 1 <= de_inode e /\ inode_lookup vol s (de_inode e) = Some i) (concat blks) inos ->
  (length (concat blks) < N.to_nat fuel)%nat ->
  wp (ext2_listdir vol fuel dir)
     (fun r s' => r = zip_with dirent_node inos (concat blks) /\
                  s' = add_live (2 * Z.of_nat (length (concat blks))) s) s.
Proof.
  intros Ht Hnum Hl Hino Hd Hinos Hfuel. pose proof (blk_sz_facts vol Hvol) as HB. unfold ext2_listdir.
  wp_focus. apply (read_inode_lookup_wp vol Hvol _ ino); [done..|]. wp_focus. apply buf_alloc_wp. wp_focus.
  apply (read_dir_blk_wp _ blks 0); [done|done|lia|rewrite length_replicate; lia|].
  intros buf Hat. rewrite drop_0 in Hat.
  apply (wp_while (fun k '(i, off, buf, nodes) s' => exists rest rinos, k = length rest /\
           s' = add_live (1 + 2 * (Z.of_nat (length (concat blks)) - Z.of_nat k)) s /\
           dir_at blks i off buf rest /\
           Forall2 (fun e i => 1 <= de_inode e /\ inode_lookup vol s (de_inode e) = Some i) rest rinos /\
           nodes ++ zip_with dirent_node rinos rest = zip_with dirent_node inos (concat blks))
           (length (concat blks))).
  - exists (concat blks), inos. split_and!; try done. f_equal. lia.
  - done.
  - clear buf Hat. intros k [[[i off] buf] nodes] s' (rest & rinos & -> & -> & Hat & Hr & Hsame).
    rewrite (dir_at_end (e_dev s) ino blks _ _ _ rest) by done.
    destruct Hr as [|e i' rest rinos [H1 Hi'] Hr].
    + simpl. wp_focus. apply buf_free_wp. wp_step. rewrite app_nil_r in Hsame. split; [done|].
      unfold add_live. simpl. f_equal. lia.
    + rewrite bool_decide_true by done. cbn [negb].
      destruct (dir_at_entry _ _ _ _ _ _ _ _ Hd Hat) as (A & C & -> & -> & He & Hu).
      wp_focus. apply ent_size_wp; [done|]. rewrite Hu. wp_focus.
      apply (dirent_to_node_wp _ _ _ i'); [done..|]. wp_focus.
      apply (next_ent_wp _ blks _ _ _ _ rest); [done|done|done|].
      intros i2 off' buf' Hat'. wp_step. exists (length rest). split; [simpl; lia|].
      exists rest, rinos. split_and!; try done.
      * unfold add_live. simpl. f_equal. lia.
      * rewrite <- Hsame, <- app_assoc. done.
Qed.
End walk.

(** C12: lookup in a directory whose blocks hold well-formed entries returns the node
    of the first entry with that name (its inode number, the size its inode has,
    its kind and its name), or [None] when no entry has it; with fuel for one round
    per entry it ends, the disk is not changed, and only the new node and its name
    stay allocated. *)
Theorem ext2_finddir_correct {D} `{BlkDev D} vol fuel dir name ino blks (s : e2state D) :
  vol_ok vol -> tables_ok vol s -> 1 <= inode_num dir < 2 ^ 32 ->
  inode_lookup vol s (inode_num dir) = Some ino -> inode_ok ino -> dir_ok vol (e_dev s) ino blks ->
  (forall e, dir_lookup name (concat blks) = Some e ->
     1 <= de_inode e /\ is_Some (inode_lookup vol s (de_inode e))) ->
  (length (concat blks) < N.to_nat fuel)%nat ->
  ext2_finddir vol fuel dir name s =
  match dir_lookup name (concat blks) with
  | None => Ok (None, s)
  | Some e => Ok ((fun i => dirent_node i e) <$> inode_lookup vol s (de_inode e), add_live 2 s)
  end.
Proof.
  intros Hvol Ht Hn Hl Hi Hd Hents Hf.
  destruct (wp_Ok _ _ _ (finddir_wp vol Hvol fuel dir name ino blks s Ht Hn Hl Hi Hd Hents Hf)) as (r & s' & -> & HQ).
  destruct (dir_lookup name (concat blks)) as [e|].
  - destruct HQ as (i & -> & -> & ->). done.
  - by destruct HQ as [-> ->].
Qed.

(** C25: listing such a directory returns the nodes of all its entries in the order
    they have on the disk. *)
Theorem ext2_listdir_correct {D} `{BlkDev D} vol fuel dir ino blks inos (s : e2state D) :
  vol_ok vol -> tables_ok vol s -> 1 <= inode_num dir < 2 ^ 32 ->
  inode_lookup vol s (inode_num dir) = Some ino -> inode_ok ino -> dir_ok vol (e_dev s) ino blks ->
  Forall2 (fun e i => 1 <= de_inode e /\ inode_lookup vol s (de_inode e) = Some i) (concat blks) inos ->
  (length (concat blks) < N.to_nat fuel)%nat ->
  ext2_listdir vol fuel dir s =
  Ok (zip_with dirent_node inos (concat blks), add_live (2 * Z.of_nat (length (concat blks))) s).
Proof.
  intros Hvol Ht Hn Hl Hi Hd Hents Hf.
  destruct (wp_Ok _ _ _ (listdir_wp vol Hvol fuel dir ino blks inos s Ht Hn Hl Hi Hd Hents Hf))
    as (r & s' & -> & -> & ->). done.
Qed.

(** ** The volume of [Ext2], run *)

Definition demo_ents : list dirent :=
  [mk_dirent 2 2 [97] [0; 0; 0]; mk_dirent 3 1 [98; 99] (replicate 1002 0)].

Lemma demo_tables_ok : tables_ok demo_vol demo_e2.
Proof. unfold tables_ok. repeat constructor; vm_compute; congruence. Qed.

Lemma demo_dir_ok : dir_ok demo_vol demo_disk demo_inode [demo_ents].
Proof.
  split.
  - done.
  - vm_compute. done.
  - repeat constructor; try (vm_compute; (done || split; congruence)).
  - intros [|j] es [= <-]. exists 10. split; [|vm_compute; reflexivity]. unfold ino_map. by rewrite lookup_app_l by (simpl; lia).
Qed.

Lemma demo_lookup : inode_lookup demo_vol demo_e2 2 = Some demo_inode.
Proof. vm_compute. reflexivity. Qed.

Lemma ext2_finddir_correct_witness :
  ext2_finddir demo_vol 3 demo_root [97] demo_e2 =
  Ok (Some (dirent_node demo_inode (mk_dirent 2 2 [97] [0; 0; 0])), add_live 2 demo_e2).
Proof.
  rewrite (ext2_finddir_correct demo_vol 3 demo_root [97] demo_inode [demo_ents] demo_e2
    demo_vol_ok demo_tables_ok ltac:(by vm_compute) demo_lookup demo_inode_ok demo_dir_ok).
  - vm_compute. reflexivity.
  - intros e [= <-]. split; [by vm_compute|]. by exists demo_inode.
  - simpl. lia.
Defined.

Lemma ext2_listdir_correct_witness :
  ext2_listdir demo_vol 3 demo_root demo_e2 =
  Ok (zip_with dirent_node [demo_inode; inode_of (replicate 128 0)] demo_ents, add_live 4 demo_e2).
Proof.
  apply (ext2_listdir_correct demo_vol 3 demo_root demo_inode [demo_ents] _ demo_e2
    demo_vol_ok demo_tables_ok ltac:(by vm_compute) demo_lookup demo_inode_ok demo_dir_ok).
  - repeat constructor; vm_compute; (reflexivity || congruence).
  - simpl. lia.
Defined.

(** A deleted entry has inode number 0; listing looks it up in a group far behind
    the last one (here with large groups of inodes). *)
Definition wide_vol : ext2_vol :=
  mk_vol 1024 2 (superblock_of (pack superblock_layout (<[10%nat := 2 ^ 20]> demo_super_vals)))
    (superext_of (pack superext_layout demo_superext_vals)).
Example listdir_deleted :
  let dev := md_put demo_disk (10 * 1024 + 12) (le_enc 4 0) in
  (exists ns, (fun r => r.1) <$> (match ext2_listdir wide_vol 10 demo_root demo_e2 with Ok r => Some r | Err _ => None end) = Some ns) /\
  ext2_listdir wide_vol 10 demo_root (mk_e2 dev demo_grps 0 0) = Err OutOfBounds.
Proof. split; [eexists|]; vm_compute; reflexivity. Qed.

(** A file made in a directory with two entries: the entry goes to the block behind
    the directory's last one (block 11), so the file is not found afterwards. *)
Example mkfile_lost :
  match ext2_mkfile demo_vol 10 demo_inode demo_root [100] demo_e2 with
  | Ok (_, s') =>
      take 9 (block demo_vol (e_dev s') 11) = le_enc 4 0 ++ le_enc 2 9 ++ [1; 1; 100] /\
      block demo_vol (e_dev s') 10 = block demo_vol demo_disk 10 /\
      (exists s2, ext2_finddir demo_vol 10 demo_root [100] s' = Ok (None, s2))
  | Err _ => False
  end.
Proof. vm_compute. eauto. Qed.
