(* ===== verification/Ext2Write.v ===== *)
(** * Ext2Write: writing files of ext2 (src/fs/ext2/file.c)

    [ext2_write] inside the file splices the bytes into the file's contents, block
    by block, and a read of the same range returns them.  The blocks that are
    written have to be apart from each other, from the file's pointer blocks and
    from the block of its inode; a block that is only rewritten (the one behind the
    last byte, when the range ends on a boundary) need not be. *)

From S2P Require Import Prelude Disk Ext2.

(** ** Ranges *)

(** A range of the first part of a list. *)
Lemma inserts_app_first (bs l rest : list Z) r :
  (r + length bs <= length l)%nat -> list_inserts r bs (l ++ rest) = list_inserts r bs l ++ rest.
Proof.
  intros. rewrite !inserts_split by (rewrite ?length_app; lia).
  rewrite take_app_le, drop_app_le by lia. by rewrite <- !app_assoc.
Qed.

(** Replacing a range of one of several lists of equal length replaces the range in
    their concatenation. *)
Lemma concat_inserts_uniform (ls : list (list Z)) n i l r bs :
  Forall (fun l => length l = n) ls -> ls !! i = Some l -> (r + length bs <= n)%nat ->
  concat (<[i := list_inserts r bs l]> ls) = list_inserts (i * n + r) bs (concat ls).
Proof.
  intros Hls. revert i. induction Hls as [|l' ls Hl Hls IH]; intros [|i] Hi Hr; simpl in *; try done.
  - injection Hi as ->. by rewrite inserts_app_first by lia.
  - rewrite IH by done. rewrite <- list_inserts_app_r, Hl. f_equal. lia.
Qed.

(** Two adjacent ranges. *)
Lemma inserts_extend (ptr c : list Z) off n k :
  0 <= off -> 0 <= n -> 0 <= k -> n + k <= Z.of_nat (length ptr) ->
  list_inserts (Z.to_nat (off + n)) (take (Z.to_nat k) (drop (Z.to_nat n) ptr))
    (list_inserts (Z.to_nat off) (take (Z.to_nat n) ptr) c) =
  list_inserts (Z.to_nat off) (take (Z.to_nat (n + k)) ptr) c.
Proof.
  intros. replace (Z.to_nat (n + k)) with (Z.to_nat n + Z.to_nat k)%nat by lia.
  rewrite <- take_take_drop, list_inserts_app_l. f_equal. rewrite length_take. lia.
Qed.

(** ** Writing *)

Section write.
Context {D : Type} `{BlkDev D} (vol : ext2_vol) (Hvol : vol_ok vol).
Implicit Types (s : e2state D) (d : D).
Abbreviation B := (blk_sz vol).
Abbreviation spb := (blk_sz vol `div` 512).

(** The blocks that hold the block numbers of a file. *)
Definition ptr_blocks d (ino : ext2_inode) : list Z :=
  (iblocks ino !!! 12%nat) :: (iblocks ino !!! 13%nat) :: ptrs vol d (iblocks ino !!! 13%nat).

Lemma ptrs_same d d' p : block vol d' p = block vol d p -> ptrs vol d' p = ptrs vol d p.
Proof. unfold ptrs. by intros ->. Qed.

Lemma ino_map_same d d' ino :
  (forall p, p ∈ ptr_blocks d ino -> block vol d' p = block vol d p) -> ino_map vol d' ino = ino_map vol d ino.
Proof.
  intros Hs. unfold ino_map, ptr_blocks in *.
  rewrite (ptrs_same d d' (iblocks ino !!! 12%nat)), (ptrs_same d d' (iblocks ino !!! 13%nat))
    by (apply Hs; set_solver).
  do 2 f_equal. f_equal. apply list_fmap_ext. intros i p Hp.
  apply ptrs_same, Hs. do 2 right. by eapply list_elem_of_lookup_2.
Qed.

(** The transfer [off .. off+size) writes to blocks of [ino] that are apart: they are
    not pointer blocks, not [tb], the block of the inode, and no two are the same. *)
Definition write_apart d (ino : ext2_inode) (tb off size : Z) : Prop :=
  forall i p, 0 <= i -> off < (i + 1) * B -> i * B < off + size ->
    ino_map vol d ino !! Z.to_nat i = Some p ->
    p ∉ ptr_blocks d ino /\ p <> tb /\ forall j, ino_map vol d ino !! j = Some p -> j = Z.to_nat i.

(** What a transfer has done to the disk when [n] bytes are written. *)
Record written d d' (ino : ext2_inode) (tb : Z) (ptr : list Z) (off n : Z) : Prop := {
  wr_ptrs : forall p, p ∈ ptr_blocks d ino -> block vol d' p = block vol d p;
  wr_tb : block vol d' tb = block vol d tb;
  wr_contents : contents vol d' ino = list_inserts (Z.to_nat off) (take (Z.to_nat n) ptr) (contents vol d ino);
  wr_frame : forall p, p ∉ ino_map vol d ino -> block vol d' p = block vol d p;
}.

Lemma written_map d d' ino tb ptr off n : written d d' ino tb ptr off n -> ino_map vol d' ino = ino_map vol d ino.
Proof. intros Hw. apply ino_map_same, Hw. Qed.

(** Writing one block back with [bs] at [start]. *)
Lemma written_step d d' ino tb ptr off n i p start k :
  length (iblocks ino) = 15%nat -> 0 <= off -> 0 <= n -> 0 <= k -> n + k <= Z.of_nat (length ptr) -> 0 <= i ->
  bytes ptr -> 0 <= start -> start + k <= B -> i * B + start = off + n ->
  ino_map vol d ino !! Z.to_nat i = Some p ->
  (k <> 0 -> p ∉ ptr_blocks d ino /\ p <> tb /\ forall j, ino_map vol d ino !! j = Some p -> j = Z.to_nat i) ->
  written d d' ino tb ptr off n ->
  written d (blk_write d' (p * spb) (list_inserts (Z.to_nat start) (take (Z.to_nat k) (drop (Z.to_nat n) ptr))
               (block vol d' p))) ino tb ptr off (n + k).
Proof.
  intros Hib Ho Hn Hk Hlen Hi Hby Hst Hsk Hpos Hp Hap Hw. pose proof (blk_sz_facts vol Hvol) as HB.
  set (bs := take (Z.to_nat k) (drop (Z.to_nat n) ptr)).
  assert (length bs = Z.to_nat k) as Hlbs by (unfold bs; rewrite length_take, length_drop; lia).
  set (new := list_inserts (Z.to_nat start) bs (block vol d' p)).
  pose proof (length_block vol Hvol d' p) as Hlb.
  assert (Z.of_nat (length new) = B) as Hlnew by (unfold new; by rewrite length_inserts).
  assert (bytes new) as Hbnew.
  { apply bytes_inserts; [|apply bytes_block]. by apply Forall_take, Forall_drop. }
  assert (forall q, (k <> 0 -> q <> p) -> block vol (blk_write d' (p * spb) new) q = block vol d' q) as Hother.
  { intros q Hq. destruct (decide (q = p)) as [->|]; [|by apply block_write_other].
    rewrite block_write_same by done. destruct (decide (k = 0)) as [->|]; [|naive_solver].
    unfold new. by rewrite (nil_length_inv bs) by (by rewrite Hlbs). }
  assert (ino_map vol d' ino = ino_map vol d ino) as Hmap by (by eapply written_map).
  assert (forall q, q ∈ ptr_blocks d ino -> block vol (blk_write d' (p * spb) new) q = block vol d' q) as Hptr.
  { intros q Hq. apply Hother. intros Hk0 ->. by destruct (Hap Hk0). }
  split.
  - intros q Hq. rewrite Hptr by done. by apply Hw.
  - rewrite Hother by (intros Hk0 Heq; by apply (proj1 (proj2 (Hap Hk0)))). exact (wr_tb _ _ _ _ _ _ _ Hw).
  - assert (ino_map vol (blk_write d' (p * spb) new) ino = ino_map vol d ino) as Hmap'.
    { apply ino_map_same. intros q Hq. rewrite Hptr by done. by apply Hw. }
    unfold contents at 1. rewrite Hmap'.
    rewrite <- inserts_extend, <- (wr_contents _ _ _ _ _ _ _ Hw), <- Hpos by done.
    unfold contents. rewrite Hmap.
    rewrite Z2Nat.inj_add, Z2Nat.inj_mul by lia.
    rewrite <- (concat_inserts_uniform _ _ _ (block vol d' p)); [| |by rewrite list_lookup_fmap, Hp|fold bs; rewrite Hlbs; lia].
    + f_equal. fold bs. fold new. apply list_eq. intros j. rewrite list_lookup_fmap.
      destruct (decide (j = Z.to_nat i)) as [->|Hj].
      * rewrite list_lookup_insert_eq by (rewrite length_fmap; by eapply lookup_lt_Some).
        rewrite Hp. simpl. by rewrite block_write_same.
      * rewrite list_lookup_insert_ne, list_lookup_fmap by done.
        destruct (ino_map vol d ino !! j) as [q|] eqn:Hq; [|done]. simpl. f_equal.
        apply Hother. intros Hk0 ->. destruct (Hap Hk0) as (_ & _ & Hu). by apply Hj, Hu.
    + apply Forall_fmap, Forall_true. intros q. simpl. pose proof (length_block vol Hvol d' q). lia.
  - intros q Hq. rewrite Hother; [by apply (wr_frame _ _ _ _ _ _ _ Hw)|]. intros _ ->. apply Hq. by eapply list_elem_of_lookup_2.
Qed.

(** The transfer of a write that does not let the file grow. *)
Lemma ext2_write_wp node ptr off size ino tb s :
  ext2_read_inode vol (inode_num node) s = Ok (ino, s) -> inode_ok ino ->
  0 <= off -> 0 <= size -> off + size <= nsize node -> nsize node + B <= 2 ^ 32 ->
  size + off < (12 + B `div` 4 + (B `div` 4) * (B `div` 4)) * B ->
  size <= Z.of_nat (length ptr) -> bytes ptr ->
  off `mod` B = 0 \/ off `div` B < (size + off) `div` B ->
  write_apart (e_dev s) ino tb off size ->
  wp (ext2_write vol node ptr off size)
     (fun r s' => r = (size, node) /\ exists d', written (e_dev s) d' ino tb ptr off size /\ s' = set_dev d' s) s.
Proof.
  intros Hread Hino Hoff Hsize Hin Hn32 Hmax Hptr Hby Hc Hap. pose proof (blk_sz_facts vol Hvol) as HB.
  destruct (transfer_blocks vol off Hvol ltac:(lia)) as (_ & E1 & R1 & _).
  destruct (transfer_blocks vol (size + off) Hvol ltac:(lia)) as (E & E2 & R2 & R2').
  pose proof (Z.mod_pos_bound (nsize node) B ltac:(lia)) as Rm.
  unfold ext2_write. rewrite E. rewrite (uN_small 64 (off + size)) by lia.
  wp_focus. eapply wp_intro; [exact Hread|]. wp_focus. apply umod_wp; [lia|].
  rewrite (uN_small 32 (nsize node + _)) by lia. rewrite Z.gtb_ltb, (proj2 (Z.ltb_ge _ _)) by lia. wp_step. wp_step.
  wp_focus. apply udiv_wp; [lia|]. wp_focus. apply udiv_wp; [lia|]. rewrite E1, E2.
  wp_focus. apply umod_wp; [lia|]. wp_focus. apply umod_wp; [lia|]. wp_focus. apply buf_alloc_wp. wp_focus.
  assert (off `div` B <= (size + off) `div` B) by (apply Z.div_le_mono; lia).
  apply (wp_for_acc (fun i '(buf, n) s' => Z.of_nat (length buf) = B /\ n = xfer vol off size i /\
           exists d', written (e_dev s) d' ino tb ptr off n /\ s' = set_dev d' (add_live 1 s))).
  - lia.
  - rewrite length_replicate. unfold xfer. rewrite Z.eqb_refl. split_and!; [lia|done|].
    exists (e_dev s). split; [by split|by destruct s].
  - intros i [buf n] s' Hi (Hb & -> & d' & Hw & ->).
    destruct (blk_part vol _ _ _ _ i) as [start k] eqn:Hpart.
    destruct (blk_part_spec vol Hvol off size Hsize i start k Hc ltac:(lia) Hpart)
      as (Hs & Hk & Hsk & Hpos & Hnext & Hx & Hxk).
    pose proof (written_map _ _ _ _ _ _ _ Hw) as Hmap.
    wp_focus. apply read_inode_blk_wp; [done|done|lia|done|]. intros q Hq. cbn [e_dev set_dev] in *.
    pose proof (length_block vol Hvol d' q) as Hlb.
    wp_focus. apply buf_read_wp; [lia..|].
    assert (length (take (Z.to_nat k) (drop (Z.to_nat (xfer vol off size i)) ptr)) = Z.to_nat k) as Hk'
      by (rewrite length_take, length_drop; lia).
    wp_focus. apply buf_write_wp; [lia|lia|]. unfold ext2_write_inode_blk. wp_focus. wp_focus.
    apply get_inode_blk_wp; [done|done|lia|]. cbn [e_dev set_dev]. intros q' Hq' Hr.
    assert (q' = q) as -> by congruence.
    apply dev_write_block_wp; [done|done|by rewrite length_inserts|]. wp_step.
    rewrite uN_small by lia. rewrite Hnext. split_and!; [by rewrite length_inserts|done|].
    eexists. split; [|done]. cbn [e_dev set_dev].
    apply (written_step _ _ _ _ _ _ _ i); (done || lia || (by apply Hino) || (by rewrite <- Hmap) || idtac).
    intros Hk0. rewrite Hmap in Hq. apply (Hap i q); (done || lia).
  - intros [buf n] s' (_ & -> & d' & Hw & ->). rewrite xfer_end in Hw by done.
    wp_step. wp_step; [by apply Z.ltb_lt|]. wp_focus. apply buf_free_wp. wp_step. split; [done|].
    exists d'. split; [done|]. unfold add_live, set_dev. simpl. f_equal. lia.
Qed.
End write.

(** C11: a write inside a file that starts on a block boundary or spans several
    blocks replaces exactly the bytes [off .. off+size) of the file's contents,
    changes no block that is not one of the file's and frees its buffer; reading the
    range back returns the bytes that were written. *)
Theorem ext2_write_read_correct {D} `{BlkDev D} vol node ptr buf off size ino gd (s : e2state D) :
  vol_ok vol -> tables_ok vol s -> 1 <= inode_num node < 2 ^ 32 ->
  e_grps s !! Z.to_nat ((inode_num node - 1) `div` inodes_per_grp (super vol)) = Some gd ->
  let idx := (inode_num node - 1) `mod` inodes_per_grp (super vol) in
  inode_at vol (e_dev s) (inode_tbl_addr gd) idx = ino -> inode_ok ino ->
  0 <= off -> 0 <= size -> off + size <= nsize node -> nsize node + blk_sz vol <= 2 ^ 32 ->
  size + off < (12 + blk_sz vol `div` 4 + (blk_sz vol `div` 4) * (blk_sz vol `div` 4)) * blk_sz vol ->
  size <= Z.of_nat (length ptr) -> bytes ptr -> size <= Z.of_nat (length buf) ->
  off `mod` blk_sz vol = 0 \/ off `div` blk_sz vol < (size + off) `div` blk_sz vol ->
  write_apart vol (e_dev s) ino (inode_tbl_addr gd + idx `div` (blk_sz vol `div` 128)) off size ->
  exists s', ext2_write vol node ptr off size s = Ok ((size, node), s') /\
    contents vol (e_dev s') ino =
      list_inserts (Z.to_nat off) (take (Z.to_nat size) ptr) (contents vol (e_dev s) ino) /\
    (forall p, p ∉ ino_map vol (e_dev s) ino -> block vol (e_dev s') p = block vol (e_dev s) p) /\
    e_grps s' = e_grps s /\ e_live s' = e_live s /\
    ext2_read vol node buf off size s' = Ok ((size, take (Z.to_nat size) ptr ++ drop (Z.to_nat size) buf), s').
Proof.
  intros Hvol Ht Hnum Hgd idx Hat Hino Hoff Hsize Hin Hn32 Hmax Hptr Hby Hbuf Hc Hap.
  destruct (Forall_lookup_1 _ _ _ _ Ht Hgd) as [Ht0 Htf].
  assert (forall s' : e2state D, e_grps s' = e_grps s -> inode_at vol (e_dev s') (inode_tbl_addr gd) idx = ino ->
            ext2_read_inode vol (inode_num node) s' = Ok (ino, s')) as Hread.
  { intros s' Hg <-. apply (read_inode_Ok vol Hvol _ gd); [done|by rewrite Hg|done..]. }
  destruct (wp_Ok _ _ _ (ext2_write_wp vol Hvol node ptr off size ino _ s (Hread s eq_refl Hat) Hino
    Hoff Hsize Hin Hn32 Hmax Hptr Hby Hc Hap)) as (r & s' & Hrun & -> & d' & Hw & ->).
  exists (set_dev d' s). split_and!; [done|apply Hw|apply (wr_frame _ _ _ _ _ _ _ _ Hw)|done|done|].
  assert (inode_at vol d' (inode_tbl_addr gd) idx = ino) as Hat'.
  { rewrite <- Hat. unfold inode_at. by rewrite (wr_tb _ _ _ _ _ _ _ _ Hw). }
  destruct (wp_Ok _ _ _ (ext2_read_wp vol node buf off size ino (set_dev d' s) Hvol
    (Hread (set_dev d' s) eq_refl Hat') Hino Hoff Hsize Hmax Hbuf Hc)) as (r & s' & -> & -> & ->).
  do 3 f_equal. unfold read_upto. f_equal. cbn [e_dev set_dev].
  pose proof (length_contents vol Hvol (e_dev s) ino (io_blocks _ Hino)) as Hlen.
  rewrite (wr_contents _ _ _ _ _ _ _ _ Hw), inserts_split by (rewrite length_take; lia).
  rewrite drop_app_length' by (rewrite length_take; lia).
  by rewrite take_app_length' by (rewrite length_take; lia).
Qed.

(** Five bytes at the start of the root directory of [demo_vol]. *)
Lemma demo_ptrs : ptrs demo_vol demo_disk 0 = replicate 256 0.
Proof. vm_compute. reflexivity. Qed.

Lemma demo_map :
  ino_map demo_vol demo_disk demo_inode = 10 :: 11 :: replicate 10 0 ++ replicate 256 0 ++ concat (replicate 256 (replicate 256 0)).
Proof.
  unfold ino_map. change (iblocks demo_inode !!! 12%nat) with 0. change (iblocks demo_inode !!! 13%nat) with 0.
  rewrite demo_ptrs, fmap_replicate, demo_ptrs. done.
Qed.

Lemma demo_write_apart : write_apart demo_vol demo_disk demo_inode 5 0 5.
Proof.
  intros i p Hi _ H5 Hp. assert (i = 0) as -> by (change (blk_sz demo_vol) with 1024 in H5; lia).
  rewrite demo_map in Hp |- *. injection Hp as <-. split_and!; [|done|].
  - unfold ptr_blocks. change (iblocks demo_inode !!! 12%nat) with 0. change (iblocks demo_inode !!! 13%nat) with 0.
    rewrite demo_ptrs. intros [?|[?|Hin]%elem_of_cons]%elem_of_cons; [done..|].
    by apply elem_of_replicate in Hin as [? _].
  - intros [|[|j]] Hj; [done|done|]. exfalso. apply (list_elem_of_lookup_2 _ j) in Hj.
    assert (Forall (fun q => q = 0) (replicate 10 0 ++ replicate 256 0 ++ concat (replicate 256 (replicate 256 0)))) as Hz.
    { apply Forall_app_2; [by apply Forall_replicate|]. apply Forall_app_2; [by apply Forall_replicate|].
      apply Forall_concat, Forall_replicate. by apply Forall_replicate. }
    rewrite Forall_forall in Hz. by specialize (Hz _ Hj).
Qed.

Lemma demo_write_tables : tables_ok demo_vol demo_e2.
Proof. unfold tables_ok. repeat constructor; vm_compute; congruence. Qed.

Lemma ext2_write_read_correct_witness :
  exists s', ext2_write demo_vol demo_root [1; 2; 3; 4; 5; 6] 0 5 demo_e2 = Ok ((5, demo_root), s') /\
    contents demo_vol (e_dev s') demo_inode =
      list_inserts (Z.to_nat 0) (take (Z.to_nat 5) [1; 2; 3; 4; 5; 6]) (contents demo_vol (e_dev demo_e2) demo_inode) /\
    (forall p, p ∉ ino_map demo_vol (e_dev demo_e2) demo_inode ->
       block demo_vol (e_dev s') p = block demo_vol (e_dev demo_e2) p) /\
    e_grps s' = e_grps demo_e2 /\ e_live s' = e_live demo_e2 /\
    ext2_read demo_vol demo_root (replicate 5 0) 0 5 s' =
      Ok ((5, take (Z.to_nat 5) [1; 2; 3; 4; 5; 6] ++ drop (Z.to_nat 5) (replicate 5 0)), s').
Proof.
  exact (ext2_write_read_correct demo_vol demo_root [1; 2; 3; 4; 5; 6] (replicate 5 0) 0 5 demo_inode
    (mk_bgd 3 4 5 50 10 1 0 (replicate 12 0)) demo_e2 demo_vol_ok demo_write_tables ltac:(by vm_compute)
    ltac:(by vm_compute) ltac:(by vm_compute) demo_inode_ok ltac:(by vm_compute) ltac:(by vm_compute)
    ltac:(by vm_compute) ltac:(by vm_compute) ltac:(by vm_compute) ltac:(by vm_compute)
    ltac:(repeat constructor; lia) ltac:(by vm_compute) ltac:(left; by vm_compute) demo_write_apart).
Defined.
