(* ===== verification/Sched.v ===== *)
(** * Sched: processes, threads and the scheduler (src/sched)

    Threads and processes are kernel objects at addresses ([s_threads], [s_procs]);
    the lists that hold them ([run_queue], [threads], [sigstack], [waitlst], ...) are
    sequences, which is what [DList.list_ops_refine] shows list.c implements.  A CPU
    is its current thread (0 for null), its threads, its run queue and its lock.

    [schedule] is an interrupt handler: it either returns (its lock was taken), or
    enters a thread, or spins forever with nothing to run; the type [next] says which.
    An operation that traps into the scheduler ([int $0xfd]) ends with that outcome.
    [acquire_lock] on a taken lock is the fault [Hang]: in the model an operation runs
    alone, so nobody else can release the lock. *)

From S2P Require Import Prelude Pmm Alloc Kheap DList Paging Vfs.

(** ** Data *)

Definition KERNEL_CS : Z := 0x08.
Definition KERNEL_SS : Z := 0x10.
Definition USER_CS : Z := 0x1b.
Definition USER_SS : Z := 0x23.
Definition SIGCNT : Z := 3.
Definition RFLAG_INTR : Z := 0x200.

Definition THREAD_STATE_RUNNING : Z := 0.
Definition THREAD_STATE_READY : Z := 1.
Definition THREAD_STATE_WAITING : Z := 2.
Definition THREAD_STATE_WAIT_LOCK : Z := 3.
Definition THREAD_STATE_PAUSED : Z := 4.
Definition THREAD_STATE_ASLEEP : Z := 5.
Definition THREAD_STATE_KILLED : Z := 6.

(** [reg_ctx_t]. *)
Record reg_ctx : Type := mk_regs {
  r15 : Z; r14 : Z; r13 : Z; r12 : Z; r11 : Z; r10 : Z; r9 : Z; r8 : Z;
  rbp : Z; rdi : Z; rsi : Z; rdx : Z; rcx : Z; rbx : Z; rax : Z;
  rip : Z; cs : Z; rflags : Z; rsp : Z; ss : Z;
}.
(** A zeroed context with the fields a new thread sets. *)
Definition fresh_regs (entry c s stack : Z) : reg_ctx :=
  mk_regs 0 0 0 0 0 0 0 0 stack 0 0 0 0 0 0 entry c (RFLAG_INTR .| 0x2) stack s.
Definition with_rax (v : Z) (r : reg_ctx) : reg_ctx :=
  mk_regs (r15 r) (r14 r) (r13 r) (r12 r) (r11 r) (r10 r) (r9 r) (r8 r) (rbp r) (rdi r) (rsi r) (rdx r)
    (rcx r) (rbx r) v (rip r) (cs r) (rflags r) (rsp r) (ss r).

(** [thread_t]. *)
Record thread : Type := mk_thread {
  t_parent : Z; t_state : Z; t_regs : reg_ctx; t_sleepexp : Z; t_tid : Z;
}.
Definition with_state (st : Z) (t : thread) : thread := mk_thread (t_parent t) st (t_regs t) (t_sleepexp t) (t_tid t).
Definition with_regs (r : reg_ctx) (t : thread) : thread := mk_thread (t_parent t) (t_state t) r (t_sleepexp t) (t_tid t).
Definition with_sleep (e : Z) (t : thread) : thread := mk_thread (t_parent t) (t_state t) (t_regs t) e (t_tid t).

(** [signal_t] and [proc_t]. *)
Record signal : Type := mk_signal { signo : Z; handler : Z }.
Record proc : Type := mk_proc {
  pid : Z; addr_space : Z; file_descs : list Z; pname : list Z; working_dir : option (list Z);
  p_threads : list Z; nexttid : Z; p_children : list Z; p_parent : Z;
  sigstack : list signal; signals : list Z; syscall_regs : option reg_ctx;
}.
Definition with_sigstack (l : list signal) (p : proc) : proc :=
  mk_proc (pid p) (addr_space p) (file_descs p) (pname p) (working_dir p) (p_threads p) (nexttid p)
    (p_children p) (p_parent p) l (signals p) (syscall_regs p).
Definition with_nexttid (n : Z) (p : proc) : proc :=
  mk_proc (pid p) (addr_space p) (file_descs p) (pname p) (working_dir p) (p_threads p) n
    (p_children p) (p_parent p) (sigstack p) (signals p) (syscall_regs p).

(** The part of [cpu_t] the scheduler uses. *)
Record cpu : Type := mk_cpu { currthread : Z; c_threads : list Z; run_queue : list Z; c_lock : bool }.

(** [sem_t] and [mutex_t]. *)
Record sem : Type := mk_sem { max_cnt : Z; curr_cnt : Z; sem_wait : list Z }.
Record mutex : Type := mk_mutex { mproc : Z; mutex_wait : list Z }.

(** ** Address spaces, as the scheduler uses them *)

Class VSpace (P : Type) : Type := {
  vs_mk_map : M P Z;
  vs_clone_map : Z -> M P Z;
  vs_alloc_region : Z -> Z -> M P Z;
  vs_map_memory : Z -> Z -> Z -> Z -> M P ();
  vs_request : M P Z;
  vs_kernel_alloc : Z -> M P Z;
  vs_kernel_map : Z -> Z -> Z -> M P ();
  vs_alloc_region_at : Z -> Z -> Z -> M P ();
  vs_kernel_free : Z -> Z -> M P ();
}.

(** The memory manager implements it. *)
#[export] Instance paging_VSpace (lay : layout) : VSpace (pstate kheap) := {|
  vs_mk_map := page_mk_map lay;
  vs_clone_map := page_clone_map lay;
  vs_alloc_region := space_alloc_region;
  vs_map_memory := page_map_memory lay;
  vs_request := with_phys pmm_request;
  vs_kernel_alloc := page_kernel_alloc4k lay;
  vs_kernel_map := page_kernel_map_memory;
  vs_alloc_region_at := space_alloc_region_at;
  vs_kernel_free := page_kernel_free4k;
|}.

(** ** State *)

(** What system calls and file operations work on: the descriptors by address, the
    mount tree, and the bytes that pointers given by programs lead to. *)
Record io : Type := mk_io { io_fds : gmap Z fs_fd; io_root : vtree; io_mem : gmap Z Z }.

Record sstate (P : Type) : Type := mk_sstate {
  s_threads : gmap Z thread; s_procs : gmap Z proc; s_cpus : list cpu;
  s_nextpid : Z; s_uptime : Z; s_heap : Z; s_mem : P; s_io : io;
}.
Arguments mk_sstate {P}. Arguments s_threads {P}. Arguments s_procs {P}. Arguments s_cpus {P}.
Arguments s_nextpid {P}. Arguments s_uptime {P}. Arguments s_heap {P}. Arguments s_mem {P}. Arguments s_io {P}.

(** What [schedule] does to the CPU it runs on. *)
Inductive next : Type :=
  | Returned                                   (* back to the interrupted code *)
  | Entered (kernel : bool) (regs : reg_ctx) (space : Z)
  | Spinning.                                  (* for (;;); *)

Section ops.
Context {P : Type} `{VSpace P} `{VfsNodes (sstate P)}.
Abbreviation K := (M (sstate P)).
Implicit Types s : sstate P.

Definition upd_threads (f : gmap Z thread -> gmap Z thread) s : sstate P :=
  mk_sstate (f (s_threads s)) (s_procs s) (s_cpus s) (s_nextpid s) (s_uptime s) (s_heap s) (s_mem s) (s_io s).
Definition upd_procs (f : gmap Z proc -> gmap Z proc) s : sstate P :=
  mk_sstate (s_threads s) (f (s_procs s)) (s_cpus s) (s_nextpid s) (s_uptime s) (s_heap s) (s_mem s) (s_io s).
Definition upd_cpus (f : list cpu -> list cpu) s : sstate P :=
  mk_sstate (s_threads s) (s_procs s) (f (s_cpus s)) (s_nextpid s) (s_uptime s) (s_heap s) (s_mem s) (s_io s).

Definition with_mem {A} (m : M P A) : K A := fun s =>
  match m (s_mem s) with
  | Ok (a, p) => Ok (a, mk_sstate (s_threads s) (s_procs s) (s_cpus s) (s_nextpid s) (s_uptime s) (s_heap s) p (s_io s))
  | Err f => Err f
  end.

(** A fresh object address. *)
Definition new_addr : K Z := fun s =>
  Ok (s_heap s, mk_sstate (s_threads s) (s_procs s) (s_cpus s) (s_nextpid s) (s_uptime s) (s_heap s + 16) (s_mem s) (s_io s)).

Definition get_thread (t : Z) : K thread := s ← get; unwrap (s_threads s !! t) NullDeref.
Definition upd_thread (t : Z) (f : thread -> thread) : K () :=
  th ← get_thread t; modify (upd_threads (insert t (f th))).
Definition get_proc (p : Z) : K proc := s ← get; unwrap (s_procs s !! p) NullDeref.
Definition upd_proc (p : Z) (f : proc -> proc) : K () :=
  pr ← get_proc p; modify (upd_procs (insert p (f pr))).
Definition get_cpu (c : nat) : K cpu := s ← get; unwrap (s_cpus s !! c) OutOfBounds.
Definition upd_cpu (c : nat) (f : cpu -> cpu) : K () :=
  cp ← get_cpu c; modify (upd_cpus (insert c (f cp))).

Definition set_lock (b : bool) (c : cpu) : cpu := mk_cpu (currthread c) (c_threads c) (run_queue c) b.
Definition set_curr (t : Z) (c : cpu) : cpu := mk_cpu t (c_threads c) (run_queue c) (c_lock c).
Definition set_queue (q : list Z) (c : cpu) : cpu := mk_cpu (currthread c) (c_threads c) q (c_lock c).
Definition set_cthreads (l : list Z) (c : cpu) : cpu := mk_cpu (currthread c) l (run_queue c) (c_lock c).
Definition push_queue (t : Z) (c : cpu) : cpu := set_queue (run_queue c ++ [t]) c.

Definition acquire_lock (c : nat) : K () :=
  cp ← get_cpu c; guard (negb (c_lock cp)) Hang;; upd_cpu c (set_lock true).
Definition release_lock (c : nat) : K () := upd_cpu c (set_lock false).

(** Descriptors are objects of this state; using one that was freed is a fault. *)
Definition upd_io (f : io -> io) s : sstate P :=
  mk_sstate (s_threads s) (s_procs s) (s_cpus s) (s_nextpid s) (s_uptime s) (s_heap s) (s_mem s) (f (s_io s)).
Definition upd_fds (f : gmap Z fs_fd -> gmap Z fs_fd) (i : io) : io := mk_io (f (io_fds i)) (io_root i) (io_mem i).
#[export] Instance sched_VfsFds : VfsFds (sstate P) := {|
  fd_alloc fd := a ← new_addr; modify (upd_io (upd_fds (insert a fd)));; mret a;
  fd_load a := s ← get; unwrap (io_fds (s_io s) !! a) OutOfBounds;
  fd_free a :=
    s ← get; _ ← unwrap (io_fds (s_io s) !! a) OutOfBounds; modify (upd_io (upd_fds (delete a)));
|}.

(** ** Threads (thread.c) *)

Definition least_loaded : K nat :=
  s ← get;
  r ← for_acc (B := Empty_set) 1 (Z.of_nat (length (s_cpus s))) (fun i best =>
        nextcpu ← get_cpu (Z.to_nat i);
        cp ← get_cpu best;
        mret (inl (if (length (c_threads nextcpu) <? length (c_threads cp))%nat then Z.to_nat i else best))) 0%nat;
  match r with inl c => mret c | inr e => match e with end end.

Definition thread_spawn (t : Z) : K () :=
  c ← least_loaded;
  acquire_lock c;;
  upd_cpu c (fun cp => set_cthreads (c_threads cp ++ [t]) cp);;
  upd_cpu c (push_queue t);;
  release_lock c.

(** Stack pages of a user thread: [stacksize] is 0x4000. *)
Definition map_stack (space : Z) : K Z :=
  stack ← with_mem (vs_alloc_region 0x4000 space);
  for_each 0 4 (fun i =>
    f ← with_mem vs_request;
    with_mem (vs_map_memory (u64 (stack + i * 4096)) f 1 space));;
  mret stack.

Definition thread_creat (parent entry : Z) (kernel : bool) : K Z :=
  t ← new_addr;
  p ← get_proc parent;
  upd_proc parent (with_nexttid (sN 32 (nexttid p + 1)));;
  stack ← map_stack (addr_space p);
  let regs := fresh_regs entry (if kernel then KERNEL_CS else USER_CS) (if kernel then KERNEL_SS else USER_SS)
                (u64 (stack + 0x4000)) in
  modify (upd_threads (insert t (mk_thread parent THREAD_STATE_READY regs 0 (u64 (nexttid p)))));;
  mret t.

Definition thread_kill (t : Z) : K () := upd_thread t (with_state THREAD_STATE_KILLED).

(** ** Scheduling (sched.c) *)

Definition sched_get_currproc (c : nat) : K Z :=
  cp ← get_cpu c;
  if truth (currthread cp) then t ← get_thread (currthread cp); mret (t_parent t) else mret 0.

(** Marks every thread of the process. *)
Fixpoint kill_all (ts : list Z) : K () :=
  match ts with [] => mret () | t :: r => thread_kill t;; kill_all r end.

(** [sched_kill]; [yield] is the trap into the scheduler. *)
Definition sched_kill (c : nat) (yield : K ()) (p : Z) : K () :=
  pr ← get_proc p;
  kill_all (p_threads pr);;
  cur ← sched_get_currproc c;
  if p =? cur then yield else mret ().

Definition SIGACT_TERM : Z := 0.
Definition SIGACT_IGN : Z := 1.
Definition SIGACT_STOP : Z := 2.
(** [SIGINT], [SIGSEG], [SIGABRT]. *)
Definition sigacts : list Z := [SIGACT_TERM; SIGACT_STOP; SIGACT_STOP].

(** With a handler installed, [thread_t* thread = proc->threads->head] is a list
    node, and [thread->regs.rip] lies 136 bytes behind its start: the write is
    outside the node. *)
Definition signal_handle (c : nat) (yield : K ()) (p : Z) (sig : signal) : K () :=
  pr ← get_proc p;
  h ← unwrap (signals pr !! Z.to_nat (signo sig)) OutOfBounds;
  if truth h then throw OutOfBounds
  else
    act ← unwrap (sigacts !! Z.to_nat (signo sig)) OutOfBounds;
    if (act =? SIGACT_TERM) || (act =? SIGACT_STOP) then
      cur ← sched_get_currproc c;
      sched_kill c yield cur;;
      yield
    else mret ().

(** The current thread's context is saved, and the thread goes back to the queue if
    it is still running. *)
Definition requeue (c : nat) (r : reg_ctx) (cur : Z) : K () :=
  if truth cur then
    upd_thread cur (with_regs r);;
    t ← get_thread cur;
    if t_state t =? THREAD_STATE_RUNNING then
      upd_thread cur (with_state THREAD_STATE_READY);;
      upd_cpu c (push_queue cur)
    else mret ()
  else mret ().

(** [schedule(r)] on CPU [c].  A trap inside it runs [schedule] again, with the lock
    taken; [fuel] bounds that nesting. *)
Fixpoint schedule (fuel : nat) (c : nat) (r : reg_ctx) : K next :=
  match fuel with
  | O => throw NoFuel
  | S f =>
      let yield := n ← schedule f c r; match n with Returned => mret () | _ => throw NoReturn end in
      cp ← get_cpu c;
      if c_lock cp then mret Returned else
      upd_cpu c (set_lock true);;
      requeue c r (currthread cp);;
      cp ← get_cpu c;
      match run_queue cp with
      | [] => release_lock c;; mret Spinning
      | t :: q =>
          upd_cpu c (fun cp => set_curr t (set_queue q cp));;
          upd_thread t (with_state THREAD_STATE_RUNNING);;
          th ← get_thread t;
          (if t_tid th =? 0 then
             p ← sched_get_currproc c;
             pr ← get_proc p;
             match sigstack pr with
             | [] => mret ()
             | sig :: rest => upd_proc p (with_sigstack rest);; signal_handle c yield p sig
             end
           else mret ());;
          release_lock c;;
          cp ← get_cpu c;
          th ← get_thread (currthread cp);
          pr ← get_proc (t_parent th);
          mret (Entered (cs (t_regs th) =? KERNEL_CS) (t_regs th) (addr_space pr))
      end
  end.

(** A trap from outside the scheduler: two levels are enough. *)
Definition trap (c : nat) (r : reg_ctx) : K next := schedule 2 c r.

(** The IPI that [sched_tick] sends makes the other CPUs trap too, each a step of its
    own. *)
Definition sched_tick (ready : bool) (c : nat) (r : reg_ctx) : K next :=
  if ready then trap c r else mret Returned.
Definition sched_yield (c : nat) (r : reg_ctx) : K next := trap c r.

(** [thread_block] up to its trap, and the whole of it. *)
Definition thread_block_mark (c : nat) (state : Z) : K () :=
  acquire_lock c;;
  cp ← get_cpu c;
  upd_thread (currthread cp) (with_state state);;
  release_lock c.
Definition thread_block (c : nat) (r : reg_ctx) (state : Z) : K next :=
  thread_block_mark c state;; trap c r.

(** [None]: the caller goes on. *)
Definition thread_unblock (c : nat) (r : reg_ctx) (t : Z) : K (option next) :=
  acquire_lock c;;
  upd_thread t (with_state THREAD_STATE_RUNNING);;
  upd_cpu c (push_queue t);;
  release_lock c;;
  cp ← get_cpu c;
  if (length (run_queue cp) =? 1)%nat then n ← trap c r; mret (Some n) else mret None.

Definition thread_sleepuntil (c : nat) (r : reg_ctx) (timepoint : Z) : K (option next) :=
  s ← get;
  if timepoint <=? s_uptime s then mret None else
  acquire_lock c;;
  cp ← get_cpu c;
  upd_thread (currthread cp) (with_sleep timepoint);;
  release_lock c;;
  n ← thread_block c r THREAD_STATE_ASLEEP;
  mret (Some n).
Definition thread_sleepns (c : nat) (r : reg_ctx) (ns : Z) : K (option next) :=
  s ← get; thread_sleepuntil c r (u64 (s_uptime s + ns)).
Definition thread_exit (c : nat) (r : reg_ctx) : K next := thread_block c r THREAD_STATE_KILLED.

(** ** Processes *)

Definition creatpid : K Z := fun s =>
  Ok (s_nextpid s, mk_sstate (s_threads s) (s_procs s) (s_cpus s) (sN 32 (s_nextpid s + 1)) (s_uptime s)
                     (s_heap s) (s_mem s) (s_io s)).

(** [strcpy(proc->name, "unknown")] goes through a null pointer, to address 0 of the
    identity-mapped low memory: the name stays null. *)
Definition sched_mkproc (entry : Z) : K Z :=
  p ← new_addr;
  space ← with_mem vs_mk_map;
  id ← creatpid;
  t ← new_addr;
  stack ← with_mem (vs_kernel_alloc 16);
  for_each 0 16 (fun i =>
    f ← with_mem vs_request; with_mem (vs_kernel_map (u64 (stack + i * 4096)) f 1));;
  modify (upd_procs (insert p (mk_proc id space [] [] None [t] 1 [] 0 []
                                 (replicate 3 0) None)));;
  modify (upd_threads (insert t (mk_thread p THREAD_STATE_READY
    (fresh_regs entry KERNEL_CS KERNEL_SS (u64 (stack + 0x10000))) 0 0)));;
  mret p.

(** [proclist_lock] is acquired and released around nothing. *)
Definition sched_spawn (p : Z) : K () :=
  pr ← get_proc p;
  t ← unwrap (p_threads pr !! 0%nat) NullDeref;
  thread_spawn t.

Fixpoint open_all (fds : list Z) : K (list Z) :=
  match fds with
  | [] => mret []
  | f :: r =>
      fd ← fd_load f;
      n ← vfs_open (fd_node fd) (fd_flags fd) (fd_mode fd);
      ns ← open_all r;
      mret (n :: ns)
  end.

Definition sched_fork (p : Z) (regs : reg_ctx) : K Z :=
  np ← new_addr;
  pr ← get_proc p;
  space ← with_mem (vs_clone_map (addr_space pr));
  id ← creatpid;
  t ← new_addr;
  fds ← open_all (file_descs pr);
  modify (upd_procs (insert np (mk_proc id space fds [117; 110; 107; 110; 111; 119; 110] (Some [47]) [t] 1 [] 0 []
                                  (replicate 3 0) None)));;
  modify (upd_threads (insert t (mk_thread np THREAD_STATE_READY (with_rax 0 regs) 0 0)));;
  sched_spawn np;;
  mret id.

Definition sched_procfrompid (c : nat) (id : Z) : K Z := sched_get_currproc c.

Definition signal_send (c : nat) (r : reg_ctx) (p signal : Z) : K (option next) :=
  pr ← get_proc p;
  h ← unwrap (signals pr !! Z.to_nat signal) OutOfBounds;
  upd_proc p (with_sigstack (sigstack pr ++ [mk_signal signal h]));;
  cur ← sched_get_currproc c;
  if p =? cur then n ← sched_yield c r; mret (Some n) else mret None.

(** ** Semaphores and mutexes *)

Definition sem_create (max : Z) : sem := mk_sem max 0 [].
Definition sem_acquire (c : nat) (r : reg_ctx) (m : sem) : K (sem * option next) :=
  if curr_cnt m <? max_cnt m then mret (mk_sem (max_cnt m) (u32 (curr_cnt m + 1)) (sem_wait m), None)
  else
    cp ← get_cpu c;
    let m := mk_sem (max_cnt m) (curr_cnt m) (sem_wait m ++ [currthread cp]) in
    n ← thread_block c r THREAD_STATE_WAIT_LOCK;
    mret (m, Some n).
Definition sem_release (c : nat) (r : reg_ctx) (m : sem) : K (sem * option next) :=
  match sem_wait m with
  | t :: w => n ← thread_unblock c r t; mret (mk_sem (max_cnt m) (curr_cnt m) w, n)
  | [] => mret (mk_sem (max_cnt m) (u32 (curr_cnt m - 1)) [], None)
  end.

Definition mutex_create : mutex := mk_mutex 0 [].
Definition mutex_acquire (c : nat) (r : reg_ctx) (m : mutex) : K (mutex * option next) :=
  if mproc m =? 0 then mret (mk_mutex 1 (mutex_wait m), None)
  else
    cp ← get_cpu c;
    let m := mk_mutex (mproc m) (mutex_wait m ++ [currthread cp]) in
    n ← thread_block c r THREAD_STATE_WAIT_LOCK;
    mret (m, Some n).
Definition mutex_release (c : nat) (r : reg_ctx) (m : mutex) : K (mutex * option next) :=
  match mutex_wait m with
  | t :: w => n ← thread_unblock c r t; mret (mk_mutex (mproc m) w, n)
  | [] => mret (mk_mutex 0 [], None)
  end.

(** ** The reaper (kernel_proc, sys/kmain.c): one pass over one CPU *)

Definition reap_thread (c : nat) (i : nat) : K (nat + ()) :=
  cp ← get_cpu c;
  if (i <? length (c_threads cp))%nat then
    t ← unwrap (c_threads cp !! i) NullDeref;
    th ← get_thread t;
    (if t_state th =? THREAD_STATE_KILLED then
       upd_cpu c (fun cp => set_cthreads (delete i (c_threads cp)) cp)
     else mret ());;
    s ← get;
    (if (t_state th =? THREAD_STATE_ASLEEP) && (t_sleepexp th <=? s_uptime s) then
       upd_thread t (with_state THREAD_STATE_READY);;
       thread_spawn t
     else mret ());;
    mret (inl (i + 1)%nat)
  else mret (inr ()).

Definition reap_cpu (fuel : N) (c : nat) : K () :=
  acquire_lock c;;
  while_ fuel (reap_thread c) 0%nat;;
  release_lock c.
End ops.

(** ** Lemmas *)

Section facts.
Context {P : Type} `{VSpace P} `{VfsNodes (sstate P)}.
Implicit Types s : sstate P.

Lemma get_cpu_wp c cp Q s : s_cpus s !! c = Some cp -> Q cp s -> wp (get_cpu c) Q s.
Proof. intros Hc HQ. unfold get_cpu. wp_step. wp_step. wp_step; [exact Hc|done]. Qed.
Lemma upd_cpu_wp c cp f Q s :
  s_cpus s !! c = Some cp -> Q () (upd_cpus (insert c (f cp)) s) -> wp (upd_cpu c f) Q s.
Proof. intros. unfold upd_cpu. wp_focus. eapply get_cpu_wp; [done|]. by wp_step. Qed.
Lemma get_thread_wp t th Q s : s_threads s !! t = Some th -> Q th s -> wp (get_thread t) Q s.
Proof. intros Hc HQ. unfold get_thread. wp_step. wp_step. wp_step; [exact Hc|done]. Qed.
Lemma upd_thread_wp t th f Q s :
  s_threads s !! t = Some th -> Q () (upd_threads (insert t (f th)) s) -> wp (upd_thread t f) Q s.
Proof. intros. unfold upd_thread. wp_focus. eapply get_thread_wp; [done|]. by wp_step. Qed.
Lemma get_proc_wp p pr Q s : s_procs s !! p = Some pr -> Q pr s -> wp (get_proc p) Q s.
Proof. intros Hc HQ. unfold get_proc. wp_step. wp_step. wp_step; [exact Hc|done]. Qed.
Lemma acquire_lock_wp c cp Q s :
  s_cpus s !! c = Some cp -> c_lock cp = false ->
  Q () (upd_cpus (insert c (set_lock true cp)) s) -> wp (acquire_lock c) Q s.
Proof.
  intros Hc Hl HQ. unfold acquire_lock. wp_focus. eapply get_cpu_wp; [done|].
  wp_step. wp_step; [by rewrite Hl|]. by eapply upd_cpu_wp.
Qed.

(** Successive updates of one CPU. *)
Lemma upd_cpus_twice c a b s :
  upd_cpus (insert c a) (upd_cpus (insert c b) s) = upd_cpus (insert c a) s.
Proof. unfold upd_cpus. simpl. by rewrite list_insert_insert_eq. Qed.
Lemma upd_cpus_lookup c cp cp' s :
  s_cpus s !! c = Some cp -> s_cpus (upd_cpus (insert c cp') s) !! c = Some cp'.
Proof. intros Hc. simpl. apply list_lookup_insert_eq. by eapply lookup_lt_Some. Qed.

Abbreviation load s i := (length (default [] (c_threads <$> s_cpus s !! i))).

Lemma least_loaded_wp Q s :
  s_cpus s <> [] ->
  (forall c, (c < length (s_cpus s))%nat ->
     (forall i, (i < length (s_cpus s))%nat -> (load s c <= load s i)%nat /\ ((i < c)%nat -> (load s c < load s i)%nat)) ->
     Q c s) ->
  wp least_loaded Q s.
Proof.
  intros Hne HQ. unfold least_loaded. wp_step. wp_step. wp_focus.
  assert (1 <= Z.of_nat (length (s_cpus s))) as Hlen by (destruct (s_cpus s); simpl; [done|lia]).
  apply (wp_for_acc (fun k c s' => s' = s /\ (c < Z.to_nat k)%nat /\
    forall i, (i < Z.to_nat k)%nat -> (load s c <= load s i)%nat /\ ((i < c)%nat -> (load s c < load s i)%nat))).
  - done.
  - split_and!; [done|lia|]. intros i Hi. replace i with 0%nat by lia. lia.
  - intros k c s' Hk (-> & Hc & Hmin).
    destruct (lookup_lt_is_Some_2 (s_cpus s) (Z.to_nat k) ltac:(lia)) as [cp Hcp].
    destruct (lookup_lt_is_Some_2 (s_cpus s) c ltac:(lia)) as [cb Hcb].
    wp_focus. eapply get_cpu_wp; [exact Hcp|]. wp_focus. eapply get_cpu_wp; [exact Hcb|]. wp_step.
    split; [done|]. pose proof (Hmin c Hc) as [_ _].
    assert (load s (Z.to_nat k) = length (c_threads cp)) as Lk by (by rewrite Hcp).
    assert (load s c = length (c_threads cb)) as Lc by (by rewrite Hcb).
    destruct (Nat.ltb_spec (length (c_threads cp)) (length (c_threads cb))) as [Hlt|Hge].
    + split; [lia|]. intros i Hi. destruct (decide (i = Z.to_nat k)) as [->|Hik]; [lia|].
      destruct (Hmin i ltac:(lia)). lia.
    + split; [lia|]. intros i Hi. destruct (decide (i = Z.to_nat k)) as [->|Hik]; [lia|].
      apply Hmin. lia.
  - intros c s' (-> & Hc & Hmin). wp_step. rewrite Nat2Z.id in *. by apply HQ.
Qed.
End facts.

(** The threads a CPU counts. *)
Definition load {P} (s : sstate P) (i : nat) : nat := length (default [] (c_threads <$> s_cpus s !! i)).

(** [thread_spawn] picks the first CPU with the fewest threads, and either adds
    the thread to that CPU's threads and to the end of its run queue, changing
    nothing else, or waits for ever when that CPU's lock is taken. *)
Theorem thread_spawn_least_loaded {P} `{VSpace P} `{VfsNodes (sstate P)} (t : Z) (s : sstate P) :
  s_cpus s <> [] ->
  exists c cp, s_cpus s !! c = Some cp /\
    (forall i, (i < length (s_cpus s))%nat -> (load s c <= load s i)%nat /\ ((i < c)%nat -> (load s c < load s i)%nat)) /\
    thread_spawn t s =
      (if c_lock cp then Err Hang
       else Ok ((), upd_cpus (insert c (mk_cpu (currthread cp) (c_threads cp ++ [t]) (run_queue cp ++ [t]) false)) s)).
Proof.
  intros Hne.
  destruct (wp_Ok _ _ _ (least_loaded_wp (fun c s' => s' = s /\ (c < length (s_cpus s))%nat /\
      forall i, (i < length (s_cpus s))%nat -> (load s c <= load s i)%nat /\ ((i < c)%nat -> (load s c < load s i)%nat))
    s Hne ltac:(by intros c Hc Hmin))) as (c & s' & Hll & -> & Hc & Hmin).
  destruct (lookup_lt_is_Some_2 _ _ Hc) as [cp Hcp]. exists c, cp. split_and!; [done|done|].
  unfold thread_spawn. eapply bind_Ok; [exact Hll|]. destruct (c_lock cp) eqn:Hl.
  - apply bind_Err. unfold acquire_lock. apply bind_fault. eapply get_cpu_wp; [exact Hcp|].
    apply bind_Err. by rewrite Hl.
  - set (cp' := mk_cpu _ _ _ false).
    assert (wp (acquire_lock c;; upd_cpu c (fun cp => set_cthreads (c_threads cp ++ [t]) cp);;
      upd_cpu c (push_queue t);; release_lock c) (fun _ s' => s' = upd_cpus (insert c cp') s) s) as Hw.
    { wp_focus. eapply acquire_lock_wp; [exact Hcp|done|].
      wp_focus. eapply upd_cpu_wp; [by eapply upd_cpus_lookup|]. rewrite upd_cpus_twice.
      wp_focus. eapply upd_cpu_wp; [by eapply upd_cpus_lookup|]. rewrite upd_cpus_twice.
      unfold release_lock. eapply upd_cpu_wp; [by eapply upd_cpus_lookup|]. rewrite upd_cpus_twice. done. }
    apply wp_Ok in Hw as ([] & s' & He & ->). exact He.
Qed.

(** ** The reaper on one CPU *)

Section reaper.
Context {P : Type} `{VSpace P} `{VfsNodes (sstate P)}.
Implicit Types s : sstate P.

(** A thread the reaper must wake. *)
Definition expired s (t : Z) : Prop :=
  exists th, s_threads s !! t = Some th /\ t_state th = THREAD_STATE_ASLEEP /\ t_sleepexp th <= s_uptime s.

Lemma thread_spawn_locked cp t s : s_cpus s = [cp] -> c_lock cp = true -> thread_spawn t s = Err Hang.
Proof.
  intros Hc Hl. unfold thread_spawn. apply (bind_Ok _ _ _ 0%nat s).
  - unfold least_loaded, bindM, get. rewrite Hc. done.
  - apply bind_Err. unfold acquire_lock. apply bind_fault.
    eapply (get_cpu_wp _ cp); [by rewrite Hc|]. apply bind_Err. by rewrite Hl.
Qed.

(** What the reaper does with a thread that is not dead, on one locked CPU. *)
Lemma reap_thread_eq cp s j t th :
  s_cpus s = [cp] -> c_lock cp = true -> c_threads cp !! j = Some t -> s_threads s !! t = Some th ->
  t_state th <> THREAD_STATE_KILLED ->
  reap_thread 0 j s =
  if (t_state th =? THREAD_STATE_ASLEEP) && (t_sleepexp th <=? s_uptime s) then Err Hang
  else Ok (inl (j + 1)%nat, s).
Proof.
  intros Hc Hl Ht Hth Hk. unfold reap_thread. eapply bind_Ok; [by unfold get_cpu, bindM, get; rewrite Hc|].
  rewrite (proj2 (Nat.ltb_lt _ _) (lookup_lt_Some _ _ _ Ht)). eapply bind_Ok; [by rewrite Ht|].
  eapply bind_Ok; [by unfold get_thread, bindM, get; rewrite Hth|].
  rewrite (proj2 (Z.eqb_neq _ _) Hk). eapply bind_Ok; [done|]. eapply bind_Ok; [done|].
  destruct (_ && _) eqn:E; [|done]. apply bind_Err. eapply bind_Ok.
  - unfold upd_thread. eapply bind_Ok; [by unfold get_thread, bindM, get; rewrite Hth|done].
  - by apply (thread_spawn_locked cp).
Qed.

Lemma reap_loop_hangs cp s i n j :
  s_cpus s = [cp] -> c_lock cp = true ->
  Forall (fun t => exists th, s_threads s !! t = Some th /\ t_state th <> THREAD_STATE_KILLED) (c_threads cp) ->
  (exists t, c_threads cp !! i = Some t /\ expired s t) -> (j <= i)%nat -> (i - j < n)%nat ->
  loopN n (reap_thread 0) j s = Err Hang.
Proof.
  intros Hc Hl Hall Hex Hj. remember (i - j)%nat as d eqn:Hd. revert j n Hj Hd.
  induction d as [|d IH]; intros j [|n] Hj Hd Hn; try lia; simpl.
  - assert (j = i) as -> by lia. destruct Hex as (t & Ht & th & Hth & Hst & Hexp).
    unfold bindM. rewrite (reap_thread_eq cp s i t th) by (done || by rewrite Hst).
    by rewrite (proj2 (Z.eqb_eq _ _) Hst), (proj2 (Z.leb_le _ _) Hexp).
  - assert (j < length (c_threads cp))%nat as Hlt
      by (destruct Hex as (t & Ht & _); apply lookup_lt_Some in Ht; lia).
    destruct (lookup_lt_is_Some_2 _ _ Hlt) as [t Ht].
    destruct (Forall_lookup_1 _ _ _ _ Hall Ht) as (th & Hth & Hk).
    unfold bindM. rewrite (reap_thread_eq cp s j t th) by done. destruct (_ && _); [done|]. apply IH; lia.
Qed.
End reaper.

(** With one CPU, as soon as a sleeping thread's time has come the reaper waits
    for ever: it holds the CPU's lock while [thread_spawn] acquires it. *)
Theorem reaper_deadlocks {P} `{VSpace P} `{VfsNodes (sstate P)} (s : sstate P) cp fuel :
  s_cpus s = [cp] -> c_lock cp = false ->
  Forall (fun t => exists th, s_threads s !! t = Some th /\ t_state th <> THREAD_STATE_KILLED) (c_threads cp) ->
  (exists t, t ∈ c_threads cp /\ expired s t) -> (length (c_threads cp) < N.to_nat fuel)%nat ->
  reap_cpu fuel 0 s = Err Hang.
Proof.
  intros Hc Hl Hall (t & [i Hi]%list_elem_of_lookup & Hexp) Hfuel.
  unfold reap_cpu. apply bind_fault. eapply acquire_lock_wp; [by rewrite Hc|done|].
  apply bind_Err. unfold while_. apply bind_Err. rewrite loop_loopN.
  eapply (reap_loop_hangs (set_lock true cp) _ i).
  - simpl. by rewrite Hc.
  - done.
  - exact Hall.
  - exists t. split; [exact Hi|exact Hexp].
  - lia.
  - apply lookup_lt_Some in Hi. lia.
Qed.

(** ** Round robin *)

(** Looks a CPU up in a state that was reached by updates of that CPU. *)
Ltac cpu_lookup :=
  cbn [s_cpus upd_cpus upd_threads upd_procs]; rewrite ?list_insert_insert_eq;
  apply list_lookup_insert_eq; by eapply lookup_lt_Some.

(** CPU [c] runs a thread of process [p]. *)
Definition running {P} (c : nat) (s : sstate P) (p : Z) (pr : proc) : Prop :=
  exists cp t, s_cpus s !! c = Some cp /\ currthread cp <> 0 /\ s_threads s !! currthread cp = Some t /\
    t_parent t = p /\ s_procs s !! p = Some pr.

Lemma sched_get_currproc_eq {P} `{VSpace P} `{VfsNodes (sstate P)} c (s : sstate P) p pr :
  running c s p pr -> sched_get_currproc c s = Ok (p, s).
Proof.
  intros (cp & t & Hc & Hcur & Ht & Hp & Hpr). unfold sched_get_currproc, get_cpu, get_thread, bindM, get. cbn.
  rewrite Hc. cbn. rewrite (proj2 (truth_true _) Hcur). cbn. rewrite Ht. cbn. by rewrite Hp.
Qed.

Section round_robin.
Context {P : Type} `{VSpace P} `{VfsNodes (sstate P)}.
Implicit Types s : sstate P.

(** A thread that can be entered: it and its process exist, and no signal is
    pending for it. *)
Definition enterable s (t : Z) (th : thread) (pr : proc) : Prop :=
  t <> 0 /\ s_threads s !! t = Some th /\ s_procs s !! t_parent th = Some pr /\
  (t_tid th <> 0 \/ sigstack pr = []).

(** The state after CPU [c] has switched from [cur] to [u]. *)
Definition switched (c : nat) (cp : cpu) (r : reg_ctx) (cur : Z) (tc : thread) (u : Z) (tu : thread) (q : list Z) s
  : sstate P :=
  upd_cpus (insert c (mk_cpu u (c_threads cp) (q ++ [cur]) false))
    (upd_threads (fun m => <[u := with_state THREAD_STATE_RUNNING tu]>
                           (<[cur := with_state THREAD_STATE_READY (with_regs r tc)]> m)) s).

Lemma schedule_switch f c cp r cur tc u tu pr q s :
  s_cpus s !! c = Some cp -> c_lock cp = false -> currthread cp = cur -> cur <> 0 ->
  s_threads s !! cur = Some tc -> t_state tc = THREAD_STATE_RUNNING ->
  run_queue cp = u :: q -> u <> cur -> enterable s u tu pr ->
  schedule (S f) c r s =
  Ok (Entered (cs (t_regs tu) =? KERNEL_CS) (t_regs tu) (addr_space pr), switched c cp r cur tc u tu q s).
Proof.
  intros Hc Hl Hcur Hnz Htc Hst Hq Hne (Hu0 & Htu & Hpr & Hsig).
  assert (wp (schedule (S f) c r) (fun n s' =>
    n = Entered (cs (t_regs tu) =? KERNEL_CS) (t_regs tu) (addr_space pr) /\
    s' = switched c cp r cur tc u tu q s) s) as Hw; [|by apply wp_Ok in Hw as (n & s' & He & -> & ->)].
  cbn [schedule]. wp_focus. eapply get_cpu_wp; [exact Hc|]. rewrite Hl, Hcur.
  wp_focus. eapply upd_cpu_wp; [exact Hc|]. unfold requeue. rewrite (proj2 (truth_true cur) Hnz).
  wp_focus. wp_focus. eapply upd_thread_wp; [exact Htc|].
  wp_focus. eapply get_thread_wp; [apply lookup_insert_eq|]. simpl t_state. rewrite Hst, Z.eqb_refl.
  wp_focus. eapply upd_thread_wp; [apply lookup_insert_eq|].
  eapply upd_cpu_wp; [cpu_lookup|].
  wp_focus. eapply get_cpu_wp; [cpu_lookup|]. simpl run_queue. rewrite Hq. cbn [app]. cbv iota beta.
  wp_focus. eapply upd_cpu_wp; [cpu_lookup|].
  wp_focus. eapply (upd_thread_wp _ tu); [cbn; by rewrite !lookup_insert_ne by done|].
  wp_focus. eapply get_thread_wp; [apply lookup_insert_eq|].
  set (s1 := upd_threads _ _).
  assert (s_threads s1 !! u = Some (with_state THREAD_STATE_RUNNING tu)) as Hu1 by apply lookup_insert_eq.
  assert (s_cpus s1 !! c = Some (mk_cpu u (c_threads cp) (q ++ [cur]) true)) as Hc1 by (unfold s1; cpu_lookup).
  wp_focus. apply (wp_mono _ (fun _ s' => s' = s1)).
  { simpl t_tid. destruct (Z.eqb_spec (t_tid tu) 0) as [E|E]; [|by wp_step].
    destruct Hsig as [|Hsig]; [done|]. wp_focus. unfold sched_get_currproc. wp_focus.
    eapply get_cpu_wp; [exact Hc1|]. simpl currthread. rewrite (proj2 (truth_true u) Hu0).
    wp_focus. eapply get_thread_wp; [exact Hu1|]. wp_step. wp_focus. eapply get_proc_wp; [exact Hpr|].
    rewrite Hsig. by wp_step. }
  intros [] s' ->. wp_focus. eapply upd_cpu_wp; [exact Hc1|].
  wp_focus. eapply get_cpu_wp; [cpu_lookup|]. simpl currthread.
  wp_focus. eapply get_thread_wp; [exact Hu1|]. wp_focus. eapply get_proc_wp; [exact Hpr|].
  wp_step. split; [done|]. unfold switched, s1, upd_cpus, upd_threads. cbn. f_equal.
  - by rewrite insert_insert_eq.
  - by rewrite !list_insert_insert_eq.
Qed.

(** Timer interrupts on CPU [c], each with the context it interrupts. *)
Fixpoint ticks (c : nat) (rs : list reg_ctx) : M (sstate P) () :=
  match rs with [] => mret () | r :: rs' => trap c r;; ticks c rs' end.

(** CPU [c] runs the first thread of [l] and has the others queued in that order. *)
Record rotation s (c : nat) (l : list Z) : Prop := {
  ro_cpu : exists cp, s_cpus s !! c = Some cp /\ c_lock cp = false /\ currthread cp :: run_queue cp = l;
  ro_nodup : NoDup l;
  ro_threads : forall t, t ∈ l -> exists th pr, enterable s t th pr;
  ro_running : forall t th, l !! 0%nat = Some t -> s_threads s !! t = Some th -> t_state th = THREAD_STATE_RUNNING;
}.

Lemma rotation_tick s c cur u q r :
  rotation s c (cur :: u :: q) ->
  exists s' n, trap c r s = Ok (n, s') /\ rotation s' c (u :: q ++ [cur]).
Proof.
  intros [(cp & Hc & Hl & [= Hcur Hq]) Hnd Hth Hrun].
  destruct (Hth cur ltac:(by left)) as (tc & pc & Hc0 & Htc & Hpc & Hsc).
  destruct (Hth u ltac:(by right; left)) as (tu & pu & Hu).
  assert (u <> cur) as Hne by (intros ->; apply NoDup_cons in Hnd as [Hn _]; apply Hn; by left).
  eexists _, _. split.
  { eapply schedule_switch; [done|done|done|done|done|by apply (Hrun cur)|done|done|exact Hu]. }
  destruct Hu as (Hu0 & Htu & Hpu & Hsu). split.
  - eexists. split; [cpu_lookup|]. done.
  - rewrite app_comm_cons. eapply NoDup_Permutation_proper; [|exact Hnd].
    symmetry. apply Permutation_cons_append.
  - intros t Ht. assert (t ∈ cur :: u :: q) as Hin
      by (rewrite app_comm_cons in Ht; rewrite Permutation_cons_append; done).
    destruct (Hth t Hin) as (th & pr & Ht0 & Htt & Hpr & Hs).
    destruct (decide (t = u)) as [->|Htu'].
    + exists (with_state THREAD_STATE_RUNNING tu), pu. split_and!; [done|apply lookup_insert_eq|done|done].
    + destruct (decide (t = cur)) as [->|Htc'].
      * exists (with_state THREAD_STATE_READY (with_regs r tc)), pc. split_and!; [done| |done|done].
        cbn. rewrite lookup_insert_ne by done. apply lookup_insert_eq.
      * exists th, pr. split_and!; [done| |done|done]. cbn. by rewrite !lookup_insert_ne by done.
  - intros t th [= <-] Hl'. cbn in Hl'. rewrite lookup_insert_eq in Hl'. by injection Hl' as <-.
Qed.

Lemma rotation_ticks rs s c l :
  (2 <= length l)%nat -> (length rs <= length l)%nat -> rotation s c l ->
  exists s', ticks c rs s = Ok ((), s') /\ rotation s' c (drop (length rs) l ++ take (length rs) l).
Proof.
  revert s l. induction rs as [|r rs IH]; intros s l H2 Hlen Hro.
  - exists s. simpl. by rewrite drop_0, app_nil_r.
  - destruct l as [|cur [|u q]]; [simpl in *; lia..|].
    destruct (rotation_tick s c cur u q r Hro) as (s1 & n & Ht & Hro1).
    destruct (IH s1 (u :: q ++ [cur])) as (s2 & Hts & Hro2); [simpl; rewrite length_app; simpl; lia| |done|].
    { simpl in *. rewrite length_app. simpl. lia. }
    exists s2. split; [simpl; by eapply bind_Ok|].
    simpl in Hlen. simpl length. rewrite !app_comm_cons in Hro2.
    rewrite drop_app_le, take_app_le in Hro2 by (simpl; lia).
    rewrite <- app_assoc in Hro2. exact Hro2.
Qed.
End round_robin.

(** C16: the scheduler is round robin: after [k] interrupts on a CPU whose threads
    stay runnable the CPU runs and queues them rotated by [k]; so every queued
    thread runs within as many interrupts as there are threads. *)
Theorem schedule_round_robin {P} `{VSpace P} `{VfsNodes (sstate P)} (s : sstate P) c l rs :
  (2 <= length l)%nat -> (length rs <= length l)%nat -> rotation s c l ->
  exists s' cp, ticks c rs s = Ok ((), s') /\ s_cpus s' !! c = Some cp /\ c_lock cp = false /\
    currthread cp :: run_queue cp = drop (length rs) l ++ take (length rs) l.
Proof.
  intros H2 Hlen Hro. destruct (rotation_ticks rs s c l H2 Hlen Hro) as (s' & Ht & [(cp & Hc & Hl & Hq) _ _ _]).
  eauto 10.
Qed.

(** ** Mutexes are semaphores of one *)

(** The mutex and the semaphore stand for the same lock. *)
Definition same_lock (m : mutex) (x : sem) : Prop :=
  max_cnt x = 1 /\ curr_cnt x = mproc m /\ (mproc m = 0 \/ mproc m = 1) /\ sem_wait x = mutex_wait m.

(** A mutex is a semaphore of [max_cnt = 1], as the comment at [mutex_t] says:
    acquiring, and releasing a held lock, have the same outcome and leave the two
    in the same state. *)
Theorem mutex_is_semaphore {P} `{VSpace P} `{VfsNodes (sstate P)} c r m x (s : sstate P) :
  same_lock m x ->
  same_lock mutex_create (sem_create 1) /\
  match mutex_acquire c r m s, sem_acquire c r x s with
  | Ok ((m', n), s1), Ok ((x', n'), s2) => same_lock m' x' /\ n = n' /\ s1 = s2
  | Err f, Err f' => f = f'
  | _, _ => False
  end /\
  (mproc m = 1 ->
   match mutex_release c r m s, sem_release c r x s with
   | Ok ((m', n), s1), Ok ((x', n'), s2) => same_lock m' x' /\ n = n' /\ s1 = s2
   | Err f, Err f' => f = f'
   | _, _ => False
   end).
Proof.
  intros (Hmax & Hcnt & H01 & Hw). split; [by repeat split; auto|]. split.
  - unfold mutex_acquire, sem_acquire. rewrite Hcnt, Hmax. destruct H01 as [E|E]; rewrite E; simpl.
    + by repeat split; auto.
    + unfold bindM. destruct (get_cpu c s) as [[cp s']|]; [|done].
      destruct (thread_block c r _ s') as [[n s'']|]; [|done]. simpl.
      split; [|done]. unfold same_lock. simpl. rewrite Hw. by repeat split; auto; lia.
  - intros E. unfold mutex_release, sem_release. rewrite Hw. destruct (mutex_wait m) as [|t w].
    + unfold same_lock. simpl. rewrite Hcnt, E. by repeat split; auto.
    + unfold bindM. destruct (thread_unblock c r t s) as [[n s']|]; [|done]. simpl.
      unfold same_lock. simpl. by repeat split; auto.
Qed.

(** ** No thread is in two places *)

Section places.
Context {P : Type} `{VSpace P} `{VfsNodes (sstate P)}.
Implicit Types (s : sstate P) (cp : cpu).

(** The threads a CPU runs or has queued; all CPUs'. *)
Definition held cp : list Z := (if truth (currthread cp) then [currthread cp] else []) ++ run_queue cp.
Definition places s : list Z := concat (held <$> s_cpus s).

Lemma places_split s c cp :
  s_cpus s !! c = Some cp ->
  exists rest, places s ≡ₚ held cp ++ rest /\
    forall s' cp', s_cpus s' = <[c := cp']> (s_cpus s) -> places s' ≡ₚ held cp' ++ rest.
Proof.
  intros Hc. unfold places.
  exists (concat (held <$> take c (s_cpus s)) ++ concat (held <$> drop (S c) (s_cpus s))). split.
  - rewrite <- (take_drop_middle (s_cpus s) c cp Hc) at 1. rewrite fmap_app, fmap_cons, concat_app. cbn [concat].
    by rewrite Permutation_app_swap_app.
  - intros s' cp' ->. rewrite (insert_take_drop _ _ _ (lookup_lt_Some _ _ _ Hc)).
    rewrite fmap_app, fmap_cons, concat_app. cbn [concat]. by rewrite Permutation_app_swap_app.
Qed.

(** An operation that only takes threads away from what one CPU holds. *)
Lemma places_shrink s s' c cp cp' :
  s_cpus s !! c = Some cp -> s_cpus s' = <[c := cp']> (s_cpus s) -> held cp' ⊆+ held cp ->
  places s' ⊆+ places s.
Proof.
  intros Hc He Hs. destruct (places_split s c cp Hc) as (rest & Hp & Hp').
  rewrite Hp, (Hp' s' cp' He). by apply submseteq_app.
Qed.
Lemma NoDup_shrink (l l' : list Z) : l' ⊆+ l -> NoDup l -> NoDup l'.
Proof.
  intros [k Hk]%submseteq_Permutation Hn. rewrite Hk in Hn. by apply NoDup_app in Hn as [? _].
Qed.

Lemma get_cpu_wlp c Q s : (forall cp, s_cpus s !! c = Some cp -> Q cp s) -> wlp (get_cpu c) Q s.
Proof. intros HQ. unfold get_cpu. apply wlp_bind. by apply wlp_unwrap. Qed.
Lemma upd_cpu_wlp c f Q s :
  (forall cp, s_cpus s !! c = Some cp -> Q () (upd_cpus (insert c (f cp)) s)) -> wlp (upd_cpu c f) Q s.
Proof. intros HQ. unfold upd_cpu. apply wlp_bind, get_cpu_wlp. intros cp Hc. by apply HQ. Qed.
Lemma get_thread_wlp t Q s : (forall th, s_threads s !! t = Some th -> Q th s) -> wlp (get_thread t) Q s.
Proof. intros HQ. unfold get_thread. apply wlp_bind. by apply wlp_unwrap. Qed.
Lemma upd_thread_wlp t f Q s :
  (forall th, s_threads s !! t = Some th -> Q () (upd_threads (insert t (f th)) s)) -> wlp (upd_thread t f) Q s.
Proof. intros HQ. unfold upd_thread. apply wlp_bind, get_thread_wlp. intros th Hth. by apply HQ. Qed.
Lemma get_proc_wlp p Q s : (forall pr, Q pr s) -> wlp (get_proc p) Q s.
Proof. intros HQ. unfold get_proc. apply wlp_bind. by apply wlp_unwrap. Qed.
Lemma upd_proc_wlp p f Q s : (forall g, Q () (upd_procs g s)) -> wlp (upd_proc p f) Q s.
Proof. intros HQ. unfold upd_proc. apply wlp_bind, get_proc_wlp. intros pr. apply HQ. Qed.

(** Handling a signal does not move threads. *)
Abbreviation keeps C := (fun (_ : ()) s' => s_cpus s' = C).

Lemma kill_all_keeps ts s : wlp (kill_all ts) (keeps (s_cpus s)) s.
Proof.
  revert s. induction ts as [|t ts IH]; intros s; [done|]. simpl. apply wlp_bind.
  unfold thread_kill. apply upd_thread_wlp. intros th _. apply (IH (upd_threads _ s)).
Qed.

Lemma sched_get_currproc_keeps c s : wlp (sched_get_currproc c) (fun _ s' => s' = s) s.
Proof.
  unfold sched_get_currproc. apply wlp_bind, get_cpu_wlp. intros cp _.
  destruct (truth _); [|done]. by apply wlp_bind, get_thread_wlp.
Qed.

Lemma sched_kill_keeps c yield p C s :
  (forall s', s_cpus s' = C -> wlp yield (keeps C) s') -> s_cpus s = C -> wlp (sched_kill c yield p) (keeps C) s.
Proof.
  intros Hy Hs. unfold sched_kill. apply wlp_bind, get_proc_wlp. intros pr. apply wlp_bind.
  eapply wlp_mono; [apply kill_all_keeps|]. intros [] s1 Hs1. simpl in Hs1. apply wlp_bind.
  eapply wlp_mono; [apply sched_get_currproc_keeps|]. intros cur s2 ->.
  destruct (p =? cur); [apply Hy; congruence|]. apply wlp_ret. congruence.
Qed.

Lemma signal_handle_keeps c yield p sig C s :
  (forall s', s_cpus s' = C -> wlp yield (keeps C) s') -> s_cpus s = C ->
  wlp (signal_handle c yield p sig) (keeps C) s.
Proof.
  intros Hy Hs. unfold signal_handle. apply wlp_bind, get_proc_wlp. intros pr.
  apply wlp_bind, wlp_unwrap. intros h _. destruct (truth h); [apply wlp_throw|].
  apply wlp_bind, wlp_unwrap. intros act _. destruct (_ || _); [|by apply wlp_ret].
  apply wlp_bind. eapply wlp_mono; [apply sched_get_currproc_keeps|]. intros cur s1 ->.
  apply wlp_bind. eapply wlp_mono; [by apply sched_kill_keeps|]. intros [] s2 Hs2. by apply Hy.
Qed.

(** A trap with the lock taken returns at once. *)
Lemma nested_yield_keeps f c r C cp s' :
  C !! c = Some cp -> c_lock cp = true -> s_cpus s' = C ->
  wlp (n ← schedule f c r; match n with Returned => mret () | _ => throw NoReturn end) (keeps C) s'.
Proof.
  intros Hc Hl Hs. destruct f; [done|]. cbn [schedule]. apply wlp_bind, wlp_bind, get_cpu_wlp.
  intros cp' Hc'. rewrite Hs, Hc in Hc'. injection Hc' as <-. rewrite Hl. by apply wlp_ret, wlp_ret.
Qed.

Definition state_of s (t : Z) : option Z := t_state <$> s_threads s !! t.

(** The first half of [schedule]: the current thread goes back to the queue if it
    is still running. *)
Definition requeued s cp cp' : Prop :=
  c_lock cp' = true /\
  ((cp' = set_lock true cp) \/
   (state_of s (currthread cp) = Some THREAD_STATE_RUNNING /\ currthread cp' = currthread cp /\ truth (currthread cp) = true /\ run_queue cp' = run_queue cp ++ [currthread cp])).

Lemma requeued_held s cp cp' u q :
  requeued s cp cp' -> run_queue cp' = u :: q -> forall b, let cp2 := mk_cpu u (c_threads cp') q b in
  held cp2 ⊆+ held cp /\ (state_of s (currthread cp) <> Some THREAD_STATE_RUNNING -> held cp2 ⊆+ run_queue cp).
Proof.
  intros [_ [->|(Hrun & Hc & Ht & Hq)]] Hu b; unfold held; simpl in *.
  - rewrite Hu. assert ((if truth u then [u] else []) ++ q ⊆+ u :: q) as Hs
      by (destruct (truth u); simpl; [done|by apply submseteq_cons]).
    split; [|done]. transitivity (u :: q); [exact Hs|by apply submseteq_inserts_l].
  - split; [|done]. rewrite Ht. simpl. rewrite (Permutation_cons_append (run_queue cp) (currthread cp)), <- Hq, Hu.
    destruct (truth u); simpl; [done|by apply submseteq_cons].
Qed.

Lemma requeue_wlp c r cp s :
  s_cpus s !! c = Some cp ->
  wlp (requeue c r (currthread cp))
    (fun _ s' => exists cp', s_cpus s' = <[c := cp']> (s_cpus s) /\ requeued s cp cp')
    (upd_cpus (insert c (set_lock true cp)) s).
Proof.
  intros Hc. pose proof (lookup_lt_Some _ _ _ Hc) as Hlt. unfold requeue.
  destruct (truth (currthread cp)) eqn:Ht;
    [|apply wlp_ret; exists (set_lock true cp); split; [done|split; [done|by left]]].
  apply wlp_bind, upd_thread_wlp. intros th0 Hth0. apply wlp_bind, get_thread_wlp. intros th Hth.
  cbn in Hth, Hth0. rewrite lookup_insert_eq in Hth. injection Hth as <-. cbn [t_state with_regs].
  destruct (Z.eqb_spec (t_state th0) THREAD_STATE_RUNNING) as [Hrun|Hrun]; [|apply wlp_ret; exists (set_lock true cp); split; [done|split; [done|by left]]].
  apply wlp_bind, upd_thread_wlp. intros th2 _. apply upd_cpu_wlp. intros cp1 Hc1.
  cbn in Hc1. rewrite list_lookup_insert_eq in Hc1 by done. injection Hc1 as <-.
  eexists. split; [cbn; by rewrite list_insert_insert_eq|]. split; [done|right]. split; [|done].
  unfold state_of. by rewrite Hth0, <- Hrun.
Qed.

(** [schedule] changes only the CPU it runs on, and only takes threads away from
    what that CPU holds; a current thread that is not running goes if there is another. *)
Definition stopped s cp : Prop :=
  c_lock cp = false /\ run_queue cp <> [] /\ state_of s (currthread cp) <> Some THREAD_STATE_RUNNING.
Definition shrunk c s s' : Prop :=
  exists cp cp', s_cpus s !! c = Some cp /\ s_cpus s' = <[c := cp']> (s_cpus s) /\ held cp' ⊆+ held cp /\
    (stopped s cp -> held cp' ⊆+ run_queue cp).

Lemma schedule_shrinks f c r s : wlp (schedule f c r) (fun _ s' => shrunk c s s') s.
Proof.
  destruct f as [|f]; [done|]. cbn [schedule]. apply wlp_bind, get_cpu_wlp. intros cp Hc.
  pose proof (lookup_lt_Some _ _ _ Hc) as Hlt.
  destruct (c_lock cp) eqn:Hl.
  { apply wlp_ret. exists cp, cp. split_and!; [done|by rewrite list_insert_id|done|]. intros (Hl' & _). congruence. }
  apply wlp_bind, upd_cpu_wlp. intros cp0 Hc0. assert (cp0 = cp) as -> by congruence.
  apply wlp_bind. eapply wlp_mono; [by apply requeue_wlp|].
  intros [] s1 (cp1 & Hs1 & Hreq). apply wlp_bind, get_cpu_wlp. intros cp2 Hc2.
  rewrite Hs1, list_lookup_insert_eq in Hc2 by done. injection Hc2 as <-.
  assert (forall b, held (mk_cpu (currthread cp1) (c_threads cp1) (run_queue cp1) b) ≡ₚ held cp1) as Hb by done.
  destruct (run_queue cp1) as [|u q] eqn:Hq.
  { apply wlp_bind, upd_cpu_wlp. intros cp3 Hc3. rewrite Hs1, list_lookup_insert_eq in Hc3 by done.
    injection Hc3 as <-. apply wlp_ret. exists cp, (set_lock false cp1). split; [done|].
    split; [cbn; by rewrite Hs1, list_insert_insert_eq|].
    destruct Hreq as [_ [->|(_ & _ & _ & Hqq)]]; [|rewrite Hq in Hqq; by destruct (run_queue cp)].
    split; [done|]. by intros (_ & Hne & _). }
  apply wlp_bind, upd_cpu_wlp. intros cp3 Hc3. rewrite Hs1, list_lookup_insert_eq in Hc3 by done.
  injection Hc3 as <-. apply wlp_bind, upd_thread_wlp. intros th0 _. apply wlp_bind, get_thread_wlp. intros th _.
  set (cp4 := set_curr u (set_queue q cp1)). set (C := <[c := cp4]> (s_cpus s)).
  apply wlp_bind. apply (wlp_mono _ (fun _ s' => s_cpus s' = C)).
  { assert (<[c:=cp4]> (s_cpus s1) = C) as HC by (unfold C; by rewrite Hs1, list_insert_insert_eq).
    destruct (t_tid th =? 0); [|by apply wlp_ret].
    apply wlp_bind. eapply wlp_mono; [apply sched_get_currproc_keeps|]. intros p s2 ->.
    apply wlp_bind, get_proc_wlp. intros pr. destruct (sigstack pr) as [|sig rest]; [by apply wlp_ret|].
    apply wlp_bind, upd_proc_wlp. intros g'. apply signal_handle_keeps; [|done].
    intros s3. apply (nested_yield_keeps _ _ _ _ cp4); [by apply list_lookup_insert_eq|apply Hreq]. }
  intros [] s2 Hs2. unfold release_lock. apply wlp_bind, upd_cpu_wlp. intros cp5 Hc5.
  rewrite Hs2 in Hc5. unfold C in Hc5. rewrite list_lookup_insert_eq in Hc5 by done. injection Hc5 as <-.
  apply wlp_bind, get_cpu_wlp. intros cp6 _. apply wlp_bind, get_thread_wlp. intros th6 _.
  apply wlp_bind, get_proc_wlp. intros pr6. apply wlp_ret.
  exists cp, (set_lock false cp4). split; [done|]. split; [cbn; rewrite Hs2; unfold C; by rewrite list_insert_insert_eq|].
  destruct (requeued_held s cp cp1 u q Hreq Hq false) as [Hh1 Hh2]. split; [exact Hh1|]. intros (_ & _ & Hst). by apply Hh2.
Qed.

Lemma trap_places c r n s s' : trap c r s = Ok (n, s') -> places s' ⊆+ places s.
Proof.
  intros Ht. destruct (wlp_Ok _ _ _ _ _ (schedule_shrinks 2 c r s) Ht) as (cp & cp' & Hc & Hs & Hh & _).
  by eapply places_shrink.
Qed.

(** The other operations, each running alone. *)
Lemma upd_lock_places c b s :
  wlp (upd_cpu c (set_lock b)) (fun _ s' => places s' ≡ₚ places s) s.
Proof.
  apply upd_cpu_wlp. intros cp Hc. destruct (places_split s c cp Hc) as (rest & Hp & Hp').
  rewrite Hp. by rewrite (Hp' _ (set_lock b cp)).
Qed.
Lemma acquire_lock_places c s : wlp (acquire_lock c) (fun _ s' => places s' ≡ₚ places s) s.
Proof.
  unfold acquire_lock. apply wlp_bind, get_cpu_wlp. intros cp _. apply wlp_bind, wlp_guard. intros _.
  apply upd_lock_places.
Qed.
Lemma push_queue_places c t s : wlp (upd_cpu c (push_queue t)) (fun _ s' => places s' ≡ₚ t :: places s) s.
Proof.
  apply upd_cpu_wlp. intros cp Hc. destruct (places_split s c cp Hc) as (rest & Hp & Hp').
  rewrite Hp, (Hp' _ (push_queue t cp)) by done. unfold held. simpl.
  rewrite <- Permutation_cons_append. by rewrite <- Permutation_middle.
Qed.

Lemma thread_block_mark_places c st s : wlp (thread_block_mark c st) (fun _ s' => places s' ≡ₚ places s) s.
Proof.
  unfold thread_block_mark. apply wlp_bind. eapply wlp_mono; [apply acquire_lock_places|]. intros [] s1 H1.
  apply wlp_bind, get_cpu_wlp. intros cp _. apply wlp_bind, upd_thread_wlp. intros th _.
  eapply wlp_mono; [apply upd_lock_places|]. intros [] s2 H2. by rewrite H2, <- H1.
Qed.

Lemma thread_block_places c r st s : wlp (thread_block c r st) (fun _ s' => places s' ⊆+ places s) s.
Proof.
  unfold thread_block. apply wlp_bind. eapply wlp_mono; [apply thread_block_mark_places|].
  intros [] s1 H1. cbn beta in H1. unfold wlp. destruct (trap c r s1) as [[n s2]|] eqn:Ht; [|done].
  rewrite <- H1. by eapply trap_places.
Qed.

Lemma thread_unblock_places c r t s : wlp (thread_unblock c r t) (fun _ s' => places s' ⊆+ t :: places s) s.
Proof.
  unfold thread_unblock. apply wlp_bind. eapply wlp_mono; [apply acquire_lock_places|]. intros [] s1 H1.
  apply wlp_bind, upd_thread_wlp. intros th _.
  apply wlp_bind. eapply wlp_mono; [apply push_queue_places|]. intros [] s2 H2.
  apply wlp_bind. eapply wlp_mono; [apply upd_lock_places|]. intros [] s3 H3.
  apply wlp_bind, get_cpu_wlp. intros cp _.
  assert (places s3 ≡ₚ t :: places s) as Hp by (rewrite H3, H2; by rewrite <- H1).
  destruct (_ =? 1)%nat; [|apply wlp_ret; by rewrite Hp].
  apply wlp_bind. unfold wlp at 1. destruct (trap c r s3) as [[n s4]|] eqn:Ht; [|done].
  apply wlp_ret. rewrite <- Hp. by eapply trap_places.
Qed.

Lemma least_loaded_wlp s : wlp least_loaded (fun _ s' => s' = s) s.
Proof.
  unfold wlp. destruct (decide (s_cpus s = [])) as [Hn|Hn].
  - unfold least_loaded, bindM, get. by rewrite Hn.
  - destruct (wp_Ok _ _ _ (least_loaded_wp (fun _ s' => s' = s) s Hn ltac:(done))) as (c & s' & -> & ->). done.
Qed.

Lemma thread_spawn_places t s : wlp (thread_spawn t) (fun _ s' => places s' ≡ₚ t :: places s) s.
Proof.
  unfold thread_spawn. apply wlp_bind. eapply wlp_mono; [apply least_loaded_wlp|]. intros c s' ->. apply wlp_bind. eapply wlp_mono; [apply acquire_lock_places|]. intros [] s1 H1.
  apply wlp_bind, upd_cpu_wlp. intros cp Hc.
  destruct (places_split s1 c cp Hc) as (rest & Hp & Hp').
  pose proof (Hp' (upd_cpus <[c:=set_cthreads (c_threads cp ++ [t]) cp]> s1) _ eq_refl) as H2.
  change (held (set_cthreads (c_threads cp ++ [t]) cp)) with (held cp) in H2. rewrite <- Hp in H2.
  apply wlp_bind. eapply wlp_mono; [apply push_queue_places|]. intros [] s3 H3.
  eapply wlp_mono; [apply upd_lock_places|]. intros [] s4 H4. by rewrite H4, H3, H2, H1.
Qed.

(** *** Blocked threads *)

(** The states [thread_block] leaves a thread in that is to be woken again. *)
Definition blocked (st : Z) : bool := (THREAD_STATE_WAITING <=? st) && (st <=? THREAD_STATE_ASLEEP).
Definition is_blocked s (t : Z) : Prop := exists th, s_threads s !! t = Some th /\ blocked (t_state th) = true.

(** Operations that block no thread. *)
Definition calm s s' : Prop := forall t, is_blocked s' t -> is_blocked s t.
Definition quietly {A} (m : M (sstate P) A) : Prop := forall s, wlp m (fun _ s' => calm s s') s.

Lemma quietly_bind {A B} (m : M (sstate P) A) (k : A -> M (sstate P) B) :
  quietly m -> (forall a, quietly (k a)) -> quietly (bindM m k).
Proof.
  intros Hm Hk s. apply wlp_bind. eapply wlp_mono; [apply Hm|]. intros a s1 H1.
  eapply wlp_mono; [apply Hk|]. intros b s2 H2 t Ht. auto.
Qed.
Lemma quietly_ret {A} (a : A) : quietly (mret a).
Proof. intros s t. done. Qed.
Lemma quietly_throw {A} f : quietly (throw f : M (sstate P) A).
Proof. done. Qed.
Lemma quietly_get_cpu c : quietly (get_cpu c).
Proof. intros s. apply get_cpu_wlp. by intros cp _ t. Qed.
Lemma quietly_upd_cpu c f : quietly (upd_cpu c f).
Proof. intros s. apply upd_cpu_wlp. by intros cp _ t. Qed.
Lemma quietly_get_thread t : quietly (get_thread t).
Proof. intros s. apply get_thread_wlp. by intros th _ t'. Qed.
Lemma quietly_get_proc p : quietly (get_proc p).
Proof. intros s. apply get_proc_wlp. by intros pr t. Qed.
Lemma quietly_upd_proc p f : quietly (upd_proc p f).
Proof. intros s. apply upd_proc_wlp. by intros g t. Qed.
Lemma quietly_unwrap {A} (o : option A) f : quietly (unwrap o f).
Proof. intros s. apply wlp_unwrap. by intros a _ t. Qed.
Lemma quietly_guard b f : quietly (guard b f).
Proof. intros s. apply wlp_guard. by intros _ t. Qed.
Lemma quietly_upd_thread t f :
  (forall th, blocked (t_state (f th)) = true -> blocked (t_state th) = true) -> quietly (upd_thread t f).
Proof.
  intros Hf s. apply upd_thread_wlp. intros th Hth t' (th' & Hl & Hb). cbn in Hl. rewrite lookup_insert in Hl.
  case_decide as E; [|by exists th']. injection Hl as <-. subst t'. exists th. auto.
Qed.
Lemma quietly_with_state t st : blocked st = false -> quietly (upd_thread t (with_state st)).
Proof. intros Hs. apply quietly_upd_thread. intros th. cbn. by rewrite Hs. Qed.
Lemma quietly_get : quietly get.
Proof. by intros s t. Qed.

(** Goes through the code; conditions of the code are case splits. *)
Ltac quiet_step := first
  [ match goal with |- quietly (bindM _ _) => apply quietly_bind; [|intros ?] end | apply quietly_ret | apply quietly_throw | apply quietly_get_cpu | apply quietly_upd_cpu
  | apply quietly_get_thread | apply quietly_get_proc | apply quietly_upd_proc | apply quietly_unwrap | apply quietly_guard
  | apply quietly_get | apply quietly_with_state; reflexivity | apply quietly_upd_thread; (intros ?; done) | done ].
Ltac quiet := repeat (quiet_step || match goal with |- quietly (match ?x with _ => _ end) => destruct x end).

Lemma quietly_kill_all ts : quietly (kill_all ts).
Proof. induction ts as [|t ts IH]; simpl; [apply quietly_ret|]. unfold thread_kill. quiet. Qed.
Lemma quietly_currproc c : quietly (sched_get_currproc c).
Proof. unfold sched_get_currproc. quiet. Qed.
Lemma quietly_schedule f c r : quietly (schedule f c r).
Proof.
  induction f as [|f IH]; [apply quietly_throw|].
  assert (quietly (n ← schedule f c r; match n with Returned => mret () | _ => throw NoReturn end)) as Hy.
  { apply quietly_bind; [exact IH|]. intros []; quiet. }
  cbn [schedule]. unfold requeue, release_lock, signal_handle, sched_kill.
  repeat first [exact Hy | apply quietly_kill_all | apply quietly_currproc | quiet_step |
    match goal with |- quietly (match ?x with _ => _ end) => destruct x end].
Qed.
Lemma quietly_locks c : quietly (acquire_lock c) /\ quietly (release_lock c).
Proof. unfold acquire_lock, release_lock. split; quiet. Qed.
Lemma quietly_unblock c r t : quietly (thread_unblock c r t).
Proof.
  unfold thread_unblock, trap. destruct (quietly_locks c).
  repeat first [done | apply quietly_schedule | quiet_step | match goal with |- quietly (if ?x then _ else _) => destruct x end].
Qed.
Lemma quietly_signal_send c r p sig : quietly (signal_send c r p sig).
Proof.
  unfold signal_send, sched_yield, trap.
  repeat first [apply quietly_schedule | apply quietly_currproc | quiet_step | match goal with |- quietly (if ?x then _ else _) => destruct x end].
Qed.
Lemma quietly_spawn t : quietly (thread_spawn t).
Proof.
  unfold thread_spawn. apply quietly_bind.
  - intros s. eapply wlp_mono; [apply least_loaded_wlp|]. by intros c s' -> t'.
  - intros c. destruct (quietly_locks c). quiet.
Qed.

(** *** The invariant *)

(** No thread has two places, and a blocked thread has none; [G] are the threads that
    have been started. *)
Record sched_inv (G : gset Z) s : Prop := {
  in_nodup : NoDup (places s);
  in_parked : forall t, is_blocked s t -> t ∉ places s;
  in_started : forall t, t ∈ places s -> t ∈ G;
}.

Lemma inv_shrink G s s' : sched_inv G s -> places s' ⊆+ places s -> calm s s' -> sched_inv G s'.
Proof.
  intros [Hn Hp Hg] Hs Hc. split; [by eapply NoDup_shrink|..]; intros t Ht.
  - intros Hin. eapply (Hp t); [by apply Hc|]. by eapply elem_of_submseteq.
  - apply Hg. by eapply elem_of_submseteq.
Qed.

(** [t] gets a place. *)
Lemma inv_add G s s' t :
  sched_inv G s -> t ∉ places s -> ~ is_blocked s' t -> places s' ⊆+ t :: places s -> calm s s' -> sched_inv ({[t]} ∪ G) s'.
Proof.
  intros [Hn Hp Hg] Ht Hnb Hs Hc. split.
  - eapply NoDup_shrink; [exact Hs|]. by constructor.
  - intros t' Ht' Hin. eapply elem_of_submseteq in Hin; [|exact Hs]. apply elem_of_cons in Hin as [->|Hin]; [done|].
    eapply (Hp t'); [by apply Hc|done].
  - intros t' Hin. eapply elem_of_submseteq in Hin; [|exact Hs]. apply elem_of_cons in Hin as [->|Hin]; [set_solver|].
    apply Hg in Hin. set_solver.
Qed.

(** The current thread of [c] can give way to another one. *)
Definition can_block c s : Prop :=
  exists cp, s_cpus s !! c = Some cp /\ currthread cp <> 0 /\ run_queue cp <> [].

Lemma acquire_lock_wlp c (Q : () -> sstate P -> Prop) s :
  (forall cp, s_cpus s !! c = Some cp -> c_lock cp = false -> Q () (upd_cpus (insert c (set_lock true cp)) s)) ->
  wlp (acquire_lock c) Q s.
Proof.
  intros HQ. unfold acquire_lock. apply wlp_bind, get_cpu_wlp. intros cp Hc. apply wlp_bind, wlp_guard. intros Hl.
  apply upd_cpu_wlp. intros cp' Hc'. assert (cp' = cp) as -> by congruence. apply HQ; [done|]. by destruct (c_lock cp).
Qed.

(** Only the current thread's state changes before the trap. *)
Lemma thread_block_mark_wlp c st s :
  wlp (thread_block_mark c st) (fun _ s' => exists cp th, s_cpus s !! c = Some cp /\ c_lock cp = false /\
    s_threads s !! currthread cp = Some th /\ s_cpus s' = s_cpus s /\
    s_threads s' = <[currthread cp := with_state st th]> (s_threads s)) s.
Proof.
  unfold thread_block_mark. apply wlp_bind, acquire_lock_wlp. intros cp Hc Hl.
  pose proof (lookup_lt_Some _ _ _ Hc) as Hlt. apply wlp_bind, get_cpu_wlp. intros cp1 Hc1.
  cbn in Hc1. rewrite list_lookup_insert_eq in Hc1 by done. injection Hc1 as <-.
  apply wlp_bind, upd_thread_wlp. intros th Hth. apply upd_cpu_wlp. intros cp2 Hc2.
  cbn in Hc2, Hth. rewrite list_lookup_insert_eq in Hc2 by done. injection Hc2 as <-.
  exists cp, th. split_and!; try done. cbn. rewrite list_insert_insert_eq. apply list_insert_id. rewrite Hc. by destruct cp as [?? ? []].
Qed.

Lemma thread_block_inv G c r st n s s' :
  sched_inv G s -> (blocked st = true -> can_block c s) -> thread_block c r st s = Ok (n, s') -> sched_inv G s'.
Proof.
  intros Hinv Hcan Hb. assert (places s' ⊆+ places s) as Hsub by exact (wlp_Ok _ _ _ _ _ (thread_block_places c r st s) Hb).
  unfold thread_block, bindM in Hb. destruct (thread_block_mark c st s) as [[[] s1]|] eqn:Em; [|done].
  destruct (wlp_Ok _ _ _ _ _ (thread_block_mark_wlp c st s) Em) as (cp & th & Hc & Hl & Hth & Ec & Et).
  pose proof (wlp_Ok _ _ _ _ _ (quietly_schedule 2 c r s1) Hb) as Hcalm. cbn beta in Hcalm.
  assert (forall t, is_blocked s' t -> t <> currthread cp -> is_blocked s t) as Hother.
  { intros t Ht Hne. apply Hcalm in Ht as (th' & Hl' & Hbl). rewrite Et, lookup_insert_ne in Hl' by done. by exists th'. }
  destruct Hinv as [Hn Hp Hg]. split; [by eapply NoDup_shrink|..].
  2: { intros t Ht. apply Hg. by eapply elem_of_submseteq. }
  intros t Ht Hin. destruct (decide (t = currthread cp)) as [->|Hne].
  2: { eapply (Hp t); [by apply Hother|]. by eapply elem_of_submseteq. }
  apply Hcalm in Ht as (th' & Hl' & Hbl). rewrite Et, lookup_insert_eq in Hl'. injection Hl' as <-. cbn in Hbl.
  destruct (Hcan Hbl) as (cp0 & Hc0 & Hne & Hq). assert (cp0 = cp) as -> by congruence.
  destruct (wlp_Ok _ _ _ _ _ (schedule_shrinks 2 c r s1) Hb) as (cp1 & cp' & Hc1 & Es & _ & Hstop).
  rewrite Ec in Hc1, Es. assert (cp1 = cp) as -> by congruence.
  destruct (places_split s c cp Hc) as (rest & Hpl & Hpl'). rewrite (Hpl' s' cp' Es) in Hin. rewrite Hpl in Hn.
  assert (held cp = currthread cp :: run_queue cp) as Hheld by (unfold held, truth; by rewrite (proj2 (Z.eqb_neq _ _) Hne)).
  rewrite Hheld in Hn. cbn in Hn. apply NoDup_cons in Hn as [Hni _]. apply Hni. apply elem_of_app in Hin as [Hin|Hin]; [|set_solver].
  apply elem_of_app. left. eapply elem_of_submseteq; [exact Hin|]. apply Hstop. split_and!; [done|done|].
  unfold state_of. rewrite Et, lookup_insert_eq. cbn. intros [= ->]. done.
Qed.

Lemma thread_unblock_inv G c r t n s s' :
  sched_inv G s -> is_blocked s t -> thread_unblock c r t s = Ok (n, s') -> sched_inv ({[t]} ∪ G) s'.
Proof.
  intros Hinv Hbl Hu. apply (inv_add G s s' t); [done|by apply Hinv| | |].
  - assert (wlp (thread_unblock c r t) (fun _ s' => ~ is_blocked s' t) s) as Hw; [|exact (wlp_Ok _ _ _ _ _ Hw Hu)].
    unfold thread_unblock. apply wlp_bind, acquire_lock_wlp. intros cp Hc _. apply wlp_bind, upd_thread_wlp. intros th Hth.
    set (s1 := upd_threads _ _). assert (~ is_blocked s1 t) as Hs1.
    { intros (th' & Hl & Hb). cbn in Hl. rewrite lookup_insert_eq in Hl. injection Hl as <-. done. }
    assert (quietly (upd_cpu c (push_queue t);; release_lock c;; cp ← get_cpu c;
      if (length (run_queue cp) =? 1)%nat then n ← trap c r; mret (Some n) else mret None)) as Hq.
    { unfold release_lock, trap. repeat first [apply quietly_schedule | quiet_step | match goal with |- quietly (if ?x then _ else _) => destruct x end]. }
    eapply wlp_mono; [apply Hq|]. intros n' s2 Hc2 Ht. apply Hs1. by apply Hc2.
  - exact (wlp_Ok _ _ _ _ _ (thread_unblock_places c r t s) Hu).
  - exact (wlp_Ok _ _ _ _ _ (quietly_unblock c r t s) Hu).
Qed.

(** *** The steps *)

(** The operations of the scheduler, one at a time, with the threads started so far.  The
    conditions are those of the callers, about the thread's own state: a thread is spawned
    once, when it is new (ready); a thread that is woken is blocked; a thread that blocks
    is current and its CPU has another one to run. *)
Inductive sstep : gset Z * sstate P -> gset Z * sstate P -> Prop :=
  | step_tick G c r n s s' : trap c r s = Ok (n, s') -> sstep (G, s) (G, s')
  | step_block G c r st n s s' :
      (blocked st = true -> can_block c s) -> thread_block c r st s = Ok (n, s') -> sstep (G, s) (G, s')
  | step_unblock G c r t n s s' :
      is_blocked s t -> thread_unblock c r t s = Ok (n, s') -> sstep (G, s) ({[t]} ∪ G, s')
  | step_spawn G t s s' :
      t ∉ G -> state_of s t = Some THREAD_STATE_READY -> thread_spawn t s = Ok ((), s') -> sstep (G, s) ({[t]} ∪ G, s')
  | step_kill G t s s' : thread_kill t s = Ok ((), s') -> sstep (G, s) (G, s')
  | step_sleep G c r at_ n s s' : can_block c s -> thread_sleepuntil c r at_ s = Ok (n, s') -> sstep (G, s) (G, s')
  | step_signal G c r p sig n s s' : signal_send c r p sig s = Ok (n, s') -> sstep (G, s) (G, s')
  | step_sem_acquire G c r m m' n s s' :
      can_block c s -> sem_acquire c r m s = Ok ((m', n), s') -> sstep (G, s) (G, s')
  | step_sem_release G c r m m' n s s' :
      Forall (is_blocked s) (take 1 (sem_wait m)) -> sem_release c r m s = Ok ((m', n), s') ->
      sstep (G, s) (list_to_set (take 1 (sem_wait m)) ∪ G, s').

Lemma signal_send_places c r p sig s : wlp (signal_send c r p sig) (fun _ s' => places s' ⊆+ places s) s.
Proof.
  unfold signal_send. apply wlp_bind, get_proc_wlp. intros pr. apply wlp_bind, wlp_unwrap. intros h _.
  apply wlp_bind, upd_proc_wlp. intros g. apply wlp_bind. eapply wlp_mono; [apply sched_get_currproc_keeps|].
  intros cur s1 ->. destruct (p =? cur); [|by apply wlp_ret]. apply wlp_bind. unfold wlp at 1, sched_yield.
  destruct (trap _ _ _) as [[n s2]|] eqn:Ht; [|done]. apply wlp_ret. apply trap_places in Ht. exact Ht.
Qed.

(** Setting the expiry of the current thread moves and blocks nothing. *)
Lemma thread_sleepuntil_inv G c r at_ n s s' :
  sched_inv G s -> can_block c s -> thread_sleepuntil c r at_ s = Ok (n, s') -> sched_inv G s'.
Proof.
  intros Hinv Hcan Hs. assert (wlp (thread_sleepuntil c r at_) (fun _ s' => sched_inv G s') s) as Hw; [|exact (wlp_Ok _ _ _ _ _ Hw Hs)].
  clear n s' Hs. unfold thread_sleepuntil. apply wlp_bind. unfold wlp at 1. cbn. destruct (at_ <=? _); [by apply wlp_ret|].
  apply wlp_bind, acquire_lock_wlp. intros cp Hc Hl. pose proof (lookup_lt_Some _ _ _ Hc) as Hlt.
  apply wlp_bind, get_cpu_wlp. intros cp1 Hc1. cbn in Hc1. rewrite list_lookup_insert_eq in Hc1 by done. injection Hc1 as <-.
  apply wlp_bind, upd_thread_wlp. intros th Hth. cbn in Hth. apply wlp_bind. unfold release_lock. apply upd_cpu_wlp. intros cp2 Hc2.
  cbn in Hc2. rewrite list_lookup_insert_eq in Hc2 by done. injection Hc2 as <-. set (s1 := upd_cpus _ _).
  assert (s_cpus s1 = s_cpus s) as Ec.
  { cbn. rewrite list_insert_insert_eq. apply list_insert_id. rewrite Hc. by destruct cp as [?? ? []]. }
  apply wlp_bind. unfold wlp at 1. destruct (thread_block c r THREAD_STATE_ASLEEP s1) as [[n s2]|] eqn:Hb; [|done].
  apply wlp_ret. apply (thread_block_inv G c r THREAD_STATE_ASLEEP n s1); [|intros _; unfold can_block; by rewrite Ec|done].
  apply (inv_shrink G s); [done|unfold places; by rewrite Ec|].
  intros t (th' & Hl' & Hb'). cbn in Hl'. rewrite lookup_insert in Hl'. case_decide as E; [|by exists th'].
  injection Hl' as <-. subst t. by exists th.
Qed.

Lemma sstep_inv G s G' s' : sstep (G, s) (G', s') -> sched_inv G s -> sched_inv G' s'.
Proof.
  intros Hst Hi. inversion Hst as [? c r n ?? Ht|? c r st n ?? Hcan Ht|? c r t n ?? Hf Ht|? t ?? Hg Hst' Ht|? t ?? Ht
    |? c r at_ n ?? Hcan Ht|? c r p sig n ?? Ht|? c r m m' n ?? Hcan Ht|? c r m m' n ?? Hf Ht]; subst.
  - apply (inv_shrink G' s); [done|by eapply trap_places|]. exact (wlp_Ok _ _ _ _ _ (quietly_schedule 2 c r s) Ht).
  - by eapply thread_block_inv.
  - by eapply thread_unblock_inv.
  - apply (inv_add G s s' t); [done|intros Hin; by apply Hg, Hi| | |].
    + intros (th & Hl & Hb)%(wlp_Ok _ _ _ _ _ (quietly_spawn t s) Ht). unfold state_of in Hst'. rewrite Hl in Hst'.
      cbn in Hst'. injection Hst' as E. rewrite E in Hb. done.
    + by rewrite (wlp_Ok _ _ _ _ _ (thread_spawn_places t s) Ht).
    + exact (wlp_Ok _ _ _ _ _ (quietly_spawn t s) Ht).
  - apply (inv_shrink G' s); [done| |].
    + unfold thread_kill, upd_thread, get_thread, bindM, get in Ht. destruct (s_threads s !! t); [|done]. by injection Ht as <-.
    + exact (wlp_Ok _ _ _ _ _ (quietly_with_state t THREAD_STATE_KILLED eq_refl s) Ht).
  - by eapply thread_sleepuntil_inv.
  - apply (inv_shrink G' s); [done|exact (wlp_Ok _ _ _ _ _ (signal_send_places c r p sig s) Ht)|].
    exact (wlp_Ok _ _ _ _ _ (quietly_signal_send c r p sig s) Ht).
  - unfold sem_acquire in Ht. destruct (_ <? _); [by injection Ht as _ _ <-|]. unfold bindM in Ht.
    destruct (get_cpu c s) as [[cp s1]|] eqn:Eg; [|done]. assert (s1 = s) as ->.
    { exact (wlp_Ok _ _ _ _ _ (get_cpu_wlp c (fun _ s' => s' = s) s ltac:(done)) Eg). }
    destruct (thread_block c r _ s) as [[n' s2]|] eqn:Hb; [|done]. injection Ht as _ _ <-. by eapply thread_block_inv.
  - unfold sem_release in Ht. destruct (sem_wait m) as [|t w]; [injection Ht as _ _ <-; cbn; by rewrite (left_id_L ∅ (∪))|].
    unfold bindM in Ht. destruct (thread_unblock c r t s) as [[n' s1]|] eqn:Hu; [|done]. injection Ht as _ _ <-.
    cbn in Hf. apply Forall_cons in Hf as [Hf _].
    replace (list_to_set (take 1 (t :: w)) ∪ G) with ({[t]} ∪ G) by (cbn; set_solver). by eapply thread_unblock_inv.
Qed.
End places.


(** ** A machine to run the code on *)

Definition demo_regs : reg_ctx := fresh_regs 0x1000 KERNEL_CS KERNEL_SS 0x8000.
Definition demo_proc : proc := mk_proc 0 0x100 [] [] None [16; 32; 48] 3 [] 0 [] [0; 0; 0] None.
Definition demo_io : io := mk_io ∅ vfs_init ∅.
Definition demo_thread (state expiry : Z) : thread := mk_thread 64 state demo_regs expiry 1.

(** Thread 16 runs on CPU 0, thread 32 on CPU 1. *)
Definition two_cpus {P} (mem : P) : sstate P :=
  mk_sstate {[16 := demo_thread THREAD_STATE_RUNNING 0; 32 := demo_thread THREAD_STATE_RUNNING 0]}
    {[64 := demo_proc]} [mk_cpu 16 [16] [] false; mk_cpu 32 [32] [] false] 1 0 256 mem demo_io.
(** Threads 16 and 32 share one CPU. *)
Definition one_cpu {P} (mem : P) : sstate P :=
  mk_sstate {[16 := demo_thread THREAD_STATE_RUNNING 0; 32 := demo_thread THREAD_STATE_READY 0]}
    {[64 := demo_proc]} [mk_cpu 16 [16; 32] [32] false] 1 0 256 mem demo_io.
(** Thread 32 sleeps until time 5. *)
Definition sleeper {P} (mem : P) : sstate P :=
  mk_sstate {[16 := demo_thread THREAD_STATE_RUNNING 0; 32 := demo_thread THREAD_STATE_ASLEEP 5]}
    {[64 := demo_proc]} [mk_cpu 16 [16; 32] [] false] 1 9 256 mem demo_io.
Definition empty_machine {P} (mem : P) : sstate P :=
  mk_sstate {[16 := demo_thread THREAD_STATE_READY 0; 32 := demo_thread THREAD_STATE_READY 0]} {[64 := demo_proc]} [mk_cpu 0 [] [] false] 1 0 256 mem demo_io.

(** The interleaving: CPU 0 is about to trap in [thread_block], CPU 1 wakes the thread,
    then CPU 0 traps. *)
Definition block_race {P} `{VSpace P} `{VfsNodes (sstate P)} : M (sstate P) () :=
  thread_block_mark 0 THREAD_STATE_WAIT_LOCK;;
  _ ← thread_unblock 1 demo_regs 16;
  _ ← trap 0 demo_regs;
  mret ().

(** [thread_block] releases the CPU's lock before it traps.  If the thread it
    blocks is woken in between by another CPU, both CPUs end up running it. *)
Theorem block_race_runs_twice {P} `{VSpace P} `{VfsNodes (sstate P)} (mem : P) :
  match block_race (two_cpus mem) with
  | Ok (_, s) => currthread <$> s_cpus s = [16; 16]
  | Err _ => False
  end.
Proof. vm_compute. reflexivity. Qed.

(** A thread that blocks while nothing else is queued on its CPU stays its current thread;
    when another CPU wakes it and runs it, and the clock ticks on the first, it runs on
    both, although no operation overlapped another. *)
Definition block_idle {P} `{VSpace P} `{VfsNodes (sstate P)} : M (sstate P) () :=
  _ ← thread_block 0 demo_regs THREAD_STATE_WAIT_LOCK;
  _ ← thread_unblock 1 demo_regs 16;
  _ ← trap 0 demo_regs;
  mret ().
Theorem block_idle_runs_twice {P} `{VSpace P} `{VfsNodes (sstate P)} (mem : P) :
  match block_idle (two_cpus mem) with
  | Ok (_, s) => currthread <$> s_cpus s = [16; 16]
  | Err _ => False
  end.
Proof. vm_compute. reflexivity. Qed.

(** An address-space manager and file nodes that do nothing, for closed examples. *)
Definition demo_VSpace : VSpace () := {|
  vs_mk_map := mret 1; vs_clone_map := fun m => mret m; vs_alloc_region := fun _ _ => mret 0x4000;
  vs_map_memory := fun _ _ _ _ => mret (); vs_request := mret 0x1000;
  vs_kernel_alloc := fun _ => mret 0x9000; vs_kernel_map := fun _ _ _ => mret ();
  vs_alloc_region_at := fun _ _ _ => mret (); vs_kernel_free := fun _ _ => mret ();
|}.
Definition demo_VfsNodes : VfsNodes (sstate ()) := {|
  node_ops := fun _ => mk_vfs_ops None None None None None None None None None None;
  node_flags := fun _ => 0; node_size := fun _ => 0; node_free := fun _ => mret ();
|}.

Section witnesses.
#[local] Existing Instance demo_VSpace.
#[local] Existing Instance demo_VfsNodes.

(** A forked process has its own thread, queued on the least loaded CPU, and sees 0
    as the result of fork. *)
Example fork_demo :
  match sched_fork 64 demo_regs (two_cpus ()) with
  | Ok (id, s) => id = 1 /\ (run_queue <$> s_cpus s) = [[272]; []] /\
      option_map (fun t => rax (t_regs t)) (s_threads s !! 272) = Some 0
  | Err _ => False
  end.
Proof. vm_compute. auto. Qed.

Lemma thread_spawn_least_loaded_witness :
  exists c cp, s_cpus (two_cpus ()) !! c = Some cp /\
    (forall i, (i < 2)%nat -> (load (two_cpus ()) c <= load (two_cpus ()) i)%nat /\
       ((i < c)%nat -> (load (two_cpus ()) c < load (two_cpus ()) i)%nat)) /\
    thread_spawn 48 (two_cpus ()) =
      (if c_lock cp then Err Hang
       else Ok ((), upd_cpus (insert c (mk_cpu (currthread cp) (c_threads cp ++ [48]) (run_queue cp ++ [48]) false))
                      (two_cpus ()))).
Proof. apply (thread_spawn_least_loaded 48 (two_cpus ())). done. Defined.

Lemma reaper_deadlocks_witness : reap_cpu 10 0 (sleeper ()) = Err Hang.
Proof.
  apply (reaper_deadlocks (sleeper ()) (mk_cpu 16 [16; 32] [] false) 10).
  - reflexivity.
  - reflexivity.
  - constructor; [|constructor; [|constructor]]; (eexists; split; [reflexivity|done]).
  - exists 32. split; [right; left|]. eexists. split_and!; [reflexivity|reflexivity|vm_compute; congruence].
  - vm_compute. lia.
Defined.

Lemma one_cpu_rotation : rotation (one_cpu ()) 0 [16; 32].
Proof.
  split.
  - eexists. split_and!; reflexivity.
  - apply (bool_decide_unpack _). reflexivity.
  - intros t [->|[->|[]%elem_of_nil]%elem_of_cons]%elem_of_cons;
      (do 2 eexists; split_and!; [done|reflexivity|reflexivity|by left]).
  - intros t th [= <-] Hl. vm_compute in Hl. by injection Hl as <-.
Qed.

Lemma schedule_round_robin_witness :
  exists s' cp, ticks 0 [demo_regs; demo_regs] (one_cpu ()) = Ok ((), s') /\ s_cpus s' !! 0%nat = Some cp /\
    c_lock cp = false /\ currthread cp :: run_queue cp = [16; 32].
Proof. apply (schedule_round_robin (one_cpu ()) 0 [16; 32] [demo_regs; demo_regs]); [simpl; lia|simpl; lia|apply one_cpu_rotation]. Defined.

Lemma mutex_is_semaphore_witness :
  same_lock mutex_create (sem_create 1) /\
  match mutex_acquire 0 demo_regs mutex_create (one_cpu ()), sem_acquire 0 demo_regs (sem_create 1) (one_cpu ()) with
  | Ok ((m', n), s1), Ok ((x', n'), s2) => same_lock m' x' /\ n = n' /\ s1 = s2
  | Err f, Err f' => f = f'
  | _, _ => False
  end /\
  (mproc mutex_create = 1 ->
   match mutex_release 0 demo_regs mutex_create (one_cpu ()), sem_release 0 demo_regs (sem_create 1) (one_cpu ()) with
   | Ok ((m', n), s1), Ok ((x', n'), s2) => same_lock m' x' /\ n = n' /\ s1 = s2
   | Err f, Err f' => f = f'
   | _, _ => False
   end).
Proof.
  apply (mutex_is_semaphore 0 demo_regs mutex_create (sem_create 1) (one_cpu ())).
  repeat split; by left.
Defined.

End witnesses.
