(* ===== verification/Input.v ===== *)
(** * Input: the keyboard and mouse queues (src/drivers/input)

    Both drivers keep an anonymous structure: an array of 512 four-byte elements
    followed by a 32-bit index, -1 when empty.  The structure is modelled as it lies
    in memory, as 513 little-endian words of which the last is the index, so that a
    write one past the array lands in the index, as it does in the program; a write
    outside the structure is a fault.  The port reads are arguments. *)

From S2P Require Import Prelude Disk Vfs.

(** ** The queues *)

Definition KEY_QUEUE_SIZE : Z := 512.
Definition MOUSE_QUEUE_SIZE : Z := 512.

(** The words of the structure; word 512 is the index. *)
Abbreviation queue := (list Z).

Definition q_get (i : Z) : M queue Z :=
  q ← get; guard (0 <=? i) OutOfBounds;; unwrap (q !! Z.to_nat i) OutOfBounds.
Definition q_set (i v : Z) : M queue () :=
  q ← get; guard ((0 <=? i) && (i <? Z.of_nat (length q))) OutOfBounds;; put (<[Z.to_nat i := v]> q).
(** The signed index. *)
Definition q_end : M queue Z := v ← q_get 512; mret (s32 v).
Definition q_set_end (v : Z) : M queue () := q_set 512 (u32 v).

Definition q_init (q : queue) : queue := <[512%nat := u32 (-1)]> q.

(** ** Keyboard (ps2kb.c) *)

Definition kb_interrupt_handler (scan_code : Z) : M queue () :=
  e ← q_end;
  if e >? KEY_QUEUE_SIZE - 1 then mret () else
  q_set_end (e + 1);;
  e ← q_end;
  q_set e scan_code.

Definition kb_init : M queue () := q_set_end (-1).

(** [None]: no key. *)
Definition kb_get_key : M queue (option Z) :=
  e ← q_end;
  if e <? 0 then mret None else
  k ← q_get e;
  q_set_end (e - 1);;
  mret (Some k).

(** [kb_get_key(ptr++)] stores a 32-bit key at every byte of the buffer. *)
Definition kb_read (ptr : list Z) (size : Z) : M queue (Z * list Z) :=
  r ← for_acc 0 size (fun i ptr =>
        k ← kb_get_key;
        match k with
        | None => mret (inr (i, ptr))
        | Some key => ptr ← buf_write ptr i (le_enc 4 key); mret (inl ptr)
        end) ptr;
  match r with
  | inl ptr => mret (size, ptr)
  | inr (i, ptr) => mret (i, ptr)
  end.

(** ** Mouse (ps2mouse.c) *)

Definition MOUSE_BTN_LEFT : Z := 1.
Definition MOUSE_BTN_RIGHT : Z := 2.
Definition MOUSE_BTN_MID : Z := 4.

(** [mouse_packet_t]: four signed bytes, as one word of the queue. *)
Record mouse_packet : Type := mk_packet { btns : Z; xmov : Z; ymov : Z; scroll : Z }.
Definition packet_word (p : mouse_packet) : Z :=
  le_dec [u8 (btns p); u8 (xmov p); u8 (ymov p); u8 (scroll p)].

Record mouse_state : Type := mk_mouse { mouse_data : list Z; cycle : Z; mouse_queue : queue }.

Definition with_queue {A} (m : M queue A) : M mouse_state A := fun s =>
  match m (mouse_queue s) with
  | Ok (a, q) => Ok (a, mk_mouse (mouse_data s) (cycle s) q)
  | Err f => Err f
  end.
(** [mouse_data[i] = b; cycle = c]. *)
Definition m_byte (i : nat) (b c : Z) : M mouse_state () :=
  modify (fun s => mk_mouse (<[i := s8 b]> (mouse_data s)) c (mouse_queue s)).

Definition mouse_push (p : mouse_packet) : M queue () :=
  e ← q_end;
  q_set_end (e + 1);;
  e ← q_end;
  q_set e (packet_word p);;
  e ← q_end;
  if e >? MOUSE_QUEUE_SIZE then q_set_end (-1) else mret ().

(** [port] is the byte read from port 0x60, [garbage] the uninitialised [pack.scroll]. *)
Definition mouse_handler (port garbage : Z) : M mouse_state () :=
  s ← get;
  if cycle s =? 0 then
    m_byte 0 port 0;;
    s ← get;
    d0 ← unwrap (mouse_data s !! 0%nat) OutOfBounds;
    if negb (truth (d0 .& 0x8)) then mret () else
    modify (fun s => mk_mouse (mouse_data s) (u8 (cycle s + 1)) (mouse_queue s))
  else if cycle s =? 1 then m_byte 1 port (u8 (cycle s + 1))
  else if cycle s =? 2 then
    m_byte 2 port 0;;
    s ← get;
    d0 ← unwrap (mouse_data s !! 0%nat) OutOfBounds;
    d1 ← unwrap (mouse_data s !! 1%nat) OutOfBounds;
    d2 ← unwrap (mouse_data s !! 2%nat) OutOfBounds;
    let pack := mk_packet (s8 (d0 .& (MOUSE_BTN_LEFT .| MOUSE_BTN_RIGHT .| MOUSE_BTN_MID))) d1 (s8 (- d2)) garbage in
    with_queue (mouse_push pack)
  else modify (fun s => mk_mouse (mouse_data s) 0 (mouse_queue s)).

Definition mouse_get_packet : M queue (option Z) :=
  e ← q_end;
  if e <? 0 then mret None else
  p ← q_get e;
  q_set_end (e - 1);;
  mret (Some p).

Definition mouse_vfs_read (ptr : list Z) (size : Z) : M queue (Z * list Z) :=
  r ← for_acc 0 size (fun i ptr =>
        p ← mouse_get_packet;
        match p with
        | None => mret (inr (i, ptr))
        | Some w => ptr ← buf_write ptr i (le_enc 4 w); mret (inl ptr)
        end) ptr;
  match r with
  | inl ptr => mret (size, ptr)
  | inr (i, ptr) => mret (i, ptr)
  end.

(** ** The keyboard queue as a bounded stack *)

(** The structure holds the keys [ks], the last one typed first. *)
Record kb_rep (q : queue) (ks : list Z) : Prop := {
  kr_len : length q = 513%nat;
  kr_cnt : (length ks <= 512)%nat;
  kr_end : q !! 512%nat = Some (u32 (Z.of_nat (length ks) - 1));
  kr_keys : forall i k, rev ks !! i = Some k -> q !! i = Some k;
  kr_code : Forall byte ks;
}.

Lemma s32_u32 x : -1 <= x <= 512 -> s32 (u32 x) = x.
Proof. intros. unfold sN, uN. dlia. Qed.

Lemma q_end_wp q ks Q : kb_rep q ks -> Q (Z.of_nat (length ks) - 1) q -> wp q_end Q q.
Proof.
  intros [Hl Hc He _ _] HQ. unfold q_end, q_get. wp_step. wp_step. wp_step. wp_step. wp_step; [done|].
  wp_step; [exact He|]. wp_step. rewrite s32_u32 by lia. done.
Qed.

Lemma q_set_wp i v q Q : 0 <= i < Z.of_nat (length q) -> Q () (<[Z.to_nat i := v]> q) -> wp (q_set i v) Q q.
Proof.
  intros Hi HQ. unfold q_set. wp_step. wp_step. wp_step. wp_step; [|by wp_step].
  rewrite andb_true_iff, Z.leb_le, Z.ltb_lt. lia.
Qed.

Lemma kb_push_rep q ks k :
  kb_rep q ks -> (length ks < 512)%nat -> byte k ->
  kb_rep (<[length ks := k]> (<[512%nat := u32 (Z.of_nat (length ks))]> q)) (k :: ks).
Proof.
  intros [Hl Hc He Hk Hb] Hlt Hbk. split.
  - by rewrite !length_insert.
  - simpl. lia.
  - rewrite list_lookup_insert_ne by lia. rewrite list_lookup_insert_eq by lia. do 2 f_equal. simpl. lia.
  - intros i x. simpl. intros [Hi|[Hi1 Hi2]]%lookup_app_Some.
    + pose proof (lookup_lt_Some _ _ _ Hi) as Hlen. rewrite length_rev in Hlen.
      rewrite !list_lookup_insert_ne by lia. by apply Hk.
    + rewrite length_rev in Hi1, Hi2. destruct (i - length ks)%nat as [|n] eqn:E; [|by destruct n].
      injection Hi2 as ->. assert (i = length ks) as -> by lia.
      apply list_lookup_insert_eq. rewrite length_insert. lia.
  - by constructor.
Qed.

Lemma kb_interrupt_wp q ks k Q :
  kb_rep q ks -> byte k ->
  (forall q' ks', kb_rep q' ks' ->
     ks' = (if decide (length ks < 512)%nat then k :: ks else drop (512 - (Z.to_nat k + 1)) ks) -> Q () q') ->
  wp (kb_interrupt_handler k) Q q.
Proof.
  intros Hr Hbk HQ. cbn beta in Hbk. pose proof Hr as [Hl Hc He Hk Hb]. unfold kb_interrupt_handler.
  wp_focus. eapply q_end_wp; [done|].
  destruct (Z.gtb_spec (Z.of_nat (length ks) - 1) (KEY_QUEUE_SIZE - 1)) as [Hgt|Hle]; [unfold KEY_QUEUE_SIZE in Hgt; lia|].
  replace (Z.of_nat (length ks) - 1 + 1) with (Z.of_nat (length ks)) by lia.
  unfold q_set_end. wp_focus. apply q_set_wp; [lia|]. change (Z.to_nat 512) with 512%nat.
  unfold q_end, q_get. wp_focus. wp_step. wp_step. wp_step. wp_step. wp_step; [done|].
  wp_step; [change (Z.to_nat 512) with 512%nat; rewrite list_lookup_insert_eq by lia; reflexivity|].
  wp_step. rewrite s32_u32 by lia. apply q_set_wp; [rewrite length_insert; lia|]. rewrite Nat2Z.id.
  destruct (decide (length ks < 512)%nat) as [Hlt|Hge].
  - apply (HQ _ (k :: ks)); [by apply kb_push_rep|done].
  - assert (length ks = 512)%nat as E by lia. rewrite E, list_insert_insert_eq.
    eapply HQ; [|reflexivity]. assert (length (drop (512 - (Z.to_nat k + 1)) ks) = (Z.to_nat k + 1)%nat) as Hd
      by (rewrite length_drop; lia).
    split.
    + by rewrite length_insert.
    + lia.
    + rewrite list_lookup_insert_eq by lia. f_equal. rewrite Hd. unfold uN. symmetry. rewrite Z.mod_small; lia.
    + intros i x Hi. pose proof (lookup_lt_Some _ _ _ Hi) as Hlen. rewrite length_rev, Hd in Hlen.
      rewrite list_lookup_insert_ne by lia. apply Hk.
      rewrite <- (take_drop (512 - (Z.to_nat k + 1)) ks), rev_app_distr.
      rewrite lookup_app_l by (rewrite length_rev, Hd; lia). exact Hi.
    + by apply Forall_drop.
Qed.

Lemma kb_get_key_wp q ks Q :
  kb_rep q ks ->
  match ks with
  | [] => Q None q
  | k :: r => forall q', kb_rep q' r -> Q (Some k) q'
  end -> wp kb_get_key Q q.
Proof.
  intros Hr HQ. pose proof Hr as [Hl Hc He Hk Hb]. unfold kb_get_key. wp_focus. eapply q_end_wp; [done|].
  destruct ks as [|k r]; [by apply HQ|].
  rewrite (proj2 (Z.ltb_ge _ _)) by (simpl; lia). simpl length in *.
  replace (Z.of_nat (S (length r)) - 1) with (Z.of_nat (length r)) by lia.
  assert (q !! length r = Some k) as Hlk.
  { apply Hk. simpl. rewrite lookup_app_r by (rewrite length_rev; lia). by rewrite length_rev, Nat.sub_diag. }
  unfold q_get. wp_focus. wp_step. wp_step. wp_step. wp_step; [by apply Z.leb_le; lia|].
  wp_step; [rewrite Nat2Z.id; exact Hlk|].
  unfold q_set_end. wp_focus. apply q_set_wp; [lia|]. wp_step. apply HQ. change (Z.to_nat 512) with 512%nat. split.
  - by rewrite length_insert.
  - lia.
  - by rewrite list_lookup_insert_eq by lia.
  - intros i x Hi. pose proof (lookup_lt_Some _ _ _ Hi) as Hlen. rewrite length_rev in Hlen.
    rewrite list_lookup_insert_ne by lia. apply Hk. simpl. by rewrite lookup_app_l by (rewrite length_rev; lia).
  - by inversion Hb.
Qed.

(** What users of the keyboard expect: a stack of at most 512 keys; a key typed when it is
    full is dropped. *)
Inductive kb_op : Type := Press (k : Z) | GetKey.

Definition kb_step (o : kb_op) : M queue (option Z) :=
  match o with Press k => kb_interrupt_handler k;; mret None | GetKey => kb_get_key end.
Definition kb_spec (o : kb_op) (ks : list Z) : option Z * list Z :=
  match o, ks with
  | Press k, _ => (None, if decide (length ks < 512)%nat then k :: ks else ks)
  | GetKey, [] => (None, [])
  | GetKey, k :: r => (Some k, r)
  end.

Fixpoint kb_run (os : list kb_op) : M queue (list (option Z)) :=
  match os with [] => mret [] | o :: r => x ← kb_step o; xs ← kb_run r; mret (x :: xs) end.
Fixpoint kb_run_spec (os : list kb_op) (ks : list Z) : list (option Z) :=
  match os with [] => [] | o :: r => (kb_spec o ks).1 :: kb_run_spec r (kb_spec o ks).2 end.

(** Scan codes are bytes, and no key is typed at a full queue. *)
Definition kb_valid (o : kb_op) (ks : list Z) : Prop :=
  match o with Press k => byte k /\ (length ks < 512)%nat | GetKey => True end.
Fixpoint kb_valids (os : list kb_op) (ks : list Z) : Prop :=
  match os with [] => True | o :: r => kb_valid o ks /\ kb_valids r (kb_spec o ks).2 end.

Lemma kb_step_wp o q ks Q :
  kb_rep q ks -> kb_valid o ks -> (forall q', kb_rep q' (kb_spec o ks).2 -> Q (kb_spec o ks).1 q') ->
  wp (kb_step o) Q q.
Proof.
  intros Hr Hv HQ. destruct o as [k|]; simpl.
  - destruct Hv as [Hk Hlt]. cbn in HQ. rewrite decide_True in HQ by done.
    wp_focus. eapply kb_interrupt_wp; [done|done|]. rewrite decide_True by done. intros q' ks' Hr' ->. wp_step. by apply HQ.
  - eapply kb_get_key_wp; [done|]. destruct ks as [|k r]; simpl in *; [by apply HQ|]. intros q' Hr'. by apply HQ.
Qed.

Lemma kb_run_wp os q ks :
  kb_rep q ks -> kb_valids os ks -> wp (kb_run os) (fun xs _ => xs = kb_run_spec os ks) q.
Proof.
  revert q ks. induction os as [|o os IH]; intros q ks Hr Hv; [done|]. destruct Hv as [Ho Hos].
  cbn [kb_run kb_run_spec]. wp_focus. eapply kb_step_wp; [done..|]. intros q' Hr'.
  wp_focus. eapply wp_mono; [by apply (IH q' _ Hr' Hos)|]. intros xs q'' ->. by wp_step.
Qed.

Lemma kb_init_rep q : length q = 513%nat -> kb_rep (q_init q) [].
Proof.
  intros Hl. unfold q_init. split.
  - by rewrite length_insert.
  - simpl. lia.
  - by rewrite list_lookup_insert_eq by lia.
  - intros i k Hi. by destruct i.
  - constructor.
Qed.

(** A key [k] typed at a full queue is neither stored nor dropped: it lands in [queue_end],
    behind the array, and all but the oldest [k + 1] keys are forgotten. *)
Theorem kb_queue_overflow q ks k :
  kb_rep q ks -> length ks = 512%nat -> byte k ->
  exists q', kb_interrupt_handler k q = Ok ((), q') /\ kb_rep q' (drop (512 - (Z.to_nat k + 1)) ks).
Proof.
  intros Hr Hl Hk. assert (wp (kb_interrupt_handler k) (fun _ q' => kb_rep q' (drop (512 - (Z.to_nat k + 1)) ks)) q) as Hw.
  { eapply kb_interrupt_wp; [done|done|]. intros q' ks' Hr'. rewrite decide_False by lia. by intros <-. }
  apply wp_Ok in Hw as ([] & q' & He & Hq). by exists q'.
Qed.



(** Reading keys into a buffer of the size asked for runs over its end. *)
Example kb_read_overruns :
  (kb_init;; kb_interrupt_handler 30;; kb_read [0] 1) (replicate 513 0) = Err OutOfBounds.
Proof. vm_compute. reflexivity. Qed.

(** The mouse queue has no room check before it stores: at the 513th packet the
    store lands in [packet_end]; with a negative top byte (the field [scroll] is never
    set) the index becomes negative, and the next packet is stored outside the queue. *)
Theorem mouse_queue_corrupts q p p' :
  length q = 513%nat -> q !! 512%nat = Some 511 -> 128 <= u8 (scroll p) -> packet_word p <> 2 ^ 32 - 1 ->
  (mouse_push p;; mouse_push p') q = Err OutOfBounds.
Proof.
  intros Hl He Hs Hw. assert (0 <= packet_word p < 2 ^ 32) as Hr.
  { apply (le_dec_range [_; _; _; _]). repeat constructor; apply uN_range; lia. }
  assert (2 ^ 31 <= packet_word p) as Hneg.
  { unfold packet_word. cbn [le_dec]. pose proof (uN_range 8 (btns p)). pose proof (uN_range 8 (xmov p)).
    pose proof (uN_range 8 (ymov p)). change (2 ^ 31) with 2147483648. lia. }
  assert (s32 (packet_word p) = packet_word p - 2 ^ 32) as Hs32.
  { unfold sN. change (2 ^ (32 - 1)) with 2147483648. change (2 ^ 31) with 2147483648 in *.
    change (2 ^ 32) with 4294967296 in *. dlia. }
  assert (forall q' v, length q' = 513%nat -> wp (A := Z) q_end (fun e s => e = s32 v /\ s = <[512%nat := v]> q') (<[512%nat := v]> q')) as Hend.
  { intros q' v Hq'. unfold q_end, q_get. wp_step. wp_step. wp_step. wp_step. wp_step; [done|].
    wp_step; [change (Z.to_nat 512) with 512%nat; apply list_lookup_insert_eq; lia|]. by wp_step. }
  apply bind_fault. unfold mouse_push at 1.
  rewrite <- (list_insert_id q 512 511 He) at 1.
  wp_focus. eapply wp_mono; [by apply Hend|]. intros e s [-> ->]. unfold q_set_end.
  wp_focus. apply q_set_wp; [rewrite length_insert; lia|]. rewrite list_insert_insert_eq.
  wp_focus. eapply wp_mono; [by apply Hend|]. intros e s [-> ->].
  change (s32 (u32 (s32 511 + 1))) with 512.
  wp_focus. apply q_set_wp; [rewrite length_insert; lia|]. rewrite list_insert_insert_eq.
  wp_focus. eapply wp_mono; [by apply Hend|]. intros e s [-> ->].
  unfold MOUSE_QUEUE_SIZE. rewrite Hs32. destruct (Z.gtb_spec (packet_word p - 2 ^ 32) 512) as [|_]; [lia|].
  wp_step. unfold mouse_push. apply bind_fault. eapply wp_mono; [by apply Hend|]. intros e s [-> ->].
  rewrite Hs32. apply bind_fault. unfold q_set_end. apply q_set_wp; [rewrite length_insert; lia|].
  rewrite list_insert_insert_eq. apply bind_fault. eapply wp_mono; [by apply Hend|]. intros e s [-> ->].
  apply bind_Err. unfold q_set. apply bind_fault, wp_get. apply bind_Err. unfold guard.
  assert (s32 (u32 (packet_word p - 2 ^ 32 + 1)) < 0) as Hlt.
  { unfold sN, uN. change (2 ^ (32 - 1)) with 2147483648. change (2 ^ 31) with 2147483648 in *.
    change (2 ^ 32) with 4294967296 in *. dlia. }
  by rewrite (proj2 (Z.leb_gt _ _) Hlt).
Qed.

Lemma mouse_queue_corrupts_witness :
  (mouse_push (mk_packet 0 0 0 (-128));; mouse_push (mk_packet 0 0 0 0)) (<[512%nat := 511]> (replicate 513 0)) =
  Err OutOfBounds.
Proof.
  apply (mouse_queue_corrupts (<[512%nat := 511]> (replicate 513 0)) (mk_packet 0 0 0 (-128)) (mk_packet 0 0 0 0)).
  - reflexivity.
  - reflexivity.
  - vm_compute. congruence.
  - vm_compute. congruence.
Defined.
