(* ===== verification/Fat.v ===== *)
(** * Fat: cluster chains of the FAT32 reader (src/fs/fat)

    The boot record, the mount information and the walk through the file allocation
    table of fatent.c, fat.c and file.c, over a block device of class [BlkDev].  The
    state is the device and the number of live [kmalloc] blocks.  [fat_write] and
    [fat_read_dir] are empty in the source; [fat_write_cluster] passes the block number
    where the device expects the buffer. *)

From S2P Require Import Prelude Disk Strings Vfs.

(** ** Structures *)

(** [fat_bootrecord_t]: the parameter block and the FAT32 extension. *)
Record fat_bpb : Type := mk_bpb {
  sector_sz : Z; sectors_per_cluster : Z; res_sectors : Z; fats : Z; dir_entries : Z; sector_cnt : Z;
  media_desc_type : Z; bpb_sectors_per_fat : Z; sectors_per_track : Z; head_cnt : Z; hidden_sectors : Z;
  large_sector_cnt : Z;
}.
Definition bpb_layout : layout := replicate 11 1%nat ++ [2; 1; 2; 1; 2; 2; 1; 2; 2; 2; 4; 4]%nat.
Definition bpb_of (bs : list Z) : fat_bpb :=
  let vs := unpack bpb_layout bs in
  let f := fun i : nat => vs !!! (11 + i)%nat in
  mk_bpb (f 0%nat) (f 1%nat) (f 2%nat) (f 3%nat) (f 4%nat) (f 5%nat) (f 6%nat) (f 7%nat) (f 8%nat) (f 9%nat)
    (f 10%nat) (f 11%nat).

Record fat_ebr : Type := mk_ebr {
  sectors_per_fat : Z; eflags : Z; fat_vs : Z; cluster_num : Z; fsinfo_sector : Z; backup_bs : Z;
  drive_num : Z; esig : Z; volume_id : Z;
}.
Definition ebr_layout : layout := [4; 2; 2; 4; 2; 2]%nat ++ replicate 12 1%nat ++ [1; 1; 1; 4]%nat ++ replicate 19 1%nat.
Definition ebr_of (bs : list Z) : fat_ebr :=
  let vs := unpack ebr_layout bs in
  let f := fun i : nat => vs !!! i in
  mk_ebr (f 0%nat) (f 1%nat) (f 2%nat) (f 3%nat) (f 4%nat) (f 5%nat) (f 18%nat) (f 20%nat) (f 21%nat).
(** [sizeof(fat_bpb_t)]. *)
Definition BPB_SIZE : nat := 36.

(** [fat_vol_inf_t]. *)
Record fat_vol_inf : Type := mk_inf {
  sect_cnt : Z; fat_off : Z; root_ent_cnt : Z; root_offset : Z; root_sz : Z; fat_size : Z; fat_ent_sz : Z;
  sects_per_clus : Z; first_clus : Z; res_sects : Z;
}.

Record fatstate (D : Type) : Type := mk_fat { f_dev : D; f_live : Z }.
Arguments mk_fat {D}. Arguments f_dev {D}. Arguments f_live {D}.

(** ** Operations *)

Section ops.
Context {D : Type} `{BlkDev D}.
Abbreviation F := (M (fatstate D)).

Definition fat_alloc (n : Z) : F (list Z) :=
  modify (fun s => mk_fat (f_dev s) (f_live s + 1));; mret (replicate (Z.to_nat n) 0).
Definition fat_free : F () := modify (fun s => mk_fat (f_dev s) (f_live s - 1)).
(** [dev->read(dev, buf + off, lba, 1)]. *)
Definition fat_read_sector (buf : list Z) (off lba : Z) : F (list Z) :=
  d ← gets f_dev; buf_write buf off (blk_read d lba 1).

(** Arithmetic in [uint32_t]; [first_clus] and the rest are 32-bit fields. *)
Definition fat_cluster_to_lba (vol : fat_vol_inf) (cluster : Z) : Z :=
  u32 (u32 (first_clus vol + u32 (cluster * sects_per_clus vol)) - u32 (2 * sects_per_clus vol)).

(** The end-of-chain test of the [do]-[while] loop. *)
Definition chain_ends (cchain : Z) : bool := (cchain =? 0) || (cchain .& 0x0fffffff >=? 0x0ffffff8).

(** One round of the loop; [ret] has room for 1000 clusters, and is here the part of
    it in use. *)
Definition chain_step (vol : fat_vol_inf) (a : Z * list Z * list Z) : F (Z * list Z * list Z + list Z) :=
  let '(clus, buf, ret) := a in
  let fat_sector := u32 (res_sects vol + u32 (clus * 4) `div` 512) in
  let off := u32 (clus * 4) `mod` 512 in
  buf ← fat_read_sector buf 0 fat_sector;
  w ← buf_get 4 buf off;
  let cchain := w .& 0x0fffffff in
  guard (Z.of_nat (length ret) <? 1000) OutOfBounds;;
  let ret := ret ++ [clus] in
  mret (if chain_ends cchain then inr ret else inl (cchain, buf, ret)).

Definition fat_get_cluster_chain (fuel : N) (vol : fat_vol_inf) (first_cluster : Z) : F (list Z) :=
  _ ← fat_alloc 4000;
  buf ← fat_alloc 512;
  ret ← while_ fuel (chain_step vol) (first_cluster, buf, []);
  fat_free;;
  mret ret.

(** One sector is read per cluster. *)
Definition fat_read_cluster_chain (fuel : N) (vol : fat_vol_inf) (cluster : Z) : F (list Z * Z) :=
  clusters ← fat_get_cluster_chain fuel vol cluster;
  let num_clus := Z.of_nat (length clusters) in
  buf ← fat_alloc (num_clus * 512);
  r ← for_acc (B := Empty_set) 0 num_clus (fun i buf =>
        c ← unwrap (clusters !! Z.to_nat i) OutOfBounds;
        buf ← fat_read_sector buf (512 * i) (fat_cluster_to_lba vol c);
        mret (inl buf)) buf;
  fat_free;;
  match r with inl buf => mret (buf, num_clus) | inr e => match e with end end.

(** [fat_read]: the bytes copied to the caller's buffer [ptr], whatever the file's
    size; the cluster buffer is not freed. *)
Definition fat_read (fuel : N) (vol : fat_vol_inf) (inode_num : Z) (ptr : list Z) (off size : Z) : F (Z * list Z) :=
  '(buf, _) ← fat_read_cluster_chain fuel vol inode_num;
  bs ← buf_read buf off size;
  ptr ← buf_write ptr 0 bs;
  mret (1, ptr).

(** [fat_write_cluster], whose parameter [size] is not used.  [write] is the device's own
    function, with the arguments as vfs.h declares them: the pointer, the offset, the size. *)
Definition fat_write_cluster (write : Z -> Z -> Z -> F ()) (fuel : N) (vol : fat_vol_inf) (buf size cluster : Z) : F () :=
  chain ← fat_get_cluster_chain fuel vol cluster;
  c ← unwrap (chain !! 0%nat) OutOfBounds;
  write (fat_cluster_to_lba vol c) 1 buf.

Definition fat_is_fat : F bool :=
  record ← fat_alloc 512;
  record ← fat_read_sector record 0 0;
  let bpb := bpb_of record in
  let ebr := ebr_of (drop BPB_SIZE record) in
  if (esig ebr =? 0x28) || (esig ebr =? 0x29) then
    let data_sectors := u32 (large_sector_cnt bpb - u32 (res_sectors bpb + u32 (sectors_per_fat ebr * fats bpb))) in
    guard (truth (sectors_per_cluster bpb)) DivByZero;;
    let clusters := data_sectors `div` sectors_per_cluster bpb in
    if clusters >? 65525 then mret true else fat_free;; mret false
  else fat_free;; mret false.

Definition fat_init : F fat_vol_inf :=
  record ← fat_alloc 512;
  record ← fat_read_sector record 0 0;
  let bpb := bpb_of record in
  let ebr := ebr_of (drop BPB_SIZE record) in
  guard (truth (sector_sz bpb)) DivByZero;;
  fat_free;;
  mret (mk_inf (sector_cnt bpb) 1 (dir_entries bpb) (cluster_num ebr) ((dir_entries bpb * 32) `div` sector_sz bpb)
          (sectors_per_fat ebr) 8 (sectors_per_cluster bpb) (u32 (res_sectors bpb + u32 (fats bpb * sectors_per_fat ebr)))
          (res_sectors bpb)).

(** ** Directories (file.c) *)

Definition FAT_DIRECTORY : Z := 1.
Definition FAT_ATTR_VOL_ID : Z := 0x08.
Definition FAT_ATTR_LFN : Z := 0x0f.
(** [sizeof(fat_dir_entry_t)], and the bytes of its attributes. *)
Definition DIRENT_SIZE : Z := 32.
Definition DIRENT_ATTR : Z := 11.

(** The string at an offset, up to its terminator; without one the read leaves the
    buffer. *)
Fixpoint cstr_prefix (bs : list Z) : option (list Z) :=
  match bs with [] => None | b :: r => if b =? 0 then Some [] else cons b <$> cstr_prefix r end.
Definition str_at (buf : list Z) (off : Z) : F (list Z) := unwrap (cstr_prefix (drop (Z.to_nat off) buf)) OutOfBounds.
(** [strcpy(dst + off, src)]. *)
Definition copy_str (dst : list Z) (off : Z) (buf : list Z) (src : Z) : F (list Z) :=
  str ← str_at buf src; buf_write dst off (str ++ [0]).

(** Where the 13 characters of a long-name entry lie; each loses its high byte. *)
Definition lfn_offs : list Z := [1; 3; 5; 7; 9; 14; 16; 18; 20; 22; 24; 28; 30].
Fixpoint lfn_chars (dirs : list Z) (at_ : Z) (offs : list Z) (dst : list Z) (idx : Z) : F (list Z * Z) :=
  match offs with
  | [] => mret (dst, idx)
  | o :: r => c ← buf_get 2 dirs (at_ + o); dst ← buf_write dst idx [u8 c]; lfn_chars dirs at_ r dst (idx + 1)
  end.
(** The entries (their offsets in [dirs]) from the last to the first. *)
Fixpoint lfn_entries (dirs : list Z) (ents : list Z) (dst : list Z) (idx : Z) : F (list Z * Z) :=
  match ents with
  | [] => mret (dst, idx)
  | e :: r => '(dst, idx) ← lfn_chars dirs e lfn_offs dst idx; lfn_entries dirs r dst idx
  end.
Definition fat_get_lfn (dirs : list Z) (dst : list Z) (entries : list Z) : F (list Z) :=
  '(dst, idx) ← lfn_entries dirs (rev entries) dst 0; buf_write dst idx [0].

(** The name of a directory entry: from the long-name entries collected so far, or the
    eleven bytes of the short name.  [_name] is not initialised. *)
Definition entry_name (dirs name0 : list Z) (at_ : Z) (lfn : list Z) : F (list Z) :=
  dst ← (if lfn is [] then
           d ← copy_str name0 0 dirs at_; d ← copy_str d 8 dirs (at_ + 8); buf_write d 11 [0]
         else fat_get_lfn dirs name0 lfn);
  str_at dst 0.

(** One round of the search: go on with the long-name entries collected, or stop with
    the offset of the entry found. *)
Definition finddir_step (dirs name0 : list Z) (name : list Z) (i : Z) (lfn : list Z) : F (list Z + Z) :=
  let at_ := DIRENT_SIZE * i in
  first ← buf_get 1 dirs at_;
  attr ← buf_get 1 dirs (at_ + DIRENT_ATTR);
  if first =? 0 then mret (inl lfn)
  else if first =? 0xe5 then mret (inl [])
  else if attr =? FAT_ATTR_LFN then guard (Z.of_nat (length lfn) <? 10) OutOfBounds;; mret (inl (lfn ++ [at_]))
  else if truth (attr .& FAT_ATTR_VOL_ID) then mret (inl [])
  else n ← entry_name dirs name0 at_ lfn; mret (if str_eq name n then inr at_ else inl lfn).

(** [fat_finddir] of a directory with the given flags and first cluster ([None]: null,
    which is dereferenced for the volume before it is compared with null).  When the
    file is not found the node says so ([None]); when it is, its name is copied through
    the pointer [file.name], which was never set. *)
Definition fat_finddir (fuel : N) (vol : fat_vol_inf) (dir : option (Z * Z)) (name0 name : list Z) : F (option Z) :=
  '(flags, cluster) ← unwrap dir NullDeref;
  if negb (flags =? FAT_DIRECTORY) then mret None else
  '(dirs, num_clusters) ← fat_read_cluster_chain fuel vol cluster;
  _ ← fat_alloc 80;
  r ← for_acc 0 (num_clusters * 512) (finddir_step dirs name0 name) [];
  match r with
  | inl _ => fat_free;; mret None
  | inr _ => throw NullDeref
  end.
End ops.

(** ** The chain as the table defines it *)

Section chain.
Context {D : Type} `{BlkDev D} (vol : fat_vol_inf) (Hres : 0 <= res_sects vol < 2 ^ 16).
Implicit Types (d : D) (s : fatstate D).

(** The table entry of a cluster, 28 bits. *)
Definition fat_entry d (c : Z) : Z :=
  le_dec (take 4 (drop (Z.to_nat ((4 * c) `mod` 512)) (blk_read d (res_sects vol + (4 * c) `div` 512) 1))) .& 0x0fffffff.

(** The chain from a cluster, if it has at most [n] clusters. *)
Fixpoint fat_chain (n : nat) d (c : Z) : option (list Z) :=
  match n with
  | O => None
  | S n' =>
      let nx := fat_entry d c in
      if (nx =? 0) || (nx >=? 0x0ffffff8) then Some [c] else cons c <$> fat_chain n' d nx
  end.

Lemma fat_entry_range d c : 0 <= fat_entry d c < 2 ^ 28.
Proof.
  unfold fat_entry. change 0x0fffffff with (Z.ones 28). rewrite Z.land_ones by lia.
  apply Z.mod_pos_bound. lia.
Qed.
Lemma chain_ends_entry d c :
  chain_ends (fat_entry d c) = ((fat_entry d c =? 0) || (fat_entry d c >=? 0x0ffffff8)).
Proof.
  unfold chain_ends. change 0x0fffffff with (Z.ones 28). rewrite Z.land_ones by lia.
  by rewrite Z.mod_small by apply fat_entry_range.
Qed.

Lemma fat_read_sector_wp buf off lba Q s :
  0 <= off -> off + 512 <= Z.of_nat (length buf) ->
  Q (list_inserts (Z.to_nat off) (blk_read (f_dev s) lba 1) buf) s -> wp (fat_read_sector buf off lba) Q s.
Proof.
  intros. unfold fat_read_sector. wp_step. wp_step.
  pose proof (blk_read_length (f_dev s) lba 1 ltac:(lia)). apply buf_write_wp; [lia..|done].
Qed.

Lemma chain_step_eq s c buf ret :
  0 <= c < 2 ^ 28 -> length buf = 512%nat ->
  chain_step vol (c, buf, ret) s =
  if Z.of_nat (length ret) <? 1000 then
    Ok (if chain_ends (fat_entry (f_dev s) c) then inr (ret ++ [c])
        else inl (fat_entry (f_dev s) c, blk_read (f_dev s) (res_sects vol + (4 * c) `div` 512) 1, ret ++ [c]), s)
  else Err OutOfBounds.
Proof.
  intros Hc Hb. assert (u32 (c * 4) = 4 * c) as E1 by (rewrite Z.mul_comm; apply uN_small; lia).
  assert (u32 (res_sects vol + (4 * c) `div` 512) = res_sects vol + (4 * c) `div` 512) as E2
    by (apply uN_small; dlia).
  pose proof (blk_read_length (f_dev s) (res_sects vol + (4 * c) `div` 512) 1 ltac:(lia)) as Hl.
  unfold chain_step. rewrite E1, E2. destruct (Z.ltb_spec (Z.of_nat (length ret)) 1000) as [Hlt|Hge].
  - match goal with |- ?c s = Ok (?r, s) => assert (wp c (fun r' s' => r' = r /\ s' = s) s) as Hw end;
      [|by apply wp_Ok in Hw as (r & s' & He & -> & ->)].
    wp_focus. apply fat_read_sector_wp; [lia..|]. change (Z.to_nat 0) with 0%nat. rewrite inserts_all by lia.
    wp_focus. apply buf_get_wp; [dlia..|]. wp_step. wp_step; [done|]. by wp_step.
  - apply bind_fault, fat_read_sector_wp; [lia..|]. change (Z.to_nat 0) with 0%nat. rewrite inserts_all by lia.
    apply bind_fault, buf_get_wp; [dlia..|]. by apply bind_Err.
Qed.

(** The loop follows the chain: with [n] places left in the array it delivers the
    chain, or runs over the array when the chain is longer. *)
Lemma chain_loop n s c buf ret fuel :
  0 <= c < 2 ^ 28 -> length buf = 512%nat -> (length ret + n = 1000)%nat -> (n < fuel)%nat ->
  loopN fuel (chain_step vol) (c, buf, ret) s =
  match fat_chain n (f_dev s) c with
  | Some l => Ok (inr (ret ++ l), s)
  | None => Err OutOfBounds
  end.
Proof.
  revert c buf ret fuel. induction n as [|n IH]; intros c buf ret [|fuel] Hc Hb Hn Hf; try lia; cbn [loopN fat_chain].
  all: unfold bindM at 1; rewrite chain_step_eq by done.
  - by rewrite (proj2 (Z.ltb_ge _ _)) by lia.
  - rewrite (proj2 (Z.ltb_lt _ _)) by lia. rewrite chain_ends_entry. destruct (_ || _); [done|].
    pose proof (blk_read_length (f_dev s) (res_sects vol + (4 * c) `div` 512) 1 ltac:(lia)).
    rewrite IH; [|apply fat_entry_range|lia|rewrite length_app; simpl; lia|lia].
    destruct (fat_chain n _ _) as [l|]; simpl; [|done]. by rewrite <- app_assoc.
Qed.

Lemma get_chain_eq s c fuel :
  0 <= c < 2 ^ 28 -> (1000 < fuel)%N ->
  fat_get_cluster_chain fuel vol c s =
  match fat_chain 1000 (f_dev s) c with
  | Some l => Ok (l, mk_fat (f_dev s) (f_live s + 1))
  | None => Err OutOfBounds
  end.
Proof.
  intros Hc Hf. unfold fat_get_cluster_chain.
  pose proof (chain_loop 1000 (mk_fat (f_dev s) (f_live s + 1 + 1)) c (replicate 512 0) [] (N.to_nat fuel) Hc
    eq_refl eq_refl ltac:(lia)) as Hloop. cbn [f_dev] in Hloop.
  eapply bind_Ok; [reflexivity|]. eapply bind_Ok; [reflexivity|]. cbn [f_dev f_live].
  unfold while_. destruct (fat_chain 1000 (f_dev s) c) as [l|].
  - eapply bind_Ok; [eapply bind_Ok; [rewrite loop_loopN; exact Hloop|reflexivity]|].
    eapply bind_Ok; [reflexivity|]. unfold mret, M_ret. cbn [f_dev f_live app]. do 3 f_equal. lia.
  - apply bind_Err, bind_Err. rewrite loop_loopN. exact Hloop.
Qed.
End chain.

(** C40: [fat_get_cluster_chain] returns the cluster chain the allocation table
    defines, when it has at most 1000 clusters; a longer (or cyclic) chain runs over
    the array of 1000.  It always ends, leaves the disk alone and keeps only the
    returned array allocated. *)
Theorem fat_get_cluster_chain_correct {D} `{BlkDev D} vol c fuel (s : fatstate D) :
  0 <= res_sects vol < 2 ^ 16 -> 0 <= c < 2 ^ 28 -> (1000 < fuel)%N ->
  fat_get_cluster_chain fuel vol c s =
  match fat_chain vol 1000 (f_dev s) c with
  | Some l => Ok (l, mk_fat (f_dev s) (f_live s + 1))
  | None => Err OutOfBounds
  end.
Proof. intros. by apply get_chain_eq. Qed.

(** Clusters 5, 7 and 6 form a chain. *)
Definition demo_fat : memdisk :=
  md_put (md_put (md_put [] (32 * 512 + 20) (le_enc 4 7)) (32 * 512 + 28) (le_enc 4 6)) (32 * 512 + 24) (le_enc 4 0x0fffffff).
Definition demo_inf : fat_vol_inf := mk_inf 0 1 0 2 0 1 8 1 100 32.

Example demo_chain : fat_chain demo_inf 1000 demo_fat 5 = Some [5; 7; 6].
Proof. vm_compute. reflexivity. Qed.

Lemma fat_get_cluster_chain_correct_witness :
  fat_get_cluster_chain 1001 demo_inf 5 (mk_fat demo_fat 0) =
  match fat_chain demo_inf 1000 demo_fat 5 with
  | Some l => Ok (l, mk_fat demo_fat 1)
  | None => Err OutOfBounds
  end.
Proof.
  apply (fat_get_cluster_chain_correct demo_inf 5 1001 (mk_fat demo_fat 0)); [simpl; lia|lia|lia].
Defined.

Lemma fat_chain_first {D} `{BlkDev D} vol n d c l : fat_chain vol n d c = Some l -> l !! 0%nat = Some c.
Proof. destruct n as [|n]; cbn [fat_chain]; [done|]. destruct (_ || _); [by intros [= <-]|]. destruct (fat_chain vol n d _); [by intros [= <-]|done]. Qed.

(** The device is asked to write as many sectors as the buffer's address says, from sector 1
    on, from memory at the cluster's sector number: the arguments are in the wrong order. *)
Lemma fat_write_cluster_swapped {D} `{BlkDev D} write vol c fuel buf size l (s : fatstate D) :
  0 <= res_sects vol < 2 ^ 16 -> 0 <= c < 2 ^ 28 -> (1000 < fuel)%N -> fat_chain vol 1000 (f_dev s) c = Some l ->
  fat_write_cluster write fuel vol buf size c s = write (fat_cluster_to_lba vol c) 1 buf (mk_fat (f_dev s) (f_live s + 1)).
Proof.
  intros Hr Hc Hf Hl. unfold fat_write_cluster. eapply bind_Ok; [rewrite get_chain_eq by done; by rewrite Hl|].
  by rewrite (fat_chain_first _ _ _ _ _ Hl).
Qed.

(** ** Searching a directory *)

Section finddir.
Context {D : Type} `{BlkDev D}.
Implicit Types s : fatstate D.

Lemma buf_get_wlp w buf off (Q : Z -> fatstate D -> Prop) s :
  (0 <= off -> off + Z.of_nat w <= Z.of_nat (length buf) -> forall v, Q v s) -> wlp (buf_get w buf off) Q s.
Proof.
  intros HQ. unfold buf_get, buf_read. apply wlp_bind, wlp_bind, wlp_guard. intros Hg. apply wlp_ret, wlp_ret.
  apply andb_prop in Hg as [[? ?]%andb_prop ?]. apply HQ; lia.
Qed.

(** A sector never leaves the buffer it is read into, nor changes its size. *)
Lemma read_sector_wlp buf off lba s :
  wlp (fat_read_sector buf off lba) (fun b _ => length b = length buf) s.
Proof.
  unfold fat_read_sector, buf_write. apply wlp_bind. cbn. apply wlp_bind, wlp_guard. intros _. apply wlp_ret.
  apply length_inserts.
Qed.

(** A chain has at least its first cluster. *)
Lemma get_chain_wlp fuel vol c s : wlp (fat_get_cluster_chain fuel vol c) (fun l _ => (1 <= length l)%nat) s.
Proof.
  unfold fat_get_cluster_chain. apply wlp_bind. cbn. apply wlp_bind. cbn. apply wlp_bind.
  eapply wlp_mono; [apply (wlp_while _ _ (fun l _ => (1 <= length l)%nat))|].
  - intros [[cl buf] ret] s1. unfold chain_step. apply wlp_bind, wlp_true. intros b s2.
    apply wlp_bind, wlp_true. intros w s3. apply wlp_bind, wlp_guard. intros _. apply wlp_ret.
    destruct (chain_ends _); [rewrite length_app; cbn; lia|done].
  - intros l s1 Hl. apply wlp_bind. cbn. by apply wlp_ret.
Qed.

(** Its bytes: 512 for each cluster. *)
Lemma read_chain_wlp fuel vol c s :
  wlp (fat_read_cluster_chain fuel vol c) (fun r _ => Z.of_nat (length r.1) = 512 * r.2 /\ 1 <= r.2) s.
Proof.
  unfold fat_read_cluster_chain. apply wlp_bind. eapply wlp_mono; [apply get_chain_wlp|].
  intros cl s1 Hcl. cbn beta in Hcl. apply wlp_bind. cbn. apply wlp_bind.
  eapply wlp_mono.
  - apply (wlp_for_acc (fun _ b _ => length b = Z.to_nat (Z.of_nat (length cl) * 512))
      0 _ _ (fun r _ => match r with inl b => length b = Z.to_nat (Z.of_nat (length cl) * 512) | inr _ => False end));
      [lia|apply length_replicate| |done].
    intros i b s2 _ Hb. apply wlp_bind, wlp_unwrap. intros x _. apply wlp_bind.
    eapply wlp_mono; [apply read_sector_wlp|]. intros b' s3 Hb'. apply wlp_ret. congruence.
  - intros [b|[]] s2 Hb. apply wlp_bind. cbn. apply wlp_ret. cbn. lia.
Qed.

(** A round of the search that succeeds has its entry inside the buffer. *)
Lemma finddir_step_wlp dirs name0 name i lfn n s :
  Z.of_nat (length dirs) = 512 * n ->
  wlp (finddir_step dirs name0 name i lfn) (fun _ _ => i + 1 <= 16 * n) s.
Proof.
  intros Hl. unfold finddir_step. apply wlp_bind, buf_get_wlp. unfold DIRENT_SIZE. intros _ Hin v.
  apply wlp_true. intros. lia.
Qed.
End finddir.

(** [fat_finddir] never returns from searching a directory.  Its loop takes the
    bytes of the directory for the number of entries, so that without a match it runs
    behind the buffer; with a match it stores the name through a pointer that was
    never set. *)
Theorem fat_finddir_faults {D} `{BlkDev D} fuel vol dir name0 name (s : fatstate D) :
  (forall flags c, dir = Some (flags, c) -> flags = FAT_DIRECTORY) ->
  exists f, fat_finddir fuel vol dir name0 name s = Err f.
Proof.
  intros Hdir. assert (wlp (fat_finddir fuel vol dir name0 name) (fun _ _ => False) s) as Hw.
  { unfold fat_finddir. apply wlp_bind, wlp_unwrap. intros [flags c] ->. rewrite (Hdir flags c) by done.
    apply wlp_bind. eapply wlp_mono; [apply read_chain_wlp|]. intros [dirs n] s1 [Hl Hn]. cbn [fst snd] in *.
    apply wlp_bind. cbn. apply wlp_bind.
    eapply wlp_mono; [apply (wlp_for_acc (fun i _ _ => i <= 16 * n) 0 _ _ (fun r _ => match r with inl _ => False | inr _ => True end));
      [lia|lia| |]|].
    - intros i lfn s2 _ _. eapply wlp_mono; [by apply finddir_step_wlp|]. by intros [l|a] s3 Hi.
    - cbn. intros. lia.
    - intros [l|a] s2; [done|]. intros _. apply wlp_throw. }
  unfold wlp in Hw. destruct (fat_finddir fuel vol dir name0 name s) as [[r s']|f]; [done|by exists f].
Qed.

Lemma fat_finddir_faults_witness :
  exists f, fat_finddir 1001 demo_inf (Some (FAT_DIRECTORY, 5)) (replicate 128 0) [97] (mk_fat demo_fat 0) = Err f.
Proof.
  apply (fat_finddir_faults 1001 demo_inf (Some (FAT_DIRECTORY, 5)) (replicate 128 0) [97] (mk_fat demo_fat 0)).
  intros flags c [= <- _]. reflexivity.
Defined.
