(* ===== verification/Probe.v ===== *)
(** * Probe: which file system a device holds (vfs_get_type of src/fs/vfs/mount.c)

    The two probes in their order; a device that satisfies neither leaves the function
    without a value. *)

From S2P Require Import Prelude Disk Layout Ext2 Fat.

Definition FS_TYPE_FAT32 : Z := 0.
Definition FS_TYPE_EXT2 : Z := 1.

Section probe.
Context {D : Type} `{BlkDev D}.
Implicit Types d : D.

(** An operation of the ext2 reader that does not use a volume's group descriptors. *)
Definition on_ext2 {A} (m : M (e2state D) A) : M (fatstate D) A :=
  zoom (fun s => mk_e2 (f_dev s) [] (f_live s) 0) (fun e _ => mk_fat (e_dev e) (e_live e)) m.

Definition vfs_get_type : M (fatstate D) Z :=
  fat ← fat_is_fat;
  if fat : bool then mret FS_TYPE_FAT32 else
  ext2 ← on_ext2 ext2_is_ext2;
  if ext2 : bool then mret FS_TYPE_EXT2 else throw NoReturn.

(** What the probes look at: the signature of the FAT32 extension, the number of clusters the
    boot record gives (an unsigned 32-bit difference), and the signature of a superblock. *)
Definition boot_bpb d : fat_bpb := bpb_of (blk_read d 0 1).
Definition boot_ebr d : fat_ebr := ebr_of (drop BPB_SIZE (blk_read d 0 1)).
Definition fat_signed d : bool := (esig (boot_ebr d) =? 0x28) || (esig (boot_ebr d) =? 0x29).
Definition data_clusters d : Z :=
  u32 (large_sector_cnt (boot_bpb d) - u32 (res_sectors (boot_bpb d) + u32 (sectors_per_fat (boot_ebr d) * fats (boot_bpb d))))
    `div` sectors_per_cluster (boot_bpb d).
Definition ext2_signed d : bool := ext2_sig (superblock_of (blk_read d EXT2_SB_LBA 1)) =? 0xef53.

Lemma fat_is_fat_eq d n :
  fat_is_fat (mk_fat d n) =
  if fat_signed d then
    if sectors_per_cluster (boot_bpb d) =? 0 then Err DivByZero
    else if data_clusters d >? 65525 then Ok (true, mk_fat d (n + 1)) else Ok (false, mk_fat d n)
  else Ok (false, mk_fat d n).
Proof.
  pose proof (blk_read_length d 0 1 ltac:(lia)) as Hl.
  assert (fat_read_sector (replicate (Z.to_nat 512) 0) 0 0 (mk_fat d (n + 1)) = Ok (blk_read d 0 1, mk_fat d (n + 1))) as Hr.
  { assert (wp (fat_read_sector (replicate (Z.to_nat 512) 0) 0 0) (fun b s => b = blk_read d 0 1 /\ s = mk_fat d (n + 1)) (mk_fat d (n + 1))) as Hw;
      [|by destruct (wp_Ok _ _ _ Hw) as (b & s & E & -> & ->)].
    apply fat_read_sector_wp; [lia|rewrite length_replicate; lia|]. split; [|done]. apply inserts_all. rewrite length_replicate. cbn [f_dev]. lia. }
  unfold fat_is_fat. eapply bind_Ok; [reflexivity|]. cbn [f_dev f_live]. eapply bind_Ok; [exact Hr|]. cbv zeta.
  fold (boot_bpb d) (boot_ebr d). fold (fat_signed d) (data_clusters d). destruct (fat_signed d).
  - unfold truth. destruct (sectors_per_cluster (boot_bpb d) =? 0); [by apply bind_Err|]. eapply bind_Ok; [reflexivity|].
    destruct (data_clusters d >? 65525); [done|]. eapply bind_Ok; [reflexivity|]. unfold mret, M_ret. cbn [f_dev f_live]. do 3 f_equal. lia.
  - eapply bind_Ok; [reflexivity|]. unfold mret, M_ret. cbn [f_dev f_live]. do 3 f_equal. lia.
Qed.

Lemma ext2_is_ext2_eq d g n w : ext2_is_ext2 (mk_e2 d g n w) = Ok (ext2_signed d, mk_e2 d g n w).
Proof.
  pose proof (blk_read_length d EXT2_SB_LBA 1 ltac:(lia)) as Hl.
  assert (wp ext2_is_ext2 (fun b s => b = ext2_signed d /\ s = mk_e2 d g n w) (mk_e2 d g n w)) as Hw;
    [|by destruct (wp_Ok _ _ _ Hw) as (b & s & E & -> & ->)].
  unfold ext2_is_ext2. wp_focus. apply buf_alloc_wp. wp_focus. unfold dev_read. wp_step. wp_step.
  apply buf_write_wp; [lia|rewrite length_replicate; cbn [e_dev add_live]; lia|].
  change (Z.to_nat 0) with 0%nat. rewrite inserts_all by (rewrite length_replicate; cbn [e_dev add_live]; lia).
  cbv zeta. wp_focus. apply buf_free_wp. rewrite add_live_0 by lia. by wp_step.
Qed.

(** [vfs_get_type] in full: a FAT32 boot record decides first (one with no sectors per
    cluster is a division by zero, and a recognised one leaves its buffer allocated), then an
    ext2 superblock; otherwise the function ends without a return value. *)
Theorem vfs_get_type_correct d n :
  vfs_get_type (mk_fat d n) =
  if fat_signed d && (sectors_per_cluster (boot_bpb d) =? 0) then Err DivByZero
  else if fat_signed d && (data_clusters d >? 65525) then Ok (FS_TYPE_FAT32, mk_fat d (n + 1))
  else if ext2_signed d then Ok (FS_TYPE_EXT2, mk_fat d n) else Err NoReturn.
Proof.
  assert (forall r, fat_is_fat (mk_fat d n) = Ok (false, mk_fat d n) ->
    (if ext2_signed d then Ok (FS_TYPE_EXT2, mk_fat d n) else Err NoReturn) = r -> vfs_get_type (mk_fat d n) = r) as Hext.
  { intros r Hf <-. unfold vfs_get_type. eapply bind_Ok; [exact Hf|]. cbn beta iota. eapply bind_Ok.
    - unfold on_ext2, zoom. cbn [f_dev f_live]. rewrite ext2_is_ext2_eq. reflexivity.
    - by destruct (ext2_signed d). }
  pose proof (fat_is_fat_eq d n) as Hf. destruct (fat_signed d); cbn [andb]; [|by apply Hext].
  destruct (sectors_per_cluster (boot_bpb d) =? 0); [by apply bind_Err|].
  destruct (data_clusters d >? 65525); [by eapply bind_Ok|by apply Hext].
Qed.
End probe.

(** The demonstration volume of the ext2 reader, and an empty disk. *)
Example vfs_get_type_demo :
  vfs_get_type (mk_fat demo_disk 0) = Ok (FS_TYPE_EXT2, mk_fat demo_disk 0) /\ vfs_get_type (mk_fat ([] : memdisk) 0) = Err NoReturn.
Proof. split; vm_compute; reflexivity. Qed.
