(* ===== verification/Gpt.v ===== *)
(** * Gpt: partitions (src/drivers/storage/partmgr/gpt.c)

    [unicode_strncmp] and [gpt_getpart] over a block device, and the partition device
    as a block device of its own. *)

From S2P Require Import Prelude Disk.

(** [gpt_hdr_t] and [gpt_part_ent_t]. *)
Record gpt_hdr : Type := mk_hdr {
  gsig : list Z; revision : Z; hdrsize : Z; checksum : Z; gres : Z; hdrlba : Z; altlba : Z; first_datablk : Z;
  last_datablk : Z; guid : list Z; entlba : Z; nrentries : Z; entsize : Z; arrchecksum : Z;
}.
Definition gpt_hdr_layout : layout := replicate 8 1%nat ++ [4; 4; 4; 4; 8; 8; 8; 8]%nat ++ replicate 16 1%nat ++ [8; 4; 4; 4]%nat.
Definition gpt_hdr_of (bs : list Z) : gpt_hdr :=
  let vs := unpack gpt_hdr_layout bs in
  let f := fun i : nat => vs !!! i in
  mk_hdr (take 8 vs) (f 8%nat) (f 9%nat) (f 10%nat) (f 11%nat) (f 12%nat) (f 13%nat) (f 14%nat) (f 15%nat)
    (take 16 (drop 16 vs)) (f 32%nat) (f 33%nat) (f 34%nat) (f 35%nat).

Record gpt_part_ent : Type := mk_ent {
  type_guid : list Z; unique_guid : list Z; lba_start : Z; lba_end : Z; attr : Z; ename : list Z;
}.
Definition gpt_ent_layout : layout := replicate 32 1%nat ++ [8; 8; 8]%nat ++ replicate 36 2%nat.
(** [sizeof(gpt_part_ent_t)]. *)
Definition ENT_SIZE : Z := 128.
Definition gpt_ent_of (bs : list Z) : gpt_part_ent :=
  let vs := unpack gpt_ent_layout bs in
  mk_ent (take 16 vs) (take 16 (drop 16 vs)) (vs !!! 32%nat) (vs !!! 33%nat) (vs !!! 34%nat) (drop 35 vs).

(** [gpt_partdev_t], without the disk. *)
Record gpt_partdev : Type := mk_part { startlba : Z; endlba : Z; part_name : list Z }.

Section ops.
Context {D : Type} `{BlkDev D}.
Abbreviation G := (M D).

(** [i] is never incremented: the loop compares on until a difference.  The strings
    are the 16-bit units in memory from [s1] and [s2] on. *)
Fixpoint unicode_strncmp (s1 s2 : list Z) (n : Z) : G bool :=
  if 0 <? n then
    match s1, s2 with
    | a :: r1, b :: r2 => if negb (a =? b) then mret true else unicode_strncmp r1 r2 n
    | _, _ => throw OutOfBounds
    end
  else mret false.

(** The bytes of a string of 16-bit units up to the first 0 byte, which is what
    [strcpy(part->name, name)] copies. *)
Fixpoint copied (bs : list Z) : list Z :=
  match bs with [] => [] | b :: r => if b =? 0 then [] else b :: copied r end.

(** [ents] is one sector; the function has no return value when nothing matches. *)
Definition gpt_getpart (name : list Z) : G gpt_partdev :=
  d ← get;
  let hdr := gpt_hdr_of (blk_read d 1 1) in
  let ents := blk_read d (entlba hdr) 1 in
  r ← for_ 0 (nrentries hdr) (fun i =>
    bs ← buf_read ents (ENT_SIZE * i) ENT_SIZE;
    let e := gpt_ent_of bs in
    differ ← unicode_strncmp name (ename e) 36;
    if differ : bool then
      mret (Some (mk_part (lba_start e) (lba_end e) (copied (concat (le_enc 2 <$> name)))))
    else mret None);
  unwrap r NoReturn.

(** A partition's sectors are the disk's, shifted; [endlba] is not looked at. *)
Definition gpt_partread (part : gpt_partdev) (off size : Z) : G (list Z) :=
  d ← get; mret (blk_read d (u64 (off + startlba part)) size).
Definition gpt_partwrite (part : gpt_partdev) (bs : list Z) (off size : Z) : G () :=
  modify (fun d => blk_write d (u64 (off + startlba part)) bs).

(** Two strings differ within the shorter of them. *)
Definition differ (s1 s2 : list Z) : bool := existsb (fun ab => negb (ab.1 =? ab.2)) (zip s1 s2).

(** The comparison of a non-empty length never says the strings are equal. *)
Lemma unicode_strncmp_spec s1 s2 n (d : D) :
  0 < n -> unicode_strncmp s1 s2 n d = if differ s1 s2 then Ok (true, d) else Err OutOfBounds.
Proof.
  intros Hn. revert s2. induction s1 as [|a r1 IH]; intros [|b r2]; cbn [unicode_strncmp];
    rewrite (proj2 (Z.ltb_lt _ _) Hn); try done.
  unfold differ in *. simpl. destruct (a =? b); simpl; [apply IH|done].
Qed.

(** [gpt_getpart] returns the first partition when its name is not the one asked
    for, and runs past the strings when it is. *)
Theorem gpt_getpart_inverted name (d : D) :
  0 < nrentries (gpt_hdr_of (blk_read d 1 1)) ->
  let e := gpt_ent_of (take 128 (blk_read d (entlba (gpt_hdr_of (blk_read d 1 1))) 1)) in
  gpt_getpart name d =
  if differ name (ename e) then
    Ok (mk_part (lba_start e) (lba_end e) (copied (concat (le_enc 2 <$> name))), d)
  else Err OutOfBounds.
Proof.
  intros Hn e. set (hdr := gpt_hdr_of (blk_read d 1 1)) in *.
  pose proof (blk_read_length d (entlba hdr) 1 ltac:(lia)) as Hl.
  unfold gpt_getpart. eapply bind_Ok; [reflexivity|]. cbv zeta. fold hdr.
  set (body := fun i : Z => _).
  assert (body 0 d = if differ name (ename e) then
     Ok (Some (mk_part (lba_start e) (lba_end e) (copied (concat (le_enc 2 <$> name)))), d) else Err OutOfBounds) as Hb.
  { unfold body. eapply bind_Ok.
    - unfold buf_read, bindM, guard. rewrite (proj2 (Z.leb_le (_ + _) _)) by (unfold ENT_SIZE; lia). reflexivity.
    - change (Z.to_nat (ENT_SIZE * 0)) with 0%nat. change (Z.to_nat ENT_SIZE) with 128%nat. rewrite drop_0. fold e.
      pose proof (unicode_strncmp_spec name (ename e) 36 d ltac:(lia)) as Hs. destruct (differ name (ename e)).
      + eapply bind_Ok; [exact Hs|done].
      + by apply bind_Err. }
  assert (exists k, N.to_nat (Z.to_N (nrentries hdr - 0)) = S k) as [k Hk] by (exists (Z.to_nat (nrentries hdr) - 1)%nat; lia).
  destruct (differ name (ename e)).
  - set (part := mk_part _ _ _) in *. apply (bind_Ok _ _ _ (Some part) d); [|reflexivity].
    unfold for_. apply (bind_Ok _ _ _ (inr part) d); [|reflexivity].
    rewrite loop_loopN, Hk. cbn [loopN]. apply (bind_Ok _ _ _ (inr part) d); [|reflexivity].
    apply (bind_Ok _ _ _ (Some part) d); [exact Hb|reflexivity].
  - apply bind_Err. unfold for_. apply bind_Err. rewrite loop_loopN, Hk. cbn [loopN].
    apply bind_Err. by apply bind_Err.
Qed.
End ops.
