(* ===== verification/Ports.v ===== *)
(** * Ports: port input and output (src/sys/io.c)

    The devices behind the I/O ports are a parameter: a state and what reading or
    writing a port of 1, 2 or 4 bytes does to it.  [Script] is an instance for tests
    and for statements about what a driver sends: reads come from a list, and every
    access is recorded. *)

From S2P Require Import Prelude.

Class Ports (D : Type) : Type := {
  port_out : nat -> Z -> Z -> D -> D;
  port_in : nat -> Z -> D -> Z * D;
  port_in_range w p d : 0 <= (port_in w p d).1 < 2 ^ (8 * Z.of_nat w);
}.

Section io.
Context {D : Type} `{Ports D}.

Definition port_write (w : nat) (port v : Z) : M D () := modify (port_out w (u16 port) v).
Definition port_read (w : nat) (port : Z) : M D Z := fun d => Ok (port_in w (u16 port) d).

Definition outb (port v : Z) : M D () := port_write 1 port (u8 v).
Definition outw (port v : Z) : M D () := port_write 2 port (u16 v).
Definition outl (port v : Z) : M D () := port_write 4 port (u32 v).
Definition inb (port : Z) : M D Z := port_read 1 port.
Definition inw (port : Z) : M D Z := port_read 2 port.
Definition port_inl (port : Z) : M D Z := port_read 4 port.
(** Port 0x80 is written to pass some time. *)
Definition iowait : M D () := outb 0x80 0.

(** The string instructions send the elements of a buffer, or fill one. *)
Fixpoint outs (w : nat) (port : Z) (vs : list Z) : M D () :=
  match vs with [] => mret () | v :: r => port_write w port v;; outs w port r end.
Fixpoint ins (w : nat) (port : Z) (count : nat) : M D (list Z) :=
  match count with
  | O => mret []
  | S n => v ← port_read w port; r ← ins w port n; mret (v :: r)
  end.
Definition outsb (port : Z) (vs : list Z) : M D () := outs 1 port vs.
Definition outsw (port : Z) (vs : list Z) : M D () := outs 2 port vs.
Definition outsl (port : Z) (vs : list Z) : M D () := outs 4 port vs.
Definition insb (port : Z) (count : nat) : M D (list Z) := ins 1 port count.
Definition insw (port : Z) (count : nat) : M D (list Z) := ins 2 port count.
Definition insl (port : Z) (count : nat) : M D (list Z) := ins 4 port count.

Lemma port_read_wp w port (Q : Z -> D -> Prop) d :
  Q (port_in w (u16 port) d).1 (port_in w (u16 port) d).2 -> wp (port_read w port) Q d.
Proof. unfold port_read, wp. by destruct (port_in w (u16 port) d). Qed.
Lemma port_write_wp w port v (Q : () -> D -> Prop) d :
  Q () (port_out w (u16 port) v d) -> wp (port_write w port v) Q d.
Proof. done. Qed.
End io.

(** ** A scripted device *)

(** One access: a write of [v], or a read that returned it. *)
Inductive access : Type :=
  | Out (w : nat) (port v : Z)
  | In (w : nat) (port v : Z).

(** The accesses so far, the latest first, and the answers to come. *)
Record script : Type := mk_script { trace : list access; answers : list Z }.

#[export] Program Instance script_Ports : Ports script := {|
  port_out w p v d := mk_script (Out w p v :: trace d) (answers d);
  port_in w p d :=
    let v := uN (8 * Z.of_nat w) (default 0 (hd_error (answers d))) in
    (v, mk_script (In w p v :: trace d) (tl (answers d)));
|}.
Next Obligation. intros. simpl. apply uN_range. lia. Qed.
