(* ===== verification/Pci.v ===== *)
(** * Pci: configuration space and enumeration (src/drivers/pci)

    The configuration mechanism is a parameter of the model, the class [PciPorts]: the
    documented behaviour of the two ports 0xcf8 (address latch) and 0xcfc (data
    window).  What a device does with a written dword is [cfg_store], so that
    read-only and write-one-to-clear bits are allowed for. *)

From S2P Require Import Prelude Ports.

Definition PCI_CFG_ADDR : Z := 0xcf8.
Definition PCI_CFG_DATA : Z := 0xcfc.
Definition PCI_BUS_COUNT : Z := 256.
Definition PCI_DEV_PER_BUS : Z := 32.
Definition PCI_FUNCS_PER_DEV : Z := 8.
Definition PCI_CMD_IO_SPACE : Z := Z.shiftl 1 0.
Definition PCI_CMD_MEM_SPACE : Z := Z.shiftl 1 1.
Definition PCI_CMD_BUS_MASTER : Z := Z.shiftl 1 2.
Definition PCI_CMD_INTS_DISABLE : Z := Z.shiftl 1 10.
Definition PCI_VENDOR_ID : Z := 0x00.
Definition PCI_DEVICE_ID : Z := 0x02.
Definition PCI_COMMAND : Z := 0x04.
Definition PCI_PROGIF : Z := 0x09.
Definition PCI_SUBCLASS : Z := 0x0a.
Definition PCI_CLASS_CODE : Z := 0x0b.
Definition PCI_HDR_TYPE : Z := 0x0e.
Definition PCI_BAR0 : Z := 0x10.

Record pci_dev : Type := mk_pci_dev {
  dev_id : Z; vendor_id : Z; bus : Z; slot : Z; func : Z; class_code : Z; subclass : Z; progif : Z;
}.

(** ** The configuration mechanism *)

Class PciPorts (D : Type) `{Ports D} : Type := {
  cfg_sel : D -> Z;
  cfg_space : D -> Z -> Z;
  cfg_store : Z -> Z -> Z -> Z;
  cfg_space_range d a : 0 <= cfg_space d a < 2 ^ 32;
  cfg_latch_sel d a : cfg_sel (port_out 4 PCI_CFG_ADDR a d) = a;
  cfg_latch_space d a : cfg_space (port_out 4 PCI_CFG_ADDR a d) = cfg_space d;
  cfg_in_value d : (port_in 4 PCI_CFG_DATA d).1 = cfg_space d (cfg_sel d);
  cfg_in_sel d : cfg_sel (port_in 4 PCI_CFG_DATA d).2 = cfg_sel d;
  cfg_in_space d : cfg_space (port_in 4 PCI_CFG_DATA d).2 = cfg_space d;
  cfg_out_same d v :
    cfg_space (port_out 4 PCI_CFG_DATA v d) (cfg_sel d) = cfg_store (cfg_sel d) (cfg_space d (cfg_sel d)) v;
  cfg_out_other d v a : a <> cfg_sel d -> cfg_space (port_out 4 PCI_CFG_DATA v d) a = cfg_space d a;
}.

Section ops.
Context {D : Type} `{Ports D}.

(** The address computation every access repeats. *)
Definition cfg_addr (bus slot func off : Z) : Z :=
  u32 (Z.shiftl (u8 bus) 16 .| Z.shiftl (u8 slot) 11 .| Z.shiftl (u8 func) 8 .| (u8 off .& 0xfc) .| 0x80000000).

Definition pci_cfg_readl (bus slot func off : Z) : M D Z :=
  outl PCI_CFG_ADDR (cfg_addr bus slot func off);; port_inl PCI_CFG_DATA.
Definition pci_cfg_readw (bus slot func off : Z) : M D Z :=
  outl PCI_CFG_ADDR (cfg_addr bus slot func off);;
  v ← port_inl PCI_CFG_DATA;
  mret (u16 (Z.shiftr v ((u8 off .& 2) * 8) .& 0xffff)).
Definition pci_cfg_readb (bus slot func off : Z) : M D Z :=
  outl PCI_CFG_ADDR (cfg_addr bus slot func off);;
  v ← port_inl PCI_CFG_DATA;
  mret (u8 (Z.shiftr v ((u8 off .& 3) * 8) .& 0xff)).

Definition pci_cfg_writel (bus slot func off data : Z) : M D () :=
  outl PCI_CFG_ADDR (cfg_addr bus slot func off);; outl PCI_CFG_DATA data.
Definition pci_cfg_writew (bus slot func off data : Z) : M D () :=
  outl PCI_CFG_ADDR (cfg_addr bus slot func off);;
  v ← port_inl PCI_CFG_DATA;
  let sh := (u8 off .& 2) * 8 in
  outl PCI_CFG_DATA (v .& u32 (Z.lnot (Z.shiftl 0xffff sh)) .| u32 (Z.shiftl (u16 data) sh)).
(** The last access is a byte write. *)
Definition pci_cfg_writeb (bus slot func off data : Z) : M D () :=
  outl PCI_CFG_ADDR (cfg_addr bus slot func off);;
  v ← port_inl PCI_CFG_DATA;
  let sh := (u8 off .& 3) * 8 in
  outb PCI_CFG_DATA (v .& u32 (Z.lnot (Z.shiftl 0xff sh)) .| u32 (Z.shiftl (u8 data) sh)).

Definition pci_enable_bus_master (d : pci_dev) : M D () :=
  v ← pci_cfg_readw (bus d) (slot d) (func d) PCI_COMMAND;
  pci_cfg_writew (bus d) (slot d) (func d) PCI_COMMAND (u16 (v .| PCI_CMD_BUS_MASTER)).
Definition pci_enable_ints (d : pci_dev) : M D () :=
  v ← pci_cfg_readw (bus d) (slot d) (func d) PCI_COMMAND;
  pci_cfg_writew (bus d) (slot d) (func d) PCI_COMMAND (u16 (v .& Z.lnot PCI_CMD_INTS_DISABLE)).
Definition pci_enable_mem_space (d : pci_dev) : M D () :=
  v ← pci_cfg_readw (bus d) (slot d) (func d) PCI_COMMAND;
  pci_cfg_writew (bus d) (slot d) (func d) PCI_COMMAND (u16 (v .| PCI_CMD_MEM_SPACE)).
Definition pci_enable_io_space (d : pci_dev) : M D () :=
  v ← pci_cfg_readw (bus d) (slot d) (func d) PCI_COMMAND;
  pci_cfg_writew (bus d) (slot d) (func d) PCI_COMMAND (u16 (v .| PCI_CMD_IO_SPACE)).

Definition pci_get_vendor_id (bus slot func : Z) : M D Z := pci_cfg_readw bus slot func PCI_VENDOR_ID.
Definition pci_get_dev_id (bus slot func : Z) : M D Z := pci_cfg_readw bus slot func PCI_DEVICE_ID.
Definition pci_get_class_code (bus slot func : Z) : M D Z := pci_cfg_readb bus slot func PCI_CLASS_CODE.
Definition pci_get_subclass (bus slot func : Z) : M D Z := pci_cfg_readb bus slot func PCI_SUBCLASS.
Definition pci_get_progif (bus slot func : Z) : M D Z := pci_cfg_readb bus slot func PCI_PROGIF.
Definition pci_get_hdr_type (bus slot func : Z) : M D Z := pci_cfg_readb bus slot func PCI_HDR_TYPE.

Definition pci_get_base_addr (d : pci_dev) (idx : Z) : M D Z :=
  b ← pci_cfg_readl (bus d) (slot d) (func d) (PCI_BAR0 + u8 idx * 4);
  mret (if truth (b .& 0x1) then b .& 0xFFFFFFFFFFFFFFFC else b .& 0xFFFFFFFFFFFFFFF0).
Definition pci_bar_isioport (d : pci_dev) (idx : Z) : M D Z :=
  b ← pci_cfg_readl (bus d) (slot d) (func d) (PCI_BAR0 + u8 idx * 4);
  mret (b .& 0x1).

Definition pci_check_dev (bus dev func : Z) : M D bool :=
  v ← pci_get_vendor_id bus dev func; mret (negb (v =? 0xffff)).

(** The device that is pushed onto [pci_devs]. *)
Definition pci_add_dev (bus slot func : Z) : M D pci_dev :=
  vendor ← pci_get_vendor_id bus slot func;
  id ← pci_get_dev_id bus slot func;
  cc ← pci_get_class_code bus slot func;
  sc ← pci_get_subclass bus slot func;
  pi ← pci_get_progif bus slot func;
  mret (mk_pci_dev id vendor (u8 bus) (u8 slot) (u8 func) cc sc pi).

(** The functions 1 to 7 of a device: each round checks function 0. *)
Definition enum_funcs (bus dev : Z) (devs : list pci_dev) : M D (list pci_dev) :=
  r ← for_acc (B := Empty_set) 1 PCI_FUNCS_PER_DEV (fun f ds =>
        ok ← pci_check_dev bus dev 0;
        if (ok : bool) then d ← pci_add_dev bus dev f; mret (inl (ds ++ [d]))
        else mret (inl ds)) devs;
  match r with inl ds => mret ds | inr e => match e with end end.

(** One slot; [func] is the variable of [pci_enumerate], 8 once a device with several
    functions was found. *)
Definition enum_slot (bus dev : Z) (st : Z * list pci_dev) : M D (Z * list pci_dev) :=
  let '(func, devs) := st in
  ok ← pci_check_dev bus dev 0;
  if (ok : bool) then
    d ← pci_add_dev bus dev 0;
    h ← pci_get_hdr_type bus dev func;
    if negb ((h .& 0x80) =? 0) then
      ds ← enum_funcs bus dev (devs ++ [d]);
      mret (PCI_FUNCS_PER_DEV, ds)
    else mret (func, devs ++ [d])
  else mret st.

(** The nested loops over buses and slots. *)
Definition pci_enumerate : M D (list pci_dev) :=
  r ← for_acc (B := Empty_set) 0 PCI_BUS_COUNT (fun b st =>
        r ← for_acc (B := Empty_set) 0 PCI_DEV_PER_BUS (fun v st =>
              st' ← enum_slot b v st; mret (inl st')) st;
        match r with inl st' => mret (inl st') | inr e => match e with end end)
        (0, []);
  match r with inl st => mret st.2 | inr e => match e with end end.
End ops.

(** ** Addresses *)

Definition pci_fn (bus slot func : Z) : Prop := 0 <= bus < 256 /\ 0 <= slot < 32 /\ 0 <= func < 8.

Lemma land_fc off : 0 <= off < 256 -> off .& 0xfc = off - off `mod` 4.
Proof.
  intros Ho. apply Z.eqb_eq. apply (byte_cases (fun o => (o .& 0xfc) =? o - o `mod` 4)); [|done].
  by vm_compute.
Qed.

(** The address is the bus, device, function and dword in one number. *)
Lemma cfg_addr_eq bus slot func off :
  pci_fn bus slot func -> 0 <= off < 256 ->
  cfg_addr bus slot func off = 2 ^ 31 + bus * 2 ^ 16 + slot * 2 ^ 11 + func * 2 ^ 8 + (off - off `mod` 4).
Proof.
  intros (Hb & Hs & Hf) Ho. unfold cfg_addr. rewrite !(uN_small 8) by lia. rewrite land_fc by lia.
  rewrite !Z.shiftl_mul_pow2 by lia. change 0x80000000 with (1 * 2 ^ 31).
  assert (0 <= off - off `mod` 4 < 256) as Hd by dlia. set (o := off - off `mod` 4) in *. clearbody o.
  rewrite (lor_fields _ (slot * 2 ^ 11) 16) by dlia. rewrite (lor_fields _ (func * 2 ^ 8) 11) by dlia.
  rewrite (lor_fields _ o 8) by dlia. rewrite (lor_high _ 1 31) by lia. rewrite uN_small; lia.
Qed.

(** ** Reading and writing *)

Section facts.
Context {D : Type} `{PciPorts D}.
Implicit Types d : D.

(** The configuration space as bytes. *)
Definition cfg_byte d (bus slot func off : Z) : Z :=
  (cfg_space d (cfg_addr bus slot func off) `div` 2 ^ (8 * (off `mod` 4))) `mod` 256.

Lemma u32_cfg_addr b s f off : u32 (cfg_addr b s f off) = cfg_addr b s f off.
Proof. apply uN_idemp. lia. Qed.

Lemma cfg_select_wp b s f off Q d :
  (forall d', cfg_space d' = cfg_space d -> cfg_sel d' = cfg_addr b s f off -> Q () d') ->
  wp (outl PCI_CFG_ADDR (cfg_addr b s f off)) Q d.
Proof.
  intros HQ. unfold outl. apply port_write_wp. change (u16 PCI_CFG_ADDR) with PCI_CFG_ADDR.
  rewrite u32_cfg_addr. apply HQ; [apply cfg_latch_space|apply cfg_latch_sel].
Qed.
Lemma cfg_data_wp Q d :
  (forall d', cfg_space d' = cfg_space d -> cfg_sel d' = cfg_sel d -> Q (cfg_space d (cfg_sel d)) d') ->
  wp (port_inl PCI_CFG_DATA) Q d.
Proof.
  intros HQ. unfold port_inl. apply port_read_wp. change (u16 PCI_CFG_DATA) with PCI_CFG_DATA.
  rewrite cfg_in_value. apply HQ; [apply cfg_in_space|apply cfg_in_sel].
Qed.

Lemma pci_cfg_readl_wp b s f off Q d :
  (forall d', cfg_space d' = cfg_space d -> Q (cfg_space d (cfg_addr b s f off)) d') ->
  wp (pci_cfg_readl b s f off) Q d.
Proof.
  intros HQ. unfold pci_cfg_readl. wp_focus. apply cfg_select_wp. intros d1 H1 S1.
  apply cfg_data_wp. intros d2 H2 _. rewrite H1, S1. apply HQ. congruence.
Qed.

Lemma land_lane x sh w : 0 <= w -> 0 <= sh -> uN w (Z.shiftr x sh .& Z.ones w) = (x `div` 2 ^ sh) `mod` 2 ^ w.
Proof.
  intros Hw Hs. rewrite Z.land_ones, Z.shiftr_div_pow2 by done. by apply (uN_idemp w (x `div` 2 ^ sh)).
Qed.

Lemma pci_cfg_readw_wp b s f off Q d :
  (forall d', cfg_space d' = cfg_space d ->
     Q ((cfg_space d (cfg_addr b s f off) `div` 2 ^ ((u8 off .& 2) * 8)) `mod` 65536) d') ->
  wp (pci_cfg_readw b s f off) Q d.
Proof.
  intros HQ. unfold pci_cfg_readw. wp_focus. apply cfg_select_wp. intros d1 H1 S1.
  wp_focus. apply cfg_data_wp. intros d2 H2 _. wp_step. rewrite H1, S1.
  change 0xffff with (Z.ones 16). rewrite land_lane; [apply HQ; congruence|lia|].
  apply Z.mul_nonneg_nonneg; [|lia]. apply Z.land_nonneg. lia.
Qed.

Lemma pci_cfg_readb_wp b s f off Q d :
  0 <= off < 256 ->
  (forall d', cfg_space d' = cfg_space d -> Q (cfg_byte d b s f off) d') ->
  wp (pci_cfg_readb b s f off) Q d.
Proof.
  intros Ho HQ. unfold pci_cfg_readb. wp_focus. apply cfg_select_wp. intros d1 H1 S1.
  wp_focus. apply cfg_data_wp. intros d2 H2 _. wp_step. rewrite H1, S1.
  rewrite (uN_small 8 off) by lia. change 0xff with (Z.ones 8). change 3 with (Z.ones 2).
  rewrite (Z.land_ones off 2) by lia. rewrite land_lane; [|lia|dlia].
  unfold cfg_byte in HQ. change (2 ^ 8) with 256. change (2 ^ 2) with 4.
  rewrite (Z.mul_comm (off `mod` 4)). apply HQ. congruence.
Qed.

Lemma land_2 off : 0 <= off < 256 -> off .& 2 = 2 * ((off `div` 2) `mod` 2).
Proof.
  intros Ho. apply Z.eqb_eq. apply (byte_cases (fun o => (o .& 2) =? 2 * ((o `div` 2) `mod` 2))); [|done].
  by vm_compute.
Qed.

Lemma cfg_addr_even b s f off : 0 <= off < 255 -> off `mod` 2 = 0 -> cfg_addr b s f (off + 1) = cfg_addr b s f off.
Proof.
  intros Ho He. unfold cfg_addr. rewrite !(uN_small 8 off), !(uN_small 8 (off + 1)) by lia.
  rewrite !land_fc by lia. do 2 f_equal. f_equal. dlia.
Qed.

Lemma cfg_byte_pair x o :
  0 <= o -> o `mod` 2 = 0 ->
  (x `div` 2 ^ (2 * ((o `div` 2) `mod` 2) * 8)) `mod` 65536 =
  (x `div` 2 ^ (8 * (o `mod` 4))) `mod` 256 + 256 * ((x `div` 2 ^ (8 * ((o + 1) `mod` 4))) `mod` 256).
Proof.
  intros Ho He. assert (o `mod` 4 = 0 \/ o `mod` 4 = 2) as [Hm|Hm] by dlia.
  - replace ((o `div` 2) `mod` 2) with 0 by dlia. replace ((o + 1) `mod` 4) with 1 by dlia. rewrite Hm.
    change (2 ^ (2 * 0 * 8)) with 1. change (2 ^ (8 * 0)) with 1. change (2 ^ (8 * 1)) with 256. dlia.
  - replace ((o `div` 2) `mod` 2) with 1 by dlia. replace ((o + 1) `mod` 4) with 3 by dlia. rewrite Hm.
    change (2 ^ (2 * 1 * 8)) with 65536. change (2 ^ (8 * 2)) with 65536. change (2 ^ (8 * 3)) with (65536 * 256).
    rewrite <- Z.div_div by lia. set (y := x `div` 65536). dlia.
Qed.
End facts.

(** ** A configuration space in memory *)

Record pcimem : Type := mk_pcimem { pm_sel : Z; pm_space : gmap Z Z }.
Definition pm_get (d : pcimem) (a : Z) : Z := u32 (default 0xffffffff (pm_space d !! a)).

(** Dword accesses to the latch and the window, byte accesses to lane 0 of the window;
    other ports do nothing here. *)
#[export] Program Instance pcimem_Ports : Ports pcimem := {|
  port_out w p v d :=
    if (p =? PCI_CFG_ADDR) && (w =? 4)%nat then mk_pcimem v (pm_space d)
    else if (p =? PCI_CFG_DATA) && (w =? 4)%nat then mk_pcimem (pm_sel d) (<[pm_sel d := v]> (pm_space d))
    else if (p =? PCI_CFG_DATA) && (w =? 1)%nat then
      let old := pm_get d (pm_sel d) in
      mk_pcimem (pm_sel d) (<[pm_sel d := old - old `mod` 256 + v `mod` 256]> (pm_space d))
    else d;
  port_in w p d :=
    (uN (8 * Z.of_nat w) (if p =? PCI_CFG_DATA then pm_get d (pm_sel d) else -1), d);
|}.
Next Obligation. intros. apply uN_range. lia. Qed.

#[export] Program Instance pcimem_PciPorts : PciPorts pcimem := {|
  cfg_sel := pm_sel;
  cfg_space := pm_get;
  cfg_store _ _ v := u32 v;
|}.
Next Obligation. intros. apply uN_range. lia. Qed.
Next Obligation. done. Qed.
Next Obligation. done. Qed.
Next Obligation. intros. change (u32 (pm_get d (pm_sel d)) = pm_get d (pm_sel d)). apply uN_idemp. lia. Qed.
Next Obligation. done. Qed.
Next Obligation. done. Qed.
Next Obligation. intros. unfold pm_get. simpl. by rewrite lookup_insert_eq. Qed.
Next Obligation. intros. unfold pm_get. simpl. by rewrite lookup_insert_ne. Qed.

(** The three widths of configuration reads see one byte-addressed space: a word at
    an even offset is its two bytes, a dword at a multiple of four its four bytes, low
    byte first, and reading changes nothing in the space. *)
Theorem pci_cfg_reads_agree {D} `{PciPorts D} (d : D) bus slot func off :
  0 <= off < 256 ->
  exists d1 d2 d4, cfg_space d1 = cfg_space d /\ cfg_space d2 = cfg_space d /\ cfg_space d4 = cfg_space d /\
    pci_cfg_readb bus slot func off d = Ok (cfg_byte d bus slot func off, d1) /\
    (off `mod` 2 = 0 -> pci_cfg_readw bus slot func off d =
       Ok (cfg_byte d bus slot func off + 256 * cfg_byte d bus slot func (off + 1), d2)) /\
    (off `mod` 4 = 0 -> pci_cfg_readl bus slot func off d =
       Ok (cfg_byte d bus slot func off + 256 * (cfg_byte d bus slot func (off + 1) +
           256 * (cfg_byte d bus slot func (off + 2) + 256 * cfg_byte d bus slot func (off + 3))), d4)).
Proof.
  intros Ho.
  destruct (wp_Ok _ _ _ (pci_cfg_readb_wp bus slot func off
    (fun v d' => v = cfg_byte d bus slot func off /\ cfg_space d' = cfg_space d) d Ho ltac:(done))) as (v1 & d1 & E1 & -> & S1).
  destruct (wp_Ok _ _ _ (pci_cfg_readw_wp bus slot func off (fun v d' =>
    v = (cfg_space d (cfg_addr bus slot func off) `div` 2 ^ ((u8 off .& 2) * 8)) `mod` 65536 /\
    cfg_space d' = cfg_space d) d ltac:(done))) as (v2 & d2 & E2 & -> & S2).
  destruct (wp_Ok _ _ _ (pci_cfg_readl_wp bus slot func off (fun v d' =>
    v = cfg_space d (cfg_addr bus slot func off) /\ cfg_space d' = cfg_space d) d ltac:(done))) as (v4 & d4 & E4 & -> & S4).
  exists d1, d2, d4. split_and!; [done..| |].
  - intros He. rewrite E2. rewrite (uN_small 8 off), land_2 by lia. do 2 f_equal.
    rewrite cfg_byte_pair by lia. unfold cfg_byte. by rewrite cfg_addr_even by dlia.
  - intros He. rewrite E4. do 2 f_equal. unfold cfg_byte.
    rewrite (cfg_addr_even _ _ _ off) by dlia.
    replace (off + 3) with (off + 2 + 1) by lia. rewrite (cfg_addr_even _ _ _ (off + 2)) by dlia.
    assert (cfg_addr bus slot func (off + 2) = cfg_addr bus slot func off) as ->.
    { unfold cfg_addr. rewrite !(uN_small 8 off), !(uN_small 8 (off + 2)) by dlia.
      rewrite !land_fc by dlia. do 2 f_equal. f_equal. dlia. }
    replace (off `mod` 4) with 0 by lia. replace ((off + 1) `mod` 4) with 1 by dlia.
    replace ((off + 2) `mod` 4) with 2 by dlia. replace ((off + 2 + 1) `mod` 4) with 3 by dlia.
    pose proof (cfg_space_range d (cfg_addr bus slot func off)) as Hr.
    set (x := cfg_space d (cfg_addr bus slot func off)) in *. clearbody x.
    change (2 ^ (8 * 0)) with 1. change (2 ^ (8 * 1)) with 256. change (2 ^ (8 * 2)) with (256 * 256).
    change (2 ^ (8 * 3)) with (256 * 256 * 256). rewrite <- !Z.div_div by lia. dlia.
Qed.

(** One device, an e1000 in slot 3 of bus 0. *)
Definition demo_pci : pcimem := mk_pcimem 0 (list_to_map
  [(cfg_addr 0 3 0 0, 0x100e8086); (cfg_addr 0 3 0 4, 0x02900003); (cfg_addr 0 3 0 8, 0x02000003);
   (cfg_addr 0 3 0 12, 0); (cfg_addr 0 3 0 16, 0xfebc0000)]).

Lemma pci_cfg_reads_agree_witness :
  exists d1 d2 d4, pci_cfg_readb 0 3 0 0 demo_pci = Ok (0x86, d1) /\
    pci_cfg_readw 0 3 0 0 demo_pci = Ok (0x8086, d2) /\ pci_cfg_readl 0 3 0 0 demo_pci = Ok (0x100e8086, d4).
Proof.
  destruct (pci_cfg_reads_agree demo_pci 0 3 0 0 ltac:(lia)) as (d1 & d2 & d4 & _ & _ & _ & E1 & E2 & E4).
  exists d1, d2, d4. split; [exact E1|split; [exact (E2 eq_refl)|exact (E4 eq_refl)]].
Defined.

(** Clearing a field of [w] bits at bit [sh], and putting a value there. *)
Lemma clear_lane x sh w :
  0 <= sh -> 0 <= w -> x .& Z.lnot (Z.shiftl (Z.ones w) sh) = x - ((x `div` 2 ^ sh) `mod` 2 ^ w) * 2 ^ sh.
Proof.
  intros Hs Hw.
  assert (x .& Z.shiftl (Z.ones w) sh = ((x `div` 2 ^ sh) `mod` 2 ^ w) * 2 ^ sh) as Hl.
  { rewrite <- Z.land_ones, <- Z.shiftr_div_pow2, <- Z.shiftl_mul_pow2 by done. apply Z.bits_inj'. intros i Hi.
    rewrite Z.land_spec. destruct (Z.lt_ge_cases i sh).
    - rewrite !Z.shiftl_spec_low by done. apply andb_false_r.
    - rewrite !Z.shiftl_spec_high, Z.land_spec, Z.shiftr_spec by lia. by replace (i - sh + sh) with i by lia. }
  rewrite <- Hl. set (m := Z.shiftl _ _). rewrite <- Z.ldiff_land.
  assert (Z.ldiff x m + (x .& m) = x) as Hsum; [|lia].
  rewrite <- (Z.lor_ldiff_and x m) at 3. rewrite Z.add_nocarry_lxor, Z.lxor_lor; [done|..];
    apply Z.bits_inj'; intros i Hi; rewrite !Z.land_spec, Z.ldiff_spec, Z.bits_0; by destruct (Z.testbit x i), (Z.testbit m i).
Qed.

(** What a word write hands to the device: the dword it read, with one half replaced. *)
Definition with_half (x off data : Z) : Z :=
  let sh := 16 * ((off `div` 2) `mod` 2) in
  x - ((x `div` 2 ^ sh) `mod` 65536) * 2 ^ sh + u16 data * 2 ^ sh.

Lemma with_half_eq x off data :
  0 <= off < 256 -> 0 <= x < 2 ^ 32 ->
  let sh := (u8 off .& 2) * 8 in
  x .& u32 (Z.lnot (Z.shiftl 0xffff sh)) .| u32 (Z.shiftl (u16 data) sh) = with_half x off data /\
  0 <= with_half x off data < 2 ^ 32.
Proof.
  intros Ho Hx sh. assert (sh = 16 * ((off `div` 2) `mod` 2)) as Hsh.
  { unfold sh. rewrite uN_small, land_2 by lia. lia. }
  clearbody sh. unfold with_half. rewrite <- Hsh. pose proof (uN_range 16 data ltac:(lia)) as Hd.
  set (v := u16 data) in *. clearbody v.
  assert (x .& u32 (Z.lnot (Z.shiftl 0xffff sh)) = x .& Z.lnot (Z.shiftl (Z.ones 16) sh)) as ->.
  { rewrite uN_land by lia. rewrite (Z.land_comm _ (Z.ones 32)), Z.land_assoc, Z.land_ones by lia.
    by rewrite Z.mod_small by lia. }
  rewrite clear_lane by dlia. rewrite Z.shiftl_mul_pow2 by dlia.
  assert (sh = 0 \/ sh = 16) as [-> | ->] by dlia.
  - change (2 ^ 0) with 1. change (2 ^ 16) with 65536 in *. change (2 ^ 32) with 4294967296 in *.
    rewrite (uN_small 32) by lia. rewrite (lor_fields _ _ 16) by dlia. dlia.
  - change (2 ^ 16) with 65536 in *. change (2 ^ 32) with 4294967296 in *. rewrite (uN_small 32) by lia.
    rewrite Z.lor_comm, (lor_fields _ _ 16) by dlia. dlia.
Qed.

Section writes.
Context {D : Type} `{PciPorts D}.

Lemma pci_cfg_writew_wp bus slot func off data Q (d : D) :
  0 <= off < 256 ->
  (forall d', cfg_space d' (cfg_addr bus slot func off) =
     cfg_store (cfg_addr bus slot func off) (cfg_space d (cfg_addr bus slot func off))
       (with_half (cfg_space d (cfg_addr bus slot func off)) off data) ->
     (forall a, a <> cfg_addr bus slot func off -> cfg_space d' a = cfg_space d a) -> Q () d') ->
  wp (pci_cfg_writew bus slot func off data) Q d.
Proof.
  intros Ho HQ. unfold pci_cfg_writew. wp_focus. apply cfg_select_wp. intros d1 H1 S1.
  wp_focus. apply cfg_data_wp. intros d2 H2 S2. rewrite H1, S1.
  pose proof (cfg_space_range d (cfg_addr bus slot func off)) as Hr.
  destruct (with_half_eq _ off data Ho Hr) as [-> Hw]. unfold outl. apply port_write_wp.
  change (u16 PCI_CFG_DATA) with PCI_CFG_DATA. rewrite uN_small by lia.
  assert (cfg_sel d2 = cfg_addr bus slot func off) as Hs by congruence. apply HQ.
  - rewrite <- Hs. rewrite cfg_out_same, H2, H1. done.
  - intros a Ha. rewrite cfg_out_other by congruence. congruence.
Qed.
End writes.

(** A word write to the configuration space gives the device the dword at that
    offset with exactly the addressed half replaced, and touches no other dword; on a
    register that stores what it is given, reading the word back returns it. *)
Theorem pci_cfg_writew_readw {D} `{PciPorts D} (d : D) bus slot func off data :
  0 <= off < 256 ->
  let a := cfg_addr bus slot func off in
  exists d', pci_cfg_writew bus slot func off data d = Ok ((), d') /\
    cfg_space d' a = cfg_store a (cfg_space d a) (with_half (cfg_space d a) off data) /\
    (forall a', a' <> a -> cfg_space d' a' = cfg_space d a') /\
    ((forall old v, 0 <= v < 2 ^ 32 -> cfg_store a old v = v) ->
     exists d'', pci_cfg_readw bus slot func off d' = Ok (u16 data, d'')).
Proof.
  intros Ho a.
  destruct (wp_Ok _ _ _ (pci_cfg_writew_wp bus slot func off data (fun _ d' =>
    cfg_space d' a = cfg_store a (cfg_space d a) (with_half (cfg_space d a) off data) /\
    (forall a', a' <> a -> cfg_space d' a' = cfg_space d a')) d Ho ltac:(done))) as ([] & d' & E & Ha & Hother).
  exists d'. split_and!; [done..|]. intros Hplain.
  destruct (wp_Ok _ _ _ (pci_cfg_readw_wp bus slot func off (fun v _ =>
    v = (cfg_space d' a `div` 2 ^ ((u8 off .& 2) * 8)) `mod` 65536) d' ltac:(done))) as (v & d'' & E' & ->).
  exists d''. rewrite E', Ha, Hplain by (apply with_half_eq; [done|apply cfg_space_range]). do 2 f_equal. rewrite uN_small, land_2 by lia. unfold with_half.
  pose proof (uN_range 16 data ltac:(lia)) as Hd. set (x := cfg_space d a). clearbody x.
  set (w := u16 data) in *. clearbody w. change (2 ^ 16) with 65536 in Hd.
  assert ((off `div` 2) `mod` 2 = 0 \/ (off `div` 2) `mod` 2 = 1) as [-> | ->] by dlia.
  - change (2 ^ (2 * 0 * 8)) with 1. change (2 ^ (16 * 0)) with 1. dlia.
  - change (2 ^ (2 * 1 * 8)) with 65536. change (2 ^ (16 * 1)) with 65536. dlia.
Qed.

Lemma pci_cfg_writew_readw_witness :
  exists d', pci_cfg_writew 0 3 0 PCI_COMMAND 0x0107 demo_pci = Ok ((), d') /\
    exists d'', pci_cfg_readw 0 3 0 PCI_COMMAND d' = Ok (u16 0x0107, d'').
Proof.
  destruct (pci_cfg_writew_readw demo_pci 0 3 0 PCI_COMMAND 0x0107 ltac:(unfold PCI_COMMAND; lia))
    as (d' & E & Ha & _ & Hrd).
  exists d'. split; [exact E|]. apply Hrd. intros old v Hv. exact (uN_small 32 v Hv).
Defined.

(** ** Command bits *)

Lemma half_lor x k : 0 <= x < 2 ^ 32 -> 0 <= k < 65536 ->
  with_half x PCI_COMMAND (u16 (x `mod` 65536 .| k)) = x .| k.
Proof.
  intros Hx Hk. unfold with_half, PCI_COMMAND. change (16 * ((4 `div` 2) `mod` 2)) with 0. change (2 ^ 0) with 1.
  pose proof (lor_bounded (x `mod` 65536) k 16 ltac:(lia) ltac:(dlia) Hk) as Hb.
  rewrite uN_idemp, uN_small by (done || lia).
  replace (x .| k) with ((x - x `mod` 65536) .| (x `mod` 65536 .| k)).
  - rewrite (lor_fields (x - _) _ 16) by dlia. rewrite Z.div_1_r. lia.
  - rewrite Z.lor_assoc. f_equal. rewrite (lor_fields _ _ 16) by dlia. lia.
Qed.

Lemma half_andn x k : 0 <= x < 2 ^ 32 -> 0 <= k < 65536 ->
  with_half x PCI_COMMAND (u16 (x `mod` 65536 .& Z.lnot k)) = x .& Z.lnot k.
Proof.
  intros Hx Hk. unfold with_half, PCI_COMMAND. change (16 * ((4 `div` 2) `mod` 2)) with 0. change (2 ^ 0) with 1.
  pose proof (land_bounded (x `mod` 65536) (Z.lnot k) 16 ltac:(lia) ltac:(dlia)) as Hb.
  rewrite uN_idemp, uN_small by (done || lia).
  replace (x .& Z.lnot k) with ((x - x `mod` 65536) .| (x `mod` 65536 .& Z.lnot k)).
  - rewrite (lor_fields (x - _) _ 16) by dlia. rewrite Z.div_1_r. lia.
  - apply Z.bits_inj'. intros i Hi. rewrite Z.lor_spec, !Z.land_spec, Z.lnot_spec by lia.
    replace (x - x `mod` 65536) with (Z.shiftl (Z.shiftr x 16) 16)
      by (rewrite Z.shiftl_mul_pow2, Z.shiftr_div_pow2 by lia; dlia).
    change (x `mod` 65536) with (uN 16 x). rewrite testbit_uN by lia. destruct (Z.ltb_spec i 16).
    + rewrite Z.shiftl_spec_low by done. done.
    + rewrite Z.shiftl_spec_high, Z.shiftr_spec by lia. replace (i - 16 + 16) with i by lia.
      rewrite (bounded_testbit_high k 16) by lia. rewrite andb_false_l, orb_false_r. by rewrite andb_true_r.
Qed.

Section command.
Context {D : Type} `{PciPorts D}.
Implicit Types d : D.

(** [d'] is [d] after the device's command dword was written with [v]. *)
Definition command_written (v : pci_dev) (f : Z -> Z) d d' : Prop :=
  let a := cfg_addr (bus v) (slot v) (func v) PCI_COMMAND in
  cfg_space d' a = cfg_store a (cfg_space d a) (f (cfg_space d a)) /\
  forall a', a' <> a -> cfg_space d' a' = cfg_space d a'.

Lemma command_wp v (f g : Z -> Z) d :
  (forall x, 0 <= x < 2 ^ 32 -> with_half x PCI_COMMAND (u16 (g (x `mod` 65536))) = f x) ->
  wp (w ← pci_cfg_readw (bus v) (slot v) (func v) PCI_COMMAND;
      pci_cfg_writew (bus v) (slot v) (func v) PCI_COMMAND (u16 (g w)))
    (fun _ d' => command_written v f d d') d.
Proof.
  intros Hfg. wp_focus. apply pci_cfg_readw_wp. intros d1 H1.
  change (u8 PCI_COMMAND .& 2) with 0. change (2 ^ (0 * 8)) with 1. rewrite Z.div_1_r.
  apply pci_cfg_writew_wp; [unfold PCI_COMMAND; lia|]. intros d' Hs Ho. rewrite H1 in *.
  split; [|exact Ho]. rewrite Hs, Hfg by apply cfg_space_range. done.
Qed.

Lemma pci_enable_bus_master_wp v d :
  wp (pci_enable_bus_master v) (fun _ d' => command_written v (fun x => x .| PCI_CMD_BUS_MASTER) d d') d.
Proof. apply (command_wp v _ (fun w => w .| PCI_CMD_BUS_MASTER)). intros. by apply half_lor. Qed.
Lemma pci_enable_mem_space_wp v d :
  wp (pci_enable_mem_space v) (fun _ d' => command_written v (fun x => x .| PCI_CMD_MEM_SPACE) d d') d.
Proof. apply (command_wp v _ (fun w => w .| PCI_CMD_MEM_SPACE)). intros. by apply half_lor. Qed.
Lemma pci_enable_io_space_wp v d :
  wp (pci_enable_io_space v) (fun _ d' => command_written v (fun x => x .| PCI_CMD_IO_SPACE) d d') d.
Proof. apply (command_wp v _ (fun w => w .| PCI_CMD_IO_SPACE)). intros. by apply half_lor. Qed.
Lemma pci_enable_ints_wp v d :
  wp (pci_enable_ints v) (fun _ d' => command_written v (fun x => x .& Z.lnot PCI_CMD_INTS_DISABLE) d d') d.
Proof. apply (command_wp v _ (fun w => w .& Z.lnot PCI_CMD_INTS_DISABLE)). intros. by apply half_andn. Qed.
End command.

(** A byte write at an offset that is not a multiple of four goes to byte 0 of the
    dword instead: here it is meant for byte 5 (the high byte of the command) and
    clears the low byte with what byte 4 had. *)
Example pci_cfg_writeb_lane :
  match pci_cfg_writeb 0 3 0 5 0x04 demo_pci with
  | Ok (_, d') => pm_get d' (cfg_addr 0 3 0 4) = 0x02900003
  | Err _ => False
  end.
Proof. vm_compute. reflexivity. Qed.

(** ** Enumeration *)

Section enum.
Context {D : Type} `{PciPorts D}.
Implicit Types d : D.

Definition pci_present d (b s : Z) : bool := negb (cfg_space d (cfg_addr b s 0 0) `mod` 65536 =? 0xffff).
Definition pci_multi d (b s : Z) : bool := negb ((cfg_byte d b s 0 PCI_HDR_TYPE .& 0x80) =? 0).
(** The function at an address, as its configuration space describes it. *)
Definition pci_at d (b s f : Z) : pci_dev :=
  mk_pci_dev ((cfg_space d (cfg_addr b s f 0) `div` 65536) `mod` 65536) (cfg_space d (cfg_addr b s f 0) `mod` 65536)
    b s f (cfg_byte d b s f PCI_CLASS_CODE) (cfg_byte d b s f PCI_SUBCLASS) (cfg_byte d b s f PCI_PROGIF).

Lemma pci_space_ext d d' : cfg_space d' = cfg_space d ->
  (forall b s, pci_present d' b s = pci_present d b s) /\ (forall b s, pci_multi d' b s = pci_multi d b s) /\
  (forall b s f, pci_at d' b s f = pci_at d b s f).
Proof. intros Hd. unfold pci_present, pci_multi, pci_at, cfg_byte. by rewrite Hd. Qed.

Lemma pci_get_vendor_id_wp b s f Q d :
  (forall d', cfg_space d' = cfg_space d -> Q (cfg_space d (cfg_addr b s f 0) `mod` 65536) d') ->
  wp (pci_get_vendor_id b s f) Q d.
Proof.
  intros HQ. apply pci_cfg_readw_wp. intros d' Hd. change (2 ^ ((u8 PCI_VENDOR_ID .& 2) * 8)) with 1.
  rewrite Z.div_1_r. by apply HQ.
Qed.

Lemma pci_check_dev_wp b s Q d :
  (forall d', cfg_space d' = cfg_space d -> Q (pci_present d b s) d') -> wp (pci_check_dev b s 0) Q d.
Proof. intros HQ. unfold pci_check_dev. wp_focus. apply pci_get_vendor_id_wp. intros d' Hd. wp_step. by apply HQ. Qed.

Lemma pci_add_dev_wp b s f Q d :
  pci_fn b s f -> (forall d', cfg_space d' = cfg_space d -> Q (pci_at d b s f) d') -> wp (pci_add_dev b s f) Q d.
Proof.
  intros (Hb & Hs & Hf) HQ. unfold pci_add_dev. wp_focus. apply pci_get_vendor_id_wp. intros d1 H1.
  wp_focus. apply pci_cfg_readw_wp. intros d2 H2. change (cfg_addr b s f PCI_DEVICE_ID) with (cfg_addr b s f 0).
  change (2 ^ ((u8 PCI_DEVICE_ID .& 2) * 8)) with 65536.
  wp_focus. apply pci_cfg_readb_wp; [done|]. intros d3 H3. wp_focus. apply pci_cfg_readb_wp; [done|]. intros d4 H4.
  wp_focus. apply pci_cfg_readb_wp; [done|]. intros d5 H5. wp_step.
  rewrite !(uN_small 8) by lia. rewrite H1. unfold cfg_byte. rewrite H4, H3, H2, H1. apply HQ. congruence.
Qed.

Lemma enum_slot_wp b s devs Q d :
  0 <= b < 256 -> 0 <= s < 32 -> (pci_present d b s = true -> pci_multi d b s = false) ->
  (forall d', cfg_space d' = cfg_space d ->
     Q (0, devs ++ (if pci_present d b s then [pci_at d b s 0] else [])) d') ->
  wp (enum_slot b s (0, devs)) Q d.
Proof.
  intros Hb Hs Hm HQ. unfold enum_slot. wp_focus. apply pci_check_dev_wp. intros d1 H1.
  destruct (pci_present d b s) eqn:Hp.
  - wp_focus. apply pci_add_dev_wp; [unfold pci_fn; lia|]. intros d2 H2.
    wp_focus. apply pci_cfg_readb_wp; [done|]. intros d3 H3.
    destruct (pci_space_ext d d2 ltac:(congruence)) as (_ & E2 & _).
    destruct (pci_space_ext d d1 H1) as (_ & _ & E1). rewrite E1.
    change (negb ((cfg_byte d2 b s 0 PCI_HDR_TYPE .& 0x80) =? 0)) with (pci_multi d2 b s).
    rewrite E2, (Hm eq_refl). wp_step. apply HQ. congruence.
  - wp_step. rewrite app_nil_r in HQ. by apply HQ.
Qed.

Definition found d (l : list (Z * Z)) : list pci_dev :=
  (fun x => pci_at d x.1 x.2 0) <$> filter (fun x => pci_present d x.1 x.2 = true) l.
Definition row (n b : Z) : list (Z * Z) := pair b <$> seqZ 0 n.
Definition pci_slots : list (Z * Z) := concat (row PCI_DEV_PER_BUS <$> seqZ 0 PCI_BUS_COUNT).

Lemma seqZ_snoc n : 0 <= n -> seqZ 0 (n + 1) = seqZ 0 n ++ [n].
Proof. intros. rewrite seqZ_app by lia. done. Qed.

Lemma found_app d l l' : found d (l ++ l') = found d l ++ found d l'.
Proof. unfold found. by rewrite filter_app, fmap_app. Qed.
Lemma found_one d b s : found d [(b, s)] = if pci_present d b s then [pci_at d b s 0] else [].
Proof. unfold found. rewrite filter_cons, filter_nil. simpl. by destruct (pci_present d b s). Qed.
End enum.

(** On a machine without multi-function devices, enumeration visits all 8192 slots,
    ends, and lists exactly the devices that answer with a vendor, once each and in
    the order of their addresses, with the ids and class their configuration space
    holds. *)
Theorem pci_enumerate_single {D} `{PciPorts D} (d : D) :
  (forall b s, 0 <= b < 256 -> 0 <= s < 32 -> pci_present d b s = true -> pci_multi d b s = false) ->
  exists d', pci_enumerate d = Ok (found d pci_slots, d') /\ cfg_space d' = cfg_space d.
Proof.
  intros Hm.
  assert (wp pci_enumerate (fun l d' => l = found d pci_slots /\ cfg_space d' = cfg_space d) d) as Hw.
  { unfold pci_enumerate. wp_focus.
    apply (wp_for_acc (fun b st d' => st = (0, found d (concat (row PCI_DEV_PER_BUS <$> seqZ 0 b))) /\
      cfg_space d' = cfg_space d)); [done|done| |].
    - intros b st d1 Hb [-> H1]. wp_focus.
      apply (wp_for_acc (fun s st d' => st = (0, found d (concat (row PCI_DEV_PER_BUS <$> seqZ 0 b) ++ row s b)) /\
        cfg_space d' = cfg_space d)); [done| | |].
      + by rewrite app_nil_r.
      + intros s st d2 Hs [-> H2]. wp_focus. destruct (pci_space_ext d d2 H2) as (E & E' & E'').
        apply enum_slot_wp; [done|done|rewrite E, E'; by apply Hm|].
        intros d3 H3. wp_step. split; [|congruence]. unfold row. rewrite seqZ_snoc by lia.
        rewrite fmap_app, app_assoc, (found_app d _ (pair b <$> [s])). do 2 f_equal. rewrite E, E''. symmetry. apply found_one.
      + intros st d2 [-> H2]. wp_step. split; [|done]. rewrite seqZ_snoc by lia.
        rewrite fmap_app, concat_app. cbn [fmap list_fmap concat]. by rewrite app_nil_r.
    - intros st d1 [-> H1]. by wp_step. }
  destruct (wp_Ok _ _ _ Hw) as (l & d' & E & -> & Hd). by exists d'.
Qed.

Lemma pci_enumerate_single_witness :
  exists d', pci_enumerate demo_pci = Ok ([mk_pci_dev 0x100e 0x8086 0 3 0 2 0 0], d').
Proof.
  destruct (pci_enumerate_single demo_pci) as (d' & E & _).
  - intros b s Hb Hs. unfold pci_present, pci_multi. unfold demo_pci.
    assert (forallb (fun b => forallb (fun s =>
      negb (pci_present demo_pci b s) || negb (pci_multi demo_pci b s)) (seqZ 0 32)) (seqZ 0 256) = true) as Hall
      by (vm_compute; reflexivity).
    rewrite forallb_forall in Hall. specialize (Hall b ltac:(apply list_elem_of_In, elem_of_seqZ; lia)). cbv beta in Hall.
    rewrite forallb_forall in Hall. specialize (Hall s ltac:(apply list_elem_of_In, elem_of_seqZ; lia)). cbv beta in Hall.
    unfold demo_pci, pci_present, pci_multi in Hall. destruct (negb (_ =? 0xffff)); [|discriminate].
    intros _. apply negb_true_iff in Hall. exact Hall.
  - exists d'. rewrite E. replace (found demo_pci pci_slots) with [mk_pci_dev 0x100e 0x8086 0 3 0 2 0 0]
      by (vm_compute; reflexivity). reflexivity.
Defined.

(** A device with several functions is listed eight times, whatever functions it has:
    each round of the inner loop checks function 0 again. *)
Example pci_enumerate_phantoms :
  match enum_slot 0 3 (0, []) (mk_pcimem 0 (<[cfg_addr 0 3 0 12 := 0x00800000]> (pm_space demo_pci))) with
  | Ok ((f, ds), _) => f = 8 /\ length ds = 8%nat /\ vendor_id <$> ds !! 5%nat = Some 0xffff
  | Err _ => False
  end.
Proof. vm_compute. done. Qed.
