(* ===== verification/Desc.v ===== *)
(** * Desc: segment and interrupt descriptors (src/arch/x86_64/gdt.c, gdt.h,
      src/intr/idt.c, idt.h)

    A descriptor is the record of its bit fields; the union view [low]/[high] and the
    bytes the processor reads are its packed form.  [seg_base], [seg_limit] and [gate]
    say how the processor decodes them (Intel SDM vol. 3, 3.4.5 and 6.14.1). *)

From S2P Require Import Prelude Disk.

(** ** Segment descriptors *)

Definition GDT_RING0 : Z := 0.
Definition GDT_RING3 : Z := 3.
Definition GDT_WRITE : Z := 1.
Definition GDT_NUM_DESCS : nat := 7.

Record gdt_entry : Type := mk_gdt {
  limlo : Z; baselo : Z; basemid : Z; access : Z; rw : Z; dc : Z; code : Z; codedata : Z; dpl : Z;
  present : Z; limhi : Z; avail : Z; mode64bit : Z; mode32bit : Z; gran : Z; basehi : Z;
}.
Definition gdt_widths : list Z := [16; 16; 8; 1; 1; 1; 1; 1; 2; 1; 4; 1; 1; 1; 1; 8].
Definition gdt_fields (e : gdt_entry) : list Z :=
  [limlo e; baselo e; basemid e; access e; rw e; dc e; code e; codedata e; dpl e; present e; limhi e;
   avail e; mode64bit e; mode32bit e; gran e; basehi e].
Definition gdt_of_fields (l : list Z) : gdt_entry :=
  match l with
  | [a; b; c; d; e; f; g; h; i; j; k; m; n; o; p; q] => mk_gdt a b c d e f g h i j k m n o p q
  | _ => mk_gdt 0 0 0 0 0 0 0 0 0 0 0 0 0 0 0 0
  end.
Definition gdt_null : gdt_entry := gdt_of_fields [].

(** The other view of the union. *)
Definition gdt_low (e : gdt_entry) : Z := bpack gdt_widths (gdt_fields e) `mod` 2 ^ 32.
Definition gdt_high (e : gdt_entry) : Z := bpack gdt_widths (gdt_fields e) `div` 2 ^ 32.
Definition gdt_raw (low high : Z) : gdt_entry := gdt_of_fields (bunpack gdt_widths (u32 low + 2 ^ 32 * u32 high)).

(** A table; a store outside it is a fault. *)
Abbreviation gdt := (list gdt_entry).
Definition gdt_put (idx : Z) (e : gdt_entry) (t : gdt) : outcome gdt :=
  if bool_decide (0 <= idx < Z.of_nat (length t)) then Ok (<[Z.to_nat idx := e]> t) else Err OutOfBounds.
Definition bind {A B} (o : outcome A) (f : A -> outcome B) : outcome B :=
  match o with Ok a => f a | Err x => Err x end.
Notation "o >>! f" := (bind o f) (at level 60, right associativity).

Definition gdt_set_null (idx : Z) (t : gdt) : outcome gdt := gdt_put idx gdt_null t.

(** [basemid] is not assigned: it keeps its value. *)
Definition gdt_mkentry (idx base lim rw dc dpl code codedata : Z) (t : gdt) : outcome gdt :=
  gdt_put idx (mk_gdt (u16 (lim .& 0xffff)) (u16 (base .& 0xffffff))
    (basemid (default gdt_null (t !! Z.to_nat idx))) 0 (rw .& 1) (dc .& 1) (code .& 1) (codedata .& 1) (dpl .& 3)
    1 (Z.shiftr lim 16 .& 0x0f) 0 1 0 1 (Z.shiftr base 24 .& 0xff)) t.

Definition gdt_set_raw_entry (t : gdt) (select low high : Z) : outcome gdt := gdt_put select (gdt_raw low high) t.
Definition gdt_set_entry (t : gdt) (select : Z) (e : gdt_entry) : outcome gdt :=
  gdt_set_raw_entry t select (gdt_low e) (gdt_high e).

Definition gdt_setbase (e : gdt_entry) (base : Z) : gdt_entry :=
  mk_gdt (limlo e) (base .& 0xffff) (Z.shiftr base 16 .& 0xff) (access e) (rw e) (dc e) (code e) (codedata e) (dpl e)
    (present e) (limhi e) (avail e) (mode64bit e) (mode32bit e) (gran e) (Z.shiftr base 24 .& 0xff).
Definition gdt_setlim (e : gdt_entry) (lim : Z) : gdt_entry :=
  mk_gdt (lim .& 0xffff) (baselo e) (basemid e) (access e) (rw e) (dc e) (code e) (codedata e) (dpl e)
    (present e) (Z.shiftr lim 16 .& 0x0f) (avail e) (mode64bit e) (mode32bit e) (gran e) (basehi e).

(** [gdt_ptr_t]: the operand of [lgdt]. *)
Record gdt_ptr : Type := mk_gdt_ptr { ptr_lim : Z; ptr_base : Z }.

Definition gdt_init (addr : Z) (t : gdt) : outcome (gdt * gdt_ptr) :=
  gdt_set_null 0 t >>! fun t =>
  gdt_mkentry 1 0 0xffffffff GDT_WRITE 0 GDT_RING0 1 1 t >>! fun t =>
  gdt_mkentry 2 0 0xffffffff GDT_WRITE 0 GDT_RING0 0 1 t >>! fun t =>
  gdt_mkentry 3 0 0xffffffff GDT_WRITE 0 GDT_RING3 1 1 t >>! fun t =>
  gdt_mkentry 4 0 0xffffffff GDT_WRITE 0 GDT_RING3 0 1 t >>! fun t =>
  Ok (t, mk_gdt_ptr (u16 (8 * Z.of_nat GDT_NUM_DESCS - 1)) (u64 addr)).

(** [tss_t], 104 bytes. *)
Record tss : Type := mk_tss { tss_rsp : list Z; tss_ist : list Z; iomap_base : Z }.
Definition sizeof_tss : Z := 104.

(** [tp] is the address of the structure, [stack] that of the boot stack; the
    parameter [select] of the source is not used. *)
Definition tss_init (tp stack : Z) (t : gdt) : outcome (gdt * tss) :=
  let ent := gdt_setbase (gdt_setlim gdt_null (sizeof_tss - 1)) (tp .& 0xffffffff) in
  let ent := mk_gdt (limlo ent) (baselo ent) (basemid ent) 1 (rw ent) (dc ent) 1 (codedata ent) 3 1 (limhi ent)
               (avail ent) (mode64bit ent) (mode32bit ent) (gran ent) (basehi ent) in
  gdt_set_entry t 5 ent >>! fun t =>
  gdt_set_raw_entry t 6 (u32 (Z.shiftr (u64 tp) 32)) 0 >>! fun t =>
  Ok (t, mk_tss [u64 (stack + 4096); 0; 0] (replicate 7 0) sizeof_tss).

(** *** How the processor reads a descriptor *)

Definition seg_base (e : gdt_entry) : Z := baselo e + 2 ^ 16 * basemid e + 2 ^ 24 * basehi e.
Definition seg_limit (e : gdt_entry) : Z := limlo e + 2 ^ 16 * limhi e.
(** The four type bits and the S bit of a system or code/data descriptor. *)
Definition seg_type (e : gdt_entry) : Z := access e + 2 * rw e + 4 * dc e + 8 * code e + 16 * codedata e.
(** A TSS descriptor takes two slots; the second holds the upper half of the base. *)
Definition tss_base (t : gdt) : option Z :=
  match t !! 5%nat, t !! 6%nat with
  | Some lo, Some hi => Some (seg_base lo + 2 ^ 32 * gdt_low hi)
  | _, _ => None
  end.

(** ** Interrupt descriptors *)

Definition IDT_KERNEL : Z := 0.
Definition IDT_USER : Z := 3.
Definition IDT_STOR : Z := 0.
Definition IDT_TYPE_INT : Z := 0xe.
Definition IDT_TYPE_TRAP : Z := 0xf.
Definition IPI_SCHED : Z := 0xfd.
Definition IPI_HALT : Z := 0xfe.

Record idt_entry : Type := mk_idt {
  off_lowbits : Z; select : Z; ist : Z; itype : Z; stor : Z; idpl : Z; ipresent : Z;
  off_midbits : Z; off_highbits : Z; ignore : Z;
}.
Definition idt_null : idt_entry := mk_idt 0 0 0 0 0 0 0 0 0 0.

Definition set_handler (e : idt_entry) (fn sel type dpl : Z) : idt_entry :=
  mk_idt (u16 (u64 fn .& 0x000000000000ffff)) (u16 sel) (ist e) (uN 4 type) IDT_STOR (uN 2 dpl) 1
    (u16 (Z.shiftr (u64 fn .& 0x00000000ffff0000) 16)) (u32 (Z.shiftr (u64 fn .& 0xffffffff00000000) 32)) (ignore e).

(** The addresses of the assembly stubs. *)
Record stubs : Type := mk_stubs { isr : Z -> Z; isr0x80 : Z; irq : Z -> Z; ipi0xfd : Z; ipi0xfe : Z }.

(** The calls of [idt_init] in order: vector, stub, type, privilege level. *)
Definition idt_calls (st : stubs) : list (nat * Z * Z * Z) :=
  [(0%nat, isr st 0, IDT_TYPE_INT, IDT_KERNEL); (1%nat, isr st 1, IDT_TYPE_TRAP, IDT_KERNEL);
   (2%nat, isr st 2, IDT_TYPE_INT, IDT_KERNEL); (3%nat, isr st 3, IDT_TYPE_TRAP, IDT_KERNEL);
   (4%nat, isr st 4, IDT_TYPE_TRAP, IDT_KERNEL); (5%nat, isr st 5, IDT_TYPE_INT, IDT_KERNEL);
   (6%nat, isr st 6, IDT_TYPE_INT, IDT_KERNEL); (7%nat, isr st 7, IDT_TYPE_INT, IDT_KERNEL);
   (8%nat, isr st 8, IDT_TYPE_INT, IDT_KERNEL); (9%nat, isr st 9, IDT_TYPE_INT, IDT_KERNEL);
   (10%nat, isr st 10, IDT_TYPE_INT, IDT_KERNEL); (11%nat, isr st 11, IDT_TYPE_INT, IDT_KERNEL);
   (12%nat, isr st 12, IDT_TYPE_INT, IDT_KERNEL); (13%nat, isr st 13, IDT_TYPE_INT, IDT_KERNEL);
   (14%nat, isr st 14, IDT_TYPE_INT, IDT_KERNEL); (15%nat, isr st 15, IDT_TYPE_INT, IDT_KERNEL);
   (16%nat, isr st 16, IDT_TYPE_INT, IDT_KERNEL); (17%nat, isr st 17, IDT_TYPE_INT, IDT_KERNEL);
   (18%nat, isr st 18, IDT_TYPE_INT, IDT_KERNEL); (19%nat, isr st 19, IDT_TYPE_INT, IDT_KERNEL);
   (20%nat, isr st 20, IDT_TYPE_INT, IDT_KERNEL); (21%nat, isr st 21, IDT_TYPE_INT, IDT_KERNEL);
   (22%nat, isr st 22, IDT_TYPE_INT, IDT_KERNEL); (23%nat, isr st 23, IDT_TYPE_INT, IDT_KERNEL);
   (24%nat, isr st 24, IDT_TYPE_INT, IDT_KERNEL); (25%nat, isr st 25, IDT_TYPE_INT, IDT_KERNEL);
   (26%nat, isr st 26, IDT_TYPE_INT, IDT_KERNEL); (27%nat, isr st 27, IDT_TYPE_INT, IDT_KERNEL);
   (28%nat, isr st 28, IDT_TYPE_INT, IDT_KERNEL); (29%nat, isr st 29, IDT_TYPE_INT, IDT_KERNEL);
   (30%nat, isr st 30, IDT_TYPE_INT, IDT_KERNEL); (31%nat, isr st 31, IDT_TYPE_INT, IDT_KERNEL);
   (0x80%nat, isr0x80 st, IDT_TYPE_INT, IDT_USER);
   (0x20%nat, irq st 0, IDT_TYPE_INT, IDT_KERNEL); (0x21%nat, irq st 1, IDT_TYPE_INT, IDT_KERNEL);
   (0x22%nat, irq st 2, IDT_TYPE_INT, IDT_KERNEL); (0x23%nat, irq st 3, IDT_TYPE_INT, IDT_KERNEL);
   (0x24%nat, irq st 4, IDT_TYPE_INT, IDT_KERNEL); (0x25%nat, irq st 5, IDT_TYPE_INT, IDT_KERNEL);
   (0x26%nat, irq st 6, IDT_TYPE_INT, IDT_KERNEL); (0x27%nat, irq st 7, IDT_TYPE_INT, IDT_KERNEL);
   (0x28%nat, irq st 8, IDT_TYPE_INT, IDT_KERNEL); (0x29%nat, irq st 9, IDT_TYPE_INT, IDT_KERNEL);
   (0x2a%nat, irq st 10, IDT_TYPE_INT, IDT_KERNEL); (0x2b%nat, irq st 11, IDT_TYPE_INT, IDT_KERNEL);
   (0x2c%nat, irq st 12, IDT_TYPE_INT, IDT_KERNEL); (0x2d%nat, irq st 13, IDT_TYPE_INT, IDT_KERNEL);
   (0x2e%nat, irq st 14, IDT_TYPE_INT, IDT_KERNEL); (0x2f%nat, irq st 15, IDT_TYPE_INT, IDT_KERNEL);
   (0xfd%nat, ipi0xfd st, IDT_TYPE_INT, IDT_KERNEL); (0xfe%nat, ipi0xfe st, IDT_TYPE_INT, IDT_KERNEL)].

(** [idt_record_t]: the operand of [lidt]. *)
Record idt_record : Type := mk_idt_record { limit : Z; ibase : Z }.

(** The gates, the operand of [lidt] and the table of handlers with [ipi_halt]
    installed ([halt] its address). *)
Definition idt_set_int (id fn : Z) (h : list Z) : outcome (list Z) :=
  if bool_decide (0 <= id < Z.of_nat (length h)) then Ok (<[Z.to_nat id := fn]> h) else Err OutOfBounds.
Definition idt_gates (st : stubs) : list idt_entry :=
  foldl (fun t '(v, fn, ty, pl) => alter (fun e => set_handler e fn 0x08 ty pl) v t)
    (replicate 256 idt_null) (idt_calls st).
Definition idt_init (st : stubs) (addr halt : Z) (h : list Z) : outcome (list idt_entry * idt_record * list Z) :=
  idt_set_int IPI_HALT halt h >>! fun h =>
  Ok (idt_gates st, mk_idt_record (u16 (256 * 16 - 1)) (u64 addr), h).

(** *** How the processor reads a gate *)

Definition idt_layout : list nat := [2; 2; 1; 1; 2; 4; 4]%nat.
Definition idt_flag_widths : list Z := [4; 1; 2; 1].
(** The 16 bytes of an entry. *)
Definition idt_bytes (e : idt_entry) : list Z :=
  pack idt_layout [off_lowbits e; select e; ist e; bpack idt_flag_widths [itype e; stor e; idpl e; ipresent e];
                   off_midbits e; off_highbits e; ignore e].

Record gate : Type := mk_gate { g_offset : Z; g_select : Z; g_ist : Z; g_type : Z; g_dpl : Z }.
(** [None] when the present bit is clear. *)
Definition gate_of (bs : list Z) : option gate :=
  match unpack idt_layout bs with
  | [lo; sel; ist; fl; mid; hi; _] =>
      match bunpack idt_flag_widths fl with
      | [ty; 0; pl; 1] => Some (mk_gate (lo + 2 ^ 16 * mid + 2 ^ 32 * hi) sel ist ty pl)
      | _ => None
      end
  | _ => None
  end.

(** What the table is meant to say about a vector. *)
Definition gate_spec (st : stubs) (v : Z) : option gate :=
  if v <? 32 then
    Some (mk_gate (isr st v) 8 0 (if (v =? 1) || (v =? 3) || (v =? 4) then IDT_TYPE_TRAP else IDT_TYPE_INT) 0)
  else if v <? 48 then Some (mk_gate (irq st (v - 32)) 8 0 IDT_TYPE_INT 0)
  else if v =? 0x80 then Some (mk_gate (isr0x80 st) 8 0 IDT_TYPE_INT 3)
  else if v =? 0xfd then Some (mk_gate (ipi0xfd st) 8 0 IDT_TYPE_INT 0)
  else if v =? 0xfe then Some (mk_gate (ipi0xfe st) 8 0 IDT_TYPE_INT 0)
  else None.

(** ** Properties *)

(** The fields are within their widths. *)
Definition gdt_ok (e : gdt_entry) : Prop := bfits gdt_widths (gdt_fields e).

Lemma gdt_raw_low_high e : gdt_ok e -> gdt_raw (gdt_low e) (gdt_high e) = e.
Proof.
  intros He. unfold gdt_raw, gdt_low, gdt_high.
  pose proof (bpack_range gdt_widths (gdt_fields e) ltac:(unfold gdt_widths; repeat constructor; lia)) as Hr.
  change (foldr Z.add 0 gdt_widths) with 64 in Hr. set (x := bpack _ _) in *.
  rewrite (uN_small 32 (x `mod` _)) by (apply Z.mod_pos_bound; lia).
  rewrite (uN_small 32 (x `div` _)) by (split; [apply Z.div_pos; lia|apply Z.div_lt_upper_bound; lia]).
  rewrite Z.add_comm, <- Z.div_mod by lia. subst x. rewrite bunpack_bpack by exact He. by destruct e.
Qed.

(** Extracting the [w] bits at [s] with a shifted mask, and with a mask after the shift. *)
Lemma field_mask x s w : 0 <= s -> 0 <= w ->
  Z.shiftr (x .& Z.shiftl (Z.ones w) s) s = (x `div` 2 ^ s) `mod` 2 ^ w.
Proof.
  intros. rewrite Z.shiftr_land, Z.shiftr_shiftl_l by lia. rewrite Z.sub_diag, Z.shiftl_0_r.
  rewrite Z.land_ones, Z.shiftr_div_pow2 by done. done.
Qed.
Lemma field_shift x s w : 0 <= s -> 0 <= w -> Z.shiftr x s .& Z.ones w = (x `div` 2 ^ s) `mod` 2 ^ w.
Proof. intros. rewrite Z.land_ones, Z.shiftr_div_pow2 by done. done. Qed.

Lemma gdt_put_ok idx e t : 0 <= idx < Z.of_nat (length t) -> gdt_put idx e t = Ok (<[Z.to_nat idx := e]> t).
Proof. intros. unfold gdt_put. by rewrite bool_decide_true. Qed.

(** The task descriptor that [tss_init] writes into slots 5 and 6 decodes to the
    address and size of the task state segment, as a present 64-bit TSS of privilege
    level 3, and no other slot changes. *)
Theorem tss_init_descriptor tss stack t :
  0 <= tss < 2 ^ 64 -> length t = GDT_NUM_DESCS ->
  exists t' x e, tss_init tss stack t = Ok (t', x) /\ t' !! 5%nat = Some e /\
    tss_base t' = Some tss /\ seg_limit e = sizeof_tss - 1 /\ seg_type e = 9 /\ dpl e = 3 /\ present e = 1 /\
    tss_rsp x !! 0%nat = Some (u64 (stack + 4096)) /\
    forall i, i <> 5%nat -> i <> 6%nat -> t' !! i = t !! i.
Proof.
  intros Ht Hl. unfold GDT_NUM_DESCS in Hl. unfold tss_init, gdt_set_entry, gdt_set_raw_entry.
  set (ent := mk_gdt _ _ _ _ _ _ _ _ _ _ _ _ _ _ _ _).
  assert (gdt_ok ent) as Hok.
  { unfold ent, gdt_ok, gdt_widths, gdt_fields.
    cbn [gdt_setbase gdt_setlim limlo baselo basemid access rw dc code codedata dpl present limhi avail mode64bit
         mode32bit gran basehi gdt_null gdt_of_fields].
    change 0xff with (Z.ones 8). change 0xffff with (Z.ones 16). change 0x0f with (Z.ones 4).
    rewrite !field_shift, !Z.land_ones by lia.
    repeat first [apply Forall2_nil_2 | apply Forall2_cons; split];
      (split; [lia|]; first [apply Z.mod_pos_bound; lia | lia]). }
  rewrite gdt_raw_low_high by done. rewrite gdt_put_ok by lia. cbn [bind]. rewrite gdt_put_ok by (rewrite length_insert; lia).
  set (hi := gdt_raw _ 0). assert (gdt_low hi = tss `div` 2 ^ 32) as Hhi.
  { unfold hi, gdt_raw. rewrite (uN_small 64) by lia. rewrite Z.shiftr_div_pow2 by lia.
    assert (0 <= tss `div` 2 ^ 32 < 2 ^ 32) as Hb by (split; [apply Z.div_pos; lia|apply Z.div_lt_upper_bound; lia]).
    rewrite !(uN_small 32 (tss `div` 2 ^ 32)) by done. change (u32 0) with 0. rewrite Z.mul_0_r, Z.add_0_r.
    set (y := tss `div` 2 ^ 32) in *. clearbody y. unfold gdt_low, gdt_widths.
    cbn [bunpack gdt_of_fields gdt_fields limlo baselo basemid access rw dc code codedata dpl present limhi avail
         mode64bit mode32bit gran basehi bpack]. rewrite !uN_idemp by lia. unfold uN.
    rewrite !(Z.div_small ((y `div` 2 ^ 16) `div` 2 ^ 16)) by dlia. dlia. }
  eexists _, _, ent. split_and!; [done|..].
  - rewrite list_lookup_insert_ne by done. apply list_lookup_insert_eq. lia.
  - unfold tss_base. rewrite list_lookup_insert_ne, list_lookup_insert_eq by (done || lia).
    rewrite list_lookup_insert_eq by (rewrite length_insert; lia). rewrite Hhi. f_equal.
    unfold seg_base, ent. cbn [baselo basemid basehi gdt_setbase].
    change 0xff with (Z.ones 8). change 0xffff with (Z.ones 16). change 0xffffffff with (Z.ones 32).
    rewrite !field_shift, !Z.land_ones by lia. dlia.
  - by vm_compute.
  - done.
  - done.
  - done.
  - done.
  - intros i H5 H6. by rewrite !list_lookup_insert_ne by done.
Qed.

Lemma tss_init_descriptor_witness :
  exists t' x e, tss_init 0xffffffff80205000 0x210000 (replicate 7 gdt_null) = Ok (t', x) /\ t' !! 5%nat = Some e /\
    tss_base t' = Some 0xffffffff80205000 /\ seg_limit e = sizeof_tss - 1 /\ seg_type e = 9 /\ dpl e = 3 /\
    present e = 1 /\ tss_rsp x !! 0%nat = Some (u64 (0x210000 + 4096)) /\
    forall i, i <> 5%nat -> i <> 6%nat -> t' !! i = replicate 7 gdt_null !! i.
Proof. apply (tss_init_descriptor 0xffffffff80205000 0x210000 (replicate 7 gdt_null)); [lia|reflexivity]. Defined.

(** A code or data segment over the whole address space. *)
Definition flat_segment (c pl : Z) (e : gdt_entry) : Prop :=
  seg_base e = 0 /\ seg_limit e = 0xfffff /\ gran e = 1 /\ present e = 1 /\ codedata e = 1 /\ code e = c /\
  dpl e = pl /\ mode64bit e = 1.

(** From a zeroed table, [gdt_init] makes the null descriptor and flat 64-bit code
    and data segments for rings 0 and 3 whose upper halves are the raw values the
    source keeps in comments, and leaves the two slots of the task descriptor alone;
    the selectors the scheduler uses (0x08, 0x10, 0x1b, 0x23) select them. *)
Theorem gdt_init_segments addr t :
  length t = GDT_NUM_DESCS -> Forall (fun e => basemid e = 0) t ->
  exists e1 e2 e3 e4 r, gdt_init addr t = Ok ([gdt_null; e1; e2; e3; e4] ++ drop 5 t, r) /\
    flat_segment 1 0 e1 /\ flat_segment 0 0 e2 /\ flat_segment 1 3 e3 /\ flat_segment 0 3 e4 /\
    gdt_high <$> [e1; e2; e3; e4] = [0x00af9a00; 0x00af9200; 0x00affa00; 0x00aff200] /\
    ptr_lim r = 8 * Z.of_nat (length t) - 1.
Proof.
  intros Hl Hb. unfold GDT_NUM_DESCS in Hl.
  destruct t as [|x0 [|x1 [|x2 [|x3 [|x4 [|x5 [|x6 [|]]]]]]]]; simpl in Hl; try lia. clear Hl.
  do 5 (apply Forall_cons in Hb as [? Hb]). eexists _, _, _, _, _. split; [reflexivity|].
  unfold flat_segment, seg_base, seg_limit.
  simpl. rewrite H0, H1, H2, H3. by split_and!.
Qed.

Lemma gdt_init_segments_witness :
  exists e1 e2 e3 e4 r, gdt_init 0x1000 (replicate 7 gdt_null) = Ok ([gdt_null; e1; e2; e3; e4] ++ replicate 2 gdt_null, r) /\
    gdt_high <$> [e1; e2; e3; e4] = [0x00af9a00; 0x00af9200; 0x00affa00; 0x00aff200].
Proof.
  destruct (gdt_init_segments 0x1000 (replicate 7 gdt_null)) as (e1 & e2 & e3 & e4 & r & E & _ & _ & _ & _ & Hh & _);
    [reflexivity|repeat constructor|]. exists e1, e2, e3, e4, r. split; [exact E|exact Hh].
Defined.

(** An entry for a segment with a base: bits 16 to 23 of the base are lost. *)
Example gdt_mkentry_loses_basemid :
  match gdt_mkentry 1 0x123456 0xfffff 1 0 0 1 1 (replicate 7 gdt_null) with
  | Ok t => seg_base <$> t !! 1%nat = Some 0x3456
  | Err _ => False
  end.
Proof. by vm_compute. Qed.

(** *** Gates *)

Lemma idt_gates_eq st :
  idt_gates st = (fun v => match gate_spec st v with
                           | Some g => set_handler idt_null (g_offset g) 0x08 (g_type g) (g_dpl g)
                           | None => idt_null
                           end) <$> seqZ 0 256.
Proof. cbv -[set_handler isr irq isr0x80 ipi0xfd ipi0xfe]. reflexivity. Qed.

(** The processor reads back what [set_handler] was given. *)
Lemma set_handler_gate fn sel ty pl :
  0 <= fn < 2 ^ 64 -> 0 <= sel < 2 ^ 16 -> 0 <= ty < 16 -> 0 <= pl < 4 ->
  gate_of (idt_bytes (set_handler idt_null fn sel ty pl)) = Some (mk_gate fn sel 0 ty pl).
Proof.
  intros Hf Hs Ht Hp. unfold idt_bytes, gate_of, set_handler.
  cbn [off_lowbits select ist itype stor idpl ipresent off_midbits off_highbits ignore idt_null].
  rewrite (uN_small 64 fn), (uN_small 16 sel), (uN_small 4 ty), (uN_small 2 pl) by lia.
  change 0xffff with (Z.ones 16). change 0xffff0000 with (Z.shiftl (Z.ones 16) 16).
  change 0xffffffff00000000 with (Z.shiftl (Z.ones 32) 32).
  rewrite !field_mask, Z.land_ones by lia. unfold uN. rewrite !Z.mod_mod by lia.
  pose proof (Z.mod_pos_bound fn (2 ^ 16) ltac:(lia)). pose proof (Z.mod_pos_bound (fn `div` 2 ^ 16) (2 ^ 16) ltac:(lia)).
  pose proof (Z.mod_pos_bound (fn `div` 2 ^ 32) (2 ^ 32) ltac:(lia)).
  assert (bfits idt_flag_widths [ty; IDT_STOR; pl; 1]) as Hfl.
  { unfold idt_flag_widths, IDT_STOR. repeat first [apply Forall2_nil_2 | apply Forall2_cons; split]; lia. }
  assert (fits idt_layout [fn `mod` 2 ^ 16; sel; 0; bpack idt_flag_widths [ty; IDT_STOR; pl; 1];
    (fn `div` 2 ^ 16) `mod` 2 ^ 16; (fn `div` 2 ^ 32) `mod` 2 ^ 32; 0]) as Hfits.
  { pose proof (bpack_range idt_flag_widths [ty; IDT_STOR; pl; 1]
      ltac:(unfold idt_flag_widths; repeat constructor; lia)) as Hr.
    change (foldr Z.add 0 idt_flag_widths) with 8 in Hr.
    unfold idt_layout. repeat first [apply Forall2_nil_2 | apply Forall2_cons; split]; lia. }
  rewrite unpack_pack by exact Hfits. rewrite bunpack_bpack by exact Hfl. unfold IDT_STOR.
  f_equal. f_equal. dlia.
Qed.

(** C37: The interrupt table, as the processor reads its bytes: exceptions 0 to 31, the
    sixteen hardware interrupts from 32, the system call gate 0x80 (the only one user
    code may call) and the two inter-processor vectors have their stubs, and every
    other vector, the spurious vector 0xff included, has no gate. *)
Theorem idt_gates_correct st v :
  (forall i, 0 <= isr st i < 2 ^ 64 /\ 0 <= irq st i < 2 ^ 64) ->
  0 <= isr0x80 st < 2 ^ 64 -> 0 <= ipi0xfd st < 2 ^ 64 -> 0 <= ipi0xfe st < 2 ^ 64 -> 0 <= v < 256 ->
  exists e, idt_gates st !! Z.to_nat v = Some e /\ gate_of (idt_bytes e) = gate_spec st v.
Proof.
  intros Hi H80 Hfd Hfe Hv. rewrite idt_gates_eq, list_lookup_fmap, lookup_seqZ_lt by lia.
  cbn [fmap option_fmap option_map]. replace (0 + Z.of_nat (Z.to_nat v)) with v by lia. eexists. split; [done|].
  destruct (gate_spec st v) as [g|] eqn:Hg; [|by vm_compute].
  unfold gate_spec in Hg. repeat case_match; simplify_eq; cbn [g_offset g_type g_dpl];
    apply set_handler_gate; first [lia | apply Hi | unfold IDT_TYPE_INT, IDT_TYPE_TRAP; lia].
Qed.

Lemma idt_gates_correct_witness :
  exists e, idt_gates (mk_stubs (fun i => 0x1000 + i `mod` 32 * 16) 0x2000 (fun i => 0x3000 + i `mod` 16 * 16) 0x4000 0x5000)
      !! Z.to_nat 0x80 = Some e /\
    gate_of (idt_bytes e) = Some (mk_gate 0x2000 8 0 IDT_TYPE_INT 3).
Proof.
  apply (idt_gates_correct (mk_stubs (fun i => 0x1000 + i `mod` 32 * 16) 0x2000 (fun i => 0x3000 + i `mod` 16 * 16) 0x4000 0x5000) 0x80);
    cbn [isr irq isr0x80 ipi0xfd ipi0xfe]; [intros i; dlia|lia..].
Defined.
