(* ===== verification/Acpi.v ===== *)
(** * Acpi: the tables of the firmware (src/acpi)

    The tables lie in memory, which the code only reads: [mem] gives the byte at an
    address, [None] where nothing is mapped.  The state is the globals of acpi.c and the
    base address handed to the I/O APIC driver. *)

From S2P Require Import Prelude Disk Pmm Alloc Kheap DList Paging.

Definition ACPI_MADT_TYPE_APICLOC : Z := 0.
Definition ACPI_MADT_TYPE_APICIO : Z := 1.
Definition ACPI_MADT_TYPE_APICIO_ISO : Z := 2.
Definition ACPI_APICLOC_ENABLE : Z := Z.shiftl 1 0.
Definition ACPI_APICLOC_ONLINE_CAPABLE : Z := Z.shiftl 1 2.

(** [sizeof] the headers, and the offsets of the fields that are read. *)
Definition sizeof_acpi_sdt_hdr : Z := 36.
Definition sizeof_acpi_madt : Z := 44.
Definition OFF_LEN : Z := 4.
Definition OFF_REV : Z := 15.
Definition OFF_RSDT_ADDR : Z := 16.
Definition OFF_XSDT_ADDR : Z := 24.

(** [acpi_isos] holds addresses of entries; the arrays have 200 and 64 slots. *)
Record acpi : Type := mk_acpi {
  rsdp : Z; desc : Z; rsdt : Z; xsdt : Z; acpi_isos : list Z; acpi_cpus : list Z; ioapic_base : Z;
}.
Definition ISO_MAX : nat := 200.
Definition CPU_MAX : nat := 64.

Section ops.
Context (mem : Z -> option Z).

(** [w] bytes at an address, little-endian. *)
Fixpoint rd_bytes (w : nat) (p : Z) : M acpi (list Z) :=
  match w with
  | O => mret []
  | S w' => b ← unwrap (mem p) OutOfBounds; r ← rd_bytes w' (p + 1); mret (b :: r)
  end.
Definition rd (w : nat) (p : Z) : M acpi Z := bs ← rd_bytes w p; mret (le_dec bs).

Definition acpi_setrsdp (p : Z) : M acpi () :=
  modify (fun s => mk_acpi p (desc s) (rsdt s) (xsdt s) (acpi_isos s) (acpi_cpus s) (ioapic_base s)).
Definition ioapic_set_base (b : Z) : M acpi () :=
  modify (fun s => mk_acpi (rsdp s) (desc s) (rsdt s) (xsdt s) (acpi_isos s) (acpi_cpus s) b).

(** [strncmp] of four bytes, compared with the given ones. *)
Definition sig_is (hdr : Z) (tbl : list Z) : M acpi bool :=
  bs ← rd_bytes 4 hdr; mret (bool_decide (bs = tbl)).

(** In both cases the entries are read as 32-bit words from [rsdt]. *)
Definition acpi_find_tbl (tbl : list Z) : M acpi Z :=
  s ← get;
  rev ← rd 1 (desc s + OFF_REV);
  entries ← (if rev =? 0 then
               len ← rd 4 (rsdt s + OFF_LEN); mret (u32 (u64 (len - sizeof_acpi_sdt_hdr) `div` 4))
             else
               len ← rd 4 (xsdt s + OFF_LEN); mret (u32 (u64 (len - sizeof_acpi_sdt_hdr) `div` 8)));
  r ← for_ 0 entries (fun i =>
        a ← rd 4 (rsdt s + sizeof_acpi_sdt_hdr + 4 * i);
        let hdr := page_map_mmio a in
        hit ← sig_is hdr tbl;
        mret (if (hit : bool) then Some hdr else None));
  mret (default 0 r).

Definition add_cpu (id : Z) : M acpi () :=
  s ← get;
  guard (length (acpi_cpus s) <? CPU_MAX)%nat OutOfBounds;;
  put (mk_acpi (rsdp s) (desc s) (rsdt s) (xsdt s) (acpi_isos s) (acpi_cpus s ++ [id]) (ioapic_base s)).
Definition add_iso (p : Z) : M acpi () :=
  s ← get;
  guard (length (acpi_isos s) <? ISO_MAX)%nat OutOfBounds;;
  put (mk_acpi (rsdp s) (desc s) (rsdt s) (xsdt s) (acpi_isos s ++ [p]) (acpi_cpus s) (ioapic_base s)).

(** The [switch] on one entry of the MADT. *)
Definition madt_entry (ent type : Z) : M acpi () :=
  if type =? ACPI_MADT_TYPE_APICLOC then
    flags ← rd 4 (ent + 4);
    if truth (flags .& (ACPI_APICLOC_ENABLE .| ACPI_APICLOC_ONLINE_CAPABLE)) then
      id ← rd 1 (ent + 3);
      if id =? 0 then mret () else add_cpu id
    else mret ()
  else if type =? ACPI_MADT_TYPE_APICIO then
    gsib ← rd 4 (ent + 8);
    if truth gsib then mret () else addr ← rd 4 (ent + 4); ioapic_set_base addr
  else if type =? ACPI_MADT_TYPE_APICIO_ISO then add_iso ent
  else mret ().

Definition madt_loop (fuel : N) (madt_end madt_ent : Z) : M acpi () :=
  while_ fuel (fun ent =>
    if ent <? madt_end then
      type ← rd 1 ent;
      madt_entry ent type;;
      len ← rd 1 (ent + 1);
      mret (inl (u64 (ent + len)))
    else mret (inr ())) madt_ent.

(** "APIC". *)
Definition SIG_APIC : list Z := [65; 80; 73; 67].
Definition acpi_read_madt (fuel : N) : M acpi () :=
  madt ← acpi_find_tbl SIG_APIC;
  if madt =? 0 then mret () else
  len ← rd 4 (madt + OFF_LEN);
  madt_loop fuel (u64 (madt + len)) (u64 (madt + sizeof_acpi_madt)).

Definition acpi_init (fuel : N) : M acpi () :=
  s ← get;
  rev ← rd 1 (rsdp s + OFF_REV);
  (if rev =? 0 then
     a ← rd 4 (rsdp s + OFF_RSDT_ADDR);
     put (mk_acpi (rsdp s) (rsdp s) (page_map_mmio a) (xsdt s) [] (acpi_cpus s) (ioapic_base s))
   else
     a ← rd 8 (rsdp s + OFF_XSDT_ADDR);
     put (mk_acpi (rsdp s) (rsdp s) (page_map_mmio a) (page_map_mmio a) [] (acpi_cpus s) (ioapic_base s)));;
  acpi_read_madt fuel.
End ops.

(** ** Tables as data *)

(** The bytes [bs] lie at [p]. *)
Definition mem_at (mem : Z -> option Z) (p : Z) (bs : list Z) : Prop :=
  forall i b, bs !! i = Some b -> mem (p + Z.of_nat i) = Some b.

Lemma mem_at_drop mem p bs n : mem_at mem p bs -> mem_at mem (p + Z.of_nat n) (drop n bs).
Proof. intros Hm i b Hi. rewrite lookup_drop in Hi. apply Hm in Hi. rewrite <- Hi. f_equal. lia. Qed.

Lemma rd_bytes_wp mem w p bs Q s :
  mem_at mem p bs -> (w <= length bs)%nat -> Q (take w bs) s -> wp (rd_bytes mem w p) Q s.
Proof.
  revert p bs Q. induction w as [|w IH]; intros p bs Q Hm Hl HQ; [done|].
  destruct bs as [|b bs]; simpl in Hl; [lia|]. cbn [rd_bytes]. wp_step.
  wp_step; [rewrite <- (Z.add_0_r p); by apply (Hm 0%nat)|]. wp_focus. eapply (IH _ bs); [|lia|by wp_step].
  intros i c Hi. replace (p + 1 + Z.of_nat i) with (p + Z.of_nat (S i)) by lia. by apply Hm.
Qed.

(** Reading a field at an offset of a table. *)
Lemma acpi_rd_wp mem w p bs off Q s :
  mem_at mem p bs -> 0 <= off -> off + Z.of_nat w <= Z.of_nat (length bs) ->
  Q (le_dec (take w (drop (Z.to_nat off) bs))) s -> wp (rd mem w (p + off)) Q s.
Proof.
  intros Hm Ho Hl HQ. unfold rd. wp_focus. replace (p + off) with (p + Z.of_nat (Z.to_nat off)) by lia.
  eapply rd_bytes_wp; [by apply mem_at_drop|rewrite length_drop; lia|]. by wp_step.
Qed.

(** An entry of the MADT: a type and what follows the length byte. *)
Record ment : Type := mk_ment { m_type : Z; m_body : list Z }.
Definition ment_bytes (e : ment) : list Z := m_type e :: (2 + Z.of_nat (length (m_body e))) :: m_body e.
Definition ment_ok (e : ment) : Prop :=
  0 <= m_type e < 256 /\ bytes (m_body e) /\ (length (m_body e) < 254)%nat /\
  (m_type e = 0 -> (6 <= length (m_body e))%nat) /\ (m_type e = 1 -> (10 <= length (m_body e))%nat).

(** The fields the code looks at. *)
Definition lapic_id (e : ment) : Z := le_dec (take 1 (drop 1 (m_body e))).
Definition lapic_flags (e : ment) : Z := le_dec (take 4 (drop 2 (m_body e))).
Definition ioapic_addr (e : ment) : Z := le_dec (take 4 (drop 2 (m_body e))).
Definition ioapic_gsib (e : ment) : Z := le_dec (take 4 (drop 6 (m_body e))).

(** A processor to be started: enabled or online-capable, and not the boot one. *)
Definition startable (e : ment) : bool :=
  (m_type e =? 0) && truth (lapic_flags e .& 5) && negb (lapic_id e =? 0).

(** What a MADT says: the processors, the overrides (by their addresses) and the I/O
    APIC that serves interrupt 0. *)
Definition madt_cpus (es : list ment) : list Z := lapic_id <$> filter (fun e => startable e = true) es.
Fixpoint madt_isos (p : Z) (es : list ment) : list Z :=
  match es with
  | [] => []
  | e :: r => (if m_type e =? 2 then [p] else []) ++ madt_isos (p + Z.of_nat (length (ment_bytes e))) r
  end.
Fixpoint madt_base (b : Z) (es : list ment) : Z :=
  match es with
  | [] => b
  | e :: r => madt_base (if (m_type e =? 1) && (ioapic_gsib e =? 0) then ioapic_addr e else b) r
  end.

Definition set_lists (s : acpi) (isos cpus : list Z) (b : Z) : acpi :=
  mk_acpi (rsdp s) (desc s) (rsdt s) (xsdt s) isos cpus b.

Lemma take_drop_app_l {A} (l r : list A) n k : (n + k <= length l)%nat -> take n (drop k (l ++ r)) = take n (drop k l).
Proof. intros. rewrite drop_app_le, take_app_le by (rewrite ?length_drop; lia). done. Qed.

(** One entry: what the [switch] does. *)
Lemma madt_entry_wp mem p e rest Q s :
  mem_at mem p (ment_bytes e ++ rest) -> ment_ok e ->
  (length (acpi_cpus s) + length (madt_cpus [e]) <= CPU_MAX)%nat ->
  (length (acpi_isos s) + length (madt_isos p [e]) <= ISO_MAX)%nat ->
  Q () (set_lists s (acpi_isos s ++ madt_isos p [e]) (acpi_cpus s ++ madt_cpus [e]) (madt_base (ioapic_base s) [e])) ->
  wp (madt_entry mem p (m_type e)) Q s.
Proof.
  intros Hm (Ht & Hb & Hl & H0 & H1) Hc Hi HQ. unfold madt_entry, madt_cpus, madt_isos, madt_base, startable in *.
  rewrite !filter_cons, !filter_nil in *.
  unfold ACPI_MADT_TYPE_APICLOC, ACPI_MADT_TYPE_APICIO, ACPI_MADT_TYPE_APICIO_ISO.
  change (ACPI_APICLOC_ENABLE .| ACPI_APICLOC_ONLINE_CAPABLE) with 5.
  destruct (Z.eqb_spec (m_type e) 0) as [E0|N0].
  { rewrite E0 in *. specialize (H0 eq_refl). cbn [Z.eqb andb] in *. rewrite !app_nil_r in HQ.
    wp_focus. eapply acpi_rd_wp; [exact Hm|lia|rewrite length_app; simpl; lia|].
    rewrite take_drop_app_l by (simpl; lia). change (take 4 (drop (Z.to_nat 4) (ment_bytes e))) with (take 4 (drop 2 (m_body e))).
    fold (lapic_flags e). destruct (truth (lapic_flags e .& 5)); cbn [andb] in *; [|wp_step; destruct s; simpl in *; by rewrite app_nil_r in HQ].
    wp_focus. eapply acpi_rd_wp; [exact Hm|lia|rewrite length_app; simpl; lia|].
    rewrite take_drop_app_l by (simpl; lia). change (take 1 (drop (Z.to_nat 3) (ment_bytes e))) with (take 1 (drop 1 (m_body e))).
    fold (lapic_id e). destruct (lapic_id e =? 0); cbn [negb] in *; [wp_step; destruct s; simpl in *; by rewrite app_nil_r in HQ|].
    unfold add_cpu. wp_step. wp_step. wp_step. wp_step; [|by wp_step].
    rewrite decide_True in Hc by done. simpl in Hc. apply Nat.ltb_lt. lia. }
  cbn [andb] in HQ, Hc. rewrite decide_False in HQ, Hc by done. cbn [fmap list_fmap] in HQ. rewrite app_nil_r in HQ.
  destruct (Z.eqb_spec (m_type e) 1) as [E1|N1].
  { rewrite E1 in *. specialize (H1 eq_refl). cbn [Z.eqb Pos.eqb andb] in *. rewrite !app_nil_r in HQ.
    wp_focus. eapply acpi_rd_wp; [exact Hm|lia|rewrite length_app; simpl; lia|].
    rewrite take_drop_app_l by (simpl; lia). change (take 4 (drop (Z.to_nat 8) (ment_bytes e))) with (take 4 (drop 6 (m_body e))).
    fold (ioapic_gsib e). unfold truth. destruct (ioapic_gsib e =? 0); cbn [negb] in *; [|wp_step; by destruct s].
    wp_focus. eapply acpi_rd_wp; [exact Hm|lia|rewrite length_app; simpl; lia|].
    rewrite take_drop_app_l by (simpl; lia). change (take 4 (drop (Z.to_nat 4) (ment_bytes e))) with (take 4 (drop 2 (m_body e))).
    unfold ioapic_set_base. by wp_step. }
  cbn [andb] in HQ. destruct (m_type e =? 2); rewrite app_nil_r in *.
  - unfold add_iso. wp_step. wp_step. wp_step. wp_step; [|by wp_step]. simpl in Hi. apply Nat.ltb_lt. lia.
  - wp_step. rewrite app_nil_r in HQ. by destruct s.
Qed.

(** What the entries say, entry by entry. *)
Definition esize (es : list ment) : Z := Z.of_nat (length (concat (ment_bytes <$> es))).

Lemma esize_app es1 es2 : esize (es1 ++ es2) = esize es1 + esize es2.
Proof. unfold esize. rewrite fmap_app, concat_app, length_app. lia. Qed.
Lemma esize_one e : esize [e] = 2 + Z.of_nat (length (m_body e)).
Proof. unfold esize. cbn [fmap list_fmap concat]. rewrite app_nil_r. simpl length. lia. Qed.
Lemma madt_cpus_app es1 es2 : madt_cpus (es1 ++ es2) = madt_cpus es1 ++ madt_cpus es2.
Proof. unfold madt_cpus. by rewrite filter_app, fmap_app. Qed.
Lemma madt_base_app es1 es2 b : madt_base b (es1 ++ es2) = madt_base (madt_base b es1) es2.
Proof. revert b. induction es1; intros; simpl; auto. Qed.
Lemma madt_isos_app es1 es2 p : madt_isos p (es1 ++ es2) = madt_isos p es1 ++ madt_isos (p + esize es1) es2.
Proof.
  revert p. induction es1 as [|x es1 IH]; intros p; [simpl; by rewrite Z.add_0_r|].
  cbn [app madt_isos]. rewrite IH, <- app_assoc. do 3 f_equal.
  change (x :: es1) with ([x] ++ es1). rewrite esize_app, esize_one. simpl length. lia.
Qed.

Lemma ment_type e r : le_dec (take 1 (drop (Z.to_nat 0) (ment_bytes e ++ r))) = m_type e.
Proof. simpl. lia. Qed.
Lemma ment_len e r : le_dec (take 1 (drop (Z.to_nat 1) (ment_bytes e ++ r))) = esize [e].
Proof. rewrite esize_one. simpl. lia. Qed.

(** The state after the entries [es] at [p]. *)
Definition madt_done (p : Z) (s : acpi) (es : list ment) : acpi :=
  set_lists s (acpi_isos s ++ madt_isos p es) (acpi_cpus s ++ madt_cpus es) (madt_base (ioapic_base s) es).

Lemma madt_done_snoc p s es e :
  madt_done p s (es ++ [e]) =
  set_lists (madt_done p s es) (acpi_isos (madt_done p s es) ++ madt_isos (p + esize es) [e])
    (acpi_cpus (madt_done p s es) ++ madt_cpus [e]) (madt_base (ioapic_base (madt_done p s es)) [e]).
Proof.
  unfold madt_done. rewrite madt_isos_app, madt_cpus_app, madt_base_app, !app_assoc. done.
Qed.

(** One round of the loop. *)
Lemma madt_round_wp mem p es1 e es2 Q s :
  mem_at mem p (concat (ment_bytes <$> es1 ++ e :: es2)) -> ment_ok e -> 0 <= p ->
  p + esize (es1 ++ e :: es2) < 2 ^ 64 ->
  (length (acpi_cpus s) + length (madt_cpus (es1 ++ e :: es2)) <= CPU_MAX)%nat ->
  (length (acpi_isos s) + length (madt_isos p (es1 ++ e :: es2)) <= ISO_MAX)%nat ->
  Q (inl (p + esize (es1 ++ [e]))) (madt_done p s (es1 ++ [e])) ->
  wp (type ← rd mem 1 (p + esize es1); madt_entry mem (p + esize es1) type;;
      len ← rd mem 1 (p + esize es1 + 1); mret (inl (B := ()) (u64 (p + esize es1 + len)))) Q (madt_done p s es1).
Proof.
  intros Hm He Hp Ht Hc Hi HQ. change (e :: es2) with ([e] ++ es2) in *.
  rewrite !fmap_app, !concat_app in Hm. apply (mem_at_drop _ _ _ (length (concat (ment_bytes <$> es1)))) in Hm.
  rewrite drop_app_length in Hm. fold (esize es1) in Hm. cbn [fmap list_fmap concat] in Hm. rewrite app_nil_r in Hm.
  rewrite !esize_app in Ht. rewrite !madt_cpus_app, !length_app in Hc. rewrite !madt_isos_app, !length_app in Hi.
  assert (0 <= esize es1 /\ 0 <= esize es2) as Hpos by (unfold esize; lia). pose proof (esize_one e) as H1.
  wp_focus. rewrite <- (Z.add_0_r (p + esize es1)) at 1. eapply acpi_rd_wp; [exact Hm|lia|rewrite length_app; simpl; lia|].
  rewrite ment_type. wp_focus.
  eapply madt_entry_wp; [exact Hm|exact He|cbn [madt_done set_lists acpi_cpus]; rewrite length_app; lia
    |cbn [madt_done set_lists acpi_isos]; rewrite length_app; lia|].
  wp_focus. eapply acpi_rd_wp; [exact Hm|lia|rewrite length_app; simpl; lia|]. rewrite ment_len. wp_step.
  rewrite <- madt_done_snoc. rewrite esize_app, Z.add_assoc in HQ. rewrite uN_small by lia. exact HQ.
Qed.

(** Reading the entries ends for every table made of entries with the length they
    have, after one round per entry, and leaves exactly what the table says: the
    processors to start, in order, the interrupt overrides, and the I/O APIC that
    serves interrupt 0, as long as the fixed arrays are large enough. *)
Lemma madt_loop_correct mem p es fuel (s : acpi) :
  mem_at mem p (concat (ment_bytes <$> es)) -> Forall ment_ok es -> 0 <= p -> p + esize es < 2 ^ 64 ->
  (length (acpi_cpus s) + length (madt_cpus es) <= CPU_MAX)%nat ->
  (length (acpi_isos s) + length (madt_isos p es) <= ISO_MAX)%nat ->
  (length es < N.to_nat fuel)%nat ->
  madt_loop mem fuel (p + esize es) p s = Ok ((), madt_done p s es).
Proof.
  intros Hm Hok Hp Ht Hc Hi Hf.
  assert (wp (madt_loop mem fuel (p + esize es) p) (fun _ s1 => s1 = madt_done p s es) s) as Hw.
  { unfold madt_loop. eapply (wp_while (fun k q s1 => exists es1 es2, es = es1 ++ es2 /\ k = length es2 /\
      q = p + esize es1 /\ s1 = madt_done p s es1)) with (k := length es); [|exact Hf|].
    - exists [], es. unfold madt_done. simpl. rewrite !app_nil_r, Z.add_0_r. split_and!; [done..|]. by destruct s.
    - clear Hf. intros k q s1 (es1 & es2 & -> & -> & -> & ->). destruct es2 as [|e es2].
      + rewrite app_nil_r, Z.ltb_irrefl. by wp_step.
      + assert (p + esize es1 < p + esize (es1 ++ e :: es2)) as Hlt.
        { change (e :: es2) with ([e] ++ es2). rewrite !esize_app, esize_one.
          assert (0 <= esize es2) by (unfold esize; lia). lia. }
        rewrite (proj2 (Z.ltb_lt _ _) Hlt). apply Forall_app in Hok as [_ [He _]%Forall_cons].
        eapply madt_round_wp; [done..|]. exists (length es2). split; [simpl; lia|].
        exists (es1 ++ [e]), es2. by rewrite <- app_assoc. }
  destruct (wp_Ok _ _ _ Hw) as ([] & s1 & E & ->). exact E.
Qed.

(** An entry of length 0 keeps the loop where it is: it never ends. *)
Lemma madt_zero_len_hangs mem p fuel s madt_end :
  mem p = Some 127 -> mem (p + 1) = Some 0 -> 0 <= p < madt_end -> madt_end < 2 ^ 64 ->
  madt_loop mem fuel madt_end p s = Err NoFuel.
Proof.
  intros Ht Hz Hp He. unfold madt_loop, while_.
  apply (bind_Ok _ _ _ (inl p) s); [|reflexivity]. rewrite loop_loopN.
  induction (N.to_nat fuel) as [|n IH]; [done|]. cbn [loopN].
  apply (bind_Ok _ _ _ (inl p) s); [|exact IH]. rewrite (proj2 (Z.ltb_lt p madt_end)) by lia.
  unfold rd, rd_bytes, bindM, unwrap. rewrite Ht. cbn. rewrite Hz. cbn.
  change (madt_entry mem p (127 + 256 * 0) s) with (Ok ((), s)). cbn beta iota.
  rewrite uN_small by lia. by replace (p + (0 + 256 * 0)) with p by lia.
Qed.

(** ** Finding a table *)

(** The first of the tables at [ws] with the signature. *)
Fixpoint first_table (sg : Z -> list Z) (tbl : list Z) (ws : list Z) : Z :=
  match ws with [] => 0 | a :: r => if bool_decide (sg a = tbl) then page_map_mmio a else first_table sg tbl r end.

Lemma nth_word ws i w : ws !! i = Some w -> 0 <= w < 2 ^ 32 ->
  le_dec (take 4 (drop (4 * i) (concat (le_enc 4 <$> ws)))) = w.
Proof.
  revert i. induction ws as [|x ws IH]; intros [|i] Hi Hw; try done.
  - injection Hi as ->. rewrite Nat.mul_0_r, drop_0. cbn [fmap list_fmap concat].
    rewrite take_app_length' by (by rewrite length_le_enc). rewrite le_dec_enc. by apply uN_small.
  - cbn [fmap list_fmap concat]. rewrite drop_app_ge by (rewrite length_le_enc; lia). rewrite length_le_enc.
    replace (4 * S i - 4)%nat with (4 * i)%nat by lia. by apply IH.
Qed.

Lemma length_words ws : length (concat (le_enc 4 <$> ws)) = (4 * length ws)%nat.
Proof. induction ws as [|w ws IH]; [done|]. cbn [fmap list_fmap concat length]. rewrite length_app, length_le_enc, IH. lia. Qed.

(** The search loop over [n] words. *)
Definition find_loop (mem : Z -> option Z) (tbl : list Z) (base n : Z) : M acpi (option Z) :=
  for_ 0 n (fun i =>
    a ← rd mem 4 (base + 4 * i);
    let hdr := page_map_mmio a in
    hit ← sig_is mem hdr tbl;
    mret (if (hit : bool) then Some hdr else None)).

Lemma find_loop_wp mem sg tbl base ws n Q s :
  mem_at mem base (concat (le_enc 4 <$> ws)) -> (n <= length ws)%nat ->
  (forall a, a ∈ take n ws -> 0 <= a < 2 ^ 32 /\ mem_at mem (page_map_mmio a) (sg a) /\ length (sg a) = 4%nat) ->
  (forall o, default 0 o = first_table sg tbl (take n ws) -> Q o s) ->
  wp (find_loop mem tbl base (Z.of_nat n)) Q s.
Proof.
  intros Hm Hn Hsg HQ. unfold find_loop.
  apply (wp_for (fun i s' => s' = s /\ first_table sg tbl (take n ws) = first_table sg tbl (drop (Z.to_nat i) (take n ws)))).
  - lia.
  - done.
  - intros i s' Hi [-> Hfirst].
    destruct (lookup_lt_is_Some_2 (take n ws) (Z.to_nat i)) as [a Ha]; [rewrite length_take; lia|].
    destruct (Hsg a) as (Hr & Ha4 & Hl4); [by eapply list_elem_of_lookup_2|].
    rewrite (drop_S _ a) in Hfirst by done. cbn [first_table] in Hfirst.
    assert (ws !! Z.to_nat i = Some a) as Hwa by (rewrite lookup_take_lt in Ha by lia; done).
    wp_focus. eapply acpi_rd_wp; [exact Hm|lia|rewrite length_words; lia|].
    replace (Z.to_nat (4 * i)) with (4 * Z.to_nat i)%nat by lia. rewrite (nth_word _ _ a) by done.
    wp_focus. unfold sig_is. wp_focus. eapply rd_bytes_wp; [exact Ha4|lia|]. rewrite take_ge by lia. wp_step. wp_step.
    case_bool_decide; [by apply HQ|].
    split; [done|]. by replace (Z.to_nat (i + 1)) with (S (Z.to_nat i)) by lia.
  - intros s' [-> Hfirst]. apply HQ. rewrite Hfirst, drop_ge by (rewrite length_take; lia). done.
Qed.

(** What the firmware puts at [p]: a header with the length of the table, and its
    entries. *)
Definition sdt_at (mem : Z -> option Z) (p len : Z) (body : list Z) : Prop :=
  exists hdr, length hdr = 36%nat /\ le_dec (take 4 (drop 4 hdr)) = len /\ mem_at mem p (hdr ++ body).

Lemma acpi_find_tbl_wp mem sg tbl ws n rev Q s :
  mem (desc s + OFF_REV) = Some rev -> xsdt s = rsdt s \/ rev = 0 ->
  sdt_at mem (rsdt s) (36 + (if rev =? 0 then 4 else 8) * Z.of_nat n) (concat (le_enc 4 <$> ws)) ->
  (n <= length ws)%nat -> Z.of_nat n < 2 ^ 28 ->
  (forall a, a ∈ take n ws -> 0 <= a < 2 ^ 32 /\ mem_at mem (page_map_mmio a) (sg a) /\ length (sg a) = 4%nat) ->
  Q (first_table sg tbl (take n ws)) s -> wp (acpi_find_tbl mem tbl) Q s.
Proof.
  intros Hrev Hx (hdr & Hl & Hlen & Hm) Hn Hsmall Hsg HQ. unfold acpi_find_tbl. wp_step. wp_step. wp_focus.
  unfold rd at 1. cbn [rd_bytes]. wp_step. wp_step. wp_step; [exact Hrev|]. wp_step. wp_step. wp_step. wp_step.
  cbn [le_dec]. rewrite Z.mul_0_r, Z.add_0_r. wp_focus.
  assert (forall k (Q' : Z -> acpi -> Prop), (k = 4 \/ k = 8) -> k = (if rev =? 0 then 4 else 8) -> Q' (Z.of_nat n) s ->
    wp (len ← rd mem 4 (rsdt s + OFF_LEN); mret (u32 (u64 (len - sizeof_acpi_sdt_hdr) `div` k))) Q' s) as Hent.
  { intros k Q' Hk Hk' HQ'. wp_focus. eapply acpi_rd_wp; [exact Hm|unfold OFF_LEN; lia|rewrite length_app; unfold OFF_LEN; lia|].
    wp_step. rewrite take_drop_app_l by (rewrite Hl; unfold OFF_LEN; lia).
    change (Z.to_nat OFF_LEN) with 4%nat. rewrite Hlen, <- Hk'. unfold sizeof_acpi_sdt_hdr.
    replace (36 + k * Z.of_nat n - 36) with (Z.of_nat n * k) by lia. rewrite (uN_small 64) by lia.
    rewrite Z.div_mul by lia. rewrite uN_small by lia. exact HQ'. }
  assert (mem_at mem (rsdt s + sizeof_acpi_sdt_hdr) (concat (le_enc 4 <$> ws))) as Hws.
  { apply (mem_at_drop _ _ _ 36) in Hm. rewrite drop_app_length' in Hm by done. exact Hm. }
  destruct (Z.eqb_spec rev 0) as [E|E].
  - apply Hent; [by left|done|]. wp_focus. eapply find_loop_wp; [exact Hws|done|exact Hsg|]. intros o Ho. wp_step.
    by rewrite Ho.
  - destruct Hx as [-> | ?]; [|done]. apply Hent; [by right|done|].
    wp_focus. eapply find_loop_wp; [exact Hws|done|exact Hsg|]. intros o Ho. wp_step. by rewrite Ho.
Qed.

Lemma first_table_zero sg tbl ws : (forall a, a ∈ ws -> sg a <> tbl) -> first_table sg tbl ws = 0.
Proof.
  induction ws as [|a ws IH]; intros Hn; [done|]. cbn [first_table].
  rewrite bool_decide_false by (apply Hn; by left). apply IH. intros b Hb. apply Hn. by right.
Qed.

(** Tables found through the RSDT are the first with the signature. *)
Lemma acpi_find_tbl_rsdt mem sg tbl ws (s : acpi) :
  mem (desc s + OFF_REV) = Some 0 -> Z.of_nat (length ws) < 2 ^ 28 ->
  sdt_at mem (rsdt s) (36 + 4 * Z.of_nat (length ws)) (concat (le_enc 4 <$> ws)) ->
  (forall a, a ∈ ws -> 0 <= a < 2 ^ 32 /\ mem_at mem (page_map_mmio a) (sg a) /\ length (sg a) = 4%nat) ->
  acpi_find_tbl mem tbl s = Ok (first_table sg tbl ws, s).
Proof.
  intros Hrev Hn Hsdt Hsg.
  assert (wp (acpi_find_tbl mem tbl) (fun r s' => r = first_table sg tbl ws /\ s' = s) s) as Hw.
  { eapply (acpi_find_tbl_wp mem sg tbl ws (length ws) 0); [done|by right|done|done|done|..]; rewrite take_ge by done; done. }
  by destruct (wp_Ok _ _ _ Hw) as (r & s' & E & -> & ->).
Qed.

(** The table is found and read. *)
Lemma acpi_read_madt_run mem sg ws a es len fuel (s : acpi) :
  mem (desc s + OFF_REV) = Some 0 -> Z.of_nat (length ws) < 2 ^ 28 ->
  sdt_at mem (rsdt s) (36 + 4 * Z.of_nat (length ws)) (concat (le_enc 4 <$> ws)) ->
  (forall a, a ∈ ws -> 0 <= a < 2 ^ 32 /\ mem_at mem (page_map_mmio a) (sg a) /\ length (sg a) = 4%nat) ->
  first_table sg SIG_APIC ws = page_map_mmio a -> 0 < page_map_mmio a -> page_map_mmio a + len < 2 ^ 64 ->
  (exists pad, length pad = 8%nat /\ sdt_at mem (page_map_mmio a) len (pad ++ concat (ment_bytes <$> es))) ->
  len = 44 + esize es -> Forall ment_ok es ->
  (length (acpi_cpus s) + length (madt_cpus es) <= CPU_MAX)%nat ->
  (length (acpi_isos s) + length (madt_isos (page_map_mmio a + 44) es) <= ISO_MAX)%nat ->
  (length es < N.to_nat fuel)%nat ->
  acpi_read_madt mem fuel s = Ok ((), madt_done (page_map_mmio a + 44) s es).
Proof.
  intros Hrev Hn Hsdt Hsg Hfirst Hpos Hend (pad & Hpad & hdr & Hl & Hlen & Hm) He Hok Hc Hi Hf.
  unfold acpi_read_madt. eapply bind_Ok; [by eapply acpi_find_tbl_rsdt|]. rewrite Hfirst.
  rewrite (proj2 (Z.eqb_neq _ _)) by lia.
  assert (wp (rd mem 4 (page_map_mmio a + OFF_LEN)) (fun v s' => v = len /\ s' = s) s) as Hw.
  { eapply acpi_rd_wp; [exact Hm|unfold OFF_LEN; lia|rewrite length_app; unfold OFF_LEN; lia|].
    rewrite take_drop_app_l by (rewrite Hl; unfold OFF_LEN; lia). done. }
  destruct (wp_Ok _ _ _ Hw) as (v & s' & E & -> & ->). eapply bind_Ok; [exact E|].
  assert (0 <= esize es) by (unfold esize; lia).
  unfold sizeof_acpi_madt. rewrite !uN_small by lia. set (q := page_map_mmio a + 44) in *.
  replace (page_map_mmio a + len) with (q + esize es) by (unfold q; lia).
  apply madt_loop_correct; [|done|unfold q; lia|unfold q; lia|done|done|done].
  rewrite app_assoc in Hm. apply (mem_at_drop _ _ _ 44) in Hm.
  rewrite drop_app_length' in Hm by (rewrite length_app; lia). exact Hm.
Qed.

(** C34: Reading the MADT through an RSDT (ACPI 1.0) ends, whatever tables come first,
    for every table made of entries with the length they carry, after one round per
    entry, and leaves exactly what the table says: the processors to start in order,
    the addresses of the interrupt overrides and the I/O APIC that serves interrupt 0,
    as long as the two fixed arrays have room. *)
Theorem acpi_read_madt_correct mem sg ws a es len fuel (s : acpi) :
  mem (desc s + OFF_REV) = Some 0 -> Z.of_nat (length ws) < 2 ^ 28 ->
  sdt_at mem (rsdt s) (36 + 4 * Z.of_nat (length ws)) (concat (le_enc 4 <$> ws)) ->
  (forall a, a ∈ ws -> 0 <= a < 2 ^ 32 /\ mem_at mem (page_map_mmio a) (sg a) /\ length (sg a) = 4%nat) ->
  first_table sg SIG_APIC ws = page_map_mmio a -> 0 < page_map_mmio a -> page_map_mmio a + len < 2 ^ 64 ->
  (exists pad, length pad = 8%nat /\ sdt_at mem (page_map_mmio a) len (pad ++ concat (ment_bytes <$> es))) ->
  len = 44 + esize es -> Forall ment_ok es ->
  (length (acpi_cpus s) + length (madt_cpus es) <= CPU_MAX)%nat ->
  (length (acpi_isos s) + length (madt_isos (page_map_mmio a + 44) es) <= ISO_MAX)%nat ->
  (length es < N.to_nat fuel)%nat ->
  acpi_read_madt mem fuel s = Ok ((), madt_done (page_map_mmio a + 44) s es).
Proof. intros. by eapply acpi_read_madt_run. Qed.

Lemma words_of_xsdt xs : Forall (fun a => 0 <= a < 2 ^ 32) xs ->
  concat (le_enc 8 <$> xs) = concat (le_enc 4 <$> concat ((fun a => [a; 0]) <$> xs)).
Proof.
  induction 1 as [|a xs Ha _ IH]; [done|]. cbn [fmap list_fmap concat app]. rewrite IH, app_assoc. f_equal.
  cbn [le_enc app]. repeat f_equal; dlia.
Qed.

(** With ACPI 2.0 the entries of the XSDT are read as 32-bit words and only as many
    words as it has 64-bit entries: a table listed in its second half is never found. *)
Theorem acpi_xsdt_second_half_missed mem sg tbl xs rev (s : acpi) :
  mem (desc s + OFF_REV) = Some rev -> rev <> 0 -> xsdt s = rsdt s -> Z.of_nat (length xs) < 2 ^ 28 ->
  sdt_at mem (rsdt s) (36 + 8 * Z.of_nat (length xs)) (concat (le_enc 8 <$> xs)) ->
  (forall a, a ∈ 0 :: xs -> 0 <= a < 2 ^ 32 /\ mem_at mem (page_map_mmio a) (sg a) /\ length (sg a) = 4%nat) ->
  (forall a, a ∈ 0 :: take (S (length xs) / 2) xs -> sg a <> tbl) ->
  acpi_find_tbl mem tbl s = Ok (0, s).
Proof.
  intros Hrev Hr0 Hx Hn Hsdt Hsg Hnot.
  set (ws := concat ((fun a => [a; 0]) <$> xs)). assert (length ws = (2 * length xs)%nat) as Hlw.
  { unfold ws. clear. induction xs as [|x xs IH]; [done|]. cbn [fmap list_fmap concat app length]. lia. }
  assert (forall n a, a ∈ take n ws -> a ∈ 0 :: take (S n / 2) xs) as Hin.
  { unfold ws. clear. induction xs as [|x xs IH]; intros n a Ha; [cbn in Ha; rewrite take_nil in Ha; by apply elem_of_nil in Ha|].
    cbn [fmap list_fmap concat app] in Ha. destruct n as [|[|n]].
    - by apply elem_of_nil in Ha.
    - cbn [take] in Ha. apply list_elem_of_singleton in Ha as ->. right. by left.
    - cbn [take] in Ha. replace (S (S (S n)) / 2)%nat with (S (S n / 2)) 
        by (replace (S (S (S n))) with (S n + 1 * 2)%nat by lia; rewrite Nat.div_add by lia; lia).
      cbn [take]. apply elem_of_cons in Ha as [->|[->|Ha%IH]%elem_of_cons]; [by right; left|by left|].
      apply elem_of_cons in Ha as [->|Ha]; [by left|]. right. by right. }
  assert (wp (acpi_find_tbl mem tbl) (fun r s' => r = 0 /\ s' = s) s) as Hw.
  { eapply (acpi_find_tbl_wp mem sg tbl ws (length xs) rev); [done|by left| |lia|done| |].
    - rewrite (proj2 (Z.eqb_neq _ _)) by done. unfold ws. rewrite <- words_of_xsdt; [done|].
      apply Forall_forall. intros a Ha. apply Hsg. by right.
    - intros a Ha%Hin. apply Hsg. apply elem_of_cons in Ha as [->|Ha]; [by left|]. right.
      eapply subseteq_take; exact Ha.
    - split; [|done]. apply first_table_zero. intros a Ha%Hin. by apply Hnot. }
  by destruct (wp_Ok _ _ _ Hw) as (r & s' & E & -> & ->).
Qed.

(** ** Examples *)

(** Memory made of regions. *)
Fixpoint mem_of (l : list (Z * list Z)) (a : Z) : option Z :=
  match l with
  | [] => None
  | (p, bs) :: r => if (p <=? a) && (a <? p + Z.of_nat (length bs)) then bs !! Z.to_nat (a - p) else mem_of r a
  end.

Lemma mem_at_check mem p bs :
  (fun k => mem (p + k)) <$> seqZ 0 (Z.of_nat (length bs)) = Some <$> bs -> mem_at mem p bs.
Proof.
  intros Heq i b Hi. assert (((fun k => mem (p + k)) <$> seqZ 0 (Z.of_nat (length bs))) !! i = Some (Some b)) as Hl
    by (by rewrite Heq, list_lookup_fmap, Hi).
  apply list_lookup_fmap_Some in Hl as (k & Hk & Hs). apply lookup_seqZ in Hs as [-> _]. by rewrite Hk.
Qed.

(** A MADT with a boot processor, a second one, a disabled one, an I/O APIC and an
    override; an RSDT that lists a FACP table and the MADT. *)
Definition demo_ments : list ment :=
  [mk_ment 0 [0; 0; 1; 0; 0; 0]; mk_ment 0 [1; 1; 1; 0; 0; 0]; mk_ment 0 [2; 2; 0; 0; 0; 0];
   mk_ment 1 [0; 0; 0; 0; 192; 254; 0; 0; 0; 0]; mk_ment 2 [0; 0; 2; 0; 0; 0; 0; 0]].
Definition demo_sig (a : Z) : list Z := if a =? 0x2000 then SIG_APIC else [70; 65; 67; 80].
Definition demo_hdr (sig : list Z) (len : Z) : list Z := sig ++ le_enc 4 len ++ replicate 28 0.
Definition demo_mem : Z -> option Z := mem_of
  [(0x100, replicate 20 0);
   (0x1000, demo_hdr [82; 83; 68; 84] 44 ++ concat (le_enc 4 <$> [0x3000; 0x2000]));
   (page_map_mmio 0x2000, demo_hdr SIG_APIC 90 ++ replicate 8 0 ++ concat (ment_bytes <$> demo_ments));
   (page_map_mmio 0x3000, demo_hdr [70; 65; 67; 80] 36)].

Lemma acpi_read_madt_correct_witness :
  acpi_read_madt demo_mem 6 (mk_acpi 0x100 0x100 0x1000 0 [] [] 0) =
  Ok ((), mk_acpi 0x100 0x100 0x1000 0 [page_map_mmio 0x2000 + 44 + 36] [1] 0xfec00000).
Proof.
  apply (acpi_read_madt_correct demo_mem demo_sig [0x3000; 0x2000] 0x2000 demo_ments 90 6
           (mk_acpi 0x100 0x100 0x1000 0 [] [] 0)).
  - reflexivity.
  - reflexivity.
  - exists (demo_hdr [82; 83; 68; 84] 44). split; [reflexivity|split; [reflexivity|]]. apply mem_at_check. vm_compute. reflexivity.
  - intros a Ha. repeat (apply elem_of_cons in Ha as [->|Ha]); [| |by apply elem_of_nil in Ha];
      (split; [lia|split; [apply mem_at_check; vm_compute; reflexivity|reflexivity]]).
  - reflexivity.
  - reflexivity.
  - reflexivity.
  - exists (replicate 8 0). split; [reflexivity|]. exists (demo_hdr SIG_APIC 90).
    split; [reflexivity|split; [reflexivity|]]. apply mem_at_check. vm_compute. reflexivity.
  - reflexivity.
  - repeat first [apply Forall_nil_2 | apply Forall_cons_2]; unfold ment_ok; cbn [m_type m_body];
      (split_and!; [lia|lia|repeat first [apply Forall_nil_2 | apply Forall_cons_2; [cbn beta; lia|]]|simpl; lia|simpl; lia|simpl; lia]).
  - vm_compute. lia.
  - vm_compute. lia.
  - vm_compute. lia.
Defined.

(** Three tables in an XSDT, the MADT last. *)
Definition demo_xmem : Z -> option Z := mem_of
  [(0x100, replicate 15 0 ++ [2]);
   (0x1000, demo_hdr [88; 83; 68; 84] 60 ++ concat (le_enc 8 <$> [0x3000; 0x4000; 0x2000]));
   (page_map_mmio 0, [0; 0; 0; 0]);
   (page_map_mmio 0x2000, SIG_APIC); (page_map_mmio 0x3000, [70; 65; 67; 80]); (page_map_mmio 0x4000, [72; 80; 69; 84])].
Definition demo_xsig (a : Z) : list Z :=
  if a =? 0 then [0; 0; 0; 0] else if a =? 0x2000 then SIG_APIC
  else if a =? 0x3000 then [70; 65; 67; 80] else [72; 80; 69; 84].

Lemma acpi_xsdt_second_half_missed_witness :
  acpi_find_tbl demo_xmem SIG_APIC (mk_acpi 0x100 0x100 0x1000 0x1000 [] [] 0) =
  Ok (0, mk_acpi 0x100 0x100 0x1000 0x1000 [] [] 0).
Proof.
  apply (acpi_xsdt_second_half_missed demo_xmem demo_xsig SIG_APIC [0x3000; 0x4000; 0x2000] 2).
  - reflexivity.
  - discriminate.
  - reflexivity.
  - reflexivity.
  - exists (demo_hdr [88; 83; 68; 84] 60). split; [reflexivity|split; [reflexivity|]]. apply mem_at_check. vm_compute. reflexivity.
  - intros a Ha. repeat (apply elem_of_cons in Ha as [->|Ha]); [| | | |by apply elem_of_nil in Ha];
      (split; [lia|split; [apply mem_at_check; vm_compute; reflexivity|reflexivity]]).
  - intros a Ha. cbn in Ha. repeat (apply elem_of_cons in Ha as [->|Ha]); [discriminate..|by apply elem_of_nil in Ha].
Defined.
