(* ===== verification/Ahci.v ===== *)
(** * Ahci: the disk controller (src/drivers/storage/ata/ahci, ata.h)

    The registers of a port are volatile: reading or writing one is an access to a
    device, the class [Hba].  The command lists, command tables and received-FIS areas are
    pages of physical memory ([shm], by their physical addresses), which the driver reaches
    through its pointers into the mapping of physical memory ([page_map_mmio]) and the
    device through the base-address registers and the table addresses in the command
    headers.  [HbaSpec] states the documented behaviour the driver relies on (AHCI 1.3.1,
    ATA8-ACS READ/WRITE DMA EXT): an idle port whose registers lead to these structures
    executes the command of slot 0, clears its bit after some polls and reports no error.
    Against it, the driver is shown to be a block device ([Disk.BlkDev]); [sim] is an
    instance. *)

From S2P Require Import Prelude Disk Ports Pci Pmm Alloc Kheap DList Paging Vfs Sched.

(** ** Constants and structures *)

Definition AHCI_PORT_NULL : Z := 0.
Definition AHCI_PORT_SATA : Z := 1.
Definition AHCI_PORT_SEMB : Z := 2.
Definition AHCI_PORT_PM : Z := 3.
Definition AHCI_PORT_SATAPI : Z := 4.
Definition AHCI_CMD_SLOTS : Z := 32.
Definition HBA_PORT_IPM_ACTIVE : Z := 1.
Definition HBA_PORT_DET_PRESENT : Z := 3.
Definition SATA_SIG_ATA : Z := 0x00000101.
Definition SATA_SIG_ATAPI : Z := 0xeb140101.
Definition SATA_SIG_SEMB : Z := 0xc33c0101.
Definition SATA_SIG_PM : Z := 0x96690101.
Definition HBA_PXCMD_ST : Z := 0x0001.
Definition HBA_PXCMD_FRE : Z := 0x0010.
Definition HBA_PXCMD_FR : Z := 0x4000.
Definition HBA_PXCMD_CR : Z := 0x8000.
Definition HBA_PXIS_TFES : Z := Z.shiftl 1 30.
Definition FIS_TYPE_REG_H2D : Z := 0x27.
Definition FIS_TYPE_REG_D2H : Z := 0x34.
Definition FIS_TYPE_DMA_SETUP : Z := 0x41.
Definition FIS_TYPE_PIO_SETUP : Z := 0x5f.
Definition FIS_TYPE_DEV_BITS : Z := 0xa1.
Definition ATA_DEV_BUSY : Z := 0x80.
Definition ATA_DEV_DRQ : Z := 0x08.
Definition ATA_CMD_READ_DMA_EX : Z := 0x25.
Definition ATA_CMD_WRITE_DMA_EX : Z := 0x35.

(** [fis_reg_h2d_t]. *)
Record fis_h2d : Type := mk_fis {
  fis_type : Z; com_ctrl : Z; command : Z; lba0 : Z; lba1 : Z; lba2 : Z; f_device : Z;
  lba3 : Z; lba4 : Z; lba5 : Z; countl : Z; counth : Z;
}.
(** [hba_prdt_entry_t] and [hba_cmd_tbl_t] with its one entry. *)
Record prdt_entry : Type := mk_prdt { data_base_addr : Z; data_base_addr_u : Z; byte_cnt : Z; int_on_cmpl : Z }.
Record cmd_tbl : Type := mk_tbl { cmd_fis : fis_h2d; prdt0 : prdt_entry }.
(** [hba_cmd_header_t]. *)
Record cmd_header : Type := mk_hdr {
  cmd_fis_len : Z; h_write : Z; prdt_len : Z; cmd_tbl_base_addr : Z; cmd_tbl_base_addr_u : Z;
}.
Definition fis_zero : fis_h2d := mk_fis 0 0 0 0 0 0 0 0 0 0 0 0.
Definition tbl_zero : cmd_tbl := mk_tbl fis_zero (mk_prdt 0 0 0 0).
Definition hdr_zero : cmd_header := mk_hdr 0 0 0 0 0.

(** The registers of [hba_port_t] the driver touches. *)
Inductive hba_reg : Type :=
  | COM_BASE_ADDR | COM_BASE_ADDR_U | FIS_BASE | FIS_BASE_U | INT_STAT | CMD_STAT | TASK_FILE_DAT
  | SIG | SATA_STAT | SATA_ACTIVE | CMD_ISSUE.

(** ** Physical memory and the device *)

(** Physical memory: the pages the driver and the device share as structures, by address,
    and the bytes of all others. *)
Record shm : Type := mk_shm {
  sh_lists : gmap Z (list cmd_header); sh_tbls : gmap Z cmd_tbl; sh_fis : gmap Z (list Z); sh_mem : pmem;
}.
Definition struct_at (m : shm) (a : Z) : Prop :=
  is_Some (sh_lists m !! a) \/ is_Some (sh_tbls m !! a) \/ is_Some (sh_fis m !! a).
(** No structure is in the [n] bytes at [a]. *)
Definition dma_clear (m : shm) (a n : Z) : Prop := forall b, struct_at m b -> b + 4096 <= a \/ a + n <= b.

Definition set_lists (l : gmap Z (list cmd_header)) (m : shm) := mk_shm l (sh_tbls m) (sh_fis m) (sh_mem m).
Definition set_tbls (t : gmap Z cmd_tbl) (m : shm) := mk_shm (sh_lists m) t (sh_fis m) (sh_mem m).
Definition set_bytes (b : pmem) (m : shm) := mk_shm (sh_lists m) (sh_tbls m) (sh_fis m) b.
(** A page cleared to become a command list, a table or a FIS area; what it was is gone. *)
Definition new_list (a : Z) (m : shm) : shm :=
  mk_shm (<[a := replicate 128 hdr_zero]> (sh_lists m)) (delete a (sh_tbls m)) (delete a (sh_fis m)) (sh_mem m).
Definition new_tbl (a : Z) (m : shm) : shm :=
  mk_shm (delete a (sh_lists m)) (<[a := tbl_zero]> (sh_tbls m)) (delete a (sh_fis m)) (sh_mem m).
Definition new_fis (a : Z) (f : list Z) (m : shm) : shm :=
  mk_shm (delete a (sh_lists m)) (delete a (sh_tbls m)) (<[a := f]> (sh_fis m)) (sh_mem m).

(** The physical address behind a pointer into the mapping of the first 4 GiB. *)
Definition mmio_phys (v : Z) : option Z :=
  let a := u64 (v - IO_VIRTUAL_ADDR) in if a <? 2 ^ 32 then Some a else None.

(** The table a command header names. *)
Definition hdr_tbl (h : cmd_header) : Z := cmd_tbl_base_addr h + 2 ^ 32 * cmd_tbl_base_addr_u h.

Class Hba (D : Type) : Type := {
  hba_rd : hba_reg -> D -> Z * D;
  hba_wr : hba_reg -> Z -> D -> D;
  (** Writing [cmd_issue]: the bytes of memory after the transfer. *)
  hba_issue : Z -> shm -> D -> D * pmem;
}.

(** A port: the device, the pointers of [ahci_port_t], and memory. *)
Record port_st (D : Type) : Type := mk_port {
  p_hba : D; comlist : Z; comtables : list Z; p_fis : Z; p_sh : shm;
}.
Arguments mk_port {D}. Arguments p_hba {D}. Arguments comlist {D}. Arguments comtables {D}. Arguments p_fis {D}. Arguments p_sh {D}.
Definition p_mem {D} (s : port_st D) : pmem := sh_mem (p_sh s).
Definition with_hba {D} (d : D) (s : port_st D) : port_st D := mk_port d (comlist s) (comtables s) (p_fis s) (p_sh s).
Definition with_sh {D} (m : shm) (s : port_st D) : port_st D := mk_port (p_hba s) (comlist s) (comtables s) (p_fis s) m.

Section ops.
Context {D : Type} `{Hba D}.
Abbreviation A := (M (port_st D)).

Definition rd (r : hba_reg) : A Z := fun s =>
  let '(v, d) := hba_rd r (p_hba s) in Ok (v, with_hba d s).
Definition wr (r : hba_reg) (v : Z) : A () := modify (fun s => with_hba (hba_wr r (u32 v) (p_hba s)) s).
Definition issue (v : Z) : A () :=
  modify (fun s => let '(d, m) := hba_issue (u32 v) (p_sh s) (p_hba s) in with_hba d (with_sh (set_bytes m (p_sh s)) s)).

(** An entry of the command list, through the driver's pointer. *)
Definition set_hdr (slot : Z) (f : cmd_header -> cmd_header) : A () :=
  s ← get;
  a ← unwrap (mmio_phys (comlist s)) OutOfBounds;
  hs ← unwrap (sh_lists (p_sh s) !! a) OutOfBounds;
  h ← unwrap (hs !! Z.to_nat slot) OutOfBounds;
  put (with_sh (set_lists (<[a := <[Z.to_nat slot := f h]> hs]> (sh_lists (p_sh s))) (p_sh s)) s).
(** A table that was never set up is a null pointer. *)
Definition set_tbl (slot : Z) (t : cmd_tbl) : A () :=
  s ← get;
  v ← unwrap (comtables s !! Z.to_nat slot) OutOfBounds;
  guard (truth v) NullDeref;;
  a ← unwrap (mmio_phys v) OutOfBounds;
  _ ← unwrap (sh_tbls (p_sh s) !! a) OutOfBounds;
  put (with_sh (set_tbls (<[a := t]> (sh_tbls (p_sh s))) (p_sh s)) s).

(** The test is [slots & i], with the index of the slot and not its bit. *)
Definition find_cmd_slot : A Z :=
  a ← rd SATA_ACTIVE;
  c ← rd CMD_ISSUE;
  r ← for_acc 0 AHCI_CMD_SLOTS (fun i slots =>
        if (slots .& i) =? 0 then mret (inr i) else mret (inl (Z.shiftr slots 1))) (a .| c);
  mret (match r with inl _ => -1 | inr i => i end).

Definition mk_cmd (sector cnt buffer : Z) (write : bool) : cmd_tbl :=
  mk_tbl
    (mk_fis FIS_TYPE_REG_H2D 1 (if write then ATA_CMD_WRITE_DMA_EX else ATA_CMD_READ_DMA_EX)
       (u8 sector) (u8 (Z.shiftr sector 8)) (u8 (Z.shiftr sector 16)) (u8 (Z.shiftl 1 6))
       (u8 (Z.shiftr sector 24)) (u8 (Z.shiftr sector 32)) (u8 (Z.shiftr sector 40))
       (u8 (cnt .& 0xff)) (u8 (Z.shiftr cnt 8 .& 0xff)))
    (mk_prdt (u32 buffer) (u32 (Z.shiftr buffer 32)) (uN 22 (u32 (cnt * 512 - 1))) 1).

Definition SPIN_MAX : Z := 1000000.

(** [true] when the port did not become ready. *)
Definition wait_ready : A bool :=
  spin ← while_ (Z.to_N (SPIN_MAX + 2)) (fun spin =>
    t ← rd TASK_FILE_DAT;
    if truth (t .& (ATA_DEV_BUSY .| ATA_DEV_DRQ)) && (spin <? SPIN_MAX) then mret (inl (spin + 1))
    else mret (inr spin)) 0;
  mret (spin =? SPIN_MAX).

(** Polls until the bit of the slot is clear; [false] on a task file error.  The loop
    has no bound in the source. *)
Definition wait_done (fuel : N) (slot : Z) : A bool :=
  while_ fuel (fun _ : () =>
    c ← rd CMD_ISSUE;
    if truth (c .& Z.shiftl 1 slot) then
      i ← rd INT_STAT;
      if truth (i .& HBA_PXIS_TFES) then mret (inr false) else mret (inl ())
    else mret (inr true)) ().

Definition ahci_access (fuel : N) (sector cnt buffer : Z) (write : bool) : A bool :=
  wr INT_STAT 0xffffffff;;
  slot ← find_cmd_slot;
  if slot =? -1 then mret false else
  set_hdr slot (fun h => mk_hdr 5 (if write then 1 else 0) (u16 (u16 (Z.shiftr (u32 (cnt - 1)) 4) + 1))
                           (cmd_tbl_base_addr h) (cmd_tbl_base_addr_u h));;
  set_tbl slot (mk_cmd sector cnt buffer write);;
  hung ← wait_ready;
  if (hung : bool) then mret false else
  issue (Z.shiftl 1 slot);;
  ok ← wait_done fuel slot;
  if (ok : bool) then
    i ← rd INT_STAT;
    mret (negb (truth (i .& HBA_PXIS_TFES)))
  else mret false.

(** [buf] of the port is the page at [phys_buf] (see [AhciInit]); the result of [ahci_access] is not
    looked at.  The value returned is [len] after the loop, 0. *)
Definition ahci_read (fuel : N) (phys_buf off len : Z) : A (Z * list Z) :=
  r ← for_acc (B := Empty_set) 0 len (fun k out =>
        _ ← ahci_access fuel (u64 (off + k)) (len - k) phys_buf false;
        s ← get;
        mret (inl (out ++ mem_get (p_mem s) phys_buf 512))) [];
  match r with inl out => mret (0, out) | inr e => match e with end end.

Definition ahci_write (fuel : N) (phys_buf off len : Z) (ptr : list Z) : A Z :=
  for_each 0 len (fun k =>
    chunk ← buf_read ptr (512 * k) 512;
    modify (fun s => with_sh (set_bytes (mem_put (p_mem s) phys_buf chunk) (p_sh s)) s);;
    _ ← ahci_access fuel (u64 (off + k)) (len - k) phys_buf true;
    mret ());;
  mret 0.

(** *** Starting and stopping the command engine *)

Definition ahci_start_cmd (fuel : N) : A () :=
  while_ fuel (fun _ : () =>
    c ← rd CMD_STAT; if truth (c .& HBA_PXCMD_CR) then mret (inl ()) else mret (inr ())) ();;
  c ← rd CMD_STAT;
  wr CMD_STAT (c .| HBA_PXCMD_FRE);;
  c ← rd CMD_STAT;
  wr CMD_STAT (c .| HBA_PXCMD_ST).

Definition ahci_stop_cmd (fuel : N) : A () :=
  c ← rd CMD_STAT;
  wr CMD_STAT (c .& Z.lnot HBA_PXCMD_ST);;
  c ← rd CMD_STAT;
  wr CMD_STAT (c .& Z.lnot HBA_PXCMD_FRE);;
  while_ fuel (fun _ : () =>
    c ← rd CMD_STAT;
    if truth (c .& HBA_PXCMD_FR) then mret (inl ()) else
    c ← rd CMD_STAT;
    if truth (c .& HBA_PXCMD_CR) then mret (inl ()) else mret (inr ())) ().
End ops.

(** ** What the driver relies on *)

(** How a device reads a command. *)
Definition cmd_lba (f : fis_h2d) : Z :=
  lba0 f + 2 ^ 8 * lba1 f + 2 ^ 16 * lba2 f + 2 ^ 24 * lba3 f + 2 ^ 32 * lba4 f + 2 ^ 40 * lba5 f.
Definition cmd_count (f : fis_h2d) : Z := countl f + 2 ^ 8 * counth f.
Definition prdt_addr (e : prdt_entry) : Z := data_base_addr e + 2 ^ 32 * data_base_addr_u e.

(** A transfer of [cnt] sectors at [lba] to or from the memory at [addr]. *)
Record is_cmd (h : cmd_header) (t : cmd_tbl) (write : bool) (lba cnt addr : Z) : Prop := mk_is_cmd {
  ic_len : cmd_fis_len h = 5;
  ic_write : h_write h = if write then 1 else 0;
  ic_prdt : 1 <= prdt_len h;
  ic_type : fis_type (cmd_fis t) = FIS_TYPE_REG_H2D;
  ic_ctrl : com_ctrl (cmd_fis t) = 1;
  ic_lbamode : Z.testbit (f_device (cmd_fis t)) 6 = true;
  ic_command : command (cmd_fis t) = if write then ATA_CMD_WRITE_DMA_EX else ATA_CMD_READ_DMA_EX;
  ic_lba : cmd_lba (cmd_fis t) = lba;
  ic_cnt : cmd_count (cmd_fis t) = cnt;
  ic_pos : 0 < cnt;
  ic_addr : prdt_addr (prdt0 t) = addr;
  ic_bytes : byte_cnt (prdt0 t) + 1 = 512 * cnt;
}.

(** [hba_clb] and [hba_fb]: the addresses in the base registers of the command list and of the
    received FIS.  A command transfers its data to or from the bytes of memory; where a
    structure is read as data, what the disk gets is not specified. *)
Class HbaSpec (D B : Type) `{Hba D} `{BlkDev B} : Type := {
  hba_disk : D -> B;
  hba_clb : D -> Z;
  hba_fb : D -> Z;
  hba_view d : B * Z * Z := (hba_disk d, hba_clb d, hba_fb d);
  hba_ready : D -> Prop;
  hba_busy : nat -> D -> Prop;
  (** A bound on the polls until a command is done. *)
  hba_polls : nat;
  hba_ready_wr d v :
    hba_ready d -> hba_ready (hba_wr INT_STAT v d) /\ hba_view (hba_wr INT_STAT v d) = hba_view d;
  hba_ready_rd d r :
    hba_ready d -> r ∈ [SATA_ACTIVE; CMD_ISSUE; TASK_FILE_DAT; INT_STAT] ->
    hba_ready (hba_rd r d).2 /\ hba_view (hba_rd r d).2 = hba_view d;
  hba_ready_tfd d : hba_ready d -> (hba_rd TASK_FILE_DAT d).1 .& (ATA_DEV_BUSY .| ATA_DEV_DRQ) = 0;
  hba_ready_int d : hba_ready d -> (hba_rd INT_STAT d).1 .& HBA_PXIS_TFES = 0;
  hba_busy_ci d n :
    hba_busy n d -> hba_view (hba_rd CMD_ISSUE d).2 = hba_view d /\
    match n with
    | O => Z.testbit (hba_rd CMD_ISSUE d).1 0 = false /\ hba_ready (hba_rd CMD_ISSUE d).2
    | S n' => Z.testbit (hba_rd CMD_ISSUE d).1 0 = true /\ hba_busy n' (hba_rd CMD_ISSUE d).2
    end;
  hba_busy_int d n :
    hba_busy n d -> (hba_rd INT_STAT d).1 .& HBA_PXIS_TFES = 0 /\ hba_busy n (hba_rd INT_STAT d).2 /\
      hba_view (hba_rd INT_STAT d).2 = hba_view d;
  (** The device finds the command of slot 0 through its registers. *)
  hba_finds d m h t : Prop :=
    (exists hs, sh_lists m !! hba_clb d = Some hs /\ hs !! 0%nat = Some h) /\ sh_tbls m !! hdr_tbl h = Some t /\
    is_Some (sh_fis m !! hba_fb d);
  hba_issue_read d m h t lba cnt addr :
    hba_ready d -> hba_finds d m h t -> is_cmd h t false lba cnt addr -> dma_clear m addr (512 * cnt) ->
    (exists n, (n <= hba_polls)%nat /\ hba_busy n (hba_issue 1 m d).1) /\
    hba_view (hba_issue 1 m d).1 = hba_view d /\
    (hba_issue 1 m d).2 = mem_put (sh_mem m) addr (blk_read (hba_disk d) lba cnt);
  hba_issue_write d m h t lba cnt addr :
    hba_ready d -> hba_finds d m h t -> is_cmd h t true lba cnt addr ->
    (exists n, (n <= hba_polls)%nat /\ hba_busy n (hba_issue 1 m d).1) /\
    (exists bs, Z.of_nat (length bs) = 512 * cnt /\ ((forall x, 0 <= sh_mem m x < 256) -> bytes bs) /\
       (forall n, 0 <= n <= 512 * cnt -> dma_clear m addr n -> take (Z.to_nat n) bs = mem_get (sh_mem m) addr n) /\
       hba_view (hba_issue 1 m d).1 = (blk_write (hba_disk d) lba bs, hba_clb d, hba_fb d)) /\
    (hba_issue 1 m d).2 = sh_mem m;
}.

(** ** The driver does what it is meant to *)

(** The command the driver builds is the transfer it was asked for. *)
Lemma mk_cmd_ok sector cnt buffer (write : bool) b u :
  0 <= sector < 2 ^ 48 -> 0 < cnt <= 8192 -> 0 <= buffer < 2 ^ 64 ->
  is_cmd (mk_hdr 5 (if write then 1 else 0) (u16 (u16 (Z.shiftr (u32 (cnt - 1)) 4) + 1)) b u)
    (mk_cmd sector cnt buffer write) write sector cnt buffer.
Proof.
  intros Hs Hc Hb. constructor; try done.
  - cbn [prdt_len]. rewrite (uN_small 32), Z.shiftr_div_pow2 by lia.
    rewrite (uN_small 16 ((cnt - 1) `div` _)) by dlia. rewrite uN_small by dlia. dlia.
  - unfold cmd_lba, mk_cmd. cbn [cmd_fis lba0 lba1 lba2 lba3 lba4 lba5]. rewrite !Z.shiftr_div_pow2 by lia.
    unfold uN. dlia.
  - unfold cmd_count, mk_cmd. cbn [cmd_fis countl counth]. change 0xff with (Z.ones 8).
    rewrite !Z.land_ones, Z.shiftr_div_pow2 by lia. unfold uN. rewrite !Z.mod_mod by lia. dlia.
  - lia.
  - unfold prdt_addr, mk_cmd. cbn [prdt0 data_base_addr data_base_addr_u]. rewrite Z.shiftr_div_pow2 by lia.
    unfold uN. dlia.
  - unfold mk_cmd. cbn [prdt0 byte_cnt]. rewrite (uN_small 32), uN_small by lia. lia.
Qed.

(** Any port, whatever is running on it: the slot is always 0. *)
Lemma find_cmd_slot_zero {D} `{Hba D} (s : port_st D) : exists s', find_cmd_slot s = Ok (0, s').
Proof.
  unfold find_cmd_slot, rd. destruct (hba_rd SATA_ACTIVE (p_hba s)) as [a d1] eqn:E1.
  destruct (hba_rd CMD_ISSUE d1) as [c d2] eqn:E2. eexists.
  eapply bind_Ok; [by rewrite E1|]. eapply bind_Ok; [cbn [with_hba p_hba]; by rewrite E2|].
  unfold for_acc, bindM. rewrite loop_loopN. change (N.to_nat (Z.to_N (AHCI_CMD_SLOTS - 0))) with (S 31).
  cbn [loopN fst snd]. unfold bindM. rewrite Z.land_0_r. reflexivity.
Qed.

Section driver.
Context {D B : Type} `{HbaSpec D B}.
Implicit Types s : port_st D.

(** A port that was set up: the device is idle and its registers lead to the command list and
    the FIS area the driver has pointers to; slot 0 has a header, and the table it names is
    the one the driver fills in. *)
Record port_ok s : Prop := mk_port_ok {
  po_ready : hba_ready (p_hba s);
  po_list : mmio_phys (comlist s) = Some (hba_clb (p_hba s));
  po_tbl : exists hs h v, sh_lists (p_sh s) !! hba_clb (p_hba s) = Some hs /\ hs !! 0%nat = Some h /\
    comtables s !! 0%nat = Some v /\ v <> 0 /\ mmio_phys v = Some (hdr_tbl h) /\ is_Some (sh_tbls (p_sh s) !! hdr_tbl h);
  po_fis : is_Some (sh_fis (p_sh s) !! hba_fb (p_hba s));
}.

Lemma rd_wp r Q s : Q (hba_rd r (p_hba s)).1 (with_hba (hba_rd r (p_hba s)).2 s) -> wp (rd r) Q s.
Proof. intros HQ. unfold rd, wp. by destruct (hba_rd r (p_hba s)). Qed.

Lemma wait_ready_wp Q s :
  hba_ready (p_hba s) ->
  (forall d, hba_ready d -> hba_view d = hba_view (p_hba s) -> Q false (with_hba d s)) ->
  wp wait_ready Q s.
Proof.
  intros Hr HQ. unfold wait_ready. wp_focus.
  apply (wp_while (fun k spin s' => spin = 0 /\ s' = s) 0); [done|unfold SPIN_MAX; lia|].
  intros k spin s' [-> ->]. wp_focus. apply rd_wp. rewrite hba_ready_tfd by done. cbn [truth Z.eqb negb andb].
  wp_step. wp_step. destruct (hba_ready_rd (p_hba s) TASK_FILE_DAT Hr ltac:(set_solver)). by apply HQ.
Qed.

Lemma wait_done_wp n fuel Q s :
  hba_busy n (p_hba s) -> (n < N.to_nat fuel)%nat ->
  (forall d, hba_ready d -> hba_view d = hba_view (p_hba s) -> Q true (with_hba d s)) ->
  wp (wait_done fuel 0) Q s.
Proof.
  intros Hb Hf HQ. unfold wait_done.
  apply (wp_while (fun k _ s' => exists d, s' = with_hba d s /\ hba_busy k d /\ hba_view d = hba_view (p_hba s)) n);
    [exists (p_hba s); by destruct s|done|].
  clear n Hb Hf. intros n [] s' (d & -> & Hb & Hd). wp_focus. apply rd_wp. unfold with_hba. cbn [p_hba comlist comtables p_fis p_sh].
  destruct (hba_busy_ci d n Hb) as [Hsame Hn]. change (Z.shiftl 1 0) with (2 ^ 0). rewrite truth_land_pow2 by lia.
  destruct n as [|n]; destruct Hn as [-> Hn].
  - wp_step. apply HQ; [done|congruence].
  - wp_focus. apply rd_wp. unfold with_hba. cbn [p_hba comlist comtables p_fis p_sh].
    destruct (hba_busy_int _ _ Hn) as (-> & Hn' & Hd'). cbn [truth Z.eqb negb]. wp_step.
    exists n. split; [lia|]. eexists. split_and!; [done|done|congruence].
Qed.

(** The structures of [m'] are where those of [m] are. *)
Definition same_structs (m m' : shm) : Prop := forall a, struct_at m' a <-> struct_at m a.
Lemma dma_clear_same m m' a n : same_structs m m' -> dma_clear m a n -> dma_clear m' a n.
Proof. intros Hs Hc b Hb. by apply Hc, Hs. Qed.
Lemma dma_clear_le m a n n' : n' <= n -> dma_clear m a n -> dma_clear m a n'.
Proof. intros Hn Hc b Hb. specialize (Hc b Hb). lia. Qed.
Lemma insert_is_Some {V} (m : gmap Z V) a b v : is_Some (m !! a) -> is_Some (<[a := v]> m !! b) <-> is_Some (m !! b).
Proof. intros Ha. rewrite lookup_insert. case_decide; [by subst b|done]. Qed.

(** The command is in slot 0, where the device finds it. *)
Lemma set_command_wp (f : cmd_header -> cmd_header) t (Q : () -> port_st D -> Prop) s :
  port_ok s -> (forall h, hdr_tbl (f h) = hdr_tbl h) ->
  (forall s' h, p_hba s' = p_hba s -> hba_finds (p_hba s) (p_sh s') (f h) t -> port_ok s' ->
     same_structs (p_sh s) (p_sh s') -> p_mem s' = p_mem s -> Q () s') ->
  wp (set_hdr 0 f) (fun _ s1 => wp (set_tbl 0 t) Q s1) s.
Proof.
  intros [Hr Hl (hs & h & v & Hhs & Hh & Hv & Hv0 & Htp & Hts) Hfis] Hf HQ. unfold set_hdr, set_tbl. change (Z.to_nat 0) with 0%nat.
  assert (<[0%nat := f h]> hs !! 0%nat = Some (f h)) as Hh0 by (apply list_lookup_insert_eq; by eapply lookup_lt_Some).
  wp_step. wp_step. wp_focus. eapply wp_unwrap; [exact Hl|]. wp_focus. eapply wp_unwrap; [exact Hhs|].
  wp_focus. eapply wp_unwrap; [exact Hh|]. wp_step. wp_step. wp_step. wp_focus. eapply wp_unwrap; [exact Hv|].
  wp_focus. apply wp_guard; [by apply truth_true|]. wp_focus. eapply wp_unwrap; [exact Htp|]. destruct Hts as [t0 Ht0].
  wp_focus. eapply wp_unwrap; [exact Ht0|]. wp_step.
  apply (HQ _ h); [done| | | |done]; cbn [p_sh with_sh set_tbls set_lists sh_lists sh_tbls sh_fis].
  - split_and!; [exists (<[0%nat := f h]> hs); split; [apply lookup_insert_eq|done]|rewrite Hf; apply lookup_insert_eq|done].
  - constructor; cbn [p_sh p_hba comlist comtables with_sh set_tbls set_lists sh_lists sh_tbls sh_fis]; [done|done| |done].
    exists (<[0%nat := f h]> hs), (f h), v. rewrite lookup_insert_eq, Hf, lookup_insert_eq. by split_and!.
  - intros a. unfold struct_at. cbn [p_sh with_sh set_tbls set_lists sh_lists sh_tbls sh_fis]. rewrite !insert_is_Some by done. done.
Qed.

(** Other states of the device, with the same registers, and other bytes of memory. *)
Lemma port_ok_view s d b :
  port_ok s -> hba_ready d -> hba_clb d = hba_clb (p_hba s) -> hba_fb d = hba_fb (p_hba s) ->
  port_ok (with_hba d (with_sh (set_bytes b (p_sh s)) s)).
Proof. intros [X1 X2 X3 X4] Hd Ec Ef. constructor; unfold with_hba, with_sh, set_bytes; cbn; rewrite ?Ec, ?Ef; done. Qed.

(** The port after an access: what was read is in memory, what was written on the disk. *)
Lemma ahci_access_wp fuel sector cnt buffer (write : bool) Q s :
  port_ok s -> 0 <= sector < 2 ^ 48 -> 0 < cnt <= 8192 -> 0 <= buffer < 2 ^ 64 -> (hba_polls < N.to_nat fuel)%nat ->
  (write = false -> dma_clear (p_sh s) buffer (512 * cnt)) ->
  (forall s', port_ok s' -> same_structs (p_sh s) (p_sh s') ->
     (if write then p_mem s' = p_mem s /\ exists bs, Z.of_nat (length bs) = 512 * cnt /\ ((forall x, 0 <= p_mem s x < 256) -> bytes bs) /\
        (forall n, 0 <= n <= 512 * cnt -> dma_clear (p_sh s) buffer n -> take (Z.to_nat n) bs = mem_get (p_mem s) buffer n) /\
        hba_disk (p_hba s') = blk_write (hba_disk (p_hba s)) sector bs
      else hba_disk (p_hba s') = hba_disk (p_hba s) /\ p_mem s' = mem_put (p_mem s) buffer (blk_read (hba_disk (p_hba s)) sector cnt)) ->
     Q true s') ->
  wp (ahci_access fuel sector cnt buffer write) Q s.
Proof.
  intros Hok Hs Hc Hb Hf Hclear HQ. unfold ahci_access, wr. wp_step. wp_step.
  destruct (hba_ready_wr (p_hba s) (u32 0xffffffff) (po_ready _ Hok)) as [R1 D1].
  set (d1 := hba_wr INT_STAT (u32 0xffffffff) (p_hba s)) in *. clearbody d1.
  unfold find_cmd_slot. wp_focus. wp_focus. apply rd_wp. wp_focus. apply rd_wp. unfold with_hba. cbn [p_hba comlist comtables p_fis p_sh].
  destruct (hba_ready_rd d1 SATA_ACTIVE R1 ltac:(set_solver)) as [R2 D2]. set (d2 := (hba_rd SATA_ACTIVE d1).2) in *.
  destruct (hba_ready_rd d2 CMD_ISSUE R2 ltac:(set_solver)) as [R3 D3]. set (d3 := (hba_rd CMD_ISSUE d2).2) in *.
  wp_focus. eapply (wp_for_acc (fun i a s' => i = 0 /\ s' = with_hba d3 s)); [done|done| |by intros a s' [? _]].
  intros i a s' _ [-> ->]. rewrite Z.land_0_r. cbn [Z.eqb]. wp_step. wp_step. cbn [Z.eqb]. clearbody d3.
  assert (hba_view d3 = hba_view (p_hba s)) as [= E3 Ec3 Ef3] by congruence.
  assert (port_ok (with_hba d3 s)) as Hok3.
  { destruct Hok as [X1 X2 X3 X4]. constructor; cbn [with_hba p_hba comlist comtables p_fis p_sh]; rewrite ?Ec3, ?Ef3; done. }
  wp_focus. eapply wp_mono; [apply (set_command_wp _ (mk_cmd sector cnt buffer write) (fun _ s' => exists h,
    p_hba s' = d3 /\ hba_finds d3 (p_sh s') (mk_hdr 5 (if write then 1 else 0) (u16 (u16 (Z.shiftr (u32 (cnt - 1)) 4) + 1))
      (cmd_tbl_base_addr h) (cmd_tbl_base_addr_u h)) (mk_cmd sector cnt buffer write) /\ port_ok s' /\
    same_structs (p_sh s) (p_sh s') /\ p_mem s' = p_mem s)); [exact Hok3|done|]|].
  { intros s' h Eh Hfind Hok' Hst Em. exists h. by split_and!. }
  intros [] s4 Hw4. wp_focus. eapply wp_mono; [exact Hw4|]. clear s4 Hw4. intros [] s4 (h & E4 & Hfind & Hok4 & Hst & Em).
  wp_focus. apply wait_ready_wp; [apply Hok4|]. intros d5 R5 D5. rewrite E4 in D5. injection D5 as E5 Ec5 Ef5.
  unfold issue. wp_step. wp_step. cbn [with_hba with_sh p_hba comlist comtables p_fis p_sh]. change (u32 (Z.shiftl 1 0)) with 1.
  pose proof (mk_cmd_ok sector cnt buffer write (cmd_tbl_base_addr h) (cmd_tbl_base_addr_u h) Hs Hc Hb) as Hcmd.
  assert (hba_finds d5 (p_sh s4) (mk_hdr 5 (if write then 1 else 0) (u16 (u16 (Z.shiftr (u32 (cnt - 1)) 4) + 1))
      (cmd_tbl_base_addr h) (cmd_tbl_base_addr_u h)) (mk_cmd sector cnt buffer write)) as Hfind5.
  { unfold hba_finds in *. by rewrite Ec5, Ef5. }
  assert (exists d6 m6 n, hba_issue 1 (p_sh s4) d5 = (d6, m6) /\ (n <= hba_polls)%nat /\ hba_busy n d6 /\ hba_clb d6 = hba_clb d3 /\ hba_fb d6 = hba_fb d3 /\
    forall s', p_mem s' = m6 -> hba_disk (p_hba s') = hba_disk d6 -> port_ok s' -> same_structs (p_sh s) (p_sh s') -> Q true s')
    as (d6 & m6 & n & -> & Hn & Hbusy & Ec6 & Ef6 & HQ').
  { destruct (hba_issue 1 (p_sh s4) d5) as [d6 m6] eqn:Ei. destruct write.
    - destruct (hba_issue_write _ _ _ _ _ _ _ R5 Hfind5 Hcmd) as ((n & Hn & Hbusy) & (bs & Hl & Hby & Htk & Hv) & Hm).
      rewrite Ei in *. cbn [fst snd] in *. injection Hv as V1 V2 V3. exists d6, m6, n. split_and!; try done; try congruence.
      intros s' E1 E2 Hok' Hst'. apply HQ; [done|done|]. unfold p_mem in *. split; [congruence|]. exists bs. rewrite E2, V1, E5, E3. split_and!; try done.
      + intros Hx. apply Hby. by rewrite Em.
      + intros k Hk Hcl. rewrite Htk; [by rewrite Em|done|by eapply dma_clear_same].
    - destruct (hba_issue_read _ _ _ _ _ _ _ R5 Hfind5 Hcmd) as ((n & Hn & Hbusy) & Hv & Hm).
      { by eapply dma_clear_same, Hclear. }
      rewrite Ei in *. cbn [fst snd] in *. injection Hv as V1 V2 V3. exists d6, m6, n. split_and!; try done; try congruence.
      intros s' E1 E2 Hok' Hst'. apply HQ; [done|done|]. unfold p_mem in *. split; [congruence|]. rewrite E1, Hm, Em. congruence. }
  wp_focus. apply (wait_done_wp n); [exact Hbusy|lia|]. intros d7 R7 D7. injection D7 as E7 Ec7 Ef7.
  wp_focus. apply rd_wp. cbn [with_hba p_hba]. rewrite hba_ready_int by done. cbn [truth Z.eqb negb]. wp_step.
  destruct (hba_ready_rd d7 INT_STAT R7 ltac:(set_solver)) as [R8 D8]. injection D8 as E8 Ec8 Ef8.
  apply HQ'; [done|cbn; congruence| |exact Hst].
  apply (port_ok_view s4); [done|done|rewrite E4; congruence..].
Qed.
End driver.

Section blocks.
Context {B : Type} `{BlkDev B}.

(** A run of sectors begins with its first sector. *)
Lemma blk_read_first (b : B) lba n : 0 < n -> take 512 (blk_read b lba n) = blk_read b lba 1.
Proof.
  intros Hn. replace n with (1 + (n - 1)) by lia. rewrite blk_read_split by lia.
  apply take_app_length'. pose proof (blk_read_length b lba 1 ltac:(lia)). lia.
Qed.

(** Sectors that are right one by one are right together. *)
Lemma blk_read_sectors (b : B) off data n :
  0 <= n -> Z.of_nat (length data) = 512 * n ->
  (forall i, 0 <= i < n -> blk_read b (off + i) 1 = take 512 (drop (Z.to_nat (512 * i)) data)) ->
  blk_read b off n = data.
Proof.
  intros Hn. revert off data. apply natlike_ind with (x := n); [| |exact Hn]; clear n Hn.
  - intros off data Hl _. destruct data; [|simpl in Hl; lia].
    pose proof (blk_read_length b off 0 ltac:(lia)). destruct (blk_read b off 0); [done|simpl in *; lia].
  - intros n Hn IH off data Hl Hi. replace (Z.succ n) with (1 + n) by lia. rewrite blk_read_split by lia.
    rewrite <- (take_drop 512 data). f_equal.
    + specialize (Hi 0 ltac:(lia)). rewrite Z.add_0_r in Hi. rewrite Hi. done.
    + apply IH; [rewrite length_drop; lia|]. intros i Hin. specialize (Hi (1 + i) ltac:(lia)).
      rewrite Z.add_assoc in Hi. rewrite Hi, drop_drop. do 2 f_equal. lia.
Qed.
End blocks.

Section blkdev.
Context {D B : Type} `{HbaSpec D B}.
Implicit Types s : port_st D.

Lemma mem_get_put_take m a bs : (512 <= length bs)%nat -> mem_get (mem_put m a bs) a 512 = take 512 bs.
Proof.
  intros Hl. assert (mem_get (mem_put m a bs) a (512 + (Z.of_nat (length bs) - 512)) = bs) as Hall
    by (apply mem_get_put_same; lia).
  rewrite mem_get_app in Hall by lia. rewrite <- Hall at 2. symmetry. apply take_app_length'.
  pose proof (length_mem_get (mem_put m a bs) a 512 ltac:(lia)). lia.
Qed.


(** C22: Writing through the AHCI driver is writing the disk: for every request of up to 8192
    sectors, on a port whose registers lead to its command list and tables and whose buffer
    page holds none of these, the driver ends, and afterwards the sectors asked for hold
    the data, every other sector is as before, and the port is ready again. *)
Theorem ahci_write_correct fuel phys_buf off len data s :
  port_ok s -> dma_clear (p_sh s) phys_buf 4096 -> (forall x, 0 <= p_mem s x < 256) -> bytes data ->
  0 <= off -> off + len <= 2 ^ 48 -> 0 <= len <= 8192 -> 0 <= phys_buf < 2 ^ 64 ->
  Z.of_nat (length data) = 512 * len -> (hba_polls < N.to_nat fuel)%nat ->
  exists s', ahci_write fuel phys_buf off len data s = Ok (0, s') /\ port_ok s' /\ dma_clear (p_sh s') phys_buf 4096 /\
    blk_read (hba_disk (p_hba s')) off len = data /\
    forall lba n, 0 <= n -> lba + n <= off \/ off + len <= lba ->
      blk_read (hba_disk (p_hba s')) lba n = blk_read (hba_disk (p_hba s)) lba n.
Proof.
  intros Hok Hcl Hmem Hdata Ho Hol Hl Hp Hlen Hf. set (d := hba_disk (p_hba s)).
  set (I := fun k s' => port_ok s' /\ dma_clear (p_sh s') phys_buf 4096 /\ (forall x, 0 <= p_mem s' x < 256) /\
    (forall i, 0 <= i < k -> blk_read (hba_disk (p_hba s')) (off + i) 1 = take 512 (drop (Z.to_nat (512 * i)) data)) /\
    (forall lba n, 0 <= n -> lba + n <= off \/ off + len <= lba -> blk_read (hba_disk (p_hba s')) lba n = blk_read d lba n)).
  assert (wp (ahci_write fuel phys_buf off len data) (fun r s' => r = 0 /\ I len s') s) as Hw.
  { unfold ahci_write. wp_focus. apply (wp_for_each I); [lia| | |].
    - split_and!; [done|done|done|lia|done].
    - intros k s1 Hk (Hok1 & Hcl1 & Hm1 & Hdone & Hother). wp_focus. apply buf_read_wp; [lia..|].
      set (chunk := take _ _). assert (length chunk = 512%nat) as Hch by (unfold chunk; rewrite length_take, length_drop; lia).
      assert (bytes chunk) as Hcb by (by apply Forall_take, Forall_drop).
      wp_step. wp_step. wp_focus. rewrite uN_small by lia.
      set (m := mem_put (p_mem s1) phys_buf chunk).
      apply ahci_access_wp; [by apply (port_ok_view s1 (p_hba s1)); [|apply Hok1|..]|lia|lia|done|done|done|].
      intros s2 Hok2 Hst2 (Hm2 & bs & Hbl & Hbb & Htk & Hd2). unfold p_mem, with_sh, set_bytes in Hm2, Hbb, Htk, Hd2, Hst2.
      cbn [p_hba p_sh sh_mem] in Hm2, Hbb, Htk, Hd2, Hst2. wp_step.
      assert (forall x, 0 <= m x < 256) as Hmb.
      { intros x. unfold m, mem_put. case_match; [|done]. destruct (chunk !! _) as [b|] eqn:Eb; simpl; [|lia].
        exact (Forall_lookup_1 _ _ _ _ Hcb Eb). }
      specialize (Hbb Hmb). assert (take 512 bs = chunk) as Hfirst.
      { specialize (Htk 512 ltac:(lia)). change (Z.to_nat 512) with 512%nat in Htk. rewrite Htk.
        - unfold m. rewrite mem_get_put_take by lia. by rewrite take_ge by lia.
        - eapply dma_clear_le; [|exact Hcl1]. lia. }
      split_and!; [done|by eapply dma_clear_same|unfold p_mem; by rewrite Hm2| |].
      + intros i Hi. rewrite Hd2. destruct (decide (i = k)) as [->|Hik].
        * rewrite <- (blk_read_first _ (off + k) (len - k)) by lia. rewrite blk_read_same by done. exact Hfirst.
        * rewrite (blk_read_other _ _ (len - k)) by (done || lia). apply Hdone. lia.
      + intros lba n Hn Hout. rewrite Hd2, (blk_read_other _ _ (len - k)) by (done || lia). by apply Hother.
    - intros s1 HI. by wp_step. }
  destruct (wp_Ok _ _ _ Hw) as (r & s' & E & -> & Hok' & Hcl' & _ & Hdone & Hother). exists s'.
  split_and!; [done|done|done| |done]. apply blk_read_sectors; [lia|done|done].
Qed.
End blkdev.

(** ** A simulated controller *)

(** A disk image, the number of polls until the current command is done, and the base
    registers. *)
Record sim : Type := mk_sim { sim_disk : memdisk; sim_left : nat; sim_clb : Z; sim_fb : Z }.
Definition sim_set (b : memdisk) (n : nat) (d : sim) : sim := mk_sim b n (sim_clb d) (sim_fb d).

#[export] Instance sim_Hba : Hba sim := {|
  hba_rd r d :=
    match r with
    | CMD_ISSUE => match sim_left d with O => (0, d) | S n => (1, sim_set (sim_disk d) n d) end
    | TASK_FILE_DAT => (0x50, d)
    | SIG => (SATA_SIG_ATA, d)
    | SATA_STAT => (0x113, d)
    | _ => (0, d)
    end;
  hba_wr r v d :=
    match r with
    | COM_BASE_ADDR => mk_sim (sim_disk d) (sim_left d) v (sim_fb d)
    | FIS_BASE => mk_sim (sim_disk d) (sim_left d) (sim_clb d) v
    | _ => d
    end;
  hba_issue v m d :=
    match sh_lists m !! sim_clb d with
    | Some (h :: _) =>
        match sh_tbls m !! hdr_tbl h with
        | Some t =>
            let f := cmd_fis t in
            if command f =? ATA_CMD_READ_DMA_EX then
              (sim_set (sim_disk d) 3 d, mem_put (sh_mem m) (prdt_addr (prdt0 t)) (blk_read (sim_disk d) (cmd_lba f) (cmd_count f)))
            else if command f =? ATA_CMD_WRITE_DMA_EX then
              (sim_set (blk_write (sim_disk d) (cmd_lba f) (mem_get (sh_mem m) (prdt_addr (prdt0 t)) (512 * cmd_count f))) 3 d, sh_mem m)
            else (d, sh_mem m)
        | None => (d, sh_mem m)
        end
    | _ => (d, sh_mem m)
    end;
|}.

(** A command the simulated device carries out. *)
Lemma sim_issue_read (d : sim) m h hs t lba cnt addr :
  sh_lists m !! sim_clb d = Some hs -> hs !! 0%nat = Some h -> sh_tbls m !! hdr_tbl h = Some t -> is_cmd h t false lba cnt addr ->
  hba_issue 1 m d = (sim_set (sim_disk d) 3 d, mem_put (sh_mem m) addr (blk_read (sim_disk d) lba cnt)).
Proof.
  intros Hl Hh Ht []. destruct hs as [|h' hs]; [done|]. injection Hh as ->. cbn [hba_issue sim_Hba]. rewrite Hl, Ht.
  cbn iota in ic_command0. rewrite ic_command0. cbn. by rewrite ic_lba0, ic_cnt0, ic_addr0.
Qed.
Lemma sim_issue_write (d : sim) m h hs t lba cnt addr :
  sh_lists m !! sim_clb d = Some hs -> hs !! 0%nat = Some h -> sh_tbls m !! hdr_tbl h = Some t -> is_cmd h t true lba cnt addr ->
  hba_issue 1 m d = (sim_set (blk_write (sim_disk d) lba (mem_get (sh_mem m) addr (512 * cnt))) 3 d, sh_mem m).
Proof.
  intros Hl Hh Ht []. destruct hs as [|h' hs]; [done|]. injection Hh as ->. cbn [hba_issue sim_Hba]. rewrite Hl, Ht.
  cbn iota in ic_command0. rewrite ic_command0. cbn. by rewrite ic_lba0, ic_cnt0, ic_addr0.
Qed.

(** What it takes from memory for a write. *)
Lemma mem_get_data m addr n :
  0 <= n -> Z.of_nat (length (mem_get m addr n)) = n /\ ((forall x, 0 <= m x < 256) -> bytes (mem_get m addr n)) /\
  forall k, 0 <= k <= n -> take (Z.to_nat k) (mem_get m addr n) = mem_get m addr k.
Proof.
  intros Hn. split_and!; [apply length_mem_get; lia|intros Hm; unfold mem_get; apply Forall_fmap, Forall_true; intros x; apply Hm|].
  intros k Hk. replace n with (k + (n - k)) by lia. rewrite mem_get_app by lia. apply take_app_length'.
  pose proof (length_mem_get m addr k ltac:(lia)). lia.
Qed.

#[export] Program Instance sim_HbaSpec : HbaSpec sim memdisk := {|
  hba_disk := sim_disk;
  hba_clb := sim_clb;
  hba_fb := sim_fb;
  hba_ready d := sim_left d = 0%nat;
  hba_busy n d := sim_left d = n;
  hba_polls := 3;
|}.
Next Obligation. done. Qed.
Next Obligation. intros [d n c f] r Hr _. simpl in *. subst. by destruct r. Qed.
Next Obligation. done. Qed.
Next Obligation. done. Qed.
Next Obligation. intros [d m c f] n Hn. simpl in *. subst m. by destruct n. Qed.
Next Obligation. done. Qed.
Next Obligation.
  intros d m h t lba cnt addr Hr ((hs & Hl & Hh) & Ht & _) Hc _. rewrite (sim_issue_read d m h hs t lba cnt addr Hl Hh Ht Hc).
  split; [by exists 3%nat|done].
Qed.
Next Obligation.
  intros d m h t lba cnt addr Hr ((hs & Hl & Hh) & Ht & _) Hc. rewrite (sim_issue_write d m h hs t lba cnt addr Hl Hh Ht Hc).
  destruct (mem_get_data (sh_mem m) addr (512 * cnt)) as (Hlen & Hby & Htk); [pose proof (ic_pos _ _ _ _ _ _ Hc); lia|].
  split_and!; [by exists 3%nat| |done]. exists (mem_get (sh_mem m) addr (512 * cnt)). split_and!; try done. intros n Hn _. by apply Htk.
Qed.

(** A port with a disk whose sector 5 is all 7s; its command list, FIS area and first table
    are the pages at 0x6000, 0x7000 and 0x8000. *)
Definition demo_shm : shm :=
  mk_shm {[0x6000 := replicate 32 (mk_hdr 0 0 1 0x8000 0)]} {[0x8000 := tbl_zero]} {[0x7000 := []]} (fun _ => 0).
Definition demo_port : port_st sim :=
  mk_port (mk_sim (md_put [] 2560 (replicate 512 7)) 0 0x6000 0x7000) (page_map_mmio 0x6000)
    (page_map_mmio 0x8000 :: replicate 31 0) (page_map_mmio 0x7000) demo_shm.

Lemma demo_port_ok : port_ok (B := memdisk) demo_port.
Proof.
  constructor; [done|reflexivity| |by eexists].
  exists (replicate 32 (mk_hdr 0 0 1 0x8000 0)), (mk_hdr 0 0 1 0x8000 0), (page_map_mmio 0x8000). split_and!; try reflexivity; [done|by eexists].
Qed.
Lemma demo_port_clear : dma_clear (p_sh demo_port) 0x5000 4096.
Proof.
  intros b [[x Hx]|[[x Hx]|[x Hx]]]; cbn [demo_port p_sh demo_shm sh_lists sh_tbls sh_fis] in Hx;
    apply lookup_singleton_Some in Hx as [<- _]; lia.
Qed.


Lemma ahci_write_correct_witness :
  exists s', ahci_write 10 0x5000 9 2 (replicate 1024 42) demo_port = Ok (0, s') /\
    blk_read (hba_disk (p_hba s')) 9 2 = replicate 1024 42.
Proof.
  destruct (ahci_write_correct (B := memdisk) 10 0x5000 9 2 (replicate 1024 42) demo_port demo_port_ok demo_port_clear) as (s' & E & _ & _ & Hd & _);
    [intros x; cbn [p_mem demo_port p_sh demo_shm sh_mem]; lia|apply Forall_replicate; lia|lia|lia|lia|lia|reflexivity|vm_compute; lia|].
  exists s'. split; [exact E|exact Hd].
Defined.

Section overrun.
Context {D B : Type} `{HbaSpec D B}.

Lemma lookup_sector (b : B) lba n i : 0 <= i < n ->
  blk_read b lba n !! Z.to_nat (512 * i) = blk_read b (lba + i) 1 !! 0%nat.
Proof.
  intros Hi. replace n with (i + (1 + (n - i - 1))) by lia. rewrite blk_read_split, (blk_read_split b (lba + i) 1) by lia.
  pose proof (blk_read_length b lba i ltac:(lia)). pose proof (blk_read_length b (lba + i) 1 ltac:(lia)).
  rewrite lookup_app_r by lia. replace (Z.to_nat (512 * i) - length _)%nat with 0%nat by lia.
  apply lookup_app_l. lia.
Qed.

(** A read of more than eight sectors writes past the port's one-page buffer: every
    command asks for all sectors still missing, so the byte after the page ends up as
    the first byte of the last sector read.  (What is behind the page is whatever frame
    follows it; if that were the port's command list, the list would be gone, so it is
    assumed here that it is not.) *)
Theorem ahci_read_overruns_page fuel phys_buf off len (s : port_st D) :
  port_ok s -> dma_clear (p_sh s) phys_buf (512 * len) -> 0 <= off -> off + len <= 2 ^ 48 -> 9 <= len <= 8192 -> 0 <= phys_buf < 2 ^ 64 ->
  (hba_polls < N.to_nat fuel)%nat ->
  exists r s', ahci_read fuel phys_buf off len s = Ok (r, s') /\
    Some (p_mem s' (phys_buf + 4096)) = blk_read (hba_disk (p_hba s)) (off + len - 1) 1 !! 0%nat.
Proof.
  intros Hok Hcl Ho Hol Hl Hp Hf. set (d := hba_disk (p_hba s)).
  assert (wp (ahci_read fuel phys_buf off len) (fun _ s' =>
    Some (p_mem s' (phys_buf + 4096)) = blk_read d (off + len - 1) 1 !! 0%nat) s) as Hw.
  { unfold ahci_read. wp_focus.
    apply (wp_for_acc (fun k (_ : list Z) s' => port_ok s' /\ dma_clear (p_sh s') phys_buf (512 * len) /\ hba_disk (p_hba s') = d /\
      (len - 9 < k -> Some (p_mem s' (phys_buf + 4096)) = blk_read d (off + len - 1) 1 !! 0%nat))); [lia| | |].
    - split_and!; [done|done|done|lia].
    - intros k out s1 Hk (Hok1 & Hcl1 & Hd1 & Hm1). wp_focus. rewrite uN_small by lia.
      apply ahci_access_wp; [done|lia|lia|done|done|intros _; eapply dma_clear_le; [|exact Hcl1]; lia|]. intros s2 Hok2 Hst2 [Hd2 Hm2].
      rewrite Hd1 in Hm2. pose proof (blk_read_length d (off + k) (len - k) ltac:(lia)) as Hlen.
      wp_step. wp_step. wp_step. split_and!; [done|by eapply dma_clear_same|congruence|]. intros Hlast. rewrite Hm2.
      destruct (decide (k = len - 9)) as [->|Hne]; [|rewrite mem_put_outside by lia; apply Hm1; lia].
      unfold mem_put. rewrite (proj2 (Z.leb_le _ _)), (proj2 (Z.ltb_lt _ _)) by lia. cbn [andb].
      replace (phys_buf + 4096 - phys_buf) with (512 * 8) by lia. rewrite lookup_sector by lia.
      replace (off + (len - 9) + 8) with (off + len - 1) by lia.
      pose proof (blk_read_length d (off + len - 1) 1 ltac:(lia)).
      destruct (lookup_lt_is_Some_2 (blk_read d (off + len - 1) 1) 0) as [b ->]; [lia|done].
    - intros out s1 (_ & _ & _ & Hm). wp_step. apply Hm. lia. }
  destruct (wp_Ok _ _ _ Hw) as (r & s' & E & HQ). by exists r, s'.
Qed.
End overrun.

Lemma demo_port_clear2 : dma_clear (p_sh demo_port) 0x3000 (512 * 9).
Proof.
  intros b [[x Hx]|[[x Hx]|[x Hx]]]; cbn [demo_port p_sh demo_shm sh_lists sh_tbls sh_fis] in Hx;
    apply lookup_singleton_Some in Hx as [<- _]; lia.
Qed.

Lemma ahci_read_overruns_page_witness :
  exists r s', ahci_read 10 0x3000 0 9 demo_port = Ok (r, s') /\ Some (p_mem s' (0x3000 + 4096)) = Some 0.
Proof.
  destruct (ahci_read_overruns_page (B := memdisk) 10 0x3000 0 9 demo_port demo_port_ok demo_port_clear2) as (r & s' & E & Hb);
    [lia|lia|lia|lia|vm_compute; lia|].
  exists r, s'. split; [exact E|]. rewrite Hb. vm_compute. reflexivity.
Defined.

(** ** Setting up a controller *)

(** [ahci_port_t]: the index of its registers, type, number and buffer page. *)
Record ahci_port : Type := mk_ahci_port { hba_port : nat; ptype : Z; pnum : Z; phys_buf : Z; buf : Z }.

(** The controller with its 32 register sets, the memory manager, and memory. *)
Record hba (D P : Type) : Type := mk_hba { ports_impl : Z; ports : list D; h_mem : P; h_sh : shm }.
Arguments mk_hba {D P}. Arguments ports_impl {D P}. Arguments ports {D P}. Arguments h_mem {D P}. Arguments h_sh {D P}.

Section setup.
Context {D P : Type} `{Hba D} `{VSpace P}.
Abbreviation C := (M (hba D P)).

Definition on_mem {A} (m : M P A) : C A := fun s =>
  match m (h_mem s) with
  | Ok (a, p) => Ok (a, mk_hba (ports_impl s) (ports s) p (h_sh s))
  | Err f => Err f
  end.
Definition port_rd (i : nat) (r : hba_reg) : C Z := fun s =>
  match ports s !! i with
  | Some d => let '(v, d') := hba_rd r d in Ok (v, mk_hba (ports_impl s) (<[i := d']> (ports s)) (h_mem s) (h_sh s))
  | None => Err OutOfBounds
  end.

Definition check_type (i : nat) : C Z :=
  sata_stat ← port_rd i SATA_STAT;
  let ipm := Z.shiftr sata_stat 8 .& 0xf in
  let det := sata_stat .& 0xf in
  if negb (det =? HBA_PORT_DET_PRESENT) then mret AHCI_PORT_NULL
  else if negb (ipm =? HBA_PORT_IPM_ACTIVE) then mret AHCI_PORT_NULL
  else
    sig ← port_rd i SIG;
    mret (if sig =? SATA_SIG_ATA then AHCI_PORT_SATA
          else if sig =? SATA_SIG_ATAPI then AHCI_PORT_SATAPI
          else if sig =? SATA_SIG_SEMB then AHCI_PORT_SEMB
          else if sig =? SATA_SIG_PM then AHCI_PORT_PM
          else AHCI_PORT_NULL).

Definition probe_port (i : nat) (found : list ahci_port) : C (list ahci_port) :=
  pt ← check_type i;
  if (pt =? AHCI_PORT_SATA) || (pt =? AHCI_PORT_SATAPI) then
    phys ← on_mem vs_request;
    b ← on_mem (vs_kernel_alloc 1);
    on_mem (vs_kernel_map b phys 1);;
    mret (found ++ [mk_ahci_port i pt (u8 (Z.of_nat (length found))) phys b])
  else mret found.

Definition ahci_probe_ports : C (list ahci_port) :=
  impl ← gets ports_impl;
  r ← for_acc (B := Empty_set) 0 32 (fun i found =>
        if truth (impl .& u32 (Z.shiftl 1 i)) then
          f ← probe_port (Z.to_nat i) found; mret (inl f)
        else mret (inl found)) [];
  match r with inl f => mret f | inr e => match e with end end.

(** The port with the memory manager. *)
Record rebase_st : Type := mk_rebase { rb_port : port_st D; rb_mem : P }.
Definition on_port {A} (m : M (port_st D) A) : M rebase_st A := fun s =>
  match m (rb_port s) with
  | Ok (a, p) => Ok (a, mk_rebase p (rb_mem s))
  | Err f => Err f
  end.
Definition on_vs {A} (m : M P A) : M rebase_st A := fun s =>
  match m (rb_mem s) with
  | Ok (a, p) => Ok (a, mk_rebase (rb_port s) p)
  | Err f => Err f
  end.

(** [memset] of a page through a pointer into the mapping of physical memory. *)
Definition clear_page (v : Z) (f : Z -> shm -> shm) : M (port_st D) () :=
  a ← unwrap (mmio_phys v) OutOfBounds;
  modify (fun s => with_sh (f a (p_sh s)) s).
Definition set_comlist (v : Z) : M (port_st D) () :=
  modify (fun s => mk_port (p_hba s) v (comtables s) (p_fis s) (p_sh s)).
Definition set_fis (v : Z) : M (port_st D) () :=
  modify (fun s => mk_port (p_hba s) (comlist s) (comtables s) v (p_sh s)).
Definition set_comtable (i v : Z) : M (port_st D) () :=
  modify (fun s => mk_port (p_hba s) (comlist s) (<[Z.to_nat i := v]> (comtables s)) (p_fis s) (p_sh s)).

(** The types the driver writes into the received-FIS area, in the order of its fields. *)
Definition fis_types : list Z := [FIS_TYPE_DMA_SETUP; FIS_TYPE_PIO_SETUP; FIS_TYPE_REG_D2H; FIS_TYPE_DEV_BITS].

(** The table of slot [i]. *)
Definition rebase_slot (i : Z) : M rebase_st () :=
  on_port (set_hdr i (fun h => mk_hdr (cmd_fis_len h) (h_write h) 1 (cmd_tbl_base_addr h) (cmd_tbl_base_addr_u h)));;
  phys ← on_vs vs_request;
  on_port (set_hdr i (fun h => mk_hdr (cmd_fis_len h) (h_write h) (prdt_len h) (u32 phys) (cmd_tbl_base_addr_u h)));;
  on_port (set_hdr i (fun h => mk_hdr (cmd_fis_len h) (h_write h) (prdt_len h) (cmd_tbl_base_addr h) (u32 (Z.shiftr phys 32))));;
  on_port (set_comtable i (page_map_mmio phys));;
  on_port (clear_page (page_map_mmio phys) new_tbl).

(** The command list and each table are a zeroed page; 8 of the 32 slots get a table. *)
Definition ahci_port_rebase (fuel : N) : M rebase_st () :=
  on_port (ahci_stop_cmd fuel);;
  phys ← on_vs vs_request;
  on_port (wr COM_BASE_ADDR (phys .& 0xffffffff));;
  on_port (wr COM_BASE_ADDR_U (Z.shiftr phys 32));;
  on_port (set_comlist (page_map_mmio phys));;
  on_port (clear_page (page_map_mmio phys) new_list);;
  phys ← on_vs vs_request;
  on_port (wr FIS_BASE (phys .& 0xffffffff));;
  on_port (wr FIS_BASE_U (Z.shiftr phys 32));;
  on_port (set_fis (page_map_mmio phys));;
  on_port (clear_page (page_map_mmio phys) (fun a => new_fis a fis_types));;
  for_each 0 8 rebase_slot;;
  on_port (ahci_start_cmd fuel).
End setup.
Arguments mk_rebase {D P}. Arguments rb_port {D P}. Arguments rb_mem {D P}.

(** [ahci_get_dev]: the port a disk number selects; [idx >= cnt] compares as unsigned. *)
Definition ahci_get_dev (found : list ahci_port) (idx : Z) : option ahci_port :=
  if Z.of_nat (length found) <=? u32 idx then None else found !! Z.to_nat (u32 idx).

(** The devices [ahci_init] starts. *)
Definition is_ahci (d : pci_dev) : bool := (class_code d =? 0x01) && (subclass d =? 0x06) && (progif d =? 0x01).

(** Up to the mapping of the registers: bus mastering, interrupts and memory decoding
    are switched on, and the address of the registers read. *)
Definition ahci_init_dev {T} `{Ports T} (d : pci_dev) : M T Z :=
  pci_enable_bus_master d;;
  pci_enable_ints d;;
  pci_enable_mem_space d;;
  abar ← pci_get_base_addr d 5;
  mret (page_map_mmio abar).

(** Two ports are implemented and have a drive. *)
Example ahci_probe_demo :
  match ahci_probe_ports (H0 := demo_VSpace) (mk_hba 5 (replicate 32 (mk_sim [] 0 0 0)) () (mk_shm ∅ ∅ ∅ (fun _ => 0))) with
  | Ok (found, _) => (hba_port <$> found, pnum <$> found, ahci_get_dev found 2)
  | Err _ => ([], [], None)
  end = ([0; 2]%nat, [0; 1], None).
Proof. vm_compute. reflexivity. Qed.
