(* ===== verification/Elf.v ===== *)
(** * Elf: loading programs (src/util/elf.c, elf.h; the processes made from them in
      src/sched/sched.c)

    A file is a list of bytes; copying from outside it is a fault.  The state is the
    memory manager, behind the class [VSpace], and the bytes of physical memory.  What
    a program will see is its [image]: the byte behind a virtual address of a space. *)

From S2P Require Import Prelude Disk Pmm Alloc Kheap DList Paging Vfs Sched.

Definition ELFMAG0 : Z := 0x7f.
Definition ELFMAG1 : Z := 69.
Definition ELFMAG2 : Z := 76.
Definition ELFMAG3 : Z := 70.
Definition EI_CLASS : nat := 4.
Definition ELFCLASS64 : Z := 2.
Definition PT_LOAD : Z := 1.

(** [elf64_hdr_t] (64 bytes) and [elf64_phdr_t] (56 bytes); both are laid out without
    padding. *)
Record elf64_hdr : Type := mk_ehdr {
  ident : list Z; entry : Z; ph_off : Z; ph_ent_size : Z; ph_num : Z;
}.
Definition ehdr_layout : list nat := (replicate 16 1 ++ [2; 2; 4; 8; 8; 8; 4; 2; 2; 2; 2; 2; 2])%nat.
Definition ehdr_of (bs : list Z) : elf64_hdr :=
  let f := unpack ehdr_layout bs in
  let fld i := default 0 (f !! i) in
  mk_ehdr (take 16 f) (fld 19%nat) (fld 20%nat) (fld 24%nat) (fld 25%nat).
Definition sizeof_ehdr : Z := 64.

Record elf64_phdr : Type := mk_phdr { p_type : Z; p_offset : Z; vaddr : Z; file_sz : Z; mem_sz : Z }.
Definition phdr_layout : list nat := [4; 4; 8; 8; 8; 8; 8; 8]%nat.
Definition phdr_of (bs : list Z) : elf64_phdr :=
  let f := unpack phdr_layout bs in
  let fld i := default 0 (f !! i) in
  mk_phdr (fld 0%nat) (fld 2%nat) (fld 3%nat) (fld 5%nat) (fld 6%nat).
Definition sizeof_phdr : Z := 56.

Definition check_elf_hdr (h : elf64_hdr) : bool :=
  let id i := default 0 (ident h !! i) in
  if negb (id 0%nat =? ELFMAG0) || negb (id 1%nat =? ELFMAG1) || negb (id 2%nat =? ELFMAG2) || negb (id 3%nat =? ELFMAG3)
  then false
  else id EI_CLASS =? ELFCLASS64.

(** The memory manager and physical memory. *)
Record estate (P : Type) : Type := mk_estate { e_vs : P; e_phys : pmem }.
Arguments mk_estate {P}. Arguments e_vs {P}. Arguments e_phys {P}.

(** Address translation by the processor: the frame behind a page of a space, and the frame
    behind a page of the kernel's window. *)
Class Mmu (P : Type) : Type := {
  vs_trans : P -> Z -> Z -> option Z;
  vs_ktrans : P -> Z -> option Z;
}.

(** The upper levels of the walk for directory [i]: the first entry of the top level leads to
    the map's second level, and entry [i] of that to the directory. *)
Definition top_walk (m : page_map) (i : Z) : bool :=
  let p4 := ent (pml4 m) 0 in let p3 := ent (pdp m) i in
  Z.testbit p4 0 && (p4 .& PAGE_FRAME =? pdp_phys m) &&
  Z.testbit p3 0 && (p3 .& PAGE_FRAME =? ent (page_dirs_phys m) i).

(** The walk below the first entry of the top level (2^27 pages): through the second level,
    the directory, and the table in the frame the directory entry names. *)
Definition space_trans (s : pstate kheap) (sp pg : Z) : option Z :=
  let virt := pg * 4096 in
  match maps s !! sp with
  | Some m =>
      let d := ent (page_dirs m) (PDP_IDX virt, PD_IDX virt) in
      let e := ent (default ∅ (tabs s !! (d .& PAGE_FRAME))) (PT_IDX virt) in
      if (0 <=? pg) && (pg <? 2 ^ 27) && top_walk m (PDP_IDX virt) && Z.testbit d 0 && Z.testbit e 0
      then Some (e .& PAGE_FRAME) else None
  | None => None
  end.
#[export] Instance paging_Mmu (lay : layout) : Mmu (pstate kheap) := {| vs_trans := space_trans; vs_ktrans := kframe lay |}.

(** What a program of the space sees at a virtual address. *)
Definition image {P} `{Mmu P} (s : estate P) (sp va : Z) : option Z :=
  (fun f => e_phys s (f + va `mod` 4096)) <$> vs_trans (e_vs s) sp (va `div` 4096).

Section load.
Context {P : Type} `{VSpace P} `{Mmu P}.
Abbreviation E := (M (estate P)).

Definition vs {A} (m : M P A) : E A := fun s =>
  match m (e_vs s) with
  | Ok (a, p) => Ok (a, mk_estate p (e_phys s))
  | Err f => Err f
  end.

(** [memcpy] to a page of the kernel's window: the bytes go to the frame the window has there. *)
Definition kwrite (v : Z) (bs : list Z) : E () :=
  o ← gets (fun s => vs_ktrans (e_vs s) v);
  f ← unwrap o OutOfBounds;
  modify (fun s => mk_estate (e_vs s) (mem_put (e_phys s) f bs)).

(** One page: the frame is mapped at [tmp] while it is filled. *)
Definition load_page (data : list Z) (ph : elf64_phdr) (space tmp i : Z) : E () :=
  phys ← vs vs_request;
  vs (vs_kernel_map tmp phys 1);;
  page ← buf_read data (p_offset ph + i) 4096;
  kwrite tmp page;;
  vs (vs_map_memory (u64 (vaddr ph + i)) phys 1 space).

Definition seg_size (ph : elf64_phdr) : Z :=
  if mem_sz ph `mod` 4096 =? 0 then mem_sz ph else u64 (mem_sz ph - mem_sz ph `mod` 4096 + 4096).

(** [i] is a [uint32_t] compared with the 64-bit size. *)
Definition load_segment (fuel : N) (data : list Z) (ph : elf64_phdr) (space : Z) : E () :=
  let size := seg_size ph in
  vs (vs_alloc_region_at (vaddr ph) size space);;
  tmp ← vs (vs_kernel_alloc 1);
  while_ fuel (fun i =>
    if i <? size then load_page data ph space tmp i;; mret (inl (u32 (i + 4096)))
    else mret (inr ())) 0;;
  vs (vs_kernel_free tmp 1).

Definition phdr_at (data : list Z) (h : elf64_hdr) (i : Z) : E elf64_phdr :=
  bs ← buf_read data (ph_off h + sN 32 (ph_ent_size h * i)) sizeof_phdr; mret (phdr_of bs).

(** The return value and the entry point, which is not written on failure. *)
Definition elf_load (fuel : N) (data : list Z) (space : Z) : E (Z * option Z) :=
  hb ← buf_read data 0 sizeof_ehdr;
  let h := ehdr_of hb in
  if negb (check_elf_hdr h) then mret (1, None) else
  for_each 0 (ph_num h) (fun i =>
    ph ← phdr_at data h i;
    if p_type ph =? PT_LOAD then load_segment fuel data ph space else mret ());;
  mret (0, Some (entry h)).

(** The return value of [elf_load] is dropped; the entry point of a file that was
    refused is an uninitialised variable. *)
Definition loadelf (fuel : N) (data : list Z) (space : Z) : E Z :=
  r ← elf_load fuel data space;
  unwrap r.2 NoReturn.
End load.

(** ** What the loader relies on *)

(** [vs_inv p n k]: the manager is consistent and can deliver [n] more pages and record
    [k] more regions; [vs_space p sp]: the space [sp] exists; [vs_regs p sp rs k]: its
    regions (start and end) are [rs], and its list has room for [k] more; [vs_listed p sp rs]:
    its regions are [rs], in this order, whatever the list's counter says; [vs_win] and
    [vs_owned]: the kernel addresses and the frames handed out; [vs_top]: the end of physical
    memory; [vs_limit]: the end of the addresses a space can have; [vs_kkept]: the kernel's
    mappings, but for some addresses, are kept. *)
Class VSpaceSpec (P : Type) `{VSpace P} `{Mmu P} : Type := {
  vs_inv : P -> nat -> nat -> Prop;
  vs_space : P -> Z -> Prop;
  vs_regs : P -> Z -> list (Z * Z) -> nat -> Prop;
  vs_listed : P -> Z -> list (Z * Z) -> Prop;
  vs_win : P -> Z -> Prop;
  vs_owned : P -> Z -> Prop;
  vs_top : P -> Z;
  vs_limit : Z;
  vs_map_cost : nat;
  vs_same p p' : Prop :=
    (forall sp pg, vs_trans p' sp pg = vs_trans p sp pg) /\
    (forall sp, vs_space p sp -> vs_space p' sp) /\
    (forall v, vs_win p v -> vs_win p' v) /\ (forall f, vs_owned p f -> vs_owned p' f) /\ vs_top p' = vs_top p;
  vs_kkept p p' (X : Z -> Prop) : Prop :=
    forall v f, ~ X v -> vs_win p v -> vs_ktrans p v = Some f -> vs_ktrans p' v = Some f;
  vs_keeps p p' : Prop := vs_same p p' /\ (forall sp rs k, vs_regs p sp rs k -> vs_regs p' sp rs k) /\
    forall sp rs, vs_listed p sp rs -> vs_listed p' sp rs;
  vs_limit_range : 0 <= vs_limit <= 2 ^ 64;
  vs_trans_aligned p n k sp pg f : vs_inv p n k -> vs_trans p sp pg = Some f -> f `mod` 4096 = 0;
  vs_owned_range p n k f : vs_inv p n k -> vs_owned p f -> f `mod` 4096 = 0 /\ 0 <= f < vs_top p;
  vs_request_wp p n k :
    vs_inv p (S n) k -> wp vs_request (fun f p' => vs_inv p' n k /\ f `mod` 4096 = 0 /\
      ((forall sp pg, vs_trans p sp pg <> Some f) /\ ~ vs_owned p f /\ vs_kkept p p' (fun _ => False)) /\
      vs_owned p' f /\ vs_keeps p p') p;
  vs_map_wp p n k va f sp :
    vs_inv p (vs_map_cost + n) k -> vs_space p sp -> va `mod` 4096 = 0 -> 0 <= va -> va + 4096 <= vs_limit ->
    f `mod` 4096 = 0 -> vs_owned p f ->
    wp (vs_map_memory va f 1 sp) (fun _ p' => vs_inv p' n k /\
      (forall sp' pg, vs_trans p' sp' pg =
         if decide (sp' = sp /\ pg = va `div` 4096) then Some f else vs_trans p sp' pg) /\
      (forall sp, vs_space p sp -> vs_space p' sp) /\ (forall v, vs_win p v -> vs_win p' v) /\
      (forall sp rs k, vs_regs p sp rs k -> vs_regs p' sp rs k) /\ forall sp rs, vs_listed p sp rs -> vs_listed p' sp rs) p;
  vs_alloc_at_wp p n k b size sp rs r :
    vs_inv p n (S k) -> vs_regs p sp rs (S r) -> 0 <= b -> Forall (fun x => x.1 <= b) rs -> 0 < size ->
    b + size <= vs_limit ->
    wp (vs_alloc_region_at b size sp) (fun _ p' => vs_inv p' n k /\ vs_regs p' sp (rs ++ [(b, b + size)]) r /\
      vs_same p p') p;
  vs_kalloc_wp p n k :
    vs_inv p (S n) k -> wp (vs_kernel_alloc 1) (fun v p' => vs_inv p' n k /\
      (vs_win p' v /\ ~ vs_win p v /\ vs_kkept p p' (fun _ => False)) /\ vs_keeps p p') p;
  vs_kmap_wp p n k v f : vs_inv p n k -> vs_win p v -> f `mod` 4096 = 0 -> vs_owned p f ->
    wp (vs_kernel_map v f 1) (fun _ p' => vs_inv p' n k /\
      (vs_ktrans p' v = Some f /\ vs_kkept p p' (fun w => w = v)) /\ vs_keeps p p') p;
  vs_kfree_wp p n k v : vs_inv p n k -> vs_win p v -> wp (vs_kernel_free v 1) (fun _ p' => vs_inv p' n k /\
    (forall sp pg, vs_trans p' sp pg = vs_trans p sp pg) /\
    (forall sp, vs_space p sp -> vs_space p' sp) /\ (forall sp rs k, vs_regs p sp rs k -> vs_regs p' sp rs k)) p;
}.

(** What making a process relies on besides: new address spaces, and regions at an
    address the manager chooses. *)
Definition clear_range (b e : Z) (x : Z * Z) : Prop := x.2 <= b \/ e <= x.1.
Fixpoint ranges_ordered (lo : Z) (rs : list (Z * Z)) : Prop :=
  match rs with [] => True | x :: r => lo <= x.1 <= x.2 /\ ranges_ordered x.2 r end.

(** The region [b, b + size) is entered in the list of the space, between the regions below
    it and those above it.  (Behind all others it is counted as well; [list_insert], which
    puts it before another, does not count it.) *)
Definition region_recorded {P} `{VSpaceSpec P} (p' : P) (sp : Z) (rs : list (Z * Z)) (b size : Z) : Prop :=
  exists rs1 rs2, rs = rs1 ++ rs2 /\ vs_listed p' sp (rs1 ++ (b, b + size) :: rs2) /\
    ranges_ordered 0 (rs1 ++ (b, b + size) :: rs2).

Class VSpaceMake (P : Type) `{VSpaceSpec P} : Type := {
  vs_mk_cost : nat;
  vs_mk_heap : nat;
  vs_mk_map_wp p n k :
    vs_inv p (vs_mk_cost + n) (vs_mk_heap + k) ->
    wp vs_mk_map (fun sp p' => vs_inv p' n k /\ ~ vs_space p sp /\ vs_space p' sp /\
      (forall r, Z.of_nat r < 2 ^ 31 -> vs_regs p' sp [] r) /\ (forall pg, vs_trans p' sp pg = None) /\ vs_same p p') p;
  vs_alloc_region_wp p n k size sp rs r :
    vs_inv p n (S k) -> vs_regs p sp rs r -> ranges_ordered 0 rs -> Forall (fun x => x.2 < 2 ^ 63) rs ->
    0 <= size < 2 ^ 62 ->
    wp (vs_alloc_region size sp) (fun b p' => vs_inv p' n k /\ Forall (clear_range b (b + size)) rs /\
      4096 <= b /\ (b = 4096 \/ b ∈ rs.*2) /\ region_recorded p' sp rs b size /\ vs_same p p') p;
}.

Section proofs.
Context {P : Type} `{VSpaceSpec P}.
Implicit Types s : estate P.

(** [bs] laid over an image at [at_], in one space. *)
Definition overlay (sp at_ : Z) (bs : list Z) (im : Z -> Z -> option Z) : Z -> Z -> option Z := fun sp' va =>
  if decide (sp' = sp /\ at_ <= va < at_ + Z.of_nat (length bs)) then bs !! Z.to_nat (va - at_) else im sp' va.

Lemma vs_lift {A} (m : M P A) (Q : A -> P -> Prop) (R : A -> estate P -> Prop) s :
  wp m Q (e_vs s) -> (forall a p, Q a p -> R a (mk_estate p (e_phys s))) -> wp (vs m) R s.
Proof. unfold vs, wp. intros Hm HR. destruct (m (e_vs s)) as [[a p]|]; [by apply HR|done]. Qed.

(** There are [n] more pages and [k] more regions, and the space has the regions [rs]. *)
Definition room (n k : nat) (rs : list (Z * Z)) (space : Z) s : Prop :=
  vs_inv (e_vs s) n k /\ vs_space (e_vs s) space /\ vs_regs (e_vs s) space rs k.

Lemma load_page_wp data ph space tmp i n k rs s Q :
  room (S (vs_map_cost + n)) k rs space s -> vs_win (e_vs s) tmp ->
  vaddr ph `mod` 4096 = 0 -> i `mod` 4096 = 0 -> 0 <= i -> 0 <= vaddr ph ->
  vaddr ph + i + 4096 <= vs_limit -> 0 <= p_offset ph -> p_offset ph + i + 4096 <= Z.of_nat (length data) ->
  (forall s', room n k rs space s' -> vs_win (e_vs s') tmp ->
     (forall sp va, image s' sp va = overlay space (vaddr ph + i)
        (take 4096 (drop (Z.to_nat (p_offset ph + i)) data)) (image s) sp va) -> Q () s') ->
  wp (load_page data ph space tmp i) Q s.
Proof.
  intros (Hinv & Hsp & Hrg) Hw Hva Hi Hi0 Hv0 Hlim Ho Hlen HQ. pose proof vs_limit_range as Hr. unfold load_page.
  wp_focus. eapply vs_lift; [by apply vs_request_wp|]. intros f p1 (Hinv1 & Hf & [Hfresh _] & Hown & (Ht1 & Hs1 & Hw1 & _) & Hg1 & _).
  wp_focus. eapply vs_lift; [eapply vs_kmap_wp; [exact Hinv1|by apply Hw1|done|done]|].
  intros [] p2 (Hinv2 & [Hk2 _] & (Ht2 & Hs2 & Hw2 & Ho2 & _) & Hg2 & _). cbn [e_vs e_phys] in *.
  wp_focus. apply buf_read_wp; [lia..|]. set (page := take _ _). wp_focus. unfold kwrite. wp_step. wp_step. cbn [e_vs]. wp_focus. eapply wp_unwrap; [exact Hk2|].
  wp_step. cbn [e_vs e_phys].
  rewrite uN_small by lia.
  eapply vs_lift; [eapply vs_map_wp; [exact Hinv2|by apply Hs2, Hs1|dlia|lia|lia|exact Hf|by apply Ho2]|].
  intros [] p3 (Hinv3 & Ht3 & Hs3 & Hw3 & Hg3 & _). cbn [e_vs e_phys] in Ht3, Hs3, Hw3, Hg3.
  apply HQ; [split_and!; [exact Hinv3|by apply Hs3, Hs2, Hs1|by apply Hg3, Hg2, Hg1]|by apply Hw3, Hw2, Hw1|]. intros sp va.
  assert (length page = 4096%nat) as Hlp by (unfold page; rewrite length_take, length_drop; lia).
  unfold image, overlay. cbn [e_vs e_phys]. rewrite Ht3, Ht2, Ht1.
  replace (take 4096 (drop (Z.to_nat (p_offset ph + i)) data)) with page by done. rewrite Hlp.
  assert ((vaddr ph + i) `mod` 4096 = 0) as Ha by dlia. clear Hva Hi Hv0 Hi0 Hlim Ho Hlen Hr HQ.
  set (a := vaddr ph + i) in *. clearbody a page.
  destruct (decide (sp = space /\ va `div` 4096 = a `div` 4096)) as [[-> Hpg]|Hne].
  - rewrite decide_True by (split; [done|dlia]). cbn [fmap option_fmap option_map]. unfold mem_put. rewrite Hlp.
    rewrite (proj2 (Z.leb_le _ _)), (proj2 (Z.ltb_lt _ _)) by dlia. cbn [andb].
    replace (va - a) with (f + va `mod` 4096 - f) by dlia.
    destruct (lookup_lt_is_Some_2 page (Z.to_nat (f + va `mod` 4096 - f))) as [b ->]; [rewrite Hlp; dlia|done].
  - rewrite decide_False by (intros [-> Hin]; apply Hne; split; [done|dlia]).
    destruct (vs_trans (e_vs s) sp (va `div` 4096)) as [g|] eqn:Hg; [|done]. cbn [fmap option_fmap option_map]. f_equal.
    pose proof (vs_trans_aligned _ _ _ _ _ _ Hinv Hg) as Hga. apply mem_put_outside. rewrite Hlp.
    assert (g <> f) as Hgf by congruence. clear - Hga Hf Hgf. dlia.
Qed.

(** ** Segments and whole files *)

(** The bytes of the file a segment shows: [size] of them, whole pages. *)
Definition seg_bytes (data : list Z) (ph : elf64_phdr) : list Z :=
  take (Z.to_nat (seg_size ph)) (drop (Z.to_nat (p_offset ph)) data).
Definition seg_pages (ph : elf64_phdr) : nat := Z.to_nat (seg_size ph `div` 4096).

(** A segment the loader can take: not empty, page-aligned, below the limit of the
    address space, smaller than the 32-bit counter, and in the file to the end of its
    last page. *)
Definition seg_ok (data : list Z) (ph : elf64_phdr) : Prop :=
  vaddr ph `mod` 4096 = 0 /\ 0 <= vaddr ph /\ vaddr ph + seg_size ph <= vs_limit /\
  0 < mem_sz ph /\ mem_sz ph + 8192 <= 2 ^ 32 /\
  0 <= p_offset ph /\ p_offset ph + seg_size ph <= Z.of_nat (length data).

Lemma overlay_ext sp at_ bs im im' sp' va :
  im sp' va = im' sp' va -> overlay sp at_ bs im sp' va = overlay sp at_ bs im' sp' va.
Proof. unfold overlay. intros ->. done. Qed.

(** Two adjoining overlays are one. *)
Lemma overlay_app sp at_ bs bs' im sp' va :
  overlay sp (at_ + Z.of_nat (length bs)) bs' (overlay sp at_ bs im) sp' va = overlay sp at_ (bs ++ bs') im sp' va.
Proof.
  unfold overlay. rewrite length_app. destruct (decide (sp' = sp)) as [->|]; [|by rewrite !decide_False by tauto].
  destruct (decide (at_ + Z.of_nat (length bs) <= va < at_ + Z.of_nat (length bs) + Z.of_nat (length bs'))).
  - rewrite !decide_True by (split; [done|lia]). rewrite lookup_app_r by lia. f_equal. lia.
  - rewrite decide_False by tauto. destruct (decide (at_ <= va < at_ + Z.of_nat (length bs))).
    + rewrite !decide_True by (split; [done|lia]). rewrite lookup_app_l by lia. done.
    + rewrite !decide_False by (intros [_ ?]; lia). done.
Qed.

Lemma overlay_nil sp at_ im sp' va : overlay sp at_ [] im sp' va = im sp' va.
Proof. unfold overlay. rewrite decide_False; [done|]. simpl. intros [_ ?]. lia. Qed.

Lemma seg_size_range ph :
  0 <= mem_sz ph -> mem_sz ph + 8192 <= 2 ^ 32 ->
  seg_size ph `mod` 4096 = 0 /\ mem_sz ph <= seg_size ph < mem_sz ph + 4096 /\ seg_size ph + 4096 <= 2 ^ 32.
Proof.
  intros Hm0 Hm. unfold seg_size. destruct (Z.eqb_spec (mem_sz ph `mod` 4096) 0).
  - split_and!; lia.
  - rewrite uN_small by dlia. split_and!; dlia.
Qed.

(** The pages a segment takes: the window of the copy, and the frames with their tables. *)
Definition seg_cost (ph : elf64_phdr) : nat := S (seg_pages ph * S vs_map_cost).

(** The addresses of a segment. *)
Definition seg_range (ph : elf64_phdr) : Z * Z := (vaddr ph, vaddr ph + seg_size ph).

(** One segment: the space shows the file's bytes at its addresses, and every other
    address of every space is as before. *)
Lemma load_segment_wp fuel data ph space n k rs s Q :
  seg_ok data ph -> Forall (fun x => x.1 <= vaddr ph) rs -> (2 ^ 20 < Z.of_N fuel) ->
  room (seg_cost ph + n) (S k) rs space s ->
  (forall s', room n k (rs ++ [seg_range ph]) space s' ->
     (forall sp va, image s' sp va = overlay space (vaddr ph) (seg_bytes data ph) (image s) sp va) -> Q () s') ->
  wp (load_segment fuel data ph space) Q s.
Proof.
  intros (Hva & Hv0 & Hlim & Hm0 & Hm & Ho & Hlen) Ht Hfuel (Hinv & Hsp & Hrg) HQ.
  destruct (seg_size_range ph ltac:(lia) Hm) as (Hs & Hsm & Hs32). unfold load_segment.
  wp_focus. eapply vs_lift; [eapply vs_alloc_at_wp; [exact Hinv|exact Hrg|lia|exact Ht|lia..]|].
  intros [] p1 (Hinv1 & Hg1 & Ht1 & Hs1 & Hw1 & _).
  change (seg_cost ph + n)%nat with (S (seg_pages ph * S vs_map_cost + n)) in Hinv1.
  wp_focus. eapply vs_lift; [by eapply vs_kalloc_wp|]. intros tmp p2 (Hinv2 & [Hw _] & (Ht2 & Hs2 & Hw2 & _) & Hg2 & _). cbn [e_vs e_phys] in *.
  wp_focus.
  apply (wp_while (fun j i s' => 0 <= i <= seg_size ph /\ i `mod` 4096 = 0 /\ Z.of_nat j = (seg_size ph - i) `div` 4096 /\
    room (j * S vs_map_cost + n) k (rs ++ [seg_range ph]) space s' /\ vs_win (e_vs s') tmp /\
    forall sp va, image s' sp va =
      overlay space (vaddr ph) (take (Z.to_nat i) (drop (Z.to_nat (p_offset ph)) data)) (image s) sp va) (seg_pages ph)).
  - split_and!; [lia|lia|done|unfold seg_pages; dlia|split_and!; [exact Hinv2|by apply Hs2, Hs1|by apply Hg2]|exact Hw|].
    intros sp va. rewrite overlay_nil. unfold image. cbn [e_vs e_phys]. by rewrite Ht2, Ht1.
  - unfold seg_pages. dlia.
  - intros j i s' (Hi & Hi4 & Hk & Hinv' & Hw' & Him). destruct (Z.ltb_spec i (seg_size ph)) as [Hlt|Hge].
    + destruct j as [|j]; [dlia|]. wp_focus.
      apply (load_page_wp _ _ _ _ _ (j * S vs_map_cost + n) k (rs ++ [seg_range ph])); [|exact Hw'|dlia..|].
      { replace (S (vs_map_cost + (j * S vs_map_cost + n))) with (S j * S vs_map_cost + n)%nat by lia. exact Hinv'. }
      intros s'' Hinv'' Hw'' Him'. wp_step. exists j. rewrite uN_small by lia.
      assert (i + 4096 <= seg_size ph) by dlia.
      split_and!; [lia..|clear - Hi4; dlia|clear - Hk; dlia|exact Hinv''|exact Hw''|].
      intros sp va. rewrite Him'. rewrite (overlay_ext _ _ _ _ _ _ _ (Him sp va)).
      replace (Z.to_nat (i + 4096)) with (Z.to_nat i + 4096)%nat by lia. rewrite <-take_take_drop.
      rewrite <-overlay_app. f_equal; [rewrite length_take, length_drop; lia|]. rewrite drop_drop. f_equal. f_equal. lia.
    + wp_step. eapply vs_lift; [eapply vs_kfree_wp; [exact (proj1 Hinv')|exact Hw']|]. intros [] p3 (Hinv3 & Ht3 & Hs3 & Hg3).
      replace j with 0%nat in * by dlia. destruct Hinv' as (_ & Hsp' & Hrg').
      apply HQ; [split_and!; [exact Hinv3|by apply Hs3|by apply Hg3]|].
      intros sp va. replace i with (seg_size ph) in Him by dlia. unfold seg_bytes. rewrite <-Him.
      unfold image. cbn [e_vs e_phys]. by rewrite Ht3.
Qed.

(** The program headers [i, i + n) of a file, and those of them that are loaded. *)
Definition phdr_nth (data : list Z) (h : elf64_hdr) (i : Z) : elf64_phdr :=
  phdr_of (take (Z.to_nat sizeof_phdr) (drop (Z.to_nat (ph_off h + ph_ent_size h * i)) data)).
Definition load_segs (data : list Z) (h : elf64_hdr) (i n : Z) : list elf64_phdr :=
  filter (fun ph => p_type ph = PT_LOAD) (phdr_nth data h <$> seqZ i n).
(** The segments laid over an image one after the other, and the frames that takes. *)
Definition load_image (space : Z) (data : list Z) (segs : list elf64_phdr) (im : Z -> Z -> option Z) :=
  foldl (fun im ph => overlay space (vaddr ph) (seg_bytes data ph) im) im segs.
Definition load_cost (segs : list elf64_phdr) : nat := sum_list_with seg_cost segs.
(** The segments lie in the order of their addresses, from [t] on, as the format
    demands; the start of the last one. *)
Fixpoint ascending (t : Z) (segs : list elf64_phdr) : Prop :=
  match segs with [] => True | ph :: r => t <= vaddr ph /\ ascending (vaddr ph) r end.
Fixpoint top_of (t : Z) (segs : list elf64_phdr) : Z :=
  match segs with [] => t | ph :: r => top_of (vaddr ph) r end.

Lemma ascending_app t l l' : ascending t (l ++ l') <-> ascending t l /\ ascending (top_of t l) l'.
Proof. revert t. induction l as [|ph l IH]; intros t; simpl; [tauto|]. rewrite IH. tauto. Qed.
Lemma top_of_app t l l' : top_of t (l ++ l') = top_of (top_of t l) l'.
Proof. revert t. induction l as [|ph l IH]; intros t; simpl; [done|apply IH]. Qed.

Definition file_hdr (data : list Z) : elf64_hdr := ehdr_of (take (Z.to_nat sizeof_ehdr) data).
(** A well-formed executable: its headers are in the file and its segments loadable. *)
Definition file_ok (data : list Z) : Prop :=
  let h := file_hdr data in
  sizeof_ehdr <= Z.of_nat (length data) /\ check_elf_hdr h = true /\ 0 <= ph_off h /\ 0 <= ph_ent_size h /\
  0 <= ph_num h /\ ph_ent_size h * ph_num h < 2 ^ 31 /\
  ph_off h + ph_ent_size h * ph_num h <= Z.of_nat (length data) /\ sizeof_phdr <= ph_ent_size h /\
  Forall (seg_ok data) (load_segs data h 0 (ph_num h)).

Lemma load_segs_cons data h i n :
  0 < n -> load_segs data h i n = load_segs data h i 1 ++ load_segs data h (i + 1) (n - 1).
Proof.
  intros. unfold load_segs. replace n with (1 + (n - 1)) at 1 by lia.
  rewrite seqZ_app, fmap_app, filter_app by lia. done.
Qed.

(** One program header. *)
Lemma load_phdr_wp fuel data space h i n k t rs s Q :
  let segs := load_segs data h i 1 in
  0 <= i -> 0 <= ph_off h -> sizeof_phdr <= ph_ent_size h -> ph_ent_size h * (i + 1) < 2 ^ 31 ->
  ph_off h + ph_ent_size h * (i + 1) <= Z.of_nat (length data) ->
  Forall (seg_ok data) segs -> Forall (fun x => x.1 <= t) rs -> ascending t segs -> 2 ^ 20 < Z.of_N fuel ->
  room (load_cost segs + n) (length segs + k) rs space s ->
  (forall s', room n k (rs ++ (seg_range <$> segs)) space s' ->
     (forall sp va, image s' sp va = load_image space data segs (image s) sp va) -> Q () s') ->
  wp (ph ← phdr_at data h i; if p_type ph =? PT_LOAD then load_segment fuel data ph space else mret ()) Q s.
Proof.
  intros segs Hi Ho Hsz Hov Hlen Hok Hrs Hasc Hfuel Hroom HQ. unfold sizeof_phdr in Hsz. wp_focus. unfold phdr_at.
  rewrite sN_small by nia. wp_focus. apply buf_read_wp; [nia|done|unfold sizeof_phdr; nia|]. wp_step.
  change (phdr_of _) with (phdr_nth data h i). revert Hok Hasc Hroom HQ. unfold segs, load_segs.
  rewrite seqZ_cons, seqZ_nil by lia. cbn [fmap list_fmap].
  destruct (decide (p_type (phdr_nth data h i) = PT_LOAD)) as [Hp|Hp].
  - rewrite filter_cons_True, filter_nil by done. rewrite (proj2 (Z.eqb_eq _ _) Hp). rewrite Forall_singleton.
    intros Hok [Hasc _] Hroom HQ. apply load_segment_wp with n k rs; [done| |done| |exact HQ].
    { eapply Forall_impl; [exact Hrs|]. intros x. cbn beta. lia. }
    revert Hroom. unfold load_cost. cbn [sum_list_with length]. by rewrite Nat.add_0_r.
  - rewrite filter_cons_False, filter_nil by done. rewrite (proj2 (Z.eqb_neq _ _) Hp). intros _ _ Hroom HQ.
    wp_step. apply HQ; [|done]. cbn [fmap list_fmap]. by rewrite app_nil_r.
Qed.

Lemma load_image_ext space data segs im im' sp va :
  (forall sp va, im sp va = im' sp va) -> load_image space data segs im sp va = load_image space data segs im' sp va.
Proof.
  revert im im'. induction segs as [|ph segs IH]; intros im im' Him; [apply Him|]. simpl. apply IH.
  intros. apply overlay_ext, Him.
Qed.

(** The regions before and after some segments, in the order of their addresses. *)
Lemma ascending_regions t segs rs :
  Forall (fun x => x.1 <= t) rs -> ascending t segs ->
  Forall (fun x => x.1 <= top_of t segs) (rs ++ (seg_range <$> segs)).
Proof.
  revert t rs. induction segs as [|ph segs IH]; intros t rs Hrs; [by rewrite app_nil_r|].
  cbn [ascending top_of fmap list_fmap]. intros [Ht Hasc].
  replace (rs ++ seg_range ph :: (seg_range <$> segs)) with ((rs ++ [seg_range ph]) ++ (seg_range <$> segs))
    by (by rewrite <-app_assoc).
  apply IH; [|done]. apply Forall_app. split; [|by apply Forall_singleton].
  eapply Forall_impl; [exact Hrs|]. simpl. lia.
Qed.

Lemma elf_load_wp fuel data space n k t rs s Q :
  let h := file_hdr data in let segs := load_segs data h 0 (ph_num h) in
  file_ok data -> Forall (fun x => x.1 <= t) rs -> ascending t segs -> 2 ^ 20 < Z.of_N fuel ->
  room (load_cost segs + n) (length segs + k) rs space s ->
  (forall s', room n k (rs ++ (seg_range <$> segs)) space s' ->
     (forall sp va, image s' sp va = load_image space data segs (image s) sp va) -> Q (0, Some (entry h)) s') ->
  wp (elf_load fuel data space) Q s.
Proof.
  intros h segs (Hlen & Hchk & Ho & He & Hn & Hov & Hph & Hsz & Hok) Hrs Hasc Hfuel Hroom HQ.
  change (file_hdr data) with h in Hchk, Ho, He, Hn, Hov, Hph, Hsz, Hok.
  unfold elf_load. wp_focus. apply buf_read_wp; [lia|done|lia|]. rewrite drop_0. change (ehdr_of _) with h.
  rewrite Hchk. cbn [negb]. wp_focus.
  apply (wp_for_each (fun i s' => 0 <= i /\ exists t' rs', let l := load_segs data h i (ph_num h - i) in
    room (load_cost l + n) (length l + k) rs' space s' /\ Forall (seg_ok data) l /\ ascending t' l /\
    Forall (fun x => x.1 <= t') rs' /\ rs' ++ (seg_range <$> l) = rs ++ (seg_range <$> segs) /\
    forall sp va, load_image space data l (image s') sp va = load_image space data segs (image s) sp va)).
  - done.
  - split; [done|]. exists t, rs. rewrite Z.sub_0_r. done.
  - intros i s1 Hi (_ & t1 & rs1 & Hr1 & Hok1 & Hasc1 & Hrs1 & Heq1 & Him1). rewrite load_segs_cons in Hr1, Hok1, Him1, Hasc1, Heq1 by lia.
    replace (ph_num h - i - 1) with (ph_num h - (i + 1)) in * by lia.
    set (l1 := load_segs data h i 1) in *. set (l2 := load_segs data h (i + 1) (ph_num h - (i + 1))) in *.
    apply Forall_app in Hok1 as [Hok1 Hok2]. apply ascending_app in Hasc1 as [Hasc1 Hasc2]. rewrite fmap_app, app_assoc in Heq1.
    apply load_phdr_wp with (load_cost l2 + n)%nat (length l2 + k)%nat t1 rs1; [lia|done|done|nia|nia|done|done|done|done|..].
    + revert Hr1. unfold load_cost. rewrite sum_list_with_app, length_app, !Nat.add_assoc. done.
    + intros s2 Hr2 Him2. split; [lia|]. exists (top_of t1 l1), (rs1 ++ (seg_range <$> l1)).
      split_and!; [done|done|done|by apply ascending_regions|done|].
      intros sp va. rewrite <-Him1. unfold load_image at 2. rewrite foldl_app. apply load_image_ext, Him2.
  - intros s1 (_ & t1 & rs1 & Hr1 & _ & _ & _ & Heq1 & Him1). revert Hr1 Heq1 Him1. rewrite Z.sub_diag.
    cbn [load_segs]. intros Hr1 Heq1 Him1. wp_step. apply HQ; [|intros sp va; by rewrite <-Him1].
    rewrite <-Heq1. change (load_segs data h (ph_num h) 0) with (@nil elf64_phdr). by rewrite app_nil_r.
Qed.

End proofs.

(** ** A concrete manager, for closed examples: frames are handed out in order. *)

Record flat : Type := mk_flat { fl_next : Z; fl_left : nat; fl_map : gmap (Z * Z) Z; fl_kmap : gmap Z Z; fl_knext : Z }.
#[export] Instance flat_VSpace : VSpace flat := {|
  vs_mk_map := mret 1; vs_clone_map := fun m => mret m; vs_alloc_region := fun _ _ => mret 0x4000;
  vs_map_memory := fun va f _ sp => modify (fun p => mk_flat (fl_next p) (fl_left p) (<[(sp, va `div` 4096) := f]> (fl_map p)) (fl_kmap p) (fl_knext p));
  vs_request := p ← get; guard (negb (fl_left p =? 0)%nat) NoReturn;;
    put (mk_flat (fl_next p + 4096) (pred (fl_left p)) (fl_map p) (fl_kmap p) (fl_knext p));; mret (fl_next p);
  vs_kernel_alloc := fun _ => p ← get; put (mk_flat (fl_next p) (fl_left p) (fl_map p) (fl_kmap p) (fl_knext p + 4096));; mret (fl_knext p);
  vs_kernel_map := fun v f _ => modify (fun p => mk_flat (fl_next p) (fl_left p) (fl_map p) (<[v := f]> (fl_kmap p)) (fl_knext p));
  vs_alloc_region_at := fun _ _ _ => mret (); vs_kernel_free := fun _ _ => mret ();
|}.

#[export] Instance flat_Mmu : Mmu flat := {| vs_trans p sp pg := fl_map p !! (sp, pg); vs_ktrans p v := fl_kmap p !! v |}.

Definition flat_inv (p : flat) (n : nat) : Prop :=
  (n <= fl_left p)%nat /\ (fl_next p `mod` 4096 = 0 /\ 0 <= fl_next p) /\
  forall k f, fl_map p !! k = Some f -> f < fl_next p /\ f `mod` 4096 = 0.
#[local] Obligation Tactic := idtac.
#[export] Program Instance flat_VSpaceSpec : VSpaceSpec flat := {|
  vs_inv p n _ := flat_inv p n; vs_space _ _ := True; vs_regs _ _ _ _ := True; vs_listed _ _ _ := True; vs_win p v := v < fl_knext p;
  vs_owned p f := f `mod` 4096 = 0 /\ 0 <= f < fl_next p; vs_top p := fl_next p + 4096 * Z.of_nat (fl_left p);
  vs_limit := 2 ^ 39; vs_map_cost := 0;
|}.
Next Obligation. lia. Qed.
Next Obligation. intros p n k sp pg f (_ & _ & Hm) Hf. apply (Hm _ _ Hf). Qed.
Next Obligation. intros p n k f (Hn & Hnx & Hm) (? & ? & ?). split; [done|]. cbn. lia. Qed.
Next Obligation.
  intros p n k (Hn & [Hnx Hn0] & Hm). unfold vs_request, flat_VSpace. wp_step. wp_step.
  wp_step. wp_step; [by destruct (fl_left p); [lia|]|]. do 2 wp_step. wp_step. unfold flat_inv. cbn [fl_next fl_left fl_map fl_kmap fl_knext].
  split_and!; try done; try lia.
  - dlia.
  - intros x f Hf. apply Hm in Hf. split; [lia|tauto].
  - intros sp pg Hf. apply Hm in Hf. lia.
Qed.
Next Obligation.
  intros p n k va f sp (Hn & Hnx & Hm) _ Hva _ _ Hf (_ & _ & Hown). unfold vs_map_memory, flat_VSpace. wp_step.
  unfold flat_inv. cbn [fl_next fl_left fl_map]. split_and!; try done; try lia.
  - intros x g. rewrite lookup_insert_Some. intros [[<- <-]|[_ Hg]]; [done|by apply Hm in Hg].
  - intros sp' pg. destruct (decide (sp' = sp /\ pg = va `div` 4096)) as [[-> ->]|Hne].
    + apply lookup_insert_eq.
    + apply lookup_insert_ne. intros [= Ha Hb]. apply Hne. split; congruence.
Qed.
Next Obligation. intros p n k b size sp rs r Hinv _ _ _ _ _. unfold vs_alloc_region_at, flat_VSpace. by wp_step. Qed.
Next Obligation.
  intros p n k (Hn & Hm). unfold vs_kernel_alloc, flat_VSpace. wp_step. wp_step. wp_step. wp_step. wp_step. cbn [fl_knext fl_kmap].
  split_and!; try done; try lia.  split; [cbn; lia|exact Hm].
Qed.
Next Obligation.
  intros p n k v f Hinv _ _ _. unfold vs_kernel_map, flat_VSpace. wp_step. split; [exact Hinv|]. split; [|done]. split; [apply lookup_insert_eq|].
  intros w g Hw _ Hg. cbn. by rewrite lookup_insert_ne by congruence.
Qed.
Next Obligation. intros p n k v Hinv _. unfold vs_kernel_free, flat_VSpace. by wp_step. Qed.

(** A file of two pages: the headers, and a page for one segment at 0x400000. *)
Definition demo_elf : list Z :=
  pack ehdr_layout ([0x7f; 69; 76; 70; 2] ++ replicate 11 0 ++ [2; 62; 1; 0x400000; 64; 0; 0; 64; 56; 1; 0; 0; 0]) ++
  pack phdr_layout [1; 5; 4096; 0x400000; 0; 3; 3; 4096] ++ replicate 3976 0 ++ [144; 144; 195] ++ replicate 4093 0.
Definition demo_flat : estate flat := mk_estate (mk_flat 0x10000 10 ∅ ∅ 0x9000) (fun _ => 0).

