(* ===== verification/Spaces.v ===== *)
(** * Spaces: the page tables deliver what the loader relies on

    [Elf] and [Syscall] are proved against the laws of the class [VSpaceSpec].  Here
    the memory manager of src/mem (frame bitmap, kernel page window, page tables and
    region lists) is shown to satisfy them; [SpaceMake] adds new address spaces. *)

From S2P Require Import Prelude Disk Pmm Alloc Kheap DList Paging Vfs Sched Elf.

(** ** Counting what is left *)

(** At least [n] different numbers satisfy [P]. *)
Definition many (P : Z -> Prop) (n : nat) : Prop := exists l, NoDup l /\ length l = n /\ Forall P l.

Lemma many_take P P' q n : many P (S n) -> (forall x, P x -> x <> q -> P' x) -> many P' n.
Proof.
  intros (l & Hnd & Hl & HP) HPP. destruct (decide (q ∈ l)) as [Hin|Hin].
  - apply elem_of_Permutation in Hin as (l' & Hp). rewrite Hp in Hnd, HP. apply NoDup_cons in Hnd as [Hq Hnd].
    apply Forall_cons in HP as [_ HP]. exists l'. split; [done|]. split; [rewrite Hp in Hl; simpl in Hl; lia|].
    rewrite Forall_forall in HP |- *. intros x Hx. apply HPP; [auto|]. by intros ->.
  - destruct l as [|y l]; [done|]. apply NoDup_cons in Hnd as [_ Hnd]. apply Forall_cons in HP as [_ HP].
    exists l. split; [done|]. split; [simpl in Hl; lia|]. rewrite Forall_forall in HP |- *.
    intros x Hx. apply HPP; [auto|]. intros ->. apply Hin. by right.
Qed.

Lemma many_mono P P' n : many P n -> (forall x, P x -> P' x) -> many P' n.
Proof. intros (l & Hnd & Hl & HP) HPP. exists l. split_and!; [done|done|]. eapply Forall_impl; [exact HP|auto]. Qed.

Lemma many_drop P n : many P (S n) -> many P n.
Proof. intros Hm. by apply (many_take P P 0 n Hm). Qed.

Lemma many_some P n : many P (S n) -> exists x, P x.
Proof. intros ([|x l] & _ & Hl & HP); [done|]. apply Forall_cons in HP as [Hx _]. by exists x. Qed.

Lemma many_seq P (n : nat) : (forall x, 0 <= x < Z.of_nat n -> P x) -> many P n.
Proof.
  intros HP. exists (seqZ 0 (Z.of_nat n)). split_and!; [apply NoDup_seqZ|rewrite length_seqZ; lia|].
  apply Forall_forall. intros x Hx%elem_of_seqZ. apply HP. lia.
Qed.

(** ** Addresses and entries *)

Lemma idx_mod v k : Z.shiftr v k .& 0x1ff = Z.shiftr v k `mod` 512.
Proof. change 0x1ff with (Z.ones 9). by rewrite Z.land_ones. Qed.

(** Below 512 GiB the three indices determine the page. *)
Lemma page_number v : 0 <= v < 2 ^ 39 -> v `div` 4096 = (PDP_IDX v * 512 + PD_IDX v) * 512 + PT_IDX v.
Proof.
  intros Hv. unfold PDP_IDX, PD_IDX, PT_IDX. rewrite !idx_mod, !Z.shiftr_div_pow2 by lia.
  change (2 ^ 30) with (4096 * 512 * 512). change (2 ^ 21) with (4096 * 512). change (2 ^ 12) with 4096.
  rewrite <-!Z.div_div by lia. set (p := v `div` 4096). assert (0 <= p < 2 ^ 27) by (unfold p; dlia). clearbody p. dlia.
Qed.

Lemma page_idx_inj pg v : 0 <= pg < 2 ^ 27 -> 0 <= v < 2 ^ 39 -> page_idx (pg * 4096) = page_idx v -> pg = v `div` 4096.
Proof.
  intros Hp Hv. unfold page_idx. intros [= _ H1 H2 H3]. rewrite (page_number v Hv), <-H1, <-H2, <-H3, <-page_number by lia.
  by rewrite Z.div_mul.
Qed.

Lemma frame_aligned e : (e .& PAGE_FRAME) `mod` 4096 = 0.
Proof.
  change 4096 with (2 ^ 12). rewrite <-Z.land_ones, <-Z.land_assoc by lia.
  change (PAGE_FRAME .& Z.ones 12) with 0. apply Z.land_0_r.
Qed.

Lemma pte_at_idx {H} (s : pstate H) m v v' : page_idx v = page_idx v' -> pte_at s m v = pte_at s m v'.
Proof. unfold page_idx, pte_at. intros [= -> -> -> ->]. done. Qed.

(** ** The invariant *)

Implicit Types s : pstate kheap.

Section spaces.
Context (lay : layout).

Definition page_left s (q : Z) : Prop := 0 <= q < WINDOW /\ taken s q = false.
Definition frame_left s (k : Z) : Prop := 0 <= k < bitmapsize (phys s) * 8 /\ used (phys s) k = false.

(** The records of regions and of address spaces are heap blocks that are set aside from
    the lists. *)
Definition regions_ok s (b : Z) : Prop :=
  exists R, dl_ok (H0 := ka_framed R) (lm s) b /\ (forall g, is_Some (mregions s !! g) -> g ∈ R.*1) /\
    forall a, is_Some (maps s !! a) -> a ∈ R.*1.

Definition region_cost : Z := ka_cost (H := kheap) NODE_SIZE + ka_cost (H := kheap) 16.

(** Every frame a map leads to has been handed out. *)
Definition frames_owned s : Prop :=
  forall a m v, maps s !! a = Some m -> Z.testbit (pte_at s m v) 0 = true -> owned s (phys_of s m v).

(** The upper levels of a map lead to its directories. *)
Definition top_ok (m : page_map) : Prop := forall i, 0 <= i < 512 -> top_walk m i = true.

Record space_inv s (n k : nat) : Prop := {
  si_ok : pg_ok lay s;
  si_pages : many (page_left s) n;
  si_frames : many (frame_left s) n;
  si_regions : regions_ok s (Z.of_nat k * region_cost);
  si_owned : frames_owned s;
  si_top : forall a m, maps s !! a = Some m -> top_ok m;
}.

Definition reg_range (x : mregion) : Z * Z := (base x, end_ x).

Definition space_regs s (sp : Z) (rs : list (Z * Z)) (r : nat) : Prop :=
  exists m l mr, maps s !! sp = Some m /\ list_rep (lm s) (regions m) l (Z.of_nat (length l)) /\
    regions_at s l mr /\ rs = reg_range <$> mr /\ Z.of_nat (length l + r) < 2 ^ 32 - 1.

Definition space_listed s (sp : Z) (rs : list (Z * Z)) : Prop :=
  exists m l mr c, maps s !! sp = Some m /\ list_rep (lm s) (regions m) l c /\ regions_at s l mr /\ rs = reg_range <$> mr.

(** A page of the window that was handed out for something other than a page table. *)
Definition space_win s (v : Z) : Prop :=
  exists q, 0 <= q < WINDOW /\ v = window_addr q /\ taken s q = true /\ ~ table_page s v.

Lemma top_walk_same m m' : same_top m m' -> forall i, top_walk m' i = top_walk m i.
Proof. intros (E1 & _ & E2 & E3 & E4 & _) i. unfold top_walk. by rewrite E1, E2, E3, E4. Qed.

(** The processor's walk, in terms of the entries. *)
Lemma trans_eq s sp pg :
  (forall a m, maps s !! a = Some m -> top_ok m) ->
  space_trans s sp pg =
    (m ← maps s !! sp;
     if decide (0 <= pg < 2 ^ 27 /\ Z.testbit (pte_at s m (pg * 4096)) 0 = true)
     then Some (phys_of s m (pg * 4096)) else None)%stdpp.
Proof.
  intros Htop. unfold space_trans. destruct (maps s !! sp) as [m|] eqn:Hm; [|done]. cbn [mbind option_bind].
  destruct (decide (0 <= pg < 2 ^ 27)) as [Hpg|Hpg].
  2: { rewrite decide_False by tauto. destruct (Z.leb_spec 0 pg), (Z.ltb_spec pg (2 ^ 27)); try done. lia. }
  rewrite (proj2 (Z.leb_le _ _)), (proj2 (Z.ltb_lt _ _)) by lia. cbn [andb]. unfold phys_of, pte_at.
  rewrite PML4_IDX_low by lia. cbn [Z.eqb andb]. rewrite (Htop _ _ Hm) by apply idx_range. cbn [andb]. fold (dir_frame m (PDP_IDX (pg * 4096), PD_IDX (pg * 4096))).
  destruct (Z.testbit (ent (page_dirs m) _) 0) eqn:Hbit; cbn [andb].
  - set (e := ent (default _ _) _). case_decide as Hd; [by destruct Hd as [_ ->]|].
    destruct (Z.testbit e 0) eqn:He; [by destruct Hd|done].
  - rewrite Z.bits_0. by rewrite decide_False by (intros [_ ?]; done).
Qed.

(** ** The laws *)

(** A step that leaves the maps and tables alone leaves the walk alone. *)
Lemma trans_same s s' :
  maps s' = maps s -> tabs s' = tabs s -> forall sp pg, space_trans s' sp pg = space_trans s sp pg.
Proof. intros Hm Ht sp pg. unfold space_trans. by rewrite Hm, Ht. Qed.

Lemma frames_owned_same s s' :
  maps s' = maps s -> tabs s' = tabs s -> (forall f, owned s f -> owned s' f) -> frames_owned s -> frames_owned s'.
Proof.
  intros Hm Ht Ho Hf a m v. rewrite Hm. unfold phys_of, pte_at. rewrite Ht. intros Ha Hb. by apply Ho, (Hf a m v).
Qed.

Lemma space_regs_same s s' :
  maps s' = maps s -> lm s' = lm s -> mregions s' = mregions s ->
  forall sp rs r, space_regs s sp rs r -> space_regs s' sp rs r.
Proof.
  intros Hm Hl Hr sp rs r (m & l & mr & H1 & H2 & H3 & H4 & H5). exists m, l, mr.
  rewrite Hm, Hl. unfold regions_at. rewrite Hr. done.
Qed.

Lemma space_listed_same s s' :
  maps s' = maps s -> lm s' = lm s -> mregions s' = mregions s ->
  forall sp rs, space_listed s sp rs -> space_listed s' sp rs.
Proof.
  intros Hm Hl Hr sp rs (m & l & mr & c & H1 & H2 & H3 & H4). exists m, l, mr, c.
  rewrite Hm, Hl. unfold regions_at. rewrite Hr. done.
Qed.

Lemma space_win_same s s' :
  (forall q, 0 <= q < WINDOW -> taken s q = true -> taken s' q = true) -> maps s' = maps s ->
  forall v, space_win s v -> space_win s' v.
Proof. intros Ht Em v (q & Hq & -> & Htk & Hn). exists q. unfold table_page. rewrite Em. auto. Qed.

(** A frame handed out by the bitmap. *)
Lemma frames_has_frame s n : many (frame_left s) (S n) -> has_frame s.
Proof. intros (x & Hx)%many_some. by exists x. Qed.

Lemma request_owned s s' p :
  request_post (phys s) p (phys s') -> many (frame_left s) 1 ->
  (forall f, owned s f -> owned s' f) /\ owned s' p /\ ~ owned s p /\
  forall n, many (frame_left s) (S n) -> many (frame_left s') n.
Proof.
  intros Hreq Hleft. destruct (request_frame s s' p Hreq (frames_has_frame _ _ Hleft)) as (Hmono & Hop & Hnop & Hsz & Hu).
  split_and!; try done. intros n Hm. apply (many_take _ _ (p `div` 4096) n Hm). intros x [Hx Hux] Hne. split; [by rewrite Hsz|].
  by rewrite Hu.
Qed.

Lemma many_one P n : many P (S n) -> many P 1.
Proof. induction n as [|n IH]; [done|]. intros Hm. by apply IH, many_drop. Qed.

Lemma space_request_wp s n k :
  space_inv s (S n) k -> wp (with_phys pmm_request) (fun f s' => space_inv s' n k /\ f `mod` 4096 = 0 /\
    (forall sp pg, space_trans s sp pg <> Some f) /\ ~ owned s f /\ owned s' f /\ exists p, s' = upd_phys p s /\
    bitmapsize p = bitmapsize (phys s) /\ forall f, owned s f -> owned s' f) s.
Proof.
  intros [(Hw & Hp & Hm) Hpg Hfr Hrg Hown Htop]. unfold with_phys.
  destruct (wp_Ok _ _ _ (pmm_request_wp (fun p ph => request_post (phys s) p ph) _ Hp ltac:(done)))
    as (f & ph & Hr & Hreq). unfold wp. rewrite Hr.
  destruct (request_owned s (upd_phys ph s) f Hreq (many_one _ _ Hfr)) as (Hmono & Hof & Hnof & Hleft).
  destruct (request_frame s (upd_phys ph s) f Hreq (frames_has_frame _ _ Hfr)) as (_ & _ & _ & Hsz & _).
  split_and!; [|by destruct Hof|intros sp pg Htr|done|done|by exists ph].
  - split; [split_and!; [by destruct Hw; split| |by apply (maps_ok_keep lay s)]|by apply many_drop|by apply Hleft|done| |exact Htop].
    + destruct Hreq as [(k0 & _ & _ & _ & _ & _ & _ & Hwf)|(_ & -> & _)]; auto.
    + by apply (frames_owned_same s).
  - rewrite trans_eq in Htr by done. destruct (maps s !! sp) as [m|] eqn:Ha; [|done]. cbn [mbind option_bind] in Htr.
    destruct (decide _) as [[_ Hb]|]; [|done]. injection Htr as <-. apply Hnof. by eapply Hown.
Qed.

(** Taking a page of the window, for a table or for the kernel. *)
Lemma pages_taken s s' q n :
  (forall x, 0 <= x < WINDOW -> taken s' x = bool_decide (x = q) || taken s x) ->
  many (page_left s) (S n) -> many (page_left s') n.
Proof.
  intros Ht Hm. apply (many_take _ _ q n Hm). intros x [Hx Hf] Hne. split; [done|].
  rewrite Ht, Hf, bool_decide_false by done. done.
Qed.

Lemma pages_has_page s n : many (page_left s) (S n) -> has_page s.
Proof. intros (q & Hq)%many_some. by exists q. Qed.

Lemma map_step_left s s' n :
  map_step lay s s' -> many (page_left s) (S n) -> many (frame_left s) (S n) ->
  many (page_left s') n /\ many (frame_left s') n /\ (forall f, owned s f -> owned s' f) /\
  lm s' = lm s /\ mregions s' = mregions s /\ bitmapsize (phys s') = bitmapsize (phys s) /\
  (forall x, 0 <= x < WINDOW -> taken s x = true -> taken s' x = true).
Proof.
  intros [[(Hk & Hp & Hl & Hr)|(q & p & [Hq Hf Ht _ _ Hreq _ _ Hl Hr])] _] Hpg Hfr.
  - apply many_drop in Hpg, Hfr. unfold page_left, frame_left, owned, taken. rewrite Hk, Hp. done.
  - destruct (request_owned s s' p Hreq (many_one _ _ Hfr)) as (Hmono & _ & _ & Hleft).
    destruct (request_frame s s' p Hreq (frames_has_frame _ _ Hfr)) as (_ & _ & _ & Hsz & _).
    split_and!; [by eapply pages_taken|by apply Hleft|done|done|done|done|].
    intros x Hx Htx. rewrite Ht, Htx by done. apply orb_true_r.
Qed.

Lemma space_map_wp s n k va f sp :
  space_inv s (S n) k -> is_Some (maps s !! sp) -> va `mod` 4096 = 0 -> 0 <= va -> va + 4096 <= 2 ^ 39 -> owned s f ->
  wp (page_map_memory lay va f 1 sp) (fun _ s' => space_inv s' n k /\
    (forall sp' pg, space_trans s' sp' pg =
       if decide (sp' = sp /\ pg = va `div` 4096) then Some f else space_trans s sp' pg) /\
    (forall sp, is_Some (maps s !! sp) -> is_Some (maps s' !! sp)) /\ (forall v, space_win s v -> space_win s' v) /\
    (forall sp rs k, space_regs s sp rs k -> space_regs s' sp rs k) /\
    (forall sp rs, space_listed s sp rs -> space_listed s' sp rs)) s.
Proof.
  intros [Hok Hpg Hfr Hrg Hown Htop] [m Ha] Hva Hva0 Hlim Hof. pose proof Hof as (Hf4 & Hfr0 & _).
  pose proof Hok as (_ & [Hsz _] & Hmo). unfold BUFFER_SIZE in Hsz.
  apply (page_map_memory1_wp lay s va f sp m); [done|by eapply pages_has_page|by eapply frames_has_frame|done|lia|clear - Hsz Hfr0 Hf4; dlia|done|].
  intros s' m' Hok' Ha' Hbit Hph [Hnone Htr] Hstep.
  destruct (map_step_left s s' n Hstep Hpg Hfr) as (Hpg' & Hfr' & Hmono & Hlm & Hmr & _ & Htk).
  assert (forall b mb', maps s' !! b = Some mb' -> top_ok mb') as Htop'.
  { intros b mb' Hb i Hi. destruct (maps s !! b) as [mb|] eqn:Hb0; [|rewrite Hnone in Hb; done].
    destruct (Htr b mb Hb0) as (mb2 & Hb2 & Hst & _). assert (mb2 = mb') as -> by congruence.
    rewrite (top_walk_same mb mb' Hst). by apply (Htop b mb). }
  assert (forall b mb mb' v, maps s !! b = Some mb -> maps s' !! b = Some mb' ->
    (b = sp -> page_idx v <> page_idx va) -> pte_at s' mb' v = pte_at s mb v) as Hsame.
  { intros b mb mb' v Hb Hb' Hne. destruct (Htr b mb Hb) as (mb2 & Hb2 & _ & Heq).
    assert (mb2 = mb') as -> by congruence. by apply Heq. }
  split_and!.
  - split; [done|done|done| | |exact Htop'].
    { destruct Hrg as (R & Hdl & HR & HM). exists R. rewrite Hlm, Hmr. split_and!; [done|done|].
      intros b Hb. apply HM. destruct (maps s !! b) as [mb|] eqn:Hb0; [by eexists|]. by rewrite Hnone in Hb. }
    intros b mb' v Hb Hbv.
    destruct (maps s !! b) as [mb|] eqn:Hb0; [|rewrite Hnone in Hb; done].
    destruct (decide (b = sp /\ page_idx v = page_idx va)) as [[-> Hv]|Hne].
    + assert (mb' = m') as -> by congruence. unfold phys_of. rewrite (pte_at_idx s' m' v va Hv). fold (phys_of s' m' va).
      rewrite Hph. by apply Hmono.
    + assert (pte_at s' mb' v = pte_at s mb v) as Heq by (apply (Hsame b); [done|done|tauto]).
      unfold phys_of. rewrite Heq in Hbv |- *. by apply Hmono, (Hown b mb v).
  - intros sp' pg. rewrite (trans_eq s' sp' pg Htop'), (trans_eq s sp' pg Htop).
    destruct (decide (sp' = sp /\ pg = va `div` 4096)) as [[-> ->]|Hne].
    + rewrite Ha'. cbn [mbind option_bind]. replace (va `div` 4096 * 4096) with va by (clear - Hva; dlia).
      rewrite decide_True by (split; [clear - Hva0 Hlim; dlia|done]). by rewrite Hph.
    + destruct (maps s !! sp') as [mb|] eqn:Hb; [|by rewrite Hnone].
      destruct (Htr sp' mb Hb) as (mb' & Hb' & _ & Heq). rewrite Hb'. cbn [mbind option_bind].
      destruct (decide (0 <= pg < 2 ^ 27)) as [Hp|Hp]; [|by rewrite !decide_False by tauto].
      unfold phys_of. rewrite Heq; [done|]. intros -> Hv. apply Hne. split; [done|].
      apply page_idx_inj in Hv; [done|done|lia].
  - intros b [mb Hb]. destruct (Htr b mb Hb) as (mb' & Hb' & _). by exists mb'.
  - intros v (q & Hq & -> & Htq & Hn). exists q. split_and!; [lia|lia|done|by apply Htk|by apply (proj2 (proj2 Hstep))].
  - intros b t r (mb & l & rs & Hb & H2 & H3 & H4 & H5). destruct (Htr b mb Hb) as (mb' & Hb' & Hr & _).
    destruct Hr as (_ & _ & _ & _ & _ & Hr). exists mb', l, rs. rewrite Hr, Hlm. unfold regions_at. rewrite Hmr. done.
  - intros b t (mb & l & rs & c & Hb & H2 & H3 & H4). destruct (Htr b mb Hb) as (mb' & Hb' & Hr & _).
    destruct Hr as (_ & _ & _ & _ & _ & Hr). exists mb', l, rs, c. rewrite Hr, Hlm. unfold regions_at. rewrite Hmr. done.
Qed.

(** Marking free pages keeps the mappings of the window. *)
Lemma kframe_marked s s' q n x f :
  window_ok lay s -> window_ok lay s' -> marked lay s q n s' -> (forall y, q <= y < q + n -> taken s y = false) ->
  0 <= x < WINDOW -> kframe lay s (window_addr x) = Some f -> kframe lay s' (window_addr x) = Some f.
Proof.
  intros Hw Hw' Hmk Hfree Hx Hf. pose proof (kframe_taken _ _ _ _ Hw Hx Hf) as Hxt.
  assert (x < q \/ q + n <= x) as Hout.
  { destruct (decide (q <= x < q + n)) as [Hin|]; [|lia]. rewrite Hfree in Hxt by done. done. }
  rewrite kframe_window in Hf |- * by done. destruct (entered s (x `div` 512)) eqn:Hxe; [|done].
  rewrite (mk_entered _ _ _ _ _ Hmk _ Hxe), (mk_taken _ _ _ _ _ Hmk), (mk_kept _ _ _ _ _ Hmk) by done.
  rewrite Hxt, orb_true_r. by rewrite Hxt in Hf.
Qed.

(** The kernel's own pages. *)
Lemma space_kalloc_wp s n k :
  space_inv s (S n) k -> wp (page_kernel_alloc4k lay 1) (fun v s' => space_inv s' n k /\ (space_win s' v /\ ~ space_win s v /\
      forall w f, space_win s w -> kframe lay s w = Some f -> kframe lay s' w = Some f) /\
    (forall w, space_win s w -> space_win s' w) /\ maps s' = maps s /\ tabs s' = tabs s /\ phys s' = phys s /\
    lm s' = lm s /\ mregions s' = mregions s) s.
Proof.
  intros [(Hw & Hp & Hm) Hpg Hfr Hrg Hown Htop]. apply page_kernel_alloc1_wp; [done|by eapply pages_has_page|].
  intros addr s' (q & -> & Hq & Hqw & Hfree & Hmk). pose proof (marked_window_ok _ _ _ _ _ Hw Hmk) as Hw'.
  assert (forall x, 0 <= x < WINDOW -> taken s' x = bool_decide (x = q) || taken s x) as Ht.
  { intros x Hx. rewrite (mk_taken _ _ _ _ _ Hmk) by done. f_equal. apply bool_decide_ext. lia. }
  assert (forall x, 0 <= x < WINDOW -> taken s x = true -> taken s' x = true) as Hmono.
  { intros x Hx Htx. rewrite Ht, Htx by done. apply orb_true_r. }
  assert (~ table_page s (window_addr q)) as Hnone.
  { intros Htp. apply (table_page_taken lay) in Htp; [|done|done|lia]. rewrite Hfree in Htp by lia. done. }
  pose proof (pages_taken s s' q n Ht Hpg) as Hpg'.
  destruct (mk_rest _ _ _ _ _ Hmk) as (d & t & Hs').
  assert (maps s' = maps s /\ tabs s' = tabs s /\ phys s' = phys s /\ lm s' = lm s /\ mregions s' = mregions s)
    as (Em & Et & Ep & El & Er) by (by subst s').
  split_and!; try done.
  - split; [split_and!; [done|by rewrite Ep|]|done| | | |by rewrite Em].
    + apply (maps_ok_keep lay s); try done; [unfold owned; by rewrite Ep|].
      intros x f Hx _ Hf. exact (kframe_marked s s' q 1 x f Hw Hw' Hmk Hfree Hx Hf).
    + apply many_drop in Hfr. unfold frame_left. by rewrite Ep.
    + unfold regions_ok. by rewrite El, Er, Em.
    + apply (frames_owned_same s); try done. unfold owned. by rewrite Ep.
  - exists q. split_and!; [lia|lia|done| |unfold table_page; by rewrite Em]. rewrite Ht by lia. by rewrite bool_decide_true by done.
  - intros (q' & _ & Heq%window_addr_inj & Htq & _). subst q'. rewrite Hfree in Htq by lia. done.
  - intros w f (x & Hx & -> & _) Hf. exact (kframe_marked s s' q 1 x f Hw Hw' Hmk Hfree Hx Hf).
  - by apply space_win_same.
Qed.

(** Changing one entry of the window that no table is behind. *)
Lemma space_inv_window s t n k q :
  let s' := upd_tables (fun _ => t) s in
  space_inv s n k -> 0 <= q < WINDOW -> taken s q = true -> ~ table_page s (window_addr q) ->
  (forall x, x <> q -> ent t x = ent (kheap_tables s) x) -> space_inv s' n k.
Proof.
  intros s' [(Hw & Hp & Hm) Hpg Hfr Hrg Hown Htop] Hq Htq Hn Ht.
  assert (forall x, x <> q -> taken s' x = taken s x) as Htk by (intros x Hx; unfold taken, s'; cbn [kheap_tables upd_tables]; by rewrite Ht).
  assert (forall x, 0 <= x < WINDOW -> taken s x = false -> taken s' x = false) as Hf.
  { intros x Hx Hfx. destruct (decide (x = q)) as [->|Hne]; [congruence|]. by rewrite Htk. }
  assert (window_ok lay s') as Hw'.
  { split; [|exact (wo_4k _ _ Hw)|exact (wo_frame _ _ Hw)]. intros x Hx He. by apply Hf, (wo_free _ _ Hw). }
  split; try done.
  - split_and!; [done|done|]. apply (maps_ok_keep lay s); try done. intros x f Hx Htp.
    assert (x <> q) as Hne by (by intros ->). rewrite !kframe_window by done. rewrite Htk by done.
    change (entered s' (x `div` 512)) with (entered s (x `div` 512)). unfold s'. cbn [kheap_tables upd_tables]. by rewrite Ht.
  - apply (many_mono _ _ _ Hpg). intros x [Hx Hfx]. split; [done|]. by apply Hf.
Qed.

Lemma space_kmap_wp s n k v f :
  space_inv s n k -> space_win s v -> owned s f -> wp (page_kernel_map_memory v f 1) (fun _ s' => space_inv s' n k /\
    kframe lay s' v = Some f /\ (forall w g, w <> v -> space_win s w -> kframe lay s w = Some g -> kframe lay s' w = Some g) /\
    exists t, s' = upd_tables (fun _ => t) s /\ forall w, space_win s w -> space_win s' w) s.
Proof.
  intros Hinv (q & Hq & -> & Htk & Hn) Hof. apply page_kernel_map1_wp; [done|]. intros e He Hef.
  change (upd_tables (<[q := e]>) s) with (upd_tables (fun _ => <[q := e]> (kheap_tables s)) s).
  set (s' := upd_tables _ s). assert (forall x, taken s' x = taken s x) as Ht.
  { intros x. unfold taken at 1, s'. cbn [kheap_tables upd_tables]. rewrite ent_insert.
    case_decide as Hx; [by rewrite <-Hx, He, Htk|done]. }
  assert (space_inv s' n k) as Hinv'.
  { apply (space_inv_window s _ n k q); try done. intros x Hx. rewrite ent_insert. by rewrite decide_False by congruence. }
  split; [exact Hinv'|]. pose proof Hinv as [(Hw & Hp & _) _ _ _ _ _]. destruct (si_ok _ _ _ Hinv') as (Hw' & _ & _). split.
  - rewrite kframe_window, Ht, Htk by done. change (entered s' (q `div` 512)) with (entered s (q `div` 512)).
    destruct (entered s (q `div` 512)) eqn:Hent; [|rewrite (wo_free _ _ Hw) in Htk; done].
    unfold s'. cbn [kheap_tables upd_tables andb]. rewrite ent_insert, decide_True by done.
    destruct (owned_range s f Hp Hof). by rewrite Hef.
  - split.
    { intros w g Hne (x & Hx & -> & _). rewrite !kframe_window by done. rewrite Ht.
      change (entered s' (x `div` 512)) with (entered s (x `div` 512)). unfold s'. cbn [kheap_tables upd_tables].
      rewrite ent_insert, decide_False by congruence. done. }
    eexists. split; [done|]. apply space_win_same; [intros x Hx; fold s'; by rewrite Ht|done].
Qed.

Lemma space_kfree_wp s n k v :
  space_inv s n k -> space_win s v -> wp (page_kernel_free4k v 1) (fun _ s' => space_inv s' n k /\
    exists t, s' = upd_tables (fun _ => t) s) s.
Proof.
  intros Hinv (q & Hq & -> & Htk & Hn). apply page_kernel_free4k_wp; [lia|lia|lia|]. intros t Ht.
  split; [|by exists t]. apply (space_inv_window s _ n k q); try done. intros x Hx. rewrite Ht. by rewrite bool_decide_false by lia.
Qed.

(** A new region record is none of the old ones. *)
Lemma region_record_wp s bud b e (Q : Z -> pstate kheap -> Prop) :
  regions_ok s (bud + ka_cost (H := kheap) 16) -> 0 <= bud ->
  (forall g h, let s' := upd_mregions (<[g := mk_mregion b e]>) (upd_lm (mk_lmem h (nodes (lm s)) (lists (lm s))) s) in
     regions_ok s' bud -> mregions s !! g = None -> Q g s') ->
  wp (new_region b e) Q s.
Proof.
  intros (R & (L & Hi & Hnd & HN & HL & Hx) & HR & HM) Hb HQ. unfold new_region. wp_focus. apply wp_with_lm, wp_with_heap.
  eapply wp_mono; [apply (ka_malloc_wp (lheap (lm s)) (L ++ R)); [exact Hi|lia|done]|].
  intros g h (k & _ & _ & _ & Hsep & Hi'). wp_step. wp_step. wp_step. apply Forall_app in Hsep as [HsL HsR].
  assert (forall l, Forall (separated (g, k)) l -> g ∉ l.*1) as Hout.
  { intros l Hl [[a len] [-> Hin]]%list_elem_of_fmap. rewrite Forall_forall in Hl. by destruct (Hl _ Hin). }
  apply HQ.
  - exists ((g, k) :: R). split.
    + exists L. split_and!; [|done..]. cbn [lheap lm upd_mregions upd_lm ka_inv ka_framed].
      eapply ka_perm; [|exact Hi']. by rewrite Permutation_middle.
    + split; [|intros a Ha; right; by apply HM]. intros g'. cbn [mregions upd_mregions upd_lm]. rewrite lookup_insert.
      case_decide as Hg; [intros _; subst g'; by left|]. intros Hs. right. by apply HR.
  - apply eq_None_not_Some. intros Hs. by apply (Hout R HsR), HR.
Qed.

(** A region behind all others is appended to the list. *)
Lemma space_alloc_at_wp s n k b size sp rs r :
  space_inv s n (S k) -> space_regs s sp rs (S r) -> 0 <= b -> Forall (fun x => x.1 <= b) rs -> 0 < size ->
  b + size <= 2 ^ 39 ->
  wp (space_alloc_region_at b size sp) (fun _ s' => space_inv s' n k /\ space_regs s' sp (rs ++ [(b, b + size)]) r /\
    maps s' = maps s /\ tabs s' = tabs s /\ phys s' = phys s /\ kheap_tables s' = kheap_tables s) s.
Proof.
  intros [(Hw & Hp & Hm) Hpg Hfr Hrg Hown Htop] (m & l & mr & Ha & Hrep & Hregs & -> & Hlen) Hb0 Hbelow Hsz Hlim.
  pose proof (ka_cost_nonneg (H := kheap) NODE_SIZE ltac:(unfold NODE_SIZE; lia)) as Hc1.
  pose proof (ka_cost_nonneg (H := kheap) 16 ltac:(lia)) as Hc2.
  set (bud := Z.of_nat k * region_cost).
  assert (0 <= bud) as Hbud by (unfold bud, region_cost; nia).
  unfold space_alloc_region_at. rewrite uN_small by lia. wp_focus.
  apply (region_record_wp s (bud + ka_cost (H := kheap) NODE_SIZE)); [|lia|].
  { replace (bud + ka_cost NODE_SIZE + ka_cost 16) with (Z.of_nat (S k) * region_cost) by (unfold bud, region_cost; lia). done. }
  intros g h s1 (R & Hdl & HR & HM) Hg. wp_focus. eapply wp_map_get; [exact Ha|]. wp_focus.
  assert (list_rep (lm s1) (regions m) l (Z.of_nat (length l))) as Hrep1 by (by apply (list_rep_same (lm s))).
  assert (regions_at s1 l mr) as Hregs1.
  { eapply Forall2_impl; [exact Hregs|]. intros x y Hxy. cbn [s1 mregions upd_mregions].
    rewrite lookup_insert_ne; [done|]. cbn [mregions upd_lm]. congruence. }
  eapply (regions_foreach_wp s1 (regions m) l _ mr (fun _ _ => True)); [exact Hrep1|exact Hregs1|lia|done| |].
  - intros i x [] Hx _. assert (base x <= b) as Hbx.
    { rewrite Forall_fmap, Forall_forall in Hbelow. apply (Hbelow x). by eapply list_elem_of_lookup_2. }
    rewrite (proj2 (Z.leb_gt _ _)) by lia. by apply wp_ret.
  - intros [] _. wp_focus. apply wp_with_lm.
    eapply wp_mono; [apply (list_push_back_wp (H := kheap) (H0 := ka_framed R) (lm s1) bud (regions m) l (Z.of_nat (length l)) g); [exact Hdl|done|exact Hrep1|lia]|].
    intros p lm' (Hok' & Hp0 & _ & Hrep' & _). wp_step.
    assert (regions_ok (upd_lm lm' s1) bud) as Hreg' by (by exists R).
    split_and!; [split|..]; try done.
    + split_and!; [by destruct Hw; split|done|by apply (maps_ok_keep lay s)].
    + exists m, (l ++ [(p, g)]), (mr ++ [mk_mregion b (b + size)]). rewrite length_app. cbn [length].
      split_and!; [done|by replace (Z.of_nat (length l + 1)) with (Z.of_nat (length l) + 1) by lia| |by rewrite fmap_app|lia].
      apply Forall2_app; [exact Hregs1|]. constructor; [|constructor]. apply lookup_insert_eq.
Qed.

End spaces.

(** ** The instance *)

#[local] Obligation Tactic := idtac.
#[export] Program Instance paging_VSpaceSpec (lay : layout) : @VSpaceSpec (pstate kheap) (paging_VSpace lay) (paging_Mmu lay) := {|
  vs_inv := space_inv lay; vs_space s sp := is_Some (maps s !! sp); vs_regs := space_regs; vs_listed := space_listed;
  vs_win := space_win; vs_owned := owned; vs_top s := bitmapsize (phys s) * 8 * 4096; vs_limit := 2 ^ 39; vs_map_cost := 1;
|}.
Next Obligation. lia. Qed.
Next Obligation.
  intros lay s n k sp pg f Hinv. cbn [vs_trans paging_Mmu]. rewrite trans_eq by apply Hinv. destruct (maps s !! sp) as [m|]; [|done].
  cbn [mbind option_bind]. case_decide; [|done]. intros [= <-]. apply frame_aligned.
Qed.
Next Obligation.
  intros lay s n k f Hinv (Hal & Hr & _). split; [done|]. dlia.
Qed.
Next Obligation.
  intros lay s n k Hinv. eapply wp_mono; [by apply space_request_wp|].
  intros f s' (Hinv' & Hf & Hfresh & Hnown & Hown & p & -> & Hsz & Hmono). split_and!; try done. cbn [phys upd_phys]. by rewrite Hsz.
Qed.
Next Obligation. intros lay s n k va f sp Hinv Hsp Hva Hva0 Hlim Hf Hown. by apply space_map_wp. Qed.
Next Obligation.
  intros lay s n k b size sp rs r Hinv Hregs Hb Ht Hsz Hlim. eapply wp_mono; [by eapply space_alloc_at_wp|].
  intros [] s' (Hinv' & Hregs' & Em & Et & Ep & Ek). split_and!; [done|done|by apply trans_same|by rewrite Em| | |].
  - apply space_win_same; [|done]. unfold taken. by rewrite Ek.
  - unfold owned. by rewrite Ep.
  - by rewrite Ep.
Qed.
Next Obligation.
  intros lay s n k Hinv. eapply wp_mono; [by apply space_kalloc_wp|].
  intros v s' (Hinv' & (Hw & Hnw & Hkk) & Hws & Em & Et & Ep & El & Er).
  split_and!; [done|done|done|intros w f _; by apply Hkk|by apply trans_same|by rewrite Em|done|unfold owned; by rewrite Ep|by rewrite Ep|
    by apply space_regs_same|by apply space_listed_same].
Qed.
Next Obligation.
  intros lay s n k v f Hinv Hw _ Hown. eapply wp_mono; [by apply space_kmap_wp|].
  intros [] s' (Hinv' & Hk & Hkk & t & -> & Hws). split_and!; done.
Qed.
Next Obligation.
  intros lay s n k v Hinv Hw. eapply wp_mono; [by apply space_kfree_wp|].
  intros [] s' (Hinv' & t & ->). split_and!; done.
Qed.
