(* ===== verification/SpaceMake.v ===== *)
(** * SpaceMake: new address spaces, and programs loaded on the page tables

    The memory manager of src/mem satisfies the laws of [VSpaceMake] too: page_mk_map
    makes an empty address space, and space_alloc_region finds room for a region.  With
    that, loading a program is correct on the page tables themselves. *)

From S2P Require Import Prelude Disk Pmm Alloc Kheap DList Paging Vfs Sched Elf Spaces.

Implicit Types s : pstate kheap.

Section make.
Context (lay : layout).

(** ** Steps that leave the address spaces alone *)

Record quiet s s' : Prop := {
  qu_maps : maps s' = maps s;
  qu_tabs : tabs s' = tabs s;
  qu_regs : mregions s' = mregions s;
  qu_nodes : nodes (lm s') = nodes (lm s);
  qu_lists : lists (lm s') = lists (lm s);
  qu_owned : forall f, owned s f -> owned s' f;
  qu_win : forall v, space_win s v -> space_win s' v;
  qu_top : bitmapsize (phys s') = bitmapsize (phys s);
}.

#[export] Instance quiet_preorder : PreOrder quiet.
Proof.
  split; [by split|]. intros s1 s2 s3 [] []. split; try congruence; auto.
Qed.

Lemma quiet_regs s s' sp rs r : quiet s s' -> space_regs s sp rs r -> space_regs s' sp rs r.
Proof.
  intros [Em _ Er En El _ _ _] (m & l & mr & H1 & H2 & H3 & H4 & H5). exists m, l, mr. rewrite Em.
  split_and!; try done; [by apply (list_rep_same (lm s))|]. unfold regions_at. by rewrite Er.
Qed.

Lemma quiet_same s s' : quiet s s' -> vs_same (VSpaceSpec := paging_VSpaceSpec lay) s s'.
Proof.
  intros [Em Et _ _ _ Ho Hw Hsz]. split_and!; [by apply trans_same| |exact Hw|exact Ho|].
  - intros sp. unfold vs_space, paging_VSpaceSpec. by rewrite Em.
  - unfold vs_top, paging_VSpaceSpec. by rewrite Hsz.
Qed.

Lemma space_kpage_lm_wp s n k :
  space_inv lay s (S (S n)) k ->
  wp (kernel_page lay) (fun r s' => space_inv lay s' n k /\ quiet s s' /\ lm s' = lm s /\ space_win s' r.1 /\
    owned s' r.2 /\ kframe lay s' r.1 = Some r.2) s.
Proof.
  intros Hinv. unfold kernel_page. wp_focus. eapply wp_mono; [by apply space_kalloc_wp|].
  intros v s1 (Hinv1 & [Hv _] & Hw1 & Em & Et & Ep & El & Er). wp_focus.
  eapply wp_mono; [by apply space_request_wp|].
  intros f s2 (Hinv2 & Hf & _ & _ & Hof & ph & -> & Hsz & Hown). wp_focus.
  assert (space_win (upd_phys ph s1) v) as Hv2 by (destruct Hv as (q & ?); by exists q).
  eapply wp_mono; [apply (space_kmap_wp lay _ n k); [exact Hinv2|done|done]|].
  intros [] s3 (Hinv3 & Hk3 & _ & t & -> & Hw3). wp_step. split_and!; [done| |done|by apply Hw3|done|done].
  split; cbn [maps tabs mregions lm upd_tables upd_phys]; rewrite ?El; try done.
  - intros g Hg. apply Hown. unfold owned in *. by rewrite Ep.
  - intros w Hw. apply Hw3. destruct (Hw1 w Hw) as (q & ?). by exists q.
  - cbn [phys upd_tables upd_phys]. by rewrite Hsz, Ep.
Qed.

Lemma space_kpage_wp s n k :
  space_inv lay s (S (S n)) k -> wp (kernel_page lay) (fun r s' => space_inv lay s' n k /\ quiet s s' /\ 0 <= r.2 < 2 ^ 52 /\ r.2 `mod` 4096 = 0) s.
Proof.
  intros Hinv. eapply wp_mono; [by apply space_kpage_lm_wp|]. intros r s' (Hinv' & Hq & _ & _ & Hof & _).
  destruct (si_ok _ _ _ _ Hinv') as (_ & Hp & _). by destruct (owned_range s' r.2 Hp Hof).
Qed.

(** ** Heap blocks *)

Lemma regions_ok_mono s b b' : b' <= b -> regions_ok s b -> regions_ok s b'.
Proof.
  intros Hb (R & (L & (l & Hrep & Hlock & [Hr1 Hr2] & Hal) & Hrest) & HR). exists R. split; [|done].
  exists L. split; [|done]. exists l. split_and!; try done. split; lia.
Qed.

Lemma space_inv_regions s s' n k k' :
  space_inv lay s n k -> quiet s s' -> phys s' = phys s -> kheap_tables s' = kheap_tables s -> kheapdir s' = kheapdir s ->
  regions_ok s' (Z.of_nat k' * region_cost) -> space_inv lay s' n k'.
Proof.
  intros [(Hw & Hp & Hm) Hpg Hfr _ Hown Htop] [Em Et Er En El Ho _ _] Ep Ek Ed Hreg.
  assert (forall x, taken s' x = taken s x) as Htk by (intros x; unfold taken; by rewrite Ek). split.
  - split_and!.
    + destruct Hw as [H1 H2 H3]. split; unfold entered, taken; rewrite ?Ed, ?Ek; done.
    + by rewrite Ep.
    + apply (maps_ok_keep lay s); try done. intros q f _ _. unfold kframe. by rewrite Ed, Ek.
  - eapply many_mono; [exact Hpg|]. intros x. unfold page_left. by rewrite Htk.
  - eapply many_mono; [exact Hfr|]. intros x. unfold frame_left. by rewrite Ep.
  - done.
  - by apply (frames_owned_same s).
  - by rewrite Em.
Qed.

(** A block that is set aside. *)
Lemma set_aside_wp s b size (Q : Z -> pstate kheap -> Prop) :
  regions_ok s (b + ka_cost (H := kheap) size) -> 0 <= b -> 0 <= size < 2 ^ 61 ->
  (forall g h, let s' := upd_lm (mk_lmem h (nodes (lm s)) (lists (lm s))) s in
     regions_ok s' b -> maps s !! g = None ->
     (exists R, dl_ok (H0 := ka_framed R) (lm s') b /\ (forall g, is_Some (mregions s !! g) -> g ∈ R.*1) /\
        (forall a, is_Some (maps s !! a) -> a ∈ R.*1) /\ g ∈ R.*1) -> Q g s') ->
  wp (with_lm (with_heap (ka_malloc size))) Q s.
Proof.
  intros (R & (L & Hi & Hnd & HN & HL & Hx) & HR & HM) Hb Hsz HQ. apply wp_with_lm, wp_with_heap.
  eapply wp_mono; [apply (ka_malloc_wp (lheap (lm s)) (L ++ R)); [exact Hi|lia|done]|].
  intros g h (k & _ & _ & _ & Hsep & Hi'). apply Forall_app in Hsep as [HsL HsR].
  assert (dl_ok (H0 := ka_framed ((g, k) :: R)) (mk_lmem h (nodes (lm s)) (lists (lm s))) b) as Hdl.
  { exists L. split_and!; [|done..]. cbn [lheap ka_inv ka_framed]. eapply ka_perm; [|exact Hi']. by rewrite Permutation_middle. }
  assert (g ∉ R.*1) as Hout.
  { intros [[a len] [-> Hin]]%list_elem_of_fmap. rewrite Forall_forall in HsR. by destruct (HsR _ Hin). }
  apply HQ.
  - exists ((g, k) :: R). split_and!; [done|intros; right; auto..].
  - apply eq_None_not_Some. intros Hs. by apply Hout, HM.
  - exists ((g, k) :: R). split_and!; [done|intros; right; auto|intros; right; auto|by left].
Qed.

Definition BLOCK_UNITS : nat := 37.

Lemma space_block_wp s n k :
  space_inv lay s n (BLOCK_UNITS + k) ->
  wp (with_lm (with_heap (ka_malloc 4096))) (fun _ s' => space_inv lay s' n k /\ quiet s s') s.
Proof.
  intros Hinv. apply (set_aside_wp s (Z.of_nat k * region_cost)).
  - eapply regions_ok_mono; [|apply Hinv]. unfold BLOCK_UNITS.
    change (ka_cost 4096) with 12384. change region_cost with 336. lia.
  - change region_cost with 336. lia.
  - lia.
  - intros g h s' Hreg _ _.
    assert (quiet s s') as Hq by (by split). split; [|done]. by apply (space_inv_regions s s' n (BLOCK_UNITS + k)).
Qed.

(** ** New address spaces *)

Definition empty_map (m : page_map) : Prop := page_dirs m = ∅ /\ page_tables m = ∅.

Definition MAP_UNITS : nat := 2.

(** The record of a new space: it is at an address where no space was, its list of
    regions is empty, and it maps nothing. *)
Lemma new_map_wp s n k (f : Z -> page_map) :
  space_inv lay s n (MAP_UNITS + k) -> (forall l, empty_map (f l) /\ regions (f l) = l /\ top_ok (f l)) ->
  wp (new_map f) (fun a s' => space_inv lay s' n k /\ maps s !! a = None /\ is_Some (maps s' !! a) /\
    (forall r, Z.of_nat r < 2 ^ 31 -> space_regs s' a [] r) /\
    (forall sp pg, space_trans s' sp pg = if decide (sp = a) then None else space_trans s sp pg) /\
    (forall sp, is_Some (maps s !! sp) -> is_Some (maps s' !! sp)) /\
    (forall v, space_win s v -> space_win s' v) /\ (forall g, owned s g -> owned s' g) /\
    bitmapsize (phys s') = bitmapsize (phys s)) s.
Proof.
  intros Hinv Hf. pose proof Hinv as [(Hw & Hp & Hm) Hpg Hfr Hrg Hown Htop]. unfold new_map. wp_focus.
  apply (set_aside_wp s (Z.of_nat k * region_cost + ka_cost (H := kheap) LIST_SIZE)).
  { eapply regions_ok_mono; [|exact Hrg]. unfold MAP_UNITS.
    change (ka_cost LIST_SIZE) with 192. change (ka_cost 64) with 288. change region_cost with 336. lia. }
  { change region_cost with 336. change (ka_cost LIST_SIZE) with 192. lia. }
  { lia. }
  intros a h s1 _ Hnone (R & Hdl & HR & HM & Ha). wp_focus. apply wp_with_lm.
  eapply wp_mono; [apply (list_create_wp (H := kheap) (H0 := ka_framed R) (lm s1) (Z.of_nat k * region_cost)); [exact Hdl|change region_cost with 336; lia]|].
  intros lp lm' (Hok & _ & Hrep & Hout). wp_step. wp_step. wp_step. destruct (Hf lp) as [[Hd Ht] [Hl Htp]].
  set (s' := upd_maps _ _).
  assert (forall m v, m = f lp -> pte_at s' m v = 0) as Hempty.
  { intros m v ->. unfold pte_at. by rewrite Hd, ent_empty, Z.bits_0, andb_false_r. }
  assert (forall b m, maps s' !! b = Some m -> top_ok m) as Htop'.
  { intros b m Hb. cbn [maps s' upd_maps upd_lm] in Hb. apply lookup_insert_Some in Hb as [[_ <-]|[_ Hb]]; [done|by eapply Htop]. }
  assert (maps_ok lay s') as Hmo.
  { destruct Hm as [H1 H2 H3]. split; cbn [tabs maps s' upd_maps upd_lm].
    - exact H1.
    - intros b m ij Hb He. apply lookup_insert_Some in Hb as [[<- <-]|[_ Hb]]; [by rewrite Hd, ent_empty, Z.bits_0 in He|].
      by eapply H2.
    - intros b m ij b' m' ij' Hb Hb' He He' E.
      apply lookup_insert_Some in Hb as [[<- <-]|[_ Hb]]; [by rewrite Hd, ent_empty, Z.bits_0 in He|].
      apply lookup_insert_Some in Hb' as [[<- <-]|[_ Hb']]; [by rewrite Hd, ent_empty, Z.bits_0 in He'|].
      by eapply H3. }
  split_and!.
  - split; [split_and!; [by destruct Hw; split|done|done]|done|done| | |exact Htop'].
    + exists R. split_and!; [exact Hok|exact HR|]. intros b. cbn [maps s' upd_maps upd_lm]. rewrite lookup_insert.
      case_decide as Hb; [intros _; by subst b|apply HM].
    + intros b m v Hb Hbit. cbn [maps s' upd_maps upd_lm] in Hb. apply lookup_insert_Some in Hb as [[_ Hfm]|[_ Hb]].
      * by rewrite (Hempty m) in Hbit by done.
      * by apply (Hown b m v).
  - done.
  - cbn [maps s' upd_maps upd_lm]. rewrite lookup_insert_eq. by eexists.
  - intros r Hr. exists (f lp), [], []. split_and!; [apply lookup_insert_eq|by rewrite Hl|constructor|done|simpl; lia].
  - intros sp pg. rewrite (trans_eq s' sp pg Htop'), (trans_eq s sp pg Htop). cbn [maps s' upd_maps upd_lm]. rewrite lookup_insert.
    destruct (decide (a = sp)) as [<-|Hne].
    + rewrite (decide_True (P := a = a)) by done. cbn [mbind option_bind]. rewrite decide_False; [done|].
      rewrite Hempty by done. rewrite Z.bits_0. by intros [_ ?].
    + rewrite (decide_False (P := sp = a)) by congruence. done.
  - intros sp [m Hsp]. cbn [maps s' upd_maps upd_lm]. rewrite lookup_insert. case_decide; [by eexists|by exists m].
  - intros v (q & Hq & -> & Htq & Hn). exists q. split_and!; try done; try lia. intros (b & m & ij & Hb & Hbit & Heq).
    cbn [maps s' upd_maps upd_lm] in Hb. apply lookup_insert_Some in Hb as [[_ <-]|[_ Hb]]; [by rewrite Hd, ent_empty, Z.bits_0 in Hbit|].
    apply Hn. by exists b, m, ij.
  - done.
  - done.
Qed.

Definition MK_PAGES : nat := 1034.
Definition MK_UNITS : nat := 512 * BLOCK_UNITS + MAP_UNITS.

(** The upper levels, with the directories below [i] entered. *)
Definition upper (pml4' : gmap Z Z) (pdpp : Z) (pdp' dphys : gmap Z Z) (i : Z) : Prop :=
  Z.testbit (ent pml4' 0) 0 = true /\ ent pml4' 0 .& PAGE_FRAME = pdpp /\
  forall j, 0 <= j < i -> Z.testbit (ent pdp' j) 0 = true /\ ent pdp' j .& PAGE_FRAME = ent dphys j.

Lemma upper_snoc pml4' pdpp pdp' dphys i e dp :
  upper pml4' pdpp pdp' dphys i -> 0 <= dp < 2 ^ 52 -> dp `mod` 4096 = 0 ->
  upper pml4' pdpp (<[i := set_page_frame e dp .| dir_flags]> pdp') (<[i := dp]> dphys) (i + 1).
Proof.
  intros (H1 & H2 & Hup) Hdp Hal. split_and!; [done|done|]. intros j Hj. rewrite !ent_insert. case_decide as Hij; [|apply Hup; lia].
  split; [apply testbit_lor_7|]. apply frame_of_entry; [done|done|split; [done|reflexivity]].
Qed.

Lemma upper_top pml4' pml4p pdpp pdp' dphys l :
  upper pml4' pdpp pdp' dphys 512 -> top_ok (mk_page_map pml4' pml4p pdp' pdpp ∅ dphys ∅ l).
Proof.
  intros (H1 & H2 & Hup) i Hi. destruct (Hup i Hi) as [H3 H4]. unfold top_walk. cbn [pml4 pdp pdp_phys page_dirs_phys].
  by rewrite H1, H2, H3, H4, !Z.eqb_refl.
Qed.

Lemma space_new_top_wp s n k :
  space_inv lay s (10 + n) k ->
  wp (new_top lay) (fun r s' => space_inv lay s' n k /\ quiet s s' /\ upper r.1.1 r.2 ∅ ∅ 0) s.
Proof.
  intros Hinv. unfold new_top. wp_focus. eapply wp_mono; [apply (space_kpage_wp _ (8 + n)); exact Hinv|]. intros [v1 p1] s1 (H1 & Q1 & _).
  wp_step. wp_step. wp_focus. eapply wp_mono; [apply (space_kpage_wp _ (6 + n)); exact H1|]. intros [v2 p2] s2 (H2 & Q2 & Hp2 & Hal2).
  wp_focus. eapply wp_mono; [apply (space_kpage_wp _ (4 + n)); exact H2|]. intros [v3 p3] s3 (H3 & Q3 & _).
  wp_focus. eapply wp_mono; [apply (space_kpage_wp _ (2 + n)); exact H3|]. intros [v4 p4] s4 (H4 & Q4 & _).
  wp_focus. eapply wp_mono; [apply (space_kpage_wp _ (0 + n)); exact H4|]. intros [v5 p5] s5 (H5 & Q5 & _).
  wp_step. split; [exact H5|]. split; [by rewrite Q1, Q2, Q3, Q4|]. cbn [fst snd]. split_and!; [..|lia]; rewrite ent_insert, decide_True by done.
  - apply testbit_lor_7.
  - apply frame_of_entry; [done|done|split; [done|reflexivity]].
Qed.

Lemma space_mk_map_wp s n k :
  space_inv lay s (MK_PAGES + n) (MK_UNITS + k) ->
  wp (page_mk_map lay) (fun a s' => space_inv lay s' n k /\ maps s !! a = None /\ is_Some (maps s' !! a) /\
    (forall r, Z.of_nat r < 2 ^ 31 -> space_regs s' a [] r) /\
    (forall sp pg, space_trans s' sp pg = if decide (sp = a) then None else space_trans s sp pg) /\
    (forall sp, is_Some (maps s !! sp) -> is_Some (maps s' !! sp)) /\
    (forall v, space_win s v -> space_win s' v) /\ (forall g, owned s g -> owned s' g) /\
    bitmapsize (phys s') = bitmapsize (phys s)) s.
Proof.
  intros Hinv. unfold page_mk_map. wp_focus.
  eapply wp_mono; [apply (space_new_top_wp s (1024 + n)); exact Hinv|]. intros [[pml4' p1] p2] s1 (Hinv1 & Hq1 & Hup1). wp_focus.
  apply (wp_for_acc (fun i (a : gmap Z Z * gmap Z Z) s' => upper pml4' p2 a.1 a.2 i /\
    space_inv lay s' (Z.to_nat (512 - i) * 2 + n) (Z.to_nat (512 - i) * BLOCK_UNITS + (MAP_UNITS + k)) /\ quiet s s')).
  - done.
  - split; [done|]. split; [|done].
    replace (Z.to_nat (512 - 0) * 2 + n)%nat with (1024 + n)%nat by lia.
    replace (Z.to_nat (512 - 0) * BLOCK_UNITS + (MAP_UNITS + k))%nat with (MK_UNITS + k)%nat by (unfold MK_UNITS; lia). done.
  - intros i [a1 a2] s2 Hi (Hup2 & Hinv2 & Hq2). unfold DIRS_PER_PDP in Hi.
    replace (Z.to_nat (512 - i)) with (S (Z.to_nat (512 - (i + 1)))) in Hinv2 by lia.
    wp_focus. eapply wp_mono; [apply (space_kpage_wp s2 (Z.to_nat (512 - (i + 1)) * 2 + n)); exact Hinv2|].
    intros [dv dp] s3 (Hinv3 & Hq3 & Hdp & Hdal). wp_focus. eapply wp_mono; [apply space_block_wp|].
    { replace (S (Z.to_nat (512 - (i + 1))) * BLOCK_UNITS + (MAP_UNITS + k))%nat with
        (BLOCK_UNITS + (Z.to_nat (512 - (i + 1)) * BLOCK_UNITS + (MAP_UNITS + k)))%nat in Hinv3 by lia. exact Hinv3. }
    intros g s4 [Hinv4 Hq4]. wp_step. cbn [fst snd]. split; [by apply upper_snoc|]. split; [exact Hinv4|]. by rewrite Hq2, Hq3.
  - intros [pdp' dphys] s2 (Hup2 & Hinv2 & Hq2). unfold DIRS_PER_PDP in Hinv2.
    eapply wp_mono; [apply (new_map_wp s2 n k); [exact Hinv2|intros l; split_and!; [done|done|by apply upper_top]]|].
    intros a s3 (Hinv3 & Hnone & Hsome & Hregs & Htr & Hsp & Hw & Ho & Hsz). pose proof Hq2 as [Em Et _ _ _ Hown Hwin Hsz2].
    split_and!; try done.
    + by rewrite <-Em.
    + intros sp pg. rewrite Htr. by rewrite (trans_same s s2 Em Et).
    + intros sp. rewrite <-Em. apply Hsp.
    + auto.
    + auto.
    + congruence.
Qed.

(** ** Regions at an address the manager chooses *)

Lemma ranges_of_ordered lo mr : ordered lo mr -> ranges_ordered lo (reg_range <$> mr).
Proof. revert lo. induction mr as [|x mr IH]; intros lo; [done|]. cbn. intros [? ?]. split; [done|auto]. Qed.
Lemma ordered_ranges lo mr : ranges_ordered lo (reg_range <$> mr) -> ordered lo mr.
Proof. revert lo. induction mr as [|x mr IH]; intros lo; [done|]. cbn. intros [? ?]. split; [done|auto]. Qed.

(** Regions in the order of their addresses, with one more in a gap. *)
Lemma ranges_ordered_insert lo mr i b size :
  ordered lo mr -> lo <= b -> 0 <= size -> Forall (fun x => end_ x <= b) (take i mr) -> Forall (fun x => b + size <= base x) (drop i mr) ->
  ranges_ordered lo ((reg_range <$> take i mr) ++ (b, b + size) :: (reg_range <$> drop i mr)).
Proof.
  revert lo i. induction mr as [|x mr IH]; intros lo i Hord Hlo Hsz Hb Ha.
  - rewrite take_nil, drop_nil. cbn. lia.
  - destruct Hord as [Hx Hord]. destruct i as [|i]; cbn [take drop fmap list_fmap app ranges_ordered fst snd] in *.
    + apply Forall_cons in Ha as [Ha _]. split; [lia|]. split; [cbn; lia|]. apply ranges_of_ordered. exact Hord.
    + apply Forall_cons in Hb as [Hbx Hb]. split; [exact Hx|]. by apply IH.
Qed.

(** A new record, entered into the list of regions by [ins]. *)
Lemma record_and_list_wp {T A} s n k b e (ins : Z -> M (lmem kheap) T) (v : A) (L : Z -> lmem kheap -> Prop) (Q : A -> pstate kheap -> Prop) :
  space_inv lay s n (S k) ->
  (forall g R s1, dl_ok (H0 := ka_framed R) (lm s1) (Z.of_nat k * region_cost + ka_cost (H := kheap) NODE_SIZE) ->
     nodes (lm s1) = nodes (lm s) -> lists (lm s1) = lists (lm s) ->
     wp (ins g) (fun _ lm' => dl_ok (H0 := ka_framed R) lm' (Z.of_nat k * region_cost) /\ L g lm') (lm s1)) ->
  (forall g s', space_inv lay s' n k -> maps s' = maps s -> tabs s' = tabs s -> phys s' = phys s ->
     kheap_tables s' = kheap_tables s -> mregions s !! g = None -> mregions s' = <[g := mk_mregion b e]> (mregions s) ->
     L g (lm s') -> Q v s') ->
  wp (g ← new_region b e; with_lm (ins g);; mret v) Q s.
Proof.
  intros [(Hw & Hp & Hm) Hpg Hfr Hrg Hown Htop] Hins HQ. wp_focus.
  set (bud := Z.of_nat k * region_cost).
  assert (0 <= bud) as Hbud by (unfold bud; change region_cost with 336; lia).
  apply (region_record_wp s (bud + ka_cost (H := kheap) NODE_SIZE)); [|change (ka_cost NODE_SIZE) with 192; lia|].
  { replace (bud + ka_cost NODE_SIZE + ka_cost 16) with (Z.of_nat (S k) * region_cost) by (unfold bud, region_cost; lia). done. }
  intros g h s1 (R & Hdl & HR & HM) Hg. wp_focus. apply wp_with_lm.
  eapply wp_mono; [apply (Hins g R s1); [exact Hdl|done|done]|]. intros r lm' [Hok' HL]. wp_step.
  apply (HQ g); try done. split; try done.
  - split_and!; [by destruct Hw; split|done|by apply (maps_ok_keep lay s)].
  - by exists R.
Qed.

(** The list of regions with the new record at place [i]. *)
Lemma space_listed_insert s s' sp m l mr i g p b size c :
  maps s !! sp = Some m -> regions_at s l mr ->
  maps s' = maps s -> mregions s !! g = None -> mregions s' = <[g := mk_mregion b (b + size)]> (mregions s) ->
  list_rep (lm s') (regions m) (take i l ++ (p, g) :: drop i l) c ->
  space_listed s' sp ((reg_range <$> take i mr) ++ (b, b + size) :: (reg_range <$> drop i mr)).
Proof.
  intros Ha Hregs Em Hg Er Hrep. exists m, (take i l ++ (p, g) :: drop i l), (take i mr ++ mk_mregion b (b + size) :: drop i mr), c.
  assert (regions_at s' l mr) as Hregs'.
  { eapply Forall2_impl; [exact Hregs|]. intros x y Hxy. rewrite Er, lookup_insert_ne; [done|congruence]. }
  rewrite Em. split_and!; [done|done| |by rewrite fmap_app].
  apply Forall2_app; [by apply Forall2_take|]. constructor; [rewrite Er; apply lookup_insert_eq|by apply Forall2_drop].
Qed.

(** The places the two ways through [space_alloc_region] find. *)
Lemma space_alloc_wp s n k size sp rs r :
  space_inv lay s n (S k) -> space_regs s sp rs r -> ranges_ordered 0 rs -> Forall (fun x => x.2 < 2 ^ 63) rs ->
  0 <= size < 2 ^ 62 ->
  wp (space_alloc_region size sp) (fun b s' => space_inv lay s' n k /\ Forall (clear_range b (b + size)) rs /\
    4096 <= b /\ (b = 4096 \/ b ∈ rs.*2) /\ region_recorded (H1 := paging_VSpaceSpec lay) s' sp rs b size /\
    maps s' = maps s /\ tabs s' = tabs s /\ phys s' = phys s /\ kheap_tables s' = kheap_tables s) s.
Proof.
  intros Hinv (m & l & mr & Ha & Hrep & Hregs & -> & Hlen) Hord Hfit Hsize. apply ordered_ranges in Hord.
  assert (regions_fit size mr) as Hf by (split; [by apply Forall_fmap in Hfit|lia]).
  assert (forall b, b = 4096 \/ (exists r, r ∈ mr /\ b = end_ r) -> b = 4096 \/ b ∈ (reg_range <$> mr).*2) as Hfrom.
  { intros b [?|(x & Hx & ->)]; [by left|right]. rewrite <-list_fmap_compose. by apply (list_elem_of_fmap_2 (snd ∘ reg_range)). }
  assert (0 <= Z.of_nat k * region_cost) as Hbud by (change region_cost with 336; lia).
  pose proof (Forall2_length _ _ _ Hregs) as Hll.
  assert (forall i b g p s', 4096 <= b -> b = 4096 \/ (exists r, r ∈ mr /\ b = end_ r) ->
    Forall (fun x => end_ x <= b) (take i mr) -> Forall (fun x => b + size <= base x) (drop i mr) ->
    space_inv lay s' n k -> maps s' = maps s -> tabs s' = tabs s -> phys s' = phys s ->
    kheap_tables s' = kheap_tables s -> mregions s !! g = None -> mregions s' = <[g := mk_mregion b (b + size)]> (mregions s) ->
    (exists c, list_rep (lm s') (regions m) (take i l ++ (p, g) :: drop i l) c) ->
    space_inv lay s' n k /\ Forall (clear_range b (b + size)) (reg_range <$> mr) /\
    4096 <= b /\ (b = 4096 \/ b ∈ (reg_range <$> mr).*2) /\ region_recorded (H1 := paging_VSpaceSpec lay) s' sp (reg_range <$> mr) b size /\
    maps s' = maps s /\ tabs s' = tabs s /\ phys s' = phys s /\ kheap_tables s' = kheap_tables s) as Hdone.
  { intros i b g p s' Hb Hbf Hlow Hhigh Hinv' Em Et Ep Ek Hg Er [c Hl]. split_and!; try done; [|by apply Hfrom|].
    - apply Forall_fmap. rewrite <- (take_drop i mr). apply Forall_app. split; (eapply Forall_impl; [done|]); unfold clear_range; simpl; lia.
    - exists (reg_range <$> take i mr), (reg_range <$> drop i mr). split; [by rewrite <-fmap_app, take_drop|].
      split; [by eapply space_listed_insert|apply ranges_ordered_insert; (done || lia)]. }
  unfold space_alloc_region. rewrite (uN_small 64) by lia. wp_focus. eapply wp_map_get; [exact Ha|]. wp_focus.
  eapply (regions_foreach_wp s (regions m) l _ mr (cand_inv size mr)); [exact Hrep|exact Hregs|lia| | |].
  - exists 4096. split; [done|]. split; [lia|]. split; [intros; lia|by left].
  - intros i x be Hx Hc. destruct (be.2 <=? base x) eqn:Hle.
    2: { apply wp_ret. split; [done|]. by apply cand_inv_step. }
    destruct Hc as (b & -> & Hb & Hbelow & Hbf). simpl in Hle. apply Z.leb_le in Hle. cbn [fst snd].
    apply lookup_lt_Some in Hx as Hi.
    destruct (lookup_lt_is_Some_2 l i) as [[d vd] Hli]; [lia|]. pose proof (take_drop_middle _ _ _ Hli) as Hl.
    assert (length (take i l) = i) as Hti by (rewrite length_take; lia).
    apply (record_and_list_wp s n k _ _ _ _ (fun g lm' => exists p c, list_rep lm' (regions m) (take i l ++ (p, g) :: drop i l) c)); [done| |].
    + intros g R s1 Hdl Hn Hls. eapply wp_mono; [rewrite <- Hti at 1; eapply (list_insert_wp (H := kheap) (H0 := ka_framed R)
        (lm s1) _ (regions m) (take i l) d vd (drop (S i) l))|].
      { exact Hdl. } { done. } { rewrite Hl. by eapply (list_rep_same (lm s)). } { rewrite Hti. lia. }
      intros [] lm' (p & Hok' & Hp & _ & Hrep' & _). split; [done|]. eexists p, _. rewrite (drop_S _ _ _ Hli). exact Hrep'.
    + intros g s' Hinv' Em Et Ep Ek Hg Er [p HL]. wp_step. eapply (Hdone i b g p); try done; [lia| |].
      * by apply Forall_take_below.
      * by eapply ordered_split.
  - intros be (b & -> & Hb & Hbelow & Hbf). cbn [fst snd].
    rewrite (proj2 (Z.ltb_lt (b + size) KERNEL_VIRTUAL_ADDR)) by (unfold KERNEL_VIRTUAL_ADDR; lia).
    apply (record_and_list_wp s n k _ _ _ _ (fun g lm' => exists p c, list_rep lm' (regions m) (l ++ [(p, g)]) c)); [done| |].
    + intros g R s1 Hdl Hn Hls. eapply wp_mono; [eapply (list_push_back_wp (H := kheap) (H0 := ka_framed R) (lm s1) _ (regions m) l);
        [exact Hdl|done|by eapply (list_rep_same (lm s))|lia]|].
      intros p lm' (Hok' & Hp & _ & Hrep' & _). split; [done|]. by eexists p, _.
    + intros g s' Hinv' Em Et Ep Ek Hg Er [p HL]. rewrite Hll in Hbelow.
      pose proof (Forall_take_below mr (length mr) b Hbelow) as Hbl. rewrite firstn_all in Hbl.
      eapply (Hdone (length mr) b g p); try done; [lia|by rewrite firstn_all|by rewrite drop_all|]. by rewrite <-Hll, firstn_all, drop_all.
Qed.
End make.

(** ** The instance *)

#[local] Obligation Tactic := idtac.
#[export] Program Instance paging_VSpaceMake (lay : layout) :
  @VSpaceMake (pstate kheap) (paging_VSpace lay) (paging_Mmu lay) (paging_VSpaceSpec lay) := {|
  vs_mk_cost := MK_PAGES; vs_mk_heap := MK_UNITS;
|}.
Next Obligation.
  intros lay s n k Hinv. eapply wp_mono; [by apply space_mk_map_wp|].
  intros a s' (Hinv' & Hnone & Hsome & Hregs & Htr & Hsp & Hw & Ho & Hsz). pose proof (si_top _ _ _ _ Hinv) as Hm.
  assert (forall sp pg, space_trans s' sp pg = space_trans s sp pg) as Hsame.
  { intros sp pg. rewrite Htr. case_decide as Hd; [|done]. subst sp. rewrite trans_eq by done. by rewrite Hnone. }
  split_and!; [done|intros [m Hm']; congruence|done|done| |].
  - intros pg. rewrite Htr. by rewrite decide_True by done.
  - split_and!; try done. unfold vs_top, paging_VSpaceSpec. by rewrite Hsz.
Qed.
Next Obligation.
  intros lay s n k size sp rs r Hinv Hregs Hord Hfit Hsize. eapply wp_mono; [exact (space_alloc_wp lay s n k size sp rs r Hinv Hregs Hord Hfit Hsize)|].
  intros b s' (Hinv' & Hclear & Hb & Hfrom & Hrec & Em & Et & Ep & Ek). split_and!; try done.
  split_and!; [by apply trans_same|intros x; unfold vs_space, paging_VSpaceSpec; by rewrite Em| | |unfold vs_top, paging_VSpaceSpec; by rewrite Ep].
  - apply space_win_same; [|done]. unfold taken. by rewrite Ek.
  - intros f. unfold vs_owned, paging_VSpaceSpec, owned. by rewrite Ep.
Qed.

(** ** Loading a program on the page tables *)


(** A machine with 2048 page frames, an empty window and a heap, and no address space. *)
Definition bare_pstate : pstate kheap :=
  mk_pstate 0 ∅ ∅ ∅ ∅ ∅ ∅ 0 (mk_pmm 256 ∅) boot_lmem ∅ ∅ ∅.

Lemma bare_space (n k : nat) : Z.of_nat n <= 2048 -> Z.of_nat k * region_cost < 2 ^ 50 -> space_inv demo_layout bare_pstate n k.
Proof.
  intros Hn Hk. split.
  - split_and!.
    + split; [intros q Hq _; unfold taken; cbn [kheap_tables bare_pstate]; by rewrite ent_empty|..]; intros i.
      * cbn [kheapdir bare_pstate]. by rewrite ent_empty, Z.bits_0.
      * unfold entered. cbn [kheapdir bare_pstate]. by rewrite ent_empty.
    + apply pmm_wf_empty. unfold BUFFER_SIZE. lia.
    + split; cbn [tabs maps bare_pstate].
      * intros t. rewrite lookup_empty. by intros [??].
      * intros a m ij. by rewrite lookup_empty.
      * intros a m ij a' m' ij'. by rewrite lookup_empty.
  - apply many_seq. intros x Hx. split; [unfold WINDOW; lia|]. unfold taken. cbn [kheap_tables bare_pstate].
    rewrite ent_empty. apply Z.bits_0.
  - apply many_seq. intros x Hx. split; [cbn [phys bare_pstate bitmapsize]; lia|]. unfold used, map_byte.
    cbn [phys bare_pstate mapbuffer]. rewrite lookup_empty. apply Z.bits_0.
  - exists []. split_and!; [|intros g; cbn [mregions bare_pstate]; rewrite lookup_empty; by intros [??]|
      intros g; cbn [maps bare_pstate]; rewrite lookup_empty; by intros [??]].
    destruct (boot_dl_ok (Z.of_nat k * region_cost)) as (L & Hi & Hrest); [lia|].
    exists L. split; [|exact Hrest]. cbn [ka_inv ka_framed]. by rewrite app_nil_r.
  - intros a m v. cbn [maps bare_pstate]. by rewrite lookup_empty.
  - intros a m. cbn [maps bare_pstate]. by rewrite lookup_empty.
Qed.

(** Its first address space. *)
Lemma bare_mk_map (n k : nat) :
  Z.of_nat (MK_PAGES + n) <= 2048 -> Z.of_nat (MK_UNITS + k) * region_cost < 2 ^ 50 ->
  exists sp s, page_mk_map demo_layout bare_pstate = Ok (sp, s) /\ space_inv demo_layout s n k /\
    (forall r, Z.of_nat r < 2 ^ 31 -> space_regs s sp [] r) /\ forall pg, space_trans s sp pg = None.
Proof.
  intros Hn Hk. destruct (wp_Ok _ _ _ (space_mk_map_wp demo_layout bare_pstate n k (bare_space _ _ Hn Hk)))
    as (sp & s & Hr & Hinv & _ & _ & Hregs & Htr & _).
  exists sp, s. refine (conj Hr (conj Hinv (conj Hregs _))). intros pg. rewrite Htr. by rewrite decide_True by done.
Qed.

