(* ===== verification/Proc.v ===== *)
(** * Proc: processes made from programs (src/sched/sched.c)

    The state is the scheduler's ([sstate]) over a memory manager with physical memory
    ([estate]): a new process has its program loaded ([Elf.elf_load]), its stack mapped
    and the arguments copied onto it.  Kernel buffers that file operations fill are
    bytes of [io_mem].  Canonical paths come from vfs_mk_canonpath (modelled in Path.v)
    behind the class [Paths]. *)

From S2P Require Import Prelude Disk Pmm Alloc Kheap DList Paging Vfs Sched Elf.

(** The memory manager with physical memory beside it. *)
#[export] Instance estate_VSpace {P} `{VSpace P} : VSpace (estate P) := {|
  vs_mk_map := vs vs_mk_map;
  vs_clone_map m := vs (vs_clone_map m);
  vs_alloc_region n sp := vs (vs_alloc_region n sp);
  vs_map_memory va f n sp := vs (vs_map_memory va f n sp);
  vs_request := vs vs_request;
  vs_kernel_alloc n := vs (vs_kernel_alloc n);
  vs_kernel_map v f n := vs (vs_kernel_map v f n);
  vs_alloc_region_at b n sp := vs (vs_alloc_region_at b n sp);
  vs_kernel_free v n := vs (vs_kernel_free v n);
|}.

(** [vfs_mk_canonpath(path, working)]. *)
Class Paths (St : Type) : Type := path_canon : list Z -> option (list Z) -> M St (list Z).

(** The components of a canonical path, as [strtok(path + 1, "/")] delivers them. *)
Fixpoint tokens_of (cur : list Z) (path : list Z) : list name :=
  match path with
  | [] => if cur is [] then [] else [cur]
  | c :: r => if c =? 47 then (if cur is [] then tokens_of [] r else cur :: tokens_of [] r) else tokens_of (cur ++ [c]) r
  end.

(** ** The initial stack *)

Section stack.
Context {P : Type} `{Mmu P}.
Abbreviation E := (M (estate P)).

(** A store through the page tables of a space; an unmapped page is a fault. *)
Definition user_store (space va b : Z) : E () :=
  s ← get;
  f ← unwrap (vs_trans (e_vs s) space (va `div` 4096)) OutOfBounds;
  put (mk_estate (e_vs s) (mem_put (e_phys s) (f + va `mod` 4096) [u8 b])).
Fixpoint user_write (space va : Z) (bs : list Z) : E () :=
  match bs with [] => mret () | b :: r => user_store space va b;; user_write space (va + 1) r end.

(** [stack -= strlen(str) + 1; strcpy(stack, str)]. *)
Definition push_str (space stack : Z) (str : list Z) : E Z :=
  let stack := u64 (stack - (Z.of_nat (length str) + 1)) in
  user_write space stack (str ++ [0]);; mret stack.
(** The strings in turn; the pointers are [tmp_argv]. *)
Fixpoint push_strs (space stack : Z) (strs : list (list Z)) : E (list Z * Z) :=
  match strs with
  | [] => mret ([], stack)
  | str :: r => stack ← push_str space stack str; '(ps, stack') ← push_strs space stack r; mret (stack :: ps, stack')
  end.
(** The pointers from the last to the first. *)
Fixpoint push_ptrs (space stack : Z) (ps : list Z) : E Z :=
  match ps with
  | [] => mret stack
  | p :: r => let stack := u64 (stack - 8) in user_write space stack (le_enc 8 p);; push_ptrs space stack r
  end.

(** [prepstack]: the new stack pointer, which also becomes [rsi]. *)
Definition prepstack (space stack : Z) (file : list Z) (argv : list (list Z)) : E Z :=
  '(ps, stack) ← push_strs space stack (file :: argv);
  push_ptrs space stack (rev ps).
End stack.

(** ** The initial stack, as the program finds it *)

(** The addresses [lo, hi) of a space are backed by distinct bytes of memory. *)
Definition user_phys {P} `{Mmu P} (p : P) (space va : Z) : option Z :=
  (fun f => f + va `mod` 4096) <$> vs_trans p space (va `div` 4096).
Definition user_ok {P} `{Mmu P} (p : P) (space lo hi : Z) : Prop :=
  (forall va, lo <= va < hi -> is_Some (user_phys p space va)) /\
  (forall va va', lo <= va < hi -> lo <= va' < hi -> user_phys p space va = user_phys p space va' -> va = va').
(** [bs] at an address. *)
Definition user_reads {P} `{Mmu P} (s : estate P) (space va : Z) (bs : list Z) : Prop :=
  forall k b, bs !! k = Some b -> image s space (va + Z.of_nat k) = Some b.

Section stack_proofs.
Context {P : Type} `{Mmu P} (p : P) (space lo hi : Z) (Huser : user_ok p space lo hi) (Hlo : 0 <= lo) (Hhi : hi < 2 ^ 64).
Implicit Types s : estate P.

(** From [a] to the end of the stack nothing has changed. *)
Definition keeps (a : Z) s s' : Prop := forall x, a <= x < hi -> image s' space x = image s space x.

(** Nothing but the bytes behind the stack has changed. *)
Definition stack_only s s' : Prop :=
  forall y, (forall x, lo <= x < hi -> user_phys p space x <> Some y) -> e_phys s' y = e_phys s y.
Lemma stack_only_refl s : stack_only s s.
Proof. by intros y. Qed.
Lemma stack_only_trans s1 s2 s3 : stack_only s1 s2 -> stack_only s2 s3 -> stack_only s1 s3.
Proof. intros H1 H2 y Hy. by rewrite H2, H1. Qed.

Lemma image_user_phys s x : image s space x = e_phys s <$> user_phys (e_vs s) space x.
Proof. unfold image, user_phys. by destruct (vs_trans (e_vs s) space (x `div` 4096)). Qed.

Lemma user_store_wp va b s Q :
  e_vs s = p -> lo <= va < hi -> 0 <= b < 256 ->
  (forall s', e_vs s' = p -> image s' space va = Some b ->
     (forall x, lo <= x < hi -> x <> va -> image s' space x = image s space x) -> stack_only s s' -> Q () s') ->
  wp (user_store space va b) Q s.
Proof.
  intros Hp Hva Hb HQ. destruct Huser as [Hsome Hinj]. destruct (Hsome va Hva) as [a Ha].
  unfold user_phys in Ha. rewrite <-Hp in Ha. unfold user_store. wp_step. wp_step. wp_step.
  destruct (vs_trans (e_vs s) space (va `div` 4096)) as [f|] eqn:Hf; simplify_eq/=. wp_step. wp_step.
  apply HQ; cbn [e_vs]; [done|..].
  - unfold image. cbn [e_vs e_phys]. rewrite Hf. cbn [fmap option_fmap option_map]. f_equal. unfold mem_put.
    cbn [length]. rewrite (proj2 (Z.leb_le _ _)), (proj2 (Z.ltb_lt _ _)) by lia. cbn [andb].
    rewrite Z.sub_diag. simpl. by apply uN_small.
  - intros x Hx Hne. rewrite !image_user_phys. cbn [e_vs e_phys]. destruct (user_phys (e_vs s) space x) as [y|] eqn:Hy; [|done].
    cbn. f_equal. apply mem_put_outside. cbn [length]. assert (y <> f + va `mod` 4096); [|lia]. intros ->. apply Hne.
    apply Hinj; [done|done|]. unfold user_phys in Hy |- *. rewrite <-Hp, Hy, Hf. done.
  - intros y Hy. cbn [e_phys]. apply mem_put_outside. cbn [length].
    assert (y <> f + va `mod` 4096); [|lia]. intros ->. apply (Hy va Hva). unfold user_phys. by rewrite <-Hp, Hf.
Qed.

Lemma user_write_wp va bs s Q :
  e_vs s = p -> lo <= va -> va + Z.of_nat (length bs) <= hi -> bytes bs ->
  (forall s', e_vs s' = p -> user_reads s' space va bs ->
     (forall x, lo <= x < hi -> x < va \/ va + Z.of_nat (length bs) <= x -> image s' space x = image s space x) ->
     stack_only s s' -> Q () s') ->
  wp (user_write space va bs) Q s.
Proof.
  revert va s Q. induction bs as [|b r IH]; intros va s Q Hp Hva Hend Hb HQ; cbn [length] in Hend.
  - apply wp_ret, HQ; [done|by intros k b|done|apply stack_only_refl].
  - apply Forall_cons in Hb as [Hb Hr]. simpl. wp_focus. apply user_store_wp; [done|lia|exact Hb|].
    intros s1 Hp1 Hv1 Ho1 Hs1. apply IH; [done|lia|lia|done|]. intros s2 Hp2 Hr2 Ho2 Hs2.
    apply HQ; [done|..|by eapply stack_only_trans].
    + intros [|k] c Hc; [simplify_eq/=|].
      * rewrite Z.add_0_r, Ho2 by lia. done.
      * replace (va + Z.of_nat (S k)) with (va + 1 + Z.of_nat k) by lia. by apply Hr2.
    + intros x Hx Hout. cbn [length] in Hout. rewrite Ho2, Ho1 by lia. done.
Qed.

Lemma keeps_reads a s s' va bs :
  keeps a s s' -> a <= va -> va + Z.of_nat (length bs) <= hi -> user_reads s space va bs -> user_reads s' space va bs.
Proof.
  intros Hk Ha Hend Hr k b Hb. pose proof (lookup_lt_Some _ _ _ Hb). rewrite Hk by lia. by apply Hr.
Qed.
Lemma proc_keeps_trans a b s1 s2 s3 : b <= a -> keeps a s1 s2 -> keeps b s2 s3 -> keeps a s1 s3.
Proof. intros Hab H1 H2 x Hx. rewrite H2, H1 by lia. done. Qed.

(** The bytes the strings take. *)
Definition strs_size (strs : list (list Z)) : Z := Z.of_nat (sum_list_with (fun str => length str + 1)%nat strs).

Lemma push_strs_wp stack strs s Q :
  e_vs s = p -> lo <= stack - strs_size strs -> stack <= hi -> Forall bytes strs ->
  (forall ps s', e_vs s' = p -> keeps stack s s' -> stack_only s s' ->
     Forall2 (fun q str => stack - strs_size strs <= q /\ q + Z.of_nat (length str) + 1 <= stack /\
                           user_reads s' space q (str ++ [0])) ps strs ->
     Q (ps, stack - strs_size strs) s') ->
  wp (push_strs space stack strs) Q s.
Proof.
  revert stack s Q. induction strs as [|str r IH]; intros stack s Q Hp Hl Hh Hb HQ.
  - unfold strs_size in *. simpl in *. wp_step. rewrite Z.sub_0_r in HQ. apply HQ; [done|by intros x|apply stack_only_refl|constructor].
  - apply Forall_cons in Hb as [Hb Hr]. unfold strs_size in Hl. cbn [sum_list_with] in Hl.
    assert (strs_size (str :: r) = Z.of_nat (length str) + 1 + strs_size r) as Hsz by (unfold strs_size; simpl; lia).
    assert (0 <= strs_size r) as Hrs by (unfold strs_size; lia). rewrite Hsz in HQ. fold (strs_size r) in Hl.
    simpl. wp_focus. unfold push_str. wp_focus.
    rewrite uN_small by lia. apply user_write_wp; [done|lia|rewrite length_app; simpl; lia| |].
    { apply Forall_app. split; [done|]. by constructor. }
    intros s1 Hp1 Hr1 Ho1 Hs1. rewrite length_app in Ho1. simpl in Ho1. wp_step. wp_focus.
    apply IH; [done|unfold strs_size in *; lia|lia|done|]. intros ps s2 Hp2 Hk2 Hs2 Hf2. wp_step.
    replace (stack - (Z.of_nat (length str) + 1) - strs_size r) with (stack - (Z.of_nat (length str) + 1 + strs_size r))
      in * by lia.
    apply HQ; [done|..].
    + intros x Hx. rewrite Hk2, Ho1 by lia. done.
    + by eapply stack_only_trans.
    + constructor.
      * split_and!; [lia|lia|]. eapply keeps_reads; [exact Hk2|lia|rewrite length_app; simpl; lia|done].
      * eapply Forall2_impl; [exact Hf2|]. intros q st (? & ? & ?). split_and!; [lia|lia|done].
Qed.

Lemma push_ptrs_wp stack ps s Q :
  e_vs s = p -> lo <= stack - 8 * Z.of_nat (length ps) -> stack <= hi ->
  (forall s', e_vs s' = p -> keeps stack s s' -> stack_only s s' ->
     user_reads s' space (stack - 8 * Z.of_nat (length ps)) (concat (le_enc 8 <$> rev ps)) ->
     Q (stack - 8 * Z.of_nat (length ps)) s') ->
  wp (push_ptrs space stack ps) Q s.
Proof.
  revert stack s Q. induction ps as [|q r IH]; intros stack s Q Hp Hl Hh HQ; cbn [length] in *.
  - cbn [push_ptrs]. wp_step. replace (stack - 8 * Z.of_nat 0) with stack in HQ by lia. apply HQ; [done|by intros x|apply stack_only_refl|done].
  - cbn [push_ptrs]. rewrite uN_small by lia. wp_focus. apply user_write_wp; [done|lia|rewrite length_le_enc; lia|apply bytes_le_enc|].
    intros s1 Hp1 Hr1 Ho1 Hs1. rewrite length_le_enc in Ho1. apply IH; [done|lia|lia|]. intros s2 Hp2 Hk2 Hs2 Hr2.
    replace (stack - 8 - 8 * Z.of_nat (length r)) with (stack - 8 * Z.of_nat (S (length r))) in * by lia.
    apply HQ; [done|..].
    + intros x Hx. rewrite Hk2, Ho1 by lia. done.
    + by eapply stack_only_trans.
    + cbn [rev]. rewrite fmap_app, concat_app. cbn [fmap list_fmap concat]. rewrite app_nil_r.
      assert (length (concat (le_enc 8 <$> rev r)) = 8 * length r)%nat as Hlen.
      { rewrite <-(length_rev r). clear. induction (rev r) as [|x l IH]; [done|].
        cbn [fmap list_fmap concat length]. rewrite length_app, length_le_enc, IH. lia. }
      intros k b. rewrite lookup_app_Some. intros [Hk|[Hge Hk]]; [by apply Hr2|]. rewrite Hlen in Hge, Hk.
      pose proof (lookup_lt_Some _ _ _ Hk) as Hlt. rewrite length_le_enc in Hlt. rewrite Hk2 by lia.
      rewrite <-(Hr1 _ _ Hk). f_equal. lia.
Qed.
End stack_proofs.

Lemma prepstack_wp {P} `{Mmu P} (s : estate P) space lo stack file argv :
  let strs := file :: argv in
  let sp := stack - strs_size strs - 8 * Z.of_nat (length strs) in
  user_ok (e_vs s) space lo stack -> 0 <= lo <= sp -> stack < 2 ^ 64 -> Forall bytes strs ->
  wp (prepstack space stack file argv) (fun r s' => r = sp /\ e_vs s' = e_vs s /\
    stack_only (e_vs s) space lo stack s s' /\ exists ps,
    user_reads s' space sp (concat (le_enc 8 <$> ps)) /\
    Forall2 (fun q str => sp <= q /\ q + Z.of_nat (length str) + 1 <= stack /\ user_reads s' space q (str ++ [0])) ps strs) s.
Proof.
  intros strs sp Huser Hlo Hhi Hb.
  unfold prepstack. fold strs. wp_focus. eapply push_strs_wp; [exact Huser|lia|done|done|lia|lia|done|].
  intros ps s1 Hp1 Hk1 Hs1 Hf1. pose proof (Forall2_length _ _ _ Hf1) as Hlen.
  eapply push_ptrs_wp; [exact Huser|lia|done|done|rewrite length_rev, Hlen; lia|unfold strs_size; lia|].
  intros s2 Hp2 Hk2 Hs2 Hr2. rewrite length_rev, Hlen, rev_involutive in *. split_and!; [done|done| |].
  { by eapply stack_only_trans. }
  exists ps. split; [done|].
  eapply Forall2_impl; [exact Hf1|]. intros q str (? & ? & ?). split_and!; [lia|lia|].
  eapply keeps_reads; [exact Hk2|lia|rewrite length_app; simpl; lia|done].
Qed.

(** The stack of a new program: at the address in [rsp] and [rsi] lies an array of
    pointers, one for the path and one for each argument, in order, and each leads to
    its string with the terminator; everything lies between the new and the old stack
    pointer, which moves by exactly the space taken. *)
Theorem prepstack_correct {P} `{Mmu P} (s : estate P) space lo stack file argv :
  let strs := file :: argv in
  let sp := stack - strs_size strs - 8 * Z.of_nat (length strs) in
  user_ok (e_vs s) space lo stack -> 0 <= lo <= sp -> stack < 2 ^ 64 -> Forall bytes strs ->
  exists ps s', prepstack space stack file argv s = Ok (sp, s') /\
    user_reads s' space sp (concat (le_enc 8 <$> ps)) /\
    Forall2 (fun q str => sp <= q /\ q + Z.of_nat (length str) + 1 <= stack /\ user_reads s' space q (str ++ [0])) ps strs.
Proof.
  intros strs sp Huser Hlo Hhi Hb.
  destruct (wp_Ok _ _ _ (prepstack_wp s space lo stack file argv Huser Hlo Hhi Hb))
    as (r & s' & Hr & -> & _ & _ & ps & ? & ?). by exists ps, s'.
Qed.

(** One page of stack. *)
Definition demo_stack : estate flat := mk_estate (mk_flat 0x20000 10 {[(1, 3) := 0x10000]} ∅ 0x9000) (fun _ => 0).
Lemma demo_stack_ok : user_ok (e_vs demo_stack) 1 0x3000 0x4000.
Proof.
  assert (forall va, 0x3000 <= va < 0x4000 -> user_phys (e_vs demo_stack) 1 va = Some (0x10000 + va `mod` 4096)) as Hp.
  { intros va Hva. unfold user_phys. replace (va `div` 4096) with 3 by dlia. done. }
  split; [intros va Hva; rewrite Hp by done; by eexists|].
  intros va va' Hva Hva'. rewrite !Hp by done. intros [= He]. dlia.
Qed.

Lemma prepstack_correct_witness :
  let strs := [[47; 97]; [120]; [121; 122]] in
  exists ps s', prepstack 1 0x4000 [47; 97] [[120]; [121; 122]] demo_stack = Ok (0x3fe0, s') /\
    user_reads s' 1 0x3fe0 (concat (le_enc 8 <$> ps)) /\
    Forall2 (fun q str => 0x3fe0 <= q /\ q + Z.of_nat (length str) + 1 <= 0x4000 /\ user_reads s' 1 q (str ++ [0])) ps strs.
Proof.
  apply (prepstack_correct demo_stack 1 0x3000 0x4000 [47; 97] [[120]; [121; 122]]).
  - apply demo_stack_ok.
  - vm_compute. split; discriminate.
  - done.
  - repeat constructor; done.
Defined.

(** ** Processes *)

Section procs.
Context {P : Type} `{VSpace P} `{Mmu P} `{VfsNodes (sstate (estate P))} `{Paths (sstate (estate P))}.
Abbreviation K := (M (sstate (estate P))).
Implicit Types s : sstate (estate P).

(** Bytes that pointers lead to. *)
Definition upd_bytes (f : gmap Z Z -> gmap Z Z) s : sstate (estate P) :=
  upd_io (fun i => mk_io (io_fds i) (io_root i) (f (io_mem i))) s.
Definition mem_load (a : Z) : K Z :=
  guard (truth a) NullDeref;; s ← get; unwrap (io_mem (s_io s) !! a) OutOfBounds.
Fixpoint mem_loads (a : Z) (n : nat) : K (list Z) :=
  match n with O => mret [] | S n' => b ← mem_load a; r ← mem_loads (a + 1) n'; mret (b :: r) end.
Fixpoint fill (a : Z) (bs : list Z) (m : gmap Z Z) : gmap Z Z :=
  match bs with [] => m | b :: r => <[a := b]> (fill (a + 1) r m) end.
(** [kmalloc] and [kfree] of a buffer. *)
Definition new_buf (n : Z) : K Z := fun s =>
  Ok (s_heap s, upd_bytes (fill (s_heap s) (replicate (Z.to_nat n) 0))
    (mk_sstate (s_threads s) (s_procs s) (s_cpus s) (s_nextpid s) (s_uptime s) (s_heap s + 16 * (n `div` 16 + 1))
       (s_mem s) (s_io s))).
Definition free_buf (a n : Z) : K () := modify (upd_bytes (fun m => foldr (fun i => delete (a + i)) m (seqZ 0 n))).

(** [vfs_resolve_path(path, working)]; 0 is null. *)
Definition resolve (path : list Z) (working : option (list Z)) : K Z :=
  c ← path_canon path working; s ← get; vfs_resolve_path (io_root (s_io s)) (tokens_of [] c).

(** [uint32_t i = stack; i < stack + stacksize; i += 4096]: the counter has 32 bits. *)
Definition map_stack32 (fuel : N) (space : Z) : K Z :=
  stack ← with_mem (vs_alloc_region 0x4000 space);
  while_ fuel (fun i =>
    if i <? u64 (stack + 0x4000) then
      f ← with_mem vs_request;
      with_mem (vs_map_memory i f 1 space);;
      mret (inl (u32 (i + 4096)))
    else mret (inr ())) (u32 stack);;
  mret stack.

Definition name_unknown : list Z := [117; 110; 107; 110; 111; 119; 110].
Definition path_console : list Z := [47; 100; 101; 118; 47; 99; 111; 110; 115; 111; 108; 101].
Definition path_init : list Z := [47; 115; 98; 105; 110; 47; 105; 110; 105; 116].
Definition with_stack (sp : Z) (r : reg_ctx) : reg_ctx :=
  mk_regs (r15 r) (r14 r) (r13 r) (r12 r) (r11 r) (r10 r) (r9 r) (r8 r) (rbp r) (rdi r) sp (rdx r)
    (rcx r) (rbx r) (rax r) (rip r) (cs r) (rflags r) sp (ss r).

Definition sched_mkelfproc (fuel : N) (path data : list Z) (argv : list (list Z)) : K Z :=
  p ← new_addr;
  id ← creatpid;
  space ← with_mem vs_mk_map;
  t ← new_addr;
  console ← resolve path_console None;
  guard (truth console) NullDeref;;
  stdin ← vfs_open console 0 0;
  stdout ← vfs_open console 0 0;
  rip ← with_mem (loadelf fuel data space);
  stack ← map_stack32 fuel space;
  sp ← with_mem (prepstack space (u64 (stack + 0x4000)) path argv);
  let regs := with_stack sp (fresh_regs rip USER_CS USER_SS (u64 (stack + 0x4000))) in
  modify (upd_procs (insert p (mk_proc id space [stdin; stdout] name_unknown (Some [47]) [t] 1 [] 0 []
                                 (replicate 3 0) None)));;
  modify (upd_threads (insert t (mk_thread p THREAD_STATE_READY regs 0 0)));;
  mret p.

(** The file at a path, read into a buffer of its size; a missing file is a null
    dereference ([node->size]). *)
Definition read_file (node : Z) : K (Z * list Z) :=
  guard (truth node) NullDeref;;
  let n := node_size node in
  buffer ← new_buf n;
  _ ← vfs_read node buffer 0 n;
  data ← mem_loads buffer (Z.to_nat n);
  mret (buffer, data).

Definition sched_spawninit (fuel : N) : K () :=
  node ← resolve path_init None;
  '(buffer, data) ← read_file node;
  p ← sched_mkelfproc fuel path_init data [];
  free_buf buffer (node_size node);;
  sched_spawn p.

(** [sched_exec]: the calling process is killed once the new one is queued.  The trap
    of [sched_kill] on the current process comes last in it; when it returns (the
    CPU's lock is taken) [sched_exec] traps once more. *)
Definition sched_exec (fuel : N) (c : nat) (r : reg_ctx) (path : list Z) (argv : list (list Z)) : K next :=
  cur ← sched_get_currproc c;
  pr ← get_proc cur;
  node ← resolve path (working_dir pr);
  '(buffer, data) ← read_file node;
  p ← sched_mkelfproc fuel path data argv;
  free_buf buffer (node_size node);;
  sched_spawn p;;
  sched_kill c (mret ()) cur;;
  n ← trap c r;
  match n with Returned => sched_yield c r | _ => mret n end.

(** [page_destroy_map] is empty; the structure itself is freed. *)
Fixpoint close_all (fds : list Z) : K () :=
  match fds with [] => mret () | f :: r => vfs_close f;; close_all r end.
Definition sched_proc_destroy (p : Z) : K () :=
  pr ← get_proc p;
  close_all (file_descs pr);;
  modify (upd_procs (delete p)).
End procs.
