(* ===== verification/ProcMake.v ===== *)
(** * ProcMake: a new process, from its file to its first instruction

    [sched_mkelfproc] composes the memory manager, the loader and the file system: a new
    address space, the segments of the program, a stack of fresh pages, the arguments on
    it, two descriptors of the console, and the records of process and thread.  The
    theorem is proved against the interfaces [VSpaceSpec] and [VSpaceMake], and holds on
    the kernel's page tables by the instances of [Spaces] and [SpaceMake]. *)

From S2P Require Import Prelude Disk Pmm Alloc Kheap DList Paging Vfs Sched Elf Spaces SpaceMake Proc.

(** ** Pages with frames of their own *)

Section fresh.
Context {P : Type} `{Mmu P}.
Implicit Types p : P.

(** Of the pages from [b] on, the first [k] have got frames of their own, which no
    space used in [p]; everything else is as in [p]. *)
Definition mapped_from (space b k : Z) p p' : Prop :=
  (forall j, 0 <= j < k -> exists f, vs_trans p' space (b `div` 4096 + j) = Some f /\
     (forall sp pg, vs_trans p sp pg <> Some f) /\
     forall sp pg, vs_trans p' sp pg = Some f -> sp = space /\ pg = b `div` 4096 + j) /\
  (forall sp pg, sp <> space \/ pg < b `div` 4096 \/ b `div` 4096 + k <= pg -> vs_trans p' sp pg = vs_trans p sp pg).

Lemma mapped_from_0 space b p p' :
  (forall sp pg, vs_trans p' sp pg = vs_trans p sp pg) -> mapped_from space b 0 p p'.
Proof. intros Hs. split; [intros; lia|intros; apply Hs]. Qed.

Lemma map_one space b k f p p' p1 p2 :
  mapped_from space b k p p' -> 0 <= k ->
  (forall sp pg, vs_trans p' sp pg <> Some f) -> (forall sp pg, vs_trans p1 sp pg = vs_trans p' sp pg) ->
  (forall sp pg, vs_trans p2 sp pg = if decide (sp = space /\ pg = b `div` 4096 + k) then Some f else vs_trans p1 sp pg) ->
  (forall j, 0 <= j < k -> vs_trans p space (b `div` 4096 + j) = None) ->
  mapped_from space b (k + 1) p p2.
Proof.
  intros [Hin Hout] Hk Hfresh Hs1 Hs2 Hnone. split.
  - intros j Hj. destruct (decide (j = k)) as [->|Hne].
    + exists f. rewrite Hs2, decide_True by done. split_and!; [done| |].
      * intros sp pg Hs. destruct (decide (sp = space /\ b `div` 4096 <= pg < b `div` 4096 + k)) as [[-> Hpg]|Hpg].
        -- replace pg with (b `div` 4096 + (pg - b `div` 4096)) in Hs by lia. by rewrite Hnone in Hs by lia.
        -- apply (Hfresh sp pg). rewrite Hout; [done|]. destruct (decide (sp = space)); [right; lia|by left].
      * intros sp pg. rewrite Hs2. destruct (decide _); [tauto|]. rewrite Hs1. intros Hs. by apply Hfresh in Hs.
    + destruct (Hin j) as (g & Hg & Hgs & Hgu); [lia|]. exists g. rewrite Hs2, decide_False by (intros [_ ?]; lia).
      rewrite Hs1. split_and!; [done|done|]. intros sp pg. rewrite Hs2. destruct (decide _) as [[-> ->]|]; [|rewrite Hs1; apply Hgu].
      intros [= ->]. by apply Hfresh in Hg.
  - intros sp pg Hpg. rewrite Hs2, decide_False by (intros [-> ->]; lia). rewrite Hs1. apply Hout. lia.
Qed.

(** Such pages are memory of their own, byte by byte. *)
Lemma mapped_from_user_ok space b k p p' :
  b `mod` 4096 = 0 -> mapped_from space b k p p' ->
  (forall sp pg f, vs_trans p' sp pg = Some f -> f `mod` 4096 = 0) -> user_ok p' space b (b + k * 4096).
Proof.
  intros Hb [Hin _] Hal.
  assert (forall va, b <= va < b + k * 4096 -> exists j f, 0 <= j < k /\ va `div` 4096 = b `div` 4096 + j /\
    vs_trans p' space (va `div` 4096) = Some f /\
    forall sp pg, vs_trans p' sp pg = Some f -> sp = space /\ pg = b `div` 4096 + j) as Hpg.
  { intros va Hva. assert (0 <= va `div` 4096 - b `div` 4096 < k) as Hj by (clear - Hb Hva; dlia).
    destruct (Hin _ Hj) as (f & Hf & _ & Hu). exists (va `div` 4096 - b `div` 4096), f.
    replace (b `div` 4096 + (va `div` 4096 - b `div` 4096)) with (va `div` 4096) in * by lia. done. }
  split.
  - intros va Hva. destruct (Hpg va Hva) as (j & f & _ & _ & Hf & _). unfold user_phys. rewrite Hf. by eexists.
  - intros va va' Hva Hva'. destruct (Hpg va Hva) as (j & f & _ & Ej & Hf & Hu).
    destruct (Hpg va' Hva') as (j' & f' & _ & Ej' & Hf' & _). unfold user_phys. rewrite Hf, Hf'. intros [= E].
    pose proof (Hal _ _ _ Hf). pose proof (Hal _ _ _ Hf'). assert (f = f' /\ va `mod` 4096 = va' `mod` 4096) as [-> Em] by dlia.
    destruct (Hu _ _ Hf') as [_ E']. rewrite <-Ej in E'. rewrite (Z.div_mod va 4096), (Z.div_mod va' 4096) by lia. lia.
Qed.

(** A byte outside the pages, seen from any space, is no byte of theirs. *)
Lemma mapped_from_apart space b k p p' sp va f x :
  b `mod` 4096 = 0 -> mapped_from space b k p p' ->
  (forall sp pg f, vs_trans p' sp pg = Some f -> f `mod` 4096 = 0) ->
  sp <> space \/ ~ (b <= va < b + k * 4096) -> vs_trans p' sp (va `div` 4096) = Some f ->
  b <= x < b + k * 4096 -> user_phys p' space x <> Some (f + va `mod` 4096).
Proof.
  intros Hb [Hin _] Hal Hout Hf Hx. assert (0 <= x `div` 4096 - b `div` 4096 < k) as Hj by (clear - Hb Hx; dlia).
  destruct (Hin _ Hj) as (g & Hg & _ & Hu).
  replace (b `div` 4096 + (x `div` 4096 - b `div` 4096)) with (x `div` 4096) in * by lia.
  unfold user_phys. rewrite Hg. intros [= E]. pose proof (Hal _ _ _ Hf). pose proof (Hal _ _ _ Hg).
  assert (g = f) as -> by dlia. destruct (Hu _ _ Hf) as [-> Ev]. destruct Hout as [?|Hout]; [done|]. apply Hout.
  clear - Ev Hb Hx. dlia.
Qed.
End fresh.

(** ** The steps of [sched_mkelfproc] *)

Section make.
Context {P : Type} `{VSpaceMake P} `{VfsNodes (sstate (estate P))} `{Paths (sstate (estate P))}.
Implicit Types s : sstate (estate P).

Definition set_mem (e : estate P) s : sstate (estate P) :=
  mk_sstate (s_threads s) (s_procs s) (s_cpus s) (s_nextpid s) (s_uptime s) (s_heap s) e (s_io s).

Lemma with_mem_wp {A} (m : M (estate P) A) (Q : A -> sstate (estate P) -> Prop) s :
  wp m (fun a e => Q a (set_mem e s)) (s_mem s) -> wp (with_mem m) Q s.
Proof. unfold wp, with_mem. by destruct (m (s_mem s)) as [[a e]|]. Qed.

(** Steps of the memory manager, with the physical memory beside it. *)
Lemma with_vs_wp {A} (m : M P A) (Q : A -> P -> Prop) (R : A -> sstate (estate P) -> Prop) s :
  wp m Q (e_vs (s_mem s)) -> (forall a p, Q a p -> R a (set_mem (mk_estate p (e_phys (s_mem s))) s)) ->
  wp (with_mem (vs m)) R s.
Proof. intros Hm HR. apply with_mem_wp. eapply vs_lift; [exact Hm|]. done. Qed.

(** A page-aligned region that ends far enough below 4 GiB for the 32-bit loop. *)
Definition stack_fits (x : Z * Z) : Prop :=
  x.2 `mod` 4096 = 0 /\ 0 <= x.2 /\ x.2 + 0x8000 <= 2 ^ 32 /\ x.2 + 0x4000 <= vs_limit.

Lemma map_stack32_wp fuel space n k rs r s Q :
  let p := e_vs (s_mem s) in
  vs_inv p (4 * S vs_map_cost + n) (S k) -> vs_space p space -> vs_regs p space rs r ->
  ranges_ordered 0 rs -> Forall stack_fits rs -> 0x5000 <= vs_limit -> (5 <= N.to_nat fuel)%nat ->
  (forall va, Forall (fun x => ~ (x.1 <= va < x.2)) rs -> vs_trans p space (va `div` 4096) = None) ->
  (forall b p', vs_inv p' n k -> b `mod` 4096 = 0 -> 4096 <= b -> b + 0x8000 <= 2 ^ 32 -> b + 0x4000 <= vs_limit ->
     Forall (clear_range b (b + 0x4000)) rs -> mapped_from space b 4 p p' ->
     Q b (set_mem (mk_estate p' (e_phys (s_mem s))) s)) ->
  wp (map_stack32 fuel space) Q s.
Proof.
  intros p Hinv Hsp Hrg Hord Hfit Hlim Hfuel Hun HQ. unfold map_stack32. pose proof vs_limit_range as Hlr. wp_focus.
  cbn [vs_alloc_region vs_request vs_map_memory estate_VSpace]. eapply with_vs_wp.
  { eapply vs_alloc_region_wp; [exact Hinv|exact Hrg|exact Hord| |lia].
    eapply Forall_impl; [exact Hfit|]. intros x (_ & _ & ? & _). lia. }
  intros b p1 (Hinv1 & Hclear & Hb0 & Hfrom & _ & (Ht1 & Hs1 & _)).
  assert (b `mod` 4096 = 0 /\ b + 0x8000 <= 2 ^ 32 /\ b + 0x4000 <= vs_limit) as (Hb4 & Hb32 & Hbl).
  { destruct Hfrom as [->|Hin]; [split_and!; [done|lia|lia]|].
    apply list_elem_of_fmap in Hin as (x & -> & Hin). rewrite Forall_forall in Hfit.
    by destruct (Hfit _ Hin) as (? & ? & ? & ?). }
  assert (forall j, 0 <= j < 4 -> vs_trans p space (b `div` 4096 + j) = None) as Hnone.
  { intros j Hj. replace (b `div` 4096 + j) with ((b + j * 4096) `div` 4096) by (clear - Hb4; dlia).
    apply Hun. eapply Forall_impl; [exact Hclear|]. unfold clear_range. intros x. lia. }
  wp_focus. rewrite (uN_small 32 b), (uN_small 64 (b + 0x4000)) by lia.
  apply (wp_while (fun k' i s' => exists p', s' = set_mem (mk_estate p' (e_phys (s_mem s))) s /\
    (k' <= 4)%nat /\ i = b + (4 - Z.of_nat k') * 4096 /\ vs_inv p' (k' * S vs_map_cost + n) k /\
    vs_space p' space /\ mapped_from space b (4 - Z.of_nat k') p p') 4).
  - exists p1. split_and!; [done|lia|lia|done|by apply Hs1|by apply mapped_from_0].
  - lia.
  - intros k' i s1 (p' & -> & Hk & -> & Hinv' & Hsp' & Hmap).
    destruct k' as [|k'].
    + rewrite (proj2 (Z.ltb_ge _ _)) by lia. wp_step. wp_step. apply HQ; try done.
    + rewrite (proj2 (Z.ltb_lt _ _)) by lia. wp_focus.
      replace (S k' * S vs_map_cost + n)%nat with (S (vs_map_cost + (k' * S vs_map_cost + n))) in Hinv' by lia.
      eapply with_vs_wp; [apply vs_request_wp; exact Hinv'|].
      intros f p2 (Hinv2 & Hf & [Hfresh _] & Hown & (Ht2 & Hs2 & _) & _). wp_focus.
      eapply with_vs_wp.
      { apply (vs_map_wp _ (k' * S vs_map_cost + n) k); cbn [s_mem set_mem e_vs]; [exact Hinv2|by apply Hs2| |lia|lia|exact Hf|exact Hown].
        clear - Hb4. dlia. }
      intros [] p3 (Hinv3 & Ht3 & Hs3 & _). cbn [s_mem set_mem e_vs e_phys] in *. wp_step. exists k'. split; [lia|].
      exists p3. split_and!; [done|lia| |done|by apply Hs3, Hs2|].
      * rewrite uN_small by lia. lia.
      * replace (4 - Z.of_nat k') with (4 - Z.of_nat (S k') + 1) by lia.
        apply (map_one space b _ f p p' p2 p3); [done|lia|done|done| |intros; apply Hnone; lia].
        intros sp pg. rewrite Ht3. by replace ((b + _ * 4096) `div` 4096) with (b `div` 4096 + (4 - Z.of_nat (S k'))) by (clear - Hb4; dlia).
Qed.

(** Outside the segments the image is what it was. *)
Lemma load_image_outside space data segs im sp va :
  sp <> space \/ Forall (fun ph => ~ (vaddr ph <= va < vaddr ph + seg_size ph)) segs ->
  load_image space data segs im sp va = im sp va.
Proof.
  revert im. induction segs as [|ph segs IH]; intros im Hout; [done|]. cbn [load_image foldl].
  fold (load_image space data segs (overlay space (vaddr ph) (seg_bytes data ph) im)).
  assert (sp <> space \/ (~ (vaddr ph <= va < vaddr ph + seg_size ph) /\
    Forall (fun ph => ~ (vaddr ph <= va < vaddr ph + seg_size ph)) segs)) as Hcase.
  { destruct Hout as [?|Ho]; [by left|right]. by apply Forall_cons in Ho. }
  rewrite IH by tauto. unfold overlay. rewrite decide_False; [done|]. intros [-> Hin]. destruct Hcase as [?|[Ho _]]; [done|].
  apply Ho. unfold seg_bytes in Hin. rewrite length_take in Hin. lia.
Qed.

Lemma ascending_of_ordered lo segs : ranges_ordered lo (seg_range <$> segs) -> ascending lo segs.
Proof.
  revert lo. induction segs as [|ph segs IH]; intros lo; [done|]. cbn. intros [Hl Ho]. split; [lia|].
  destruct segs as [|ph' segs]; [done|]. cbn in Ho |- *. specialize (IH (vaddr ph)). apply IH. cbn. split; [lia|tauto].
Qed.

Lemma image_none (e : estate P) sp va : image e sp va = None -> vs_trans (e_vs e) sp (va `div` 4096) = None.
Proof. unfold image. by destruct (vs_trans _ _ _). Qed.

(** Bytes written onto fresh pages show nowhere else. *)
Lemma stack_image space b p p' phys (e : estate P) sp va :
  b `mod` 4096 = 0 -> mapped_from space b 4 p p' ->
  (forall sp pg f, vs_trans p' sp pg = Some f -> f `mod` 4096 = 0) ->
  e_vs e = p' -> stack_only p' space b (b + 0x4000) (mk_estate p' phys) e ->
  sp <> space \/ ~ (b <= va < b + 0x4000) -> image e sp va = image (mk_estate p phys) sp va.
Proof.
  intros Hb Hmap Hal He Honly Hout. unfold image. rewrite He. cbn [e_vs e_phys].
  rewrite <-(proj2 Hmap) by (destruct (decide (sp = space)); [right|by left]; destruct Hout; [done|]; clear - Hb H5; dlia).
  destruct (vs_trans p' sp (va `div` 4096)) as [f|] eqn:Hf; [|done]. cbn. f_equal. rewrite Honly; [done|].
  intros x Hx. eapply (mapped_from_apart space b 4 p p' sp va f x); [done|done|exact Hal|exact Hout|exact Hf|exact Hx].
Qed.

(** ** The whole of it *)

Definition argv_size (strs : list (list Z)) : Z := strs_size strs + 8 * Z.of_nat (length strs).

(** What a program finds in its new address space [space]: its segments, and on a stack
    apart from them, at [sp], the argument vector. *)
Definition program_ready (data : list Z) (segs : list elf64_phdr) (strs : list (list Z)) (space sp : Z) (e e' : estate P) : Prop :=
  let b := sp + argv_size strs - 0x4000 in
  4096 <= b < 2 ^ 32 /\ Forall (clear_range b (b + 0x4000)) (seg_range <$> segs) /\
  (forall sp' va, sp' <> space \/ ~ (b <= va < b + 0x4000) ->
     image e' sp' va = load_image space data segs (image e) sp' va) /\
  exists ps, user_reads e' space sp (concat (le_enc 8 <$> ps)) /\
    Forall2 (fun q str => sp <= q /\ q + Z.of_nat (length str) + 1 <= b + 0x4000 /\ user_reads e' space q (str ++ [0])) ps strs.


Lemma program_ready_ext data segs strs space sp e1 e2 e' :
  (forall sp' va, image e1 sp' va = image e2 sp' va) ->
  program_ready data segs strs space sp e1 e' -> program_ready data segs strs space sp e2 e'.
Proof.
  intros He (Hb & Hc & Him & Hps). split_and!; [lia|lia|exact Hc| |exact Hps].
  intros sp' va Hout. rewrite Him by exact Hout. by apply load_image_ext.
Qed.

(** The memory of a new program: its segments, its stack and its arguments. *)
Lemma make_image_wp {A} fuel path data argv space n k s (K : Z -> Z -> Z -> M (sstate (estate P)) A) Q :
  let h := file_hdr data in let segs := load_segs data h 0 (ph_num h) in
  let strs := path :: argv in
  file_ok data -> ranges_ordered 0 (seg_range <$> segs) -> Forall (fun ph => stack_fits (seg_range ph)) segs ->
  0x5000 <= vs_limit -> 2 ^ 20 < Z.of_N fuel -> Forall bytes strs -> argv_size strs <= 0x4000 ->
  room (load_cost segs + (4 * S vs_map_cost + n)) (length segs + S k) [] space (s_mem s) ->
  (forall va, image (s_mem s) space va = None) ->
  (forall sp e', vs_inv (e_vs e') n k -> program_ready data segs strs space sp (s_mem s) e' ->
     wp (K (entry h) (sp + argv_size strs - 0x4000) sp) Q (set_mem e' s)) ->
  wp (rip ← with_mem (loadelf fuel data space);
      stack ← map_stack32 fuel space;
      sp ← with_mem (prepstack space (u64 (stack + 0x4000)) path argv);
      K rip stack sp) Q s.
Proof.
  intros h segs strs Hok Hord Hfit Hlim Hfuel Hb Hsize Hroom Hnone HQ.
  assert (0 <= strs_size strs) as Hpos by (unfold strs_size; lia).
  wp_focus. apply with_mem_wp. unfold loadelf. wp_focus.
  eapply (elf_load_wp fuel data space (4 * S vs_map_cost + n) (S k) 0 []); [exact Hok|constructor|by apply ascending_of_ordered|exact Hfuel|exact Hroom|].
  intros e1 (Hinv1 & Hsp1 & Hrg1) Him1. cbn [snd]. eapply wp_unwrap; [reflexivity|]. cbn [app] in Hrg1.
  wp_focus. eapply (map_stack32_wp fuel space n k _ (S k)); cbn [s_mem set_mem];
    [exact Hinv1|exact Hsp1|exact Hrg1|exact Hord|by apply Forall_fmap|exact Hlim|lia| |].
  { intros va Hva. apply image_none. rewrite Him1, load_image_outside; [apply Hnone|].
    right. apply (Forall_fmap seg_range (fun x => ~ (x.1 <= va < x.2))) in Hva. exact Hva. }
  intros b p' Hinv2 Hb4 Hb0 Hb32 _ Hclear Hmap.
  assert (forall sp pg f, vs_trans p' sp pg = Some f -> f `mod` 4096 = 0) as Hal by (intros *; by eapply vs_trans_aligned).
  wp_focus. apply with_mem_wp. cbn [s_mem set_mem]. rewrite uN_small by lia. change (0x4000) with (4 * 4096).
  assert (b <= b + 4 * 4096 - strs_size strs - 8 * Z.of_nat (length strs)) as Hroom2 by (unfold argv_size in Hsize; lia).
  assert (0 <= b) as Hb0' by (clear - Hb0; lia). assert (b + 4 * 4096 < 2 ^ 64) as Hb64 by (clear - Hb32; lia).
  eapply wp_mono; [exact (prepstack_wp (mk_estate p' (e_phys e1)) space b (b + 4 * 4096) path argv
    (mapped_from_user_ok space b 4 _ _ Hb4 Hmap Hal) (conj Hb0' Hroom2) Hb64 Hb)|].
  cbn beta. intros r e2 (-> & He2 & Honly & ps & Hps & Hstr). cbn [e_vs] in He2, Honly.
  set (sp := b + 4 * 4096 - strs_size strs - 8 * Z.of_nat (length strs)) in *.
  assert (sp + argv_size strs - 0x4000 = b) as Hsp by (unfold sp, argv_size; lia).
  specialize (HQ sp e2). rewrite Hsp in HQ. apply HQ; [by rewrite He2|].
  unfold program_ready. rewrite Hsp. split_and!; [exact Hb0|lia|exact Hclear| |by exists ps].
  intros sp' va Hout. rewrite (stack_image space b _ p' (e_phys e1) e2 sp' va Hb4 Hmap Hal He2 Honly Hout).
  rewrite <-Him1. by destruct e1.
Qed.

Lemma new_addr_wp s (Q : Z -> sstate (estate P) -> Prop) :
  Q (s_heap s) (mk_sstate (s_threads s) (s_procs s) (s_cpus s) (s_nextpid s) (s_uptime s) (s_heap s + 16) (s_mem s) (s_io s)) ->
  wp new_addr Q s.
Proof. exact id. Qed.
Lemma creatpid_wp s (Q : Z -> sstate (estate P) -> Prop) :
  Q (s_nextpid s) (mk_sstate (s_threads s) (s_procs s) (s_cpus s) (sN 32 (s_nextpid s + 1)) (s_uptime s) (s_heap s) (s_mem s) (s_io s)) ->
  wp creatpid Q s.
Proof. exact id. Qed.
(** A node without an [open] of its own gets a plain descriptor. *)
Lemma vfs_open_wp s node flags mode (Q : Z -> sstate (estate P) -> Prop) :
  op_open (node_ops node) = None ->
  Q (s_heap s) (upd_io (upd_fds (insert (s_heap s) (mk_fd node 0 flags mode)))
    (mk_sstate (s_threads s) (s_procs s) (s_cpus s) (s_nextpid s) (s_uptime s) (s_heap s + 16) (s_mem s) (s_io s))) ->
  wp (vfs_open node flags mode) Q s.
Proof. intros Hop HQ. unfold vfs_open. rewrite Hop. exact HQ. Qed.

(** What [sched_mkelfproc] leaves in the tables: the process at [p] with one thread that
    will start at [rip] with the stack pointer [sp], and two descriptors of the console. *)
Definition proc_records (p rip sp top space console : Z) s s' : Prop :=
  let t := p + 16 in
  s_procs s' = <[p := mk_proc (s_nextpid s) space [p + 32; p + 48] name_unknown (Some [47]) [t] 1 [] 0 [] [0; 0; 0] None]> (s_procs s) /\
  s_threads s' = <[t := mk_thread p THREAD_STATE_READY (with_stack sp (fresh_regs rip USER_CS USER_SS top)) 0 0]> (s_threads s) /\
  io_fds (s_io s') = <[p + 48 := mk_fd console 0 0 0]> (<[p + 32 := mk_fd console 0 0 0]> (io_fds (s_io s))) /\
  s_cpus s' = s_cpus s /\ s_nextpid s' = sN 32 (s_nextpid s + 1) /\ s_heap s' = p + 64.

Lemma sched_mkelfproc_wp fuel path data argv console n k s :
  let h := file_hdr data in let segs := load_segs data h 0 (ph_num h) in
  let strs := path :: argv in
  file_ok data -> ranges_ordered 0 (seg_range <$> segs) -> Forall (fun ph => stack_fits (seg_range ph)) segs ->
  0x5000 <= vs_limit -> 2 ^ 20 < Z.of_N fuel -> Forall bytes strs -> argv_size strs <= 0x4000 ->
  Z.of_nat (length segs + S k) < 2 ^ 31 ->
  (forall s1, s_io s1 = s_io s -> resolve path_console None s1 = Ok (console, s1)) -> console <> 0 ->
  op_open (node_ops console) = None ->
  vs_inv (e_vs (s_mem s)) (vs_mk_cost + (load_cost segs + (4 * S vs_map_cost + n))) (vs_mk_heap + (length segs + S k)) ->
  wp (sched_mkelfproc fuel path data argv) (fun p s' => p = s_heap s /\ exists space sp,
    ~ vs_space (e_vs (s_mem s)) space /\ vs_inv (e_vs (s_mem s')) n k /\
    program_ready data segs strs space sp (s_mem s) (s_mem s') /\
    proc_records p (entry h) sp (sp + argv_size strs) space console s s') s.
Proof.
  intros h segs strs Hok Hord Hfit Hlim Hfuel Hb Hsize Hk Hres Hc Hop Hinv. unfold sched_mkelfproc.
  wp_focus. apply new_addr_wp. wp_focus. apply creatpid_wp. wp_focus. eapply with_vs_wp.
  { cbn [s_mem]. eapply vs_mk_map_wp. exact Hinv. }
  cbn [s_mem set_mem s_threads s_procs s_cpus s_nextpid s_uptime s_heap s_io e_phys].
  intros space p1 (Hinv1 & Hnew & Hsp1 & Hrg1 & Hnone1 & (Ht1 & _)).
  wp_focus. apply new_addr_wp. wp_focus. unfold wp at 1. rewrite Hres by done.
  wp_step. apply wp_guard; [unfold truth; by apply negb_true_iff, Z.eqb_neq|]. wp_focus. apply vfs_open_wp; [exact Hop|].
  wp_focus. apply vfs_open_wp; [exact Hop|].
  eapply make_image_wp with n k;
    [exact Hok|exact Hord|exact Hfit|exact Hlim|exact Hfuel|exact Hb|exact Hsize| | |].
  - cbn [s_mem upd_io set_mem e_vs]. split_and!; [exact Hinv1|exact Hsp1|by apply Hrg1].
  - intros va. cbn [s_mem upd_io set_mem]. unfold image. cbn [e_vs]. by rewrite Hnone1.
  - intros sp e' Hinv' Hready. cbv zeta. wp_step. wp_step. wp_step. wp_step.
    cbn [s_mem set_mem s_threads s_procs s_cpus s_nextpid s_uptime s_heap s_io e_phys upd_io upd_fds io_fds io_root io_mem
      upd_threads upd_procs replicate] in Hready |- *.
    split; [done|]. exists space, sp. split_and!; [exact Hnew|exact Hinv'| |].
    + eapply program_ready_ext; [|exact Hready]. intros sp' va. unfold image. cbn [e_vs e_phys]. by rewrite Ht1.
    + destruct Hready as (Hb' & _). match goal with |- context [u64 ?x] => rewrite (uN_small 64 x), Z.sub_add by lia end.
      unfold proc_records. rewrite <-!Z.add_assoc. split_and!; done.
Qed.

End make.

(** *** A witness on the kernel's page tables *)

Lemma demo_file_ok : file_ok demo_elf.
Proof.
  assert (file_hdr demo_elf = mk_ehdr ([0x7f; 69; 76; 70; 2] ++ replicate 11 0) 0x400000 64 56 1) as Hh
    by (vm_compute; reflexivity).
  assert (load_segs demo_elf (mk_ehdr ([0x7f; 69; 76; 70; 2] ++ replicate 11 0) 0x400000 64 56 1) 0 1 =
    [mk_phdr 1 4096 0x400000 3 3]) as Hs by (vm_compute; reflexivity).
  unfold file_ok. rewrite Hh. cbn [ph_num ph_off ph_ent_size]. rewrite Hs.
  replace (length demo_elf) with (Z.to_nat 8192) by (vm_compute; reflexivity).
  split_and!; [done|vm_compute; reflexivity|done..|].
  apply Forall_singleton. unfold seg_ok. cbn [vaddr mem_sz p_offset].
  replace (seg_size _) with 4096 by (vm_compute; reflexivity). split_and!; done.
Qed.

(** A console device (at address 100) mounted at /dev/console, and nothing else. *)
Definition console_nodes : VfsNodes (sstate (estate (pstate kheap))) := {|
  node_ops _ := mk_vfs_ops None None None None None None None None None None;
  node_flags _ := FS_CHARDEV; node_size _ := 0; node_free _ := mret ();
|}.
Definition plain_paths : Paths (sstate (estate (pstate kheap))) := fun path _ => mret path.
Definition console_root : vtree := vfs_mount 100 [[100; 101; 118]; [99; 111; 110; 115; 111; 108; 101]] (VNode [] 0 []).
Definition bare_sstate : sstate (estate (pstate kheap)) :=
  mk_sstate ∅ ∅ [] 1 0 0x1000 (mk_estate bare_pstate (fun _ => 0)) (mk_io ∅ console_root ∅).

Section witness.
#[local] Existing Instance console_nodes.
#[local] Existing Instance plain_paths.

Lemma console_resolves (s : sstate (estate (pstate kheap))) :
  s_io s = s_io bare_sstate -> resolve path_console None s = Ok (100, s).
Proof.
  intros Hio. change (vfs_resolve_path (io_root (s_io s)) (tokens_of [] path_console) s = Ok (100, s)).
  rewrite Hio. vm_compute. reflexivity.
Qed.

End witness.
