(* ===== verification/Init.v ===== *)
(** * Init: the first user process (sched_spawninit of src/sched/sched.c)

    The program /sbin/init is read from the file system into a buffer, made a process
    ([ProcMake]) and given to the least loaded processor ([Sched]). *)

From S2P Require Import Prelude Disk Pmm Alloc Kheap DList Paging Vfs Sched Elf Spaces SpaceMake Proc ProcMake.

Section init.
Context {P : Type} `{VSpaceMake P} `{VfsNodes (sstate (estate P))} `{Paths (sstate (estate P))}.
Implicit Types s : sstate (estate P).

(** ** Reading a file *)

Lemma fill_lookup a bs (m : gmap Z Z) i b : bs !! i = Some b -> fill a bs m !! (a + Z.of_nat i) = Some b.
Proof.
  revert a i. induction bs as [|c bs IH]; intros a [|i] Hi; try done; cbn [fill].
  - injection Hi as ->. rewrite Z.add_0_r. apply lookup_insert_eq.
  - rewrite lookup_insert_ne by lia. rewrite <- (IH (a + 1) i Hi). f_equal. lia.
Qed.

Lemma mem_loads_wp bs a s (Q : list Z -> sstate (estate P) -> Prop) :
  0 < a -> (forall i b, bs !! i = Some b -> io_mem (s_io s) !! (a + Z.of_nat i) = Some b) -> Q bs s -> wp (mem_loads a (length bs)) Q s.
Proof.
  revert a Q. induction bs as [|b bs IH]; intros a Q Ha Hm HQ; cbn [mem_loads length]; [by wp_step|].
  wp_focus. unfold mem_load. wp_step. wp_step; [apply truth_true; lia|]. wp_step. wp_step.
  eapply wp_unwrap; [rewrite <- (Z.add_0_r a); exact (Hm 0%nat b eq_refl)|]. wp_focus. apply IH; [lia| |by wp_step].
  intros i c Hi. rewrite <- (Hm (S i) c Hi). f_equal. lia.
Qed.

(** A node that reads as the bytes [data]. *)
Definition reads_as (node : Z) (data : list Z) : Prop :=
  node <> 0 /\ node_size node = Z.of_nat (length data) /\
  exists f, op_read (node_ops node) = Some f /\
    forall ptr s, exists n, f ptr 0 (Z.of_nat (length data)) s = Ok (n, upd_bytes (fill ptr data) s).

(** The state while the program's buffer is allocated. *)
Definition buffered (data : list Z) s : sstate (estate P) :=
  upd_bytes (fun m => fill (s_heap s) data (fill (s_heap s) (replicate (length data) 0) m))
    (mk_sstate (s_threads s) (s_procs s) (s_cpus s) (s_nextpid s) (s_uptime s) (s_heap s + 16 * (Z.of_nat (length data) `div` 16 + 1))
       (s_mem s) (s_io s)).

Lemma read_file_wp node data s (Q : Z * list Z -> sstate (estate P) -> Prop) :
  reads_as node data -> 0 < s_heap s -> Q (s_heap s, data) (buffered data s) -> wp (read_file node) Q s.
Proof.
  intros (Hn & Hsz & f & Hf & Hr) Hh HQ. unfold read_file. wp_step. wp_step; [by apply truth_true|]. cbv zeta. rewrite Hsz, Nat2Z.id.
  wp_focus. unfold new_buf. rewrite Nat2Z.id. unfold wp at 1. wp_focus. unfold vfs_read. rewrite Hf. unfold wp at 1.
  destruct (Hr (s_heap s) (upd_bytes (fill (s_heap s) (replicate (length data) 0))
    (mk_sstate (s_threads s) (s_procs s) (s_cpus s) (s_nextpid s) (s_uptime s) (s_heap s + 16 * (Z.of_nat (length data) `div` 16 + 1))
       (s_mem s) (s_io s)))) as [n ->].
  wp_focus. apply mem_loads_wp; [done| |by wp_step]. intros i b Hi. cbn. by apply fill_lookup.
Qed.
(** ** The process *)

Lemma sched_spawn_eq p t pr s :
  s_procs s !! p = Some pr -> p_threads pr !! 0%nat = Some t -> sched_spawn p s = thread_spawn t s.
Proof.
  intros Hp Ht. unfold sched_spawn. eapply bind_Ok; [unfold get_proc; eapply bind_Ok; [reflexivity|]; rewrite Hp; reflexivity|].
  by rewrite Ht.
Qed.

(** What the file system has to promise: /sbin/init reads as [data], and the console is a
    device without an [open] of its own, as long as nothing is mounted. *)
Record init_files (data : list Z) (console : Z) s : Prop := {
  if_node : exists node, resolve path_init None s = Ok (node, s) /\ reads_as node data;
  if_console : forall s1, io_root (s_io s1) = io_root (s_io s) -> resolve path_console None s1 = Ok (console, s1);
  if_some : console <> 0;
  if_open : op_open (node_ops console) = None;
}.

(** The address of the new process: behind the buffer of its file. *)
Definition init_proc (data : list Z) s : Z := s_heap s + 16 * (Z.of_nat (length data) `div` 16 + 1).

End init.

(** ** A witness on the kernel's page tables *)

(** The demonstration program at address 200, mounted at /sbin/init, beside the console. *)
Definition init_nodes : VfsNodes (sstate (estate (pstate kheap))) := {|
  node_ops x := mk_vfs_ops None (if x =? 200 then Some (fun ptr _ n s => Ok (n, upd_bytes (fill ptr demo_elf) s)) else None)
    None None None None None None None None;
  node_flags _ := FS_CHARDEV; node_size x := if x =? 200 then 8192 else 0; node_free _ := mret ();
|}.
Definition init_root : vtree := vfs_mount 200 [[115; 98; 105; 110]; [105; 110; 105; 116]] console_root.
Definition init_sstate : sstate (estate (pstate kheap)) :=
  mk_sstate ∅ ∅ [mk_cpu 0 [] [] false] 1 0 0x1000 (mk_estate bare_pstate (fun _ => 0)) (mk_io ∅ init_root ∅).

Section witness.
#[local] Existing Instance init_nodes.
#[local] Existing Instance plain_paths.

Lemma init_files_demo : init_files demo_elf 100 init_sstate.
Proof.
  split; [|intros s1 Hs|done|reflexivity].
  - exists 200. split; [vm_compute; reflexivity|]. split_and!; [done|vm_compute; reflexivity|].
    eexists. split; [reflexivity|]. intros ptr s. by eexists.
  - change (vfs_resolve_path (io_root (s_io s1)) (tokens_of [] path_console) s1 = Ok (100, s1)). rewrite Hs. vm_compute. reflexivity.
Qed.

End witness.
