(* ===== verification/AhciInit.v ===== *)
(** * AhciInit: bringing up the disks (ahci_init, ahci_init_dev, ahci_probe_ports and
      ahci_port_rebase of src/drivers/storage/ata/ahci/ahci.c)

    The steps of Ahci.v put together: the PCI devices are searched for controllers, a
    controller's ports are probed, and every port with a drive gets its command list,
    tables and buffer.  How a port reports a drive and stops and starts its command engine
    is the class [HbaStart]; memory is the class [VSpaceSpec] of Elf.v.  What is shown
    is that afterwards every disk found satisfies the precondition ([port_ok], [dma_clear])
    under which reading and writing sectors is correct: the base registers hold the physical
    addresses of the command list and FIS area the driver has pointers to, the headers those
    of the tables, and no two of these pages, or buffers, are the same frame. *)

From S2P Require Import Prelude Disk Pmm Alloc Kheap DList Paging Vfs Sched Ports Pci Ahci Elf Spaces SpaceMake.

(** ** The driver *)

(** An [ahci_port_t] with its pointers, and the port they make with a device and memory. *)
Record ahci_disk : Type := mk_ahci_disk { dk_port : ahci_port; dk_com : Z; dk_tbl : list Z; dk_fis : Z }.
Definition dk_state {D} (d : D) (k : ahci_disk) (m : shm) : port_st D := mk_port d (dk_com k) (dk_tbl k) (dk_fis k) m.

(** The PCI bus, the controllers by the address their registers are mapped at
    ([ports_impl] and the ports), the memory manager, memory, and [ahci_ports]. *)
Record ahci_st (T D P : Type) : Type := mk_ahci_st {
  as_pci : T; as_ctrl : gmap Z (Z * list D); as_mem : P; as_sh : shm; as_disks : list ahci_disk;
}.
Arguments mk_ahci_st {T D P}. Arguments as_pci {T D P}. Arguments as_ctrl {T D P}. Arguments as_mem {T D P}. Arguments as_sh {T D P}. Arguments as_disks {T D P}.

Section ops.
Context {T D P : Type} `{Ports T} `{Hba D} `{VSpace P}.

(** [ahci_port_rebase] on a port of the controller; [kmalloc] has zeroed its record. *)
Definition rebase_port (fuel : N) (p : ahci_port) : M (hba D P) ahci_disk := fun s =>
  match ports s !! hba_port p with
  | None => Err OutOfBounds
  | Some d =>
      match ahci_port_rebase fuel (mk_rebase (mk_port d 0 (replicate 32 0) 0 (h_sh s)) (h_mem s)) with
      | Ok (_, r) => let q := rb_port r in
                     Ok (mk_ahci_disk p (comlist q) (comtables q) (p_fis q),
                         mk_hba (ports_impl s) (<[hba_port p := p_hba q]> (ports s)) (rb_mem r) (p_sh q))
      | Err f => Err f
      end
  end.
Fixpoint rebase_all (fuel : N) (l : list ahci_port) : M (hba D P) (list ahci_disk) :=
  match l with
  | [] => mret []
  | p :: l => k ← rebase_port fuel p; ks ← rebase_all fuel l; mret (k :: ks)
  end.
Definition probe_and_rebase (fuel : N) : M (hba D P) (list ahci_disk) :=
  found ← ahci_probe_ports; rebase_all fuel found.

(** The whole of [ahci_init_dev]: [vabar] and [ahci_ports] are set for this controller. *)
Definition ahci_init_ctrl (fuel : N) (dev : pci_dev) : M (ahci_st T D P) () := fun s =>
  match ahci_init_dev dev (as_pci s) with
  | Err f => Err f
  | Ok (vabar, t) =>
      match as_ctrl s !! vabar with
      | None => Err OutOfBounds
      | Some (impl, ps) =>
          match probe_and_rebase fuel (mk_hba impl ps (as_mem s) (as_sh s)) with
          | Err f => Err f
          | Ok (ks, h) => Ok ((), mk_ahci_st t (<[vabar := (ports_impl h, ports h)]> (as_ctrl s)) (h_mem h) (h_sh h) ks)
          end
      end
  end.
Fixpoint ahci_init (fuel : N) (devs : list pci_dev) : M (ahci_st T D P) () :=
  match devs with
  | [] => mret ()
  | d :: devs => (if is_ahci d then ahci_init_ctrl fuel d else mret ());; ahci_init fuel devs
  end.
End ops.

(** ** What the driver relies on *)

Class HbaStart (D B : Type) `{HbaSpec D B} : Type := {
  hba_drive : D -> Prop;                   (* a drive is attached; the engine may be running *)
  hba_empty : D -> Prop;                   (* nothing is attached *)
  hba_halted : D -> Prop;                  (* ST has been cleared *)
  hba_stopping : nat -> nat -> D -> Prop;  (* FR and CR read as set that many times more *)
  hba_armed : D -> Prop;                   (* FRE has been set *)
  hba_stop_polls : nat;
  hba_drive_stat d : hba_drive d -> let r := hba_rd SATA_STAT d in
    r.1 .& 0xf = HBA_PORT_DET_PRESENT /\ Z.shiftr r.1 8 .& 0xf = HBA_PORT_IPM_ACTIVE /\ hba_drive r.2 /\ hba_view r.2 = hba_view d;
  hba_drive_sig d : hba_drive d -> let r := hba_rd SIG d in r.1 = SATA_SIG_ATA /\ hba_drive r.2 /\ hba_view r.2 = hba_view d;
  hba_empty_stat d : hba_empty d -> let r := hba_rd SATA_STAT d in r.1 .& 0xf <> HBA_PORT_DET_PRESENT;
  hba_drive_cmd d : hba_drive d -> let r := hba_rd CMD_STAT d in hba_drive r.2 /\ hba_view r.2 = hba_view d;
  hba_drive_halt d v : hba_drive d -> Z.testbit v 0 = false ->
    hba_halted (hba_wr CMD_STAT v d) /\ hba_view (hba_wr CMD_STAT v d) = hba_view d;
  hba_halted_cmd d : hba_halted d -> let r := hba_rd CMD_STAT d in
    Z.testbit r.1 0 = false /\ hba_halted r.2 /\ hba_view r.2 = hba_view d;
  hba_halted_stop d v : hba_halted d -> Z.testbit v 0 = false -> Z.testbit v 4 = false ->
    (exists n m, (n <= hba_stop_polls)%nat /\ (m <= hba_stop_polls)%nat /\ hba_stopping n m (hba_wr CMD_STAT v d)) /\
    hba_view (hba_wr CMD_STAT v d) = hba_view d;
  hba_stopping_cmd d n m : hba_stopping n m d -> let r := hba_rd CMD_STAT d in
    Z.testbit r.1 14 = negb (n =? 0)%nat /\ Z.testbit r.1 15 = negb (m =? 0)%nat /\ Z.testbit r.1 0 = false /\
    hba_stopping (pred n) (pred m) r.2 /\ hba_view r.2 = hba_view d;
  (** The base registers of a stopped port take an aligned address below 4 GiB. *)
  hba_stopped_clb d a : hba_stopping 0 0 d -> 0 <= a < 2 ^ 32 -> a `mod` 4096 = 0 ->
    let d' := hba_wr COM_BASE_ADDR_U 0 (hba_wr COM_BASE_ADDR a d) in
    hba_stopping 0 0 d' /\ hba_view d' = (hba_disk d, a, hba_fb d);
  hba_stopped_fb d a : hba_stopping 0 0 d -> 0 <= a < 2 ^ 32 -> a `mod` 4096 = 0 ->
    let d' := hba_wr FIS_BASE_U 0 (hba_wr FIS_BASE a d) in
    hba_stopping 0 0 d' /\ hba_view d' = (hba_disk d, hba_clb d, a);
  hba_stopped_arm d v : hba_stopping 0 0 d -> Z.testbit v 0 = false -> Z.testbit v 4 = true ->
    hba_armed (hba_wr CMD_STAT v d) /\ hba_view (hba_wr CMD_STAT v d) = hba_view d;
  hba_armed_cmd d : hba_armed d -> let r := hba_rd CMD_STAT d in
    Z.testbit r.1 4 = true /\ hba_armed r.2 /\ hba_view r.2 = hba_view d;
  hba_armed_start d v : hba_armed d -> Z.testbit v 0 = true -> Z.testbit v 4 = true ->
    hba_ready (hba_wr CMD_STAT v d) /\ hba_view (hba_wr CMD_STAT v d) = hba_view d;
}.

Section engine.
Context {D B : Type} `{HbaStart D B}.
Implicit Types s : port_st D.

Lemma u32_testbit v i : 0 <= i < 32 -> Z.testbit (u32 v) i = Z.testbit v i.
Proof. intros Hi. unfold uN. rewrite Z.mod_pow2_bits_low by lia. done. Qed.
Lemma truth_bit c i : 0 <= i -> truth (c .& 2 ^ i) = Z.testbit c i.
Proof. intros Hi. by apply truth_land_pow2. Qed.

Lemma ahci_stop_cmd_wp fuel Q s :
  hba_drive (p_hba s) -> (hba_stop_polls < N.to_nat fuel)%nat ->
  (forall d, hba_stopping 0 0 d -> hba_view d = hba_view (p_hba s) -> Q () (with_hba d s)) ->
  wp (ahci_stop_cmd fuel) Q s.
Proof.
  intros Hd Hf HQ. unfold ahci_stop_cmd. wp_focus. apply rd_wp. destruct (hba_drive_cmd _ Hd) as [Hd1 E1].
  unfold wr. wp_step. wp_step. cbn [p_hba with_hba]. set (v1 := u32 _).
  destruct (hba_drive_halt _ v1 Hd1) as [Hd2 E2].
  { unfold v1. rewrite u32_testbit, Z.land_spec, Z.lnot_spec by lia. unfold HBA_PXCMD_ST. by rewrite andb_false_r. }
  wp_focus. apply rd_wp. cbn [p_hba with_hba]. destruct (hba_halted_cmd _ Hd2) as (B0 & Hd3 & E3).
  wp_step. wp_step. cbn [p_hba with_hba]. set (v2 := u32 _).
  destruct (hba_halted_stop _ v2 Hd3) as [(n & m & Hn & Hm & Hd4) E4].
  { unfold v2. rewrite u32_testbit, Z.land_spec by lia. by rewrite B0. }
  { unfold v2. rewrite u32_testbit, Z.land_spec, Z.lnot_spec by lia. unfold HBA_PXCMD_FRE. by rewrite andb_false_r. }
  set (d4 := hba_wr CMD_STAT v2 _) in *. assert (hba_view d4 = hba_view (p_hba s)) as Ed4 by congruence. clearbody d4.
  apply (wp_while (fun k _ s' => exists n m d, k = max n m /\ s' = with_hba d s /\ hba_stopping n m d /\ hba_view d = hba_view (p_hba s))
    (max n m)); [by exists n, m, d4|lia|].
  clear n m Hn Hm Hd4 Ed4 E4 d4. intros k [] s' (n & m & d & -> & -> & Hd5 & E5). wp_focus. apply rd_wp. cbn [p_hba with_hba].
  destruct (hba_stopping_cmd _ _ _ Hd5) as (B14 & B15 & _ & Hd6 & E6).
  change HBA_PXCMD_FR with (2 ^ 14). rewrite truth_bit, B14 by lia. destruct n as [|n]; cbn [Nat.eqb negb].
  2: { wp_step. exists (max n (pred m)). split; [lia|]. exists n, (pred m). eexists. split_and!; [done|done|done|congruence]. }
  wp_focus. apply rd_wp. cbn [p_hba with_hba]. destruct (hba_stopping_cmd _ _ _ Hd6) as (_ & C15 & _ & Hd7 & E7).
  change HBA_PXCMD_CR with (2 ^ 15). rewrite truth_bit, C15 by lia. destruct m as [|[|m]]; cbn [pred Nat.eqb negb] in *.
  - wp_step. apply HQ; [done|congruence].
  - wp_step. apply HQ; [done|congruence].
  - wp_step. exists m. split; [lia|]. exists 0%nat, m. eexists. split_and!; [done|done|done|congruence].
Qed.

Lemma ahci_start_cmd_wp fuel Q s :
  hba_stopping 0 0 (p_hba s) -> (0 < N.to_nat fuel)%nat ->
  (forall d, hba_ready d -> hba_view d = hba_view (p_hba s) -> Q () (with_hba d s)) ->
  wp (ahci_start_cmd fuel) Q s.
Proof.
  intros Hd Hf HQ. unfold ahci_start_cmd, wr. wp_focus.
  apply (wp_while (fun _ _ s' => s' = s) 0); [done|done|]. intros k [] s' ->. wp_focus. apply rd_wp.
  destruct (hba_stopping_cmd _ _ _ Hd) as (_ & B15 & _ & Hd1 & E1). change HBA_PXCMD_CR with (2 ^ 15). rewrite truth_bit, B15 by lia.
  cbn [Nat.eqb negb pred] in *. wp_step.
  wp_focus. apply rd_wp. cbn [p_hba with_hba]. destruct (hba_stopping_cmd _ _ _ Hd1) as (_ & _ & B0 & Hd2 & E2).
  wp_step. wp_step. cbn [p_hba with_hba pred] in *. set (v1 := u32 _).
  destruct (hba_stopped_arm _ v1 Hd2) as [Hd3 E3].
  { unfold v1. rewrite u32_testbit, Z.lor_spec, B0 by lia. done. }
  { unfold v1. rewrite u32_testbit, Z.lor_spec by lia. unfold HBA_PXCMD_FRE. by rewrite orb_true_r. }
  wp_focus. apply rd_wp. cbn [p_hba with_hba]. destruct (hba_armed_cmd _ Hd3) as (B4 & Hd4 & E4).
  wp_step. cbn [p_hba with_hba]. set (v2 := u32 _).
  destruct (hba_armed_start _ v2 Hd4) as [Hd5 E5].
  { unfold v2. rewrite u32_testbit, Z.lor_spec by lia. unfold HBA_PXCMD_ST. by rewrite orb_true_r. }
  { unfold v2. rewrite u32_testbit, Z.lor_spec, B4 by lia. done. }
  apply HQ; [done|congruence].
Qed.
End engine.

(** ** The PCI side *)

Section pci.
Context {T : Type} `{PciPorts T}.

Lemma cfg_addr_bar5 b s f : cfg_addr b s f (PCI_BAR0 + u8 5 * 4) <> cfg_addr b s f PCI_COMMAND.
Proof.
  intros E. apply (f_equal (fun z => Z.testbit z 5)) in E. unfold cfg_addr in E. rewrite !u32_testbit in E by lia.
  rewrite !Z.lor_spec, !Z.shiftl_spec_low in E by lia. discriminate E.
Qed.

(** The registers are where the sixth base address register says. *)
Definition abar_of (v : pci_dev) (t : T) : Z :=
  let b := cfg_space t (cfg_addr (bus v) (slot v) (func v) (PCI_BAR0 + u8 5 * 4)) in
  page_map_mmio (if truth (b .& 1) then b .& 0xFFFFFFFFFFFFFFFC else b .& 0xFFFFFFFFFFFFFFF0).

Lemma ahci_init_dev_wp v t : wp (ahci_init_dev v) (fun a _ => a = abar_of v t) t.
Proof.
  set (a5 := cfg_addr (bus v) (slot v) (func v) (PCI_BAR0 + u8 5 * 4)).
  assert (a5 <> cfg_addr (bus v) (slot v) (func v) PCI_COMMAND) as Hne by apply cfg_addr_bar5.
  unfold ahci_init_dev. wp_focus. eapply wp_mono; [apply pci_enable_bus_master_wp|]. intros [] t1 [_ H1]. specialize (H1 a5 Hne).
  wp_focus. eapply wp_mono; [apply pci_enable_ints_wp|]. intros [] t2 [_ H2]. specialize (H2 a5 Hne).
  wp_focus. eapply wp_mono; [apply pci_enable_mem_space_wp|]. intros [] t3 [_ H3]. specialize (H3 a5 Hne).
  unfold pci_get_base_addr. wp_focus. wp_focus. apply pci_cfg_readl_wp. intros t4 _. wp_step. wp_step.
  unfold abar_of. fold a5. by rewrite <- H1, <- H2, <- H3.
Qed.
End pci.

(** ** Frames *)

Lemma mmio_phys_map a : 0 <= a < 2 ^ 32 -> mmio_phys (page_map_mmio a) = Some a.
Proof.
  intros Ha. unfold mmio_phys, page_map_mmio, IO_VIRTUAL_ADDR, KERNEL_VIRTUAL_ADDR. rewrite (uN_small 64 (a + _)) by lia.
  replace (a + _ - _) with a by lia. rewrite uN_small by lia. by rewrite (proj2 (Z.ltb_lt _ _)) by lia.
Qed.
Lemma page_map_mmio_nz a : 0 <= a < 2 ^ 32 -> page_map_mmio a <> 0.
Proof. intros Ha. unfold page_map_mmio, IO_VIRTUAL_ADDR, KERNEL_VIRTUAL_ADDR. rewrite uN_small by lia. lia. Qed.
Lemma low_word a : 0 <= a < 2 ^ 32 -> u32 (a .& 0xffffffff) = a /\ u32 (Z.shiftr a 32) = 0 /\ u32 a = a.
Proof.
  intros Ha. change 0xffffffff with (Z.ones 32). rewrite Z.land_ones, Z.shiftr_div_pow2 by lia.
  rewrite Z.mod_small, Z.div_small, !uN_small by lia. done.
Qed.

Section frames.
Context {P : Type} `{VSpaceSpec P}.
Implicit Types (p : P) (m : shm).

(** What the driver's use of the memory manager leaves alone. *)
Definition vs_step p p' : Prop :=
  (forall f, vs_owned p f -> vs_owned p' f) /\ (forall v, vs_win p v -> vs_win p' v) /\
  vs_kkept p p' (fun _ => False) /\ vs_top p' = vs_top p.
Lemma vs_step_refl p : vs_step p p.
Proof. split_and!; [done|done| |done]. by intros v f _ _. Qed.
Lemma vs_step_trans p1 p2 p3 : vs_step p1 p2 -> vs_step p2 p3 -> vs_step p1 p3.
Proof.
  intros (O1 & W1 & K1 & T1) (O2 & W2 & K2 & T2). split_and!; [auto|auto| |congruence].
  intros v f Hn Hw Hf. apply K2; [done|by apply W1|]. by apply K1.
Qed.

(** The structures are in frames that were handed out, below 4 GiB. *)
Definition mgr_ok p m (n j : nat) : Prop :=
  vs_inv p n j /\ vs_top p <= 2 ^ 32 /\ forall a, struct_at m a -> vs_owned p a.

Lemma frame_wp p m n j (Q : Z -> P -> Prop) :
  mgr_ok p m (S n) j ->
  (forall f p', mgr_ok p' m n j -> 0 <= f < 2 ^ 32 -> f `mod` 4096 = 0 -> ~ vs_owned p f -> vs_owned p' f -> vs_step p p' -> Q f p') ->
  wp vs_request Q p.
Proof.
  intros (Hv & Ht & Hs) HQ. eapply wp_mono; [by apply vs_request_wp|].
  intros f p' (Hv' & Hf & (_ & Hno & Hk) & Ho & (_ & _ & Hw & Hown & Htop) & _).
  destruct (vs_owned_range _ _ _ _ Hv' Ho) as [_ Hr]. apply HQ; try done; [split_and!; [done|lia|auto]|lia].
Qed.

(** The structures of [m] are those of [m'], which has new ones in frames that were free. *)
Record grows p m m' : Prop := {
  gr_lists : forall a x, sh_lists m !! a = Some x -> sh_lists m' !! a = Some x;
  gr_tbls : forall a x, sh_tbls m !! a = Some x -> sh_tbls m' !! a = Some x;
  gr_fis : forall a x, sh_fis m !! a = Some x -> sh_fis m' !! a = Some x;
  gr_mem : sh_mem m' = sh_mem m;
  gr_new : forall a, struct_at m' a -> struct_at m a \/ ~ vs_owned p a;
}.
Lemma grows_refl p m : grows p m m.
Proof. split; try done. by left. Qed.
Lemma grows_trans p p' m1 m2 m3 : grows p m1 m2 -> vs_step p p' -> grows p' m2 m3 -> grows p m1 m3.
Proof.
  intros [] (Ho & _) []. split; [auto|auto|auto|congruence|]. intros a Ha. destruct (gr_new1 a Ha) as [Hb|Hb]; [auto|]. right. auto.
Qed.

(** A structure in a fresh frame. *)
Lemma not_struct m a : ~ struct_at m a -> sh_lists m !! a = None /\ sh_tbls m !! a = None /\ sh_fis m !! a = None.
Proof. intros Hn. unfold struct_at in Hn. split_and!; apply eq_None_not_Some; tauto. Qed.
Lemma new_list_eq m a : ~ struct_at m a -> new_list a m = mk_shm (<[a := replicate 128 hdr_zero]> (sh_lists m)) (sh_tbls m) (sh_fis m) (sh_mem m).
Proof. intros (E1 & E2 & E3)%not_struct. unfold new_list. by rewrite !delete_id. Qed.
Lemma new_tbl_eq m a : ~ struct_at m a -> new_tbl a m = mk_shm (sh_lists m) (<[a := tbl_zero]> (sh_tbls m)) (sh_fis m) (sh_mem m).
Proof. intros (E1 & E2 & E3)%not_struct. unfold new_tbl. by rewrite !delete_id. Qed.
Lemma new_fis_eq m a f : ~ struct_at m a -> new_fis a f m = mk_shm (sh_lists m) (sh_tbls m) (<[a := f]> (sh_fis m)) (sh_mem m).
Proof. intros (E1 & E2 & E3)%not_struct. unfold new_fis. by rewrite !delete_id. Qed.

(** A change of the entry at [a] that was no structure of [m0], or a new entry there. *)
Lemma insert_some {V} (m : gmap Z V) a b v : is_Some (<[a := v]> m !! b) -> b = a \/ is_Some (m !! b).
Proof. rewrite lookup_insert. case_decide; [by left|by right]. Qed.

Lemma grows_at p0 m0 m m' a :
  grows p0 m0 m -> ~ struct_at m0 a -> ~ vs_owned p0 a -> sh_mem m' = sh_mem m ->
  (forall b, b <> a -> sh_lists m' !! b = sh_lists m !! b /\ sh_tbls m' !! b = sh_tbls m !! b /\ sh_fis m' !! b = sh_fis m !! b) ->
  grows p0 m0 m'.
Proof.
  intros [G1 G2 G3 G4 G5] (N1 & N2 & N3)%not_struct Ho Em Hb. split; [| | |congruence|].
  - intros b x Hx. destruct (Hb b) as (-> & _); [congruence|auto].
  - intros b x Hx. destruct (Hb b) as (_ & -> & _); [congruence|auto].
  - intros b x Hx. destruct (Hb b) as (_ & _ & ->); [congruence|auto].
  - intros b Hsb. destruct (decide (b = a)) as [->|Hne]; [by right|]. apply G5. unfold struct_at in *.
    destruct (Hb b Hne) as (<- & <- & <-). done.
Qed.
End frames.

(** ** A port is made ready *)

Section ports.
Context {D B P : Type} `{HbaStart D B} `{VSpaceSpec P}.
Implicit Types s : @rebase_st D P.

Lemma on_port_wp {A} (c : M (port_st D) A) (Q : A -> rebase_st -> Prop) s :
  wp c (fun a p => Q a (mk_rebase p (rb_mem s))) (rb_port s) -> wp (on_port c) Q s.
Proof. unfold wp, on_port. by destruct (c (rb_port s)) as [[a p]|]. Qed.
Lemma on_vs_wp {A} (c : M P A) (Q : A -> rebase_st -> Prop) s :
  wp c (fun a p => Q a (mk_rebase (rb_port s) p)) (rb_mem s) -> wp (on_vs c) Q s.
Proof. unfold wp, on_vs. by destruct (c (rb_mem s)) as [[a p]|]. Qed.
Lemma clear_page_wp a f (Q : () -> port_st D -> Prop) (q : port_st D) :
  0 <= a < 2 ^ 32 -> Q () (with_sh (f a (p_sh q)) q) -> wp (clear_page (page_map_mmio a) f) Q q.
Proof. intros Ha HQ. unfold clear_page. wp_focus. eapply wp_unwrap; [by apply mmio_phys_map|]. by wp_step. Qed.
Lemma set_hdr_wp i f a hs h (Q : () -> port_st D -> Prop) (q : port_st D) :
  mmio_phys (comlist q) = Some a -> sh_lists (p_sh q) !! a = Some hs -> hs !! Z.to_nat i = Some h ->
  Q () (with_sh (set_lists (<[a := <[Z.to_nat i := f h]> hs]> (sh_lists (p_sh q))) (p_sh q)) q) -> wp (set_hdr i f) Q q.
Proof.
  intros Ha Hl Hh HQ. unfold set_hdr. wp_step. wp_step. wp_focus. eapply wp_unwrap; [exact Ha|]. wp_focus.
  eapply wp_unwrap; [exact Hl|]. wp_focus. eapply wp_unwrap; [exact Hh|]. by wp_step.
Qed.

(** The port, with command list at [cl] and FIS area at [fa], after the first [i] slots. *)
Record slots_up (p0 : P) (m0 : shm) (d : D) (cl fa i : Z) (n j : nat) s : Prop := {
  su_hba : p_hba (rb_port s) = d;
  su_list : comlist (rb_port s) = page_map_mmio cl;
  su_tabs : length (comtables (rb_port s)) = 32%nat;
  su_fis : is_Some (sh_fis (p_sh (rb_port s)) !! fa);
  su_slot : exists hs, sh_lists (p_sh (rb_port s)) !! cl = Some hs /\ length hs = 128%nat /\
    (0 < i -> exists h v, hs !! 0%nat = Some h /\ comtables (rb_port s) !! 0%nat = Some v /\ v <> 0 /\
       mmio_phys v = Some (hdr_tbl h) /\ is_Some (sh_tbls (p_sh (rb_port s)) !! hdr_tbl h));
  su_mgr : mgr_ok (rb_mem s) (p_sh (rb_port s)) n j;
  su_grows : grows p0 m0 (p_sh (rb_port s));
  su_step : vs_step p0 (rb_mem s);
}.

Lemma rebase_slot_wp p0 m0 d cl fa i n j s :
  slots_up p0 m0 d cl fa i (S n) j s -> 0 <= i < 8 -> 0 <= cl < 2 ^ 32 -> ~ vs_owned p0 cl ->
  (forall a, struct_at m0 a -> vs_owned p0 a) ->
  wp (rebase_slot i) (fun _ s' => slots_up p0 m0 d cl fa (i + 1) n j s') s.
Proof.
  intros [Eh El Ht Hfis (hs & Hl & Hlen & Hz) Hm Hg Hst] Hi Hcl Hncl Hown0. unfold rebase_slot.
  destruct (lookup_lt_is_Some_2 hs (Z.to_nat i)) as [h Hh]; [lia|].
  assert (mmio_phys (comlist (rb_port s)) = Some cl) as Hp by (rewrite El; by apply mmio_phys_map).
  wp_focus. apply on_port_wp. eapply set_hdr_wp; [exact Hp|exact Hl|exact Hh|].
  wp_focus. apply on_vs_wp. eapply frame_wp; [exact Hm|]. cbn [rb_mem rb_port]. intros f p' Hm' Hf Hf4 Hnf Hof Hst'.
  wp_focus. apply on_port_wp. cbn [rb_mem rb_port]. eapply set_hdr_wp; [exact Hp|apply lookup_insert_eq|apply list_lookup_insert_eq; lia|].
  wp_focus. apply on_port_wp. cbn [rb_mem rb_port]. eapply set_hdr_wp; [exact Hp|apply lookup_insert_eq|apply list_lookup_insert_eq; by rewrite length_insert; lia|].
  wp_focus. apply on_port_wp. unfold set_comtable. wp_step. apply on_port_wp, clear_page_wp; [done|]. destruct (low_word f Hf) as (_ & E2 & E3).
  cbn [rb_port rb_mem with_sh p_hba comlist comtables p_fis p_sh set_lists sh_lists sh_tbls sh_fis sh_mem cmd_fis_len h_write prdt_len cmd_tbl_base_addr cmd_tbl_base_addr_u].
  rewrite E2, E3, !insert_insert_eq, !list_insert_insert_eq. unfold with_sh, set_lists. cbn [sh_lists sh_tbls sh_fis sh_mem p_hba comlist comtables p_fis p_sh].
  set (h' := mk_hdr _ _ _ f 0). set (m := mk_shm _ _ _ _).
  assert (hdr_tbl h' = f) as Eh' by (unfold hdr_tbl, h'; cbn; lia).
  assert (~ struct_at (p_sh (rb_port s)) f) as Hnst by (intros Hs; apply Hnf; by apply Hm).
  assert (same_structs (p_sh (rb_port s)) m) as Hsame.
  { intros a. unfold struct_at, m. cbn [sh_lists sh_tbls sh_fis]. by rewrite insert_is_Some. }
  rewrite new_tbl_eq by (by intros Hs%Hsame). unfold m. cbn [sh_lists sh_tbls sh_fis sh_mem]. split; cbn [rb_port rb_mem p_hba comlist comtables p_fis p_sh sh_lists sh_tbls sh_fis sh_mem].
  - done.
  - done.
  - by rewrite length_insert.
  - done.
  - exists (<[Z.to_nat i := h']> hs). rewrite lookup_insert_eq, length_insert. split_and!; [done|done|]. intros _.
    destruct (decide (i = 0)) as [->|Hne].
    + exists h', (page_map_mmio f). change (Z.to_nat 0) with 0%nat. rewrite !list_lookup_insert_eq, Eh', lookup_insert_eq by lia.
      split_and!; [done|done|by apply page_map_mmio_nz|by apply mmio_phys_map|done].
    + destruct (Hz ltac:(lia)) as (h0 & v0 & X1 & X2 & X3 & X4 & X5). exists h0, v0. rewrite !list_lookup_insert_ne by lia.
      split_and!; try done. rewrite lookup_insert. by case_decide.
  - destruct Hm' as (V1 & V2 & V3). split_and!; [done|done|]. intros a [Ha|[Ha|Ha]].
    + apply V3. apply Hsame. by left.
    + apply insert_some in Ha as [->|Ha]; [done|]. apply V3. right. by left.
    + apply V3. right. by right.
  - assert (~ vs_owned p0 f) as Hf0 by (intros Ho; by apply Hnf, Hst).
    apply (grows_at _ _ m _ f); [|by intros Hs%Hown0|done|done|intros b Hb; unfold m; cbn [sh_lists sh_tbls sh_fis];
      split_and!; [done|by rewrite lookup_insert_ne by congruence|done]].
    apply (grows_at _ _ (p_sh (rb_port s)) _ cl); [done|by intros Hs%Hown0|done|done|].
    intros b Hb. unfold m. cbn [sh_lists sh_tbls sh_fis]. by rewrite lookup_insert_ne by congruence.
  - by eapply vs_step_trans.
Qed.

Definition REBASE_FRAMES : nat := 10.

(** From the command list and FIS area to the first slot. *)
Lemma slots_up_0 (p0 p1 p2 : P) m0 (d : D) v cl fa n j tabs :
  mgr_ok p0 m0 (S (S n)) j -> ~ vs_owned p0 cl -> ~ vs_owned p1 fa -> vs_owned p1 cl -> vs_owned p2 fa ->
  vs_step p0 p1 -> vs_step p1 p2 -> vs_inv p2 n j -> vs_top p2 <= 2 ^ 32 -> length tabs = 32%nat ->
  slots_up p0 m0 d cl fa 0 n j (mk_rebase (mk_port d (page_map_mmio cl) tabs v (new_fis fa fis_types (new_list cl m0))) p2).
Proof.
  intros (_ & _ & Hown) Hcl Hfa Ocl Ofa S1 S2 Hv Ht Hl.
  assert (~ struct_at m0 cl) as Ncl by (intros Hs; by apply Hcl, Hown).
  assert (~ vs_owned p0 fa) as Hfa0 by (intros Ho; by apply Hfa, S1).
  assert (~ struct_at m0 fa) as Nfa by (intros Hs; by apply Hfa0, Hown).
  assert (cl <> fa) as Hne by (intros ->; done).
  rewrite (new_list_eq m0 cl Ncl). set (m1 := mk_shm _ _ _ _).
  assert (forall a, struct_at m1 a -> a = cl \/ struct_at m0 a) as Hs1.
  { intros a [Ha|Ha]; [apply insert_some in Ha as [->|Ha]; [by left|right; by left]|right; by right]. }
  rewrite (new_fis_eq m1 fa) by (intros Hs; apply Hs1 in Hs as [?|?]; [congruence|done]). unfold m1. cbn [sh_lists sh_tbls sh_fis sh_mem].
  split; cbn [rb_port rb_mem p_hba comlist comtables p_fis p_sh sh_lists sh_tbls sh_fis sh_mem]; try done.
  - rewrite lookup_insert_eq. by eexists.
  - exists (replicate 128 hdr_zero). rewrite lookup_insert_eq. split_and!; [done|apply length_replicate|lia].
  - split_and!; [done|done|]. intros a Ha. assert (a = fa \/ struct_at m1 a) as [->|[->|Ha']%Hs1].
    { destruct Ha as [Ha|[Ha|Ha]]; [right; by left|right; right; by left|]. apply insert_some in Ha as [->|Ha]; [by left|right; right; by right]. }
    + done.
    + by apply S2.
    + apply S2, S1. by apply Hown.
  - apply (grows_at _ _ m1 _ fa); [|done|done|done|intros b Hb; unfold m1; cbn [sh_lists sh_tbls sh_fis];
      split_and!; [done|done|by rewrite lookup_insert_ne by congruence]].
    apply (grows_at _ _ m0 _ cl); [apply grows_refl|done|done|done|]. intros b Hb. unfold m1. cbn [sh_lists sh_tbls sh_fis]. by rewrite lookup_insert_ne by congruence.
  - by eapply vs_step_trans.
Qed.

Lemma ahci_port_rebase_wp fuel n j s :
  let m0 := p_sh (rb_port s) in
  hba_drive (p_hba (rb_port s)) -> length (comtables (rb_port s)) = 32%nat -> mgr_ok (rb_mem s) m0 (REBASE_FRAMES + n) j ->
  (hba_stop_polls < N.to_nat fuel)%nat ->
  wp (ahci_port_rebase fuel) (fun _ s' => port_ok (rb_port s') /\ hba_disk (p_hba (rb_port s')) = hba_disk (p_hba (rb_port s)) /\
    mgr_ok (rb_mem s') (p_sh (rb_port s')) n j /\ grows (rb_mem s) m0 (p_sh (rb_port s')) /\ vs_step (rb_mem s) (rb_mem s')) s.
Proof.
  intros m0 Hd Hl Hm Hf. unfold ahci_port_rebase. wp_focus. apply on_port_wp, ahci_stop_cmd_wp; [done|done|]. intros d1 Hd1 E1.
  injection E1 as E1 _ _.
  wp_focus. apply on_vs_wp. cbn [rb_mem]. eapply (frame_wp _ m0 (9 + n) j); [exact Hm|]. intros cl p1 Hm1 Hcl Hcl4 Hncl Hocl Hs1.
  destruct (low_word cl Hcl) as (L1 & L2 & _). wp_focus. apply on_port_wp. unfold wr. wp_step. wp_focus. apply on_port_wp. wp_step.
  cbn [rb_port rb_mem with_hba p_hba comlist comtables p_fis p_sh]. rewrite L1, L2.
  destruct (hba_stopped_clb d1 cl Hd1 Hcl Hcl4) as [Hd2 E2]. injection E2 as E2 C2 _. set (d2 := hba_wr COM_BASE_ADDR_U 0 _) in *. clearbody d2.
  wp_focus. apply on_port_wp. unfold set_comlist. wp_step. wp_focus. apply on_port_wp, clear_page_wp; [done|].
  wp_focus. apply on_vs_wp. cbn [rb_mem rb_port]. eapply (frame_wp _ m0 (8 + n) j); [exact Hm1|]. intros fa p2 Hm2 Hfa Hfa4 Hnfa Hofa Hs2.
  destruct (low_word fa Hfa) as (L3 & L4 & _). wp_focus. apply on_port_wp. wp_step. wp_focus. apply on_port_wp. wp_step.
  cbn [rb_port rb_mem with_hba with_sh p_hba comlist comtables p_fis p_sh]. rewrite L3, L4.
  destruct (hba_stopped_fb d2 fa Hd2 Hfa Hfa4) as [Hd3 E3]. injection E3 as E3 C3 F3. set (d3 := hba_wr FIS_BASE_U 0 _) in *. clearbody d3.
  wp_focus. apply on_port_wp. unfold set_fis. wp_step. wp_focus. apply on_port_wp, clear_page_wp; [done|].
  cbn [rb_port rb_mem with_hba with_sh p_hba comlist comtables p_fis p_sh]. destruct Hm2 as (V2 & T2 & _).
  wp_focus. apply (wp_for_each (fun i s' => slots_up (rb_mem s) m0 d3 cl fa i (Z.to_nat (8 - i) + n) j s')); [lia| | |].
  - by apply (slots_up_0 (rb_mem s) p1 p2).
  - intros i s1 Hi Hup. apply (rebase_slot_wp (rb_mem s) m0 d3 cl fa i); [|lia|done|done|apply Hm].
    by replace (Z.to_nat (8 - i) + n)%nat with (S (Z.to_nat (8 - (i + 1)) + n)) in Hup by lia.
  - intros s1 [Eh El Ht Hfis (hs & Hhs & Hlen & Hz) Hm' Hg Hst]. apply on_port_wp, ahci_start_cmd_wp; [by rewrite Eh|lia|].
    intros d4 Hd4 E4. rewrite Eh in E4. injection E4 as E4 C4 F4. cbn [rb_port rb_mem with_hba p_hba p_sh]. split_and!; [|congruence|done..].
    destruct (Hz ltac:(lia)) as (h & v & X1 & X2 & X3 & X4 & X5).
    constructor; cbn [with_hba p_hba comlist comtables p_fis p_sh]; rewrite ?C4, ?C3, ?C2, ?F4, ?F3; [done| | |done].
    + rewrite El. by apply mmio_phys_map.
    + by exists hs, h, v.
Qed.
End ports.

(** ** The ports of a controller *)

Section probe.
Context {D B P : Type} `{HbaStart D B} `{VSpaceSpec P}.
Implicit Types s : hba D P.

Definition with_ports (ps : list D) s : hba D P := mk_hba (ports_impl s) ps (h_mem s) (h_sh s).

Lemma on_mem_wp {A} (m : M P A) (Q : A -> hba D P -> Prop) s :
  wp m (fun a p => Q a (mk_hba (ports_impl s) (ports s) p (h_sh s))) (h_mem s) -> wp (on_mem m) Q s.
Proof. unfold wp, on_mem. by destruct (m (h_mem s)) as [[a p]|]. Qed.
Lemma port_rd_wp i r d (Q : Z -> hba D P -> Prop) s :
  ports s !! i = Some d -> Q (hba_rd r d).1 (with_ports (<[i := (hba_rd r d).2]> (ports s)) s) -> wp (port_rd i r) Q s.
Proof. intros Hi HQ. unfold port_rd, wp. rewrite Hi. by destruct (hba_rd r d). Qed.

Lemma check_type_drive i d (Q : Z -> hba D P -> Prop) s :
  ports s !! i = Some d -> hba_drive d ->
  (forall d', hba_drive d' -> hba_disk d' = hba_disk d -> Q AHCI_PORT_SATA (with_ports (<[i := d']> (ports s)) s)) ->
  wp (check_type i) Q s.
Proof.
  intros Hi Hd HQ. destruct (hba_drive_stat _ Hd) as (B1 & B2 & Hd1 & E1). unfold check_type. wp_focus.
  eapply port_rd_wp; [exact Hi|]. rewrite B1, B2, !Z.eqb_refl. cbn [negb]. destruct (hba_drive_sig _ Hd1) as (B3 & Hd2 & E2).
  wp_focus. eapply port_rd_wp; [apply list_lookup_insert_eq; by eapply lookup_lt_Some|]. rewrite B3, Z.eqb_refl.
  wp_step. unfold with_ports. cbn [ports ports_impl h_mem h_sh]. rewrite list_insert_insert_eq. apply HQ; [done|]. unfold hba_view in *. congruence.
Qed.
Lemma check_type_empty i d (Q : Z -> hba D P -> Prop) s :
  ports s !! i = Some d -> hba_empty d -> (forall d', Q AHCI_PORT_NULL (with_ports (<[i := d']> (ports s)) s)) ->
  wp (check_type i) Q s.
Proof.
  intros Hi Hd HQ. pose proof (hba_empty_stat _ Hd) as B1. unfold check_type. wp_focus. eapply port_rd_wp; [exact Hi|].
  rewrite (proj2 (Z.eqb_neq _ _) B1). cbn [negb]. wp_step. apply HQ.
Qed.

(** The implemented ports with a drive below [n]. *)
Definition drives (impl : Z) (present : nat -> bool) (n : nat) : list nat :=
  filter (fun i => Z.testbit impl (Z.of_nat i) && present i = true) (seq 0 n).

Lemma drives_S impl present n :
  drives impl present (S n) = drives impl present n ++ (if Z.testbit impl (Z.of_nat n) && present n then [n] else []).
Proof.
  unfold drives. rewrite seq_S, filter_app. cbn [Nat.add]. f_equal. rewrite filter_cons, filter_nil.
  destruct (_ && _); [by rewrite decide_True|by rewrite decide_False].
Qed.
Lemma drives_mono impl present i n : (i <= n)%nat -> (length (drives impl present i) <= length (drives impl present n))%nat.
Proof. induction 1 as [|n _ IH]; [done|]. rewrite drives_S, length_app. lia. Qed.
Lemma drives_le impl present n : (length (drives impl present n) <= n)%nat.
Proof. induction n as [|n IH]; [done|]. rewrite drives_S, length_app. destruct (_ && _); cbn; lia. Qed.
Lemma drives_NoDup impl present n : NoDup (drives impl present n).
Proof. apply NoDup_filter, NoDup_ListNoDup, List.seq_NoDup. Qed.
Lemma elem_of_drives impl present n i : i ∈ drives impl present n <-> (i < n)%nat /\ Z.testbit impl (Z.of_nat i) = true /\ present i = true.
Proof. unfold drives. rewrite list_elem_of_filter, list_elem_of_In, List.in_seq, andb_true_iff. intuition lia. Qed.

(** What is plugged in. *)
Definition plugged (impl : Z) (present : nat -> bool) (ps : list D) : Prop :=
  length ps = 32%nat /\ forall i d, ps !! i = Some d -> Z.testbit impl (Z.of_nat i) = true ->
    if present i then hba_drive d else hba_empty d.

(** The buffer of a port: a page of the kernel's window that leads to a frame of its own,
    which is none of the structures. *)
Definition buf_ok (p : P) (m : shm) (a : ahci_port) : Prop :=
  vs_win p (buf a) /\ vs_ktrans p (buf a) = Some (phys_buf a) /\ vs_owned p (phys_buf a) /\ ~ struct_at m (phys_buf a).

(** After the first [i] ports. *)
Record probed (impl : Z) (present : nat -> bool) (ps : list D) (i : nat) (found : list ahci_port) s : Prop := {
  pr_impl : ports_impl s = impl;
  pr_found : hba_port <$> found = drives impl present i;
  pr_sata : Forall (fun p => ptype p = AHCI_PORT_SATA) found;
  pr_num : forall j p, found !! j = Some p -> pnum p = Z.of_nat j;
  pr_len : length (ports s) = 32%nat;
  pr_rest : forall j, (i <= j)%nat -> ports s !! j = ps !! j;
  pr_drives : forall j d, (j < i)%nat -> ps !! j = Some d -> Z.testbit impl (Z.of_nat j) = true -> present j = true ->
    exists d', ports s !! j = Some d' /\ hba_drive d' /\ hba_disk d' = hba_disk d;
  pr_bufs : Forall (buf_ok (h_mem s) (h_sh s)) found;
}.

Lemma buf_ok_step (p p' : P) m m' a : buf_ok p m a -> vs_step p p' -> grows p m m' -> buf_ok p' m' a.
Proof.
  intros (Hw & Hk & Ho & Hn) (So & Sw & Sk & _) Hg. split_and!; [auto|apply Sk; (done || by intros [])|auto|].
  intros Hs. apply (gr_new _ _ _ Hg) in Hs as [?|?]; done.
Qed.
Lemma buf_ok_clear (p : P) m a n j : buf_ok p m a -> mgr_ok p m n j -> dma_clear m (phys_buf a) 4096.
Proof.
  intros (_ & _ & Ho & Hn) (Hv & _ & Hown) b Hb. destruct (vs_owned_range _ _ _ _ Hv Ho) as [A1 _].
  destruct (vs_owned_range _ _ _ _ Hv (Hown b Hb)) as [A2 _]. assert (b <> phys_buf a) by (by intros ->). dlia.
Qed.

Lemma probed_step impl present ps i found s d d' p :
  probed impl present ps i found s -> ps !! i = Some d -> (i < 32)%nat ->
  let go := Z.testbit impl (Z.of_nat i) && present i in
  (go = true -> hba_drive d' /\ hba_disk d' = hba_disk d) ->
  (if go then hba_port p = i /\ ptype p = AHCI_PORT_SATA /\ pnum p = Z.of_nat (length found) else True) ->
  forall m, Forall (buf_ok m (h_sh s)) found -> (go = true -> buf_ok m (h_sh s) p) ->
  probed impl present ps (S i) (if go then found ++ [p] else found) (mk_hba (ports_impl s) (<[i := d']> (ports s)) m (h_sh s)).
Proof.
  intros [Hi Hf Hs Hn Hl Hr Hd Hb] Hp Hlt go Hgo Hpp m Hbm Hbp. split; cbn [ports_impl ports h_mem h_sh].
  - done.
  - rewrite drives_S. fold go. destruct go; [|by rewrite app_nil_r]. destruct Hpp as [<- _]. by rewrite fmap_app, Hf.
  - destruct go; [|done]. apply Forall_app. split; [done|]. constructor; [by destruct Hpp as (_ & ? & _)|constructor].
  - destruct go; [|done]. intros j q [Hq|(Hj & Hq)]%lookup_app_Some; [auto|].
    apply list_lookup_singleton_Some in Hq as [? <-]. destruct Hpp as (_ & _ & ->). lia.
  - by rewrite length_insert.
  - intros j Hj. rewrite list_lookup_insert_ne by lia. apply Hr. lia.
  - intros j dj Hj Hpj Hbit Hpr. destruct (decide (j = i)) as [->|Hne].
    + assert (dj = d) as -> by congruence. unfold go in Hgo. rewrite Hbit, Hpr in Hgo. exists d'. rewrite list_lookup_insert_eq by lia.
      destruct (Hgo eq_refl). done.
    + rewrite list_lookup_insert_ne by done. apply (Hd j dj); [lia|done..].
  - destruct go; [|done]. apply Forall_app. split; [done|]. constructor; [by apply Hbp|constructor].
Qed.

Definition PROBE_PAGES : nat := 2.

Lemma probe_port_wp impl present ps i found s d n j :
  probed impl present ps i found s -> ps !! i = Some d -> (i < 32)%nat -> Z.testbit impl (Z.of_nat i) = true ->
  (if present i then hba_drive d else hba_empty d) -> (length found < 256)%nat ->
  mgr_ok (h_mem s) (h_sh s) ((if present i then PROBE_PAGES else 0) + n) j ->
  wp (probe_port i found) (fun f s' => probed impl present ps (S i) f s' /\ h_sh s' = h_sh s /\ mgr_ok (h_mem s') (h_sh s') n j) s.
Proof.
  intros Hpr Hd Hi Hbit Hplug Hf Hv. assert (ports s !! i = Some d) as Hd1 by (by rewrite (pr_rest _ _ _ _ _ _ Hpr)).
  pose proof (fun d' p => probed_step impl present ps i found s d d' p Hpr Hd Hi) as Hstep. cbv zeta in Hstep.
  rewrite Hbit in Hstep. unfold probe_port. wp_focus. destruct (present i); cbn [andb] in Hstep.
  - eapply check_type_drive; [exact Hd1|done|]. intros d' Hd' Ed'. cbv [AHCI_PORT_SATA AHCI_PORT_SATAPI Z.eqb Pos.eqb orb].
    wp_focus. apply on_mem_wp. eapply (frame_wp _ (h_sh s) (S n) j); [exact Hv|]. intros f p1 Hm1 Hf1 Hf4 Hnf Hof Hs1.
    wp_focus. apply on_mem_wp. eapply wp_mono; [apply (vs_kalloc_wp _ n); apply Hm1|].
    intros v p2 (Hv2 & (Hw & Hnw & Hk2) & (_ & _ & Hww & Hoo & Ht2) & _). cbn [h_mem] in *.
    wp_focus. apply on_mem_wp. eapply wp_mono; [apply (vs_kmap_wp _ n j); [exact Hv2|done|done|by apply Hoo]|].
    intros [] p3 (Hv3 & (Hk3 & Hkk) & (_ & _ & Hww3 & Hoo3 & Ht3) & _). cbn [h_mem ports ports_impl h_sh with_ports] in *.
    wp_step. destruct Hm1 as (_ & T1 & Hown). split_and!; [|done|split_and!; [exact Hv3|cbn [h_mem]; lia|intros a Ha; apply Hoo3, Hoo, Hown, Ha]].
    apply Hstep; [done|split_and!; [done|done|]; cbn; by rewrite uN_small by lia| |].
    + eapply Forall_impl; [apply (pr_bufs _ _ _ _ _ _ Hpr)|]. intros a (X1 & X2 & X3 & X4). destruct Hs1 as (So & Sw & Sk & _).
      split_and!; [by apply Hww3, Hww, Sw| |by apply Hoo3, Hoo, So|done]. 
      apply Hkk; [|by apply Hww, Sw|apply Hk2; [by intros []|by apply Sw|apply Sk; (done || by intros [])]].
      intros Heq. apply Hnw. rewrite <- Heq. by apply Sw.
    + intros _. split_and!; cbn [buf phys_buf]; [by apply Hww3|done|by apply Hoo3, Hoo|]. intros Hs. apply Hnf. by apply Hv.
  - eapply check_type_empty; [exact Hd1|done|]. intros d'. cbv [AHCI_PORT_NULL AHCI_PORT_SATA AHCI_PORT_SATAPI Z.eqb Pos.eqb orb].
    wp_step. split_and!; [|done|done]. apply (Hstep d' (mk_ahci_port 0 0 0 0 0)); [done|done|apply (pr_bufs _ _ _ _ _ _ Hpr)|done].
Qed.

Lemma probed_skip impl present ps i found s :
  probed impl present ps i found s -> (i < 32)%nat -> Z.testbit impl (Z.of_nat i) = false -> probed impl present ps (S i) found s.
Proof.
  intros [Hi Hf Hs Hn Hl Hr Hd Hbo] Hlt Hb. split; try done.
  - rewrite drives_S, Hb. cbn. by rewrite app_nil_r.
  - intros j Hj. apply Hr. lia.
  - intros j dj Hj Hpj Hbj. destruct (decide (j = i)) as [->|]; [congruence|]. apply Hd; [lia|done..].
Qed.

Lemma ahci_probe_ports_wp impl present ps n j s :
  plugged impl present ps -> ports_impl s = impl -> ports s = ps ->
  mgr_ok (h_mem s) (h_sh s) (PROBE_PAGES * length (drives impl present 32) + n) j ->
  wp ahci_probe_ports (fun found s' => probed impl present ps 32 found s' /\ h_sh s' = h_sh s /\ mgr_ok (h_mem s') (h_sh s') n j) s.
Proof.
  intros [Hlen Hplug] Himpl Hps Hv. unfold ahci_probe_ports. wp_step. wp_step. rewrite Himpl. wp_focus.
  set (left i := (length (drives impl present 32) - length (drives impl present i))%nat).
  apply (wp_for_acc (fun i found s' => probed impl present ps (Z.to_nat i) found s' /\
    h_sh s' = h_sh s /\ mgr_ok (h_mem s') (h_sh s') (PROBE_PAGES * left (Z.to_nat i) + n) j)); [lia| | |].
  - split; [split; [done|done|apply Forall_nil_2|by intros ? ? [=]|by rewrite Hps|intros; by rewrite Hps|intros ? ? Hj; cbn in Hj; lia|constructor]|].
    split; [done|]. unfold left. rewrite Nat.sub_0_r. exact Hv.
  - intros i found s1 Hi (Hpr & Esh & Hv1). destruct (lookup_lt_is_Some_2 ps (Z.to_nat i)) as [d Hd]; [lia|].
    specialize (Hplug _ _ Hd). replace (Z.to_nat (i + 1)) with (S (Z.to_nat i)) by lia.
    assert (truth (impl .& u32 (Z.shiftl 1 i)) = Z.testbit impl (Z.of_nat (Z.to_nat i))) as ->.
    { rewrite Z2Nat.id, Z.shiftl_1_l, uN_small by (try split; try apply Z.pow_nonneg; try apply Z.pow_lt_mono_r; lia). apply truth_bit. lia. }
    pose proof (drives_mono impl present (S (Z.to_nat i)) 32 ltac:(lia)) as Hm. rewrite (drives_S impl present (Z.to_nat i)), length_app in Hm.
    unfold left in Hv1 |- *. rewrite (drives_S impl present (Z.to_nat i)), length_app. destruct (Z.testbit impl (Z.of_nat (Z.to_nat i))) eqn:Hbit.
    + cbn [andb] in Hm |- *. set (x := length (drives impl present 32)) in *. clearbody x.
      set (y := length (drives impl present (Z.to_nat i))) in *. set (z := length (if present (Z.to_nat i) then _ else _)) in *.
      wp_focus. eapply wp_mono; [apply (probe_port_wp impl present ps (Z.to_nat i) found s1 d (PROBE_PAGES * (x - (y + z)) + n) j);
        [done|done|lia|done|by apply Hplug| |]|].
      * pose proof (drives_le impl present (Z.to_nat i)) as Hle. rewrite <- (pr_found _ _ _ _ _ _ Hpr), length_fmap in Hle. lia.
      * replace ((if present (Z.to_nat i) then PROBE_PAGES else 0) + (PROBE_PAGES * (x - (y + z)) + n))%nat with
          (PROBE_PAGES * (x - y) + n)%nat; [exact Hv1|]. unfold PROBE_PAGES, z in *. clearbody y. destruct (present (Z.to_nat i)); cbn [length] in *; lia.
      * intros f s2 (Hp2 & Es2 & Hv2). wp_step. split_and!; [done|congruence|done].
    + cbn [andb length] in *. rewrite Nat.add_0_r. wp_step. split_and!; [|done|done]. by apply probed_skip; [|lia|].
  - intros found s1 (Hpr & Esh & Hv1). wp_step. split; [exact Hpr|]. split; [done|]. unfold left in Hv1. change (Z.to_nat 32) with 32%nat in Hv1.
    rewrite Nat.sub_diag, Nat.mul_0_r in Hv1. done.
Qed.

(** A disk that is ready: its port leads to a command list and tables, the device is idle,
    and holds what it held. *)
Definition disk_up (s s' : hba D P) (k : ahci_disk) : Prop :=
  exists d0 d, ports s !! hba_port (dk_port k) = Some d0 /\ ports s' !! hba_port (dk_port k) = Some d /\
    hba_disk d = hba_disk d0 /\ port_ok (dk_state d k (h_sh s')).

Lemma port_ok_grows (p : P) (d : D) k m m' : grows p m m' -> port_ok (dk_state d k m) -> port_ok (dk_state d k m').
Proof.
  intros [G1 G2 G3 _ _] [X1 X2 (hs & h & v & Y1 & Y2 & Y3 & Y4 & Y5 & [t Y6]) [f X4]].
  constructor; cbn [dk_state p_hba comlist comtables p_fis p_sh] in *; [done|done| |].
  - exists hs, h, v. split_and!; try done; [auto|]. exists t. auto.
  - exists f. auto.
Qed.

Lemma rebase_port_wp fuel p d n j s :
  ports s !! hba_port p = Some d -> hba_drive d -> mgr_ok (h_mem s) (h_sh s) (REBASE_FRAMES + n) j -> (hba_stop_polls < N.to_nat fuel)%nat ->
  wp (rebase_port fuel p) (fun k s' => dk_port k = p /\ disk_up s s' k /\ ports_impl s' = ports_impl s /\
    (forall i, i <> hba_port p -> ports s' !! i = ports s !! i) /\ mgr_ok (h_mem s') (h_sh s') n j /\
    grows (h_mem s) (h_sh s) (h_sh s') /\ vs_step (h_mem s) (h_mem s')) s.
Proof.
  intros Hp Hd Hv Hf. unfold rebase_port, wp. rewrite Hp.
  destruct (wp_Ok _ _ _ (ahci_port_rebase_wp fuel n j (mk_rebase (mk_port d 0 (replicate 32 0) 0 (h_sh s)) (h_mem s)) Hd eq_refl Hv Hf))
    as ([] & r & -> & Hr & Edisk & Hv' & Hg & Hst). cbn [rb_port rb_mem p_hba p_sh] in Edisk, Hg, Hst.
  cbn [dk_port dk_com dk_tbl ports ports_impl h_mem h_sh]. split_and!; try done.
  - exists d, (p_hba (rb_port r)). cbn [dk_port ports h_sh]. rewrite list_lookup_insert_eq by (by eapply lookup_lt_Some).
    split_and!; try done. by destruct (rb_port r).
  - intros i Hi. by apply list_lookup_insert_ne.
Qed.

Lemma rebase_all_wp fuel l n j s :
  NoDup (hba_port <$> l) -> Forall (fun p => exists d, ports s !! hba_port p = Some d /\ hba_drive d) l ->
  mgr_ok (h_mem s) (h_sh s) (length l * REBASE_FRAMES + n) j -> (hba_stop_polls < N.to_nat fuel)%nat ->
  wp (rebase_all fuel l) (fun ks s' => dk_port <$> ks = l /\ Forall (disk_up s s') ks /\ ports_impl s' = ports_impl s /\
    (forall i, i ∉ hba_port <$> l -> ports s' !! i = ports s !! i) /\ mgr_ok (h_mem s') (h_sh s') n j /\
    grows (h_mem s) (h_sh s) (h_sh s') /\ vs_step (h_mem s) (h_mem s')) s.
Proof.
  revert s. induction l as [|p l IH]; intros s Hnd Hdr Hv Hf; cbn [rebase_all].
  { wp_step. split_and!; try done; [apply grows_refl|apply vs_step_refl]. }
  cbn [fmap list_fmap] in Hnd. apply NoDup_cons in Hnd as [Hp Hnd]. apply Forall_cons in Hdr as [(d & Hd & Hdd) Hdr].
  wp_focus. eapply wp_mono; [apply (rebase_port_wp fuel p d (length l * REBASE_FRAMES + n) j); [done|done| |done]|].
  { cbn [length] in Hv. by rewrite Nat.mul_succ_l, (Nat.add_comm _ REBASE_FRAMES), <- Nat.add_assoc in Hv. }
  intros k s1 (Ek & Hup & Ei & Hoth & Hv1 & Hg1 & Hst1). wp_focus. eapply wp_mono; [apply (IH s1); [done| |done|done]|].
  { rewrite Forall_forall in Hdr |- *. intros q Hq. destruct (Hdr q Hq) as (dq & Hdq & ?). exists dq. split; [|done].
    rewrite Hoth; [done|]. intros E. apply Hp. rewrite <- E. by apply list_elem_of_fmap_2. }
  intros ks s2 (Eks & Hups & Ei2 & Hoth2 & Hv2 & Hg2 & Hst2). wp_step. cbn [fmap list_fmap]. rewrite Ek.
  split_and!; [by f_equal| |congruence| |done|by eapply grows_trans|by eapply vs_step_trans].
  - constructor.
    + destruct Hup as (d0 & d1 & X1 & X2 & X3 & X4). exists d0, d1.
      split_and!; try done; [rewrite Hoth2; [done|by rewrite Ek]|by eapply port_ok_grows].
    + rewrite Forall_forall in Hups |- *. intros q Hq. destruct (Hups q Hq) as (d0 & d1 & X1 & X2 & X3 & X4).
      exists d0, d1. split_and!; try done. rewrite <- Hoth; [done|]. intros E. apply Hp. rewrite <- E, <- Eks.
      apply list_elem_of_fmap. exists (dk_port q). split; [done|]. by apply list_elem_of_fmap_2.
  - intros i Hi. rewrite not_elem_of_cons in Hi. destruct Hi. rewrite Hoth2, Hoth by done. done.
Qed.

Lemma probe_and_rebase_wp fuel impl present ps n j s :
  plugged impl present ps -> ports_impl s = impl -> ports s = ps ->
  mgr_ok (h_mem s) (h_sh s) (12 * length (drives impl present 32) + n) j -> (hba_stop_polls < N.to_nat fuel)%nat ->
  wp (probe_and_rebase fuel) (fun ks s' => ports_impl s' = impl /\ hba_port ∘ dk_port <$> ks = drives impl present 32 /\
    (forall i k, ks !! i = Some k -> ptype (dk_port k) = AHCI_PORT_SATA /\ pnum (dk_port k) = Z.of_nat i) /\
    Forall (disk_up s s') ks /\ Forall (fun k => buf_ok (h_mem s') (h_sh s') (dk_port k)) ks /\ mgr_ok (h_mem s') (h_sh s') n j) s.
Proof.
  intros Hplug Hi Hps Hv Hf. unfold probe_and_rebase. wp_focus.
  set (nd := length (drives impl present 32)) in *.
  eapply wp_mono; [apply (ahci_probe_ports_wp impl present ps (nd * REBASE_FRAMES + n) j); [done|done|done|]|].
  { fold nd. replace (PROBE_PAGES * nd + (nd * REBASE_FRAMES + n))%nat with (12 * nd + n)%nat by (unfold PROBE_PAGES, REBASE_FRAMES; lia). exact Hv. }
  intros found s1 ([Ei Ef Hs Hn Hl Hr Hd Hb] & Esh & Hv1).
  assert (length found = nd) as Hlf by (unfold nd; by rewrite <- Ef, length_fmap). rewrite <- Hlf in Hv1. clearbody nd.
  assert (forall i, i ∈ hba_port <$> found -> exists d0 d, ps !! i = Some d0 /\ ports s1 !! i = Some d /\ hba_drive d /\ hba_disk d = hba_disk d0) as Hdr.
  { intros i. rewrite Ef. intros (Hlt & Hbit & Hp)%elem_of_drives. destruct Hplug as [Hlen _].
    destruct (lookup_lt_is_Some_2 ps i) as [d0 Hd0]; [lia|]. destruct (Hd i d0 Hlt Hd0 Hbit Hp) as (d & ? & ? & ?). by exists d0, d. }
  eapply wp_mono; [apply (rebase_all_wp fuel found n j); [rewrite Ef; apply drives_NoDup| |exact Hv1|done]|].
  { apply Forall_forall. intros p Hp. destruct (Hdr _ (list_elem_of_fmap_2 hba_port _ _ Hp)) as (d0 & d & _ & ? & ? & _). by exists d. }
  intros ks s2 (Eks & Hups & Ei2 & _ & Hv2 & Hg2 & Hst2). split_and!; [congruence| | | | |done].
  - by rewrite <- Ef, <- Eks, <- list_fmap_compose.
  - intros i k Hk. assert (found !! i = Some (dk_port k)) as Hfk by (rewrite <- Eks, list_lookup_fmap, Hk; done).
    split; [|by apply Hn]. rewrite Forall_forall in Hs. by eapply Hs, list_elem_of_lookup_2.
  - rewrite Forall_forall in Hups |- *. intros k Hk. destruct (Hups k Hk) as (d0 & d & H1' & H2' & H3' & H4').
    destruct (Hdr (hba_port (dk_port k))) as (d00 & d01 & G1 & G2 & _ & G3).
    { rewrite <- Eks, <- list_fmap_compose. by apply (list_elem_of_fmap_2 (hba_port ∘ dk_port)). }
    exists d00, d. rewrite Hps. split_and!; try done. congruence.
  - rewrite <- Eks, Forall_fmap in Hb. eapply Forall_impl; [exact Hb|]. intros k Hk. by eapply buf_ok_step.
Qed.
End probe.

(** ** Bringing up the disks *)

Section init.
Context {T D B P : Type} `{PciPorts T} `{HbaStart D B} `{SP : VSpaceSpec P}.
Implicit Types s : ahci_st T D P.

Lemma ahci_init_none fuel devs s : filter (fun d => is_ahci d = true) devs = [] -> ahci_init fuel devs s = Ok ((), s).
Proof.
  induction devs as [|d devs IH]; [done|]. rewrite filter_cons. case_decide as Hd; [done|]. intros Hn. cbn [ahci_init].
  destruct (is_ahci d); [done|]. eapply bind_Ok; [done|by apply IH].
Qed.
(** With one controller among the devices, [ahci_init] is its initialisation. *)
Lemma ahci_init_one fuel devs dev s :
  filter (fun d => is_ahci d = true) devs = [dev] -> ahci_init fuel devs s = ahci_init_ctrl fuel dev s.
Proof.
  induction devs as [|d devs IH]; [done|]. rewrite filter_cons. case_decide as Hd.
  - intros [= -> Hn]. cbn [ahci_init]. rewrite Hd. unfold bindM. destruct (ahci_init_ctrl fuel dev s) as [[[] s']|]; [|done].
    by apply ahci_init_none.
  - intros Hn. cbn [ahci_init]. destruct (is_ahci d); [done|]. unfold bindM, mret. by apply IH.
Qed.

End init.

(** ** A simulated controller with a command engine *)

Inductive engine : Type := ERun | EHalt | EStop (fr cr : nat) | EArm.
Record ctl : Type := mk_ctl { c_sim : sim; c_eng : engine; c_drive : bool }.
Definition on_sim (d : ctl) (s : sim) : ctl := mk_ctl s (c_eng d) (c_drive d).

#[export] Instance ctl_Hba : Hba ctl := {|
  hba_rd r d :=
    match r with
    | CMD_STAT => match c_eng d with
                  | ERun => (0xc011, d)
                  | EHalt => (0xc010, d)
                  | EStop n m => ((if (n =? 0)%nat then 0 else 2 ^ 14) + (if (m =? 0)%nat then 0 else 2 ^ 15),
                                  mk_ctl (c_sim d) (EStop (pred n) (pred m)) (c_drive d))
                  | EArm => (0x4010, d)
                  end
    | SATA_STAT => (if c_drive d then 0x113 else 0, d)
    | _ => let '(v, s) := hba_rd r (c_sim d) in (v, on_sim d s)
    end;
  hba_wr r v d :=
    match r with
    | CMD_STAT =>
        let e := match c_eng d with
                 | EStop 0 0 => if Z.testbit v 4 then EArm else EStop 0 0
                 | EArm => if Z.testbit v 0 then ERun else EArm
                 | EHalt => if Z.testbit v 4 then EHalt else EStop 2 3
                 | _ => if Z.testbit v 0 then c_eng d else EHalt
                 end in mk_ctl (c_sim d) e (c_drive d)
    | _ => on_sim d (hba_wr r v (c_sim d))
    end;
  hba_issue v m d := let '(s, m') := hba_issue v m (c_sim d) in (on_sim d s, m');
|}.

Definition ctl_in (e : engine) (d : ctl) : Prop := c_eng d = e /\ sim_left (c_sim d) = 0%nat /\ c_drive d = true.

#[export] Program Instance ctl_HbaSpec : HbaSpec ctl memdisk := {|
  hba_disk d := sim_disk (c_sim d);
  hba_clb d := sim_clb (c_sim d);
  hba_fb d := sim_fb (c_sim d);
  hba_ready := ctl_in ERun;
  hba_busy n d := c_eng d = ERun /\ sim_left (c_sim d) = n /\ c_drive d = true;
  hba_polls := 3;
|}.
Next Obligation. intros [[d n c f] e b] v (He & Hn & Hb). simpl in *. by subst. Qed.
Next Obligation. intros [[d n c f] e b] r (He & Hn & Hb) _. simpl in *. subst. by destruct r. Qed.
Next Obligation. done. Qed.
Next Obligation. done. Qed.
Next Obligation. intros [[d m c f] e b] n (He & Hn & Hb). simpl in *. subst. by destruct n. Qed.
Next Obligation. intros [[d m c f] e b] n (He & Hn & Hb). simpl in *. by subst. Qed.
Next Obligation.
  intros [d e b] m h t lba cnt addr (He & Hn & Hb) ((hs & Hl & Hh) & Ht & _) Hc _. cbn [hba_issue ctl_Hba c_sim].
  rewrite (sim_issue_read d m h hs t lba cnt addr Hl Hh Ht Hc). split; [by exists 3%nat|done].
Qed.
Next Obligation.
  intros [d e b] m h t lba cnt addr (He & Hn & Hb) ((hs & Hl & Hh) & Ht & _) Hc. cbn [hba_issue ctl_Hba c_sim].
  rewrite (sim_issue_write d m h hs t lba cnt addr Hl Hh Ht Hc).
  destruct (mem_get_data (sh_mem m) addr (512 * cnt)) as (Hlen & Hby & Htk); [pose proof (ic_pos _ _ _ _ _ _ Hc); lia|].
  split_and!; [by exists 3%nat| |done]. exists (mem_get (sh_mem m) addr (512 * cnt)). split_and!; try done. intros k Hk _. by apply Htk.
Qed.

#[export] Program Instance ctl_HbaStart : HbaStart ctl memdisk := {|
  hba_drive := ctl_in ERun;
  hba_empty d := c_drive d = false;
  hba_halted := ctl_in EHalt;
  hba_stopping n m := ctl_in (EStop n m);
  hba_armed := ctl_in EArm;
  hba_stop_polls := 3;
|}.
Next Obligation. intros [[d n c f] e b] (He & Hn & Hb). simpl in *. by subst. Qed.
Next Obligation. intros [[d n c f] e b] (He & Hn & Hb). simpl in *. by subst. Qed.
Next Obligation. intros [[d n c f] e b] Hb. simpl in *. by subst. Qed.
Next Obligation. intros [[d n c f] e b] (He & Hn & Hb). simpl in *. by subst. Qed.
Next Obligation. intros [[d n c f] e b] v (He & Hn & Hb) Hv. simpl in *. subst. by rewrite Hv. Qed.
Next Obligation. intros [[d n c f] e b] (He & Hn & Hb). simpl in *. by subst. Qed.
Next Obligation. intros [[d n c f] e b] v (He & Hn & Hb) Hv Hv4. simpl in *. subst. rewrite Hv4. split; [exists 2%nat, 3%nat|done]. split_and!; [lia|lia|done]. Qed.
Next Obligation.
  intros [[d k c f] e b] n m (He & Hn & Hb). simpl in *. subst. by destruct n, m.
Qed.
Next Obligation. intros [[d n c f] e b] a (He & Hn & Hb) _ _. simpl in *. by subst. Qed.
Next Obligation. intros [[d n c f] e b] a (He & Hn & Hb) _ _. simpl in *. by subst. Qed.
Next Obligation. intros [[d n c f] e b] v (He & Hn & Hb) Hv Hv4. simpl in *. subst. by rewrite Hv4. Qed.
Next Obligation. intros [[d n c f] e b] (He & Hn & Hb). simpl in *. by subst. Qed.
Next Obligation. intros [[d n c f] e b] v (He & Hn & Hb) Hv Hv4. simpl in *. subst. by rewrite Hv. Qed.

(** Ports 0 and 2 of 32 are implemented; only port 2 has a drive. *)
Definition demo_ctrl : list ctl :=
  <[2%nat := mk_ctl (mk_sim (md_put [] 2560 (replicate 512 7)) 0 0 0) ERun true]> (replicate 32 (mk_ctl (mk_sim [] 0 0 0) ERun false)).
Definition demo_dev : pci_dev := mk_pci_dev 0x2922 0x8086 0 31 2 0x01 0x06 0x01.
Definition demo_bus : pcimem := mk_pcimem 0 {[cfg_addr 0 31 2 0x24 := 0xfebf1000]}.
Definition demo_ahci : ahci_st pcimem ctl (pstate kheap) :=
  mk_ahci_st demo_bus {[abar_of demo_dev demo_bus := (5, demo_ctrl)]} bare_pstate (mk_shm ∅ ∅ ∅ (fun _ => 0)) [].


(** With two controllers, [ahci_ports] is made anew for the second: the disks of the
    first can no longer be reached. *)
Example second_controller_hides_first :
  let dev2 := mk_pci_dev 0x2922 0x8086 0 30 0 0x01 0x06 0x01 in
  let bus2 := mk_pcimem 0 {[cfg_addr 0 31 2 0x24 := 0xfebf1000; cfg_addr 0 30 0 0x24 := 0xfebf2000]} in
  match ahci_init (H1 := paging_VSpace demo_layout) 10 [demo_dev; dev2]
    (mk_ahci_st bus2 {[abar_of demo_dev bus2 := (4, demo_ctrl); abar_of dev2 bus2 := (0, demo_ctrl)]} bare_pstate (mk_shm ∅ ∅ ∅ (fun _ => 0)) []) with
  | Ok (_, s') => as_disks s' = []
  | Err _ => False
  end.
Proof. vm_compute. reflexivity. Qed.
