(* ===== verification/Syscall.v ===== *)
(** * Syscall: system calls (src/sys/syscall/syscall.c, syscall.h,
      src/arch/x86_64/syscall.c, syscall.h)

    One definition per system call over the scheduler's state, and the dispatcher.
    A call either returns a 64-bit value ([inl]) or the CPU goes elsewhere ([inr]).
    Pointers a program passes lead to bytes of [io_mem]; file descriptors are objects
    at addresses, and using one that was freed is a fault. *)

From S2P Require Import Prelude Disk Pmm Alloc Kheap DList Strings Paging Path Vfs Sched Elf Spaces SpaceMake Proc ProcMake.

Definition SEEK_SET : Z := 1.
Definition SEEK_CUR : Z := 2.
Definition SEEK_END : Z := 3.
(** [-1] returned as a [uint64_t]. *)
Definition FAILED : Z := u64 (-1).

Definition with_fds (l : list Z) (p : proc) : proc :=
  mk_proc (pid p) (addr_space p) l (pname p) (working_dir p) (p_threads p) (nexttid p)
    (p_children p) (p_parent p) (sigstack p) (signals p) (syscall_regs p).
Definition with_cwd (w : option (list Z)) (p : proc) : proc :=
  mk_proc (pid p) (addr_space p) (file_descs p) (pname p) w (p_threads p) (nexttid p)
    (p_children p) (p_parent p) (sigstack p) (signals p) (syscall_regs p).
Definition with_signals (l : list Z) (p : proc) : proc :=
  mk_proc (pid p) (addr_space p) (file_descs p) (pname p) (working_dir p) (p_threads p) (nexttid p)
    (p_children p) (p_parent p) (sigstack p) l (syscall_regs p).
Definition with_syscall_regs (r : option reg_ctx) (p : proc) : proc :=
  mk_proc (pid p) (addr_space p) (file_descs p) (pname p) (working_dir p) (p_threads p) (nexttid p)
    (p_children p) (p_parent p) (sigstack p) (signals p) r.

Section ops.
Context {P : Type} `{VSpace P} `{Mmu P} `{VfsNodes (sstate (estate P))} `{Paths (sstate (estate P))}.
Abbreviation K := (M (sstate (estate P))).
Implicit Types s : sstate (estate P).

(** ** Program memory *)

Definition mem_store (a b : Z) : K () := mem_load a;; modify (upd_bytes (insert a (u8 b))).
Fixpoint mem_stores (a : Z) (bs : list Z) : K () :=
  match bs with [] => mret () | b :: r => mem_store a b;; mem_stores (a + 1) r end.
Definition load64 (a : Z) : K Z := bs ← mem_loads a 8; mret (le_dec bs).
(** A string up to its terminator; reading it ends at the latest where memory does. *)
Fixpoint load_str_fuel (fuel : nat) (a : Z) : K (list Z) :=
  match fuel with
  | O => throw NoFuel
  | S f => b ← mem_load a; if b =? 0 then mret [] else r ← load_str_fuel f (a + 1); mret (b :: r)
  end.
Definition load_str (a : Z) : K (list Z) := s ← get; load_str_fuel (S (size (io_mem (s_io s)))) a.

Context (c : nat).
Definition ret (v : Z) : K (Z + next) := mret (inl v).
Definition currproc : K (Z * proc) := p ← sched_get_currproc c; pr ← get_proc p; mret (p, pr).
(** A call that trapped into the scheduler goes on only if the trap returned. *)
Definition after (n : option next) (v : Z) : K (Z + next) :=
  match n with None | Some Returned => mret (inl v) | Some n => mret (inr n) end.

(** ** Files *)

(** 0 is null. *)
Definition procgetfd (fdnum : Z) : K Z :=
  '(_, pr) ← currproc;
  if (fdnum <? 0) || (Z.of_nat (length (file_descs pr)) <=? fdnum) then mret 0
  else unwrap (file_descs pr !! Z.to_nat fdnum) OutOfBounds.

Definition sys_open (path flags mode : Z) : K (Z + next) :=
  '(p, pr) ← currproc;
  str ← load_str path;
  node ← resolve str (working_dir pr);
  if node =? 0 then ret FAILED else
  fd ← vfs_open node (u32 flags) (u32 mode);
  upd_proc p (fun pr => with_fds (file_descs pr ++ [fd]) pr);;
  pr ← get_proc p;
  ret (u32 (Z.of_nat (length (file_descs pr)) - 1)).

Definition sys_read (fdno ptr len : Z) : K (Z + next) :=
  fd ← procgetfd (sN 32 fdno);
  if fd =? 0 then ret FAILED else
  f ← fd_load fd; n ← vfs_read (fd_node f) ptr 0 len; ret (u64 n).
Definition sys_write (fdno ptr len : Z) : K (Z + next) :=
  fd ← procgetfd (sN 32 fdno);
  if fd =? 0 then ret FAILED else
  f ← fd_load fd; n ← vfs_write (fd_node f) ptr 0 len; ret (u64 n).
Definition sys_close (fdno : Z) : K (Z + next) :=
  fd ← procgetfd (sN 32 fdno);
  if fd =? 0 then ret FAILED else
  vfs_close fd;; fd_free fd;; ret 0.

(** Anonymous memory: the offset is a product of 32-bit numbers. *)
Definition map_anon (fuel : N) (mem len space : Z) : K () :=
  while_ fuel (fun i =>
    if i <? len `div` 4096 then
      f ← with_mem vs_request;
      with_mem (vs_map_memory (u64 (mem + u32 (i * 4096))) f 1 space);;
      mret (inl (u32 (i + 1)))
    else mret (inr ())) 0.
Definition sys_mmap (fuel : N) (addr len prot flags fdno off : Z) : K (Z + next) :=
  '(p, pr) ← currproc;
  if truth (sN 32 fdno) then
    fd ← procgetfd (sN 32 fdno);
    if fd =? 0 then ret FAILED else
    f ← fd_load fd;
    match op_mmap (node_ops (fd_node f)) with
    | Some m => v ← m p addr len (sN 32 prot) (sN 32 flags) off; ret v
    | None => ret 0
    end
  else
    mem ← with_mem (vs_alloc_region len (addr_space pr));
    map_anon fuel mem len (addr_space pr);;
    ret mem.

Definition sys_ioctl (fdno cmd argp : Z) : K (Z + next) :=
  fd ← procgetfd (sN 32 fdno);
  if fd =? 0 then ret FAILED else
  f ← fd_load fd; n ← vfs_ioctl (fd_node f) cmd argp; ret (u64 n).

(** [vfs_stat(path, status)]: [status] is not written. *)
Definition stat (path : list Z) : K Z :=
  '(_, pr) ← currproc;
  node ← resolve path (working_dir pr);
  mret (if node =? 0 then -1 else 0).
Definition sys_stat (path status : Z) : K (Z + next) := str ← load_str path; n ← stat str; ret (u64 n).

(** A null descriptor is dereferenced. *)
Definition sys_lseek (fdno off whence : Z) : K (Z + next) :=
  fd ← procgetfd (sN 32 fdno);
  let w := sN 32 whence in
  let seek (pos : fs_fd -> Z) : K () :=
    guard (truth fd) NullDeref;; f ← fd_load fd;
    modify (upd_io (upd_fds (insert fd (mk_fd (fd_node f) (u64 (pos f)) (fd_flags f) (fd_mode f))))) in
  (if w =? SEEK_SET then seek (fun _ => off)
   else if w =? SEEK_CUR then seek (fun f => fd_pos f + off)
   else if w =? SEEK_END then seek (fun f => node_size (fd_node f) + off)
   else mret ());;
  ret 0.

Definition sys_chdir (path : Z) : K (Z + next) :=
  '(p, pr) ← currproc;
  str ← load_str path;
  new_path ← path_canon str (working_dir pr);
  upd_proc p (with_cwd (Some new_path));;
  ret 0.
(** [strncpy] stops at the terminator without copying it. *)
Definition sys_getcwd (buf size : Z) : K (Z + next) :=
  '(_, pr) ← currproc;
  (match working_dir pr with
   | Some w => mem_stores buf (take (Z.to_nat size) w)
   | None => mem_stores buf [47; 0]
   end);;
  ret buf.

(** ** Processes and threads *)

Definition sys_fork : K (Z + next) :=
  '(p, pr) ← currproc;
  regs ← unwrap (syscall_regs pr) NullDeref;
  id ← sched_fork p regs;
  ret (u64 id).

(** [while (argv[argc] != NULL && argc < 128) argc++]. *)
Definition count_args (argv : Z) : K Z :=
  r ← for_acc 0 128 (fun i _ =>
    a ← load64 (argv + 8 * i); if a =? 0 then mret (inr i) else mret (inl (i + 1))) 0;
  match r with
  | inr i => mret i
  | inl n => _ ← load64 (argv + 8 * 128); mret n
  end.
Fixpoint load_args (n : nat) (argv : Z) : K (list (list Z)) :=
  match n with
  | O => mret []
  | S n' => a ← load64 argv; str ← load_str a; r ← load_args n' (argv + 8); mret (str :: r)
  end.
Definition sys_execve (fuel : N) (r : reg_ctx) (path argv envp : Z) : K (Z + next) :=
  if negb (truth path) || negb (truth argv) || negb (truth envp) then ret FAILED else
  str ← load_str path;
  st ← stat str;
  if negb (st =? 0) then ret FAILED else
  argc ← count_args argv;
  if argc =? 128 then ret FAILED else
  args ← load_args (Z.to_nat argc) argv;
  n ← sched_exec fuel c r str args;
  after (Some n) FAILED.

Definition sys_waitid : K (Z + next) := throw Hang.

(** The trap of [sched_kill] on the current process comes last in it. *)
Definition sys_exit (r : reg_ctx) (status : Z) : K (Z + next) :=
  p ← sched_get_currproc c;
  sched_kill c (mret ()) p;;
  n ← trap c r;
  after (Some n) 0.

Definition sys_nanosleep (r : reg_ctx) (req rem : Z) : K (Z + next) :=
  sec ← load64 req;
  nsec ← load64 (req + 8);
  n ← thread_sleepns c r (u64 (sec * 1000000000 + nsec));
  after n 0.

Definition sys_create_thread (tid entry arg : Z) : K (Z + next) :=
  p ← sched_get_currproc c;
  t ← thread_creat p entry false;
  thread_spawn t;;
  th ← get_thread t;
  mem_stores tid (le_enc 8 (t_tid th));;
  ret 0.
Definition sys_exit_thread (r : reg_ctx) : K (Z + next) := n ← thread_exit c r; after (Some n) 0.

(** The first thread with the id. *)
Fixpoint find_tid (tid : Z) (ts : list Z) : K (option Z) :=
  match ts with
  | [] => mret None
  | t :: r => th ← get_thread t; if t_tid th =? tid then mret (Some t) else find_tid tid r
  end.
Definition sys_kill_thread (tid : Z) : K (Z + next) :=
  '(_, pr) ← currproc;
  found ← find_tid (u64 (sN 32 tid)) (p_threads pr);
  (match found with Some t => thread_kill t | None => mret () end);;
  ret 0.
Definition sys_join_thread : K (Z + next) := ret 0.

Definition sys_kill (r : reg_ctx) (id signal : Z) : K (Z + next) :=
  p ← sched_procfrompid c (sN 32 id);
  n ← signal_send c r p (sN 32 signal);
  after n 0.
Definition sys_getpid : K (Z + next) := '(_, pr) ← currproc; ret (u64 (pid pr)).

(** [proc->signals[signum]]: the index is not checked.  [junk] are the fields of
    [oldact] that are never set, 32 bytes of the kernel's stack. *)
Definition sys_sigaction (junk : list Z) (signum act old : Z) : K (Z + next) :=
  '(p, pr) ← currproc;
  let i := sN 32 signum in
  guard (0 <=? i) OutOfBounds;;
  prev ← unwrap (signals pr !! Z.to_nat i) OutOfBounds;
  (if truth act then
     h ← load64 act; upd_proc p (fun pr => with_signals (<[Z.to_nat i := h]> (signals pr)) pr)
   else mret ());;
  (if truth old then mem_stores old (le_enc 8 prev ++ junk) else mret ());;
  ret 0.

(** ** Dispatch *)

(** [syscalls[n]] called with five arguments.  What the call does not pass or leaves
    unset is a parameter: [e_arg5], the sixth argument of [sys_mmap], and [e_junk];
    [e_trap] is the kernel's context where a call traps into the scheduler. *)
Record env : Type := mk_env { e_fuel : N; e_arg5 : Z; e_junk : list Z; e_trap : reg_ctx }.
Definition syscall (e : env) (n : Z) (a0 a1 a2 a3 a4 : Z) : K (Z + next) :=
  let r := e_trap e in
  match n with
  | 0 => sys_read a0 a1 a2
  | 1 => sys_write a0 a1 a2
  | 2 => sys_open a0 a1 a2
  | 3 => sys_close a0
  | 4 => sys_mmap (e_fuel e) a0 a1 a2 a3 a4 (e_arg5 e)
  | 5 => sys_ioctl a0 a1 a2
  | 6 => sys_stat a0 a1
  | 7 => sys_fork
  | 8 => sys_execve (e_fuel e) r a0 a1 a2
  | 9 => sys_waitid
  | 10 => sys_exit r a0
  | 11 => sys_nanosleep r a0 a1
  | 12 => sys_lseek a0 (sN 64 a1) a2
  | 13 => sys_create_thread a0 a1 a2
  | 14 => sys_exit_thread r
  | 15 => sys_kill_thread a0
  | 16 => sys_join_thread
  | 17 => sys_kill r a0 a1
  | 18 => sys_getpid
  | 19 => sys_sigaction (e_junk e) a0 a1 a2
  | 20 => sys_chdir a0
  | 21 => sys_getcwd a0 a1
  | _ => throw OutOfBounds
  end.

Definition arch_syscall_num (r : reg_ctx) : Z := rax r.
Definition arch_syscall_ret (v : Z) (r : reg_ctx) : reg_ctx := with_rax v r.

(** The caller's registers after the call, or where the CPU went. *)
Definition syscall_handler (e : env) (regs : reg_ctx) : K (reg_ctx + next) :=
  p ← sched_get_currproc c;
  upd_proc p (with_syscall_regs (Some regs));;
  v ← syscall e (arch_syscall_num regs) (rdi regs) (rsi regs) (rdx regs) (rcx regs) (rbx regs);
  match v with
  | inl v => mret (inl (arch_syscall_ret v regs))
  | inr n => mret (inr n)
  end.
End ops.

(** ** Properties *)

Section properties.
Context {P : Type} `{VSpace P} `{Mmu P} `{VfsNodes (sstate (estate P))} `{Paths (sstate (estate P))}.
Implicit Types s : sstate (estate P).

Lemma currproc_eq c s p pr : running c s p pr -> currproc c s = Ok ((p, pr), s).
Proof.
  intros Hr. unfold currproc. eapply bind_Ok; [by eapply sched_get_currproc_eq|].
  destruct Hr as (cp & t & _ & _ & _ & _ & Hpr). unfold get_proc, bindM, get. by rewrite Hpr.
Qed.

(** What [procgetfd] delivers, for every number. *)
Lemma procgetfd_eq c s p pr n :
  running c s p pr ->
  procgetfd c n s = Ok (if decide (0 <= n < Z.of_nat (length (file_descs pr)))
                        then default 0 (file_descs pr !! Z.to_nat n) else 0, s).
Proof.
  intros Hr. unfold procgetfd. eapply bind_Ok; [by apply currproc_eq|]. cbn beta iota.
  destruct (decide _) as [Hin|Hout].
  - rewrite (proj2 (Z.ltb_ge _ _)), (proj2 (Z.leb_gt _ _)) by lia. cbn [orb].
    destruct (lookup_lt_is_Some_2 (file_descs pr) (Z.to_nat n)) as [a Ha]; [lia|]. by rewrite Ha.
  - assert ((n <? 0) || (Z.of_nat (length (file_descs pr)) <=? n) = true) as ->; [|done].
    apply orb_true_iff. destruct (Z.ltb_spec n 0), (Z.leb_spec (Z.of_nat (length (file_descs pr))) n); lia.
Qed.

Lemma procgetfd_bad c s p pr n :
  running c s p pr -> n < 0 \/ Z.of_nat (length (file_descs pr)) <= n -> procgetfd c n s = Ok (0, s).
Proof. intros Hr Hn. erewrite procgetfd_eq by done. rewrite decide_False by lia. done. Qed.

(** C30: A file descriptor number the process does not have, negative or past its
    table, is refused by every call that takes one except lseek, and nothing changes:
    no entry outside the table is ever read.  lseek does not check and faults. *)
Theorem sys_bad_fd_refused c s p pr n ptr len a b d e (fuel : N) :
  running c s p pr -> sN 32 n < 0 \/ Z.of_nat (length (file_descs pr)) <= sN 32 n ->
  sys_read c n ptr len s = Ok (inl FAILED, s) /\ sys_write c n ptr len s = Ok (inl FAILED, s) /\
  sys_ioctl c n a ptr s = Ok (inl FAILED, s) /\ sys_close c n s = Ok (inl FAILED, s) /\
  (sN 32 n <> 0 -> sys_mmap c fuel a len b d n e s = Ok (inl FAILED, s)) /\
  sys_lseek c n a SEEK_SET s = Err NullDeref.
Proof.
  intros Hr Hn. pose proof (procgetfd_bad _ _ _ _ _ Hr Hn) as Hfd.
  split_and!; [eapply bind_Ok; [exact Hfd|]; reflexivity..| |].
  - intros Hz. eapply bind_Ok; [by apply currproc_eq|]. cbn beta iota. rewrite (proj2 (truth_true _) Hz).
    eapply bind_Ok; [exact Hfd|]. reflexivity.
  - eapply bind_Ok; [exact Hfd|]. reflexivity.
Qed.

Lemma get_proc_eq s p pr : s_procs s !! p = Some pr -> get_proc p s = Ok (pr, s).
Proof. intros Hp. unfold get_proc, bindM, get. by rewrite Hp. Qed.
Lemma upd_proc_eq s p pr f : s_procs s !! p = Some pr -> upd_proc p f s = Ok ((), upd_procs (insert p (f pr)) s).
Proof. intros Hp. unfold upd_proc. eapply bind_Ok; [by apply get_proc_eq|]. done. Qed.

(** Opening a plain node: a new descriptor. *)
Definition opened (fd : fs_fd) s : sstate (estate P) :=
  upd_io (upd_fds (insert (s_heap s) fd))
    (mk_sstate (s_threads s) (s_procs s) (s_cpus s) (s_nextpid s) (s_uptime s) (s_heap s + 16) (s_mem s) (s_io s)).
Lemma vfs_open_plain node flags mode s :
  op_open (node_ops node) = None ->
  vfs_open node flags mode s = Ok (s_heap s, opened (mk_fd node 0 flags mode) s).
Proof. intros Hop. unfold vfs_open. by rewrite Hop. Qed.

(** Every descriptor a process holds is alive. *)
Definition fds_ok s : Prop :=
  forall p pr a, s_procs s !! p = Some pr -> a ∈ file_descs pr -> is_Some (io_fds (s_io s) !! a).


(** Closing an open file frees its descriptor twice: [vfs_close] already freed it
    when [sys_close] calls kfree on it. *)
Theorem sys_close_double_free c s p pr n a f :
  running c s p pr -> 0 <= sN 32 n -> file_descs pr !! Z.to_nat (sN 32 n) = Some a -> a <> 0 ->
  io_fds (s_io s) !! a = Some f -> op_close (node_ops (fd_node f)) = None ->
  sys_close c n s = Err OutOfBounds.
Proof.
  intros Hr Hn Ha Hz Hf Hop. unfold sys_close.
  assert (procgetfd c (sN 32 n) s = Ok (a, s)) as Hfd.
  { erewrite procgetfd_eq by done. rewrite decide_True, Ha; [done|]. apply lookup_lt_Some in Ha. lia. }
  eapply bind_Ok; [exact Hfd|]. rewrite (proj2 (Z.eqb_neq _ _) Hz). eapply bind_Ok.
  { unfold vfs_close. eapply bind_Ok; [|].
    - unfold fd_load, sched_VfsFds, bindM, get. by rewrite Hf.
    - rewrite Hop. eapply bind_Ok; [done|]. unfold fd_free, sched_VfsFds, bindM, get. cbn. by rewrite Hf. }
  apply bind_Err. unfold fd_free, sched_VfsFds, bindM, get. cbn. by rewrite lookup_delete_eq.
Qed.

End properties.

(** ** Anonymous memory, over a memory manager that keeps its promises *)

Section mmap.
Context {P : Type} `{VSpaceMake P} `{VfsNodes (sstate (estate P))} `{Paths (sstate (estate P))}.
Implicit Types s : sstate (estate P).

Lemma map_anon_wp fuel s p0 space n k b len Q :
  let pages := len `div` 4096 in
  vs_inv (e_vs (s_mem s)) (Z.to_nat pages * S vs_map_cost + n) k -> vs_space (e_vs (s_mem s)) space ->
  0 <= b -> b `mod` 4096 = 0 -> 0 <= len < 2 ^ 32 -> b + len <= vs_limit -> len < Z.of_N fuel ->
  (forall sp pg, vs_trans (e_vs (s_mem s)) sp pg = vs_trans p0 sp pg) ->
  (forall j, 0 <= j < pages -> vs_trans p0 space (b `div` 4096 + j) = None) ->
  (forall p', vs_inv p' n k -> mapped_from space b pages p0 p' ->
     (forall sp rs, vs_listed (e_vs (s_mem s)) sp rs -> vs_listed p' sp rs) -> Q () (set_mem (mk_estate p' (e_phys (s_mem s))) s)) ->
  wp (map_anon fuel b len space) Q s.
Proof.
  intros pages Hinv Hsp Hb Hb4 Hlen Hlim Hfuel Hsame Hnone HQ. pose proof vs_limit_range as Hr. unfold map_anon. fold pages.
  assert (0 <= pages /\ 4096 * pages <= len) as [Hn0 Hn] by (unfold pages; dlia).
  apply (wp_while (fun m i s' => exists p', s' = set_mem (mk_estate p' (e_phys (s_mem s))) s /\
    0 <= i <= pages /\ Z.of_nat m = pages - i /\ vs_inv p' (m * S vs_map_cost + n) k /\
    vs_space p' space /\ mapped_from space b i p0 p' /\
    (forall sp rs, vs_listed (e_vs (s_mem s)) sp rs -> vs_listed p' sp rs)) (Z.to_nat pages)).
  - exists (e_vs (s_mem s)). split_and!; [by destruct s as [??????[]?]|lia|lia|lia|done|done|by apply mapped_from_0|done].
  - lia.
  - intros m i s1 (p' & -> & Hi & Hm & Hinv1 & Hsp1 & Hmap & Hls1). destruct (Z.ltb_spec i pages) as [Hlt|Hge].
    + destruct m as [|m]; [lia|]. wp_focus.
      replace (S m * S vs_map_cost + n)%nat with (S (vs_map_cost + (m * S vs_map_cost + n))) in Hinv1 by lia.
      eapply with_vs_wp; [apply vs_request_wp; exact Hinv1|].
      intros f p2 (Hinv2 & Hf & [Hfresh _] & Hown & (Ht2 & Hs2 & _) & _ & Hls2). wp_focus.
      rewrite (uN_small 32 (i * 4096)), uN_small by lia. eapply with_vs_wp.
      { apply (vs_map_wp _ (m * S vs_map_cost + n) k); cbn [s_mem set_mem e_vs];
          [exact Hinv2|by apply Hs2|clear - Hb4; dlia|lia|lia|exact Hf|exact Hown]. }
      intros [] p3 (Hinv3 & Ht3 & Hs3 & _ & _ & Hls3). cbn [s_mem set_mem e_vs e_phys] in *. wp_step. exists m. split; [lia|].
      exists p3. rewrite uN_small by lia. split_and!; [done|lia|lia|lia|done|by apply Hs3, Hs2| |by eauto].
      apply (map_one space b i f p0 p' p2 p3); [done|lia|done|done| |intros; apply Hnone; lia].
      intros sp pg. rewrite Ht3. by replace ((b + i * 4096) `div` 4096) with (b `div` 4096 + i) by (clear - Hb4; dlia).
    + wp_step. replace m with 0%nat in Hinv1 by lia. apply HQ; [exact Hinv1| |exact Hls1]. by replace pages with i by lia.
Qed.

(** A region after which [len] bytes fit. *)
Definition fits_after (len : Z) (x : Z * Z) : Prop := x.2 `mod` 4096 = 0 /\ x.2 < 2 ^ 63 /\ x.2 + len <= vs_limit.

End mmap.

(** ** A small system *)

(** One file system at the root (node 100) with one file, [/a] (node 101). *)
Definition sys_nodes : VfsNodes (sstate (estate flat)) := {|
  node_ops := fun n =>
    mk_vfs_ops None None None None
      (if n =? 100 then Some (fun t => mret (if bool_decide (t = [97]) then 101 else 0)) else None) None None None None None;
  node_flags := fun _ => 2; node_size := fun _ => 5; node_free := fun _ => mret ();
|}.
(** Canonical paths by the code of path.c, run on a heap of its own. *)
Definition sys_paths : Paths (sstate (estate flat)) := fun path working s =>
  match canon path (default [] working) with Ok p => Ok (p, s) | Err f => Err f end.

Definition sys_demo : sstate (estate flat) :=
  mk_sstate {[16 := mk_thread 64 0 demo_regs 0 0]}
    {[64 := mk_proc 7 1 [0x200] [] (Some [47]) [16] 1 [] 0 [] [0; 0; 0] None]}
    [mk_cpu 16 [16] [] false] 8 0 0x1000 demo_flat
    (mk_io {[0x200 := mk_fd 101 0 0 0]} (VNode [] 100 []) (fill 0x5000 [97; 0] ∅)).

Section witnesses.
#[local] Existing Instance sys_nodes.
#[local] Existing Instance sys_paths.

Abbreviation demo_proc := (mk_proc 7 1 [0x200] [] (Some [47]) [16] 1 [] 0 [] [0; 0; 0] None).
Lemma sys_demo_running : running 0 sys_demo 64 demo_proc.
Proof. exists (mk_cpu 16 [16] [] false), (mk_thread 64 0 demo_regs 0 0). split_and!; done. Qed.

Lemma sys_bad_fd_refused_witness :
  sys_read 0 (u32 (-3)) 0x5000 1 sys_demo = Ok (inl FAILED, sys_demo) /\
  sys_lseek 0 (u32 (-3)) 0 SEEK_SET sys_demo = Err NullDeref.
Proof.
  assert (sN 32 (u32 (-3)) < 0 \/ Z.of_nat (length (file_descs demo_proc)) <= sN 32 (u32 (-3))) as Hn.
  { left. vm_compute. reflexivity. }
  destruct (sys_bad_fd_refused 0 sys_demo 64 demo_proc (u32 (-3)) 0x5000 1 0 0 0 0 10 sys_demo_running Hn)
    as (Hread & _ & _ & _ & _ & Hseek). by split.
Defined.


Lemma sys_close_double_free_witness : sys_close 0 0 sys_demo = Err OutOfBounds.
Proof.
  apply (sys_close_double_free 0 sys_demo 64 demo_proc 0 0x200 (mk_fd 101 0 0 0)); [apply sys_demo_running|..];
    [vm_compute; discriminate|reflexivity|discriminate|reflexivity|reflexivity].
Defined.


End witnesses.

(** A process in the first address space the kernel makes on its page tables. *)
Definition mmap_demo (sp : Z) (m : pstate kheap) : sstate (estate (pstate kheap)) :=
  mk_sstate {[16 := mk_thread 64 0 demo_regs 0 0]}
    {[64 := mk_proc 7 sp [] [] (Some [47]) [16] 1 [] 0 [] [0; 0; 0] None]}
    [mk_cpu 16 [16] [] false] 8 0 0x1000 (mk_estate m (fun _ => 0)) (mk_io ∅ console_root ∅).

Section mmap_witness.
#[local] Existing Instance console_nodes.
#[local] Existing Instance plain_paths.

End mmap_witness.
