(* ===== verification/Video.v ===== *)
(** * Video: frame buffer, text console and bitmaps (src/drivers/gfx/fb/fb.c, fb.h,
      src/sys/console.c, src/util/bmp.c, bmp.h)

    The frame buffer is the list of its 32-bit pixels; a pixel outside it is a fault,
    and so is a byte outside the font.  The console's cursor is a pair of [uint32_t]. *)

From S2P Require Import Prelude Disk Vfs.

(** [vid_mode_t], [psf1_font_t] and the cursor of console.c. *)
Record vid_mode : Type := mk_mode { width : Z; height : Z; depth : Z; fbphys : Z }.
Record psf1_font : Type := mk_font { magic : list Z; fmode : Z; c_size : Z; glyph_buf : list Z }.
Record video : Type := mk_video { vidmode : vid_mode; font : psf1_font; fb : list Z; curs_x : Z; curs_y : Z }.

Definition set_fb (l : list Z) (v : video) : video := mk_video (vidmode v) (font v) l (curs_x v) (curs_y v).
Definition set_curs (x y : Z) (v : video) : video := mk_video (vidmode v) (font v) (fb v) x y.
Definition set_mode (m : vid_mode) (v : video) : video := mk_video m (font v) (fb v) (curs_x v) (curs_y v).
Definition set_font (f : psf1_font) (v : video) : video := mk_video (vidmode v) f (fb v) (curs_x v) (curs_y v).

Abbreviation G := (M video).

(** ** Frame buffer *)

Definition rgbtopix (r g b : Z) : Z := Z.shiftl r 16 .| Z.shiftl g 8 .| b.

Definition put_pixel (i p : Z) : G () :=
  v ← get;
  guard ((0 <=? i) && (i <? Z.of_nat (length (fb v)))) OutOfBounds;;
  put (set_fb (<[Z.to_nat i := p]> (fb v)) v).

Definition video_setmode (m : vid_mode) : G () := modify (set_mode m).
Definition video_get_mode : G vid_mode := gets vidmode.

(** [memset(fb, 0, n)]: the first [n] bytes of the pixels. *)
Definition clear_pixel (n : Z) (k : nat) (p : Z) : Z :=
  if 4 * Z.of_nat k + 4 <=? n then 0
  else if 4 * Z.of_nat k <? n then p - p `mod` 2 ^ (8 * (n - 4 * Z.of_nat k)) else p.
Definition fb_clear : G () :=
  v ← get;
  let m := vidmode v in
  let n := u32 (u32 (width m * height m) * (depth m `div` 8)) in
  guard (n <=? 4 * Z.of_nat (length (fb v))) OutOfBounds;;
  put (set_fb (imap (clear_pixel n) (fb v)) v).

(** The request 0 reports the mode; any other leaves the result undefined. *)
Definition fb_ioctl (request : Z) : G (Z * (Z * Z * Z)) :=
  m ← video_get_mode;
  if request =? 0 then mret (0, (width m, height m, depth m)) else throw NoReturn.

(** The pages mapped at 0x30000 for a program. *)
Definition fb_mmap_pages (m : vid_mode) : Z := u32 (u32 (width m * height m) * (depth m `div` 8)) `div` 4096 + 1.
Definition fb_mmap {St} (page_map_memory : Z -> Z -> Z -> Z -> M St ()) (m : vid_mode) (space : Z) : M St Z :=
  page_map_memory 0x30000 (fbphys m) (fb_mmap_pages m) space;; mret 0x30000.

(** [video_putchar]; [c] is a signed [char], so codes from 128 on index before the
    glyphs. *)
Definition video_putchar (c x y r g b : Z) : G () :=
  f ← gets font;
  for_each y (u32 (y + 16)) (fun j =>
    for_each x (u32 (x + 8)) (fun i =>
      let a := sN 8 c * c_size f + (j - y) in
      guard (0 <=? a) OutOfBounds;;
      face ← unwrap (glyph_buf f !! Z.to_nat a) OutOfBounds;
      if (face .& Z.shiftr 0x80 (i - x)) >? 0 then
        m ← video_get_mode; put_pixel (i + j * width m) (rgbtopix r g b)
      else mret ())).

Fixpoint video_puts (str : list Z) (x xoff y r g b : Z) : G () :=
  match str with
  | [] => mret ()
  | c :: str' => video_putchar c (u32 (x + xoff)) y r g b;; video_puts str' x (u32 (xoff + 8)) y r g b
  end.

Definition video_putpix (x y r g b : Z) : G () :=
  m ← video_get_mode;
  if (width m <? x) || (height m <? y) then mret ()
  else put_pixel (x + u32 (y * width m)) (rgbtopix r g b).

Definition video_draw_img (x y w h : Z) (pixels : list Z) : G () :=
  for_each y (u32 (y + h)) (fun j =>
    for_each x (u32 (x + w)) (fun i =>
      m ← video_get_mode;
      p ← unwrap (pixels !! Z.to_nat (w * (j - y) + (i - x))) OutOfBounds;
      put_pixel (i + j * width m) p)).

(** ** Console *)

Definition console_clear : G () := fb_clear;; modify (set_curs 0 0).

Definition console_putchar (c r g b : Z) : G () :=
  m ← video_get_mode;
  v ← get;
  (if c =? 10 then modify (set_curs 0 (u32 (curs_y v + 1)))
   else if c =? 9 then modify (set_curs (u32 (curs_x v + 4)) (curs_y v))
   else if c =? 8 then modify (set_curs (u32 (curs_x v - 1)) (curs_y v))
   else
     video_putchar c (u32 (curs_x v * 8)) (u32 (curs_y v * 16)) r g b;;
     let x := u32 (curs_x v + 1) in
     if width m <=? u32 (x * 8) then modify (set_curs 0 (u32 (curs_y v + 1)))
     else modify (set_curs x (curs_y v)));;
  v ← get;
  if height m <=? u32 (curs_y v * 16) then console_clear else mret ().

Fixpoint console_write (str : list Z) (r g b : Z) : G () :=
  match str with [] => mret () | c :: str' => console_putchar c r g b;; console_write str' r g b end.

(** The write operation of [/dev/console]. *)
Definition conwrite (bs : list Z) : G Z := console_write bs 255 255 255;; mret (Z.of_nat (length bs)).

(** Set 1 scan codes; 99 is the letter c, and stands for keys without a character. *)
Definition scancode_toascii : list Z :=
  [99; 126; 49; 50; 51; 52; 53; 54; 55; 56; 57; 48; 45; 61; 8; 9; 113; 119; 101; 114; 116; 121; 117; 105; 111; 112;
   91; 93; 10; 126; 97; 115; 100; 102; 103; 104; 106; 107; 108; 59; 39; 96; 126; 92; 122; 120; 99; 118; 98; 110; 109;
   44; 46; 47; 126; 42; 126; 32; 126] ++ replicate 67 99.

(** The characters stored for a buffer of scan codes; codes above 88 (key releases)
    are skipped. *)
Fixpoint con_translate (codes : list Z) : list Z :=
  match codes with
  | [] => []
  | k :: r => if 88 <? k then con_translate r else scancode_toascii !!! Z.to_nat k :: con_translate r
  end.
(** The read operation: [kbread] reads the keyboard into a buffer of [size] bytes. *)
Definition conread {St} (kbread : Z -> Z -> M St (Z * list Z)) (off size : Z) : M St (Z * list Z) :=
  '(n, buffer) ← kbread off size;
  if truth n then
    let out := con_translate (take (Z.to_nat size) buffer) in
    mret (Z.of_nat (length out), out)
  else mret (0, []).

(** ** Bitmaps *)

Definition bmp_hdr_layout : layout := [1; 1; 4; 4; 4]%nat.
Definition bmp_inf_layout : layout := [4; 4; 4; 2; 2; 4; 4; 4; 4; 4; 4]%nat.

Section bmp.
Context {St : Type}.
Abbreviation B := (M St).

(** The inner loops; [data] is where the pixels start, and each row appends its
    pixels to the output. *)
Definition pix8 (pal : list Z) (data : list Z) (at_ : Z) : B (list Z) :=
  pix ← buf_get 1 data at_;
  '(r, g, b) ← bs ← buf_read pal (4 * pix) 3; mret (bs !!! 0%nat, bs !!! 1%nat, bs !!! 2%nat);
  mret [r; g; b; 0xff].
Definition pix24 (data : list Z) (at_ : Z) : B (list Z) :=
  bs ← buf_read data at_ 3; mret [bs !!! 2%nat; bs !!! 1%nat; bs !!! 0%nat; 0xff].

(** Lines of [w] pixels of [n] bytes, padded to four bytes by moving [data]; the output
    buffer holds [cap] bytes.  Offsets are 32-bit numbers. *)
Definition bmp_pad (n w : Z) : Z :=
  let m := Z.rem (sN 32 (sN 32 w * n)) 4 in if negb (m =? 0) then 4 - m else 0.
Definition bmp_row (pixel : Z -> B (list Z)) (n w cap data i : Z) (dst : list Z) : B (list Z) :=
  r ← for_acc (B := Empty_set) 0 w (fun j dst =>
    p ← pixel (data + u32 (i * n * w + j * n));
    guard (Z.of_nat (length dst) + 4 <=? cap) OutOfBounds;;
    mret (inl (dst ++ p))) dst;
  match r with inl d => mret d | inr e => match e with end end.
Definition bmp_rows (pixel : Z -> B (list Z)) (n w h cap start : Z) : B (list Z) :=
  r ← for_acc (B := Empty_set) 0 h (fun i st =>
    dst ← bmp_row pixel n w cap st.1 i st.2; mret (inl (st.1 + bmp_pad n w, dst))) (start, []);
  match r with inl st => mret st.2 | inr e => match e with end end.

(** [bmp_load]: width, height and the pixels (RGBA); [None] for a file that is not a
    bitmap.  An unsupported depth gives a black, transparent picture. *)
Definition bmp_load (data : list Z) : B (option (Z * Z * list Z)) :=
  hb ← buf_read data 0 14;
  let hdr := unpack bmp_hdr_layout hb in
  if negb (hdr !!! 0%nat =? 66) || negb (hdr !!! 1%nat =? 77) then mret None else
  ib ← buf_read data 14 40;
  let inf := unpack bmp_inf_layout ib in
  let bpp := inf !!! 4%nat in
  let w := inf !!! 1%nat in
  let h := inf !!! 2%nat in
  let palette := if inf !!! 9%nat =? 0 then
                   if bpp =? 1 then 2 else if bpp =? 4 then 16 else if bpp =? 8 then 256 else 0
                 else inf !!! 9%nat in
  pal ← (if bpp <=? 8 then buf_read data (14 + inf !!! 0%nat) (u64 (4 * palette)) else mret []);
  let off := hdr !!! 4%nat in
  let cap := u32 (u32 (w * h) * 4) in
  px ← (if bpp =? 8 then bmp_rows (pix8 pal data) 1 w h cap off
        else if bpp =? 24 then bmp_rows (pix24 data) 3 w h cap off
        else mret (replicate (Z.to_nat cap) 0));
  mret (Some (w, h, px)).
End bmp.

(** ** Drawing *)

(** The glyph row [k] of a character, and whether its pixel [i] is set. *)
Definition glyph (f : psf1_font) (c k : Z) : Z := default 0 (glyph_buf f !! Z.to_nat (c * c_size f + k)).
Definition lit (f : psf1_font) (c i k : Z) : bool := Z.testbit (glyph f c k) (7 - i).

(** A screen and a font the console can use: whole character cells, glyphs of 16
    rows. *)
Record video_ok (v : video) : Prop := {
  vo_w : 0 < width (vidmode v) < 2 ^ 15; vo_w8 : width (vidmode v) `mod` 8 = 0;
  vo_h : 0 < height (vidmode v) < 2 ^ 15; vo_h16 : height (vidmode v) `mod` 16 = 0;
  vo_depth : depth (vidmode v) = 32;
  vo_fb : width (vidmode v) * height (vidmode v) = Z.of_nat (length (fb v));
  vo_font : 16 <= c_size (font v) < 256;
  vo_glyphs : 128 * c_size (font v) <= Z.of_nat (length (glyph_buf (font v)));
}.

(** The pixel at column [i] and row [j]. *)
Definition pixel (v : video) (i j : Z) : option Z := fb v !! Z.to_nat (i + j * width (vidmode v)).

Lemma glyph_bit face k : 0 <= k < 8 -> ((face .& Z.shiftr 0x80 k) >? 0) = Z.testbit face (7 - k).
Proof.
  intros Hk. replace (Z.shiftr 0x80 k) with (2 ^ (7 - k)).
  - rewrite land_pow2 by lia. destruct (Z.testbit face (7 - k)); [|done]. apply Z.gtb_lt. lia.
  - rewrite Z.shiftr_div_pow2 by lia. change 0x80 with (2 ^ 7). by rewrite <-Z.pow_sub_r by lia.
Qed.

Lemma idx_inj w i j i' j' :
  0 <= i < w -> 0 <= i' < w -> 0 <= j -> 0 <= j' -> Z.to_nat (i + j * w) = Z.to_nat (i' + j' * w) -> i' = i /\ j' = j.
Proof.
  intros Hi Hi' Hj Hj' He. assert (i + j * w = i' + j' * w) by nia.
  assert (j' = j) as ->; [|lia]. destruct (Z.lt_trichotomy j j') as [|[|]]; [nia|done|nia].
Qed.

Section drawing.
Context (v : video) (Hok : video_ok v) (col : Z).
Abbreviation W := (width (vidmode v)).
Abbreviation H := (height (vidmode v)).

(** [v1] is [v] with the pixels in [D] coloured. *)
Definition drawn (D : Z -> Z -> bool) (v1 : video) : Prop :=
  v1 = set_fb (fb v1) v /\ length (fb v1) = length (fb v) /\
  forall i j, 0 <= i < W -> 0 <= j < H -> pixel v1 i j = if D i j then Some col else pixel v i j.

Lemma drawn_ext D D' v1 : (forall i j, D' i j = D i j) -> drawn D v1 -> drawn D' v1.
Proof. intros HD (? & ? & Hp). split_and!; [done|done|]. intros i j Hi Hj. rewrite HD. by apply Hp. Qed.

Lemma draw_pixel D v1 i j (l : bool) :
  drawn D v1 -> 0 <= i < W -> 0 <= j < H ->
  wp (if l then m ← video_get_mode; put_pixel (i + j * width m) col else mret ())
     (fun _ => drawn (fun i' j' => D i' j' || ((i' =? i) && (j' =? j) && l))) v1.
Proof.
  intros (Hv & Hlen & Hp) Hi Hj. destruct l.
  - unfold video_get_mode. wp_step. wp_step. replace (vidmode v1) with (vidmode v) by (rewrite Hv; done).
    pose proof (vo_fb _ Hok) as Hfb. assert (0 <= i + j * W < W * H) as Hin by nia.
    unfold put_pixel. wp_step. wp_step. wp_step. wp_step.
    { apply andb_true_intro. split; [apply Z.leb_le; lia|apply Z.ltb_lt; rewrite Hlen; lia]. }
    wp_step. split_and!; [|cbn [fb set_fb]; by rewrite length_insert|].
    + cbn [fb set_fb]. rewrite Hv. done.
    + intros i' j' Hi' Hj'. unfold pixel. replace (vidmode (set_fb _ v1)) with (vidmode v) by (rewrite Hv; done).
      cbn [fb set_fb]. rewrite andb_true_r. destruct (decide (i' = i /\ j' = j)) as [[-> ->]|Hne].
      * rewrite !Z.eqb_refl, orb_true_r. apply list_lookup_insert_eq. lia.
      * replace ((i' =? i) && (j' =? j)) with false
          by (destruct (Z.eqb_spec i' i), (Z.eqb_spec j' j); cbn [andb]; naive_solver).
        rewrite orb_false_r, <-Hp by done. unfold pixel. replace (vidmode v1) with (vidmode v) by (rewrite Hv; done).
        apply list_lookup_insert_ne. intros He. apply Hne. apply (idx_inj W i j i' j'); [lia..|exact He].
  - wp_step. split_and!; [done|done|]. intros i' j' Hi' Hj'. rewrite andb_false_r, orb_false_r. by apply Hp.
Qed.

Lemma glyph_read c k :
  0 <= c < 128 -> 0 <= k < 16 -> (0 <=? sN 8 c * c_size (font v) + k) = true /\
    glyph_buf (font v) !! Z.to_nat (sN 8 c * c_size (font v) + k) = Some (glyph (font v) c k).
Proof.
  intros Hc Hk. destruct Hok as [_ _ _ _ _ _ Hf Hg]. rewrite sN_small by lia. split; [apply Z.leb_le; nia|].
  unfold glyph. destruct (lookup_lt_is_Some_2 (glyph_buf (font v)) (Z.to_nat (c * c_size (font v) + k))) as [x Hx]; [nia|].
  by rewrite Hx.
Qed.

(** The set of pixels a character lights, and the part of it in the rows before [j]
    and in row [j] before column [i]. *)
Definition cell (c x y i j : Z) : bool :=
  (x <=? i) && (i <? x + 8) && (y <=? j) && (j <? y + 16) && lit (font v) c (i - x) (j - y).
Definition upto (c x y i j i' j' : Z) : bool := ((j' <? j) || ((j' =? j) && (i' <? i))) && cell c x y i' j'.

Lemma upto_step c x y i j i' j' :
  x <= i < x + 8 -> y <= j < y + 16 ->
  upto c x y (i + 1) j i' j' = upto c x y i j i' j' || ((i' =? i) && (j' =? j) && lit (font v) c (i - x) (j - y)).
Proof.
  intros Hi Hj. unfold upto, cell.
  destruct (Z.eqb_spec i' i) as [->|], (Z.eqb_spec j' j) as [->|]; cbn [andb orb]; rewrite ?orb_false_r.
  - rewrite Z.ltb_irrefl, Z.ltb_irrefl, (proj2 (Z.ltb_lt _ _)) by lia. cbn [andb orb].
    rewrite !(proj2 (Z.leb_le _ _)), !(proj2 (Z.ltb_lt _ _)) by lia. done.
  - done.
  - replace (i' <? i + 1) with (i' <? i); [done|]. destruct (Z.ltb_spec i' i), (Z.ltb_spec i' (i + 1)); lia.
  - done.
Qed.

Lemma upto_row c x y j i' j' : y <= j -> upto c x y (x + 8) j i' j' = upto c x y x (j + 1) i' j'.
Proof.
  intros Hj. unfold upto, cell.
  destruct (Z.ltb_spec i' (x + 8)), (Z.leb_spec x i'), (Z.ltb_spec i' x), (Z.ltb_spec j' j), (Z.eqb_spec j' j),
    (Z.ltb_spec j' (j + 1)), (Z.eqb_spec j' (j + 1)); try lia; reflexivity.
Qed.
Lemma upto_start c x y i' j' : upto c x y x y i' j' = false.
Proof.
  unfold upto, cell. destruct (Z.ltb_spec j' y), (Z.eqb_spec j' y), (Z.leb_spec y j'), (Z.ltb_spec i' x), (Z.leb_spec x i');
    try lia; reflexivity.
Qed.
Lemma upto_end c x y i' j' : upto c x y x (y + 16) i' j' = cell c x y i' j'.
Proof.
  unfold upto, cell. destruct (Z.ltb_spec j' (y + 16)), (Z.eqb_spec j' (y + 16)), (Z.ltb_spec i' x), (Z.leb_spec x i');
    try lia; reflexivity.
Qed.
End drawing.

Lemma video_putchar_wp v c x y r g b :
  video_ok v -> 0 <= c < 128 -> 0 <= x -> x + 8 <= width (vidmode v) -> 0 <= y -> y + 16 <= height (vidmode v) ->
  wp (video_putchar c x y r g b) (fun _ => drawn v (rgbtopix r g b) (cell v c x y)) v.
Proof.
  intros Hok Hc Hx Hxw Hy Hyh. pose proof (vo_w _ Hok). pose proof (vo_h _ Hok).
  unfold video_putchar. wp_step. wp_step. rewrite !uN_small by lia.
  apply (wp_for_each (fun j => drawn v (rgbtopix r g b) (upto v c x y x j))); [lia| | |].
  - split_and!; [by destruct v|done|]. intros i j Hi Hj. by rewrite upto_start.
  - intros j v1 Hj Hd. apply (wp_for_each (fun i => drawn v (rgbtopix r g b) (upto v c x y i j))); [lia|done| |].
    + intros i v2 Hi Hd2. destruct (glyph_read v Hok c (j - y)) as [Hg Hl]; [done|lia|].
      wp_step. wp_step; [exact Hg|]. wp_step. wp_step; [exact Hl|]. rewrite glyph_bit by lia.
      eapply wp_mono; [apply (draw_pixel v Hok); [exact Hd2|lia|lia]|]. intros [] v3. apply drawn_ext.
      intros i' j'. apply upto_step; lia.
    + intros v2 Hd2. eapply drawn_ext; [|exact Hd2]. intros i' j'. symmetry. apply upto_row. lia.
  - intros v1 Hd. eapply drawn_ext; [|exact Hd]. intros i' j'. symmetry. apply upto_end.
Qed.

(** Drawing a character that lies on the screen: exactly the pixels its glyph
    lights take the colour, every other pixel of the screen, the mode, the font and
    the cursor are unchanged. *)
Theorem video_putchar_correct v c x y r g b :
  video_ok v -> 0 <= c < 128 -> 0 <= x -> x + 8 <= width (vidmode v) -> 0 <= y -> y + 16 <= height (vidmode v) ->
  exists v', video_putchar c x y r g b v = Ok ((), v') /\ v' = set_fb (fb v') v /\
    forall i j, 0 <= i < width (vidmode v) -> 0 <= j < height (vidmode v) ->
      pixel v' i j = if (x <=? i) && (i <? x + 8) && (y <=? j) && (j <? y + 16) && lit (font v) c (i - x) (j - y)
                     then Some (rgbtopix r g b) else pixel v i j.
Proof.
  intros Hok Hc Hx Hxw Hy Hyh.
  destruct (wp_Ok _ _ _ (video_putchar_wp v c x y r g b Hok Hc Hx Hxw Hy Hyh)) as ([] & v' & Hv' & Hs & _ & Hp).
  by exists v'.
Qed.

(** ** The console *)

(** The cursor is on the screen. *)
Definition console_ok (v : video) : Prop :=
  video_ok v /\ 0 <= curs_x v /\ 8 * curs_x v < width (vidmode v) /\ 0 <= curs_y v /\ 16 * curs_y v < height (vidmode v).

(** Characters that are drawn or end a line. *)
Definition plain (c : Z) : Prop := 0 <= c < 128 /\ c <> 9 /\ c <> 8.

Lemma video_ok_set v l x y : video_ok v -> length l = length (fb v) -> video_ok (set_curs x y (set_fb l v)).
Proof. intros [? ? ? ? ? ? ? ?] Hl. constructor; try done. cbn. by rewrite Hl. Qed.

(** The bytes of the screen are in the frame buffer. *)
Definition fb_fits v : Prop :=
  u32 (u32 (width (vidmode v) * height (vidmode v)) * (depth (vidmode v) `div` 8)) <= 4 * Z.of_nat (length (fb v)).
Lemma fb_clear_fits_wp v : fb_fits v -> wp fb_clear (fun _ v' => exists l, v' = set_fb l v /\ length l = length (fb v)) v.
Proof.
  intros Hf. unfold fb_clear. wp_step. wp_step. wp_step. wp_step; [by apply Z.leb_le|]. wp_step. eexists. split; [done|].
  by rewrite length_imap.
Qed.
Lemma fb_clear_wp v : video_ok v -> wp fb_clear (fun _ v' => exists l, v' = set_fb l v /\ length l = length (fb v)) v.
Proof.
  intros [Hw _ Hh _ Hd Hf _ _]. apply fb_clear_fits_wp. unfold fb_fits. rewrite Hd. change (32 `div` 8) with 4.
  rewrite (uN_small 32 (width (vidmode v) * height (vidmode v))), uN_small by nia. lia.
Qed.

Lemma console_putchar_wp v c r g b :
  console_ok v -> plain c -> wp (console_putchar c r g b) (fun _ => console_ok) v.
Proof.
  intros (Hok & Hx & Hxw & Hy & Hyh) (Hc & H9 & H8). pose proof Hok as [Hw Hw8 Hh Hh16 _ _ _ _].
  assert (16 * (curs_y v + 1) <= height (vidmode v)) as Hy1 by (clear - Hyh Hh16; dlia).
  assert (8 * (curs_x v + 1) <= width (vidmode v)) as Hx1 by (clear - Hxw Hw8; dlia).
  unfold console_putchar, video_get_mode. do 4 wp_step. wp_focus.
  rewrite (proj2 (Z.eqb_neq _ _) H9), (proj2 (Z.eqb_neq _ _) H8).
  assert (forall l x y, length l = length (fb v) -> 0 <= x -> 8 * x < width (vidmode v) -> 0 <= y ->
    16 * y <= height (vidmode v) ->
    wp (v' ← get; if height (vidmode v) <=? u32 (curs_y v' * 16) then console_clear else mret ()) (fun _ => console_ok)
       (set_curs x y (set_fb l v))) as Hend.
  { intros l x y Hl Hx2 Hxw1 Hy2 Hyh1. wp_step. wp_step. cbn [curs_y set_curs]. rewrite uN_small by lia.
    destruct (Z.leb_spec (height (vidmode v)) (y * 16)).
    - unfold console_clear. wp_focus. eapply wp_mono; [apply fb_clear_wp; by apply video_ok_set|].
      intros [] v2 (l2 & -> & Hl2). wp_step. cbn in Hl2. split; [|cbn; lia].
      apply (video_ok_set v l2 0 0); [done|]. by rewrite Hl2.
    - wp_step. split; [by apply video_ok_set|]. cbn. lia. }
  destruct (Z.eqb_spec c 10) as [->|H10].
  - wp_step. rewrite uN_small by lia.
    replace (set_curs 0 (curs_y v + 1) v) with (set_curs 0 (curs_y v + 1) (set_fb (fb v) v)) by (by destruct v).
    apply Hend; [done|lia..].
  - wp_focus. rewrite !(uN_small 32) by lia. eapply wp_mono; [apply video_putchar_wp; [done|done|lia..]|].
    intros [] v1 (Hv1 & Hl1 & _).
    rewrite (uN_small 32 (curs_x v + 1)), (uN_small 32 (curs_y v + 1)), (uN_small 32 ((curs_x v + 1) * 8)) by lia. destruct (Z.leb_spec (width (vidmode v)) ((curs_x v + 1) * 8)); wp_step; rewrite Hv1.
    + apply Hend; [done|lia..].
    + apply Hend; [done|lia..].
Qed.

(** C38: On a screen of whole character cells, writing any text of ASCII characters
    without tabs and backspaces never leaves the frame buffer or the font, and the
    cursor stays on the screen. *)
Theorem console_write_safe v str r g b :
  console_ok v -> Forall plain str -> exists v', console_write str r g b v = Ok ((), v') /\ console_ok v'.
Proof.
  intros Hok Hs. assert (wp (console_write str r g b) (fun _ => console_ok) v) as Hwp.
  { revert v Hok. induction Hs as [|c str Hc _ IH]; intros v Hok; cbn [console_write].
    - by wp_step.
    - wp_focus. eapply wp_mono; [by apply console_putchar_wp|]. intros [] v1 Hok1. by apply IH. }
  destruct (wp_Ok _ _ _ Hwp) as ([] & v' & ? & ?). by exists v'.
Qed.

(** [video_putpix] checks [x > width] and [y > height].  Inside the screen the pixel is
    coloured; one past the right edge it is the first of the next row. *)
Lemma putpix_eq v x y r g b :
  video_ok v -> 0 <= x -> 0 <= y ->
  video_putpix x y r g b v =
    if (width (vidmode v) <? x) || (height (vidmode v) <? y) then Ok ((), v)
    else if x + y * width (vidmode v) <? Z.of_nat (length (fb v))
         then Ok ((), set_fb (<[Z.to_nat (x + y * width (vidmode v)) := rgbtopix r g b]> (fb v)) v)
         else Err OutOfBounds.
Proof.
  intros [Hw _ Hh _ _ _ _ _] Hx Hy. unfold video_putpix, video_get_mode. eapply bind_Ok; [done|].
  destruct (Z.ltb_spec (width (vidmode v)) x), (Z.ltb_spec (height (vidmode v)) y); cbn [orb]; try done.
  rewrite uN_small by nia. unfold put_pixel. eapply bind_Ok; [done|].
  rewrite (proj2 (Z.leb_le 0 _)) by nia. cbn [andb]. by destruct (_ <? _).
Qed.

(** [video_putpix] against the size of the screen: inside it the pixel is set, more
    than one past an edge the call is ignored, but a row or column exactly at the limit
    is accepted: at the right edge it sets the first pixel of the next row, and in the
    corner or below the last row it writes behind the frame buffer. *)
Theorem video_putpix_bounds v x y r g b :
  video_ok v -> 0 <= x -> 0 <= y -> let w := width (vidmode v) in let h := height (vidmode v) in
  (x < w -> y < h -> video_putpix x y r g b v = Ok ((), set_fb (<[Z.to_nat (x + y * w) := rgbtopix r g b]> (fb v)) v)) /\
  (w < x \/ h < y -> video_putpix x y r g b v = Ok ((), v)) /\
  (x = w -> y < h - 1 -> video_putpix x y r g b v = video_putpix 0 (y + 1) r g b v) /\
  (x <= w -> y = h -> video_putpix x y r g b v = Err OutOfBounds) /\
  (x = w -> y = h - 1 -> video_putpix x y r g b v = Err OutOfBounds).
Proof.
  intros Hok Hx Hy w h. pose proof (vo_fb _ Hok) as Hfb. fold w h in Hfb. pose proof (vo_w _ Hok). pose proof (vo_h _ Hok).
  fold w in H. fold h in H0. split_and!; intros; rewrite !putpix_eq by (done || lia); fold w h.
  - rewrite !(proj2 (Z.ltb_ge _ _)) by lia. cbn [orb]. by rewrite (proj2 (Z.ltb_lt _ _)) by nia.
  - destruct (Z.ltb_spec w x), (Z.ltb_spec h y); [done..|lia].
  - rewrite !(proj2 (Z.ltb_ge _ _)) by lia. cbn [orb]. subst x.
    replace (0 + (y + 1) * w) with (w + y * w) by lia.
    by rewrite (proj2 (Z.ltb_ge w 0)), (proj2 (Z.ltb_ge h (y + 1))) by lia.
  - rewrite !(proj2 (Z.ltb_ge _ _)) by nia. done.
  - rewrite !(proj2 (Z.ltb_ge _ _)) by nia. done.
Qed.

(** ** Bitmaps *)

(** A line takes a multiple of four bytes. *)
Definition bmp_stride (n w : Z) : Z := (n * w + 3) `div` 4 * 4.
(** The pixel at line [i], column [j] of a 24-bit bitmap, and the whole picture. *)
Definition bmp_px24 (data : list Z) (off w i j : Z) : list Z :=
  let at_ k := data !!! Z.to_nat (off + i * bmp_stride 3 w + 3 * j + k) in [at_ 2; at_ 1; at_ 0; 0xff].
Definition bmp_line24 (data : list Z) (off w i : Z) : list Z := (bmp_px24 data off w i <$> seqZ 0 w) ≫= id.
Definition bmp_ref24 (data : list Z) (off w h : Z) : list Z := (bmp_line24 data off w <$> seqZ 0 h) ≫= id.

Lemma length_px (f : Z -> list Z) k l :
  (forall x, length (f x) = k) -> length ((f <$> l) ≫= id) = (k * length l)%nat.
Proof. intros Hf. induction l as [|x l IH]; [simpl; lia|]. cbn. rewrite length_app, Hf. cbn in IH. rewrite IH. lia. Qed.

Lemma seqZ_snoc_bind (f : Z -> list Z) n :
  0 <= n -> (f <$> seqZ 0 (n + 1)) ≫= id = ((f <$> seqZ 0 n) ≫= id) ++ f n.
Proof.
  intros Hn. rewrite seqZ_app by lia. rewrite fmap_app, bind_app. f_equal. rewrite (seqZ_cons (0 + n)), seqZ_nil by lia.
  cbn. by rewrite app_nil_r.
Qed.

Lemma bmp_pad_stride w : 0 <= w < 2 ^ 24 -> 3 * w + bmp_pad 3 w = bmp_stride 3 w.
Proof.
  intros Hw. unfold bmp_pad, bmp_stride. rewrite (sN_small 32 w), sN_small by lia. rewrite Z.rem_mod_nonneg by lia.
  destruct (Z.eqb_spec ((w * 3) `mod` 4) 0); cbn [negb]; dlia.
Qed.

Lemma pix24_wp {St} data a (Q : list Z -> St -> Prop) s :
  0 <= a -> a + 3 <= Z.of_nat (length data) ->
  Q [data !!! Z.to_nat (a + 2); data !!! Z.to_nat (a + 1); data !!! Z.to_nat a; 0xff] s -> wp (pix24 data a) Q s.
Proof.
  intros Ha Hl HQ. unfold pix24. wp_focus. apply buf_read_wp; [lia..|]. wp_step.
  rewrite !list_lookup_total_alt, !lookup_take_lt, !lookup_drop by lia.
  rewrite !list_lookup_total_alt in HQ.
  replace (Z.to_nat (a + 2)) with (Z.to_nat a + 2)%nat in HQ by lia.
  replace (Z.to_nat (a + 1)) with (Z.to_nat a + 1)%nat in HQ by lia. by rewrite Nat.add_0_r.
Qed.

Lemma bmp_row24_wp {St} data off w h cap i (dst : list Z) (Q : list Z -> St -> Prop) s :
  0 <= w < 2 ^ 24 -> 0 <= i < h -> 4 * w * h < 2 ^ 32 -> 0 <= off -> off + h * bmp_stride 3 w <= Z.of_nat (length data) ->
  Z.of_nat (length dst) + 4 * w <= cap ->
  Q (dst ++ bmp_line24 data off w i) s -> wp (bmp_row (pix24 data) 3 w cap (off + i * bmp_pad 3 w) i dst) Q s.
Proof.
  intros Hw Hi Hov Ho Hlen Hcap HQ. pose proof (bmp_pad_stride w Hw) as Hst. unfold bmp_row. wp_focus.
  assert (3 * w <= bmp_stride 3 w) as H3 by (unfold bmp_stride; dlia).
  assert (i * bmp_stride 3 w + bmp_stride 3 w <= h * bmp_stride 3 w) as Hi1 by nia.
  assert (0 <= i * bmp_stride 3 w) as Hi0 by nia.
  apply (wp_for_acc (fun j dst' s' => dst' = dst ++ ((bmp_px24 data off w i <$> seqZ 0 j) ≫= id) /\ s' = s)); [lia| | |].
  - cbn. by rewrite app_nil_r.
  - intros j d s' Hj [-> ->]. assert (0 <= i * 3 * w + j * 3 < 2 ^ 32) as Hr by nia. rewrite uN_small by exact Hr.
    assert (off + i * bmp_pad 3 w + (i * 3 * w + j * 3) = off + i * bmp_stride 3 w + 3 * j) as -> by nia.
    wp_focus. apply pix24_wp; [lia|lia|]. wp_step. wp_step.
    { apply Z.leb_le. rewrite length_app, (length_px _ 4) by done. rewrite length_seqZ. lia. }
    wp_step. split; [|done]. rewrite seqZ_snoc_bind by lia. rewrite <-app_assoc. do 2 f_equal.
    unfold bmp_px24. by rewrite Z.add_0_r.
  - intros d s' [-> ->]. wp_step. done.
Qed.

(** Decoding a 24-bit bitmap: the output is the picture pixel by pixel in RGBA, each
    taken from its place in the file (lines padded to four bytes, blue first), for
    every size up to the 32-bit limits; nothing outside the file is read and the
    output exactly fills its buffer. *)
Theorem bmp_rows24_correct {St} (data : list Z) off w h (s : St) :
  0 <= w < 2 ^ 24 -> 0 <= h -> 4 * w * h < 2 ^ 32 -> 0 <= off -> off + h * bmp_stride 3 w <= Z.of_nat (length data) ->
  bmp_rows (pix24 data) 3 w h (4 * w * h) off s = Ok (bmp_ref24 data off w h, s) /\
  Z.of_nat (length (bmp_ref24 data off w h)) = 4 * w * h.
Proof.
  intros Hw Hh Hov Ho Hlen.
  assert (forall n, 0 <= n -> Z.of_nat (length ((bmp_line24 data off w <$> seqZ 0 n) ≫= id)) = 4 * w * n) as Hll.
  { intros n Hn. rewrite (length_px _ (4 * Z.to_nat w)); [rewrite length_seqZ; lia|].
    intros x. unfold bmp_line24. rewrite (length_px _ 4) by done. rewrite length_seqZ. lia. }
  split; [|by apply Hll].
  assert (wp (bmp_rows (pix24 data) 3 w h (4 * w * h) off) (fun r s' => r = bmp_ref24 data off w h /\ s' = s) s) as Hwp.
  { unfold bmp_rows. wp_focus.
    apply (wp_for_acc (fun i st s' => st = (off + i * bmp_pad 3 w, (bmp_line24 data off w <$> seqZ 0 i) ≫= id) /\ s' = s));
      [lia| | |].
    - cbn. split; [f_equal; lia|done].
    - intros i st s' Hi [-> ->]. cbn [fst snd]. wp_focus.
      apply (bmp_row24_wp data off w h); [done|lia|lia|done|done|rewrite Hll by lia; nia|].
      wp_step. rewrite <-seqZ_snoc_bind by lia. split; [f_equal; lia|done].
    - intros st s' [-> ->]. wp_step. done. }
  destruct (wp_Ok _ _ _ Hwp) as (r & s' & Hr & -> & ->). exact Hr.
Qed.

(** ** A small screen: two lines of four characters *)

Definition demo_video : video :=
  mk_video (mk_mode 32 32 32 0) (mk_font [] 0 16 (replicate 2048 0x81)) (replicate 1024 0) 0 0.
Lemma demo_video_ok : video_ok demo_video.
Proof. constructor; vm_compute; done. Qed.

Lemma video_putchar_correct_witness :
  exists v', video_putchar 65 8 0 255 0 0 demo_video = Ok ((), v') /\ v' = set_fb (fb v') demo_video /\
    pixel v' 8 0 = Some 0xff0000 /\ pixel v' 9 0 = Some 0.
Proof.
  destruct (video_putchar_correct demo_video 65 8 0 255 0 0) as (v' & Hv' & Hs & Hp);
    [apply demo_video_ok|lia|lia|cbn; lia|lia|cbn; lia|].
  exists v'. rewrite !Hp by (cbn; lia). split; [exact Hv'|]. split; [exact Hs|]. split; vm_compute; reflexivity.
Defined.

Lemma console_write_safe_witness : exists v', console_write [72; 105; 10; 33] 255 255 255 demo_video = Ok ((), v') /\ console_ok v'.
Proof.
  apply (console_write_safe demo_video [72; 105; 10; 33] 255 255 255).
  - split; [apply demo_video_ok|]. cbn. lia.
  - repeat constructor; lia.
Defined.

(** A tab is not checked against the width: from the last cell of the last line it
    leads outside, and the next character is drawn behind the frame buffer. *)
Example console_tab_overruns :
  console_write [10; 65; 65; 65; 9; 65] 255 255 255 demo_video = Err OutOfBounds.
Proof. vm_compute. reflexivity. Qed.
(** A backspace in the first column takes the cursor to column 2^32 - 1. *)
Example console_backspace_wraps :
  match console_write [8] 255 255 255 demo_video with Ok (_, v) => curs_x v = 2 ^ 32 - 1 | Err _ => False end.
Proof. vm_compute. reflexivity. Qed.

Lemma video_putpix_bounds_witness :
  video_putpix 32 30 1 2 3 demo_video = video_putpix 0 31 1 2 3 demo_video /\
  video_putpix 32 31 1 2 3 demo_video = Err OutOfBounds.
Proof.
  split.
  - apply (video_putpix_bounds demo_video 32 30 1 2 3); [apply demo_video_ok|lia..|reflexivity|reflexivity].
  - apply (video_putpix_bounds demo_video 32 31 1 2 3); [apply demo_video_ok|lia..|reflexivity|reflexivity].
Defined.

Lemma bmp_rows24_correct_witness :
  bmp_rows (pix24 [9; 1; 2; 3; 4; 5; 6; 0; 0; 11; 12; 13; 14; 15; 16; 0; 0]) 3 2 2 16 1 tt =
    Ok ([3; 2; 1; 255; 6; 5; 4; 255; 13; 12; 11; 255; 16; 15; 14; 255], tt).
Proof.
  destruct (bmp_rows24_correct [9; 1; 2; 3; 4; 5; 6; 0; 0; 11; 12; 13; 14; 15; 16; 0; 0] 1 2 2 tt) as [Hb _];
    [lia|lia|lia|lia|vm_compute; discriminate|]. exact Hb.
Defined.

(** The table covers every code that is looked up. *)
Lemma scancode_toascii_covers k : 0 <= k <= 88 -> is_Some (scancode_toascii !! Z.to_nat k).
Proof. intros Hk. apply lookup_lt_is_Some_2. change (length scancode_toascii) with 126%nat. lia. Qed.
