(* ===== verification/Chips.v ===== *)
(** * Chips: interrupt controllers, timer, serial line and random numbers
      (src/intr/pic.c, src/intr/apic.c, apic.h, src/arch/x86_64/pit.c, cpu.c,
      src/drivers/tty/serial, src/util/rand.c)

    Port drivers are programs over the class [Ports]; what the 8259, 8254 and 16550
    chips do with the accesses is stated as instances and laws.  The APICs are memory
    mapped: [apic_hw] is their documented behaviour, the registers with the I/O APIC's
    select window and the local APIC's command register, which stays busy for a while
    after an interrupt was sent. *)

From S2P Require Import Prelude Ports.

(** ** The 8259 interrupt controllers (pic.c) *)

Definition PIC1_COMMAND : Z := 0x20.
Definition PIC1_DATA : Z := 0x21.
Definition PIC2_COMMAND : Z := 0xa0.
Definition PIC2_DATA : Z := 0xa1.
Definition ICW1_INIT : Z := 0x10.
Definition ICW1_ICW4 : Z := 0x01.
Definition ICW4_8086 : Z := 0x01.

Section ports.
Context {D : Type} `{Ports D}.

Definition pic_setup (base1 base2 mask : Z) : M D () :=
  outb PIC1_COMMAND (ICW1_INIT .| ICW1_ICW4);;
  outb PIC2_COMMAND (ICW1_INIT .| ICW1_ICW4);;
  outb PIC1_DATA base1;;
  outb PIC2_DATA base2;;
  outb PIC1_DATA 0x04;;
  outb PIC2_DATA 0x02;;
  outb PIC1_DATA ICW4_8086;;
  outb PIC2_DATA ICW4_8086;;
  outb PIC1_DATA mask;;
  outb PIC2_DATA mask.
Definition pic_init : M D () := pic_setup 0x20 0x28 0x0.
Definition pic_disable : M D () := pic_setup 0xf0 0xf0 0xff.

(** ** The interval timer (pit.c) *)

Definition PIT_FREQ : Z := 1193182.
Definition PIT_CHAN0 : Z := 0x40.
Definition PIT_CMD : Z := 0x43.
Definition PIT_CMD_BIN : Z := 0x00.
Definition PIT_CMD_MODE3 : Z := 0x06.
Definition PIT_CMD_RW_BOTH : Z := 0x30.
Definition PIT_CMD_CHAN0 : Z := 0x00.

(** The clock: [uptime] in nanoseconds, [freq] in ticks per second. *)
Record clock : Type := mk_clock { uptime : Z; freq : Z }.

Definition pit_init (frequency : Z) : M D clock :=
  guard (truth frequency) DivByZero;;
  let div := u32 (PIT_FREQ `div` frequency) in
  outb PIT_CMD (PIT_CMD_BIN .| PIT_CMD_MODE3 .| PIT_CMD_RW_BOTH .| PIT_CMD_CHAN0);;
  outb PIT_CHAN0 (div .& 0xff);;
  outb PIT_CHAN0 (Z.shiftr div 8);;
  mret (mk_clock 0 frequency).

(** ** The serial line (serial.c) *)

Definition PORT_COM1 : Z := 0x3f8.
Definition SERIAL_INTR : Z := PORT_COM1 + 1.
Definition SERIAL_DIVLO : Z := PORT_COM1.
Definition SERIAL_DIVHI : Z := PORT_COM1 + 1.
Definition SERIAL_FIFO : Z := PORT_COM1 + 2.
Definition SERIAL_LINECTRL : Z := PORT_COM1 + 3.
Definition SERIAL_MODEMCTRL : Z := PORT_COM1 + 4.
Definition SERIAL_LINESTAT : Z := PORT_COM1 + 5.
Definition SERIAL_SETBAUD : Z := 0x80.
Definition SERIAL_CHARLEN8 : Z := 0x3.

Definition serial_init : M D () :=
  outb SERIAL_INTR 0x0;;
  outb SERIAL_LINECTRL SERIAL_SETBAUD;;
  outb SERIAL_DIVLO 0x04;;
  outb SERIAL_DIVHI 0x00;;
  outb SERIAL_LINECTRL SERIAL_CHARLEN8;;
  outb SERIAL_FIFO 0xc7;;
  outb SERIAL_MODEMCTRL 0x0b;;
  outb SERIAL_MODEMCTRL 0x1e;;
  outb PORT_COM1 0xae;;
  v ← inb PORT_COM1;
  if negb (v =? 0xae) then mret () else outb SERIAL_MODEMCTRL 0x0f.

Definition serial_received : M D bool := v ← inb SERIAL_LINESTAT; mret (truth (v .& 0x01)).
Definition serial_transmit_empty : M D bool := v ← inb SERIAL_LINESTAT; mret (truth (v .& 0x20)).
(** [while (test() == 0);] *)
Definition spin (fuel : N) (test : M D bool) : M D () :=
  while_ fuel (fun _ => b ← test; mret (if b then inr () else inl ())) ().
Definition serial_read (fuel : N) : M D Z := spin fuel serial_received;; v ← inb PORT_COM1; mret (sN 8 v).
Definition serial_write (fuel : N) (c : Z) : M D () := spin fuel serial_transmit_empty;; outb PORT_COM1 c.
Fixpoint serial_chars (fuel : N) (str : list Z) : M D () :=
  match str with [] => mret () | c :: r => serial_write fuel c;; serial_chars fuel r end.
End ports.

(** [serial_lock] beside the device. *)
Record serial (D : Type) : Type := mk_serial { ser_dev : D; ser_lock : bool }.
Arguments mk_serial {D}. Arguments ser_dev {D}. Arguments ser_lock {D}.

Definition serial_writestr {D} `{Ports D} (fuel : N) (str : option (list Z)) : M (serial D) () := fun s =>
  match str with
  | None => Ok ((), s)
  | Some str =>
      if ser_lock s then Err Hang else
      match serial_chars fuel str (ser_dev s) with
      | Ok (_, d) => Ok ((), mk_serial d false)
      | Err f => Err f
      end
  end.

(** [pit_int_handler] up to the call of [sched_tick], and [pit_uptime]. *)
Definition pit_tick (c : clock) : outcome clock :=
  if freq c =? 0 then Err DivByZero else Ok (mk_clock (u64 (uptime c + 1000000000 `div` freq c)) (freq c)).
Definition pit_uptime (c : clock) : Z := uptime c.

(** ** The APICs (apic.c) *)

Definition LAPIC_EOI : Z := 0x0b0.
Definition LAPIC_SIVR : Z := 0x0f0.
Definition LAPIC_ICRLO : Z := 0x300.
Definition LAPIC_ICRHI : Z := 0x310.
Definition LAPIC_BASE : Z := 0xffffffffff000.
Definition ICR_FIXED : Z := 0x000.
Definition ICR_LOWEST : Z := 0x100.
Definition ICR_SEND_PEND : Z := 0x1000.
Definition ICR_ALL_EX_SELF : Z := 0xc0000.
Definition ICR_DST_SHFT : Z := 24.
Definition IOAPIC_ID : Z := 0x00.
Definition IOAPIC_VERS : Z := 0x01.
Definition IOAPIC_RED_TBL_ENT (x : Z) : Z := 0x10 + 2 * x.
Definition CPUID_FEAT_EDX_APIC : Z := Z.shiftl 1 9.

(** The hardware: registers of the local APIC, interrupts it has sent (destination and
    command words), for how many reads the last one is still pending and how long one
    takes; the I/O APIC's selected register and registers; the base address MSR. *)
Record apic_hw : Type := mk_apic {
  la_regs : gmap Z Z; la_sent : list (Z * Z); la_busy : nat; la_delay : nat;
  io_sel : Z; io_regs : gmap Z Z; msr_base : Z;
}.
Definition reg_of (m : gmap Z Z) (r : Z) : Z := default 0 (m !! r).

Abbreviation A := (M apic_hw).

(** [lapic_write] and [lapic_read]: memory-mapped registers. *)
Definition lapic_write (off val : Z) : A () := modify (fun a =>
  let regs := <[off := u32 val]> (la_regs a) in
  if off =? LAPIC_ICRLO
  then mk_apic regs (la_sent a ++ [(reg_of (la_regs a) LAPIC_ICRHI, u32 val)]) (la_delay a) (la_delay a)
         (io_sel a) (io_regs a) (msr_base a)
  else mk_apic regs (la_sent a) (la_busy a) (la_delay a) (io_sel a) (io_regs a) (msr_base a)).
Definition lapic_read (off : Z) : A Z := fun a =>
  let v := reg_of (la_regs a) off in
  if off =? LAPIC_ICRLO
  then Ok (if (la_busy a =? 0)%nat then Z.ldiff v ICR_SEND_PEND else v .| ICR_SEND_PEND,
           mk_apic (la_regs a) (la_sent a) (pred (la_busy a)) (la_delay a) (io_sel a) (io_regs a) (msr_base a))
  else Ok (v, a).

Definition lapic_eoi : A () := lapic_write LAPIC_EOI 0.
Definition lapic_send_ipi (fuel : N) (apicid dsh type vec : Z) : A () :=
  lapic_write LAPIC_ICRHI (u32 (Z.shiftl (u8 apicid) ICR_DST_SHFT));;
  lapic_write LAPIC_ICRLO (dsh .| type .| u8 vec);;
  while_ fuel (fun _ =>
    v ← lapic_read LAPIC_ICRLO; mret (if truth (v .& ICR_SEND_PEND) then inl () else inr ())) ().

Definition lapic_read_base : A Z := gets msr_base.
Definition lapic_set_base (val : Z) : A () := modify (fun a =>
  mk_apic (la_regs a) (la_sent a) (la_busy a) (la_delay a) (io_sel a) (io_regs a) (u64 val)).
Definition lapic_enable : A () :=
  b ← lapic_read_base;
  lapic_set_base (b .| Z.shiftl 1 11);;
  v ← lapic_read LAPIC_SIVR;
  lapic_write LAPIC_SIVR (v .| 0x1ff).
(** The base is mapped; [idt_set_int(0xff, spur_int)] is part of the interrupt table. *)
Definition lapic_init : A Z :=
  b ← lapic_read_base;
  lapic_enable;;
  mret (b .& LAPIC_BASE).

(** [*regsel = reg] and the window. *)
Definition io_select (reg : Z) : A () := modify (fun a =>
  mk_apic (la_regs a) (la_sent a) (la_busy a) (la_delay a) (u32 reg) (io_regs a) (msr_base a)).
Definition ioapic_read32 (reg : Z) : A Z := io_select reg;; gets (fun a => reg_of (io_regs a) (io_sel a)).
Definition ioapic_write32 (reg val : Z) : A () :=
  io_select reg;;
  modify (fun a => mk_apic (la_regs a) (la_sent a) (la_busy a) (la_delay a) (io_sel a)
                     (<[io_sel a := u32 val]> (io_regs a)) (msr_base a)).
Definition ioapic_write64 (reg val : Z) : A () :=
  ioapic_write32 reg (val .& 0xffffffff);; ioapic_write32 (reg + 1) (u32 (Z.shiftr val 32)).
Definition ioapic_redirect (irq vec delivery : Z) : A () :=
  ioapic_write64 (IOAPIC_RED_TBL_ENT (u8 irq)) (delivery .| u8 vec).
Definition ioapic_map_irq (irq : Z) : A () := ioapic_redirect (u8 irq) (u8 irq + 32) ICR_LOWEST.
(** The number of entries and the id, and the overrides ([gsi], [irq_src]) of ACPI. *)
Definition ioapic_init (isos : list (Z * Z)) : A (Z * Z) :=
  v ← ioapic_read32 IOAPIC_VERS;
  id ← ioapic_read32 IOAPIC_ID;
  (fix go l := match l with [] => mret () | iso :: r => ioapic_redirect iso.1 (iso.2 + 32) ICR_LOWEST;; go r end) isos;;
  mret (Z.shiftr v 16, Z.shiftr id 24).

(** The vendor string from the three registers of leaf 0 (cpu.c). *)
Definition cpuid_vendor (ebx ecx edx : Z) : list Z :=
  let bytes4 r := (fun i => Z.shiftr r (i * 8) .& 0xff) <$> seqZ 0 4 in bytes4 ebx ++ bytes4 edx ++ bytes4 ecx.

(** [apic_init]; [edx_feats] comes from cpuid leaf 1. *)
Definition apic_init {D} `{Ports D} (edx_feats : Z) (isos : list (Z * Z)) : M (D * apic_hw) () := fun s =>
  if negb (truth (edx_feats .& CPUID_FEAT_EDX_APIC)) then Ok ((), s) else
  match pic_disable s.1, (lapic_init;; ioapic_init isos) s.2 with
  | Ok (_, d), Ok (_, a) => Ok ((), (d, a))
  | Err f, _ => Err f
  | _, Err f => Err f
  end.

(** ** Random numbers (rand.c) *)

Definition RAND_MAX : Z := 2 ^ 31 - 1.
Definition rand_seed (seed : Z) : Z := u32 seed.
(** The number and the next state. *)
Definition rand_gen (next : Z) : Z * Z :=
  let next := u64 (next * 1103515245 + 12345) in
  (sN 32 (u32 (next `div` (RAND_MAX * 2)) `mod` (RAND_MAX + 1)), next).
Definition rand_range (min max next : Z) : Z * Z :=
  let '(r, next) := rand_gen next in (u64 (u64 (Z.quot r RAND_MAX) * max + min), next).

(** ** The controllers after initialisation *)

(** An 8259: after an initialisation word on the command port it takes the vector
    base, the cascade word and the mode on the data port, then masks. *)
Record i8259 : Type := mk_8259 { stage : nat; vbase : Z; cascade : Z; mode86 : Z; imr : Z }.
Definition i8259_out (data : bool) (v : Z) (c : i8259) : i8259 :=
  if data then
    match stage c with
    | 1%nat => mk_8259 2 (v .& 0xf8) (cascade c) (mode86 c) (imr c)
    | 2%nat => mk_8259 3 (vbase c) v (mode86 c) (imr c)
    | 3%nat => mk_8259 0 (vbase c) (cascade c) v (imr c)
    | _ => mk_8259 0 (vbase c) (cascade c) (mode86 c) v
    end
  else if Z.testbit v 4 then mk_8259 1 (vbase c) (cascade c) (mode86 c) 0 else c.

#[export] Program Instance pics_Ports : Ports (i8259 * i8259) := {|
  port_out w p v d :=
    if p =? PIC1_COMMAND then (i8259_out false v d.1, d.2) else if p =? PIC1_DATA then (i8259_out true v d.1, d.2)
    else if p =? PIC2_COMMAND then (d.1, i8259_out false v d.2) else if p =? PIC2_DATA then (d.1, i8259_out true v d.2)
    else d;
  port_in w p d := (0, d);
|}.
Next Obligation. intros. simpl. lia. Qed.

(** Whatever state the controllers are in, [pic_init] puts their sixteen lines on the
    vectors 0x20 to 0x2f, all enabled, and [pic_disable] masks every line. *)
Lemma pic_init_correct d :
  pic_init d = Ok ((), (mk_8259 0 0x20 0x04 1 0, mk_8259 0 0x28 0x02 1 0)).
Proof. reflexivity. Qed.
Lemma pic_disable_correct d :
  pic_disable d = Ok ((), (mk_8259 0 0xf0 0x04 1 0xff, mk_8259 0 0xf0 0x02 1 0xff)).
Proof. reflexivity. Qed.

(** Channel 0 of an 8254 that loads low byte, then high byte. *)
Record i8254 : Type := mk_8254 { pit_mode : Z; low : option Z; reload : Z }.
#[export] Program Instance pit_Ports : Ports i8254 := {|
  port_out w p v d :=
    if p =? PIT_CMD then mk_8254 (Z.shiftr v 1 .& 7) None (reload d)
    else if p =? PIT_CHAN0 then
      match low d with
      | None => mk_8254 (pit_mode d) (Some v) (reload d)
      | Some l => mk_8254 (pit_mode d) None (l + 256 * v)
      end
    else d;
  port_in w p d := (0, d);
|}.
Next Obligation. intros. simpl. lia. Qed.

(** The counter is loaded with the quotient of the chip's clock and the frequency, in
    square-wave mode; below 19 ticks per second the quotient does not fit and loses its
    high bits. *)
Lemma pit_init_correct f d :
  0 < f -> exists c, pit_init f d = Ok (c, mk_8254 3 None (PIT_FREQ `div` f `mod` 65536)) /\ freq c = f.
Proof.
  intros Hf. exists (mk_clock 0 f). split; [|reflexivity]. unfold pit_init. eapply bind_Ok; [by rewrite (proj2 (truth_true f)) by lia|].
  cbv zeta. do 3 (eapply bind_Ok; [reflexivity|]). unfold mret, M_ret. do 2 f_equal.
  assert (0 <= PIT_FREQ `div` f <= PIT_FREQ) as Hd.
  { split; [apply Z.div_pos; unfold PIT_FREQ; lia|]. apply Z.div_le_upper_bound; [lia|]. unfold PIT_FREQ. nia. }
  rewrite (uN_small 32) by (unfold PIT_FREQ in *; lia). set (q := PIT_FREQ `div` f) in *.
  assert (u8 (q .& 0xff) = q `mod` 256) as E1.
  { change 0xff with (Z.ones 8). rewrite Z.land_ones by lia. unfold uN. rewrite Z.mod_mod by lia. done. }
  assert (u8 (Z.shiftr q 8) = (q `div` 256) `mod` 256) as E2 by (rewrite Z.shiftr_div_pow2 by lia; done).
  cbn. rewrite E1, E2. f_equal. clear. dlia.
Qed.

(** ** Serial output *)

(** A 16550 that is transmitting: what it has sent, and for how many polls of the
    status register it is still busy; at most [uart_max]. *)
Class Uart (D : Type) `{Ports D} : Type := {
  uart_out : D -> list Z;
  uart_busy : D -> nat;
  uart_max : nat;
  uart_busy_max d : (uart_busy d <= uart_max)%nat;
  uart_poll_value d : truth ((port_in 1 SERIAL_LINESTAT d).1 .& 0x20) = (uart_busy d =? 0)%nat;
  uart_poll_out d : uart_out (port_in 1 SERIAL_LINESTAT d).2 = uart_out d;
  uart_poll_busy d : uart_busy (port_in 1 SERIAL_LINESTAT d).2 = pred (uart_busy d);
  uart_send d b : uart_busy d = 0%nat -> 0 <= b < 256 -> uart_out (port_out 1 PORT_COM1 b d) = uart_out d ++ [b];
}.

Section uart.
Context {D : Type} `{Uart D}.

Lemma serial_write_wp fuel c (Q : () -> D -> Prop) d :
  (uart_max < N.to_nat fuel)%nat -> 0 <= c < 256 ->
  (forall d', uart_out d' = uart_out d ++ [c] -> Q () d') -> wp (serial_write fuel c) Q d.
Proof.
  intros Hf Hc HQ. unfold serial_write, spin. wp_focus.
  apply (wp_while (fun k _ d' => k = uart_busy d' /\ uart_out d' = uart_out d) (uart_busy d)).
  - done.
  - pose proof (uart_busy_max d). lia.
  - intros k [] d' [-> Ho]. unfold serial_transmit_empty, inb. wp_focus. wp_focus. apply port_read_wp.
    change (u16 SERIAL_LINESTAT) with SERIAL_LINESTAT. wp_step. rewrite uart_poll_value.
    destruct (Nat.eqb_spec (uart_busy d') 0) as [Hz|Hz]; wp_step.
    + unfold outb. apply port_write_wp. change (u16 PORT_COM1) with PORT_COM1. rewrite (uN_small 8) by done. apply HQ.
      rewrite uart_send, uart_poll_out, Ho; [done| |done]. rewrite uart_poll_busy. lia.
    + exists (pred (uart_busy d')). rewrite uart_poll_busy, uart_poll_out. split; [lia|done].
Qed.

(** Writing a string to the serial line ends, if every character leaves the
    transmitter after at most [uart_max] polls: the line carries the string, in order
    and complete, behind what was sent before, and the lock is free again.  A null
    string is ignored. *)
Theorem serial_writestr_correct fuel str (d : D) :
  (uart_max < N.to_nat fuel)%nat -> Forall (fun b => 0 <= b < 256) str ->
  serial_writestr fuel None (mk_serial d false) = Ok ((), mk_serial d false) /\
  exists d', serial_writestr fuel (Some str) (mk_serial d false) = Ok ((), mk_serial d' false) /\
    uart_out d' = uart_out d ++ str.
Proof.
  intros Hf Hs. split; [done|].
  assert (wp (serial_chars fuel str) (fun _ d' => uart_out d' = uart_out d ++ str) d) as Hwp.
  { revert d. induction Hs as [|c str Hc _ IH]; intros d; cbn [serial_chars].
    - wp_step. by rewrite app_nil_r.
    - wp_focus. apply serial_write_wp; [done|done|]. intros d1 Hd1. eapply wp_mono; [apply IH|].
      intros [] d2 Hd2. by rewrite Hd2, Hd1, <-app_assoc. }
  destruct (wp_Ok _ _ _ Hwp) as ([] & d' & Hd' & Ho). exists d'. split; [|done]. unfold serial_writestr. cbn [ser_lock ser_dev].
  by rewrite Hd'.
Qed.
End uart.

(** ** Inter-processor interrupts and redirection *)

Lemma pending_bit v (b : bool) :
  truth ((if b then Z.ldiff v ICR_SEND_PEND else v .| ICR_SEND_PEND) .& ICR_SEND_PEND) = negb b.
Proof.
  change ICR_SEND_PEND with (2 ^ 12). rewrite truth_land_pow2 by lia. destruct b.
  - rewrite Z.ldiff_spec, Z.pow2_bits_true by lia. by rewrite andb_false_r.
  - rewrite Z.lor_spec, Z.pow2_bits_true by lia. by rewrite orb_true_r.
Qed.

Definition ipi_sent (dst cmd : Z) (a a' : apic_hw) : Prop :=
  la_sent a' = la_sent a ++ [(dst, cmd)] /\ la_busy a' = 0%nat /\ la_delay a' = la_delay a /\
  io_regs a' = io_regs a /\ io_sel a' = io_sel a /\ msr_base a' = msr_base a.

Lemma send_ipi_wp fuel apicid dsh type vec a :
  (la_delay a < N.to_nat fuel)%nat -> 0 <= dsh < 2 ^ 32 -> 0 <= type < 2 ^ 32 ->
  wp (lapic_send_ipi fuel apicid dsh type vec)
     (fun _ => ipi_sent (Z.shiftl (u8 apicid) 24) (dsh .| type .| u8 vec) a) a.
Proof.
  intros Hf Hd Ht. pose proof (uN_range 8 apicid ltac:(lia)) as Ha. pose proof (uN_range 8 vec ltac:(lia)) as Hv.
  assert (0 <= dsh .| type .| u8 vec < 2 ^ 32) as Hc by (apply lor_bounded; [lia|apply lor_bounded; lia|lia]).
  assert (0 <= Z.shiftl (u8 apicid) 24 < 2 ^ 32) as Hs by (rewrite Z.shiftl_mul_pow2 by lia; lia).
  unfold lapic_send_ipi, lapic_write. change ICR_DST_SHFT with 24.
  rewrite !(uN_small 32 (Z.shiftl (u8 apicid) 24) Hs), (uN_small 32 _ Hc). do 4 wp_step. cbn -[uN la_sent reg_of].
  apply (wp_while (fun k _ a' => k = la_busy a' /\
    la_sent a' = la_sent a ++ [(Z.shiftl (u8 apicid) 24, dsh .| type .| u8 vec)] /\ la_delay a' = la_delay a /\
    io_regs a' = io_regs a /\ io_sel a' = io_sel a /\ msr_base a' = msr_base a) (la_delay a)).
  - cbn. unfold reg_of. rewrite lookup_insert_eq. done.
  - done.
  - intros k [] a' (-> & Hse & Hio). wp_focus. unfold lapic_read. unfold wp. cbn [Z.eqb]. rewrite Z.eqb_refl.
    rewrite pending_bit. destruct (Nat.eqb_spec (la_busy a') 0) as [Hz|Hz]; cbn -[uN].
    + unfold ipi_sent. cbn. rewrite Hz. done.
    + exists (pred (la_busy a')). split; [lia|]. done.
Qed.

(** [lapic_send_ipi] sends exactly one interrupt, with the destination and the
    command asked for, and returns when it has been delivered; nothing about the I/O
    APIC changes. *)
Theorem lapic_send_ipi_correct fuel apicid dsh type vec a :
  (la_delay a < N.to_nat fuel)%nat -> 0 <= dsh < 2 ^ 32 -> 0 <= type < 2 ^ 32 ->
  exists a', lapic_send_ipi fuel apicid dsh type vec a = Ok ((), a') /\
    ipi_sent (Z.shiftl (u8 apicid) 24) (dsh .| type .| u8 vec) a a'.
Proof.
  intros Hf Hd Ht. destruct (wp_Ok _ _ _ (send_ipi_wp fuel apicid dsh type vec a Hf Hd Ht)) as ([] & a' & ? & ?).
  by exists a'.
Qed.

(** A redirection entry as the I/O APIC reads it: vector, delivery mode, mask and
    destination. *)
Definition redirection (a : apic_hw) (n : Z) : Z * Z * bool * Z :=
  let lo := reg_of (io_regs a) (IOAPIC_RED_TBL_ENT n) in
  (lo .& 0xff, Z.shiftr lo 8 .& 7, Z.testbit lo 16, Z.shiftr (reg_of (io_regs a) (IOAPIC_RED_TBL_ENT n + 1)) 24).

Lemma ioapic_redirect_eq irq vec d a :
  0 <= irq < 256 -> 0 <= vec < 256 -> 0 <= d < 2 ^ 32 ->
  ioapic_redirect irq vec d a = Ok ((), mk_apic (la_regs a) (la_sent a) (la_busy a) (la_delay a) (17 + 2 * irq)
    (<[17 + 2 * irq := 0]> (<[16 + 2 * irq := d .| vec]> (io_regs a))) (msr_base a)).
Proof.
  intros Hi Hv Hd. unfold ioapic_redirect, ioapic_write64, IOAPIC_RED_TBL_ENT.
  rewrite (uN_small 8 irq), (uN_small 8 vec) by lia.
  assert (0 <= d .| vec < 2 ^ 32) as Hc by (apply lor_bounded; lia).
  replace (16 + 2 * irq + 1) with (17 + 2 * irq) by lia.
  replace ((d .| vec) .& 0xffffffff) with (d .| vec)
    by (change 0xffffffff with (Z.ones 32); rewrite Z.land_ones by lia; by rewrite Z.mod_small).
  rewrite Z.shiftr_div_pow2, Z.div_small by lia. change (u32 0) with 0.
  eapply bind_Ok; [eapply bind_Ok; reflexivity|]. eapply bind_Ok; [reflexivity|]. cbn [io_sel io_regs la_regs la_sent la_busy la_delay msr_base].
  unfold modify. cbn [io_sel io_regs]. rewrite (uN_small 32 _ Hc), !(uN_small 32) by lia. done.
Qed.

(** The fields of a lowest-priority entry. *)
Lemma lowest_fields i :
  0 <= i < 224 ->
  ((ICR_LOWEST .| (i + 32)) .& 0xff, Z.shiftr (ICR_LOWEST .| (i + 32)) 8 .& 7, Z.testbit (ICR_LOWEST .| (i + 32)) 16,
   Z.shiftr 0 24) = (i + 32, 1, false, 0).
Proof.
  intros Hi. pose proof (byte_cases (fun i => (224 <=? i) ||
    (((ICR_LOWEST .| (i + 32)) .& 0xff =? i + 32) && (Z.shiftr (ICR_LOWEST .| (i + 32)) 8 .& 7 =? 1) &&
     negb (Z.testbit (ICR_LOWEST .| (i + 32)) 16))) ltac:(vm_compute; reflexivity) i ltac:(lia)) as Hb.
  cbn beta in Hb. rewrite (proj2 (Z.leb_gt 224 i)) in Hb by lia. cbn [orb] in Hb. apply andb_prop in Hb as [Hb H3].
  apply andb_prop in Hb as [H1 H2]. apply Z.eqb_eq in H1, H2. apply negb_true_iff in H3. by rewrite H1, H2, H3.
Qed.

(** After [ioapic_map_irq(irq)] the line is unmasked and delivered to the vector
    [irq + 32] with lowest priority; the entries of all other lines are as they were. *)
Theorem ioapic_map_irq_correct irq a :
  0 <= irq < 224 ->
  exists a', ioapic_map_irq irq a = Ok ((), a') /\ redirection a' irq = (irq + 32, 1, false, 0) /\
    forall n, 0 <= n -> n <> irq -> redirection a' n = redirection a n.
Proof.
  intros Hi. unfold ioapic_map_irq. rewrite (uN_small 8 irq) by lia.
  rewrite ioapic_redirect_eq by (unfold ICR_LOWEST; lia). eexists. split; [reflexivity|].
  unfold redirection, IOAPIC_RED_TBL_ENT, reg_of. cbn [io_regs]. split.
  - rewrite lookup_insert_ne, lookup_insert_eq by lia. replace (16 + 2 * irq + 1) with (17 + 2 * irq) by lia.
    rewrite lookup_insert_eq. cbn [default]. by apply lowest_fields.
  - intros n Hn Hne. rewrite !lookup_insert_ne by lia. done.
Qed.

(** ** Random numbers *)

Lemma rand_gen_range n : 0 <= (rand_gen n).1 <= RAND_MAX.
Proof.
  unfold rand_gen. cbn [fst]. pose proof (Z.mod_pos_bound (u32 (u64 (n * 1103515245 + 12345) `div` (RAND_MAX * 2))) (RAND_MAX + 1)).
  unfold RAND_MAX in *. rewrite sN_small by lia. lia.
Qed.

(** [rand_range] does not choose from a range: whatever the state, its result is the
    lower bound, or in one of 2^31 cases the sum of the bounds (the integer quotient of
    the generated number by RAND_MAX is 0 or 1). *)
Theorem rand_range_two_values min max n :
  0 <= min < 2 ^ 64 -> 0 <= max < 2 ^ 64 ->
  (rand_range min max n).1 = if (rand_gen n).1 =? RAND_MAX then u64 (max + min) else min.
Proof.
  intros Hmin Hmax. pose proof (rand_gen_range n) as Hr. unfold rand_range. destruct (rand_gen n) as [r n']. cbn [fst] in *.
  destruct (Z.eqb_spec r RAND_MAX) as [->|Hne].
  - rewrite Z.quot_same by (unfold RAND_MAX; lia). change (u64 1) with 1. f_equal. lia.
  - rewrite Z.quot_small by (unfold RAND_MAX in *; lia). change (u64 0) with 0. rewrite uN_small by lia. lia.
Qed.

(** ** Examples *)

(** A line that is busy for one poll after each character. *)
Record slow_uart : Type := mk_uart { u_out : list Z; u_busy : bool }.
#[export] Program Instance slow_Ports : Ports slow_uart := {|
  port_out w p v d := if p =? PORT_COM1 then mk_uart (u_out d ++ [v]) true else d;
  port_in w p d :=
    if p =? SERIAL_LINESTAT then (if u_busy d then 0 else uN (8 * Z.of_nat w) 0x20, mk_uart (u_out d) false) else (0, d);
|}.
Next Obligation.
  intros. assert (0 < 2 ^ (8 * Z.of_nat w)) by (apply Z.pow_pos_nonneg; lia). cbn beta.
  destruct (p =? SERIAL_LINESTAT); [|cbn [fst]; lia]. cbn [fst]. destruct (u_busy d); [lia|apply uN_range; lia].
Qed.
#[export] Program Instance slow_Uart : Uart slow_uart := {|
  uart_out := u_out; uart_busy d := if u_busy d then 1%nat else 0%nat; uart_max := 1;
|}.
Next Obligation. intros d. cbn beta. destruct (u_busy d); lia. Qed.
Next Obligation. intros d. cbn. by destruct (u_busy d). Qed.
Next Obligation. done. Qed.
Next Obligation. intros d. cbn. by destruct (u_busy d). Qed.
Next Obligation. done. Qed.

Lemma serial_writestr_correct_witness :
  exists d', serial_writestr 5 (Some [72; 105]) (mk_serial (mk_uart [] false) false) = Ok ((), mk_serial d' false) /\
    u_out d' = [72; 105].
Proof.
  destruct (serial_writestr_correct 5 [72; 105] (mk_uart [] false)) as (_ & d' & Hd & Ho);
    [cbn; lia|repeat constructor; lia|]. by exists d'.
Defined.

Lemma lapic_send_ipi_correct_witness :
  exists a', lapic_send_ipi 10 3 ICR_ALL_EX_SELF ICR_FIXED 0xfe (mk_apic ∅ [] 0 4 0 ∅ 0) = Ok ((), a') /\
    la_sent a' = [(0x3000000, 0xc00fe)].
Proof.
  destruct (lapic_send_ipi_correct 10 3 ICR_ALL_EX_SELF ICR_FIXED 0xfe (mk_apic ∅ [] 0 4 0 ∅ 0)) as (a' & Ha & Hs & _);
    [cbn; lia|unfold ICR_ALL_EX_SELF; lia|unfold ICR_FIXED; lia|]. by exists a'.
Defined.

Lemma ioapic_map_irq_correct_witness :
  exists a', ioapic_map_irq 1 (mk_apic ∅ [] 0 4 0 ∅ 0) = Ok ((), a') /\ redirection a' 1 = (33, 1, false, 0).
Proof.
  destruct (ioapic_map_irq_correct 1 (mk_apic ∅ [] 0 4 0 ∅ 0)) as (a' & Ha & Hr & _); [lia|]. by exists a'.
Defined.

Lemma rand_range_two_values_witness : (rand_range 5 100 1).1 = 5.
Proof. rewrite (rand_range_two_values 5 100 1) by lia. vm_compute. reflexivity. Defined.
