(* ===== verification/Timer.v ===== *)
(** * Timer: waiting for time to pass (src/time/time.c, time.h, pit_wait of pit.c)

    [timer_t] is a record of operations; the interval timer (Chips.v) provides one.  The
    wait loop reads [uptime], which only the timer interrupt advances; when interrupts
    arrive is a parameter of the state: a tick may come before each read. *)

From S2P Require Import Prelude Ports Chips.

(** The clock, the interrupts to come, how many reads there have been, and whether
    [timer] points to the interval timer's operations. *)
Record tstate : Type := mk_tstate { tm_clock : clock; tm_irq : nat -> bool; tm_reads : nat; tm_set : bool }.

(** Between two reads [pit_int_handler] may run. *)
Definition env_tick : M tstate () := fun s =>
  if tm_irq s (tm_reads s) then
    match pit_tick (tm_clock s) with
    | Ok c => Ok ((), mk_tstate c (tm_irq s) (S (tm_reads s)) (tm_set s))
    | Err f => Err f
    end
  else Ok ((), mk_tstate (tm_clock s) (tm_irq s) (S (tm_reads s)) (tm_set s)).
Definition read_uptime : M tstate Z := env_tick;; gets (fun s => pit_uptime (tm_clock s)).

Definition pit_wait (fuel : N) (ns : Z) : M tstate () :=
  now ← read_uptime;
  while_ fuel (fun _ => u ← read_uptime; mret (if u64 (u - now) <? ns then inl () else inr ())) ().

(** [timer_t], and [pit_timer] as [pit_init] fills it in. *)
Record timer_ops : Type := mk_ops { ops_uptime : M tstate Z; ops_wait : N -> Z -> M tstate () }.
Definition pit_timer : timer_ops := mk_ops read_uptime pit_wait.
Definition timer_init : M tstate () := modify (fun s => mk_tstate (tm_clock s) (tm_irq s) (tm_reads s) true).

(** Through the pointer [timer], which is null before [timer_init]. *)
Definition timer : M tstate timer_ops := s ← get; guard (tm_set s) NullDeref;; mret pit_timer.
Definition timer_uptime : M tstate Z := t ← timer; ops_uptime t.
Definition timer_wait (fuel : N) (ns : Z) : M tstate () := t ← timer; ops_wait t fuel ns.

(** ** The wait *)

(** Interrupts among the [n] reads from the [i]th on. *)
Fixpoint arrivals (irq : nat -> bool) (i n : nat) : Z :=
  match n with
  | O => 0
  | S n => arrivals irq i n + (if irq (i + n)%nat then 1 else 0)
  end.
Definition period (c : clock) : Z := 1000000000 `div` freq c.

Lemma arrivals_nonneg irq i n : 0 <= arrivals irq i n.
Proof. induction n; cbn; [lia|]. destruct (irq _); lia. Qed.

(** A read counts the interrupt that came before it. *)
Lemma read_uptime_wp s (Q : Z -> tstate -> Prop) :
  freq (tm_clock s) <> 0 ->
  (forall u, u = (if tm_irq s (tm_reads s) then u64 (uptime (tm_clock s) + period (tm_clock s)) else uptime (tm_clock s)) ->
     Q u (mk_tstate (mk_clock u (freq (tm_clock s))) (tm_irq s) (S (tm_reads s)) (tm_set s))) ->
  wp read_uptime Q s.
Proof.
  intros Hf HQ. unfold read_uptime, env_tick, pit_tick, wp, bindM, gets. destruct (tm_irq s (tm_reads s)).
  - rewrite (proj2 (Z.eqb_neq _ _) Hf). by apply HQ.
  - specialize (HQ _ eq_refl). destruct s as [[]]. exact HQ.
Qed.

(** After [n] reads from [s], [now] being the time at the start. *)
Definition waited (s : tstate) (now : Z) (n : nat) (s' : tstate) : Prop :=
  tm_irq s' = tm_irq s /\ tm_set s' = tm_set s /\ tm_reads s' = (tm_reads s + n)%nat /\ freq (tm_clock s') = freq (tm_clock s) /\
  uptime (tm_clock s') = u64 (now + arrivals (tm_irq s) (tm_reads s) n * period (tm_clock s)).

Lemma waited_read s now n s' (Q : Z -> tstate -> Prop) :
  freq (tm_clock s) <> 0 -> waited s now n s' ->
  (forall s2, waited s now (S n) s2 -> Q (uptime (tm_clock s2)) s2) -> wp read_uptime Q s'.
Proof.
  intros Hf (Ei & Es & Er & Ef & Eu) HQ. apply read_uptime_wp; [by rewrite Ef|]. intros u Hu. refine (HQ (mk_tstate (mk_clock u _) _ _ _) _). subst u.
  split_and!; cbn [tm_irq tm_set tm_reads tm_clock freq uptime arrivals]; try done; [lia|].
  unfold period. rewrite Ei, Er, Ef, Eu. destruct (tm_irq s (tm_reads s + n)%nat).
  - unfold uN. rewrite Zplus_mod_idemp_l. f_equal. unfold period. ring.
  - f_equal. unfold period. ring.
Qed.

(** The loop ends with the first read that shows enough time; [n] reads are enough if
    enough interrupts arrive among them. *)
Lemma pit_wait_loop_wp fuel ns s now n (Q : () -> tstate -> Prop) :
  freq (tm_clock s) <> 0 -> 0 <= period (tm_clock s) -> uptime (tm_clock s) = u64 now ->
  0 <= ns -> ns + period (tm_clock s) < 2 ^ 64 -> ns <= arrivals (tm_irq s) (tm_reads s) n * period (tm_clock s) ->
  (0 < n < N.to_nat fuel)%nat ->
  (forall s' c, uptime (tm_clock s') = u64 (now + c * period (tm_clock s)) -> ns <= c * period (tm_clock s) <= ns + period (tm_clock s) ->
     tm_set s' = tm_set s -> tm_irq s' = tm_irq s -> freq (tm_clock s') = freq (tm_clock s) -> Q () s') ->
  wp (while_ fuel (fun _ => u ← read_uptime; mret (if u64 (u - now) <? ns then inl () else inr ())) ()) Q s.
Proof.
  intros Hf Hp Hnow Hns Hfit Hen Hn HQ.
  apply (wp_while (fun k _ s' => exists j, k = (n - j)%nat /\ waited s now j s' /\
    (j = 0%nat \/ arrivals (tm_irq s) (tm_reads s) j * period (tm_clock s) < ns)) n); [|lia|].
  { exists 0%nat. split; [lia|]. split; [|by left]. unfold waited. cbn [arrivals]. rewrite Nat.add_0_r, Z.mul_0_l, Z.add_0_r. by split_and!. }
  intros k [] s1 (j & -> & Hw & Hlt). wp_focus. eapply waited_read; [done|exact Hw|]. intros s2 Hw2. wp_step.
  pose proof Hw2 as (Ei & Es & Er & Ef & Eu). set (c := arrivals (tm_irq s) (tm_reads s) (S j)) in *.
  assert (arrivals (tm_irq s) (tm_reads s) j <= c <= arrivals (tm_irq s) (tm_reads s) j + 1) as Hc.
  { unfold c. cbn. destruct (tm_irq s _); lia. }
  pose proof (arrivals_nonneg (tm_irq s) (tm_reads s) j) as Hc0.
  assert (0 <= c * period (tm_clock s) <= ns + period (tm_clock s)) as Hcr.
  { split; [nia|]. destruct Hlt as [->|Hlt]; [cbn [arrivals] in Hc; nia|nia]. }
  rewrite Eu. unfold uN at 1 2. rewrite Zminus_mod_idemp_l.
  replace (now + c * period (tm_clock s) - now) with (c * period (tm_clock s)) by lia. rewrite Z.mod_small by lia.
  destruct (Z.ltb_spec (c * period (tm_clock s)) ns) as [Hl|Hl].
  - exists (n - S j)%nat. assert (S j < n \/ n = S j \/ n <= j)%nat as [?|[->|?]] by lia.
    + split; [lia|]. exists (S j). split; [lia|]. split; [done|by right].
    + fold c in Hen. lia.
    + assert (forall m, arrivals (tm_irq s) (tm_reads s) n <= arrivals (tm_irq s) (tm_reads s) (n + m)) as Hmono.
      { induction m as [|m IH]; [rewrite Nat.add_0_r; lia|]. rewrite Nat.add_succ_r. cbn. destruct (tm_irq s _); lia. }
      specialize (Hmono (S j - n)%nat). replace (n + (S j - n))%nat with (S j) in Hmono by lia. fold c in Hmono. nia.
  - apply (HQ s2 c); [exact Eu|lia|done..].
Qed.

(** What a wait from [s] leaves: the clock has moved by at least [ns] and at most a period
    more since the first read. *)
Definition wait_done (s : tstate) (ns : Z) (s' : tstate) : Prop :=
  let p := period (tm_clock s) in
  tm_set s' = tm_set s /\ tm_irq s' = tm_irq s /\ freq (tm_clock s') = freq (tm_clock s) /\ exists now c,
    now = (if tm_irq s (tm_reads s) then u64 (uptime (tm_clock s) + p) else uptime (tm_clock s)) /\
    uptime (tm_clock s') = u64 (now + c * p) /\ ns <= c * p <= ns + p.

Lemma timer_wait_wp fuel ns n s :
  let p := period (tm_clock s) in
  tm_set s = true -> 0 < freq (tm_clock s) <= 1000000000 -> 0 <= uptime (tm_clock s) < 2 ^ 64 ->
  0 <= ns -> ns + p < 2 ^ 64 -> ns <= arrivals (tm_irq s) (S (tm_reads s)) n * p -> (0 < n < N.to_nat fuel)%nat ->
  wp (timer_wait fuel ns) (fun _ s' => wait_done s ns s') s.
Proof.
  intros p Hset Hf Hu Hns Hfit Hen Hn.
  assert (0 <= p) as Hp by (unfold p, period; apply Z.div_pos; lia).
  set (now := if tm_irq s (tm_reads s) then u64 (uptime (tm_clock s) + p) else uptime (tm_clock s)).
  assert (now = u64 now) as Hnow.
  { unfold now. destruct (tm_irq s _); [by rewrite uN_idemp by lia|by rewrite uN_small]. }
  unfold timer_wait, timer. wp_step. wp_step. wp_step. wp_step. wp_step; [done|]. wp_step. cbn [ops_wait pit_timer].
  unfold pit_wait. wp_focus. apply read_uptime_wp; [lia|]. intros u ->. fold p now.
  apply (pit_wait_loop_wp fuel ns _ now n); cbn; try done; [lia|]. intros s' c Hc Hr Es Ei Ef.
  split_and!; try done. by exists now, c.
Qed.

(** [timer_wait] returns as soon as enough timer interrupts have arrived, whatever the
    clock showed before (also when it wraps round); what it waits for is at least [ns]
    and at most one period more, in the clock's own time. *)
Theorem timer_wait_returns fuel ns n s :
  let p := period (tm_clock s) in let irq := tm_irq s in let i := tm_reads s in
  tm_set s = true -> 0 < freq (tm_clock s) <= 1000000000 -> 0 <= uptime (tm_clock s) < 2 ^ 64 ->
  0 <= ns -> ns + p < 2 ^ 64 -> ns <= arrivals irq (S i) n * p -> (0 < n < N.to_nat fuel)%nat ->
  exists s' now c, timer_wait fuel ns s = Ok ((), s') /\
    now = (if irq i then u64 (uptime (tm_clock s) + p) else uptime (tm_clock s)) /\
    uptime (tm_clock s') = u64 (now + c * p) /\ ns <= c * p <= ns + p.
Proof.
  intros p irq i Hset Hf Hu Hns Hfit Hen Hn.
  destruct (wp_Ok _ _ _ (timer_wait_wp fuel ns n s Hset Hf Hu Hns Hfit Hen Hn)) as ([] & s' & E & _ & _ & _ & now & c & Hw).
  by exists s', now, c.
Qed.

(** The clock is set up for [hz] interrupts a second, which keep arriving: one among any
    [g] reads.  With
    [fuel] the loops have room for a second. *)
Record ticking (hz : Z) (g : nat) (fuel : N) (s : tstate) : Prop := {
  tk_set : tm_set s = true;
  tk_freq : freq (tm_clock s) = hz /\ 0 < hz <= 1000000000;
  tk_time : 0 <= uptime (tm_clock s) < 2 ^ 64;
  tk_irq : forall i, exists j, (i <= j < i + g)%nat /\ tm_irq s j = true;
  tk_fuel : Z.of_nat g * 1000000000 < Z.of_N fuel;
}.

Lemma arrivals_split irq i n m : arrivals irq i (n + m) = arrivals irq i n + arrivals irq (i + n) m.
Proof. induction m as [|m IH]; [rewrite Nat.add_0_r; cbn; lia|]. rewrite Nat.add_succ_r. cbn. rewrite IH, Nat.add_assoc. lia. Qed.

Lemma arrivals_often irq g : (forall i, exists j, (i <= j < i + g)%nat /\ irq j = true) ->
  forall k i, Z.of_nat k <= arrivals irq i (k * g).
Proof.
  intros Hg k. induction k as [|k IH]; intros i; [done|]. cbn [Nat.mul]. rewrite arrivals_split.
  specialize (IH (i + g)%nat). destruct (Hg i) as (j & Hj & Hij). assert (1 <= arrivals irq i g); [|lia].
  replace g with ((j - i) + S (g - (j - i) - 1))%nat by lia. rewrite arrivals_split, (arrivals_split _ _ 1).
  pose proof (arrivals_nonneg irq i (j - i)). pose proof (arrivals_nonneg irq (i + (j - i) + 1) (g - (j - i) - 1)).
  cbn [arrivals]. replace (i + (j - i) + 0)%nat with j by lia. rewrite Hij. lia.
Qed.

(** Waits of up to a second return, and the clock goes on. *)
Lemma ticking_wait_wp hz g fuel ns s :
  ticking hz g fuel s -> 0 < ns <= 1000000000 ->
  wp (timer_wait fuel ns) (fun _ s' => ticking hz g fuel s' /\ wait_done s ns s') s.
Proof.
  intros [Hset [<- Hf] Hu Hirq Hfu] Hns. destruct (Hirq 0%nat) as (j0 & Hj0 & _).
  assert (1 <= period (tm_clock s) <= 1000000000) as Hp.
  { unfold period. split; [apply Z.div_le_lower_bound; lia|]. apply Z.div_le_upper_bound; nia. }
  eapply wp_mono; [apply (timer_wait_wp fuel ns (Z.to_nat ns * g) s)|]; try done; [lia|lia| |nia|].
  - pose proof (arrivals_often _ _ Hirq (Z.to_nat ns) (S (tm_reads s))). nia.
  - intros [] s' Hw. split; [|done]. destruct Hw as (E1 & E2 & E3 & now & c & _ & E4 & _).
    split; rewrite ?E1, ?E2, ?E3; try done. rewrite E4. by apply uN_range.
Qed.

(** Ten milliseconds at 1000 ticks per second, an interrupt before every fourth read. *)
Definition demo_clock : tstate := mk_tstate (mk_clock (2 ^ 64 - 3000000) 1000) (fun i => (Nat.modulo i 4 =? 0)%nat) 0 true.
Lemma timer_wait_returns_witness :
  exists s', timer_wait 100 10000000 demo_clock = Ok ((), s') /\ uptime (tm_clock s') = 8000000.
Proof.
  destruct (timer_wait_returns 100 10000000 40 demo_clock) as (s' & now & c & E & Hnow & Hu & Hc);
    [reflexivity|cbn; lia|cbn; lia|lia|vm_compute; reflexivity|vm_compute; discriminate|lia|].
  exists s'. split; [exact E|]. rewrite Hu, Hnow. change (period (tm_clock demo_clock)) with 1000000 in Hc |- *.
  assert (c = 10 \/ c = 11) as [Hc10|Hc11] by lia.
  - rewrite Hc10. reflexivity.
  - exfalso. pose proof E as E'. vm_compute in E'. injection E' as <-. rewrite Hnow, Hc11 in Hu. vm_compute in Hu. discriminate.
Defined.

(** Without interrupts the wait never ends: no number of reads is enough. *)
Theorem timer_wait_needs_interrupts fuel ns s :
  tm_set s = true -> freq (tm_clock s) <> 0 -> 0 <= uptime (tm_clock s) < 2 ^ 64 -> 0 < ns -> (forall i, tm_irq s i = false) ->
  timer_wait fuel ns s = Err NoFuel.
Proof.
  intros Hset Hf Hu Hns Hno.
  assert (forall st, (forall i, tm_irq st i = false) ->
    read_uptime st = Ok (uptime (tm_clock st), mk_tstate (tm_clock st) (tm_irq st) (S (tm_reads st)) (tm_set st))) as Hread.
  { intros st Hst. unfold read_uptime, env_tick, bindM, gets. by rewrite Hst. }
  transitivity (pit_wait fuel ns s); [unfold timer_wait, timer, bindM, get, guard; by rewrite Hset|].
  unfold pit_wait, bindM at 1. rewrite Hread by done. unfold while_, bindM at 1. rewrite loop_loopN.
  assert (forall n s1, (forall i, tm_irq s1 i = false) -> tm_clock s1 = tm_clock s -> exists s2,
    loopN n (fun _ : () => u ← read_uptime; mret (if u64 (u - uptime (tm_clock s)) <? ns then inl () else inr ())) () s1 = Ok (inl (), s2)) as Hl.
  { induction n as [|n IH]; intros s1 H1 H2; [by exists s1|]. cbn [loopN]. unfold bindM at 1 2. rewrite Hread by done. cbn -[u64].
    rewrite H2, Z.sub_diag. change (u64 0) with 0. rewrite (proj2 (Z.ltb_lt 0 ns)) by lia. by apply IH. }
  match goal with |- context [loopN ?n _ _ ?st] => destruct (Hl n st) as [s2 ->]; [done|done|] end. done.
Qed.
Lemma timer_wait_needs_interrupts_witness :
  timer_wait 50 1 (mk_tstate (mk_clock 5 1000) (fun _ => false) 0 true) = Err NoFuel.
Proof. apply timer_wait_needs_interrupts; [reflexivity|discriminate|cbn; lia|lia|reflexivity]. Defined.
