(* ===== verification/Print.v ===== *)
(** * Print: formatted output (vsnprintf of src/util/printf.c; serial_printf of
      src/drivers/tty/serial/serial.c, console_printf of src/sys/console.c, dumpregs of
      src/intr/isr.c, panic of src/sys/panic.c, spur_int of src/intr/apic.c)

    A reference definition of what a format and its arguments print, the proof that
    [vsnprintf] on the byte memory writes exactly that, and the functions that print
    through the serial line and the console. *)

From stdpp Require Import strings.
From Stdlib Require Import Ascii.
From S2P Require Import Prelude Strings Sched Ports Chips Video.

(** A C string literal as bytes. *)
Definition msg (s : string) : list Z := (fun c => Z.of_nat (nat_of_ascii c)) <$> String.list_ascii_of_string s.

Lemma msg_bytes s : Forall (fun b => 0 <= b < 256) (msg s).
Proof.
  unfold msg. induction (String.list_ascii_of_string s) as [|c l IH]; cbn; constructor; [|done].
  pose proof (nat_ascii_bounded c). lia.
Qed.
Lemma msg_line_bytes s : Forall (fun b => 0 <= b < 256) (msg s ++ [10]).
Proof. apply Forall_app_2; [apply msg_bytes|]. repeat constructor; lia. Qed.

Lemma cstr_chars l : Forall (fun b => 0 < b < 256) l -> Forall (fun b => 0 <= b < 256) l.
Proof. intros Hl. eapply Forall_impl; [exact Hl|]. intros b Hb. cbn beta in *. lia. Qed.

(** ** What a format prints *)

(** The digits of [n], least significant first, and its numeral. *)
Fixpoint digits_of (k : nat) (base n : Z) : list Z :=
  match k with
  | O => []
  | S k' => if n =? 0 then [] else digit (n `mod` base) :: digits_of k' base (n `div` base)
  end.
Definition show (base n : Z) : list Z := if n =? 0 then [48] else reverse (digits_of 64 base n).

Lemma lval_zero base ds :
  2 <= base <= 32 -> Forall (is_digit base) ds -> lval base ds = 0 -> ds = [] \/ last ds = Some 48.
Proof.
  intros Hb Hd. induction Hd as [|d ds (r & Hr & ->) Hds IH]; [by left|]. unfold lval in *. cbn [foldr]. intros Hz. right.
  rewrite (dval_digit base) in Hz by lia.
  assert (0 <= foldr (fun c acc => dval c + base * acc) 0 ds) as Hpos.
  { clear -Hb Hds. induction Hds as [|d ds (r & Hr & ->) _ IH]; cbn [foldr]; [lia|]. rewrite (dval_digit base) by lia. nia. }
  destruct IH as [->|IH]; [nia| |].
  - cbn. assert (r = 0) as -> by nia. done.
  - by rewrite last_cons, IH.
Qed.

Lemma digits_of_unique k base ds :
  2 <= base <= 32 -> Forall (is_digit base) ds -> last ds <> Some 48 -> lval base ds < 2 ^ Z.of_nat k ->
  ds = digits_of k base (lval base ds).
Proof.
  intros Hb Hd. revert k. induction Hd as [|d ds (r & Hr & ->) Hds IH]; intros k Hl Hk; [by destruct k|].
  assert (lval base (digit r :: ds) = r + base * lval base ds) as E by (unfold lval; cbn [foldr]; by rewrite (dval_digit base) by lia).
  assert (lval base (digit r :: ds) <> 0) as Hnz.
  { intros Hz. destruct (lval_zero base (digit r :: ds)) as [?|?]; [done|constructor; [by exists r|done]|done|done|done]. }
  assert (0 <= lval base ds) as Hpos.
  { clear -Hb Hds. unfold lval. induction Hds as [|d ds (r & Hr & ->) _ IH]; cbn [foldr]; [lia|]. rewrite (dval_digit base) by lia. nia. }
  destruct k as [|k]; [rewrite E in Hk, Hnz; change (2 ^ Z.of_nat 0) with 1 in Hk; nia|]. cbn [digits_of]. rewrite (proj2 (Z.eqb_neq _ _) Hnz). rewrite E.
  replace ((r + base * lval base ds) `mod` base) with r by (rewrite Z.mul_comm, Z.mod_add, Z.mod_small; lia).
  replace ((r + base * lval base ds) `div` base) with (lval base ds) by (rewrite Z.mul_comm, Z.div_add, Z.div_small; lia).
  f_equal. apply IH.
  - intros Hl'. apply Hl. by rewrite last_cons, Hl'.
  - rewrite Nat2Z.inj_succ, Z.pow_succ_r in Hk by lia. nia.
Qed.

(** A numeral is determined by its value. *)
Lemma numeral_show base cs n : 2 <= base <= 32 -> n < 2 ^ 64 -> numeral base cs -> sval base cs = n -> cs = show base n.
Proof.
  intros Hb Hn (Hd & Hne & H0) Hv. rewrite <- (reverse_involutive cs) in Hv. rewrite sval_reverse in Hv.
  unfold show. destruct (Z.eqb_spec n 0) as [->|Hnz].
  - apply H0. destruct (lval_zero base (reverse cs)) as [E|E]; [done|by apply Forall_reverse|done| |by rewrite last_reverse in E].
    destruct Hne. by apply (f_equal reverse) in E; rewrite reverse_involutive in E.
  - rewrite <- Hv, <- (digits_of_unique 64); [by rewrite reverse_involutive|done|by apply Forall_reverse| |lia].
    rewrite last_reverse. intros E. apply H0 in E as ->. apply Hnz. rewrite <- Hv. unfold lval. cbn. lia.
Qed.

Lemma show_bytes base n : 2 <= base <= 32 -> 0 <= n < 2 ^ 64 -> Forall (fun b => 0 < b < 256) (show base n).
Proof.
  intros Hb Hn. unfold show. destruct (n =? 0); [by repeat constructor|]. apply Forall_reverse.
  generalize 64%nat. intros k. revert n Hn. induction k as [|k IH]; intros n Hn; [constructor|]. cbn [digits_of].
  destruct (n =? 0); constructor.
  - apply digit_byte. pose proof (Z.mod_pos_bound n base ltac:(lia)). lia.
  - apply IH. split; [apply Z.div_pos; lia|]. apply Z.div_lt_upper_bound; nia.
Qed.

Inductive farg : Type := FNum (z : Z) | FStr (l : list Z).

(** One conversion: what it prints and the arguments left; [None] when the argument is
    missing or of the wrong kind, or the one [int] that has no absolute value. *)
Definition spec_one (d : Z) (xs : list farg) : option (list Z * list farg) :=
  if d =? 37 then Some ([37], xs)
  else if d =? 99 then match xs with FNum a :: r => Some ([u8 a], r) | _ => None end
  else if (d =? 105) || (d =? 100) then
    match xs with
    | FNum a :: r => if s32 a =? - 2 ^ 31 then None
                     else Some ((if s32 a <? 0 then [45] else []) ++ show 10 (Z.abs (s32 a)), r)
    | _ => None
    end
  else if d =? 115 then match xs with FStr l :: r => Some (l, r) | _ => None end
  else if d =? 120 then match xs with FNum a :: r => Some (show 16 (u64 a), r) | _ => None end
  else if d =? 108 then match xs with FNum a :: r => Some (show 10 (u64 a), r) | _ => None end
  else Some ([], xs).

(** What a format prints; [None] also for a format that ends in a percent sign. *)
Fixpoint render (f : list Z) (xs : list farg) : option (list Z) :=
  match f with
  | [] => Some []
  | c :: f' =>
      if c =? 37 then
        match f' with
        | [] => None
        | d :: f'' => match spec_one d xs with Some (o, xs') => app o <$> render f'' xs' | None => None end
        end
      else cons c <$> render f' xs
  end.

(** ** Stores keep the memory they find *)

Section grows.
Context {H : Type}.

Definition grows {A} (c : M (smem H) A) : Prop :=
  forall s a s', c s = Ok (a, s') -> forall x, is_Some (bytes s !! x) -> is_Some (bytes s' !! x).

Lemma grows_ret {A} (a : A) : grows (mret a).
Proof. by intros s b s' [= -> ->]. Qed.
Lemma grows_bind {A B} (m : M (smem H) A) (f : A -> M (smem H) B) : grows m -> (forall a, grows (f a)) -> grows (bindM m f).
Proof.
  intros Hm Hf s b s' E x Hx. unfold bindM in E. destruct (m s) as [[a s1]|] eqn:E1; [|done].
  eapply Hf; [exact E|]. by eapply Hm.
Qed.
Lemma grows_ld p : grows (ld p).
Proof.
  intros s a s' E x. unfold ld, bindM, guard, gets, unwrap in E. destruct (truth p); cbn in E; [|done].
  destruct (bytes s !! p); cbn in E; [|done]. by injection E as _ <-.
Qed.
Lemma grows_st p v : grows (st p v).
Proof.
  apply grows_bind; [apply grows_ld|]. intros _ s a s' [= _ <-] x Hx. cbn. rewrite lookup_insert. by destruct (decide _); [eexists|].
Qed.
Lemma grows_bound : grows mem_bound.
Proof. by intros s a s' [= _ <-]. Qed.
Lemma grows_loopN {A B} (body : A -> M (smem H) (A + B)) : (forall a, grows (body a)) -> forall n a, grows (loopN n body a).
Proof.
  intros Hb n. induction n as [|n IH]; intros a; [apply grows_ret|]. cbn [loopN]. apply grows_bind; [done|].
  intros [a'|b]; [apply IH|apply grows_ret].
Qed.
Lemma grows_while {A B} fuel (body : A -> M (smem H) (A + B)) a : (forall a, grows (body a)) -> grows (while_ fuel body a).
Proof.
  intros Hb. unfold while_. apply grows_bind; [|by intros [?|?]; [|apply grows_ret]].
  intros s. rewrite loop_loopN. by apply grows_loopN.
Qed.

Lemma wp_grows {A} (c : M (smem H) A) Q s :
  grows c -> wp c Q s -> wp c (fun a s' => Q a s' /\ forall x, is_Some (bytes s !! x) -> is_Some (bytes s' !! x)) s.
Proof. intros Hg Hw. destruct (wp_Ok _ _ _ Hw) as (a & s' & E & HQ). eapply wp_intro; [exact E|]. split; [done|]. by eapply Hg. Qed.
End grows.

Create HintDb grows.
Ltac grows := repeat first [solve [eauto 1 with grows nocore] | apply grows_ret | apply grows_ld | apply grows_st | apply grows_bound
  | apply grows_while; intros | apply grows_bind; [|intros] | case_match].

Lemma strlen_grows {H} p : grows (H := H) (strlen p).
Proof. unfold strlen. grows. Qed.
#[export] Hint Resolve strlen_grows : grows.
Lemma strrev_grows {H} p : grows (H := H) (strrev p).
Proof. unfold strrev, strrev_round. grows. Qed.
#[export] Hint Resolve strrev_grows : grows.
Lemma ultoa_grows {H} n p base : grows (H := H) (ultoa n p base).
Proof. unfold ultoa, digits_round. grows. Qed.
Lemma itoa_grows {H} n p base : grows (H := H) (itoa n p base).
Proof. unfold itoa, digits_round. grows. Qed.
#[export] Hint Resolve ultoa_grows itoa_grows : grows.

(** ** vsnprintf *)

Section vsn.
Context {H : Type} (s0 : smem H) (str cap buffer : Z).
Context (Hstr : 0 < str) (Hbuf : 0 < buffer) (Hcap : cap < 2 ^ 31) (Hsep : str + cap <= buffer \/ buffer + 100 <= str).
Implicit Types m : gmap Z Z.

(** The destination and the local array; all else is only read. *)
Definition local (x : Z) : Prop := str <= x < str + cap \/ buffer <= x < buffer + 100.

(** [out] is printed. *)
Record pr m (out : list Z) : Prop := {
  pr_out : bytes_at m str out;
  pr_rest : forall x, ~ local x -> m !! x = bytes s0 !! x;
  pr_dom : buf m str cap /\ buf m buffer 100;
}.

Definition arg_at (a : Z) (x : farg) : Prop :=
  match x with
  | FNum z => a = z
  | FStr l => cstr (bytes s0) a l /\ forall x, a <= x <= a + Z.of_nat (length l) -> ~ local x
  end.

Lemma buf_insert m p n x v : buf m p n -> buf (<[x := v]> m) p n.
Proof. intros [Hp Hb]. split; [done|]. intros y Hy. rewrite lookup_insert. by destruct (decide _); [eexists|apply Hb]. Qed.

Lemma put_char m out v : pr m out -> Z.of_nat (length out) < cap -> pr (<[str + Z.of_nat (length out) := u8 v]> m) (out ++ [u8 v]).
Proof.
  intros [Ho Hr [Hd1 Hd2]] Hl. split.
  - apply bytes_at_app. split.
    + eapply bytes_at_agree; [|exact Ho]. intros x Hx. by rewrite lookup_insert_ne by lia.
    + apply bytes_at_cons. split; [by rewrite lookup_insert_eq|apply bytes_at_nil].
  - intros x Hx. rewrite lookup_insert_ne; [by apply Hr|]. intros <-. apply Hx. left. lia.
  - split; by apply buf_insert.
Qed.

Lemma st_wp m out v (Q : () -> smem H -> Prop) :
  pr m out -> Z.of_nat (length out) < cap ->
  (forall m', pr m' (out ++ [u8 v]) -> (forall x, ~ (str <= x < str + cap) -> m' !! x = m !! x) -> Q () (set_bytes m' s0)) ->
  wp (st (str + Z.of_nat (length out)) v) Q (set_bytes m s0).
Proof.
  intros Hp Hl HQ. destruct (pr_dom _ _ Hp) as [[_ Hd] _]. apply wp_st; [lia|apply Hd; lia|]. apply HQ; [by apply put_char|].
  intros x Hx. apply lookup_insert_ne. lia.
Qed.

(** Copying a string behind what is printed. *)
Lemma emit_wp m out from l (Q : Z -> smem H -> Prop) :
  pr m out -> cstr m from l -> (forall x, from <= x <= from + Z.of_nat (length l) -> ~ (str <= x < str + cap)) ->
  Z.of_nat (length out + length l) < cap ->
  (forall m', pr m' (out ++ l) -> Q (Z.of_nat (length (out ++ l))) (set_bytes m' s0)) ->
  wp (emit str (Z.of_nat (length out)) from (Z.of_nat (length l))) Q (set_bytes m s0).
Proof.
  intros Hp Hc Haway Hl HQ. pose proof Hc as (Hf & _). unfold emit. wp_focus.
  apply (wp_for_each (fun j s => exists m', s = set_bytes m' s0 /\ pr m' (out ++ take (Z.to_nat j) l) /\
    forall x, ~ (str <= x < str + cap) -> m' !! x = m !! x)); [lia| | |].
  - exists m. rewrite take_0, app_nil_r. done.
  - intros j s Hj (m' & -> & Hp' & Hsame). destruct (cstr_lookup _ _ _ j Hc) as (c & Hlc & Hmc & Hcr); [lia|].
    wp_focus. eapply wp_ld; [lia|cbn; rewrite Hsame; [exact Hmc|apply Haway; lia]|].
    assert (length (out ++ take (Z.to_nat j) l) = (length out + Z.to_nat j)%nat) as Elen by (rewrite length_app, length_take; lia).
    rewrite (uN_small 32) by lia. replace (str + (Z.of_nat (length out) + j)) with (str + Z.of_nat (length (out ++ take (Z.to_nat j) l))) by lia.
    apply (st_wp m'); [done|lia|]. intros m2 Hp2 Hs2. exists m2. split; [done|]. rewrite (uN_small 8) in Hp2 by lia.
    replace (Z.to_nat (j + 1)) with (S (Z.to_nat j)) by lia. rewrite (take_S_r _ _ c) by done. rewrite app_assoc. split; [done|].
    intros x Hx. by rewrite Hs2, Hsame.
  - intros s (m' & -> & Hp' & _). rewrite take_ge in Hp' by lia. wp_step. rewrite (uN_small 32) by lia.
    rewrite <- Nat2Z.inj_add, <- length_app. by apply HQ.
Qed.

(** A number formatted in the local array and copied. *)
Lemma number_wp {A} (m : gmap Z Z) out o (c : M (smem H) Z) (k : Z -> M (smem H) A) (Q : A -> smem H -> Prop) :
  pr m out -> grows c -> Z.of_nat (length out + length o) < cap ->
  wp c (fun _ s' => exists m', s' = set_bytes m' (set_bytes m s0) /\ cstr m' buffer o /\ unchanged_outside buffer 67 m m' /\
    Z.of_nat (length o) < 100) (set_bytes m s0) ->
  (forall m', pr m' (out ++ o) -> wp (k (Z.of_nat (length (out ++ o)))) Q (set_bytes m' s0)) ->
  wp (c;; len ← strlen buffer; i ← emit str (Z.of_nat (length out)) buffer len; k i) Q (set_bytes m s0).
Proof.
  intros Hp Hg Hl Hc HQ. wp_focus. eapply wp_mono; [by apply wp_grows|]. intros _ s' [(m' & -> & Hcs & Hout & Hlo) Hdom].
  destruct Hp as [Ho Hr [Hd1 Hd2]]. cbn in Hdom.
  assert (pr m' out) as Hp'.
  { split.
    - eapply bytes_at_agree; [|exact Ho]. intros x Hx. apply Hout. lia.
    - intros x Hx. rewrite Hout; [by apply Hr|]. unfold local in Hx. lia.
    - destruct Hd1 as [? Hd1], Hd2 as [? Hd2]. split; (split; [done|]); intros x Hx; apply Hdom; [apply Hd1|apply Hd2]; lia. }
  wp_focus. eapply strlen_wp; [exact Hcs|]. change (set_bytes m' (set_bytes m s0)) with (set_bytes m' s0).
  wp_focus. apply emit_wp; [done|done| |done|done]. intros x Hx. lia.
Qed.

Lemma show_length base n : 2 <= base <= 32 -> 0 <= n < 2 ^ 64 -> Z.of_nat (length (show base n)) <= 64.
Proof.
  intros Hb Hn. unfold show. destruct (n =? 0); [simpl; lia|]. rewrite length_reverse.
  assert (forall k x, (length (digits_of k base x) <= k)%nat) as Hk.
  { intros k. induction k as [|k IH]; intros x; [simpl; lia|]. cbn [digits_of]. destruct (x =? 0); simpl; [lia|]. specialize (IH (x `div` base)). lia. }
  specialize (Hk 64%nat n). lia.
Qed.

Lemma itoa_shows m v : - 2 ^ 31 < v < 2 ^ 31 -> buf m buffer 100 ->
  wp (itoa v buffer 10) (fun _ s' => exists m', s' = set_bytes m' (set_bytes m s0) /\
    cstr m' buffer ((if v <? 0 then [45] else []) ++ show 10 (Z.abs v)) /\ unchanged_outside buffer 67 m m' /\
    Z.of_nat (length ((if v <? 0 then [45] else []) ++ show 10 (Z.abs v))) < 100) (set_bytes m s0).
Proof.
  intros Hv Hb. apply itoa_wp; [lia|done|eapply buf_le; [|exact Hb]; lia|]. intros m' cs sign Hc Hnum Hval Hlen Hout.
  apply numeral_show in Hval as ->; [|lia|lia|done]. change (10 =? 10) with true in sign. unfold sign in Hc. rewrite andb_true_r in Hc.
  exists m'. split_and!; try done. rewrite length_app. destruct (v <? 0); simpl; lia.
Qed.
Lemma ultoa_shows m n base : 2 <= base <= 32 -> 0 <= n < 2 ^ 64 -> buf m buffer 100 ->
  wp (ultoa n buffer base) (fun _ s' => exists m', s' = set_bytes m' (set_bytes m s0) /\
    cstr m' buffer (show base n) /\ unchanged_outside buffer 67 m m' /\ Z.of_nat (length (show base n)) < 100) (set_bytes m s0).
Proof.
  intros Hbase Hn Hb. apply ultoa_wp; [done|done|eapply buf_le; [|exact Hb]; lia|]. intros m' cs Hc Hnum Hval Hlen Hout.
  apply numeral_show in Hval as ->; [|lia|lia|done].
  exists m'. split_and!; try done; [|lia]. intros x Hx. apply Hout. lia.
Qed.

Lemma s32_range a : - 2 ^ 31 <= s32 a < 2 ^ 31.
Proof. unfold sN. change (32 - 1) with 31. pose proof (Z.mod_pos_bound (a + 2 ^ 31) (2 ^ 32) ltac:(lia)). lia. Qed.

(** One conversion. *)
Lemma convert_wp m out d va xs o xs' (Q : Z * list Z -> smem H -> Prop) :
  pr m out -> spec_one d xs = Some (o, xs') -> Forall2 arg_at va xs -> Z.of_nat (length out + length o) < cap ->
  (forall m' va', pr m' (out ++ o) -> Forall2 arg_at va' xs' -> Q (Z.of_nat (length (out ++ o)), va') (set_bytes m' s0)) ->
  wp (convert str buffer d (Z.of_nat (length out)) va) Q (set_bytes m s0).
Proof.
  intros Hp Hs Hva Hl HQ. unfold spec_one in Hs. unfold convert.
  assert (forall z x, arg_at z (FNum x) -> z = x) as Hnum by done.
  assert (forall o1, length o1 = 1%nat -> o = o1 -> u32 (Z.of_nat (length out) + 1) = Z.of_nat (length (out ++ o))) as Hone.
  { intros o1 E ->. rewrite length_app, E, uN_small by lia. lia. }
  destruct (d =? 37); [simplify_eq/=|destruct (d =? 99); [|destruct ((d =? 105) || (d =? 100));
    [|destruct (d =? 115); [|destruct (d =? 120); [|destruct (d =? 108)]]]]].
  - wp_focus. apply (st_wp m out); [done|lia|]. intros m' Hp' _. wp_step. rewrite (Hone [37]) by done. by apply HQ.
  - destruct xs as [|[a|] xs]; simplify_eq/=. apply Forall2_cons_inv_r in Hva as (z & va' & ->%Hnum & Hva & ->). cbn [hd_error tl unwrap].
    wp_step. wp_step. wp_focus. apply (st_wp m out); [done|lia|]. intros m' Hp' _. wp_step. rewrite (Hone [u8 a]) by done. by apply HQ.
  - destruct xs as [|[a|] xs]; simplify_eq/=. destruct (Z.eqb_spec (s32 a) (- 2 ^ 31)) as [|Hne]; simplify_eq.
    apply Forall2_cons_inv_r in Hva as (z & va' & ->%Hnum & Hva & ->). cbn [hd_error tl unwrap]. wp_step. wp_step.
    eapply number_wp; [exact Hp|auto with grows|exact Hl|apply itoa_shows; [pose proof (s32_range a); lia|apply Hp]|].
    intros m' Hp'. wp_step. by apply HQ.
  - destruct xs as [|[|l] xs]; simplify_eq/=. apply Forall2_cons_inv_r in Hva as (z & va' & [Hc Haway] & Hva & ->). cbn [hd_error tl unwrap].
    wp_step. wp_step. assert (cstr m z o) as Hc' by (eapply cstr_agree; [|exact Hc]; intros x Hx; apply Hp; by apply Haway).
    wp_focus. eapply strlen_wp; [exact Hc'|]. wp_focus. apply emit_wp; [done|done| |done|].
    { intros x Hx ?. eapply Haway; [exact Hx|]. by left. }
    intros m' Hp'. wp_step. by apply HQ.
  - destruct xs as [|[a|] xs]; simplify_eq/=. apply Forall2_cons_inv_r in Hva as (z & va' & ->%Hnum & Hva & ->). cbn [hd_error tl unwrap]. wp_step. wp_step.
    eapply number_wp; [exact Hp|auto with grows|exact Hl|apply ultoa_shows; [lia|apply uN_range; lia|apply Hp]|].
    intros m' Hp'. wp_step. by apply HQ.
  - destruct xs as [|[a|] xs]; simplify_eq/=. apply Forall2_cons_inv_r in Hva as (z & va' & ->%Hnum & Hva & ->). cbn [hd_error tl unwrap]. wp_step. wp_step.
    eapply number_wp; [exact Hp|auto with grows|exact Hl|apply ultoa_shows; [lia|apply uN_range; lia|apply Hp]|].
    intros m' Hp'. wp_step. by apply HQ.
  - simplify_eq. wp_step. specialize (HQ m va). rewrite app_nil_r in HQ. by apply HQ.
Qed.

(** What is left of the format prints what is left of the output. *)
Record pr_state (fmt : Z) (f out : list Z) (k : nat) (x : Z * Z * list Z) (s : smem H) : Prop := {
  ps_ex : exists m f1 f2 o1 o2 xs, s = set_bytes m s0 /\ f = f1 ++ f2 /\ out = o1 ++ o2 /\ pr m o1 /\ render f2 xs = Some o2 /\
    length f2 = k /\ x.1.1 = fmt + Z.of_nat (length f1) /\ x.1.2 = Z.of_nat (length o1) /\ Forall2 arg_at x.2 xs;
}.

Lemma vsnprintf_wp fmt f va xs out (Q : Z -> smem H -> Prop) :
  cstr (bytes s0) fmt f -> (forall x, fmt <= x <= fmt + Z.of_nat (length f) -> ~ local x) ->
  buf (bytes s0) str cap -> buf (bytes s0) buffer 100 -> Forall2 arg_at va xs -> render f xs = Some out -> Z.of_nat (length out) < cap ->
  (forall m', bytes_at m' str (out ++ [0]) -> (forall x, ~ local x -> m' !! x = bytes s0 !! x) -> buf m' str cap -> buf m' buffer 100 ->
     Q (Z.of_nat (length out)) (set_bytes m' s0)) ->
  wp (vsnprintf str fmt va buffer) Q s0.
Proof.
  intros Hf Haway Hb1 Hb2 Hva Hr Hlen HQ. pose proof Hf as (Hfp & Hfb & _). unfold vsnprintf. wp_focus. apply wp_mem_bound. wp_focus.
  apply (wp_while (pr_state fmt f out) (length f)).
  - split. exists (bytes s0), [], f, [], out, xs. split_and!; try done; [by destruct s0|cbn; lia].

  - apply bytes_at_size in Hfb. rewrite length_app in Hfb. simpl in Hfb. lia.
  - intros k [[p i] va1] s [(m & f1 & f2 & o1 & o2 & xs1 & -> & -> & -> & Hp & Hr2 & <- & Ep & Ei & Hva1)]. cbn in Ep, Ei, Hva1. subst p i.
    assert (cstr m fmt (f1 ++ f2)) as Hm by (eapply cstr_agree; [|exact Hf]; intros x Hx; apply Hp; by apply Haway).
    rewrite length_app in *. unfold vsnprintf_round. wp_focus.
    destruct f2 as [|c f2].
    + cbn in Hr2. simplify_eq. pose proof (cstr_nul _ _ _ Hm) as H0. rewrite app_nil_r in H0. eapply wp_ld; [lia|exact H0|].
      cbn [Z.eqb]. wp_step. cbn [length] in Hlen.
      wp_focus. apply (st_wp m o1); [done|lia|]. intros m' Hp' _. wp_step. rewrite sN_small by lia.
      cbn [length] in HQ. rewrite app_nil_r, Nat.add_0_r in HQ. apply HQ; by apply Hp'.
    + assert (forall j c', (f1 ++ c :: f2) !! (length f1 + j)%nat = Some c' -> m !! (fmt + Z.of_nat (length f1) + Z.of_nat j) = Some c' /\ 0 < c' < 256) as Hat.
      { intros j c' Hj. destruct Hm as (_ & Hmb & Hmr). split; [|by eapply (Forall_lookup_1 _ _ _ _ Hmr)].
        replace (fmt + Z.of_nat (length f1) + Z.of_nat j) with (fmt + Z.of_nat (length f1 + j)) by lia. apply Hmb. by apply lookup_app_l_Some. }
      destruct (Hat 0%nat c) as [Hc Hc1]; [by rewrite list_lookup_middle by lia|]. rewrite Z.add_0_r in Hc.
      eapply wp_ld; [lia|exact Hc|]. rewrite (proj2 (Z.eqb_neq c 0)) by lia. cbn [render] in Hr2.
      destruct (Z.eqb_spec c 37) as [->|Hne].
      * destruct f2 as [|d f2]; [done|]. destruct (spec_one d xs1) as [[o xs2]|] eqn:Es; [|done].
        destruct (render f2 xs2) as [o3|] eqn:E3; cbn in Hr2; simplify_eq. rewrite length_app in Hlen.
        destruct (Hat 1%nat d) as [Hd _]; [by rewrite lookup_app_r, Nat.add_sub' by lia|].
        wp_focus. eapply wp_ld; [lia|exact Hd|]. wp_focus. eapply convert_wp; [exact Hp|exact Es|exact Hva1|lia|].
        intros m' va' Hp' Hva'. wp_step. exists (length f2). split; [cbn; lia|]. split.
        exists m', (f1 ++ [37; d]), f2, (o1 ++ o), o3, xs2. rewrite <- !app_assoc. split_and!; try done. cbn. rewrite length_app. cbn. lia.
      * destruct (render f2 xs1) as [o3|] eqn:E3; cbn in Hr2; simplify_eq. cbn [length] in Hlen.
        wp_focus. apply (st_wp m o1); [done|lia|]. intros m' Hp' _. wp_step. exists (length f2). split; [cbn; lia|]. split.
        rewrite (uN_small 8) in Hp' by lia.
        exists m', (f1 ++ [c]), f2, (o1 ++ [c]), o3, xs1. rewrite <- !app_assoc. split_and!; try done; cbn; rewrite ?length_app; cbn; [lia|].
        rewrite uN_small by lia. lia.
Qed.
End vsn.

(** ** Printing *)

(** The byte memory with the stack, the serial line and its ports, the screen and whether
    interrupts are on. *)
Record pst (H D : Type) : Type := mk_pst { p_mem : smem H; p_ser : serial D; p_vid : video; p_if : bool }.
Arguments mk_pst {H D}. Arguments p_mem {H D}. Arguments p_ser {H D}. Arguments p_vid {H D}. Arguments p_if {H D}.

Section print.
Context {H D : Type} `{Ports D} (fuel : N).
Abbreviation P := (M (pst H D)).
Implicit Types k : pst H D.

Definition set_pmem (m : smem H) k : pst H D := mk_pst m (p_ser k) (p_vid k) (p_if k).
Definition set_pser (x : serial D) k : pst H D := mk_pst (p_mem k) x (p_vid k) (p_if k).
Definition set_pvid (v : video) k : pst H D := mk_pst (p_mem k) (p_ser k) v (p_if k).
Definition set_pif (b : bool) k : pst H D := mk_pst (p_mem k) (p_ser k) (p_vid k) b.
Definition on_mem {A} (m : M (smem H) A) : P A := zoom p_mem set_pmem m.

(** The characters up to the NUL. *)
Definition cstring (p : Z) : M (smem H) (list Z) :=
  bound ← mem_bound;
  while_ bound (fun l => c ← ld (p + Z.of_nat (length l)); mret (if c =? 0 then inr l else inl (l ++ [c]))) [].

Definition writestr (l : list Z) : P () := zoom p_ser set_pser (serial_writestr fuel (Some l)).

(** [serial_printf]; [str] is its local array of 100 bytes, [buffer] that of [vsnprintf]. *)
Definition serial_printf (str buffer format : Z) (va : list Z) : P () :=
  _ ← on_mem (vsnprintf str format va buffer);
  l ← on_mem (cstring str);
  writestr l.

(** [console_printf]; [str] has 4096 bytes. *)
Definition console_printf (str buffer format r g b : Z) (va : list Z) : P () :=
  _ ← on_mem (vsnprintf str format va buffer);
  l ← on_mem (cstring str);
  zoom p_vid set_pvid (console_write l r g b).

(** The code points of a partition name. *)
Fixpoint printf_unicode (str : list Z) : P () :=
  match str with
  | [] => mret ()
  | c :: str' => if c =? 0 then mret () else zoom p_vid set_pvid (console_putchar (sN 8 c) 255 255 255);; printf_unicode str'
  end.

Definition spur_int : P () := writestr (msg "Spurious interrupt").

(** [panic]: the loop at its end changes nothing more. *)
Definition panic (text : list Z) : P () :=
  modify (set_pif false);; writestr (msg "Kernel Panic: " ++ [10]);; writestr text.

(** [DUMPREG] and [dumpregs]; [buffer] is the local array of 100 bytes. *)
Definition DUMPREG (buffer : Z) (reg : list Z) (val : Z) : P () :=
  writestr (reg ++ msg "=");;
  p ← on_mem (ultoa (u64 val) buffer 16);
  l ← on_mem (cstring p);
  writestr l;;
  writestr [10].

Definition reg_lines (r : reg_ctx) : list (list Z * Z) :=
  [(msg "RAX", rax r); (msg "RBX", rbx r); (msg "RCX", rcx r); (msg "RDX", rdx r); (msg "RIP", rip r); (msg "RDI", rdi r);
   (msg "RSI", rsi r); (msg "RSP", rsp r); (msg "RBP", rbp r); (msg "CS", cs r); (msg "SS", ss r); (msg "RFLAGS", rflags r)].
Fixpoint dump_lines (buffer : Z) (l : list (list Z * Z)) : P () :=
  match l with [] => mret () | (n, v) :: l' => DUMPREG buffer n v;; dump_lines buffer l' end.
Definition dumpregs (buffer : Z) (r : reg_ctx) : P () := dump_lines buffer (reg_lines r).

(** The lines for the error code of a page fault. *)
Definition fault_lines (errcode : Z) : list (list Z) :=
  (if truth (errcode .& Z.shiftl 1 4) then [msg "Invalid instruction fetch" ++ [10]] else []) ++
  (if truth (errcode .& Z.shiftl 1 3) then [msg "Reserved bits set" ++ [10]] else []) ++
  (if truth (errcode .& Z.shiftl 1 2) then [msg "CPL = 3" ++ [10]] else []) ++
  [if truth (errcode .& Z.shiftl 1 1) then msg "Invalid write" ++ [10] else msg "Invalid read" ++ [10]] ++
  [if truth (errcode .& Z.shiftl 1 0) then msg "Page protection violation" ++ [10] else msg "Non-present page" ++ [10]].
Fixpoint write_lines (l : list (list Z)) : P () :=
  match l with [] => mret () | x :: l' => writestr x;; write_lines l' end.

(** What [pagefault_handler] prints for a user program; the arrays are those of
    [dumpregs] and [serial_printf], [fmt] is the format "Faulting address: %x" with a newline. *)
Definition fault_report (dbuf str buffer fmt : Z) (r : reg_ctx) (errcode cr2 : Z) : P () :=
  dumpregs dbuf r;;
  write_lines (fault_lines errcode);;
  serial_printf str buffer fmt [cr2].
End print.

Section lines.
Context {H D : Type} `{Uart D} (fuel : N) (Hfuel : (uart_max < N.to_nat fuel)%nat).
Implicit Types k : pst H D.

Lemma cstring_wp p l (Q : list Z -> smem H -> Prop) s : cstr (bytes s) p l -> Q l s -> wp (cstring p) Q s.
Proof.
  intros Hc HQ. pose proof Hc as (Hp & Hb & _). unfold cstring. wp_focus. apply wp_mem_bound.
  apply (wp_while (fun n x s' => s' = s /\ exists r, l = x ++ r /\ length r = n) (length l)).
  - split; [done|]. by exists l.
  - apply bytes_at_size in Hb. rewrite length_app in Hb. simpl in Hb. lia.
  - intros n x s' (-> & r & -> & <-). wp_focus. destruct r as [|c r].
    + rewrite app_nil_r in *. eapply wp_ld; [lia|by apply cstr_nul|]. wp_step. done.
    + destruct (cstr_lookup _ _ _ (Z.of_nat (length x)) Hc) as (c' & Hl & Hm & Hr); [rewrite length_app; simpl; lia|].
      rewrite Nat2Z.id, list_lookup_middle in Hl by done. simplify_eq. eapply wp_ld; [lia|exact Hm|].
      rewrite (proj2 (Z.eqb_neq c' 0)) by lia. wp_step. exists (length r). split; [cbn; lia|]. split; [done|].
      exists r. by rewrite <- app_assoc.
Qed.

(** The line carries [l] more; the memory is [m]. *)
Definition printed k (m : gmap Z Z) (l : list Z) k' : Prop :=
  bytes (p_mem k') = m /\ uart_out (ser_dev (p_ser k')) = uart_out (ser_dev (p_ser k)) ++ l /\ ser_lock (p_ser k') = false /\
  p_vid k' = p_vid k /\ p_if k' = p_if k.

Lemma printed_trans k1 k2 k3 m1 m2 l1 l2 : printed k1 m1 l1 k2 -> printed k2 m2 l2 k3 -> printed k1 m2 (l1 ++ l2) k3.
Proof. intros (A1 & A2 & A3 & A4 & A5) (B1 & B2 & B3 & B4 & B5). split_and!; try congruence. by rewrite B2, A2, app_assoc. Qed.

Lemma writestr_wp l (Q : () -> pst H D -> Prop) k :
  ser_lock (p_ser k) = false -> Forall (fun b => 0 <= b < 256) l ->
  (forall k', printed k (bytes (p_mem k)) l k' -> Q () k') -> wp (writestr fuel l) Q k.
Proof.
  intros Hl Hb HQ. destruct k as [m [d lk] v i]. cbn in Hl. subst lk.
  destruct (serial_writestr_correct fuel l d Hfuel Hb) as (_ & d' & E & Ho).
  eapply wp_intro; [by apply zoom_Ok|]. by apply HQ.
Qed.

(** A format that prints [out], [out] being a C string of less than 100 characters. *)
Lemma serial_printf_wp str buffer fmt f va xs out (Q : () -> pst H D -> Prop) k :
  ser_lock (p_ser k) = false -> 0 < str -> 0 < buffer -> str + 100 <= buffer \/ buffer + 100 <= str ->
  cstr (bytes (p_mem k)) fmt f -> (forall x, fmt <= x <= fmt + Z.of_nat (length f) -> ~ local str 100 buffer x) ->
  buf (bytes (p_mem k)) str 100 -> buf (bytes (p_mem k)) buffer 100 -> Forall2 (arg_at (p_mem k) str 100 buffer) va xs ->
  render f xs = Some out -> Z.of_nat (length out) < 100 -> Forall (fun b => 0 < b < 256) out ->
  (forall k' m', printed k m' out k' -> (forall x, ~ local str 100 buffer x -> m' !! x = bytes (p_mem k) !! x) -> Q () k') ->
  wp (serial_printf fuel str buffer fmt va) Q k.
Proof.
  intros Hl Hs Hb Hsep Hf Haway B1 B2 Hva Hr Hlen Hout HQ. unfold serial_printf. wp_focus. apply zoom_wp.
  apply (vsnprintf_wp (p_mem k) str 100 buffer Hs Hb ltac:(lia) Hsep fmt f va xs out); try done. intros m' Ho Hrest _ _.
  wp_focus. apply zoom_wp. apply (cstring_wp str out); [by split_and!|].
  apply writestr_wp; [done|by apply cstr_chars|]. intros k' (P1 & P2 & P3 & P4 & P5).
  by apply (HQ k' m').
Qed.

(** The dump of one register, and of all. *)
Definition dump_line (nv : list Z * Z) : list Z := nv.1 ++ msg "=" ++ show 16 (u64 nv.2) ++ [10].

Lemma dump_lines_wp buffer l (Q : () -> pst H D -> Prop) k :
  ser_lock (p_ser k) = false -> buf (bytes (p_mem k)) buffer 100 -> Forall (fun nv => Forall (fun b => 0 <= b < 256) nv.1) l ->
  (forall k' m', printed k m' (flat_map dump_line l) k' -> buf m' buffer 100 ->
     (forall x, x < buffer \/ buffer + 100 <= x -> m' !! x = bytes (p_mem k) !! x) -> Q () k') ->
  wp (dump_lines fuel buffer l) Q k.
Proof.
  intros Hlk Hb Hn. revert k Hlk Hb. induction Hn as [|[n v] l Hn _ IH]; intros k Hlk Hb HQ; cbn [dump_lines].
  { wp_step. apply (HQ k (bytes (p_mem k))); try done. split_and!; try done. by rewrite app_nil_r. }
  wp_focus. unfold DUMPREG. wp_focus. apply writestr_wp; [done|apply Forall_app_2; [done|apply msg_bytes]|]. intros k1 PH1.
  pose proof PH1 as (E1 & _ & L1 & _). wp_focus. apply zoom_wp.
  eapply wp_mono; [apply wp_grows; [auto with grows|]|].
  { apply (ultoa_wp (p_mem k1) buffer 16 (u64 v)) with (Q := fun p s' => p = buffer /\ exists m', s' = set_bytes m' (p_mem k1) /\ cstr m' buffer (show 16 (u64 v)) /\
      unchanged_outside buffer 66 (bytes (p_mem k1)) m'); [lia|apply uN_range; lia|rewrite E1; eapply buf_le; [|exact Hb]; lia|].
    intros m' ds Hc Hnum Hval Hlen Hout. split; [done|]. exists m'.
    apply numeral_show in Hval as ->; [done|lia|pose proof (uN_range 64 v ltac:(lia)); lia|done]. }
  intros p s' [[-> (m1 & -> & Hc & Hout)] Hdom]. cbn in Hdom. wp_focus. apply zoom_wp. apply (cstring_wp buffer (show 16 (u64 v))); [exact Hc|].
  wp_focus. apply writestr_wp; [done|by apply cstr_chars, Hc|]. intros k2 PH2.
  apply writestr_wp; [apply PH2|by repeat constructor|]. intros k3 PH3. pose proof PH3 as (E3 & _ & L3 & _).
  assert (printed k m1 (dump_line (n, v)) k3) as PH13.
  { unfold dump_line. cbn [fst snd]. rewrite app_assoc. eapply printed_trans; [exact PH1|]. eapply (printed_trans _ k2); [exact PH2|].
    destruct PH2 as (E2 & _). rewrite E2 in PH3. exact PH3. }
  assert (bytes (p_mem k3) = m1) as E by apply PH13.
  assert (buf m1 buffer 100) as Hb1 by (destruct Hb as [? Hb]; split; [done|]; intros x Hx; apply Hdom; rewrite E1; by apply Hb).
  apply IH; [done|by rewrite E|]. intros k4 m4 PH4 Hb4 Hr4. apply (HQ k4 m4).
  - cbn [flat_map]. by eapply printed_trans.
  - done.
  - intros x Hx. rewrite Hr4, E, Hout, E1 by (done || lia). done.
Qed.

Lemma write_lines_wp l (Q : () -> pst H D -> Prop) k :
  ser_lock (p_ser k) = false -> Forall (Forall (fun b => 0 <= b < 256)) l ->
  (forall k', printed k (bytes (p_mem k)) (concat l) k' -> Q () k') -> wp (write_lines fuel l) Q k.
Proof.
  intros Hl Hb. revert k Hl. induction Hb as [|x l Hx _ IH]; intros k Hl HQ; cbn [write_lines].
  - wp_step. apply HQ. split_and!; try done. by rewrite app_nil_r.
  - wp_focus. apply writestr_wp; [done..|]. intros k1 PH1. apply IH; [apply PH1|]. intros k2 PH2. apply HQ. cbn [concat].
    destruct PH1 as (E1 & PH1). rewrite E1 in PH2. eapply printed_trans; [by split|exact PH2].
Qed.
End lines.

(** C24: [vsnprintf] prints what the format says: with a large enough destination apart from
    the format, the arguments' strings and its own array, it ends and has written exactly
    the characters of the reference definition and a NUL, has changed nothing but
    destination and array, and returns the length. *)
Theorem vsnprintf_correct {H} (s : smem H) str cap buffer fmt f va xs out :
  0 < str -> 0 < buffer -> cap < 2 ^ 31 -> str + cap <= buffer \/ buffer + 100 <= str ->
  cstr (bytes s) fmt f -> (forall x, fmt <= x <= fmt + Z.of_nat (length f) -> ~ local str cap buffer x) ->
  buf (bytes s) str cap -> buf (bytes s) buffer 100 -> Forall2 (arg_at s str cap buffer) va xs ->
  render f xs = Some out -> Z.of_nat (length out) < cap ->
  exists m', vsnprintf str fmt va buffer s = Ok (Z.of_nat (length out), set_bytes m' s) /\
    bytes_at m' str (out ++ [0]) /\ forall x, ~ local str cap buffer x -> m' !! x = bytes s !! x.
Proof.
  intros Hs Hb Hcap Hsep Hf Haway B1 B2 Hva Hr Hl.
  assert (wp (vsnprintf str fmt va buffer) (fun n s' => n = Z.of_nat (length out) /\ exists m', s' = set_bytes m' s /\
    bytes_at m' str (out ++ [0]) /\ forall x, ~ local str cap buffer x -> m' !! x = bytes s !! x) s) as Hw.
  { apply (vsnprintf_wp s str cap buffer Hs Hb Hcap Hsep fmt f va xs out); try done. intros m' H1 H2 _ _. split; [done|]. by exists m'. }
  destruct (wp_Ok _ _ _ Hw) as (n & s' & E & -> & m' & -> & H1 & H2). by exists m'.
Qed.

Lemma fault_lines_bytes e : Forall (Forall (fun b => 0 <= b < 256)) (fault_lines e).
Proof.
  unfold fault_lines. repeat apply Forall_app_2; destruct (truth _);
    repeat first [apply Forall_nil_2 | apply Forall_cons_2; [apply msg_line_bytes|]].
Qed.

Definition fault_format : list Z := msg "Faulting address: %x" ++ [10].

(** The report of a page fault: the line carries the twelve registers, each as its name and
    the hexadecimal numeral of its value, then a line per bit of the error code, then the
    faulting address; nothing but the local arrays changes in memory. *)
Theorem fault_report_correct {H D} `{Uart D} fuel dbuf str buffer fmt r errcode cr2 (k : pst H D) :
  (uart_max < N.to_nat fuel)%nat -> ser_lock (p_ser k) = false ->
  0 < str -> 0 < buffer -> str + 100 <= buffer \/ buffer + 100 <= str -> dbuf + 100 <= str \/ str + 100 <= dbuf ->
  dbuf + 100 <= buffer \/ buffer + 100 <= dbuf ->
  buf (bytes (p_mem k)) dbuf 100 -> buf (bytes (p_mem k)) str 100 -> buf (bytes (p_mem k)) buffer 100 ->
  cstr (bytes (p_mem k)) fmt fault_format ->
  (forall x, fmt <= x <= fmt + 21 -> ~ local str 100 buffer x /\ (x < dbuf \/ dbuf + 100 <= x)) ->
  exists k', fault_report fuel dbuf str buffer fmt r errcode cr2 k = Ok ((), k') /\
    uart_out (ser_dev (p_ser k')) = uart_out (ser_dev (p_ser k)) ++
      flat_map dump_line (reg_lines r) ++ concat (fault_lines errcode) ++ msg "Faulting address: " ++ show 16 (u64 cr2) ++ [10] /\
    forall x, ~ local str 100 buffer x -> x < dbuf \/ dbuf + 100 <= x -> bytes (p_mem k') !! x = bytes (p_mem k) !! x.
Proof.
  intros Hfu Hlk Hs Hb S1 S2 S3 B0 B1 B2 Hf Haway.
  set (out := msg "Faulting address: " ++ show 16 (u64 cr2) ++ [10]).
  assert (wp (fault_report fuel dbuf str buffer fmt r errcode cr2) (fun _ k' =>
    uart_out (ser_dev (p_ser k')) = uart_out (ser_dev (p_ser k)) ++ flat_map dump_line (reg_lines r) ++ concat (fault_lines errcode) ++ out /\
    forall x, ~ local str 100 buffer x -> x < dbuf \/ dbuf + 100 <= x -> bytes (p_mem k') !! x = bytes (p_mem k) !! x) k) as Hw.
  { unfold fault_report, dumpregs. wp_focus. apply (dump_lines_wp fuel Hfu); [done|done|unfold reg_lines; repeat first [apply Forall_nil_2 | apply Forall_cons_2; [apply msg_bytes|]]|].
    intros k1 m1 P1 _ R1. pose proof P1 as (E1 & _ & L1 & _). wp_focus.
    apply (write_lines_wp fuel Hfu); [done|apply fault_lines_bytes|]. intros k2 P2. pose proof P2 as (E2 & _ & L2 & _). rewrite E1 in E2.
    assert (forall p n, buf (bytes (p_mem k)) p n -> p + n <= dbuf \/ dbuf + 100 <= p -> buf (bytes (p_mem k2)) p n) as Hkeep.
    { intros p n [Hp Hbp] Hd. split; [done|]. intros x Hx. rewrite E2, R1 by lia. by apply Hbp. }
    pose proof (show_length 16 (u64 cr2) ltac:(lia) (uN_range 64 cr2 ltac:(lia))) as Hsl.
    apply (serial_printf_wp fuel Hfu str buffer fmt fault_format [cr2] [FNum cr2] out); try done.
    - eapply cstr_agree; [|exact Hf]. intros x Hx. rewrite E2. apply R1. destruct (Haway x); [|done]. revert Hx. cbn. lia.
    - intros x Hx. destruct (Haway x) as [Hx' _]; [|exact Hx']. revert Hx. cbn. lia.
    - apply Hkeep; [done|lia].
    - apply Hkeep; [done|lia].
    - by repeat constructor.
    - unfold out. rewrite !length_app. change (length (msg "Faulting address: ")) with 18%nat. cbn [length]. lia.
    - unfold out. apply Forall_app_2; [by repeat constructor|]. apply Forall_app_2; [|by repeat constructor].
      apply show_bytes; [lia|apply uN_range; lia].
    - intros k3 m3 P3 R3. pose proof P3 as (E3 & _). split.
      + pose proof (printed_trans _ _ _ _ _ _ _ P1 (printed_trans _ _ _ _ _ _ _ P2 P3)) as (_ & Ho & _). exact Ho.
      + intros x Hx Hd. by rewrite E3, R3, E2, R1. }
  destruct (wp_Ok _ _ _ Hw) as ([] & k' & E & Ho & Hr). by exists k'.
Qed.

(** ** Witnesses *)

(** A format, a string, the destination and the local arrays. *)
Definition print_mem : smem () :=
  mk_smem (poke 100 (msg "%s=%d" ++ [0]) (poke 200 (msg "pid" ++ [0]) (poke 300 (replicate 100 7) (poke 500 (replicate 100 7)
    (poke 700 (replicate 100 7) (poke 900 (fault_format ++ [0]) ∅)))))) () 0.

Definition bytes_check (m : gmap Z Z) (p : Z) (l : list Z) : bool :=
  forallb (fun i => bool_decide (m !! (p + Z.of_nat i) = l !! i)) (seq 0 (length l)).
Lemma bytes_check_sound m p l : bytes_check m p l = true -> bytes_at m p l.
Proof.
  intros Hc i b Hi. unfold bytes_check in Hc. rewrite forallb_forall in Hc. rewrite <- Hi. apply (bool_decide_unpack _).
  apply Is_true_true, Hc, in_seq. apply lookup_lt_Some in Hi. lia.
Qed.
Lemma cstr_check m p l : 0 < p -> bytes_check m p (l ++ [0]) = true -> forallb (fun b => (0 <? b) && (b <? 256)) l = true -> cstr m p l.
Proof.
  intros Hp Hb Hl. split_and!; [done|by apply bytes_check_sound|]. apply Forall_forall. intros b Hin. rewrite forallb_forall in Hl.
  apply list_elem_of_In in Hin. apply Hl in Hin. lia.
Qed.

Lemma vsnprintf_correct_witness :
  exists m', vsnprintf 300 100 [200; -42] 500 print_mem = Ok (7, set_bytes m' print_mem) /\ bytes_at m' 300 (msg "pid=-42" ++ [0]).
Proof.
  destruct (vsnprintf_correct print_mem 300 100 500 100 (msg "%s=%d") [200; -42] [FStr (msg "pid"); FNum (-42)] (msg "pid=-42"))
    as (m' & E & Hm & _).
  - lia.
  - lia.
  - lia.
  - lia.
  - apply cstr_check; [lia|vm_compute; reflexivity|vm_compute; reflexivity].
  - intros x Hx. unfold local. cbn in Hx. lia.
  - apply (buf_check_sound _ 300 100); [lia|vm_compute; reflexivity].
  - apply (buf_check_sound _ 500 100); [lia|vm_compute; reflexivity].
  - constructor; [|by repeat constructor]. split; [apply cstr_check; [lia|vm_compute; reflexivity|vm_compute; reflexivity]|].
    intros x Hx. unfold local. cbn in Hx. lia.
  - vm_compute. reflexivity.
  - cbn. lia.
  - exists m'. split; [exact E|exact Hm].
Defined.

Definition print_state : pst () slow_uart :=
  mk_pst print_mem (mk_serial (mk_uart [] false) false) (mk_video (mk_mode 0 0 0 0) (mk_font [] 0 0 []) [] 0 0) true.

Lemma fault_report_correct_witness :
  exists k', fault_report 5 700 300 500 900 (fresh_regs 0x401000 0x1b 0x23 0x7000) 6 0xdead print_state = Ok ((), k') /\
    u_out (ser_dev (p_ser k')) = flat_map dump_line (reg_lines (fresh_regs 0x401000 0x1b 0x23 0x7000)) ++
      msg "CPL = 3" ++ [10] ++ msg "Invalid write" ++ [10] ++ msg "Non-present page" ++ [10] ++ msg "Faulting address: DEAD" ++ [10].
Proof.
  destruct (fault_report_correct 5 700 300 500 900 (fresh_regs 0x401000 0x1b 0x23 0x7000) 6 0xdead print_state) as (k' & E & Ho & _).
  - cbn. lia.
  - reflexivity.
  - lia.
  - lia.
  - lia.
  - lia.
  - lia.
  - apply (buf_check_sound _ 700 100); [lia|vm_compute; reflexivity].
  - apply (buf_check_sound _ 300 100); [lia|vm_compute; reflexivity].
  - apply (buf_check_sound _ 500 100); [lia|vm_compute; reflexivity].
  - apply cstr_check; [lia|vm_compute; reflexivity|vm_compute; reflexivity].
  - intros x Hx. unfold local. lia.
  - exists k'. split; [exact E|exact Ho].
Defined.

(** [serial_printf] has 100 bytes and does not count: of a text of 100 characters the NUL is
    written behind the array, while 99 characters fit. *)
Definition print_long (n : nat) : pst () slow_uart :=
  set_pmem (mk_smem (poke 1000 (msg "%s" ++ [0]) (poke 2000 (replicate n 65 ++ [0]) (poke 300 (replicate 100 7) (poke 500 (replicate 100 7) ∅)))) () 0)
    print_state.
Example serial_printf_overruns : serial_printf 5 300 500 1000 [2000] (print_long 100) = Err OutOfBounds.
Proof. vm_compute. reflexivity. Qed.
Example serial_printf_fits :
  match serial_printf 5 300 500 1000 [2000] (print_long 99) with Ok (_, k) => u_out (ser_dev (p_ser k)) = replicate 99 65 | Err _ => False end.
Proof. vm_compute. reflexivity. Qed.
