(* ===== verification/Intr.v ===== *)
(** * Intr: interrupts and exceptions (src/intr/idt.c, src/intr/isr.c)

    The dispatchers that the entry stubs call, over the scheduler's state, the table of
    handlers (0 is null; what a registered handler does is a parameter), the counter of
    nested exceptions, the lock of the fault handlers, the number of end-of-interrupt
    writes and whether the other CPUs were told to halt.  The texts written to the
    serial line are not part of the state. *)

From S2P Require Import Prelude Pmm Alloc Kheap DList Paging Vfs Sched Desc.

Definition SIGSEG : Z := 1.

(** [isr_frame_t]. *)
Record isr_frame : Type := mk_frame { f_regs : reg_ctx; errcode : Z }.

Record istate (P : Type) : Type := mk_istate {
  i_sched : sstate P; int_handlers : list Z; nestisr : Z; isrlock : bool; i_eois : nat; i_halted : bool;
}.
Arguments mk_istate {P}. Arguments i_sched {P}. Arguments int_handlers {P}. Arguments nestisr {P}.
Arguments isrlock {P}. Arguments i_eois {P}. Arguments i_halted {P}.

(** What becomes of the CPU: back to the interrupted code, elsewhere, or stopped for
    good ([jmp .] after a panic). *)
Inductive fate : Type := Resumed | Went (n : next) | Panicked.

Section ops.
Context {P : Type} `{VSpace P} `{VfsNodes (sstate P)}.
Abbreviation I := (M (istate P)).

Definition on_sched {A} (m : M (sstate P) A) : I A := fun s =>
  match m (i_sched s) with
  | Ok (a, k) => Ok (a, mk_istate k (int_handlers s) (nestisr s) (isrlock s) (i_eois s) (i_halted s))
  | Err f => Err f
  end.
Definition set_isrlock (b : bool) (s : istate P) : istate P :=
  mk_istate (i_sched s) (int_handlers s) (nestisr s) b (i_eois s) (i_halted s).
Definition lapic_eoi : I () :=
  modify (fun s => mk_istate (i_sched s) (int_handlers s) (nestisr s) (isrlock s) (S (i_eois s)) (i_halted s)).
(** [lapic_send_ipi(0, ICR_ALL_EX_SELF, ICR_FIXED, IPI_HALT)]. *)
Definition halt_others : I () :=
  modify (fun s => mk_istate (i_sched s) (int_handlers s) (nestisr s) (isrlock s) (i_eois s) true).
Definition acquire_isrlock : I () :=
  s ← get; guard (negb (isrlock s)) Hang;; put (set_isrlock true s).
Definition release_isrlock : I () := modify (set_isrlock false).
Definition fate_of (n : next) : fate := match n with Returned => Resumed | _ => Went n end.

(** ** Interrupts *)

(** [idt_set_int] on this state; the table's routine is in Desc.v. *)
Definition set_int (id fn : Z) : I () := fun s =>
  match idt_set_int id fn (int_handlers s) with
  | Ok h => Ok ((), mk_istate (i_sched s) h (nestisr s) (isrlock s) (i_eois s) (i_halted s))
  | Err e => Err e
  end.

Context (run : Z -> reg_ctx -> I fate).
Definition irq_handler (num : Z) (r : reg_ctx) : I fate :=
  lapic_eoi;;
  s ← get;
  h ← unwrap (int_handlers s !! Z.to_nat num) OutOfBounds;
  if truth h then run h r else mret Resumed.
Definition ipi_handler (num : Z) (r : reg_ctx) : I fate := irq_handler num r.

(** [schedule], which [sched_start] registers for [IPI_SCHED], and [ipi_halt], which
    loops for ever. *)
Definition h_schedule (c : nat) (r : reg_ctx) : I fate := n ← on_sched (trap c r); mret (fate_of n).
Definition ipi_halt (r : reg_ctx) : I fate := mret Panicked.
(** [sched_start] up to its endless loop: the handler for [IPI_SCHED] (address [fn]), and
    the new value of [scheduler_ready], which [sched_tick] tests.  The list [procs] it
    creates is never used. *)
Definition sched_start (fn : Z) : I bool := set_int IPI_SCHED fn;; mret true.

(** ** Exceptions *)

Definition from_user (f : isr_frame) : bool := truth (ss (f_regs f) .& 0x3).

(** The process at fault is killed; killing the current one ends in a trap. *)
Definition generic_isr (c : nat) (f : isr_frame) : I fate :=
  if from_user f then
    p ← on_sched (sched_get_currproc c);
    _ ← on_sched (get_proc p);
    on_sched (sched_kill c (mret ()) p);;
    n ← on_sched (trap c (f_regs f));
    mret (fate_of n)
  else halt_others;; mret Panicked.

(** The signal is queued; sending it to the current process ends in a trap. *)
Definition send_segv (c : nat) (f : isr_frame) : I fate :=
  p ← on_sched (sched_get_currproc c);
  n ← on_sched (signal_send c (f_regs f) p SIGSEG);
  mret (match n with Some n => fate_of n | None => Resumed end).

Definition pagefault_handler (c : nat) (f : isr_frame) : I fate :=
  acquire_isrlock;;
  if from_user f then release_isrlock;; send_segv c f
  else halt_others;; release_isrlock;; mret Panicked.
Definition general_protection_fault_handler (c : nat) (f : isr_frame) : I fate :=
  acquire_isrlock;;
  if from_user f then release_isrlock;; send_segv c f
  else halt_others;; release_isrlock;; mret Panicked.

(** The selector index printed for a protection fault: [(errcode >> 3) & 13]. *)
Definition gpf_index (errcode : Z) : Z := Z.shiftr errcode 3 .& 13.

(** [nestisr++ > 5], then the handler of the exception; 1 and 3 only print a line. *)
Definition isr_handler (c : nat) (num : Z) (f : isr_frame) : I fate :=
  s ← get;
  put (mk_istate (i_sched s) (int_handlers s) (sN 32 (nestisr s + 1)) (isrlock s) (i_eois s) (i_halted s));;
  if nestisr s >? 5 then mret Panicked
  else if (num =? 1) || (num =? 3) then mret Resumed
  else if num =? 13 then general_protection_fault_handler c f
  else if num =? 14 then pagefault_handler c f
  else generic_isr c f.
End ops.

(** ** Properties *)

Section properties.
Context {P : Type} `{VSpace P} `{VfsNodes (sstate P)}.
Implicit Types s : istate P.

(** Once the scheduler is started, the interrupt with which threads yield is acknowledged
    and then schedules. *)
Lemma sched_start_schedules (run : Z -> reg_ctx -> M (istate P) fate) fn c r s :
  (Z.to_nat IPI_SCHED < length (int_handlers s))%nat -> fn <> 0 -> (forall r, run fn r = h_schedule c r) ->
  exists s', sched_start fn s = Ok (true, s') /\ i_sched s' = i_sched s /\
    ipi_handler run IPI_SCHED r s' = (lapic_eoi;; h_schedule c r) s'.
Proof.
  intros Hlen Hfn Hrun. eexists. split_and!.
  - unfold sched_start. eapply bind_Ok; [|reflexivity]. unfold set_int, idt_set_int.
    rewrite bool_decide_true by (unfold IPI_SCHED in *; lia). reflexivity.
  - reflexivity.
  - unfold ipi_handler, irq_handler. eapply bind_Ok; [reflexivity|]. eapply bind_Ok; [reflexivity|]. eapply bind_Ok.
    + cbn [int_handlers]. rewrite list_lookup_insert_eq by done. reflexivity.
    + rewrite (proj2 (truth_true _) Hfn), Hrun. reflexivity.
Qed.

Lemma on_sched_nest {A} (m : M (sstate P) A) s : wlp (on_sched m) (fun _ s' => nestisr s' = nestisr s) s.
Proof. unfold wlp, on_sched. by destruct (m (i_sched s)) as [[]|]. Qed.

Lemma on_sched_bind {A B} (m : M (sstate P) A) (k : A -> M (istate P) B) s :
  (forall a s', nestisr s' = nestisr s -> wlp (k a) (fun _ s2 => nestisr s2 = nestisr s) s') ->
  wlp (a ← on_sched m; k a) (fun _ s2 => nestisr s2 = nestisr s) s.
Proof. intros Hk. apply wlp_bind. eapply wlp_mono; [apply on_sched_nest|]. intros a s1 H1. by apply Hk. Qed.

(** The handlers do not touch the counter. *)
Lemma send_segv_nest c f s : wlp (send_segv c f) (fun _ s' => nestisr s' = nestisr s) s.
Proof.
  unfold send_segv. apply on_sched_bind. intros p s1 H1. rewrite <-H1. apply on_sched_bind. intros n s2 H2.
  by apply wlp_ret.
Qed.
Lemma generic_isr_nest c f s : wlp (generic_isr c f) (fun _ s' => nestisr s' = nestisr s) s.
Proof.
  unfold generic_isr. destruct (from_user f); [|by apply wlp_bind, wlp_ret].
  do 4 (apply on_sched_bind; intros ? ? <-). by apply wlp_ret.
Qed.
Lemma fault_nest c f s :
  wlp (pagefault_handler c f) (fun _ s' => nestisr s' = nestisr s) s /\
  wlp (general_protection_fault_handler c f) (fun _ s' => nestisr s' = nestisr s) s.
Proof.
  assert (wlp (acquire_isrlock;; if from_user f then release_isrlock;; send_segv c f
               else halt_others;; release_isrlock;; mret Panicked) (fun _ s' => nestisr s' = nestisr s) s); [|done].
  apply wlp_bind. unfold acquire_isrlock. apply wlp_bind. cbn. apply wlp_bind, wlp_guard. intros _. cbn.
  destruct (from_user f); [|done]. apply wlp_bind. cbn.
  eapply wlp_mono; [apply send_segv_nest|]. by intros n s' Hs'.
Qed.

(** Every exception that returns has gone up by one, and with more than five before it
    the kernel panics. *)
Lemma isr_counts c num f s :
  -2 ^ 31 <= nestisr s < 2 ^ 31 - 1 ->
  (5 < nestisr s -> exists s', isr_handler c num f s = Ok (Panicked, s')) /\
  wlp (isr_handler c num f) (fun _ s' => nestisr s' = nestisr s + 1) s.
Proof.
  intros Hn. set (s1 := mk_istate (i_sched s) (int_handlers s) (sN 32 (nestisr s + 1)) (isrlock s) (i_eois s) (i_halted s)).
  assert (nestisr s1 = nestisr s + 1) as Hs1 by (apply sN_small; lia). rewrite <-Hs1. split.
  - intros H5. exists s1. unfold isr_handler. eapply bind_Ok; [done|]. eapply bind_Ok; [done|].
    by rewrite (proj2 (Z.gtb_lt _ _)) by lia.
  - unfold isr_handler. apply wlp_bind. cbn. apply wlp_bind. cbn. fold s1.
    destruct (nestisr s >? 5); [by apply wlp_ret|]. destruct ((num =? 1) || (num =? 3)); [by apply wlp_ret|].
    destruct (num =? 13); [apply fault_nest|]. destruct (num =? 14); [apply fault_nest|]. apply generic_isr_nest.
Qed.

(** Exceptions one after the other. *)
Fixpoint exceptions (c : nat) (es : list (Z * isr_frame)) : M (istate P) () :=
  match es with [] => mret () | (num, f) :: r => isr_handler c num f;; exceptions c r end.

Lemma exceptions_count c es s :
  0 <= nestisr s -> nestisr s + Z.of_nat (length es) < 2 ^ 31 ->
  wlp (exceptions c es) (fun _ s' => nestisr s' = nestisr s + Z.of_nat (length es)) s.
Proof.
  revert s. induction es as [|[num f] es IH]; intros s Hz Hlen; cbn [exceptions length] in *; [apply wlp_ret; lia|].
  apply wlp_bind. eapply wlp_mono; [apply (isr_counts c num f s); lia|]. intros n s1 Hs1.
  cbn beta in Hs1. eapply wlp_mono; [apply IH; lia|]. intros [] s2 Hs2. cbn beta in Hs2. lia.
Qed.
End properties.

(** The counter of nested exceptions counts all exceptions: it is never taken down
    when a handler is done.  After six exceptions, on any CPU and at any time, even
    breakpoints or crashes of programs that were dealt with, the next one of any kind
    stops the kernel. *)
Theorem seventh_exception_panics {P} `{VSpace P} `{VfsNodes (sstate P)} c es (s s' : istate P) num f :
  nestisr s = 0 -> length es = 6%nat -> exceptions c es s = Ok ((), s') ->
  exists s2, isr_handler c num f s' = Ok (Panicked, s2).
Proof.
  intros Hz Hlen Hes. assert (nestisr s' = 6) as H6.
  { rewrite (wlp_Ok _ _ _ _ _ (exceptions_count c es s ltac:(lia) ltac:(lia)) Hes). lia. }
  apply isr_counts; lia.
Qed.

(** ** Faults of programs *)

Section faults.
Context {P : Type} `{VSpace P} `{VfsNodes (sstate P)}.

(** A state in which threads were marked as killed. *)
Definition killed (ts : list Z) (k k' : sstate P) : Prop :=
  s_cpus k' = s_cpus k /\ s_procs k' = s_procs k /\ s_io k' = s_io k /\ s_mem k' = s_mem k /\
  forall t, s_threads k' !! t =
    if decide (t ∈ ts) then with_state THREAD_STATE_KILLED <$> s_threads k !! t else s_threads k !! t.

Lemma kill_all_wp ts (k : sstate P) :
  (forall t, t ∈ ts -> is_Some (s_threads k !! t)) -> wp (kill_all ts) (fun _ => killed ts k) k.
Proof.
  revert k. induction ts as [|t ts IH]; intros k Hex; cbn [kill_all].
  - apply wp_ret. by split_and!.
  - destruct (Hex t) as [th Hth]; [by left|]. wp_focus. unfold thread_kill. eapply upd_thread_wp; [exact Hth|].
    eapply wp_mono; [apply IH|].
    { intros t' Ht'. cbn. destruct (decide (t' = t)) as [->|]; [rewrite lookup_insert_eq; by eexists|].
      rewrite lookup_insert_ne by done. apply Hex. by right. }
    intros [] k' (Hc & Hp & Hi & Hm & Ht). split_and!; try done. intros t'. rewrite Ht. cbn.
    destruct (decide (t' = t)) as [->|Hne].
    + rewrite lookup_insert_eq, Hth, (decide_True (P := t ∈ t :: ts)) by (by left). by destruct (decide (t ∈ ts)).
    + rewrite lookup_insert_ne by done. destruct (decide (t' ∈ ts)).
      * by rewrite decide_True by (by right).
      * by rewrite decide_False by (by intros [?|?]%elem_of_cons).
Qed.
End faults.

(** An exception of a program (other than the debug exceptions and the page and
    protection faults, which become signals) kills every thread of its process, and
    nothing else, and then traps into the scheduler; the same exception in the kernel
    halts the other CPUs and stops. *)
Theorem generic_exception_correct {P} `{VSpace P} `{VfsNodes (sstate P)} c num f (s : istate P) p pr :
  -2 ^ 31 <= nestisr s <= 5 -> num <> 1 -> num <> 3 -> num <> 13 -> num <> 14 ->
  (from_user f = true -> running c (i_sched s) p pr ->
   (forall t, t ∈ p_threads pr -> is_Some (s_threads (i_sched s) !! t)) ->
   exists k, killed (p_threads pr) (i_sched s) k /\
     isr_handler c num f s =
       match trap c (f_regs f) k with
       | Ok (n, k') => Ok (fate_of n, mk_istate k' (int_handlers s) (nestisr s + 1) (isrlock s) (i_eois s) (i_halted s))
       | Err e => Err e
       end) /\
  (from_user f = false -> isr_handler c num f s =
     Ok (Panicked, mk_istate (i_sched s) (int_handlers s) (nestisr s + 1) (isrlock s) (i_eois s) true)).
Proof.
  intros Hn H1 H3 H13 H14.
  assert (isr_handler c num f s = generic_isr c f
    (mk_istate (i_sched s) (int_handlers s) (nestisr s + 1) (isrlock s) (i_eois s) (i_halted s))) as ->.
  { unfold isr_handler. eapply bind_Ok; [done|]. eapply bind_Ok; [done|]. rewrite sN_small by lia.
    rewrite (proj2 (Z.eqb_neq _ _) H1), (proj2 (Z.eqb_neq _ _) H3), (proj2 (Z.eqb_neq _ _) H13), (proj2 (Z.eqb_neq _ _) H14).
    destruct (Z.gtb_spec (nestisr s) 5); [lia|]. done. }
  split; intros Hu; unfold generic_isr; rewrite Hu; [|done]. intros Hr Hex.
  destruct (wp_Ok _ _ _ (kill_all_wp (p_threads pr) (i_sched s) Hex)) as ([] & k & Hk & Hkd). exists k. split; [done|].
  destruct Hr as (cp & t & Hc & Hcur & Ht & Hp & Hpr).
  assert (sched_kill c (mret ()) p (i_sched s) = Ok ((), k)) as Hkill.
  { unfold sched_kill. eapply bind_Ok; [unfold get_proc, bindM, get; by rewrite Hpr|]. eapply bind_Ok; [exact Hk|].
    destruct Hkd as (Hkc & Hkp & _ & _ & Hkt). eapply (bind_Ok _ _ _ p k); [|by rewrite Z.eqb_refl].
    unfold sched_get_currproc, get_cpu, get_thread, bindM, get. cbn. rewrite Hkc, Hc. cbn.
    rewrite (proj2 (truth_true _) Hcur), Hkt, Ht. by destruct (decide _); cbn; rewrite Hp. }
  assert (sched_get_currproc c (i_sched s) = Ok (p, i_sched s)) as Hget by (eapply sched_get_currproc_eq; by exists cp, t).
  eapply bind_Ok; [unfold on_sched; cbn [i_sched]; rewrite Hget; done|].
  eapply bind_Ok; [unfold on_sched, get_proc, bindM, get; cbn; rewrite Hpr; done|].
  eapply bind_Ok; [unfold on_sched; cbn [i_sched]; rewrite Hkill; done|].
  unfold bindM, on_sched. cbn [i_sched int_handlers nestisr isrlock i_eois i_halted].
  by destruct (trap c (f_regs f) k) as [[n k']|].
Qed.

(** ** A program on one CPU *)

Definition one_program : sstate () :=
  mk_sstate {[16 := demo_thread THREAD_STATE_RUNNING 0]}
    {[64 := mk_proc 0 0x100 [] [] None [16] 1 [] 0 [] [0; 0; 0] None]} [mk_cpu 16 [16] [] false] 1 0 256 () demo_io.
Definition demo_istate : istate () := mk_istate one_program (replicate 256 0) 0 false 0 false.
Definition user_frame : isr_frame := mk_frame (fresh_regs 0x400000 USER_CS USER_SS 0x8000) 0.

Section witnesses.
#[local] Existing Instance demo_VSpace.
#[local] Existing Instance demo_VfsNodes.

Lemma seventh_exception_panics_witness :
  exists s', exceptions 0 (replicate 6 (3, user_frame)) demo_istate = Ok ((), s') /\
    exists s2, isr_handler 0 3 user_frame s' = Ok (Panicked, s2).
Proof.
  eexists. split; [vm_compute; reflexivity|].
  eapply (seventh_exception_panics 0 (replicate 6 (3, user_frame)) demo_istate _ 3 user_frame);
    [reflexivity|reflexivity|vm_compute; reflexivity].
Defined.

(** A division by zero in the only program: its thread is killed and the CPU has
    nothing left to run. *)
Lemma generic_exception_correct_witness :
  exists k, killed [16] one_program k /\
    isr_handler 0 0 user_frame demo_istate =
      match trap 0 (f_regs user_frame) k with
      | Ok (n, k') => Ok (fate_of n, mk_istate k' (replicate 256 0) 1 false 0 false)
      | Err e => Err e
      end.
Proof.
  apply (generic_exception_correct 0 0 user_frame demo_istate 64
    (mk_proc 0 0x100 [] [] None [16] 1 [] 0 [] [0; 0; 0] None)); try lia; [cbn; lia|reflexivity| |].
  - exists (mk_cpu 16 [16] [] false), (demo_thread THREAD_STATE_RUNNING 0). split_and!; done.
  - intros t Ht. apply list_elem_of_singleton in Ht as ->. by eexists.
Defined.
End witnesses.
