(* ===== verification/Nic.v ===== *)
(** * Nic: the e1000 network adapter (src/drivers/net/e1000/e1000.c)

    The driver probes the card's EEPROM and reads the station address; it sends and
    receives nothing.  The card is a parameter: its memory-mapped registers (class
    [Nic]) and the EEPROM read protocol of the data sheet (class [Eeprom]). *)

From S2P Require Import Prelude Ports Pci.

Definition REG_EEPROM : Z := 0x0014.
Definition MACADDR_LEN : Z := 6.
Definition BAR_MMIO : Z := 0.

Class Nic (D : Type) : Type := {
  nic_out : nat -> Z -> Z -> D -> D;
  nic_in : nat -> Z -> D -> Z * D;
  nic_in_range w a d : 0 <= (nic_in w a d).1 < 2 ^ (8 * Z.of_nat w);
}.

(** [bartype] and [eeprom_present] beside the card. *)
Record e1000 (D : Type) : Type := mk_e1000 { card : D; bartype : Z; eeprom_present : bool }.
Arguments mk_e1000 {D}. Arguments card {D}. Arguments bartype {D}. Arguments eeprom_present {D}.

Section ops.
Context {D : Type} `{Nic D}.
Abbreviation E := (M (e1000 D)).

Definition e1000_read (w : nat) (addr : Z) : E Z := fun s =>
  let '(v, d) := nic_in w addr (card s) in Ok (v, mk_e1000 d (bartype s) (eeprom_present s)).
Definition e1000_write (w : nat) (addr val : Z) : E () :=
  modify (fun s => mk_e1000 (nic_out w addr val (card s)) (bartype s) (eeprom_present s)).
Definition e1000_read8 (addr : Z) : E Z := e1000_read 1 addr.
Definition e1000_write8 (addr val : Z) : E () := e1000_write 1 addr (u8 val).
Definition e1000_read16 (addr : Z) : E Z := e1000_read 2 addr.
Definition e1000_write16 (addr val : Z) : E () := e1000_write 2 addr (u16 val).
Definition e1000_read32 (addr : Z) : E Z := e1000_read 4 addr.
Definition e1000_write32 (addr val : Z) : E () := e1000_write 4 addr (u32 val).
Definition e1000_read64 (addr : Z) : E Z := e1000_read 8 addr.
Definition e1000_write64 (addr val : Z) : E () := e1000_write 8 addr (u64 val).

(** With port registers a command is dropped, and a read has no result. *)
Definition e1000_writecmd (addr val : Z) : E () :=
  s ← get; if bartype s =? BAR_MMIO then e1000_write32 addr val else mret ().
Definition e1000_readcmd (addr : Z) : E Z :=
  s ← get; if bartype s =? BAR_MMIO then e1000_read32 addr else throw NoReturn.

Definition e1000_probe_eeprom : E bool :=
  e1000_writecmd REG_EEPROM 0x1;;
  r ← for_ 0 1000 (fun _ =>
    val ← e1000_readcmd REG_EEPROM; mret (if truth (val .& 0x10) then Some true else None));
  mret (default false r).

(** Waiting for the done bit. *)
Definition eeprom_wait (fuel : N) (bit : Z) : E Z :=
  while_ fuel (fun _ => tmp ← e1000_readcmd REG_EEPROM; mret (if truth (tmp .& bit) then inr tmp else inl ())) ().
Definition e1000_eeprom_read (fuel : N) (addr : Z) : E Z :=
  s ← get;
  tmp ← (if eeprom_present s then e1000_writecmd REG_EEPROM (1 .| Z.shiftl (u8 addr) 8);; eeprom_wait fuel (Z.shiftl 1 4)
         else e1000_writecmd REG_EEPROM (1 .| Z.shiftl (u8 addr) 2);; eeprom_wait fuel (Z.shiftl 1 1));
  mret (Z.shiftr tmp 16 .& 0xffff).

(** [None]: the address is left uninitialised. *)
Definition e1000_read_macaddr (fuel : N) : E (option (list Z)) :=
  s ← get;
  if eeprom_present s then
    a ← e1000_eeprom_read fuel 0;
    b ← e1000_eeprom_read fuel 1;
    c ← e1000_eeprom_read fuel 2;
    mret (Some [u8 (a .& 0xff); u8 (Z.shiftr a 8); u8 (b .& 0xff); u8 (Z.shiftr b 8); u8 (c .& 0xff); u8 (Z.shiftr c 8)])
  else
    v ← e1000_read32 0x5400;
    if truth v then
      r ← for_acc (B := Empty_set) 0 MACADDR_LEN (fun i mac => b ← e1000_read8 (0x5400 + i); mret (inl (mac ++ [b]))) [];
      match r with inl mac => mret (Some mac) | inr e => match e with end end
    else mret None.

Definition set_eeprom (b : bool) (s : e1000 D) : e1000 D := mk_e1000 (card s) (bartype s) b.
(** [e1000_init] after the registers have been mapped. *)
Definition e1000_start (fuel : N) : E (option (list Z)) :=
  b ← e1000_probe_eeprom; modify (set_eeprom b);; e1000_read_macaddr fuel.
End ops.

(** The whole of [e1000_init]: the base address (which is mapped), the type of the first BAR, bus mastering, the address. *)
Definition e1000_init {B D} `{Ports B} `{Nic D} (fuel : N) (dev : pci_dev) : M (B * D) (option (list Z)) := fun s =>
  match (_ ← pci_get_base_addr dev 0; b ← pci_bar_isioport dev 0; pci_enable_bus_master dev;; mret b) s.1 with
  | Ok (b, bus) =>
      match e1000_start fuel (mk_e1000 s.2 b false) with
      | Ok (mac, c) => Ok (mac, (bus, card c))
      | Err f => Err f
      end
  | Err f => Err f
  end.

(** ** The EEPROM protocol *)

(** The words of the EEPROM, the address last asked for, and for how many reads the
    register still says that the answer is not there; at most [ee_max]. *)
Class Eeprom (D : Type) `{Nic D} : Type := {
  ee_word : D -> Z -> Z;
  ee_addr : D -> Z;
  ee_busy : D -> nat;
  ee_max : nat;
  ee_word_range d a : 0 <= ee_word d a < 2 ^ 16;
  ee_busy_max d : (ee_busy d <= ee_max)%nat;
  ee_ask d a : 0 <= a < 256 ->
    ee_addr (nic_out 4 REG_EEPROM (1 .| Z.shiftl a 8) d) = a /\
    ee_word (nic_out 4 REG_EEPROM (1 .| Z.shiftl a 8) d) = ee_word d;
  ee_done d : truth ((nic_in 4 REG_EEPROM d).1 .& 0x10) = (ee_busy d =? 0)%nat;
  ee_value d : ee_busy d = 0%nat -> Z.shiftr (nic_in 4 REG_EEPROM d).1 16 = ee_word d (ee_addr d);
  ee_poll d : ee_addr (nic_in 4 REG_EEPROM d).2 = ee_addr d /\ ee_word (nic_in 4 REG_EEPROM d).2 = ee_word d /\
    ee_busy (nic_in 4 REG_EEPROM d).2 = pred (ee_busy d);
}.

Section proofs.
Context {D : Type} `{Eeprom D}.
Implicit Types s : e1000 D.

(** A card with memory-mapped registers whose EEPROM holds [words]. *)
Definition nic_ok (words : Z -> Z) (present : bool) s : Prop :=
  bartype s = BAR_MMIO /\ eeprom_present s = present /\ ee_word (card s) = words.

Lemma readcmd_wp words present s Q :
  nic_ok words present s ->
  (forall s', nic_ok words present s' -> ee_addr (card s') = ee_addr (card s) -> ee_busy (card s') = pred (ee_busy (card s)) ->
     Q (nic_in 4 REG_EEPROM (card s)).1 s') ->
  wp (e1000_readcmd REG_EEPROM) Q s.
Proof.
  intros (Hb & Hp & Hw) HQ. unfold e1000_readcmd. wp_step. wp_step. rewrite Hb. cbn [Z.eqb BAR_MMIO].
  unfold e1000_read32, e1000_read, wp. destruct (ee_poll (card s)) as (Ha & Hwd & Hbz).
  destruct (nic_in 4 REG_EEPROM (card s)) as [v d] eqn:Hin. apply HQ; [split_and!|..]; try done. cbn. by rewrite <-Hw.
Qed.

Lemma writecmd_wp words present a s Q :
  nic_ok words present s -> 0 <= a < 256 ->
  (forall s', nic_ok words present s' -> ee_addr (card s') = a -> Q () s') ->
  wp (e1000_writecmd REG_EEPROM (1 .| Z.shiftl a 8)) Q s.
Proof.
  intros (Hb & Hp & Hw) Ha HQ. unfold e1000_writecmd. wp_step. wp_step. rewrite Hb. cbn [Z.eqb BAR_MMIO].
  unfold e1000_write32, e1000_write. wp_step. destruct (ee_ask (card s) a Ha) as [Had Hwd].
  rewrite uN_small.
  - apply HQ; [split_and!|..]; try done. cbn. by rewrite Hwd.
  - apply lor_bounded; [lia|lia|]. rewrite Z.shiftl_mul_pow2 by lia. lia.
Qed.

Lemma eeprom_read_wp words fuel a s Q :
  nic_ok words true s -> 0 <= a < 256 -> (ee_max < N.to_nat fuel)%nat ->
  (forall s', nic_ok words true s' -> Q (words a) s') -> wp (e1000_eeprom_read fuel a) Q s.
Proof.
  intros Hok Ha Hf HQ. unfold e1000_eeprom_read. wp_step. wp_step. destruct Hok as (Hb & Hp & Hw). rewrite Hp.
  wp_focus. rewrite uN_small by done. wp_focus. apply (writecmd_wp words true); [done|done|]. intros s1 Hok1 Had1.
  unfold eeprom_wait. pose proof (ee_busy_max (card s1)).
  apply (wp_while (fun k _ s' => k = ee_busy (card s') /\ nic_ok words true s' /\ ee_addr (card s') = a) (ee_busy (card s1)));
    [done|lia|].
  intros k [] s2 (-> & Hok2 & Had2). wp_focus. apply (readcmd_wp words true); [done|]. intros s3 Hok3 Had3 Hbz3. wp_step.
  change (Z.shiftl 1 4) with 0x10. rewrite ee_done. destruct (Nat.eqb_spec (ee_busy (card s2)) 0) as [Hz|Hz].
  - wp_step. rewrite ee_value, Had2 by done. destruct Hok2 as (_ & _ & Hw2). rewrite Hw2.
    replace (words a .& 0xffff) with (words a); [by apply HQ|]. rewrite <-Hw2. change 0xffff with (Z.ones 16).
    rewrite Z.land_ones by lia. symmetry. apply Z.mod_small, ee_word_range.
  - exists (ee_busy (card s3)). rewrite Hbz3, Had3. split_and!; [lia|done|done|done].
Qed.

Lemma probe_wp words b s Q :
  nic_ok words b s -> (ee_max < 1000)%nat ->
  (forall s', nic_ok words b s' -> Q true s') -> wp e1000_probe_eeprom Q s.
Proof.
  intros Hok Hmax HQ. unfold e1000_probe_eeprom. wp_focus. change 0x1 with (1 .| Z.shiftl 0 8).
  apply (writecmd_wp words b); [done|lia|]. intros s1 Hok1 _. wp_focus.
  apply (wp_for (fun i s' => nic_ok words b s' /\ i + Z.of_nat (ee_busy (card s')) <= Z.of_nat ee_max)); [lia| | |].
  - split; [done|]. pose proof (ee_busy_max (card s1)). lia.
  - intros i s2 Hi [Hok2 Hbz]. wp_focus. apply (readcmd_wp words b); [done|]. intros s3 Hok3 _ Hbz3. wp_step.
    rewrite ee_done. destruct (Nat.eqb_spec (ee_busy (card s2)) 0); [wp_step; by apply HQ|]. split; [done|lia].
  - intros s2 [_ Hbz]. lia.
Qed.

(** On a card with memory-mapped registers whose EEPROM answers within [ee_max]
    (fewer than 1000) polls, initialisation finds the EEPROM, ends, and delivers the
    station address: the three first words of the EEPROM, low byte first. *)
Theorem e1000_start_correct fuel s :
  bartype s = BAR_MMIO -> (ee_max < 1000)%nat -> (ee_max < N.to_nat fuel)%nat ->
  let w := ee_word (card s) in
  exists s', e1000_start fuel s =
    Ok (Some [w 0 `mod` 256; w 0 `div` 256; w 1 `mod` 256; w 1 `div` 256; w 2 `mod` 256; w 2 `div` 256], s').
Proof.
  intros Hb Hmax Hf w.
  assert (wp (e1000_start fuel) (fun r _ => r =
    Some [w 0 `mod` 256; w 0 `div` 256; w 1 `mod` 256; w 1 `div` 256; w 2 `mod` 256; w 2 `div` 256]) s) as Hwp.
  { unfold e1000_start. wp_focus. apply (probe_wp w (eeprom_present s)); [done|done|]. intros s1 (Hb1 & _ & Hw1).
    wp_step. wp_step. unfold e1000_read_macaddr. wp_step. wp_step. cbn [eeprom_present set_eeprom].
    wp_focus. apply (eeprom_read_wp w); [done|lia|done|]. intros s2 Hok2.
    wp_focus. apply (eeprom_read_wp w); [done|lia|done|]. intros s3 Hok3.
    wp_focus. apply (eeprom_read_wp w); [done|lia|done|]. intros s4 Hok4. wp_step.
    assert (forall a, u8 (w a .& 0xff) = w a `mod` 256 /\ u8 (Z.shiftr (w a) 8) = w a `div` 256) as Hbytes.
    { intros a. pose proof (ee_word_range (card s) a) as Hr. fold w in Hr. change 0xff with (Z.ones 8). rewrite Z.land_ones by lia.
      unfold uN. rewrite Z.mod_mod, Z.shiftr_div_pow2 by lia. split; [done|]. apply Z.mod_small. dlia. }
    destruct (Hbytes 0) as [-> ->], (Hbytes 1) as [-> ->], (Hbytes 2) as [-> ->]. done. }
  destruct (wp_Ok _ _ _ Hwp) as (r & s' & Hr & ->). by exists s'.
Qed.
End proofs.

(** ** A card that answers every second poll *)

Record demo_card : Type := mk_card { dc_addr : Z; dc_busy : bool }.
Definition dc_word (a : Z) : Z := if a =? 0 then 0x5452 else if a =? 1 then 0x1200 else if a =? 2 then 0x5634 else 0.
Lemma dc_word_range a : 0 <= dc_word a < 2 ^ 16.
Proof. unfold dc_word. repeat case_match; lia. Qed.
#[export] Program Instance demo_Nic : Nic demo_card := {|
  nic_out w a v d := if a =? REG_EEPROM then mk_card (Z.shiftr v 8 .& 0xff) true else d;
  nic_in w a d :=
    if a =? REG_EEPROM
    then (uN (8 * Z.of_nat w) (if dc_busy d then 0 else Z.shiftl (dc_word (dc_addr d)) 16 .| 0x10), mk_card (dc_addr d) false)
    else (0, d);
|}.
Next Obligation.
  intros w a d. cbn beta. assert (0 < 2 ^ (8 * Z.of_nat w)) by (apply Z.pow_pos_nonneg; lia).
  destruct (a =? REG_EEPROM); cbn [fst]; [apply uN_range|]; lia.
Qed.

Lemma dc_ready a : 0 <= Z.shiftl (dc_word a) 16 .| 0x10 < 2 ^ 32.
Proof. pose proof (dc_word_range a). rewrite Z.shiftl_mul_pow2 by lia. apply lor_bounded; lia. Qed.
#[export] Program Instance demo_Eeprom : Eeprom demo_card := {|
  ee_word _ := dc_word; ee_addr := dc_addr; ee_busy d := if dc_busy d then 1%nat else 0%nat; ee_max := 1;
|}.
Next Obligation. intros d a. apply dc_word_range. Qed.
Next Obligation. intros d. cbn beta. destruct (dc_busy d); lia. Qed.
Next Obligation.
  intros d a Ha. cbn. split; [|done]. rewrite Z.shiftr_lor, Z.shiftr_shiftl_l by lia. change (Z.shiftr 1 8) with 0.
  rewrite Z.lor_0_l, Z.shiftl_0_r. change 0xff with (Z.ones 8). rewrite Z.land_ones by lia. apply Z.mod_small. lia.
Qed.
Next Obligation.
  intros d. cbn -[uN Z.land Z.lor]. destruct (dc_busy d); [done|]. rewrite uN_small by apply dc_ready.
  change 16 with (2 ^ 4). rewrite truth_land_pow2, Z.lor_spec by lia.
  by rewrite Z.pow2_bits_true, orb_true_r by lia.
Qed.
Next Obligation.
  intros d. cbn -[uN Z.land Z.lor]. destruct (dc_busy d); [done|]. intros _. rewrite uN_small by apply dc_ready.
  rewrite Z.shiftr_lor, Z.shiftr_shiftl_l by lia. change (Z.shiftr 0x10 16) with 0. by rewrite Z.lor_0_r, Z.shiftl_0_r.
Qed.
Next Obligation. intros d. cbn. by destruct (dc_busy d). Qed.

Lemma e1000_start_correct_witness :
  exists s', e1000_start 10 (mk_e1000 (mk_card 0 false) 0 false) = Ok (Some [0x52; 0x54; 0x00; 0x12; 0x34; 0x56], s').
Proof.
  destruct (e1000_start_correct 10 (mk_e1000 (mk_card 0 false) 0 false)) as [s' Hs];
    [reflexivity|cbn; lia|cbn; lia|]. exists s'. exact Hs.
Defined.
