(* ===== verification/Boot.v ===== *)
(** * Boot: what the boot loader hands over, and the mouse
      (src/arch/x86_64/hal.c, stivale2.h, src/drivers/input/mouse/ps2mouse.c)

    The boot loader's tags are a linked list in memory, read as bytes.  The memory map
    goes to the physical memory manager through the class [BootMem]. *)

From S2P Require Import Prelude Disk Pmm Alloc Kheap DList Paging Vfs Sched Ports Chips Video.

(** ** Tags (hal.c) *)

Definition STIVALE2_STRUCT_TAG_FRAMEBUFFER_ID : Z := 0x506461d2950408fa.
Definition STIVALE2_STRUCT_TAG_RSDP_ID : Z := 0x9e1786930a375e78.
Definition STIVALE2_STRUCT_TAG_MEMMAP_ID : Z := 0x2187f79e8612de07.
Definition STIVALE2_MMAP_USABLE : Z := 1.
Definition STIVALE2_MMAP_BOOTLOADER_RECLAIMABLE : Z := 0x1000.

Class BootMem (P : Type) : Type := {
  bm_release : Z -> Z -> M P ();
  bm_reserve : Z -> Z -> M P ();
}.
#[export] Instance pmm_BootMem : BootMem pmm := {| bm_release := pmm_release_m; bm_reserve := pmm_reserve_m |}.
#[export] Instance paging_BootMem : BootMem (pstate kheap) := {|
  bm_release a n := with_phys (pmm_release_m a n); bm_reserve a n := with_phys (pmm_reserve_m a n);
|}.

(** A little-endian field of [w] bytes. *)
Definition field (m : pmem) (w : nat) (a : Z) : Z := le_dec (mem_get m a (Z.of_nat w)).

(** [st2_mmap_ent_t] (24 bytes). *)
Record mmap_ent : Type := mk_ent { ent_base : Z; ent_length : Z; ent_type : Z }.
Definition ent_at (m : pmem) (tag i : Z) : mmap_ent :=
  let a := tag + 24 + 24 * i in mk_ent (field m 8 a) (field m 8 (a + 8)) (field m 4 (a + 16)).

(** What the tags set besides the memory manager: the video mode (with the kernel's
    address of the frame buffer) and the ACPI root pointer. *)
Record boot_found : Type := mk_found { fd_mode : option (vid_mode * Z); fd_rsdp : Z }.

Section tags.
Context {P : Type} `{BootMem P}.

Definition usable (e : mmap_ent) : bool :=
  (ent_type e =? STIVALE2_MMAP_USABLE) || (ent_type e =? STIVALE2_MMAP_BOOTLOADER_RECLAIMABLE).

(** The amount of memory described; usable regions are released to the allocator. *)
Definition boot_memmap (m : pmem) (tag : Z) : M P Z :=
  r ← for_acc (B := Empty_set) 0 (field m 8 (tag + 16)) (fun i memsz =>
    let e := ent_at m tag i in
    (if usable e then bm_release (ent_base e) (ent_length e `div` 4096) else mret ());;
    mret (inl (u64 (memsz + ent_length e)))) 0;
  match r with inl n => mret n | inr x => match x with end end.

Context `{VSpace P}.
(** [width], [height] and [depth] are 16-bit fields, multiplied as [int]. *)
Definition boot_fb (m : pmem) (tag : Z) : M P (vid_mode * Z) :=
  let addr := field m 8 (tag + 16) in
  let w := field m 2 (tag + 24) in
  let h := field m 2 (tag + 26) in
  let d := field m 2 (tag + 30) in
  let pagecnt := u32 (Z.quot (sN 32 (w * h * (d `div` 8))) 4096) in
  virtaddr ← vs_kernel_alloc pagecnt;
  vs_kernel_map virtaddr addr pagecnt;;
  mret (mk_mode w h d addr, virtaddr).

Definition boot_tag (m : pmem) (tag : Z) (f : boot_found) : M P boot_found :=
  let id := field m 8 tag in
  if id =? STIVALE2_STRUCT_TAG_FRAMEBUFFER_ID then v ← boot_fb m tag; mret (mk_found (Some v) (fd_rsdp f))
  else if id =? STIVALE2_STRUCT_TAG_RSDP_ID then mret (mk_found (fd_mode f) (field m 8 (tag + 16)))
  else if id =? STIVALE2_STRUCT_TAG_MEMMAP_ID then _ ← boot_memmap m tag; mret f
  else mret f.

(** [init_stivale2] from the tags to the reservation for the start-up code of the
    other processors. *)
Definition init_stivale2 (fuel : N) (m : pmem) (tags : Z) : M P boot_found :=
  r ← while_ fuel (fun '(tag, f) =>
    if tag =? 0 then mret (inr f)
    else f ← boot_tag m tag f; mret (inl (field m 8 (tag + 8), f))) (tags, mk_found None 0);
  bm_reserve 0 0x10;;
  mret r.
End tags.

(** ** The memory map *)

Definition region_of (e : mmap_ent) (k : Z) : bool :=
  usable e && (ent_base e `div` 4096 <=? k) && (k <? ent_base e `div` 4096 + ent_length e `div` 4096).
Definition entries (m : pmem) (tag n : Z) : list mmap_ent := ent_at m tag <$> seqZ 0 n.

(** What the memory manager promises here: the two operations set a range of the bitmap
    and leave everything else alone. *)
Class BootMemSpec (P : Type) `{BootMem P} : Type := {
  bm_pmm : P -> pmm;
  bm_upd : pmm -> P -> P;
  bm_pmm_upd p s : bm_pmm (bm_upd p s) = p;
  bm_upd_upd p p' s : bm_upd p (bm_upd p' s) = bm_upd p s;
  bm_upd_id s : bm_upd (bm_pmm s) s = s;
  bm_release_wp a n (Q : () -> P -> Prop) s : in_bitmap a n ->
    (forall p, sets_range (bm_pmm s) (a `div` PAGE_SIZE_4K) n false p -> Q () (bm_upd p s)) -> wp (bm_release a n) Q s;
  bm_reserve_wp a n (Q : () -> P -> Prop) s : in_bitmap a n ->
    (forall p, sets_range (bm_pmm s) (a `div` PAGE_SIZE_4K) n true p -> Q () (bm_upd p s)) -> wp (bm_reserve a n) Q s;
}.

#[export] Program Instance pmm_BootMemSpec : BootMemSpec pmm := {| bm_pmm s := s; bm_upd p _ := p |}.
Solve Obligations with done.
Next Obligation. intros. by apply pmm_release_m_wp. Qed.
Next Obligation. intros. by apply pmm_reserve_m_wp. Qed.

Lemma with_phys_wp {A} (c : M pmm A) (Q : A -> pstate kheap -> Prop) s :
  wp c (fun a p => Q a (upd_phys p s)) (phys s) -> wp (with_phys c) Q s.
Proof. unfold wp, with_phys. by destruct (c (phys s)) as [[a p]|]. Qed.

#[export] Program Instance paging_BootMemSpec : BootMemSpec (pstate kheap) := {| bm_pmm := phys; bm_upd := upd_phys |}.
Solve Obligations with (by intros; repeat match goal with s : pstate _ |- _ => destruct s end).
Next Obligation. intros. apply with_phys_wp. by apply pmm_release_m_wp. Qed.
Next Obligation. intros. apply with_phys_wp. by apply pmm_reserve_m_wp. Qed.

Lemma region_of_usable e k : usable e = true ->
  region_of e k = bool_decide (ent_base e `div` PAGE_SIZE_4K <= k < ent_base e `div` PAGE_SIZE_4K + ent_length e `div` 4096).
Proof.
  intros Hu. unfold region_of, PAGE_SIZE_4K. rewrite Hu. cbn [andb].
  destruct (Z.leb_spec (ent_base e `div` 4096) k), (Z.ltb_spec k (ent_base e `div` 4096 + ent_length e `div` 4096));
    case_bool_decide; (done || lia).
Qed.

Lemma boot_memmap_wp {P} `{BootMemSpec P} m tag s (Q : Z -> P -> Prop) :
  let n := field m 8 (tag + 16) in
  0 <= n -> Forall (fun e => usable e = true -> in_bitmap (ent_base e) (ent_length e `div` 4096)) (entries m tag n) ->
  (forall r p, bitmapsize p = bitmapsize (bm_pmm s) -> (pmm_wf (bm_pmm s) -> pmm_wf p) ->
     (forall k, 0 <= k -> used p k = used (bm_pmm s) k && negb (existsb (fun e => region_of e k) (entries m tag n))) ->
     Q r (bm_upd p s)) ->
  wp (boot_memmap m tag) Q s.
Proof.
  intros n Hn Hin HQ. unfold boot_memmap. wp_focus. fold n.
  apply (wp_for_acc (fun i _ s' => exists p, s' = bm_upd p s /\ bitmapsize p = bitmapsize (bm_pmm s) /\
    (pmm_wf (bm_pmm s) -> pmm_wf p) /\
    forall k, 0 <= k -> used p k = used (bm_pmm s) k && negb (existsb (fun e => region_of e k) (entries m tag i)))).
  - done.
  - exists (bm_pmm s). rewrite bm_upd_id. split_and!; try done. intros k _. cbn. by rewrite andb_true_r.
  - intros i a s1 Hi (p & -> & Hb1 & Hw1 & Hu1). set (e := ent_at m tag i).
    assert (entries m tag (i + 1) = entries m tag i ++ [e]) as Hsnoc.
    { unfold entries. rewrite seqZ_app, fmap_app by lia. by f_equal. }
    assert (e ∈ entries m tag n) as He.
    { unfold entries. apply list_elem_of_fmap. exists i. split; [done|]. apply elem_of_seqZ. lia. }
    rewrite Hsnoc. wp_focus. destruct (usable e) eqn:Hue.
    + apply bm_release_wp; [by apply (proj1 (Forall_forall _ _) Hin)|]. rewrite bm_pmm_upd.
      intros p2 (Hb2 & Hu2 & Hw2). wp_step. exists p2. rewrite bm_upd_upd. split_and!; [done|congruence|auto|].
      intros k Hk. rewrite Hu2, Hu1 by done. rewrite existsb_app. cbn [existsb].
      rewrite orb_false_r, (region_of_usable e k Hue). case_bool_decide; [by rewrite orb_true_r, andb_false_r|by rewrite orb_false_r].
    + wp_step. wp_step. exists p. split_and!; try done. intros k Hk. rewrite Hu1 by done. rewrite existsb_app. cbn [existsb].
      assert (region_of e k = false) as -> by (unfold region_of; by rewrite Hue). by rewrite !orb_false_r.
  - intros a s1 (p & -> & Hb1 & Hw1 & Hu1). wp_step. by apply HQ.
Qed.

(** The memory map of the boot loader: after it has been read and the first 64 KiB
    reserved, a page frame is in use exactly if it is one of those 16, or was in use
    before and lies in no usable region. *)
Theorem boot_memmap_correct m tag (s : pmm) :
  let n := field m 8 (tag + 16) in
  0 <= n -> Forall (fun e => usable e = true -> in_bitmap (ent_base e) (ent_length e `div` 4096)) (entries m tag n) ->
  exists s', (boot_memmap m tag;; bm_reserve 0 0x10) s = Ok ((), s') /\
    forall k, 0 <= k -> used s' k =
      (k <? 16) || (used s k && negb (existsb (fun e => region_of e k) (entries m tag n))).
Proof.
  intros n Hn Hin.
  assert (wp (boot_memmap m tag;; bm_reserve 0 0x10) (fun _ s' => forall k, 0 <= k -> used s' k =
    (k <? 16) || (used s k && negb (existsb (fun e => region_of e k) (entries m tag n)))) s) as Hwp.
  { wp_focus. apply boot_memmap_wp; [done|done|]. intros r s1 _ _ Hu1. apply pmm_reserve_m_wp; [vm_compute; split_and!; discriminate|].
    intros s2 (_ & Hu2 & _) k Hk. rewrite Hu2 by done. change (0 `div` PAGE_SIZE_4K) with 0.
    case_bool_decide; [by rewrite (proj2 (Z.ltb_lt _ _)) by lia|].
    rewrite (proj2 (Z.ltb_ge _ _)) by lia. by rewrite Hu1. }
  destruct (wp_Ok _ _ _ Hwp) as ([] & s' & ? & ?). by exists s'.
Qed.

(** A memory map with one usable region, the frames 32 to 35. *)
Definition demo_tags : pmem :=
  mem_put (fun _ => 0) 0x1000 (le_enc 8 STIVALE2_STRUCT_TAG_MEMMAP_ID ++ le_enc 8 0 ++ le_enc 8 2 ++
    le_enc 8 0x20000 ++ le_enc 8 0x4000 ++ le_enc 4 1 ++ le_enc 4 0 ++
    le_enc 8 0x30000 ++ le_enc 8 0x8000 ++ le_enc 4 2 ++ le_enc 4 0).
Lemma boot_memmap_correct_witness :
  exists s', (boot_memmap demo_tags 0x1000;; bm_reserve 0 0x10) (mk_pmm 16 {[4 := 0xff; 5 := 0xff]}) = Ok ((), s') /\
    used s' 5 = true /\ used s' 33 = false /\ used s' 36 = true.
Proof.
  destruct (boot_memmap_correct demo_tags 0x1000 (mk_pmm 16 {[4 := 0xff; 5 := 0xff]})) as (s' & Hs & Hu).
  - vm_compute. discriminate.
  - replace (entries demo_tags 0x1000 (field demo_tags 8 (0x1000 + 16))) with [mk_ent 0x20000 0x4000 1; mk_ent 0x30000 0x8000 2]
      by (vm_compute; reflexivity).
    repeat constructor; intros; try discriminate; vm_compute; split_and!; discriminate.
  - exists s'. split; [exact Hs|]. rewrite !Hu by lia. split_and!; vm_compute; reflexivity.
Defined.

(** ** Mouse initialisation (ps2mouse.c) *)

Section mouse.
Context {D : Type} `{Ports D}.

(** At most 100000 polls of the controller's status. *)
Definition mouse_poll (ready : Z -> bool) : M D () :=
  _ ← for_ 0 100000 (fun _ => v ← inb 0x64; mret (if ready v then Some () else None)); mret ().
Definition mouse_wait : M D () := mouse_poll (fun v => v .& 2 =? 0).
Definition mouse_wait_input : M D () := mouse_poll (fun v => v .& 1 =? 1).
Definition mouse_read : M D Z := mouse_wait_input;; inb 0x60.
Definition mouse_write (value : Z) : M D () :=
  mouse_wait;; outb 0x64 0xd4;; mouse_wait;; outb 0x60 value.

(** [mouse_init] up to the registration of the handler; the queue is emptied first. *)
Definition mouse_setup : M D () :=
  mouse_wait;;
  outb 0x64 0xa8;;
  outb 0x64 0xff;;
  mouse_wait;;
  outb 0x64 0x20;;
  mouse_wait_input;;
  v ← inb 0x60;
  let status := u8 ((v .& Z.lnot 0x20) .| 2) in
  mouse_wait;;
  outb 0x64 0x60;;
  mouse_wait;;
  outb 0x60 status;;
  mouse_write 0xf6;;
  _ ← mouse_read;
  mouse_write 0xf4;;
  _ ← mouse_read;
  mret ().

Lemma mouse_poll_wp ready (Q : () -> D -> Prop) d : (forall d', Q () d') -> wp (mouse_poll ready) Q d.
Proof.
  intros HQ. unfold mouse_poll. wp_focus. apply (wp_for (fun _ _ => True)); [lia|done| |].
  - intros i d1 _ _. wp_focus. unfold inb. apply port_read_wp. wp_step. by destruct (ready _); [wp_step; apply HQ|].
  - intros d1 _. wp_step. apply HQ.
Qed.
Lemma outb_wp p v (Q : () -> D -> Prop) d : (forall d', Q () d') -> wp (outb p v) Q d.
Proof. intros HQ. unfold outb. apply port_write_wp, HQ. Qed.
Lemma inb_wp p (Q : Z -> D -> Prop) d : (forall v d', Q v d') -> wp (inb p) Q d.
Proof. intros HQ. unfold inb. apply port_read_wp, HQ. Qed.
End mouse.

(** One access of a driver that depends on nothing it reads. *)
Ltac port_step :=
  lazymatch goal with
  | |- wp (bindM _ _) _ _ => apply wp_bind
  | |- wp (mouse_poll _) _ _ => apply mouse_poll_wp; intros ?
  | |- wp (outb _ _) _ _ => apply outb_wp; intros ?
  | |- wp (inb _) _ _ => apply inb_wp; intros ? ?
  | |- wp (mret _) _ _ => apply wp_ret
  end.

(** Initialising the mouse always ends: every wait gives up after 100000 polls,
    whatever the controller answers. *)
Theorem mouse_setup_terminates {D} `{Ports D} (d : D) : exists d', mouse_setup d = Ok ((), d').
Proof.
  assert (wp mouse_setup (fun _ _ => True) d) as Hwp.
  { unfold mouse_setup, mouse_write, mouse_read, mouse_wait, mouse_wait_input.
    repeat port_step. done. }
  destruct (wp_Ok _ _ _ Hwp) as ([] & d' & ? & _). by exists d'.
Qed.
