(* ===== verification/Bringup.v ===== *)
(** * Bringup: the memory of the kernel after start-up
      (the memory steps of src/arch/x86_64/hal.c; kheap_init of src/mem/kheap.c)

    [boot_memory] is the sequence init_core, the tags of the boot loader, init_extra as
    far as it concerns memory.  The theorems compose [Pmm], [Paging], [Kheap] and [Boot]:
    what the sequence leaves behind is the invariant [Spaces.space_inv] from which the
    loader, the page maps and the regions are proved correct. *)

From S2P Require Import Prelude Disk Pmm Alloc Kheap DList Paging Vfs Sched Elf Spaces Ports Chips Video Boot.

(** [init_core]: [pmm_init(512 * 1000000)], [paging_init()]; the boot loader's tags;
    [init_extra]: [kheap_init()]. *)
Definition init_core_mem (lay : layout) : M (pstate kheap) () :=
  with_phys (pmm_init (512 * 1000000));; paging_init lay.
Definition boot_memory (lay : layout) (fuel : N) (m : pmem) (tags : Z) : M (pstate kheap) boot_found :=
  init_core_mem lay;;
  f ← init_stivale2 (H0 := paging_VSpace lay) fuel m tags;
  kheap_init lay;;
  mret f.

Implicit Types s : pstate kheap.

(** ** Counting *)

Lemma many_range (P : Z -> Prop) a (n : nat) : (forall x, a <= x < a + Z.of_nat n -> P x) -> many P n.
Proof.
  intros HP. exists (seqZ a (Z.of_nat n)). split_and!; [apply NoDup_seqZ|rewrite length_seqZ; lia|].
  apply Forall_forall. intros x Hx%elem_of_seqZ. apply HP. lia.
Qed.

Lemma many_without P l n : many P (length l + n) -> many (fun x => P x /\ x ∉ l) n.
Proof.
  revert P. induction l as [|q l IH]; intros P Hm.
  - apply (many_mono _ _ _ Hm). intros x Hx. split; [done|]. by intros ?%not_elem_of_nil.
  - apply (many_take _ (fun x => P x /\ x <> q) q) in Hm; [|auto]. apply IH in Hm.
    apply (many_mono _ _ _ Hm). intros x [[Hx Hne] Hl]. split; [done|]. by rewrite not_elem_of_cons.
Qed.

Lemma many_less P n m : many P n -> (m <= n)%nat -> many P m.
Proof. intros Hm. induction 1; [done|]. by apply IHle, many_drop. Qed.

(** ** The heap's pages *)

(** [kheap_init] from [s]: the heap occupies the pages of the window from [q] on, which
    are backed by the frames [fs]. *)
Record heap_up (lay : layout) s (q : Z) (fs : list Z) s' : Prop := {
  hu_range : 0 <= q /\ q + KHEAP_PAGES <= WINDOW;
  hu_fresh : forall x, q <= x < q + KHEAP_PAGES -> taken s x = false;
  hu_len : Z.of_nat (length fs) = KHEAP_PAGES;
  hu_nodup : NoDup fs;
  hu_free : Forall (frame_left s) fs;
  hu_pmm : pmm_wf (phys s') /\ bitmapsize (phys s') = bitmapsize (phys s);
  hu_used : forall k, 0 <= k -> used (phys s') k = bool_decide (k ∈ fs) || used (phys s) k;
  hu_maps : forall i f, fs !! i = Some f -> ent (kheap_tables s') (q + Z.of_nat i) .& PAGE_FRAME = f * 4096;
  hu_taken : forall x, 0 <= x < WINDOW -> taken s' x = bool_decide (q <= x < q + KHEAP_PAGES) || taken s x;
  hu_kept : forall x, 0 <= x < WINDOW -> x < q \/ q + KHEAP_PAGES <= x ->
    ent (kheap_tables s') x = ent (kheap_tables s) x;
  hu_window : window_ok lay s';
  hu_heap : heap_start (lheap (lm s')) = window_addr q /\
    heap_end (lheap (lm s')) = u64 (window_addr (q + KHEAP_PAGES)) /\ heap_inv (lheap (lm s')) [] /\
    forall b, 0 <= b -> HB_SIZE + b < KHEAP_PAGES * 4096 -> ka_inv (H := kheap) (lheap (lm s')) [] b;
  hu_rest : nodes (lm s') = nodes (lm s) /\ lists (lm s') = lists (lm s) /\
    maps s' = maps s /\ tabs s' = tabs s /\ mregions s' = mregions s;
}.

(** The first [i] pages have their frames. *)
Record heap_part s s1 (q i : Z) (fs : list Z) (t : gmap Z Z) (ph : pmm) : Prop := {
  hp_len : Z.of_nat (length fs) = i;
  hp_nodup : NoDup fs;
  hp_free : Forall (frame_left s) fs;
  hp_pmm : pmm_wf ph /\ bitmapsize ph = bitmapsize (phys s);
  hp_used : forall k, 0 <= k -> used ph k = bool_decide (k ∈ fs) || used (phys s) k;
  hp_maps : forall j f, fs !! j = Some f ->
    Z.testbit (ent t (q + Z.of_nat j)) 0 = true /\ ent t (q + Z.of_nat j) .& PAGE_FRAME = f * 4096;
  hp_kept : forall x, x < q \/ q + i <= x -> ent t x = ent (kheap_tables s1) x;
}.

Lemma heap_part_step s s1 q i fs t ph p ph' e :
  0 <= i -> bitmapsize (phys s) <= BUFFER_SIZE ->
  heap_part s s1 q i fs t ph -> request_post ph p ph' -> (exists k, 0 <= k < bitmapsize (phys s) * 8 /\ used ph k = false) ->
  Z.testbit e 0 = true -> (0 <= p < 2 ^ 52 -> p `mod` 4096 = 0 -> e .& PAGE_FRAME = p) ->
  exists f, heap_part s s1 q (i + 1) (fs ++ [f]) (<[q + i := e]> t) ph'.
Proof.
  intros Hi Hbs [Hlen Hnd Hfree [Hwf Hsz] Hused Hmaps Hkept] Hreq (k0 & Hk0 & Hk0f) He Hf.
  destruct Hreq as [(k & Hk & -> & Hkf & _ & Hsz' & Hu' & Hwf')|(_ & _ & Hall)].
  2: { rewrite Hall in Hk0f by (rewrite Hsz; lia). done. }
  assert (k ∉ fs /\ used (phys s) k = false) as [Hnew Hks].
  { rewrite Hused in Hkf by lia. apply orb_false_iff in Hkf as [Hn ?]. split; [|done]. by apply bool_decide_eq_false in Hn. }
  unfold PAGE_SIZE_4K in *. unfold BUFFER_SIZE in Hbs. rewrite Hsz in Hk.
  exists k. split.
  - rewrite length_app. simpl. lia.
  - apply NoDup_app. split_and!; [done| |apply NoDup_singleton]. intros x Hx ->%list_elem_of_singleton. done.
  - apply Forall_app. split; [done|]. by apply Forall_singleton.
  - split; [by apply Hwf'|congruence].
  - intros j Hj. rewrite Hu' by done. destruct (Z.eqb_spec j k) as [->|Hne].
    + rewrite bool_decide_true; [done|]. apply elem_of_app. right. by apply list_elem_of_singleton.
    + rewrite Hused by done. f_equal. apply bool_decide_ext. rewrite elem_of_app, list_elem_of_singleton. naive_solver.
  - intros j f Hj. rewrite ent_insert. destruct (decide (j < length fs)%nat).
    + rewrite lookup_app_l in Hj by done. rewrite decide_False by lia. by apply Hmaps.
    + rewrite lookup_app_r in Hj by lia. destruct (j - length fs)%nat as [|?] eqn:E; [|done].
      injection Hj as <-. rewrite decide_True by lia. split; [done|]. apply Hf; [lia|]. apply Z.mod_mul. lia.
  - intros x Hx. rewrite ent_insert, decide_False by lia. apply Hkept. lia.
Qed.

Lemma kheap_init_wp lay s n :
  window_ok lay s -> pmm_wf (phys s) -> window_room s KHEAP_PAGES -> kheap_lock (lheap (lm s)) = 0 ->
  many (frame_left s) n -> KHEAP_PAGES <= Z.of_nat n ->
  wp (kheap_init lay) (fun _ s' => exists q fs, heap_up lay s q fs s') s.
Proof.
  intros Hw Hp Hroom Hlock Hmany Hn. unfold kheap_init. wp_focus.
  apply page_kernel_alloc4k_wp; [unfold KHEAP_PAGES, WINDOW; lia|done|done|].
  intros addr s1 (q & -> & Hq & Hqw & Hfree & Hm). unfold KHEAP_PAGES in *.
  pose proof (marked_window_ok _ _ _ _ _ Hw Hm) as Hw1.
  destruct (mk_rest _ _ _ _ _ Hm) as (d & t1 & Hs1).
  assert (phys s1 = phys s) as Hph by (by subst s1).
  wp_focus. apply (wp_for_each (fun i s' => exists fs t ph, s' = upd_phys ph (upd_tables (fun _ => t) s1) /\
    heap_part s s1 q i fs t ph)); [lia| | |].
  - exists [], (kheap_tables s1), (phys s1). split; [by destruct s1|].
    split; try done; [by apply NoDup_nil|by rewrite Hph|by rewrite Hph].
  - intros i s2 Hi (fs & t & ph & -> & Hpart). wp_focus. unfold wp at 1, with_phys. cbn [phys upd_phys upd_tables].
    destruct (wp_Ok _ _ _ (pmm_request_wp (fun p ph' => request_post ph p ph') _ (proj1 (hp_pmm _ _ _ _ _ _ _ Hpart)) ltac:(done)))
      as (p & ph' & -> & Hreq).
    assert (u64 (window_addr q + u32 (i * 4096)) = window_addr (q + i)) as ->.
    { rewrite (uN_small 32), uN_small; unfold window_addr, WINDOW in *; lia. }
    apply page_kernel_map1_wp; [lia|]. intros e He Hf.
    destruct (heap_part_step s s1 q i fs t ph p ph' e) as (f & Hpart'); try done; [lia|apply Hp| |].
    + pose proof (hp_len _ _ _ _ _ _ _ Hpart) as Hl.
      assert (many (fun x => frame_left s x /\ x ∉ fs) (n - length fs)) as Hm'.
      { apply many_without. by replace (length fs + (n - length fs))%nat with n by lia. }
      replace (n - length fs)%nat with (S (n - length fs - 1)) in Hm' by lia.
      apply many_some in Hm' as (k & [Hk Hku] & Hkn). exists k. split; [done|].
      rewrite (hp_used _ _ _ _ _ _ _ Hpart) by lia. rewrite bool_decide_false by done. by rewrite Hku.
    + exists (fs ++ [f]), (<[q + i := e]> t), ph'. split; [done|exact Hpart'].
  - intros s2 (fs & t & ph & -> & [Hlen Hnd Hfr Hpm Hus Hmp Hkp]). cbv zeta. apply wp_modify. exists q, fs.
    unfold upd_heap, upd_lm. cbn [lm lheap upd_phys upd_tables]. rewrite Hs1. cbn [lm lheap upd_dir upd_tables].
    assert (forall x, Z.testbit (ent t x) 0 = bool_decide (q <= x < q + 10000) || taken s1 x) as Htk.
    { intros x. case_bool_decide as Hx.
      - destruct (lookup_lt_is_Some_2 fs (Z.to_nat (x - q)) ltac:(lia)) as [f Hf].
        destruct (Hmp _ _ Hf) as [Hb _]. replace (q + Z.of_nat (Z.to_nat (x - q))) with x in Hb by lia. done.
      - rewrite Hkp by lia. done. }
    assert (window_addr q + 10000 * 4096 = window_addr (q + 10000)) as Hend by (unfold window_addr; lia).
    split; cbn [phys kheap_tables kheapdir lm lheap maps tabs mregions heap_start heap_end nodes lists]; try done.
    + intros i f Hi. by apply Hmp.
    + intros x Hx. unfold taken at 1. cbn [kheap_tables]. rewrite Htk, (mk_taken _ _ _ _ _ Hm) by done. unfold KHEAP_PAGES. by destruct (bool_decide _).
    + intros x Hx Hout. rewrite Hkp by done. by apply (mk_kept _ _ _ _ _ Hm).
    + split; cbn [kheapdir]; [|by subst s1; apply (wo_4k _ _ Hw1)|by subst s1; apply (wo_frame _ _ Hw1)]. intros x Hx He.
      assert (entered s1 (x `div` 512) = false) as He1 by (by subst s1).
      unfold taken at 1. cbn [kheap_tables]. rewrite Htk, (wo_free _ _ Hw1 x Hx He1), orb_false_r. apply bool_decide_eq_false. intros Hin.
      rewrite (mk_in _ _ _ _ _ Hm) in He1 by done. done.
    + assert (heap_rep (mk_kheap (window_addr q) (u64 (window_addr q + 10000 * 4096)) (window_addr q) (kheap_lock (lheap (lm s)))
        (<[window_addr q := mk_block 0 true 0 0]> (blocks (lheap (lm s)))) (hmem (lheap (lm s)))) [(0, true)]) as Hrep.
      { split; simpl; try done; unfold window_addr, HB_SIZE, WINDOW in *; try lia; [by rewrite lookup_insert_eq|by repeat constructor]. }
      split_and!; [done|by rewrite Hend|..].
      * exists [(0, true)]. split_and!; [done|done|by repeat constructor| |done]. unfold window_addr. simpl. dlia.
      * intros b Hb0 Hb. exists [(0, true)]. split_and!; [done|done| |done].
        unfold Kheap.room. cbn [endaddr heap_start fst]. unfold window_addr, HB_SIZE, WINDOW, KHEAP_PAGES in *. lia.
Qed.

(** ** The boot loader's tags *)

(** The tags form the list [l] in memory. *)
Fixpoint tag_chain (m : pmem) (a : Z) (l : list Z) : Prop :=
  match l with
  | [] => a = 0
  | t :: l' => a = t /\ t <> 0 /\ tag_chain m (field m 8 (t + 8)) l'
  end.

Definition is_fb (m : pmem) (t : Z) : bool := field m 8 t =? STIVALE2_STRUCT_TAG_FRAMEBUFFER_ID.
Definition is_memmap (m : pmem) (t : Z) : bool := field m 8 t =? STIVALE2_STRUCT_TAG_MEMMAP_ID.

Definition is_rsdp (m : pmem) (t : Z) : bool := field m 8 t =? STIVALE2_STRUCT_TAG_RSDP_ID.
(** The ACPI root pointer the tags give, the last one if there are several. *)
Definition rsdp_of (m : pmem) (l : list Z) : Z := fold_left (fun r t => if is_rsdp m t then field m 8 (t + 16) else r) l 0.

Definition fb_pages (m : pmem) (tag : Z) : Z :=
  u32 (Z.quot (sN 32 (field m 2 (tag + 24) * field m 2 (tag + 26) * (field m 2 (tag + 30) `div` 8))) 4096).

(** The largest frame buffer the kernel window can hold beside the heap, 900 MiB. *)
Definition FB_MAX : Z := 230400.

(** What the kernel relies on: usable regions lie in the bitmap, a frame buffer has a page
    at least and fits the window. *)
Definition tag_ok (m : pmem) (t : Z) : Prop :=
  (is_memmap m t = true -> 0 <= field m 8 (t + 16) /\
     Forall (fun e => usable e = true -> in_bitmap (ent_base e) (ent_length e `div` 4096))
       (entries m t (field m 8 (t + 16)))) /\
  (is_fb m t = true -> 1 <= fb_pages m t <= FB_MAX).

(** Frame [k] lies in a usable region of the map in tag [t]. *)
Definition in_memmap (m : pmem) (k t : Z) : bool :=
  is_memmap m t && existsb (fun e => region_of e k) (entries m t (field m 8 (t + 16))).

(** The pages of the window that are taken are those from [q] to [q + n], and the tables
    beyond them are not entered. *)
Definition window_run s (q n : Z) : Prop :=
  (forall x, 0 <= x < WINDOW -> taken s x = bool_decide (q <= x < q + n)) /\
  (forall i, entered s i = true -> exists x, q <= x <= q + n /\ i = x `div` 512).

(** The frame buffer of a tag is mapped. *)
Definition fb_mapped s (m : pmem) (t : Z) (f : boot_found) : Prop :=
  exists q, 0 <= q /\ q + fb_pages m t <= WINDOW /\ window_run s q (fb_pages m t) /\
    option_map snd (fd_mode f) = Some (window_addr q) /\
    let a := field m 8 (t + 16) in
    (a + fb_pages m t * 4096 <= 2 ^ 52 -> a `mod` 4096 = 0 ->
     forall i, 0 <= i < fb_pages m t -> ent (kheap_tables s) (q + i) .& PAGE_FRAME = a + i * 4096).

(** After the tags [done]. *)
Record tags_inv (lay : layout) (m : pmem) (s0 : pstate kheap) (done : list Z) s (f : boot_found) : Prop := {
  ti_window : window_ok lay s;
  ti_pmm : pmm_wf (phys s) /\ bitmapsize (phys s) = bitmapsize (phys s0);
  ti_used : forall k, 0 <= k -> used (phys s) k = used (phys s0) k && negb (existsb (in_memmap m k) done);
  ti_fb : match filter (fun t => is_fb m t = true) done with
          | [] => (forall i, entered s i = false) /\ (forall x, 0 <= x < WINDOW -> taken s x = false)
          | t :: _ => fb_mapped s m t f
          end;
  ti_rest : lm s = lm s0 /\ maps s = maps s0 /\ tabs s = tabs s0 /\ mregions s = mregions s0;
  ti_rsdp : fd_rsdp f = rsdp_of m done;
}.

Lemma boot_fb_wp lay m t s (Q : vid_mode * Z -> pstate kheap -> Prop) :
  window_ok lay s -> (forall i, entered s i = false) -> (forall x, 0 <= x < WINDOW -> taken s x = false) ->
  1 <= fb_pages m t <= FB_MAX -> 0 <= field m 8 (t + 16) ->
  (forall v s' r, window_ok lay s' -> fb_mapped s' m t (mk_found (Some v) r) ->
     (exists d tb, s' = upd_dir (fun _ => d) (upd_tables (fun _ => tb) s)) -> Q v s') ->
  wp (boot_fb (H0 := paging_VSpace lay) m t) Q s.
Proof.
  intros Hw He Ht Hn Ha HQ. unfold boot_fb. fold (fb_pages m t). cbn [vs_kernel_alloc vs_kernel_map paging_VSpace].
  unfold FB_MAX in Hn. wp_focus. apply page_kernel_alloc4k_wp; [unfold WINDOW; lia|done| |].
  { exists 0, 512. split; [|lia]. split_and!; [lia..|]. intros; apply He. }
  intros addr s1 (q & -> & Hq & Hqn & _ & Hm). wp_focus.
  apply page_kernel_map_run_wp; [lia|lia|lia|]. intros tb Hrun. wp_step.
  destruct (mk_rest _ _ _ _ _ Hm) as (d & t1 & ->). pose proof (marked_window_ok _ _ _ _ _ Hw Hm) as Hw1.
  assert (forall x, 0 <= x < WINDOW -> Z.testbit (ent tb x) 0 = bool_decide (q <= x < q + fb_pages m t)) as Htk.
  { intros x Hx. specialize (Hrun x). case_bool_decide as Hin; [rewrite decide_True in Hrun by done; by destruct Hrun|].
    rewrite decide_False in Hrun by done. rewrite Hrun. fold (taken (upd_dir (fun _ => d) (upd_tables (fun _ => t1) s)) x).
    rewrite (mk_taken _ _ _ _ _ Hm), Ht, bool_decide_false by done. done. }
  apply (HQ _ _ 0).
  - split; [|exact (wo_4k _ _ Hw1)|exact (wo_frame _ _ Hw1)]. intros x Hx Hex. unfold taken. cbn [kheap_tables upd_tables]. rewrite Htk by done.
    apply bool_decide_eq_false. intros Hin. pose proof (mk_in _ _ _ _ _ Hm x Hin) as Hin'.
    unfold entered in Hex, Hin'. cbn [kheapdir upd_dir upd_tables] in Hex, Hin'. congruence.
  - exists q. split_and!; [done|done|split; [done|]|done|].
    + intros i Hi. destruct (mk_only _ _ _ _ _ Hm i Hi) as [Hc|?]; [by rewrite He in Hc|done].
    + cbv zeta. intros Hlim Hal i Hi. specialize (Hrun (q + i)). rewrite decide_True in Hrun by lia.
      destruct Hrun as [_ Hrun]. cbn [kheap_tables upd_tables]. rewrite Hrun by (done || lia). lia.
  - by exists d, tb.
Qed.

(** The ids of the three tags differ. *)
Lemma tag_ids m t :
  (is_fb m t = true -> is_memmap m t = false /\ is_rsdp m t = false) /\ (is_memmap m t = true -> is_rsdp m t = false).
Proof.
  unfold is_fb, is_memmap, is_rsdp. split.
  - destruct (Z.eqb_spec (field m 8 t) STIVALE2_STRUCT_TAG_FRAMEBUFFER_ID) as [->|]; done.
  - destruct (Z.eqb_spec (field m 8 t) STIVALE2_STRUCT_TAG_MEMMAP_ID) as [->|]; done.
Qed.

Lemma rsdp_of_snoc m l t : rsdp_of m (l ++ [t]) = if is_rsdp m t then field m 8 (t + 16) else rsdp_of m l.
Proof. unfold rsdp_of. by rewrite fold_left_app. Qed.

Lemma tags_inv_skip lay m s0 done s f t f' :
  is_fb m t = false -> is_memmap m t = false -> fd_mode f' = fd_mode f ->
  fd_rsdp f' = (if is_rsdp m t then field m 8 (t + 16) else fd_rsdp f) ->
  tags_inv lay m s0 done s f -> tags_inv lay m s0 (done ++ [t]) s f'.
Proof.
  intros Hf Hm Hmode Hrs [Hw Hp Hu Hfb Hr Hrsdp]. split; try done; [| |by rewrite rsdp_of_snoc, <- Hrsdp].
  - intros k Hk. rewrite existsb_app. cbn [existsb]. unfold in_memmap at 2. rewrite Hm, Hu by done. cbn. by rewrite orb_false_r.
  - rewrite filter_app, filter_cons_False, filter_nil, app_nil_r by congruence.
    destruct (filter _ done); [done|]. unfold fb_mapped in *. by rewrite Hmode.
Qed.

(** Memory fields are bytes, so the fields of a tag are not negative. *)
Lemma field_nonneg m w a : (forall x, 0 <= m x < 256) -> 0 <= field m w a.
Proof.
  intros Hm. unfold field. apply le_dec_range. unfold mem_get. apply Forall_fmap, Forall_true. intros x. apply Hm.
Qed.

Lemma boot_tag_wp lay m s0 done t s f :
  (forall x, 0 <= m x < 256) -> tag_ok m t ->
  (is_fb m t = true -> filter (fun t => is_fb m t = true) done = []) ->
  tags_inv lay m s0 done s f ->
  wp (boot_tag (H0 := paging_VSpace lay) m t f) (fun f' s' => tags_inv lay m s0 (done ++ [t]) s' f') s.
Proof.
  intros Hby [Hmm Hfb] Hone Hinv. unfold boot_tag. fold (is_fb m t) (is_memmap m t).
  destruct (is_fb m t) eqn:Efb.
  { destruct Hinv as [Hw Hp Hu Hnone Hr Hrsdp]. destruct (proj1 (tag_ids m t) Efb) as [Enm Enr]. rewrite Hone in Hnone by done. destruct Hnone as [He Ht]. wp_focus.
    apply boot_fb_wp; [done|done|done|by apply Hfb|by apply field_nonneg|].
    intros v s' r Hw' Hmap (d & tb & ->). wp_step. split; try done.
    - intros k Hk. rewrite existsb_app. cbn [existsb phys upd_dir upd_tables]. unfold in_memmap at 2.
      rewrite Enm, Hu by done. cbn. by rewrite orb_false_r.
    - rewrite filter_app, Hone, app_nil_l, filter_cons_True by done. exact Hmap.
    - by rewrite rsdp_of_snoc, Enr. }
  destruct (Z.eqb_spec (field m 8 t) STIVALE2_STRUCT_TAG_RSDP_ID) as [Er|Enr].
  { wp_step. apply (tags_inv_skip lay m s0 done s f); [done|unfold is_memmap; by rewrite Er|done|unfold is_rsdp; by rewrite Er|done]. }
  destruct (is_memmap m t) eqn:Em.
  2:{ wp_step. apply (tags_inv_skip lay m s0 done s f); try done. unfold is_rsdp. by rewrite (proj2 (Z.eqb_neq _ _) Enr). }
  destruct Hinv as [Hw Hp Hu Hnone Hr Hrsdp]. destruct (Hmm eq_refl) as [Hn Hents]. wp_focus.
  apply (boot_memmap_wp (P := pstate kheap)); [done|done|]. cbn [bm_pmm bm_upd paging_BootMemSpec].
  intros r p Hb Hwf Hused. wp_step. split; cbn [phys upd_phys lm maps tabs mregions]; try done.
  - destruct Hw. by split.
  - split; [by apply Hwf, Hp|rewrite Hb; apply Hp].
  - intros k Hk. rewrite existsb_app. cbn [existsb]. unfold in_memmap at 2. rewrite Em, Hused, Hu by done. cbn [andb].
    rewrite orb_false_r, negb_orb. by rewrite andb_assoc.
  - rewrite filter_app, filter_cons_False, filter_nil, app_nil_r by congruence. by destruct (filter _ done).
  - by rewrite rsdp_of_snoc, (proj2 (tag_ids m t) Em).
Qed.

(** All tags, at most one of them a frame buffer. *)
Lemma init_stivale2_wp lay fuel m tags l s :
  (forall x, 0 <= m x < 256) -> tag_chain m tags l -> Forall (tag_ok m) l ->
  (length (filter (fun t => is_fb m t = true) l) <= 1)%nat -> (length l < N.to_nat fuel)%nat ->
  bitmapsize (phys s) = BUFFER_SIZE -> tags_inv lay m s [] s (mk_found None 0) ->
  wp (init_stivale2 (H0 := paging_VSpace lay) fuel m tags) (fun f s' => exists s1 p,
    tags_inv lay m s l s1 f /\ sets_range (phys s1) 0 16 true p /\ s' = upd_phys p s1) s.
Proof.
  intros Hby Hch Hok Hone Hfuel Hbs Hinv. unfold init_stivale2. wp_focus.
  apply (wp_while (fun k '(a, f) s' => exists done todo, l = done ++ todo /\ k = length todo /\ tag_chain m a todo /\
           tags_inv lay m s done s' f) (length l)).
  - by exists [], l.
  - done.
  - intros k [a f] s1 (dn & todo & -> & -> & Hc & Hi). destruct todo as [|t todo]; simpl in Hc.
    + subst a. rewrite Z.eqb_refl. wp_step. rewrite app_nil_r. wp_focus.
      apply (bm_reserve_wp (P := pstate kheap)); [vm_compute; split_and!; discriminate|].
      cbn [bm_pmm bm_upd paging_BootMemSpec]. intros p Hp. wp_step. by exists s1, p.
    + destruct Hc as (-> & Hnz & Hc). rewrite (proj2 (Z.eqb_neq _ _) Hnz). wp_focus.
      apply Forall_app in Hok as [_ [Ht _]%Forall_cons].
      eapply wp_mono; [apply boot_tag_wp; [done|exact Ht| |exact Hi]|].
      * intros Hfb. rewrite filter_app, filter_cons_True, length_app in Hone by done. simpl in Hone.
        apply nil_length_inv. lia.
      * intros f' s2 Hi'. wp_step. exists (length todo). split; [simpl; lia|].
        exists (dn ++ [t]), todo. rewrite <- app_assoc. split_and!; done.
Qed.

(** ** Start-up as a whole *)

(** The zeroed data section the kernel starts with. *)
Record bss s : Prop := {
  bss_dir : kheapdir s = ∅;
  bss_maps : maps s = ∅ /\ tabs s = ∅ /\ mregions s = ∅;
  bss_lists : nodes (lm s) = ∅ /\ lists (lm s) = ∅;
  bss_lock : kheap_lock (lheap (lm s)) = 0;
}.

Definition fb_total (m : pmem) (l : list Z) : Z :=
  match filter (fun t => is_fb m t = true) l with [] => 0 | t :: _ => fb_pages m t end.

(** A frame that is in use when the heap is made: the first 16, and below frame 262244
    those in no usable region. *)
Definition boot_used (m : pmem) (l : list Z) (k : Z) : bool :=
  (k <? 16) || ((k <? 262244) && negb (existsb (in_memmap m k) l)).

Lemma init_core_mem_wp lay m s :
  bss s -> wp (init_core_mem lay) (fun _ s' => tags_inv lay m s' [] s' (mk_found None 0) /\ bss s' /\
    bitmapsize (phys s') = BUFFER_SIZE /\ forall k, 0 <= k -> used (phys s') k = bool_decide (k < 262244)) s.
Proof.
  intros [Hd Hm Hl Hk]. unfold init_core_mem. wp_focus. apply with_phys_wp.
  eapply wp_mono; [apply pmm_init_reserves|]. intros [] p (Hwf & Hbs & Hu). unfold paging_init. wp_step.
  split_and!; try done. split; cbn [phys kheapdir kheap_tables lm maps tabs mregions upd_phys]; try done.
  - split; cbn [kheapdir kheap_tables upd_phys].
    + intros x Hx _. unfold taken. cbn [kheap_tables]. rewrite ent_empty. apply Z.bits_0.
    + intros i. rewrite Hd, ent_empty. apply Z.bits_0.
    + intros i Hi. unfold entered in Hi. cbn [kheapdir upd_phys] in Hi. by rewrite Hd, ent_empty in Hi.
  - intros k Hk0. by rewrite andb_true_r.
  - split.
    + intros i. unfold entered. cbn [kheapdir upd_phys]. by rewrite Hd, ent_empty.
    + intros x Hx. unfold taken. cbn [kheap_tables]. by rewrite ent_empty.
Qed.

(** The run of taken pages after the tags. *)
Lemma tags_run lay m s0 l s f :
  Forall (tag_ok m) l -> tags_inv lay m s0 l s f -> exists q, 0 <= fb_total m l <= FB_MAX /\ window_run s q (fb_total m l).
Proof.
  intros Hok Hinv. pose proof (ti_fb _ _ _ _ _ _ Hinv) as Hfb. unfold fb_total.
  destruct (filter _ l) as [|t l'] eqn:E.
  - destruct Hfb as [He Ht]. exists 0. split; [unfold FB_MAX; lia|]. split.
    + intros x Hx. rewrite Ht by done. symmetry. apply bool_decide_eq_false. lia.
    + intros i Hi. by rewrite He in Hi.
  - assert (t ∈ filter (fun t => is_fb m t = true) l) as Hin by (rewrite E; by left).
    apply list_elem_of_filter in Hin as [Hb Hin]. rewrite Forall_forall in Hok.
    destruct (Hok t Hin) as [_ Hp]. specialize (Hp Hb). destruct Hfb as (q & _ & _ & Hrun & _).
    exists q. split; [lia|done].
Qed.

Lemma window_run_room s q n : 0 <= n <= FB_MAX -> window_run s q n -> window_room s KHEAP_PAGES.
Proof.
  intros Hn [_ He]. unfold FB_MAX, KHEAP_PAGES in *.
  assert (forall i, i < q `div` 512 \/ (q + n) `div` 512 < i -> entered s i = false) as Hout.
  { intros i Hi. destruct (entered s i) eqn:E; [|done]. destruct (He i E) as (x & Hx & ->). exfalso.
    assert (q `div` 512 <= x `div` 512 <= (q + n) `div` 512) by (split; apply Z.div_le_mono; lia). lia. }
  destruct (decide (20 <= q `div` 512)).
  - exists 0, 20. split; [|lia]. split_and!; [lia..|]. intros i Hi. apply Hout. lia.
  - exists (Z.max 0 ((q + n) `div` 512 + 1)), 20. split; [|dlia]. split_and!; [lia..|]. intros i Hi. apply Hout. lia.
Qed.

(** What holds when the heap is made: only the frame buffer is in the window, the frames
    in use are those of [boot_used], and there are no page maps, regions and lists. *)
Record before_heap (lay : layout) (m : pmem) (l : list Z) s (f : boot_found) : Prop := {
  bh_fb : match filter (fun t => is_fb m t = true) l with [] => True | t :: _ => fb_mapped s m t f end;
  bh_run : exists q, 0 <= fb_total m l <= FB_MAX /\ window_run s q (fb_total m l);
  bh_window : window_ok lay s;
  bh_pmm : pmm_wf (phys s) /\ bitmapsize (phys s) = BUFFER_SIZE;
  bh_used : forall k, 0 <= k -> used (phys s) k = boot_used m l k;
  bh_maps : maps s = ∅ /\ tabs s = ∅ /\ mregions s = ∅;
  bh_lists : nodes (lm s) = ∅ /\ lists (lm s) = ∅;
  bh_lock : kheap_lock (lheap (lm s)) = 0;
  bh_rsdp : fd_rsdp f = rsdp_of m l;
}.

(** All frames from 262244 on are free then, whatever the memory map says. *)
Lemma before_heap_frames lay m l s f : before_heap lay m l s f ->
  forall k, 262244 <= k < BUFFER_SIZE * 8 -> frame_left s k.
Proof.
  intros Hb k Hk. destruct (bh_pmm _ _ _ _ _ Hb) as [_ Hsz]. split; [rewrite Hsz; lia|].
  rewrite (bh_used _ _ _ _ _ Hb) by lia. unfold boot_used.
  by rewrite (proj2 (Z.ltb_ge k 16)), (proj2 (Z.ltb_ge k 262244)) by lia.
Qed.

Lemma before_heap_many lay m l s f : before_heap lay m l s f ->
  exists n, many (frame_left s) n /\ WINDOW + KHEAP_PAGES <= Z.of_nat n.
Proof.
  intros Hb. exists (Z.to_nat (BUFFER_SIZE * 8 - 262244)). split; [|unfold WINDOW, KHEAP_PAGES, BUFFER_SIZE; lia].
  apply (many_range _ 262244). intros k Hk. eapply before_heap_frames; [exact Hb|]. unfold BUFFER_SIZE in *. lia.
Qed.

Lemma before_heap_intro lay m l s0 s f p :
  bss s0 -> Forall (tag_ok m) l -> bitmapsize (phys s0) = BUFFER_SIZE ->
  (forall k, 0 <= k -> used (phys s0) k = bool_decide (k < 262244)) ->
  tags_inv lay m s0 l s f -> sets_range (phys s) 0 16 true p -> before_heap lay m l (upd_phys p s) f.
Proof.
  intros [_ Hm0 Hl0 Hk0] Hok Hbs0 Hu0 Hinv (Hbs & Hu & Hwf).
  destruct (ti_rest _ _ _ _ _ _ Hinv) as (Elm & Em & Et & Er). destruct (ti_pmm _ _ _ _ _ _ Hinv) as [Hwf1 Hbs1].
  split; cbn [phys lm maps tabs mregions upd_phys]; rewrite ?Elm, ?Em, ?Et, ?Er; try done.
  - pose proof (ti_fb _ _ _ _ _ _ Hinv) as Hfb. by destruct (filter _ l).
  - exact (tags_run _ _ _ _ _ _ Hok Hinv).
  - destruct (ti_window _ _ _ _ _ _ Hinv). by split.
  - split; [auto|congruence].
  - intros k Hk. rewrite Hu by done. unfold boot_used.
    destruct (Z.ltb_spec k 16); [by rewrite bool_decide_true by lia|]. rewrite bool_decide_false by lia.
    rewrite (ti_used _ _ _ _ _ _ Hinv), Hu0 by done. cbn [orb]. f_equal.
    destruct (Z.ltb_spec k 262244); [apply bool_decide_eq_true|apply bool_decide_eq_false]; lia.
  - exact (ti_rsdp _ _ _ _ _ _ Hinv).
Qed.

(** From the tags to the heap. *)
Lemma boot_tags_wp lay fuel m tags l s0 :
  bss s0 -> (forall x, 0 <= m x < 256) -> tag_chain m tags l -> Forall (tag_ok m) l ->
  (length (filter (fun t => is_fb m t = true) l) <= 1)%nat -> (length l < N.to_nat fuel)%nat ->
  tags_inv lay m s0 [] s0 (mk_found None 0) -> bitmapsize (phys s0) = BUFFER_SIZE ->
  (forall k, 0 <= k -> used (phys s0) k = bool_decide (k < 262244)) ->
  wp (init_stivale2 (H0 := paging_VSpace lay) fuel m tags) (fun f s' => before_heap lay m l s' f) s0.
Proof.
  intros Hbss0 Hby Hch Hok Hone Hfuel Hinv0 Hbs0 Hu0. eapply wp_mono; [by apply (init_stivale2_wp lay fuel m tags l s0)|].
  intros f s1 (s1' & p & Hinv & Hp & ->). exact (before_heap_intro _ _ _ _ _ _ _ Hbss0 Hok Hbs0 Hu0 Hinv Hp).
Qed.

Lemma boot_heap_wp lay m l s f :
  before_heap lay m l s f -> wp (kheap_init lay) (fun _ s' => exists q fs, heap_up lay s q fs s') s.
Proof.
  intros Hb. destruct (bh_run _ _ _ _ _ Hb) as (qf & Hn & Hrun). destruct (before_heap_many _ _ _ _ _ Hb) as (n & Hmany & Hnlen).
  eapply wp_mono; [apply (kheap_init_wp lay _ n)|].
  - apply (bh_window _ _ _ _ _ Hb).
  - apply (bh_pmm _ _ _ _ _ Hb).
  - by eapply window_run_room.
  - apply (bh_lock _ _ _ _ _ Hb).
  - done.
  - unfold KHEAP_PAGES, WINDOW in *. lia.
  - done.
Qed.

Lemma boot_memory_wp lay fuel m tags l s :
  bss s -> (forall x, 0 <= m x < 256) -> tag_chain m tags l -> Forall (tag_ok m) l ->
  (length (filter (fun t => is_fb m t = true) l) <= 1)%nat -> (length l < N.to_nat fuel)%nat ->
  wp (boot_memory lay fuel m tags) (fun f s' => exists s1 q fs, before_heap lay m l s1 f /\ heap_up lay s1 q fs s') s.
Proof.
  intros Hbss Hby Hch Hok Hone Hfuel. unfold boot_memory. wp_focus.
  eapply wp_mono; [by apply (init_core_mem_wp lay m)|]. intros [] s0 (Hinv0 & Hbss0 & Hbs0 & Hu0). wp_focus.
  eapply wp_mono; [by apply (boot_tags_wp lay fuel m tags l s0)|]. intros f s1 Hb. wp_focus.
  eapply wp_mono; [by apply (boot_heap_wp lay m l s1 f)|]. intros [] s2 (q & fs & Hup). wp_step. by exists s1, q, fs.
Qed.

(** The invariant of the memory manager after start-up. *)
Lemma heap_up_space lay m l s f q fs s' (n k : nat) :
  before_heap lay m l s f -> heap_up lay s q fs s' ->
  Z.of_nat n + fb_total m l + KHEAP_PAGES <= WINDOW -> Z.of_nat k * region_cost + HB_SIZE < KHEAP_PAGES * 4096 ->
  space_inv lay s' n k.
Proof.
  intros Hb Hu Hn Hk. destruct (hu_rest _ _ _ _ _ Hu) as (En & El & Em & Et & Er).
  destruct (bh_maps _ _ _ _ _ Hb) as (Hm & Ht & Hr). destruct (bh_lists _ _ _ _ _ Hb) as [Hno Hli].
  destruct (bh_run _ _ _ _ _ Hb) as (qf & Hft & Hrun & _). destruct (hu_range _ _ _ _ _ Hu) as [Hq Hqw].
  destruct (bh_pmm _ _ _ _ _ Hb) as [_ Hsz].
  rewrite Hm in Em. rewrite Ht in Et. rewrite Hr in Er. rewrite Hno in En. rewrite Hli in El.
  assert (0 <= region_cost) as Hc by done.
  split.
  - split_and!; [apply Hu|apply Hu|]. split; rewrite ?Em, ?Et.
    + intros t. rewrite lookup_empty. by intros [??].
    + intros a mm ij. by rewrite lookup_empty.
    + intros a mm ij a' m' ij'. by rewrite lookup_empty.
  - assert (many (fun x => (0 <= x < WINDOW /\ x ∉ seqZ q KHEAP_PAGES) /\ x ∉ seqZ qf (fb_total m l)) n) as Hmany.
    { apply many_without, many_without, (many_less _ (Z.to_nat WINDOW)).
      - apply (many_range _ 0). intros x Hx. unfold WINDOW in *. lia.
      - rewrite !length_seqZ. unfold KHEAP_PAGES, WINDOW in *. lia. }
    apply (many_mono _ _ _ Hmany). intros x [[Hx Hx1] Hx2]. rewrite elem_of_seqZ in Hx1, Hx2. split; [done|].
    rewrite (hu_taken _ _ _ _ _ Hu), Hrun, !bool_decide_false by lia. done.
  - assert (many (fun x => frame_left s x /\ x ∉ fs) n) as Hmany.
    { destruct (before_heap_many _ _ _ _ _ Hb) as (N & HN & Hlen). apply many_without, (many_less _ N); [done|].
      pose proof (hu_len _ _ _ _ _ Hu). unfold KHEAP_PAGES, WINDOW in *. lia. }
    apply (many_mono _ _ _ Hmany). intros x [[Hx Hxu] Hxf]. destruct (hu_pmm _ _ _ _ _ Hu) as [_ Hsz'].
    split; [by rewrite Hsz'|]. rewrite (hu_used _ _ _ _ _ Hu), bool_decide_false, Hxu by (done || lia). done.
  - exists []. split_and!; [|intros g; rewrite Er, lookup_empty; by intros [??]|intros g; rewrite Em, lookup_empty; by intros [??]].
    exists []. split_and!; [|by apply NoDup_nil|..].
    + cbn [ka_inv ka_framed app]. destruct (hu_heap _ _ _ _ _ Hu) as (_ & _ & _ & Hi). apply Hi; [|unfold HB_SIZE in *]; lia.
    + intros a. rewrite En, lookup_empty. by intros [??].
    + intros a. rewrite El, lookup_empty. by intros [??].
    + intros a. rewrite En, lookup_empty. by intros [??].
  - intros a mm v. by rewrite Em, lookup_empty.
  - intros a mm. by rewrite Em, lookup_empty.
Qed.

(** The frame buffer's pages are not touched by the heap. *)
Lemma heap_up_fb lay m l s f q fs s' t l' :
  before_heap lay m l s f -> heap_up lay s q fs s' -> filter (fun t => is_fb m t = true) l = t :: l' ->
  exists qf, option_map snd (fd_mode f) = Some (window_addr qf) /\
    let a := field m 8 (t + 16) in
    (a + fb_pages m t * 4096 <= 2 ^ 52 -> a `mod` 4096 = 0 ->
     forall i, 0 <= i < fb_pages m t -> ent (kheap_tables s') (qf + i) .& PAGE_FRAME = a + i * 4096).
Proof.
  intros Hb Hu Hf. pose proof (bh_fb _ _ _ _ _ Hb) as Hfb. rewrite Hf in Hfb.
  destruct Hfb as (qf & Hq0 & Hq & [Hrun _] & Hv & Hmap). exists qf. split; [done|]. cbv zeta. intros Hlim Hal i Hi.
  rewrite (hu_kept _ _ _ _ _ Hu); [by apply Hmap|lia|].
  destruct (decide (qf + i < q \/ q + KHEAP_PAGES <= qf + i)) as [?|Hn]; [done|]. exfalso.
  pose proof (hu_fresh _ _ _ _ _ Hu (qf + i) ltac:(lia)) as Hfr. rewrite Hrun, bool_decide_true in Hfr by lia. done.
Qed.

(** [kheap_init] maps ten thousand consecutive free pages of the window to as many
    different free page frames and leaves a heap that satisfies the heap invariant with
    nothing allocated, so that every guarantee of [kmalloc] and [kfree] holds from there
    on. *)
Theorem kheap_init_correct lay s n :
  window_ok lay s -> pmm_wf (phys s) -> window_room s KHEAP_PAGES -> kheap_lock (lheap (lm s)) = 0 ->
  many (frame_left s) n -> KHEAP_PAGES <= Z.of_nat n ->
  exists q fs s', kheap_init lay s = Ok ((), s') /\ heap_up lay s q fs s'.
Proof.
  intros Hw Hp Hroom Hlock Hm Hn.
  destruct (wp_Ok _ _ _ (kheap_init_wp lay s n Hw Hp Hroom Hlock Hm Hn)) as ([] & s' & Hr & q & fs & Hu).
  by exists q, fs, s'.
Qed.

(** C6: The memory at the end of start-up, for every list of tags with at most one frame
    buffer and usable regions inside the bitmap: bitmap, kernel window, page maps and heap
    satisfy the invariant from which address spaces and the loader are proved correct, with
    all of the window but heap and frame buffer left and a heap budget inside the heap's
    pages; the heap's pages have different frames; the frames in use are those of the heap,
    the first 16, and the others below frame 262244 that no usable region covers; the
    frame buffer is mapped at the address the video driver gets. *)
Theorem boot_memory_correct lay fuel m tags l s :
  bss s -> (forall x, 0 <= m x < 256) -> tag_chain m tags l -> Forall (tag_ok m) l ->
  (length (filter (fun t => is_fb m t = true) l) <= 1)%nat -> (length l < N.to_nat fuel)%nat ->
  exists f s' q fs, boot_memory lay fuel m tags s = Ok (f, s') /\
    (forall n k : nat, Z.of_nat n + fb_total m l + KHEAP_PAGES <= WINDOW ->
       Z.of_nat k * region_cost + HB_SIZE < KHEAP_PAGES * 4096 -> space_inv lay s' n k) /\
    heap_start (lheap (lm s')) = window_addr q /\ Z.of_nat (length fs) = KHEAP_PAGES /\ NoDup fs /\
    (forall i k, fs !! i = Some k -> boot_used m l k = false /\
       ent (kheap_tables s') (q + Z.of_nat i) .& PAGE_FRAME = k * 4096) /\
    (forall k, 0 <= k -> used (phys s') k = bool_decide (k ∈ fs) || boot_used m l k) /\
    (forall t l', filter (fun t => is_fb m t = true) l = t :: l' ->
       exists qf, option_map snd (fd_mode f) = Some (window_addr qf) /\
         let a := field m 8 (t + 16) in
         (a + fb_pages m t * 4096 <= 2 ^ 52 -> a `mod` 4096 = 0 ->
          forall i, 0 <= i < fb_pages m t -> ent (kheap_tables s') (qf + i) .& PAGE_FRAME = a + i * 4096)).
Proof.
  intros Hbss Hby Hch Hok Hone Hfuel.
  destruct (wp_Ok _ _ _ (boot_memory_wp lay fuel m tags l s Hbss Hby Hch Hok Hone Hfuel))
    as (f & s' & Hr & s1 & q & fs & Hb & Hu).
  exists f, s', q, fs. split_and!; [done| |apply Hu|apply Hu|apply Hu| | |].
  - intros n k. by eapply heap_up_space.
  - intros i k Hi. split; [|by apply (hu_maps _ _ _ _ _ Hu)].
    pose proof (Forall_lookup_1 _ _ _ _ (hu_free _ _ _ _ _ Hu) Hi) as [Hk Hku].
    by rewrite (bh_used _ _ _ _ _ Hb) in Hku by lia.
  - intros k Hk. by rewrite (hu_used _ _ _ _ _ Hu), (bh_used _ _ _ _ _ Hb).
  - intros t l'. by eapply heap_up_fb.
Qed.

(** ** A machine to start *)

Lemma mem_put_bytes m a bs : (forall x, 0 <= m x < 256) -> bytes bs -> forall x, 0 <= mem_put m a bs x < 256.
Proof.
  intros Hm Hb x. unfold mem_put. repeat case_match; try apply Hm; try lia.
  all: match goal with |- 0 <= default _ ?o < _ => destruct o eqn:E; [by eapply (Forall_lookup_1 _ _ _ _ Hb)|apply Hm || (simpl; lia)] end.
Qed.

Definition boot_pstate : pstate kheap :=
  mk_pstate 0 ∅ ∅ ∅ ∅ ∅ ∅ 0 (mk_pmm 0 ∅) (mk_lmem (mk_kheap 0 0 0 0 ∅ ∅) ∅ ∅) ∅ ∅ ∅.

Lemma boot_pstate_bss : bss boot_pstate.
Proof. by split. Qed.

Lemma boot_memory_correct_witness :
  exists f s' q (fs : list Z), boot_memory demo_layout 2 demo_tags 0x1000 boot_pstate = Ok (f, s') /\
    space_inv demo_layout s' 1000 1000 /\ heap_start (lheap (lm s')) = window_addr q /\ Z.of_nat (length fs) = KHEAP_PAGES /\
    used (phys s') 5 = true /\ used (phys s') 36 = true.
Proof.
  assert (field demo_tags 8 (0x1000 + 16) = 2) as Hn by (vm_compute; reflexivity).
  destruct (boot_memory_correct demo_layout 2 demo_tags 0x1000 [0x1000] boot_pstate boot_pstate_bss)
    as (f & s' & q & fs & Hr & Hinv & Hs & Hl & _ & _ & Hu & _).
  - apply mem_put_bytes; [intros; lia|]. repeat (apply Forall_app_2 || apply bytes_le_enc).
  - split_and!; [done|done|]. vm_compute. reflexivity.
  - apply Forall_singleton. split; [|vm_compute; discriminate]. intros _. rewrite Hn. split; [done|].
    replace (entries demo_tags 0x1000 2) with [mk_ent 0x20000 0x4000 1; mk_ent 0x30000 0x8000 2] by (vm_compute; reflexivity).
    repeat constructor; intros; try discriminate; vm_compute; split_and!; discriminate.
  - vm_compute. lia.
  - simpl. lia.
  - exists f, s', q, fs. split_and!; [exact Hr| |exact Hs|exact Hl|..].
    + apply Hinv.
      * replace (fb_total demo_tags [0x1000]) with 0 by (vm_compute; reflexivity). unfold KHEAP_PAGES, WINDOW. lia.
      * vm_compute. reflexivity.
    + rewrite Hu by lia. replace (boot_used _ _ _) with true by (vm_compute; reflexivity). apply orb_true_r.
    + rewrite Hu by lia. replace (boot_used _ _ _) with true by (vm_compute; reflexivity). apply orb_true_r.
Defined.

Definition demo_unmapped : pstate kheap :=
  mk_pstate 0 ∅ ∅ ∅ ∅ ∅ ∅ 0 (mk_pmm BUFFER_SIZE ∅) (mk_lmem (mk_kheap 0 0 0 0 ∅ ∅) ∅ ∅) ∅ ∅ ∅.

Lemma kheap_init_correct_witness :
  exists q fs s', kheap_init demo_layout demo_unmapped = Ok ((), s') /\ heap_up demo_layout demo_unmapped q fs s'.
Proof.
  apply (kheap_init_correct demo_layout demo_unmapped (Z.to_nat KHEAP_PAGES)).
  - split; [intros q Hq _; unfold taken; cbn [kheap_tables demo_unmapped]; rewrite ent_empty; apply Z.bits_0|..].
    + intros i. cbn [kheapdir demo_unmapped]. rewrite ent_empty. apply Z.bits_0.
    + intros i Hi. unfold entered in Hi. cbn [kheapdir demo_unmapped] in Hi. by rewrite ent_empty in Hi.
  - apply pmm_wf_empty. unfold BUFFER_SIZE. lia.
  - exists 0, 512. split; [|lia]. split_and!; [lia|lia|unfold KHEAP_PAGES; lia|].
    intros i Hi. unfold entered. cbn [kheapdir demo_unmapped]. by rewrite ent_empty.
  - reflexivity.
  - apply (many_range _ 0). intros x Hx. split; [cbn [phys demo_unmapped bitmapsize]; unfold BUFFER_SIZE, KHEAP_PAGES in *; lia|].
    unfold used, map_byte. cbn [phys demo_unmapped mapbuffer]. rewrite lookup_empty. apply Z.bits_0.
  - unfold KHEAP_PAGES. lia.
Defined.
