(* ===== verification/Headers.v ===== *)
(** * Headers: the structures of the kernel's header files

    Every structure of the headers as a [ctype] of [Layout], with its C name; where C has
    no name for a part, a unit of bit-fields is called [bits<i>], an anonymous union
    [u<i>] and an anonymous structure [s<i>], [i] being its position.  The theorems at the
    end compare them with what the rest of the development uses: the sizes passed to
    kmalloc and memcpy, and the decoders of on-disk and firmware structures. *)

From Stdlib Require Import String.
From S2P Require Import Prelude Disk Alloc Kheap DList Strings Paging Vfs Tree Ext2 Ext2Dir Sched Fat Gpt Desc Acpi Elf Video Boot Layout.
Local Open Scope string_scope.

(** ** The types of util/types.h *)

Definition uint8_t : ctype := CInt 1.
Definition uint16_t : ctype := CInt 2.
Definition uint32_t : ctype := CInt 4.
Definition uint64_t : ctype := CInt 8.
Definition ptr : ctype := CInt 8.

(** ** The headers *)

(** *** util/list.h *)

Definition list_node_t : ctype := CStruct false
  [("prev", ptr); ("next", ptr); ("val", ptr)].
Definition list_t : ctype := CStruct false
  [("head", ptr); ("tail", ptr); ("cnt", uint32_t)].

(** *** util/tree.h *)

Definition tree_node_t : ctype := CStruct false
  [("children", ptr); ("data", ptr); ("parent", ptr)].
Definition tree_t : ctype := CStruct false
  [("root", ptr)].

(** *** mem/kheap.h *)

Definition heap_block_t : ctype := CStruct false
  [("len", uint64_t); ("free", uint32_t); ("prev", ptr); ("next", ptr)].

(** *** mem/paging.h *)

Definition pml4_t : ctype := CStruct false
  [("entries", CArr uint64_t 512)].
Definition pdp_t : ctype := CStruct false
  [("entries", CArr uint64_t 512)].
Definition page_dir_t : ctype := CStruct false
  [("entries", CArr uint64_t 512)].
Definition page_table_t : ctype := CStruct false
  [("entries", CArr uint64_t 512)].
Definition mregion_t : ctype := CStruct false
  [("base", uint64_t); ("end", uint64_t)].
Definition page_map_t : ctype := CStruct true
  [("pml4", ptr); ("pml4_phys", uint64_t); ("pdp", ptr); ("pdp_phys", uint64_t); ("page_dirs", ptr);
   ("page_dirs_phys", ptr); ("page_tables", ptr); ("regions", ptr)].

(** *** arch/x86_64/system.h *)

Definition reg_ctx_t : ctype := CStruct false
  [("r15", uint64_t); ("r14", uint64_t); ("r13", uint64_t); ("r12", uint64_t); ("r11", uint64_t); ("r10", uint64_t);
   ("r9", uint64_t); ("r8", uint64_t); ("rbp", uint64_t); ("rdi", uint64_t); ("rsi", uint64_t); ("rdx", uint64_t);
   ("rcx", uint64_t); ("rbx", uint64_t); ("rax", uint64_t); ("rip", uint64_t); ("cs", uint64_t);
   ("rflags", uint64_t); ("rsp", uint64_t); ("ss", uint64_t)].
Definition isr_frame_t : ctype := CStruct false
  [("regs", reg_ctx_t); ("errcode", uint32_t)].

(** *** sched/thread.h *)

Definition thread_t : ctype := CStruct false
  [("parent", ptr); ("state", uint32_t); ("regs", reg_ctx_t); ("sleepexp", uint64_t); ("tid", uint64_t)].

(** *** sched/sched.h *)

Definition proc_t : ctype := CStruct false
  [("pid", uint32_t); ("addr_space", ptr); ("file_descs", ptr); ("name", ptr); ("working_dir", ptr);
   ("threads", ptr); ("nexttid", uint32_t); ("children", ptr); ("parent", ptr); ("sigstack", ptr);
   ("signals", CArr uint64_t 3); ("syscall_regs", ptr)].
Definition sem_t : ctype := CStruct false
  [("max_cnt", uint32_t); ("curr_cnt", uint32_t); ("waitlst", ptr)].
Definition mutex_t : ctype := CStruct false
  [("proc", uint8_t); ("waitlst", ptr)].
Definition signal_t : ctype := CStruct false
  [("signo", uint32_t); ("handler", uint64_t)].

(** *** fs/vfs/vfs.h *)

Definition fs_fd_t : ctype := CStruct false
  [("node", ptr); ("pos", uint64_t); ("flags", uint32_t); ("mode", uint32_t)].
Definition vfs_node_t : ctype := CStruct false
  [("open", ptr); ("read", ptr); ("write", ptr); ("close", ptr); ("finddir", ptr); ("listdir", ptr); ("mkfile", ptr);
   ("mkdir", ptr); ("ioctl", ptr); ("mmap", ptr); ("device", ptr); ("flags", uint32_t); ("name", ptr);
   ("size", uint32_t); ("inode_num", uint32_t)].
Definition vfs_ent_t : ctype := CStruct false
  [("name", ptr); ("file", ptr)].
Definition vfs_path_t : ctype := CStruct false
  [("parts", ptr)].
Definition vfs_stat_t : ctype := CStruct false
  [("ino", uint64_t); ("mode", uint32_t); ("size", uint64_t)].

(** *** util/ringbuf.h *)

Definition ringbuf_t : ctype := CStruct false
  [("buffer", ptr); ("size", uint64_t); ("readptr", uint64_t); ("writeptr", uint64_t)].

(** *** fs/vfs/pipe.h *)

Definition pipe_t : ctype := CStruct false
  [("producer", ptr); ("consumer", ptr); ("buf", ptr)].

(** *** drivers/tty/pty/pty.h *)

Definition pty_t : ctype := CStruct false
  [("master_file", ptr); ("slave_file", ptr)].

(** *** fs/ext2/ext2.h *)

Definition ext2_superblock_t : ctype := CStruct true
  [("inode_cnt", uint32_t); ("blk_cnt", uint32_t); ("res_blocks", uint32_t); ("free_blocks", uint32_t);
   ("free_inodes", uint32_t); ("first_dat_block", uint32_t); ("log_block_sz", uint32_t); ("log_frag_sz", uint32_t);
   ("blks_per_grp", uint32_t); ("frags_per_grp", uint32_t); ("inodes_per_grp", uint32_t); ("mnt_time", uint32_t);
   ("write_time", uint32_t); ("mnt_cnt", uint16_t); ("max_mnt_cnt", uint16_t); ("ext2_sig", uint16_t);
   ("state", uint16_t); ("errors", uint16_t); ("min_version", uint16_t); ("last_check", uint32_t);
   ("check_intvl", uint32_t); ("os_id", uint32_t); ("maj_version", uint32_t); ("res_uid", uint16_t);
   ("res_gid", uint16_t)].
Definition ext2_superblock_ext_t : ctype := CStruct true
  [("first_inode", uint32_t); ("inode_sz", uint16_t); ("block_group", uint16_t); ("features_compat", uint32_t);
   ("features_req", uint32_t); ("features_ro", uint32_t); ("fs_id", CArr uint8_t 16);
   ("volume_name", CArr uint8_t 16); ("last_mnt", CArr uint8_t 64); ("alg_bitmap", uint32_t);
   ("prealloc_blocks", uint8_t); ("prealloc_dir_blocks", uint8_t); ("unused", uint16_t);
   ("padding", CArr uint8_t 16); ("journal_id", CArr uint8_t 16); ("journal_inode", uint32_t);
   ("journal_dev", uint32_t); ("orpan_inode_head", uint32_t)].
Definition ext2_sb_t : ctype := CStruct true
  [("sb", ext2_superblock_t); ("sbext", ext2_superblock_ext_t)].
Definition ext2_bgd_t : ctype := CStruct true
  [("block_bitmap_addr", uint32_t); ("inode_bitmap_addr", uint32_t); ("inode_tbl_addr", uint32_t);
   ("free_blocks", uint32_t); ("free_inodes", uint32_t); ("dir_cnt", uint32_t); ("padding", uint16_t);
   ("res", CArr uint8_t 12)].
Definition ext2_inode_t : ctype := CStruct true
  [("mode", uint16_t); ("userid", uint16_t); ("size", uint32_t); ("last_access", uint32_t);
   ("creation_time", uint32_t); ("last_mod_time", uint32_t); ("del_time", uint32_t); ("grpid", uint16_t);
   ("link_cnt", uint16_t); ("sector_cnt", uint32_t); ("flags", uint32_t); ("os_spec1", uint32_t);
   ("blocks", CArr uint32_t 15); ("gen_num", uint32_t); ("file_acl", uint32_t);
   ("u15", CUnion false [("dir_acl", uint32_t); ("size_u", uint32_t)]); ("frag_addr", uint32_t);
   ("os_spec2", CArr uint8_t 12)].
Definition ext2_dir_ent_t : ctype := CStruct true
  [("inode", uint32_t); ("size", uint16_t); ("name_len", uint8_t); ("file_type", uint8_t)].
Definition ext2_vol_t : ctype := CStruct false
  [("dev", ptr); ("blk_sz", uint32_t); ("blk_grps", ptr); ("blk_grp_cnt", uint32_t);
   ("s4", CStruct true [("super", ext2_superblock_t); ("superext", ext2_superblock_ext_t)])].
Definition ext2_node_t : ctype := CStruct false
  [("ino", uint32_t); ("vol", ptr)].

(** *** fs/fat/fat.h *)

Definition fat_bpb_t : ctype := CStruct true
  [("jmp", CArr uint8_t 3); ("oem_id", CArr uint8_t 8); ("sector_sz", uint16_t); ("sectors_per_cluster", uint8_t);
   ("res_sectors", uint16_t); ("fats", uint8_t); ("dir_entries", uint16_t); ("sector_cnt", uint16_t);
   ("media_desc_type", uint8_t); ("sectors_per_fat", uint16_t); ("sectors_per_track", uint16_t);
   ("head_cnt", uint16_t); ("hidden_sectors", uint32_t); ("large_sector_cnt", uint32_t)].
Definition fat_ebr_t : ctype := CStruct true
  [("sectors_per_fat", uint32_t); ("flags", uint16_t); ("fat_vs", uint16_t); ("cluster_num", uint32_t);
   ("fsinfo_sector", uint16_t); ("backup_bs", uint16_t); ("res0", CArr uint8_t 12); ("drive_num", uint8_t);
   ("res1", uint8_t); ("sig", uint8_t); ("volume_id", uint32_t); ("volume_label", CArr uint8_t 11);
   ("sys_id", CArr uint8_t 8)].
Definition fat_fsinfo_t : ctype := CStruct true
  [("lead_sig", uint32_t); ("res0", CArr uint8_t 480); ("sig", uint64_t); ("free_clusters", uint32_t);
   ("free_cluster_num", uint32_t); ("res1", CArr uint8_t 12); ("trail_sig", uint16_t)].
Definition fat_bootrecord_t : ctype := CStruct true
  [("bpb", fat_bpb_t); ("ebr", fat_ebr_t)].
Definition fat_dir_entry_t : ctype := CStruct true
  [("name", CArr uint8_t 8); ("ext", CArr uint8_t 3); ("attr", uint8_t); ("user_attr", uint8_t); ("undel", uint8_t);
   ("create_time", uint16_t); ("create_date", uint16_t); ("access_date", uint16_t); ("cluster_u", uint16_t);
   ("mod_time", uint16_t); ("mod_date", uint16_t); ("cluster", uint16_t); ("file_sz", uint32_t)].
Definition fat_vol_inf_t : ctype := CStruct false
  [("sect_cnt", uint32_t); ("fat_off", uint32_t); ("root_ent_cnt", uint32_t); ("root_offset", uint32_t);
   ("root_sz", uint32_t); ("fat_size", uint32_t); ("fat_ent_sz", uint32_t); ("sects_per_clus", uint32_t);
   ("first_clus", uint32_t); ("res_sects", uint32_t)].
Definition fat_vol_t : ctype := CStruct false
  [("dev", ptr); ("mnt_inf", fat_vol_inf_t)].
Definition fat_lfn_entry_t : ctype := CStruct true
  [("order", uint8_t); ("chars0", CArr uint16_t 5); ("attr", uint8_t); ("type", uint8_t); ("checksum", uint8_t);
   ("chars1", CArr uint16_t 6); ("zero", uint16_t); ("chars2", CArr uint16_t 2)].

(** *** drivers/storage/partmgr/gpt.h *)

Definition gpt_hdr_t : ctype := CStruct true
  [("sig", CArr uint8_t 8); ("revision", uint32_t); ("hdrsize", uint32_t); ("checksum", uint32_t); ("res", uint32_t);
   ("hdrlba", uint64_t); ("altlba", uint64_t); ("first_datablk", uint64_t); ("last_datablk", uint64_t);
   ("guid", CArr uint8_t 16); ("entlba", uint64_t); ("nrentries", uint32_t); ("entsize", uint32_t);
   ("arrchecksum", uint32_t)].
Definition gpt_part_ent_t : ctype := CStruct true
  [("type_guid", CArr uint8_t 16); ("unique_guid", CArr uint8_t 16); ("lba_start", uint64_t); ("lba_end", uint64_t);
   ("attr", uint64_t); ("name", CArr uint16_t 36)].
Definition gpt_partdev_t : ctype := CStruct false
  [("disk", ptr); ("startlba", uint64_t); ("endlba", uint64_t); ("name", CArr uint16_t 36)].

(** *** util/elf.h *)

Definition elf64_hdr_t : ctype := CStruct false
  [("ident", CArr uint8_t 16); ("type", uint16_t); ("machine", uint16_t); ("version", uint32_t); ("entry", uint64_t);
   ("ph_off", uint64_t); ("sh_off", uint64_t); ("flags", uint32_t); ("eh_size", uint16_t);
   ("ph_ent_size", uint16_t); ("ph_num", uint16_t); ("sh_ent_size", uint16_t); ("sh_num", uint16_t);
   ("sh_str_idx", uint16_t)].
Definition elf64_sect_hdr_t : ctype := CStruct false
  [("name", uint32_t); ("type", uint32_t); ("flags", uint32_t); ("addr", uint64_t); ("offset", uint64_t);
   ("size", uint32_t); ("link", uint32_t); ("info", uint32_t); ("addr_align", uint32_t); ("ent_size", uint32_t)].
Definition elf64_sym_t : ctype := CStruct false
  [("name", uint32_t); ("value", uint64_t); ("size", uint32_t); ("info", uint8_t); ("other", uint8_t);
   ("sh_idx", uint16_t)].
Definition elf64_phdr_t : ctype := CStruct false
  [("type", uint32_t); ("flags", uint32_t); ("offset", uint64_t); ("vaddr", uint64_t); ("paddr", uint64_t);
   ("file_sz", uint64_t); ("mem_sz", uint64_t); ("align", uint64_t)].
Definition elf_inf_t : ctype := CStruct false
  [("entry", uint64_t)].

(** *** acpi/acpi.h *)

Definition acpi_xsdp_t : ctype := CStruct true
  [("sig", CArr uint8_t 8); ("checksum", uint8_t); ("oemid", CArr uint8_t 6); ("rev", uint8_t);
   ("rsdt_addr", uint32_t); ("len", uint32_t); ("xsdt_addr", uint64_t); ("ext_checksum", uint8_t);
   ("res", CArr uint8_t 3)].
Definition acpi_sdt_hdr_t : ctype := CStruct true
  [("sig", CArr uint8_t 4); ("len", uint32_t); ("revision", uint8_t); ("checksum", uint8_t);
   ("oemid", CArr uint8_t 6); ("oem_tbl_id", CArr uint8_t 8); ("oem_revision", uint32_t); ("creator_id", uint32_t);
   ("creator_rev", uint32_t)].
Definition acpi_rsdt_t : ctype := CStruct true
  [("hdr", acpi_sdt_hdr_t); ("sdts", CArr uint32_t 100)].
Definition acpi_xsdt_t : ctype := CStruct true
  [("hdr", acpi_sdt_hdr_t); ("sdts", CArr uint64_t 100)].
Definition acpi_madt_t : ctype := CStruct true
  [("hdr", acpi_sdt_hdr_t); ("loc_apic_addr", uint32_t); ("flags", uint32_t)].
Definition acpi_madt_ent_t : ctype := CStruct true
  [("type", uint8_t); ("len", uint8_t)].
Definition gen_addr_t : ctype := CStruct true
  [("addr_space", uint8_t); ("bit_width", uint8_t); ("bit_off", uint8_t); ("acc_size", uint8_t); ("addr", uint64_t)].
Definition acpi_fadt_t : ctype := CStruct true
  [("hdr", acpi_sdt_hdr_t); ("firmware_ctrl", uint32_t); ("dsdt", uint32_t); ("res", uint8_t);
   ("pref_pm_prof", uint8_t); ("sci_int", uint16_t); ("smi_cmd_port", uint32_t); ("acpi_enable", uint8_t);
   ("acpi_disable", uint8_t); ("s4bios_req", uint8_t); ("pstate_ctrl", uint8_t); ("pm1a_evt_blk", uint32_t);
   ("pm1b_evt_blk", uint32_t); ("pm1a_ctrl_blk", uint32_t); ("pm1b_ctrl_blk", uint32_t); ("pm2_ctrl_blk", uint32_t);
   ("pm_time_blk", uint32_t); ("gpe0_blk", uint32_t); ("gpe1_blk", uint32_t); ("pm1_evt_len", uint8_t);
   ("pm1_ctrl_len", uint8_t); ("pm2_ctrl_len", uint8_t); ("pm_time_len", uint8_t); ("gpe0_len", uint8_t);
   ("gpe1_len", uint8_t); ("gpe1_base", uint8_t); ("cstate_ctrl", uint8_t); ("worst_c2_lat", uint16_t);
   ("worst_c3_lat", uint16_t); ("flush_size", uint16_t); ("flush_stride", uint16_t); ("duty_off", uint8_t);
   ("duty_width", uint8_t); ("day_alrm", uint8_t); ("month_alrm", uint8_t); ("cent", uint8_t);
   ("boot_arch_flags", uint16_t); ("res2", uint8_t); ("flags", uint32_t); ("reset_reg", gen_addr_t);
   ("reset_val", uint8_t); ("res3", CArr uint8_t 3); ("x_fw_ctrl", uint64_t); ("x_dsdt", uint64_t);
   ("x_pm1a_evt_blk", gen_addr_t); ("x_pm1abevt_blk", gen_addr_t); ("x_pm1a_ctrl_blk", gen_addr_t);
   ("x_pm1b_ctrl_blk", gen_addr_t); ("x_pm2_ctrl_blk", gen_addr_t); ("x_pm_time_blk", gen_addr_t);
   ("x_gpe0_blk", gen_addr_t); ("x_gpe1_blk", gen_addr_t)].
Definition acpi_mcfg_hdr_t : ctype := CStruct true
  [("hdr", acpi_sdt_hdr_t); ("res", uint64_t)].
Definition ioapic_t : ctype := CStruct true
  [("ent", acpi_madt_ent_t); ("apicid", uint8_t); ("res", uint8_t); ("addr", uint32_t); ("gsib", uint32_t)].
Definition lapic_t : ctype := CStruct true
  [("ent", acpi_madt_ent_t); ("id", uint8_t); ("apic_id", uint8_t); ("flags", uint32_t)].
Definition apic_iso_t : ctype := CStruct true
  [("ent", acpi_madt_ent_t); ("bus_src", uint8_t); ("irq_src", uint8_t); ("gsi", uint32_t); ("flags", uint16_t)].
Definition iso_lst_t : ctype := CStruct false
  [("data", CArr ptr 200); ("cnt", uint32_t)].

(** *** arch/x86_64/stivale2.h *)

Definition st2_tag_t : ctype := CStruct true
  [("id", uint64_t); ("next", uint64_t)].
Definition st2_header_t : ctype := CStruct true
  [("entry_point", uint64_t); ("stack", uint64_t); ("flags", uint64_t); ("tags", uint64_t)].
Definition st2_tagfb_t : ctype := CStruct true
  [("tag", st2_tag_t); ("width", uint16_t); ("height", uint16_t); ("depth", uint16_t)].
Definition st2_tagterm_t : ctype := CStruct true
  [("tag", st2_tag_t); ("flags", uint64_t)].
Definition stivale2_header_tag_smp : ctype := CStruct true
  [("tag", st2_tag_t); ("flags", uint64_t)].
Definition st2_struct_t : ctype := CStruct true
  [("bootloader_brand", CArr uint8_t 64); ("bootloader_version", CArr uint8_t 64); ("tags", uint64_t)].
Definition stivale2_struct_tag_cmdline : ctype := CStruct true
  [("tag", st2_tag_t); ("cmdline", uint64_t)].
Definition st2_mmap_ent_t : ctype := CStruct true
  [("base", uint64_t); ("length", uint64_t); ("type", uint32_t); ("unused", uint32_t)].
Definition st2_tagmmap_t : ctype := CStruct true
  [("tag", st2_tag_t); ("entries", uint64_t); ("memmap", CArr st2_mmap_ent_t 0)].
Definition st2_fbinfo_t : ctype := CStruct true
  [("tag", st2_tag_t); ("addr", uint64_t); ("width", uint16_t); ("height", uint16_t); ("pitch", uint16_t);
   ("depth", uint16_t); ("memmodel", uint8_t); ("redmask_sz", uint8_t); ("redmask_shift", uint8_t);
   ("greenmask_sz", uint8_t); ("greenmask_shift", uint8_t); ("bluemask_sz", uint8_t); ("bluemask_shift", uint8_t)].
Definition stivale2_struct_tag_edid : ctype := CStruct true
  [("tag", st2_tag_t); ("edid_size", uint64_t); ("edid_information", CArr uint8_t 0)].
Definition stivale2_struct_tag_terminal : ctype := CStruct true
  [("tag", st2_tag_t); ("flags", uint32_t); ("cols", uint16_t); ("rows", uint16_t); ("term_write", uint64_t)].
Definition stivale2_module : ctype := CStruct true
  [("begin", uint64_t); ("end", uint64_t); ("string", CArr uint8_t 128)].
Definition stivale2_struct_tag_modules : ctype := CStruct true
  [("tag", st2_tag_t); ("module_count", uint64_t); ("modules", CArr stivale2_module 0)].
Definition st2_tagrsdp_t : ctype := CStruct true
  [("tag", st2_tag_t); ("rsdp", uint64_t)].
Definition stivale2_struct_tag_epoch : ctype := CStruct true
  [("tag", st2_tag_t); ("epoch", uint64_t)].
Definition stivale2_struct_tag_firmware : ctype := CStruct true
  [("tag", st2_tag_t); ("flags", uint64_t)].
Definition stivale2_struct_tag_efi_system_table : ctype := CStruct true
  [("tag", st2_tag_t); ("system_table", uint64_t)].
Definition stivale2_struct_tag_kernel_file : ctype := CStruct true
  [("tag", st2_tag_t); ("kernel_file", uint64_t)].
Definition stivale2_struct_tag_kernel_slide : ctype := CStruct true
  [("tag", st2_tag_t); ("kernel_slide", uint64_t)].
Definition stivale2_struct_tag_smbios : ctype := CStruct true
  [("tag", st2_tag_t); ("flags", uint64_t); ("smbios_entry_32", uint64_t); ("smbios_entry_64", uint64_t)].
Definition stivale2_smp_info : ctype := CStruct true
  [("processor_id", uint32_t); ("lapic_id", uint32_t); ("target_stack", uint64_t); ("goto_address", uint64_t);
   ("extra_argument", uint64_t)].
Definition stivale2_struct_tag_smp : ctype := CStruct true
  [("tag", st2_tag_t); ("flags", uint64_t); ("bsp_lapic_id", uint32_t); ("unused", uint32_t);
   ("cpu_count", uint64_t); ("smp_info", CArr stivale2_smp_info 0)].
Definition stivale2_struct_tag_pxe_server_info : ctype := CStruct true
  [("tag", st2_tag_t); ("server_ip", uint32_t)].
Definition stivale2_struct_tag_mmio32_uart : ctype := CStruct true
  [("tag", st2_tag_t); ("addr", uint64_t)].
Definition stivale2_struct_tag_dtb : ctype := CStruct true
  [("tag", st2_tag_t); ("addr", uint64_t); ("size", uint64_t)].
Definition stivale2_struct_vmap : ctype := CStruct true
  [("tag", st2_tag_t); ("addr", uint64_t)].

(** *** drivers/storage/ata/ahci/ahci.h *)

Definition fis_reg_h2d_t : ctype := CStruct false
  [("fis_type", uint8_t); ("bits1", CBits 1 [("pmport", 4); ("res0", 3); ("com_ctrl", 1)]); ("command", uint8_t);
   ("featurel", uint8_t); ("lba0", uint8_t); ("lba1", uint8_t); ("lba2", uint8_t); ("device", uint8_t);
   ("lba3", uint8_t); ("lba4", uint8_t); ("lba5", uint8_t); ("featureh", uint8_t); ("countl", uint8_t);
   ("counth", uint8_t); ("icc", uint8_t); ("control", uint8_t); ("res1", CArr uint8_t 4)].
Definition fis_reg_d2h_t : ctype := CStruct false
  [("fis_type", uint8_t); ("bits1", CBits 1 [("pmport", 4); ("res0", 2); ("intr", 1); ("res1", 1)]);
   ("stat", uint8_t); ("err", uint8_t); ("lba0", uint8_t); ("lba1", uint8_t); ("lba2", uint8_t);
   ("device", uint8_t); ("lba3", uint8_t); ("lba4", uint8_t); ("lba5", uint8_t); ("res2", uint8_t);
   ("countl", uint8_t); ("counth", uint8_t); ("res3", CArr uint8_t 2); ("res4", CArr uint8_t 4)].
Definition fis_data_t : ctype := CStruct false
  [("fis_type", uint8_t); ("bits1", CBits 1 [("pmport", 4); ("res0", 4)]); ("res1", CArr uint8_t 2);
   ("data", CArr uint32_t 1)].
Definition fis_pio_setup_t : ctype := CStruct false
  [("fis_type", uint8_t); ("bits1", CBits 1 [("pmport", 4); ("res0", 1); ("datadir", 1); ("intr", 1); ("res1", 1)]);
   ("stat", uint8_t); ("err", uint8_t); ("lba0", uint8_t); ("lba1", uint8_t); ("lba2", uint8_t);
   ("device", uint8_t); ("lba3", uint8_t); ("lba4", uint8_t); ("lba5", uint8_t); ("res2", uint8_t);
   ("countl", uint8_t); ("counth", uint8_t); ("res3", uint8_t); ("estat", uint8_t); ("transcnt", uint16_t);
   ("res4", CArr uint8_t 2)].
Definition fis_dma_setup_t : ctype := CStruct false
  [("fis_type", uint8_t);
   ("bits1", CBits 1 [("pmport", 4); ("res0", 1); ("datadir", 1); ("intr", 1); ("autoact", 1)]);
   ("res1", CArr uint8_t 2); ("dmabufid", uint64_t); ("res2", uint32_t); ("dmabufoff", uint32_t);
   ("transcnt", uint32_t); ("res3", CArr uint32_t 2)].
Definition hba_fis_t : ctype := CStruct false
  [("dsfis", fis_dma_setup_t); ("pad0", CArr uint8_t 4); ("psfis", fis_pio_setup_t); ("pad1", CArr uint8_t 12);
   ("rfis", fis_reg_d2h_t); ("pad", CArr uint8_t 4); ("sdbfis", CArr uint8_t 8); ("ufis", CArr uint8_t 64);
   ("res", CArr uint8_t 96)].
Definition hba_port_t : ctype := CStruct false
  [("com_base_addr", uint32_t); ("com_base_addr_u", uint32_t); ("fis_base", uint32_t); ("fis_base_u", uint32_t);
   ("int_stat", uint32_t); ("int_enable", uint32_t); ("cmd_stat", uint32_t); ("res0", uint32_t);
   ("task_file_dat", uint32_t); ("sig", uint32_t); ("sata_stat", uint32_t); ("sata_ctrl", uint32_t);
   ("sata_err", uint32_t); ("sata_active", uint32_t); ("cmd_issue", uint32_t); ("sata_notif", uint32_t);
   ("fis_switch_ctrl", uint32_t); ("res1", CArr uint32_t 11); ("vendor", CArr uint32_t 4)].
Definition hba_memory_t : ctype := CStruct false
  [("cap", uint32_t); ("ghc", uint32_t); ("int_stat", uint32_t); ("ports_impl", uint32_t); ("version", uint32_t);
   ("ccc_ctl", uint32_t); ("ccc_pts", uint32_t); ("em_loc", uint32_t); ("em_ctl", uint32_t); ("cap2", uint32_t);
   ("bohc", uint32_t); ("res", CArr uint8_t 116); ("vendor", CArr uint8_t 96); ("ports", CArr hba_port_t 1)].
Definition hba_cmd_header_t : ctype := CStruct false
  [("bits0", CBits 1 [("cmd_fis_len", 5); ("atapi", 1); ("write", 1); ("prefetch", 1)]);
   ("bits1", CBits 1 [("reset", 1); ("bist", 1); ("clear_busy", 1); ("res0", 1); ("port_mul", 4)]);
   ("prdt_len", uint16_t); ("prdb_cnt", uint32_t); ("cmd_tbl_base_addr", uint32_t);
   ("cmd_tbl_base_addr_u", uint32_t); ("res1", CArr uint32_t 4)].
Definition hba_prdt_entry_t : ctype := CStruct false
  [("data_base_addr", uint32_t); ("data_base_addr_u", uint32_t); ("res0", uint32_t);
   ("bits3", CBits 4 [("byte_cnt", 22); ("res1", 9); ("int_on_cmpl", 1)])].
Definition hba_cmd_tbl_t : ctype := CStruct false
  [("cmd_fis", CArr uint8_t 64); ("atapi_cmd", CArr uint8_t 16); ("res", CArr uint8_t 48);
   ("prdt_entry", CArr hba_prdt_entry_t 1)].
Definition ahci_port_t : ctype := CStruct false
  [("hba_port", ptr); ("type", uint32_t); ("num", uint8_t); ("comlist", ptr); ("comtables", CArr ptr 32);
   ("fis", ptr); ("buf", ptr); ("phys_buf", uint64_t)].
Definition ahci_dev_t : ctype := CStruct false
  [("port", ptr)].

(** *** drivers/net/e1000/e1000.h *)

Definition e1000_rxdesc_t : ctype := CStruct true
  [("addr", uint64_t); ("len", uint16_t); ("checksum", uint16_t); ("stat", uint8_t); ("err", uint8_t);
   ("magic", uint16_t)].

(** *** arch/x86_64/gdt.h *)

Definition gdt_ptr_t : ctype := CStruct true
  [("lim", uint16_t); ("base", uint64_t)].
Definition gdt_entry_t : ctype := CUnion true
  [("s0", CStruct true
      [("limlo", uint16_t); ("baselo", uint16_t); ("basemid", uint8_t);
       ("bits3", CBits 2 [("access", 1); ("rw", 1); ("dc", 1); ("code", 1); ("codedata", 1); ("dpl", 2); ("present", 1);
                          ("limhi", 4); ("avail", 1); ("mode64bit", 1); ("mode32bit", 1); ("gran", 1)]);
       ("basehi", uint8_t)]);
   ("s1", CStruct true [("low", uint32_t); ("high", uint32_t)])].
Definition tss_t : ctype := CStruct true
  [("res1", uint32_t); ("rsp", CArr uint64_t 3); ("res2", uint64_t); ("ist", CArr uint64_t 7); ("res3", uint64_t);
   ("res4", uint16_t); ("iomap_base", uint16_t)].

(** *** arch/x86_64/cpu.h *)

Definition cpu_t : ctype := CStruct false
  [("lapic_id", uint32_t); ("gdt", ptr); ("gdtptr", gdt_ptr_t); ("tss", tss_t); ("currthread", ptr);
   ("threads", ptr); ("run_queue", ptr); ("lock", uint32_t)].
Definition cpuid_inf_t : ctype := CStruct false
  [("vendor_str", CArr uint8_t 12); ("ecx_feats", uint32_t); ("edx_feats", uint32_t)].

(** *** intr/idt.h *)

Definition idt_entry_t : ctype := CStruct true
  [("off_lowbits", uint16_t); ("select", uint16_t); ("ist", uint8_t);
   ("bits3", CBits 1 [("type", 4); ("stor", 1); ("dpl", 2); ("present", 1)]); ("off_midbits", uint16_t);
   ("off_highbits", uint32_t); ("ignore", uint32_t)].
Definition idt_record_t : ctype := CStruct true
  [("limit", uint16_t); ("base", uint64_t)].

(** *** util/bmp.h *)

Definition bmp_hdr_t : ctype := CStruct true
  [("magic", CArr uint8_t 2); ("size", uint32_t); ("res", uint32_t); ("off", uint32_t)].
Definition bmp_inf_hdr_t : ctype := CStruct true
  [("hdr_size", uint32_t); ("width", uint32_t); ("height", uint32_t); ("planes", uint16_t); ("bpp", uint16_t);
   ("compress", uint32_t); ("size", uint32_t); ("hres", uint32_t); ("vres", uint32_t); ("palette", uint32_t);
   ("imp_colors", uint32_t)].
Definition bmp_pal_t : ctype := CStruct true
  [("r", uint8_t); ("g", uint8_t); ("b", uint8_t); ("res", uint8_t)].

(** *** drivers/gfx/fb/fb.h *)

Definition vid_mode_t : ctype := CStruct false
  [("width", uint32_t); ("height", uint32_t); ("depth", uint16_t); ("fb", ptr); ("fbphys", uint64_t)].
Definition psf1_header_t : ctype := CStruct false
  [("magic", CArr uint8_t 2); ("mode", uint8_t); ("c_size", uint8_t)].
Definition psf1_font_t : ctype := CStruct false
  [("header", psf1_header_t); ("glyph_buf", ptr)].
Definition fbinfo_t : ctype := CStruct false
  [("width", uint32_t); ("height", uint32_t); ("bpp", uint32_t)].

(** *** drivers/pci/pci.h *)

Definition pci_dev_t : ctype := CStruct false
  [("dev_id", uint16_t); ("vendor_id", uint16_t); ("bus", uint16_t); ("slot", uint8_t); ("func", uint8_t);
   ("class_code", uint8_t); ("subclass", uint8_t); ("progif", uint8_t)].

(** *** time/time.h *)

Definition timer_t : ctype := CStruct false
  [("uptime", ptr); ("wait", ptr)].
Definition timespec_t : ctype := CStruct false
  [("tv_sec", uint64_t); ("tv_nsec", uint64_t)].

(** *** sys/syscall/syscall.h *)

Definition sigaction_t : ctype := CStruct false
  [("sa_handler", ptr); ("sa_sigaction", ptr); ("sa_mask", uint64_t); ("sa_flags", uint32_t); ("sa_restorer", ptr)].

(** *** drivers/input/mouse/ps2mouse.h *)

Definition mouse_packet_t : ctype := CStruct false
  [("btns", uint8_t); ("xmov", uint8_t); ("ymov", uint8_t); ("scroll", uint8_t)].

(** ** All of them *)

Definition headers : list (string * ctype) :=
  [("list_node_t", list_node_t); ("list_t", list_t); ("tree_node_t", tree_node_t); ("tree_t", tree_t);
   ("heap_block_t", heap_block_t); ("pml4_t", pml4_t); ("pdp_t", pdp_t); ("page_dir_t", page_dir_t);
   ("page_table_t", page_table_t); ("mregion_t", mregion_t); ("page_map_t", page_map_t); ("reg_ctx_t", reg_ctx_t);
   ("isr_frame_t", isr_frame_t); ("thread_t", thread_t); ("proc_t", proc_t); ("sem_t", sem_t);
   ("mutex_t", mutex_t); ("signal_t", signal_t); ("fs_fd_t", fs_fd_t); ("vfs_node_t", vfs_node_t);
   ("vfs_ent_t", vfs_ent_t); ("vfs_path_t", vfs_path_t); ("vfs_stat_t", vfs_stat_t); ("ringbuf_t", ringbuf_t);
   ("pipe_t", pipe_t); ("pty_t", pty_t); ("ext2_superblock_t", ext2_superblock_t);
   ("ext2_superblock_ext_t", ext2_superblock_ext_t); ("ext2_sb_t", ext2_sb_t); ("ext2_bgd_t", ext2_bgd_t);
   ("ext2_inode_t", ext2_inode_t); ("ext2_dir_ent_t", ext2_dir_ent_t); ("ext2_vol_t", ext2_vol_t);
   ("ext2_node_t", ext2_node_t); ("fat_bpb_t", fat_bpb_t); ("fat_ebr_t", fat_ebr_t);
   ("fat_fsinfo_t", fat_fsinfo_t); ("fat_bootrecord_t", fat_bootrecord_t); ("fat_dir_entry_t", fat_dir_entry_t);
   ("fat_vol_inf_t", fat_vol_inf_t); ("fat_vol_t", fat_vol_t); ("fat_lfn_entry_t", fat_lfn_entry_t);
   ("gpt_hdr_t", gpt_hdr_t); ("gpt_part_ent_t", gpt_part_ent_t); ("gpt_partdev_t", gpt_partdev_t);
   ("elf64_hdr_t", elf64_hdr_t); ("elf64_sect_hdr_t", elf64_sect_hdr_t); ("elf64_sym_t", elf64_sym_t);
   ("elf64_phdr_t", elf64_phdr_t); ("elf_inf_t", elf_inf_t); ("acpi_xsdp_t", acpi_xsdp_t);
   ("acpi_sdt_hdr_t", acpi_sdt_hdr_t); ("acpi_rsdt_t", acpi_rsdt_t); ("acpi_xsdt_t", acpi_xsdt_t);
   ("acpi_madt_t", acpi_madt_t); ("acpi_madt_ent_t", acpi_madt_ent_t); ("gen_addr_t", gen_addr_t);
   ("acpi_fadt_t", acpi_fadt_t); ("acpi_mcfg_hdr_t", acpi_mcfg_hdr_t); ("ioapic_t", ioapic_t);
   ("lapic_t", lapic_t); ("apic_iso_t", apic_iso_t); ("iso_lst_t", iso_lst_t); ("st2_tag_t", st2_tag_t);
   ("st2_header_t", st2_header_t); ("st2_tagfb_t", st2_tagfb_t); ("st2_tagterm_t", st2_tagterm_t);
   ("stivale2_header_tag_smp", stivale2_header_tag_smp); ("st2_struct_t", st2_struct_t);
   ("stivale2_struct_tag_cmdline", stivale2_struct_tag_cmdline); ("st2_mmap_ent_t", st2_mmap_ent_t);
   ("st2_tagmmap_t", st2_tagmmap_t); ("st2_fbinfo_t", st2_fbinfo_t);
   ("stivale2_struct_tag_edid", stivale2_struct_tag_edid);
   ("stivale2_struct_tag_terminal", stivale2_struct_tag_terminal); ("stivale2_module", stivale2_module);
   ("stivale2_struct_tag_modules", stivale2_struct_tag_modules); ("st2_tagrsdp_t", st2_tagrsdp_t);
   ("stivale2_struct_tag_epoch", stivale2_struct_tag_epoch);
   ("stivale2_struct_tag_firmware", stivale2_struct_tag_firmware);
   ("stivale2_struct_tag_efi_system_table", stivale2_struct_tag_efi_system_table);
   ("stivale2_struct_tag_kernel_file", stivale2_struct_tag_kernel_file);
   ("stivale2_struct_tag_kernel_slide", stivale2_struct_tag_kernel_slide);
   ("stivale2_struct_tag_smbios", stivale2_struct_tag_smbios); ("stivale2_smp_info", stivale2_smp_info);
   ("stivale2_struct_tag_smp", stivale2_struct_tag_smp);
   ("stivale2_struct_tag_pxe_server_info", stivale2_struct_tag_pxe_server_info);
   ("stivale2_struct_tag_mmio32_uart", stivale2_struct_tag_mmio32_uart);
   ("stivale2_struct_tag_dtb", stivale2_struct_tag_dtb); ("stivale2_struct_vmap", stivale2_struct_vmap);
   ("fis_reg_h2d_t", fis_reg_h2d_t); ("fis_reg_d2h_t", fis_reg_d2h_t); ("fis_data_t", fis_data_t);
   ("fis_pio_setup_t", fis_pio_setup_t); ("fis_dma_setup_t", fis_dma_setup_t); ("hba_fis_t", hba_fis_t);
   ("hba_port_t", hba_port_t); ("hba_memory_t", hba_memory_t); ("hba_cmd_header_t", hba_cmd_header_t);
   ("hba_prdt_entry_t", hba_prdt_entry_t); ("hba_cmd_tbl_t", hba_cmd_tbl_t); ("ahci_port_t", ahci_port_t);
   ("ahci_dev_t", ahci_dev_t); ("e1000_rxdesc_t", e1000_rxdesc_t); ("gdt_ptr_t", gdt_ptr_t);
   ("gdt_entry_t", gdt_entry_t); ("tss_t", tss_t); ("cpu_t", cpu_t); ("cpuid_inf_t", cpuid_inf_t);
   ("idt_entry_t", idt_entry_t); ("idt_record_t", idt_record_t); ("bmp_hdr_t", bmp_hdr_t);
   ("bmp_inf_hdr_t", bmp_inf_hdr_t); ("bmp_pal_t", bmp_pal_t); ("vid_mode_t", vid_mode_t);
   ("psf1_header_t", psf1_header_t); ("psf1_font_t", psf1_font_t); ("fbinfo_t", fbinfo_t);
   ("pci_dev_t", pci_dev_t); ("timer_t", timer_t); ("timespec_t", timespec_t); ("sigaction_t", sigaction_t);
   ("mouse_packet_t", mouse_packet_t)].

Lemma headers_wf : Forall (fun x => wf_type x.2) headers.
Proof.
  apply Forall_forall. intros x Hx. apply wf_typeb_ok. revert x Hx. apply Forall_forall.
  apply (Forall_impl (fun x => Is_true (wf_typeb x.2))); [|intros x; apply Is_true_true].
  apply (bool_decide_unpack _). vm_compute. exact I.
Qed.

(** ** What the development uses of them *)

(** Sizes: what kmalloc and memcpy are asked for, and the strides of arrays. *)
Definition used_sizes : list (ctype * Z) :=
  [(list_node_t, NODE_SIZE); (list_t, LIST_SIZE); (tree_node_t, TREE_NODE_SIZE); (tree_t, TREE_SIZE);
   (vfs_ent_t, Tree.ENT_SIZE); (vfs_path_t, 8); (heap_block_t, HB_SIZE); (mregion_t, 16); (page_map_t, 64);
   (pml4_t, 4096); (ext2_inode_t, INODE_SIZE); (ext2_bgd_t, BGD_SIZE); (ext2_dir_ent_t, EXT2_DIRENT_NAME_OFF);
   (fat_bpb_t, Z.of_nat BPB_SIZE); (fat_dir_entry_t, DIRENT_SIZE); (fat_lfn_entry_t, DIRENT_SIZE);
   (gpt_part_ent_t, Gpt.ENT_SIZE); (elf64_hdr_t, sizeof_ehdr); (elf64_phdr_t, sizeof_phdr);
   (acpi_sdt_hdr_t, sizeof_acpi_sdt_hdr); (acpi_madt_t, sizeof_acpi_madt); (st2_mmap_ent_t, 24); (tss_t, sizeof_tss);
   (gdt_entry_t, 8); (idt_entry_t, 16); (reg_ctx_t, 160)].

(** Offsets: fields read at an address. *)
Definition used_offsets : list (ctype * list string * Z) :=
  [(acpi_sdt_hdr_t, ["len"], OFF_LEN); (acpi_xsdp_t, ["rev"], OFF_REV); (acpi_xsdp_t, ["rsdt_addr"], OFF_RSDT_ADDR);
   (acpi_xsdp_t, ["xsdt_addr"], OFF_XSDT_ADDR); (acpi_rsdt_t, ["sdts"], sizeof_acpi_sdt_hdr);
   (lapic_t, ["ent"; "type"], 0); (lapic_t, ["ent"; "len"], 1); (lapic_t, ["apic_id"], 3); (lapic_t, ["flags"], 4);
   (ioapic_t, ["addr"], 4); (ioapic_t, ["gsib"], 8);
   (st2_struct_t, ["tags"], 128); (st2_tag_t, ["id"], 0); (st2_tag_t, ["next"], 8); (st2_tagrsdp_t, ["rsdp"], 16);
   (st2_tagmmap_t, ["entries"], 16); (st2_tagmmap_t, ["memmap"], 24); (st2_mmap_ent_t, ["base"], 0);
   (st2_mmap_ent_t, ["length"], 8); (st2_mmap_ent_t, ["type"], 16); (st2_fbinfo_t, ["addr"], 16);
   (st2_fbinfo_t, ["width"], 24); (st2_fbinfo_t, ["height"], 26); (st2_fbinfo_t, ["depth"], 30);
   (fat_bootrecord_t, ["ebr"], Z.of_nat BPB_SIZE); (ext2_sb_t, ["sbext"], 84); (fat_dir_entry_t, ["attr"], DIRENT_ATTR); (ext2_dir_ent_t, ["inode"], 0); (ext2_dir_ent_t, ["size"], 4);
   (ext2_dir_ent_t, ["name_len"], 6); (ext2_dir_ent_t, ["file_type"], 7)].

(** A decoder reads the fields where the structure has them. *)
Definition decodes {R} (t : ctype) (dec : list Z -> R) (fs : list (string * (R -> Z))) : Prop :=
  forall bs, Forall (fun f => rd_field t [f.1] bs = Some (f.2 (dec bs))) fs.

Lemma rd_field_at t path o u bs :
  path_of t path = Some (o, u) -> rd_field t path bs = Some (le_dec (take (Z.to_nat (sizeof u)) (drop (Z.to_nat o) bs))).
Proof. unfold rd_field. by intros ->. Qed.
Lemma unpack_total ws bs i w :
  ws !! i = Some w -> unpack ws bs !!! i = le_dec (take w (drop (sum_list (take i ws)) bs)).
Proof. intros Hw. apply list_lookup_total_correct. by apply unpack_lookup. Qed.
Lemma unpack_default ws bs i w :
  ws !! i = Some w -> default 0 (unpack ws bs !! i) = le_dec (take w (drop (sum_list (take i ws)) bs)).
Proof. intros Hw. by rewrite (unpack_lookup _ _ _ _ Hw). Qed.

Ltac decode_field :=
  erewrite rd_field_at by reflexivity; f_equal; symmetry;
  first [apply unpack_total; reflexivity | apply unpack_default; reflexivity].
Ltac decode_fields := intros bs; repeat (apply Forall_cons_2; [decode_field|]); apply Forall_nil_2.

Definition superblock_fields : list (string * (ext2_superblock -> Z)) :=
  [("inode_cnt", inode_cnt); ("blk_cnt", blk_cnt); ("res_blocks", res_blocks); ("free_blocks", sb_free_blocks);
   ("free_inodes", sb_free_inodes); ("first_dat_block", first_dat_block); ("log_block_sz", log_block_sz);
   ("log_frag_sz", log_frag_sz); ("blks_per_grp", blks_per_grp); ("frags_per_grp", frags_per_grp);
   ("inodes_per_grp", inodes_per_grp); ("mnt_time", mnt_time); ("write_time", write_time); ("mnt_cnt", mnt_cnt);
   ("max_mnt_cnt", max_mnt_cnt); ("ext2_sig", ext2_sig); ("state", sb_state); ("errors", sb_errors);
   ("min_version", min_version); ("last_check", last_check); ("check_intvl", check_intvl); ("os_id", os_id);
   ("maj_version", maj_version); ("res_uid", res_uid); ("res_gid", res_gid)].
Lemma superblock_decodes : decodes ext2_superblock_t superblock_of superblock_fields.
Proof. decode_fields. Qed.
Definition superext_fields : list (string * (ext2_superblock_ext -> Z)) :=
  [("first_inode", first_inode); ("inode_sz", inode_sz); ("block_group", block_group);
   ("features_compat", features_compat); ("features_req", features_req); ("features_ro", features_ro);
   ("alg_bitmap", alg_bitmap); ("prealloc_blocks", prealloc_blocks); ("prealloc_dir_blocks", prealloc_dir_blocks);
   ("unused", sbx_unused); ("journal_inode", journal_inode); ("journal_dev", journal_dev);
   ("orpan_inode_head", orpan_inode_head)].
Lemma superext_decodes : decodes ext2_superblock_ext_t superext_of superext_fields.
Proof. decode_fields. Qed.
Definition bgd_fields : list (string * (ext2_bgd -> Z)) :=
  [("block_bitmap_addr", block_bitmap_addr); ("inode_bitmap_addr", inode_bitmap_addr);
   ("inode_tbl_addr", inode_tbl_addr); ("free_blocks", free_blocks); ("free_inodes", free_inodes);
   ("dir_cnt", dir_cnt); ("padding", bgd_padding)].
Lemma bgd_decodes : decodes ext2_bgd_t bgd_of bgd_fields.
Proof. decode_fields. Qed.
Definition inode_fields : list (string * (ext2_inode -> Z)) :=
  [("mode", Ext2.mode); ("userid", userid); ("size", isize); ("last_access", last_access);
   ("creation_time", creation_time); ("last_mod_time", last_mod_time); ("del_time", del_time); ("grpid", grpid);
   ("link_cnt", link_cnt); ("sector_cnt", Ext2.sector_cnt); ("flags", iflags); ("os_spec1", os_spec1);
   ("gen_num", gen_num); ("file_acl", file_acl); ("frag_addr", frag_addr)].
Lemma inode_decodes : decodes ext2_inode_t inode_of inode_fields.
Proof. decode_fields. Qed.
Definition bpb_fields : list (string * (fat_bpb -> Z)) :=
  [("sector_sz", sector_sz); ("sectors_per_cluster", sectors_per_cluster); ("res_sectors", res_sectors);
   ("fats", fats); ("dir_entries", dir_entries); ("sector_cnt", Fat.sector_cnt); ("media_desc_type", media_desc_type);
   ("sectors_per_fat", bpb_sectors_per_fat); ("sectors_per_track", sectors_per_track); ("head_cnt", head_cnt);
   ("hidden_sectors", hidden_sectors); ("large_sector_cnt", large_sector_cnt)].
Lemma bpb_decodes : decodes fat_bpb_t bpb_of bpb_fields.
Proof. decode_fields. Qed.
Definition ebr_fields : list (string * (fat_ebr -> Z)) :=
  [("sectors_per_fat", sectors_per_fat); ("flags", eflags); ("fat_vs", fat_vs); ("cluster_num", cluster_num);
   ("fsinfo_sector", fsinfo_sector); ("backup_bs", backup_bs); ("drive_num", drive_num); ("sig", esig);
   ("volume_id", volume_id)].
Lemma ebr_decodes : decodes fat_ebr_t ebr_of ebr_fields.
Proof. decode_fields. Qed.
Definition gpt_hdr_fields : list (string * (gpt_hdr -> Z)) :=
  [("revision", revision); ("hdrsize", hdrsize); ("checksum", Gpt.checksum); ("res", gres); ("hdrlba", hdrlba);
   ("altlba", altlba); ("first_datablk", first_datablk); ("last_datablk", last_datablk); ("entlba", entlba);
   ("nrentries", nrentries); ("entsize", entsize); ("arrchecksum", arrchecksum)].
Lemma gpt_hdr_decodes : decodes gpt_hdr_t gpt_hdr_of gpt_hdr_fields.
Proof. decode_fields. Qed.
Definition gpt_ent_fields : list (string * (gpt_part_ent -> Z)) :=
  [("lba_start", lba_start); ("lba_end", lba_end); ("attr", Gpt.attr)].
Lemma gpt_ent_decodes : decodes gpt_part_ent_t gpt_ent_of gpt_ent_fields.
Proof. decode_fields. Qed.
Definition ehdr_fields : list (string * (elf64_hdr -> Z)) :=
  [("entry", entry); ("ph_off", ph_off); ("ph_ent_size", ph_ent_size); ("ph_num", ph_num)].
Lemma ehdr_decodes : decodes elf64_hdr_t ehdr_of ehdr_fields.
Proof. decode_fields. Qed.
Definition phdr_fields : list (string * (elf64_phdr -> Z)) :=
  [("type", p_type); ("offset", p_offset); ("vaddr", vaddr); ("file_sz", file_sz); ("mem_sz", mem_sz)].
Lemma phdr_decodes : decodes elf64_phdr_t phdr_of phdr_fields.
Proof. decode_fields. Qed.


(** Two structures do not have the shape they are meant to have.  The 64-bit field of
    [fis_dma_setup_t] is padded to offset 8, so that everything behind it in [hba_fis_t] is
    too far back (the receive area has its parts at 0x20, 0x40 and 0x58 and 0x100 bytes in
    all, as the array [res] says); [fat_fsinfo_t] does not fit into its sector. *)
Example hba_fis_shifted :
  offsetof hba_fis_t ["psfis"] = Some 0x2c /\ offsetof hba_fis_t ["rfis"] = Some 0x4c /\
  offsetof hba_fis_t ["sdbfis"] = Some 0x64 /\ sizeof hba_fis_t = 0x110.
Proof. repeat split; reflexivity. Qed.
Example fat_fsinfo_too_long : sizeof fat_fsinfo_t = 514 /\ offsetof fat_fsinfo_t ["free_clusters"] = Some 492.
Proof. split; reflexivity. Qed.
