(* ===== verification/Entry.v ===== *)
(** * Entry: the header the boot loader reads (src/arch/x86_64/entry.c)

    The initialised objects of entry.c as the bytes the compiler emits, placed at the
    addresses the linker chose.  The theorem reads them back the way a boot loader does,
    with the layouts of Headers.v: the header leads to a frame buffer request and a
    terminal request, and to a stack whose top is the one [tss_init] (Desc.v) gives to
    every processor. *)

From stdpp Require Import strings.
From S2P Require Import Prelude Disk Desc Layout Headers.

Definition STIVALE2_HEADER_TAG_FRAMEBUFFER_ID : Z := 0x3ecc1bc43d0f7971.
Definition STIVALE2_HEADER_TAG_TERMINAL_ID : Z := 0xa85d499b1823be72.
Definition STACK_SIZE : Z := 4096.

(** Addresses of [stack], [termtag], [fbtag]. *)
Record entry_objs : Type := mk_objs { o_stack : Z; o_termtag : Z; o_fbtag : Z; o_hdr : Z }.

Section entry.
Context (o : entry_objs).

Definition termtag : list Z := le_enc 8 STIVALE2_HEADER_TAG_TERMINAL_ID ++ le_enc 8 0 ++ le_enc 8 0.
Definition fbtag : list Z :=
  le_enc 8 STIVALE2_HEADER_TAG_FRAMEBUFFER_ID ++ le_enc 8 (o_termtag o) ++ le_enc 2 0 ++ le_enc 2 0 ++ le_enc 2 32.
Definition stivale_hdr : list Z :=
  le_enc 8 0 ++ le_enc 8 (o_stack o + STACK_SIZE) ++ le_enc 8 0 ++ le_enc 8 (o_fbtag o).

Definition image_of (m : pmem) : pmem :=
  mem_put (mem_put (mem_put m (o_termtag o) termtag) (o_fbtag o) fbtag) (o_hdr o) stivale_hdr.

(** The objects do not overlap and are in the address space. *)
Record placed : Prop := {
  pl_stack : 0 <= o_stack o < 2 ^ 64 - STACK_SIZE;
  pl_tags : 0 < o_termtag o < 2 ^ 64 - 24 /\ 0 < o_fbtag o < 2 ^ 64 - 22 /\ 0 <= o_hdr o < 2 ^ 64 - 32;
  pl_apart : (o_termtag o + 24 <= o_fbtag o \/ o_fbtag o + 22 <= o_termtag o) /\
    (o_termtag o + 24 <= o_hdr o \/ o_hdr o + 32 <= o_termtag o) /\
    (o_fbtag o + 22 <= o_hdr o \/ o_hdr o + 32 <= o_fbtag o);
}.
End entry.

(** The boot loader's side: a structure of type [t] at [a], and the list of tags. *)
Definition at_field (t : ctype) (path : list string) (m : pmem) (a : Z) : option Z := rd_field t path (mem_get m a (sizeof t)).
Fixpoint loader_tags (n : nat) (m : pmem) (a : Z) : option (list (Z * Z)) :=
  match n with
  | O => None
  | S n =>
      if a =? 0 then Some [] else
      match at_field st2_tag_t ["id"%string] m a, at_field st2_tag_t ["next"%string] m a with
      | Some id, Some next => cons (id, a) <$> loader_tags n m next
      | _, _ => None
      end
  end.

Lemma mem_get_put_other m a bs x n : x + n <= a \/ a + Z.of_nat (length bs) <= x -> mem_get (mem_put m a bs) x n = mem_get m x n.
Proof.
  intros Hx. unfold mem_get. apply list_fmap_ext. intros i y Hy%lookup_seqZ. apply mem_put_outside. lia.
Qed.
Lemma mem_get_put_prefix m a bs n : 0 <= n <= Z.of_nat (length bs) -> mem_get (mem_put m a bs) a n = take (Z.to_nat n) bs.
Proof.
  intros Hn. rewrite <- (mem_get_put_same m a bs (Z.of_nat (length bs))) at 2 by done.
  replace (Z.of_nat (length bs)) with (n + (Z.of_nat (length bs) - n)) by lia. rewrite mem_get_app by lia.
  rewrite take_app_length'; [done|]. unfold mem_get. rewrite length_fmap, length_seqZ. lia.
Qed.

Lemma image_reads o m : placed o ->
  mem_get (image_of o m) (o_hdr o) 32 = stivale_hdr o /\ mem_get (image_of o m) (o_fbtag o) 22 = fbtag o /\
  mem_get (image_of o m) (o_fbtag o) 16 = take 16 (fbtag o) /\ mem_get (image_of o m) (o_termtag o) 24 = termtag /\
  mem_get (image_of o m) (o_termtag o) 16 = take 16 termtag.
Proof.
  intros [Hs (Ht & Hf & Hh) (H1 & H2 & H3)]. unfold image_of.
  assert (length termtag = 24%nat) as L1 by done. assert (length (fbtag o) = 22%nat) as L2 by done.
  assert (length (stivale_hdr o) = 32%nat) as L3 by done.
  split_and!.
  - apply mem_get_put_same. by rewrite L3.
  - rewrite mem_get_put_other by (rewrite L3; lia). apply mem_get_put_same. by rewrite L2.
  - rewrite mem_get_put_other by (rewrite L3; lia). by rewrite mem_get_put_prefix by (rewrite L2; lia).
  - rewrite !mem_get_put_other by (rewrite ?L2, ?L3; lia). apply mem_get_put_same. by rewrite L1.
  - rewrite !mem_get_put_other by (rewrite ?L2, ?L3; lia). by rewrite mem_get_put_prefix by (rewrite L1; lia).
Qed.

Lemma le_dec_enc8 x : 0 <= x < 2 ^ 64 -> le_dec (le_enc 8 x) = x.
Proof. intros Hx. rewrite le_dec_enc. by apply uN_small. Qed.

(** What the boot loader finds: the kernel's stack, a request for a frame buffer with 32
    bits per pixel in any resolution, and one for a terminal, in this order; and the
    stack it is told to start the kernel on is, to the byte, the stack that every
    processor's task state segment names for interrupts from user mode. *)
Theorem entry_header_correct o m tp t :
  placed o -> 0 <= tp < 2 ^ 64 -> length t = GDT_NUM_DESCS ->
  let im := image_of o m in
  at_field st2_header_t ["flags"%string] im (o_hdr o) = Some 0 /\
  (exists tags, at_field st2_header_t ["tags"%string] im (o_hdr o) = Some tags /\
    loader_tags 3 im tags = Some [(STIVALE2_HEADER_TAG_FRAMEBUFFER_ID, o_fbtag o); (STIVALE2_HEADER_TAG_TERMINAL_ID, o_termtag o)]) /\
  at_field st2_tagfb_t ["depth"%string] im (o_fbtag o) = Some 32 /\ at_field st2_tagfb_t ["width"%string] im (o_fbtag o) = Some 0 /\
  exists t' x, tss_init tp (o_stack o) t = Ok (t', x) /\
    at_field st2_header_t ["stack"%string] im (o_hdr o) = tss_rsp x !! 0%nat.
Proof.
  intros Hp Htp Ht im. destruct (image_reads o m Hp) as (Rh & Rf & Rf16 & Rt & Rt16). fold im in Rh, Rf, Rf16, Rt, Rt16.
  pose proof Hp as [Hs (Hpt & Hpf & Hph) _]. unfold STACK_SIZE in Hs.
  destruct (tss_init_descriptor tp (o_stack o) t Htp Ht) as (t' & x & e & Hi & _ & _ & _ & _ & _ & _ & Hr & _).
  unfold at_field, rd_field. change (sizeof st2_header_t) with 32. change (sizeof st2_tagfb_t) with 22. rewrite Rh, Rf.
  split; [reflexivity|]. split; [|split; [reflexivity|split; [reflexivity|]]].
  - exists (o_fbtag o). split; [transitivity (Some (le_dec (le_enc 8 (o_fbtag o)))); [reflexivity|by rewrite le_dec_enc8 by lia]|].
    cbn [loader_tags]. unfold at_field, rd_field. change (sizeof st2_tag_t) with 16.
    rewrite (proj2 (Z.eqb_neq (o_fbtag o) 0)), Rf16 by lia.
    transitivity (cons (STIVALE2_HEADER_TAG_FRAMEBUFFER_ID, o_fbtag o) <$> loader_tags 2 im (le_dec (le_enc 8 (o_termtag o)))); [reflexivity|].
    rewrite le_dec_enc8 by lia. cbn [loader_tags]. unfold at_field, rd_field. change (sizeof st2_tag_t) with 16.
    rewrite (proj2 (Z.eqb_neq (o_termtag o) 0)), Rt16 by lia. reflexivity.
  - exists t', x. split; [exact Hi|]. rewrite Hr. transitivity (Some (le_dec (le_enc 8 (o_stack o + STACK_SIZE)))); [reflexivity|].
    unfold STACK_SIZE. rewrite le_dec_enc8, (uN_small 64) by lia. done.
Qed.

Lemma entry_header_correct_witness :
  let o := mk_objs 0x210000 0x220000 0x220018 0x220030 in
  exists tags, at_field st2_header_t ["tags"%string] (image_of o (fun _ => 0)) (o_hdr o) = Some tags /\
    loader_tags 3 (image_of o (fun _ => 0)) tags =
      Some [(STIVALE2_HEADER_TAG_FRAMEBUFFER_ID, 0x220018); (STIVALE2_HEADER_TAG_TERMINAL_ID, 0x220000)].
Proof.
  intros o. destruct (entry_header_correct o (fun _ => 0) 0x230000 (replicate 7 gdt_null)) as (_ & Htags & _).
  - split; unfold STACK_SIZE; cbn; lia.
  - lia.
  - reflexivity.
  - exact Htags.
Defined.
