(* ===== verification/Smp.v ===== *)
(** * Smp: starting the other processors
      (src/arch/x86_64/smp.c, smp.h, smp_boot.S, cpu.h; cpu_getcurr of cpu.c)

    The first processor writes four words and a page of code into low memory, sends
    interrupts through its local APIC (Chips.v) and waits; a started processor runs the
    code (smp_boot.S) and then [smp_entry], which fills in its entry of [cpus].  Memory
    comes from the memory manager of Paging.v and Kheap.v, descriptor tables are those of
    Desc.v.  Whether a processor comes up, and after which start-up interrupt, is a
    parameter; it runs [smp_entry] while the first processor waits, and takes no
    interrupts afterwards.  The waits are those of Timer.v: they end only if interrupts of
    the clock arrive.  The theorem relates
    the resulting table to the idle processors the scheduler (Sched.v) starts from. *)

From stdpp Require Import strings.
From S2P Require Import Prelude Disk Pmm Alloc Kheap DList Paging Vfs Sched Elf Spaces SpaceMake Ports Chips Desc Layout Headers Timer.

Definition SMP_TRAMPOLINE_ENTRY : Z := 0x8000.
Definition smp_cr3 : Z := 0x1000.
Definition smp_gdt : Z := 0x1008.
Definition smp_ent : Z := 0x1010.
Definition smp_stack : Z := 0x1018.
Definition ICR_NO_SHORT : Z := 0x00000.
Definition ICR_INIT : Z := 0x500.
Definition ICR_STRTUP : Z := 0x600.
Definition ICR_ASSERT : Z := 0x4000.
Definition LAPIC_ID : Z := 0x020.
Definition MAX_CPUS : nat := 64.

(** Where the linker put things: [cpus], [bsp_gdtents], [bsp_gdtptr], [smp_entry], [stack],
    the page of code from [_ap_bootstrap_start] on, and the IDT register's operand. *)
Record kimage : Type := mk_kimage {
  at_cpus : Z; at_gdtents : Z; at_gdtptr : Z; at_entry : Z; at_stack : Z; ap_code : list Z; at_idt : idt_record;
}.

(** What [cpu_t.gdt] points to: the static [bsp_gdtents], or a block of the heap. *)
Inductive gdt_ref : Type := Static | Block (a : Z).

(** [cpu_t]. *)
Record cpu_ent : Type := mk_cpu_ent {
  lapic_id : Z; ce_gdt : gdt_ref; gdtptr : gdt_ptr; ce_tss : tss;
  ce_currthread : Z; ce_threads : Z; ce_run_queue : Z; ce_lock : Z;
}.

(** A started processor: its local APIC and the registers the start-up code loads. *)
Record core : Type := mk_core {
  co_apic : apic_hw; co_cr3 : Z; co_rsp : Z; co_gdtr : gdt_ptr; co_idtr : idt_record; co_tr : Z; co_if : bool;
}.

Record smp : Type := mk_smp {
  sm_mem : pstate kheap;            (* memory manager and heap *)
  sm_apic : apic_hw;                (* the first processor's local APIC *)
  sm_low : gmap Z Z;                (* the words at 0x1000 *)
  sm_code : list Z;                 (* the page at SMP_TRAMPOLINE_ENTRY *)
  sm_bsp : gdt; sm_bspptr : gdt_ptr;  (* bsp_gdtents, bsp_gdtptr *)
  sm_gdts : gmap Z gdt;             (* the tables on the heap *)
  sm_cpus : list cpu_ent; cpu_count : Z; ap_initialized : bool;
  sm_cores : gmap Z core;           (* the processors that have been started *)
  sm_time : tstate;                 (* the clock the first processor waits for *)
}.

Definition with_smem (m : pstate kheap) s := mk_smp m (sm_apic s) (sm_low s) (sm_code s) (sm_bsp s) (sm_bspptr s)
  (sm_gdts s) (sm_cpus s) (cpu_count s) (ap_initialized s) (sm_cores s) (sm_time s).
Definition with_apic (a : apic_hw) s := mk_smp (sm_mem s) a (sm_low s) (sm_code s) (sm_bsp s) (sm_bspptr s)
  (sm_gdts s) (sm_cpus s) (cpu_count s) (ap_initialized s) (sm_cores s) (sm_time s).
Definition with_low (l : gmap Z Z) (c : list Z) s := mk_smp (sm_mem s) (sm_apic s) l c (sm_bsp s) (sm_bspptr s)
  (sm_gdts s) (sm_cpus s) (cpu_count s) (ap_initialized s) (sm_cores s) (sm_time s).
Definition with_tables (b : gdt) (g : gmap Z gdt) s := mk_smp (sm_mem s) (sm_apic s) (sm_low s) (sm_code s) b (sm_bspptr s)
  g (sm_cpus s) (cpu_count s) (ap_initialized s) (sm_cores s) (sm_time s).
Definition with_table (l : list cpu_ent) (n : Z) s := mk_smp (sm_mem s) (sm_apic s) (sm_low s) (sm_code s) (sm_bsp s) (sm_bspptr s)
  (sm_gdts s) l n (ap_initialized s) (sm_cores s) (sm_time s).
Definition with_core (id : Z) (c : core) (b : bool) s := mk_smp (sm_mem s) (sm_apic s) (sm_low s) (sm_code s) (sm_bsp s) (sm_bspptr s)
  (sm_gdts s) (sm_cpus s) (cpu_count s) b (<[id := c]> (sm_cores s)) (sm_time s).
Definition with_time (t : tstate) s := mk_smp (sm_mem s) (sm_apic s) (sm_low s) (sm_code s) (sm_bsp s) (sm_bspptr s)
  (sm_gdts s) (sm_cpus s) (cpu_count s) (ap_initialized s) (sm_cores s) t.

Section smp.
Context (im : kimage) (lay : layout) (cr3 : Z) (comes_up : Z -> nat -> bool) (fuel : N).

Definition smem {A} (m : M (pstate kheap) A) : M smp A := fun s =>
  match m (sm_mem s) with Ok (a, p) => Ok (a, with_smem p s) | Err f => Err f end.
Definition sapic {A} (m : M apic_hw A) : M smp A := fun s =>
  match m (sm_apic s) with Ok (a, p) => Ok (a, with_apic p s) | Err f => Err f end.
Definition stime {A} (m : M tstate A) : M smp A := fun s =>
  match m (sm_time s) with Ok (a, p) => Ok (a, with_time p s) | Err f => Err f end.
Definition lift {A} (o : outcome A) : M smp A := fun s => match o with Ok a => Ok (a, s) | Err f => Err f end.

(** [&cpus[id].tss]. *)
Definition tss_at (id : Z) : Z := u64 (at_cpus im + sizeof cpu_t * id + default 0 (offsetof cpu_t ["tss"%string])).

Definition cpu_get (id : Z) : M smp cpu_ent := s ← get; unwrap (sm_cpus s !! Z.to_nat id) OutOfBounds.
Definition cpu_set (id : Z) (e : cpu_ent) : M smp () :=
  _ ← cpu_get id; modify (fun s => with_table (<[Z.to_nat id := e]> (sm_cpus s)) (cpu_count s) s).

(** [tss_init(&cpus[id].tss, 5, cpus[id].gdt)]. *)
Definition cpu_tss (id : Z) : M smp () :=
  e ← cpu_get id;
  s ← get;
  t ← match ce_gdt e with Static => mret (sm_bsp s) | Block g => unwrap (sm_gdts s !! g) OutOfBounds end;
  '(t', x) ← lift (tss_init (tss_at id) (at_stack im) t);
  modify (match ce_gdt e with
          | Static => with_tables t' (sm_gdts s)
          | Block g => with_tables (sm_bsp s) (<[g := t']> (sm_gdts s))
          end);;
  cpu_set id (mk_cpu_ent (lapic_id e) (ce_gdt e) (gdtptr e) x (ce_currthread e) (ce_threads e) (ce_run_queue e) (ce_lock e)).

(** On processor [id], with the registers [c] the start-up code left.  [lgdt], [lidt],
    [ltr] and [sti] set registers of that processor, [lapic_enable] works on its APIC. *)
Definition smp_entry (id : Z) (c : core) : M smp () :=
  e ← cpu_get id;
  g ← smem (with_lm (with_heap (ka_malloc (8 * Z.of_nat GDT_NUM_DESCS))));
  modify (fun s => with_tables (sm_bsp s) (<[g := sm_bsp s]> (sm_gdts s)) s);;
  let ptr := mk_gdt_ptr (8 * Z.of_nat GDT_NUM_DESCS - 1) g in
  cpu_set id (mk_cpu_ent id (Block g) ptr (ce_tss e) (ce_currthread e) (ce_threads e) (ce_run_queue e) (ce_lock e));;
  cpu_tss id;;
  '((), a) ← lift (lapic_enable (co_apic c));
  threads ← smem (with_lm list_create);
  run_queue ← smem (with_lm list_create);
  e ← cpu_get id;
  cpu_set id (mk_cpu_ent (lapic_id e) (ce_gdt e) (gdtptr e) (ce_tss e) 0 threads run_queue 0);;
  modify (fun s => with_table (sm_cpus s) (u32 (cpu_count s + 1)) s);;
  modify (with_core id (mk_core a (co_cr3 c) (co_rsp c) ptr (at_idt im) 0x28 true) true).

(** smp_boot.S: the page at 0x8000 runs; [cr3] is loaded from the lower half of its word
    (through [%eax]), [rsp] with the {e address} of the stack's word, and the entry point
    is called with the APIC id.  Its frames overwrite the three words below. *)
Definition ap_bootstrap (id : Z) : M smp () :=
  s ← get;
  guard (bool_decide (sm_code s = ap_code im)) OutOfBounds;;
  pt ← unwrap (sm_low s !! smp_cr3) OutOfBounds;
  ent ← unwrap (sm_low s !! smp_ent) OutOfBounds;
  guard (ent =? at_entry im) OutOfBounds;;
  put (with_low (delete smp_cr3 (delete smp_gdt (delete smp_ent (sm_low s)))) (sm_code s) s);;
  smp_entry (u16 id) (mk_core (mk_apic ∅ [] 0 0 0 ∅ 0) (u32 pt) smp_stack (mk_gdt_ptr 0 0) (mk_idt_record 0 0) 0 false).

(** [timer_wait] after the [n]th start-up interrupt: while the kernel waits, the processor
    may run. *)
Definition smp_wait (id : Z) (n : nat) (ns : Z) : M smp () :=
  stime (timer_wait fuel ns);;
  s ← get;
  if comes_up id n && bool_decide (sm_cores s !! u16 id = None) then ap_bootstrap id else mret ().

Definition smp_ipi (id type vec : Z) : M smp () := sapic (lapic_send_ipi fuel id ICR_NO_SHORT type vec).

Definition smp_initcpu (id : Z) : M smp () :=
  '(stk, _) ← smem (kernel_page lay);
  s ← get;
  put (with_low (<[smp_stack := u64 (stk + 4096)]> (<[smp_ent := at_entry im]> (<[smp_gdt := at_gdtptr im]>
    (<[smp_cr3 := cr3]> (sm_low s))))) (ap_code im) s);;
  smp_ipi id ICR_INIT 0;;
  stime (timer_wait fuel 10000000);;
  smp_ipi id (ICR_STRTUP .| ICR_ASSERT) (Z.shiftr SMP_TRAMPOLINE_ENTRY 12);;
  smp_wait id 1 200000;;
  s ← get;
  if negb (ap_initialized s) then
    smp_ipi id (ICR_STRTUP .| ICR_ASSERT) (Z.shiftr SMP_TRAMPOLINE_ENTRY 12);;
    smp_wait id 2 1000000000
  else mret ().

(** All processors that ACPI lists, except this one. *)
Fixpoint smp_initcpus (locid : Z) (ids : list Z) : M smp () :=
  match ids with
  | [] => mret ()
  | id :: r => (if negb (id =? locid) then smp_initcpu id else mret ());; smp_initcpus locid r
  end.

Definition smp_init (ids : list Z) : M smp () :=
  v ← sapic (lapic_read LAPIC_ID);
  let locid := Z.shiftr v 24 in
  run_queue ← smem (with_lm list_create);
  threads ← smem (with_lm list_create);
  e ← cpu_get 0;
  s ← get;
  cpu_set 0 (mk_cpu_ent locid Static (sm_bspptr s) (ce_tss e) 0 threads run_queue 0);;
  modify (fun s => with_table (sm_cpus s) 1 s);;
  smp_initcpus locid ids;;
  cpu_tss 0.

(** On the processor whose APIC has the number [apic] ([cpuid] reports it). *)
Definition cpu_getcurr (apic : Z) : M smp cpu_ent := cpu_get (u8 apic).
End smp.

(** ** Memory with blocks set aside *)

(** The memory manager is consistent, [n] pages and frames and [b] bytes of heap are left,
    and the blocks at [X] are in use. *)
Definition blocks_ok (p : pstate kheap) (b : Z) (X : list Z) : Prop :=
  exists R, dl_ok (H0 := ka_framed R) (lm p) b /\ (forall g, is_Some (mregions p !! g) -> g ∈ R.*1) /\
    (forall a, is_Some (maps p !! a) -> a ∈ R.*1) /\ X ⊆ R.*1.
Record kmem (lay : layout) (p : pstate kheap) (n : nat) (b : Z) (X : list Z) : Prop := {
  km_space : space_inv lay p n 0;
  km_blocks : blocks_ok p b X;
}.

Lemma space_kmem lay p n k : space_inv lay p n k -> kmem lay p n (Z.of_nat k * region_cost) [].
Proof.
  intros [Hok Hpg Hfr Hrg Hown Htop]. split.
  - split; try done. eapply regions_ok_mono; [|done]. change region_cost with 336. lia.
  - destruct Hrg as (R & Hdl & HR & HM). exists R. split_and!; try done. by intros x ?%not_elem_of_nil.
Qed.

Lemma kmem_space lay p n k X : kmem lay p n (Z.of_nat k * region_cost) X -> space_inv lay p n k.
Proof. intros [[Hok Hpg Hfr _ Hown Htop] (R & Hdl & HR & HM & _)]. split; try done. by exists R. Qed.

Lemma kmem_kpage lay p n b X : kmem lay p (S (S n)) b X ->
  wp (kernel_page lay) (fun _ p' => kmem lay p' n b X /\ lm p' = lm p) p.
Proof.
  intros [Hsp (R & Hdl & HR & HM & HX)]. eapply wp_mono; [by apply space_kpage_lm_wp|].
  intros r p' (Hsp' & [Em _ Er _ _ _ _] & El & _). split; [|done]. split; [done|]. exists R. by rewrite El, Em, Er.
Qed.

(** Steps that change the heap only. *)
Lemma kmem_heap lay p n b X lm' b' X' R :
  kmem lay p n b X -> 0 <= b' -> dl_ok (H0 := ka_framed R) lm' b' ->
  (forall g, is_Some (mregions p !! g) -> g ∈ R.*1) -> (forall a, is_Some (maps p !! a) -> a ∈ R.*1) -> X' ⊆ R.*1 ->
  kmem lay (upd_lm lm' p) n b' X'.
Proof.
  intros [[(Hw & Hp & Hm) Hpg Hfr _ Hown Htop] _] Hb Hdl HR HM HX. split; [|by exists R].
  split; [split_and!; [by destruct Hw|done|by destruct Hm]|done|done| |done|done].
  apply (regions_ok_mono _ b'); [done|]. by exists R.
Qed.

Lemma kmem_malloc lay p n b X size (Q : Z -> pstate kheap -> Prop) :
  kmem lay p n (b + ka_cost (H := kheap) size) X -> 0 <= b -> 0 <= size < 2 ^ 61 ->
  (forall g p', kmem lay p' n b (g :: X) -> g ∉ X -> nodes (lm p') = nodes (lm p) -> lists (lm p') = lists (lm p) -> Q g p') ->
  wp (with_lm (with_heap (ka_malloc size))) Q p.
Proof.
  intros Hk Hb Hsz HQ. pose proof Hk as [_ (R & (L & Hi & Hnd & HN & HL & Hx) & HR & HM & HX)].
  apply wp_with_lm, wp_with_heap.
  eapply wp_mono; [apply (ka_malloc_wp (lheap (lm p)) (L ++ R)); [exact Hi|lia|done]|].
  intros g h (k & _ & _ & _ & Hsep & Hi'). apply Forall_app in Hsep as [HsL HsR].
  apply HQ; [| |done|done].
  - apply (kmem_heap lay p n (b + ka_cost (H := kheap) size) X _ b _ ((g, k) :: R)); try done.
    + exists L. split_and!; [|done..]. cbn [lheap ka_inv ka_framed]. eapply ka_perm; [|exact Hi']. by rewrite Permutation_middle.
    + intros; right; auto.
    + intros; right; auto.
    + intros x [->|Hin]%elem_of_cons; [by left|right; auto].
  - intros Hin%HX. apply list_elem_of_fmap in Hin as [[a len] [-> Hin]]. rewrite Forall_forall in HsR. by destruct (HsR _ Hin).
Qed.

Lemma kmem_list lay p n b X (Q : Z -> pstate kheap -> Prop) :
  kmem lay p n (b + ka_cost (H := kheap) LIST_SIZE) X -> 0 <= b ->
  (forall l p', kmem lay p' n b X -> l <> 0 -> lists (lm p) !! l = None -> lists (lm p') !! l = Some (mk_list 0 0 0) ->
     (forall l', l' <> l -> lists (lm p') !! l' = lists (lm p) !! l') -> Q l p') ->
  wp (with_lm list_create) Q p.
Proof.
  intros Hk Hb HQ. pose proof Hk as [_ (R & Hdl & HR & HM & HX)]. apply wp_with_lm.
  eapply wp_mono; [apply (list_create_wp (H := kheap) (H0 := ka_framed R) (lm p) b); [exact Hdl|done]|].
  intros l lm' (Hok & Hnone & [Hl0 Hl _ _ _] & Hout & _). apply HQ; try done.
  by apply (kmem_heap lay p n _ X _ b _ R Hk).
Qed.

(** ** What the table of processors says *)

(** [e] is an entry of [cpus] that the scheduler sees as [c]. *)
Definition cpu_rep (l : lmem kheap) (e : cpu_ent) (c : cpu) : Prop :=
  currthread c = ce_currthread e /\ c_lock c = truth (ce_lock e) /\ exists lt lq,
  list_rep l (ce_threads e) lt (Z.of_nat (length lt)) /\ lt.*2 = c_threads c /\
  list_rep l (ce_run_queue e) lq (Z.of_nat (length lq)) /\ lq.*2 = run_queue c.
Definition idle_cpu : cpu := mk_cpu 0 [] [] false.

(** The processors that come up, in order: the first start-up interrupt always counts,
    the second is sent only as long as no processor has come up. *)
Fixpoint started (up : Z -> nat -> bool) (flag : bool) (ids : list Z) : list Z :=
  match ids with
  | [] => []
  | id :: r => if up id 1%nat || (negb flag && up id 2%nat) then id :: started up true r else started up flag r
  end.
(** The interrupts sent (destination, command). *)
Fixpoint start_ipis (up : Z -> nat -> bool) (flag : bool) (ids : list Z) : list (Z * Z) :=
  match ids with
  | [] => []
  | id :: r =>
      let dst := Z.shiftl (u8 id) 24 in
      [(dst, 0x500); (dst, 0x4608)] ++ (if negb flag && negb (up id 1%nat) then [(dst, 0x4608)] else []) ++
      start_ipis up (flag || up id 1%nat || up id 2%nat) r
  end.

(** A processor that is up, with the addresses of its tables and lists. *)
Record upcpu : Type := mk_up { u_id : Z; u_gdt : Z; u_threads : Z; u_queue : Z }.

Section correct.
Context (im : kimage) (lay : layout) (cr3 : Z) (up : Z -> nat -> bool) (fuel : N).
Implicit Types (s : smp) (u : upcpu).

(** Its entry, its own copy of the descriptor table with its own task descriptor, and its
    registers. *)
Definition up_ok s u : Prop :=
  let ptr := mk_gdt_ptr 55 (u_gdt u) in
  exists x t a, sm_cpus s !! Z.to_nat (u_id u) =
      Some (mk_cpu_ent (u_id u) (Block (u_gdt u)) ptr x 0 (u_threads u) (u_queue u) 0) /\
    sm_gdts s !! u_gdt u = Some t /\ tss_base t = Some (tss_at im (u_id u)) /\
    (forall i, i <> 5%nat -> i <> 6%nat -> t !! i = sm_bsp s !! i) /\
    sm_cores s !! u_id u = Some (mk_core a cr3 smp_stack ptr (at_idt im) 0x28 true).

Definition all_empty (p : pstate kheap) (ls : list Z) : Prop :=
  NoDup ls /\ Forall (fun l => l <> 0 /\ lists (lm p) !! l = Some (mk_list 0 0 0)) ls.
Definition up_lists (ups : list upcpu) : list Z := concat ((fun u => [u_threads u; u_queue u]) <$> ups).

Record smp_inv (locid t0 q0 : Z) s (n : nat) (b : Z) (ups : list upcpu) : Prop := {
  sv_mem : kmem lay (sm_mem s) n b (u_gdt <$> ups);
  sv_gdts : NoDup (u_gdt <$> ups);
  sv_lists : all_empty (sm_mem s) ([t0; q0] ++ up_lists ups);
  sv_len : length (sm_cpus s) = MAX_CPUS;
  sv_bsp : length (sm_bsp s) = GDT_NUM_DESCS;
  sv_count : cpu_count s = 1 + Z.of_nat (length ups);
  sv_ids : NoDup (u_id <$> ups) /\ Forall (fun id => 1 <= id < 64) (u_id <$> ups);
  sv_ups : Forall (up_ok s) ups;
  sv_cores : forall id, is_Some (sm_cores s !! id) -> id ∈ u_id <$> ups;
  sv_first : exists x, sm_cpus s !! 0%nat = Some (mk_cpu_ent locid Static (sm_bspptr s) x 0 t0 q0 0);
}.

Lemma smem_wp {A} (m : M (pstate kheap) A) (Q : A -> smp -> Prop) s :
  wp m (fun a p => Q a (with_smem p s)) (sm_mem s) -> wp (smem m) Q s.
Proof. unfold wp, smem. by destruct (m (sm_mem s)) as [[a p]|]. Qed.
Lemma cpu_get_wp id e (Q : cpu_ent -> smp -> Prop) s :
  sm_cpus s !! Z.to_nat id = Some e -> Q e s -> wp (cpu_get id) Q s.
Proof. intros He HQ. unfold cpu_get. wp_step. wp_step. by wp_step. Qed.
Lemma cpu_set_wp id e e' (Q : () -> smp -> Prop) s :
  sm_cpus s !! Z.to_nat id = Some e -> Q () (with_table (<[Z.to_nat id := e']> (sm_cpus s)) (cpu_count s) s) ->
  wp (cpu_set id e') Q s.
Proof. intros He HQ. unfold cpu_set. wp_focus. eapply cpu_get_wp; [done|]. by wp_step. Qed.
Lemma lift_wp {A} (o : outcome A) v (Q : A -> smp -> Prop) s : o = Ok v -> Q v s -> wp (lift o) Q s.
Proof. intros ->. done. Qed.

Lemma all_empty_new p p' ls l :
  all_empty p ls -> l <> 0 -> lists (lm p) !! l = None -> lists (lm p') !! l = Some (mk_list 0 0 0) ->
  (forall l', l' <> l -> lists (lm p') !! l' = lists (lm p) !! l') -> all_empty p' (ls ++ [l]).
Proof.
  intros [Hnd Hall] Hl0 Hnone Hl Hout. rewrite Forall_forall in Hall.
  assert (forall x, x ∈ ls -> x <> l) as Hne by (intros x Hx ->; destruct (Hall _ Hx); congruence). split.
  - apply NoDup_app. split_and!; [done| |apply NoDup_singleton].
    intros x Hx ->%list_elem_of_singleton. by apply (Hne l).
  - apply Forall_app. split; [|by repeat constructor]. apply Forall_forall. intros x Hx. rewrite Hout by auto. auto.
Qed.

Lemma all_empty_same p p' ls : lists (lm p') = lists (lm p) -> all_empty p ls -> all_empty p' ls.
Proof. intros E [Hnd Hall]. split; [done|]. by rewrite E. Qed.

Lemma tss_at_range id : 0 <= tss_at im id < 2 ^ 64.
Proof. unfold tss_at. by apply uN_range. Qed.

(** The task descriptor of a processor with a table on the heap. *)
Lemma cpu_tss_block_wp id e g t (Q : () -> smp -> Prop) s :
  sm_cpus s !! Z.to_nat id = Some e -> ce_gdt e = Block g -> sm_gdts s !! g = Some t -> length t = GDT_NUM_DESCS ->
  (forall t' x, tss_base t' = Some (tss_at im id) -> (forall i, i <> 5%nat -> i <> 6%nat -> t' !! i = t !! i) ->
     Q () (with_table (<[Z.to_nat id := mk_cpu_ent (lapic_id e) (Block g) (gdtptr e) x (ce_currthread e) (ce_threads e)
             (ce_run_queue e) (ce_lock e)]> (sm_cpus s)) (cpu_count s)
          (with_tables (sm_bsp s) (<[g := t']> (sm_gdts s)) s))) ->
  wp (cpu_tss im id) Q s.
Proof.
  intros He Hg Ht Hlen HQ.
  destruct (tss_init_descriptor (tss_at im id) (at_stack im) t (tss_at_range id) Hlen)
    as (t' & x & d & Hi & _ & Hb & _ & _ & _ & _ & _ & Hsame).
  unfold cpu_tss. wp_focus. eapply cpu_get_wp; [done|]. wp_step. wp_step. rewrite Hg. wp_focus. wp_step; [done|].
  wp_focus. eapply lift_wp; [exact Hi|]. cbv beta iota. wp_step. wp_step. eapply cpu_set_wp; [exact He|]. by apply HQ.
Qed.

Definition CPU_COST : Z := 672.

(** What a step of the first processor leaves alone. *)
Definition same_base s s' : Prop :=
  sm_low s' = sm_low s /\ sm_code s' = sm_code s /\ sm_apic s' = sm_apic s /\ sm_bsp s' = sm_bsp s /\ sm_time s' = sm_time s.

Lemma up_lists_snoc ups u : up_lists (ups ++ [u]) = up_lists ups ++ [u_threads u; u_queue u].
Proof. unfold up_lists. rewrite fmap_app, concat_app. done. Qed.

(** Entries of other processors, their tables and cores are not touched. *)
Lemma up_ok_frame s s' u :
  up_ok s u -> sm_cpus s' !! Z.to_nat (u_id u) = sm_cpus s !! Z.to_nat (u_id u) ->
  sm_gdts s' !! u_gdt u = sm_gdts s !! u_gdt u -> sm_cores s' !! u_id u = sm_cores s !! u_id u ->
  sm_bsp s' = sm_bsp s -> up_ok s' u.
Proof. intros (x & t & a & Hc & Hg & Hb & Hi & Ho) E1 E2 E3 E4. exists x, t, a. by rewrite E1, E2, E3, E4. Qed.

(** A processor is added to the table. *)
Lemma smp_inv_add locid t0 q0 s n b' b ups id g lt lq p x t' a :
  smp_inv locid t0 q0 s n b' ups -> 1 <= id < 64 -> id ∉ u_id <$> ups -> g ∉ u_gdt <$> ups ->
  kmem lay p n b (g :: (u_gdt <$> ups)) -> all_empty p (([t0; q0] ++ up_lists ups ++ [lt]) ++ [lq]) ->
  tss_base t' = Some (tss_at im id) -> (forall i, i <> 5%nat -> i <> 6%nat -> t' !! i = sm_bsp s !! i) ->
  let ptr := mk_gdt_ptr 55 g in
  smp_inv locid t0 q0 (mk_smp p (sm_apic s) (sm_low s) (sm_code s) (sm_bsp s) (sm_bspptr s) (<[g := t']> (sm_gdts s))
    (<[Z.to_nat id := mk_cpu_ent id (Block g) ptr x 0 lt lq 0]> (sm_cpus s)) (u32 (cpu_count s + 1)) true
    (<[id := mk_core a cr3 smp_stack ptr (at_idt im) 0x28 true]> (sm_cores s)) (sm_time s)) n b (ups ++ [mk_up id g lt lq]).
Proof.
  intros [Hmem Hgd Hls Hlen Hbsp Hcnt [Hnd Hids] Hups Hco [x0 Hfst]] Hid Hnew Hg Hk3 He3 Htb Hsame ptr. unfold MAX_CPUS in Hlen.
  assert (Z.to_nat id <> 0%nat) as Hid0 by lia.
  split; cbn [sm_mem sm_cpus sm_bsp cpu_count sm_cores sm_bspptr]; rewrite ?fmap_app.
  - destruct Hk3 as [Hs3 (R & H1 & H2 & H3 & H4)]. split; [done|]. exists R. split_and!; try done.
    intros y [Hy|Hy]%elem_of_app; apply H4; [by right|]. apply list_elem_of_singleton in Hy as ->. by left.
  - apply NoDup_app. split_and!; [done| |apply NoDup_singleton]. intros y Hy ->%list_elem_of_singleton. done.
  - rewrite up_lists_snoc. cbn [u_threads u_queue]. by rewrite <-!app_assoc in He3.
  - by rewrite length_insert.
  - done.
  - assert (length ups < 64)%nat as Hlu.
    { rewrite <- (length_fmap u_id ups). apply (Nat.le_lt_trans _ (length (seqZ 1 63))); [|rewrite length_seqZ; lia].
      apply NoDup_incl_length; [by apply NoDup_ListNoDup|]. intros y Hy%list_elem_of_In. apply list_elem_of_In, elem_of_seqZ.
      rewrite Forall_forall in Hids. specialize (Hids _ Hy). lia. }
    rewrite length_app, Hcnt. cbn [length]. rewrite uN_small; lia.
  - split.
    + apply NoDup_app. split_and!; [done| |apply NoDup_singleton]. intros y Hy ->%list_elem_of_singleton. done.
    + apply Forall_app. split; [done|]. by constructor; [|constructor].
  - apply Forall_app. split.
    + rewrite Forall_forall in Hids. apply Forall_forall. intros u Hu. pose proof (proj1 (Forall_forall _ _) Hups u Hu) as Huok. pose proof (list_elem_of_fmap_2 u_id _ _ Hu) as Hui.
      pose proof (list_elem_of_fmap_2 u_gdt _ _ Hu) as Hug. pose proof (Hids _ Hui) as Hur.
      assert (u_id u <> id) by congruence. assert (u_gdt u <> g) by congruence.
      apply (up_ok_frame s); [done|..]; cbn.
      * apply list_lookup_insert_ne. lia.
      * by apply lookup_insert_ne.
      * by apply lookup_insert_ne.
      * done.
    + constructor; [|done]. eexists x, t', _. cbn. rewrite list_lookup_insert_eq by lia. rewrite !lookup_insert_eq.
      by split_and!.
  - intros y. rewrite lookup_insert. case_decide as Hd; [intros _; subst; apply elem_of_app; right; by left|].
    intros Hy%Hco. apply elem_of_app. by left.
  - exists x0. by rewrite list_lookup_insert_ne by lia.
Qed.

Lemma smp_entry_wp locid t0 q0 s n b ups id c :
  smp_inv locid t0 q0 s n (b + CPU_COST) ups -> 0 <= b -> 1 <= id < 64 -> id ∉ u_id <$> ups ->
  co_cr3 c = cr3 -> co_rsp c = smp_stack ->
  wp (smp_entry im id c) (fun _ s' => same_base s s' /\ ap_initialized s' = true /\
    exists u, u_id u = id /\ smp_inv locid t0 q0 s' n b (ups ++ [u])) s.
Proof.
  intros Hinv Hb Hid Hnew Hcr3 Hrsp. pose proof Hinv as [Hmem _ Hls Hlen Hbsp _ _ _ _ _]. unfold MAX_CPUS in Hlen.
  destruct (lookup_lt_is_Some_2 (sm_cpus s) (Z.to_nat id)) as [e He]; [lia|].
  unfold smp_entry. wp_focus. eapply cpu_get_wp; [exact He|]. wp_focus. apply smem_wp.
  eapply (kmem_malloc lay _ n (b + 2 * 192)); [|lia|vm_compute; split; congruence|].
  { replace (b + 2 * 192 + _) with (b + CPU_COST) by (unfold CPU_COST; change (ka_cost _) with 288; lia). exact Hmem. }
  intros g p1 Hk1 Hg En1 El1. wp_step. wp_step. cbv zeta. wp_focus. eapply cpu_set_wp; [exact He|].
  cbn [with_table with_tables with_smem sm_cpus sm_gdts sm_bsp cpu_count sm_mem].
  wp_focus. eapply (cpu_tss_block_wp id _ g (sm_bsp s)).
  { cbn. apply list_lookup_insert_eq. lia. } { done. } { cbn. apply lookup_insert_eq. } { done. }
  intros t' x Htb Hsame. cbn [with_table with_tables with_smem sm_cpus sm_gdts sm_bsp cpu_count sm_mem lapic_id gdtptr ce_currthread ce_threads ce_run_queue ce_lock].
  rewrite list_insert_insert_eq, insert_insert_eq.
  wp_focus. eapply lift_wp; [reflexivity|]. cbv beta iota.
  wp_focus. apply smem_wp. eapply (kmem_list lay _ n (b + 192)); [|lia|].
  { replace (b + 192 + ka_cost LIST_SIZE) with (b + 2 * 192) by (change (ka_cost LIST_SIZE) with 192; lia). exact Hk1. }
  intros lt p2 Hk2 Hlt0 Hltn Hlt Hlo. wp_focus. apply smem_wp. eapply (kmem_list lay _ n b); [|lia|].
  { replace (b + ka_cost LIST_SIZE) with (b + 192) by (change (ka_cost LIST_SIZE) with 192; lia). exact Hk2. }
  intros lq p3 Hk3 Hlq0 Hlqn Hlq Hlo'.
  assert (all_empty p3 (([t0; q0] ++ up_lists ups ++ [lt]) ++ [lq])) as He3.
  { apply (all_empty_new p2 p3); [|done..]. rewrite app_assoc. apply (all_empty_new p1 p2); [|done..]. by apply (all_empty_same (sm_mem s)). }
  wp_focus. eapply cpu_get_wp. { cbn. apply list_lookup_insert_eq. lia. }
  wp_focus. eapply cpu_set_wp. { cbn. apply list_lookup_insert_eq. lia. }
  cbn [with_table with_tables with_smem sm_cpus sm_gdts sm_bsp cpu_count sm_mem lapic_id ce_gdt gdtptr ce_tss].
  rewrite list_insert_insert_eq. wp_step. wp_step. wp_step.
  split; [done|]. split; [done|]. exists (mk_up id g lt lq). split; [done|]. rewrite Hcr3, Hrsp.
  by apply (smp_inv_add locid t0 q0 s n (b + CPU_COST)).
Qed.

Lemma kmem_mono p n b b' X : kmem lay p n b X -> b' <= b -> kmem lay p n b' X.
Proof.
  intros [Hs (R & (L & (l & Hrep & Hlock & [Hr1 Hr2] & Hal) & Hrest) & HR)] Hb. split; [done|]. exists R. split; [|done].
  exists L. split; [|done]. exists l. split_and!; try done. split; lia.
Qed.

(** The table only depends on these parts of the state. *)
Lemma smp_inv_frame locid t0 q0 s s' n n' b b' ups :
  smp_inv locid t0 q0 s n b ups -> kmem lay (sm_mem s') n' b' (u_gdt <$> ups) -> lists (lm (sm_mem s')) = lists (lm (sm_mem s)) ->
  sm_cpus s' = sm_cpus s -> sm_gdts s' = sm_gdts s -> sm_bsp s' = sm_bsp s -> sm_bspptr s' = sm_bspptr s ->
  cpu_count s' = cpu_count s -> sm_cores s' = sm_cores s -> smp_inv locid t0 q0 s' n' b' ups.
Proof.
  intros [Hmem Hgd Hls Hlen Hbsp Hcnt Hids Hups Hco Hfst] Hk El Ec Eg Eb Ep En Eco.
  split; rewrite ?Ec, ?Eb, ?En, ?Eco, ?Ep; try done; [by apply (all_empty_same (sm_mem s))|].
  eapply Forall_impl; [exact Hups|]. intros u Hu. apply (up_ok_frame s); by rewrite ?Ec, ?Eg, ?Eb, ?Eco.
Qed.

Lemma smp_ipi_wp id type vec s (Q : () -> smp -> Prop) :
  (la_delay (sm_apic s) < N.to_nat fuel)%nat -> 0 <= type < 2 ^ 32 ->
  (forall a', la_sent a' = la_sent (sm_apic s) ++ [(Z.shiftl (u8 id) 24, type .| u8 vec)] ->
     la_delay a' = la_delay (sm_apic s) -> Q () (with_apic a' s)) ->
  wp (smp_ipi fuel id type vec) Q s.
Proof.
  intros Hf Ht HQ.
  destruct (wp_Ok _ _ _ (send_ipi_wp fuel id ICR_NO_SHORT type vec (sm_apic s) Hf ltac:(unfold ICR_NO_SHORT; lia) Ht))
    as ([] & a' & Ha & Hs & _ & Hd & _). unfold smp_ipi, sapic, wp. rewrite Ha. apply HQ; [|done].
  rewrite Hs. unfold ICR_NO_SHORT. by rewrite Z.lor_0_l.
Qed.

(** The words and the code are in place for the next processor. *)
Definition prepared s : Prop :=
  sm_low s !! smp_cr3 = Some cr3 /\ sm_low s !! smp_ent = Some (at_entry im) /\ sm_code s = ap_code im.

(** [us]: the processor that has come up, if one has. *)
Definition came_up (go : bool) (id : Z) (ups us : list upcpu) : Prop := u_id <$> us = if go then [id] else [].

(** Interrupts of the clock keep arriving, and the page tables are below 4 GB. *)
Context (hz : Z) (g : nat) (Hcr3 : 0 <= cr3 < 2 ^ 32).

Lemma stime_wait_wp ns s (Q : () -> smp -> Prop) :
  ticking hz g fuel (sm_time s) -> 0 < ns <= 1000000000 ->
  (forall t, ticking hz g fuel t -> Q () (with_time t s)) -> wp (stime (timer_wait fuel ns)) Q s.
Proof.
  intros Ht Hns HQ. destruct (wp_Ok _ _ _ (ticking_wait_wp hz g fuel ns _ Ht Hns)) as ([] & t & E & Ht' & _).
  unfold wp, stime. rewrite E. by apply HQ.
Qed.

(** What a wait of the first processor leaves alone; the words too, if none came up. *)
Definition wait_base (go : bool) s s' : Prop :=
  sm_apic s' = sm_apic s /\ sm_bsp s' = sm_bsp s /\ ticking hz g fuel (sm_time s') /\
  (go = false -> sm_low s' = sm_low s /\ sm_code s' = sm_code s).

Lemma ap_bootstrap_wp locid t0 q0 s n b ups id :
  smp_inv locid t0 q0 s n (b + CPU_COST) ups -> 0 <= b -> 1 <= id < 64 -> id ∉ u_id <$> ups -> prepared s ->
  ticking hz g fuel (sm_time s) ->
  wp (ap_bootstrap im id) (fun _ s' => wait_base true s s' /\ ap_initialized s' = true /\
    exists u, u_id u = id /\ smp_inv locid t0 q0 s' n b (ups ++ [u])) s.
Proof.
  intros Hinv Hb Hid Hnew (Hp & Hent & Hcode) Ht. unfold ap_bootstrap. wp_step. wp_step. wp_step. wp_step; [by rewrite bool_decide_true|].
  wp_step. wp_step; [exact Hp|]. wp_step. wp_step; [exact Hent|]. wp_step. wp_step; [apply Z.eqb_refl|]. wp_step. wp_step.
  rewrite (uN_small 16) by lia. rewrite (uN_small 32 cr3) by lia.
  eapply wp_mono; [apply (smp_entry_wp locid t0 q0 _ n b ups); [|done..]|].
  { by apply (smp_inv_frame locid t0 q0 s _ n n (b + CPU_COST)); try done; apply Hinv. }
  intros [] s' ((_ & _ & Ea & Eb & Et) & Hap & Hu). cbn [with_low sm_apic sm_bsp sm_time] in Ea, Eb, Et.
  split; [|done]. split_and!; [done|done|by rewrite Et|done].
Qed.

Lemma smp_wait_wp locid t0 q0 s n b ups id k ns :
  smp_inv locid t0 q0 s n (b + CPU_COST) ups -> 0 <= b -> 1 <= id < 64 -> id ∉ u_id <$> ups -> prepared s ->
  ticking hz g fuel (sm_time s) -> 0 < ns <= 1000000000 ->
  wp (smp_wait im up fuel id k ns) (fun _ s' => wait_base (up id k) s s' /\ ap_initialized s' = ap_initialized s || up id k /\
    exists us, came_up (up id k) id ups us /\ smp_inv locid t0 q0 s' n (if up id k then b else b + CPU_COST) (ups ++ us)) s.
Proof.
  intros Hinv Hb Hid Hnew Hprep Ht Hns. unfold smp_wait. wp_focus. apply stime_wait_wp; [done|done|]. intros t Ht'.
  wp_step. wp_step. rewrite (uN_small 16) by lia. set (s1 := with_time t s).
  assert (smp_inv locid t0 q0 s1 n (b + CPU_COST) ups) as Hinv1.
  { by apply (smp_inv_frame locid t0 q0 s s1 n n (b + CPU_COST)); try done; apply Hinv. }
  assert (sm_cores s1 !! id = None) as Hno.
  { apply eq_None_not_Some. intros Hs. apply Hnew. by apply Hinv1. }
  rewrite bool_decide_true, andb_true_r by done. destruct (up id k).
  - eapply wp_mono; [by apply (ap_bootstrap_wp locid t0 q0 s1 n b ups)|].
    intros [] s' (Hsb & Hap & u & Hu & Hinv'). split; [done|]. split; [by rewrite Hap, orb_true_r|].
    exists [u]. split; [|done]. unfold came_up. cbn. by rewrite Hu.
  - wp_step. split; [done|]. split; [by rewrite orb_false_r|]. exists []. split; [done|]. by rewrite app_nil_r.
Qed.

Definition goes (flag : bool) (id : Z) : bool := up id 1%nat || (negb flag && up id 2%nat).

Lemma smp_initcpu_wp locid t0 q0 s n b ups id :
  smp_inv locid t0 q0 s (S (S n)) (b + CPU_COST) ups -> 0 <= b -> 1 <= id < 64 -> id ∉ u_id <$> ups ->
  (la_delay (sm_apic s) < N.to_nat fuel)%nat -> ticking hz g fuel (sm_time s) ->
  let flag := ap_initialized s in
  wp (smp_initcpu im lay cr3 up fuel id) (fun _ s' => ticking hz g fuel (sm_time s') /\ la_delay (sm_apic s') = la_delay (sm_apic s) /\ sm_bsp s' = sm_bsp s /\
    la_sent (sm_apic s') = la_sent (sm_apic s) ++ [(Z.shiftl (u8 id) 24, 0x500); (Z.shiftl (u8 id) 24, 0x4608)] ++
      (if negb flag && negb (up id 1%nat) then [(Z.shiftl (u8 id) 24, 0x4608)] else []) /\
    ap_initialized s' = flag || goes flag id /\
    exists us, came_up (goes flag id) id ups us /\ smp_inv locid t0 q0 s' n b (ups ++ us)) s.
Proof.
  intros Hinv Hb Hid Hnew Hf Ht flag. unfold smp_initcpu. wp_focus. apply smem_wp.
  eapply wp_mono; [apply (kmem_kpage lay _ n (b + CPU_COST) (u_gdt <$> ups)), Hinv|]. intros [stk fr] p1 [Hk1 El1]. cbv beta iota.
  do 4 wp_step. wp_focus. apply smp_ipi_wp; [done|unfold ICR_INIT; lia|]. intros a1 Hs1 Hd1. cbn [sm_apic with_low with_smem] in Hs1, Hd1.
  wp_focus. apply stime_wait_wp; [done|lia|]. intros t1 Ht1.
  wp_focus. apply smp_ipi_wp; [cbn; lia|vm_compute; split; [discriminate|reflexivity]|]. cbn [sm_apic with_apic with_low with_smem with_time]. intros a2 Hs2 Hd2.
  wp_focus. set (s2 := with_apic _ _).
  assert (smp_inv locid t0 q0 s2 n (b + CPU_COST) ups) as Hinv2 by (by apply (smp_inv_frame locid t0 q0 s s2 (S (S n)) n (b + CPU_COST)); cbn; rewrite ?El1).
  assert (prepared s2) as Hprep by (split_and!; cbn [sm_low sm_code s2 with_apic with_low with_smem with_time]; by simplify_map_eq).
  eapply wp_mono; [by apply (smp_wait_wp locid t0 q0 s2 n b ups id 1)|].
  intros [] s3 ((Eap & Ebs & Ht3 & Elow) & Hfl & us & Hus & Hinv3). cbn [sm_apic s2 with_apic] in Eap. change (ap_initialized s2) with flag in Hfl.
  wp_step. wp_step. rewrite Hfl. unfold goes. destruct (up id 1%nat) eqn:Hu1.
  { rewrite orb_true_r. cbn [negb orb]. wp_step. rewrite andb_false_r, app_nil_r, Eap, Hd2, Hd1, Hs2, Hs1, <-app_assoc.
    split; [done|]. split; [done|]. split; [done|]. split; [done|]. split; [by rewrite Hfl|]. by exists us. }
  unfold came_up in Hus. apply fmap_nil_inv in Hus as ->. rewrite app_nil_r in Hinv3. rewrite orb_false_r in Hfl |- *.
  destruct flag; cbn [negb andb orb].
  { wp_step. rewrite app_nil_r, Eap, Hd2, Hd1, Hs2, Hs1, <-app_assoc. split; [done|]. split; [done|]. split; [done|]. split; [done|]. split; [by rewrite Hfl|].
    exists []. split; [done|]. rewrite app_nil_r. apply (smp_inv_frame locid t0 q0 s3 s3 n n (b + CPU_COST)); try done.
    apply (kmem_mono _ _ (b + CPU_COST)); [apply Hinv3|unfold CPU_COST; lia]. }
  wp_focus. apply smp_ipi_wp; [rewrite Eap; lia|vm_compute; split; [discriminate|reflexivity]|]. intros a3 Hs3 Hd3.
  eapply wp_mono; [apply (smp_wait_wp locid t0 q0 _ n b ups id 2); [|done|done|done| |done|lia]|].
  { by apply (smp_inv_frame locid t0 q0 s3 _ n n (b + CPU_COST)); try done; apply Hinv3. }
  { unfold prepared. cbn [with_apic sm_low sm_code]. destruct (Elow eq_refl) as [Elo Eco]. by rewrite Elo, Eco. }
  intros [] s4 ((Eap4 & Ebs4 & Ht4 & _) & Hfl4 & us & Hus & Hinv4). cbn [sm_apic with_apic ap_initialized] in Eap4, Hfl4.
  rewrite Eap4, Hd3, Eap, Hd2, Hd1, Hs3, Eap, Hs2, Hs1, <-!app_assoc. split; [done|]. split; [done|]. split; [by rewrite Ebs4|]. split; [done|].
  split; [by rewrite Hfl4, Hfl|]. exists us. split; [done|].
  apply (smp_inv_frame locid t0 q0 s4 s4 n n (if up id 2%nat then b else b + CPU_COST)); try done.
  apply (kmem_mono _ _ (if up id 2%nat then b else b + CPU_COST)); [apply Hinv4|unfold CPU_COST; destruct (up id 2%nat); lia].
Qed.

Lemma smp_initcpus_wp locid t0 q0 ids s n b ups :
  let others := filter (fun id => id <> locid) ids in
  smp_inv locid t0 q0 s (length others * 2 + n) (b + Z.of_nat (length others) * CPU_COST) ups -> 0 <= b ->
  Forall (fun id => 1 <= id < 64) others -> NoDup others -> others ## u_id <$> ups ->
  (la_delay (sm_apic s) < N.to_nat fuel)%nat -> ticking hz g fuel (sm_time s) ->
  wp (smp_initcpus im lay cr3 up fuel locid ids) (fun _ s' =>
    la_sent (sm_apic s') = la_sent (sm_apic s) ++ start_ipis up (ap_initialized s) others /\ sm_bsp s' = sm_bsp s /\ ticking hz g fuel (sm_time s') /\
    exists us, u_id <$> us = started up (ap_initialized s) others /\ smp_inv locid t0 q0 s' n b (ups ++ us)) s.
Proof.
  revert s ups. induction ids as [|id ids IH]; intros s ups others Hinv Hb Hr Hnd Hdis Hf Ht.
  { cbn in others. subst others. cbn [smp_initcpus start_ipis started filter list_filter]. wp_step. rewrite app_nil_r. split; [done|]. split; [done|]. split; [done|]. exists []. split; [done|]. rewrite app_nil_r.
    by rewrite Z.add_0_r in Hinv. }
  subst others. cbn [smp_initcpus]. rewrite filter_cons in *. destruct (Z.eqb_spec id locid) as [->|Hne]; cbn [negb].
  { rewrite decide_False in * by tauto. wp_step. wp_step. by apply IH. }
  rewrite decide_True in * by done. set (others := filter _ ids) in *. cbn [length] in Hinv.
  apply Forall_cons in Hr as [Hid Hr]. apply NoDup_cons in Hnd as [Hni Hnd].
  assert (id ∉ u_id <$> ups) as Hnu by (intros Hin; apply (Hdis id); [by left|done]).
  wp_focus. eapply wp_mono; [apply (smp_initcpu_wp locid t0 q0 s (length others * 2 + n) (b + Z.of_nat (length others) * CPU_COST) ups);
    [|unfold CPU_COST; lia|done|done|done|done]|].
  { replace (b + Z.of_nat (length others) * CPU_COST + CPU_COST) with (b + Z.of_nat (S (length others)) * CPU_COST) by lia. exact Hinv. }
  intros [] s1 (Ht1 & Hd & Hbs & Hs & Hfl & us & Hus & Hinv1). unfold came_up in Hus.
  eapply wp_mono; [apply (IH s1 (ups ++ us)); [done|done|done|done| |lia|done]|].
  { intros x Hx. rewrite fmap_app, elem_of_app, Hus. intros [Hin|Hin]; [apply (Hdis x); [by right|done]|].
    destruct (goes _ _); [apply list_elem_of_singleton in Hin as ->; done|by apply not_elem_of_nil in Hin]. }
  intros [] s2 (Hs2 & Hbs2 & Ht2 & us2 & Hus2 & Hinv2). rewrite Hfl in Hs2, Hus2. split; [|split; [by rewrite Hbs2|split; [done|]]].
  - rewrite Hs2, Hs, <-!app_assoc. cbn [start_ipis]. cbn [app]. do 3 f_equal. unfold goes.
    by destruct (ap_initialized s), (up id 1%nat), (up id 2%nat).
  - exists (us ++ us2). split; [|by rewrite app_assoc]. rewrite fmap_app, Hus, Hus2. cbn [started]. unfold goes.
    by destruct (ap_initialized s), (up id 1%nat), (up id 2%nat).
Qed.

Lemma cpu_tss_static_wp locid t0 q0 s n b ups :
  smp_inv locid t0 q0 s n b ups ->
  wp (cpu_tss im 0) (fun _ s' => smp_inv locid t0 q0 s' n b ups /\ sm_apic s' = sm_apic s /\ sm_time s' = sm_time s /\
    tss_base (sm_bsp s') = Some (tss_at im 0) /\ (forall i, i <> 5%nat -> i <> 6%nat -> sm_bsp s' !! i = sm_bsp s !! i)) s.
Proof.
  intros [Hmem Hgd Hls Hlen Hbsp Hcnt [Hnd Hids] Hups Hco [x0 Hfst]].
  destruct (tss_init_descriptor (tss_at im 0) (at_stack im) (sm_bsp s) (tss_at_range 0) Hbsp)
    as (t' & x & d & Hi & _ & Hb & _ & _ & _ & _ & _ & Hsame).
  assert (length t' = GDT_NUM_DESCS) as Hlt.
  { unfold tss_init, gdt_set_entry, gdt_set_raw_entry in Hi. rewrite !gdt_put_ok in Hi by (rewrite Hbsp; unfold GDT_NUM_DESCS; lia).
    cbn [bind] in Hi. rewrite gdt_put_ok in Hi by (rewrite length_insert, Hbsp; unfold GDT_NUM_DESCS; lia).
    injection Hi as <- _. by rewrite !length_insert. }
  unfold cpu_tss. wp_focus. eapply cpu_get_wp; [exact Hfst|]. wp_step. wp_step. cbn [ce_gdt]. wp_step. wp_step.
  wp_focus. eapply lift_wp; [exact Hi|]. cbv beta iota. wp_step. wp_step. eapply cpu_set_wp; [exact Hfst|].
  split_and!; [|done|done|done|done]. unfold MAX_CPUS in Hlen.
  split; cbn [sm_mem sm_cpus sm_bsp cpu_count sm_cores sm_bspptr with_table with_tables]; try done.
  - by rewrite length_insert.
  - rewrite Forall_forall in Hids. apply Forall_forall. intros u Hu.
    destruct (proj1 (Forall_forall _ _) Hups u Hu) as (y & t & a & H1 & H2 & H3 & H4 & H5).
    pose proof (Hids _ (list_elem_of_fmap_2 u_id _ _ Hu)). exists y, t, a. cbn.
    rewrite list_lookup_insert_ne by lia. split_and!; try done. intros i ??. by rewrite Hsame by done; auto.
  - exists x. cbn. by apply list_lookup_insert_eq; lia.
Qed.

Lemma empty_list_rep p ls l : all_empty p ls -> l ∈ ls -> list_rep (lm p) l [] 0.
Proof.
  intros [_ Hall] Hl. rewrite Forall_forall in Hall. destruct (Hall _ Hl) as [Hl0 Hls].
  split; cbn; try done; [constructor|by apply not_elem_of_nil].
Qed.

(** Every processor in the table is idle for the scheduler. *)
Lemma smp_inv_idle locid t0 q0 s n b ups id :
  smp_inv locid t0 q0 s n b ups -> id ∈ 0 :: (u_id <$> ups) ->
  exists e, sm_cpus s !! Z.to_nat id = Some e /\ cpu_rep (lm (sm_mem s)) e idle_cpu.
Proof.
  intros [Hmem Hgd Hls Hlen Hbsp Hcnt [Hnd Hids] Hups Hco [x0 Hfst]] [->|Hin]%elem_of_cons.
  - eexists. split; [exact Hfst|]. split; [done|]. split; [done|]. exists [], [].
    split_and!; [|done| |done]; cbn; (eapply empty_list_rep; [exact Hls|]); set_solver.
  - apply list_elem_of_fmap in Hin as (u & -> & Hu). destruct (proj1 (Forall_forall _ _) Hups u Hu) as (y & t & a & H1 & _).
    assert (u_threads u ∈ up_lists ups /\ u_queue u ∈ up_lists ups) as [Ht Hq].
    { unfold up_lists. split; (apply list_elem_of_In, in_concat; exists [u_threads u; u_queue u]; split;
        [by apply list_elem_of_In, list_elem_of_fmap; exists u|simpl; auto]). }
    eexists. split; [exact H1|]. split; [done|]. split; [done|]. exists [], [].
    split_and!; [|done| |done]; cbn; (eapply empty_list_rep; [exact Hls|]); set_solver.
Qed.

(** The table as far as [cpu_count], when the processors are numbered without gaps. *)
Lemma smp_inv_view locid t0 q0 s n b ups :
  smp_inv locid t0 q0 s n b ups -> u_id <$> ups ≡ₚ seqZ 1 (Z.of_nat (length ups)) ->
  Forall2 (cpu_rep (lm (sm_mem s))) (take (Z.to_nat (cpu_count s)) (sm_cpus s)) (replicate (Z.to_nat (cpu_count s)) idle_cpu).
Proof.
  intros Hinv Hp. pose proof (sv_count _ _ _ _ _ _ _ Hinv) as Hcnt. apply Forall2_same_length_lookup_2.
  - assert (length ups < MAX_CPUS)%nat as Hlt.
    { destruct Hinv as [_ _ _ _ _ _ [Hnd Hids] _ _ _]. rewrite Hp in Hids. destruct (length ups) as [|m]; [unfold MAX_CPUS; lia|].
      rewrite Forall_forall in Hids. specialize (Hids (Z.of_nat (S m)) ltac:(apply elem_of_seqZ; lia)). unfold MAX_CPUS. lia. }
    rewrite length_take, length_replicate, (sv_len _ _ _ _ _ _ _ Hinv), Hcnt. lia.
  - intros i e c He Hc. apply lookup_take_Some in He as [He Hi]. apply lookup_replicate in Hc as [-> _].
    destruct (smp_inv_idle locid t0 q0 s n b ups (Z.of_nat i) Hinv) as (e' & He' & Hrep).
    + destruct i as [|i]; [by left|right]. rewrite Hp. apply elem_of_seqZ. lia.
    + rewrite Nat2Z.id in He'. congruence.
Qed.

Lemma lapic_id_wp locid (Q : Z -> smp -> Prop) s :
  0 <= locid -> reg_of (la_regs (sm_apic s)) LAPIC_ID = Z.shiftl locid 24 -> Q (Z.shiftl locid 24) s ->
  wp (sapic (lapic_read LAPIC_ID)) Q s.
Proof.
  intros Hl Hreg HQ. unfold wp, sapic, lapic_read. change (LAPIC_ID =? LAPIC_ICRLO) with false. cbv iota beta. rewrite Hreg.
  by destruct s.
Qed.

(** The entry of the first processor. *)
Lemma smp_inv_first locid t0 q0 s p e n b :
  kmem lay p n b [] -> all_empty p [t0; q0] -> length (sm_cpus s) = MAX_CPUS -> length (sm_bsp s) = GDT_NUM_DESCS ->
  sm_cores s = ∅ ->
  smp_inv locid t0 q0 (with_table (<[0%nat := mk_cpu_ent locid Static (sm_bspptr s) e 0 t0 q0 0]> (sm_cpus s)) 1 (with_smem p s)) n b [].
Proof.
  intros Hk He Hlen Hbsp Hco. split; cbn; try done; [apply NoDup_nil_2|by rewrite length_insert|split; [apply NoDup_nil_2|apply Forall_nil_2]| |].
  - intros id. rewrite Hco, lookup_empty. by intros [??].
  - exists e. apply list_lookup_insert_eq. rewrite Hlen. unfold MAX_CPUS. lia.
Qed.

Lemma smp_init_wp locid ids n k s :
  let others := filter (fun id => id <> locid) ids in
  0 <= locid < 256 -> reg_of (la_regs (sm_apic s)) LAPIC_ID = Z.shiftl locid 24 ->
  (la_delay (sm_apic s) < N.to_nat fuel)%nat ->
  space_inv lay (sm_mem s) (length others * 2 + n) (2 + length others * 2 + k) ->
  length (sm_cpus s) = MAX_CPUS -> length (sm_bsp s) = GDT_NUM_DESCS ->
  sm_cores s = ∅ -> ap_initialized s = false ->
  NoDup others -> Forall (fun id => 1 <= id < 64) others -> ticking hz g fuel (sm_time s) ->
  wp (smp_init im lay cr3 up fuel ids) (fun _ s' => ticking hz g fuel (sm_time s') /\ exists us t0 q0, u_id <$> us = started up false others /\
    la_sent (sm_apic s') = la_sent (sm_apic s) ++ start_ipis up false others /\
    smp_inv locid t0 q0 s' n (Z.of_nat k * region_cost) us /\ tss_base (sm_bsp s') = Some (tss_at im 0) /\
    (forall i, i <> 5%nat -> i <> 6%nat -> sm_bsp s' !! i = sm_bsp s !! i)) s.
Proof.
  intros others Hloc Hreg Hf Hsp Hlen Hbsp Hco Hap Hnd Hr Htk.
  set (b := Z.of_nat k * region_cost + Z.of_nat (length others) * CPU_COST).
  assert (0 <= Z.of_nat k * region_cost) as Hk0 by (change region_cost with 336; lia).
  assert (0 <= b) as Hb0 by (unfold b, CPU_COST; lia).
  apply space_kmem in Hsp. apply (kmem_mono _ _ _ (b + 192 + 192)) in Hsp; [|unfold b, CPU_COST; change region_cost with 336; lia].
  unfold smp_init. wp_focus. apply (lapic_id_wp locid); [lia|done|].
  replace (Z.shiftr (Z.shiftl locid 24) 24) with locid by (rewrite Z.shiftr_shiftl_l by lia; by rewrite Z.sub_diag, Z.shiftl_0_r).
  cbv zeta. wp_focus. apply smem_wp. apply (kmem_list lay _ (length others * 2 + n) (b + 192) []); [exact Hsp|lia|].
  intros q0 p1 Hk1 Hq0 Hqn Hq Hqo. wp_focus. apply smem_wp. apply (kmem_list lay _ (length others * 2 + n) b []); [exact Hk1|lia|].
  intros t0 p2 Hk2 Ht0 Htn Ht Hto.
  assert (all_empty p2 [t0; q0]) as Hae.
  { assert (all_empty p2 ([q0] ++ [t0])) as [H1 H2].
    { apply (all_empty_new p1 p2); [|done..]. split; [apply NoDup_singleton|by repeat constructor]. }
    assert ([t0; q0] ≡ₚ [q0] ++ [t0]) as HP by constructor. split; by rewrite HP. }
  destruct (lookup_lt_is_Some_2 (sm_cpus s) (Z.to_nat 0)) as [e He]; [rewrite Hlen; unfold MAX_CPUS; lia|].
  wp_focus. eapply cpu_get_wp; [exact He|]. wp_step. wp_step. wp_focus. eapply cpu_set_wp; [exact He|]. wp_step. wp_step.
  set (s1 := with_table _ _ _).
  assert (smp_inv locid t0 q0 s1 (length others * 2 + n) b []) as Hinv by (by apply (smp_inv_first locid t0 q0 s p2 (ce_tss e))).
  wp_focus. eapply wp_mono; [eapply (smp_initcpus_wp locid t0 q0 ids s1 n (Z.of_nat k * region_cost) [])|].
  all: try done.
  { intros x _ Hx. by apply not_elem_of_nil in Hx. }
  intros [] s2 (Hs2 & Hbs2 & Ht2 & us & Hus & Hinv2). change (sm_bsp s1) with (sm_bsp s) in Hbs2.
  eapply wp_mono; [by apply (cpu_tss_static_wp locid t0 q0 s2 n (Z.of_nat k * region_cost) us)|].
  intros [] s3 (Hinv3 & Ea & Etm & Hb & Hsame). split; [by rewrite Etm|]. exists us, t0, q0. rewrite Ea, Hs2. change (ap_initialized s1) with (ap_initialized s) in *.
  rewrite Hap in *. rewrite Hbs2 in Hsame. by split_and!.
Qed.
End correct.


(** Four processors: 1 starts on its second interrupt, 2 on its first, 3 would need two. *)
Definition demo_image : kimage := mk_kimage 0xffffffff80300000 0xffffffff80310000 0xffffffff80311000 0xffffffff80201000
  0xffffffff80320000 [0xfa] (mk_idt_record 4095 0xffffffff80330000).
Definition no_cpu : cpu_ent := mk_cpu_ent 0 (Block 0) (mk_gdt_ptr 0 0) (mk_tss [0; 0; 0] (replicate 7 0) 0) 0 0 0 0.
Definition demo_smp : smp := mk_smp bare_pstate (mk_apic ∅ [] 0 4 0 ∅ 0) ∅ [] (replicate 7 gdt_null) (mk_gdt_ptr 55 0xffffffff80310000)
  ∅ (replicate 64 no_cpu) 0 false ∅ (mk_tstate (mk_clock 0 1000) (fun i => Nat.odd i) 0 true).
Definition demo_up (id : Z) (k : nat) : bool := if id =? 2 then (k =? 1)%nat else (k =? 2)%nat.

Lemma demo_ticking : ticking 1000 2 (10 ^ 10) (sm_time demo_smp).
Proof.
  split; cbn [demo_smp sm_time tm_set tm_clock tm_irq freq uptime]; try lia; try done. intros i.
  destruct (Nat.odd i) eqn:E; [exists i; split; [lia|done]|exists (S i); split; [lia|]]. by rewrite Nat.odd_succ, <- Nat.negb_odd, E.
Qed.


(** With the ids 0 and 2, [cpu_count] is 2, but the second entry has never been set up:
    its lists are null pointers, and [cpus[2]] is beyond the count. *)
Example smp_ids_gap :
  match smp_init demo_image demo_layout 0x200000 (fun _ _ => true) 1000 [0; 2] demo_smp with
  | Ok (_, s') => cpu_count s' = 2 /\ ce_threads <$> sm_cpus s' !! 1%nat = Some 0 /\ lapic_id <$> sm_cpus s' !! 2%nat = Some 2
  | Err _ => False
  end.
Proof. vm_compute. split_and!; reflexivity. Qed.

(** The stack that [smp_initcpu] makes for a processor is not used: every processor runs
    on the word at 0x1018, downwards over the other words. *)
Example smp_stack_unused :
  match smp_init demo_image demo_layout 0x200000 (fun _ _ => true) 1000 [0; 1; 2] demo_smp with
  | Ok (_, s') => co_rsp <$> sm_cores s' !! 1 = Some 0x1018 /\ co_rsp <$> sm_cores s' !! 2 = Some 0x1018 /\
      sm_low s' !! smp_stack <> Some 0x1018
  | Err _ => False
  end.
Proof. vm_compute. split_and!; [reflexivity..|congruence]. Qed.

(** Without interrupts of the clock the first wait does not end, whatever the fuel: a
    processor to start stops the boot processor. *)
Lemma smp_initcpu_hangs im lay cr3 up fuel id n k s :
  space_inv lay (sm_mem s) (S (S n)) k -> (la_delay (sm_apic s) < N.to_nat fuel)%nat ->
  tm_set (sm_time s) = true -> freq (tm_clock (sm_time s)) <> 0 -> 0 <= uptime (tm_clock (sm_time s)) < 2 ^ 64 ->
  (forall i, tm_irq (sm_time s) i = false) ->
  smp_initcpu im lay cr3 up fuel id s = Err NoFuel.
Proof.
  intros Hsp Hf Hset Hfr Hu Hno. unfold smp_initcpu.
  destruct (wp_Ok _ _ _ (space_kpage_lm_wp lay (sm_mem s) n k Hsp)) as ([stk fr] & p & Ep & _).
  eapply bind_Ok; [unfold smem; by rewrite Ep|]. cbv beta iota. eapply bind_Ok; [reflexivity|]. eapply bind_Ok; [reflexivity|].
  match goal with |- bindM _ _ ?x = _ => set (s1 := x) end.
  assert (wp (smp_ipi fuel id ICR_INIT 0) (fun _ s' => sm_time s' = sm_time s) s1) as Hw.
  { apply smp_ipi_wp; [done|unfold ICR_INIT; lia|]. done. }
  destruct (wp_Ok _ _ _ Hw) as ([] & s2 & E2 & Et). eapply bind_Ok; [exact E2|].
  apply bind_Err. unfold stime. by rewrite Et, timer_wait_needs_interrupts by (done || lia).
Qed.

(** On a started processor [cpu_getcurr] delivers the entry [smp_entry] filled in. *)
Lemma cpu_getcurr_up im lay cr3 locid t0 q0 s n b ups u :
  smp_inv im lay cr3 locid t0 q0 s n b ups -> u ∈ ups ->
  exists e, cpu_getcurr (u_id u) s = Ok (e, s) /\ lapic_id e = u_id u /\ ce_gdt e = Block (u_gdt u).
Proof.
  intros Hinv Hu. destruct (proj1 (Forall_forall _ _) (sv_ups _ _ _ _ _ _ _ _ _ _ Hinv) u Hu) as (x & t & a & Hc & _).
  destruct (sv_ids _ _ _ _ _ _ _ _ _ _ Hinv) as [_ Hids]. rewrite Forall_forall in Hids.
  specialize (Hids _ (list_elem_of_fmap_2 u_id _ _ Hu)). eexists (mk_cpu_ent _ _ _ _ _ _ _ _). split; [|by split].
  unfold cpu_getcurr, cpu_get. rewrite (uN_small 8) by lia. eapply bind_Ok; [reflexivity|]. rewrite Hc. reflexivity.
Qed.
