(* ===== verification/Streams.v ===== *)
(** * Streams: ring buffers, pipes and pseudo terminals
      (src/util/ringbuf.c, src/fs/vfs/pipe.c, src/drivers/tty/pty/pty.c)

    These parts make their objects but transfer nothing yet: the functions that should
    move bytes have no [return] statement.  The model keeps the objects as records of the
    kernel heap; a function that ends without its result is the fault [NoReturn]. *)

From S2P Require Import Prelude Alloc Kheap DList Layout Headers.

(** The two operations of [vfs_node_t] that are set here, and its device pointer. *)
Inductive node_fn : Type := FnNull | FnPtyRead | FnPtyWrite.
Record snode : Type := mk_snode { sn_read : node_fn; sn_write : node_fn; sn_device : Z }.
Record pty : Type := mk_pty { master_file : Z; slave_file : Z }.
Record ringbuf : Type := mk_ringbuf { rb_buffer : Z; rb_size : Z; rb_readptr : Z; rb_writeptr : Z }.

Record strmem (H : Type) : Type := mk_strmem { sm_heap : H; sm_nodes : gmap Z snode; sm_ptys : gmap Z pty }.
Arguments mk_strmem {H}. Arguments sm_heap {H}. Arguments sm_nodes {H}. Arguments sm_ptys {H}.

Section ops.
Context {H : Type} `{KAlloc H}.
Abbreviation S := (M (strmem H)).

Definition smalloc (n : Z) : S Z := fun s =>
  match ka_malloc n (sm_heap s) with Ok (p, h) => Ok (p, mk_strmem h (sm_nodes s) (sm_ptys s)) | Err f => Err f end.
Definition get_node (p : Z) : S snode := s ← get; unwrap (sm_nodes s !! p) NullDeref.
Definition get_pty (p : Z) : S pty := s ← get; unwrap (sm_ptys s !! p) NullDeref.
Definition put_node (p : Z) (n : snode) : S () := modify (fun s => mk_strmem (sm_heap s) (<[p := n]> (sm_nodes s)) (sm_ptys s)).
Definition put_pty (p : Z) (t : pty) : S () := modify (fun s => mk_strmem (sm_heap s) (sm_nodes s) (<[p := t]> (sm_ptys s))).
(** [kmalloc] zeroes what it delivers. *)
Definition new_snode : S Z := p ← smalloc (sizeof vfs_node_t); put_node p (mk_snode FnNull FnNull 0);; mret p.

(** ** ringbuf.c *)

Definition ringbuf_create (size : Z) : S ringbuf := p ← smalloc size; mret (mk_ringbuf p size 0 0).
Definition ringbuf_read (buf : ringbuf) (size : Z) : S Z := throw NoReturn.
Definition ringbuf_write (buf : ringbuf) (bs : list Z) : S Z := throw NoReturn.
Definition ringbuf_destroy (buf : ringbuf) : S () := fun s =>
  match ka_free (rb_buffer buf) (sm_heap s) with
  | Ok (_, h) => Ok ((), mk_strmem h (sm_nodes s) (sm_ptys s))
  | Err f => Err f
  end.

(** ** pipe.c *)

Definition pipe_creat : S (Z * Z) := a ← new_snode; b ← new_snode; mret (a, b).
Definition pipe_read (node off size : Z) : S Z := n ← get_node node; throw NoReturn.
Definition pipe_write (node off : Z) (bs : list Z) : S Z := n ← get_node node; throw NoReturn.

(** ** pty.c *)

Definition pty_master_read (file off size : Z) : S Z := n ← get_node file; throw NoReturn.
Definition pty_slave_read (file off size : Z) : S Z := throw NoReturn.
Definition pty_master_write (file off : Z) (bs : list Z) : S Z := throw NoReturn.
Definition pty_slave_write (file off : Z) (bs : list Z) : S Z := throw NoReturn.

Definition pty_read (file off size : Z) : S Z :=
  n ← get_node file;
  t ← get_pty (sn_device n);
  if file =? master_file t then pty_slave_read (slave_file t) off size else pty_master_read (master_file t) off size.
Definition pty_write (file off : Z) (bs : list Z) : S Z :=
  n ← get_node file;
  t ← get_pty (sn_device n);
  if file =? master_file t then pty_slave_write (slave_file t) off bs else pty_master_write (master_file t) off bs.

Definition pty_grant : S Z :=
  p ← smalloc (sizeof pty_t);
  put_pty p (mk_pty 0 0);;
  master ← new_snode;
  put_node master (mk_snode FnPtyRead FnPtyWrite p);;
  slave ← new_snode;
  put_node slave (mk_snode FnPtyRead FnPtyWrite p);;
  put_pty p (mk_pty master slave);;
  mret p.
End ops.

Section proofs.
Context {H : Type} `{KAlloc H}.

Lemma smalloc_wp s L b n (Q : Z -> strmem H -> Prop) :
  ka_inv (sm_heap s) L (b + ka_cost n) -> 0 <= b -> 0 <= n < 2 ^ 61 ->
  (forall p k h, n <= k -> 0 < p -> Forall (separated (p, k)) L -> ka_inv h ((p, k) :: L) b ->
     Q p (mk_strmem h (sm_nodes s) (sm_ptys s))) -> wp (smalloc n) Q s.
Proof.
  intros Hi Hb Hn HQ. pose proof (ka_malloc_wp _ L b n Hi Hn Hb) as Hwp. unfold wp, smalloc in *.
  destruct (ka_malloc n (sm_heap s)) as [[p h]|]; [|done]. destruct Hwp as (k & Hk & Hp & _ & Hs & Hi').
  apply (HQ p k); try done. pose proof (ka_round_le n Hn). lia.
Qed.

Lemma get_node_eq s p n : sm_nodes s !! p = Some n -> get_node (H := H) p s = Ok (n, s).
Proof. intros E. unfold get_node, bindM, get. by rewrite E. Qed.
Lemma get_pty_eq s p t : sm_ptys s !! p = Some t -> get_pty (H := H) p s = Ok (t, s).
Proof. intros E. unfold get_pty, bindM, get. by rewrite E. Qed.

Lemma new_snode_wp s L b (Q : Z -> strmem H -> Prop) :
  ka_inv (sm_heap s) L (b + ka_cost (sizeof vfs_node_t)) -> 0 <= b ->
  (forall p k h, sizeof vfs_node_t <= k -> 0 < p -> Forall (separated (p, k)) L -> ka_inv h ((p, k) :: L) b ->
     Q p (mk_strmem h (<[p := mk_snode FnNull FnNull 0]> (sm_nodes s)) (sm_ptys s))) -> wp new_snode Q s.
Proof.
  intros Hi Hb HQ. unfold new_snode. wp_focus. eapply smalloc_wp; [done|done|vm_compute; split; congruence|].
  intros p k h Hk Hp Hs Hi'. unfold put_node. wp_step. wp_step. wp_step. by eapply HQ.
Qed.

Definition pty_cost : Z := ka_cost (sizeof pty_t) + ka_cost (sizeof vfs_node_t) + ka_cost (sizeof vfs_node_t).

(** A new terminal is three blocks of the heap that overlap nothing: the terminal and
    two files, whose operations and device lead back to it. *)
Record granted (L : list (Z * Z)) (b p : Z) (s s' : strmem H) (m sl : Z) : Prop := {
  gr_pty : sm_ptys s' = <[p := mk_pty m sl]> (sm_ptys s);
  gr_nodes : sm_nodes s' = <[sl := mk_snode FnPtyRead FnPtyWrite p]> (<[m := mk_snode FnPtyRead FnPtyWrite p]> (sm_nodes s));
  gr_blocks : exists k km ks, sizeof pty_t <= k /\ sizeof vfs_node_t <= km /\ sizeof vfs_node_t <= ks /\
    ka_inv (sm_heap s') ((sl, ks) :: (m, km) :: (p, k) :: L) b /\
    Forall (separated (p, k)) L /\ Forall (separated (m, km)) ((p, k) :: L) /\ Forall (separated (sl, ks)) ((m, km) :: (p, k) :: L);
}.

Lemma pty_grant_wp s L b :
  ka_inv (sm_heap s) L (b + pty_cost) -> 0 <= b -> wp pty_grant (fun p s' => exists m sl, granted L b p s s' m sl) s.
Proof.
  intros Hi Hb. assert (0 <= ka_cost (sizeof vfs_node_t)) as Hc by (apply ka_cost_nonneg; vm_compute; split; congruence).
  unfold pty_grant, put_pty, put_node. wp_focus.
  eapply (smalloc_wp s L (b + ka_cost (sizeof vfs_node_t) + ka_cost (sizeof vfs_node_t)));
    [|lia|vm_compute; split; congruence|].
  { replace (b + _ + _ + _) with (b + pty_cost) by (unfold pty_cost; lia). exact Hi. }
  intros p k h1 Hk Hp Hs1 Hi1. wp_step. wp_step. wp_focus. eapply (new_snode_wp _ _ (b + ka_cost (sizeof vfs_node_t))); [exact Hi1|lia|].
  intros m km h2 Hkm Hm Hs2 Hi2. wp_step. wp_step. wp_focus. eapply (new_snode_wp _ _ b); [exact Hi2|lia|].
  intros sl ks h3 Hks Hsl Hs3 Hi3. do 5 wp_step. exists m, sl. split; cbn; rewrite ?insert_insert_eq; try done.
  - by exists k, km, ks.
Qed.

(** Making a terminal succeeds with enough heap, and gives the two files of the
    terminal, apart from each other and from everything else; but reading or writing
    either of them ends in a function that returns no value. *)
Theorem pty_grant_correct s L b :
  ka_inv (sm_heap s) L (b + pty_cost) -> 0 <= b ->
  exists p s' m sl, pty_grant s = Ok (p, s') /\ granted L b p s s' m sl /\ m <> sl /\
    forall file off size bs, file = m \/ file = sl ->
      pty_read file off size s' = Err NoReturn /\ pty_write file off bs s' = Err NoReturn.
Proof.
  intros Hi Hb. destruct (wp_Ok _ _ _ (pty_grant_wp s L b Hi Hb)) as (p & s' & E & m & sl & Hg).
  destruct Hg as [Hp Hn Hbl] eqn:Hgr. clear Hgr. exists p, s', m, sl.
  assert (m <> sl) as Hne.
  { destruct Hbl as (k & km & ks & _ & _ & _ & _ & _ & _ & Hs). apply Forall_cons in Hs as [[Hs _] _]. cbn in Hs. congruence. }
  split; [exact E|]. split; [done|]. split; [done|]. intros file off size bs [->| ->].
  - assert (sm_nodes s' !! m = Some (mk_snode FnPtyRead FnPtyWrite p)) as Hm by (rewrite Hn, lookup_insert_ne by done; apply lookup_insert_eq).
    split; (eapply bind_Ok; [by apply get_node_eq|]); (eapply bind_Ok; [apply get_pty_eq; rewrite Hp; apply lookup_insert_eq|]);
      cbn [master_file]; by rewrite Z.eqb_refl.
  - assert (sm_nodes s' !! sl = Some (mk_snode FnPtyRead FnPtyWrite p)) as Hsl by (rewrite Hn; apply lookup_insert_eq).
    assert (sm_nodes s' !! m = Some (mk_snode FnPtyRead FnPtyWrite p)) as Hm by (rewrite Hn, lookup_insert_ne by done; apply lookup_insert_eq).
    split; (eapply bind_Ok; [by apply get_node_eq|]); (eapply bind_Ok; [apply get_pty_eq; rewrite Hp; apply lookup_insert_eq|]);
      cbn [master_file]; rewrite (proj2 (Z.eqb_neq sl m)) by congruence; [|done]. eapply bind_Ok; [by apply get_node_eq|done].
Qed.

(** Creating a ring buffer and destroying it gives the memory back. *)
Theorem ringbuf_create_destroy s L b size :
  ka_inv (sm_heap s) L (b + ka_cost size) -> 0 <= b -> 0 <= size < 2 ^ 61 ->
  exists r s1 s2, ringbuf_create size s = Ok (r, s1) /\ rb_size r = size /\ rb_readptr r = rb_writeptr r /\
    ringbuf_destroy r s1 = Ok ((), s2) /\ ka_inv (sm_heap s2) L b.
Proof.
  intros Hi Hb Hn. assert (wp (ringbuf_create size) (fun r s1 => rb_size r = size /\ rb_readptr r = rb_writeptr r /\
    exists k, ka_inv (sm_heap s1) ((rb_buffer r, k) :: L) b) s) as Hwp.
  { unfold ringbuf_create. wp_focus. eapply smalloc_wp; [done|done|done|]. intros p k h _ _ _ Hi'. wp_step. cbn. eauto. }
  destruct (wp_Ok _ _ _ Hwp) as (r & s1 & E & Hsz & Hpt & k & Hi1). pose proof (ka_free_wp _ _ _ _ _ Hi1) as Hf. unfold wp in Hf.
  destruct (ka_free (rb_buffer r) (sm_heap s1)) as [[[] h]|] eqn:Ef; [|done].
  exists r, s1, (mk_strmem h (sm_nodes s1) (sm_ptys s1)). split_and!; try done. unfold ringbuf_destroy. by rewrite Ef.
Qed.
End proofs.

Definition demo_streams : strmem kheap := mk_strmem (boot_heap 4096 409600) ∅ ∅.

Lemma pty_grant_correct_witness :
  exists p s' m sl, pty_grant demo_streams = Ok (p, s') /\ m <> sl /\ pty_read m 0 1 s' = Err NoReturn.
Proof.
  destruct (pty_grant_correct demo_streams [] 0) as (p & s' & m & sl & E & _ & Hne & Hio).
  - exists [(0, true)]. split_and!; [apply boot_heap_rep; unfold HB_SIZE; lia|done| |done].
    split; vm_compute; congruence.
  - lia.
  - exists p, s', m, sl. split; [exact E|]. split; [exact Hne|]. apply (Hio m 0 1 []). by left.
Defined.
