(* ===== verification/Start.v ===== *)
(** * Start: from the boot loader to the running processors
      (init_core, init_extra and init_stivale2 of src/arch/x86_64/hal.c)

    The start-up of the kernel on one machine state: serial line and other ports, segment
    and interrupt tables, memory manager and heap, clock, ACPI tables, interrupt
    controllers and the table of processors.  Each step is the operation of the
    component's own file; the theorem composes their correctness.  The messages of the
    steps go to the serial line as in the source, those of the tag loop (one per tag, and
    the size of memory) are left out. *)

From stdpp Require Import strings.
From Stdlib Require Import Ascii.
From S2P Require Import Prelude Disk Pmm Alloc Kheap DList Paging Vfs Sched Elf Spaces SpaceMake Ports Chips Print Desc Acpi Layout Headers Video Boot Bringup Smp Timer.

(** The end of a step's message. *)
Definition msg_ok : list Z := msg "Ok" ++ [10].

(** Addresses of handlers: [ipi_halt], [pit_int_handler], [spur_int]; the entry stubs of
    the interrupts; the address of the table. *)
Record fns : Type := mk_fns { f_halt : Z; f_pit : Z; f_spur : Z; f_stubs : stubs; at_gates : Z }.

Record machine (D : Type) : Type := mk_machine {
  k_ser : serial D;                    (* ports and serial lock *)
  k_gates : list idt_entry; k_idtr : idt_record; k_handlers : list Z;
  k_acpi : acpi; k_found : boot_found; (* tables; what the tags set *)
  k_if : bool;                         (* interrupts are enabled *)
  k_smp : smp;                         (* memory, GDT, APIC, clock and processors *)
}.
Arguments mk_machine {D}. Arguments k_ser {D}. Arguments k_gates {D}. Arguments k_idtr {D}. Arguments k_handlers {D}.
Arguments k_acpi {D}. Arguments k_found {D}. Arguments k_if {D}. Arguments k_smp {D}.

(** The interval timer's output: the input of the I/O APIC it is wired to, and before
    which reads of the clock it has raised an interrupt. *)
Record pit_line : Type := mk_line { pit_gsi : Z; pit_wave : nat -> bool }.

Section start.
Context {D : Type} `{Ports D} (im : kimage) (fn : fns) (lay : layout) (cr3 edx_feats : Z)
  (comes_up : Z -> nat -> bool) (line : pit_line) (amem : Z -> option Z) (fuel : N).
Abbreviation K := (M (machine D)).
Implicit Types k : machine D.

Definition set_ser (x : serial D) k := mk_machine x (k_gates k) (k_idtr k) (k_handlers k) (k_acpi k) (k_found k) (k_if k) (k_smp k).
Definition set_idt (g : list idt_entry) (r : idt_record) (h : list Z) k := mk_machine (k_ser k) g r h (k_acpi k) (k_found k) (k_if k) (k_smp k).
Definition set_acpi (a : acpi) k := mk_machine (k_ser k) (k_gates k) (k_idtr k) (k_handlers k) a (k_found k) (k_if k) (k_smp k).
Definition set_found (f : boot_found) k := mk_machine (k_ser k) (k_gates k) (k_idtr k) (k_handlers k) (k_acpi k) f (k_if k) (k_smp k).
Definition set_if (b : bool) k := mk_machine (k_ser k) (k_gates k) (k_idtr k) (k_handlers k) (k_acpi k) (k_found k) b (k_smp k).
Definition set_smp (s : smp) k := mk_machine (k_ser k) (k_gates k) (k_idtr k) (k_handlers k) (k_acpi k) (k_found k) (k_if k) s.

Definition set_clock (c : clock) (b : bool) k :=
  let t := sm_time (k_smp k) in set_smp (with_time (mk_tstate c (tm_irq t) (tm_reads t) b) (k_smp k)) k.

Definition on_ports {A} (m : M D A) : K A := zoom (fun k => ser_dev (k_ser k)) (fun d k => set_ser (mk_serial d (ser_lock (k_ser k))) k) m.
Definition on_smp {A} (m : M smp A) : K A := zoom k_smp set_smp m.
Definition on_acpi {A} (m : M acpi A) : K A := zoom k_acpi set_acpi m.
Definition on_kmem {A} (m : M (pstate kheap) A) : K A := on_smp (smem m).
Definition ok_or {A} (o : outcome A) : K A := fun k => match o with Ok a => Ok (a, k) | Err f => Err f end.
Definition say (str : list Z) : K () := zoom k_ser set_ser (serial_writestr fuel (Some str)).
Definition set_int (id f : Z) : K () :=
  k ← get; h ← ok_or (idt_set_int id f (k_handlers k)); modify (set_idt (k_gates k) (k_idtr k) h).
Definition cli : K () := modify (set_if false).
Definition sti : K () := modify (set_if true).

(** [gdt_init] on the static table. *)
Definition start_gdt : K () :=
  k ← get;
  '(t, p) ← ok_or (gdt_init (at_gdtents im) (sm_bsp (k_smp k)));
  let s := k_smp k in
  modify (set_smp (mk_smp (sm_mem s) (sm_apic s) (sm_low s) (sm_code s) t p (sm_gdts s) (sm_cpus s) (cpu_count s)
    (ap_initialized s) (sm_cores s) (sm_time s))).
Definition start_idt : K () :=
  k ← get;
  '(g, r, h) ← ok_or (idt_init (f_stubs fn) (at_gates fn) (f_halt fn) (k_handlers k));
  modify (set_idt g r h).
Definition start_pit (frequency : Z) : K () :=
  set_int 32 (f_pit fn);; c ← on_ports (pit_init frequency); modify (set_clock c true).

(** The overrides as [ioapic_init] reads them: [gsi] and [irq_src]. *)
Fixpoint read_isos (l : list Z) : M acpi (list (Z * Z)) :=
  match l with
  | [] => mret []
  | p :: l => irq ← rd amem 1 (p + 3); gsi ← rd amem 4 (p + 4); r ← read_isos l; mret ((gsi, irq) :: r)
  end.
(** [apic_init]; without an APIC nothing happens. *)
Definition start_apic : K () :=
  if negb (truth (edx_feats .& CPUID_FEAT_EDX_APIC)) then say (msg "CPU does not support APIC" ++ [10]) else
  cli;;
  set_int 0xff (f_spur fn);;
  k ← get;
  isos ← on_acpi (read_isos (acpi_isos (k_acpi k)));
  '((), (d, a)) ← ok_or (apic_init edx_feats isos (ser_dev (k_ser k), sm_apic (k_smp k)));
  modify (fun k => set_smp (with_apic a (k_smp k)) (set_ser (mk_serial d (ser_lock (k_ser k))) k));;
  sti.

(** The timer's interrupts reach the handler of vector 32 only if interrupts are on and
    the I/O APIC, where it is in use, delivers its input there. *)
Definition clock_reaches k : bool :=
  let '(vec, _, masked, _) := redirection (sm_apic (k_smp k)) (pit_gsi line) in
  k_if k && (negb (truth (edx_feats .& CPUID_FEAT_EDX_APIC)) || (vec =? 32) && negb masked).
Definition clock_line : K () := modify (fun k =>
  let t := sm_time (k_smp k) in
  set_smp (with_time (mk_tstate (tm_clock t) (fun i => clock_reaches k && pit_wave line i) (tm_reads t) (tm_set t)) (k_smp k)) k).

Definition init_core : K () :=
  on_ports serial_init;;
  say (msg "Initializing BSP GDT...");;
  start_gdt;;
  say msg_ok;;
  say (msg "Initializing IDT...");;
  start_idt;;
  on_ports pic_init;;
  say msg_ok;;
  say (msg "Initializing memory...");;
  on_kmem (with_phys (pmm_init (512 * 1000000)));;
  on_kmem (paging_init lay);;
  say msg_ok;;
  cli.

Definition init_extra : K () :=
  say (msg "Initializing kernel heap...");;
  on_kmem (kheap_init lay);;
  say msg_ok;;
  start_pit 1000;;
  say (msg "Parsing ACPI tables...");;
  on_acpi (acpi_init amem fuel);;
  say msg_ok;;
  say (msg "Initializing the BSP local and IO APIC...");;
  start_apic;;
  say msg_ok;;
  say (msg "Initializing SMP and attempting to initialize other CPUs..." ++ [10]);;
  clock_line;;
  k ← get;
  on_smp (smp_init im lay cr3 comes_up fuel (acpi_cpus (k_acpi k)));;
  say msg_ok.

(** [init_stivale2] up to the call of [kmain]; [m] is the memory the boot loader left,
    [st2] its structure with the tags. *)
Definition kernel_start (m : pmem) (st2 : Z) : K () :=
  let tags := field m 8 (st2 + default 0 (offsetof st2_struct_t ["tags"%string])) in
  init_core;;
  f ← on_kmem (init_stivale2 (H0 := paging_VSpace lay) fuel m tags);
  modify (set_found f);;
  on_acpi (if truth (fd_rsdp f) then acpi_setrsdp (fd_rsdp f) else mret ());;
  sti;;
  init_extra.
End start.

(** ** Steps *)

Lemma msg_ok_bytes : Forall (fun b => 0 <= b < 256) msg_ok.
Proof. apply msg_line_bytes. Qed.

Section steps.
Context {D : Type} `{Uart D} (im : kimage) (fn : fns) (lay : layout) (cr3 edx_feats : Z)
  (comes_up : Z -> nat -> bool) (line : pit_line) (amem : Z -> option Z) (fuel : N).
Implicit Types k : machine D.

Lemma on_kmem_wp {A} (m : M (pstate kheap) A) (Q : A -> machine D -> Prop) k :
  wp m (fun a p => Q a (set_smp (with_smem p (k_smp k)) k)) (sm_mem (k_smp k)) -> wp (on_kmem m) Q k.
Proof. intros Hw. by apply zoom_wp, smem_wp. Qed.
Lemma ok_or_wp {A} (o : outcome A) a (Q : A -> machine D -> Prop) k : o = Ok a -> Q a k -> wp (ok_or o) Q k.
Proof. by intros ->. Qed.

(** Programs that only talk to ports end. *)
Lemma outb_any p v (Q : () -> D -> Prop) d : (forall d', Q () d') -> wp (outb p v) Q d.
Proof. intros HQ. apply port_write_wp, HQ. Qed.
Lemma inb_any p (Q : Z -> D -> Prop) d : (forall v d', Q v d') -> wp (inb p) Q d.
Proof. intros HQ. unfold inb. apply port_read_wp, HQ. Qed.
Ltac ports_only := repeat first [apply wp_bind | apply outb_any; intros ? | apply inb_any; intros ? ?
  | apply wp_guard; [done|] | apply wp_ret]; auto.

Lemma serial_init_wp (Q : () -> D -> Prop) d : (forall d', Q () d') -> wp serial_init Q d.
Proof. intros HQ. unfold serial_init. ports_only. destruct (negb _); ports_only. Qed.
Lemma pic_init_wp (Q : () -> D -> Prop) d : (forall d', Q () d') -> wp pic_init Q d.
Proof. intros HQ. unfold pic_init, pic_setup. ports_only. Qed.
Lemma pic_disable_wp (Q : () -> D -> Prop) d : (forall d', Q () d') -> wp pic_disable Q d.
Proof. intros HQ. unfold pic_disable, pic_setup. ports_only. Qed.
Lemma pit_init_wp (Q : clock -> D -> Prop) d : (forall d', Q (mk_clock 0 1000) d') -> wp (pit_init 1000) Q d.
Proof. intros HQ. unfold pit_init. ports_only. Qed.

Context (Hfuel : (uart_max < N.to_nat fuel)%nat).

Lemma say_wp str (Q : () -> machine D -> Prop) k :
  ser_lock (k_ser k) = false -> Forall (fun b => 0 <= b < 256) str ->
  (forall d, Q () (set_ser (mk_serial d false) k)) -> wp (say fuel str) Q k.
Proof.
  intros Hl Hs HQ. destruct k as [[d b] ? ? ? ? ? ? ?]. cbn in Hl. subst b. apply zoom_wp. cbn [k_ser].
  destruct (serial_writestr_correct fuel str d Hfuel Hs) as (_ & d' & E & _). unfold wp. rewrite E. apply HQ.
Qed.
End steps.

(** *** Tables and interrupt controllers *)

(** The overrides of a list of entries: [gsi] and [irq_src]. *)
Definition is_iso (e : ment) : Prop := m_type e = 2.
#[export] Instance is_iso_dec e : Decision (is_iso e).
Proof. unfold is_iso. apply _. Defined.
Definition iso_of (e : ment) : Z * Z := (le_dec (take 4 (drop 2 (m_body e))), le_dec (take 1 (drop 1 (m_body e)))).
Definition madt_overrides (es : list ment) : list (Z * Z) := iso_of <$> filter is_iso es.
Definition iso_full (e : ment) : Prop := is_iso e -> (6 <= length (m_body e))%nat.

(** ACPI 1.0: the descriptor at [r] leads to a root table that lists a MADT whose entries
    [es] begin at [q]. *)
Definition madt_says (mem : Z -> option Z) (r q : Z) (es : list ment) : Prop :=
  exists sg ra ws a len,
    mem (r + OFF_REV) = Some 0 /\ 0 <= ra < 2 ^ 32 /\ mem_at mem (r + OFF_RSDT_ADDR) (le_enc 4 ra) /\
    Z.of_nat (length ws) < 2 ^ 28 /\
    sdt_at mem (page_map_mmio ra) (36 + 4 * Z.of_nat (length ws)) (concat (le_enc 4 <$> ws)) /\
    (forall a, a ∈ ws -> 0 <= a < 2 ^ 32 /\ mem_at mem (page_map_mmio a) (sg a) /\ length (sg a) = 4%nat) /\
    first_table sg SIG_APIC ws = page_map_mmio a /\ 0 < page_map_mmio a /\ page_map_mmio a + len < 2 ^ 64 /\
    (exists pad, length pad = 8%nat /\ sdt_at mem (page_map_mmio a) len (pad ++ concat (ment_bytes <$> es))) /\
    len = 44 + esize es /\ Forall ment_ok es /\ q = page_map_mmio a + 44.

Lemma madt_says_entries mem r q es : madt_says mem r q es -> mem_at mem q (concat (ment_bytes <$> es)).
Proof.
  intros (sg & ra & ws & a & len & _ & _ & _ & _ & _ & _ & _ & _ & _ & (pad & Hpad & hdr & Hl & _ & Hm) & _ & _ & ->).
  rewrite app_assoc in Hm. apply (mem_at_drop _ _ _ 44) in Hm.
  rewrite drop_app_length' in Hm by (rewrite length_app; lia). exact Hm.
Qed.

Lemma acpi_init_wp mem fuel q es (s : acpi) :
  madt_says mem (rsdp s) q es -> acpi_cpus s = [] -> (length (madt_cpus es) <= CPU_MAX)%nat ->
  (length (madt_isos q es) <= ISO_MAX)%nat -> (length es < N.to_nat fuel)%nat ->
  wp (acpi_init mem fuel) (fun _ s' => acpi_isos s' = madt_isos q es /\ acpi_cpus s' = madt_cpus es) s.
Proof.
  intros (sg & ra & ws & a & len & Hrev & Hra & Hadr & Hn & Hsdt & Hsg & Hfirst & Hpos & Hend & Hmadt & He & Hok & ->) Hc Hlc Hli Hf.
  unfold acpi_init. wp_step. wp_step. wp_focus. rewrite <- (Z.add_0_r (rsdp s + OFF_REV)).
  eapply (acpi_rd_wp _ _ _ [0]); [|lia|simpl; lia|].
  { intros [|i] b Hi; [|done]. cbn in Hi. simplify_eq. by rewrite Z.add_0_r. }
  change (le_dec _ =? 0) with true. wp_focus. cbv iota. wp_focus. rewrite <- (Z.add_0_r (rsdp s + OFF_RSDT_ADDR)).
  eapply acpi_rd_wp; [exact Hadr|lia|rewrite length_le_enc; lia|].
  rewrite drop_0, take_ge, le_dec_enc, (uN_small (8 * Z.of_nat 4) ra) by (rewrite ?length_le_enc; lia). wp_step.
  eapply wp_intro; [eapply (acpi_read_madt_run mem sg ws a es len fuel); try done|].
  - cbn [acpi_cpus]. rewrite Hc. exact Hlc.
  - cbn [madt_done set_lists acpi_isos acpi_cpus]. by rewrite Hc.
Qed.

Lemma read_isos_wp mem q es (Q : list (Z * Z) -> acpi -> Prop) s :
  mem_at mem q (concat (ment_bytes <$> es)) -> Forall iso_full es -> Q (madt_overrides es) s ->
  wp (read_isos mem (madt_isos q es)) Q s.
Proof.
  revert q Q. induction es as [|e es IH]; intros q Q Hm Hfull HQ; [exact HQ|].
  apply Forall_cons in Hfull as [He Hfull]. cbn [fmap list_fmap concat] in Hm. cbn [madt_isos].
  assert (mem_at mem (q + Z.of_nat (length (ment_bytes e))) (concat (ment_bytes <$> es))) as Hm'.
  { apply (mem_at_drop _ _ _ (length (ment_bytes e))) in Hm. by rewrite drop_app_length in Hm. }
  unfold madt_overrides in HQ. rewrite filter_cons in HQ. unfold iso_full, is_iso in *.
  destruct (Z.eqb_spec (m_type e) 2) as [E|N].
  - rewrite decide_True in HQ by done. specialize (He E). cbn [app read_isos].
    wp_focus. eapply acpi_rd_wp; [exact Hm|lia|rewrite length_app; simpl; lia|].
    rewrite take_drop_app_l by (simpl; lia). change (take 1 (drop (Z.to_nat 3) (ment_bytes e))) with (take 1 (drop 1 (m_body e))).
    wp_focus. eapply acpi_rd_wp; [exact Hm|lia|rewrite length_app; simpl; lia|].
    rewrite take_drop_app_l by (simpl; lia). change (take 4 (drop (Z.to_nat 4) (ment_bytes e))) with (take 4 (drop 2 (m_body e))).
    wp_focus. apply IH; [done|done|]. by wp_step.
  - rewrite decide_False in HQ by done. by apply IH.
Qed.

(** The interrupt the last override of an input names. *)
Fixpoint override_of (isos : list (Z * Z)) (g : Z) : option Z :=
  match isos with
  | [] => None
  | o :: r => match override_of r g with Some i => Some i | None => if u8 o.1 =? g then Some o.2 else None end
  end.

(** The I/O APIC's set-up leaves the local APIC alone and delivers the inputs the overrides
    give to the clock to vector 32. *)
Definition same_lapic (a a' : apic_hw) : Prop :=
  la_regs a' = la_regs a /\ la_sent a' = la_sent a /\ la_delay a' = la_delay a.
Definition routed (isos : list (Z * Z)) (g : Z) (a a' : apic_hw) : Prop :=
  (override_of isos g = Some 0 -> redirection a' g = (32, 1, false, 0)) /\
  (override_of isos g = None -> redirection a' g = redirection a g).

Lemma ioapic_redirect_wp o g (a : apic_hw) :
  0 <= g < 256 ->
  wp (ioapic_redirect o.1 (o.2 + 32) ICR_LOWEST) (fun _ a' => same_lapic a a' /\
    (u8 o.1 <> g -> redirection a' g = redirection a g) /\ (u8 o.1 = g -> o.2 = 0 -> redirection a' g = (32, 1, false, 0))) a.
Proof.
  intros Hg. assert (ioapic_redirect o.1 (o.2 + 32) ICR_LOWEST = ioapic_redirect (u8 o.1) (u8 (o.2 + 32)) ICR_LOWEST) as ->.
  { unfold ioapic_redirect. by rewrite !(uN_idemp 8) by lia. }
  pose proof (uN_range 8 o.1 ltac:(lia)) as Hi. pose proof (uN_range 8 (o.2 + 32) ltac:(lia)) as Hv.
  eapply wp_intro; [apply ioapic_redirect_eq; unfold ICR_LOWEST; lia|]. unfold redirection, IOAPIC_RED_TBL_ENT, reg_of. cbn [io_regs].
  split; [done|]. split.
  - intros Hne. by rewrite !lookup_insert_ne by lia.
  - intros <- ->. replace (16 + 2 * u8 o.1 + 1) with (17 + 2 * u8 o.1) by lia.
    rewrite lookup_insert_ne, !lookup_insert_eq by lia. reflexivity.
Qed.

Lemma ioapic_init_wp isos g (a : apic_hw) : 0 <= g < 256 ->
  wp (ioapic_init isos) (fun _ a' => same_lapic a a' /\ routed isos g a a') a.
Proof.
  intros Hg. unfold ioapic_init, ioapic_read32, io_select. do 8 wp_step. wp_focus.
  match goal with |- wp (?g isos) _ _ => set (go := g) end.
  assert (forall l a', same_lapic a a' -> wp (go l) (fun _ a2 => same_lapic a a2 /\ routed l g a' a2) a') as Hgo.
  { intros l. induction l as [|o l IH]; intros a' Ha; [by split|]. cbn [go]. wp_focus.
    eapply wp_mono; [by apply (ioapic_redirect_wp o g)|]. intros [] a1 ((E1 & E2 & E3) & Hne & Heq).
    eapply wp_mono; [apply (IH a1); destruct Ha as (?&?&?); by split_and!; congruence|].
    intros [] a2 (Ha2 & Hr1 & Hr2). split; [done|]. unfold routed. cbn [override_of].
    destruct (override_of l g); [by split|]. rewrite Hr2 by done. destruct (Z.eqb_spec (u8 o.1) g) as [E|N]; [|by split; [|auto]].
    split; [|done]. intros [= E0]. auto. }
  eapply wp_mono; [apply Hgo; done|]. intros [] a' Ha. by wp_step.
Qed.

Lemma apic_init_wp {D} `{Ports D} feats isos g (d : D) (a : apic_hw) (Q : () -> D * apic_hw -> Prop) :
  truth (feats .& CPUID_FEAT_EDX_APIC) = true -> 0 <= g < 256 ->
  (forall d' a', reg_of (la_regs a') LAPIC_ID = reg_of (la_regs a) LAPIC_ID -> la_sent a' = la_sent a ->
     la_delay a' = la_delay a -> routed isos g a a' -> Q () (d', a')) ->
  wp (apic_init feats isos) Q (d, a).
Proof.
  intros Hf Hg HQ. unfold wp, apic_init. rewrite Hf. cbn [negb fst snd].
  destruct (wp_Ok _ _ _ (pic_disable_wp (fun _ _ => True) d (fun _ => I))) as ([] & d' & -> & _).
  assert (wp (lapic_init;; ioapic_init isos) (fun _ a' => reg_of (la_regs a') LAPIC_ID = reg_of (la_regs a) LAPIC_ID /\
    la_sent a' = la_sent a /\ la_delay a' = la_delay a /\ routed isos g a a') a) as Hw.
  { wp_focus. eapply wp_intro; [reflexivity|]. eapply wp_mono; [by apply (ioapic_init_wp _ g)|]. intros ? a' ((Er & Es & Ed) & Hr). rewrite Es, Ed.
    split_and!; [|done|done|exact Hr]. rewrite Er. exact (f_equal (default 0) (lookup_insert_ne (la_regs a) LAPIC_SIVR LAPIC_ID _ ltac:(done))). }
  destruct (wp_Ok _ _ _ Hw) as (x & a' & -> & E1 & E2 & E3 & E4). by apply HQ.
Qed.

(** ** The start-up *)

(** Segments of a table: null, then flat code and data for rings 0 and 3. *)
Definition flat_gdt (t : gdt) : Prop :=
  t !! 0%nat = Some gdt_null /\ exists e1 e2 e3 e4,
    t !! 1%nat = Some e1 /\ t !! 2%nat = Some e2 /\ t !! 3%nat = Some e3 /\ t !! 4%nat = Some e4 /\
    flat_segment 1 0 e1 /\ flat_segment 0 0 e2 /\ flat_segment 1 3 e3 /\ flat_segment 0 3 e4.

(** The machine as the boot loader leaves it: zeroed data of the kernel, the local APIC
    with the boot processor's id. *)
Record powered {D} (locid : Z) (k : machine D) : Prop := {
  pw_lock : ser_lock (k_ser k) = false;
  pw_bss : bss (sm_mem (k_smp k));
  pw_gdt : length (sm_bsp (k_smp k)) = GDT_NUM_DESCS /\ Forall (fun e => basemid e = 0) (sm_bsp (k_smp k));
  pw_handlers : length (k_handlers k) = 256%nat;
  pw_acpi : acpi_cpus (k_acpi k) = [];
  pw_id : 0 <= locid < 256 /\ reg_of (la_regs (sm_apic (k_smp k))) LAPIC_ID = Z.shiftl locid 24;
  pw_cpus : length (sm_cpus (k_smp k)) = MAX_CPUS /\ sm_cores (k_smp k) = ∅ /\ ap_initialized (k_smp k) = false;
}.

(** The MADT's last override of the timer's input gives it to interrupt 0; the timer
    raises an interrupt among any [g] reads, and [fuel] is enough for a second. *)
Definition clock_wired (line : pit_line) (g : nat) (fuel : N) (es : list ment) : Prop :=
  0 <= pit_gsi line < 256 /\ override_of (madt_overrides es) (pit_gsi line) = Some 0 /\
  (forall i, exists j, (i <= j < i + g)%nat /\ pit_wave line j = true) /\ Z.of_nat g * 1000000000 < Z.of_N fuel.

#[local] Opaque pmm_init idt_gates serial_writestr serial_init pic_init gdt_init msg paging_init.

Section whole.
Context {D : Type} `{Uart D} (im : kimage) (fn : fns) (lay : layout) (cr3 edx_feats : Z)
  (comes_up : Z -> nat -> bool) (line : pit_line) (amem : Z -> option Z) (fuel : N).
Context (Hfuel : (uart_max < N.to_nat fuel)%nat).
Implicit Types k : machine D.

Lemma set_int_wp id f (Q : () -> machine D -> Prop) k :
  0 <= id < Z.of_nat (length (k_handlers k)) ->
  Q () (set_idt (k_gates k) (k_idtr k) (<[Z.to_nat id := f]> (k_handlers k)) k) -> wp (set_int id f) Q k.
Proof.
  intros Hid HQ. unfold set_int. wp_step. wp_step. wp_focus. eapply ok_or_wp; [|by wp_step].
  unfold idt_set_int. by rewrite bool_decide_true by done.
Qed.

Lemma gdt_init_flat addr t :
  length t = GDT_NUM_DESCS -> Forall (fun e => basemid e = 0) t ->
  exists t' r, gdt_init addr t = Ok (t', r) /\ length t' = GDT_NUM_DESCS /\ flat_gdt t'.
Proof.
  intros Hl Hb. destruct (gdt_init_segments addr t Hl Hb) as (e1 & e2 & e3 & e4 & r & E & F1 & F2 & F3 & F4 & _).
  eexists _, r. split; [exact E|]. split; [rewrite length_app, length_drop, Hl; done|]. split; [done|].
  by exists e1, e2, e3, e4.
Qed.

Ltac say_next := wp_focus; apply say_wp; [exact Hfuel|done|first [apply msg_ok_bytes | apply msg_bytes | apply msg_line_bytes]|intros ?].

(** [init_core]: only the memory manager's state, the tables and the ports change. *)
Lemma init_core_wp m locid k (Q : () -> machine D -> Prop) :
  powered locid k ->
  (forall d p t ptr, tags_inv lay m p [] p (mk_found None 0) -> bss p -> bitmapsize (phys p) = BUFFER_SIZE ->
     (forall x, 0 <= x -> used (phys p) x = bool_decide (x < 262244)) -> length t = GDT_NUM_DESCS -> flat_gdt t ->
     let s := k_smp k in
     Q () (mk_machine (mk_serial d false) (idt_gates (f_stubs fn)) (mk_idt_record 4095 (u64 (at_gates fn)))
       (<[Z.to_nat IPI_HALT := f_halt fn]> (k_handlers k)) (k_acpi k) (k_found k) false
       (mk_smp p (sm_apic s) (sm_low s) (sm_code s) t ptr (sm_gdts s) (sm_cpus s) (cpu_count s) (ap_initialized s) (sm_cores s) (sm_time s)))) ->
  wp (init_core im fn lay fuel) Q k.
Proof.
  intros [Hlock Hbss [Hgl Hgb] Hh _ _ _] HQ. unfold init_core. wp_focus. apply zoom_wp, serial_init_wp. intros d0.
  assert (forall d, ser_lock (mk_serial d false : serial D) = false) as Hu by done. rewrite Hlock.
  say_next. wp_focus. unfold start_gdt. wp_step. wp_step. wp_focus.
  destruct (gdt_init_flat (at_gdtents im) (sm_bsp (k_smp k)) Hgl Hgb) as (t & ptr & Eg & Htl & Hflat).
  eapply ok_or_wp; [exact Eg|]. cbv beta iota zeta. wp_step. say_next. say_next. wp_focus. unfold start_idt. wp_step. wp_step. wp_focus.
  eapply ok_or_wp. { unfold idt_init, idt_set_int. rewrite bool_decide_true; [reflexivity|]. cbn. rewrite Hh. unfold IPI_HALT. lia. }
  cbv beta iota zeta. wp_step. wp_focus. apply zoom_wp, pic_init_wp. intros ?. say_next. say_next.
  wp_focus. apply on_kmem_wp. eapply wp_mono; [exact (wp_unbind _ _ _ _ (init_core_mem_wp lay m _ Hbss))|].
  intros [] p1 Hp1. wp_focus. apply on_kmem_wp. eapply wp_mono; [exact Hp1|]. intros [] p (Htags & Hb & Hbs & Hus).
  say_next. unfold cli. wp_step. by apply HQ.
Qed.
(** [apic_init]. *)
Lemma start_apic_wp q es k (Q : () -> machine D -> Prop) :
  truth (edx_feats .& CPUID_FEAT_EDX_APIC) = true -> ser_lock (k_ser k) = false -> length (k_handlers k) = 256%nat ->
  acpi_isos (k_acpi k) = madt_isos q es -> mem_at amem q (concat (ment_bytes <$> es)) -> Forall iso_full es ->
  0 <= pit_gsi line < 256 ->
  (forall d a, let s := k_smp k in reg_of (la_regs a) LAPIC_ID = reg_of (la_regs (sm_apic s)) LAPIC_ID ->
     la_sent a = la_sent (sm_apic s) -> la_delay a = la_delay (sm_apic s) -> routed (madt_overrides es) (pit_gsi line) (sm_apic s) a ->
     Q () (mk_machine (mk_serial d false) (k_gates k) (k_idtr k) (<[255%nat := f_spur fn]> (k_handlers k))
       (k_acpi k) (k_found k) true (with_apic a s))) ->
  wp (start_apic fn edx_feats amem fuel) Q k.
Proof.
  intros Hf Hlock Hh Hiso Hm Hfull Hg HQ. unfold start_apic. rewrite Hf. cbn [negb]. unfold cli, sti. wp_step. wp_step.
  wp_focus. apply set_int_wp; [cbn; rewrite Hh; lia|]. wp_step. wp_step. wp_focus. apply zoom_wp.
  cbn [k_acpi set_idt set_if]. rewrite Hiso. apply read_isos_wp; [done|done|]. wp_focus.
  set (a0 := sm_apic (k_smp k)) in *.
  assert (wp (apic_init edx_feats (madt_overrides es)) (fun _ p => reg_of (la_regs p.2) LAPIC_ID = reg_of (la_regs a0) LAPIC_ID /\
    la_sent p.2 = la_sent a0 /\ la_delay p.2 = la_delay a0 /\ routed (madt_overrides es) (pit_gsi line) a0 p.2)
    (ser_dev (k_ser k), a0)) as Hw by (by apply (apic_init_wp _ _ (pit_gsi line))).
  destruct (wp_Ok _ _ _ Hw) as ([] & [d' a'] & E & R1 & R2 & R3 & R4).
  eapply ok_or_wp; [exact E|]. cbv beta iota zeta. wp_step. wp_step. wp_step. cbn [k_ser set_acpi set_idt set_if]. rewrite Hlock.
  by apply HQ.
Qed.

Lemma clock_line_ticking g es a0 k :
  clock_wired line g fuel es -> routed (madt_overrides es) (pit_gsi line) a0 (sm_apic (k_smp k)) -> k_if k = true ->
  tm_clock (sm_time (k_smp k)) = mk_clock 0 1000 -> tm_set (sm_time (k_smp k)) = true ->
  ticking 1000 g fuel (mk_tstate (tm_clock (sm_time (k_smp k))) (fun i => clock_reaches edx_feats line k && pit_wave line i)
    (tm_reads (sm_time (k_smp k))) (tm_set (sm_time (k_smp k)))).
Proof.
  intros (Hg & Ho & Hw & Hfu) [Hr _] Hif Hc Hs. specialize (Hr Ho).
  assert (clock_reaches edx_feats line k = true) as -> by (unfold clock_reaches; rewrite Hr, Hif; apply orb_true_r).
  rewrite Hc, Hs. by split; cbn.
Qed.

(** Without an override of its input the timer is never heard once the PIC is off: the
    entry keeps the mask the I/O APIC starts with, and [Smp.smp_initcpu_hangs] applies. *)
Lemma clock_unreached es a0 k :
  truth (edx_feats .& CPUID_FEAT_EDX_APIC) = true -> override_of (madt_overrides es) (pit_gsi line) = None ->
  routed (madt_overrides es) (pit_gsi line) a0 (sm_apic (k_smp k)) -> (redirection a0 (pit_gsi line)).1.2 = true ->
  clock_reaches edx_feats line k = false.
Proof.
  intros Hf Ho [_ Hr] Hm. unfold clock_reaches. rewrite Hr, Hf by done.
  destruct (redirection a0 (pit_gsi line)) as [[[vec md] masked] dst]. cbn in Hm. subst masked. cbn. by rewrite !andb_false_r.
Qed.

(** [init_extra] from the memory the tags leave. *)
Lemma init_extra_wp m l f q es locid g n j k (Q : () -> machine D -> Prop) :
  let s := k_smp k in let others := filter (fun id => id <> locid) (madt_cpus es) in
  truth (edx_feats .& CPUID_FEAT_EDX_APIC) = true -> ser_lock (k_ser k) = false -> length (k_handlers k) = 256%nat ->
  before_heap lay m l (sm_mem s) f ->
  madt_says amem (rsdp (k_acpi k)) q es -> acpi_cpus (k_acpi k) = [] -> (length (madt_cpus es) <= CPU_MAX)%nat ->
  (length (madt_isos q es) <= ISO_MAX)%nat -> (length es < N.to_nat fuel)%nat -> Forall iso_full es ->
  0 <= locid < 256 -> reg_of (la_regs (sm_apic s)) LAPIC_ID = Z.shiftl locid 24 -> (la_delay (sm_apic s) < N.to_nat fuel)%nat ->
  length (sm_cpus s) = MAX_CPUS -> length (sm_bsp s) = GDT_NUM_DESCS -> sm_cores s = ∅ -> ap_initialized s = false ->
  NoDup others -> Forall (fun id => 1 <= id < 64) others ->
  Z.of_nat (length others * 2 + n) + fb_total m l + KHEAP_PAGES <= WINDOW ->
  Z.of_nat (2 + length others * 2 + j) * region_cost + HB_SIZE < KHEAP_PAGES * 4096 ->
  0 <= cr3 < 2 ^ 32 -> clock_wired line g fuel es ->
  (forall d a s' us t0 q0, ticking 1000 g fuel (sm_time s') ->
     acpi_isos a = madt_isos q es -> acpi_cpus a = madt_cpus es -> u_id <$> us = started comes_up false others ->
     la_sent (sm_apic s') = la_sent (sm_apic s) ++ start_ipis comes_up false others ->
     smp_inv im lay cr3 locid t0 q0 s' n (Z.of_nat j * region_cost) us -> tss_base (sm_bsp s') = Some (tss_at im 0) ->
     (forall i, i <> 5%nat -> i <> 6%nat -> sm_bsp s' !! i = sm_bsp s !! i) ->
     Q () (mk_machine (mk_serial d false) (k_gates k) (k_idtr k) (<[255%nat := f_spur fn]> (<[32%nat := f_pit fn]> (k_handlers k)))
       a (k_found k) true s')) ->
  wp (init_extra im fn lay cr3 edx_feats comes_up line amem fuel) Q k.
Proof.
  intros s others Hf Hlock Hh Hbh Hmadt Hc Hlc Hli Hfe Hfull Hloc Hreg Hdel Hcpus Hbsp Hco Hap Hnd Hr Hn Hj Hcr3 Hwired HQ.
  unfold init_extra. say_next. wp_focus. apply on_kmem_wp. eapply wp_mono; [exact (boot_heap_wp lay m l _ f Hbh)|].
  intros [] p (qh & fs & Hup). pose proof (heap_up_space _ _ _ _ _ _ _ _ _ _ Hbh Hup Hn Hj) as Hsp.
  say_next. wp_focus. unfold start_pit. wp_focus. apply set_int_wp; [cbn; rewrite Hh; lia|]. wp_focus.
  apply zoom_wp, pit_init_wp. intros ?. wp_step. say_next. wp_focus. apply zoom_wp.
  eapply wp_mono; [by eapply (acpi_init_wp amem fuel q es)|]. intros [] a [Eiso Ecpu].
  say_next. say_next. wp_focus.
  apply (start_apic_wp q es); [done|done|cbn; by rewrite length_insert|exact Eiso|by eapply madt_says_entries|done|apply Hwired|].
  intros ? ap. cbv zeta. intros R1 R2 R3 R4. say_next. say_next. wp_focus. unfold clock_line. wp_step. wp_step. wp_step. wp_focus. apply zoom_wp.
  cbn [k_acpi set_ser set_acpi set_smp]. rewrite Ecpu.
  eapply wp_mono; [eapply (smp_init_wp im lay cr3 comes_up fuel 1000 g Hcr3 locid (madt_cpus es) n j)|]; try done.
  - etransitivity; [exact R1|exact Hreg].
  - eapply Nat.le_lt_trans; [|exact Hdel]. apply Nat.eq_le_incl, R3.
  - eapply clock_line_ticking; [exact Hwired|exact R4|done..].
  - intros [] s' (Htk & us & t0 & q0 & H1 & H2 & H3 & H4 & H5). apply say_wp; [exact Hfuel|done|apply msg_ok_bytes|]. intros ?.
    eapply HQ; try done. etransitivity; [exact H2|]. f_equal. exact R2.
Qed.
End whole.

(** The machine when [kmain] is called. *)
Record kernel_up {D} (im : kimage) (fn : fns) (lay : layout) (cr3 : Z) (g : nat) (fuel : N) (comes_up : Z -> nat -> bool) (locid r q : Z) (es : list ment)
    (n j : nat) (k k' : machine D) : Prop := {
  ku_gdt : flat_gdt (sm_bsp (k_smp k'));
  ku_tss : tss_base (sm_bsp (k_smp k')) = Some (tss_at im 0);
  ku_gates : k_gates k' = idt_gates (f_stubs fn);
  ku_handlers : k_handlers k' !! Z.to_nat IPI_HALT = Some (f_halt fn) /\ k_handlers k' !! 32%nat = Some (f_pit fn) /\
    k_handlers k' !! 255%nat = Some (f_spur fn);
  ku_clock : ticking 1000 g fuel (sm_time (k_smp k')) /\ k_if k' = true;
  ku_acpi : acpi_cpus (k_acpi k') = madt_cpus es /\ acpi_isos (k_acpi k') = madt_isos q es /\ fd_rsdp (k_found k') = r;
  ku_smp : let others := filter (fun id => id <> locid) (madt_cpus es) in exists us t0 q0,
    u_id <$> us = started comes_up false others /\
    la_sent (sm_apic (k_smp k')) = la_sent (sm_apic (k_smp k)) ++ start_ipis comes_up false others /\
    smp_inv im lay cr3 locid t0 q0 (k_smp k') n (Z.of_nat j * region_cost) us /\ space_inv lay (sm_mem (k_smp k')) n j;
}.

Lemma flat_gdt_keep t t' : flat_gdt t -> (forall i, i <> 5%nat -> i <> 6%nat -> t' !! i = t !! i) -> flat_gdt t'.
Proof.
  intros (T0 & e1 & e2 & e3 & e4 & T1 & T2 & T3 & T4 & F) Hk. split; [by rewrite Hk|]. exists e1, e2, e3, e4.
  by rewrite !Hk.
Qed.

Lemma handlers_set (h : list Z) a b c : length h = 256%nat ->
  let h' := <[255%nat := c]> (<[32%nat := b]> (<[Z.to_nat IPI_HALT := a]> h)) in
  h' !! Z.to_nat IPI_HALT = Some a /\ h' !! 32%nat = Some b /\ h' !! 255%nat = Some c.
Proof.
  intros Hh h'. assert (Z.to_nat IPI_HALT = 254%nat) as E by done. unfold h'. rewrite E. split_and!.
  - rewrite !list_lookup_insert_ne by lia. apply list_lookup_insert_eq. lia.
  - rewrite list_lookup_insert_ne by lia. apply list_lookup_insert_eq. rewrite length_insert. lia.
  - apply list_lookup_insert_eq. rewrite !length_insert. lia.
Qed.

Definition tags_of (m : pmem) (st2 : Z) : Z := field m 8 (st2 + default 0 (offsetof st2_struct_t ["tags"%string])).


(** ** A machine with two processors *)

(** The structure at 0x500 with the list of tags, an RSDP tag and a memory map. *)
Definition start_tags : pmem :=
  mem_put (mem_put demo_tags 0x800 (le_enc 8 STIVALE2_STRUCT_TAG_RSDP_ID ++ le_enc 8 0x1000 ++ le_enc 8 0x100))
    (0x500 + 128) (le_enc 8 0x800).
Definition start_mem : Z -> option Z := mem_of
  [(0x100, replicate 16 0 ++ le_enc 4 0x1000);
   (page_map_mmio 0x1000, demo_hdr [82; 83; 68; 84] 44 ++ concat (le_enc 4 <$> [0x3000; 0x2000]));
   (page_map_mmio 0x2000, demo_hdr SIG_APIC 90 ++ replicate 8 0 ++ concat (ment_bytes <$> demo_ments));
   (page_map_mmio 0x3000, demo_hdr [70; 65; 67; 80] 36)].
Definition start_machine : machine slow_uart :=
  mk_machine (mk_serial (mk_uart [] false) false) [] (mk_idt_record 0 0) (replicate 256 0)
    (mk_acpi 0 0 0 0 [] [] 0) (mk_found None 0) false
    (mk_smp boot_pstate (mk_apic ∅ [] 0 4 0 ∅ 0xfee00900) ∅ [] (replicate 7 gdt_null) (mk_gdt_ptr 0 0) ∅ (replicate 64 no_cpu) 0 false ∅
      (mk_tstate (mk_clock 0 0) (fun _ => false) 0 false)).
Definition start_fns : fns :=
  mk_fns 0xffffffff80204000 0xffffffff80205000 0xffffffff80206000
    (mk_stubs (fun i => 0x1000 + i `mod` 32 * 16) 0x2000 (fun i => 0x3000 + i `mod` 16 * 16) 0x4000 0x5000) 0xffffffff80330000.

Lemma start_tag_ok : Forall (tag_ok start_tags) [0x800; 0x1000].
Proof.
  repeat apply Forall_cons_2; [..|by apply Forall_nil_2]; (split; [|intros Hx; vm_compute in Hx; discriminate]);
    intros Hx; [vm_compute in Hx; discriminate|]. clear Hx. replace (field start_tags 8 (0x1000 + 16)) with 2 by (vm_compute; reflexivity). split; [done|].
  replace (entries start_tags 0x1000 2) with [mk_ent 0x20000 0x4000 1; mk_ent 0x30000 0x8000 2] by (vm_compute; reflexivity).
  repeat constructor; intros; try discriminate; vm_compute; split_and!; discriminate.
Qed.

Lemma start_madt : madt_says start_mem 0x100 (page_map_mmio 0x2000 + 44) demo_ments.
Proof.
  exists demo_sig, 0x1000, [0x3000; 0x2000], 0x2000, 90.
  split_and!; try reflexivity; try lia.
  - apply mem_at_check. vm_compute. reflexivity.
  - exists (demo_hdr [82; 83; 68; 84] 44). split_and!; [reflexivity..|]. apply mem_at_check. vm_compute. reflexivity.
  - intros a Ha. repeat (apply elem_of_cons in Ha as [->|Ha]); [| |by apply elem_of_nil in Ha];
      (split; [lia|split; [apply mem_at_check; vm_compute; reflexivity|reflexivity]]).
  - exists (replicate 8 0). split; [reflexivity|]. exists (demo_hdr SIG_APIC 90).
    split_and!; [reflexivity..|]. apply mem_at_check. vm_compute. reflexivity.
  - repeat first [apply Forall_nil_2 | apply Forall_cons_2]; unfold ment_ok; cbn [m_type m_body];
      (split_and!; [lia|lia|repeat first [apply Forall_nil_2 | apply Forall_cons_2; [cbn beta; lia|]]|simpl; lia|simpl; lia|simpl; lia]).
Qed.

Definition start_line : pit_line := mk_line 2 (fun _ => true).
Lemma start_wired : clock_wired start_line 1 (10 ^ 10) demo_ments.
Proof. split_and!; [done|done|vm_compute; reflexivity| |done]. intros i. exists i. split; [lia|done]. Qed.

