(* ===== verification/Kmain.v ===== *)
(** * Kmain: device nodes and mounts (kmain of src/sys/kmain.c; console_init, video_init,
      kb_init and mouse_init of src/sys/console.c, src/drivers/gfx/fb/fb.c,
      src/drivers/input/keyboard/ps2kb.c and src/drivers/input/mouse/ps2mouse.c)

    The middle part of [kmain]: the virtual file system is made, the first disk and the root
    file system are mounted, and the drivers of console, frame buffer, keyboard and mouse
    register themselves and mount their nodes.  The state has the heap (class [KAlloc]),
    the nodes the drivers allocate, the mount tree and the state of each driver.  The
    root file system is a class: what its directories and files hold is fixed here, as
    [Ext2Dir] and [Ext2] show of the operations of an ext2 volume; its nodes are not
    counted in the heap. *)

From stdpp Require Import strings.
From Stdlib Require Import Ascii.
From S2P Require Import Prelude Disk Alloc Kheap DList Layout Headers Vfs Input Ports Desc Video Chips Print Boot.

(** A device node: addresses of its operations (0 is null), flags and name. *)
Record vnode : Type := mk_vnode { vn_read : Z; vn_write : Z; vn_ioctl : Z; vn_mmap : Z; vn_flags : Z; vn_name : Z }.

(** Addresses of the operations and interrupt handlers of the drivers. *)
Record drivers : Type := mk_drivers {
  dr_conread : Z; dr_conwrite : Z; dr_fb_ioctl : Z; dr_fb_mmap : Z; dr_kb_read : Z; dr_mouse_read : Z;
  dr_kb_handler : Z; dr_mouse_handler : Z;
}.

Record kst (H D : Type) : Type := mk_kst {
  ks_heap : H; ks_nodes : gmap Z vnode; ks_strs : gmap Z (list Z); ks_tree : vtree;
  ks_video : video; ks_keys : queue; ks_mouse : mouse_state; ks_handlers : list Z; ks_apic : apic_hw; ks_ports : D;
  ks_rand : Z;
}.
Arguments mk_kst {H D}. Arguments ks_heap {H D}. Arguments ks_nodes {H D}. Arguments ks_strs {H D}. Arguments ks_tree {H D}.
Arguments ks_video {H D}. Arguments ks_keys {H D}. Arguments ks_mouse {H D}. Arguments ks_handlers {H D}.
Arguments ks_apic {H D}. Arguments ks_ports {H D}. Arguments ks_rand {H D}.

(** The mounted root file system: flags of its nodes and of the disk's node, entries of
    directories (0: no such entry), and the bytes of files. *)
Class RootFs : Type := {
  fs_flags : Z -> Z;
  fs_find : Z -> name -> Z;
  fs_read : Z -> Z -> Z -> list Z;
}.

Section kmain.
Context {H D : Type} `{KAlloc H} `{Ports D} `{RootFs} (dr : drivers).
Abbreviation V := (M (kst H D)).
Implicit Types k : kst H D.

Definition set_heap (h : H) k := mk_kst h (ks_nodes k) (ks_strs k) (ks_tree k) (ks_video k) (ks_keys k) (ks_mouse k) (ks_handlers k) (ks_apic k) (ks_ports k) (ks_rand k).
Definition set_video (v : video) k := mk_kst (ks_heap k) (ks_nodes k) (ks_strs k) (ks_tree k) v (ks_keys k) (ks_mouse k) (ks_handlers k) (ks_apic k) (ks_ports k) (ks_rand k).
Definition set_keys (q : queue) k := mk_kst (ks_heap k) (ks_nodes k) (ks_strs k) (ks_tree k) (ks_video k) q (ks_mouse k) (ks_handlers k) (ks_apic k) (ks_ports k) (ks_rand k).
Definition set_mouse (q : mouse_state) k := mk_kst (ks_heap k) (ks_nodes k) (ks_strs k) (ks_tree k) (ks_video k) (ks_keys k) q (ks_handlers k) (ks_apic k) (ks_ports k) (ks_rand k).
Definition set_apic (a : apic_hw) k := mk_kst (ks_heap k) (ks_nodes k) (ks_strs k) (ks_tree k) (ks_video k) (ks_keys k) (ks_mouse k) (ks_handlers k) a (ks_ports k) (ks_rand k).
Definition set_ports (d : D) k := mk_kst (ks_heap k) (ks_nodes k) (ks_strs k) (ks_tree k) (ks_video k) (ks_keys k) (ks_mouse k) (ks_handlers k) (ks_apic k) d (ks_rand k).
Definition set_tree (f : vtree -> vtree) k := mk_kst (ks_heap k) (ks_nodes k) (ks_strs k) (f (ks_tree k)) (ks_video k) (ks_keys k) (ks_mouse k) (ks_handlers k) (ks_apic k) (ks_ports k) (ks_rand k).
Definition set_nodes (f : gmap Z vnode -> gmap Z vnode) k := mk_kst (ks_heap k) (f (ks_nodes k)) (ks_strs k) (ks_tree k) (ks_video k) (ks_keys k) (ks_mouse k) (ks_handlers k) (ks_apic k) (ks_ports k) (ks_rand k).
Definition set_strs (f : gmap Z (list Z) -> gmap Z (list Z)) k := mk_kst (ks_heap k) (ks_nodes k) (f (ks_strs k)) (ks_tree k) (ks_video k) (ks_keys k) (ks_mouse k) (ks_handlers k) (ks_apic k) (ks_ports k) (ks_rand k).
Definition set_handlers (h : list Z) k := mk_kst (ks_heap k) (ks_nodes k) (ks_strs k) (ks_tree k) (ks_video k) (ks_keys k) (ks_mouse k) h (ks_apic k) (ks_ports k) (ks_rand k).
Definition set_rand (n : Z) k := mk_kst (ks_heap k) (ks_nodes k) (ks_strs k) (ks_tree k) (ks_video k) (ks_keys k) (ks_mouse k) (ks_handlers k) (ks_apic k) (ks_ports k) n.

Definition ks_with_heap {A} (m : M H A) : V A := zoom ks_heap set_heap m.
Definition on_video {A} (m : M video A) : V A := zoom ks_video set_video m.
Definition on_keys {A} (m : M queue A) : V A := zoom ks_keys set_keys m.
Definition on_mouse {A} (m : M mouse_state A) : V A := zoom ks_mouse set_mouse m.
Definition on_apic {A} (m : M apic_hw A) : V A := zoom ks_apic set_apic m.
Definition on_dev {A} (m : M D A) : V A := zoom ks_ports set_ports m.

Definition register_int (id fn : Z) : V () :=
  k ← get; match idt_set_int id fn (ks_handlers k) with Ok h => put (set_handlers h k) | Err f => throw f end.

(** [kmalloc(sizeof(vfs_node_t))], the assignments, and [strdup] of the name. *)
Definition new_vnode (read write ioctl mmap flags : Z) (n : name) : V Z :=
  p ← ks_with_heap (ka_malloc (sizeof vfs_node_t));
  modify (set_nodes (insert p (mk_vnode read write ioctl mmap flags 0)));;
  str ← ks_with_heap (ka_malloc (Z.of_nat (length n) + 1));
  modify (set_strs (insert str n));;
  modify (set_nodes (insert p (mk_vnode read write ioctl mmap flags str)));;
  mret p.

(** The nodes as path resolution sees them: a device has no directory. *)
Definition kst_nodes (tbl : gmap Z vnode) : VfsNodes (kst H D) := {|
  node_ops n := mk_vfs_ops None None None None
    (if bool_decide (is_Some (tbl !! n)) then None else Some (fun t => mret (fs_find n t))) None None None None None;
  node_flags n := match tbl !! n with Some v => vn_flags v | None => fs_flags n end;
  node_size n := 0;
  node_free n := mret ();
|}.
Definition resolve (tokens : list name) : V Z :=
  k ← get; vfs_resolve_path (H := kst_nodes (ks_nodes k)) (ks_tree k) tokens.

Definition mount_at (dev : Z) (parts : list name) : V () := modify (set_tree (vfs_mount dev parts)).

(** Path components. *)
Definition n_dev : name := msg "dev".

Definition console_init : V () :=
  console ← new_vnode (dr_conread dr) (dr_conwrite dr) 0 0 FS_CHARDEV (msg "console");
  mount_at console [n_dev; msg "console"].

(** [vfs_read] of a file of the root file system; the header has four bytes. *)
Definition load_font : V () :=
  psffont ← resolve [msg "usr"; msg "share"; msg "font.psf"];
  guard (truth psffont) NullDeref;;
  let header := fs_read psffont 0 4 in
  let size := default 0 (header !! 3%nat) in
  _ ← ks_with_heap (ka_malloc (size * 256));
  on_video (modify (set_font (mk_font (take 2 header) (default 0 (header !! 2%nat)) size (fs_read psffont 4 (size * 256))))).

Definition video_init : V () :=
  on_video fb_clear;;
  node ← new_vnode 0 0 (dr_fb_ioctl dr) (dr_fb_mmap dr) FS_BLKDEV (msg "fb");
  mount_at node [n_dev; msg "fb"];;
  load_font.

Definition keyboard_init : V () :=
  register_int 33 (dr_kb_handler dr);;
  on_apic (ioapic_map_irq 1);;
  on_keys kb_init;;
  node ← new_vnode (dr_kb_read dr) 0 0 0 FS_BLKDEV (msg "keyboard");
  mount_at node [n_dev; msg "keyboard"].

Definition mouse_init : V () :=
  on_mouse (with_queue (q_set_end (-1)));;
  on_dev mouse_setup;;
  register_int 44 (dr_mouse_handler dr);;
  on_apic (ioapic_map_irq 12);;
  node ← new_vnode (dr_mouse_read dr) 0 0 0 FS_BLKDEV (msg "mouse");
  mount_at node [n_dev; msg "mouse"].

(** [kmain] from [vfs_init] to [rand_seed]: [disk] is the node [ahci_get_dev(0)] delivers,
    [root] that of [ext2_init]. *)
Definition kmain_files (disk root : Z) : V () :=
  modify (set_tree (fun _ => vfs_init));;
  mount_at disk [n_dev; msg "disk0"];;
  mount_at root [];;
  console_init;;
  video_init;;
  keyboard_init;;
  mouse_init;;
  modify (set_rand (rand_seed 305640980)).
End kmain.

(** ** The tree *)

Definition dev_tree (disk con fbn kbn ms : Z) : vtree := VNode n_dev 0
  [VNode (msg "disk0") disk []; VNode (msg "console") con []; VNode (msg "fb") fbn []; VNode (msg "keyboard") kbn [];
   VNode (msg "mouse") ms []].
Definition kernel_tree (disk root con fbn kbn ms : Z) : vtree := VNode (msg "root") root [dev_tree disk con fbn kbn ms].

Lemma kernel_tree_mounts disk root con fbn kbn ms :
  kernel_tree disk root con fbn kbn ms =
  vfs_mount ms [n_dev; msg "mouse"] (vfs_mount kbn [n_dev; msg "keyboard"] (vfs_mount fbn [n_dev; msg "fb"]
    (vfs_mount con [n_dev; msg "console"] (vfs_mount root [] (vfs_mount disk [n_dev; msg "disk0"] vfs_init))))).
Proof. reflexivity. Qed.

Lemma find_one m c : find_child m [c] = if str_eq (ename c) m then Some ([], c, []) else None.
Proof. cbn. by destruct (str_eq (ename c) m). Qed.

(** Paths that do not begin with "dev" lead to the root file system. *)
Lemma mountpoint_root n root f cs tokens :
  tokens !! 0%nat <> Some n_dev -> vfs_get_mountpoint (VNode n root [VNode n_dev f cs]) tokens = root.
Proof.
  intros Ht. destruct tokens as [|t ts]; [done|]. cbn [vfs_get_mountpoint vfs_get_mountpoint_recur children].
  rewrite find_one. destruct (str_eq _ t) eqn:E; [|done]. apply str_eq_true in E as [<- _]. by destruct Ht.
Qed.

(** ** Steps *)

Section steps.
Context {H D : Type} `{KA : KAlloc H} `{PO : Ports D} `{FS : RootFs} (dr : drivers).
Implicit Types k : kst H D.

(** The heap, and the device nodes in it apart from the blocks [L0] there were. *)
Definition kinv (L0 : list (Z * Z)) (b : Z) k : Prop :=
  exists L, ka_inv (ks_heap k) (L ++ L0) b /\ forall a, is_Some (ks_nodes k !! a) -> a ∈ L.*1 /\ a ∉ L0.*1.

Definition node_cost (n : name) : Z := ka_cost (H := H) (sizeof vfs_node_t) + ka_cost (H := H) (Z.of_nat (length n) + 1).

(** A block for a node or something else: new, and not one of [L0]. *)
Lemma ks_malloc_wp L0 b n (Q : Z -> kst H D -> Prop) k :
  kinv L0 (b + ka_cost (H := H) n) k -> 0 <= b -> 0 <= n < 2 ^ 61 ->
  (forall p h, 0 < p -> p ∉ L0.*1 -> ks_nodes k !! p = None -> kinv L0 b (set_heap h k) ->
     (forall v, kinv L0 b (set_nodes (insert p v) (set_heap h k))) -> Q p (set_heap h k)) ->
  wp (ks_with_heap (ka_malloc n)) Q k.
Proof.
  intros (L & Hi & Hn) Hb Hsz HQ. destruct (wp_Ok _ _ _ (ka_malloc_wp _ _ _ _ Hi Hsz Hb)) as (p & h & E & kk & _ & Hp & _ & Hsep & Hi').
  assert (p ∉ (L ++ L0).*1) as Hnew.
  { intros Hin. apply list_elem_of_fmap in Hin as ([a len] & -> & Hin). rewrite Forall_forall in Hsep.
    destruct (Hsep (a, len)) as [Hd _]; [done|]. by apply Hd. }
  rewrite fmap_app, not_elem_of_app in Hnew. destruct Hnew as [N1 N2].
  eapply wp_intro; [by apply zoom_Ok|]. apply HQ; [done|done| | |].
  - destruct (ks_nodes k !! p) eqn:Ek; [|done]. destruct (Hn p) as [Hin _]; [by eexists|done].
  - exists ((p, kk) :: L). split; [done|]. intros a Ha. destruct (Hn a Ha). split; [by right|done].
  - intros v. exists ((p, kk) :: L). split; [done|]. intros a. cbn [ks_nodes set_nodes set_heap]. rewrite lookup_insert.
    destruct (decide (p = a)) as [<-|Hne]; [intros _; split; [by left|done]|]. intros Ha. destruct (Hn a Ha). split; [by right|done].
Qed.

Lemma new_vnode_wp L0 b rd_ wr io mm fl n (Q : Z -> kst H D -> Prop) k :
  kinv L0 (b + node_cost n) k -> 0 <= b -> Z.of_nat (length n) + 1 < 2 ^ 61 ->
  (forall p str h, 0 < p -> p ∉ L0.*1 -> ks_nodes k !! p = None ->
     let k' := set_nodes (fun _ => <[p := mk_vnode rd_ wr io mm fl str]> (ks_nodes k)) (set_strs (insert str n) (set_heap h k)) in
     kinv L0 b k' -> Q p k') ->
  wp (new_vnode rd_ wr io mm fl n) Q k.
Proof.
  intros Hk Hb Hn HQ. unfold new_vnode. assert (0 <= sizeof vfs_node_t < 2 ^ 61) as Hsz by (vm_compute; split; [discriminate|done]).
  pose proof (ka_cost_nonneg (H := H) (Z.of_nat (length n) + 1) ltac:(lia)) as Hc. unfold node_cost in Hk.
  wp_focus. apply (ks_malloc_wp L0 (b + ka_cost (H := H) (Z.of_nat (length n) + 1))); [|lia|done|].
  { by replace (b + _ + _) with (b + (ka_cost (H := H) (sizeof vfs_node_t) + ka_cost (H := H) (Z.of_nat (length n) + 1))) by lia. }
  intros p h1 Hp Hnew Hfree _ Hins. wp_step. wp_step. wp_focus. apply (ks_malloc_wp L0 b); [apply Hins|done|lia|].
  intros str h2 _ _ _ (L & Hi & Hkeys) _. do 4 wp_step. wp_step.
  match goal with |- Q p ?k' => replace k' with (set_nodes (fun _ => <[p := mk_vnode rd_ wr io mm fl str]> (ks_nodes k))
    (set_strs (insert str n) (set_heap h2 k))) by (by unfold set_nodes; cbn; rewrite insert_insert_eq) end.
  apply HQ; [done..|]. exists L. split; [exact Hi|]. intros a Ha. apply Hkeys. cbn [ks_nodes set_nodes set_strs set_heap] in *.
  rewrite lookup_insert in *. by destruct (decide (p = a)); [eexists|].
Qed.

Lemma kinv_other L0 b k a : kinv L0 b k -> a ∈ L0.*1 -> ks_nodes k !! a = None.
Proof.
  intros (L & _ & Hk) Ha. destruct (ks_nodes k !! a) eqn:E; [|done]. by destruct (Hk a) as [_ []]; [eexists|].
Qed.

(** The nodes of the root file system and of the disk are blocks of [L0]. *)
Record fs_in (L0 : list (Z * Z)) (disk root : Z) : Prop := {
  fi_root : root ∈ L0.*1 /\ root <> 0 /\ fs_flags root <> FS_BLKDEV /\ fs_flags root <> FS_CHARDEV;
  fi_disk : disk ∈ L0.*1 /\ disk <> 0 /\ fs_flags disk = FS_BLKDEV;
  fi_find : forall a t, fs_find a t = 0 \/ fs_find a t ∈ L0.*1;
}.

Lemma walk_fs tbl mount node tokens k :
  tbl !! node = None -> (forall a t, fs_find a t = 0 \/ tbl !! fs_find a t = None) ->
  resolve_walk (H := kst_nodes tbl) mount node tokens k = Ok (lookup_all fs_find node tokens, k).
Proof.
  intros Hn Hf. revert node Hn. induction tokens as [|t ts IH]; intros node Hn; [done|].
  cbn [resolve_walk lookup_all]. eapply bind_Ok.
  { cbn [node_ops kst_nodes op_finddir]. rewrite bool_decide_false by (rewrite Hn; by intros [??]). reflexivity. }
  eapply bind_Ok; [reflexivity|]. destruct (Hf node t) as [->|Ht]; [done|].
  destruct (fs_find node t =? 0); [done|]. eapply bind_Ok; [by destruct (negb _)|]. by apply IH.
Qed.

(** A path whose first component is not "dev" is looked up in the root file system. *)
Lemma resolve_fs L0 b disk root n f cs tokens k :
  kinv L0 b k -> fs_in L0 disk root -> ks_tree k = VNode n root [VNode n_dev f cs] -> tokens !! 0%nat <> Some n_dev ->
  resolve tokens k = Ok (lookup_all fs_find root tokens, k).
Proof.
  intros Hk [(Hr & Hr0 & Hb & Hc) _ Hf] Ht Hh. unfold resolve. eapply bind_Ok; [reflexivity|]. unfold vfs_resolve_path.
  rewrite Ht, mountpoint_root by done. eapply bind_Ok; [by rewrite (proj2 (truth_true root) Hr0)|].
  cbn [node_flags kst_nodes]. rewrite (kinv_other _ _ _ _ Hk Hr).
  rewrite (proj2 (Z.eqb_neq _ _) Hb), (proj2 (Z.eqb_neq _ _) Hc). cbn [orb].
  apply walk_fs; [by eapply kinv_other|]. intros a t. destruct (Hf a t) as [|Hin]; [by left|right; by eapply kinv_other].
Qed.

(** A mounted device is the result itself. *)
Lemma resolve_dev tokens m k :
  vfs_get_mountpoint (ks_tree k) tokens = m -> m <> 0 ->
  (exists v, ks_nodes k !! m = Some v /\ (vn_flags v = FS_BLKDEV \/ vn_flags v = FS_CHARDEV)) \/
  ks_nodes k !! m = None /\ fs_flags m = FS_BLKDEV ->
  resolve tokens k = Ok (m, k).
Proof.
  intros Hm Hm0 Hfl. unfold resolve. eapply bind_Ok; [reflexivity|]. unfold vfs_resolve_path. rewrite Hm.
  eapply bind_Ok; [by rewrite (proj2 (truth_true m) Hm0)|]. cbn [node_flags kst_nodes].
  by destruct Hfl as [(v & -> & [->| ->])|[-> ->]].
Qed.

(** A path into "/dev" that no device is mounted at is a null dereference. *)
Lemma resolve_null tokens k : vfs_get_mountpoint (ks_tree k) tokens = 0 -> resolve tokens k = Err NullDeref.
Proof. intros Hm. unfold resolve. eapply bind_Ok; [reflexivity|]. unfold vfs_resolve_path. by rewrite Hm. Qed.

Lemma dev_tree_other disk root con fbn kbn ms t ts :
  t ∉ [msg "disk0"; msg "console"; msg "fb"; msg "keyboard"; msg "mouse"] ->
  vfs_get_mountpoint (kernel_tree disk root con fbn kbn ms) (n_dev :: t :: ts) = 0.
Proof.
  intros Ht. rewrite !not_elem_of_cons in Ht. destruct Ht as (T1 & T2 & T3 & T4 & T5 & _).
  unfold vfs_get_mountpoint. cbn [vfs_get_mountpoint_recur kernel_tree children]. rewrite find_one.
  change (str_eq (ename (dev_tree _ _ _ _ _)) n_dev) with true. cbn [children dev_tree find_child ename].
  assert (forall a, t <> a -> str_eq a t = false) as Hs by (intros a Ha; apply not_true_iff_false; rewrite str_eq_true; intros [-> _]; done).
  by rewrite !Hs.
Qed.

Lemma register_int_wp id f (Q : () -> kst H D -> Prop) k :
  0 <= id < Z.of_nat (length (ks_handlers k)) -> Q () (set_handlers (<[Z.to_nat id := f]> (ks_handlers k)) k) ->
  wp (register_int id f) Q k.
Proof.
  intros Hid HQ. unfold register_int. wp_step. wp_step. unfold idt_set_int. rewrite bool_decide_true by done. by wp_step.
Qed.
Lemma map_irq_wp irq (Q : () -> kst H D -> Prop) k :
  0 <= irq < 224 ->
  (forall a, redirection a irq = (irq + 32, 1, false, 0) -> (forall n, 0 <= n -> n <> irq -> redirection a n = redirection (ks_apic k) n) ->
     Q () (set_apic a k)) ->
  wp (on_apic (ioapic_map_irq irq)) Q k.
Proof.
  intros Hi HQ. destruct (ioapic_map_irq_correct irq (ks_apic k) Hi) as (a & E & Hr & Ho). eapply wp_intro; [by apply zoom_Ok|]. by apply HQ.
Qed.

(** The blocks of the four drivers and the font. *)
Definition font_size (f : Z) : Z := default 0 (fs_read f 0 4 !! 3%nat).
Definition files_cost (f : Z) : Z :=
  node_cost (msg "console") + node_cost (msg "fb") + ka_cost (H := H) (font_size f * 256) + node_cost (msg "keyboard") + node_cost (msg "mouse").

(** A node made and mounted under "/dev"; the rest of the state but heap and names is [k]'s. *)
Record dev_added (L0 : list (Z * Z)) (b : Z) (n : name) (v : Z -> vnode) k k' (p : Z) : Prop := {
  da_new : 0 < p /\ p ∉ L0.*1 /\ ks_nodes k !! p = None;
  da_node : exists str, ks_nodes k' = <[p := v str]> (ks_nodes k);
  da_tree : ks_tree k' = vfs_mount p [n_dev; n] (ks_tree k);
  da_inv : kinv L0 b k';
  da_rest : ks_video k' = ks_video k /\ ks_keys k' = ks_keys k /\ ks_mouse k' = ks_mouse k /\
    ks_handlers k' = ks_handlers k /\ ks_apic k' = ks_apic k /\ ks_ports k' = ks_ports k;
}.

Lemma node_mount_wp L0 b rd_ wr io mm fl n (Q : () -> kst H D -> Prop) k :
  kinv L0 (b + node_cost n) k -> 0 <= b -> Z.of_nat (length n) + 1 < 2 ^ 61 ->
  (forall p k', dev_added L0 b n (mk_vnode rd_ wr io mm fl) k k' p -> Q () k') ->
  wp (p ← new_vnode rd_ wr io mm fl n; mount_at p [n_dev; n]) Q k.
Proof.
  intros Hk Hb Hn HQ. wp_focus. apply (new_vnode_wp L0 b); [done..|]. intros p str h Hp Hnew Hfree k' Hk'.
  unfold mount_at. wp_step. apply (HQ p). by split; try (by exists str).
Qed.

Lemma mount_under_dev p x n root f cs :
  exists cs', vfs_mount p [n_dev; x] (VNode n root [VNode n_dev f cs]) = VNode n root [VNode n_dev f cs'].
Proof.
  exists (children (vfs_mount_recur [x] p (VNode n_dev f cs))). unfold vfs_mount. cbn [vfs_mount_recur children].
  rewrite find_one. change (str_eq (ename (VNode n_dev f cs)) n_dev) with true. cbn [app ename efile children].
  by destruct (find_child x cs) as [[[l c] r]|].
Qed.

(** [load_font]: the heap and the font change. *)
Lemma load_font_wp L0 b disk root n f cs (Q : () -> kst H D -> Prop) k :
  let file := lookup_all fs_find root [msg "usr"; msg "share"; msg "font.psf"] in
  kinv L0 (b + ka_cost (H := H) (font_size file * 256)) k -> 0 <= b -> fs_in L0 disk root -> ks_tree k = VNode n root [VNode n_dev f cs] ->
  file <> 0 -> 0 <= font_size file < 256 ->
  (forall h, kinv L0 b (set_heap h k) -> Q () (set_video
     (set_font (mk_font (take 2 (fs_read file 0 4)) (default 0 (fs_read file 0 4 !! 2%nat)) (font_size file)
        (fs_read file 4 (font_size file * 256))) (ks_video k)) (set_heap h k))) ->
  wp load_font Q k.
Proof.
  intros file Hk Hb Hfs Ht Hf Hsz HQ. unfold load_font. wp_focus.
  eapply wp_intro; [by apply (resolve_fs L0 (b + ka_cost (H := H) (font_size file * 256)) disk root n f cs)|]. fold file.
  wp_step. wp_step; [by apply truth_true|]. cbv zeta. fold (font_size file). wp_focus.
  apply (ks_malloc_wp L0 b); [done|done|lia|]. intros p h _ _ _ Hk' _. by apply HQ.
Qed.

Lemma video_init_wp L0 b disk root n f cs (Q : () -> kst H D -> Prop) k :
  let file := lookup_all fs_find root [msg "usr"; msg "share"; msg "font.psf"] in
  kinv L0 (b + ka_cost (H := H) (font_size file * 256) + node_cost (msg "fb")) k -> 0 <= b -> fs_in L0 disk root ->
  ks_tree k = VNode n root [VNode n_dev f cs] -> fb_fits (ks_video k) -> file <> 0 -> 0 <= font_size file < 256 ->
  (forall l p k1 k', dev_added L0 (b + ka_cost (H := H) (font_size file * 256)) (msg "fb")
       (mk_vnode 0 0 (dr_fb_ioctl dr) (dr_fb_mmap dr) FS_BLKDEV)
       (set_video (set_fb l (ks_video k)) k) k1 p ->
     kinv L0 b k' -> ks_nodes k' = ks_nodes k1 -> ks_tree k' = ks_tree k1 ->
     ks_video k' = set_font (mk_font (take 2 (fs_read file 0 4)) (default 0 (fs_read file 0 4 !! 2%nat)) (font_size file)
        (fs_read file 4 (font_size file * 256))) (set_fb l (ks_video k)) ->
     ks_keys k' = ks_keys k -> ks_mouse k' = ks_mouse k -> ks_handlers k' = ks_handlers k -> ks_apic k' = ks_apic k -> Q () k') ->
  wp (video_init dr) Q k.
Proof.
  intros file Hk Hb Hfs Ht Hfit Hf Hsz HQ. unfold video_init. wp_focus.
  pose proof (ka_cost_nonneg (H := H) (font_size file * 256) ltac:(lia)) as Hc.
  destruct (wp_Ok _ _ _ (fb_clear_fits_wp _ Hfit)) as ([] & v & E & l & -> & _).
  eapply wp_intro; [by apply zoom_Ok|]. set (k0 := set_video _ k).
  apply wp_bind. apply (new_vnode_wp L0 (b + ka_cost (H := H) (font_size file * 256))); [exact Hk|lia|vm_compute; done|].
  intros p str h Hp Hnew Hfree k1 Hk1. unfold mount_at. wp_step. wp_step.
  set (k2 := set_tree _ k1).
  destruct (mount_under_dev p (msg "fb") n root f cs) as [cs' Hcs].
  apply (load_font_wp L0 b disk root n f cs'); [exact Hk1|done|done| |done|done|].
  { unfold k2, k1. cbn [ks_tree set_tree set_nodes set_strs set_heap set_video k0]. by rewrite Ht. }
  intros h' Hk2. apply (HQ l p k2); try done. by split; try (by exists str).
Qed.

Lemma q_set_end_init (q : queue) : length q = 513%nat -> q_set_end (-1) q = Ok ((), q_init q).
Proof. intros Hq. unfold q_set_end, q_set, bindM, get, guard. by rewrite Hq. Qed.

Lemma keyboard_init_wp L0 b (Q : () -> kst H D -> Prop) k :
  kinv L0 (b + node_cost (msg "keyboard")) k -> 0 <= b -> (33 < length (ks_handlers k))%nat -> length (ks_keys k) = 513%nat ->
  (forall a p k0 k', dev_added L0 b (msg "keyboard") (mk_vnode (dr_kb_read dr) 0 0 0 FS_BLKDEV) k0 k' p ->
     ks_nodes k0 = ks_nodes k -> ks_tree k0 = ks_tree k -> ks_video k0 = ks_video k -> ks_mouse k0 = ks_mouse k ->
     kb_rep (ks_keys k0) [] -> ks_handlers k0 = <[33%nat := dr_kb_handler dr]> (ks_handlers k) -> ks_apic k0 = a ->
     redirection a 1 = (33, 1, false, 0) -> Q () k') ->
  wp (keyboard_init dr) Q k.
Proof.
  intros Hk Hb Hh Hq HQ. unfold keyboard_init. wp_focus. apply register_int_wp; [lia|]. wp_focus. apply map_irq_wp; [lia|].
  intros a Ha _. wp_focus.
  eapply wp_intro; [by apply zoom_Ok, q_set_end_init|]. set (k0 := set_keys _ _). apply (node_mount_wp L0 b); [exact Hk|done|vm_compute; done|].
  intros p k' Hd. apply (HQ a p k0 k'); try done. by apply kb_init_rep.
Qed.

Lemma mouse_init_wp L0 b (Q : () -> kst H D -> Prop) k :
  kinv L0 (b + node_cost (msg "mouse")) k -> 0 <= b -> (44 < length (ks_handlers k))%nat -> length (mouse_queue (ks_mouse k)) = 513%nat ->
  (forall a p k0 k', dev_added L0 b (msg "mouse") (mk_vnode (dr_mouse_read dr) 0 0 0 FS_BLKDEV) k0 k' p ->
     ks_nodes k0 = ks_nodes k -> ks_tree k0 = ks_tree k -> ks_video k0 = ks_video k -> ks_keys k0 = ks_keys k ->
     ks_mouse k0 = mk_mouse (mouse_data (ks_mouse k)) (cycle (ks_mouse k)) (q_init (mouse_queue (ks_mouse k))) ->
     ks_handlers k0 = <[44%nat := dr_mouse_handler dr]> (ks_handlers k) -> ks_apic k0 = a ->
     redirection a 12 = (44, 1, false, 0) -> (forall n, 0 <= n -> n <> 12 -> redirection a n = redirection (ks_apic k) n) -> Q () k') ->
  wp (mouse_init dr) Q k.
Proof.
  intros Hk Hb Hh Hq HQ. unfold mouse_init. wp_focus.
  eapply wp_intro; [apply zoom_Ok; unfold with_queue; by rewrite q_set_end_init|]. set (k1 := set_mouse _ _). wp_focus. destruct (mouse_setup_terminates (ks_ports k1)) as (d & E).
  eapply wp_intro; [by apply zoom_Ok|]. set (k2 := set_ports _ _).
  wp_focus. apply register_int_wp; [cbn; lia|]. wp_focus. apply map_irq_wp; [lia|]. intros a Ha Ho.
  set (k0 := set_apic _ _). apply (node_mount_wp L0 b); [exact Hk|done|vm_compute; done|].
  intros p k' Hd. by apply (HQ a p k0 k').
Qed.

(** What [kmain] has set up; [con], [fbn], [kbn] and [ms] are the new nodes. *)
Record files_up (L0 : list (Z * Z)) (b disk root : Z) k k' (con fbn kbn ms : Z) : Prop := {
  fu_tree : ks_tree k' = kernel_tree disk root con fbn kbn ms;
  fu_inv : kinv L0 b k';
  fu_new : NoDup [con; fbn; kbn; ms] /\ Forall (fun p => 0 < p /\ p ∉ L0.*1) [con; fbn; kbn; ms];
  fu_nodes : exists s1 s2 s3 s4,
    ks_nodes k' !! con = Some (mk_vnode (dr_conread dr) (dr_conwrite dr) 0 0 FS_CHARDEV s1) /\
    ks_nodes k' !! fbn = Some (mk_vnode 0 0 (dr_fb_ioctl dr) (dr_fb_mmap dr) FS_BLKDEV s2) /\
    ks_nodes k' !! kbn = Some (mk_vnode (dr_kb_read dr) 0 0 0 FS_BLKDEV s3) /\
    ks_nodes k' !! ms = Some (mk_vnode (dr_mouse_read dr) 0 0 0 FS_BLKDEV s4);
  fu_handlers : ks_handlers k' = <[44%nat := dr_mouse_handler dr]> (<[33%nat := dr_kb_handler dr]> (ks_handlers k));
  fu_irqs : redirection (ks_apic k') 1 = (33, 1, false, 0) /\ redirection (ks_apic k') 12 = (44, 1, false, 0);
  fu_queues : kb_rep (ks_keys k') [] /\ mouse_queue (ks_mouse k') = q_init (mouse_queue (ks_mouse k));
  fu_font : let file := lookup_all fs_find root [msg "usr"; msg "share"; msg "font.psf"] in
    c_size (font (ks_video k')) = font_size file /\ glyph_buf (font (ks_video k')) = fs_read file 4 (font_size file * 256);
}.

Lemma kmain_files_wp L0 b disk root k :
  let file := lookup_all fs_find root [msg "usr"; msg "share"; msg "font.psf"] in
  kinv L0 (b + files_cost file) k -> 0 <= b -> ks_nodes k = ∅ -> fs_in L0 disk root -> file <> 0 -> 0 <= font_size file < 256 ->
  fb_fits (ks_video k) -> length (ks_keys k) = 513%nat -> length (mouse_queue (ks_mouse k)) = 513%nat -> (44 < length (ks_handlers k))%nat ->
  wp (kmain_files dr disk root) (fun _ k' => exists con fbn kbn ms, files_up L0 b disk root k k' con fbn kbn ms) k.
Proof.
  intros file Hk Hb Hno Hfs Hf Hsz Hfit Hkq Hmq Hh. unfold files_cost in Hk.
  assert (forall str : string, (Z.of_nat (length (msg str)) + 1 < 2 ^ 61) -> 0 <= node_cost (msg str)) as Hnc.
  { intros str Hs. unfold node_cost. pose proof (ka_cost_nonneg (H := H) (Z.of_nat (length (msg str)) + 1) ltac:(lia)).
    pose proof (ka_cost_nonneg (H := H) (sizeof vfs_node_t) ltac:(vm_compute; split; [discriminate|done])). lia. }
  pose proof (Hnc "mouse"%string ltac:(vm_compute; done)) as C1. pose proof (Hnc "keyboard"%string ltac:(vm_compute; done)) as C2.
  pose proof (Hnc "fb"%string ltac:(vm_compute; done)) as C3. pose proof (ka_cost_nonneg (H := H) (font_size file * 256) ltac:(lia)) as C4.
  set (b1 := b + node_cost (msg "mouse")) in *. set (b2 := b1 + node_cost (msg "keyboard")) in *.
  unfold kmain_files, mount_at. do 6 wp_step. wp_focus.
  apply (node_mount_wp L0 (b2 + ka_cost (H := H) (font_size file * 256) + node_cost (msg "fb"))); [|lia|vm_compute; done|].
  { match goal with |- kinv _ ?x _ => replace x with (b + files_cost file) by (unfold files_cost, b2, b1; lia) end. exact Hk. }
  intros con k1 [Hc1 [s1 Hc2] Hc3 Hc4 (V1 & V2 & V3 & V4 & V5 & V6)]. cbn in V1, V2, V3, V4, V5, V6, Hc1, Hc2, Hc3. rewrite Hno in *.
  wp_focus. eapply (video_init_wp L0 b2 disk root); [exact Hc4|lia|done|exact Hc3|by rewrite V1|done|done|].
  intros l fbn k2' k2 [Hf1 [s2 Hf2] Hf3 Hf4 _] I2 N2 T2 W2 K2 M2 A2 P2. cbn in Hf1, Hf2, Hf3. wp_focus.
  apply (keyboard_init_wp L0 b1); [exact I2|lia|rewrite A2, V4; lia|by rewrite K2, V2|].
  intros a1 kbn k3' k3 [Hk1 [s3 Hk2] Hk3 Hk4 (Y1 & Y2 & Y3 & Y4 & Y5 & Y6)] N3 T3 W3 M3 R3 A3 P3 Q3. wp_focus.
  apply (mouse_init_wp L0 b); [exact Hk4|lia|rewrite Y4, A3, length_insert, A2, V4; lia|by rewrite Y3, M3, M2, V3|].
  intros a2 ms k4' k4 [Hm1 [s4 Hm2] Hm3 Hm4 (Z1 & Z2 & Z3 & Z4 & Z5 & Z6)] N4 T4 W4 K4 M4 A4 P4 Q4 O4. wp_step.
  exists con, fbn, kbn, ms. rewrite N4, Hk2, N3, N2, Hf2, Hc2 in Hm2, Hm1. rewrite N3, N2, Hf2, Hc2 in Hk1. rewrite Hc2 in Hf1.
  destruct Hc1 as (Pc & Lc & _), Hf1 as (Pf & Lf & Ff), Hk1 as (Pk & Lk & Fk), Hm1 as (Pm & Lm & Fm).
  apply lookup_insert_None in Ff as [_ F1], Fk as [[_ F2]%lookup_insert_None F3],
    Fm as [[[_ F4]%lookup_insert_None F5]%lookup_insert_None F6].
  split; cbn [ks_tree ks_nodes ks_handlers ks_apic ks_keys ks_mouse ks_video set_rand].
  - rewrite Hm3, T4, Hk3, T3, T2, Hf3, Hc3. done.
  - exact Hm4.
  - split; [|by repeat constructor]. rewrite !NoDup_cons, !not_elem_of_cons. split_and!; try done; try apply not_elem_of_nil; by apply NoDup_nil.
  - exists s1, s2, s3, s4. rewrite Hm2. split_and!; by simplify_map_eq.
  - by rewrite Z4, A4, Y4, A3, A2, V4.
  - rewrite Z5, P4. split; [|exact Q4]. rewrite O4 by lia. by rewrite Y5, P3.
  - rewrite Z2, K4, Y2, Z3, M4. split; [done|]. cbn [mouse_queue]. by rewrite Y3, M3, M2, V3.
  - rewrite Z1, W4, Y1, W3, W2. done.
Qed.
End steps.


(** ** A disk with one font *)

(** The directory and the file of the example are the node [f]. *)
Definition one_file (disk f : Z) : RootFs := {|
  fs_flags a := if a =? disk then FS_BLKDEV else 2;
  fs_find a t := if bool_decide (t ∈ [msg "usr"; msg "share"; msg "font.psf"]) then f else 0;
  fs_read a off n := if off =? 0 then [0x36; 4; 0; 16] else replicate (Z.to_nat n) 0;
|}.
Definition some_drivers : drivers := mk_drivers 1 2 3 4 5 6 7 8.
Definition fresh_kst (h : kheap) : kst kheap script :=
  mk_kst h ∅ ∅ vfs_init (mk_video (mk_mode 2 2 32 0) (mk_font [] 0 0 []) (replicate 4 7) 0 0) (replicate 513 0)
    (mk_mouse [0; 0; 0; 0] 0 (replicate 513 0)) (replicate 256 0) (mk_apic ∅ [] 0 4 0 ∅ 0) (mk_script [] []) 0.

(** Blocks for the nodes of disk, root directory and file. *)
Lemma three_blocks : exists (h : kheap) L0 disk root f,
  ka_inv h L0 (2 ^ 40) /\ disk ∈ L0.*1 /\ root ∈ L0.*1 /\ f ∈ L0.*1 /\ 0 < disk /\ 0 < root /\ 0 < f /\ root <> disk.
Proof.
  assert (0 <= ka_cost (H := kheap) 8 < 2 ^ 20) as Hc by (vm_compute; split; congruence).
  destruct (boot_dl_ok (2 ^ 40 + ka_cost (H := kheap) 8 + ka_cost (H := kheap) 8 + ka_cost (H := kheap) 8)) as (L & Hi & _); [lia|].
  destruct (wp_Ok _ _ _ (ka_malloc_wp _ _ _ _ Hi ltac:(lia) ltac:(lia))) as (p1 & h1 & _ & k1 & _ & P1 & _ & _ & Hi1).
  destruct (wp_Ok _ _ _ (ka_malloc_wp _ _ _ _ Hi1 ltac:(lia) ltac:(lia))) as (p2 & h2 & _ & k2 & _ & P2 & _ & S2 & Hi2).
  destruct (wp_Ok _ _ _ (ka_malloc_wp _ _ _ _ Hi2 ltac:(lia) ltac:(lia))) as (p3 & h3 & _ & k3 & _ & P3 & _ & _ & Hi3).
  exists h3, ((p3, k3) :: (p2, k2) :: (p1, k1) :: L), p1, p2, p3. apply Forall_cons in S2 as [[Hne _] _].
  cbn [fmap list_fmap fst]. split_and!; [exact Hi3|set_solver..|done|done|done|exact Hne].
Qed.

