(* ===== verification/Reaper.v ===== *)
(** * Reaper: the kernel process (kernel_proc of src/sys/kmain.c)

    The endless loop of the kernel process goes over the processors, takes each one's lock
    and its threads out of the list if they are killed ([reap_cpu] of [Sched]).  Removing the
    entry at the index and then counting the index up skips the entry behind it; a round is
    shown to be exactly that, and repeating it to remove every killed thread.  The messages
    on the serial line and the empty counting loop between the rounds have no effect on the
    scheduler's state and are left out. *)

From S2P Require Import Prelude Sched Vfs.

Section ops.
Context {P : Type} `{VSpace P} `{VfsNodes (sstate P)}.

(** [for (i = 0; i < cpu_count; i++)] of the loop's body. *)
Fixpoint reap_cpus (fuel : N) (c n : nat) : M (sstate P) () :=
  match n with O => mret () | S n' => reap_cpu fuel c;; reap_cpus fuel (S c) n' end.
Definition kernel_proc_round (fuel : N) : M (sstate P) () :=
  s ← get; reap_cpus fuel 0 (length (s_cpus s)).
(** The loop, [n] rounds of it. *)
Fixpoint kernel_proc (fuel : N) (n : nat) : M (sstate P) () :=
  match n with O => mret () | S n' => kernel_proc_round fuel;; kernel_proc fuel n' end.
End ops.

(** ** What a pass does to a list *)

Section sweep.
Context {A : Type} (dead : A -> bool).

Fixpoint sweep (l : list A) : list A :=
  match l with
  | [] => []
  | x :: r => if dead x then match r with [] => [] | y :: r' => y :: sweep r' end else x :: sweep r
  end.
Definition deads (l : list A) : nat := length (filter (fun x => dead x = true) l).
Definition alive (l : list A) : list A := filter (fun x => dead x = false) l.

Lemma sweep_dead x r : dead x = true -> sweep (x :: r) = take 1 r ++ sweep (drop 1 r).
Proof. intros Hx. cbn [sweep]. rewrite Hx. by destruct r. Qed.

(** Induction over a list by one or two elements. *)
Lemma list_two_ind (Q : list A -> Prop) : Q [] -> (forall x, Q [x]) -> (forall x y l, Q l -> Q (y :: l) -> Q (x :: y :: l)) -> forall l, Q l.
Proof.
  intros H0 H1 H2 l. enough (Q l /\ forall x, Q (x :: l)) as [? _] by done.
  induction l as [|y l [IH1 IH2]]; [done|]. split; [done|]. intros x. by apply H2.
Qed.

Lemma sweep_alive l : alive (sweep l) = alive l.
Proof.
  unfold alive. induction l as [|x|x y l IH1 IH2] using list_two_ind; [done| |].
  - cbn [sweep]. destruct (dead x) eqn:E; [|done]. rewrite filter_cons, E. by rewrite decide_False by done.
  - cbn [sweep] in *. destruct (dead x) eqn:E; rewrite (filter_cons _ x), E.
    + rewrite decide_False by done. rewrite !(filter_cons _ y). by rewrite IH1.
    + rewrite decide_True by done. rewrite filter_cons, E, decide_True by done. by rewrite IH2.
Qed.

Lemma deads_cons x l : deads (x :: l) = ((if dead x then 1 else 0) + deads l)%nat.
Proof. unfold deads. rewrite filter_cons. destruct (dead x); [by rewrite decide_True|by rewrite decide_False]. Qed.

(** A pass removes a dead element if there is one. *)
Lemma sweep_deads l : (deads (sweep l) <= deads l)%nat /\ (deads l <> 0%nat -> (deads (sweep l) < deads l)%nat).
Proof.
  induction l as [|x|x y l [IH1 IH2] [IH3 IH4]] using list_two_ind.
  - split; [done|]. by intros [].
  - cbn [sweep]. destruct (dead x) eqn:E; rewrite !deads_cons, E; change (deads []) with 0%nat; lia.
  - cbn [sweep] in *. rewrite (deads_cons x). destruct (dead x) eqn:E; rewrite !deads_cons, ?E in *; cbn [Nat.add] in *; [lia|].
    split; [lia|]. intros Hne. apply IH4. lia.
Qed.

Lemma deads_none l : deads l = 0%nat -> alive l = l.
Proof.
  unfold alive. induction l as [|x l IH]; [done|]. rewrite deads_cons, filter_cons. destruct (dead x); [lia|]. intros Hd.
  rewrite decide_True by done. f_equal. apply IH. lia.
Qed.

Lemma sweeps_clear n l : (deads l <= n)%nat -> Nat.iter n sweep l = alive l.
Proof.
  revert l. induction n as [|n IH]; intros l Hd.
  - cbn. symmetry. apply deads_none. lia.
  - rewrite Nat.iter_succ_r, IH; [apply sweep_alive|]. destruct (sweep_deads l) as [H1 H2]. destruct (decide (deads l = 0%nat)); lia.
Qed.
End sweep.

(** ** Rounds *)

Section rounds.
Context {P : Type} `{VSpace P} `{VfsNodes (sstate P)}.
Implicit Types s : sstate P.

Definition killed s (t : Z) : bool := match s_threads s !! t with Some th => t_state th =? THREAD_STATE_KILLED | None => false end.
(** A thread the reaper leaves alone or removes: it exists and is not to be woken. *)
Definition calm s (t : Z) : Prop := exists th, s_threads s !! t = Some th /\ (t_state th = THREAD_STATE_ASLEEP -> s_uptime s < t_sleepexp th).

(** The entry at [i] of the list [l] of processor [c]. *)
Lemma reap_thread_wp c cp s l i (Q : nat + () -> sstate P -> Prop) :
  s_cpus s !! c = Some cp -> Forall (calm s) l ->
  (forall t, l !! i = Some t ->
     let l' := if killed s t then delete i l else l in
     Q (inl (i + 1)%nat) (upd_cpus (insert c (set_cthreads l' cp)) s)) ->
  (l !! i = None -> Q (inr ()) (upd_cpus (insert c (set_cthreads l cp)) s)) ->
  wp (reap_thread c i) Q (upd_cpus (insert c (set_cthreads l cp)) s).
Proof.
  intros Hc Hcalm Hin Hout. set (s1 := upd_cpus _ s). assert (s_cpus s1 !! c = Some (set_cthreads l cp)) as Hc1.
  { cbn. apply list_lookup_insert_eq. by eapply lookup_lt_Some. }
  unfold reap_thread. wp_focus. eapply get_cpu_wp; [exact Hc1|]. cbn [c_threads set_cthreads].
  destruct (l !! i) as [t|] eqn:Ht.
  2: { rewrite (proj2 (Nat.ltb_ge _ _)) by (by apply lookup_ge_None). wp_step. by apply Hout. }
  rewrite (proj2 (Nat.ltb_lt _ _) (lookup_lt_Some _ _ _ Ht)). wp_step. wp_step; [reflexivity|].
  destruct (Forall_lookup_1 _ _ _ _ Hcalm Ht) as (th & Hth & Hs). wp_focus. eapply get_thread_wp; [exact Hth|]. specialize (Hin t eq_refl).
  unfold killed in Hin. rewrite Hth in Hin. cbv zeta in Hin.
  assert (((t_state th =? THREAD_STATE_ASLEEP) && (t_sleepexp th <=? s_uptime s)) = false) as Hno.
  { destruct (Z.eqb_spec (t_state th) THREAD_STATE_ASLEEP) as [E|]; [|done]. specialize (Hs E). cbn [andb]. apply Z.leb_gt. lia. }
  wp_focus. destruct (t_state th =? THREAD_STATE_KILLED).
  - eapply upd_cpu_wp; [exact Hc1|]. wp_step. wp_step. cbn [s_uptime upd_cpus s1]. rewrite Hno. wp_step. wp_step. wp_step.
    cbn [c_threads set_cthreads currthread run_queue c_lock]. unfold s1, upd_cpus in *. cbn. rewrite list_insert_insert_eq. exact Hin.
  - wp_step. wp_step. wp_step. cbn [s_uptime upd_cpus s1]. rewrite Hno. wp_step. wp_step. wp_step. exact Hin.
Qed.

Lemma delete_here {A} (d r : list A) x : delete (length d) (d ++ x :: r) = d ++ r.
Proof. induction d as [|y d IH]; [done|]. cbn. by f_equal. Qed.

(** What is left to do at an index: the entries before it are settled. *)
Lemma sweep_at dead (l : list Z) i t :
  l !! i = Some t -> let l' := if dead t : bool then delete i l else l in
  take (i + 1) l' ++ sweep dead (drop (i + 1) l') = take i l ++ sweep dead (drop i l) /\ (length l' - (i + 1) < length l - i)%nat.
Proof.
  intros Ht. assert (exists d r, l = d ++ t :: r /\ i = length d) as (d & r & -> & ->).
  { exists (take i l), (drop (S i) l). split; [by rewrite take_drop_middle|].
    rewrite length_take. apply lookup_lt_Some in Ht. lia. }
  cbv zeta. rewrite take_app_length, drop_app_length. destruct (dead t) eqn:Hk.
  - rewrite delete_here, (sweep_dead dead) by done. rewrite take_app_add, drop_app_add, <- app_assoc, !length_app. cbn [length]. split; [done|lia].
  - rewrite take_app_add, drop_app_add, <- app_assoc, length_app. cbn. rewrite Hk, take_0, drop_0. split; [done|lia].
Qed.

Definition reaped s (cp : cpu) : cpu := set_cthreads (sweep (killed s) (c_threads cp)) cp.

(** One processor: its list is swept, and its lock is free again. *)
Lemma reap_cpu_wp fuel c cp s (Q : () -> sstate P -> Prop) :
  s_cpus s !! c = Some cp -> c_lock cp = false -> Forall (calm s) (c_threads cp) -> (length (c_threads cp) < N.to_nat fuel)%nat ->
  Q () (upd_cpus (insert c (reaped s cp)) s) -> wp (reap_cpu fuel c) Q s.
Proof.
  intros Hc Hl Hcalm Hf HQ. unfold reap_cpu. wp_focus. eapply acquire_lock_wp; [exact Hc|done|].
  set (cp1 := set_lock true cp). wp_focus.
  apply (wp_while (fun k i s' => exists l, s' = upd_cpus (insert c (set_cthreads l cp1)) (upd_cpus (insert c cp1) s) /\ Forall (calm s) l /\
    take i l ++ sweep (killed s) (drop i l) = sweep (killed s) (c_threads cp) /\ (length l - i <= k)%nat) (length (c_threads cp))).
  - exists (c_threads cp). rewrite upd_cpus_twice. split_and!; try done. lia.
  - exact Hf.
  - intros k i s' (l & -> & Hcl & Hsw & Hk).
    apply (reap_thread_wp c cp1); [by eapply upd_cpus_lookup|exact Hcl| |].
    + intros t Ht. destruct (sweep_at (killed s) l i t Ht) as [He Hlen]. cbv zeta in *. eexists. split; [|eexists; split_and!; [reflexivity|..]].
      * eapply Nat.lt_le_trans; [exact Hlen|exact Hk].
      * change (killed (upd_cpus _ s)) with (killed s). destruct (killed s t); [by apply Forall_delete|done].
      * exact (eq_trans He Hsw).
      * done.
    + intros Hn. apply lookup_ge_None in Hn. rewrite drop_ge, take_ge, app_nil_r in Hsw by done. subst l.
      unfold release_lock. eapply upd_cpu_wp; [eapply upd_cpus_lookup, upd_cpus_lookup; exact Hc|]. rewrite !upd_cpus_twice.
      replace (set_lock false _) with (reaped s cp); [exact HQ|]. unfold reaped, cp1. destruct cp; cbn in *. by rewrite Hl.
Qed.
(** A processor the reaper can work on: its lock is free, its threads are calm and the fuel is
    enough for its list. *)
Definition ready_cpu s (fuel : N) (cp : cpu) : Prop :=
  c_lock cp = false /\ Forall (calm s) (c_threads cp) /\ (length (c_threads cp) < N.to_nat fuel)%nat.

Lemma sweep_sub dead (l : list Z) : sweep dead l `sublist_of` l.
Proof.
  induction l as [|x|x y l IH1 IH2] using list_two_ind; [done| |]; cbn [sweep] in *.
  - destruct (dead x); [apply sublist_nil_l|done].
  - destruct (dead x); [by apply sublist_cons, sublist_skip|by apply sublist_skip].
Qed.

Lemma ready_reaped s fuel cp : ready_cpu s fuel cp -> ready_cpu s fuel (reaped s cp).
Proof.
  intros (Hl & Hc & Hf). pose proof (sweep_sub (killed s) (c_threads cp)) as Hsub. unfold ready_cpu, reaped. cbn. split_and!; [done| |].
  - rewrite Forall_forall in *. intros t Ht. apply Hc. by eapply elem_of_sublist.
  - apply sublist_length in Hsub. lia.
Qed.

Lemma reap_cpus_wp fuel s done_ todo (Q : () -> sstate P -> Prop) :
  Forall (ready_cpu s fuel) todo -> Q () (upd_cpus (fun _ => done_ ++ map (reaped s) todo) s) ->
  wp (reap_cpus fuel (length done_) (length todo)) Q (upd_cpus (fun _ => done_ ++ todo) s).
Proof.
  revert done_. induction todo as [|cp todo IH]; intros d Hr HQ; cbn [reap_cpus length map] in *; [by wp_step|].
  apply Forall_cons in Hr as [(Hl & Hc & Hf) Hr]. wp_focus. eapply (reap_cpu_wp fuel _ cp); [by apply list_lookup_middle|done|exact Hc|done|].
  replace (upd_cpus _ _) with (upd_cpus (fun _ => (d ++ [reaped s cp]) ++ todo) s).
  - replace (S (length d)) with (length (d ++ [reaped s cp])) by (rewrite length_app; cbn; lia). apply IH; [done|]. by rewrite <- app_assoc.
  - unfold upd_cpus. cbn [s_cpus s_threads s_procs s_nextpid s_uptime s_heap s_mem s_io]. f_equal.
    rewrite insert_app_r_alt, Nat.sub_diag by lia. by rewrite <- app_assoc.
Qed.

Lemma kernel_proc_round_wp fuel s (Q : () -> sstate P -> Prop) :
  Forall (ready_cpu s fuel) (s_cpus s) -> Q () (upd_cpus (map (reaped s)) s) -> wp (kernel_proc_round fuel) Q s.
Proof.
  intros Hr HQ. unfold kernel_proc_round. wp_step. wp_step.
  replace s with (upd_cpus (fun _ => [] ++ s_cpus s) s) at 2 by (by destruct s). exact (reap_cpus_wp fuel s [] (s_cpus s) Q Hr HQ).
Qed.

Lemma kernel_proc_wp fuel n s (Q : () -> sstate P -> Prop) :
  Forall (ready_cpu s fuel) (s_cpus s) ->
  Q () (upd_cpus (map (fun cp => set_cthreads (Nat.iter n (sweep (killed s)) (c_threads cp)) cp)) s) -> wp (kernel_proc fuel n) Q s.
Proof.
  revert s. induction n as [|n IH]; intros s Hr HQ; cbn [kernel_proc].
  - wp_step. replace s with (upd_cpus (map (fun cp => set_cthreads (Nat.iter 0 (sweep (killed s)) (c_threads cp)) cp)) s); [exact HQ|].
    destruct s. unfold upd_cpus. cbn. f_equal. rewrite <- (map_id s_cpus) at 2. apply map_ext. by intros [].
  - wp_focus. apply kernel_proc_round_wp; [done|]. apply IH.
    + cbn. apply Forall_map. eapply Forall_impl; [exact Hr|]. intros cp. apply ready_reaped.
    + replace (upd_cpus _ _) with (upd_cpus (map (fun cp => set_cthreads (Nat.iter (S n) (sweep (killed s)) (c_threads cp)) cp)) s); [exact HQ|].
      unfold upd_cpus. cbn [s_cpus s_threads s_procs s_nextpid s_uptime s_heap s_mem s_io]. f_equal. rewrite map_map. apply map_ext. intros cp.
      rewrite Nat.iter_succ_r. done.
Qed.
End rounds.

(** C26: the kernel process reaps every killed thread: on processors whose locks are free and
    whose listed threads are not due to be woken, as many rounds of its loop as there are killed
    threads on the fullest processor leave on every processor exactly the threads that are not
    killed, in their order, and nothing else of the scheduler's state changed. *)
Theorem kernel_proc_reaps {P} `{VSpace P} `{VfsNodes (sstate P)} (s : sstate P) fuel n :
  Forall (ready_cpu s fuel) (s_cpus s) -> Forall (fun cp => (deads (killed s) (c_threads cp) <= n)%nat) (s_cpus s) ->
  kernel_proc fuel n s = Ok ((), upd_cpus (map (fun cp => set_cthreads (alive (killed s) (c_threads cp)) cp)) s).
Proof.
  intros Hr Hn. set (s' := upd_cpus _ s).
  assert (wp (kernel_proc fuel n) (fun _ s1 => s1 = s') s) as Hw; [|by destruct (wp_Ok _ _ _ Hw) as ([] & s1 & E & ->)].
  apply kernel_proc_wp; [done|]. unfold s', upd_cpus. f_equal.
  apply map_ext_in. intros cp Hcp%list_elem_of_In. rewrite Forall_forall in Hn. by rewrite sweeps_clear by auto.
Qed.

Section witnesses.
#[local] Existing Instance demo_VSpace.
#[local] Existing Instance demo_VfsNodes.

(** Three threads, the first two of them killed. *)
Definition two_killed : sstate () :=
  mk_sstate {[16 := demo_thread THREAD_STATE_KILLED 0; 32 := demo_thread THREAD_STATE_KILLED 0; 48 := demo_thread THREAD_STATE_RUNNING 0]}
    {[64 := demo_proc]} [mk_cpu 48 [16; 32; 48] [] false] 1 0 256 () demo_io.

(** One round removes the first killed thread and steps over the second. *)
Example round_skips_next :
  (fun r => c_threads <$> s_cpus r.2) <$> (match kernel_proc_round 10 two_killed with Ok r => Some r | Err _ => None end) = Some [[32; 48]].
Proof. vm_compute. reflexivity. Qed.

Lemma kernel_proc_reaps_witness :
  kernel_proc 10 2 two_killed =
    Ok ((), upd_cpus (map (fun cp => set_cthreads (alive (killed two_killed) (c_threads cp)) cp)) two_killed) /\
  alive (killed two_killed) [16; 32; 48] = [48].
Proof.
  split; [|reflexivity]. apply (kernel_proc_reaps two_killed 10 2).
  - constructor; [|constructor]. split_and!; [reflexivity| |vm_compute; lia].
    repeat (constructor; [eexists; split; [reflexivity|vm_compute; congruence]|]). constructor.
  - constructor; [vm_compute; lia|constructor].
Defined.
End witnesses.
